(* ===== verification/_CoqProject ===== *)
-Q . S2P
Prelude.v
Unicode.v
PyStr.v
PyFloat.v
Objects.v
Json.v
JsonProofs.v
Bytes.v
Vector.v
Text.v
Parameters.v
Results.v
Quote.v
Net.v
Client.v
Transaction.v
ClientProofs.v
ClientFrames.v
ExactlyOnce.v
ClientTheorems.v
Search.v
Dbapi.v
Transport.v
DbapiTheorems.v
Dict.v
Sqlalchemy.v
History.v
Worker.v
Host.v
Stats.v
Random.v
Script.v
ProcessCluster.v
RemoteCluster.v
Workload.v
Supervisor.v
ClusterProofs.v
ClusterTheorems.v
Soak.v
Formal.v
Service.v
ServiceChecks.v
Evidence.v
Snapshots.v
Recovery.v
Majority.v
HistoryCampaign.v
GroupReference.v
Mixed.v
Returns.v
Resource.v
Capacity.v
Lab.v
Upgrade.v
SnapshotProxy.v
LiveCompaction.v
Faults.v
LabTheorems.v
Hosts.v
Cli.v
ResourceLoad.v
Mtls.v
Qualify.v
Calibrate.v
Observations.v
NativeBuild.v
Release.v
Benchmark.v
Durability.v
Realworld.v
NativeWorkloads.v
Site.v
Features.v
Gate.v
NativeWorker.v
Crash.v
SoakTheorems.v
NativeSoak.v
Deploy.v
SupervisorTheorems.v
