(* ===== verification/Prelude.v ===== *)
(** * SQLodin's Python side: a verification library

    SQLodin is a replicated SQL service written in Odin.  Its Python side, which
    this library models, has two halves:

    - the client library, [src/languages/python/src/sqlodin]: connections that
      retry writes under a durable identity, transactions, search statements, a
      DB-API 2.0 adapter, a SQLAlchemy dialect, and the mTLS transport;
    - the qualification tools, [src/tools]: controllers, supervisors and scripts
      that drive clusters of voters and write reports about them.

    Every definition is a translation of the Python it names; the service, SQL,
    TLS, processes and files are on the other side of type classes ([Net.Env],
    [Transport.Sockets], [Host.Host], [Service.Service], ...) whose operations are
    those the code calls, and whose documented behaviour, where a theorem needs
    it, is a class of laws with a concrete instance in the theorem's witness.

    ** Python in Rocq

    - [Prelude]: [res] (a value, an exception, exhausted fuel), the state and
      exception monad [M], its rules ([wp]), notations and tactics.  An operation
      is a function of its state; [try]/[except]/[finally] are [try_except] and
      [try_finally], which skip their handlers only when fuel ran out.
    - [Unicode], [PyStr], [Text]: strings as lists of code points, with the
      methods the code calls; [PyFloat], [Bytes]: IEEE doubles, binary32 packing
      and little-endian bytes; [Objects]: values and exceptions with their class
      hierarchy ([errors.py]); [Json], [JsonProofs]: [json.dumps] and
      [json.loads] with their round trip; [Dict]: insertion-ordered dictionaries
      and loops; [Stats]: sorting of numbers and percentiles; [Random]: the
      Mersenne Twister of [random.Random], with [randrange] and [shuffle].
    - [Host], [Script]: files, clocks and processes as an interface, and scripts
      that keep a report next to them.
    - [Returns]: what a computation returns ([returns]), what it keeps of its
      state ([stays], [preserves]) and how a script moves from stage to stage
      ([leads]); the theorems on reports are chains of these.

    A file holds the definitions of its component first, then its theorems,
    unless the theorems have a file of their own (a name in [Proofs] or
    [Theorems]).

    ** The client library

    - [Vector] (vector.py): components normalised to binary32; the BLOB codec
      and its round trip.
    - [Parameters] (parameters.py): [encode] and [prepare]; [prepare_spec] states
      the accepted statements by a lexical grammar.
    - [Results] (results.py), [Search] (search.py), [Sqlalchemy] (sqlalchemy.py).
    - [Net], [Client] (client.py): [PendingWrite] and [Connection], one definition
      per method, with the retry loop of [_call].  [ClientProofs] and
      [ClientFrames] carry the frame lemmas, [ExactlyOnce] the methods as one
      step relation, [ClientTheorems] the invariant, the outcome table of
      [_resolve], the requests it may send and the round trip of a saved write.
      [ExactlyOnce.exactly_once] is the refinement that matters most: over a
      deduplicating service and a network that loses what it likes, the writes
      applied are exactly the writes reported successful, once each and in
      order, plus at most the one still pending.
    - [Transaction] (transaction.py): the buffered batch.  [ClientTheorems]: all
      or nothing, and everything a block sends is one write.
    - [Dbapi] (dbapi.py): connection, savepoints, cursor and the statement
      classifier; [DbapiTheorems]: the exactly-once refinement through the
      adapter, savepoints, [executemany], fetching, and the classifier against
      the words outside quotes, comments and parentheses.
    - [Transport] (transport.py): framing over a byte stream split anywhere,
      authentication before the first byte of a request.

    ** The qualification tools

    Clusters of voters:

    - [History] (check_transaction_history.py): the serial-explanation search;
      it answers exactly when an explanation respecting real time exists.
      [HistoryCampaign]: the campaign around it.
    - [Worker], [ProcessCluster], [Workload], [Soak] (check_process_cluster.py,
      run_cluster_soak.py): framed pipes, the round controller with its queues
      and completions, the transfer workload and every fault phase, the mains
      and the soak.  [ClusterProofs] is the controller's invariant,
      [ClusterTheorems] what it guarantees (routing, settling, the exercise).
    - [RemoteCluster] (run_cluster_soak.py), [SoakTheorems]: the overridden
      methods as an instance of [ProcessCluster.Methods]; the accounts of the
      soak, and what a complete report has been told by three voters.
      [Supervisor], [SupervisorTheorems] (qualification_worker.py): the host's
      supervisor and its offline audit.
    - [GroupReference] (sqlite_group_reference.py): clients and server thread as
      one step per queue operation; ROLLBACK may fail, as SQLite documents, and
      the server thread then ends.
    - [Crash] (check_durability.py, check_session_crashes.py,
      check_generation_crashes.py): probes killed where they stop.

    The native service:

    - [Service], [ServiceChecks] (check_network_service.py, certificates of
      check_mtls.py), [Snapshots] (check_snapshot_service.py,
      check_generation_service.py), [Recovery] (check_restore_service.py,
      check_session_retirement.py), [Majority] (check_majority.py): three voters
      and the library's own connections to them, kept in a store so that every
      use of a connection sees its state.  [Evidence] relates their reports to
      the checks their scripts record; [HistoryCampaign] ends with a service on
      which scripts run to success by evaluation.
    - [Lab] and the longer service scripts on it: [Upgrade] (check_migration.py,
      check_legacy_epoch_restore.py, check_backup_service.py,
      check_certificate_lifecycle.py), [LiveCompaction]
      (check_live_compaction.py, check_snapshot_catchup.py), [Faults]
      (check_admission.py, check_storage_faults.py), with [LabTheorems].
      [SnapshotProxy] (snapshot_proxy.py): the throttling relay as one step per
      socket operation.
    - [Capacity] (check_capacity.py): the load, verification by ranges,
      checkpoints.  [load_exact] follows the rows through a ledger of applied
      writes to the payload each id ends with.
    - [Mixed], [Calibrate] (calibrate_native_mixed.py,
      sqlite_reference_worker.py): the drawn workload, its measurement, and the
      calibration of the voters against SQLite.  [Qualify]
      (qualify_native_workloads.py): the shuffled matrix of calibrations, each
      under a watchdog.  [Observations] (summarize_workload_evidence.py,
      inspect_native_benchmark.py, inspect_benchmark_storage.py,
      measure_bench.py) reads what they recorded.
    - [Resource], [ResourceLoad] (check_resource_load.py): saturation by sixty
      clients, and the report's claims about it.
    - [NativeWorker], [NativeSoak] (native_soak_worker.py, run_native_soak.py):
      the supervisor of a deployed voter and the soak's coordinator.
    - [Cli] (check_cli.py), [Features] (check_python_features.py,
      check_orm_transactions.py): the shells, full text, vectors, SQLAlchemy's
      Core and ORM against running voters.
    - [Mtls] (check_mtls.py): the TLS probe's pairings, which leave no process.
    - [Quote], [Hosts] (check_network_hosts.py, check_saved_recovery.py,
      audit_recovery.py), [Deploy] (launch_native_soak.py,
      compare_three_hosts.py): other hosts over ssh; what their shells and
      Python read of a command is what was meant.

    Builds, comparisons and gates:

    - [Formal] (check_formal.py, check_ci_formal.py, check_proofs.py,
      collect_formal_evidence.py; ci_changes.py, check_ci.py, check_style.py;
      check_contracts.py): formal-check drivers, the selection of a pull request,
      the style checker against a grammar of its own, contract fixtures.
    - [Gate] (check.py, check_consensus_matrix.py): the release gate.
    - [NativeBuild] (build_native.py, build_shell.py), [Release]
      (install_release_odin.py, fetch_zaxon_release.py, setup_comparison.py,
      check_release_version.py, check_native_linkage.py, build_cli.py,
      build_docs.py, check_extension_identity.py): pinned dependencies and what
      is published.  [Site] (build_site.py): pages, links and the search index.
    - [Benchmark] (benchmark.py), [Durability] (compare_process_journal.py,
      profile_durability_cost.py, check_io_profile.py), [Realworld]
      (compare_realworld.py, check_mixed_workload.py), [NativeWorkloads]
      (compare_native_workloads.py): shuffled measurements, whose reports are
      complete only with every sample.

    ** Fuel and bounds

    - [Client.call_fuel] is 6002: an attempt that fails sleeps a hundredth of a
      second, or to the deadline, and a timeout is at most sixty seconds;
      [ClientTheorems.connection_invariant] and [exactly_once] prove that it never
      runs out.  [Crash]'s waiting loop has 6001 for the same reason.
    - [loads] has twice the length of its text ([JsonProofs]), the receiving
      loops the number of bytes expected, [history] searches one more than the
      number of operations, [Formal.procs_from] the number of lines: each proved
      enough.  [Mtls.exchange_bytes] reads five bytes in at most five chunks.
    - Loops that run until a deadline of hours (the soak, the supervisor's
      relay) or until a voter answers ([ready], [wait_sealed]) take their fuel as
      an argument; their theorems hold for every fuel.
    - A drawn number takes at most [draw_fuel] = 100 attempts; a draw that needs
      more runs out of fuel (the seeds used by the scripts never do, by
      evaluation of [Qualify.matrix]).  The loading loop of [Capacity] needs no
      more rounds than rows: proved.
    - [NativeWorker.watch_ends] has two parts: for any fuel, how the supervisor
      ends; and that it does end, if from some moment of real time on the wall
      clock reads at least the deadline.  The code's deadline is a wall-clock
      time ([time.time()]), which may be set back, and nothing is assumed of it
      otherwise: a clock that is set back for ever lets the supervisor run on.
    - Integers are Python's; where a width matters (session sequences, BLOB
      words, frame lengths, 63- and 64-bit checks) it is written out.

    ** Assumptions

    The laws a theorem takes of the world are classes next to it, each with an
    instance in the theorem's witness: clocks and sockets ([Net.EnvLaws],
    [Transport.SocketsLaws]), a service that applies a write under a sequence number at
    most once ([ExactlyOnce.Service], also under [Capacity.load_exact]), a
    database whose statements end ([GroupReference.DatabaseLaws]),
    processes that end when killed ([Crash], [NativeWorker], [Mtls]), and a file
    system on which an operation changes the paths it names
    ([NativeBuild.BuildFiles]).

    ** Not modelled

    - Times are exact rationals; the text of exceptions that interpolate values
      is a template; the Unicode tables are those of version 14; [int()] and
      [float()] accept ASCII digits; the interpreter's recursion limit and memory
      are unbounded.  [Json.float_repr] searches for the shortest digits that
      read back as the same double, which is what Python specifies of [repr], and
      tests the text it prints; that the search always succeeds is not proved,
      so the round trip of [JsonProofs] holds of a float by that test.
    - Threads: the reentrant lock of a connection is taken and freed within an
      operation, and operations interleave whole; thread pools of the tools run
      their jobs in order, a sampling thread runs when it is stopped, a writing
      thread when it is started; [GroupReference] and [SnapshotProxy] are the
      exceptions, modelled by their interleavings.  Asynchronous signals
      ([alarm]) and the resource limits a supervisor sets in its child are left
      out, as are log file handles.
    - SQLAlchemy, SQLite, OpenSSL, compilers, Typst and the archive formats are
      interfaces, as are the vendored comparison programs; one network stands
      for all transports of a script, except those [Lab], [ResourceLoad] and
      [Mtls] open by themselves.
    - plot_native_benchmarks.py and plot_progress_benchmarks.py (drawing calls),
      build.sh and the Makefile, the tests, the package initialiser (re-exports),
      recorded results and vendored harnesses; the Odin sources and the TLA+
      specifications are not Python. *)

From stdpp Require Export base list gmap strings.
From Stdlib Require Export ZArith Lia Bool.

#[global] Open Scope Z_scope.

(** ** Results of Python code: a value, an exception, or exhausted fuel *)

Inductive res (E A : Type) : Type :=
| Ok (a : A)
| Raise (e : E)
| OutOfFuel.
Arguments Ok {E A} a.
Arguments Raise {E A} e.
Arguments OutOfFuel {E A}.

Definition res_bind {E A B} (r : res E A) (f : A -> res E B) : res E B :=
  match r with
  | Ok a => f a
  | Raise e => Raise e
  | OutOfFuel => OutOfFuel
  end.

(** Stateful code: the state survives an exception, as mutations do in Python. *)
Definition M (E S A : Type) : Type := S -> res E A * S.

Definition ret {E S A} (a : A) : M E S A := fun s => (Ok a, s).
Definition throw {E S A} (e : E) : M E S A := fun s => (Raise e, s).
Definition bind {E S A B} (m : M E S A) (f : A -> M E S B) : M E S B :=
  fun s =>
    match m s with
    | (Ok a, s') => f a s'
    | (Raise e, s') => (Raise e, s')
    | (OutOfFuel, s') => (OutOfFuel, s')
    end.
Definition get {E S} : M E S S := fun s => (Ok s, s).
Definition put {E S} (s : S) : M E S unit := fun _ => (Ok tt, s).
Definition modify {E S} (f : S -> S) : M E S unit := fun s => (Ok tt, f s).
Definition gets {E S A} (f : S -> A) : M E S A := fun s => (Ok (f s), s).
Definition lift {E S A} (r : res E A) : M E S A := fun s => (r, s).

(** [try m except e: h e], where [h e = None] lets the exception through. *)
Definition try_except {E S A} (m : M E S A) (h : E -> option (M E S A)) : M E S A :=
  fun s =>
    match m s with
    | (Raise e, s') =>
        match h e with
        | Some k => k s'
        | None => (Raise e, s')
        end
    | out => out
    end.

(** [try m finally f]: [f] runs on every path; its own exception wins. *)
Definition try_finally {E S A} (m : M E S A) (f : M E S unit) : M E S A :=
  fun s =>
    match m s with
    | (OutOfFuel, s') => (OutOfFuel, s')
    | (r, s') =>
        match f s' with
        | (Ok _, s'') => (r, s'')
        | (Raise e, s'') => (Raise e, s'')
        | (OutOfFuel, s'') => (OutOfFuel, s'')
        end
    end.

Definition when {E S} (b : bool) (m : M E S unit) : M E S unit :=
  if b then m else ret tt.

Declare Scope py_scope.
Delimit Scope py_scope with py.
Notation "'let?' x ':=' r 'in' k" := (res_bind r (fun x => k))
  (at level 10, x pattern, r at level 200, k at level 200) : py_scope.
Notation "'do?' r ';;' k" := (res_bind r (fun _ => k))
  (at level 10, r at level 99, k at level 200) : py_scope.
Notation "'let!' x ':=' m 'in' k" := (bind m (fun x => k))
  (at level 10, x pattern, m at level 200, k at level 200) : py_scope.
Notation "'do!' m ';;' k" := (bind m (fun _ => k))
  (at level 10, m at level 99, k at level 200) : py_scope.
#[global] Open Scope py_scope.

(** [if cond: raise e], the guard clause of Python code. *)
Definition guard {E} (bad : bool) (e : E) : res E unit :=
  if bad then Raise e else Ok tt.

(** ** Weakest preconditions of stateful code *)

Definition wp {E S A} (m : M E S A) (Q : res E A -> S -> Prop) (s : S) : Prop :=
  Q (m s).1 (m s).2.

Section Wp.
Context {E S : Type}.

Lemma wp_run {A} (m : M E S A) Q s r s' : m s = (r, s') -> wp m Q s -> Q r s'.
Proof. unfold wp. intros ->. done. Qed.

Lemma wp_intro {A} (m : M E S A) (Q : res E A -> S -> Prop) s :
  (forall r s', m s = (r, s') -> Q r s') -> wp m Q s.
Proof. unfold wp. intros H. apply H. by destruct (m s). Qed.

Lemma wp_mono {A} (m : M E S A) (P Q : res E A -> S -> Prop) s :
  wp m P s -> (forall r s', P r s' -> Q r s') -> wp m Q s.
Proof. unfold wp. auto. Qed.

Lemma wp_and {A} (m : M E S A) (P Q : res E A -> S -> Prop) s :
  wp m P s -> wp m Q s -> wp m (fun r s' => P r s' /\ Q r s') s.
Proof. by split. Qed.

Lemma wp_ret {A} (a : A) (Q : res E A -> S -> Prop) s : Q (Ok a) s -> wp (ret a) Q s.
Proof. done. Qed.

Lemma wp_throw {A} (e : E) (Q : res E A -> S -> Prop) s : Q (Raise e) s -> wp (throw e) Q s.
Proof. done. Qed.

Lemma wp_get (Q : res E S -> S -> Prop) s : Q (Ok s) s -> wp get Q s.
Proof. done. Qed.

Lemma wp_gets {A} (f : S -> A) (Q : res E A -> S -> Prop) s : Q (Ok (f s)) s -> wp (gets f) Q s.
Proof. done. Qed.

Lemma wp_modify f (Q : res E unit -> S -> Prop) s : Q (Ok tt) (f s) -> wp (modify f) Q s.
Proof. done. Qed.

Lemma wp_lift {A} (r : res E A) (Q : res E A -> S -> Prop) s : Q r s -> wp (lift r) Q s.
Proof. done. Qed.

Lemma wp_bind {A B} (m : M E S A) (f : A -> M E S B) Q s :
  wp m (fun r s' =>
          match r with
          | Ok a => wp (f a) Q s'
          | Raise e => Q (Raise e) s'
          | OutOfFuel => Q OutOfFuel s'
          end) s ->
  wp (bind m f) Q s.
Proof. unfold wp, bind. destruct (m s) as [[a|e|] s']; done. Qed.

Lemma wp_try_except {A} (m : M E S A) h Q s :
  wp m (fun r s' =>
          match r with
          | Raise e =>
              match h e with
              | Some k => wp k Q s'
              | None => Q (Raise e) s'
              end
          | out => Q out s'
          end) s ->
  wp (try_except m h) Q s.
Proof.
  unfold wp, try_except. destruct (m s) as [[a|e|] s']; simpl; [done| |done].
  destruct (h e); done.
Qed.

Lemma wp_try_finally {A} (m : M E S A) f Q s :
  wp m (fun r s' =>
          match r with
          | OutOfFuel => Q OutOfFuel s'
          | _ => wp f (fun r' s'' =>
                         match r' with
                         | Ok _ => Q r s''
                         | Raise e => Q (Raise e) s''
                         | OutOfFuel => Q OutOfFuel s''
                         end) s'
          end) s ->
  wp (try_finally m f) Q s.
Proof.
  unfold wp, try_finally.
  destruct (m s) as [[a|e|] s']; simpl; try done; destruct (f s') as [[]]; done.
Qed.
End Wp.

(** ** Automation *)

(** Names the outcome of a computation and cases on it. *)
Ltac run_case m s r s' :=
  let H := fresh "Hrun" in destruct (m s) as [r s'] eqn:H.

(** One symbolic step of a stateful computation under [wp]. *)
Ltac wp_step :=
  lazymatch goal with
  | |- wp (bind _ _) _ _ => apply wp_bind
  | |- wp (ret _) _ _ => apply wp_ret
  | |- wp (throw _) _ _ => apply wp_throw
  | |- wp get _ _ => apply wp_get
  | |- wp (gets _) _ _ => apply wp_gets
  | |- wp (modify _) _ _ => apply wp_modify
  | |- wp (lift _) _ _ => apply wp_lift
  | |- wp (try_except _ _) _ _ => apply wp_try_except
  | |- wp (try_finally _ _) _ _ => apply wp_try_finally
  | |- wp (if ?b then _ else _) _ _ => destruct b eqn:?
  | |- wp (match ?x with _ => _ end) _ _ => destruct x eqn:?
  end.
Ltac wp_auto := repeat (wp_step; simpl); simpl.

(** Turns boolean tests of the code into propositions. *)
Ltac unbool :=
  repeat match goal with
  | H : andb _ _ = true |- _ => apply andb_true_iff in H; destruct H
  | H : orb _ _ = false |- _ => apply orb_false_iff in H; destruct H
  | H : negb _ = true |- _ => apply negb_true_iff in H
  | H : negb _ = false |- _ => apply negb_false_iff in H
  | H : bool_decide _ = true |- _ => apply bool_decide_eq_true in H
  | H : bool_decide _ = false |- _ => apply bool_decide_eq_false in H
  | H : (_ <=? _) = true |- _ => apply Z.leb_le in H
  | H : (_ <=? _) = false |- _ => apply Z.leb_gt in H
  | H : (_ <? _) = true |- _ => apply Z.ltb_lt in H
  | H : (_ <? _) = false |- _ => apply Z.ltb_ge in H
  | H : (_ =? _) = true |- _ => apply Z.eqb_eq in H
  | H : (_ =? _) = false |- _ => apply Z.eqb_neq in H
  end.

(** [lia] with quotients and remainders. *)
Ltac dlia := Z.to_euclidean_division_equations; lia.

Create HintDb py discriminated.
#[export] Hint Resolve wp_ret wp_throw wp_get wp_gets wp_modify wp_lift : py.

(** ** Generic lemmas on results *)

Lemma res_bind_Ok {E A B} (r : res E A) (f : A -> res E B) b :
  res_bind r f = Ok b <-> exists a, r = Ok a /\ f a = Ok b.
Proof.
  destruct r; simpl; split; intros H; try discriminate; eauto;
    destruct H as (? & ? & ?); simplify_eq; done.
Qed.

Lemma guard_Ok {E} (b : bool) (e : E) u : guard b e = Ok u <-> b = false.
Proof. destruct b, u; simpl; split; done. Qed.

(** Termination of fallible code: no step runs out of fuel. *)
Lemma guard_total {E} (b : bool) (e : E) : guard b e <> OutOfFuel.
Proof. by destruct b. Qed.

Lemma res_bind_total {E A B} (r : res E A) (f : A -> res E B) :
  r <> OutOfFuel -> (forall a, r = Ok a -> f a <> OutOfFuel) -> res_bind r f <> OutOfFuel.
Proof. destruct r; simpl; auto. Qed.

Ltac res_total :=
  repeat match goal with
  | |- guard _ _ <> OutOfFuel => apply guard_total
  | |- res_bind _ _ <> OutOfFuel => apply res_bind_total; [|intros ? ?]
  | |- Ok _ <> OutOfFuel => discriminate
  | |- Raise _ <> OutOfFuel => discriminate
  | |- (if ?b then _ else _) <> OutOfFuel => destruct b eqn:?
  | |- match ?x with _ => _ end <> OutOfFuel => destruct x eqn:?
  end.

(** Runs through the guard clauses of a hypothesis [res_bind .. = Ok _]. *)
Ltac res_inv :=
  repeat match goal with
  | H : res_bind _ _ = Ok _ |- _ =>
      let x := fresh "x" in let H1 := fresh "Hr" in
      apply res_bind_Ok in H; destruct H as (x & H1 & H)
  | H : guard _ _ = Ok _ |- _ => apply guard_Ok in H
  | H : Ok _ = Ok _ |- _ => injection H as H; try subst
  | H : Raise _ = Ok _ |- _ => discriminate H
  | H : OutOfFuel = Ok _ |- _ => discriminate H
  end.

(** Python's sum of a generator of integers. *)
Definition zsum (l : list Z) : Z := foldr Z.add 0 l.

Lemma zsum_app l1 l2 : zsum (l1 ++ l2) = zsum l1 + zsum l2.
Proof. unfold zsum. induction l1; simpl; lia. Qed.

Lemma zsum_nonneg l : Forall (fun x => 0 <= x) l -> 0 <= zsum l.
Proof. unfold zsum. induction 1; simpl; lia. Qed.

(** [len(l)] as a Python integer. *)
Definition zlen {A} (l : list A) : Z := Z.of_nat (length l).

Lemma zlen_nil {A} : zlen (@nil A) = 0.
Proof. done. Qed.
Lemma zlen_cons {A} (x : A) l : zlen (x :: l) = 1 + zlen l.
Proof. unfold zlen. simpl length. lia. Qed.
Lemma zlen_app {A} (l1 l2 : list A) : zlen (l1 ++ l2) = zlen l1 + zlen l2.
Proof. unfold zlen. rewrite length_app. lia. Qed.
Lemma zlen_nonneg {A} (l : list A) : 0 <= zlen l.
Proof. unfold zlen. lia. Qed.
Lemma zlen_one {A} (l : list A) : (zlen l =? 1) = match l with [_] => true | _ => false end.
Proof. destruct l as [|x [|y l]]; [done|done|]. apply Z.eqb_neq. rewrite !zlen_cons. pose proof (zlen_nonneg l). lia. Qed.
#[export] Hint Resolve zlen_nonneg zsum_nonneg : py.
Create Rewrite HintDb py.
#[export] Hint Rewrite @zlen_nil @zlen_cons @zlen_app zsum_app : py.
