(* ===== verification/PyStr.v ===== *)
(** * Python strings

    A [str] is the list of its code points.  This file models the [str] methods
    the program uses (searching, slicing, classification, [upper], [join],
    [str(int)], the UTF-8 codec) and proves the lemmas the components share. *)

From S2P Require Import Prelude Unicode.

Abbreviation pystr := (list Z).

Definition chr (a : Ascii.ascii) : Z := Z.of_N (Ascii.N_of_ascii a).

(** An ASCII literal of the source. *)
Fixpoint py (s : string) : pystr :=
  match s with
  | EmptyString => []
  | String a s' => chr a :: py s'
  end.

Definition pyeqb (a b : pystr) : bool := bool_decide (a = b).

(** [x in (a, b, ...)] for strings. *)
Definition str_in (x : pystr) (l : list pystr) : bool := existsb (pyeqb x) l.

(** ** Character classes *)

Definition in_ranges (rs : list (Z * Z)) (c : Z) : bool :=
  existsb (fun '(a, b) => (a <=? c) && (c <=? b)) rs.

Definition is_digit (c : Z) : bool := in_ranges digit_ranges c.
Definition is_space (c : Z) : bool := in_ranges space_ranges c.
Definition is_alpha (c : Z) : bool := in_ranges alpha_ranges c.
Definition is_alnum (c : Z) : bool := in_ranges alnum_ranges c.

Definition upper_char (c : Z) : pystr :=
  match List.find (fun '(a, b, st, _) => (a <=? c) && (c <=? b) && ((c - a) mod st =? 0)) upper_runs with
  | Some (_, _, _, d) => [c + d]
  | None =>
      match List.find (fun '(x, _) => x =? c) upper_special with
      | Some (_, u) => u
      | None => [c]
      end
  end.
Definition upper (s : pystr) : pystr := s ≫= upper_char.

(** [s.lower()] on ASCII letters; other code points are kept (used only on
    strings the caller has matched against an ASCII pattern). *)
Definition ascii_lower_char (c : Z) : Z := if (65 <=? c) && (c <=? 90) then c + 32 else c.
Definition ascii_lower (s : pystr) : pystr := ascii_lower_char <$> s.

(** ** Searching and slicing *)

Fixpoint is_prefix (p s : pystr) : bool :=
  match p, s with
  | [], _ => true
  | c :: p', d :: s' => (c =? d) && is_prefix p' s'
  | _ :: _, [] => false
  end.

(** [s.find(sub)] as the prefix before the first occurrence and the rest from
    the occurrence on; [None] is Python's [-1]. *)
Fixpoint find_sub (sub s : pystr) : option (pystr * pystr) :=
  if is_prefix sub s then Some ([], s)
  else match s with
       | [] => None
       | c :: s' =>
           match find_sub sub s' with
           | Some (pre, post) => Some (c :: pre, post)
           | None => None
           end
       end.

Fixpoint lstrip (s : pystr) : pystr :=
  match s with
  | [] => []
  | c :: s' => if is_space c then lstrip s' else s
  end.
Definition strip (s : pystr) : pystr := reverse (lstrip (reverse (lstrip s))).

Fixpoint join (sep : pystr) (l : list pystr) : pystr :=
  match l with
  | [] => []
  | [x] => x
  | x :: l' => x ++ sep ++ join sep l'
  end.

Definition contains_char (c : Z) (s : pystr) : bool := existsb (Z.eqb c) s.

(** Python's negative-index convention for [l[k]]. *)
Definition py_index {A} (l : list A) (k : Z) : option A :=
  let n := zlen l in
  let k' := if k <? 0 then k + n else k in
  if (0 <=? k') && (k' <? n) then l !! Z.to_nat k' else None.

(** ** [str(int)] *)

Fixpoint dec_digits (fuel : nat) (n : Z) : pystr :=
  match fuel with
  | O => []
  | S f => if n <? 10 then [48 + n] else dec_digits f (n / 10) ++ [48 + n mod 10]
  end.
Definition dec_nonneg (n : Z) : pystr := dec_digits (S (Z.to_nat (Z.log2 n))) n.
Definition dec (n : Z) : pystr := if n <? 0 then 45 :: dec_nonneg (- n) else dec_nonneg n.

(** ** UTF-8 *)

Definition is_surrogate (c : Z) : bool := (55296 <=? c) && (c <=? 57343).

Definition utf8_char (c : Z) : list Z :=
  if c <? 128 then [c]
  else if c <? 2048 then [192 + c / 64; 128 + c mod 64]
  else if c <? 65536 then [224 + c / 4096; 128 + (c / 64) mod 64; 128 + c mod 64]
  else [240 + c / 262144; 128 + (c / 4096) mod 64; 128 + (c / 64) mod 64; 128 + c mod 64].

(** [s.encode('utf-8')]; [None] is [UnicodeEncodeError] (a [ValueError]). *)
Definition utf8_encode (s : pystr) : option (list Z) :=
  if existsb is_surrogate s then None else Some (s ≫= utf8_char).

(** [len(s.encode('utf-8'))]. *)
Definition utf8_len (s : pystr) : option Z := zlen <$> utf8_encode s.

(** A Python string holds code points only. *)
Definition code_points (s : pystr) : Prop := Forall (fun c => 0 <= c < 1114112) s.

(** ** Lemmas *)

Lemma pyeqb_eq a b : pyeqb a b = true <-> a = b.
Proof. unfold pyeqb. apply bool_decide_eq_true. Qed.

Lemma pyeqb_refl a : pyeqb a a = true.
Proof. by apply pyeqb_eq. Qed.

Lemma str_in_spec x l : str_in x l = true <-> x ∈ l.
Proof.
  unfold str_in. rewrite existsb_exists. setoid_rewrite pyeqb_eq.
  rewrite list_elem_of_In. split; [intros (? & ? & ->); done | eauto].
Qed.

Lemma is_prefix_spec p s : is_prefix p s = true <-> exists t, s = p ++ t.
Proof.
  revert s. induction p as [|c p IH]; intros s; simpl.
  { split; eauto. }
  destruct s as [|d s]; [split; [done | intros [t ?]; done]|].
  rewrite andb_true_iff, IH, Z.eqb_eq. split.
  - intros [-> [t ->]]. by exists t.
  - intros [t ?]. simplify_eq. eauto.
Qed.

Lemma find_sub_split sub s pre post :
  find_sub sub s = Some (pre, post) -> s = pre ++ post /\ exists t, post = sub ++ t.
Proof.
  revert pre post. induction s as [|c s IH]; intros pre post; simpl;
    destruct (is_prefix sub _) eqn:Hp; intros H; simplify_eq/=.
  - apply is_prefix_spec in Hp. by split.
  - apply is_prefix_spec in Hp. by split.
  - case_match eqn:Hf; [|done]. destruct p. simplify_eq/=.
    destruct (IH _ _ eq_refl) as [-> ?]. by split.
Qed.

(** Nothing before the reported position is an occurrence. *)
Lemma find_sub_first sub s pre post :
  find_sub sub s = Some (pre, post) ->
  forall p q, pre = p ++ q -> q <> [] -> is_prefix sub (q ++ post) = false.
Proof.
  revert pre post. induction s as [|c s IH]; intros pre post; simpl;
    destruct (is_prefix sub _) eqn:Hp.
  - intros [= <- <-] p q Hpq Hq. symmetry in Hpq. by apply app_eq_nil in Hpq as [-> ->].
  - done.
  - intros [= <- <-] p q Hpq Hq. symmetry in Hpq. by apply app_eq_nil in Hpq as [-> ->].
  - case_match eqn:Hf; [|done]. destruct p as [pre' post'].
    intros [= <- <-] [|d p] q Hpq Hq; simplify_eq/=.
    + destruct (find_sub_split _ _ _ _ Hf) as [-> _]. done.
    + by eapply IH.
Qed.

Lemma find_sub_None sub s :
  find_sub sub s = None -> forall p q, s = p ++ q -> is_prefix sub q = false.
Proof.
  induction s as [|c s IH]; simpl; destruct (is_prefix sub _) eqn:Hp; intros H; try done.
  - intros p q Hpq. symmetry in Hpq. by apply app_eq_nil in Hpq as [-> ->].
  - destruct (find_sub sub s) as [[]|]; [done|].
    intros [|d p] q Hpq; simplify_eq/=; [done|]. by eapply IH.
Qed.

Lemma find_sub_length sub s pre post :
  find_sub sub s = Some (pre, post) -> length s = (length pre + length post)%nat.
Proof. intros H. apply find_sub_split in H as [-> _]. by rewrite length_app. Qed.

(** The single-character case: the prefix avoids the character. *)
Lemma find_char_avoids c s pre post :
  find_sub [c] s = Some (pre, post) -> c ∉ pre.
Proof.
  intros H Hin. apply list_elem_of_split in Hin as (l1 & l2 & ->).
  pose proof (find_sub_first _ _ _ _ H l1 (c :: l2) eq_refl ltac:(done)) as Hf.
  simpl in Hf. by rewrite Z.eqb_refl in Hf.
Qed.

Lemma utf8_char_length c : 1 <= zlen (utf8_char c) <= 4.
Proof. unfold utf8_char. repeat case_match; unfold zlen; simpl; lia. Qed.

Lemma utf8_encode_app s t b :
  utf8_encode (s ++ t) = Some b <->
  exists b1 b2, utf8_encode s = Some b1 /\ utf8_encode t = Some b2 /\ b = b1 ++ b2.
Proof.
  unfold utf8_encode. rewrite existsb_app, bind_app.
  destruct (existsb is_surrogate s), (existsb is_surrogate t); simpl; split;
    intros H; try done; try (destruct H as (? & ? & ? & ? & ?); done).
  - simplify_eq. eauto.
  - destruct H as (? & ? & ? & ? & ?); simplify_eq; done.
Qed.

Lemma utf8_len_ge s n : utf8_len s = Some n -> zlen s <= n.
Proof.
  unfold utf8_len, utf8_encode. destruct (existsb _ s) eqn:E; [done|]. simpl.
  intros [= <-]. clear E. induction s as [|c s IH]; [done|]. csimpl.
  autorewrite with py. pose proof (utf8_char_length c). lia.
Qed.

Lemma join_cons sep x y l : join sep (x :: y :: l) = x ++ sep ++ join sep (y :: l).
Proof. done. Qed.

Lemma join_snoc sep l x : l <> [] -> join sep (l ++ [x]) = join sep l ++ sep ++ x.
Proof.
  induction l as [|a l IH]; [done|]. intros _. destruct l as [|b l]; [done|].
  change ((a :: b :: l) ++ [x]) with (a :: (b :: l) ++ [x]).
  specialize (IH ltac:(done)). simpl in *. rewrite IH. by rewrite <- !app_assoc.
Qed.

Lemma dec_digits_length f n :
  (0 < f)%nat -> (1 <= length (dec_digits f n) <= f)%nat.
Proof.
  revert n. induction f as [|f IH]; intros n Hf; [lia|]. simpl.
  destruct (n <? 10); [simpl; lia|]. rewrite length_app. simpl.
  destruct f; [simpl; lia|]. specialize (IH (n / 10) ltac:(lia)). lia.
Qed.

Lemma find_char_app c pre u : c ∉ pre -> find_sub [c] (pre ++ c :: u) = Some (pre, c :: u).
Proof.
  induction pre as [|d pre IH]; cbn [app find_sub is_prefix].
  - intros _. by rewrite Z.eqb_refl.
  - intros [Hd Hp]%not_elem_of_cons. destruct (Z.eqb_spec c d); [done|]. simpl. by rewrite IH.
Qed.

Lemma find_char_None c s : c ∉ s -> find_sub [c] s = None.
Proof.
  induction s as [|d s IH]; cbn [find_sub is_prefix]; [done|].
  intros [Hd Hp]%not_elem_of_cons. destruct (Z.eqb_spec c d); [done|]. simpl. by rewrite IH.
Qed.

(** The first occurrence of a two-character delimiter. *)
Lemma find_two_app a b body s :
  (forall p q, body = p ++ q -> q <> [] -> is_prefix [a; b] (q ++ [a; b]) = false) ->
  find_sub [a; b] (body ++ a :: b :: s) = Some (body, a :: b :: s).
Proof.
  induction body as [|c body IH]; intros H.
  - cbn [app find_sub is_prefix]. by rewrite !Z.eqb_refl.
  - assert (Hp : is_prefix [a; b] ((c :: body) ++ a :: b :: s) = false).
    { specialize (H [] (c :: body) eq_refl ltac:(done)). destruct body; exact H. }
    cbn [app] in *. cbn [find_sub]. rewrite Hp. rewrite IH; [done|].
    intros p q -> Hq. by apply (H (c :: p) q).
Qed.
