(* ===== verification/PyFloat.v ===== *)
(** * Python floats and their binary32 packing

    A Python [float] is an IEEE-754 binary64 datum, represented by the Standard
    Library's [spec_float] (NaN payloads are not distinguished).  [struct]'s
    ['<f'] format rounds to binary32 with ties to even and refuses a finite
    value that overflows; unpacking widens exactly.  The main lemmas are that
    widening is undone by narrowing, and that the 32-bit image of a finite
    binary32 value decodes to it and back. *)

From Corelib Require Import Floats.SpecFloat.
From S2P Require Import Prelude.

Abbreviation pyfloat := spec_float.

#[export] Instance pyfloat_eq_dec : EqDecision pyfloat.
Proof. solve_decision. Defined.

Definition prec64 := 53.
Definition emax64 := 1024.
Definition prec32 := 24.
Definition emax32 := 128.

(** [math.isfinite] *)
Definition isfinite (x : pyfloat) : bool :=
  match x with S754_zero _ | S754_finite _ _ _ => true | _ => false end.

(** [float(int)]: round to nearest even; [None] is [OverflowError]. *)
Definition float_of_int (z : Z) : option pyfloat :=
  match binary_normalize prec64 emax64 z 0 false with
  | S754_infinity _ => None
  | x => Some x
  end.

(** Truthiness of a float, and [x == y] (NaN differs from everything). *)
Definition float_truthy (x : pyfloat) : bool :=
  match x with S754_zero _ => false | _ => true end.
Definition float_eqb (x y : pyfloat) : bool :=
  match SFcompare x y with Some Eq => true | _ => false end.

(** [struct.pack('<f', x)], before the bytes: [None] is [OverflowError]. *)
Definition narrow (x : pyfloat) : option spec_float :=
  match x with
  | S754_finite s m e =>
      match binary_round prec32 emax32 s m e with
      | S754_infinity _ => None
      | y => Some y
      end
  | _ => Some x
  end.

(** The binary64 value of a binary32 datum. *)
Definition widen (x : spec_float) : pyfloat :=
  match x with
  | S754_finite s m e => binary_round prec64 emax64 s m e
  | _ => x
  end.

Definition sign_bit (s : bool) : Z := if s then 2 ^ 31 else 0.

Definition f32_bits (x : spec_float) : Z :=
  match x with
  | S754_zero s => sign_bit s
  | S754_infinity s => sign_bit s + 255 * 2 ^ 23
  | S754_nan => 255 * 2 ^ 23 + 2 ^ 22
  | S754_finite s m e =>
      sign_bit s + (if Z.pos m <? 2 ^ 23 then Z.pos m else (e + 149) * 2 ^ 23 + Z.pos m)
  end.

Definition f32_of_bits (w : Z) : spec_float :=
  let s := 2 ^ 31 <=? w in
  let ex := (w / 2 ^ 23) mod 256 in
  let f := w mod 2 ^ 23 in
  if ex =? 255 then (if f =? 0 then S754_infinity s else S754_nan)
  else if ex =? 0 then
    match f with Z.pos m => S754_finite s m (-149) | _ => S754_zero s end
  else
    match f + 2 ^ 23 with Z.pos m => S754_finite s m (ex - 150) | _ => S754_zero s end.

Definition valid32 (x : spec_float) : bool := valid_binary prec32 emax32 x.

(** ** Digits and exact shifts *)

Lemma digits2_log2 m : Z.pos (digits2_pos m) = Z.log2 (Z.pos m) + 1.
Proof.
  induction m as [m IH|m IH|]; simpl digits2_pos; [| |done].
  - rewrite Pos2Z.inj_succ, IH, Pos2Z.inj_xI, Z.log2_succ_double by lia. lia.
  - rewrite Pos2Z.inj_succ, IH, Pos2Z.inj_xO, Z.log2_double by lia. lia.
Qed.

Lemma iter_xO_value m k : Z.pos (Pos.iter xO m k) = Z.pos m * 2 ^ Z.pos k.
Proof.
  induction k as [|k IH] using Pos.peano_ind; [simpl; lia|].
  rewrite Pos.iter_succ, Pos2Z.inj_xO, IH, Pos2Z.inj_succ, Z.pow_succ_r by lia. lia.
Qed.

Lemma digits2_iter_xO m k :
  Z.pos (digits2_pos (Pos.iter xO m k)) = Z.pos (digits2_pos m) + Z.pos k.
Proof.
  induction k as [|k IH] using Pos.peano_ind; [simpl; lia|].
  rewrite Pos.iter_succ. simpl digits2_pos. lia.
Qed.

Lemma shr_iter_xO m k :
  SpecFloat.iter_pos shr_1 k {| shr_m := Z.pos (Pos.iter xO m k); shr_r := false; shr_s := false |} =
  {| shr_m := Z.pos m; shr_r := false; shr_s := false |}.
Proof.
  assert (Hpos : forall (k : positive) r, SpecFloat.iter_pos shr_1 k r = Pos.iter shr_1 r k).
  { clear. induction k as [k IH|k IH|]; intros r; simpl; rewrite ?IH; try done.
    f_equal. rewrite <- !Pos.iter_swap. done. }
  rewrite Hpos. clear Hpos.
  induction k as [|k IH] using Pos.peano_ind; [done|].
  rewrite Pos.iter_succ_r, Pos.iter_succ. simpl. exact IH.
Qed.

(** ** Rounding is exact on canonical values *)

(** Once the mantissa is aligned on its canonical exponent, rounding returns it. *)
Lemma round_aux_canonical prec emax s m e :
  bounded prec emax m e = true ->
  binary_round_aux prec emax s (Z.pos m) e loc_Exact = S754_finite s m e.
Proof.
  unfold bounded, canonical_mantissa. intros [Hc He]%andb_true_iff. apply Z.eqb_eq in Hc.
  assert (Hs : shr_fexp prec emax (Z.pos m) e loc_Exact =
               ({| shr_m := Z.pos m; shr_r := false; shr_s := false |}, e)).
  { unfold shr_fexp. simpl Zdigits2. rewrite Hc, Z.sub_diag. done. }
  unfold binary_round_aux. rewrite Hs. simpl. rewrite Hs. simpl. by rewrite He.
Qed.

(** A mantissa with [k] extra low zero bits is shifted back exactly. *)
Lemma round_aux_shifted prec emax s m e k :
  bounded prec emax m e = true ->
  binary_round_aux prec emax s (Z.pos (Pos.iter xO m k)) (e - Z.pos k) loc_Exact =
  S754_finite s m e.
Proof.
  intros Hb. pose proof Hb as Hb'.
  unfold bounded, canonical_mantissa in Hb. apply andb_true_iff in Hb as [Hc He].
  apply Z.eqb_eq in Hc.
  assert (Hs : shr_fexp prec emax (Z.pos (Pos.iter xO m k)) (e - Z.pos k) loc_Exact =
               ({| shr_m := Z.pos m; shr_r := false; shr_s := false |}, e)).
  { unfold shr_fexp. simpl Zdigits2. rewrite digits2_iter_xO.
    replace (Z.pos (digits2_pos m) + Z.pos k + (e - Z.pos k)) with (Z.pos (digits2_pos m) + e) by lia.
    rewrite Hc. replace (e - (e - Z.pos k)) with (Z.pos k) by lia.
    unfold shr. simpl. f_equal; [|lia]. apply shr_iter_xO. }
  unfold binary_round_aux. rewrite Hs. simpl.
  assert (Hs' : shr_fexp prec emax (Z.pos m) e loc_Exact =
               ({| shr_m := Z.pos m; shr_r := false; shr_s := false |}, e)).
  { unfold shr_fexp. simpl Zdigits2. rewrite Hc, Z.sub_diag. done. }
  rewrite Hs'. simpl. by rewrite He.
Qed.

Lemma binary_round_down prec emax s m e k :
  bounded prec emax m e = true ->
  binary_round prec emax s (Pos.iter xO m k) (e - Z.pos k) = S754_finite s m e.
Proof.
  intros Hb. pose proof Hb as Hb'. apply andb_true_iff in Hb as [Hc _].
  apply Z.eqb_eq in Hc. unfold binary_round, shl_align. rewrite digits2_iter_xO.
  replace (Z.pos (digits2_pos m) + Z.pos k + (e - Z.pos k)) with (Z.pos (digits2_pos m) + e) by lia.
  rewrite Hc. replace (e - (e - Z.pos k)) with (Z.pos k) by lia.
  by apply round_aux_shifted.
Qed.

Lemma binary_round_id prec emax s m e :
  bounded prec emax m e = true -> binary_round prec emax s m e = S754_finite s m e.
Proof.
  intros Hb. pose proof Hb as Hb'. apply andb_true_iff in Hb as [Hc _].
  apply Z.eqb_eq in Hc. unfold binary_round, shl_align. rewrite Hc, Z.sub_diag.
  by apply round_aux_canonical.
Qed.

(** Aligning left when the canonical exponent is below. *)
Lemma binary_round_up prec emax s m e k :
  bounded prec emax (Pos.iter xO m k) (e - Z.pos k) = true ->
  binary_round prec emax s m e = S754_finite s (Pos.iter xO m k) (e - Z.pos k).
Proof.
  intros Hb. pose proof Hb as Hb'. apply andb_true_iff in Hb as [Hc _].
  apply Z.eqb_eq in Hc. rewrite digits2_iter_xO in Hc.
  replace (Z.pos (digits2_pos m) + Z.pos k + (e - Z.pos k)) with (Z.pos (digits2_pos m) + e) in Hc by lia.
  unfold binary_round, shl_align. rewrite Hc.
  replace (e - Z.pos k - e) with (Z.neg k) by lia. by apply round_aux_canonical.
Qed.

Lemma valid32_bounds m e :
  bounded prec32 emax32 m e = true ->
  Z.pos (digits2_pos m) <= 24 /\ -149 <= e <= 104 /\
  (e = -149 \/ Z.pos (digits2_pos m) = 24).
Proof.
  intros [Hc He]%andb_true_iff. apply Z.eqb_eq in Hc. apply Z.leb_le in He.
  unfold fexp, emin, prec32, emax32 in *. lia.
Qed.

(** The binary64 form of a binary32 value: the same number, more low zeros. *)
Lemma widen_finite s m e :
  bounded prec32 emax32 m e = true ->
  exists k, widen (S754_finite s m e) = S754_finite s (Pos.iter xO m k) (e - Z.pos k).
Proof.
  intros Hb. destruct (valid32_bounds _ _ Hb) as (Hd & He & _).
  assert (Hk : exists k, Z.pos k = 53 - Z.pos (digits2_pos m)).
  { exists (Z.to_pos (53 - Z.pos (digits2_pos m))). rewrite Z2Pos.id; lia. }
  destruct Hk as [k Hk]. exists k. apply binary_round_up.
  unfold bounded, canonical_mantissa. rewrite digits2_iter_xO.
  apply andb_true_iff. rewrite Z.eqb_eq, Z.leb_le.
  unfold fexp, emin, prec64, emax64. lia.
Qed.

Lemma narrow_widen x : valid32 x = true -> narrow (widen x) = Some x.
Proof.
  destruct x as [s|s| |s m e]; try done. intros Hb.
  destruct (widen_finite s m e Hb) as [k ->]. unfold narrow.
  rewrite binary_round_down by done. done.
Qed.

Lemma isfinite_widen x : valid32 x = true -> isfinite (widen x) = isfinite x.
Proof.
  destruct x as [s|s| |s m e]; try done. intros Hb.
  by destruct (widen_finite s m e Hb) as [k ->].
Qed.

Lemma widen_inj x y : valid32 x = true -> valid32 y = true -> widen x = widen y -> x = y.
Proof. intros Hx Hy H. apply narrow_widen in Hx, Hy. congruence. Qed.

(** ** Rounding always lands on a canonical value *)

Lemma Zdigits2_nonneg m : 0 <= m -> Zdigits2 m = if m =? 0 then 0 else Z.log2 m + 1.
Proof. destruct m as [|p|p]; intros H; [done| |lia]. simpl. apply digits2_log2. Qed.

Lemma shr_1_value r : 0 <= shr_m r -> shr_m (shr_1 r) = shr_m r / 2.
Proof.
  destruct r as [[|[p|p|]|p] b1 b2]; simpl; intros H; try done; try lia.
  - rewrite Pos2Z.inj_xI. apply Z.div_unique with 1; lia.
  - rewrite Pos2Z.inj_xO. apply Z.div_unique with 0; lia.
Qed.

Lemma iter_shr_value n r :
  0 <= shr_m r -> shr_m (SpecFloat.iter_pos shr_1 n r) = shr_m r / 2 ^ Z.pos n.
Proof.
  revert r. induction n as [n IH|n IH|]; intros r Hr; simpl.
  - assert (H1 : 0 <= shr_m (shr_1 r)) by (rewrite shr_1_value by done; apply Z.div_pos; lia).
    assert (H2 : 0 <= shr_m (SpecFloat.iter_pos shr_1 n (shr_1 r))).
    { rewrite IH by done. apply Z.div_pos; [done|]. by apply Z.pow_pos_nonneg. }
    rewrite IH, IH, shr_1_value by done.
    rewrite !Z.div_div by (try apply Z.pow_nonzero; try apply Z.pow_pos_nonneg; lia).
    f_equal. replace (Z.pos n~1) with (Z.pos n + Z.pos n + 1) by lia.
    rewrite !Z.pow_add_r by lia. lia.
  - assert (H2 : 0 <= shr_m (SpecFloat.iter_pos shr_1 n r)).
    { rewrite IH by done. apply Z.div_pos; [done|]. by apply Z.pow_pos_nonneg. }
    rewrite IH, IH by done.
    rewrite !Z.div_div by (try apply Z.pow_nonzero; try apply Z.pow_pos_nonneg; lia).
    f_equal. rewrite Pos2Z.inj_xO, <- Z.pow_add_r by lia. f_equal. lia.
  - rewrite shr_1_value by done. done.
Qed.

Lemma shr_record_value m l : shr_m (shr_record_of_loc m l) = m.
Proof. by destruct l as [|[]]. Qed.

(** One normalising shift: the exponent becomes the canonical one. *)
Lemma shr_fexp_value prec emax m e l :
  0 <= m -> e <= fexp prec emax (Zdigits2 m + e) ->
  let E := fexp prec emax (Zdigits2 m + e) in
  (shr_fexp prec emax m e l).2 = E /\
  shr_m (shr_fexp prec emax m e l).1 = m / 2 ^ (E - e).
Proof.
  intros Hm He. cbv zeta. set (E := fexp _ _ _). unfold shr_fexp. fold E.
  destruct (E - e) as [|p|p] eqn:Hd; [| |lia]; simpl.
  - rewrite shr_record_value, Z.div_1_r. split; [lia|done].
  - rewrite iter_shr_value, shr_record_value by (by rewrite shr_record_value). split; [lia|done].
Qed.

Lemma Zdigits2_div m n :
  0 < m -> 0 <= n -> m / 2 ^ n <> 0 -> Zdigits2 (m / 2 ^ n) = Zdigits2 m - n.
Proof.
  intros Hm Hn Hq. rewrite <- Z.shiftr_div_pow2 in * by done.
  assert (0 <= Z.shiftr m n) by (apply Z.shiftr_nonneg; lia).
  rewrite !Zdigits2_nonneg by lia.
  destruct (Z.eqb_spec (Z.shiftr m n) 0) as [|_]; [done|].
  destruct (Z.eqb_spec m 0) as [|_]; [lia|].
  rewrite Z.log2_shiftr by lia.
  assert (n <= Z.log2 m); [|lia].
  destruct (Z.le_gt_cases n (Z.log2 m)); [done|].
  destruct Hq. apply Z.shiftr_eq_0; lia.
Qed.

Lemma Zdigits2_succ m :
  0 <= m -> Zdigits2 (m + 1) = Zdigits2 m \/
            (m + 1 = 2 ^ Zdigits2 m /\ Zdigits2 (m + 1) = Zdigits2 m + 1).
Proof.
  intros Hm. rewrite !Zdigits2_nonneg by lia.
  destruct (Z.eqb_spec m 0) as [->|Hm0]; [by right|].
  destruct (Z.eqb_spec (m + 1) 0); [lia|].
  destruct (Z.log2_spec m ltac:(lia)) as [Hlo Hhi]. unfold Z.succ in Hhi.
  destruct (Z.eq_dec (m + 1) (2 ^ (Z.log2 m + 1))) as [E|E]; [right|left].
  - split; [done|]. rewrite E, Z.log2_pow2; [done|]. pose proof (Z.log2_nonneg m). lia.
  - f_equal. apply Z.log2_unique; [apply Z.log2_nonneg|]. unfold Z.succ. lia.
Qed.

(** After rounding up, a second shift restores canonicity. *)
Lemma fexp_succ prec emax m E :
  0 < prec -> 0 <= m -> (m <> 0 -> fexp prec emax (Zdigits2 m + E) = E) ->
  (m = 0 -> E = emin prec emax) ->
  E <= fexp prec emax (Zdigits2 (m + 1) + E) <= E + 1 /\
  (fexp prec emax (Zdigits2 (m + 1) + E) = E + 1 -> (m + 1) / 2 = 2 ^ (prec - 1)).
Proof.
  intros Hp Hm Hc H0. destruct (Z.eq_dec m 0) as [->|Hm0].
  { specialize (H0 eq_refl). simpl. unfold fexp. lia. }
  specialize (Hc Hm0). unfold fexp in *.
  destruct (Zdigits2_succ m Hm) as [->|[Hpow ->]]; [lia|]. split; [lia|].
  intros Hx. assert (Hd : Zdigits2 m = prec) by lia. rewrite Hd in Hpow.
  rewrite Hpow. replace (2 ^ prec) with (2 ^ (prec - 1) * 2).
  - rewrite Z.div_mul; lia.
  - rewrite Z.mul_comm, <- Z.pow_succ_r by lia. f_equal. lia.
Qed.

Lemma Zdigits2_pow2 k : 0 <= k -> Zdigits2 (2 ^ k) = k + 1.
Proof.
  intros Hk. assert (0 < 2 ^ k) by (apply Z.pow_pos_nonneg; lia).
  rewrite Zdigits2_nonneg by lia. destruct (Z.eqb_spec (2 ^ k) 0); [lia|].
  rewrite Z.log2_pow2; lia.
Qed.

Lemma second_shift prec emax m E m2 :
  0 < prec -> 0 <= m -> (m <> 0 -> fexp prec emax (Zdigits2 m + E) = E) ->
  (m = 0 -> E = emin prec emax) -> (m2 = m \/ m2 = m + 1) ->
  let r := shr_fexp prec emax m2 E loc_Exact in
  0 <= shr_m r.1 /\
  (shr_m r.1 <> 0 -> fexp prec emax (Zdigits2 (shr_m r.1) + r.2) = r.2).
Proof.
  intros Hp Hm Hc H0 Hm2. cbv zeta. destruct (Z.eq_dec m2 0) as [->|Hnz].
  { assert (Hf : fexp prec emax (0 + E) - E <= 0) by (destruct Hm2; unfold fexp; lia).
    unfold shr_fexp. simpl Zdigits2. destruct (fexp prec emax (0 + E) - E); simpl; lia. }
  assert (Hle : E <= fexp prec emax (Zdigits2 m2 + E)).
  { destruct Hm2 as [->| ->]; [rewrite Hc; lia|]. by apply fexp_succ. }
  destruct (shr_fexp_value prec emax m2 E loc_Exact ltac:(lia) Hle) as [HE Hv].
  rewrite HE, Hv. split; [apply Z.div_pos; [lia|by apply Z.pow_pos_nonneg; lia]|].
  intros Hq. destruct Hm2 as [->| ->].
  - rewrite Hc in * by done. rewrite Z.sub_diag, Z.div_1_r in *. by apply Hc.
  - destruct (fexp_succ prec emax m E Hp Hm Hc H0) as [Hb Hpow].
    destruct (Z.eq_dec (fexp prec emax (Zdigits2 (m + 1) + E)) E) as [HEq|HEq].
    + rewrite HEq in *. by rewrite Z.sub_diag, Z.div_1_r.
    + assert (HEs : fexp prec emax (Zdigits2 (m + 1) + E) = E + 1) by lia.
      rewrite HEs in *. replace (E + 1 - E) with 1 in * by lia. rewrite Z.pow_1_r in *.
      rewrite (Hpow eq_refl), Zdigits2_pow2 by lia.
      destruct (Z.eq_dec m 0) as [->|Hm0]; [specialize (H0 eq_refl); simpl in HEs; unfold fexp in *; lia|].
      specialize (Hc Hm0). unfold fexp in *. lia.
Qed.

Lemma binary_round_aux_valid prec emax s m e l :
  0 < prec -> 0 <= m -> e <= fexp prec emax (Zdigits2 m + e) ->
  valid_binary prec emax (binary_round_aux prec emax s m e l) = true.
Proof.
  intros Hp Hm He. unfold binary_round_aux.
  destruct (shr_fexp_value prec emax m e l Hm He) as [HE Hv].
  destruct (shr_fexp prec emax m e l) as [r E] eqn:Hs. simpl in HE, Hv.
  assert (Hr : 0 <= shr_m r) by (rewrite Hv; apply Z.div_pos; [lia|apply Z.pow_pos_nonneg; lia]).
  assert (Hc : shr_m r <> 0 -> fexp prec emax (Zdigits2 (shr_m r) + E) = E).
  { intros Hq. rewrite Hv in *. destruct (Z.eq_dec m 0) as [->|Hm0].
    { by rewrite Z.div_0_l in Hq by (apply Z.pow_nonzero; lia). }
    rewrite Zdigits2_div by lia. rewrite HE at 2. f_equal. lia. }
  assert (H0 : shr_m r = 0 -> E = emin prec emax).
  { intros Hq. destruct (Z.eq_dec m 0) as [->|Hm0].
    { simpl in *. unfold fexp in *. lia. }
    rewrite Hv in Hq. apply Z.div_small_iff in Hq; [|apply Z.pow_nonzero; lia].
    assert (Hlt : Z.log2 m < fexp prec emax (Zdigits2 m + e) - e).
    { apply Z.log2_lt_pow2; lia. }
    assert (Hd : Zdigits2 m = Z.log2 m + 1).
    { rewrite Zdigits2_nonneg by lia. by destruct (Z.eqb_spec m 0). }
    unfold fexp in *. lia. }
  set (m2 := round_nearest_even (shr_m r) (loc_of_shr_record r)).
  assert (Hm2 : m2 = shr_m r \/ m2 = shr_m r + 1).
  { unfold m2, round_nearest_even. repeat case_match; auto. }
  destruct (second_shift prec emax (shr_m r) E m2 Hp Hr Hc H0 Hm2) as [Hpos Hcan].
  destruct (shr_fexp prec emax m2 E loc_Exact) as [r2 E2]. simpl in Hpos, Hcan |- *.
  destruct (shr_m r2) as [|p|p]; [done| |lia].
  destruct (E2 <=? emax - prec) eqn:HE2; [|done]. simpl.
  unfold bounded, canonical_mantissa. specialize (Hcan ltac:(lia)). simpl in Hcan.
  rewrite Hcan, Z.eqb_refl. done.
Qed.

Lemma binary_round_valid prec emax s m e :
  0 < prec -> valid_binary prec emax (binary_round prec emax s m e) = true.
Proof.
  intros Hp. unfold binary_round, shl_align.
  set (fx := fexp prec emax (Z.pos (digits2_pos m) + e)).
  destruct (fx - e) as [|d|d] eqn:Hd; apply binary_round_aux_valid; try done; simpl.
  - fold fx. lia.
  - fold fx. lia.
  - rewrite digits2_iter_xO. replace (_ + Z.pos d + fx) with (Z.pos (digits2_pos m) + e) by lia.
    fold fx. lia.
Qed.

Lemma narrow_valid x y : narrow x = Some y -> valid32 y = true.
Proof.
  destruct x as [s|s| |s m e]; simpl; intros H; try (by simplify_eq).
  pose proof (binary_round_valid prec32 emax32 s m e ltac:(done)) as Hv.
  destruct (binary_round _ _ _ _ _); simplify_eq; done.
Qed.

(** ** The 32-bit image *)

Ltac f32_consts :=
  change (2 ^ 31) with 2147483648 in *; change (2 ^ 23) with 8388608 in *;
  change (2 ^ 22) with 4194304 in *; change (2 ^ 32) with 4294967296 in *.

Lemma digits24 m : Z.pos (digits2_pos m) = 24 <-> 2 ^ 23 <= Z.pos m < 2 ^ 24.
Proof.
  rewrite digits2_log2. split.
  - intros H. pose proof (Z.log2_spec (Z.pos m) ltac:(lia)) as Hs.
    replace (Z.log2 (Z.pos m)) with 23 in Hs by lia. done.
  - intros H. rewrite (Z.log2_unique _ 23); [done|lia|done].
Qed.

Lemma digits_le24 m : Z.pos (digits2_pos m) <= 24 <-> Z.pos m < 2 ^ 24.
Proof.
  rewrite digits2_log2. rewrite (Z.log2_lt_pow2 (Z.pos m) 24) by lia. lia.
Qed.

Lemma bounded32 m e :
  bounded prec32 emax32 m e = true <->
  (2 ^ 23 <= Z.pos m < 2 ^ 24 /\ -149 <= e <= 104) \/ (Z.pos m < 2 ^ 23 /\ e = -149).
Proof.
  split.
  - intros Hb. destruct (valid32_bounds _ _ Hb) as (Hd & He & Hn).
    rewrite digits_le24 in Hd. rewrite digits24 in Hn.
    destruct (Z.lt_ge_cases (Z.pos m) (2 ^ 23)); [right|left]; lia.
  - intros H. unfold bounded, canonical_mantissa. rewrite andb_true_iff, Z.eqb_eq, Z.leb_le.
    unfold fexp, emin, prec32, emax32. destruct H as [[Hm He]|[Hm ->]].
    + rewrite <- digits24 in Hm. lia.
    + assert (Z.pos (digits2_pos m) <= 23); [|lia].
      rewrite digits2_log2. rewrite (Z.log2_lt_pow2 (Z.pos m) 23) in Hm by lia. lia.
Qed.

Lemma f32_bits_range x : valid32 x = true -> 0 <= f32_bits x < 2 ^ 32.
Proof.
  destruct x as [[]|[]| |s m e]; try done. unfold valid32. simpl. rewrite bounded32.
  intros H. unfold sign_bit. f32_consts. destruct s, (Z.ltb_spec (Z.pos m) 8388608); lia.
Qed.

Lemma f32_of_bits_normal s m e :
  2 ^ 23 <= Z.pos m < 2 ^ 24 -> -149 <= e <= 104 ->
  f32_of_bits (sign_bit s + ((e + 149) * 2 ^ 23 + Z.pos m)) = S754_finite s m e.
Proof.
  intros Hm He. unfold f32_of_bits, sign_bit. f32_consts. change (2 ^ 24) with 16777216 in Hm.
  match goal with |- context [2147483648 <=? ?x] => set (w := x) end.
  assert (Hs : (2147483648 <=? w) = s) by (unfold w; destruct s; [apply Z.leb_le|apply Z.leb_gt]; lia).
  assert (Hq : w / 8388608 = (if s then 256 else 0) + (e + 150)) by (unfold w; destruct s; dlia).
  assert (Hx : (w / 8388608) mod 256 = e + 150) by (rewrite Hq; destruct s; dlia).
  assert (Hf : w mod 8388608 = Z.pos m - 8388608) by (unfold w; destruct s; dlia).
  rewrite Hs, Hx, Hf. destruct (Z.eqb_spec (e + 150) 255); [lia|].
  destruct (Z.eqb_spec (e + 150) 0); [lia|].
  replace (Z.pos m - 8388608 + 8388608) with (Z.pos m) by lia. f_equal. lia.
Qed.

Lemma f32_of_bits_subnormal s m :
  Z.pos m < 2 ^ 23 -> f32_of_bits (sign_bit s + Z.pos m) = S754_finite s m (-149).
Proof.
  intros Hm. unfold f32_of_bits, sign_bit. f32_consts. match goal with |- context [2147483648 <=? ?x] => set (w := x) end.
  assert (Hs : (2147483648 <=? w) = s) by (unfold w; destruct s; [apply Z.leb_le|apply Z.leb_gt]; lia).
  assert (Hq : w / 8388608 = (if s then 256 else 0)) by (unfold w; destruct s; dlia).
  assert (Hx : (w / 8388608) mod 256 = 0) by (rewrite Hq; by destruct s).
  assert (Hf : w mod 8388608 = Z.pos m) by (unfold w; destruct s; dlia).
  by rewrite Hs, Hx, Hf.
Qed.

Lemma f32_of_bits_bits x : valid32 x = true -> f32_of_bits (f32_bits x) = x.
Proof.
  destruct x as [[]|[]| |s m e]; try done. unfold valid32. simpl. rewrite bounded32.
  intros H. destruct (Z.ltb_spec (Z.pos m) (2 ^ 23)).
  - destruct H as [|[_ ->]]; [lia|]. by apply f32_of_bits_subnormal.
  - destruct H as [[]|]; [|lia]. by apply f32_of_bits_normal.
Qed.

(** The fields of a 32-bit word. *)
Lemma f32_word w :
  0 <= w < 2 ^ 32 ->
  exists s ex f, w = sign_bit s + ex * 2 ^ 23 + f /\ 0 <= ex < 256 /\ 0 <= f < 2 ^ 23 /\
                 (2 ^ 31 <=? w) = s /\ (w / 2 ^ 23) mod 256 = ex /\ w mod 2 ^ 23 = f.
Proof.
  intros Hw. exists (2 ^ 31 <=? w), ((w / 2 ^ 23) mod 256), (w mod 2 ^ 23).
  unfold sign_bit. f32_consts. destruct (Z.leb_spec 2147483648 w); dlia.
Qed.

Lemma f32_bits_of_bits w :
  0 <= w < 2 ^ 32 ->
  valid32 (f32_of_bits w) = true /\ (f32_of_bits w <> S754_nan -> f32_bits (f32_of_bits w) = w).
Proof.
  intros Hw. destruct (f32_word w Hw) as (s & ex & f & -> & Hex & Hf & Hs & Hx & Hm).
  unfold f32_of_bits. rewrite Hs, Hx, Hm. clear Hs Hx Hm Hw. f32_consts.
  destruct (Z.eqb_spec ex 255) as [->|H255].
  { destruct (Z.eqb_spec f 0) as [->|Hf0]; [|done]. split; [done|]. intros _. simpl.
    f32_consts. lia. }
  destruct (Z.eqb_spec ex 0) as [->|Hex0].
  { destruct f as [|m|m]; simpl; [split; [done|lia]| |lia].
    unfold valid32. simpl. rewrite bounded32. f32_consts. split; [right; lia|].
    intros _. destruct (Z.ltb_spec (Z.pos m) 8388608); lia. }
  destruct (f + 8388608) as [|m|m] eqn:Hm; [lia| |lia].
  unfold valid32. simpl. rewrite bounded32. f32_consts. change (2 ^ 24) with 16777216.
  split; [left; lia|]. intros _. destruct (Z.ltb_spec (Z.pos m) 8388608); lia.
Qed.
