(* ===== verification/Objects.v ===== *)
(** * Values and exceptions shared by every component

    [pyval] is the universe of Python data the client manipulates: JSON data,
    bound parameters ([Value] of parameters.py) and result cells.  [exn] models
    the exception classes of errors.py and dbapi.py and the built-in ones the
    code raises or catches: a message is the source's text (an f-string keeps
    its placeholders), and attributes the program reads ([code], [pending]) are
    arguments.  [isinstance] follows the class hierarchy. *)

From S2P Require Import Prelude PyStr PyFloat.
#[local] Set Warnings "-register-all".

(** class Vector: an immutable tuple of binary32 values (vector.py) *)
Record Vector := mkVector { values : list pyfloat }.

Inductive pyval : Type :=
| PNone
| PBool (b : bool)
| PInt (z : Z)
| PFloat (f : pyfloat)
| PStr (s : pystr)
| PBytes (b : list Z)
| PVec (v : Vector)
| PList (l : list pyval)
| PDict (kvs : list (pystr * pyval)).

(** class PendingWrite (client.py), after construction *)
Record PendingWrite := mkPending {
  session : pystr;
  sequence : Z;
  sql : pystr;
  parameters : list pyval;
  read_version : Z;
  epoch : Z
}.

(** ** Exceptions *)

(** Classes of dbapi.py. *)
Inductive dbcls :=
| DBError | InterfaceError | DatabaseError | DataError | OperationalError
| DBSerializationError | IntegrityError | InternalError | ProgrammingError
| NotSupportedError.

Inductive exn :=
| ValueError (m : string) | TypeError (m : string) | KeyError (m : string)
| IndexError (m : string) | AttributeError (m : string) | OverflowError (m : string)
| AssertionError (m : string) | RuntimeError (m : string) | OSError (m : string)
| TimeoutError (m : string) | CertificateError (m : string)
| NotImplementedError (m : string) | StopIteration
| ZeroDivisionError (m : string) | EOFError (m : string) | SystemExit (m : pystr) | TimeoutExpired (m : string) | CalledProcessError (m : string)
| ConnectionError (m : pystr)
| QueryError (code : pystr) | ConstraintError (code : pystr)
| SerializationError (code : pystr) | SessionError (code : pystr)
| PendingWriteError (m : string)
| UnknownOutcome (pending : PendingWrite)
| Dbapi (c : dbcls) (m : pystr) (pending : option PendingWrite).

Inductive cls :=
| CException | CValueError | CTypeError | CLookupError | CKeyError | CIndexError
| CAttributeError | CArithmeticError | COverflowError | CAssertionError | CRuntimeError
| COSError | CTimeoutError | CCertificateError | CNotImplementedError | CStopIteration
| CZeroDivisionError | CEOFError | CSystemExit | CTimeoutExpired | CCalledProcessError
| CError | CConnectionError | CQueryError | CConstraintError | CSerializationError
| CSessionError | CPendingWriteError | CUnknownOutcome | CDb (c : dbcls).

#[export] Instance dbcls_eq_dec : EqDecision dbcls.
Proof. solve_decision. Defined.
#[export] Instance cls_eq_dec : EqDecision cls.
Proof. solve_decision. Defined.

Definition class_of (e : exn) : cls :=
  match e with
  | ValueError _ => CValueError | TypeError _ => CTypeError | KeyError _ => CKeyError
  | IndexError _ => CIndexError | AttributeError _ => CAttributeError
  | OverflowError _ => COverflowError | AssertionError _ => CAssertionError
  | RuntimeError _ => CRuntimeError | OSError _ => COSError
  | TimeoutError _ => CTimeoutError | CertificateError _ => CCertificateError
  | NotImplementedError _ => CNotImplementedError | StopIteration => CStopIteration
  | ZeroDivisionError _ => CZeroDivisionError
  | EOFError _ => CEOFError | SystemExit _ => CSystemExit
  | TimeoutExpired _ => CTimeoutExpired | CalledProcessError _ => CCalledProcessError
  | ConnectionError _ => CConnectionError | QueryError _ => CQueryError
  | ConstraintError _ => CConstraintError | SerializationError _ => CSerializationError
  | SessionError _ => CSessionError | PendingWriteError _ => CPendingWriteError
  | UnknownOutcome _ => CUnknownOutcome | Dbapi c _ _ => CDb c
  end.

(** Direct bases: errors.py and dbapi.py for the program's classes, the
    interpreter's for the built-in ones. *)
Definition dbapi_bases (c : dbcls) : list cls :=
  match c with
  | DBError => [CException]
  | InterfaceError | DatabaseError => [CDb DBError]
  | DBSerializationError => [CDb OperationalError]
  | DataError | OperationalError | IntegrityError | InternalError
  | ProgrammingError | NotSupportedError => [CDb DatabaseError]
  end.

Definition error_bases (c : cls) : list cls :=
  match c with
  | CConnectionError | CQueryError | CPendingWriteError | CUnknownOutcome => [CError]
  | CConstraintError | CSerializationError | CSessionError => [CQueryError]
  | _ => [CException]
  end.

Definition bases (c : cls) : list cls :=
  match c with
  | CException | CSystemExit => []
  | CKeyError | CIndexError => [CLookupError]
  | COverflowError | CZeroDivisionError => [CArithmeticError]
  | CTimeoutError => [COSError]
  | CCertificateError => [COSError; CValueError]
  | CNotImplementedError => [CRuntimeError]
  | CDb c => dbapi_bases c
  | _ => error_bases c
  end.

(** The hierarchy is at most five levels deep. *)
Fixpoint subclass (fuel : nat) (c target : cls) : bool :=
  bool_decide (c = target) ||
  match fuel with
  | O => false
  | S f => existsb (fun b => subclass f b target) (bases c)
  end.

Definition isinstance (e : exn) (c : cls) : bool := subclass 5 (class_of e) c.

(** [str(exc)] *)
Definition str_exn (e : exn) : pystr :=
  match e with
  | ValueError m | TypeError m | KeyError m | IndexError m | AttributeError m
  | OverflowError m | AssertionError m | RuntimeError m | OSError m | TimeoutError m
  | CertificateError m | NotImplementedError m | PendingWriteError m
  | ZeroDivisionError m | EOFError m | TimeoutExpired m | CalledProcessError m => py m
  | SystemExit m => m
  | StopIteration => []
  | ConnectionError m | Dbapi _ m _ => m
  | QueryError code | ConstraintError code | SerializationError code
  | SessionError code => code
  | UnknownOutcome _ =>
      py "Write outcome unknown; call resolve_pending() to retry the same request"
  end.

Abbreviation pyres := (res exn).

(** [getattr(exc, 'pending', default)]: only [UnknownOutcome] and dbapi's
    operational errors carry the attribute. *)
Definition getattr_pending (e : exn) (default : option PendingWrite) : option PendingWrite :=
  match e with
  | UnknownOutcome p => Some p
  | Dbapi OperationalError _ p | Dbapi DBSerializationError _ p => p
  | _ => default
  end.

(** ** Dictionaries: insertion-ordered, unique keys *)

Fixpoint dict_get (k : pystr) (d : list (pystr * pyval)) : option pyval :=
  match d with
  | [] => None
  | (k', v) :: d' => if pyeqb k k' then Some v else dict_get k d'
  end.

(** [d[k] = v] keeps the position of an existing key. *)
Fixpoint dict_set (k : pystr) (v : pyval) (d : list (pystr * pyval)) : list (pystr * pyval) :=
  match d with
  | [] => [(k, v)]
  | (k', v') :: d' => if pyeqb k k' then (k', v) :: d' else (k', v') :: dict_set k v d'
  end.

(** [d.get(k)] and [d.get(k, default)] *)
Definition get_or (k : pystr) (default : pyval) (d : list (pystr * pyval)) : pyval :=
  match dict_get k d with Some v => v | None => default end.

(** [d[k]] *)
Definition getitem (k : string) (d : list (pystr * pyval)) : pyres pyval :=
  match dict_get (py k) d with Some v => Ok v | None => Raise (KeyError k) end.

(** A dictionary display [dict(k=v, ...)] from ASCII keyword names. *)
Definition mkdict (kvs : list (string * pyval)) : list (pystr * pyval) :=
  (fun '(k, v) => (py k, v)) <$> kvs.

(** [x == n] for an integer literal: booleans and floats compare by value. *)
Definition eq_int (x : pyval) (n : Z) : bool :=
  match x with
  | PInt z => z =? n
  | PBool b => (if b then 1 else 0) =? n
  | PFloat f => match float_of_int n with Some g => float_eqb f g | None => false end
  | _ => false
  end.

(** [x == s] for a string *)
Definition eq_str (x : pyval) (s : pystr) : bool :=
  match x with PStr t => pyeqb t s | _ => false end.

(** [x in (a, b, ...)] for string literals *)
Definition val_in (x : pyval) (l : list string) : bool := existsb (fun s => eq_str x (py s)) l.

(** [type(x) is int]: a bool is not. *)
Definition as_int (x : pyval) : option Z := match x with PInt z => Some z | _ => None end.

(** [isinstance(x, int)]: a bool is one. *)
Definition isinstance_int (x : pyval) : option Z :=
  match x with PInt z => Some z | PBool b => Some (if b then 1 else 0) | _ => None end.

(** Iterating any value: a [str] yields one-character strings, a [dict] its keys. *)
Definition py_iter (v : pyval) : pyres (list pyval) :=
  match v with
  | PList l => Ok l
  | PStr s => Ok ((fun c => PStr [c]) <$> s)
  | PBytes b => Ok (PInt <$> b)
  | PVec w => Ok (PFloat <$> values w)
  | PDict d => Ok ((fun kv => PStr kv.1) <$> d)
  | PNone | PBool _ | PInt _ | PFloat _ => Raise (TypeError "object is not iterable")
  end.

(** Truth value testing. *)
Definition truthy (v : pyval) : bool :=
  match v with
  | PNone => false
  | PBool b => b
  | PInt z => negb (z =? 0)
  | PFloat f => float_truthy f
  | PStr s => negb (bool_decide (s = []))
  | PBytes b => negb (bool_decide (b = []))
  | PVec w => negb (bool_decide (values w = []))
  | PList l => match l with [] => false | _ => true end
  | PDict d => match d with [] => false | _ => true end
  end.

(** ** Lemmas *)

Lemma dict_get_set k k' v d :
  dict_get k (dict_set k' v d) = if pyeqb k k' then Some v else dict_get k d.
Proof.
  induction d as [|[k2 v2] d IH]; simpl; [done|].
  destruct (pyeqb k' k2) eqn:E2; simpl.
  - apply pyeqb_eq in E2 as ->. by destruct (pyeqb k k2).
  - rewrite IH. destruct (pyeqb k k2) eqn:E; [|done].
    apply pyeqb_eq in E as ->. destruct (pyeqb k2 k') eqn:E3; [|done].
    apply pyeqb_eq in E3 as ->. by rewrite pyeqb_refl in E2.
Qed.

Lemma val_in_spec x l : val_in x l = true <-> exists s, s ∈ l /\ x = PStr (py s).
Proof.
  unfold val_in. rewrite existsb_exists. setoid_rewrite <- list_elem_of_In. split.
  - intros (s & Hs & Hx). exists s. split; [done|]. destruct x; try done. simpl in Hx.
    apply pyeqb_eq in Hx. by subst.
  - intros (s & Hs & ->). exists s. split; [done|]. simpl. apply pyeqb_refl.
Qed.

(** Every SQLodin client error is an [Error]; nothing else is. *)
Lemma isinstance_error e :
  isinstance e CError = true <->
  match e with
  | ConnectionError _ | QueryError _ | ConstraintError _ | SerializationError _
  | SessionError _ | PendingWriteError _ | UnknownOutcome _ => True
  | _ => False
  end.
Proof.
  assert (Hd : forall c m p, isinstance (Dbapi c m p) CError = false) by (intros [] ??; reflexivity).
  destruct e; rewrite ?Hd; (split; [|try done]); try done; vm_compute; done.
Qed.
