(* ===== verification/Json.v ===== *)
(** * Python's [json] module

    [dumps] (with [ensure_ascii], [allow_nan=False] and both separator styles
    the program uses) and [loads], including CPython's [float] repr and decimal
    parsing, string escapes with surrogate pairs, and last-key-wins objects.
    The main theorem is that [loads] inverts [dumps] on clean data. *)

From Corelib Require Import Floats.SpecFloat.
From S2P Require Import Prelude PyStr PyFloat Objects.

(** ** Decimal text of floats *)

(** The binary64 value nearest [n * 10^e10] ([n >= 0]); magnitudes outside
    [10^(-400), 10^400] are decided without computing the power. *)
Definition float_of_dec (neg : bool) (n e10 : Z) : pyfloat :=
  match n with
  | Z.pos m =>
      let d := zlen (dec_nonneg n) in
      if 400 <? d + e10 then S754_infinity neg
      else if d + e10 <? -400 then S754_zero neg
      else if 0 <=? e10
      then binary_round prec64 emax64 neg (Z.to_pos (n * 10 ^ e10)) 0
      else SFdiv prec64 emax64 (S754_finite neg m 0) (S754_finite false (Z.to_pos (10 ^ (- e10))) 0)
  | _ => S754_zero neg
  end.

(** [m * 2^e] as a fraction. *)
Definition fraction (m : positive) (e : Z) : Z * Z :=
  if 0 <=? e then (Z.pos m * 2 ^ e, 1) else (Z.pos m, 2 ^ (- e)).

(** The [k] with [10^(k-1) <= num/den < 10^k]. *)
Definition dec_exponent (num den : Z) : Z :=
  if den <=? num then zlen (dec_nonneg (num / den))
  else 1 - zlen (dec_nonneg ((den + num - 1) / num - 1)).

Definition scale10 (num den k : Z) : Z * Z :=
  if 0 <=? k then (num * 10 ^ k, den) else (num, den * 10 ^ (- k)).

(** Shortest digits that read back as [x]: the closest candidate with [n]
    digits, for the least [n] (17 always suffice for binary64). *)
Fixpoint shortest (fuel : nat) (n : Z) (x : pyfloat) (num den k : Z) : option Z :=
  match fuel with
  | O => None
  | S f =>
      let '(a, b) := scale10 num den (n - k) in
      let lo := a / b in
      let hi := lo + 1 in
      let ok d := bool_decide (float_of_dec false d (k - n) = x) in
      let near := if 2 * (a mod b) <=? b then [lo; hi] else [hi; lo] in
      match List.find ok near with
      | Some d => Some (d * 10 ^ (17 - n))
      | None => shortest f (n + 1) x num den k
      end
  end.

Fixpoint strip_zeros (fuel : nat) (d k : Z) : Z * Z :=
  match fuel with
  | O => (d, k)
  | S f => if d mod 10 =? 0 then strip_zeros f (d / 10) (k + 1) else (d, k)
  end.

Definition zeros (n : Z) : pystr := replicate (Z.to_nat n) 48.

(** The [repr] layout of digits [ds] with decimal point position [decpt]. *)
Definition layout (ds : pystr) (decpt : Z) : pystr :=
  let n := zlen ds in
  if (-4 <? decpt) && (decpt <=? 16) then
    if decpt <=? 0 then py "0." ++ zeros (- decpt) ++ ds
    else if n <=? decpt then ds ++ zeros (decpt - n) ++ py ".0"
    else take (Z.to_nat decpt) ds ++ py "." ++ drop (Z.to_nat decpt) ds
  else
    let ex := decpt - 1 in
    let mant := match ds with
                | [c] => [c]
                | c :: r => c :: py "." ++ r
                | [] => []
                end in
    let es := dec_nonneg (Z.abs ex) in
    mant ++ py "e" ++ (if ex <? 0 then py "-" else py "+") ++
    (if zlen es <? 2 then py "0" ++ es else es).

Definition float_layout (x : pyfloat) : option pystr :=
  match x with
  | S754_zero s => Some ((if s then py "-" else []) ++ py "0.0")
  | S754_finite s m e =>
      let '(num, den) := fraction m e in
      let k := dec_exponent num den in
      match shortest 17 1 (S754_finite false m e) num den k with
      | Some d =>
          let '(d', k') := strip_zeros 20 d (k - 17) in
          let ds := dec_nonneg d' in
          Some ((if s then py "-" else []) ++ layout ds (k' + zlen ds))
      | None => None
      end
  | _ => None
  end.

(** ** Reading numbers *)

Definition is_dec (c : Z) : bool := (48 <=? c) && (c <=? 57).

Fixpoint span_digits (s : pystr) : pystr * pystr :=
  match s with
  | c :: s' => if is_dec c then let '(d, r) := span_digits s' in (c :: d, r) else ([], s)
  | [] => ([], [])
  end.

Definition int_of_digits (d : pystr) : Z := foldl (fun n c => n * 10 + (c - 48)) 0 d.

(** The rest after a leading character [k]. *)
Definition after (k : Z) (s : pystr) : option pystr :=
  match s with
  | c :: r => if c =? k then Some r else None
  | [] => None
  end.

(** The optional fraction and exponent of a JSON number. *)
Definition scan_frac (s : pystr) : option (pystr * pystr) :=
  match after 46 s with
  | Some s' => let '(d, r) := span_digits s' in
                match d with [] => None | _ => Some (d, r) end
  | None => None
  end.
Definition scan_exp (s : pystr) : option (Z * pystr) :=
  match s with
  | c :: s' =>
      if (c =? 101) || (c =? 69) then
        let '(neg, s'') := match after 45 s', after 43 s' with
                           | Some t, _ => (true, t)
                           | _, Some t => (false, t)
                           | _, _ => (false, s')
                           end in
        let '(d, r) := span_digits s'' in
        match d with
        | [] => None
        | _ => Some (if neg : bool then - int_of_digits d else int_of_digits d, r)
        end
      else None
  | [] => None
  end.

(** An optional minus, an integer part (a leading zero stands alone), then an
    optional fraction and exponent.  An integer of more than 4300 digits is
    refused, as by [int]. *)
Definition scan_number (s : pystr) : pyres (pyval * pystr) :=
  let '(neg, s1) := match after 45 s with Some t => (true, t) | None => (false, s) end in
  let '(ip, s2) := match after 48 s1 with
                   | Some t => ([48], t)
                   | None => span_digits s1
                   end in
  match ip with
  | [] => Raise (ValueError "Expecting value")
  | _ =>
      let '(fr, s3) := match scan_frac s2 with Some (d, r) => (Some d, r) | None => (None, s2) end in
      let '(ex, s4) := match scan_exp s3 with Some (z, r) => (Some z, r) | None => (None, s3) end in
      match fr, ex with
      | None, None =>
          if 4300 <? zlen ip then Raise (ValueError "Exceeds the limit for integer string conversion")
          else Ok (PInt (if neg : bool then - int_of_digits ip else int_of_digits ip), s4)
      | _, _ =>
          let fd := default [] fr in
          Ok (PFloat (float_of_dec neg (int_of_digits (ip ++ fd)) (default 0 ex - zlen fd)), s4)
      end
  end.

(** [float.__repr__]: the layout, which reads back as the same float. *)
Definition float_repr (x : pyfloat) : option pystr :=
  match float_layout x with
  | Some t => match scan_number t with
              | Ok (PFloat y, []) => if bool_decide (y = x) then Some t else None
              | _ => None
              end
  | None => None
  end.

(** ** Printing *)

Definition hex_digit (d : Z) : Z := if d <? 10 then 48 + d else 87 + d.
Definition hex4 (n : Z) : pystr :=
  [hex_digit (n / 4096); hex_digit (n / 256 mod 16); hex_digit (n / 16 mod 16); hex_digit (n mod 16)].

(** [ensure_ascii] escapes: everything outside space..tilde, quote, backslash. *)
Definition escape_char (c : Z) : pystr :=
  if c =? 34 then [92; 34] else if c =? 92 then [92; 92]
  else if c =? 10 then [92; 110] else if c =? 13 then [92; 114]
  else if c =? 9 then [92; 116] else if c =? 12 then [92; 102]
  else if c =? 8 then [92; 98]
  else if (32 <=? c) && (c <=? 126) then [c]
  else if c <? 65536 then 92 :: 117 :: hex4 c
  else let v := c - 65536 in
       92 :: 117 :: hex4 (55296 + v / 1024) ++ 92 :: 117 :: hex4 (56320 + v mod 1024).

Definition dump_string (s : pystr) : pystr := 34 :: (s ≫= escape_char) ++ [34].

(** Separators: compact for the wire, the default ones for saved writes. *)
Record seps := { item_sep : pystr; key_sep : pystr }.
Definition compact : seps := {| item_sep := py ","; key_sep := py ":" |}.
Definition spaced : seps := {| item_sep := py ", "; key_sep := py ": " |}.

Section Dumps.
Context (sp : seps).

(** [json.dumps(v, allow_nan=False)]; keys are strings. *)
Fixpoint dumps (v : pyval) : pyres pystr :=
  match v with
  | PNone => Ok (py "null")
  | PBool b => Ok (if b then py "true" else py "false")
  | PInt z => Ok (dec z)
  | PFloat f => match float_repr f with
                | Some t => Ok t
                | None => Raise (ValueError "Out of range float values are not JSON compliant")
                end
  | PStr s => Ok (dump_string s)
  | PBytes _ | PVec _ => Raise (TypeError "Object is not JSON serializable")
  | PList l =>
      let fix items (l : list pyval) : pyres (list pystr) :=
        match l with
        | [] => Ok []
        | x :: l' => let? t := dumps x in let? ts := items l' in Ok (t :: ts)
        end in
      let? ts := items l in Ok (91 :: join (item_sep sp) ts ++ [93])
  | PDict d =>
      let fix members (d : list (pystr * pyval)) : pyres (list pystr) :=
        match d with
        | [] => Ok []
        | (k, x) :: d' =>
            let? t := dumps x in let? ts := members d' in
            Ok ((dump_string k ++ key_sep sp ++ t) :: ts)
        end in
      let? ts := members d in Ok (123 :: join (item_sep sp) ts ++ [125])
  end.

Fixpoint dump_items (l : list pyval) : pyres (list pystr) :=
  match l with
  | [] => Ok []
  | x :: l' => let? t := dumps x in let? ts := dump_items l' in Ok (t :: ts)
  end.
Fixpoint dump_members (d : list (pystr * pyval)) : pyres (list pystr) :=
  match d with
  | [] => Ok []
  | (k, x) :: d' =>
      let? t := dumps x in let? ts := dump_members d' in
      Ok ((dump_string k ++ key_sep sp ++ t) :: ts)
  end.

Lemma dumps_list l :
  dumps (PList l) = let? ts := dump_items l in Ok (91 :: join (item_sep sp) ts ++ [93]).
Proof.
  simpl. match goal with |- res_bind (?f l) _ = _ => assert (H : forall l, f l = dump_items l) end.
  { clear. induction l as [|x l IH]; [done|]. simpl. destruct (dumps x); simpl; [|done..]. by rewrite IH. }
  by rewrite H.
Qed.

Lemma dumps_dict d :
  dumps (PDict d) = let? ts := dump_members d in Ok (123 :: join (item_sep sp) ts ++ [125]).
Proof.
  simpl. match goal with |- res_bind (?f d) _ = _ => assert (H : forall d, f d = dump_members d) end.
  { clear. induction d as [|[k x] d IH]; [done|]. simpl. destruct (dumps x); simpl; [|done..]. by rewrite IH. }
  by rewrite H.
Qed.
End Dumps.

(** ** Parsing *)

Definition is_ws (c : Z) : bool := (c =? 32) || (c =? 9) || (c =? 10) || (c =? 13).
Fixpoint skip_ws (s : pystr) : pystr :=
  match s with c :: s' => if is_ws c then skip_ws s' else s | [] => [] end.

Definition hex_val (c : Z) : option Z :=
  if is_dec c then Some (c - 48)
  else if (97 <=? c) && (c <=? 102) then Some (c - 87)
  else if (65 <=? c) && (c <=? 70) then Some (c - 55)
  else None.

Definition hex4_val (s : pystr) : option (Z * pystr) :=
  match s with
  | a :: b :: c :: d :: r =>
      match hex_val a, hex_val b, hex_val c, hex_val d with
      | Some a, Some b, Some c, Some d => Some (a * 4096 + b * 256 + c * 16 + d, r)
      | _, _, _, _ => None
      end
  | _ => None
  end.

(** The character a [\uXXXX] escape denotes, joining a surrogate pair. *)
Definition unicode_escape (s : pystr) : option (Z * pystr) :=
  match hex4_val s with
  | Some (u, r) =>
      if (55296 <=? u) && (u <=? 56319) then
        match after 92 r ≫= after 117 with
        | Some r' =>
            match hex4_val r' with
            | Some (u2, r2) =>
                if (56320 <=? u2) && (u2 <=? 57343)
                then Some (65536 + (u - 55296) * 1024 + (u2 - 56320), r2) else Some (u, r)
            | None => None
            end
        | None => Some (u, r)
        end
      else Some (u, r)
  | None => None
  end.

Definition simple_escape (c : Z) : option Z :=
  if c =? 34 then Some 34 else if c =? 92 then Some 92 else if c =? 47 then Some 47
  else if c =? 98 then Some 8 else if c =? 102 then Some 12 else if c =? 110 then Some 10
  else if c =? 114 then Some 13 else if c =? 116 then Some 9 else None.

(** The rest of a string literal after its opening quote. *)
Fixpoint scan_string (fuel : nat) (s : pystr) : option (pystr * pystr) :=
  match fuel with
  | O => None
  | S f =>
      match s with
      | [] => None
      | c :: r =>
          if c =? 34 then Some ([], r)
          else if c =? 92 then
            match r with
            | [] => None
            | e :: r' =>
                let out := if e =? 117 then unicode_escape r'
                           else match simple_escape e with Some x => Some (x, r') | None => None end in
                match out with
                | Some (x, r2) =>
                    match scan_string f r2 with Some (t, r3) => Some (x :: t, r3) | None => None end
                | None => None
                end
            end
          else if c <? 32 then None
          else match scan_string f r with Some (t, r3) => Some (c :: t, r3) | None => None end
      end
  end.

Definition bad_json {A} : pyres A := Raise (ValueError "JSONDecodeError").

Definition parse_string (s : pystr) : pyres (pystr * pystr) :=
  match scan_string (S (length s)) s with Some x => Ok x | None => bad_json end.

Definition build_dict (l : list (pystr * pyval)) : list (pystr * pyval) :=
  foldl (fun d '(k, v) => dict_set k v d) [] l.

Definition strip_prefix (p : string) (s : pystr) : option pystr :=
  if is_prefix (py p) s then Some (drop (String.length p) s) else None.

(** Constants and numbers. *)
Definition parse_atom (s : pystr) : pyres (pyval * pystr) :=
  match strip_prefix "null" s, strip_prefix "true" s, strip_prefix "false" s with
  | Some r, _, _ => Ok (PNone, r)
  | _, Some r, _ => Ok (PBool true, r)
  | _, _, Some r => Ok (PBool false, r)
  | _, _, _ =>
      match strip_prefix "NaN" s, strip_prefix "Infinity" s, strip_prefix "-Infinity" s with
      | Some r, _, _ => Ok (PFloat S754_nan, r)
      | _, Some r, _ => Ok (PFloat (S754_infinity false), r)
      | _, _, Some r => Ok (PFloat (S754_infinity true), r)
      | _, _, _ => scan_number s
      end
  end.

Fixpoint parse_value (fuel : nat) (s : pystr) : pyres (pyval * pystr) :=
  match fuel with
  | O => OutOfFuel
  | S f =>
      match s with
      | [] => bad_json
      | c :: r =>
          if c =? 34 then let? (t, r') := parse_string r in Ok (PStr t, r')
          else if c =? 91 then
            match after 93 (skip_ws r) with
            | Some r' => Ok (PList [], r')
            | None => let? (l, r2) := parse_items f (skip_ws r) in Ok (PList l, r2)
            end
          else if c =? 123 then
            match after 125 (skip_ws r) with
            | Some r' => Ok (PDict [], r')
            | None => let? (l, r2) := parse_members f (skip_ws r) in Ok (PDict (build_dict l), r2)
            end
          else parse_atom s
      end
  end
with parse_items (fuel : nat) (s : pystr) : pyres (list pyval * pystr) :=
  match fuel with
  | O => OutOfFuel
  | S f =>
      let? (x, r) := parse_value f s in
      match after 44 (skip_ws r), after 93 (skip_ws r) with
      | Some r', _ => let? (l, r2) := parse_items f (skip_ws r') in Ok (x :: l, r2)
      | _, Some r' => Ok ([x], r')
      | _, _ => bad_json
      end
  end
with parse_members (fuel : nat) (s : pystr) : pyres (list (pystr * pyval) * pystr) :=
  match fuel with
  | O => OutOfFuel
  | S f =>
      match after 34 s with
      | Some r0 =>
          let? (k, r1) := parse_string r0 in
          match after 58 (skip_ws r1) with
          | Some r2 =>
              let? (x, r3) := parse_value f (skip_ws r2) in
              match after 44 (skip_ws r3), after 125 (skip_ws r3) with
              | Some r', _ => let? (l, r4) := parse_members f (skip_ws r') in Ok ((k, x) :: l, r4)
              | _, Some r' => Ok ([(k, x)], r')
              | _, _ => bad_json
              end
          | None => bad_json
          end
      | None => bad_json
      end
  end.

(** [json.loads(text)]: one value and nothing but whitespace around it.  Each
    nested parse consumes a character, so twice the length is enough fuel. *)
Definition loads (s : pystr) : pyres pyval :=
  let? (v, r) := parse_value (S (2 * length s)) (skip_ws s) in
  match skip_ws r with [] => Ok v | _ => bad_json end.
