(* ===== verification/JsonProofs.v ===== *)
(** * [json.loads] inverts [json.dumps]

    The round trip on clean data (code points without surrogates, distinct
    keys, integers within CPython's conversion limit), for both separator styles. *)

From Corelib Require Import Floats.SpecFloat.
From S2P Require Import Prelude PyStr PyFloat Objects Json.
#[local] Set Warnings "-register-all".

(** ** Induction over nested data *)

Section PyvalInd.
Context (P : pyval -> Prop).
Context (Hnone : P PNone) (Hbool : forall b, P (PBool b)) (Hint : forall z, P (PInt z))
        (Hfloat : forall f, P (PFloat f)) (Hstr : forall s, P (PStr s))
        (Hbytes : forall b, P (PBytes b)) (Hvec : forall v, P (PVec v))
        (Hlist : forall l, Forall P l -> P (PList l))
        (Hdict : forall d, Forall (fun kv => P kv.2) d -> P (PDict d)).

Fixpoint pyval_rect' (v : pyval) : P v :=
  match v with
  | PNone => Hnone
  | PBool b => Hbool b
  | PInt z => Hint z
  | PFloat f => Hfloat f
  | PStr s => Hstr s
  | PBytes b => Hbytes b
  | PVec w => Hvec w
  | PList l =>
      Hlist l ((fix go (l : list pyval) : Forall P l :=
                  match l with
                  | [] => Forall_nil_2 _
                  | x :: l' => Forall_cons_2 _ _ _ (pyval_rect' x) (go l')
                  end) l)
  | PDict d =>
      Hdict d ((fix go (d : list (pystr * pyval)) : Forall (fun kv => P kv.2) d :=
                  match d with
                  | [] => Forall_nil_2 _
                  | kv :: d' => Forall_cons_2 (fun kv => P kv.2) kv d' (pyval_rect' kv.2) (go d')
                  end) d)
  end.
End PyvalInd.

(** A scalar_value value a Python [str] can encode: no surrogate code points. *)
Definition scalar_value (c : Z) : Prop := 0 <= c < 1114112 /\ is_surrogate c = false.

Inductive clean : pyval -> Prop :=
| clean_none : clean PNone
| clean_bool b : clean (PBool b)
| clean_int z : zlen (dec_nonneg (Z.abs z)) <= 4300 -> clean (PInt z)
| clean_float f : clean (PFloat f)
| clean_str s : Forall scalar_value s -> clean (PStr s)
| clean_list l : Forall clean l -> clean (PList l)
| clean_dict d :
    NoDup d.*1 -> Forall (fun kv => Forall scalar_value kv.1 /\ clean kv.2) d -> clean (PDict d).

(** ** Strings *)

Lemma hex_val_digit d : 0 <= d < 16 -> hex_val (hex_digit d) = Some d.
Proof.
  intros Hd. unfold hex_val, hex_digit, is_dec. destruct (Z.ltb_spec d 10).
  - replace (48 <=? 48 + d) with true by lia. replace (48 + d <=? 57) with true by lia.
    simpl. f_equal. lia.
  - replace (48 <=? 87 + d) with true by lia. replace (87 + d <=? 57) with false by lia.
    replace (97 <=? 87 + d) with true by lia. replace (87 + d <=? 102) with true by lia.
    simpl. f_equal. lia.
Qed.

Lemma hex4_round n r : 0 <= n < 65536 -> hex4_val (hex4 n ++ r) = Some (n, r).
Proof.
  intros Hn. unfold hex4. cbn [app hex4_val].
  rewrite !hex_val_digit by dlia. do 2 f_equal. dlia.
Qed.

#[local] Arguments hex4 : simpl never.

Lemma unicode_escape_bmp c r :
  0 <= c < 65536 -> is_surrogate c = false -> unicode_escape (hex4 c ++ r) = Some (c, r).
Proof.
  intros Hc Hs. unfold unicode_escape. rewrite hex4_round by done.
  unfold is_surrogate in Hs. destruct (Z.leb_spec 55296 c); [|done]. simpl in *.
  apply Z.leb_gt in Hs. by replace (c <=? 56319) with false by lia.
Qed.

Lemma unicode_escape_pair v r :
  0 <= v < 1048576 ->
  unicode_escape (hex4 (55296 + v / 1024) ++ 92 :: 117 :: hex4 (56320 + v mod 1024) ++ r) =
  Some (65536 + v, r).
Proof.
  intros Hv. unfold unicode_escape. rewrite hex4_round by dlia.
  replace (55296 <=? 55296 + v / 1024) with true by dlia.
  replace (55296 + v / 1024 <=? 56319) with true by dlia. simpl andb.
  assert (Ha : forall t, after 92 (92 :: 117 :: t) ≫= after 117 = Some t) by done.
  rewrite Ha, hex4_round by dlia.
  replace (56320 <=? 56320 + v mod 1024) with true by dlia.
  replace (56320 + v mod 1024 <=? 57343) with true by dlia. simpl.
  do 2 f_equal. dlia.
Qed.

(** One printed character is read back, one unit of fuel at a time. *)
Lemma scan_char f c r t r' :
  scalar_value c -> scan_string f r = Some (t, r') ->
  scan_string (S f) (escape_char c ++ r) = Some (c :: t, r').
Proof.
  intros [Hc Hs] Hr. unfold escape_char.
  repeat match goal with |- context [if ?b then _ else _] =>
    lazymatch b with context [c] => destruct b eqn:? end end; unbool; subst.
  all: try (cbn [app scan_string]; simpl; by rewrite Hr).
  - cbn [app scan_string]. replace (c =? 34) with false by lia.
    replace (c =? 92) with false by lia. replace (c <? 32) with false by lia. by rewrite Hr.
  - rewrite <- !app_comm_cons. cbn [scan_string]. rewrite unicode_escape_bmp by (done || lia).
    simpl. by rewrite Hr.
  - cbv zeta. rewrite <- !app_comm_cons, <- app_assoc, <- !app_comm_cons. cbn [scan_string].
    rewrite unicode_escape_pair by lia. simpl. rewrite Hr. do 3 f_equal. lia.
Qed.

Lemma scan_dump_string s r f :
  Forall scalar_value s -> (length s < f)%nat ->
  scan_string f ((s ≫= escape_char) ++ 34 :: r) = Some (s, r).
Proof.
  intros Hs. revert f. induction Hs as [|c s Hc Hs IH]; intros f Hf.
  - destruct f; [lia|]. done.
  - destruct f; [simpl in Hf; lia|]. csimpl. rewrite <- app_assoc.
    apply scan_char; [done|]. apply IH. simpl in Hf. lia.
Qed.

Lemma escape_char_length c : (1 <= length (escape_char c) <= 12)%nat.
Proof. unfold escape_char. repeat case_match; simpl; lia. Qed.

Lemma escape_length s : (length s <= length (s ≫= escape_char))%nat.
Proof.
  induction s as [|c s IH]; [done|]. csimpl. rewrite length_app.
  pose proof (escape_char_length c). lia.
Qed.

Lemma parse_dump_string s r :
  Forall scalar_value s -> parse_string ((s ≫= escape_char) ++ 34 :: r) = Ok (s, r).
Proof.
  intros Hs. unfold parse_string. rewrite scan_dump_string; [done|done|].
  rewrite length_app. pose proof (escape_length s). lia.
Qed.

(** ** Numbers *)

(** What may follow a number so that its scan stops there. *)
Definition num_stop (r : pystr) : Prop :=
  match r with
  | [] => True
  | c :: _ => is_dec c = false /\ c <> 46 /\ c <> 101 /\ c <> 69
  end.

Lemma span_digits_all d r :
  Forall (fun c => is_dec c = true) d -> num_stop r -> span_digits (d ++ r) = (d, r).
Proof.
  intros Hd Hr. induction Hd as [|c d Hc Hd IH]; simpl.
  - destruct r as [|c r]; [done|]. destruct Hr as [Hr _]. simpl. by rewrite Hr.
  - by rewrite Hc, IH.
Qed.

Lemma span_digits_spec s d r :
  span_digits s = (d, r) -> s = d ++ r /\ Forall (fun c => is_dec c = true) d.
Proof.
  revert d r. induction s as [|c s IH]; intros d r; simpl.
  { intros [= <- <-]. by split. }
  destruct (is_dec c) eqn:Hc; [|intros [= <- <-]; by split].
  destruct (span_digits s) as [d' r'] eqn:E. intros [= <- <-].
  destruct (IH _ _ eq_refl) as [-> ?]. split; [done|by constructor].
Qed.

Lemma span_digits_app s d r t :
  span_digits s = (d, r) -> (r <> [] \/ num_stop t) -> span_digits (s ++ t) = (d, r ++ t).
Proof.
  revert d r. induction s as [|c s IH]; intros d r; simpl.
  { intros [= <- <-] [?|Ht]; [done|]. by apply (span_digits_all [] t). }
  destruct (is_dec c) eqn:Hc; [|intros [= <- <-]; done].
  destruct (span_digits s) as [d' r'] eqn:E. intros [= <- <-] Hr.
  by rewrite (IH _ _ eq_refl Hr).
Qed.

Lemma num_stop_frac r : num_stop r -> scan_frac r = None.
Proof.
  destruct r as [|c r]; [done|]. intros (_ & Hc & _). unfold scan_frac. simpl.
  by destruct (Z.eqb_spec c 46).
Qed.

Lemma num_stop_exp r : num_stop r -> scan_exp r = None.
Proof.
  destruct r as [|c r]; [done|]. intros (_ & _ & H1 & H2). simpl.
  destruct (Z.eqb_spec c 101); [done|]. by destruct (Z.eqb_spec c 69).
Qed.

Lemma int_of_digits_snoc d c : int_of_digits (d ++ [c]) = int_of_digits d * 10 + (c - 48).
Proof. unfold int_of_digits. by rewrite foldl_app. Qed.

(** Decimal digits: [n < 10^f] is printed exactly. *)
Lemma dec_digits_spec f n :
  0 <= n < 10 ^ Z.of_nat f -> (0 < f)%nat ->
  Forall (fun c => is_dec c = true) (dec_digits f n) /\
  int_of_digits (dec_digits f n) = n /\
  (0 < n -> exists c d, dec_digits f n = c :: d /\ 49 <= c <= 57).
Proof.
  revert n. induction f as [|f IH]; intros n Hn Hf; [lia|]. cbn [dec_digits].
  destruct (Z.ltb_spec n 10).
  - repeat split.
    + constructor; [|done]. unfold is_dec. lia.
    + unfold int_of_digits. simpl. lia.
    + intros ?. exists (48 + n), []. split; [done|lia].
  - destruct f as [|f]; [simpl in Hn; lia|].
    rewrite Nat2Z.inj_succ, Z.pow_succ_r in Hn by lia.
    destruct (IH (n / 10)) as (Hd & Hv & Hh); [dlia|lia|]. repeat split.
    + apply Forall_app. split; [done|]. constructor; [|done]. unfold is_dec. dlia.
    + rewrite int_of_digits_snoc, Hv. dlia.
    + intros _. destruct Hh as (c & d & -> & Hc); [dlia|]. exists c, (d ++ [48 + n mod 10]). done.
Qed.

Lemma dec_nonneg_spec n :
  0 <= n ->
  Forall (fun c => is_dec c = true) (dec_nonneg n) /\ int_of_digits (dec_nonneg n) = n /\
  (0 < n -> exists c d, dec_nonneg n = c :: d /\ 49 <= c <= 57).
Proof.
  intros Hn. apply dec_digits_spec; [|lia]. split; [done|].
  destruct (Z.eq_dec n 0) as [->|]; [done|].
  pose proof (Z.log2_spec n ltac:(lia)) as [_ Hl]. rewrite Nat2Z.inj_succ, Z2Nat.id by apply Z.log2_nonneg.
  eapply Z.lt_le_trans; [exact Hl|]. apply Z.pow_le_mono_l. lia.
Qed.

Lemma is_dec_head c : 49 <= c <= 57 -> is_dec c = true /\ c <> 48 /\ c <> 45.
Proof. unfold is_dec. lia. Qed.

(** [int] text is read back as the same integer. *)
Lemma scan_dec z r :
  zlen (dec_nonneg (Z.abs z)) <= 4300 -> num_stop r -> scan_number (dec z ++ r) = Ok (PInt z, r).
Proof.
  intros Hlen Hr.
  assert (Hnat : forall n, 0 <= n -> zlen (dec_nonneg n) <= 4300 ->
            exists c d, dec_nonneg n = c :: d /\ c <> 45 /\
            match after 48 (dec_nonneg n ++ r) with
            | Some t => ([48], t) | None => span_digits (dec_nonneg n ++ r) end = (dec_nonneg n, r)).
  { intros n Hn _. destruct (dec_nonneg_spec n Hn) as (Hd & _ & Hh).
    destruct (Z.eq_dec n 0) as [->|Hn0]; [exists 48, []; done|].
    destruct Hh as (c & d & Hcd & Hc); [lia|]. exists c, d. rewrite Hcd in *.
    destruct (is_dec_head c Hc) as (_ & H48 & H45). split_and!; [done..|].
    change (after 48 ((c :: d) ++ r)) with (if c =? 48 then Some (d ++ r) else None).
    destruct (Z.eqb_spec c 48); [done|].
    change (c :: d ++ r) with ((c :: d) ++ r). by rewrite (span_digits_all (c :: d) r). }
  destruct (Hnat (Z.abs z) ltac:(lia) Hlen) as (c & d & Hcd & H45 & Hs).
  destruct (dec_nonneg_spec (Z.abs z) ltac:(lia)) as (_ & Hv & _).
  unfold scan_number, dec. destruct (Z.ltb_spec z 0) as [Hz|Hz].
  - replace (- z) with (Z.abs z) by lia. cbn [app after]. rewrite Z.eqb_refl.
    rewrite Hs, num_stop_frac, num_stop_exp, Hv by done. rewrite Hcd in *.
    destruct (Z.ltb_spec 4300 (zlen (c :: d))); [lia|]. do 3 f_equal. lia.
  - replace (dec_nonneg z) with (dec_nonneg (Z.abs z)) by (f_equal; lia).
    assert (Ha : after 45 (dec_nonneg (Z.abs z) ++ r) = None).
    { rewrite Hcd. simpl. by destruct (Z.eqb_spec c 45). }
    rewrite Ha, Hs, num_stop_frac, num_stop_exp, Hv by done. rewrite Hcd in *.
    destruct (Z.ltb_spec 4300 (zlen (c :: d))); [lia|]. do 3 f_equal. lia.
Qed.

Lemma after_app k s t r : after k s = Some t -> after k (s ++ r) = Some (t ++ r).
Proof. destruct s as [|c s]; [done|]. simpl. destruct (c =? k); [|done]. by intros [= ->]. Qed.

Lemma after_none_app k s r : s <> [] -> after k s = None -> after k (s ++ r) = None.
Proof. destruct s as [|c s]; [done|]. simpl. by destruct (c =? k). Qed.

Lemma scan_exp_app s z r :
  scan_exp s = Some (z, []) -> num_stop r -> scan_exp (s ++ r) = Some (z, r).
Proof.
  destruct s as [|c s]; [done|]. cbn [scan_exp app]. destruct ((c =? 101) || (c =? 69)); [|done].
  intros H Hr.
  assert (Hs : exists neg s2, (match after 45 s, after 43 s with
     | Some t, _ => (true, t) | _, Some t => (false, t) | _, _ => (false, s) end) = (neg, s2) /\
     (s <> [] -> (match after 45 (s ++ r), after 43 (s ++ r) with
     | Some t, _ => (true, t) | _, Some t => (false, t) | _, _ => (false, s ++ r) end) = (neg, s2 ++ r))).
  { destruct (after 45 s) eqn:E1; [do 2 eexists; split; [done|intros _; by rewrite (after_app _ _ _ _ E1)]|].
    destruct (after 43 s) eqn:E2; do 2 eexists; (split; [done|intros Hn]);
      rewrite (after_none_app _ _ _ Hn E1).
    - by rewrite (after_app _ _ _ _ E2).
    - by rewrite (after_none_app _ _ _ Hn E2). }
  destruct Hs as (neg & s2 & Hs & Hsr). rewrite Hs in H.
  destruct (span_digits s2) as [d r2] eqn:Hd. destruct d as [|x d]; [done|]. simplify_eq.
  assert (s <> []) by (intros ->; simpl in Hs; simplify_eq/=). rewrite Hsr by done.
  by rewrite (span_digits_app _ _ _ _ Hd (or_intror Hr)).
Qed.

Lemma scan_frac_app s d t r :
  scan_frac s = Some (d, t) -> num_stop r -> scan_frac (s ++ r) = Some (d, t ++ r).
Proof.
  unfold scan_frac. destruct (after 46 s) as [s'|] eqn:Ha; [|done].
  rewrite (after_app _ _ _ _ Ha). intros H Hr. destruct (span_digits s') as [d' t'] eqn:Hd.
  rewrite (span_digits_app _ _ _ _ Hd (or_intror Hr)). by destruct d'; simplify_eq.
Qed.

(** The tail of a number that is consumed completely is unaffected by what follows. *)
Lemma scan_tail_app s r :
  num_stop r ->
  let frac s := match scan_frac s with Some (d, r) => (Some d, r) | None => (None, s) end in
  let exp s := match scan_exp s with Some (z, r) => (Some z, r) | None => (None, s) end in
  (exp (frac s).2).2 = [] ->
  (frac (s ++ r)).1 = (frac s).1 /\
  exp (frac (s ++ r)).2 = ((exp (frac s).2).1, r).
Proof.
  cbv beta zeta. intros Hr. destruct (scan_frac s) as [[d t]|] eqn:Hf; simpl.
  - rewrite (scan_frac_app _ _ _ _ Hf Hr). simpl.
    destruct (scan_exp t) as [[z u]|] eqn:He; simpl; intros H; subst.
    + by rewrite (scan_exp_app _ _ _ He Hr).
    + simpl. by rewrite num_stop_exp.
  - destruct (scan_exp s) as [[z u]|] eqn:He; simpl; intros Hs; subst.
    + assert (Hf' : scan_frac (s ++ r) = None).
      { unfold scan_frac. destruct s as [|c s]; [done|]. simpl in He |- *.
        destruct (Z.eqb_spec c 46) as [->|]; [done|]. done. }
      rewrite Hf'. simpl. by rewrite (scan_exp_app _ _ _ He Hr).
    + simpl. rewrite num_stop_frac, num_stop_exp by done. done.
Qed.

Lemma scan_number_app t v r :
  scan_number t = Ok (v, []) -> num_stop r -> scan_number (t ++ r) = Ok (v, r).
Proof.
  intros H Hr. unfold scan_number in *.
  assert (H1 : t <> []) by (intros ->; done).
  destruct (match after 45 t with Some t0 => (true, t0) | None => (false, t) end) as [neg s1] eqn:E1.
  assert (E1' : (match after 45 (t ++ r) with Some t0 => (true, t0) | None => (false, t ++ r) end)
                = (neg, s1 ++ r)).
  { destruct (after 45 t) eqn:Ha; simplify_eq.
    - by rewrite (after_app _ _ _ _ Ha).
    - by rewrite (after_none_app _ _ _ H1 Ha). }
  rewrite E1'. clear E1'.
  destruct (match after 48 s1 with Some t0 => ([48], t0) | None => span_digits s1 end) as [ip s2] eqn:E2.
  destruct ip as [|i0 ip]; [done|].
  assert (E2' : (match after 48 (s1 ++ r) with Some t0 => ([48], t0) | None => span_digits (s1 ++ r) end)
                = (i0 :: ip, s2 ++ r)).
  { destruct (after 48 s1) eqn:Ha; simplify_eq.
    - by rewrite (after_app _ _ _ _ Ha).
    - destruct s1 as [|c s1]; [done|]. rewrite (after_none_app 48 (c :: s1) r) by done.
      by rewrite (span_digits_app _ _ _ _ E2 (or_intror Hr)). }
  rewrite E2'. clear E2'.
  pose proof (scan_tail_app s2 r Hr) as Ht. cbv beta zeta in Ht.
  destruct (match scan_frac s2 with Some (d, r) => (Some d, r) | None => (None, s2) end) as [fr s3] eqn:E3.
  destruct (match scan_frac (s2 ++ r) with Some (d, r) => (Some d, r) | None => (None, s2 ++ r) end)
    as [fr' s3'] eqn:E3'. simpl in Ht.
  destruct (match scan_exp s3 with Some (z, r) => (Some z, r) | None => (None, s3) end) as [ex s4] eqn:E4.
  assert (s4 = []) as -> by (destruct fr, ex; try (by simplify_eq); destruct (4300 <? _); by simplify_eq).
  destruct (Ht eq_refl) as [-> ->]. simpl.
  destruct fr, ex; simplify_eq; try done. destruct (4300 <? _); by simplify_eq.
Qed.

(** ** Values *)

(** A number starts with a digit, or with a minus and a digit. *)
Lemma scan_number_head t x :
  scan_number t = Ok x ->
  exists c t', t = c :: t' /\
  (is_dec c = true \/ (c = 45 /\ exists d t'', t' = d :: t'' /\ is_dec d = true)).
Proof.
  intros H. unfold scan_number in H.
  assert (Hd : forall s, match after 48 s with Some t => ([48], t) | None => span_digits s end <> ([], s) ->
            exists c s', s = c :: s' /\ is_dec c = true).
  { intros [|c s] Hs; [done|]. exists c, s. split; [done|]. simpl in Hs.
    destruct (Z.eqb_spec c 48) as [->|]; [done|]. by destruct (is_dec c). }
  assert (Hne : forall s s2, span_digits s = ([], s2) -> s2 = s).
  { intros s s2 E. by destruct (span_digits_spec _ _ _ E) as [-> _]. }
  assert (Hip : forall s ip s2,
            match after 48 s with Some t => ([48], t) | None => span_digits s end = (ip, s2) ->
            ip <> [] -> exists c s', s = c :: s' /\ is_dec c = true).
  { intros s ip s2 E Hn. apply Hd. rewrite E. intros [= -> ->]. done. }
  destruct t as [|c t]; [done|]. exists c, t. split; [done|]. simpl after in H at 1.
  destruct (Z.eqb_spec c 45) as [->|Hc].
  - right. split; [done|].
    destruct (match after 48 t with Some t0 => ([48], t0) | None => span_digits t end) as [ip s2] eqn:E.
    destruct ip; [done|]. eapply Hip; done.
  - left. destruct (match after 48 (c :: t) with Some t0 => ([48], t0) | None => span_digits (c :: t) end)
      as [ip s2] eqn:E.
    destruct ip; [done|]. destruct (Hip _ _ _ E ltac:(done)) as (? & ? & ? & ?). by simplify_eq.
Qed.

Lemma is_dec_range c : is_dec c = true <-> 48 <= c <= 57.
Proof. unfold is_dec. lia. Qed.

Lemma parse_value_number f t v r :
  scan_number t = Ok (v, []) -> num_stop r -> parse_value (S f) (t ++ r) = Ok (v, r).
Proof.
  intros H Hr. destruct (scan_number_head _ _ H) as (c & t' & -> & Hc).
  rewrite <- (scan_number_app _ _ _ H Hr).
  assert (Hc' : c <> 34 /\ c <> 91 /\ c <> 123 /\ c <> 110 /\ c <> 116 /\ c <> 102 /\ c <> 78 /\ c <> 73).
  { destruct Hc as [Hc|[-> _]]; [apply is_dec_range in Hc|]; lia. }
  destruct Hc' as (? & ? & ? & ? & ? & ? & ? & ?).
  assert (Hp : forall k s, py s = k :: drop 1 (py s) -> c <> k -> strip_prefix s ((c :: t') ++ r) = None).
  { intros k s Hs Hk. unfold strip_prefix. rewrite Hs. cbn [app is_prefix].
    by destruct (Z.eqb_spec k c). }
  assert (Hinf : strip_prefix "-Infinity" ((c :: t') ++ r) = None).
  { destruct Hc as [Hc|(-> & d & t'' & -> & Hd)].
    - apply (Hp 45); [done|]. apply is_dec_range in Hc. lia.
    - unfold strip_prefix. apply is_dec_range in Hd.
      change (py "-Infinity") with (45 :: 73 :: drop 2 (py "-Infinity")).
      cbn [app is_prefix]. rewrite Z.eqb_refl. by destruct (Z.eqb_spec 73 d); [lia|]. }
  unfold parse_atom in *. cbn [app parse_value].
  destruct (Z.eqb_spec c 34); [done|]. destruct (Z.eqb_spec c 91); [done|].
  destruct (Z.eqb_spec c 123); [done|]. unfold parse_atom.
  change (c :: t' ++ r) with ((c :: t') ++ r).
  by rewrite (Hp 110), (Hp 116), (Hp 102), (Hp 78), (Hp 73), Hinf.
Qed.

Lemma float_repr_scan x t : float_repr x = Some t -> scan_number t = Ok (PFloat x, []).
Proof.
  unfold float_repr. destruct (float_layout x) as [u|]; [|done].
  destruct (scan_number u) as [[[] []]| |] eqn:E; try done.
  case_bool_decide; [|done]. intros [= <-]. by subst.
Qed.

Section Round.
Context (sp : seps).

Definition head_ok (t : pystr) : Prop := exists c t', t = c :: t' /\ is_ws c = false /\ c <> 93 /\ c <> 125.

Lemma number_head t x : scan_number t = Ok x -> head_ok t.
Proof.
  intros H. destruct (scan_number_head _ _ H) as (c & t' & -> & Hc). exists c, t'.
  split; [done|]. unfold is_ws. destruct Hc as [Hc|[-> _]]; [apply is_dec_range in Hc|]; lia.
Qed.

Lemma dumps_head v t : clean v -> dumps sp v = Ok t -> head_ok t.
Proof.
  intros Hv H. destruct v as [|b|z|f|s|b|w|l|d]; try done.
  - simplify_eq/=. by exists 110, (py "ull").
  - destruct b; simplify_eq/=; [by exists 116, (py "rue")|by exists 102, (py "alse")].
  - simplify_eq/=. inversion Hv; subst.
    pose proof (scan_dec z [] ltac:(done) ltac:(done)) as Hs. rewrite app_nil_r in Hs.
    by eapply number_head.
  - simpl in H. destruct (float_repr f) eqn:E; simplify_eq. eapply number_head, float_repr_scan, E.
  - simplify_eq/=. by eexists 34, _.
  - rewrite dumps_list in H. destruct (dump_items sp l); simplify_eq/=. by eexists 91, _.
  - rewrite dumps_dict in H. destruct (dump_members sp d); simplify_eq/=. by eexists 123, _.
Qed.

Lemma skip_ws_head t r : head_ok t -> skip_ws (t ++ r) = t ++ r.
Proof. intros (c & t' & -> & Hw & _). simpl. by rewrite Hw. Qed.

Lemma skip_ws_all w t : Forall (fun c => is_ws c = true) w -> skip_ws (w ++ t) = skip_ws t.
Proof. induction 1 as [|c w Hc Hw IH]; [done|]. simpl. by rewrite Hc. Qed.
End Round.

Lemma dict_set_fresh k v d : k ∉ d.*1 -> dict_set k v d = d ++ [(k, v)].
Proof.
  induction d as [|[k' v'] d IH]; [done|]. csimpl. intros [Hk Hd]%not_elem_of_cons.
  destruct (pyeqb k k') eqn:E; [by apply pyeqb_eq in E|]. by rewrite IH.
Qed.

Lemma build_dict_fresh acc d :
  NoDup (acc ++ d).*1 -> foldl (fun d '(k, v) => dict_set k v d) acc d = acc ++ d.
Proof.
  revert acc. induction d as [|[k v] d IH]; intros acc Hnd; [by rewrite app_nil_r|]. simpl.
  assert (Hk : k ∉ acc.*1).
  { rewrite fmap_app in Hnd. apply NoDup_app in Hnd as (_ & Hd & _).
    intros Hin. apply (Hd k Hin). csimpl. left. }
  rewrite dict_set_fresh by done. rewrite IH; [by rewrite <- app_assoc|].
  by rewrite <- app_assoc.
Qed.

Lemma build_dict_NoDup d : NoDup d.*1 -> build_dict d = d.
Proof. intros H. by apply (build_dict_fresh []). Qed.

Lemma after_skip_ws k t : is_ws k = false -> after k (skip_ws (k :: t)) = Some t.
Proof. intros Hk. simpl. rewrite Hk. simpl. by rewrite Z.eqb_refl. Qed.

Lemma after_skip_ws_ne k c t : is_ws c = false -> c <> k -> after k (skip_ws (c :: t)) = None.
Proof. intros Hc Hk. simpl. rewrite Hc. simpl. by destruct (Z.eqb_spec c k). Qed.

#[local] Arguments join : simpl never.

Section RoundTrip.
Context (sp : seps) (w1 w2 : pystr).
Context (Hitem : item_sep sp = 44 :: w1) (Hkey : key_sep sp = 58 :: w2).
Context (Hw1 : Forall (fun c => is_ws c = true) w1) (Hw2 : Forall (fun c => is_ws c = true) w2).

Definition reads (v : pyval) : Prop :=
  clean v -> forall t r f, dumps sp v = Ok t -> num_stop r -> (2 * length t < f)%nat ->
  parse_value f (t ++ r) = Ok (v, r).

Lemma head_ok_after k t r : head_ok t -> k = 93 \/ k = 125 -> after k (skip_ws (t ++ r)) = None.
Proof.
  intros (c & t' & -> & Hw & H1 & H2) Hk. cbn [app].
  apply after_skip_ws_ne; [done|]. destruct Hk; congruence.
Qed.

Lemma items_head l ts r : Forall clean l -> dump_items sp l = Ok ts -> l <> [] ->
  exists t, head_ok t /\ exists u, join (item_sep sp) ts ++ r = t ++ u.
Proof.
  destruct l as [|x l]; [done|]. intros Hc H _. simpl in H. res_inv.
  apply Forall_cons in Hc as [Hx Hl]. exists x0. split; [by eapply dumps_head|].
  destruct x1; [by exists r|]. rewrite join_cons. rewrite <- app_assoc. by eexists.
Qed.

Lemma read_items l :
  Forall reads l -> Forall clean l -> l <> [] -> forall ts r f,
  dump_items sp l = Ok ts -> (2 * length (join (item_sep sp) ts) + 1 < f)%nat ->
  parse_items f (join (item_sep sp) ts ++ 93 :: r) = Ok (l, r).
Proof.
  induction 1 as [|x l Hx Hl IH]; [done|]. intros Hc _ ts r f H Hf.
  apply Forall_cons in Hc as [Hcx Hcl]. simpl in H. res_inv.
  destruct f as [|f]; [lia|]. destruct l as [|y l].
  - simpl in Hr0. simplify_eq. change (join (item_sep sp) [x0]) with x0 in *. cbn [parse_items].
    rewrite (Hx Hcx _ (93 :: r) f) by (try done; lia). done.
  - simpl in Hr0. res_inv. rewrite Hitem in *. rewrite join_cons in *.
    rewrite !length_app in Hf. simpl length in Hf. rewrite <- !app_assoc. cbn [parse_items].
    rewrite (Hx Hcx x0) by (try done; lia). cbn [res_bind].
    rewrite <- ?app_comm_cons, after_skip_ws by done. rewrite skip_ws_all by done.
    destruct (items_head (y :: l) (x2 :: x3) (93 :: r)) as (t & Ht & u & Hu); [done| |done|].
    { simpl. by rewrite Hr1, Hr2. }
    rewrite Hitem in Hu. rewrite Hu, skip_ws_head, <- Hu by done.
    rewrite (IH Hcl) with (r := r); [done|done| |lia]. simpl. by rewrite Hr1, Hr2.
Qed.

Lemma read_members d :
  Forall (fun kv => reads kv.2) d -> Forall (fun kv => Forall scalar_value kv.1 /\ clean kv.2) d ->
  d <> [] -> forall ts r f,
  dump_members sp d = Ok ts -> (2 * length (join (item_sep sp) ts) + 1 < f)%nat ->
  parse_members f (join (item_sep sp) ts ++ 125 :: r) = Ok (d, r).
Proof.
  induction 1 as [|[k x] d Hx Hd IH]; [done|]. intros Hc _ ts r f H Hf.
  apply Forall_cons in Hc as [[Hk Hcx] Hcd]. simpl in Hk, Hcx, Hx. cbn [dump_members] in H.
  apply res_bind_Ok in H as (x0 & Hr0' & H). apply res_bind_Ok in H as (x1 & Hr0 & H).
  assert (Hts : ts = (dump_string k ++ key_sep sp ++ x0) :: x1) by congruence. clear H. subst ts.
  destruct f as [|f]; [lia|].
  assert (Hent : forall u, parse_members (S f) ((dump_string k ++ key_sep sp ++ x0) ++ u) =
            let? (x1, r3) := parse_value f (x0 ++ u) in
            match after 44 (skip_ws r3), after 125 (skip_ws r3) with
            | Some r', _ => let? (l, r4) := parse_members f (skip_ws r') in Ok ((k, x1) :: l, r4)
            | _, Some r' => Ok ([(k, x1)], r')
            | _, _ => bad_json
            end).
  { intros u. unfold dump_string. rewrite Hkey. cbn [parse_members app after]. rewrite Z.eqb_refl.
    rewrite <- !app_assoc. cbn [app]. rewrite parse_dump_string by done. cbn [res_bind].
    rewrite <- ?app_comm_cons, after_skip_ws by done. rewrite <- !app_assoc, skip_ws_all by done.
    by rewrite skip_ws_head by (by eapply dumps_head). }
  assert (Hlen : forall rest, (length x0 <= length (join (item_sep sp) ((dump_string k ++ key_sep sp ++ x0) :: rest)))%nat).
  { intros rest. destruct rest; [|rewrite join_cons]; unfold join; rewrite !length_app; lia. }
  assert (Hfx : (2 * length x0 < f)%nat) by (specialize (Hlen x1); lia).
  destruct d as [|[k' y] d].
  - simpl in Hr0. simplify_eq. unfold join in *. rewrite Hent. rewrite (Hx Hcx _ (125 :: r) f) by done. done.
  - destruct x1 as [|t1 x1]; [cbn [dump_members] in Hr0; res_inv; done|].
    rewrite join_cons in *. rewrite <- (app_assoc _ (item_sep sp ++ _)), Hent, Hitem.
    rewrite Hitem in Hf. rewrite !length_app in Hf. simpl length in Hf.
    assert (Hh : exists u, join (44 :: w1) (t1 :: x1) = 34 :: u).
    { cbn [dump_members] in Hr0. res_inv. destruct x1; [|rewrite join_cons]; eexists; reflexivity. }
    destruct Hh as [u Hu]. rewrite <- !app_assoc.
    rewrite (Hx Hcx x0) by done.
    cbn [res_bind]. rewrite <- ?app_comm_cons, after_skip_ws by done. rewrite skip_ws_all by done.
    rewrite Hu. change (skip_ws ((34 :: u) ++ 125 :: r)) with ((34 :: u) ++ 125 :: r).
    rewrite <- Hu, <- Hitem. rewrite (IH Hcd) with (r := r); [done|done|done|].
    rewrite Hitem. lia.
Qed.

Lemma read_dumps v : reads v.
Proof.
  induction v as [|b|z|x|s|b|w|l IH|d IH] using pyval_rect'; intros Hc t r f H Hr Hf;
    try (by simplify_eq/=); inversion Hc; subst.
  - simplify_eq/=. destruct f; [lia|]. done.
  - destruct f; [lia|]. destruct b; by simplify_eq/=.
  - simplify_eq/=. destruct f; [lia|]. apply parse_value_number; [|done].
    pose proof (scan_dec z [] ltac:(done) ltac:(done)) as Hs. by rewrite app_nil_r in Hs.
  - simpl in H. destruct (float_repr x) eqn:E; simplify_eq. destruct f; [lia|].
    apply parse_value_number; [by apply float_repr_scan|done].
  - simplify_eq/=. destruct f; [lia|]. rewrite <- !app_assoc. cbn [app parse_value].
    simpl Z.eqb. cbv iota. by rewrite parse_dump_string.
  - rewrite dumps_list in H. res_inv. destruct f as [|f]; [simpl in Hf; lia|].
    cbn [app parse_value]. rewrite <- app_assoc. simpl Z.eqb. cbv iota. simpl in Hf. rewrite length_app in Hf.
    destruct l as [|y l]; [simplify_eq/=; done|]. cbn [app].
    destruct (items_head (y :: l) x (93 :: r)) as (t & Ht & u & Hu); [done..|].
    rewrite Hu, head_ok_after, skip_ws_head, <- Hu by (done || by left).
    rewrite (read_items (y :: l) IH) with (r := r); [done|done|done|done|]. simpl in Hf. lia.
  - rewrite dumps_dict in H. res_inv. destruct f as [|f]; [simpl in Hf; lia|].
    cbn [app parse_value]. rewrite <- app_assoc. simpl Z.eqb. cbv iota. simpl in Hf. rewrite length_app in Hf.
    destruct d as [|[k y] d]; [simplify_eq/=; done|]. cbn [app].
    assert (Hh : exists u, join (item_sep sp) x = 34 :: u).
    { cbn [dump_members] in Hr0. res_inv. destruct x1; [|rewrite join_cons]; eexists; reflexivity. }
    destruct Hh as [u Hu]. rewrite Hu. rewrite <- app_comm_cons.
    rewrite after_skip_ws_ne by (done || lia).
    change (skip_ws (34 :: u ++ 125 :: r)) with ((34 :: u) ++ 125 :: r). rewrite <- Hu.
    rewrite (read_members ((k, y) :: d) IH) with (r := r); [|done|done|done|simpl in Hf; lia].
    cbn [res_bind]. by rewrite build_dict_NoDup.
Qed.

Lemma loads_dumps v t : clean v -> dumps sp v = Ok t -> loads t = Ok v.
Proof.
  intros Hc H. unfold loads.
  pose proof (read_dumps v Hc t [] (S (2 * length t)) H ltac:(done) ltac:(lia)) as Hp.
  destruct (dumps_head sp v t Hc H) as (c & t' & -> & Hw & _).
  rewrite app_nil_r in Hp. cbn [skip_ws]. rewrite Hw, Hp. done.
Qed.
End RoundTrip.

(** * [loads] always ends

    Every parser of Json consumes at least one character of its input, so the
    fuel [loads] starts with is never exhausted: parsing any text gives a value
    or an exception of JSON decoding. *)

Lemma after_length k s r : after k s = Some r -> length s = S (length r).
Proof. destruct s as [|c s]; simpl; [done|]. destruct (c =? k); by intros [= ->]. Qed.

Lemma skip_ws_length s : (length (skip_ws s) <= length s)%nat.
Proof. induction s as [|c s IH]; simpl; [done|]. destruct (is_ws c); simpl; lia. Qed.

Lemma span_digits_length s d r : span_digits s = (d, r) -> (length d + length r = length s)%nat.
Proof.
  revert d r. induction s as [|c s IH]; intros d r; simpl; [by intros [= <- <-]|].
  destruct (is_dec c); [|by intros [= <- <-]]. destruct (span_digits s) as [d' r'] eqn:E.
  intros [= <- <-]. specialize (IH _ _ eq_refl). simpl. lia.
Qed.

Lemma scan_frac_length s d r : scan_frac s = Some (d, r) -> (length r <= length s)%nat.
Proof.
  unfold scan_frac. destruct (after 46 s) as [s'|] eqn:Ha; [|done]. apply after_length in Ha.
  destruct (span_digits s') as [d' r'] eqn:Hd. apply span_digits_length in Hd.
  destruct d'; [done|]. intros [= <- <-]. simpl in *. lia.
Qed.

Lemma scan_exp_length s z r : scan_exp s = Some (z, r) -> (length r <= length s)%nat.
Proof.
  unfold scan_exp. destruct s as [|c s']; [done|]. destruct (_ || _); [|done].
  assert (Hs : exists neg s'', (match after 45 s', after 43 s' with
     | Some t, _ => (true, t) | _, Some t => (false, t) | _, _ => (false, s') end) = (neg, s'') /\
     (length s'' <= length s')%nat).
  { destruct (after 45 s') eqn:E1; [apply after_length in E1; eexists _, _; split; [done|lia]|].
    destruct (after 43 s') eqn:E2; [apply after_length in E2; eexists _, _; split; [done|lia]|].
    by eexists _, _. }
  destruct Hs as (neg & s'' & -> & Hs). destruct (span_digits s'') as [d r'] eqn:Hd.
  apply span_digits_length in Hd. destruct d; [done|]. intros [= <- <-]. simpl in *. lia.
Qed.

Lemma scan_number_length s v r : scan_number s = Ok (v, r) -> (length r < length s)%nat.
Proof.
  unfold scan_number. intros H.
  assert (H1 : exists neg s1, (match after 45 s with Some t => (true, t) | None => (false, s) end) = (neg, s1) /\
    (length s1 <= length s)%nat).
  { destruct (after 45 s) eqn:E; [apply after_length in E; eexists _, _; split; [done|lia]|by eexists _, _]. }
  destruct H1 as (neg & s1 & E1 & H1). rewrite E1 in H. clear E1.
  assert (H2 : exists ip s2, (match after 48 s1 with Some t => ([48], t) | None => span_digits s1 end) = (ip, s2) /\
    (length ip + length s2 = length s1)%nat).
  { destruct (after 48 s1) eqn:E; [apply after_length in E; eexists _, _; split; [done|simpl; lia]|].
    destruct (span_digits s1) as [d t] eqn:Hd. apply span_digits_length in Hd. by eexists _, _. }
  destruct H2 as (ip & s2 & E2 & H2). rewrite E2 in H. clear E2. destruct ip as [|i ip]; [done|].
  assert (H3 : exists fr s3, (match scan_frac s2 with Some (d, r) => (Some d, r) | None => (None, s2) end) = (fr, s3) /\
    (length s3 <= length s2)%nat).
  { destruct (scan_frac s2) as [[d t]|] eqn:E; [apply scan_frac_length in E; by eexists _, _|by eexists _, _]. }
  destruct H3 as (fr & s3 & E3 & H3). rewrite E3 in H. clear E3.
  assert (H4 : exists ex s4, (match scan_exp s3 with Some (z, r) => (Some z, r) | None => (None, s3) end) = (ex, s4) /\
    (length s4 <= length s3)%nat).
  { destruct (scan_exp s3) as [[z t]|] eqn:E; [apply scan_exp_length in E; by eexists _, _|by eexists _, _]. }
  destruct H4 as (ex & s4 & E4 & H4). rewrite E4 in H. clear E4. simpl in H2.
  assert (Hr : r = s4); [|subst; lia].
  destruct fr, ex; try (destruct (4300 <? _)); simplify_eq; done.
Qed.

Lemma scan_number_ends s : scan_number s <> OutOfFuel.
Proof. unfold scan_number. repeat case_match; discriminate. Qed.

Lemma strip_prefix_length p s r :
  strip_prefix p s = Some r -> (0 < String.length p)%nat -> s <> [] -> (length r < length s)%nat.
Proof.
  unfold strip_prefix. destruct (is_prefix _ _); [|done]. intros [= <-] Hp Hs.
  rewrite length_drop. destruct s; [done|]. simpl. lia.
Qed.

Lemma parse_atom_length s v r : s <> [] -> parse_atom s = Ok (v, r) -> (length r < length s)%nat.
Proof.
  intros Hs. unfold parse_atom. intros H.
  repeat match type of H with
  | match strip_prefix ?p s with _ => _ end = _ =>
      let E := fresh in destruct (strip_prefix p s) eqn:E;
        [apply strip_prefix_length in E; [|simpl; lia|done]|]
  end; simplify_eq; try done. by apply scan_number_length in H.
Qed.

Lemma parse_atom_ends s : parse_atom s <> OutOfFuel.
Proof. unfold parse_atom. repeat case_match; try discriminate. apply scan_number_ends. Qed.

Lemma hex4_val_length s u r : hex4_val s = Some (u, r) -> (length r < length s)%nat.
Proof.
  destruct s as [|a [|b [|c [|d s]]]]; simpl; try done.
  destruct (hex_val a), (hex_val b), (hex_val c), (hex_val d); intros [=]; subst. lia.
Qed.

Lemma unicode_escape_length s u r : unicode_escape s = Some (u, r) -> (length r < length s)%nat.
Proof.
  unfold unicode_escape. destruct (hex4_val s) as [[u0 r0]|] eqn:E; [|done]. apply hex4_val_length in E.
  destruct (_ && _); [|intros [= <- <-]; lia].
  destruct (after 92 r0 ≫= after 117) as [r'|] eqn:Ha; [|intros [= <- <-]; lia].
  assert (length r' < length r0)%nat.
  { destruct (after 92 r0) eqn:E1; [|done]. simpl in Ha. apply after_length in E1, Ha. lia. }
  destruct (hex4_val r') as [[u2 r2]|] eqn:E2; [|done]. apply hex4_val_length in E2.
  destruct (_ && _); intros [= <- <-]; lia.
Qed.

Lemma scan_string_length f s t r : scan_string f s = Some (t, r) -> (length r < length s)%nat.
Proof.
  revert s t r. induction f as [|f IH]; intros s t r; cbn [scan_string]; [done|].
  destruct s as [|c s]; [done|]. destruct (c =? 34); [intros [= <- <-]; simpl; lia|].
  destruct (c =? 92).
  - destruct s as [|e s']; [done|].
    destruct (if e =? 117 then _ else _) as [[x r2]|] eqn:Ho; [|done].
    assert (length r2 <= length s')%nat.
    { destruct (e =? 117); [apply unicode_escape_length in Ho; lia|].
      destruct (simple_escape e); by simplify_eq. }
    destruct (scan_string f r2) as [[t' r3]|] eqn:E; [|done]. intros [= <- <-].
    apply IH in E. simpl. lia.
  - destruct (c <? 32); [done|]. destruct (scan_string f s) as [[t' r3]|] eqn:E; [|done].
    intros [= <- <-]. apply IH in E. simpl. lia.
Qed.

Lemma parse_string_length s t r : parse_string s = Ok (t, r) -> (length r < length s)%nat.
Proof.
  unfold parse_string. destruct (scan_string _ s) as [[t' r']|] eqn:E; [|done].
  intros [= <- <-]. by apply scan_string_length in E.
Qed.

Lemma parse_string_ends s : parse_string s <> OutOfFuel.
Proof. unfold parse_string. by destruct (scan_string _ _). Qed.

(** What a successful parse of each kind leaves is shorter than its input. *)
Lemma parse_lengths f :
  (forall s v r, parse_value f s = Ok (v, r) -> (length r < length s)%nat) /\
  (forall s l r, parse_items f s = Ok (l, r) -> (length r < length s)%nat) /\
  (forall s l r, parse_members f s = Ok (l, r) -> (length r < length s)%nat).
Proof.
  induction f as [|f (IHv & IHi & IHm)]; [done|]. split_and!.
  - intros s v r. cbn [parse_value]. destruct s as [|c s]; [done|].
    destruct (c =? 34).
    { intros Hp. res_inv. destruct x as [t r']. res_inv. simplify_eq.
      apply parse_string_length in Hr. simpl. lia. }
    pose proof (skip_ws_length s) as Hsk.
    destruct (c =? 91).
    { destruct (after 93 (skip_ws s)) eqn:Ha; intros Hp.
      - simplify_eq. apply after_length in Ha. simpl. lia.
      - res_inv. destruct x as [l r']. res_inv. simplify_eq. apply IHi in Hr. simpl. lia. }
    destruct (c =? 123).
    { destruct (after 125 (skip_ws s)) eqn:Ha; intros Hp.
      - simplify_eq. apply after_length in Ha. simpl. lia.
      - res_inv. destruct x as [l r']. res_inv. simplify_eq. apply IHm in Hr. simpl. lia. }
    by apply parse_atom_length.
  - intros s l r. cbn [parse_items]. intros Hp. res_inv. destruct x as [x r1]. apply IHv in Hr.
    pose proof (skip_ws_length r1) as Hsk.
    destruct (after 44 (skip_ws r1)) as [r'|] eqn:Ha.
    + apply after_length in Ha. res_inv. destruct x0 as [l' r2]. res_inv. simplify_eq.
      apply IHi in Hr0. pose proof (skip_ws_length r'). lia.
    + destruct (after 93 (skip_ws r1)) eqn:Hb; [|done]. simplify_eq. apply after_length in Hb. lia.
  - intros s l r. cbn [parse_members]. destruct (after 34 s) as [r0|] eqn:Hq; [|done].
    apply after_length in Hq. intros Hp. res_inv. destruct x as [k r1]. apply parse_string_length in Hr.
    pose proof (skip_ws_length r1) as Hsk.
    destruct (after 58 (skip_ws r1)) as [r2|] eqn:Hc; [|done]. apply after_length in Hc.
    res_inv. destruct x as [x r3]. apply IHv in Hr0. pose proof (skip_ws_length r2). pose proof (skip_ws_length r3).
    destruct (after 44 (skip_ws r3)) as [r'|] eqn:Ha.
    + apply after_length in Ha. res_inv. destruct x0 as [l' r4]. res_inv. simplify_eq.
      apply IHm in Hr1. pose proof (skip_ws_length r'). lia.
    + destruct (after 125 (skip_ws r3)) eqn:Hb; [|done]. simplify_eq. apply after_length in Hb. lia.
Qed.

Lemma parse_ends f :
  (forall s, (2 * length s < f)%nat -> parse_value f s <> OutOfFuel) /\
  (forall s, (2 * length s + 1 < f)%nat -> parse_items f s <> OutOfFuel) /\
  (forall s, (2 * length s + 1 < f)%nat -> parse_members f s <> OutOfFuel).
Proof.
  induction f as [|f (IHv & IHi & IHm)]; [split_and!; intros; lia|]. split_and!.
  - intros s Hs. cbn [parse_value]. destruct s as [|c s]; [done|]. simpl in Hs.
    pose proof (skip_ws_length s) as Hsk.
    destruct (c =? 34); [apply res_bind_total; [apply parse_string_ends|by intros []]|].
    destruct (c =? 91).
    { destruct (after 93 _); [done|]. apply res_bind_total; [|by intros []]. apply IHi. lia. }
    destruct (c =? 123).
    { destruct (after 125 _); [done|]. apply res_bind_total; [|by intros []]. apply IHm. lia. }
    apply parse_atom_ends.
  - intros s Hs. cbn [parse_items]. apply res_bind_total; [apply IHv; lia|]. intros [x r] Hr.
    apply parse_lengths in Hr. pose proof (skip_ws_length r).
    destruct (after 44 (skip_ws r)) as [r'|] eqn:Ha; [|by destruct (after 93 _)].
    apply after_length in Ha. apply res_bind_total; [|by intros []]. apply IHi.
    pose proof (skip_ws_length r'). lia.
  - intros s Hs. cbn [parse_members]. destruct (after 34 s) as [r0|] eqn:Hq; [|done].
    apply after_length in Hq. apply res_bind_total; [apply parse_string_ends|]. intros [k r1] Hr1.
    apply parse_string_length in Hr1. pose proof (skip_ws_length r1).
    destruct (after 58 (skip_ws r1)) as [r2|] eqn:Hc; [|done]. apply after_length in Hc.
    pose proof (skip_ws_length r2). apply res_bind_total; [apply IHv; lia|]. intros [x r3] Hr3.
    apply parse_lengths in Hr3. pose proof (skip_ws_length r3).
    destruct (after 44 (skip_ws r3)) as [r'|] eqn:Ha; [|by destruct (after 125 _)].
    apply after_length in Ha. apply res_bind_total; [|by intros []]. apply IHm.
    pose proof (skip_ws_length r'). lia.
Qed.

Lemma loads_ends s : loads s <> OutOfFuel.
Proof.
  unfold loads. apply res_bind_total.
  - apply parse_ends. pose proof (skip_ws_length s). lia.
  - intros [v r] _. by destruct (skip_ws r).
Qed.

(** Every failure is a [ValueError] ([JSONDecodeError] is one). *)
Lemma scan_number_raises s e : scan_number s = Raise e -> exists m, e = ValueError m.
Proof. unfold scan_number. repeat case_match; intros; simplify_eq; eauto. Qed.

Lemma parse_raises f :
  (forall s e, parse_value f s = Raise e -> exists m, e = ValueError m) /\
  (forall s e, parse_items f s = Raise e -> exists m, e = ValueError m) /\
  (forall s e, parse_members f s = Raise e -> exists m, e = ValueError m).
Proof.
  assert (Hbind : forall A B (r : pyres A) (g : A -> pyres B) e,
    res_bind r g = Raise e -> (exists a, r = Ok a /\ g a = Raise e) \/ r = Raise e).
  { intros A B [a|x|] g e; simpl; [eauto|intros [= ->]; eauto|done]. }
  assert (Hstr : forall s e, parse_string s = Raise e -> exists m, e = ValueError m).
  { intros s e. unfold parse_string, bad_json. destruct (scan_string _ _); [done|]. intros [= <-]. eauto. }
  assert (Hbad : forall A e, @bad_json A = Raise e -> exists m, e = ValueError m).
  { intros A e [= <-]. eauto. }
  assert (Hdone : forall (A : Type) (x : A) e, (Ok x : pyres A) = Raise e -> exists m, e = ValueError m) by done.
  induction f as [|f (IHv & IHi & IHm)]; [done|]. split_and!.
  - intros s e. cbn [parse_value]. destruct s as [|c s]; [apply Hbad|].
    destruct (c =? 34); [intros [[[] [_ H]]|H]%Hbind; [done|eauto]|].
    destruct (c =? 91).
    { destruct (after 93 _); [done|]. intros [[[] [_ H]]|H]%Hbind; [done|eauto]. }
    destruct (c =? 123).
    { destruct (after 125 _); [done|]. intros [[[] [_ H]]|H]%Hbind; [done|eauto]. }
    unfold parse_atom. repeat case_match; try done. apply scan_number_raises.
  - intros s e. cbn [parse_items]. intros [[[x r] [_ H]]|H]%Hbind; [|eauto].
    destruct (after 44 (skip_ws r)) as [r'|]; [|destruct (after 93 _); [done|eauto]].
    apply Hbind in H as [[[] [_ H]]|H]; [done|eauto].
  - intros s e. cbn [parse_members]. destruct (after 34 s) as [r0|]; [|apply Hbad].
    intros [[[k r1] [_ H]]|H]%Hbind; [|eauto].
    destruct (after 58 (skip_ws r1)) as [r2|]; [|eauto].
    apply Hbind in H as [[[x r3] [_ H]]|H]; [|eauto].
    destruct (after 44 (skip_ws r3)) as [r'|]; [|destruct (after 125 _); [done|eauto]].
    apply Hbind in H as [[[] [_ H]]|H]; [done|eauto].
Qed.

Lemma loads_raises s e : loads s = Raise e -> exists m, e = ValueError m.
Proof.
  unfold loads. destruct (parse_value _ _) as [[v r]|x|] eqn:E; simpl; [|intros [= ->]|done].
  - destruct (skip_ws r); [done|]. unfold bad_json. intros [= <-]. eauto.
  - by apply parse_raises in E.
Qed.
