(* ===== verification/Bytes.v ===== *)
(** * Byte strings

    Little-endian packing ([struct]'s ['<I'] and the words under ['<f']), UTF-8,
    UTF-16 and UTF-32 decoding, and [base64] as far as the program uses them.
    A byte is an integer of 0..255. *)

From S2P Require Import Prelude PyStr.

Definition is_byte (b : Z) : Prop := 0 <= b < 256.

(** ** Little-endian words *)

Fixpoint le_pack (n : nat) (w : Z) : list Z :=
  match n with
  | O => []
  | S n' => w mod 256 :: le_pack n' (w / 256)
  end.

Fixpoint le_unpack (l : list Z) : Z :=
  match l with
  | [] => 0
  | b :: l' => b + 256 * le_unpack l'
  end.

Lemma le_pack_length n w : length (le_pack n w) = n.
Proof. revert w. induction n as [|n IH]; intros w; [done|]. simpl. by rewrite IH. Qed.

Lemma le_pack_bytes n w : Forall is_byte (le_pack n w).
Proof.
  revert w. induction n as [|n IH]; intros w; [done|]. simpl. constructor; [|done].
  unfold is_byte. dlia.
Qed.

Lemma le_unpack_pack n w : 0 <= w < 256 ^ Z.of_nat n -> le_unpack (le_pack n w) = w.
Proof.
  revert w. induction n as [|n IH]; intros w Hw; [simpl in *; lia|].
  rewrite Nat2Z.inj_succ, Z.pow_succ_r in Hw by lia. cbn [le_pack le_unpack].
  rewrite IH; dlia.
Qed.

Lemma le_unpack_bounds l :
  Forall is_byte l -> 0 <= le_unpack l < 256 ^ Z.of_nat (length l).
Proof.
  induction 1 as [|b l Hb Hl IH]; [simpl; lia|].
  cbn [length le_unpack]. rewrite Nat2Z.inj_succ, Z.pow_succ_r by lia. unfold is_byte in Hb. lia.
Qed.

Lemma le_pack_unpack l : Forall is_byte l -> le_pack (length l) (le_unpack l) = l.
Proof.
  induction 1 as [|b l Hb Hl IH]; [done|]. cbn [length le_unpack le_pack]. unfold is_byte in Hb.
  f_equal; [dlia|]. replace ((b + 256 * le_unpack l) / 256) with (le_unpack l) by dlia. done.
Qed.

(** [chunks n l]: consecutive groups of [n], for a multiple of [n]. *)
Fixpoint chunks (fuel n : nat) (l : list Z) : list (list Z) :=
  match fuel, l with
  | S f, _ :: _ => take n l :: chunks f n (drop n l)
  | _, _ => []
  end.

Lemma chunks_concat n ls f :
  (0 < n)%nat -> Forall (fun c => length c = n) ls -> (length ls <= f)%nat ->
  chunks f n (concat ls) = ls.
Proof.
  intros Hn Hls. revert f. induction Hls as [|c ls Hc Hls IH]; intros f Hf; simpl.
  - by destruct f.
  - destruct f as [|f]; [simpl in Hf; lia|]. destruct c as [|b c]; [simpl in Hc; lia|].
    change ((b :: c) ++ concat ls) with (b :: (c ++ concat ls)). cbn [chunks].
    change (b :: (c ++ concat ls)) with ((b :: c) ++ concat ls).
    rewrite <- Hc at 1. rewrite take_app_length. rewrite <- Hc at 2. rewrite drop_app_length.
    f_equal. apply IH. simpl in Hf. lia.
Qed.

Lemma concat_chunks n f l :
  (0 < n)%nat -> (length l <= f * n)%nat -> concat (chunks f n l) = l.
Proof.
  intros Hn. revert l. induction f as [|f IH]; intros l Hl.
  - destruct l; [done|simpl in Hl; lia].
  - destruct l as [|b l]; [done|]. cbn [chunks concat].
    rewrite IH; [apply take_drop|]. rewrite length_drop. lia.
Qed.

Lemma chunks_lengths n f l :
  (0 < n)%nat -> (length l mod n = 0)%nat -> Forall (fun c => length c = n) (chunks f n l).
Proof.
  intros Hn. revert l. induction f as [|f IH]; intros l Hl; [by destruct l|].
  destruct l as [|b l]; [done|]. cbn [chunks]. remember (b :: l) as l' eqn:E.
  assert (Hge : (n <= length l')%nat).
  { destruct (Nat.lt_ge_cases (length l') n); [|done].
    rewrite Nat.mod_small in Hl by done. subst. simpl in Hl. lia. }
  constructor; [rewrite length_take; lia|]. apply IH. rewrite length_drop.
  assert (length l' = (length l' - n) + 1 * n)%nat as E2 by lia.
  rewrite E2 in Hl. by rewrite Nat.Div0.mod_add in Hl.
Qed.

Lemma chunks_length n l k :
  (0 < n)%nat -> (length l = k * n)%nat -> length (chunks k n l) = k.
Proof.
  intros Hn. revert l. induction k as [|k IH]; intros l Hl; [by destruct l|].
  destruct l as [|b l]; [simpl in Hl; lia|]. cbn [chunks length]. f_equal. apply IH.
  rewrite length_drop. lia.
Qed.

(** ** Decoding text *)

Definition cont (b : Z) : bool := (128 <=? b) && (b <=? 191).

(** One UTF-8 sequence, in the shortest form; lone surrogates pass
    (the ['surrogatepass'] handler of [json.loads]). *)
Definition utf8_next (l : list Z) : option (Z * list Z) :=
  match l with
  | [] => None
  | b0 :: r0 =>
      if b0 <? 128 then Some (b0, r0)
      else match r0 with
           | [] => None
           | b1 :: r1 =>
               if negb (cont b1) then None
               else if (194 <=? b0) && (b0 <=? 223) then Some ((b0 - 192) * 64 + (b1 - 128), r1)
               else match r1 with
                    | [] => None
                    | b2 :: r2 =>
                        if negb (cont b2) then None
                        else if (224 <=? b0) && (b0 <=? 239) then
                          let c := (b0 - 224) * 4096 + (b1 - 128) * 64 + (b2 - 128) in
                          if c <? 2048 then None else Some (c, r2)
                        else match r2 with
                             | [] => None
                             | b3 :: r3 =>
                                 if negb (cont b3) then None
                                 else if (240 <=? b0) && (b0 <=? 244) then
                                   let c := (b0 - 240) * 262144 + (b1 - 128) * 4096 +
                                            (b2 - 128) * 64 + (b3 - 128) in
                                   if (c <? 65536) || (1114111 <? c) then None else Some (c, r3)
                                 else None
                             end
                    end
           end
  end.

Fixpoint utf8_decode (fuel : nat) (l : list Z) : option pystr :=
  match l, fuel with
  | [], _ => Some []
  | _, O => None
  | _, S f =>
      match utf8_next l with
      | Some (c, r) => cons c <$> utf8_decode f r
      | None => None
      end
  end.

Lemma utf8_next_char c r :
  0 <= c < 1114112 -> utf8_next (utf8_char c ++ r) = Some (c, r).
Proof.
  intros Hc. unfold utf8_char.
  destruct (Z.ltb_spec c 128); [simpl; by replace (c <? 128) with true by lia|].
  assert (Hcont : forall x, cont (128 + x mod 64) = true) by (intros x; unfold cont; dlia).
  destruct (Z.ltb_spec c 2048).
  { cbn [app utf8_next]. rewrite Hcont. simpl negb. cbv iota.
    replace (192 + c / 64 <? 128) with false by dlia.
    replace ((194 <=? 192 + c / 64) && (192 + c / 64 <=? 223)) with true by dlia.
    do 2 f_equal. dlia. }
  destruct (Z.ltb_spec c 65536).
  { cbn [app utf8_next]. rewrite !Hcont. simpl negb. cbv iota.
    replace (224 + c / 4096 <? 128) with false by dlia.
    replace ((194 <=? 224 + c / 4096) && (224 + c / 4096 <=? 223)) with false by dlia.
    replace ((224 <=? 224 + c / 4096) && (224 + c / 4096 <=? 239)) with true by dlia.
    cbv zeta. replace (_ * 4096 + _ + _) with c by dlia.
    by replace (c <? 2048) with false by lia. }
  cbn [app utf8_next]. rewrite !Hcont. simpl negb. cbv iota.
  replace (240 + c / 262144 <? 128) with false by dlia.
  replace ((194 <=? 240 + c / 262144) && (240 + c / 262144 <=? 223)) with false by dlia.
  replace ((224 <=? 240 + c / 262144) && (240 + c / 262144 <=? 239)) with false by dlia.
  replace ((240 <=? 240 + c / 262144) && (240 + c / 262144 <=? 244)) with true by dlia.
  cbv zeta. replace (_ * 262144 + _ + _ + _) with c by dlia.
  by replace ((c <? 65536) || (1114111 <? c)) with false by lia.
Qed.

Lemma utf8_decode_encode s f :
  code_points s -> (length s <= f)%nat -> utf8_decode f (s ≫= utf8_char) = Some s.
Proof.
  intros Hs. revert f. induction Hs as [|c s Hc Hs IH]; intros f Hf; [by destruct f|].
  destruct f as [|f]; [simpl in Hf; lia|]. csimpl.
  pose proof (utf8_next_char c (s ≫= utf8_char) Hc) as Hn.
  destruct (utf8_char c ++ (s ≫= utf8_char)) as [|b l] eqn:E; [done|].
  cbn [utf8_decode]. rewrite Hn. rewrite IH by (simpl in Hf; lia). done.
Qed.

(** ** [base64.b64decode(s, validate=True)] *)

Definition b64_val (c : Z) : option Z :=
  if (65 <=? c) && (c <=? 90) then Some (c - 65)
  else if (97 <=? c) && (c <=? 122) then Some (c - 71)
  else if (48 <=? c) && (c <=? 57) then Some (c + 4)
  else if c =? 43 then Some 62
  else if c =? 47 then Some 63
  else None.

Definition b64_char (v : Z) : Z :=
  if v <? 26 then v + 65 else if v <? 52 then v + 71 else if v <? 62 then v - 4
  else if v =? 62 then 43 else 47.

(** Data characters, then the trailing padding. *)
Fixpoint b64_span (s : pystr) : list Z * pystr :=
  match s with
  | [] => ([], [])
  | c :: s' =>
      match b64_val c with
      | Some v => let '(d, r) := b64_span s' in (v :: d, r)
      | None => ([], s)
      end
  end.

Fixpoint b64_groups (d : list Z) (pads : Z) : option (list Z) :=
  match d with
  | [] => Some []
  | a :: b :: c :: e :: d' =>
      match b64_groups d' pads with
      | Some t => Some (a * 4 + b / 16 :: b mod 16 * 16 + c / 4 :: c mod 4 * 64 + e :: t)
      | None => None
      end
  | [a; b] => if 2 <=? pads then Some [a * 4 + b / 16] else None
  | [a; b; c] => if 1 <=? pads then Some [a * 4 + b / 16; b mod 16 * 16 + c / 4] else None
  | [_] => None
  end.

(** [None] is [binascii.Error] (a [ValueError]): the text must be data
    characters followed by at most two ['='], with enough padding. *)
Definition b64decode (s : pystr) : option (list Z) :=
  let '(d, r) := b64_span s in
  if forallb (Z.eqb 61) r && (zlen r <=? 2) then b64_groups d (zlen r) else None.

(** The standard encoder, the specification [b64decode] is checked against. *)
Fixpoint b64encode (l : list Z) : pystr :=
  match l with
  | [] => []
  | [x] => [b64_char (x / 4); b64_char (x mod 4 * 16); 61; 61]
  | [x; y] => [b64_char (x / 4); b64_char (x mod 4 * 16 + y / 16); b64_char (y mod 16 * 4); 61]
  | x :: y :: z :: l' =>
      b64_char (x / 4) :: b64_char (x mod 4 * 16 + y / 16) ::
      b64_char (y mod 16 * 4 + z / 64) :: b64_char (z mod 64) :: b64encode l'
  end.

Lemma b64_val_char v : 0 <= v < 64 -> b64_val (b64_char v) = Some v.
Proof.
  intros Hv. unfold b64_val, b64_char.
  destruct (Z.ltb_spec v 26).
  { replace ((65 <=? v + 65) && (v + 65 <=? 90)) with true by lia. f_equal. lia. }
  destruct (Z.ltb_spec v 52).
  { replace ((65 <=? v + 71) && (v + 71 <=? 90)) with false by lia.
    replace ((97 <=? v + 71) && (v + 71 <=? 122)) with true by lia. f_equal. lia. }
  destruct (Z.ltb_spec v 62).
  { replace ((65 <=? v - 4) && (v - 4 <=? 90)) with false by lia.
    replace ((97 <=? v - 4) && (v - 4 <=? 122)) with false by lia.
    replace ((48 <=? v - 4) && (v - 4 <=? 57)) with true by lia. f_equal. lia. }
  destruct (Z.eqb_spec v 62) as [->|]; [done|]. by replace v with 63 by lia.
Qed.

Lemma list_ind3 {A} (P : list A -> Prop) :
  P [] -> (forall x, P [x]) -> (forall x y, P [x; y]) ->
  (forall x y z l, P l -> P (x :: y :: z :: l)) -> forall l, P l.
Proof.
  intros H0 H1 H2 H3. fix IH 1. intros [|x [|y [|z l]]]; [done|done|done|]. apply H3, IH.
Qed.

(** Decoding undoes encoding. *)
Lemma b64decode_encode l : Forall is_byte l -> b64decode (b64encode l) = Some l.
Proof.
  intros Hl. unfold b64decode.
  assert (Hs : exists d p, b64_span (b64encode l) = (d, replicate p 61) /\ (p <= 2)%nat /\
                           b64_groups d (Z.of_nat p) = Some l).
  { induction l as [|x|x y|x y z l IH] using list_ind3;
      repeat match goal with H : Forall is_byte (_ :: _) |- _ =>
        apply Forall_cons in H as [? H] end; unfold is_byte in *.
    - exists [], O. split_and!; [done|lia|done].
    - exists [x / 4; x mod 4 * 16], 2%nat. cbn [b64encode b64_span].
      rewrite !b64_val_char by dlia. split_and!; [done|lia|]. simpl. do 2 f_equal. dlia.
    - exists [x / 4; x mod 4 * 16 + y / 16; y mod 16 * 4], 1%nat. cbn [b64encode b64_span].
      rewrite !b64_val_char by dlia. split_and!; [done|lia|]. simpl. do 2 f_equal; [dlia|].
      f_equal. dlia.
    - destruct (IH Hl) as (d & p & Hs & Hp & Hg).
      exists (x / 4 :: x mod 4 * 16 + y / 16 :: y mod 16 * 4 + z / 64 :: z mod 64 :: d), p.
      cbn [b64encode b64_span]. rewrite !b64_val_char by dlia. rewrite Hs. split_and!; [done|done|].
      cbn [b64_groups]. rewrite Hg. f_equal. f_equal; [dlia|]. f_equal; [dlia|]. f_equal. dlia. }
  destruct Hs as (d & p & -> & Hp & Hg).
  assert (Hf : forallb (Z.eqb 61) (replicate p 61) = true) by (clear; by induction p).
  rewrite Hf. unfold zlen. rewrite length_replicate.
  destruct (Z.leb_spec (Z.of_nat p) 2); [|lia]. done.
Qed.
