(* ===== verification/Vector.v ===== *)
(** * sqlodin/vector.py

    Immutable, finite float32 vectors.  [Vector_new] is [__init__] on an
    arbitrary Python value, component by component; [to_bytes] and [from_bytes]
    are the BLOB codec.  A well-formed vector ([wf_vector]) has 1..384 finite
    components that are exact binary32 values. *)

From Corelib Require Import Floats.SpecFloat.
From S2P Require Import Prelude PyStr PyFloat Objects Json Bytes.

(** ** [float(value)] *)

(** [float(str)]: surrounding whitespace, a sign, [inf]/[infinity]/[nan], or a
    decimal literal with underscores between digits. *)
Fixpoint drop_underscores (prev : bool) (s : pystr) : option pystr :=
  match s with
  | [] => Some []
  | 95 :: s' =>
      match s' with
      | c :: _ => if prev && is_dec c then drop_underscores false s' else None
      | [] => None
      end
  | c :: s' => cons c <$> drop_underscores (is_dec c) s'
  end.

Definition decimal_literal (neg : bool) (s : pystr) : option pyfloat :=
  let '(ip, r) := span_digits s in
  let '(fp, r1) := match after 46 r with Some r' => span_digits r' | None => ([], r) end in
  match ip ++ fp with
  | [] => None
  | ds =>
      match scan_exp r1, r1 with
      | Some (ex, []), _ => Some (float_of_dec neg (int_of_digits ds) (ex - zlen fp))
      | None, [] => Some (float_of_dec neg (int_of_digits ds) (- zlen fp))
      | _, _ => None
      end
  end.

Definition float_of_str (s : pystr) : option pyfloat :=
  match drop_underscores false (strip s) with
  | Some t =>
      let '(neg, u) := match after 45 t, after 43 t with
                       | Some u, _ => (true, u) | _, Some u => (false, u) | _, _ => (false, t)
                       end in
      let w := ascii_lower u in
      if str_in w [py "inf"; py "infinity"] then Some (S754_infinity neg)
      else if pyeqb w (py "nan") then Some S754_nan
      else decimal_literal neg u
  | None => None
  end.

Definition to_float (v : pyval) : pyres pyfloat :=
  let of_int z := match float_of_int z with
                  | Some f => Ok f
                  | None => Raise (OverflowError "int too large to convert to float")
                  end in
  match v with
  | PFloat f => Ok f
  | PInt z => of_int z
  | PBool b => of_int (if b then 1 else 0)
  | PStr s => match float_of_str s with
              | Some f => Ok f
              | None => Raise (ValueError "could not convert string to float")
              end
  | _ => Raise (TypeError "float() argument must be a string or a real number")
  end.

(** ** The constructor *)

(** The body of the loop: convert, round through binary32, require finite. *)
Definition component (v : pyval) : pyres pyfloat :=
  let converted :=
    let? number := to_float v in
    match narrow number with
    | Some y => Ok (widen y)
    | None => Raise (OverflowError "float too large to pack with f format")
    end in
  match converted with
  | Ok number => do? guard (negb (isfinite number)) (ValueError "Vector components must be finite");;
                 Ok number
  | Raise _ => Raise (ValueError "Vector components must fit finite float32")
  | OutOfFuel => OutOfFuel
  end.

Fixpoint normalize (normalized : list pyfloat) (vs : list pyval) : pyres (list pyfloat) :=
  match vs with
  | [] => Ok normalized
  | value :: vs' =>
      do? guard (zlen normalized =? 384) (ValueError "A vector supports at most 384 dimensions");;
      let? number := component value in
      normalize (normalized ++ [number]) vs'
  end.

(** Iterating the argument; [str] and bytes are refused first. *)
Definition iterate (v : pyval) : pyres (list pyval) :=
  match v with
  | PStr _ | PBytes _ =>
      Raise (TypeError "Vector expects numeric components; use Vector.from_bytes for a BLOB")
  | _ => py_iter v
  end.

Definition Vector_new (v : pyval) : pyres Vector :=
  let? vs := iterate v in
  let? normalized := normalize [] vs in
  do? guard (zlen normalized =? 0) (ValueError "A vector must have at least one dimension");;
  Ok (mkVector normalized).

(** [__len__], [__iter__], [__getitem__] *)
Definition vlen (v : Vector) : Z := zlen (values v).
Definition viter (v : Vector) : list pyfloat := values v.
Definition vgetitem (v : Vector) (k : Z) : pyres pyfloat :=
  match py_index (values v) k with Some x => Ok x | None => Raise (IndexError "tuple index out of range") end.

(** ** The BLOB codec *)

Definition pack_f32 (x : pyfloat) : option (list Z) :=
  match narrow x with Some y => Some (le_pack 4 (f32_bits y)) | None => None end.

(** [struct.pack(f'<{len(self)}f', *self.values)] *)
Fixpoint pack_all (l : list pyfloat) : pyres (list Z) :=
  match l with
  | [] => Ok []
  | x :: l' =>
      match pack_f32 x with
      | Some b => let? bs := pack_all l' in Ok (b ++ bs)
      | None => Raise (OverflowError "float too large to pack with f format")
      end
  end.
Definition to_bytes (v : Vector) : pyres (list Z) := pack_all (values v).

Definition unpack_f32 (c : list Z) : pyfloat := widen (f32_of_bits (le_unpack c)).

Definition from_bytes (value : list Z) : pyres Vector :=
  do? guard ((zlen value =? 0) || negb (zlen value mod 4 =? 0) || (384 * 4 <? zlen value))
            (ValueError "A float32 vector BLOB needs 1..384 four-byte components");;
  Vector_new (PList (PFloat <$> (unpack_f32 <$> chunks (Z.to_nat (zlen value / 4)) 4 value))).

(** ** Well-formed vectors *)

(** An exact binary32 value. *)
Definition is_f32 (x : pyfloat) : Prop := exists y, valid32 y = true /\ isfinite y = true /\ x = widen y.

Definition wf_vector (v : Vector) : Prop := 1 <= vlen v <= 384 /\ Forall is_f32 (values v).

Lemma component_Ok v x : component v = Ok x -> is_f32 x.
Proof.
  unfold component. destruct (to_float v) as [n| |]; simpl; try done.
  destruct (narrow n) as [y|] eqn:Hn; [|done]. intros H. simpl in H.
  destruct (isfinite (widen y)) eqn:Hf; simpl in H; [|done]. simplify_eq.
  exists y. pose proof (narrow_valid _ _ Hn) as Hv. split_and!; [done| |done].
  by rewrite <- isfinite_widen.
Qed.

(** A component that is already binary32 passes unchanged. *)
Lemma component_f32 x : is_f32 x -> component (PFloat x) = Ok x.
Proof.
  intros (y & Hv & Hf & ->). unfold component. simpl. rewrite narrow_widen by done.
  rewrite isfinite_widen, Hf by done. done.
Qed.

Lemma normalize_Ok acc vs l :
  normalize acc vs = Ok l -> zlen acc <= 384 -> Forall is_f32 acc ->
  zlen l = zlen acc + zlen vs /\ zlen l <= 384 /\ Forall is_f32 l.
Proof.
  revert acc. induction vs as [|v vs IH]; intros acc H Hl Ha; simpl in H.
  { simplify_eq. autorewrite with py. split_and!; [lia|done|done]. }
  res_inv. apply IH in H.
  - autorewrite with py in *. unbool. destruct H as (-> & ? & ?). split_and!; [lia|lia|done].
  - autorewrite with py. unbool. lia.
  - apply Forall_app. split; [done|]. constructor; [by eapply component_Ok|done].
Qed.

Lemma normalize_f32 acc l :
  Forall is_f32 l -> zlen acc + zlen l <= 384 ->
  normalize acc (PFloat <$> l) = Ok (acc ++ l).
Proof.
  intros Hl. revert acc. induction Hl as [|x l Hx Hl IH]; intros acc Hn; csimpl.
  { by rewrite app_nil_r. }
  autorewrite with py in Hn. pose proof (zlen_nonneg l).
  destruct (Z.eqb_spec (zlen acc) 384); [lia|]. simpl. rewrite component_f32 by done. simpl.
  rewrite IH; [by rewrite <- app_assoc|]. autorewrite with py. lia.
Qed.

Lemma new_wf v w : Vector_new v = Ok w -> wf_vector w.
Proof.
  unfold Vector_new. intros H. res_inv. apply normalize_Ok in Hr0 as (Hl & Hb & Hf); [|done..].
  split; [|done]. unfold vlen. simpl. pose proof (zlen_nonneg x0). unbool. lia.
Qed.

(** C8: whatever value it is given, a vector that [Vector(...)] constructs has
    between 1 and 384 components, each of them finite and exactly
    representable as a float32. *)
Theorem Vector_new_wf v w : Vector_new v = Ok w -> wf_vector w.
Proof. apply new_wf. Qed.

(** Constructing from a vector's own components changes nothing. *)
Lemma Vector_new_id v : wf_vector v -> Vector_new (PList (PFloat <$> values v)) = Ok v.
Proof.
  intros [[Hlo Hhi] Hf]. unfold Vector_new. simpl. unfold vlen in *.
  rewrite normalize_f32 by (done || autorewrite with py; lia). simpl.
  destruct (Z.eqb_spec (zlen (values v)) 0); [lia|]. by destruct v.
Qed.

(** ** The BLOB codec round trips *)

Lemma pack_f32_Ok x : is_f32 x -> exists c, pack_f32 x = Some c /\ length c = 4%nat /\ unpack_f32 c = x.
Proof.
  intros (y & Hv & Hf & ->). unfold pack_f32. rewrite narrow_widen by done.
  eexists. split; [done|]. split; [apply le_pack_length|].
  unfold unpack_f32. rewrite le_unpack_pack, f32_of_bits_bits; [done|done|].
  by apply (f32_bits_range y).
Qed.

Lemma pack_all_Ok l :
  Forall is_f32 l ->
  exists cs, pack_all l = Ok (concat cs) /\ Forall (fun c => length c = 4%nat) cs /\ unpack_f32 <$> cs = l.
Proof.
  induction 1 as [|x l Hx Hl (cs & Hp & Hc & Hu)]; [by exists []|].
  destruct (pack_f32_Ok x Hx) as (c & Hpc & Hlc & Huc). exists (c :: cs). simpl.
  rewrite Hpc, Hp. split_and!; [done|by constructor|by f_equal].
Qed.

Lemma concat_length4 (cs : list (list Z)) :
  Forall (fun c => length c = 4%nat) cs -> length (concat cs) = (length cs * 4)%nat.
Proof. induction 1 as [|c cs Hc Hcs IH]; [done|]. simpl. rewrite length_app, Hc, IH. lia. Qed.

Lemma blob_roundtrip v :
  wf_vector v -> exists b, to_bytes v = Ok b /\ zlen b = 4 * vlen v /\ from_bytes b = Ok v.
Proof.
  intros Hwf. pose proof Hwf as [Hlen Hf]. destruct (pack_all_Ok _ Hf) as (cs & Hp & Hc & Hu).
  exists (concat cs). pose proof (concat_length4 cs Hc) as Hl.
  assert (Hn : length cs = length (values v)) by (by rewrite <- Hu, length_fmap).
  assert (Hz : zlen (concat cs) = 4 * vlen v) by (unfold vlen, zlen; rewrite Hl, Hn; lia).
  split_and!; [done|done|]. unfold from_bytes. rewrite Hz.
  destruct (Z.eqb_spec (4 * vlen v) 0); [lia|].
  replace ((4 * vlen v) mod 4) with 0 by dlia. simpl negb.
  destruct (Z.ltb_spec (384 * 4) (4 * vlen v)); [lia|]. simpl guard. cbn [res_bind].
  rewrite chunks_concat; [|lia|done|].
  - rewrite Hu. by apply Vector_new_id.
  - unfold vlen, zlen. rewrite Hn. dlia.
Qed.

(** C7: storing a vector as a BLOB and reading the BLOB back gives the same
    vector: [Vector.from_bytes(v.to_bytes()) == v] for every well-formed vector. *)
Theorem from_bytes_to_bytes v :
  wf_vector v -> exists b, to_bytes v = Ok b /\ zlen b = 4 * vlen v /\ from_bytes b = Ok v.
Proof. apply blob_roundtrip. Qed.

Lemma pack_unpack c :
  length c = 4%nat -> Forall is_byte c -> isfinite (unpack_f32 c) = true ->
  is_f32 (unpack_f32 c) /\ pack_f32 (unpack_f32 c) = Some c.
Proof.
  intros Hl Hb Hf. pose proof (le_unpack_bounds c Hb) as Hw. rewrite Hl in Hw.
  change (256 ^ Z.of_nat 4) with (2 ^ 32) in Hw.
  destruct (f32_bits_of_bits _ Hw) as [Hv Hr]. unfold unpack_f32, pack_f32 in *.
  rewrite isfinite_widen in Hf by done. split; [by eexists|].
  rewrite narrow_widen by done. rewrite Hr by (intros E; by rewrite E in Hf).
  rewrite <- Hl at 1. by rewrite le_pack_unpack.
Qed.

Lemma normalize_PFloat acc l l' :
  normalize acc (PFloat <$> l) = Ok l' -> Forall is_f32 acc ->
  (forall x, In x l -> is_f32 x \/ isfinite x = false) -> l' = acc ++ l /\ Forall is_f32 l.
Proof.
  revert acc. induction l as [|x l IH]; intros acc H Ha Hx; csimpl in H.
  { simplify_eq. by rewrite app_nil_r. }
  res_inv. destruct (Hx x (or_introl eq_refl)) as [Hf|Hf].
  - rewrite component_f32 in Hr0 by done. simplify_eq.
    apply IH in H as [-> Hl]; [|apply Forall_app; by repeat constructor|intros; apply Hx; by right].
    rewrite <- app_assoc. split; [done|by constructor].
  - exfalso. unfold component in Hr0. simpl in Hr0.
    destruct x as [s|s| |s m e]; try done.
Qed.

Lemma pack_all_unpack cs :
  Forall (fun c => pack_f32 (unpack_f32 c) = Some c) cs ->
  pack_all (unpack_f32 <$> cs) = Ok (concat cs).
Proof. induction 1 as [|c cs Hc Hcs IH]; [done|]. rewrite fmap_cons. cbn [pack_all concat]. by rewrite Hc, IH. Qed.

(** Every BLOB [from_bytes] accepts is reproduced bit for bit by [to_bytes]
    (so NaN and infinite payloads are refused, not altered). *)
Theorem to_bytes_from_bytes b v :
  Forall is_byte b -> from_bytes b = Ok v -> to_bytes v = Ok b.
Proof.
  intros Hb. unfold from_bytes. intros H. res_inv.
  apply orb_false_iff in Hr as [Hr H384]. apply orb_false_iff in Hr as [Hr0 Hm].
  apply negb_false_iff in Hm. unbool.
  set (n := Z.to_nat (zlen b / 4)) in *.
  assert (Hl : length b = (n * 4)%nat) by (unfold n, zlen in *; dlia).
  assert (Hmod : (length b mod 4 = 0)%nat) by (rewrite Hl; apply Nat.Div0.mod_mul).
  pose proof (chunks_lengths 4 n b ltac:(lia) Hmod) as Hc.
  pose proof (concat_chunks 4 n b ltac:(lia) ltac:(lia)) as Hcc.
  set (cs := chunks n 4 b) in *.
  assert (Hcb : Forall (Forall is_byte) cs).
  { apply Forall_concat. by rewrite Hcc. }
  assert (Hfin : forall c, c ∈ cs -> isfinite (unpack_f32 c) = true ->
            is_f32 (unpack_f32 c) /\ pack_f32 (unpack_f32 c) = Some c).
  { intros c Hin Hf. rewrite Forall_forall in Hc, Hcb. apply pack_unpack; auto. }
  unfold Vector_new in H. cbn [iterate py_iter res_bind] in H. res_inv.
  apply normalize_PFloat in Hr as [-> Hf32]; [|done|].
  2:{ intros y Hy. apply list_elem_of_In, list_elem_of_fmap in Hy as (c & -> & Hin).
      destruct (isfinite (unpack_f32 c)) eqn:E; [left; by apply Hfin|by right]. }
  rewrite <- Hcc, <- H. apply pack_all_unpack. rewrite Forall_forall. intros c Hin.
  apply Hfin; [done|]. rewrite Forall_forall in Hf32.
  destruct (Hf32 (unpack_f32 c)) as (y & Hv & Hy & ->); [|by rewrite isfinite_widen].
  apply list_elem_of_fmap. by exists c.
Qed.

(** ** Concrete vectors *)

Definition f1_5 : pyfloat := S754_finite false 6755399441055744 (-52).

Example Vector_new_wf_witness :
  wf_vector (mkVector [f1_5; S754_zero true]).
Proof. apply (Vector_new_wf (PList [PFloat f1_5; PStr (py "-0.0")])). vm_compute. reflexivity. Defined.

Example from_bytes_to_bytes_witness :
  exists b, to_bytes (mkVector [f1_5]) = Ok b /\ zlen b = 4 * vlen (mkVector [f1_5]) /\
            from_bytes b = Ok (mkVector [f1_5]).
Proof.
  apply (from_bytes_to_bytes (mkVector [f1_5])).
  apply (new_wf (PList [PFloat f1_5])). vm_compute. reflexivity.
Defined.

Example to_bytes_from_bytes_witness :
  to_bytes (mkVector [f1_5]) = Ok [0; 0; 192; 63].
Proof.
  apply (to_bytes_from_bytes [0; 0; 192; 63]).
  - repeat constructor; unfold is_byte; lia.
  - vm_compute. reflexivity.
Defined.
