(* ===== verification/Text.v ===== *)
(** * The string methods of the qualification tools

    [split], [splitlines], [rsplit], [endswith], [rstrip], [expandtabs], [in] and
    slicing, on code-point lists. *)

From S2P Require Import Prelude PyStr PyFloat Objects Json Vector.

(** [sub in s] *)
Definition text_in (sub s : pystr) : bool := match find_sub sub s with Some _ => true | None => false end.

(** [s.startswith(p)], [s.endswith(p)] with tuples of candidates *)
Definition starts_any (ps : list pystr) (s : pystr) : bool := existsb (fun p => is_prefix p s) ps.
Definition ends_with (p s : pystr) : bool := is_prefix (reverse p) (reverse s).
Definition ends_any (ps : list pystr) (s : pystr) : bool := existsb (fun p => ends_with p s) ps.

(** [s.split(c)] for a one-character separator *)
Fixpoint split_char (c : Z) (s : pystr) : list pystr :=
  match s with
  | [] => [[]]
  | d :: l =>
      if d =? c then [] :: split_char c l
      else match split_char c l with
           | w :: ws => (d :: w) :: ws
           | [] => [[d]]
           end
  end.

(** [s.split()]: the runs of characters that are not white space. *)
Fixpoint words_from (word : pystr) (s : pystr) : list pystr :=
  match s with
  | [] => match word with [] => [] | _ => [word] end
  | c :: l =>
      if is_space c
      then match word with [] => words_from [] l | _ => word :: words_from [] l end
      else words_from (word ++ [c]) l
  end.
Definition words (s : pystr) : list pystr := words_from [] s.

(** [s.splitlines()]: [\r\n] is one boundary; a trailing boundary adds no line. *)
Definition is_line_break (c : Z) : bool :=
  ((10 <=? c) && (c <=? 13)) || ((28 <=? c) && (c <=? 30)) || (c =? 133) || (c =? 8232) || (c =? 8233).
Fixpoint lines_from (line : pystr) (s : pystr) : list pystr :=
  match s with
  | [] => match line with [] => [] | _ => [line] end
  | c :: l =>
      if is_line_break c
      then match c, l with
           | 13, 10 :: l' => line :: lines_from [] l'
           | _, _ => line :: lines_from [] l
           end
      else lines_from (line ++ [c]) l
  end.
Definition splitlines (s : pystr) : list pystr := lines_from [] s.

(** [s.rsplit(c, 1)[1]]; without the separator the list has one element. *)
Definition after_last (c : Z) (s : pystr) : pyres pystr :=
  match split_char c s with
  | _ :: (_ :: _) as parts => match last parts with Some w => Ok w | None => Raise (IndexError "list index out of range") end
  | _ => Raise (IndexError "list index out of range")
  end.

(** [s.rstrip(c)] for one character, [s.rstrip()] *)
Fixpoint lstrip_char (c : Z) (s : pystr) : pystr :=
  match s with d :: l => if d =? c then lstrip_char c l else s | [] => [] end.
Definition rstrip_char (c : Z) (s : pystr) : pystr := reverse (lstrip_char c (reverse s)).
Definition rstrip (s : pystr) : pystr := reverse (lstrip (reverse s)).

(** [len(line.expandtabs(tab))] on one line: the column after each character. *)
Definition tab_column (tab column c : Z) : Z :=
  if c =? 9 then column + (tab - column mod tab) else column + 1.
Definition expanded_width (tab : Z) (line : pystr) : Z := foldl (tab_column tab) 0 line.

(** [l[i]], raising. *)
Definition list_index {A} (l : list A) (k : Z) : pyres A :=
  match py_index l k with Some x => Ok x | None => Raise (IndexError "list index out of range") end.

(** [int(text)] on ASCII text: surrounding whitespace, a sign, digits with
    underscores between them. *)
Definition int_of_str (s : pystr) : option Z :=
  match drop_underscores false (strip s) with
  | Some t =>
      let '(neg, u) := match after 45 t, after 43 t with
                       | Some u, _ => (true, u) | _, Some u => (false, u) | _, _ => (false, t)
                       end in
      match span_digits u with
      | (d :: ds, []) => let n := int_of_digits (d :: ds) in Some (if neg then - n else n)
      | _ => None
      end
  | None => None
  end.

Definition int_of_text (s : pystr) : pyres Z :=
  match int_of_str s with Some n => Ok n | None => Raise (ValueError "invalid literal for int()") end.

(** f-strings: literals and decimal integers. *)
Inductive fpart := L (s : string) | D (n : Z) | T (t : pystr).
Definition fpart_text (p : fpart) : pystr := match p with L s => py s | D n => dec n | T t => t end.
Definition fstr (l : list fpart) : pystr := l ≫= fpart_text.

(** ** Regular expressions *)

(** [\d]: the decimal digits (Unicode category Nd). *)
Definition decimal_ranges : list (Z * Z) :=
  [(48, 57); (1632, 1641); (1776, 1785); (1984, 1993); (2406, 2415); (2534, 2543); (2662, 2671);
   (2790, 2799); (2918, 2927); (3046, 3055); (3174, 3183); (3302, 3311); (3430, 3439); (3558,
   3567); (3664, 3673); (3792, 3801); (3872, 3881); (4160, 4169); (4240, 4249); (6112, 6121);
   (6160, 6169); (6470, 6479); (6608, 6617); (6784, 6793); (6800, 6809); (6992, 7001); (7088,
   7097); (7232, 7241); (7248, 7257); (42528, 42537); (43216, 43225); (43264, 43273); (43472,
   43481); (43504, 43513); (43600, 43609); (44016, 44025); (65296, 65305); (66720, 66729); (68912,
   68921); (69734, 69743); (69872, 69881); (69942, 69951); (70096, 70105); (70384, 70393); (70736,
   70745); (70864, 70873); (71248, 71257); (71360, 71369); (71472, 71481); (71904, 71913); (72016,
   72025); (72784, 72793); (73040, 73049); (73120, 73129); (92768, 92777); (92864, 92873); (93008,
   93017); (120782, 120831); (123200, 123209); (123632, 123641); (125264, 125273); (130032,
   130041)].
Definition is_decimal (c : Z) : bool := in_ranges decimal_ranges c.

(** [\w] *)
Definition is_word (c : Z) : bool := is_alnum c || (c =? 95).

(** The longest run of characters of a class. *)
Fixpoint span_class (cls : Z -> bool) (s : pystr) : pystr * pystr :=
  match s with
  | c :: l => if cls c then let '(run, rest) := span_class cls l in (c :: run, rest) else ([], s)
  | [] => ([], [])
  end.

(** [re.findall(before + r'(\d+)' + after, s)] for literal texts [before] and
    [after] that do not start with a digit. *)
Fixpoint find_numbers (fuel : nat) (before after : pystr) (s : pystr) : list pystr :=
  match fuel with
  | O => []
  | S f =>
      match s with
      | [] => []
      | _ :: l =>
          if is_prefix before s then
            match span_class is_decimal (drop (length before) s) with
            | (d :: ds, rest) =>
                if is_prefix after rest
                then (d :: ds) :: find_numbers f before after (drop (length after) rest)
                else find_numbers f before after l
            | ([], _) => find_numbers f before after l
            end
          else find_numbers f before after l
      end
  end.
Definition findall_numbers (before after s : pystr) : list pystr := find_numbers (S (length s)) before after s.

(** ** Lemmas *)

Lemma py_index_range {A} (l : list A) k x : py_index l k = Some x -> - zlen l <= k < zlen l.
Proof. unfold py_index. destruct (k <? 0) eqn:Hk; cbn zeta; destruct (_ && _) eqn:Hr; try done; unbool; lia. Qed.

Lemma text_in_spec sub s : text_in sub s = true -> exists pre post, s = pre ++ sub ++ post.
Proof.
  unfold text_in. destruct (find_sub sub s) as [[pre post]|] eqn:Hf; [|done]. intros _. revert pre post Hf.
  induction s as [|c s IH]; intros pre post; cbn [find_sub].
  - destruct sub; cbn; [intros [= <- <-]; by exists [], []|done].
  - destruct (is_prefix sub (c :: s)) eqn:Hp.
    + intros _. exists []. revert Hp. generalize (c :: s). clear. induction sub as [|d sub IH]; intros l Hp; [by exists l|].
      destruct l as [|e l]; cbn in Hp; [done|]. unbool. subst e. destruct (IH l H0) as [post ->]. by exists post.
    + destruct (find_sub sub s) as [[pre' post']|] eqn:Hf; [|done]. intros [= <- <-].
      destruct (IH pre' post' eq_refl) as (p & q & ->). by exists (c :: p), q.
Qed.

Lemma expanded_width_acc tab line column :
  0 < tab -> 0 <= column -> column + zlen line <= foldl (tab_column tab) column line <= column + tab * zlen line.
Proof.
  intros Ht. revert column. induction line as [|c line IH]; intros column Hc; cbn [foldl]; [rewrite zlen_nil; lia|].
  rewrite zlen_cons. unfold tab_column at 2 4. pose proof (Z.mod_pos_bound column tab Ht).
  destruct (c =? 9); [specialize (IH (column + (tab - column mod tab)))|specialize (IH (column + 1))]; nia.
Qed.

Lemma expanded_width_bounds tab line : 0 < tab -> zlen line <= expanded_width tab line <= tab * zlen line.
Proof. intros Ht. pose proof (expanded_width_acc tab line 0 Ht (Z.le_refl 0)). unfold expanded_width. lia. Qed.

(** Splitting at a separator: the last part is what follows the last one. *)
Lemma split_char_none (c : Z) (s : pystr) : c ∉ s -> split_char c s = [s].
Proof.
  induction s as [|d s IH]; [done|]. intros Hn%not_elem_of_cons. destruct Hn as [Hd Hs]. cbn [split_char].
  destruct (d =? c) eqn:E; [unbool; congruence|]. by rewrite IH.
Qed.

Lemma split_char_nonempty c s : split_char c s <> [].
Proof. destruct s as [|d s]; cbn [split_char]; [done|]. destruct (d =? c); [done|]. by destruct (split_char c s). Qed.

Lemma split_char_last (c : Z) (p w : pystr) :
  c ∉ w -> last (split_char c (p ++ c :: w)) = Some w /\ (2 <= length (split_char c (p ++ c :: w)))%nat.
Proof.
  intros Hw. induction p as [|d p IH]; cbn [app split_char].
  - rewrite Z.eqb_refl, split_char_none by done. split; [done|]. cbn. lia.
  - destruct IH as [Hl Hn]. pose proof (split_char_nonempty c (p ++ c :: w)) as Hne.
    destruct (split_char c (p ++ c :: w)) as [|x [|y l]]; [done|cbn in Hn; lia|].
    destruct (d =? c); (split; [exact Hl|cbn; lia]).
Qed.

Lemma split_char_cases (c : Z) (s : pystr) : c ∉ s \/ exists p w, c ∉ w /\ s = p ++ c :: w.
Proof.
  induction s as [|d s IH]; [left; set_solver|]. destruct IH as [Hn|(p & w & Hw & ->)].
  - destruct (decide (d = c)) as [->|Hd]; [right; by exists [], s|left; set_solver].
  - right. by exists (d :: p), w.
Qed.

(** ** Runs of a class, literal prefixes *)

Lemma span_class_forall cls s :
  s = (span_class cls s).1 ++ (span_class cls s).2 /\ Forall (fun c => cls c = true) (span_class cls s).1.
Proof.
  induction s as [|c s [IH HF]]; cbn [span_class]; [done|]. destruct (cls c) eqn:E; [|done].
  destruct (span_class cls s) as [run rest]. cbn in *. split; [by f_equal|by constructor].
Qed.

Lemma span_class_run cls run s :
  Forall (fun c => cls c = true) run -> (s = [] \/ exists c rest, s = c :: rest /\ cls c = false) -> span_class cls (run ++ s) = (run, s).
Proof.
  intros HF Hs. induction HF as [|c run Hc _ IH]; cbn [app span_class].
  - destruct Hs as [->|(c & rest & -> & Hc)]; cbn [span_class]; [done|]. by rewrite Hc.
  - by rewrite Hc, IH.
Qed.

Lemma py_length p : length (py p) = String.length p.
Proof. induction p as [|a p IH]; cbn; [done|by f_equal]. Qed.

Lemma strip_prefix_Some p s rest : strip_prefix p s = Some rest <-> s = py p ++ rest.
Proof.
  unfold strip_prefix. destruct (is_prefix (py p) s) eqn:E.
  - apply is_prefix_spec in E as [t ->]. rewrite <-(py_length p), drop_app_length. split; [by intros [= ->]|].
    intros Ht%app_inv_head. by rewrite Ht.
  - split; [done|]. intros ->. assert (is_prefix (py p) (py p ++ rest) = true) as Hp by (apply is_prefix_spec; by exists rest). congruence.
Qed.
