(* ===== verification/Parameters.v ===== *)
(** * sqlodin/parameters.py

    [encode] types a bound value for the wire; [prepare] checks a statement and
    numbers its [?] placeholders, leaving quoted text and comments alone.  The
    scanner is specified by an independent lexical grammar ([lexes]) and the
    batch lemma shows that prepared statements joined with the transaction's
    separator still lex as themselves. *)

From Corelib Require Import Floats.SpecFloat.
From S2P Require Import Prelude PyStr PyFloat Objects Vector.

(** ** encode *)

Definition int_in_range (z : Z) : bool := (- 2 ^ 63 <=? z) && (z <? 2 ^ 63).

Definition encode (value : pyval) : pyres pyval :=
  match value with
  | PVec v => Ok (PDict (mkdict [("kind", PStr (py "vector")); ("vector", PList (PFloat <$> values v))]))
  | PNone => Ok (PDict (mkdict [("kind", PStr (py "null"))]))
  | PInt _ | PBool _ =>
      let z := default 0 (isinstance_int value) in
      do? guard (negb (int_in_range z)) (ValueError "Integers must fit SQLite's signed 64-bit range");;
      Ok (PDict (mkdict [("kind", PStr (py "integer")); ("integer", PInt z)]))
  | PFloat f =>
      do? guard (negb (isfinite f)) (ValueError "Floating-point parameters must be finite");;
      Ok (PDict (mkdict [("kind", PStr (py "real")); ("real", PFloat f)]))
  | PStr s =>
      match utf8_len s with
      | None => Raise (ValueError "surrogates not allowed")
      | Some n =>
          do? guard (256 <? n) (ValueError "Text parameters are limited to 256 UTF-8 bytes");;
          Ok (PDict (mkdict [("kind", PStr (py "text")); ("text", PStr s)]))
      end
  | _ => Raise (TypeError "Parameters support str, int, float, Vector, and None")
  end.

(** [for value in values: encode(value)] keeps only the exceptions. *)
Fixpoint encode_all (vs : list pyval) : pyres (list pyval) :=
  match vs with
  | [] => Ok []
  | v :: vs' => let? e := encode v in let? es := encode_all vs' in Ok (e :: es)
  end.

(** [sum(len(v) for v in values if isinstance(v, Vector))] *)
Definition vector_components (vs : list pyval) : Z :=
  zsum ((fun v => match v with PVec w => vlen w | _ => 0 end) <$> vs).

(** ** prepare *)

(** [tuple(parameters)] after the rejection of [str], [bytes] and [dict]. *)
Definition as_values (parameters : pyval) : pyres (list pyval) :=
  match parameters with
  | PStr _ | PBytes _ | PDict _ => Raise (TypeError "Parameters must be a sequence of values")
  | _ => py_iter parameters
  end.

Definition is_quote (c : Z) : bool := str_in [c] [py "'"; [34]; py "`"; py "["].
Definition closing_of (c : Z) : Z := if c =? 91 then 93 else c.

(** The inner loop after an opening quote: the rest of the quoted text with its
    closing character (a doubled one continues, except for brackets), and what
    follows; [None] when the text ends first. *)
Fixpoint skip_quote (closing : Z) (s : pystr) : option (pystr * pystr) :=
  match s with
  | [] => None
  | c :: s' =>
      if c =? closing then
        match s' with
        | d :: s'' =>
            if negb (closing =? 93) && (d =? closing) then
              match skip_quote closing s'' with
              | Some (t, r) => Some (c :: d :: t, r)
              | None => None
              end
            else Some ([c], s')
        | [] => Some ([c], [])
        end
      else
        match skip_quote closing s' with
        | Some (t, r) => Some (c :: t, r)
        | None => None
        end
  end.

(** The main loop, on the rest of the text ([sql[i:]]). *)
Fixpoint scan (fuel : nat) (offset count : Z) (out : list pystr) (s : pystr) :
  pyres (list pystr * Z) :=
  match fuel with
  | O => OutOfFuel
  | S f =>
      match s with
      | [] => Ok (out, count)
      | char :: rest =>
          if is_prefix (py "--") s then
            match find_sub [10] s with
            | Some (pre, post) => scan f offset count (out ++ [pre]) post
            | None => scan f offset count (out ++ [s]) []
            end
          else if is_prefix (py "/*") s then
            match find_sub (py "*/") (drop 2 s) with
            | None => Raise (ValueError "Unterminated SQL comment")
            | Some (pre, post) =>
                scan f offset count (out ++ [py "/*" ++ pre ++ py "*/"]) (drop 2 post)
            end
          else if is_quote char then
            match skip_quote (closing_of char) rest with
            | None => Raise (ValueError "Unterminated SQL quote")
            | Some (t, r) => scan f offset count (out ++ [char :: t]) r
            end
          else if char =? 63 then
            do? guard (match rest with d :: _ => is_digit d | [] => false end)
                      (ValueError "Use plain ? placeholders, not numbered parameters");;
            scan f offset (count + 1) (out ++ [63 :: dec (offset + (count + 1))]) rest
          else if str_in [char] [py ":"; py "@"; py "$"] then
            Raise (ValueError "Use plain ? placeholders, not named parameters")
          else scan f offset count (out ++ [[char]]) rest
      end
  end.

Definition prepare (sql parameters : pyval) (offset : Z) : pyres (pystr * list pyval) :=
  match sql with
  | PStr s =>
      do? guard (bool_decide (strip s = []) || contains_char 0 s)
                (ValueError "SQL must be a nonempty string without NUL");;
      let? vs := as_values parameters in
      do? guard (16 <? offset + zlen vs) (ValueError "A request supports at most 16 parameters");;
      do? guard (384 <? vector_components vs)
                (ValueError "A request supports at most 384 vector components in total");;
      do? encode_all vs;;
      let? (out, count) := scan (S (length s)) offset 0 [] s in
      do? guard (negb (count =? zlen vs))
                (ValueError "SQL has {count} placeholders but received {len(values)} parameters");;
      let text := concat out in
      match utf8_len text with
      | None => Raise (ValueError "surrogates not allowed")
      | Some n =>
          do? guard (4096 <? n) (ValueError "A SQL request is limited to 4096 UTF-8 bytes");;
          Ok (text, vs)
      end
  | _ => Raise (ValueError "SQL must be a nonempty string without NUL")
  end.

(** ** The lexical grammar *)

Inductive token := Verbatim (t : pystr) | Hole | Plain (c : Z).

(** Quoted bodies: the closing character occurs only doubled. *)
Inductive quoted (q : Z) : pystr -> Prop :=
| quoted_nil : quoted q []
| quoted_char c b : c <> q -> quoted q b -> quoted q (c :: b)
| quoted_double b : q <> 93 -> quoted q b -> quoted q (q :: q :: b).

Definition starts_with (c : Z) (s : pystr) : Prop := exists s', s = c :: s'.
Definition starts_digit (s : pystr) : Prop := exists d s', s = d :: s' /\ is_digit d = true.

(** A plain character: opens nothing and is not a parameter sigil. *)
Definition plain_at (c : Z) (s : pystr) : Prop :=
  is_quote c = false /\ c <> 63 /\ c <> 58 /\ c <> 64 /\ c <> 36 /\
  ~ (c = 45 /\ starts_with 45 s) /\ ~ (c = 47 /\ starts_with 42 s).

Inductive lexes : pystr -> list token -> Prop :=
| lex_end : lexes [] []
| lex_line body s toks :
    10 ∉ body -> (s = [] \/ starts_with 10 s) -> lexes s toks ->
    lexes (py "--" ++ body ++ s) (Verbatim (py "--" ++ body) :: toks)
| lex_block body s toks :
    (forall p q, body = p ++ q -> q <> [] -> is_prefix (py "*/") (q ++ py "*/") = false) ->
    lexes s toks ->
    lexes (py "/*" ++ body ++ py "*/" ++ s) (Verbatim (py "/*" ++ body ++ py "*/") :: toks)
| lex_quote c body s toks :
    is_quote c = true -> quoted (closing_of c) body ->
    (closing_of c <> 93 -> ~ starts_with (closing_of c) s) -> lexes s toks ->
    lexes (c :: body ++ closing_of c :: s) (Verbatim (c :: body ++ [closing_of c]) :: toks)
| lex_hole s toks :
    ~ starts_digit s -> lexes s toks -> lexes (63 :: s) (Hole :: toks)
| lex_plain c s toks :
    plain_at c s -> lexes s toks -> lexes (c :: s) (Plain c :: toks).

(** The text sent to the server: holes numbered from [n] on. *)
Fixpoint render (n : Z) (toks : list token) : pystr :=
  match toks with
  | [] => []
  | Verbatim t :: r => t ++ render n r
  | Hole :: r => 63 :: dec n ++ render (n + 1) r
  | Plain c :: r => c :: render n r
  end.

Definition is_hole (t : token) : bool := match t with Hole => true | _ => false end.
Definition holes (toks : list token) : Z := zlen (filter (fun t => is_hole t = true) toks).

(** ** The scanner implements the grammar *)

Lemma list_len_ind {A} (P : list A -> Prop) :
  (forall s, (forall t, (length t < length s)%nat -> P t) -> P s) -> forall s, P s.
Proof.
  intros H s. remember (length s) as n eqn:E. revert s E.
  induction n as [n IH] using lt_wf_ind. intros s ->. apply H. intros t Ht. by eapply IH.
Qed.

Lemma skip_quote_sound q s t r :
  skip_quote q s = Some (t, r) ->
  exists b, s = b ++ q :: r /\ t = b ++ [q] /\ quoted q b /\ (q <> 93 -> ~ starts_with q r).
Proof.
  revert t r. induction s as [s IH] using list_len_ind. intros t r.
  destruct s as [|c s]; [done|]. cbn [skip_quote]. destruct (Z.eqb_spec c q) as [->|Hc].
  - destruct s as [|d s]; [intros [= <- <-]; exists []; split_and!; try done; [constructor|by intros _ [? ?]]|].
    destruct (negb (q =? 93) && (d =? q)) eqn:E.
    + apply andb_true_iff in E as [Hq Hd]. unbool. subst d.
      destruct (skip_quote q s) as [[t' r']|] eqn:Hs; [|done]. intros [= <- <-].
      destruct (IH s ltac:(simpl; lia) _ _ Hs) as (b & -> & -> & Hb & Hr).
      exists (q :: q :: b). split_and!; [done|done|by constructor|done].
    + intros [= <- <-]. exists []. split_and!; [done|done|constructor|].
      intros Hq [s' Hs]. simplify_eq. rewrite Z.eqb_refl in E.
      destruct (Z.eqb_spec q 93); done.
  - destruct (skip_quote q s) as [[t' r']|] eqn:Hs; [|done]. intros [= <- <-].
    destruct (IH s ltac:(simpl; lia) _ _ Hs) as (b & -> & -> & Hb & Hr).
    exists (c :: b). split_and!; [done|done|by constructor|done].
Qed.

Lemma skip_quote_complete q b r :
  quoted q b -> (q <> 93 -> ~ starts_with q r) ->
  skip_quote q (b ++ q :: r) = Some (b ++ [q], r).
Proof.
  intros Hb Hr. induction Hb as [|c b Hc Hb IH|b Hq Hb IH].
  - cbn [app skip_quote]. rewrite Z.eqb_refl. destruct r as [|d r]; [done|].
    destruct (negb (q =? 93) && (d =? q)) eqn:E; [|done].
    apply andb_true_iff in E as [Hq Hd]. unbool. subst. destruct Hr; [done|by eexists].
  - cbn [app skip_quote]. destruct (Z.eqb_spec c q); [done|]. by rewrite IH.
  - cbn [app skip_quote]. rewrite !Z.eqb_refl. destruct (Z.eqb_spec q 93); [done|]. simpl.
    by rewrite IH.
Qed.

Lemma is_prefix_two a b s :
  is_prefix [a; b] s = true <-> exists s', s = a :: b :: s'.
Proof.
  rewrite is_prefix_spec. split; intros [t ->]; by exists t.
Qed.

Lemma sigil_spec c : str_in [c] [py ":"; py "@"; py "$"] = false <-> c <> 58 /\ c <> 64 /\ c <> 36.
Proof.
  rewrite <- not_true_iff_false, str_in_spec, !not_elem_of_cons.
  change (py ":") with [58]. change (py "@") with [64]. change (py "$") with [36].
  split; [intros (H1 & H2 & H3 & _)|intros (H1 & H2 & H3)]; split_and!; try congruence.
  apply not_elem_of_nil.
Qed.

Lemma quote_values c : is_quote c = true -> c = 39 \/ c = 34 \/ c = 96 \/ c = 91.
Proof.
  unfold is_quote. rewrite str_in_spec, !elem_of_cons, elem_of_nil.
  intros [H|[H|[H|[H|H]]]]; try (injection H as ->); tauto.
Qed.

Lemma render_cons n x toks :
  render n (x :: toks) =
  (match x with Verbatim t => t | Hole => 63 :: dec n | Plain c => [c] end) ++
  render (if is_hole x then n + 1 else n) toks.
Proof. by destruct x. Qed.

Lemma holes_cons x toks : holes (x :: toks) = (if is_hole x then 1 else 0) + holes toks.
Proof.
  unfold holes. rewrite filter_cons. destruct x; simpl; try done.
  by rewrite zlen_cons.
Qed.

Lemma scan_sound fuel offset count out s out' count' :
  scan fuel offset count out s = Ok (out', count') ->
  exists toks, lexes s toks /\ concat out' = concat out ++ render (offset + count + 1) toks /\
               count' = count + holes toks.
Proof.
  revert count out s. induction fuel as [|f IH]; intros count out s H; [done|].
  destruct s as [|c s]; cbn [scan] in H.
  { simplify_eq. exists []. split_and!; [apply lex_end|by rewrite app_nil_r|change (holes []) with 0; lia]. }
  destruct (is_prefix (py "--") (c :: s)) eqn:Hline.
  { change (py "--") with [45; 45] in Hline. apply is_prefix_two in Hline as [s' Hs]. simplify_eq.
    destruct (find_sub [10] (45 :: 45 :: s')) as [[pre post]|] eqn:Hf.
    - apply IH in H as (toks & Hl & Hc & ->).
      pose proof (find_char_avoids _ _ _ _ Hf) as Ha.
      destruct (find_sub_split _ _ _ _ Hf) as [Hs [u Hu]]. subst post.
      destruct pre as [|a [|b body]]; simplify_eq/=.
      exists (Verbatim (py "--" ++ body) :: toks).
      rewrite render_cons, holes_cons. split_and!; [|rewrite Hc, concat_app; simpl; by rewrite app_nil_r, <- app_assoc|done].
      apply (lex_line body (10 :: u)); [set_solver|right; by eexists|done].
    - apply IH in H as (toks & Hl & Hc & ->). inversion Hl; subst.
      exists [Verbatim (py "--" ++ s')]. rewrite render_cons, holes_cons.
      split_and!; [|rewrite Hc, concat_app; simpl; by rewrite !app_nil_r|done].
      rewrite <- (app_nil_r s') at 1. apply (lex_line s' [] []); [|by left|constructor].
      intros Hin. apply list_elem_of_split in Hin as (l1 & l2 & ->).
      pose proof (find_sub_None _ _ Hf (45 :: 45 :: l1) (10 :: l2) eq_refl) as Hn.
      simpl in Hn. done. }
  destruct (is_prefix (py "/*") (c :: s)) eqn:Hblock.
  { change (py "/*") with [47; 42] in Hblock. apply is_prefix_two in Hblock as [s' Hs]. simplify_eq. change (drop 2 (47 :: 42 :: s')) with s' in H.
    destruct (find_sub (py "*/") s') as [[pre post]|] eqn:Hf; [|done].
    apply IH in H as (toks & Hl & Hc & ->).
    destruct (find_sub_split _ _ _ _ Hf) as [-> [u ->]].
    exists (Verbatim (py "/*" ++ pre ++ py "*/") :: toks). rewrite render_cons, holes_cons.
    split_and!; [|rewrite Hc, concat_app; simpl; by rewrite app_nil_r, <- app_assoc|done].
    apply (lex_block pre u); [|done]. intros p q -> Hq.
    pose proof (find_sub_first _ _ _ _ Hf p q eq_refl Hq) as Hfirst.
    destruct q as [|a [|b q]]; [done|exact Hfirst|exact Hfirst]. }
  destruct (is_quote c) eqn:Hq.
  { destruct (skip_quote (closing_of c) s) as [[t r]|] eqn:Hs; [|done].
    apply IH in H as (toks & Hl & Hc & ->).
    destruct (skip_quote_sound _ _ _ _ Hs) as (b & -> & -> & Hb & Hr).
    exists (Verbatim (c :: b ++ [closing_of c]) :: toks). rewrite render_cons, holes_cons.
    split_and!; [by constructor|rewrite Hc, concat_app; simpl; by rewrite app_nil_r, <- app_assoc|done]. }
  destruct (Z.eqb_spec c 63) as [->|H63].
  { res_inv. apply IH in H as (toks & Hl & Hc & ->).
    exists (Hole :: toks). rewrite render_cons, holes_cons. simpl.
    replace (offset + (count + 1)) with (offset + count + 1) in * by lia.
    split_and!; [|rewrite Hc, concat_app; simpl; by rewrite app_nil_r, <- app_assoc|lia].
    constructor; [|done]. intros (d & s' & -> & Hd). by rewrite Hd in Hr. }
  destruct (str_in [c] _) eqn:Hsig; [done|]. apply sigil_spec in Hsig.
  apply IH in H as (toks & Hl & Hc & ->).
  exists (Plain c :: toks). rewrite render_cons, holes_cons.
  split_and!; [|rewrite Hc, concat_app; simpl; by rewrite <- app_assoc|done].
  constructor; [|done]. destruct Hsig as (? & ? & ?). split_and!; [done..| |].
  - intros [-> [s' ->]]. done.
  - intros [-> [s' ->]]. done.
Qed.

Lemma concat_snoc (out : list pystr) t r : concat (out ++ [t]) ++ r = concat out ++ t ++ r.
Proof. rewrite concat_app. simpl. by rewrite app_nil_r, <- app_assoc. Qed.

Lemma scan_complete s toks :
  lexes s toks -> forall fuel offset count out, (length s < fuel)%nat ->
  exists out', scan fuel offset count out s = Ok (out', count + holes toks) /\
               concat out' = concat out ++ render (offset + count + 1) toks.
Proof.
  induction 1 as [|body s toks Hb Hs Hl IH|body s toks Hb Hl IH|c body s toks Hq Hb Hs Hl IH
                 |s toks Hd Hl IH|c s toks Hp Hl IH]; intros fuel offset count out Hf;
    (destruct fuel as [|f]; [simpl in Hf; lia|]).
  - exists out. simpl. change (holes []) with 0. rewrite app_nil_r. split; [|done]. do 2 f_equal. lia.
  - rewrite !length_app in Hf. rewrite holes_cons, render_cons. simpl is_hole. cbv iota. rewrite ?Z.add_0_l.
    destruct (IH f offset count (out ++ [py "--" ++ body])) as (out' & Hout & Hc); [simpl in Hf; lia|].
    exists out'. rewrite Hc, concat_snoc. split; [|done]. rewrite <- Hout.
    change (py "--" ++ body ++ s) with (45 :: 45 :: body ++ s). cbn [scan].
    change (is_prefix (py "--") (45 :: 45 :: body ++ s)) with true. cbv iota.
    change (45 :: 45 :: body ++ s) with ((45 :: 45 :: body) ++ s).
    destruct Hs as [->|[u ->]].
    + rewrite app_nil_r, find_char_None; [done|]. by repeat (apply not_elem_of_cons; split).
    + rewrite find_char_app; [done|]. by repeat (apply not_elem_of_cons; split).
  - rewrite !length_app in Hf. rewrite holes_cons, render_cons. simpl is_hole. cbv iota. rewrite ?Z.add_0_l.
    destruct (IH f offset count (out ++ [py "/*" ++ body ++ py "*/"])) as (out' & Hout & Hc); [simpl in Hf; lia|].
    exists out'. rewrite Hc, concat_snoc. split; [|done]. rewrite <- Hout.
    change (py "/*" ++ body ++ py "*/" ++ s) with (47 :: 42 :: body ++ 42 :: 47 :: s). cbn [scan].
    change (is_prefix (py "--") (47 :: 42 :: body ++ 42 :: 47 :: s)) with false.
    change (is_prefix (py "/*") (47 :: 42 :: body ++ 42 :: 47 :: s)) with true. cbv iota.
    change (drop 2 (47 :: 42 :: body ++ 42 :: 47 :: s)) with (body ++ 42 :: 47 :: s).
    change (py "*/") with [42; 47] in *. by rewrite find_two_app.
  - rewrite holes_cons, render_cons. simpl is_hole. cbv iota. rewrite ?Z.add_0_l.
    destruct (IH f offset count (out ++ [c :: body ++ [closing_of c]])) as (out' & Hout & Hc).
    { simpl in Hf. rewrite length_app in Hf. simpl in Hf. lia. }
    exists out'. rewrite Hc, concat_snoc. split; [|done]. rewrite <- Hout. cbn [scan].
    assert (Hn : is_prefix (py "--") (c :: body ++ closing_of c :: s) = false /\
                 is_prefix (py "/*") (c :: body ++ closing_of c :: s) = false).
    { apply quote_values in Hq as [->|[->|[->| ->]]]; done. }
    destruct Hn as [-> ->]. rewrite Hq, skip_quote_complete by done. done.
  - rewrite holes_cons, render_cons. simpl is_hole. cbv iota. rewrite ?Z.add_0_l.
    destruct (IH f offset (count + 1) (out ++ [63 :: dec (offset + count + 1)])) as (out' & Hout & Hc);
      [simpl in Hf; lia|].
    exists out'. rewrite Hc, concat_snoc.
    replace (offset + (count + 1) + 1) with (offset + count + 1 + 1) by lia. split; [|done].
    replace (count + (1 + holes toks)) with (count + 1 + holes toks) by lia. rewrite <- Hout.
    cbn [scan]. change (is_prefix (py "--") (63 :: s)) with false.
    change (is_prefix (py "/*") (63 :: s)) with false. change (is_quote 63) with false. cbv iota.
    rewrite Z.eqb_refl. replace (offset + (count + 1)) with (offset + count + 1) by lia.
    destruct s as [|d s]; [done|]. destruct (is_digit d) eqn:E; [|done].
    destruct Hd. by exists d, s.
  - rewrite holes_cons, render_cons. simpl is_hole. cbv iota. rewrite ?Z.add_0_l.
    destruct (IH f offset count (out ++ [[c]])) as (out' & Hout & Hc); [simpl in Hf; lia|].
    exists out'. rewrite Hc, concat_snoc. split; [|done]. rewrite <- Hout. cbn [scan].
    destruct Hp as (Hq & H63 & H58 & H64 & H36 & Hline & Hblock).
    assert (Hn1 : is_prefix (py "--") (c :: s) = false).
    { apply not_true_iff_false. intros E. change (py "--") with [45; 45] in E.
      apply is_prefix_two in E as [s' E]. simplify_eq. destruct Hline. split; [done|by eexists]. }
    assert (Hn2 : is_prefix (py "/*") (c :: s) = false).
    { apply not_true_iff_false. intros E. change (py "/*") with [47; 42] in E.
      apply is_prefix_two in E as [s' E]. simplify_eq. destruct Hblock. split; [done|by eexists]. }
    rewrite Hn1, Hn2, Hq. destruct (Z.eqb_spec c 63); [done|].
    by rewrite (proj2 (sigil_spec c)).
Qed.

(** One unit of fuel per character is enough. *)
Lemma scan_fuel fuel offset count out s :
  (length s < fuel)%nat -> scan fuel offset count out s <> OutOfFuel.
Proof.
  revert count out s. induction fuel as [|f IH]; intros count out s Hf; [lia|].
  destruct s as [|c s]; [done|]. cbn [scan].
  destruct (is_prefix (py "--") (c :: s)) eqn:Hline.
  { change (py "--") with [45; 45] in Hline. apply is_prefix_two in Hline as [s' Hs]. simplify_eq.
    destruct (find_sub [10] (45 :: 45 :: s')) as [[pre post]|] eqn:E.
    - pose proof (find_sub_length _ _ _ _ E) as Hl.
      destruct (find_sub_split _ _ _ _ E) as [Hs [u ->]]. destruct pre; [done|].
      apply IH. simpl in *. lia.
    - apply IH. simpl in *. lia. }
  destruct (is_prefix (py "/*") (c :: s)).
  { destruct (find_sub _ _) as [[pre post]|] eqn:E; [|done].
    apply find_sub_length in E. apply IH. rewrite length_drop in *. simpl in *. lia. }
  destruct (is_quote c).
  { destruct (skip_quote _ _) as [[t r]|] eqn:E; [|done].
    apply skip_quote_sound in E as (b & -> & _). apply IH. simpl in Hf. rewrite length_app in Hf.
    simpl in Hf. lia. }
  destruct (c =? 63); [destruct (match s with d :: _ => _ | [] => _ end); [done|]|
                       destruct (str_in _ _); [done|]]; apply IH; simpl in *; lia.
Qed.

(** ** What prepare returns *)

Fixpoint source (toks : list token) : pystr :=
  match toks with
  | [] => []
  | Verbatim t :: r => t ++ source r
  | Hole :: r => 63 :: source r
  | Plain c :: r => c :: source r
  end.

(** The tokens spell the statement. *)
Lemma lexes_source s toks : lexes s toks -> source toks = s.
Proof.
  induction 1; simpl; rewrite ?IHlexes; try done; by rewrite <- ?app_assoc.
Qed.

Lemma render_app n t1 t2 : render n (t1 ++ t2) = render n t1 ++ render (n + holes t1) t2.
Proof.
  revert n. induction t1 as [|x t1 IH]; intros n; [by change (holes []) with 0; rewrite Z.add_0_r|].
  rewrite <- app_comm_cons, !render_cons, IH, holes_cons, <- app_assoc. do 3 f_equal.
  destruct (is_hole x); lia.
Qed.

Lemma holes_app t1 t2 : holes (t1 ++ t2) = holes t1 + holes t2.
Proof. unfold holes. rewrite filter_app. apply zlen_app. Qed.

Lemma holes_nonneg toks : 0 <= holes toks.
Proof. apply zlen_nonneg. Qed.

Lemma starts_with_app_nl c s u : c <> 10 -> starts_with c (s ++ 10 :: u) -> starts_with c s.
Proof. intros Hc [s' Hs]. destruct s as [|d s]; simplify_eq/=. by eexists. Qed.

Lemma closing_not_newline c : is_quote c = true -> closing_of c <> 10.
Proof. intros [->|[->|[->| ->]]]%quote_values; done. Qed.

(** A newline ends whatever a statement leaves open (a trailing comment), so
    appending a line starting with one never changes how the statement lexes. *)
Lemma lexes_newline s1 t1 s t :
  lexes s1 t1 -> lexes (10 :: s) t -> lexes (s1 ++ 10 :: s) (t1 ++ t).
Proof.
  intros H1 H2. induction H1 as [|body s1 toks Hb Hs Hl IH|body s1 toks Hb Hl IH
    |c body s1 toks Hq Hb Hs Hl IH|s1 toks Hd Hl IH|c s1 toks Hp Hl IH]; [done|..].
  - rewrite <- !app_assoc. simpl app at 2. apply (lex_line body); [done| |done].
    right. destruct Hs as [->|[u ->]]; by eexists.
  - rewrite <- !app_assoc. by apply (lex_block body).
  - rewrite <- app_comm_cons, <- app_assoc. cbn [app].
    apply (lex_quote c body); [done|done| |done]. intros Hc Hw. apply Hs; [done|].
    eapply starts_with_app_nl; [by apply closing_not_newline|done].
  - constructor; [|done]. intros (d & s' & Hs & Hdig). destruct s1 as [|d' s1]; simplify_eq/=.
    apply Hd. by exists d, s1.
  - constructor; [|done]. destruct Hp as (? & ? & ? & ? & ? & Hm & Hsl). split_and!; [done..| |].
    + intros [-> Hw]. apply Hm. split; [done|]. by eapply starts_with_app_nl.
    + intros [-> Hw]. apply Hsl. split; [done|]. by eapply starts_with_app_nl.
Qed.

Lemma lexes_plain s t c :
  is_quote c = false -> c <> 63 -> c <> 58 -> c <> 64 -> c <> 36 -> c <> 45 -> c <> 47 ->
  lexes s t -> lexes (c :: s) (Plain c :: t).
Proof. intros. constructor; [|done]. split_and!; try done; by intros [? _]. Qed.

(** ** Properties *)

Lemma prepare_iff s vs offset text vals :
  prepare (PStr s) (PList vs) offset = Ok (text, vals) <->
  vals = vs /\ strip s <> [] /\ contains_char 0 s = false /\
  offset + zlen vs <= 16 /\ vector_components vs <= 384 /\ (exists es, encode_all vs = Ok es) /\
  exists toks n, lexes s toks /\ holes toks = zlen vs /\ text = render (offset + 1) toks /\
                 utf8_len text = Some n /\ n <= 4096.
Proof.
  unfold prepare. cbn [as_values py_iter]. split.
  - intros H. res_inv. match goal with x : (list pystr * Z)%type |- _ => destruct x as [out count] end. res_inv.
    destruct (utf8_len (concat out)) as [n|] eqn:Hn; [|done]. res_inv. simplify_eq. unbool.
    apply scan_sound in Hr4 as (toks & Hl & Hc & Hcount). cbn [concat app] in Hc.
    replace (offset + 0 + 1) with (offset + 1) in Hc by lia. rewrite Hc in *.
    split_and!; [done|done|done|done|done|by eexists|]. exists toks, n. split_and!; try done; lia.
  - intros (-> & Hs & Hz & H16 & H384 & (es & Hes) & toks & n & Hl & Hh & -> & Hn & Hb).
    rewrite bool_decide_eq_false_2, Hz by done. cbn [orb guard res_bind].
    destruct (Z.ltb_spec 16 (offset + zlen vs)); [lia|].
    destruct (Z.ltb_spec 384 (vector_components vs)); [lia|]. cbn [guard res_bind]. rewrite Hes.
    destruct (scan_complete _ _ Hl (S (length s)) offset 0 [] ltac:(lia)) as (out & -> & Hc).
    cbn [res_bind]. rewrite Z.add_0_l, Hh, Z.eqb_refl. cbn [negb guard res_bind]. rewrite Hc.
    cbn [concat app]. replace (offset + 0 + 1) with (offset + 1) by lia. rewrite Hn.
    destruct (Z.ltb_spec 4096 n); [lia|done].
Qed.

Lemma prepare_limit sql ps offset tv : prepare sql ps offset = Ok tv -> offset + zlen tv.2 <= 16.
Proof.
  unfold prepare. destruct sql as [| | | |s| | | |]; try done. intros Hp. res_inv.
  match goal with x : (list pystr * Z)%type |- _ => destruct x as [out count] end.
  res_inv. destruct (utf8_len _); [|done]. res_inv. simplify_eq. by unbool.
Qed.

(** C6: [prepare] accepts a statement exactly when it is nonempty text without
    NUL, its values fit the request limits and encode, and it lexes into
    comments, quoted text, plain characters and as many [?] holes as there are
    values, the rendered text fitting 4096 UTF-8 bytes; it then returns that
    statement with the holes numbered consecutively from [offset + 1] and
    everything else untouched. *)
Theorem prepare_spec s vs offset text vals :
  prepare (PStr s) (PList vs) offset = Ok (text, vals) <->
  vals = vs /\ strip s <> [] /\ contains_char 0 s = false /\
  offset + zlen vs <= 16 /\ vector_components vs <= 384 /\ (exists es, encode_all vs = Ok es) /\
  exists toks n, lexes s toks /\ holes toks = zlen vs /\ text = render (offset + 1) toks /\
                 utf8_len text = Some n /\ n <= 4096.
Proof. apply prepare_iff. Qed.

(** ** Termination and failures *)

Lemma encode_all_raises vs x : encode_all vs = Raise x -> exists m, x = ValueError m \/ x = TypeError m.
Proof.
  induction vs as [|v vs IH]; simpl; [done|].
  destruct (encode v) as [e|y|] eqn:He; simpl; [|intros [= ->]|done].
  - destruct (encode_all vs) as [es|z|]; simpl; [done|intros [= ->]; by apply IH|done].
  - clear IH. revert He. unfold encode, guard.
    repeat case_match; simpl; intros; simplify_eq; eauto.
Qed.

Lemma encode_all_ends vs : encode_all vs <> OutOfFuel.
Proof.
  induction vs as [|v vs IH]; simpl; [done|]. apply res_bind_total.
  - unfold encode. res_total.
  - intros e He. by apply res_bind_total.
Qed.

(** [prepare] always terminates with a result or an exception: its scanner
    consumes at least one character per iteration, on every input. *)
Lemma prepare_ends sql params offset : prepare sql params offset <> OutOfFuel.
Proof.
  unfold prepare. res_total; [by destruct params|apply encode_all_ends|apply scan_fuel; lia].
Qed.

(** The statement of the package's own test. *)
Definition sample_sql : pystr :=
  py "SELECT '?', `?`, [?], ? -- ?" ++ 10 :: py "/* ? */ , ?".

Example prepare_sample :
  prepare (PStr sample_sql) (PList [PInt 1; PInt 2]) 3 =
  Ok (py "SELECT '?', `?`, [?], ?4 -- ?" ++ 10 :: py "/* ? */ , ?5", [PInt 1; PInt 2]).
Proof. vm_compute. reflexivity. Qed.

Example prepare_rejects :
  map (fun q => prepare (PStr (py q)) (PList [PInt 1]) 0)
      ["SELECT ?1"; "SELECT :x"; "SELECT 'unterminated"; "SELECT /* no end"; "SELECT 1"]%string =
  [Raise (ValueError "Use plain ? placeholders, not numbered parameters");
   Raise (ValueError "Use plain ? placeholders, not named parameters");
   Raise (ValueError "Unterminated SQL quote"); Raise (ValueError "Unterminated SQL comment");
   Raise (ValueError "SQL has {count} placeholders but received {len(values)} parameters")].
Proof. vm_compute. reflexivity. Qed.

(** Accepted parts of a transaction, as they are stored: the text followed by a
    newline.  [parts_tokens] is what the joined body lexes as. *)
Definition separator : list token := Plain <$> [10; 10; 59; 10].

Lemma lexes_separator s t : lexes s t -> lexes (10 :: 10 :: 59 :: 10 :: s) (separator ++ t).
Proof. intros H. repeat (apply lexes_plain; [done..|]). done. Qed.
