(* ===== verification/Results.v ===== *)
(** * sqlodin/results.py

    Result rows: a [Row] is a read-only mapping from column names to values that
    also answers integer positions; [Rows] is a sequence of rows with the
    cardinality checks [one] and [scalar]. *)

From S2P Require Import Prelude PyStr PyFloat Objects.

Record Row := mkRow { _columns : list pystr; _values : list pyval }.

Record Rows := mkRows { columns : list pystr; _rows : list Row; applied : Z; node : Z }.

Record WriteResult := mkWriteResult { w_changes : Z; w_applied : Z; w_node : Z; w_sequence : Z }.

(** ** Row *)

(** [tuple.index(key)] *)
Fixpoint index_of (k : pystr) (l : list pystr) : option nat :=
  match l with
  | [] => None
  | c :: l' => if pyeqb k c then Some O else S <$> index_of k l'
  end.

Definition row_getitem (r : Row) (key : pyval) : pyres pyval :=
  match isinstance_int key with
  | Some k => match py_index (_values r) k with
              | Some v => Ok v
              | None => Raise (IndexError "tuple index out of range")
              end
  | None =>
      match key with
      | PStr k =>
          match index_of k (_columns r) with
          | Some i => match _values r !! i with
                      | Some v => Ok v
                      | None => Raise (IndexError "tuple index out of range")
                      end
          | None => Raise (KeyError "key")
          end
      | _ => Raise (KeyError "key")
      end
  end.

(** [dict.fromkeys(columns)]: first occurrences, in order. *)
Fixpoint fromkeys (seen : list pystr) (l : list pystr) : list pystr :=
  match l with
  | [] => []
  | c :: l' => if str_in c seen then fromkeys seen l' else c :: fromkeys (c :: seen) l'
  end.

Definition row_iter (r : Row) : list pystr := fromkeys [] (_columns r).

(** [len(set(columns))] *)
Definition row_len (r : Row) : Z := Z.of_nat (size (list_to_set (_columns r) : gset pystr)).

Definition as_tuple (r : Row) : list pyval := _values r.

(** [dict(row)]: the items of the mapping. *)
Definition row_items (r : Row) : list (pystr * pyres pyval) :=
  (fun k => (k, row_getitem r (PStr k))) <$> row_iter r.

(** ** Rows *)

Inductive index := Position (k : Z) | Slice (start stop step : option Z).

(** CPython's slice bounds for a positive or negative step. *)
Definition clamp (lo hi x : Z) : Z := Z.max lo (Z.min hi x).
Definition slice_bound (n : Z) (down : bool) (x : option Z) (dflt : Z) : Z :=
  match x with
  | None => dflt
  | Some x =>
      let x' := if x <? 0 then x + n else x in
      if down then clamp (-1) (n - 1) x' else clamp 0 n x'
  end.

Fixpoint slice_from {A} (fuel : nat) (l : list A) (i stop step : Z) : list A :=
  match fuel with
  | O => []
  | S f =>
      if (if 0 <? step then i <? stop else stop <? i) then
        match l !! Z.to_nat i with
        | Some x => x :: slice_from f l (i + step) stop step
        | None => []
        end
      else []
  end.

Definition py_slice {A} (l : list A) (start stop step : option Z) : pyres (list A) :=
  let n := zlen l in
  let st := default 1 step in
  do? guard (st =? 0) (ValueError "slice step cannot be zero");;
  let down := st <? 0 in
  let i := slice_bound n down start (if down then n - 1 else 0) in
  let j := slice_bound n down stop (if down then -1 else n) in
  Ok (slice_from (length l) l i j st).

Inductive indexed := OneRow (r : Row) | ManyRows (rs : list Row).

Definition rows_getitem (rs : Rows) (ix : index) : pyres indexed :=
  match ix with
  | Position k =>
      match py_index (_rows rs) k with
      | Some r => Ok (OneRow r)
      | None => Raise (IndexError "tuple index out of range")
      end
  | Slice a b c => let? l := py_slice (_rows rs) a b c in Ok (ManyRows l)
  end.

Definition rows_len (rs : Rows) : Z := zlen (_rows rs).

Definition first (rs : Rows) : option Row := head (_rows rs).

Definition one (rs : Rows) : pyres Row :=
  do? guard (negb (rows_len rs =? 1)) (ValueError "Expected exactly one row, received {len(self)}");;
  match _rows rs with r :: _ => Ok r | [] => Raise (IndexError "tuple index out of range") end.

Definition scalar (rs : Rows) : pyres pyval :=
  let? row := one rs in
  do? guard (negb (zlen (columns rs) =? 1)) (ValueError "Expected one column, received {len(self.columns)}");;
  row_getitem row (PInt 0).

(** ** Lemmas *)

Lemma index_of_Some k l i :
  index_of k l = Some i <-> l !! i = Some k /\ forall j, (j < i)%nat -> l !! j <> Some k.
Proof.
  revert i. induction l as [|c l IH]; intros i; simpl.
  { split; [done|]. by intros [? _]. }
  destruct (pyeqb k c) eqn:E.
  - apply pyeqb_eq in E as ->. split.
    + intros [= <-]. split; [done|lia].
    + intros [Hi Hj]. destruct i as [|i]; [done|]. by destruct (Hj O ltac:(lia)).
  - assert (Hne : c <> k) by (intros ->; by rewrite pyeqb_refl in E). split.
    + intros (i' & Hi' & ->)%fmap_Some. apply IH in Hi' as [Hi Hj]. split; [done|].
      intros [|j] Hlt; simpl; [congruence|]. apply Hj. lia.
    + intros [Hi Hj]. destruct i as [|i]; [simpl in Hi; congruence|].
      apply fmap_Some. exists i. split; [|done]. apply IH. split; [done|].
      intros j Hlt. apply (Hj (S j)). lia.
Qed.

Lemma index_of_None k l : index_of k l = None <-> k ∉ l.
Proof.
  induction l as [|c l IH]; simpl; [split; [intros; apply not_elem_of_nil|done]|].
  rewrite not_elem_of_cons. destruct (pyeqb k c) eqn:E.
  - apply pyeqb_eq in E as ->. split; [done|by intros [? _]].
  - rewrite fmap_None, IH. split; [|tauto]. intros H. split; [|done].
    intros ->. by rewrite pyeqb_refl in E.
Qed.

Lemma elem_of_fromkeys k seen l : k ∈ fromkeys seen l <-> k ∈ l /\ k ∉ seen.
Proof.
  revert seen. induction l as [|c l IH]; intros seen; simpl.
  { rewrite elem_of_nil. tauto. }
  rewrite elem_of_cons. destruct (str_in c seen) eqn:E.
  - apply str_in_spec in E. rewrite IH. split; [tauto|]. intros [[->|?] ?]; tauto.
  - assert (c ∉ seen) by (rewrite <- str_in_spec, E; done).
    rewrite elem_of_cons, IH, not_elem_of_cons.
    destruct (decide (k = c)) as [->|]; tauto.
Qed.

Lemma NoDup_fromkeys seen l : NoDup (fromkeys seen l).
Proof.
  revert seen. induction l as [|c l IH]; intros seen; simpl; [constructor|].
  destruct (str_in c seen); [done|]. constructor; [|done].
  rewrite elem_of_fromkeys, not_elem_of_cons. tauto.
Qed.

Lemma row_len_iter r : row_len r = zlen (row_iter r).
Proof.
  unfold row_len, row_iter, zlen. f_equal.
  rewrite <- (size_list_to_set (C := gset pystr) (fromkeys [] (_columns r))) by apply NoDup_fromkeys.
  f_equal. apply set_eq. intros k. rewrite !elem_of_list_to_set, elem_of_fromkeys.
  pose proof (not_elem_of_nil k). tauto.
Qed.

(** ** Properties *)

(** A row behaves as the mapping Python promises even with duplicate column
    names: iteration lists each name once, [len] counts those names, every name
    listed is found, and looking a name up gives the value of its first column,
    unknown names raising [KeyError]. *)
Theorem row_mapping r :
  length (_columns r) = length (_values r) ->
  NoDup (row_iter r) /\ row_len r = zlen (row_iter r) /\
  (forall k, k ∈ row_iter r <-> k ∈ _columns r) /\
  (forall k v, row_getitem r (PStr k) = Ok v <->
     exists i, _columns r !! i = Some k /\ _values r !! i = Some v /\
               forall j, (j < i)%nat -> _columns r !! j <> Some k) /\
  (forall k, k ∉ _columns r <-> row_getitem r (PStr k) = Raise (KeyError "key")).
Proof.
  intros Hlen. split_and!.
  - apply NoDup_fromkeys.
  - apply row_len_iter.
  - intros k. unfold row_iter. rewrite elem_of_fromkeys. pose proof (not_elem_of_nil k). tauto.
  - intros k v. unfold row_getitem. simpl.
    destruct (index_of k (_columns r)) as [i|] eqn:Hi.
    + apply index_of_Some in Hi as [Hi Hj].
      destruct (_values r !! i) as [w|] eqn:Hv.
      2:{ apply lookup_ge_None in Hv. apply lookup_lt_Some in Hi. lia. }
      split; [intros [= ->]; by exists i|]. intros (i' & Hi' & Hv' & Hj').
      destruct (Nat.lt_trichotomy i i') as [H|[->|H]]; [by destruct (Hj' i H)|congruence|by destruct (Hj i' H)].
    + apply index_of_None in Hi. split; [done|]. intros (i & Hc & _). destruct Hi.
      by eapply list_elem_of_lookup_2.
  - intros k. rewrite <- index_of_None. unfold row_getitem. simpl.
    destruct (index_of k (_columns r)) as [i|]; [|done].
    split; [done|]. by destruct (_values r !! i).
Qed.

Example row_mapping_witness :
  let r := mkRow [py "id"; py "id"] [PInt 1; PInt 2] in
  row_len r = 1 /\ row_items r = [(py "id", Ok (PInt 1))] /\
  (forall k, k ∉ _columns r <-> row_getitem r (PStr k) = Raise (KeyError "key")).
Proof.
  split_and!; [vm_compute; reflexivity|vm_compute; reflexivity|].
  apply (row_mapping (mkRow [py "id"; py "id"] [PInt 1; PInt 2])). reflexivity.
Defined.

(** [scalar] returns a value exactly on one row with one column (for rows
    as wide as the header), and that value; anything else is a [ValueError]. *)
Theorem scalar_spec rs :
  Forall (fun r => length (_values r) = length (columns rs)) (_rows rs) ->
  (forall v, scalar rs = Ok v <->
     exists c r, columns rs = [c] /\ _rows rs = [r] /\ _values r = [v]) /\
  (forall e, scalar rs = Raise e -> exists m, e = ValueError m).
Proof.
  intros Hw. unfold scalar, one, rows_len. rewrite !zlen_one.
  destruct (_rows rs) as [|r [|r2 l]] eqn:Hr; simpl.
  - split; [|intros e [= <-]; by eexists]. split; [done|]. intros (? & ? & _ & ? & _); done.
  - apply Forall_cons in Hw as [Hw _]. destruct (columns rs) as [|c [|c2 cs]] eqn:Hc; simpl.
    + split; [|intros e [= <-]; by eexists]. split; [done|]. intros (? & ? & ? & _); done.
    + destruct (_values r) as [|v [|v2 vs]] eqn:Hv; simpl in Hw; try lia.
      unfold row_getitem. simpl. rewrite Hv. simpl. split; [|done]. intros v'. split.
      * intros [= ->]. by exists c, r.
      * intros (? & ? & _ & [= <-] & ?). congruence.
    + split; [|intros e [= <-]; by eexists]. split; [done|]. intros (? & ? & ? & _); done.
  - split; [|intros e [= <-]; by eexists]. split; [done|]. intros (? & ? & _ & ? & _); done.
Qed.

Example scalar_spec_witness :
  let rs := mkRows [py "id"] [mkRow [py "id"] [PInt 42]] 10 1 in
  scalar rs = Ok (PInt 42) /\
  forall v, scalar rs = Ok v <-> exists c r, columns rs = [c] /\ _rows rs = [r] /\ _values r = [v].
Proof.
  split; [reflexivity|].
  apply (scalar_spec (mkRows [py "id"] [mkRow [py "id"] [PInt 42]] 10 1)). repeat constructor.
Defined.
