(* ===== verification/Quote.v ===== *)
(** * Text handed to other languages: shell words and Python literals

    The scripts that work on other hosts send commands through the remote
    user's shell ([shlex.quote]) and Python programs with values spliced into
    them ([repr]).  Both are here with the readers of the other side: a POSIX
    shell's division of a line into words and the Python reader of string and
    list literals, on the fragment without active characters.  What the other
    side reads is what was meant, whatever the text. *)

From S2P Require Import Prelude PyStr Objects Json JsonProofs Text.
#[local] Open Scope Z_scope.

(** ** shlex.quote *)

(** [[a-zA-Z0-9_@%+=:,./-]] *)
Definition shell_safe (c : Z) : bool :=
  is_dec c || ((97 <=? c) && (c <=? 122)) || ((65 <=? c) && (c <=? 90)) || existsb (Z.eqb c) (py "_@%+=:,./-").
(** A single quote ends the quotation, is written between double quotes, and a
    new quotation begins. *)
Definition quote_char (c : Z) : pystr := if c =? 39 then [39; 34; 39; 34; 39] else [c].
Definition shell_quote (s : pystr) : pystr :=
  if bool_decide (s = []) then [39; 39] else if forallb shell_safe s then s else 39 :: (s ≫= quote_char) ++ [39].

(** The shell's side: words, and the operator that joins commands.  Characters
    the shell would act upon have no reading here. *)
Inductive token := Word (w : pystr) | AndIf.
Inductive quoting := Plain | Single | Double.
Definition word_end (cur : option pystr) : list token := match cur with Some w => [Word w] | None => [] end.
Definition grow (cur : option pystr) (c : Z) : option pystr := Some (default [] cur ++ [c]).
Definition opened (cur : option pystr) : option pystr := Some (default [] cur).
Fixpoint sh_read (q : quoting) (cur : option pystr) (s : pystr) : option (list token) :=
  match q, s with
  | Plain, [] => Some (word_end cur)
  | _, [] => None
  | Plain, 38 :: 38 :: r => tokens ← sh_read Plain None r; Some (word_end cur ++ AndIf :: tokens)
  | Plain, c :: r =>
      if c =? 32 then tokens ← sh_read Plain None r; Some (word_end cur ++ tokens)
      else if c =? 39 then sh_read Single (opened cur) r
      else if c =? 34 then sh_read Double (opened cur) r
      else if shell_safe c then sh_read Plain (grow cur c) r
      else None
  | Single, c :: r => if c =? 39 then sh_read Plain cur r else sh_read Single (grow cur c) r
  | Double, c :: r =>
      if c =? 34 then sh_read Plain cur r
      else if (c =? 36) || (c =? 96) || (c =? 92) then None
      else sh_read Double (grow cur c) r
  end.
Definition sh_tokens (s : pystr) : option (list token) := sh_read Plain None s.

(** ** repr *)

Definition repr_quote (s : pystr) : Z := if contains_char 39 s && negb (contains_char 34 s) then 34 else 39.
Definition hex2 (n : Z) : pystr := [hex_digit (n / 16); hex_digit (n mod 16)].
Definition hex8 (n : Z) : pystr := hex4 (n / 65536) ++ hex4 (n mod 65536).

Section Repr.
(** [str.isprintable] beyond ASCII. *)
Context (printable : Z -> bool).
Definition repr_char (q c : Z) : pystr :=
  if (c =? q) || (c =? 92) then [92; c]
  else if c =? 9 then [92; 116] else if c =? 10 then [92; 110] else if c =? 13 then [92; 114]
  else if (c <? 32) || (c =? 127) then 92 :: 120 :: hex2 c
  else if c <? 127 then [c]
  else if printable c then [c]
  else if c <? 256 then 92 :: 120 :: hex2 c
  else if c <? 65536 then 92 :: 117 :: hex4 c
  else 92 :: 85 :: hex8 c.
Definition repr_str (s : pystr) : pystr := let q := repr_quote s in q :: (s ≫= repr_char q) ++ [q].
(** [repr] of a list of strings *)
Definition repr_list (l : list pystr) : pystr := 91 :: join (py ", ") (repr_str <$> l) ++ [93].
End Repr.
(** [repr] of bytes *)
Definition repr_bytes (b : list Z) : pystr := 98 :: repr_str (fun _ => false) b.

(** Python's side: a literal at the start of a text, and what follows it. *)
Definition hex2_val (a b : Z) : option Z := x ← hex_val a; y ← hex_val b; Some (x * 16 + y).
Definition escaped (e : Z) : option Z :=
  if e =? 116 then Some 9 else if e =? 110 then Some 10 else if e =? 114 then Some 13
  else if (e =? 92) || (e =? 39) || (e =? 34) then Some e else None.
Definition read_on (c : Z) (rest : option (pystr * pystr)) : option (pystr * pystr) := '(s, r) ← rest; Some (c :: s, r).
Fixpoint read_body (q : Z) (s : pystr) : option (pystr * pystr) :=
  match s with
  | [] => None
  | 92 :: 120 :: a :: b :: r => c ← hex2_val a b; read_on c (read_body q r)
  | 92 :: 117 :: a :: b :: c :: d :: r => '(u, _) ← hex4_val [a; b; c; d]; read_on u (read_body q r)
  | 92 :: 85 :: a :: b :: c :: d :: a2 :: b2 :: c2 :: d2 :: r =>
      '(u, _) ← hex4_val [a; b; c; d]; '(v, _) ← hex4_val [a2; b2; c2; d2]; read_on (u * 65536 + v) (read_body q r)
  | 92 :: e :: r => c ← escaped e; read_on c (read_body q r)
  | c :: r => if c =? q then Some ([], r) else if (c =? 92) || (c =? 10) then None else read_on c (read_body q r)
  end.
Definition read_str (s : pystr) : option (pystr * pystr) :=
  match s with q :: r => if (q =? 39) || (q =? 34) then read_body q r else None | [] => None end.
Definition read_bytes (s : pystr) : option (pystr * pystr) := match s with 98 :: r => read_str r | _ => None end.
(** The elements of a list after the first, up to its end. *)
Fixpoint read_rest (fuel : nat) (s : pystr) : option (list pystr * pystr) :=
  match fuel, s with
  | _, 93 :: r => Some ([], r)
  | S fuel, 44 :: 32 :: r => '(w, r) ← read_str r; '(ws, r) ← read_rest fuel r; Some (w :: ws, r)
  | _, _ => None
  end.
Definition read_list (s : pystr) : option (list pystr * pystr) :=
  match s with
  | 91 :: 93 :: r => Some ([], r)
  | 91 :: r => '(w, r) ← read_str r; '(ws, r) ← read_rest (length r) r; Some (w :: ws, r)
  | _ => None
  end.

(** ** What the shell reads *)

Lemma shell_safe_plain c : shell_safe c = true -> c <> 32 /\ c <> 39 /\ c <> 34 /\ c <> 38.
Proof. intros Hc. split_and!; intros ->; vm_compute in Hc; done. Qed.

Lemma sh_step c cur r : c <> 38 -> sh_read Plain cur (c :: r) =
  if c =? 32 then tokens ← sh_read Plain None r; Some (word_end cur ++ tokens)
  else if c =? 39 then sh_read Single (opened cur) r else if c =? 34 then sh_read Double (opened cur) r
  else if shell_safe c then sh_read Plain (grow cur c) r else None.
Proof. intros Hc. destruct c as [|p|p]; try done. cbn [sh_read]. do 7 (destruct p as [p|p|]; try done). Qed.

Lemma sh_safe s cur r : forallb shell_safe s = true -> s <> [] -> sh_read Plain cur (s ++ r) = sh_read Plain (Some (default [] cur ++ s)) r.
Proof.
  revert cur. induction s as [|c s IH]; intros cur Hs Hne; [done|]. cbn [forallb] in Hs. apply andb_true_iff in Hs as [Hc Hs].
  destruct (shell_safe_plain c Hc) as (H1 & H2 & H3 & H4). cbn [app]. rewrite sh_step by done.
  rewrite !(proj2 (Z.eqb_neq _ _)), Hc by done.
  destruct s as [|d s]; [done|]. rewrite IH by done. unfold grow, default, id. by rewrite <-app_assoc.
Qed.
Lemma sh_single s cur r : sh_read Single (Some cur) ((s ≫= quote_char) ++ 39 :: r) = sh_read Plain (Some (cur ++ s)) r.
Proof.
  revert cur. induction s as [|c s IH]; intros cur; [by rewrite app_nil_r|].
  change ((c :: s) ≫= quote_char) with (quote_char c ++ (s ≫= quote_char)). unfold quote_char at 1. destruct (Z.eqb_spec c 39) as [->|Hc].
  - cbn. unfold opened, grow, default, id. rewrite IH. by rewrite <-app_assoc.
  - cbn [app sh_read]. rewrite (proj2 (Z.eqb_neq _ _)) by done. unfold grow, default, id. rewrite IH. by rewrite <-app_assoc.
Qed.

(** A quoted text is read as itself, whatever comes before and after it. *)
Lemma sh_quoted s cur r : sh_read Plain cur (shell_quote s ++ r) = sh_read Plain (Some (default [] cur ++ s)) r.
Proof.
  unfold shell_quote. case_bool_decide as He; [subst s; by rewrite app_nil_r|]. destruct (forallb shell_safe s) eqn:Hs; [by apply sh_safe|].
  change (sh_read Plain cur ((39 :: (s ≫= quote_char) ++ [39]) ++ r)) with (sh_read Single (opened cur) (((s ≫= quote_char) ++ [39]) ++ r)).
  rewrite <-app_assoc. cbn [app]. unfold opened. apply sh_single.
Qed.

(** Words, a space, then more. *)
Definition safe_word (s : pystr) : bool := forallb shell_safe s && negb (bool_decide (s = [])).
Lemma sh_word s r : safe_word s = true -> sh_read Plain None (s ++ 32 :: r) = tokens ← sh_read Plain None r; Some (Word s :: tokens).
Proof. intros [Hs Hne]%andb_true_iff. unbool. by rewrite sh_safe. Qed.
Lemma sh_quoted_word s r : sh_read Plain None (shell_quote s ++ 32 :: r) = tokens ← sh_read Plain None r; Some (Word s :: tokens).
Proof. by rewrite sh_quoted. Qed.
Lemma sh_quoted_end s : sh_read Plain None (shell_quote s) = Some [Word s].
Proof. rewrite <-(app_nil_r (shell_quote s)). by rewrite sh_quoted. Qed.
Lemma sh_and r : sh_read Plain None (38 :: 38 :: 32 :: r) = tokens ← sh_read Plain None r; Some (AndIf :: tokens).
Proof. cbn. by destruct (sh_read Plain None r). Qed.

(** ** What Python reads *)

Lemma hex2_round n : 0 <= n < 256 -> hex2_val (hex_digit (n / 16)) (hex_digit (n mod 16)) = Some n.
Proof. intros Hn. unfold hex2_val. rewrite !hex_val_digit by dlia. cbn. f_equal. dlia. Qed.

Section ReprRead.
Context (printable : Z -> bool).
Definition code_point (c : Z) : Prop := 0 <= c < 1114112.

Lemma read_char q c r : (q = 39 \/ q = 34) -> code_point c -> read_body q (repr_char printable q c ++ r) = read_on c (read_body q r).
Proof.
  intros Hq Hc. unfold code_point in Hc. unfold repr_char.
  destruct ((c =? q) || (c =? 92)) eqn:E1.
  { apply orb_true_iff in E1 as [E|E]; unbool; subst c; [destruct Hq as [->| ->]|]; cbn; done. }
  unbool. destruct (Z.eqb_spec c 9) as [->|H9]; [done|]. destruct (Z.eqb_spec c 10) as [->|H10]; [done|].
  destruct (Z.eqb_spec c 13) as [->|H13]; [done|].
  assert (Hself : read_body q ([c] ++ r) = read_on c (read_body q r)).
  { cbn [app]. destruct c as [|p|p]; [..|lia]; cbn [read_body].
    - destruct Hq as [->| ->]; done.
    - assert (Hp : p <> 92%positive) by congruence.
      rewrite (proj2 (Z.eqb_neq (Zpos p) q)), (proj2 (Z.eqb_neq (Zpos p) 92)), (proj2 (Z.eqb_neq (Zpos p) 10)) by congruence. cbn [orb].
      do 7 (destruct p as [p|p|]; try done). }
  assert (Hhex2 : c < 256 -> read_body q ((92 :: 120 :: hex2 c) ++ r) = read_on c (read_body q r)).
  { intros Hlt. unfold hex2. cbn [app read_body]. by rewrite hex2_round by lia. }
  destruct ((c <? 32) || (c =? 127)) eqn:E2; [apply Hhex2; lia|]. destruct (c <? 127) eqn:E3; [done|].
  destruct (printable c); [done|]. destruct (Z.ltb_spec c 256); [by apply Hhex2|]. destruct (Z.ltb_spec c 65536).
  - unfold hex4. cbn [app read_body]. pose proof (hex4_round c [] ltac:(lia)) as Hr. unfold hex4 in Hr. cbn [app] in Hr. by rewrite Hr.
  - unfold hex8. pose proof (hex4_round (c / 65536) [] ltac:(dlia)) as Hr1. pose proof (hex4_round (c mod 65536) [] ltac:(dlia)) as Hr2.
    unfold hex4 in *. cbn [app] in *. cbn [read_body]. rewrite Hr1, Hr2. cbn. f_equal. dlia.
Qed.
Lemma read_chars q s r : (q = 39 \/ q = 34) -> Forall code_point s -> read_body q ((s ≫= repr_char printable q) ++ q :: r) = Some (s, r).
Proof.
  intros Hq Hs. induction Hs as [|c s Hc Hs IH].
  - destruct Hq as [->| ->]; done.
  - change ((c :: s) ≫= repr_char printable q) with (repr_char printable q c ++ (s ≫= repr_char printable q)). rewrite <-app_assoc, read_char by done. by rewrite IH.
Qed.
Lemma repr_quote_cases s : repr_quote s = 39 \/ repr_quote s = 34.
Proof. unfold repr_quote. destruct (_ && _); auto. Qed.

(** A literal is read as its string. *)
Lemma read_repr s r : Forall code_point s -> read_str (repr_str printable s ++ r) = Some (s, r).
Proof.
  intros Hs. unfold repr_str. cbv zeta. cbn [app read_str]. destruct (repr_quote_cases s) as [E|E]; rewrite E; cbn [Z.eqb orb Pos.eqb];
    rewrite <-app_assoc; cbn [app]; apply read_chars; auto.
Qed.

Lemma read_rest_repr l fuel r : Forall (Forall code_point) l -> (length l <= fuel)%nat ->
  read_rest fuel ((l ≫= (fun s => py ", " ++ repr_str printable s)) ++ 93 :: r) = Some (l, r).
Proof.
  intros Hl. revert fuel. induction Hl as [|s l Hs Hl IH]; intros fuel Hf; [by destruct fuel|].
  destruct fuel as [|fuel]; [cbn in Hf; lia|].
  change ((s :: l) ≫= ?f) with (f s ++ (l ≫= f)). rewrite <-!app_assoc. change (py ", ") with [44; 32]. cbn [app read_rest].
  rewrite read_repr by done. cbn. change ([44; 32]) with (py ", "). rewrite IH by (cbn in Hf; lia). done.
Qed.
Lemma str_join_cons sep (x : pystr) l : join sep (x :: l) = x ++ (l ≫= (fun s => sep ++ s)).
Proof.
  revert x. induction l as [|y l IH]; intros x; [by rewrite app_nil_r|]. change (join sep (x :: y :: l)) with (x ++ sep ++ join sep (y :: l)).
  rewrite IH. change ((y :: l) ≫= (fun s => sep ++ s)) with ((sep ++ y) ++ (l ≫= (fun s => sep ++ s))). by rewrite <-!app_assoc.
Qed.
Lemma bind_length {A B} (l : list A) (f : A -> list B) : (forall x, f x <> []) -> (length l <= length (l ≫= f))%nat.
Proof.
  intros Hf. induction l as [|x l IH]; [done|]. change ((x :: l) ≫= f) with (f x ++ (l ≫= f)). rewrite length_app. cbn [length].
  specialize (Hf x). destruct (f x); [done|cbn; lia].
Qed.
Lemma read_list_head s t :
  read_list (91 :: repr_str printable s ++ t)
  = '(w, r) ← read_str (repr_str printable s ++ t); '(ws, r) ← read_rest (length r) r; Some (w :: ws, r).
Proof. unfold repr_str. cbv zeta. destruct (repr_quote_cases s) as [E|E]; rewrite E; reflexivity. Qed.
(** A list literal is read as its strings. *)
Lemma read_list_repr l r : Forall (Forall code_point) l -> read_list (repr_list printable l ++ r) = Some (l, r).
Proof.
  intros Hl. unfold repr_list. destruct Hl as [|s l Hs Hl]; [done|]. cbn [fmap list_fmap]. rewrite str_join_cons. cbn [app].
  rewrite <-!app_assoc, read_list_head, read_repr by done. cbn [mbind option_bind].
  replace ((repr_str printable <$> l) ≫= (fun s0 => py ", " ++ s0)) with (l ≫= (fun s => py ", " ++ repr_str printable s)) by (by rewrite list_fmap_bind).
  cbn [app]. rewrite read_rest_repr; [done|done|]. rewrite length_app. cbn [length].
  assert (Hb : (length l <= length (l ≫= (fun s => py ", " ++ repr_str printable s)))%nat) by (by apply bind_length). lia.
Qed.
End ReprRead.

(** Bytes are read as themselves. *)
Lemma read_repr_bytes b r : Forall (fun c => 0 <= c < 256) b -> read_bytes (repr_bytes b ++ r) = Some (b, r).
Proof. intros Hb. apply read_repr. eapply Forall_impl; [exact Hb|]. unfold code_point. lia. Qed.
