(* ===== verification/Net.v ===== *)
(** * The interface between a connection and its transport

    [Env W] is what client.py's [Connection] uses of the outside world: the
    monotonic clock, [time.sleep], a random session token, and the transport's
    [exchange] and [close] (transport.py implements the last two; see
    Transport).  [EnvLaws] states what the client's theorems rely on: the clock
    never runs backwards, sleeping takes at least the time asked for, and an
    exchange ends, raising one of the transport's errors if it fails.  Times are exact rationals of seconds.  [Script] is a concrete
    environment for executing examples. *)

From Stdlib Require Export QArith Qminmax Lqa.
From S2P Require Import Prelude PyStr PyFloat Objects.

#[global] Open Scope Z_scope.

(** class Endpoint (transport.py) *)
Record Endpoint := mkEndpoint { address : pystr; server_name : pystr }.

#[export] Instance endpoint_eq_dec : EqDecision Endpoint.
Proof. solve_decision. Defined.

Abbreviation dict := (list (pystr * pyval)).

Class Env (W : Type) := {
  monotonic : W -> Q * W;
  sleep : Q -> W -> W;
  token_hex16 : W -> pystr * W;
  exchange : Endpoint -> dict -> Q -> W -> pyres dict * W;
  tclose : W -> W
}.

(** What an exchange may raise: [ValueError] and [TypeError] come from encoding
    the request, before anything is sent. *)
Definition transport_exn (e : exn) : bool :=
  match e with
  | ConnectionError _ | TimeoutError _ | ValueError _ | TypeError _ => true
  | _ => false
  end.

(** What is observable of a world: its clock and the requests handed to the
    transport so far, in order. *)
Class EnvLaws (W : Type) `{Env W} := {
  clock : W -> Q;
  sent : W -> list (Endpoint * dict);
  monotonic_reads w : (clock w <= (monotonic w).1 /\ (monotonic w).1 <= clock (monotonic w).2)%Q;
  sleep_takes d w : (0 <= d)%Q -> (clock w + d <= clock (sleep d w))%Q;
  exchange_clock e r t w : (clock w <= clock (exchange e r t w).2)%Q;
  close_clock w : (clock w <= clock (tclose w))%Q;
  exchange_ends e r t w : (exchange e r t w).1 <> OutOfFuel;
  exchange_raises e r t w x : (exchange e r t w).1 = Raise x -> transport_exn x = true;
  monotonic_sent w : sent (monotonic w).2 = sent w;
  sleep_sent d w : sent (sleep d w) = sent w;
  close_sent w : sent (tclose w) = sent w;
  token_sent w : sent (token_hex16 w).2 = sent w;
  exchange_sent e r t w : sent (exchange e r t w).2 = sent w ++ [(e, r)]
}.

(** ** A scripted environment

    Each exchange pops one scripted reply (a function of the request), takes one
    millisecond, and records the request; an exhausted script refuses
    connections. *)
Record Script := mkScript {
  s_now : Q;
  s_replies : list (dict -> pyres dict);
  s_log : list (Endpoint * dict)
}.

Definition script_exchange (e : Endpoint) (r : dict) (t : Q) (w : Script) : pyres dict * Script :=
  let now' := Qred (s_now w + (1 # 1000)) in
  match s_replies w with
  | [] => (Raise (ConnectionError (py "connection refused")), mkScript now' [] (s_log w ++ [(e, r)]))
  | f :: fs =>
      (match f r with Ok resp => Ok resp | _ => Raise (ConnectionError (py "no reply")) end,
       mkScript now' fs (s_log w ++ [(e, r)]))
  end.

#[export] Instance script_env : Env Script := {
  monotonic w := (s_now w, w);
  sleep d w := mkScript (Qred (s_now w + d)) (s_replies w) (s_log w);
  token_hex16 w := (py "00000000000000000000000000000001", w);
  exchange := script_exchange;
  tclose w := w
}.

#[export] Program Instance script_laws : EnvLaws Script := {
  clock := s_now;
  sent := s_log
}.
Next Obligation. intros w. simpl. split; apply Qle_refl. Qed.
Next Obligation. intros d w Hd. simpl. rewrite Qred_correct. apply Qle_refl. Qed.
Next Obligation. intros e r t w. simpl. unfold script_exchange. destruct (s_replies w); cbn [snd s_now]; rewrite Qred_correct; lra. Qed.
Next Obligation. intros w. simpl. apply Qle_refl. Qed.
Next Obligation. intros e r t w. simpl. unfold script_exchange. destruct (s_replies w) as [|f fs]; simpl; [done|]. by destruct (f r). Qed.
Next Obligation.
  intros e r t w x. simpl. unfold script_exchange. destruct (s_replies w) as [|f fs]; simpl.
  - by intros [= <-].
  - destruct (f r); intros; simplify_eq; done.
Qed.
Next Obligation. done. Qed.
Next Obligation. done. Qed.
Next Obligation. done. Qed.
Next Obligation. done. Qed.
Next Obligation. intros e r t w. simpl. unfold script_exchange. by destruct (s_replies w). Qed.
