(* ===== verification/Client.v ===== *)
(** * sqlodin/client.py

    [PendingWrite] (validation, saving and restoring) and [Connection]: the
    synchronous connection with failover inside one deadline and explicit
    recovery of uncertain writes.  The state of a connection is [Conn]; a method
    is a computation over the connection and the outside world ([Env]).  The
    lock is a depth counter: one thread is modelled, so acquiring never blocks
    and what remains is that every path releases what it acquired. *)

From Corelib Require Import Floats.SpecFloat.
From S2P Require Import Prelude PyStr PyFloat Objects Json Bytes Vector Parameters Results.
From S2P Require Import Net.

(** ** class PendingWrite *)

Definition is_hex_lower (c : Z) : bool := is_dec c || ((97 <=? c) && (c <=? 102)).

(** [re.fullmatch(r'[0-9a-f]{32}', s)] and not all zeros. *)
Definition session_ok (s : pystr) : bool :=
  (zlen s =? 32) && forallb is_hex_lower s && negb (forallb (Z.eqb 48) s).

Definition check_session (session : pyval) : pyres pystr :=
  match session with
  | PStr s =>
      do? guard (negb (session_ok s))
                (ValueError "Session must be 32 lowercase hexadecimal digits, not all zero");;
      Ok s
  | _ => Raise (TypeError "expected string or bytes-like object")
  end.

(** [not sql or NUL in sql or len(sql.encode('utf-8')) > 4096] *)
Definition check_sql (sql : pyval) : pyres pystr :=
  let bad := ValueError "Invalid pending SQL body" in
  match sql with
  | PStr s =>
      do? guard (bool_decide (s = []) || contains_char 0 s) bad;;
      match utf8_len s with
      | None => Raise (ValueError "surrogates not allowed")
      | Some n => do? guard (4096 <? n) bad;; Ok s
      end
  | _ =>
      if negb (truthy sql) then Raise bad
      else match sql with
           | PList l => if existsb (fun x => eq_str x [0]) l then Raise bad
                        else Raise (AttributeError "encode")
           | PDict d => if existsb (fun kv => pyeqb kv.1 [0]) d then Raise bad
                        else Raise (AttributeError "encode")
           | PVec _ => Raise (AttributeError "encode")
           | _ => Raise (TypeError "argument is not iterable")
           end
  end.

Definition check_int (lo : Z) (x : pyval) (e : exn) : pyres Z :=
  match as_int x with
  | Some z => do? guard (negb ((lo <=? z) && (z <? 2 ^ 63))) e;; Ok z
  | None => Raise e
  end.

(** [__post_init__] *)
Definition PendingWrite_new (session sequence sql : pyval) (parameters : list pyval)
    (read_version epoch : pyval) : pyres PendingWrite :=
  let? session := check_session session in
  let? sequence := check_int 1 sequence (ValueError "Sequence must be a positive signed 64-bit integer") in
  let? sql := check_sql sql in
  let? read_version := check_int 0 read_version (ValueError "Invalid transaction read version") in
  let? epoch := check_int 0 epoch (ValueError "Invalid session epoch") in
  do? guard (16 <? zlen parameters) (ValueError "Too many parameters");;
  do? guard (384 <? vector_components parameters)
            (ValueError "A request supports at most 384 vector components in total");;
  do? encode_all parameters;;
  Ok (mkPending session sequence sql parameters read_version epoch).

(** One parameter as saved: a vector becomes [{"vector": [...]}]. *)
Definition save_param (v : pyval) : pyval :=
  match v with
  | PVec w => PDict (mkdict [("vector", PList (PFloat <$> viter w))])
  | _ => v
  end.

Definition to_json (p : PendingWrite) : pyres pystr :=
  dumps spaced (PDict (mkdict
    [("session", PStr (session p)); ("sequence", PInt (sequence p)); ("sql", PStr (sql p));
     ("parameters", PList (save_param <$> parameters p)); ("read_version", PInt (read_version p));
     ("epoch", PInt (epoch p))])).

Definition load_param (p : pyval) : pyres pyval :=
  match p with
  | PDict [(k, x)] => if pyeqb k (py "vector") then let? v := Vector_new x in Ok (PVec v) else Ok p
  | _ => Ok p
  end.

Fixpoint load_params (ps : list pyval) : pyres (list pyval) :=
  match ps with
  | [] => Ok []
  | p :: ps' => let? v := load_param p in let? vs := load_params ps' in Ok (v :: vs)
  end.

Definition field_names : list pystr :=
  py <$> ["session"; "sequence"; "sql"; "parameters"; "read_version"; "epoch"]%string.

(** [cls( **value )]: unknown keywords and missing required fields are refused. *)
Definition PendingWrite_of_dict (d : dict) (ps : list pyval) : pyres PendingWrite :=
  do? guard (negb (forallb (fun kv => str_in kv.1 field_names) d))
            (TypeError "unexpected keyword argument");;
  match dict_get (py "session") d, dict_get (py "sequence") d, dict_get (py "sql") d with
  | Some s, Some n, Some q =>
      PendingWrite_new s n q ps (get_or (py "read_version") (PInt 0) d) (get_or (py "epoch") (PInt 0) d)
  | _, _, _ => Raise (TypeError "missing required positional arguments")
  end.

Definition from_json (text : pystr) : pyres PendingWrite :=
  let? value := loads text in
  match value with
  | PDict d =>
      let? ps := py_iter (get_or (py "parameters") (PList []) d) in
      let? vs := load_params ps in
      PendingWrite_of_dict d vs
  | _ => Raise (AttributeError "get")
  end.

(** ** class Connection *)

Record Conn := mkConn {
  c_endpoints : list Endpoint;
  c_cluster : pystr;
  c_timeout : Q;
  c_session : pystr;
  c_sequence : Z;
  c_pending : option PendingWrite;
  c_epoch : option Z;
  c_index : Z;
  c_lock : nat;
  c_closed : bool;
  c_transaction : bool
}.

Definition set_pending (p : option PendingWrite) (c : Conn) : Conn :=
  mkConn (c_endpoints c) (c_cluster c) (c_timeout c) (c_session c) (c_sequence c) p
         (c_epoch c) (c_index c) (c_lock c) (c_closed c) (c_transaction c).
Definition set_sequence (n : Z) (c : Conn) : Conn :=
  mkConn (c_endpoints c) (c_cluster c) (c_timeout c) (c_session c) n (c_pending c)
         (c_epoch c) (c_index c) (c_lock c) (c_closed c) (c_transaction c).
Definition set_epoch (e : option Z) (c : Conn) : Conn :=
  mkConn (c_endpoints c) (c_cluster c) (c_timeout c) (c_session c) (c_sequence c) (c_pending c)
         e (c_index c) (c_lock c) (c_closed c) (c_transaction c).
Definition set_index (i : Z) (c : Conn) : Conn :=
  mkConn (c_endpoints c) (c_cluster c) (c_timeout c) (c_session c) (c_sequence c) (c_pending c)
         (c_epoch c) i (c_lock c) (c_closed c) (c_transaction c).
Definition set_lock (n : nat) (c : Conn) : Conn :=
  mkConn (c_endpoints c) (c_cluster c) (c_timeout c) (c_session c) (c_sequence c) (c_pending c)
         (c_epoch c) (c_index c) n (c_closed c) (c_transaction c).
Definition set_closed (b : bool) (c : Conn) : Conn :=
  mkConn (c_endpoints c) (c_cluster c) (c_timeout c) (c_session c) (c_sequence c) (c_pending c)
         (c_epoch c) (c_index c) (c_lock c) b (c_transaction c).
Definition set_transaction (b : bool) (c : Conn) : Conn :=
  mkConn (c_endpoints c) (c_cluster c) (c_timeout c) (c_session c) (c_sequence c) (c_pending c)
         (c_epoch c) (c_index c) (c_lock c) (c_closed c) b.

(** A bound on the failover loop's iterations: each one ends by sleeping up to
    10 ms, and the timeout is at most 60 s. *)
Definition call_fuel : nat := 6002.

Section Connection.
Context {W : Type} `{Env W}.

Definition C (A : Type) : Type := M exn (Conn * W) A.

Definition self : C Conn := gets fst.
Definition update (f : Conn -> Conn) : C unit := modify (fun s => (f s.1, s.2)).
Definition ask {A} (f : W -> A * W) : C A := fun s => let '(a, w) := f s.2 in (Ok a, (s.1, w)).
Definition act (f : W -> W) : C unit := modify (fun s => (s.1, f s.2)).
Definition world {A} (f : W -> pyres A * W) : C A := fun s => let '(r, w) := f s.2 in (r, (s.1, w)).

(** [__init__] *)
Definition Connection_new (endpoints : list Endpoint) (cluster : pystr) (timeout : Q)
    (pending : option PendingWrite) (w : W) : pyres Conn * W :=
  if bool_decide (endpoints = [])
  then (Raise (ValueError "Provide at least one Endpoint(address, server_name)"), w)
  else if bool_decide (cluster = []) || negb (negb (Qle_bool timeout 0) && Qle_bool timeout 60)
  then (Raise (ValueError "Cluster is required; timeout must be in (0, 60] seconds"), w)
  else
    let '(sess, w') := match pending with
                       | Some p => (session p, w)
                       | None => token_hex16 w
                       end in
    (Ok (mkConn endpoints cluster timeout sess
           (match pending with Some p => sequence p | None => 1 end) pending
           (epoch <$> pending) 0 0 false false), w').

(** [with self._lock: body] *)
Definition with_lock {A} (body : C A) : C A :=
  do! update (fun c => set_lock (S (c_lock c)) c);;
  try_finally body (update (fun c => set_lock (pred (c_lock c)) c)).

Definition close : C unit :=
  with_lock (do! act tclose;; update (set_closed true)).

Definition _ready : C unit :=
  let! c := self in
  if c_closed c then throw (ConnectionError (py "Connection is closed"))
  else if c_transaction c
  then throw (PendingWriteError "Use the transaction's execute() while building an atomic batch")
  else ret tt.

Definition enter : C unit := _ready.
Definition exit : C unit := close.

(** [_validate]: a reply must be ours, well-typed and self-consistent. *)
Definition nonneg_int (k : string) (response : dict) : bool :=
  match as_int (get_or (py k) PNone response) with Some z => 0 <=? z | None => false end.

Definition _validate (cluster : pystr) (response request : dict) : pyres unit :=
  do? guard (negb (eq_str (get_or (py "cluster") PNone response) cluster) ||
             negb (eq_int (get_or (py "protocol") PNone response) 1))
            (ConnectionError (py "Response cluster or protocol mismatch"));;
  do? guard (negb (val_in (get_or (py "status") PNone response) ["ok"; "error"]))
            (ConnectionError (py "Invalid response status"));;
  do? guard (negb (forallb (fun k => nonneg_int k response) ["node"; "applied"; "changes"; "sequence"]))
            (ConnectionError (py "Invalid response {name}"));;
  do? guard (eq_str (get_or (py "op") PNone request) (py "execute") &&
             negb (bool_decide (as_int (get_or (py "sequence") PNone response) =
                                as_int (get_or (py "sequence") PNone request))))
            (ConnectionError (py "Write response identity mismatch"));;
  match get_or (py "error") PNone response with
  | PStr code =>
      guard (negb (Bool.eqb (eq_str (get_or (py "status") PNone response) (py "ok"))
                            (bool_decide (code = []))))
            (ConnectionError (py "Invalid error/status combination"))
  | _ => Raise (ConnectionError (py "Invalid error/status combination"))
  end.

(** Answers after which another endpoint is tried. *)
Definition retry_codes : list string := ["Busy"; "Unknown_Outcome"; "Read_Timeout"].

Definition trunc (q : Q) : Z := Z.quot (Qnum q) (Z.pos (Qden q)).

(** [attempt]: this endpoint's share of what is left of the deadline. *)
Definition attempt_deadline (deadline now1 now2 : Q) (n : Z) : Q :=
  Qmin deadline (now1 + Qmax (1 # 10) ((deadline - now2) / inject_Z n)).

Definition timeout_ms (attempt now : Q) : Z :=
  Z.max 1 (Z.min 60000 (trunc ((attempt - now) * 900))).

(** The [while] loop of [_call]. *)
Fixpoint call_loop (fuel : nat) (deadline : Q) (request : dict) (last_error : pystr) : C dict :=
  match fuel with
  | O => lift OutOfFuel
  | S f =>
      let! now := ask monotonic in
      if Qle_bool deadline now
      then throw (ConnectionError (py "Operation deadline exceeded: " ++ last_error))
      else
        let! c := self in
        let endpoint := default (mkEndpoint [] []) (c_endpoints c !! Z.to_nat (c_index c)) in
        let! now1 := ask monotonic in
        let! now2 := ask monotonic in
        let attempt := attempt_deadline deadline now1 now2 (zlen (c_endpoints c)) in
        let! now3 := ask monotonic in
        let request := dict_set (py "timeout_ms") (PInt (timeout_ms attempt now3)) request in
        let! outcome :=
          try_except
            (let! response := world (exchange endpoint request attempt) in
             do! lift (_validate (c_cluster c) response request);;
             if negb (val_in (get_or (py "error") PNone response) retry_codes)
             then ret (inl response)
             else ret (inr (match get_or (py "error") PNone response with PStr s => s | _ => [] end)))
            (fun exc =>
               if isinstance exc CConnectionError || isinstance exc CTimeoutError
               then Some (ret (inr (str_exn exc))) else None) in
        match outcome with
        | inl response => ret response
        | inr last_error =>
            do! act tclose;;
            do! update (fun c => set_index ((c_index c + 1) mod zlen (c_endpoints c)) c);;
            let! now := ask monotonic in
            do! act (sleep (Qmin (1 # 100) (Qmax 0 (deadline - now))));;
            call_loop f deadline request last_error
        end
  end.

Definition _call (request : dict) : C dict :=
  let! c := self in
  let! now := ask monotonic in
  let deadline := (now + c_timeout c)%Q in
  let request := dict_set (py "cluster") (PStr (c_cluster c)) (dict_set (py "protocol") (PInt 1) request) in
  call_loop call_fuel deadline request (py "None").

(** The request of [_resolve] for a pending write. *)
Definition execute_request (p : PendingWrite) (params : list pyval) : dict :=
  mkdict [("op", PStr (py "execute")); ("sql", PStr (sql p)); ("session", PStr (session p));
          ("sequence", PInt (sequence p)); ("session_epoch", PInt (epoch p));
          ("read_version", PInt (read_version p)); ("parameters", PList params)].

Definition session_codes : list string := ["Expired"; "Identity_Conflict"; "Session_Limit"].
Definition final_codes : list string :=
  [""; "Constraint"; "Policy"; "Sequence_Gap"; "Invalid_SQL"; "Invalid_Request"; "Unsupported"; "Conflict"].

Definition int_field (k : string) (d : dict) : pyres Z :=
  let? v := getitem k d in
  match v with PInt z => Ok z | _ => Raise (TypeError "not an integer") end.

Definition write_result (response : dict) : pyres WriteResult :=
  let? changes := int_field "changes" response in
  let? applied := int_field "applied" response in
  let? node := int_field "node" response in
  let? sequence := int_field "sequence" response in
  Ok (mkWriteResult changes applied node sequence).

Definition code_text (v : pyval) : pystr := match v with PStr s => s | _ => [] end.

Definition _resolve : C WriteResult :=
  let! c := self in
  match c_pending c with
  | None => throw (AttributeError "sql")
  | Some pending =>
      let! params := lift (encode_all (parameters pending)) in
      let! response :=
        try_except (_call (execute_request pending params))
          (fun exc => if isinstance exc CConnectionError
                      then Some (throw (UnknownOutcome pending)) else None) in
      let code := get_or (py "error") (PStr []) response in
      if val_in code session_codes then throw (SessionError (code_text code))
      else if negb (val_in code final_codes) then throw (UnknownOutcome pending)
      else
        do! update (set_pending None);;
        do! when (negb (val_in code ["Invalid_Request"; "Unsupported"]))
                 (update (fun c => set_sequence (c_sequence c + 1) c));;
        if eq_str code (py "Conflict") then throw (SerializationError (code_text code))
        else if truthy code then
          throw (if eq_str code (py "Constraint") then ConstraintError (code_text code)
                 else QueryError (code_text code))
        else lift (write_result response)
  end.

(** [_raise_query] *)
Definition _raise_query (response : dict) : pyres unit :=
  let? status := getitem "status" response in
  if eq_str status (py "ok") then Ok tt
  else
    let error := get_or (py "error") PNone response in
    if eq_str error (py "Conflict") then Raise (SerializationError (py "Conflict"))
    else if eq_str error (py "Constraint") then Raise (ConstraintError (py "Constraint"))
    else Raise (QueryError (code_text (get_or (py "error") (PStr (py "Unknown")) response))).

(** [call_checked]: [response = self._call(..); self._raise_query(response)] *)
Definition call_checked (request : dict) : C dict :=
  let! response := _call request in
  do! lift (_raise_query response);;
  ret response.

Definition in_63 (lo : Z) (v : pyval) : option Z :=
  match as_int v with
  | Some z => if (lo <=? z) && (z <? 2 ^ 63) then Some z else None
  | None => None
  end.

Definition session_epoch : C Z :=
  with_lock
    (do! _ready;;
     let! response := _call (mkdict [("op", PStr (py "session_epoch"))]) in
     if eq_str (get_or (py "error") PNone response) (py "Unsupported") then ret 0
     else
       do! lift (_raise_query response);;
       match in_63 0 (get_or (py "session_epoch") PNone response) with
       | Some epoch => ret epoch
       | None => throw (ConnectionError (py "Malformed session epoch"))
       end).

Definition _execute_prepared (text : pystr) (vs : list pyval) (read_version : Z) : C WriteResult :=
  let! c := self in
  match c_pending c with
  | Some _ => throw (PendingWriteError "Resolve the outstanding write before submitting another")
  | None =>
      do! match c_epoch c with
          | Some _ => ret tt
          | None => let! e := session_epoch in update (set_epoch (Some e))
          end;;
      let! c := self in
      let! p := lift (PendingWrite_new (PStr (c_session c)) (PInt (c_sequence c)) (PStr text) vs
                        (PInt read_version) (PInt (default 0 (c_epoch c)))) in
      do! update (set_pending (Some p));;
      _resolve
  end.

Definition execute (sql parameters : pyval) : C WriteResult :=
  let! tv := lift (prepare sql parameters 0) in
  with_lock (do! _ready;; _execute_prepared tv.1 tv.2 0).

Definition resolve_pending : C WriteResult :=
  with_lock
    (do! _ready;;
     let! c := self in
     match c_pending c with
     | None => throw (PendingWriteError "There is no pending write")
     | Some _ => _resolve
     end).

(** [_decode]: one result cell. *)
Definition cell (k : string) (v : pyval) : pyres pyval :=
  match v with
  | PDict d => getitem k d
  | _ => Raise (TypeError "object is not subscriptable")
  end.

Definition _decode (v : pyval) : pyres pyval :=
  let? kind := cell "kind" v in
  if eq_str kind (py "Null") then Ok PNone
  else if eq_str kind (py "Integer") then cell "integer" v
  else if eq_str kind (py "Real") then cell "real" v
  else if eq_str kind (py "Text") then cell "text" v
  else if eq_str kind (py "Blob") then
    let? t := cell "text" v in
    match t with
    | PStr s => match b64decode s with
                | Some b => Ok (PBytes b)
                | None => Raise (ValueError "Non-base64 digit found")
                end
    | _ => Raise (TypeError "argument should be a bytes-like object or ASCII string")
    end
  else Raise (ValueError "Unknown result kind: {kind}").

Fixpoint map_res {A B} (f : A -> pyres B) (l : list A) : pyres (list B) :=
  match l with
  | [] => Ok []
  | x :: l' => let? y := f x in let? ys := map_res f l' in Ok (y :: ys)
  end.

Definition decode_row (columns : list pystr) (row : pyval) : pyres Row :=
  let? cells := py_iter row in
  let? vs := map_res _decode cells in
  Ok (mkRow columns vs).

Definition column_name (c : pyval) : pyres pystr :=
  match c with PStr s => Ok s | _ => Raise (ValueError "Invalid column names") end.

(** The [try] block of [query]. *)
Definition decode_rows (response : dict) : pyres Rows :=
  let? cols := getitem "columns" response in
  let? cols := py_iter cols in
  let? columns := map_res column_name cols in
  let? rows := getitem "rows" response in
  let? rows := py_iter rows in
  let? rows := map_res (decode_row columns) rows in
  do? guard (existsb (fun r => negb (zlen (as_tuple r) =? zlen columns)) rows)
            (ValueError "Invalid row width");;
  let? applied := int_field "applied" response in
  let? node := int_field "node" response in
  Ok (mkRows columns rows applied node).

(** [except (KeyError, TypeError, ValueError): raise ConnectionError] *)
Definition malformed {A} (m : string) (r : pyres A) : pyres A :=
  match r with
  | Raise e => if isinstance e CKeyError || isinstance e CTypeError || isinstance e CValueError
               then Raise (ConnectionError (py m)) else Raise e
  | _ => r
  end.

Definition query (sql parameters : pyval) (consistency : pystr) : C Rows :=
  do! lift (guard (negb (str_in consistency [py "linearizable"; py "local"]))
                  (ValueError "Consistency must be 'linearizable' or 'local'"));;
  let! tv := lift (prepare sql parameters 0) in
  with_lock
    (do! _ready;;
     let! params := lift (encode_all tv.2) in
     let! response := call_checked
       (mkdict [("op", PStr (py "query")); ("sql", PStr tv.1); ("consistency", PStr consistency);
                ("parameters", PList params)]) in
     lift (malformed "Malformed query result" (decode_rows response))).

Definition status_keys : list pystr :=
  py <$> ["cluster"; "node"; "protocol"; "policy"; "applied"; "snapshot_prefix";
          "snapshot_sealed"; "snapshot_error"; "generation_prefix"]%string.

Definition status : C dict :=
  with_lock
    (do! _ready;;
     let! result := call_checked (mkdict [("op", PStr (py "status"))]) in
     ret (omap (fun k => pair k <$> dict_get k result) status_keys)).

Definition retire_sessions (expected_epoch : pyval) : C Z :=
  match as_int expected_epoch with
  | Some expected =>
      if negb ((0 <=? expected) && (expected <? 2 ^ 63 - 1))
      then throw (ValueError "Invalid expected session epoch")
      else
        with_lock
          (do! _ready;;
           let! c := self in
           if bool_decide (c_pending c <> None) || c_transaction c
           then throw (PendingWriteError "Resolve pending work before retiring sessions")
           else
             let! response := call_checked
               (mkdict [("op", PStr (py "retire_sessions")); ("session_epoch", PInt expected)]) in
             match as_int (get_or (py "session_epoch") PNone response) with
             | Some epoch =>
                 if epoch <? expected + 1
                 then throw (ConnectionError (py "Malformed retirement response; retry the same expected_epoch"))
                 else ret epoch
             | None => throw (ConnectionError (py "Malformed retirement response; retry the same expected_epoch"))
             end)
  | None => throw (ValueError "Invalid expected session epoch")
  end.

Definition request_snapshot : C Z :=
  with_lock
    (do! _ready;;
     let! response := call_checked (mkdict [("op", PStr (py "snapshot"))]) in
     match as_int (get_or (py "snapshot_requested") PNone response) with
     | Some slot => if slot <=? 0 then throw (ConnectionError (py "Malformed snapshot admission result"))
                    else ret slot
     | None => throw (ConnectionError (py "Malformed snapshot admission result"))
     end).

Definition _begin_optimistic : C Z :=
  with_lock
    (do! _ready;;
     let! response := call_checked (mkdict [("op", PStr (py "begin"))]) in
     match in_63 0 (get_or (py "session_epoch") (PInt 0) response) with
     | None => throw (ConnectionError (py "Malformed transaction session epoch"))
     | Some epoch =>
         let! c := self in
         do! when (bool_decide (c_epoch c = None)) (update (set_epoch (Some epoch)));;
         match in_63 1 (get_or (py "read_version") PNone response) with
         | None => throw (ConnectionError (py "Invalid transaction read version"))
         | Some version => ret version
         end
     end).

Definition _preview (body : pystr) (vs : list pyval) (version : Z) (query : pystr)
    (query_values : list pyval) : C dict :=
  with_lock
    (do! _ready;;
     let! params := lift (encode_all vs) in
     let! read_params := lift (encode_all query_values) in
     call_checked
       (mkdict [("op", PStr (py "preview")); ("sql", PStr body); ("read_version", PInt version);
                ("parameters", PList params); ("read_sql", PStr query);
                ("read_parameters", PList read_params)])).
End Connection.

(** [connect]: a single endpoint or a sequence of them. *)
Definition connect {W} `{Env W} (endpoints : Endpoint + list Endpoint) (cluster : pystr) (timeout : Q)
    (pending : option PendingWrite) (w : W) : pyres Conn * W :=
  Connection_new (match endpoints with inl e => [e] | inr es => es end) cluster timeout pending w.

Arguments C W A : clear implicits.
