(* ===== verification/Transaction.v ===== *)
(** * sqlodin/transaction.py

    A transaction buffers statements inside a [with] block and commits their
    joined body as one write on a clean exit.  Its state is [Tx]; its methods are
    computations over the transaction, its connection and the world.  [with_tx]
    is the [with] statement. *)

From Corelib Require Import Floats.SpecFloat.
From S2P Require Import Prelude PyStr PyFloat Objects Json Bytes Vector Parameters Results.
From S2P Require Import Net Client.

Record Tx := mkTx {
  tx_result : option WriteResult;
  tx_statements : list pystr;
  tx_parameters : list pyval;
  tx_active : bool;
  tx_used : bool
}.

(** [Transaction(connection)] *)
Definition Tx_new : Tx := mkTx None [] [] false false.

(** ["\n;\n"]: a newline ends any trailing comment before the separator. *)
Definition statement_sep : pystr := [10; 59; 10].

Section Transaction.
Context {W : Type} `{Env W}.

Definition T (A : Type) : Type := M exn (Tx * (Conn * W)) A.

Definition tx_self : T Tx := gets fst.
Definition tx_update (f : Tx -> Tx) : T unit := modify (fun s => (f s.1, s.2)).
Definition on_conn {A} (m : C W A) : T A := fun s => let '(r, c) := m s.2 in (r, (s.1, c)).

Definition acquire : C W unit := update (fun c => set_lock (S (c_lock c)) c).
Definition release : C W unit := update (fun c => set_lock (pred (c_lock c)) c).

(** [__enter__] *)
Definition tx_enter : T unit :=
  do! on_conn acquire;;
  try_except
    (do! on_conn _ready;;
     let! tx := tx_self in
     let! c := on_conn self in
     if tx_used tx || bool_decide (c_pending c <> None)
     then throw (PendingWriteError "Transaction already used or a write needs resolution")
     else
       do! on_conn (update (set_transaction true));;
       tx_update (fun tx => mkTx (tx_result tx) (tx_statements tx) (tx_parameters tx) true true))
    (fun e => Some (do! on_conn release;; throw e)).

(** [execute] *)
Definition tx_execute (sql parameters : pyval) : T unit :=
  let! tx := tx_self in
  if negb (tx_active tx)
  then throw (PendingWriteError "Use transaction.execute() inside its with block")
  else if 8 <=? zlen (tx_statements tx)
  then throw (ValueError "A transaction supports at most eight statements")
  else
    let! tv := lift (prepare sql parameters (zlen (tx_parameters tx))) in
    let body := join statement_sep (tx_statements tx ++ [tv.1 ++ [10]]) in
    match utf8_len body with
    | None => throw (ValueError "surrogates not allowed")
    | Some n =>
        if 4096 <? n then throw (ValueError "A transaction is limited to 4096 UTF-8 bytes")
        else tx_update (fun tx => mkTx (tx_result tx) (tx_statements tx ++ [tv.1 ++ [10]])
                                       (tx_parameters tx ++ tv.2) (tx_active tx) (tx_used tx))
    end.

(** [__exit__]; [failed] says that the block raised. *)
Definition tx_exit (failed : bool) : T unit :=
  try_finally
    (do! on_conn (update (set_transaction false));;
     do! tx_update (fun tx => mkTx (tx_result tx) (tx_statements tx) (tx_parameters tx) false (tx_used tx));;
     let! tx := tx_self in
     if negb failed && negb (bool_decide (tx_statements tx = []))
     then
       let! r := on_conn (_execute_prepared (join statement_sep (tx_statements tx)) (tx_parameters tx) 0) in
       tx_update (fun tx => mkTx (Some r) (tx_statements tx) (tx_parameters tx) (tx_active tx) (tx_used tx))
     else ret tt)
    (on_conn release).

(** [with tx: body] *)
Definition with_tx {A} (body : T A) : T A :=
  do! tx_enter;;
  let! a := try_except body (fun e => Some (do! tx_exit true;; throw e)) in
  do! tx_exit false;;
  ret a.

(** [with connection.transaction() as tx: body], then [tx.result]. *)
Definition transaction_result (body : T unit) : C W (option WriteResult) :=
  fun s => let '(r, (tx, s')) := with_tx body (Tx_new, s) in
           (res_bind r (fun _ => Ok (tx_result tx)), s').

(** A block that executes the given statements. *)
Fixpoint tx_executes (stmts : list (pyval * pyval)) : T unit :=
  match stmts with
  | [] => ret tt
  | (sql, ps) :: l => do! tx_execute sql ps;; tx_executes l
  end.
End Transaction.

Arguments T W A : clear implicits.

(** ** The [with] block as one locked operation

    [tx_build] is what a block of [execute] calls accumulates; the whole block
    then behaves as one operation under the connection's lock, which builds the
    body before anything is sent and submits it as a single write. *)

Fixpoint tx_build (stmts : list (pyval * pyval)) (ss : list pystr) (vs : list pyval)
    : pyres (list pystr * list pyval) :=
  match stmts with
  | [] => Ok (ss, vs)
  | (sql, ps) :: l =>
      do? guard (8 <=? zlen ss) (ValueError "A transaction supports at most eight statements");;
      let? tv := prepare sql ps (zlen vs) in
      match utf8_len (join statement_sep (ss ++ [tv.1 ++ [10]])) with
      | None => Raise (ValueError "surrogates not allowed")
      | Some n =>
          do? guard (4096 <? n) (ValueError "A transaction is limited to 4096 UTF-8 bytes");;
          tx_build l (ss ++ [tv.1 ++ [10]]) (vs ++ tv.2)
      end
  end.

Lemma tx_build_ends stmts ss vs : tx_build stmts ss vs <> OutOfFuel.
Proof.
  revert ss vs. induction stmts as [|[sql ps] l IH]; intros ss vs; cbn [tx_build]; [done|].
  apply res_bind_total; [apply guard_total|intros _ _].
  apply res_bind_total; [apply prepare_ends|intros tv _].
  destruct (utf8_len _); [|done]. apply res_bind_total; [apply guard_total|auto].
Qed.

Section Unfold.
Context {W : Type} `{Env W}.

Lemma tx_executes_build stmts res ss vs used (s : Conn * W) :
  exists r tx, tx_executes stmts (mkTx res ss vs true used, s) = (r, (tx, s)) /\
    tx_active tx = true /\ tx_used tx = used /\ tx_result tx = res /\
    match r with
    | Ok _ => tx_build stmts ss vs = Ok (tx_statements tx, tx_parameters tx)
    | Raise e => tx_build stmts ss vs = Raise e
    | OutOfFuel => False
    end.
Proof.
  revert ss vs. induction stmts as [|[sql ps] l IH]; intros ss vs; cbn [tx_build tx_executes].
  { eexists _, _. split; [reflexivity|done]. }
  unfold tx_execute, tx_self, gets, lift, bind. cbn [fst tx_active tx_statements tx_parameters negb].
  destruct (8 <=? zlen ss); cbn [guard res_bind].
  { eexists _, _. split; [reflexivity|done]. }
  pose proof (prepare_ends sql ps (zlen vs)) as Hends.
  destruct (prepare sql ps (zlen vs)) as [tv|e|]; cbn [res_bind]; [| |done].
  2: { eexists _, _. split; [reflexivity|done]. }
  destruct (utf8_len _) as [n|]; [|eexists _, _; split; [reflexivity|done]].
  destruct (4096 <? n); cbn [guard res_bind]; [eexists _, _; split; [reflexivity|done]|].
  unfold tx_update, modify. cbn [fst snd tx_result tx_statements tx_parameters tx_active tx_used].
  apply IH.
Qed.

(** The operation a transaction block amounts to. *)
Definition transaction_op (stmts : list (pyval * pyval)) : C W (option WriteResult) :=
  with_lock
    (do! _ready;;
     let! c := self in
     if bool_decide (c_pending c <> None)
     then throw (PendingWriteError "Transaction already used or a write needs resolution")
     else
       let! b := lift (tx_build stmts [] []) in
       if bool_decide (b.1 = []) then ret None
       else let! r := _execute_prepared (join statement_sep b.1) b.2 0 in ret (Some r)).

Lemma set_transaction_back n c :
  c_transaction c = false -> set_transaction false (set_transaction true (set_lock n c)) = set_lock n c.
Proof. destruct c. simpl. by intros ->. Qed.

Definition idle (tx : Tx) : Tx :=
  mkTx (tx_result tx) (tx_statements tx) (tx_parameters tx) false (tx_used tx).
Definition unlock (c : Conn) : Conn := set_lock (pred (c_lock c)) c.

Lemma tx_exit_failed tx c (w : W) :
  tx_exit true (tx, (c, w)) = (Ok tt, (idle tx, (unlock (set_transaction false c), w))).
Proof. done. Qed.

Lemma tx_exit_clean tx c (w : W) :
  tx_exit false (tx, (c, w)) =
    if bool_decide (tx_statements tx = [])
    then (Ok tt, (idle tx, (unlock (set_transaction false c), w)))
    else
      let '(r, s) := _execute_prepared (join statement_sep (tx_statements tx)) (tx_parameters tx) 0
                                       (set_transaction false c, w) in
      match r with
      | Ok wr => (Ok tt, (mkTx (Some wr) (tx_statements tx) (tx_parameters tx) false (tx_used tx),
                          (unlock s.1, s.2)))
      | Raise e => (Raise e, (idle tx, (unlock s.1, s.2)))
      | OutOfFuel => (OutOfFuel, (idle tx, s))
      end.
Proof.
  unfold tx_exit, release, on_conn, update, tx_update, tx_self, gets, modify.
  unfold bind, try_finally. cbn [fst snd negb andb tx_statements].
  destruct (bool_decide (tx_statements tx = [])); [done|]. cbn [negb].
  change (tx_parameters (mkTx (tx_result tx) (tx_statements tx) (tx_parameters tx) false (tx_used tx)))
    with (tx_parameters tx).
  destruct (_execute_prepared _ _ 0 _) as [[wr|e|] s]; done.
Qed.

Lemma transaction_unfold stmts (s : Conn * W) :
  transaction_result (tx_executes stmts) s = transaction_op stmts s.
Proof.
  destruct s as [c w]. unfold transaction_result, transaction_op, with_tx, tx_enter, with_lock.
  unfold acquire, release, _ready, self, update, on_conn, tx_self, gets, modify, lift.
  unfold bind, try_except, try_finally.
  cbn [fst snd c_closed c_transaction c_pending set_lock Tx_new tx_used].
  destruct (c_closed c) eqn:Hcl; [done|]. destruct (c_transaction c) eqn:Htr; [done|].
  unfold ret. cbn [fst snd]. change (tx_used Tx_new) with false. change (c_pending (set_lock _ c)) with (c_pending c).
  cbn [orb fst snd]. destruct (bool_decide (c_pending c <> None)); [done|]. unfold tx_update, modify.
  cbn [fst snd]. change (mkTx (tx_result Tx_new) _ _ true true) with (mkTx None [] [] true true).
  destruct (tx_executes_build stmts None [] [] true
              (set_transaction true (set_lock (S (c_lock c)) c), w)) as (r & tx & -> & Ha & Hu & Hr & Hb).
  destruct r as [u|e|]; [| |done]; rewrite Hb, ?tx_exit_failed, ?tx_exit_clean; cbn [fst snd].
  - rewrite set_transaction_back by done. unfold idle. cbn [tx_statements tx_parameters tx_result].
    destruct (bool_decide (tx_statements tx = [])); [simpl; by rewrite Hr|].
    destruct (_execute_prepared _ _ 0 _) as [[wr|e|] [c1 w1]]; done.
  - by rewrite set_transaction_back.
Qed.
End Unfold.
