(* ===== verification/ClientProofs.v ===== *)
(** * Lemmas about connections

    Frames and specifications of the connection's private operations: what a
    call may change, what it sends, when it ends, and the outcomes of
    [_resolve].  The claims are in ClientTheorems. *)

From Corelib Require Import Floats.SpecFloat.
From S2P Require Import Prelude PyStr PyFloat Objects Json Bytes Vector Parameters Results.
From S2P Require Import Net Client.

(** Distinct string literals. *)
Ltac py_neq := apply (bool_decide_eq_false_1 _); reflexivity.

Section Proofs.
Context {W : Type} `{EnvLaws W}.

Implicit Types (c : Conn) (s : Conn * W).

(** ** Symbolic execution of the primitives *)

Lemma wp_self Q s : Q (Ok s.1) s -> wp (self : C W Conn) Q s.
Proof. done. Qed.
Lemma wp_update f (Q : pyres unit -> Conn * W -> Prop) s :
  Q (Ok tt) (f s.1, s.2) -> wp (update f) Q s.
Proof. done. Qed.
Lemma wp_ask {A} (f : W -> A * W) (Q : pyres A -> Conn * W -> Prop) s :
  Q (Ok (f s.2).1) (s.1, (f s.2).2) -> wp (ask f) Q s.
Proof. unfold wp, ask. by destruct (f s.2). Qed.
Lemma wp_act f (Q : pyres unit -> Conn * W -> Prop) s :
  Q (Ok tt) (s.1, f s.2) -> wp (act f) Q s.
Proof. done. Qed.
Lemma wp_world {A} (f : W -> pyres A * W) (Q : pyres A -> Conn * W -> Prop) s :
  Q (f s.2).1 (s.1, (f s.2).2) -> wp (world f) Q s.
Proof. unfold wp, world. by destruct (f s.2). Qed.

Lemma wp_with_lock {A} (m : C W A) Q s :
  wp m (fun r s' => match r with
                    | OutOfFuel => Q OutOfFuel s'
                    | _ => Q r (set_lock (pred (c_lock s'.1)) s'.1, s'.2)
                    end) (set_lock (S (c_lock s.1)) s.1, s.2) ->
  wp (with_lock m) Q s.
Proof.
  intros Hm. unfold with_lock. apply wp_bind, wp_update, wp_try_finally.
  eapply wp_mono; [exact Hm|]. intros [] s' HQ; simpl; done.
Qed.

(** ** One call *)

(** The requests a call sends differ from the given one in the deadline only. *)
Definition agrees (req q : dict) : Prop :=
  forall k, k <> py "timeout_ms" -> dict_get k q = dict_get k req.

Lemma agrees_refl req : agrees req req.
Proof. done. Qed.
Lemma agrees_set req q v : agrees req q -> agrees req (dict_set (py "timeout_ms") v q).
Proof.
  intros Ha k Hk. rewrite dict_get_set. destruct (pyeqb k (py "timeout_ms")) eqn:E; [|by apply Ha].
  by apply pyeqb_eq in E.
Qed.
Lemma agrees_trans r1 r2 r3 : agrees r1 r2 -> agrees r2 r3 -> agrees r1 r3.
Proof. intros H1' H2' k Hk. rewrite H2', H1'; done. Qed.

Definition index_ok c : Prop := 0 <= c_index c < zlen (c_endpoints c).

(** What a call leaves behind: only the endpoint index moved, and the log grew
    by requests to configured endpoints that agree with the one asked for. *)
Definition framed (req : dict) s s' : Prop :=
  (exists i, s'.1 = set_index i s.1) /\ (index_ok s.1 -> index_ok s'.1) /\
  exists calls, sent s'.2 = sent s.2 ++ calls /\
    Forall (fun call => (index_ok s.1 -> call.1 ∈ c_endpoints s.1) /\ agrees req call.2) calls.

Definition call_result (req : dict) c (r : pyres dict) : Prop :=
  match r with
  | Ok resp => exists q, agrees req q /\ _validate (c_cluster c) resp q = Ok tt /\
                         val_in (get_or (py "error") PNone resp) retry_codes = false
  | Raise e => transport_exn e = true
  | OutOfFuel => True
  end.

Lemma set_index_twice i j c : set_index j (set_index i c) = set_index j c.
Proof. done. Qed.
Lemma set_index_self c : set_index (c_index c) c = c.
Proof. by destruct c. Qed.

Lemma framed_same req c w w' : sent w' = sent w -> framed req (c, w) (c, w').
Proof.
  intros Hs. split_and!; [exists (c_index c); by rewrite set_index_self|done|].
  exists []. by rewrite app_nil_r.
Qed.

Lemma framed_trans req req' s1 s2 s3 :
  agrees req req' -> framed req s1 s2 -> framed req' s2 s3 -> framed req s1 s3.
Proof.
  intros Hr ([i Hi] & Hok & l1 & Hl1 & Hf1) ([j Hj] & Hok' & l2 & Hl2 & Hf2).
  split_and!; [exists j; by rewrite Hj, Hi|tauto|].
  exists (l1 ++ l2). rewrite Hl2, Hl1, app_assoc. split; [done|].
  apply Forall_app. split; [done|]. eapply Forall_impl; [exact Hf2|].
  intros [e q] [He Hq]. split; [|by eapply agrees_trans]. intros Hx.
  rewrite Hi in He. apply He. rewrite <- Hi. by apply Hok.
Qed.

Lemma framed_exchange req q e t c w :
  agrees req q -> (index_ok c -> e ∈ c_endpoints c) ->
  framed req (c, w) (c, (exchange e q t w).2).
Proof.
  intros Ha He. split_and!; [exists (c_index c); by rewrite set_index_self|done|].
  exists [(e, q)]. cbn [fst snd]. rewrite exchange_sent. by repeat constructor.
Qed.

Lemma framed_index req c w w' i :
  sent w' = sent w -> (index_ok c -> 0 <= i < zlen (c_endpoints c)) ->
  framed req (c, w) (set_index i c, w').
Proof.
  intros Hs Hi. split_and!; [by exists i|done|]. exists []. by rewrite app_nil_r.
Qed.

Lemma index_endpoint c :
  index_ok c -> default (mkEndpoint [] []) (c_endpoints c !! Z.to_nat (c_index c)) ∈ c_endpoints c.
Proof.
  intros [Hlo Hhi]. unfold zlen in Hhi.
  destruct (c_endpoints c !! Z.to_nat (c_index c)) as [e|] eqn:E.
  - by eapply list_elem_of_lookup_2.
  - apply lookup_ge_None in E. lia.
Qed.

Lemma next_index c : index_ok c -> 0 <= (c_index c + 1) mod zlen (c_endpoints c) < zlen (c_endpoints c).
Proof. intros [? ?]. apply Z.mod_pos_bound. lia. Qed.

Lemma validate_ends cl resp req : _validate cl resp req <> OutOfFuel.
Proof. unfold _validate. res_total. Qed.

Lemma validate_raises cl resp req x :
  _validate cl resp req = Raise x -> exists m, x = ConnectionError m.
Proof.
  unfold _validate, guard. intros Hv.
  repeat match type of Hv with
  | res_bind (if ?b then _ else _) _ = _ => destruct b; cbn [res_bind] in Hv
  | (if ?b then _ else _) = _ => destruct b
  | match ?v with _ => _ end = _ => destruct v
  end; simplify_eq; eauto.
Qed.

Lemma call_loop_spec fuel deadline req last s :
  wp (call_loop fuel deadline req last)
     (fun r s' => framed req s s' /\ call_result req s.1 r) s.
Proof.
  revert req last s. induction fuel as [|f IH]; intros req last [c w].
  { apply wp_lift. split; [by apply framed_same|done]. }
  cbn [call_loop]. apply wp_bind, wp_ask. cbn [fst snd].
  destruct (Qle_bool _ _).
  { apply wp_throw. split; [apply framed_same, monotonic_sent|done]. }
  apply wp_bind, wp_self. cbn [fst snd].
  do 2 (apply wp_bind, wp_ask; cbn [fst snd]). apply wp_bind, wp_ask. cbn [fst snd].
  set (e := default _ _). set (att := attempt_deadline _ _ _ _). set (q := dict_set _ _ req).
  set (w4 := (monotonic _).2).
  assert (Hw4 : sent w4 = sent w) by (unfold w4; by rewrite !monotonic_sent).
  assert (Hq : agrees req q) by (apply agrees_set, agrees_refl).
  assert (He : index_ok c -> e ∈ c_endpoints c) by apply index_endpoint.
  assert (Hf : framed req (c, w) (c, (exchange e q att w4).2)).
  { eapply framed_trans; [apply agrees_refl|by apply framed_same|by apply framed_exchange]. }
  apply wp_bind, wp_try_except, wp_bind, wp_world. cbn [fst snd].
  assert (Hagain : forall l, wp (do! act tclose;;
            do! update (fun c => set_index ((c_index c + 1) mod zlen (c_endpoints c)) c);;
            let! now := ask monotonic in
            do! act (sleep (Qmin (1 # 100) (Qmax 0 (deadline - now))));;
            call_loop f deadline q l)
            (fun r s' => framed req (c, w) s' /\ call_result req c r)
            (c, (exchange e q att w4).2)).
  { intros l. apply wp_bind, wp_act. cbn [fst snd]. apply wp_bind, wp_update. cbn [fst snd].
    apply wp_bind, wp_ask. cbn [fst snd]. apply wp_bind, wp_act. cbn [fst snd].
    eapply wp_mono; [apply IH|]. intros r s' [Hfr Hres]. split.
    - eapply framed_trans; [exact Hq|exact Hf|]. eapply framed_trans; [apply agrees_refl| |exact Hfr].
      apply framed_index; [by rewrite sleep_sent, monotonic_sent, close_sent|apply next_index].
    - destruct r as [resp|x|]; [|done..]. destruct Hres as (q' & Hq' & Hv & Hc).
      exists q'. split_and!; [by eapply agrees_trans|done|done]. }
  destruct (exchange e q att w4).1 as [resp|x|] eqn:Hx.
  - apply wp_bind, wp_lift. destruct (_validate _ _ _) as [u|x|] eqn:Hv.
    + destruct u. destruct (negb _) eqn:Hc; apply wp_ret.
      * apply wp_ret. split; [done|]. exists q. split_and!; [done|done|by apply negb_true_iff].
      * apply Hagain.
    + apply validate_raises in Hv as [m ->]. simpl. apply wp_ret, Hagain.
    + by split.
  - destruct (isinstance x CConnectionError || isinstance x CTimeoutError) eqn:Hi.
    + apply wp_ret. apply Hagain.
    + split; [done|]. by eapply exchange_raises.
  - by split.
Qed.

Definition stamp c (req : dict) : dict :=
  dict_set (py "cluster") (PStr (c_cluster c)) (dict_set (py "protocol") (PInt 1) req).

Lemma dict_get_stamp c k req :
  k <> py "cluster" -> k <> py "protocol" -> dict_get k (stamp c req) = dict_get k req.
Proof.
  intros H1' H2'. unfold stamp. rewrite !dict_get_set.
  destruct (pyeqb k (py "cluster")) eqn:E1; [by apply pyeqb_eq in E1|].
  destruct (pyeqb k (py "protocol")) eqn:E2; [by apply pyeqb_eq in E2|done].
Qed.

Lemma call_spec req s :
  wp (_call req)
     (fun r s' => framed (stamp s.1 req) s s' /\ call_result (stamp s.1 req) s.1 r) s.
Proof.
  destruct s as [c w]. unfold _call. apply wp_bind, wp_self. apply wp_bind, wp_ask. cbn [fst snd].
  eapply wp_mono; [apply call_loop_spec|]. intros r s' [Hf Hr]. split; [|done].
  eapply framed_trans; [apply agrees_refl| |exact Hf]. apply framed_same, monotonic_sent.
Qed.

(** ** The deadline ends the loop *)

Lemma min_max_pause deadline now :
  let d := Qmin (1 # 100) (Qmax 0 (deadline - now)) in
  (0 <= d)%Q /\ (d == 1 # 100 \/ deadline <= now + d)%Q.
Proof.
  cbv zeta. split.
  - apply Q.min_glb; [lra|apply Q.le_max_l].
  - destruct (Q.min_spec (1 # 100) (Qmax 0 (deadline - now))) as [[_ E]|[_ E]]; [by left|right].
    rewrite E. pose proof (Q.le_max_r 0 (deadline - now)). lra.
Qed.

Lemma fuel_step n : (inject_Z (Z.of_nat (S n) - 1) == inject_Z (Z.of_nat n - 1) + 1)%Q.
Proof. rewrite <- (inject_Z_plus _ 1). replace (Z.of_nat (S n) - 1) with (Z.of_nat n - 1 + 1) by lia. reflexivity. Qed.

Lemma call_loop_ends fuel deadline req last c w :
  (0 < fuel)%nat -> (deadline <= clock w + inject_Z (Z.of_nat fuel - 1) * (1 # 100))%Q ->
  wp (call_loop fuel deadline req last) (fun r _ => r <> OutOfFuel) (c, w).
Proof.
  revert req last c w. induction fuel as [|f IH]; intros req last c w Hpos Hd; [lia|].
  cbn [call_loop]. apply wp_bind, wp_ask. cbn [fst snd].
  destruct (Qle_bool deadline (monotonic w).1) eqn:Hnow; [by apply wp_throw|].
  assert (Hlt : ((monotonic w).1 < deadline)%Q).
  { apply Qnot_le_lt. intros Hle. apply Qle_bool_iff in Hle. by rewrite Hle in Hnow. }
  apply wp_bind, wp_self. cbn [fst snd].
  do 2 (apply wp_bind, wp_ask; cbn [fst snd]). apply wp_bind, wp_ask. cbn [fst snd].
  set (e := default _ _). set (att := attempt_deadline _ _ _ _). set (q := dict_set _ _ req).
  set (w4 := (monotonic _).2).
  assert (Hmono : forall x, (clock x <= clock (monotonic x).2)%Q).
  { intros x. destruct (monotonic_reads x). lra. }
  assert (Hw4 : (clock w <= clock w4)%Q).
  { unfold w4. eapply Qle_trans; [|apply Hmono]. eapply Qle_trans; [|apply Hmono].
    eapply Qle_trans; [|apply Hmono]. apply Hmono. }
  set (w5 := (exchange e q att w4).2).
  assert (Hw5 : (clock w <= clock w5)%Q).
  { eapply Qle_trans; [exact Hw4|]. apply exchange_clock. }
  assert (Hagain : forall l, wp (do! act tclose;;
            do! update (fun c => set_index ((c_index c + 1) mod zlen (c_endpoints c)) c);;
            let! now := ask monotonic in
            do! act (sleep (Qmin (1 # 100) (Qmax 0 (deadline - now))));;
            call_loop f deadline q l) (fun r _ => r <> OutOfFuel) (c, w5)).
  { intros l. apply wp_bind, wp_act. cbn [fst snd]. apply wp_bind, wp_update. cbn [fst snd].
    apply wp_bind, wp_ask. cbn [fst snd]. apply wp_bind, wp_act. cbn [fst snd].
    destruct (monotonic_reads w) as [Hr _]. destruct (monotonic_reads (tclose w5)) as [Hr1 Hr2].
    pose proof (close_clock w5) as Hcl. rewrite fuel_step in Hd.
    assert (Hf : (0 < f)%nat).
    { destruct f; [|lia]. exfalso. change (inject_Z (Z.of_nat 0 - 1)) with (- (1))%Q in Hd. lra. }
    destruct (min_max_pause deadline (monotonic (tclose w5)).1) as [Hnn Hp].
    set (d := Qmin _ _) in *.
    pose proof (sleep_takes d (monotonic (tclose w5)).2 Hnn) as Hs.
    apply IH; [done|]. destruct Hp as [Hp|Hp].
    - lra.
    - assert (Hfq : (0 <= inject_Z (Z.of_nat f - 1))%Q) by (rewrite <- (Zle_Qle 0); lia). lra. }
  apply wp_bind, wp_try_except, wp_bind, wp_world. cbn [fst snd].
  pose proof (exchange_ends e q att w4) as Hends.
  destruct (exchange e q att w4).1 as [resp|x|]; [| |done].
  - apply wp_bind, wp_lift. destruct (_validate _ _ _) as [u|x|] eqn:Hv.
    + destruct (negb _); apply wp_ret; [by apply wp_ret|apply Hagain].
    + destruct (_ || _); [|done]. apply wp_ret. apply Hagain.
    + by apply validate_ends in Hv.
  - destruct (_ || _); [|done]. apply wp_ret. apply Hagain.
Qed.

Lemma call_ends req c w :
  (c_timeout c <= 60)%Q -> wp (_call req) (fun r _ => r <> OutOfFuel) (c, w).
Proof.
  intros Ht. unfold _call. apply wp_bind, wp_self. apply wp_bind, wp_ask. cbn [fst snd].
  apply call_loop_ends; [by apply Nat.ltb_lt|].
  destruct (monotonic_reads w) as [_ Hr].
  change (inject_Z (Z.of_nat call_fuel - 1)) with (6001 # 1)%Q. lra.
Qed.

(** ** What a validated reply says *)

Record Reply (resp : dict) := {
  r_code : pystr; r_node : Z; r_applied : Z; r_changes : Z; r_sequence : Z;
  r_error_at : dict_get (py "error") resp = Some (PStr r_code);
  r_node_at : dict_get (py "node") resp = Some (PInt r_node) /\ 0 <= r_node;
  r_applied_at : dict_get (py "applied") resp = Some (PInt r_applied) /\ 0 <= r_applied;
  r_changes_at : dict_get (py "changes") resp = Some (PInt r_changes) /\ 0 <= r_changes;
  r_sequence_at : dict_get (py "sequence") resp = Some (PInt r_sequence) /\ 0 <= r_sequence;
  r_status_at : r_code = [] <-> dict_get (py "status") resp = Some (PStr (py "ok"))
}.

Lemma nonneg_int_field k resp :
  nonneg_int k resp = true -> exists z, dict_get (py k) resp = Some (PInt z) /\ 0 <= z.
Proof.
  unfold nonneg_int, get_or. destruct (dict_get (py k) resp) as [[]|]; try done.
  simpl. intros Hz%Z.leb_le. eauto.
Qed.

Lemma eq_str_iff v t : eq_str v t = true <-> v = PStr t.
Proof.
  split; [destruct v; simpl; try done; by intros ->%pyeqb_eq|].
  intros ->. simpl. by apply pyeqb_eq.
Qed.

Lemma validate_Ok cl resp req :
  _validate cl resp req = Ok tt ->
  exists R : Reply resp,
    forall n, dict_get (py "op") req = Some (PStr (py "execute")) ->
              dict_get (py "sequence") req = Some (PInt n) -> r_sequence resp R = n.
Proof.
  unfold _validate. intros Hv. res_inv. rename Hv into Hcode.
  apply negb_false_iff in Hr1. cbn [forallb] in Hr1. unbool.
  destruct (nonneg_int_field "node" resp) as (zn & Hn1 & Hn2); [done|].
  destruct (nonneg_int_field "applied" resp) as (za & Ha1 & Ha2); [done|].
  destruct (nonneg_int_field "changes" resp) as (zc & Hc1 & Hc2); [done|].
  destruct (nonneg_int_field "sequence" resp) as (zs & Hs1 & Hs2); [done|].
  unfold get_or in *. destruct (dict_get (py "error") resp) as [[| | | |code| | | |]|] eqn:Herr; try done.
  apply guard_Ok, negb_false_iff, eqb_prop in Hcode.
  assert (Hst : code = [] <-> dict_get (py "status") resp = Some (PStr (py "ok"))).
  { destruct (dict_get (py "status") resp) as [v|].
    + destruct (eq_str v (py "ok")) eqn:Es.
      * apply eq_str_iff in Es as ->. split; [done|].
        intros _. by symmetry in Hcode; apply bool_decide_eq_true in Hcode.
      * symmetry in Hcode. apply bool_decide_eq_false in Hcode. split; [done|].
        intros [= ->]. by rewrite (proj2 (eq_str_iff _ _) eq_refl) in Es.
    + symmetry in Hcode. simpl in Hcode. apply bool_decide_eq_false in Hcode. done. }
  exists (Build_Reply resp code zn za zc zs Herr (conj Hn1 Hn2) (conj Ha1 Ha2) (conj Hc1 Hc2) (conj Hs1 Hs2) Hst).
  intros n Hop Hn. simpl. rewrite Hop, Hn, Hs1 in Hr2.
  apply andb_false_iff in Hr2 as [Hr2|Hr2].
  - by rewrite (proj2 (eq_str_iff _ _) eq_refl) in Hr2.
  - unbool. simpl in Hr2. congruence.
Qed.

(** ** The outcomes of [_resolve] *)

(** A definitive answer drops the pending write and advances the sequence. *)
Definition advance c : Conn := set_sequence (c_sequence c + 1) (set_pending None c).

(** How each way out of [_resolve] leaves the connection [c1] (the one at hand
    when the call returned): uncertain outcomes keep the write pending, a
    refusal before the session's sequence was consumed only drops it. *)
Definition resolved (p : PendingWrite) c1 (r : pyres WriteResult) c' : Prop :=
  match r with
  | Ok wr => w_sequence wr = sequence p /\ c' = advance c1
  | Raise (UnknownOutcome p') => p' = p /\ c' = c1
  | Raise (SessionError code) => str_in code (py <$> session_codes) = true /\ c' = c1
  | Raise (SerializationError code) => code = py "Conflict" /\ c' = advance c1
  | Raise (ConstraintError code) => code = py "Constraint" /\ c' = advance c1
  | Raise (QueryError code) =>
      (str_in code [py "Policy"; py "Sequence_Gap"; py "Invalid_SQL"] = true /\ c' = advance c1) \/
      (str_in code [py "Invalid_Request"; py "Unsupported"] = true /\ c' = set_pending None c1)
  | Raise e => transport_exn e = true /\ isinstance e CConnectionError = false /\ c' = c1
  | OutOfFuel => c' = c1
  end.

Lemma val_in_str code l : val_in (PStr code) l = str_in code (py <$> l).
Proof. unfold val_in, str_in. induction l as [|s l IH]; [done|]. cbn [existsb fmap list_fmap]. by f_equal. Qed.

(** The requests of [_resolve]. *)
Definition write_request c (p : PendingWrite) (params : list pyval) : dict :=
  stamp c (execute_request p params).

(** The error code of the reply behind an outcome the server decided. *)
Definition decided (r : pyres WriteResult) : option pystr :=
  match r with
  | Ok _ => Some []
  | Raise (QueryError code) | Raise (ConstraintError code) | Raise (SerializationError code) => Some code
  | _ => None
  end.

(** [_resolve] in terms of its one call. *)
Lemma resolve_rule p params s (Q : pyres WriteResult -> Conn * W -> Prop) :
  c_pending s.1 = Some p -> encode_all (parameters p) = Ok params ->
  wp (_call (execute_request p params))
     (fun r0 s1 => call_result (write_request s.1 p params) s.1 r0 /\
        forall r c', resolved p s1.1 r c' ->
          (forall code, decided r = Some code ->
             exists resp, r0 = Ok resp /\ dict_get (py "error") resp = Some (PStr code)) ->
          Q r (c', s1.2)) s ->
  wp _resolve Q s.
Proof.
  destruct s as [c w]. cbn [fst snd]. intros Hp He Hcall. unfold _resolve.
  apply wp_bind, wp_self. cbn [fst snd]. rewrite Hp. apply wp_bind, wp_lift. rewrite He.
  apply wp_bind, wp_try_except. eapply wp_mono; [exact Hcall|].
  intros r [c1 w1] [Hr HQ]. cbn [fst snd] in *. clear Hcall.
  destruct r as [resp|x|].
  2: { destruct (isinstance x CConnectionError) eqn:Hx.
       - apply wp_throw, HQ; done.
       - apply HQ; by destruct x. }
  2: by apply HQ.
  destruct Hr as (q & Hq & Hv & Hret). apply validate_Ok in Hv as [R HR].
  specialize (HR (sequence p)).
  destruct R as [code n a ch sq Herr [Hn ?] [Ha ?] [Hch ?] [Hsq ?] Hst]. cbn [r_sequence] in HR.
  rewrite !Hq in HR by py_neq.
  specialize (HR eq_refl eq_refl). subst sq.
  unfold get_or. rewrite Herr. rewrite !val_in_str.
  destruct (str_in code (py <$> session_codes)) eqn:Hses; [apply wp_throw, HQ; done|].
  destruct (negb _) eqn:Hfin; [apply wp_throw, HQ; done|]. apply negb_false_iff in Hfin.
  apply wp_bind, wp_update. cbn [fst snd].
  apply str_in_spec in Hfin. cbn [fmap list_fmap] in Hfin.
  repeat (apply elem_of_cons in Hfin as [->|Hfin]); [..|by apply elem_of_nil in Hfin];
    (apply wp_bind, wp_update || apply wp_bind, wp_ret); cbn [fst snd].
  1: { apply wp_lift. unfold write_result, int_field, getitem. rewrite Hch, Ha, Hn, Hsq.
       apply HQ; [done|]. intros ? [= <-]. eauto. }
  all: apply wp_throw, HQ; [simpl; eauto|intros ? [= <-]; eauto].
Qed.

Lemma resolve_unencodable p x s :
  c_pending s.1 = Some p -> encode_all (parameters p) = Raise x -> _resolve s = (Raise x, s).
Proof. destruct s as [c w]. intros Hp He. unfold _resolve, bind, self, gets, lift. simpl in *. by rewrite Hp, He. Qed.

Lemma resolve_spec p s :
  c_pending s.1 = Some p ->
  wp _resolve (fun r s' => exists i,
    let c1 := set_index i s.1 in
    resolved p c1 r s'.1 /\
    (index_ok s.1 -> index_ok c1) /\
    (s' = s \/ exists params, encode_all (parameters p) = Ok params /\
               framed (write_request s.1 p params) s (c1, s'.2))) s.
Proof.
  intros Hp. destruct (encode_all (parameters p)) as [params|x|] eqn:He.
  - apply (resolve_rule p params); [done|done|]. eapply wp_mono; [apply call_spec|].
    intros r0 [c1 w1] [Hf Hr]. split; [done|]. intros r c' HR _.
    pose proof Hf as [[i Hi] [Hok _]]. cbn [fst snd] in *. subst c1. exists i. eauto 10.
  - unfold wp. erewrite resolve_unencodable by done. cbn [fst snd]. exists (c_index s.1). cbv zeta.
    rewrite set_index_self. apply encode_all_raises in He as [m [-> | ->]]; (split_and!; [done..|by left]).
  - by apply encode_all_ends in He.
Qed.

(** ** What a call does to the world

    A property of the world that the clock, sleeping and exchanges of requests
    agreeing with [req] preserve holds after the call, and a returned reply is
    the last exchange's. *)
Lemma call_loop_world (P : W -> Prop) fuel deadline req last c w :
  (forall w, P w -> P (monotonic w).2) -> (forall d w, P w -> P (sleep d w)) ->
  (forall w, P w -> P (tclose w)) ->
  (forall e q t w, agrees req q -> P w -> P (exchange e q t w).2) ->
  P w ->
  wp (call_loop fuel deadline req last)
     (fun r s' => P s'.2 /\
        match r with
        | Ok resp => exists e q t w0, agrees req q /\ P w0 /\ exchange e q t w0 = (Ok resp, s'.2)
        | _ => True
        end) (c, w).
Proof.
  intros Hm Hs Hcl. revert req last c w. induction fuel as [|f IH]; intros req last c w He Hw.
  { by apply wp_lift. }
  cbn [call_loop]. apply wp_bind, wp_ask. cbn [fst snd].
  destruct (Qle_bool _ _). { apply wp_throw. split; [by apply Hm|done]. }
  apply wp_bind, wp_self. cbn [fst snd].
  do 2 (apply wp_bind, wp_ask; cbn [fst snd]). apply wp_bind, wp_ask. cbn [fst snd].
  set (e := default _ _). set (att := attempt_deadline _ _ _ _). set (q := dict_set _ _ req).
  set (w4 := (monotonic _).2). assert (Hw4 : P w4) by (unfold w4; auto).
  assert (Hq : agrees req q) by (apply agrees_set, agrees_refl).
  assert (Hagain : forall l, wp (do! act tclose;;
            do! update (fun c => set_index ((c_index c + 1) mod zlen (c_endpoints c)) c);;
            let! now := ask monotonic in
            do! act (sleep (Qmin (1 # 100) (Qmax 0 (deadline - now))));;
            call_loop f deadline q l)
            (fun r s' => P s'.2 /\
        match r with
        | Ok resp => exists e q t w0, agrees req q /\ P w0 /\ exchange e q t w0 = (Ok resp, s'.2)
        | _ => True
        end) (c, (exchange e q att w4).2)).
  { intros l. apply wp_bind, wp_act. cbn [fst snd]. apply wp_bind, wp_update. cbn [fst snd].
    apply wp_bind, wp_ask. cbn [fst snd]. apply wp_bind, wp_act. cbn [fst snd].
    eapply wp_mono; [apply IH|].
    - intros e' q' t' w' Hq'. apply He. by eapply agrees_trans.
    - auto.
    - intros [resp|x|] s'; [|by intros []..]. intros [HP (e' & q' & t' & w' & Hq' & Hr)].
      split; [done|]. exists e', q', t', w'. split; [by eapply agrees_trans|done]. }
  apply wp_bind, wp_try_except, wp_bind, wp_world. cbn [fst snd].
  assert (HP : P (exchange e q att w4).2) by auto.
  destruct (exchange e q att w4) as [[resp|x|] w5] eqn:Hx; cbn [fst snd] in *; [| |done].
  - apply wp_bind, wp_lift. destruct (_validate _ _ _) as [u|x|] eqn:Hv; [| |done].
    + destruct (negb _) eqn:Hc; apply wp_ret; [|apply Hagain].
      apply wp_ret. split; [done|]. by exists e, q, att, w4.
    + destruct (_ || _); [|done]. apply wp_ret. apply Hagain.
  - destruct (_ || _); [|done]. apply wp_ret. apply Hagain.
Qed.

Lemma call_world (P : W -> Prop) req c w :
  (forall w, P w -> P (monotonic w).2) -> (forall d w, P w -> P (sleep d w)) ->
  (forall w, P w -> P (tclose w)) ->
  (forall e q t w, agrees (stamp c req) q -> P w -> P (exchange e q t w).2) ->
  P w ->
  wp (_call req)
     (fun r s' => P s'.2 /\
        match r with
        | Ok resp => exists e q t w0, agrees (stamp c req) q /\ P w0 /\ exchange e q t w0 = (Ok resp, s'.2)
        | _ => True
        end) (c, w).
Proof.
  intros. unfold _call. apply wp_bind, wp_self. apply wp_bind, wp_ask. cbn [fst snd].
  apply call_loop_world; auto.
Qed.

End Proofs.
