(* ===== verification/ClientFrames.v ===== *)
(** * Frames and invariants of connections

    [Frame] is the interface between the connection's operations and a relation
    one wants every operation to respect: it lists the primitive steps the
    operations are made of.  The [stable] lemmas show that every operation that
    does not write follows any such relation; [Inv] is the connection's
    invariant, and [keeps] the relation that preserves it. *)

From Corelib Require Import Floats.SpecFloat.
From S2P Require Import Prelude PyStr PyFloat Objects Json Bytes Vector Parameters Results.
From S2P Require Import Net Client ClientProofs.

Class Frame {W : Type} `{Env W} (R : Conn * W -> Conn * W -> Prop) := {
  #[global] frame_preorder :: PreOrder R;
  frame_monotonic c w : R (c, w) (c, (monotonic w).2);
  frame_sleep d c w : R (c, w) (c, sleep d w);
  frame_tclose c w : R (c, w) (c, tclose w);
  frame_exchange e q t c w :
    dict_get (py "op") q <> Some (PStr (py "execute")) -> R (c, w) (c, (exchange e q t w).2);
  frame_index i c w : (index_ok c -> 0 <= i < zlen (c_endpoints c)) -> R (c, w) (set_index i c, w);
  frame_epoch e c w : c_epoch c = None -> R (c, w) (set_epoch (Some e) c, w);
  frame_timeout s s' : R s s' -> c_timeout s'.1 = c_timeout s.1;
  frame_closed b c w : R (c, w) (set_closed b c, w);
  frame_lock c w c' w' :
    R (set_lock (S (c_lock c)) c, w) (c', w') -> R (c, w) (set_lock (pred (c_lock c')) c', w')
}.

Section Stable.
Context {W : Type} `{EnvLaws W} (R : Conn * W -> Conn * W -> Prop) `{!Frame R}.

(** Under a timeout the constructor accepts, [m] ends and follows [R]. *)
Definition stable {A} (m : C W A) : Prop :=
  forall s, (c_timeout s.1 <= 60)%Q -> wp m (fun r s' => r <> OutOfFuel /\ R s s') s.

Lemma stable_bind {A B} (m : C W A) (f : A -> C W B) :
  stable m -> (forall a, stable (f a)) -> stable (bind m f).
Proof.
  intros Hm Hf s Ht. apply wp_bind. eapply wp_mono; [by apply Hm|].
  intros [a|e|] s' [Hr HR]; [|done..].
  eapply wp_mono; [apply Hf; by rewrite (frame_timeout _ _ HR)|].
  intros r s'' [Hr' HR']. split; [done|by etransitivity].
Qed.

(** Reading the connection: the continuation may use what it knows of it. *)
Lemma stable_self_at {A} (f : Conn -> C W A) :
  (forall c w, (c_timeout c <= 60)%Q ->
               wp (f c) (fun r s' => r <> OutOfFuel /\ R (c, w) s') (c, w)) ->
  stable (bind self f).
Proof. intros Hf [c w] Ht. by apply wp_bind, wp_self, Hf. Qed.
Lemma stable_self {A} (f : Conn -> C W A) : (forall c, stable (f c)) -> stable (bind self f).
Proof. intros Hf. apply stable_self_at. intros c w. apply (Hf c (c, w)). Qed.

Lemma stable_ret {A} (a : A) : stable (ret a).
Proof. intros s _. by apply wp_ret. Qed.
Lemma stable_throw {A} e : stable (throw e : C W A).
Proof. intros s _. by apply wp_throw. Qed.
Lemma stable_lift {A} (r : pyres A) : r <> OutOfFuel -> stable (lift r).
Proof. intros Hr s _. by apply wp_lift. Qed.
Lemma stable_tclose : stable (act tclose).
Proof. intros [c w] _. apply wp_act. split; [done|apply frame_tclose]. Qed.
Lemma stable_closed b : stable (update (set_closed b)).
Proof. intros [c w] _. apply wp_update. split; [done|apply frame_closed]. Qed.

Lemma stable_with_lock {A} (m : C W A) : stable m -> stable (with_lock m).
Proof.
  intros Hm [c w] Ht. apply wp_with_lock. eapply wp_mono; [by apply Hm|].
  intros [a|e|] [c' w'] [Hr HR]; cbn [fst snd] in *; [split; [done|by apply frame_lock]..|done].
Qed.

(** The failover loop of a request that is not a write. *)
Lemma call_loop_follows fuel deadline req last c w :
  dict_get (py "op") req <> Some (PStr (py "execute")) ->
  wp (call_loop fuel deadline req last) (fun _ s' => R (c, w) s') (c, w).
Proof.
  revert req last c w. induction fuel as [|f IH]; intros req last c w Hop; [by apply wp_lift|].
  cbn [call_loop]. apply wp_bind, wp_ask. cbn [fst snd].
  destruct (Qle_bool _ _); [apply wp_throw, frame_monotonic|].
  apply wp_bind, wp_self. cbn [fst snd].
  do 2 (apply wp_bind, wp_ask; cbn [fst snd]). apply wp_bind, wp_ask. cbn [fst snd].
  set (e := default _ _). set (att := attempt_deadline _ _ _ _). set (q := dict_set _ _ req).
  set (w4 := (monotonic _).2).
  assert (Hq : dict_get (py "op") q <> Some (PStr (py "execute"))).
  { unfold q. by rewrite dict_get_set. }
  assert (Hf : R (c, w) (c, (exchange e q att w4).2)).
  { etransitivity; [|by apply frame_exchange]. unfold w4. do 3 (etransitivity; [apply frame_monotonic|]).
    apply frame_monotonic. }
  assert (Hagain : forall l, wp (do! act tclose;;
            do! update (fun c => set_index ((c_index c + 1) mod zlen (c_endpoints c)) c);;
            let! now := ask monotonic in
            do! act (sleep (Qmin (1 # 100) (Qmax 0 (deadline - now))));;
            call_loop f deadline q l) (fun _ s' => R (c, w) s') (c, (exchange e q att w4).2)).
  { intros l. apply wp_bind, wp_act. cbn [fst snd]. apply wp_bind, wp_update. cbn [fst snd].
    apply wp_bind, wp_ask. cbn [fst snd]. apply wp_bind, wp_act. cbn [fst snd].
    eapply wp_mono; [by apply IH|]. intros r s' Hs'. etransitivity; [exact Hf|].
    etransitivity; [apply frame_tclose|].
    etransitivity; [by apply frame_index, next_index|].
    etransitivity; [apply frame_monotonic|]. etransitivity; [apply frame_sleep|exact Hs']. }
  apply wp_bind, wp_try_except, wp_bind, wp_world. cbn [fst snd].
  destruct (exchange e q att w4).1 as [resp|x|]; [| |done].
  - apply wp_bind, wp_lift. destruct (_validate _ _ _) as [u|x|].
    + destruct (negb _); apply wp_ret; [by apply wp_ret|apply Hagain].
    + destruct (_ || _); [|done]. apply wp_ret, Hagain.
    + done.
  - destruct (_ || _); [|done]. apply wp_ret, Hagain.
Qed.

Lemma stable_call req :
  dict_get (py "op") req <> Some (PStr (py "execute")) -> stable (_call req).
Proof.
  intros Hop [c w] Ht. pose proof (call_ends req c w Ht) as Hends.
  assert (Hf : wp (_call req) (fun _ s' => R (c, w) s') (c, w)).
  { unfold _call. apply wp_bind, wp_self. apply wp_bind, wp_ask. cbn [fst snd].
    eapply wp_mono; [apply call_loop_follows|].
    - by rewrite !dict_get_set.
    - intros r s' HR. etransitivity; [apply frame_monotonic|exact HR]. }
  split; [exact Hends|exact Hf].
Qed.
End Stable.

Create HintDb stable discriminated.
#[export] Hint Resolve stable_bind stable_self stable_ret stable_throw stable_lift
  stable_with_lock stable_call stable_tclose stable_closed : stable.

(** ** Results of decoding end *)

Section Ends.
Lemma map_res_ends {A B} (f : A -> pyres B) l :
  (forall x, f x <> OutOfFuel) -> map_res f l <> OutOfFuel.
Proof.
  intros Hf. induction l as [|x l IH]; [done|]. cbn [map_res].
  apply res_bind_total; [apply Hf|intros y _]. by apply res_bind_total.
Qed.

Lemma getitem_ends k d : getitem k d <> OutOfFuel.
Proof. unfold getitem. res_total. Qed.

Lemma int_field_ends k d : int_field k d <> OutOfFuel.
Proof. unfold int_field. res_total. apply getitem_ends. Qed.

Lemma py_iter_ends v : py_iter v <> OutOfFuel.
Proof. by destruct v. Qed.

Lemma raise_query_ends d : _raise_query d <> OutOfFuel.
Proof. unfold _raise_query. res_total. apply getitem_ends. Qed.

Lemma decode_ends v : _decode v <> OutOfFuel.
Proof.
  assert (Hc : forall k, cell k v <> OutOfFuel) by (intros k; unfold cell; res_total; apply getitem_ends).
  unfold _decode. res_total; apply Hc.
Qed.

Lemma decode_row_ends cols r : decode_row cols r <> OutOfFuel.
Proof.
  unfold decode_row. apply res_bind_total; [apply py_iter_ends|intros cs _].
  apply res_bind_total; [|done]. apply map_res_ends, decode_ends.
Qed.

Lemma column_name_ends v : column_name v <> OutOfFuel.
Proof. unfold column_name. res_total. Qed.

Lemma decode_rows_ends d : decode_rows d <> OutOfFuel.
Proof.
  unfold decode_rows.
  repeat first
    [ apply getitem_ends | apply py_iter_ends | apply int_field_ends | apply guard_total
    | apply map_res_ends, column_name_ends | apply map_res_ends; intros; apply decode_row_ends
    | discriminate | apply res_bind_total; [|intros ? _] ].
Qed.

Lemma malformed_ends {A} m (r : pyres A) : r <> OutOfFuel -> malformed m r <> OutOfFuel.
Proof. intros Hr. destruct r; simpl; res_total; done. Qed.
End Ends.

#[export] Hint Resolve guard_total encode_all_ends prepare_ends raise_query_ends decode_rows_ends
  malformed_ends : stable.

(** Follows the structure of an operation, one combinator at a time. *)
Ltac stable_step :=
  lazymatch goal with
  | |- stable ?R (bind self _) => apply (stable_self R); intros ?
  | |- stable ?R (bind _ _) => apply (stable_bind R); [|intros ?]
  | |- stable ?R (with_lock _) => apply (stable_with_lock R)
  | |- stable ?R (ret _) => apply (stable_ret R)
  | |- stable ?R (throw _) => apply (stable_throw R)
  | |- stable ?R (lift _) => apply (stable_lift R); auto with stable
  | |- stable ?R (_call _) => apply (stable_call R); discriminate
  | |- stable _ (if ?b then _ else _) => destruct b eqn:?
  | |- stable _ (match ?x with _ => _ end) => destruct x eqn:?
  end.

Section Operations.
Context {W : Type} `{EnvLaws W} (R : Conn * W -> Conn * W -> Prop) `{!Frame R}.

Lemma stable_ready : stable R _ready.
Proof. unfold _ready. repeat stable_step. Qed.

Lemma stable_call_checked req :
  dict_get (py "op") req <> Some (PStr (py "execute")) -> stable R (call_checked req).
Proof. intros Hop. unfold call_checked. apply (stable_bind R); [by apply (stable_call R)|intros ?]. repeat stable_step. Qed.

(** Filling the session's epoch in, where it was unknown. *)
Lemma stable_fill_epoch {A} e (k : C W A) :
  stable R k ->
  stable R (let! c := self in
            do! when (bool_decide (c_epoch c = None)) (update (set_epoch (Some e)));; k).
Proof.
  intros Hk. apply stable_self_at. intros c w Ht. apply wp_bind. unfold when.
  destruct (bool_decide _) eqn:He; [|by apply wp_ret, (Hk (c, w))].
  apply bool_decide_eq_true in He. apply wp_update. cbn [fst snd].
  eapply wp_mono; [by apply (Hk (_, w))|]. intros r s' [Hr HR]. split; [done|].
  etransitivity; [by apply frame_epoch|exact HR].
Qed.

Ltac stable_op :=
  repeat first [ apply stable_ready | apply stable_call_checked; discriminate
               | apply stable_fill_epoch | stable_step ].

Lemma stable_session_epoch : stable R session_epoch.
Proof. unfold session_epoch. stable_op. Qed.

Lemma stable_query sql ps consistency : stable R (query sql ps consistency).
Proof. unfold query. stable_op. Qed.

Lemma stable_status : stable R status.
Proof. unfold status. stable_op. Qed.

Lemma stable_retire e : stable R (retire_sessions e).
Proof. unfold retire_sessions. stable_op. Qed.

Lemma stable_snapshot : stable R request_snapshot.
Proof. unfold request_snapshot. stable_op. Qed.

Lemma stable_preview body vs v q qvs : stable R (_preview body vs v q qvs).
Proof. unfold _preview. stable_op. Qed.

Lemma stable_close : stable R close.
Proof. unfold close. stable_op; [by apply stable_tclose|by apply stable_closed]. Qed.

Lemma stable_begin : stable R _begin_optimistic.
Proof. unfold _begin_optimistic. stable_op. Qed.
End Operations.

(** ** The invariant of a connection *)

(** A write that [PendingWrite(...)] accepts. *)
Definition valid_pending (p : PendingWrite) : Prop :=
  PendingWrite_new (PStr (session p)) (PInt (sequence p)) (PStr (sql p)) (parameters p)
                   (PInt (read_version p)) (PInt (epoch p)) = Ok p.

(** The write [p] is the connection's next one. *)
Definition owns c (p : PendingWrite) : Prop :=
  session p = c_session c /\ sequence p = c_sequence c /\ c_epoch c = Some (epoch p).

Record Inv (c : Conn) : Prop := {
  inv_index : index_ok c;
  inv_cluster : c_cluster c <> [];
  inv_timeout : (0 < c_timeout c /\ c_timeout c <= 60)%Q;
  inv_sequence : 1 <= c_sequence c;
  inv_pending : forall p, c_pending c = Some p -> valid_pending p /\ owns c p
}.

(** What no operation changes. *)
Definition static (c : Conn) :=
  (c_endpoints c, c_cluster c, c_timeout c, c_session c, c_transaction c, c_lock c).

Section Keeps.
Context {W : Type} `{EnvLaws W}.

Definition keeps (s s' : Conn * W) : Prop :=
  static s'.1 = static s.1 /\ (Inv s.1 -> Inv s'.1) /\ c_sequence s.1 <= c_sequence s'.1.

Lemma Inv_index i c : (index_ok c -> 0 <= i < zlen (c_endpoints c)) -> Inv c -> Inv (set_index i c).
Proof. intros Hi []. split; try done. by apply Hi. Qed.
Lemma Inv_lock n c : Inv (set_lock n c) <-> Inv c.
Proof. split; intros []; by split. Qed.
Lemma Inv_closed b c : Inv c -> Inv (set_closed b c).
Proof. intros []. by split. Qed.
Lemma Inv_epoch e c : c_epoch c = None -> Inv c -> Inv (set_epoch (Some e) c).
Proof.
  intros He [? ? ? ? Hp]. split; try done. intros p [? (? & ? & ?)]%Hp. congruence.
Qed.
Lemma Inv_epoch_idle e c : c_pending c = None -> Inv c -> Inv (set_epoch e c).
Proof. intros Hn [? ? ? ? Hp]. split; try done. simpl. congruence. Qed.
Lemma Inv_dropped c : Inv c -> Inv (set_pending None c).
Proof. intros []. by split. Qed.
Lemma Inv_advance c : Inv c -> Inv (advance c).
Proof. intros []. split; try done. simpl. lia. Qed.
Lemma Inv_submit p c : valid_pending p -> owns c p -> Inv c -> Inv (set_pending (Some p) c).
Proof. intros ? ? []. split; try done. intros p' [= <-]. done. Qed.

#[global] Instance keeps_frame : Frame keeps.
Proof.
  split; unfold keeps; cbn [fst snd].
  - split; [done|]. intros s1 s2 s3 (? & ? & ?) (? & ? & ?). split_and!; [congruence|tauto|lia].
  - done.
  - done.
  - done.
  - done.
  - intros i c w Hi. split_and!; [done|by apply Inv_index|done].
  - intros e c w He. split_and!; [done|by apply Inv_epoch|done].
  - intros s s' (Hs & _). unfold static in Hs. congruence.
  - intros b c w. split_and!; [done|by apply Inv_closed|done].
  - intros c w c' w' (Hs & HI & Hq). rewrite !Inv_lock in *. unfold static in *. simpl in *.
    split_and!; [|done|done]. injection Hs as -> -> -> -> -> ->. done.
Qed.

(** Operations that do not write leave the pending write alone. *)
Definition quiet (s s' : Conn * W) : Prop :=
  c_pending s'.1 = c_pending s.1 /\ c_timeout s'.1 = c_timeout s.1.

#[global] Instance quiet_frame : Frame quiet.
Proof.
  split; unfold quiet; cbn [fst snd]; try done; [|by intros s s' []].
  split; [done|]. intros s1 s2 s3 [] []. split; congruence.
Qed.

Lemma resolve_ends s : (c_timeout s.1 <= 60)%Q -> wp (_resolve (W:=W)) (fun r _ => r <> OutOfFuel) s.
Proof.
  destruct s as [c w]. intros Ht. unfold _resolve. apply wp_bind, wp_self. cbn [fst].
  destruct (c_pending c) as [p|]; [|by apply wp_throw].
  apply wp_bind, wp_lift. destruct (encode_all _) as [ps|x|] eqn:He; [|done|by apply encode_all_ends in He].
  apply wp_bind, wp_try_except. eapply wp_mono; [by apply call_ends|].
  intros [resp|x|] s' Hr; [|by destruct (isinstance _ _)|done]. cbv zeta.
  destruct (val_in _ _); [by apply wp_throw|]. destruct (negb _); [by apply wp_throw|].
  apply wp_bind, wp_update. apply wp_bind. unfold when.
  assert (Hk : forall s, wp (if eq_str (get_or (py "error") (PStr []) resp) (py "Conflict")
      then throw (SerializationError (code_text (get_or (py "error") (PStr []) resp)))
      else if truthy (get_or (py "error") (PStr []) resp)
      then throw (if eq_str (get_or (py "error") (PStr []) resp) (py "Constraint")
           then ConstraintError (code_text (get_or (py "error") (PStr []) resp))
           else QueryError (code_text (get_or (py "error") (PStr []) resp)))
      else lift (write_result resp) : C W WriteResult) (fun r _ => r <> OutOfFuel) s).
  { intros s0. destruct (eq_str _ _); [by apply wp_throw|]. destruct (truthy _); [by apply wp_throw|].
    apply wp_lift. unfold write_result. res_total; apply int_field_ends. }
  destruct (negb _); [apply wp_update|apply wp_ret]; apply Hk.
Qed.

Lemma resolve_keeps s p :
  c_pending s.1 = Some p -> (c_timeout s.1 <= 60)%Q ->
  wp _resolve (fun r s' => r <> OutOfFuel /\ keeps s s') s.
Proof.
  intros Hp Ht. split; [by apply resolve_ends|].
  apply (wp_mono _ _ (fun _ s' => keeps s s')) with (1 := resolve_spec p s Hp).
  intros r s' (i & Hr & Hok & _). cbv zeta in *.
  assert (HI : Inv s.1 -> Inv (set_index i s.1)) by (intros HI; apply Inv_index; [apply Hok|done]).
  assert (Hcase : s'.1 = set_index i s.1 \/ s'.1 = advance (set_index i s.1) \/
                  s'.1 = set_pending None (set_index i s.1)).
  { destruct r as [wr|x|]; simpl in Hr; [naive_solver| |naive_solver].
    destruct x; naive_solver. }
  destruct Hcase as [E|[E|E]]; unfold keeps; rewrite E; split_and!;
    auto using Inv_advance, Inv_dropped; simpl; lia.
Qed.

Lemma stable_resolve_pending : stable keeps resolve_pending.
Proof.
  unfold resolve_pending. stable_step. stable_step; [apply stable_ready; exact _|].
  apply (stable_self_at keeps). intros c w Ht. destruct (c_pending c) as [p|] eqn:Hp; [|by apply wp_throw].
  by eapply resolve_keeps.
Qed.

Lemma PendingWrite_new_Ok sess n text vs rv e p :
  PendingWrite_new (PStr sess) (PInt n) (PStr text) vs (PInt rv) (PInt e) = Ok p ->
  p = mkPending sess n text vs rv e /\ valid_pending p.
Proof.
  intros Hp. assert (p = mkPending sess n text vs rv e) as ->; [|by split].
  revert Hp. unfold PendingWrite_new, check_session, check_int, check_sql. cbn [as_int]. intros Hp.
  res_inv. destruct (utf8_len text); res_inv. by simplify_eq.
Qed.

Lemma PendingWrite_new_ends a b c ps d e : PendingWrite_new a b c ps d e <> OutOfFuel.
Proof.
  unfold PendingWrite_new, check_session, check_int, check_sql. res_total; apply encode_all_ends.
Qed.

(** Submitting a write: the body of [_execute_prepared] past its guard. *)
Lemma stable_execute_prepared text vs rv : stable keeps (_execute_prepared text vs rv).
Proof.
  unfold _execute_prepared. apply (stable_self_at keeps). intros c w Ht.
  destruct (c_pending c) as [p|] eqn:Hp; [by apply wp_throw|].
  assert (Hsub : forall w0 c0, c_pending c0 = None -> c_epoch c0 <> None -> keeps (c, w) (c0, w0) ->
    wp (let! c := self in
        let! p := lift (PendingWrite_new (PStr (c_session c)) (PInt (c_sequence c)) (PStr text) vs
                          (PInt rv) (PInt (default 0 (c_epoch c)))) in
        do! update (set_pending (Some p));; _resolve)
       (fun r s' => r <> OutOfFuel /\ keeps (c, w) s') (c0, w0)).
  { intros w0 c0 Hp0 He0 Hk. apply wp_bind, wp_self. cbn [fst snd]. apply wp_bind, wp_lift.
    destruct (PendingWrite_new _ _ _ _ _ _) as [p|x|] eqn:Hnew;
      [|by split|by apply PendingWrite_new_ends in Hnew].
    apply PendingWrite_new_Ok in Hnew as [-> Hv]. apply wp_bind, wp_update. cbn [fst snd].
    assert (Ht0 : (c_timeout c0 <= 60)%Q) by (by rewrite (frame_timeout _ _ Hk : c_timeout c0 = _)).
    eapply wp_mono; [by eapply (resolve_keeps (_, w0))|].
    intros r s' [Hr Hk']. split; [done|]. etransitivity; [|exact Hk'].
    etransitivity; [exact Hk|]. split_and!; [done| |done]. cbn [fst]. intros HI.
    apply Inv_submit; [done| |done]. split_and!; [done..|]. simpl. by destruct (c_epoch c0). }
  apply wp_bind. destruct (c_epoch c) as [e|] eqn:He.
  - apply wp_ret, Hsub; [done|congruence|reflexivity].
  - apply wp_bind. eapply wp_mono.
    { exact (wp_and _ _ _ _ (stable_session_epoch keeps (c, w) Ht) (stable_session_epoch quiet (c, w) Ht)). }
    intros [e|x|] [c' w'] [[Hr Hk] [_ Hq]]; [|done..]. destruct Hq as [Hq _]. cbn [fst] in Hq.
    apply wp_update, Hsub; [simpl; congruence|done|]. etransitivity; [exact Hk|].
    split_and!; [done| |done]. cbn [fst snd]. apply Inv_epoch_idle. congruence.
Qed.

Lemma stable_execute sql ps : stable keeps (execute sql ps).
Proof.
  unfold execute. do 3 stable_step; [apply stable_ready; exact _|]. apply stable_execute_prepared.
Qed.
End Keeps.
