(* ===== verification/ExactlyOnce.v ===== *)
(** * The methods of a connection as one step relation, and exactly-once writes

    [method] names every operation of [Connection], [invoke] runs one, and
    [step] is one operation of a program that uses a connection, whether it
    returns or raises.  Also here: what a valid pending write holds, field by
    field, and how its parameters are saved and restored. *)

From Corelib Require Import Floats.SpecFloat.
From S2P Require Import Prelude PyStr PyFloat Objects Json JsonProofs Bytes Vector Parameters Results Net Client Transaction ClientProofs ClientFrames.

(** ** Sequences of operations *)

(** The methods of [Connection]; [MPrepared] is the entry point of
    the DB-API adapter; [MTransaction] is a [with connection.transaction()] block
    that executes the given statements. *)
Inductive method :=
| MExecute (sql parameters : pyval)
| MPrepared (text : pystr) (vs : list pyval) (read_version : Z)
| MTransaction (statements : list (pyval * pyval))
| MResolve_pending
| MQuery (sql parameters : pyval) (consistency : pystr)
| MStatus
| MSession_epoch
| MRetire_sessions (expected_epoch : pyval)
| MRequest_snapshot
| MBegin
| MPreview (body : pystr) (vs : list pyval) (version : Z) (query : pystr) (query_values : list pyval)
| MEnter
| MClose.

Section Steps.
Context {W : Type} `{EnvLaws W}.

Definition invoke (m : method) : C W unit :=
  match m with
  | MExecute sql ps => do! execute sql ps;; ret tt
  | MPrepared text vs rv => do! with_lock (_execute_prepared text vs rv);; ret tt
  | MTransaction stmts => do! transaction_result (tx_executes stmts);; ret tt
  | MResolve_pending => do! resolve_pending;; ret tt
  | MQuery sql ps c => do! query sql ps c;; ret tt
  | MStatus => do! status;; ret tt
  | MSession_epoch => do! session_epoch;; ret tt
  | MRetire_sessions e => do! retire_sessions e;; ret tt
  | MRequest_snapshot => do! request_snapshot;; ret tt
  | MBegin => do! _begin_optimistic;; ret tt
  | MPreview b vs v q qvs => do! _preview b vs v q qvs;; ret tt
  | MEnter => enter
  | MClose => close
  end.

(** One operation, whether it returns or raises. *)
Inductive step (s : Conn * W) : Conn * W -> Prop :=
| step_invoke m : step s (invoke m s).2.

Lemma stable_transaction stmts : stable keeps (transaction_result (tx_executes stmts)).
Proof.
  enough (Hop : stable keeps (transaction_op stmts)).
  { intros s Ht. unfold wp. rewrite transaction_unfold. by apply Hop. }
  unfold transaction_op.
  repeat first [ apply stable_ready; exact _ | apply stable_execute_prepared | stable_step ].
  apply tx_build_ends.
Qed.

Lemma invoke_stable m : stable keeps (invoke m).
Proof.
  destruct m; cbn [invoke]; try (apply (stable_bind keeps); [|intros ?; apply (stable_ret keeps)]).
  - apply stable_execute.
  - apply (stable_with_lock keeps), stable_execute_prepared.
  - apply stable_transaction.
  - apply stable_resolve_pending.
  - apply stable_query, keeps_frame.
  - apply stable_status, keeps_frame.
  - apply stable_session_epoch, keeps_frame.
  - apply stable_retire, keeps_frame.
  - apply stable_snapshot, keeps_frame.
  - apply stable_begin, keeps_frame.
  - apply stable_preview, keeps_frame.
  - apply stable_ready, keeps_frame.
  - apply stable_close, keeps_frame.
Qed.

Lemma steps_keep s s' : Inv s.1 -> rtc step s s' -> keeps s s'.
Proof.
  intros HI Hs. induction Hs as [s|s s1 s' [m] Hs IH]; [reflexivity|].
  destruct (invoke_stable m s) as [_ Hk]; [apply HI|].
  etransitivity; [exact Hk|]. apply IH. by apply Hk.
Qed.

Lemma Connection_new_Inv eps cluster timeout pending w c w' :
  (forall p, pending = Some p -> valid_pending p) ->
  Connection_new eps cluster timeout pending w = (Ok c, w') -> Inv c /\ c_lock c = 0%nat.
Proof.
  intros Hp. unfold Connection_new. case_bool_decide as He; [done|].
  destruct (bool_decide _ || _) eqn:Hc; [done|].
  apply orb_false_iff in Hc as [Hc Ht]. apply bool_decide_eq_false in Hc.
  apply negb_false_iff, andb_true_iff in Ht as [Ht1%negb_true_iff Ht2%Qle_bool_iff].
  destruct (match pending with Some p => _ | None => _ end) as [sess w1] eqn:Hs.
  intros [= <- <-]. split; [|done]. split; cbn [c_endpoints c_cluster c_timeout c_sequence c_pending c_index].
  - unfold index_ok, zlen. simpl. destruct eps; [done|]. simpl. lia.
  - done.
  - split; [|done].
    apply Qnot_le_lt. intros Hle%Qle_bool_iff. congruence.
  - destruct pending as [p|]; [|done]. specialize (Hp p eq_refl).
    revert Hp. unfold valid_pending, PendingWrite_new, check_int. cbn [as_int]. intros Hp. res_inv. by unbool.
  - intros p ->. split; [by apply Hp|]. split_and!; try done. by injection Hs as <-.
Qed.
End Steps.

(** ** What a pending write holds *)

(** Python-level well-formedness of what a write holds: strings are code
    points, and [Vector] objects come from their constructor. *)
Definition python_value (v : pyval) : Prop :=
  match v with
  | PStr s => code_points s
  | PVec w => wf_vector w
  | _ => True
  end.

Lemma clean_int63 z : - 2 ^ 63 <= z <= 2 ^ 63 -> clean (PInt z).
Proof.
  intros Hz. constructor. unfold dec_nonneg, zlen.
  pose proof (dec_digits_length (S (Z.to_nat (Z.log2 (Z.abs z)))) (Z.abs z)) as Hl.
  assert (Z.log2 (Z.abs z) <= 63) by (transitivity (Z.log2 (2 ^ 63)); [apply Z.log2_le_mono; lia|done]).
  lia.
Qed.

Lemma scalar_str s n : code_points s -> utf8_len s = Some n -> Forall scalar_value s.
Proof.
  unfold utf8_len, utf8_encode. intros Hs. destruct (existsb is_surrogate s) eqn:E; [done|]. intros _.
  apply Forall_forall. intros c Hc. split; [by eapply Forall_forall in Hs|].
  destruct (is_surrogate c) eqn:Ec; [|done]. rewrite <- E. symmetry. apply existsb_exists.
  exists c. split; [by apply list_elem_of_In|done].
Qed.

Lemma clean_ascii s : forallb (fun c => (0 <=? c) && (c <? 128)) s = true -> Forall scalar_value s.
Proof.
  rewrite forallb_forall. intros Hs. apply Forall_forall. intros c Hc%list_elem_of_In%Hs. unbool.
  split; [lia|]. unfold is_surrogate. destruct (Z.leb_spec 55296 c); [lia|done].
Qed.

Lemma encode_all_Forall vs es : encode_all vs = Ok es -> Forall (fun v => exists e, encode v = Ok e) vs.
Proof.
  revert es. induction vs as [|v vs IH]; intros es Hes; [done|]. cbn [encode_all] in Hes. res_inv.
  constructor; eauto.
Qed.

Lemma clean_saved v e : encode v = Ok e -> python_value v -> clean (save_param v).
Proof.
  destruct v as [|b|z|f|s|b|w|l|d]; intros He Hw; cbn [save_param] in *; try done; try by constructor.
  - unfold encode in He. cbn [isinstance_int default] in He. res_inv. unfold int_in_range in *.
    unbool. unfold id in *. apply clean_int63. lia.
  - unfold encode in He. destruct (utf8_len s) as [n|] eqn:Hn; [|done]. constructor. by eapply scalar_str.
  - constructor; [apply NoDup_singleton|]. constructor; [|done]. split; [by apply clean_ascii|].
    simpl. constructor. apply Forall_fmap, Forall_forall. intros x _. constructor.
Qed.

Lemma load_saved v e : encode v = Ok e -> python_value v -> load_param (save_param v) = Ok v.
Proof.
  destruct v; intros He Hw; try done.
  cbn [save_param load_param mkdict fmap list_fmap]. rewrite pyeqb_refl. unfold viter.
  by rewrite Vector_new_id.
Qed.

Lemma load_params_saved vs :
  Forall (fun v => exists e, encode v = Ok e) vs -> Forall python_value vs ->
  load_params (save_param <$> vs) = Ok vs.
Proof.
  intros He Hw. induction He as [|v vs [e He] Hes IH]; [done|]. apply Forall_cons in Hw as [Hv Hw].
  cbn [fmap list_fmap load_params]. by erewrite load_saved, IH.
Qed.

Lemma check_int_Ok lo z e n : check_int lo (PInt z) e = Ok n -> lo <= z < 2 ^ 63.
Proof. unfold check_int. cbn [as_int]. intros. res_inv. unbool. lia. Qed.

Lemma valid_pending_fields p :
  valid_pending p ->
  Forall scalar_value (session p) /\ 1 <= sequence p < 2 ^ 63 /\ 0 <= read_version p < 2 ^ 63 /\
  0 <= epoch p < 2 ^ 63 /\ (exists n, utf8_len (sql p) = Some n /\ n <= 4096) /\
  zlen (parameters p) <= 16 /\ exists es, encode_all (parameters p) = Ok es.
Proof.
  unfold valid_pending, PendingWrite_new. intros Hv. res_inv.
  repeat match goal with H : check_int _ _ _ = Ok _ |- _ => apply check_int_Ok in H end.
  unbool. split_and!; try done; try lia; [| |by eauto].
  - cbn [check_session] in Hr. res_inv. unfold session_ok in *. unbool. apply clean_ascii.
    rewrite forallb_forall in *. intros c Hc. specialize (H1 c Hc). unfold is_hex_lower, is_dec in H1. lia.
  - cbn [check_sql] in *. destruct (utf8_len (sql p)); res_inv. unbool. eauto.
Qed.

(** * Writes happen at most once, and successful ones exactly once

    The service deduplicates writes by (session, sequence); the client's part of
    the contract is to use one identity per write, to repeat exactly that request
    while its outcome is unknown, and never to reuse the identity for another
    write once it may have been applied.  [Service] states what the service
    documents; [exactly_once] is the resulting end-to-end guarantee.  [Ledger] is
    a concrete service over a network that loses requests and replies. *)

(** ** What a write is *)

Definition is_write (q : dict) : Prop := dict_get (py "op") q = Some (PStr (py "execute")).
Definition of_session (sess : pystr) (q : dict) : Prop :=
  dict_get (py "session") q = Some (PStr sess).
Definition seq_of (q : dict) : option pyval := dict_get (py "sequence") q.

(** The write itself: SQL text and encoded parameters. *)
Definition body := (option pyval * option pyval)%type.
Definition body_of (q : dict) : body := (dict_get (py "sql") q, dict_get (py "parameters") q).
Definition write_body (text : pystr) (params : list pyval) : body :=
  (Some (PStr text), Some (PList params)).

(** Answers that say the write was not, and will not be, applied. *)
Definition rejections : list pystr :=
  py <$> ["Constraint"; "Policy"; "Sequence_Gap"; "Invalid_SQL"; "Invalid_Request"; "Unsupported";
          "Conflict"]%string.

(** The service's side of the contract.  [ledger sess w] is the writes applied
    under a session, in order.  An exchange applies at most the write it
    carries, and only under a sequence number not applied before; a success
    vouches for the number having been applied, a rejection for its absence. *)
Class Service (W : Type) `{EnvLaws W} := {
  ledger : pystr -> W -> list dict;
  ledger_monotonic sess w : ledger sess (monotonic w).2 = ledger sess w;
  ledger_sleep sess d w : ledger sess (sleep d w) = ledger sess w;
  ledger_tclose sess w : ledger sess (tclose w) = ledger sess w;
  ledger_exchange sess e q t w :
    ledger sess (exchange e q t w).2 = ledger sess w \/
    (is_write q /\ of_session sess q /\ seq_of q ∉ seq_of <$> ledger sess w /\
     ledger sess (exchange e q t w).2 = ledger sess w ++ [q]);
  ledger_success sess e q t w resp :
    is_write q -> of_session sess q -> (exchange e q t w).1 = Ok resp ->
    dict_get (py "error") resp = Some (PStr []) ->
    seq_of q ∈ seq_of <$> ledger sess (exchange e q t w).2;
  ledger_rejection sess e q t w resp code :
    is_write q -> of_session sess q -> (exchange e q t w).1 = Ok resp ->
    dict_get (py "error") resp = Some (PStr code) -> code ∈ rejections ->
    seq_of q ∉ seq_of <$> ledger sess (exchange e q t w).2
}.

Section ExactlyOnce.
Context {W : Type} `{Service W}.

(** [log] is what the connection knows to be applied: the ledger of its session
    is [log], followed by the pending write if that was applied too. *)
Definition abstracts (log : list body) (s : Conn * W) : Prop :=
  exists done tail,
    ledger (c_session s.1) s.2 = done ++ tail /\ body_of <$> done = log /\
    Forall (fun q => exists n, seq_of q = Some (PInt n) /\ n < c_sequence s.1) done /\
    (tail = [] \/ exists p params q,
       tail = [q] /\ c_pending s.1 = Some p /\ encode_all (parameters p) = Ok params /\
       seq_of q = Some (PInt (sequence p)) /\ body_of q = write_body (sql p) params).

(** Operations that do not write leave all of this alone. *)
Definition unwritten (s s' : Conn * W) : Prop :=
  c_session s'.1 = c_session s.1 /\ c_sequence s'.1 = c_sequence s.1 /\
  c_pending s'.1 = c_pending s.1 /\ c_timeout s'.1 = c_timeout s.1 /\
  forall sess, ledger sess s'.2 = ledger sess s.2.

#[global] Instance unwritten_frame : Frame unwritten.
Proof.
  split; unfold unwritten; cbn [fst snd]; try done.
  - split; [done|]. intros s1 s2 s3 (?&?&?&?&E1) (?&?&?&?&E2).
    split_and!; congruence.
  - intros c w. split_and!; try done. intros sess. apply ledger_monotonic.
  - intros d c w. split_and!; try done. intros sess. apply ledger_sleep.
  - intros c w. split_and!; try done. intros sess. apply ledger_tclose.
  - intros e q t c w Hop. split_and!; try done. intros sess.
    destruct (ledger_exchange sess e q t w) as [|(Hw & _)]; done.
  - by intros s s' (?&?&?&?&?).
Qed.

Lemma abstracts_unwritten log s s' : unwritten s s' -> abstracts log s -> abstracts log s'.
Proof.
  intros (Hs & Hq & Hp & _ & Hl) (done & tail & HL & Hb & Hf & Ht). exists done, tail.
  rewrite Hs, Hq, Hp, Hl. done.
Qed.

(** What happens to the ledger while the write [p] is being resolved. *)
Definition attempted (c : Conn) (p : PendingWrite) (params : list pyval) (L : list dict) (w : W) : Prop :=
  ledger (c_session c) w = L \/
  exists q, agrees (write_request c p params) q /\ seq_of q ∉ seq_of <$> L /\
            ledger (c_session c) w = L ++ [q].

Lemma write_request_fields c p params q :
  agrees (write_request c p params) q ->
  is_write q /\ of_session (session p) q /\ seq_of q = Some (PInt (sequence p)) /\
  body_of q = write_body (sql p) params.
Proof.
  intros Ha. unfold is_write, of_session, seq_of, body_of. rewrite !Ha by py_neq. done.
Qed.

Lemma attempted_exchange c p params L e q t w :
  agrees (write_request c p params) q -> attempted c p params L w ->
  attempted c p params L (exchange e q t w).2.
Proof.
  intros Ha Hw. destruct (ledger_exchange (c_session c) e q t w) as [E|(_ & _ & Hn & E)].
  - destruct Hw as [Hw|(q' & Hq' & Hn' & Hw)]; [left; congruence|right]. exists q'. by rewrite E, Hw.
  - destruct Hw as [Hw|(q' & Hq' & Hn' & Hw)].
    + right. exists q. rewrite Hw in Hn. by rewrite E, Hw.
    + exfalso. apply Hn. rewrite Hw, fmap_app. apply elem_of_app. right.
      apply write_request_fields in Ha as (_ & _ & -> & _).
      apply write_request_fields in Hq' as (_ & _ & Hs & _). simpl. rewrite Hs. by apply list_elem_of_singleton.
Qed.
Lemma done_fresh (done : list dict) n :
  Forall (fun q => exists k, seq_of q = Some (PInt k) /\ k < n) done ->
  Some (PInt n) ∉ seq_of <$> done.
Proof.
  intros Hd (q & Hq & Hin)%list_elem_of_fmap. rewrite Forall_forall in Hd.
  destruct (Hd q Hin) as (k & Hk & Hlt). rewrite Hk in Hq. simplify_eq. lia.
Qed.

(** While unresolved, attempts leave the abstraction where it is. *)
Lemma abstracts_attempted log c w i w1 p params :
  c_pending c = Some p -> encode_all (parameters p) = Ok params -> owns c p ->
  abstracts log (c, w) -> attempted c p params (ledger (c_session c) w) w1 ->
  abstracts log (set_index i c, w1).
Proof.
  intros Hp He (_ & Hseq & _) (done & tail & HL & Hb & Hf & Ht) Hat. cbn [fst snd] in *.
  destruct Hat as [E|(q & Ha & Hn & E)].
  { exists done, tail. cbn [fst snd c_session c_sequence c_pending set_index]. by rewrite E. }
  apply write_request_fields in Ha as (_ & _ & Hs & Hbody).
  exists done, [q]. cbn [fst snd c_session c_sequence c_pending set_index]. rewrite E, HL.
  destruct Ht as [->|(p' & ps' & q' & -> & Hp' & _ & Hs' & _)].
  - rewrite app_nil_r. split_and!; [done..|]. right. exists p, params, q. done.
  - exfalso. apply Hn. rewrite HL, fmap_app, Hs. apply elem_of_app. right.
    simpl. rewrite Hs'. apply list_elem_of_singleton. congruence.
Qed.

Lemma abstracts_committed log c w p params :
  c_pending c = Some p -> encode_all (parameters p) = Ok params -> owns c p ->
  abstracts log (c, w) -> Some (PInt (sequence p)) ∈ seq_of <$> ledger (c_session c) w ->
  abstracts (log ++ [write_body (sql p) params]) (advance c, w).
Proof.
  intros Hp He (_ & Hseq & _) (done & tail & HL & Hb & Hf & Ht) Hin. cbn [fst snd] in *.
  rewrite HL, fmap_app in Hin. apply elem_of_app in Hin as [Hin|Hin].
  { exfalso. rewrite Hseq in Hin. by eapply done_fresh. }
  destruct Ht as [->|(p' & ps' & q' & -> & Hp' & He' & Hs' & Hb')]; [by apply elem_of_nil in Hin|].
  assert (p' = p) as -> by congruence. assert (ps' = params) as -> by congruence.
  exists (done ++ [q']), []. cbn [fst snd c_session c_sequence c_pending advance set_sequence set_pending].
  rewrite HL, app_nil_r, fmap_app. split_and!; [done|simpl; congruence| |by left].
  apply Forall_app. split.
  - eapply Forall_impl; [exact Hf|]. intros q (k & Hk & Hlt). exists k. split; [done|lia].
  - apply Forall_singleton. exists (sequence p). split; [done|lia].
Qed.

Lemma abstracts_rejected log c w p :
  c_pending c = Some p -> owns c p ->
  abstracts log (c, w) -> Some (PInt (sequence p)) ∉ seq_of <$> ledger (c_session c) w ->
  abstracts log (advance c, w) /\ abstracts log (set_pending None c, w).
Proof.
  intros Hp (_ & Hseq & _) (done & tail & HL & Hb & Hf & Ht) Hin. cbn [fst snd] in *.
  destruct Ht as [->|(p' & ps' & q' & -> & Hp' & He' & Hs' & Hb')].
  - split; exists done, []; cbn [fst snd c_session c_sequence c_pending advance set_sequence set_pending];
      (split_and!; [done|done| |by left]); [|done].
    eapply Forall_impl; [exact Hf|]. intros q (k & Hk & Hlt). exists k. split; [done|lia].
  - exfalso. apply Hin. rewrite HL, fmap_app. apply elem_of_app. right. simpl.
    rewrite Hs'. apply list_elem_of_singleton. congruence.
Qed.

Lemma rejection_code l code :
  forallb (fun c => str_in c rejections) l = true -> code ∈ l -> code ∈ rejections.
Proof.
  rewrite forallb_forall. intros Hl Hc. apply str_in_spec, Hl. by apply list_elem_of_In.
Qed.

Lemma resolve_once p params log s :
  owns s.1 p -> c_pending s.1 = Some p -> encode_all (parameters p) = Ok params -> abstracts log s ->
  wp _resolve (fun r s' => match r with
                           | Ok _ => abstracts (log ++ [write_body (sql p) params]) s'
                           | _ => abstracts log s'
                           end) s.
Proof.
  destruct s as [c w]. cbn [fst snd]. intros Hown Hp He Habs.
  apply (resolve_rule p params); [done|done|].
  eapply wp_mono; [apply wp_and; [apply call_spec|
    apply (call_world (attempted c p params (ledger (c_session c) w)))]|].
  1-4: intros; unfold attempted in *; rewrite ?ledger_monotonic, ?ledger_sleep, ?ledger_tclose; try done.
  { by apply attempted_exchange. }
  { by left. }
  intros r0 [c1 w1] [[Hfr Hcr] [Hat Hx]]. cbn [fst snd] in *. split; [exact Hcr|].
  intros r c' HR Hdec. destruct Hfr as [[i Hi] _]. cbn [fst] in Hi. subst c1.
  pose proof (abstracts_attempted log c w i w1 p params Hp He Hown Habs Hat) as Habs1.
  assert (Hsess : session p = c_session c) by apply Hown.
  assert (Hrej : forall code, decided r = Some code -> code ∈ rejections ->
    Some (PInt (sequence p)) ∉ seq_of <$> ledger (c_session c) w1).
  { intros code Hd Hc. destruct (Hdec code Hd) as (resp & -> & Herr).
    destruct Hx as (e & q & t & w0 & Ha & _ & Hex).
    apply write_request_fields in Ha as (Hw & Hs & <- & _). rewrite Hsess in Hs.
    pose proof (ledger_rejection (c_session c) e q t w0 resp code) as Hl. rewrite Hex in Hl. by apply Hl. }
  assert (Hno : forall code, decided r = Some code -> code ∈ rejections ->
    abstracts log (advance (set_index i c), w1) /\ abstracts log (set_pending None (set_index i c), w1)).
  { intros code Hd Hc. apply (abstracts_rejected log (set_index i c) w1 p); eauto. }
  destruct r as [wr|x|]; [|destruct x|]; cbn [resolved] in HR; try (by destruct HR as (? & ? & ->)).
  - destruct HR as [_ ->]. apply abstracts_committed; try done.
    destruct (Hdec [] eq_refl) as (resp & -> & Herr). destruct Hx as (e & q & t & w0 & Ha & _ & Hex).
    apply write_request_fields in Ha as (Hw & Hs & <- & _). rewrite Hsess in Hs.
    pose proof (ledger_success (c_session c) e q t w0 resp) as Hl. rewrite Hex in Hl. by apply Hl.
  - destruct HR as [[Hc%str_in_spec ->]|[Hc%str_in_spec ->]]; eapply Hno; try done; (eapply rejection_code; [|exact Hc]; done).
  - destruct HR as [-> ->]. eapply Hno; [done|]. by apply str_in_spec.
  - destruct HR as [-> ->]. eapply Hno; [done|]. by apply str_in_spec.
  - by destruct HR as [_ ->].
  - by destruct HR as [_ ->].
  - by subst.
Qed.
(** The write a method submits or repeats, if it is one that writes. *)
Definition body_for (text : pystr) (vs : list pyval) : option body :=
  match encode_all vs with Ok params => Some (write_body text params) | _ => None end.

Definition submits (m : method) (c : Conn) : option body :=
  match m with
  | MExecute sql ps =>
      match prepare sql ps 0 with Ok (text, vs) => body_for text vs | _ => None end
  | MPrepared text vs _ => body_for text vs
  | MTransaction stmts =>
      match tx_build stmts [] [] with
      | Ok (ss, vs) => if bool_decide (ss = []) then None else body_for (join statement_sep ss) vs
      | _ => None
      end
  | MResolve_pending => p ← c_pending c; body_for (sql p) (parameters p)
  | _ => None
  end.

(** The log after a computation that may commit [b]. *)
Definition logged {A} (b : option body) (log : list body) (r : pyres A) (s' : Conn * W) : Prop :=
  match r with
  | Ok _ => abstracts (log ++ option_list b) s'
  | _ => abstracts log s'
  end.

Lemma abstracts_lock n log c w : abstracts log (set_lock n c, w) <-> abstracts log (c, w).
Proof. done. Qed.

Lemma logged_with_lock {A} b log (m : C W A) s :
  wp m (logged b log) (set_lock (S (c_lock s.1)) s.1, s.2) -> wp (with_lock m) (logged b log) s.
Proof.
  intros Hm. apply wp_with_lock. eapply wp_mono; [exact Hm|]. intros [] [c w]; done.
Qed.

Lemma logged_stable {A} log (m : C W A) s :
  stable unwritten m -> (c_timeout s.1 <= 60)%Q -> abstracts log s -> wp m (logged None log) s.
Proof.
  intros Hm Ht Ha. eapply wp_mono; [by apply Hm|]. intros r s' [_ Hu].
  assert (abstracts log s') by by eapply abstracts_unwritten.
  destruct r; simpl; by rewrite ?app_nil_r.
Qed.

(** [_ready] in front: it reads only. *)
Lemma wp_ready {A} (m : C W A) Q s :
  (forall e, Q (Raise e) s) -> wp m Q s -> wp (do! _ready;; m) Q s.
Proof.
  intros He Hm. apply wp_bind. unfold _ready. apply wp_bind, wp_self.
  destruct (c_closed s.1); [by apply wp_throw|]. destruct (c_transaction s.1); [by apply wp_throw|by apply wp_ret].
Qed.

Lemma execute_prepared_once text vs rv log s :
  Inv s.1 -> abstracts log s -> wp (_execute_prepared text vs rv) (logged (body_for text vs) log) s.
Proof.
  destruct s as [c w]. cbn [fst]. intros HI Ha. unfold _execute_prepared. apply wp_bind, wp_self. cbn [fst].
  destruct (c_pending c) as [p|] eqn:Hp; [by apply wp_throw|].
  assert (Hsub : forall c0 w0, c_pending c0 = None -> c_epoch c0 <> None -> abstracts log (c0, w0) ->
    wp (let! c := self in
        let! p := lift (PendingWrite_new (PStr (c_session c)) (PInt (c_sequence c)) (PStr text) vs
                          (PInt rv) (PInt (default 0 (c_epoch c)))) in
        do! update (set_pending (Some p));; _resolve)
       (logged (body_for text vs) log) (c0, w0)).
  { intros c0 w0 Hp0 He0 Ha0. apply wp_bind, wp_self. cbn [fst snd]. apply wp_bind, wp_lift.
    destruct (PendingWrite_new _ _ _ _ _ _) as [p|x|] eqn:Hnew; [|done..].
    apply PendingWrite_new_Ok in Hnew as [E Hv]. apply wp_bind, wp_update. cbn [fst snd].
    destruct (valid_pending_fields _ Hv) as (_ & _ & _ & _ & _ & _ & es & Hes).
    assert (Hb : body_for text vs = Some (write_body (sql p) es)).
    { unfold body_for. rewrite E in Hes |- *. simpl in *. by rewrite Hes. }
    rewrite Hb. eapply wp_mono; [apply (resolve_once p es log); [|done|exact Hes|]|].
    - rewrite E. split_and!; [done..|]. simpl. by destruct (c_epoch c0).
    - destruct Ha0 as (dn & tail & HL & Hbd & Hf & [->|(p' & ps' & q' & _ & Hp' & _)]);
        [|cbn in Hp'; congruence]. exists dn, []. split_and!; [done..|by left].
    - intros r s' Hr. destruct r; done. }
  apply wp_bind. destruct (c_epoch c) as [e|] eqn:He.
  - apply wp_ret, Hsub; [done|congruence|done].
  - apply wp_bind. eapply wp_mono; [apply (stable_session_epoch unwritten (c, w)); apply HI|].
    intros [e|x|] [c' w'] [Hr Hu]; [|by eapply abstracts_unwritten..].
    apply wp_update, Hsub; [|done|by eapply (abstracts_unwritten log (c, w) (c', w'))].
    destruct Hu as (_ & _ & Hpe & _). simpl in *. congruence.
Qed.

Lemma resolve_pending_once log s :
  Inv s.1 -> abstracts log s -> wp resolve_pending (logged (submits MResolve_pending s.1) log) s.
Proof.
  destruct s as [c w]. cbn [fst]. intros HI Ha. unfold resolve_pending.
  apply logged_with_lock, wp_ready; [done|]. apply wp_bind, wp_self. cbn [fst snd].
  change (c_pending (set_lock _ c)) with (c_pending c).
  destruct (c_pending c) as [p|] eqn:Hp; [|by apply wp_throw].
  destruct (inv_pending c HI p Hp) as [Hv Hown].
  destruct (valid_pending_fields p Hv) as (_ & _ & _ & _ & _ & _ & es & Hes).
  cbn [submits]. rewrite Hp. cbn [mbind option_bind]. unfold body_for. rewrite Hes.
  eapply wp_mono; [by apply (resolve_once p es log (set_lock (S (c_lock c)) c, w))|].
  intros r s' Hr. destruct r; done.
Qed.

Lemma method_once m log s :
  Inv s.1 -> abstracts log s -> wp (invoke m) (logged (submits m s.1) log) s.
Proof.
  intros HI Ha. assert (Ht : (c_timeout s.1 <= 60)%Q) by apply HI.
  assert (Hthen : forall A (op : C W A) b, wp op (logged b log) s -> wp (do! op;; ret tt) (logged b log) s).
  { intros A op b Hop. apply wp_bind. eapply wp_mono; [exact Hop|]. intros [] s' Hs'; [|done..].
    by apply wp_ret. }
  destruct m as [sq ps|text vs rv|stmts| | | | | | | | | |]; cbn [invoke submits]; try apply Hthen;
    try (apply logged_stable; [|done..]).
  - unfold execute. apply wp_bind, wp_lift.
    destruct (prepare sq ps 0) as [[text vs]|x|] eqn:Hprep; [|done..]. cbn [fst snd].
    apply logged_with_lock, wp_ready; [done|]. apply execute_prepared_once; [|done].
    by apply Inv_lock.
  - apply logged_with_lock, execute_prepared_once; [|done]. by apply Inv_lock.
  - unfold wp. rewrite transaction_unfold. unfold transaction_op.
    apply logged_with_lock, wp_ready; [done|]. apply wp_bind, wp_self.
    destruct (bool_decide _); [by apply wp_throw|]. apply wp_bind, wp_lift.
    destruct (tx_build stmts [] []) as [[ss vs]|x|]; [|done..]. cbn [fst snd].
    destruct (bool_decide (ss = [])).
    { apply wp_ret. cbn [logged option_list]. by rewrite app_nil_r. }
    apply wp_bind. eapply wp_mono; [apply execute_prepared_once; [by apply Inv_lock|done]|].
    intros [wr|x|] s' Hs'; [by apply wp_ret|done..].
  - by apply resolve_pending_once.
  - apply stable_query, unwritten_frame.
  - apply stable_status, unwritten_frame.
  - apply stable_session_epoch, unwritten_frame.
  - apply stable_retire, unwritten_frame.
  - apply stable_snapshot, unwritten_frame.
  - apply stable_begin, unwritten_frame.
  - apply stable_preview, unwritten_frame.
  - apply stable_ready, unwritten_frame.
  - apply stable_close, unwritten_frame.
Qed.
(** A program's operations in order, whatever each returns or raises, and the
    writes it was told had succeeded. *)
Fixpoint run (ms : list method) (s : Conn * W) : list body * (Conn * W) :=
  match ms with
  | [] => ([], s)
  | m :: ms' =>
      let '(r, s1) := invoke m s in
      let '(bs, s2) := run ms' s1 in
      ((match r with Ok _ => option_list (submits m s.1) | _ => [] end) ++ bs, s2)
  end.

Lemma run_abstracts ms log s :
  Inv s.1 -> abstracts log s -> abstracts (log ++ (run ms s).1) (run ms s).2.
Proof.
  revert log s. induction ms as [|m ms IH]; intros log s HI Ha; cbn [run].
  { by rewrite app_nil_r. }
  pose proof (method_once m log s HI Ha) as Hm. unfold wp in Hm.
  assert (Hk : keeps s (invoke m s).2) by (apply (invoke_stable m s), HI).
  destruct (invoke m s) as [r s1]. cbn [fst snd] in *. destruct (run ms s1) as [bs s2] eqn:Hr. cbn [fst snd].
  assert (HI1 : Inv s1.1) by by apply Hk.
  destruct r as [u|x|]; cbn [logged] in Hm;
    specialize (IH _ s1 HI1 Hm); rewrite Hr in IH; cbn [fst snd] in IH; [by rewrite app_assoc|done..].
Qed.
End ExactlyOnce.

(** C1: end to end, over a service that deduplicates by sequence number and a
    network that may lose any request or reply: after any sequence of operations
    of a new connection, the writes applied under its session are exactly the
    ones its operations reported as successful, each once and in order,
    followed at most by the single write still pending (whose outcome the
    application was told is unknown). *)
Theorem exactly_once {W} `{Service W} eps cluster timeout (w : W) c w' ms :
  Connection_new eps cluster timeout None w = (Ok c, w') ->
  ledger (c_session c) w' = [] ->
  let '(told, s) := run ms (c, w') in
  exists tail, body_of <$> ledger (c_session s.1) s.2 = told ++ tail /\
    (tail = [] \/ exists p params, c_pending s.1 = Some p /\ encode_all (parameters p) = Ok params /\
                                  tail = [write_body (sql p) params]).
Proof.
  intros Hnew Hl. apply Connection_new_Inv in Hnew as [HI _]; [|done].
  assert (Ha : abstracts [] (c, w')) by (exists [], []; cbn [fst snd]; rewrite Hl; split_and!; [done..|by left]).
  pose proof (run_abstracts ms [] (c, w') HI Ha) as Hr. destruct (run ms (c, w')) as [told s].
  destruct Hr as (dn & tail & HL & Hb & _ & Ht). cbn [fst snd] in *. exists (body_of <$> tail).
  rewrite HL, fmap_app, Hb. split; [done|].
  destruct Ht as [->|(p & ps & q & -> & Hp & He & _ & Hq)]; [by left|right].
  exists p, ps. split_and!; [done..|]. simpl. by rewrite Hq.
Qed.

(** ** A concrete service over a lossy network *)

(** What the network or the service does to an exchange. *)
Inductive fate := Deliver | LoseRequest | LoseReply | Refuse (code : pystr).

Record Lossy := mkLossy { l_now : Q; l_fates : list fate; l_ledger : list dict; l_sent : list (Endpoint * dict) }.

(** A write whose identity is well typed, as (session, sequence). *)
Definition identity (q : dict) : option (pystr * Z) :=
  match dict_get (py "op") q, dict_get (py "session") q, seq_of q with
  | Some op, Some (PStr s), Some (PInt n) => if eq_str op (py "execute") then Some (s, n) else None
  | _, _, _ => None
  end.

(** Admitting a request: a new identity is applied unless refused; a known one
    is answered from the ledger; anything else is a read. *)
Definition admission (refuse : option pystr) (q : dict) (l : list dict) : pystr * list dict :=
  match identity q with
  | None => (if eq_str (get_or (py "op") PNone q) (py "execute") then py "Invalid_Request" else [], l)
  | Some id =>
      if bool_decide (Some id ∈ identity <$> l) then ([], l)
      else match refuse with
           | Some code => (code, l)
           | None => ([], l ++ [q])
           end
  end.

Definition lossy_reply (code : pystr) (q : dict) : dict :=
  mkdict [("cluster", get_or (py "cluster") PNone q); ("protocol", PInt 1); ("node", PInt 1);
          ("applied", PInt 1); ("changes", PInt 1); ("sequence", get_or (py "sequence") (PInt 0) q);
          ("session_epoch", PInt 0); ("read_version", PInt 1); ("lastrowid", PInt 1);
          ("columns", PList []); ("rows", PList []);
          ("status", PStr (if bool_decide (code = []) then py "ok" else py "error")); ("error", PStr code)].

Definition lossy_exchange (e : Endpoint) (q : dict) (t : Q) (w : Lossy) : pyres dict * Lossy :=
  let now' := Qred (l_now w + (1 # 1000)) in
  let sent' := l_sent w ++ [(e, q)] in
  let serve (refuse : option pystr) (lost : bool) (fates : list fate) :=
    let '(code, l) := admission refuse q (l_ledger w) in
    (if lost then Raise (ConnectionError (py "connection lost")) else Ok (lossy_reply code q),
     mkLossy now' fates l sent') in
  match l_fates w with
  | [] => serve None false []
  | Deliver :: fs => serve None false fs
  | LoseReply :: fs => serve None true fs
  | Refuse code :: fs => serve (Some (if str_in code rejections then code else py "Busy")) false fs
  | LoseRequest :: fs =>
      (Raise (ConnectionError (py "connection refused")), mkLossy now' fs (l_ledger w) sent')
  end.

#[export] Instance lossy_env : Env Lossy := {
  monotonic w := (l_now w, w);
  sleep d w := mkLossy (Qred (l_now w + d)) (l_fates w) (l_ledger w) (l_sent w);
  token_hex16 w := (py "00000000000000000000000000000001", w);
  exchange := lossy_exchange;
  tclose w := w
}.

Lemma lossy_exchange_now e q t w : l_now (lossy_exchange e q t w).2 = Qred (l_now w + (1 # 1000)).
Proof. unfold lossy_exchange. destruct (l_fates w) as [|[] ?]; try done; by destruct (admission _ _ _). Qed.
Lemma lossy_exchange_sent e q t w : l_sent (lossy_exchange e q t w).2 = l_sent w ++ [(e, q)].
Proof. unfold lossy_exchange. destruct (l_fates w) as [|[] ?]; try done; by destruct (admission _ _ _). Qed.

#[export] Instance lossy_laws : EnvLaws Lossy.
Proof.
  refine {| clock := l_now; sent := l_sent |}; simpl.
  - intros w. split; apply Qle_refl.
  - intros d w Hd. rewrite Qred_correct. apply Qle_refl.
  - intros e r t w. rewrite lossy_exchange_now, Qred_correct. lra.
  - intros w. apply Qle_refl.
  - intros e r t w. unfold lossy_exchange.
    destruct (l_fates w) as [|[] ?]; try destruct (admission _ _ _); discriminate.
  - intros e r t w x. unfold lossy_exchange.
    destruct (l_fates w) as [|[] ?]; try destruct (admission _ _ _); intros [=]; subst; done.
  - done.
  - done.
  - done.
  - done.
  - apply lossy_exchange_sent.
Defined.

Definition in_session (sess : pystr) (q : dict) : bool :=
  match identity q with Some (s, _) => bool_decide (s = sess) | None => false end.

Lemma identity_Some q s n :
  identity q = Some (s, n) <-> is_write q /\ of_session s q /\ seq_of q = Some (PInt n).
Proof.
  unfold identity, is_write, of_session. split.
  - intros Hi. destruct (dict_get (py "op") q) as [op|]; [|done].
    destruct (dict_get (py "session") q) as [[| | | |sv| | | |]|]; try done.
    destruct (seq_of q) as [[| |m| | | | | |]|]; try done.
    destruct (eq_str op (py "execute")) eqn:E; [|done]. simplify_eq. by apply eq_str_iff in E as ->.
  - intros (-> & -> & ->). by rewrite (proj2 (eq_str_iff _ _) eq_refl).
Qed.

(** A number is used under a session when an applied write has that identity. *)
Lemma in_ledger sess n (l : list dict) :
  Some (PInt n) ∈ seq_of <$> filter (in_session sess) l <-> Some (sess, n) ∈ identity <$> l.
Proof.
  rewrite !list_elem_of_fmap. setoid_rewrite list_elem_of_filter. unfold in_session. split.
  - intros (q & Hs & Hi & Hin). exists q. split; [|done]. destruct (identity q) as [[s m]|] eqn:E; [|done].
    apply bool_decide_unpack in Hi as ->. apply identity_Some in E as (_ & _ & E). congruence.
  - intros (q & Hi & Hin). exists q. rewrite <- Hi. symmetry in Hi.
    split; [by apply identity_Some in Hi as (_ & _ & ->)|]. split; [|done]. by apply bool_decide_pack.
Qed.

Definition lossy_ledger (sess : pystr) (w : Lossy) : list dict := filter (in_session sess) (l_ledger w).

Lemma admission_step refuse sess q l code l' :
  admission refuse q l = (code, l') ->
  filter (in_session sess) l' = filter (in_session sess) l \/
  (is_write q /\ of_session sess q /\ seq_of q ∉ seq_of <$> filter (in_session sess) l /\
   filter (in_session sess) l' = filter (in_session sess) l ++ [q]).
Proof.
  unfold admission. destruct (identity q) as [[s n]|] eqn:Hid; [|intros [= _ <-]; by left].
  case_bool_decide as Hin; [intros [= _ <-]; by left|].
  destruct refuse as [c|]; intros [= _ <-]; [by left|].
  rewrite filter_app. destruct (decide (s = sess)) as [->|Hs].
  - right. apply identity_Some in Hid as Hf. destruct Hf as (Hw & Ho & Hs). split_and!; [done..| |].
    + by rewrite Hs, in_ledger.
    + rewrite (filter_cons_True _ q); [done|]. unfold in_session. rewrite Hid. by apply bool_decide_pack.
  - left. rewrite (filter_cons_False _ q), filter_nil, app_nil_r; [done|].
    unfold in_session. rewrite Hid. by intros ?%bool_decide_unpack.
Qed.

(** The code of an answer tells whether the identity is in the ledger. *)
Lemma admission_code refuse sess q l code l' :
  is_write q -> of_session sess q -> refuse <> Some [] -> admission refuse q l = (code, l') ->
  if bool_decide (code = []) then seq_of q ∈ seq_of <$> filter (in_session sess) l'
  else seq_of q ∉ seq_of <$> filter (in_session sess) l'.
Proof.
  intros Hw Ho Hr. unfold admission. destruct (identity q) as [[s n]|] eqn:Hid.
  - apply identity_Some in Hid as Hf. destruct Hf as (_ & Ho' & Hs).
    assert (s = sess) as -> by (unfold of_session in *; congruence). rewrite Hs.
    case_bool_decide as Hin; [intros [= <- <-]; rewrite bool_decide_eq_true_2 by done; by apply in_ledger|].
    destruct refuse as [c|]; intros [= <- <-].
    + rewrite bool_decide_eq_false_2 by congruence. by rewrite in_ledger.
    + rewrite bool_decide_eq_true_2 by done. apply in_ledger. rewrite fmap_app. apply elem_of_app. right. simpl. rewrite Hid.
      by apply list_elem_of_singleton.
  - unfold get_or. rewrite Hw. rewrite (proj2 (eq_str_iff _ _) eq_refl). intros [= <- <-].
    simpl. intros (q' & Hq & Hin)%list_elem_of_fmap. apply list_elem_of_filter in Hin as [Hin _].
    unfold in_session in Hin. destruct (identity q') as [[s' n']|] eqn:Hid'; [|done].
    apply identity_Some in Hid' as (_ & _ & Hs'). rewrite Hs' in Hq.
    unfold is_write, of_session in *. unfold identity in Hid. rewrite Hw, Ho, Hq in Hid.
    by rewrite (proj2 (eq_str_iff _ _) eq_refl) in Hid.
Qed.

#[export] Instance lossy_service : Service Lossy.
Proof.
  refine {| ledger := lossy_ledger |}; try done.
  - intros sess e q t w. cbn [ledger exchange lossy_env fst snd]. unfold lossy_ledger, lossy_exchange. cbv zeta.
    destruct (l_fates w) as [|[| | |fc] fs]; try (destruct (admission _ _ _) as [code' l'] eqn:Ha; by eapply admission_step); by left.
  - intros sess e q t w resp Hw Ho. cbn [ledger exchange lossy_env fst snd]. unfold lossy_ledger, lossy_exchange. cbv zeta.
    destruct (l_fates w) as [|[| | |fc] fs]; try destruct (admission _ _ _) as [code' l'] eqn:Ha; try done;
      intros [= <-] [= ->]; apply (admission_code _ sess) in Ha; try done.
    by destruct (str_in _ _) eqn:E; intros [= ->].
  - intros sess e q t w resp code Hw Ho. cbn [ledger exchange lossy_env fst snd]. unfold lossy_ledger, lossy_exchange. cbv zeta. intros Hx Herr Hc.
    assert (Hne : code <> []) by (intros ->; by apply str_in_spec in Hc).
    destruct (l_fates w) as [|[| | |fc] fs]; try destruct (admission _ _ _) as [code' l'] eqn:Ha; try done;
      injection Hx as <-; injection Herr as ->; apply (admission_code _ sess) in Ha; try done;
      try by rewrite bool_decide_eq_false_2 in Ha.
    by destruct (str_in _ _) eqn:E; intros [= ->].
Defined.

(** ** Witness *)

Module LossyDemo.
Definition endpoints : list Endpoint := [mkEndpoint (py "one:7401") (py "one"); mkEndpoint (py "two:7401") (py "two")].
Definition conn : Conn :=
  mkConn endpoints (py "test") (1 # 50) (py "00000000000000000000000000000001") 1 None None 0 0 false false.
(** The epoch read, a write whose first reply is lost, one never answered, its
    recovery, a refused one. *)
Definition world : Lossy :=
  mkLossy 0 [Deliver; LoseReply; Deliver; LoseReply; LoseRequest; Deliver; Refuse (py "Constraint")] [] [].
Definition insert (n : Z) : method := MExecute (PStr (py "INSERT INTO t VALUES (?)")) (PList [PInt n]).
Definition program : list method := [insert 1; insert 2; insert 3; MResolve_pending; insert 4].
End LossyDemo.

Example exactly_once_witness :
  let '(told, s) := run LossyDemo.program (LossyDemo.conn, LossyDemo.world) in
  exists tail, body_of <$> ledger (c_session s.1) s.2 = told ++ tail /\
    (tail = [] \/ exists p params, c_pending s.1 = Some p /\ encode_all (parameters p) = Ok params /\
                                  tail = [write_body (sql p) params]).
Proof.
  apply (exactly_once LossyDemo.endpoints (py "test") (1 # 50) LossyDemo.world); reflexivity.
Defined.

Example lossy_demo :
  let '(told, s) := run LossyDemo.program (LossyDemo.conn, LossyDemo.world) in
  (length told, length (l_ledger s.2), length (l_sent s.2), c_sequence s.1, bool_decide (c_pending s.1 = None)) =
  (2%nat, 2%nat, 7%nat, 4, true).
Proof. vm_compute. reflexivity. Qed.
