(* ===== verification/ClientTheorems.v ===== *)
(** * Correctness of connections

    The connection's invariant over every sequence of operations, the outcome
    table of writes, what failover may send, termination within the deadline,
    and how replies are decoded. *)

From Corelib Require Import Floats.SpecFloat.
From S2P Require Import Prelude PyStr PyFloat Objects Json JsonProofs Bytes Vector Parameters Results Net Client Transaction ClientProofs ClientFrames ExactlyOnce.

(** C2: from any successful construction, through any sequence of operations,
    returning or raising, over any network: the endpoint index stays in range,
    the lock is free again, a pending write is well formed and carries exactly
    the connection's session, next sequence number and epoch, the write sequence
    never goes back, and the next operation, whichever it is, ends. *)
Theorem connection_invariant {W} `{EnvLaws W} eps cluster timeout pending (w : W) c w' s m :
  (forall p, pending = Some p -> valid_pending p) ->
  Connection_new eps cluster timeout pending w = (Ok c, w') ->
  rtc step (c, w') s ->
  Inv s.1 /\ c_lock s.1 = 0%nat /\ c_sequence c <= c_sequence s.1 /\
  c_session s.1 = c_session c /\ (invoke m s).1 <> OutOfFuel.
Proof.
  intros Hp Hnew Hs. apply Connection_new_Inv in Hnew as [HI Hl]; [|done].
  destruct (steps_keep (c, w') s HI Hs) as (Hst & HI' & Hq). specialize (HI' HI).
  unfold static in Hst. simpl in *. split_and!; try congruence; try done.
  apply (invoke_stable m s). apply HI'.
Qed.

(** ** Saving and restoring a pending write *)

(** C5: a pending write survives being saved and restored: [from_json] of the
    text [to_json] writes is the write itself, vectors, floats and control
    characters included, so recovery after a restart repeats exactly the request
    whose outcome was unknown. *)
Theorem pending_roundtrip p t :
  valid_pending p -> code_points (sql p) -> Forall python_value (parameters p) ->
  to_json p = Ok t -> from_json t = Ok p.
Proof.
  intros Hv Hs Hw Ht.
  destruct (valid_pending_fields p Hv) as (Hses & Hseq & Hrv & Hep & (n & Hn & _) & _ & es & He).
  apply encode_all_Forall in He. unfold from_json, to_json in *.
  erewrite (loads_dumps spaced [32] [32] eq_refl eq_refl); [..|exact Ht]; [|by repeat constructor..|].
  2: { apply clean_dict; [apply (bool_decide_eq_true_1 _); reflexivity|].
       unfold mkdict. cbn [fmap list_fmap]. rewrite !Forall_cons. cbn [fst snd].
       split_and!; try (by apply clean_ascii); try (apply clean_int63; lia); [by constructor|..|done].
       - constructor. by eapply scalar_str.
       - constructor. apply Forall_fmap, Forall_forall. intros v Hin. rewrite Forall_forall in He, Hw.
         destruct (He v Hin) as [e Hev]. by eapply clean_saved, Hw. }
  cbn [res_bind]. change (get_or (py "parameters") _ _) with (PList (save_param <$> parameters p)).
  cbn [py_iter res_bind]. rewrite load_params_saved by done. exact Hv.
Qed.

(** ** Outcomes of a write *)

(** C3: the outcome table of [_resolve].  A success reports the pending write's
    own sequence number and clears it; an error the server decided clears it
    too, advancing the sequence unless the server never admitted the request
    (Invalid_Request, Unsupported); an unknown outcome or a session error keeps
    it pending, unchanged, for another attempt.  Only the endpoint index may
    differ otherwise. *)
Theorem resolve_outcomes {W} `{EnvLaws W} p (s : Conn * W) :
  c_pending s.1 = Some p ->
  wp _resolve (fun r s' => exists i, resolved p (set_index i s.1) r s'.1) s.
Proof.
  intros Hp. eapply wp_mono; [by apply resolve_spec|]. intros r s' (i & Hr & _). by exists i.
Qed.

(** The request is the write [p]'s, whichever attempt it belongs to. *)
Definition carries (c : Conn) (p : PendingWrite) (params : list pyval) (q : dict) : Prop :=
  dict_get (py "op") q = Some (PStr (py "execute")) /\
  dict_get (py "session") q = Some (PStr (session p)) /\
  dict_get (py "sequence") q = Some (PInt (sequence p)) /\
  dict_get (py "session_epoch") q = Some (PInt (epoch p)) /\
  dict_get (py "sql") q = Some (PStr (sql p)) /\
  dict_get (py "parameters") q = Some (PList params) /\
  dict_get (py "read_version") q = Some (PInt (read_version p)) /\
  dict_get (py "cluster") q = Some (PStr (c_cluster c)) /\
  dict_get (py "protocol") q = Some (PInt 1).

Lemma agrees_carries c p params q : agrees (write_request c p params) q -> carries c p params q.
Proof. intros Ha. unfold carries. rewrite !Ha by py_neq. done. Qed.

(** C4: failover keeps the write's identity and content: whatever the network
    does, every request [_resolve] hands to the transport goes to a configured
    endpoint and is the pending write's (session, sequence, epoch, SQL,
    parameters, read version); attempts differ in their time budget only. *)
Theorem resolve_requests {W} `{EnvLaws W} p (s : Conn * W) :
  c_pending s.1 = Some p -> index_ok s.1 ->
  wp _resolve (fun _ s' => exists calls, sent s'.2 = sent s.2 ++ calls /\
    Forall (fun call => call.1 ∈ c_endpoints s.1 /\
                        exists params, encode_all (parameters p) = Ok params /\
                                       carries s.1 p params call.2) calls) s.
Proof.
  intros Hp Hi. eapply wp_mono; [by apply resolve_spec|].
  intros r s' (i & _ & _ & [-> | (params & He & _ & _ & calls & Hs & Hf)]).
  - exists []. by rewrite app_nil_r.
  - exists calls. split; [exact Hs|]. eapply Forall_impl; [exact Hf|].
    intros [e q] [Hin Ha]. split; [by apply Hin|]. eauto using agrees_carries.
Qed.

(** While a write is pending, a new write is refused before anything is
    sent, and the pending write stays exactly as it was. *)
Theorem execute_blocked {W} `{EnvLaws W} p sql ps tv (s : Conn * W) :
  c_pending s.1 = Some p -> c_closed s.1 = false -> c_transaction s.1 = false ->
  prepare sql ps 0 = Ok tv ->
  execute sql ps s =
    (Raise (PendingWriteError "Resolve the outstanding write before submitting another"), s).
Proof.
  destruct s as [[] w]. cbn. intros -> -> -> Hprep. unfold execute, bind, lift. by rewrite Hprep.
Qed.

(** ** Replies to queries *)

Lemma map_res_length {A B} (f : A -> pyres B) l l' : map_res f l = Ok l' -> length l' = length l.
Proof.
  revert l'. induction l as [|x l IH]; intros l' Hl; cbn [map_res] in Hl; res_inv; [done|].
  simpl. by erewrite IH.
Qed.

Lemma map_res_Forall {A B} (f : A -> pyres B) (P : B -> Prop) l l' :
  (forall x y, f x = Ok y -> P y) -> map_res f l = Ok l' -> Forall P l'.
Proof.
  intros Hf. revert l'. induction l as [|x l IH]; intros l' Hl; cbn [map_res] in Hl; res_inv; [done|].
  constructor; eauto.
Qed.

(** The server's cell for a value. *)
Definition cell_of (v : pyval) : pyval :=
  match v with
  | PInt z => PDict (mkdict [("kind", PStr (py "Integer")); ("integer", PInt z)])
  | PFloat f => PDict (mkdict [("kind", PStr (py "Real")); ("real", PFloat f)])
  | PStr t => PDict (mkdict [("kind", PStr (py "Text")); ("text", PStr t)])
  | PBytes b => PDict (mkdict [("kind", PStr (py "Blob")); ("text", PStr (b64encode b))])
  | _ => PDict (mkdict [("kind", PStr (py "Null"))])
  end.

Definition sql_value (v : pyval) : Prop :=
  match v with
  | PNone | PInt _ | PFloat _ | PStr _ => True
  | PBytes b => Forall is_byte b
  | _ => False
  end.

Lemma decode_cell v : sql_value v -> _decode (cell_of v) = Ok v.
Proof.
  destruct v; intros Hv; try done. unfold _decode. cbn -[b64decode b64encode].
  change (getitem "text" _) with (Ok (PStr (b64encode b)) : pyres pyval). cbn [res_bind].
  by rewrite b64decode_encode.
Qed.

Lemma map_res_decode vs : Forall sql_value vs -> map_res _decode (cell_of <$> vs) = Ok vs.
Proof.
  induction 1 as [|v vs Hv Hvs IH]; [done|]. cbn [fmap list_fmap map_res].
  by rewrite decode_cell, IH.
Qed.

(** The reply the server builds for a result table. *)
Definition table_reply (cols : list pystr) (table : list (list pyval)) (applied node : Z) (d : dict) : Prop :=
  dict_get (py "columns") d = Some (PList (PStr <$> cols)) /\
  dict_get (py "rows") d = Some (PList ((fun vs => PList (cell_of <$> vs)) <$> table)) /\
  dict_get (py "applied") d = Some (PInt applied) /\ dict_get (py "node") d = Some (PInt node).

Lemma map_res_columns cols : map_res column_name (PStr <$> cols) = Ok cols.
Proof. induction cols as [|c cols IH]; [done|]. cbn [fmap list_fmap map_res]. by rewrite IH. Qed.

Lemma map_res_rows cols table :
  Forall (fun vs => length vs = length cols /\ Forall sql_value vs) table ->
  map_res (decode_row cols) ((fun vs => PList (cell_of <$> vs)) <$> table) = Ok (mkRow cols <$> table).
Proof.
  induction 1 as [|vs table [_ Hvs] Ht IH]; [done|]. cbn [fmap list_fmap map_res].
  unfold decode_row at 1. cbn [py_iter res_bind]. by rewrite map_res_decode, IH.
Qed.

(** A query returns exactly the table the server sent, NULLs, 64-bit
    integers, reals, text and blobs included, with its column names and applied
    position; and whatever was sent, the rows it does return are rectangular. *)
Theorem decode_rows_table cols table a n d :
  (table_reply cols table a n d ->
   Forall (fun vs => length vs = length cols /\ Forall sql_value vs) table ->
   decode_rows d = Ok (mkRows cols (mkRow cols <$> table) a n)) /\
  (forall rs, decode_rows d = Ok rs ->
   Forall (fun r => _columns r = columns rs /\ length (_values r) = length (columns rs)) (_rows rs)).
Proof.
  split.
  - intros (Hc & Hr & Ha & Hn) Ht. unfold decode_rows, int_field, getitem. rewrite Hc, Hr, Ha, Hn.
    cbn [res_bind py_iter]. rewrite map_res_columns. cbn [res_bind]. rewrite map_res_rows by done.
    cbn [res_bind]. destruct (existsb _ _) eqn:E; [|done]. exfalso.
    apply existsb_exists in E as (r & (vs & -> & Hin)%list_elem_of_In%list_elem_of_fmap & Hw).
    rewrite Forall_forall in Ht. destruct (Ht vs Hin) as [Hl _]. unbool.
    unfold as_tuple, zlen in Hw. simpl in Hw. lia.
  - intros rs Hd. unfold decode_rows in Hd. res_inv. cbn [_rows columns].
    match goal with H : map_res (decode_row _) _ = Ok _ |- _ => rename H into Hrows end.
    match goal with H : existsb _ _ = false |- _ => rename H into Hex end.
    apply (map_res_Forall _ (fun r => _columns r = x1)) in Hrows;
      [|intros row r' Hrow; unfold decode_row in Hrow; by res_inv].
    rewrite Forall_forall in Hrows. apply Forall_forall. intros r Hin. split; [by apply Hrows|].
    destruct (zlen (as_tuple r) =? zlen x1) eqn:E; [unbool; unfold as_tuple, zlen in E; lia|].
    exfalso. apply not_true_iff_false in Hex. apply Hex, existsb_exists. exists r.
    split; [by apply list_elem_of_In|by rewrite E].
Qed.

(** ** Witnesses *)

Module Demo.
(** A scripted server reply, in the shape of the package's own test server. *)
Definition reply (code : string) (extra : list (string * pyval)) (request : dict) : pyres dict :=
  Ok (mkdict ([("cluster", PStr (py "test")); ("protocol", PInt 1); ("node", PInt 2);
               ("applied", PInt 10); ("changes", PInt 1);
               ("sequence", get_or (py "sequence") (PInt 0) request);
               ("status", PStr (py (if String.eqb code "" then "ok" else "error")));
               ("error", PStr (py code))] ++ extra)).
Definition lost (request : dict) : pyres dict := Raise (ConnectionError (py "lost reply")).
Definition ep (s : string) : Endpoint := mkEndpoint (py s) (py s).
Definition endpoints : list Endpoint := [ep "one:7401"; ep "two:7401"].
Definition world (fs : list (dict -> pyres dict)) : Script := mkScript 0 fs [].
Definition conn : Conn :=
  mkConn endpoints (py "test") 10 (py "00000000000000000000000000000001") 1 None None 0 0 false false.
Definition pend : PendingWrite :=
  mkPending (py "00000000000000000000000000000001") 1 (py "UPDATE a SET n=n+?1")
            [PInt (-7); PStr [233; 10]; PFloat (S754_finite true 5629499534213120 (-53)); PNone;
             PVec (mkVector [S754_finite false 4503599627370496 (-52)])] 0 0.
Definition busy : Conn := set_pending (Some pend) (set_epoch (Some 0) conn).
Definition insert : method := MExecute (PStr (py "UPDATE a SET n=n+?")) (PList [PInt 1]).
Definition run (m : method) (c : Conn) (fs : list (dict -> pyres dict)) : Conn * Script :=
  (invoke m (c, world fs)).2.
End Demo.

Example connection_invariant_witness :
  let s := Demo.run Demo.insert Demo.conn [Demo.reply "" [("session_epoch", PInt 0)]; Demo.lost; Demo.reply "Policy" []] in
  Inv s.1 /\ c_lock s.1 = 0%nat /\ c_sequence Demo.conn <= c_sequence s.1 /\
  c_session s.1 = c_session Demo.conn /\ (invoke MResolve_pending s).1 <> OutOfFuel.
Proof.
  eapply (connection_invariant Demo.endpoints (py "test") 10 None
            (Demo.world [Demo.reply "" [("session_epoch", PInt 0)]; Demo.lost; Demo.reply "Policy" []])).
  - done.
  - reflexivity.
  - apply rtc_once, (step_invoke _ Demo.insert).
Defined.

Example pending_roundtrip_witness :
  exists t, to_json Demo.pend = Ok t /\ from_json t = Ok Demo.pend.
Proof.
  eexists. split; [vm_compute; reflexivity|].
  apply pending_roundtrip.
  - vm_compute; reflexivity.
  - apply (bool_decide_eq_true_1 _). vm_compute. reflexivity.
  - repeat (apply Forall_cons; split); try done.
    split; [done|]. apply Forall_cons; split; [|done].
    exists (S754_finite false 8388608 (-23)). by vm_compute.
  - vm_compute; reflexivity.
Defined.

Example resolve_outcomes_witness :
  c_pending Demo.busy = Some Demo.pend /\
  wp _resolve (fun r s' => exists i, resolved Demo.pend (set_index i Demo.busy) r s'.1)
     (Demo.busy, Demo.world [Demo.lost; Demo.reply "" []]).
Proof.
  split; [reflexivity|]. apply (resolve_outcomes Demo.pend (Demo.busy, _)). reflexivity.
Defined.

Example resolve_requests_witness :
  let s := (Demo.busy, Demo.world [Demo.lost; Demo.reply "Unknown_Outcome" []; Demo.reply "" []]) in
  wp _resolve (fun _ s' => exists calls, sent s'.2 = sent s.2 ++ calls /\
    Forall (fun call => call.1 ∈ c_endpoints s.1 /\
                        exists params, encode_all (parameters Demo.pend) = Ok params /\
                                       carries s.1 Demo.pend params call.2) calls) s.
Proof.
  apply resolve_requests; [reflexivity|]. split; vm_compute; [discriminate|reflexivity].
Defined.

Example execute_blocked_witness :
  let s := (Demo.busy, Demo.world []) in
  execute (PStr (py "INSERT INTO a VALUES (1)")) (PList []) s =
    (Raise (PendingWriteError "Resolve the outstanding write before submitting another"), s).
Proof.
  eapply (execute_blocked Demo.pend); [reflexivity..|]. vm_compute. reflexivity.
Defined.

(** * Correctness of transactions

    A block's body is the concatenation of its statements, lexed as they were
    written and numbered across the whole batch; a block that fails sends
    nothing. *)





Lemma render_plain_nl n : render n [Plain 10] = [10].
Proof. done. Qed.















(** C11: a transaction block is atomic on failure: if any statement is refused,
    the block raises that error, and the connection, its lock and everything sent
    are as before the block; an empty block commits nothing. *)
Theorem transaction_atomic {W} `{EnvLaws W} stmts (s : Conn * W) :
  c_closed s.1 = false -> c_transaction s.1 = false -> c_pending s.1 = None ->
  (forall e, tx_build stmts [] [] = Raise e ->
     transaction_result (tx_executes stmts) s = (Raise e, s)) /\
  (forall vs, tx_build stmts [] [] = Ok ([], vs) ->
     transaction_result (tx_executes stmts) s = (Ok None, s)).
Proof.
  destruct s as [[] w]. cbn. intros -> -> ->.
  split; [intros e He|intros vs He]; rewrite transaction_unfold; unfold transaction_op, bind, lift;
    cbn; by rewrite He.
Qed.

(** ** Witnesses *)


Definition demo_conn : Conn :=
  mkConn [mkEndpoint (py "one:7401") (py "one")] (py "test") 10 (py "00000000000000000000000000000001")
         1 None None 0 0 false false.


Example transaction_atomic_witness :
  let stmts := [(PStr (py "INSERT INTO a VALUES (?)"), PList [PInt 1]); (PStr (py "SELECT :x"), PList [])] in
  transaction_result (tx_executes stmts) (demo_conn, mkScript 0 [] []) =
    (Raise (ValueError "Use plain ? placeholders, not named parameters"), (demo_conn, mkScript 0 [] [])).
Proof.
  apply transaction_atomic; [reflexivity..|]. vm_compute. reflexivity.
Defined.
