(* ===== verification/Search.v ===== *)
(** * sqlodin/search.py

    FTS5 and vector retrieval over one index: name checking, argument bounds,
    and the statements each method sends.  The index is [SearchIndex]; its
    methods are computations of its connection. *)

From Corelib Require Import Floats.SpecFloat.
From S2P Require Import Prelude PyStr PyFloat Objects Json Bytes Vector Parameters Results Net Client Transaction.

(** [re.fullmatch(r'[A-Za-z][A-Za-z0-9_]{0,63}', name)] *)
Definition ascii_letter (c : Z) : bool := ((65 <=? c) && (c <=? 90)) || ((97 <=? c) && (c <=? 122)).
Definition name_char (c : Z) : bool := ascii_letter c || is_dec c || (c =? 95).
Definition name_ok (s : pystr) : bool :=
  match s with
  | c :: r => ascii_letter c && forallb name_char r && (zlen r <=? 63)
  | [] => false
  end.

Definition quote_name (s : pystr) : pystr := 34 :: s ++ [34].

Definition identifier (name : pyval) : pyres pystr :=
  let bad := ValueError "Index names need 1..64 ASCII letters, digits or underscores, starting with a letter" in
  match name with
  | PStr s =>
      do? guard (negb (name_ok s)) bad;;
      do? guard (is_prefix (py "sqlite_") (ascii_lower s)) (ValueError "Reserved index name");;
      Ok (quote_name s)
  | _ => Raise bad
  end.

Definition bound (value : pyval) (maximum : Z) : pyres Z :=
  let bad := ValueError "{name} must be an integer in 1..{maximum}" in
  match as_int value with
  | Some z => do? guard (negb ((1 <=? z) && (z <=? maximum))) bad;; Ok z
  | None => Raise bad
  end.

Record SearchIndex := mkIndex { table : pystr; fts : pystr; dimensions : Z }.

(** [__init__] *)
Definition SearchIndex_new (name dims : pyval) : pyres SearchIndex :=
  match name with
  | PStr s =>
      do? guard (60 <? zlen s) (ValueError "Search index names must be at most 60 characters");;
      let? t := identifier (PStr s) in
      let? f := identifier (PStr (s ++ py "_fts")) in
      let? d := bound dims 384 in
      Ok (mkIndex t f d)
  | _ => Raise (ValueError "Search index names must be at most 60 characters")
  end.

(** [_vector] *)
Definition as_vector (si : SearchIndex) (value : pyval) : pyres Vector :=
  let? v := match value with PVec v => Ok v | _ => Vector_new value end in
  do? guard (negb (vlen v =? dimensions si)) (ValueError "Expected vector dimensions");;
  Ok v.

(** [_metric] *)
Definition metric_function (metric : pyval) : pyres pystr :=
  match metric with
  | PStr m =>
      do? guard (negb (str_in m [py "l2"; py "cosine"])) (ValueError "Metric must be 'l2' or 'cosine'");;
      Ok (py "vec_distance_" ++ m)
  | _ => Raise (ValueError "Metric must be 'l2' or 'cosine'")
  end.

(** [not any(value)] *)
Definition zero_component (x : pyfloat) : bool := match x with S754_zero _ => true | _ => false end.
Definition all_zero (v : Vector) : bool := forallb zero_component (viter v).

Definition check_cosine (metric : pyval) (v : Vector) : pyres unit :=
  guard (eq_str metric (py "cosine") && all_zero v)
        (ValueError "Cosine distance requires a nonzero query vector").

Definition check_id (id : pyval) (m : string) : pyres Z :=
  match as_int id with
  | Some z => do? guard (negb ((1 <=? z) && (z <? 2 ^ 63 - 1))) (ValueError m);; Ok z
  | None => Raise (ValueError m)
  end.

(** ** The statements *)

Definition create_sql (si : SearchIndex) : pystr :=
  py "CREATE TABLE " ++ table si ++
  py "(id INTEGER PRIMARY KEY,title TEXT NOT NULL,body TEXT NOT NULL,embedding BLOB NOT NULL CHECK(length(embedding)="
  ++ dec (dimensions si * 4) ++ py "));CREATE VIRTUAL TABLE " ++ fts si ++ py " USING fts5(title,body);".

Definition upsert_sql (si : SearchIndex) : pystr :=
  py "INSERT INTO " ++ table si ++
  py "(id,title,body,embedding) VALUES(?,?,?,?) ON CONFLICT(id) DO UPDATE SET title=excluded.title,body=excluded.body,embedding=excluded.embedding".
Definition delete_fts_sql (si : SearchIndex) : pystr :=
  py "DELETE FROM " ++ fts si ++ py " WHERE rowid=?".
Definition insert_fts_sql (si : SearchIndex) : pystr :=
  py "INSERT INTO " ++ fts si ++ py "(rowid,title,body) VALUES(?,?,?)".
Definition delete_row_sql (si : SearchIndex) : pystr :=
  py "DELETE FROM " ++ table si ++ py " WHERE id=?".

Definition full_text_sql (si : SearchIndex) : pystr :=
  py "SELECT d.id,d.title,d.body,bm25(" ++ fts si ++ py ") AS score FROM " ++ fts si ++ py " JOIN " ++
  table si ++ py " AS d ON d.id=" ++ fts si ++ py ".rowid WHERE " ++ fts si ++
  py " MATCH ? ORDER BY score,d.id LIMIT ?".

Definition nearest_sql (si : SearchIndex) (function : pystr) : pystr :=
  py "SELECT id,title,body," ++ function ++ py "(embedding,?) AS distance FROM " ++ table si ++
  py " ORDER BY distance,id LIMIT ?".

Definition hybrid_sql (si : SearchIndex) (function : pystr) : pystr :=
  py "WITH" ++ [10] ++
  py "          ft AS MATERIALIZED (SELECT rowid AS id,bm25(" ++ fts si ++ py ") AS score FROM " ++ fts si ++ [10] ++
  py "            WHERE " ++ fts si ++ py " MATCH ? ORDER BY score,id LIMIT ?)," ++ [10] ++
  py "          vt AS MATERIALIZED (SELECT id," ++ function ++ py "(embedding,?) AS distance FROM " ++ table si ++ [10] ++
  py "            ORDER BY distance,id LIMIT ?)," ++ [10] ++
  py "          ranks AS (SELECT id,ROW_NUMBER() OVER(ORDER BY score,id) AS rank FROM ft" ++ [10] ++
  py "            UNION ALL SELECT id,ROW_NUMBER() OVER(ORDER BY distance,id) AS rank FROM vt)," ++ [10] ++
  py "          fused AS (SELECT id,SUM(1.0 / (? + rank)) AS score FROM ranks GROUP BY id)" ++ [10] ++
  py "          SELECT d.id,d.title,d.body,f.score FROM fused AS f JOIN " ++ table si ++ py " AS d ON d.id=f.id" ++ [10] ++
  py "          ORDER BY f.score DESC,d.id LIMIT ?".

(** The statements of [put] and [delete], one atomic block each. *)
Definition put_block (si : SearchIndex) (id title body : pyval) (v : Vector) : list (pyval * pyval) :=
  [(PStr (upsert_sql si), PList [id; title; body; PVec v]);
   (PStr (delete_fts_sql si), PList [id]);
   (PStr (insert_fts_sql si), PList [id; title; body])].
Definition delete_block (si : SearchIndex) (id : pyval) : list (pyval * pyval) :=
  [(PStr (delete_fts_sql si), PList [id]); (PStr (delete_row_sql si), PList [id])].

Section Search.
Context {W : Type} `{Env W}.

Definition create (si : SearchIndex) : C W WriteResult := execute (PStr (create_sql si)) (PList []).

Definition put (si : SearchIndex) (id title body vector : pyval) : C W (option WriteResult) :=
  do! lift (check_id id "Document ID must be a positive integer below SQLite maximum rowid");;
  let! v := lift (as_vector si vector) in
  transaction_result (tx_executes (put_block si id title body v)).

Definition delete_document (si : SearchIndex) (id : pyval) : C W (option WriteResult) :=
  do! lift (check_id id "Invalid document ID");;
  transaction_result (tx_executes (delete_block si id)).

Definition full_text (si : SearchIndex) (text limit : pyval) : C W Rows :=
  do! lift (bound limit 100);;
  query (PStr (full_text_sql si)) (PList [text; limit]) (py "linearizable").

Definition nearest (si : SearchIndex) (vector limit metric : pyval) : C W Rows :=
  let! function := lift (metric_function metric) in
  let! v := lift (as_vector si vector) in
  do! lift (check_cosine metric v);;
  do! lift (bound limit 100);;
  query (PStr (nearest_sql si function)) (PList [PVec v; limit]) (py "linearizable").

Definition hybrid (si : SearchIndex) (text vector limit candidates rank_constant metric : pyval) : C W Rows :=
  let! l := lift (bound limit 100) in
  let! c := lift (bound candidates 100) in
  do! lift (bound rank_constant 1000);;
  do! lift (guard (c <? l) (ValueError "Candidates must be at least limit"));;
  let! function := lift (metric_function metric) in
  let! v := lift (as_vector si vector) in
  do! lift (check_cosine metric v);;
  query (PStr (hybrid_sql si function)) (PList [text; candidates; PVec v; candidates; rank_constant; limit])
        (py "linearizable").

(** [Connection.search_index] and [Connection.create_search_index] *)
Definition search_index (name dims : pyval) : C W SearchIndex := lift (SearchIndex_new name dims).
Definition create_search_index (name dims : pyval) : C W SearchIndex :=
  let! si := search_index name dims in
  do! create si;;
  ret si.
End Search.

(** * Correctness of search statements

    Whatever name an index has, each method's SQL lexes as intended: the quoted
    table names are single tokens, and there are exactly as many placeholders as
    values. *)

(** ** Lexing text made of fragments *)

(** A fragment without quotes, comments or parameter sigils. *)
Fixpoint simple (s : pystr) : option (list token) :=
  match s with
  | [] => Some []
  | c :: r =>
      if is_quote c || (c =? 58) || (c =? 64) || (c =? 36) then None
      else if c =? 63
      then (if match r with d :: _ => is_digit d | [] => false end then None else cons Hole <$> simple r)
      else if (c =? 45) && match r with d :: _ => d =? 45 | [] => false end then None
      else if (c =? 47) && match r with d :: _ => d =? 42 | [] => false end then None
      else cons (Plain c) <$> simple r
  end.

(** What may follow a fragment: [?], [-] and [/] look one character ahead. *)
Definition follows (s u : pystr) : Prop :=
  match last s, u with
  | Some c, d :: _ => (c = 63 -> is_digit d = false) /\ (c = 45 -> d <> 45) /\ (c = 47 -> d <> 42)
  | _, _ => True
  end.

Lemma follows_tail c d r u : follows (c :: d :: r) u -> follows (d :: r) u.
Proof. done. Qed.

Lemma simple_app s t u tu : simple s = Some t -> follows s u -> lexes u tu -> lexes (s ++ u) (t ++ tu).
Proof.
  revert t. induction s as [|c s IH]; intros t Hs Hf Hu; cbn [simple] in Hs; [by simplify_eq|].
  assert (Htail : forall t', simple s = Some t' -> lexes (s ++ u) (t' ++ tu)).
  { intros t' Ht'. apply IH; [done| |done]. destruct s; [|by eapply follows_tail]. done. }
  destruct (is_quote c || _ || _ || _) eqn:Hc; [done|].
  apply orb_false_iff in Hc as [Hc H36]. apply orb_false_iff in Hc as [Hc H64].
  apply orb_false_iff in Hc as [Hq H58]. unbool.
  destruct (Z.eqb_spec c 63) as [->|H63].
  - destruct (match s with d :: _ => is_digit d | [] => false end) eqn:Hd; [done|].
    apply fmap_Some in Hs as (t' & Ht' & ->). apply lex_hole; [|by apply Htail].
    intros (d & v & E & Hdig). destruct s as [|x s]; simpl in E.
    + subst u. destruct Hf as (Hf & _). by rewrite Hf in Hdig.
    + simplify_eq. congruence.
  - destruct ((c =? 45) && _) eqn:H45; [done|]. destruct ((c =? 47) && _) eqn:H47; [done|].
    apply fmap_Some in Hs as (t' & Ht' & ->). apply lex_plain; [|by apply Htail]. split_and!; try done.
    + intros [-> [v E]]. destruct s as [|x s]; simpl in E.
      * subst u. by destruct Hf as (_ & Hf & _); apply Hf.
      * simplify_eq; by rewrite Z.eqb_refl in H45.
    + intros [-> [v E]]. destruct s as [|x s]; simpl in E.
      * subst u. by destruct Hf as (_ & _ & Hf); apply Hf.
      * simplify_eq; by rewrite Z.eqb_refl in H47.
Qed.

(** A quoted index name is one token. *)
Lemma name_char_plain n : forallb name_char n = true -> 34 ∉ n.
Proof. rewrite forallb_forall. intros Hn Hin%list_elem_of_In%Hn. done. Qed.

Lemma quoted_name n : 34 ∉ n -> quoted 34 n.
Proof.
  induction n as [|c n IH]; intros Hn; [constructor|]. apply not_elem_of_cons in Hn as [Hc Hn].
  apply quoted_char; [congruence|auto].
Qed.

Lemma name_ok_plain n : name_ok n = true -> 34 ∉ n.
Proof.
  destruct n as [|c n]; [done|]. cbn [name_ok]. intros Hn. unbool. apply name_char_plain. cbn [forallb].
  rewrite andb_true_iff. split; [|done]. unfold name_char. by rewrite H.
Qed.

Lemma lex_name n u tu :
  name_ok n = true -> ~ starts_with 34 u -> lexes u tu ->
  lexes (quote_name n ++ u) (Verbatim (quote_name n) :: tu).
Proof.
  intros Hn Hu Hl. unfold quote_name. rewrite <- app_comm_cons, <- app_assoc. cbn [app].
  apply (lex_quote 34 n u tu); [done|by apply quoted_name, name_ok_plain|done|done].
Qed.

(** Text with names in it: fragments alternating with names. *)
Fixpoint template (parts : list (pystr * pystr)) (final : pystr) : pystr :=
  match parts with
  | [] => final
  | (s, n) :: l => s ++ quote_name n ++ template l final
  end.

Fixpoint template_tokens (parts : list (pystr * pystr)) (final : pystr) : option (list token) :=
  match parts with
  | [] => simple final
  | (s, n) :: l =>
      match simple s, template_tokens l final with
      | Some t, Some r => Some (t ++ Verbatim (quote_name n) :: r)
      | _, _ => None
      end
  end.

(** Every fragment after a name is nonempty or last, and starts no quote. *)
Definition open_head (s : pystr) : bool := match s with c :: _ => negb (c =? 34) | [] => false end.
Definition parts_ok (parts : list (pystr * pystr)) (final : pystr) : bool :=
  forallb (fun sn => open_head sn.1) (tail parts) && (open_head final || bool_decide (final = [])).

Lemma open_head_spec s u : open_head s = true -> ~ starts_with 34 (s ++ u).
Proof. destruct s as [|c s]; [done|]. cbn. intros Hc [v [= -> _]]. done. Qed.

Lemma lex_template parts final toks :
  Forall (fun sn => name_ok sn.2 = true) parts -> parts_ok parts final = true ->
  template_tokens parts final = Some toks -> lexes (template parts final) toks.
Proof.
  revert toks. induction parts as [|[s n] l IH]; intros toks Hn Hok Ht; cbn [template template_tokens] in *.
  { rewrite <- (app_nil_r final), <- (app_nil_r toks). apply simple_app; [done| |constructor].
    unfold follows. by destruct (last final). }
  apply Forall_cons in Hn as [Hn Hl].
  destruct (simple s) as [t|] eqn:Hs; [|done]. destruct (template_tokens l final) as [r|] eqn:Hr; [|done].
  simplify_eq. unfold parts_ok in *. cbn [tail] in Hok. apply andb_true_iff in Hok as [Hok Hfin].
  apply simple_app; [done| |].
  - unfold follows, quote_name. destruct (last s) as [c|]; [|done]. simpl. split_and!; done.
  - apply lex_name; [done| |].
    + destruct l as [|[s' n'] l']; cbn [template].
      * apply orb_true_iff in Hfin as [Hf|Hf%bool_decide_eq_true].
        -- rewrite <- (app_nil_r final). by apply open_head_spec.
        -- subst. by intros [? ?].
      * cbn [forallb] in Hok. apply andb_true_iff in Hok as [Hok _]. by apply open_head_spec.
    + apply IH; [done| |done]. rewrite Hfin, andb_true_r. destruct l as [|sn l']; [done|].
      cbn [forallb tail] in *. by apply andb_true_iff in Hok as [_ ?].
Qed.

(** ** The statements of an index *)

(** The text lexes, with [k] placeholders. *)
Definition statement_ok (sql : pystr) (k : Z) : Prop := exists toks, lexes sql toks /\ holes toks = k.

Lemma template_ok parts final k toks :
  Forall (fun sn => name_ok sn.2 = true) parts -> parts_ok parts final = true ->
  template_tokens parts final = Some toks -> holes toks = k -> statement_ok (template parts final) k.
Proof. intros Hn Hok Ht Hk. exists toks. split; [by eapply lex_template|done]. Qed.

Lemma identifier_Ok name q : identifier name = Ok q -> exists n, name = PStr n /\ q = quote_name n /\ name_ok n = true.
Proof. destruct name; try done. intros Hi. unfold identifier in Hi. res_inv. unbool. eauto. Qed.

Lemma SearchIndex_new_Ok name dims si :
  SearchIndex_new name dims = Ok si ->
  exists n m, name = PStr n /\ table si = quote_name n /\ fts si = quote_name m /\ m = n ++ py "_fts" /\
    name_ok n = true /\ name_ok m = true /\ dims = PInt (dimensions si) /\ 1 <= dimensions si <= 384.
Proof.
  destruct name as [| | | |n| | | |]; try done. unfold SearchIndex_new. intros Hs. res_inv.
  apply identifier_Ok in Hr0 as (n' & [= <-] & -> & Hn). apply identifier_Ok in Hr1 as (m & Hm & -> & Hm').
  exists n, m. unfold bound in Hr2. destruct (as_int dims) as [z|] eqn:Hz; [|done]. res_inv. unbool.
  destruct dims; try done. simplify_eq/=. split_and!; try done; congruence.
Qed.

Lemma metric_cases metric f :
  metric_function metric = Ok f -> f = py "vec_distance_l2" \/ f = py "vec_distance_cosine".
Proof.
  destruct metric as [| | | |m| | | |]; try done. unfold metric_function. intros Hm. res_inv.
  apply negb_false_iff, str_in_spec in Hr. apply elem_of_cons in Hr as [->|Hr]; [by left|].
  apply elem_of_cons in Hr as [->|Hr]; [by right|]. by apply elem_of_nil in Hr.
Qed.

(** The one fragment with a number in it, for every dimension. *)
Definition create_fragment (d : Z) : pystr :=
  py "(id INTEGER PRIMARY KEY,title TEXT NOT NULL,body TEXT NOT NULL,embedding BLOB NOT NULL CHECK(length(embedding)="
  ++ dec (d * 4) ++ py "));CREATE VIRTUAL TABLE ".

#[local] Instance token_eq_dec : EqDecision token.
Proof. solve_decision. Defined.

Lemma create_fragment_simple d :
  1 <= d <= 384 -> simple (create_fragment d) = Some (Plain <$> create_fragment d) /\
                   open_head (create_fragment d) = true /\ holes (Plain <$> create_fragment d) = 0.
Proof.
  intros Hd.
  assert (Hall : forallb (fun d => bool_decide (simple (create_fragment d) = Some (Plain <$> create_fragment d))
                                   && open_head (create_fragment d)
                                   && (holes (Plain <$> create_fragment d) =? 0)) (seqZ 1 384) = true)
    by (vm_compute; reflexivity).
  rewrite forallb_forall in Hall. specialize (Hall d). rewrite <- list_elem_of_In, elem_of_seqZ in Hall.
  specialize (Hall ltac:(lia)). unbool. done.
Qed.

(** A statement as a template; its placeholders count themselves. *)
Ltac by_template parts final :=
  match goal with |- statement_ok ?s ?k =>
    let E := fresh in assert (E : s = template parts final);
      [cbn [template fst snd]; by rewrite <- ?app_assoc | rewrite E; clear E]
  end;
  eapply template_ok;
    [ repeat (apply Forall_cons; split; [assumption|]); apply Forall_nil_2
    | vm_compute; reflexivity
    | vm_compute; reflexivity
    | vm_compute; reflexivity ].

Definition hybrid_parts (n m f : pystr) : list (pystr * pystr) :=
  [(py "WITH" ++ [10] ++ py "          ft AS MATERIALIZED (SELECT rowid AS id,bm25(", m);
   (py ") AS score FROM ", m);
   ([10] ++ py "            WHERE ", m);
   (py " MATCH ? ORDER BY score,id LIMIT ?)," ++ [10] ++
    py "          vt AS MATERIALIZED (SELECT id," ++ f ++ py "(embedding,?) AS distance FROM ", n);
   ([10] ++ py "            ORDER BY distance,id LIMIT ?)," ++ [10] ++
    py "          ranks AS (SELECT id,ROW_NUMBER() OVER(ORDER BY score,id) AS rank FROM ft" ++ [10] ++
    py "            UNION ALL SELECT id,ROW_NUMBER() OVER(ORDER BY distance,id) AS rank FROM vt)," ++ [10] ++
    py "          fused AS (SELECT id,SUM(1.0 / (? + rank)) AS score FROM ranks GROUP BY id)" ++ [10] ++
    py "          SELECT d.id,d.title,d.body,f.score FROM fused AS f JOIN ", n)].
Definition hybrid_final : pystr :=
  py " AS d ON d.id=f.id" ++ [10] ++ py "          ORDER BY f.score DESC,d.id LIMIT ?".

(** Whatever name an index was opened under, every statement its methods
    build lexes as written, each (quoted) table name being one token that cannot
    end early, and takes exactly as many values as the method binds; the values
    themselves never enter the SQL text. *)
Theorem search_statements name dims si metric f :
  SearchIndex_new name dims = Ok si -> metric_function metric = Ok f ->
  statement_ok (upsert_sql si) 4 /\ statement_ok (delete_fts_sql si) 1 /\
  statement_ok (insert_fts_sql si) 3 /\ statement_ok (delete_row_sql si) 1 /\
  statement_ok (full_text_sql si) 2 /\ statement_ok (nearest_sql si f) 2 /\
  statement_ok (hybrid_sql si f) 6 /\ statement_ok (create_sql si) 0.
Proof.
  intros Hsi Hm. apply SearchIndex_new_Ok in Hsi as (n & m & -> & Ht & Hf & _ & Hn & Hm' & _ & Hd).
  unfold upsert_sql, delete_fts_sql, insert_fts_sql, delete_row_sql, full_text_sql, nearest_sql, hybrid_sql, create_sql.
  rewrite Ht, Hf. clear Ht Hf. apply metric_cases in Hm. split_and!.
  - by_template [(py "INSERT INTO ", n)]
      (py "(id,title,body,embedding) VALUES(?,?,?,?) ON CONFLICT(id) DO UPDATE SET title=excluded.title,body=excluded.body,embedding=excluded.embedding").
  - by_template [(py "DELETE FROM ", m)] (py " WHERE rowid=?").
  - by_template [(py "INSERT INTO ", m)] (py "(rowid,title,body) VALUES(?,?,?)").
  - by_template [(py "DELETE FROM ", n)] (py " WHERE id=?").
  - by_template [(py "SELECT d.id,d.title,d.body,bm25(", m); (py ") AS score FROM ", m); (py " JOIN ", n);
                 (py " AS d ON d.id=", m); (py ".rowid WHERE ", m)] (py " MATCH ? ORDER BY score,d.id LIMIT ?").
  - destruct Hm as [-> | ->];
      [by_template [(py "SELECT id,title,body," ++ py "vec_distance_l2" ++ py "(embedding,?) AS distance FROM ", n)]
                   (py " ORDER BY distance,id LIMIT ?")
      |by_template [(py "SELECT id,title,body," ++ py "vec_distance_cosine" ++ py "(embedding,?) AS distance FROM ", n)]
                   (py " ORDER BY distance,id LIMIT ?")].
  - destruct Hm as [-> | ->]; [by_template (hybrid_parts n m (py "vec_distance_l2")) hybrid_final
                            |by_template (hybrid_parts n m (py "vec_distance_cosine")) hybrid_final].
  - destruct (create_fragment_simple (dimensions si) Hd) as (Hs & Ho & Hh).
    match goal with |- statement_ok ?s _ => assert (E : s = template
      [(py "CREATE TABLE ", n); (create_fragment (dimensions si), m)] (py " USING fts5(title,body);")) end.
    { unfold create_fragment. cbn [template]. by rewrite <- !app_assoc. }
    rewrite E. eapply template_ok.
    + by repeat constructor.
    + unfold parts_ok. cbn [tail forallb fst]. by rewrite Ho.
    + cbn [template_tokens]. rewrite Hs. reflexivity.
    + rewrite holes_app, (holes_cons (Verbatim _)), holes_app, Hh. reflexivity.
Qed.

Example search_statements_witness :
  exists si, SearchIndex_new (PStr (py "docs")) (PInt 3) = Ok si /\
    metric_function (PStr (py "l2")) = Ok (py "vec_distance_l2") /\
    statement_ok (full_text_sql si) 2 /\ statement_ok (hybrid_sql si (py "vec_distance_l2")) 6.
Proof.
  eexists. split; [vm_compute; reflexivity|]. split; [reflexivity|].
  split; eapply (search_statements (PStr (py "docs")) (PInt 3) _ (PStr (py "l2"))); vm_compute; reflexivity.
Defined.
