(* ===== verification/Dbapi.v ===== *)
(** * sqlodin/dbapi.py

    DB-API 2.0 transactions over a connection: statements accumulate, every one
    is previewed at a fixed read version, and [commit] submits them as a single
    write.  [DConn] is the adapter's connection, [Cursor] a cursor; operations
    are computations over the cursor, the adapter, the native connection and the
    world.  SQL text is a Python [str]. *)

From Corelib Require Import Floats.SpecFloat.
From S2P Require Import Prelude PyStr PyFloat Objects Json Bytes Vector Parameters Results Net Client Transaction.

(** ** Exceptions *)

Definition dbe (c : dbcls) (m : string) : exn := Dbapi c (py m) None.

(** [_translate(exc, pending)] *)
Definition _translate (e : exn) (pending : option PendingWrite) : exn :=
  if isinstance e CSerializationError then Dbapi DBSerializationError (str_exn e) None
  else if isinstance e CConstraintError then Dbapi IntegrityError (str_exn e) None
  else if isinstance e CUnknownOutcome || isinstance e CPendingWriteError || isinstance e CConnectionError
  then Dbapi OperationalError (str_exn e) (getattr_pending e pending)
  else if isinstance e CQueryError then Dbapi ProgrammingError (str_exn e) None
  else if isinstance e CValueError || isinstance e CTypeError then Dbapi DataError (str_exn e) None
  else Dbapi OperationalError (str_exn e) pending.

(** [except (errors.Error, ValueError, TypeError)] *)
Definition client_failure (e : exn) : bool :=
  isinstance e CError || isinstance e CValueError || isinstance e CTypeError.

(** ** [_kind]: classifying one statement *)

(** The end of an identifier. *)
Fixpoint span_word (s : pystr) : pystr * pystr :=
  match s with
  | c :: s' => if is_alnum c || (c =? 95) then let '(w, r) := span_word s' in (c :: w, r) else ([], s)
  | [] => ([], [])
  end.

(** The [while] loop, on the rest of the text; [words] in reverse. *)
Fixpoint kind_scan (fuel : nat) (depth : Z) (words : list pystr) (s : pystr) : pyres (Z * list pystr) :=
  match fuel with
  | O => OutOfFuel
  | S f =>
      match s with
      | [] => Ok (depth, reverse words)
      | c :: rest =>
          if is_prefix (py "--") s then
            match find_sub [10] s with
            | Some (_, post) => kind_scan f depth words post
            | None => kind_scan f depth words []
            end
          else if is_prefix (py "/*") s then
            match find_sub (py "*/") (drop 2 s) with
            | None => Raise (dbe ProgrammingError "Unterminated comment")
            | Some (_, post) => kind_scan f depth words (drop 2 post)
            end
          else if is_quote c then
            match skip_quote (closing_of c) rest with
            | None => Raise (dbe ProgrammingError "Unterminated quote")
            | Some (_, r) => kind_scan f depth words r
            end
          else if c =? 40 then kind_scan f (depth + 1) words rest
          else if c =? 41 then kind_scan f (depth - 1) words rest
          else if (c =? 59) && (depth =? 0) then kind_scan f depth ([59] :: words) rest
          else if (is_alpha c || (c =? 95)) && (depth =? 0) then
            let '(w, r) := span_word rest in
            kind_scan f depth (upper (c :: w) :: words) r
          else kind_scan f depth words rest
      end
  end.

(** [while words and words[-1] == ';': words.pop()], on reversed words. *)
Fixpoint drop_semicolons (rev_words : list pystr) : list pystr :=
  match rev_words with
  | w :: l => if pyeqb w [59] then drop_semicolons l else rev_words
  | [] => []
  end.

Inductive skind := KQuery | KExecute.

#[export] Instance skind_eq_dec : EqDecision skind.
Proof. solve_decision. Defined.

Definition write_words : list pystr :=
  py <$> ["INSERT"; "UPDATE"; "DELETE"; "REPLACE"; "CREATE"; "DROP"; "ALTER"]%string.

Definition _kind (sql : pystr) : pyres skind :=
  let? (depth, words) := kind_scan (S (length sql)) 0 [] sql in
  let words := reverse (drop_semicolons (reverse words)) in
  do? guard (bool_decide (words = []) || str_in [59] words || negb (depth =? 0))
            (dbe ProgrammingError "Execute exactly one balanced SQL statement");;
  do? guard (str_in (py "RETURNING") words)
            (dbe NotSupportedError "DML RETURNING is not supported by the SQLodin service");;
  let kind := hd [] words in
  let kind :=
    if pyeqb kind (py "WITH")
    then default [] (List.find (fun w => str_in w (py <$> ["SELECT"; "INSERT"; "UPDATE"; "DELETE"; "REPLACE"]%string))
                               (tl words))
    else kind in
  if str_in kind [py "SELECT"; py "VALUES"] then Ok KQuery
  else if str_in kind write_words then Ok KExecute
  else Raise (dbe NotSupportedError "Only queries and DML/DDL statements are supported; transaction control uses Connection methods").

(** ** class Connection *)

Record DConn := mkD {
  d_closed : bool;
  d_autocommit : bool;
  d_version : option Z;
  d_statements : list (pystr * list pyval);
  d_savepoints : list (pystr * nat);
  d_failed : bool
}.

Definition d_set_autocommit (b : bool) (d : DConn) : DConn :=
  mkD (d_closed d) b (d_version d) (d_statements d) (d_savepoints d) (d_failed d).
Definition d_set_version (v : option Z) (d : DConn) : DConn :=
  mkD (d_closed d) (d_autocommit d) v (d_statements d) (d_savepoints d) (d_failed d).
Definition d_set_statements (l : list (pystr * list pyval)) (d : DConn) : DConn :=
  mkD (d_closed d) (d_autocommit d) (d_version d) l (d_savepoints d) (d_failed d).
Definition d_set_savepoints (l : list (pystr * nat)) (d : DConn) : DConn :=
  mkD (d_closed d) (d_autocommit d) (d_version d) (d_statements d) l (d_failed d).
Definition d_set_failed (b : bool) (d : DConn) : DConn :=
  mkD (d_closed d) (d_autocommit d) (d_version d) (d_statements d) (d_savepoints d) b.
Definition d_set_closed (b : bool) (d : DConn) : DConn :=
  mkD b (d_autocommit d) (d_version d) (d_statements d) (d_savepoints d) (d_failed d).

(** [__init__] *)
Definition DConn_new (autocommit : bool) : DConn := mkD false autocommit None [] [] false.

(** [_body]: one text with global placeholder numbers, and all the values. *)
Fixpoint body_parts (statements : list (pystr * list pyval)) (texts : list pystr) (values : list pyval)
    : pyres (list pystr * list pyval) :=
  match statements with
  | [] => Ok (texts, values)
  | (sql, params) :: l =>
      let? tb := prepare (PStr sql) (PList params) (zlen values) in
      body_parts l (texts ++ [tb.1 ++ [10]]) (values ++ tb.2)
  end.

Definition _body (statements : list (pystr * list pyval)) : pyres (pystr * list pyval) :=
  let? (texts, values) := body_parts statements [] [] in
  let body := join statement_sep texts in
  do? (if 8 <? zlen statements
       then Raise (dbe DataError "Transaction exceeds eight statements or 4096 SQL bytes")
       else match utf8_len body with
            | None => Raise (ValueError "surrogates not allowed")
            | Some n => guard (4096 <? n)
                              (dbe DataError "Transaction exceeds eight statements or 4096 SQL bytes")
            end);;
  do? guard (384 <? vector_components values)
            (dbe DataError "Transaction exceeds 384 vector components");;
  Ok (body, values).

Section Dbapi.
Context {W : Type} `{Env W}.

Definition D (A : Type) : Type := M exn (DConn * (Conn * W)) A.

Definition dself : D DConn := gets fst.
Definition dupdate (f : DConn -> DConn) : D unit := modify (fun s => (f s.1, s.2)).
Definition native {A} (m : C W A) : D A := fun s => let '(r, c) := m s.2 in (r, (s.1, c)).
Definition native_pending : D (option PendingWrite) := gets (fun s => c_pending s.2.1).

(** [raise _translate(exc, self.native.pending)] *)
Definition raise_translated {A} (e : exn) : D A :=
  let! p := native_pending in throw (_translate e p).

(** [_ready(allow_failed=...)] *)
Definition d_ready (allow_failed : bool) : D unit :=
  let! d := dself in
  if d_closed d then throw (dbe InterfaceError "Connection is closed")
  else
    let! p := native_pending in
    match p with
    | Some p => throw (Dbapi OperationalError (py "Unresolved commit; recover its identity before reuse") (Some p))
    | None =>
        if d_failed d && negb allow_failed
        then throw (dbe OperationalError "Transaction aborted; roll back before reuse")
        else ret tt
    end.

(** The [autocommit] setter. *)
Definition set_autocommit (value : pyval) : D unit :=
  match value with
  | PBool b =>
      do! d_ready false;;
      let! d := dself in
      if negb (Bool.eqb b (d_autocommit d)) && bool_decide (d_version d <> None)
      then throw (dbe ProgrammingError "Commit or roll back before changing autocommit")
      else dupdate (d_set_autocommit b)
  | _ => throw (dbe NotSupportedError "autocommit must be bool")
  end.

(** [_begin] *)
Definition d_begin : D unit :=
  do! d_ready false;;
  let! d := dself in
  match d_version d with
  | Some _ => ret tt
  | None =>
      let! v := try_except (native _begin_optimistic)
                  (fun e => if isinstance e CError
                            then Some (do! dupdate (d_set_failed true);; raise_translated e) else None) in
      dupdate (d_set_version (Some v))
  end.

(** [_preview(statements, query, values)]; [None] for no query. *)
Definition d_preview (statements : list (pystr * list pyval)) (query : option (pystr * pyval)) : D dict :=
  let! bp := lift (_body statements) in
  let! tb := lift (match query with
                   | Some (q, vs) => if bool_decide (q = []) then Ok ([], []) else prepare (PStr q) vs 0
                   | None => Ok ([], [])
                   end) in
  do! d_begin;;
  let! d := dself in
  native (_preview bp.1 bp.2 (default 0 (d_version d)) tb.1 tb.2).

(** [_clear] *)
Definition d_clear : D unit :=
  dupdate (fun d => mkD (d_closed d) (d_autocommit d) None [] [] false).

(** [commit] *)
Definition commit : D unit :=
  do! d_ready false;;
  do! try_except
        (let! d := dself in
         if bool_decide (d_statements d = []) then ret tt
         else
           let! bv := lift (_body (d_statements d)) in
           do! native (with_lock (_execute_prepared bv.1 bv.2 (default 0 (d_version d))));;
           ret tt)
        (fun e => if client_failure e
                  then Some (do! dupdate (d_set_failed true);; raise_translated e) else None);;
  d_clear.

(** [rollback]: nothing was committed, so forgetting the statements is enough. *)
Definition rollback : D unit := do! d_ready true;; d_clear.

(** [savepoint], [rollback_savepoint], [release_savepoint] *)
Definition savepoint (name : pystr) : D unit :=
  let! d := dself in
  if d_autocommit d then throw (dbe NotSupportedError "Savepoints require transactional mode")
  else
    do! d_begin;;
    dupdate (fun d => d_set_savepoints (d_savepoints d ++ [(name, length (d_statements d))]) d).

(** The last savepoint of that name. *)
Fixpoint last_index (name : pystr) (l : list (pystr * nat)) : option nat :=
  match l with
  | [] => None
  | (n, _) :: l' => match last_index name l' with
                    | Some i => Some (S i)
                    | None => if pyeqb n name then Some O else None
                    end
  end.

Definition _savepoint_index (name : pystr) : D nat :=
  do! d_ready false;;
  let! d := dself in
  match last_index name (d_savepoints d) with
  | Some i => ret i
  | None => throw (dbe ProgrammingError "Unknown savepoint")
  end.

Definition savepoint_position (d : DConn) (i : nat) : nat :=
  match d_savepoints d !! i with Some (_, k) => k | None => O end.

Definition rollback_savepoint (name : pystr) : D unit :=
  let! i := _savepoint_index name in
  do! dupdate (fun d => d_set_statements (take (savepoint_position d i) (d_statements d)) d);;
  dupdate (fun d => d_set_savepoints (take (S i) (d_savepoints d)) d).

Definition release_savepoint (name : pystr) : D unit :=
  let! i := _savepoint_index name in
  dupdate (fun d => d_set_savepoints (take i (d_savepoints d)) d).

(** [close] *)
Definition d_close : D unit :=
  do! d_clear;;
  do! native close;;
  dupdate (d_set_closed true).
End Dbapi.

Arguments D W A : clear implicits.

(** [connect(..., autocommit=...)] *)
Definition dbapi_connect {W} `{Env W} (endpoints : Endpoint + list Endpoint) (cluster : pystr) (timeout : Q)
    (autocommit : pyval) (w : W) : pyres (DConn * Conn) * W :=
  match autocommit with
  | PBool b =>
      let '(r, w') := connect endpoints cluster timeout None w in
      (res_bind r (fun c => Ok (DConn_new b, c)), w')
  | _ => (Raise (ValueError "autocommit must be bool"), w)
  end.

(** * sqlodin/dbapi.py: class Cursor

    A cursor executes one statement at a time through the adapter's connection
    and holds the rows of the last query. *)

Record Cursor := mkCursor {
  k_closed : bool;
  k_description : option (list pyval);
  k_lastrowid : pyval;
  k_rowcount : Z;
  k_rows : list (list pyval);
  k_position : nat
}.

(** [__init__] *)
Definition Cursor_new : Cursor := mkCursor false None PNone (-1) [] 0.

Definition arraysize : pyval := PInt 1.

(** The attributes [execute] and [executemany] reset. *)
Definition k_reset (rowcount : Z) (k : Cursor) : Cursor := mkCursor (k_closed k) None PNone rowcount [] 0.
Definition k_set_result (names : list pyval) (rows : list (list pyval)) (k : Cursor) : Cursor :=
  mkCursor (k_closed k) (Some names) (k_lastrowid k) (k_rowcount k) rows (k_position k).
Definition k_set_counts (n : Z) (rowid : pyval) (k : Cursor) : Cursor :=
  mkCursor (k_closed k) (k_description k) rowid n (k_rows k) (k_position k).
Definition k_set_position (p : nat) (k : Cursor) : Cursor :=
  mkCursor (k_closed k) (k_description k) (k_lastrowid k) (k_rowcount k) (k_rows k) p.

Section Cursor.
Context {W : Type} `{Env W}.

Definition K (A : Type) : Type := M exn (Cursor * (DConn * (Conn * W))) A.

Definition kself : K Cursor := gets fst.
Definition kupdate (f : Cursor -> Cursor) : K unit := modify (fun s => (f s.1, s.2)).
Definition on_db {A} (m : D W A) : K A := fun s => let '(r, d) := m s.2 in (r, (s.1, d)).

(** [_ready] *)
Definition k_ready : K unit :=
  let! k := kself in
  if k_closed k then throw (dbe InterfaceError "Cursor is closed") else on_db (d_ready false).

(** The rows of a preview's reply. *)
Definition preview_rows (result : dict) : pyres (list pyval * list (list pyval)) :=
  let? columns := getitem "columns" result in
  let? rows := getitem "rows" result in
  let? rows := py_iter rows in
  let? rows := map_res (fun row => let? cells := py_iter row in map_res _decode cells) rows in
  let? names := py_iter columns in
  Ok (names, rows).

(** The [try] block of [execute] for a query. *)
Definition run_query (operation : pystr) (parameters : pyval) : K unit :=
  let! d := on_db dself in
  let! nr := (if d_autocommit d
              then let! rs := on_db (native (query (PStr operation) parameters (py "linearizable"))) in
                   ret (PStr <$> columns rs, as_tuple <$> _rows rs)
              else let! result := on_db (d_preview (d_statements d) (Some (operation, parameters))) in
                   lift (preview_rows result)) in
  kupdate (k_set_result nr.1 nr.2).

(** ... and for a write. *)
Definition run_write (operation : pystr) (parameters : pyval) : K unit :=
  let! d := on_db dself in
  let! vs := lift (py_iter parameters) in
  let candidate := d_statements d ++ [(operation, vs)] in
  let! result := on_db (d_preview candidate None) in
  do! on_db (dupdate (d_set_statements candidate));;
  let! changes := lift (int_field "changes" result) in
  let! rowid := lift (getitem "lastrowid" result) in
  do! kupdate (k_set_counts changes rowid);;
  let! d := on_db dself in
  do! when (d_autocommit d) (on_db commit);;
  ret tt.

(** The two [except] clauses of [execute]. *)
Definition after_failure (e : exn) : option (K unit) :=
  if client_failure e then
    Some (let! d := on_db dself in
          let! p := on_db native_pending in
          do! (if d_autocommit d && bool_decide (p = None) then on_db d_clear
               else when (isinstance e CSerializationError || isinstance e CConnectionError)
                         (on_db (dupdate (d_set_failed true))));;
          on_db (raise_translated e))
  else if isinstance e (CDb DBError) then
    Some (let! d := on_db dself in
          let! p := on_db native_pending in
          do! when (d_autocommit d && bool_decide (p = None)) (on_db d_clear);;
          throw e)
  else None.

(** [execute] *)
Definition k_execute (operation : pystr) (parameters : pyval) : K unit :=
  do! k_ready;;
  do! kupdate (k_reset (-1));;
  match parameters with
  | PDict _ => throw (dbe ProgrammingError "Use qmark positional parameters")
  | _ =>
      let! kind := lift (_kind operation) in
      try_except (match kind with KQuery => run_query operation parameters
                                | KExecute => run_write operation parameters end)
                 after_failure
  end.

(** [try: body; except BaseException: cleanup; raise; finally: last] *)
Definition with_cleanup {A} (body : K A) (cleanup last : K unit) : K A :=
  try_finally (try_except body (fun e => Some (do! cleanup;; throw e))) last.

(** The loop of [executemany]. *)
Fixpoint execute_each (operation : pystr) (parameters : list pyval) (count : Z) : K Z :=
  match parameters with
  | [] => ret count
  | values :: l =>
      do! k_execute operation values;;
      let! k := kself in
      execute_each operation l (count + k_rowcount k)
  end.

(** [executemany] *)
Definition executemany (operation : pystr) (seq_of_parameters : pyval) : K unit :=
  do! k_ready;;
  let! kind := lift (_kind operation) in
  if bool_decide (kind <> KExecute) then throw (dbe NotSupportedError "executemany only supports writes")
  else
    let! all := lift (py_iter seq_of_parameters) in
    let parameters := take 9 all in
    if 8 <? zlen parameters
    then throw (dbe NotSupportedError "An executemany is limited to eight statements")
    else
      do! kupdate (k_reset 0);;
      if bool_decide (zlen parameters = 0) then ret tt
      else
        let! d := on_db dself in
        let before := d_statements d in
        let auto := d_autocommit d in
        do! on_db (dupdate (d_set_autocommit false));;
        with_cleanup
          (let! count := execute_each operation parameters 0 in
           do! kupdate (k_set_counts count PNone);;
           when auto (on_db commit))
          (do! on_db (dupdate (d_set_statements before));;
           let! p := on_db native_pending in
           when (auto && bool_decide (p = None)) (on_db d_clear))
          (on_db (dupdate (d_set_autocommit auto))).

(** [fetchone] *)
Definition fetchone : K (option (list pyval)) :=
  do! k_ready;;
  let! k := kself in
  match k_description k with
  | None => throw (dbe ProgrammingError "No query result is available")
  | Some _ =>
      match k_rows k !! k_position k with
      | None => ret None
      | Some row => do! kupdate (k_set_position (S (k_position k)));; ret (Some row)
      end
  end.

(** [for _ in range(size)] of [fetchmany] *)
Fixpoint fetch_up_to (size : nat) : K (list (list pyval)) :=
  match size with
  | O => ret []
  | S n =>
      let! row := fetchone in
      match row with
      | None => ret []
      | Some r => let! rows := fetch_up_to n in ret (r :: rows)
      end
  end.

(** [fetchmany]; [PNone] is the default size. *)
Definition fetchmany (size : pyval) : K (list (list pyval)) :=
  do! k_ready;;
  let! k := kself in
  match k_description k with
  | None => throw (dbe ProgrammingError "No query result is available")
  | Some _ =>
      match as_int (match size with PNone => arraysize | _ => size end) with
      | Some n => if n <? 0 then throw (dbe ProgrammingError "Invalid fetch size")
                  else fetch_up_to (Z.to_nat n)
      | None => throw (dbe ProgrammingError "Invalid fetch size")
      end
  end.

(** [fetchall] *)
Definition fetchall : K (list (list pyval)) :=
  let! k := kself in
  fetchmany (PInt (zlen (k_rows k) - Z.of_nat (k_position k))).

(** [close] *)
Definition k_close : K unit :=
  kupdate (fun k => mkCursor true (k_description k) (k_lastrowid k) (k_rowcount k) [] (k_position k)).

(** [__next__] *)
Definition k_next : K (list pyval) :=
  let! row := fetchone in
  match row with Some r => ret r | None => throw StopIteration end.
End Cursor.

Arguments K W A : clear implicits.

(** [Connection.cursor] *)
Definition cursor {W} `{Env W} : D W Cursor := do! d_ready false;; ret Cursor_new.
