(* ===== verification/Transport.v ===== *)
(** * sqlodin/transport.py

    Framed request and reply over one TLS connection, under an absolute
    deadline.  The operating system's sockets and the TLS handshake are the
    interface [Sockets]; everything the program does with them (connecting to the
    endpoint, the exact SAN check, framing, the receive loop, decoding, closing
    on every failure) is modelled.  [Transport_env] makes a transport over any
    [Sockets] an environment for [Connection]. *)

From Corelib Require Import Floats.SpecFloat.
From S2P Require Import Prelude PyStr PyFloat Objects Json JsonProofs Bytes Vector Text Net.

(** ** What the program uses of the operating system

    Calls raise [OSError] or a subclass ([TimeoutError], [CertificateError]).
    There is at most one open connection at a time, the transport's. *)
Class Sockets (N : Type) := {
  now : N -> Q * N;
  pause : Q -> N -> N;
  random_hex16 : N -> pystr * N;
  create_connection : pystr -> Z -> Q -> N -> pyres unit * N;
  set_options : Q -> N -> pyres unit * N;
  wrap_socket : pystr -> N -> pyres (list (pystr * pystr)) * N;
  settimeout : Q -> N -> pyres unit * N;
  sendall : list Z -> N -> pyres unit * N;
  recv : Z -> N -> pyres (list Z) * N;
  close_socket : N -> N
}.

(** A result that is a value or an OS error. *)
Definition os_result {A} (r : pyres A) : Prop :=
  match r with Ok _ => True | Raise e => isinstance e COSError = true | OutOfFuel => False end.

(** Documented behaviour: time advances, [recv] returns at most what was asked
    for, and failures are OS errors. *)
Class SocketsLaws (N : Type) `{Sockets N} := {
  time : N -> Q;
  now_reads n : (time n <= (now n).1 /\ (now n).1 <= time (now n).2)%Q;
  pause_takes d n : (0 <= d)%Q -> (time n + d <= time (pause d n))%Q;
  close_time n : (time n <= time (close_socket n))%Q;
  connect_time h p t n : (time n <= time (create_connection h p t n).2)%Q;
  options_time t n : (time n <= time (set_options t n).2)%Q;
  wrap_time s n : (time n <= time (wrap_socket s n).2)%Q;
  settimeout_time t n : (time n <= time (settimeout t n).2)%Q;
  sendall_time b n : (time n <= time (sendall b n).2)%Q;
  recv_time k n : (time n <= time (recv k n).2)%Q;
  connect_fails h p t n : os_result (create_connection h p t n).1;
  options_fails t n : os_result (set_options t n).1;
  wrap_fails s n : os_result (wrap_socket s n).1;
  settimeout_fails t n : os_result (settimeout t n).1;
  sendall_fails b n : os_result (sendall b n).1;
  recv_fails k n : os_result (recv k n).1;
  recv_bounded k n b : 0 < k -> (recv k n).1 = Ok b -> zlen b <= k
}.

(** ** [json.loads(bytes)]

    The text encoding is guessed from byte-order marks and NUL bytes, and
    decoded with [surrogatepass]. *)
Inductive encoding := Utf8 | Utf8Sig | Utf16 (big : bool) | Utf32 (big : bool).

Definition detect_encoding (b : list Z) : encoding * list Z :=
  match b with
  | 0 :: 0 :: 254 :: 255 :: r => (Utf32 true, r)
  | 255 :: 254 :: 0 :: 0 :: r => (Utf32 false, r)
  | 254 :: 255 :: r => (Utf16 true, r)
  | 255 :: 254 :: r => (Utf16 false, r)
  | 239 :: 187 :: 191 :: r => (Utf8Sig, r)
  | b0 :: b1 :: b2 :: b3 :: _ =>
      if b0 =? 0 then (if b1 =? 0 then Utf32 true else Utf16 true, b)
      else if b1 =? 0 then (if (b2 =? 0) && (b3 =? 0) then Utf32 false else Utf16 false, b)
      else (Utf8, b)
  | [b0; b1] => (if b0 =? 0 then Utf16 true else if b1 =? 0 then Utf16 false else Utf8, b)
  | _ => (Utf8, b)
  end.

Definition unit16 (big : bool) (a b : Z) : Z := if big then a * 256 + b else b * 256 + a.

Fixpoint utf16_units (big : bool) (l : list Z) : option (list Z) :=
  match l with
  | [] => Some []
  | a :: b :: r => cons (unit16 big a b) <$> utf16_units big r
  | [_] => None
  end.

(** Surrogate pairs join; lone surrogates pass. *)
Fixpoint join_surrogates (us : list Z) : pystr :=
  match us with
  | [] => []
  | u :: us' =>
      match us' with
      | v :: r => if (55296 <=? u) && (u <=? 56319) && (56320 <=? v) && (v <=? 57343)
                  then (65536 + (u - 55296) * 1024 + (v - 56320)) :: join_surrogates r
                  else u :: join_surrogates us'
      | [] => [u]
      end
  end.

Fixpoint utf32_decode (big : bool) (l : list Z) : option pystr :=
  match l with
  | [] => Some []
  | a :: b :: c :: d :: r =>
      let u := if big then unit16 true a b * 65536 + unit16 true c d
               else unit16 false c d * 65536 + unit16 false a b in
      if u <? 1114112 then cons u <$> utf32_decode big r else None
  | _ => None
  end.

Definition decode_text (b : list Z) : option pystr :=
  let '(enc, r) := detect_encoding b in
  match enc with
  | Utf8 | Utf8Sig => utf8_decode (length r) r
  | Utf16 big => join_surrogates <$> utf16_units big r
  | Utf32 big => utf32_decode big r
  end.

Definition json_loads (b : list Z) : pyres pyval :=
  match decode_text b with
  | Some s => loads s
  | None => Raise (ValueError "UnicodeDecodeError")
  end.

(** ** Endpoint.socket_address *)

(** [s.rsplit(':', 1)]: the parts around the last colon. *)
Fixpoint rsplit_colon (s : pystr) : option (pystr * pystr) :=
  match s with
  | [] => None
  | c :: s' =>
      match rsplit_colon s' with
      | Some (h, p) => Some (c :: h, p)
      | None => if c =? 58 then Some ([], s') else None
      end
  end.

Definition socket_address (e : Endpoint) : pyres (pystr * Z) :=
  match rsplit_colon (address e) with
  | None => Raise (ValueError "not enough values to unpack")
  | Some (host, port) =>
      match int_of_str port with
      | Some n => Ok (host, n)
      | None => Raise (ValueError "invalid literal for int()")
      end
  end.

(** ** class TLS

    [ssl.create_default_context] and [load_cert_chain] are the standard
    library's: they make a context, read the files, or raise. *)

Record TLS := mkTLS { tls_ca : pystr; tls_cert : pystr; tls_key : pystr }.
Inductive TLSVersion := TLSv1_2 | TLSv1_3.
Record SSLContext := mkContext {
  x_cafile : pystr; minimum_version : TLSVersion; maximum_version : TLSVersion;
  hostname_checks_common_name : bool; x_chain : option (pystr * pystr)
}.

Section Contexts.
Context {N : Type} (create_default_context : pystr -> N -> pyres SSLContext * N)
        (load_cert_chain : SSLContext -> pystr -> pystr -> N -> pyres SSLContext * N).

Definition context (tls : TLS) : M exn N SSLContext :=
  let! ctx := create_default_context (tls_ca tls) in
  let ctx := mkContext (x_cafile ctx) TLSv1_3 TLSv1_3 false (x_chain ctx) in
  load_cert_chain ctx (tls_cert tls) (tls_key tls).
End Contexts.

(** ** class Transport *)

(** The open connection's endpoint; [None] when there is no socket.  [socket]
    and [endpoint] differ only inside [exchange]'s connecting block. *)
Record Transport := mkTransport { t_socket : bool; t_endpoint : option Endpoint }.

Definition Transport_new : Transport := mkTransport false None.

(** [Transport(tls)]: [wrap_socket] of [Sockets] is that of the context made
    here. *)
Definition Transport_init {N} (create_default_context : pystr -> N -> pyres SSLContext * N)
    (load_cert_chain : SSLContext -> pystr -> pystr -> N -> pyres SSLContext * N) (tls : TLS) : M exn N (SSLContext * Transport) :=
  let! ctx := context create_default_context load_cert_chain tls in ret (ctx, Transport_new).

Section Transport.
Context {N : Type} `{Sockets N}.

Definition X (A : Type) : Type := M exn (Transport * N) A.

Definition os {A} (f : N -> pyres A * N) : X A := fun s => let '(r, n) := f s.2 in (r, (s.1, n)).
Definition os_act (f : N -> N) : X unit := modify (fun s => (s.1, f s.2)).
Definition clock_now : X Q := fun s => let '(t, n) := now s.2 in (Ok t, (s.1, n)).
Definition tself : X Transport := gets fst.
Definition tset (t : Transport) : X unit := modify (fun s => (t, s.2)).

(** [remaining(deadline)] *)
Definition remaining (deadline : Q) : X Q :=
  let! t := clock_now in
  let seconds := (deadline - t)%Q in
  if Qle_bool seconds 0 then throw (TimeoutError "SQLodin operation deadline expired") else ret seconds.

Definition transport_close : X unit :=
  let! t := tself in
  do! when (t_socket t) (os_act close_socket);;
  tset Transport_new.

(** [_receive]: each chunk shortens what is left, so [size] is enough fuel. *)
Fixpoint receive (fuel : nat) (size : Z) (deadline : Q) (data : list Z) : X (list Z) :=
  if zlen data <? size then
    match fuel with
    | O => lift OutOfFuel
    | S f =>
        let! t := remaining deadline in
        do! os (settimeout t);;
        let! chunk := os (recv (size - zlen data)) in
        if bool_decide (chunk = []) then throw (ConnectionError (py "Server closed the connection"))
        else receive f size deadline (data ++ chunk)
    end
  else ret data.

Definition _receive (size : Z) (deadline : Q) : X (list Z) := receive (Z.to_nat size) size deadline [].

(** The connecting block of [exchange]. *)
Definition connect_to (e : Endpoint) (deadline : Q) : X unit :=
  do! transport_close;;
  let! addr := lift (socket_address e) in
  let! t := remaining deadline in
  do! os (create_connection addr.1 addr.2 t);;
  try_except
    (let! t := remaining deadline in
     do! os (set_options t);;
     let! sans := os (wrap_socket (server_name e)) in
     do! tset (mkTransport true None);;
     do! when (negb (existsb (fun san => pyeqb san.1 (py "DNS") && pyeqb san.2 (server_name e)) sans))
              (throw (CertificateError "Server certificate requires an exact DNS SAN"));;
     tset (mkTransport true (Some e)))
    (fun exc => Some (do! os_act close_socket;; do! transport_close;; throw exc)).

(** [struct.pack('<I', n)] *)
Definition frame (body : list Z) : list Z := le_pack 4 (zlen body) ++ body.

(** The [try] block of [exchange]. *)
Definition exchange_frames (e : Endpoint) (body : list Z) (deadline : Q) : X dict :=
  let! self := tself in
  do! when (negb (bool_decide (t_endpoint self = Some e)) || negb (t_socket self)) (connect_to e deadline);;
  let! t := remaining deadline in
  do! os (settimeout t);;
  do! os (sendall (frame body));;
  let! head := _receive 4 deadline in
  let size := le_unpack head in
  if negb ((0 <? size) && (size <=? 1024 * 1024))
  then throw (ConnectionError (py "Invalid response frame length"))
  else
    let! data := _receive size deadline in
    let! result := lift (json_loads data) in
    match result with
    | PDict d => ret d
    | _ => throw (ConnectionError (py "Invalid response object"))
    end.

Definition exchange_request (e : Endpoint) (request : dict) (deadline : Q) : X dict :=
  let! text := lift (dumps compact (PDict request)) in
  match utf8_encode text with
  | None => throw (ValueError "surrogates not allowed")
  | Some body =>
      if 65536 <? zlen body then throw (ValueError "Encoded request exceeds 64 KiB")
      else
        try_except (exchange_frames e body deadline)
          (fun exc => if isinstance exc COSError || isinstance exc CValueError || isinstance exc CConnectionError
                      then Some (do! transport_close;; throw (ConnectionError (str_exn exc))) else None)
  end.
End Transport.

Arguments X N A : clear implicits.

(** * Correctness of the transport

    Over any sockets: an exchange ends, raises only what the client expects,
    leaves the transport closed when it fails, and never sends a request to a
    peer whose certificate lacks the endpoint's exact name; a reply is the
    peer's frame, however the network splits it.  [Transport_env] discharges
    the client's environment interface. *)

(** ** Printing fails with [ValueError] or [TypeError] only *)

Definition bad_value {A} (r : pyres A) : Prop :=
  match r with Ok _ | Raise (ValueError _) | Raise (TypeError _) => True | _ => False end.

Lemma bad_value_bind {A B} (r : pyres A) (f : A -> pyres B) :
  bad_value r -> (forall a, bad_value (f a)) -> bad_value (res_bind r f).
Proof. destruct r as [a|[]|]; simpl; auto. Qed.

Lemma dumps_fails sp v : bad_value (dumps sp v).
Proof.
  induction v as [|b|z|f|t|b|w|l IH|d IH] using pyval_rect'; try done.
  - simpl. by destruct (float_repr f).
  - rewrite dumps_list. apply bad_value_bind; [|done].
    induction IH as [|x l Hx Hl IH]; [done|]. cbn [dump_items].
    apply bad_value_bind; [done|intros t]. by apply bad_value_bind.
  - rewrite dumps_dict. apply bad_value_bind; [|done].
    induction IH as [|[k x] d Hx Hd IH]; [done|]. cbn [dump_members].
    apply bad_value_bind; [done|intros t]. by apply bad_value_bind.
Qed.

Section Transport.
Context {N : Type} `{SocketsLaws N}.

Implicit Types (s : Transport * N).

(** ** What any step of an exchange may do *)

Definition expected {A} (r : pyres A) : Prop :=
  match r with
  | Ok _ => True
  | Raise e => isinstance e COSError || isinstance e CValueError || isinstance e CConnectionError = true
  | OutOfFuel => False
  end.

Definition calm {A} (m : X N A) : Prop :=
  forall s, wp m (fun r s' => (time s.2 <= time s'.2)%Q /\ expected r) s.

Lemma os_expected {A} (r : pyres A) : os_result r -> expected r.
Proof. destruct r as [a|e|]; simpl; [done|by intros ->|done]. Qed.

Lemma calm_bind {A B} (m : X N A) (f : A -> X N B) : calm m -> (forall a, calm (f a)) -> calm (bind m f).
Proof.
  intros Hm Hf s. apply wp_bind. eapply wp_mono; [apply Hm|]. intros [a|e|] s' [Ht Hr]; [|done..].
  eapply wp_mono; [apply Hf|]. intros r s'' [Ht' Hr']. split; [lra|done].
Qed.
Lemma calm_ret {A} (a : A) : calm (ret a).
Proof. intros s. apply wp_ret. split; [lra|done]. Qed.
Lemma calm_throw {A} e : expected (Raise e : pyres A) -> calm (throw e : X N A).
Proof. intros He s. apply wp_throw. split; [lra|done]. Qed.
Lemma calm_lift {A} (r : pyres A) : expected r -> calm (lift r).
Proof. intros He s. apply wp_lift. split; [lra|done]. Qed.
Lemma calm_os {A} (f : N -> pyres A * N) :
  (forall n, (time n <= time (f n).2)%Q) -> (forall n, os_result (f n).1) -> calm (os f).
Proof.
  intros Ht Hr [t n]. unfold wp, os. specialize (Ht n). specialize (Hr n). cbn [snd].
  destruct (f n) as [r n']. split; [exact Ht|by apply os_expected].
Qed.
Lemma calm_os_act f : (forall n, (time n <= time (f n))%Q) -> calm (os_act f).
Proof. intros Ht [t n]. split; [apply Ht|done]. Qed.
Lemma calm_tself : calm tself.
Proof. intros s. split; [simpl; lra|done]. Qed.
Lemma calm_tset t : calm (tset t).
Proof. intros s. split; [simpl; lra|done]. Qed.
Lemma calm_when b (m : X N unit) : calm m -> calm (when b m).
Proof. destruct b; [done|]. intros _. apply calm_ret. Qed.
Lemma calm_now : calm clock_now.
Proof.
  intros [t n]. unfold wp, clock_now. cbn [snd]. destruct (now_reads n) as [H1 H2].
  destruct (now n) as [q n']. split; [|done]. simpl in *. lra.
Qed.
Lemma calm_except {A} (m : X N A) h :
  calm m -> (forall e k, expected (Raise e : pyres A) -> h e = Some k -> calm k) -> calm (try_except m h).
Proof.
  intros Hm Hh s. apply wp_try_except. eapply wp_mono; [apply Hm|]. intros [a|e|] s' [Ht Hr]; [done| |done].
  destruct (h e) as [k|] eqn:E; [|done]. eapply wp_mono; [by apply (Hh e k)|].
  intros r s'' [Ht' Hr']. split; [lra|done].
Qed.

Lemma calm_remaining d : calm (remaining d).
Proof.
  unfold remaining. apply calm_bind; [apply calm_now|intros t].
  destruct (Qle_bool _ _); [by apply calm_throw|apply calm_ret].
Qed.

Lemma calm_close : calm transport_close.
Proof.
  unfold transport_close. apply calm_bind; [apply calm_tself|intros t].
  apply calm_bind; [apply calm_when, calm_os_act, close_time|intros _; apply calm_tset].
Qed.

Lemma calm_receive fuel size d data :
  (size - zlen data <= Z.of_nat fuel) -> calm (receive fuel size d data).
Proof.
  revert data. induction fuel as [|f IH]; intros data Hf; cbn [receive];
    (destruct (Z.ltb_spec (zlen data) size); [|apply calm_ret]); [lia|].
  apply calm_bind; [apply calm_remaining|intros t].
  apply calm_bind; [apply calm_os; [apply settimeout_time|apply settimeout_fails]|intros _].
  apply calm_bind; [apply calm_os; [apply recv_time|apply recv_fails]|intros chunk].
  case_bool_decide as Hc; [by apply calm_throw|]. apply IH.
  rewrite zlen_app. destruct chunk as [|c chunk]; [done|]. rewrite zlen_cons.
  pose proof (zlen_nonneg chunk). lia.
Qed.

Lemma calm_receive' size d : calm (_receive size d).
Proof. apply calm_receive. autorewrite with py. lia. Qed.

Lemma json_loads_expected b : expected (json_loads b).
Proof.
  unfold json_loads. destruct (decode_text b) as [s|]; [|done].
  destruct (loads s) as [v|e|] eqn:E; [done| |by apply loads_ends in E].
  by apply loads_raises in E as [m ->].
Qed.

Lemma calm_connect e d : calm (connect_to e d).
Proof.
  unfold connect_to. apply calm_bind; [apply calm_close|intros _].
  apply calm_bind; [apply calm_lift; unfold socket_address; by repeat case_match|intros addr].
  apply calm_bind; [apply calm_remaining|intros t].
  apply calm_bind; [apply calm_os; [intros; apply connect_time|intros; apply connect_fails]|intros _].
  apply calm_except.
  - apply calm_bind; [apply calm_remaining|intros t'].
    apply calm_bind; [apply calm_os; [apply options_time|apply options_fails]|intros _].
    apply calm_bind; [apply calm_os; [apply wrap_time|apply wrap_fails]|intros sans].
    apply calm_bind; [apply calm_tset|intros _].
    apply calm_bind; [|intros _; apply calm_tset]. apply calm_when. by apply calm_throw.
  - intros x k Hx [= <-]. apply calm_bind; [apply calm_os_act, close_time|intros _].
    apply calm_bind; [apply calm_close|intros _]. by apply calm_throw.
Qed.

Lemma calm_exchange_frames e body d : calm (exchange_frames e body d).
Proof.
  unfold exchange_frames. apply calm_bind; [apply calm_tself|intros t].
  apply calm_bind; [apply calm_when, calm_connect|intros _].
  apply calm_bind; [apply calm_remaining|intros left'].
  apply calm_bind; [apply calm_os; [apply settimeout_time|apply settimeout_fails]|intros _].
  apply calm_bind; [apply calm_os; [apply sendall_time|apply sendall_fails]|intros _].
  apply calm_bind; [apply calm_receive'|intros head]. destruct (negb _); [by apply calm_throw|].
  apply calm_bind; [apply calm_receive'|intros data].
  apply calm_bind; [apply calm_lift, json_loads_expected|intros []]; by apply calm_throw || apply calm_ret.
Qed.

Lemma wp_close (Q : pyres unit -> Transport * N -> Prop) s :
  Q (Ok tt) (Transport_new, if t_socket s.1 then close_socket s.2 else s.2) -> wp transport_close Q s.
Proof. intros HQ. unfold wp, transport_close, bind, tself, gets. by destruct s as [[[] ?] n]. Qed.

(** An exchange either returns, or raises [ConnectionError] having closed the
    transport, or raises before touching the network at all. *)
Lemma exchange_request_spec e q d s :
  wp (exchange_request e q d) (fun r s' =>
    (time s.2 <= time s'.2)%Q /\
    match r with
    | Ok _ => True
    | Raise (ConnectionError _) => s'.1 = Transport_new
    | Raise (ValueError _) | Raise (TypeError _) => s' = s
    | _ => False
    end) s.
Proof.
  unfold exchange_request. apply wp_bind, wp_lift. pose proof (dumps_fails compact (PDict q)) as Hd.
  destruct (dumps compact (PDict q)) as [text|x|]; [|split; [lra|]|done].
  2: { simpl in Hd. destruct x; done. }
  destruct (utf8_encode text) as [body|]; [|apply wp_throw; split; [lra|done]].
  destruct (65536 <? zlen body); [apply wp_throw; split; [lra|done]|].
  apply wp_try_except. eapply wp_mono; [apply calm_exchange_frames|].
  intros [v|x|] s' [Ht Hr]; [done| |done]. rewrite Hr.
  apply wp_bind, wp_close, wp_throw. split; [|done]. cbn [fst snd].
  destruct (t_socket s'.1); [|exact Ht]. pose proof (close_time s'.2). lra.
Qed.
End Transport.

(** ** The transport is an environment for the client *)

(** A transport over its sockets, with the log of exchanges asked for. *)
Record Wire (N : Type) := mkWire {
  wire : Transport * N;
  asked : list (Endpoint * dict)
}.
Arguments mkWire {N}.
Arguments wire {N}.
Arguments asked {N}.

Section Wire.
Context {N : Type} `{SocketsLaws N}.

#[global] Instance Transport_env : Env (Wire N) := {
  monotonic w := let '(t, n) := now (wire w).2 in (t, mkWire ((wire w).1, n) (asked w));
  sleep d w := mkWire ((wire w).1, pause d (wire w).2) (asked w);
  token_hex16 w := let '(t, n) := random_hex16 (wire w).2 in (t, mkWire ((wire w).1, n) (asked w));
  exchange e q t w :=
    let '(r, s) := exchange_request e q t (wire w) in (r, mkWire s (asked w ++ [(e, q)]));
  tclose w := mkWire (transport_close (wire w)).2 (asked w)
}.

#[global] Instance Transport_laws : EnvLaws (Wire N).
Proof.
  refine {| clock w := time (wire w).2; sent := asked |};
    cbn [exchange monotonic sleep tclose token_hex16 Transport_env].
  - intros w. pose proof (now_reads (wire w).2). by destruct (now _).
  - intros d w Hd. by apply pause_takes.
  - intros e q t w. pose proof (exchange_request_spec e q t (wire w)) as Hx. unfold wp in Hx.
    destruct (exchange_request e q t (wire w)) as [r s]. apply Hx.
  - intros w. apply (wp_close (fun _ s' => time (wire w).2 <= time s'.2)%Q).
    cbn [snd]. destruct (t_socket _); [apply close_time|lra].
  - intros e q t w. pose proof (exchange_request_spec e q t (wire w)) as Hx. unfold wp in Hx.
    destruct (exchange_request e q t (wire w)) as [[] s]; try done. by destruct Hx.
  - intros e q t w x. pose proof (exchange_request_spec e q t (wire w)) as Hx. unfold wp in Hx.
    destruct (exchange_request e q t (wire w)) as [[] s]; try done. cbn [fst]. intros [= ->].
    destruct Hx as [_ Hx]. by destruct x.
  - intros w. by destruct (now _).
  - done.
  - done.
  - intros w. by destruct (random_hex16 _).
  - intros e q t w. by destruct (exchange_request _ _ _ _).
Defined.
End Wire.

(** ** Byte streams and authenticated peers

    What the bytes mean: [inbox] is what the peer has sent and is yet to be
    received, [peer] the names in the certificate of the open connection, and
    [outbox] everything sent so far, each piece with the names of the peer it
    went to.  [recv] takes a prefix of the inbox, of any length; a handshake sets
    the peer; only [sendall] sends. *)
Definition names := list (pystr * pystr).

Class Streams (N : Type) `{SocketsLaws N} := {
  inbox : N -> list Z;
  peer : N -> names;
  outbox : N -> list (names * list Z);
  recv_takes k n b : (recv k n).1 = Ok b -> inbox n = b ++ inbox (recv k n).2;
  recv_keeps k n : peer (recv k n).2 = peer n /\ outbox (recv k n).2 = outbox n;
  settimeout_keeps t n : inbox (settimeout t n).2 = inbox n /\ peer (settimeout t n).2 = peer n /\
                         outbox (settimeout t n).2 = outbox n;
  now_keeps n : inbox (now n).2 = inbox n /\ peer (now n).2 = peer n /\ outbox (now n).2 = outbox n;
  sendall_sends b n :
    peer (sendall b n).2 = peer n /\ inbox (sendall b n).2 = inbox n /\
    exists sent, outbox (sendall b n).2 = outbox n ++ sent /\
                 (sent = [] \/ exists b' r, b = b' ++ r /\ sent = [(peer n, b')]);
  wrap_sets s n sans : (wrap_socket s n).1 = Ok sans -> peer (wrap_socket s n).2 = sans;
  wrap_keeps s n : outbox (wrap_socket s n).2 = outbox n;
  connect_keeps h p t n : outbox (create_connection h p t n).2 = outbox n;
  options_keeps t n : outbox (set_options t n).2 = outbox n;
  close_keeps n : outbox (close_socket n) = outbox n
}.

Section Streams.
Context {N : Type} `{Streams N}.

Implicit Types (s : Transport * N).

Lemma wp_os {A} (f : N -> pyres A * N) Q s :
  Q (f s.2).1 (s.1, (f s.2).2) -> wp (os f) Q s.
Proof. unfold wp, os. by destruct (f s.2). Qed.


(** ** Reassembly *)

Lemma receive_stream fuel size d data s :
  zlen data <= size ->
  wp (receive fuel size d data) (fun r s' => s'.1 = s.1 /\
    match r with
    | Ok out => exists b, out = data ++ b /\ inbox s.2 = b ++ inbox s'.2 /\ zlen out = size
    | _ => True
    end) s.
Proof.
  revert data s. induction fuel as [|f IH]; intros data [t n] Hd; cbn [receive];
    (destruct (Z.ltb_spec (zlen data) size);
      [|apply wp_ret; split; [done|]; exists []; rewrite app_nil_r; split_and!; [done|done|lia]]).
  { by apply wp_lift. }
  apply wp_bind. unfold remaining. apply wp_bind. unfold wp at 1, clock_now. cbn [snd fst].
  pose proof (now_keeps n) as (Hn & _ & _). destruct (now n) as [q n1]. cbn [fst snd] in *.
  destruct (Qle_bool _ _); [by apply wp_throw|]. apply wp_ret. apply wp_bind, wp_os. cbn [fst snd].
  pose proof (settimeout_keeps (d - q) n1) as (Hs & _ & _).
  destruct (settimeout (d - q) n1) as [[u|e|] n2]; cbn [fst snd] in *; [|done..].
  apply wp_bind, wp_os. cbn [fst snd].
  pose proof (recv_takes (size - zlen data) n2) as Hr. pose proof (recv_bounded (size - zlen data) n2) as Hb.
  destruct (recv (size - zlen data) n2) as [[chunk|e|] n3]; cbn [fst snd] in *; [|done..].
  specialize (Hr chunk eq_refl). specialize (Hb chunk ltac:(lia) eq_refl).
  case_bool_decide; [by apply wp_throw|].
  eapply wp_mono; [apply IH; rewrite zlen_app; lia|].
  intros [out|e|] [t' n'] [Ht Ho]; [|done..]. split; [done|]. cbn [snd] in *.
  destruct Ho as (b & -> & Hi & Hz). exists (chunk ++ b). rewrite app_assoc. split_and!; [done| |done].
  by rewrite <- Hn, <- Hs, Hr, Hi, app_assoc.
Qed.

(** ** Authentication *)

Definition has_san (ns : names) (e : Endpoint) : Prop :=
  existsb (fun san => pyeqb san.1 (py "DNS") && pyeqb san.2 (server_name e)) ns = true.

(** An endpoint is recorded only for an open socket whose peer proved its name. *)
Definition authenticated s : Prop :=
  forall e, t_endpoint s.1 = Some e -> t_socket s.1 = true /\ has_san (peer s.2) e.

Lemma wp_remaining d Q s :
  (forall q n', inbox n' = inbox s.2 -> peer n' = peer s.2 -> outbox n' = outbox s.2 ->
                Q (Ok q) (s.1, n')) ->
  (forall m n', inbox n' = inbox s.2 -> peer n' = peer s.2 -> outbox n' = outbox s.2 ->
                Q (Raise (TimeoutError m)) (s.1, n')) ->
  wp (remaining d) Q s.
Proof.
  intros HQ HF. unfold remaining. apply wp_bind. unfold wp at 1, clock_now.
  pose proof (now_keeps s.2) as (Hi & Hp & Ho). destruct (now s.2) as [q n']. cbn [fst snd] in *.
  destruct (Qle_bool _ _); [apply wp_throw; by apply HF|apply wp_ret; by apply HQ].
Qed.

Lemma close_outbox s : outbox (if t_socket s.1 then close_socket s.2 else s.2) = outbox s.2.
Proof. destruct (t_socket s.1); [apply close_keeps|done]. Qed.

Lemma connect_authenticates e d s :
  wp (connect_to e d) (fun r s' => outbox s'.2 = outbox s.2 /\
    match r with
    | Ok _ => s'.1 = mkTransport true (Some e) /\ has_san (peer s'.2) e
    | _ => s'.1 = Transport_new
    end) s.
Proof.
  unfold connect_to. apply wp_bind, wp_close. pose proof (close_outbox s) as Ho.
  set (n0 := if t_socket s.1 then _ else _) in *. rewrite <- Ho. clearbody n0. clear Ho.
  apply wp_bind, wp_lift. destruct (socket_address e) as [addr|x|]; [|done..].
  apply wp_bind, wp_remaining; [|done]. cbn [fst snd]. intros q n1 _ _ <-.
  apply wp_bind, wp_os. cbn [fst snd]. pose proof (connect_keeps addr.1 addr.2 q n1) as Hc.
  destruct (create_connection addr.1 addr.2 q n1) as [[u|x|] n2]; cbn [fst snd] in *; [|done..].
  rewrite <- Hc. clear Hc n1. apply wp_try_except.
  assert (Hfail : forall x t n3, outbox n3 = outbox n2 ->
    wp (do! os_act close_socket;; do! transport_close;; throw x : X N unit)
       (fun r s' => outbox s'.2 = outbox n2 /\
          match r with
          | Ok _ => s'.1 = mkTransport true (Some e) /\ has_san (peer s'.2) e
          | _ => s'.1 = Transport_new
          end) (t, n3)).
  { intros x t n3 E. apply wp_bind. unfold wp at 1, os_act, modify. cbn [fst snd].
    apply wp_bind, wp_close, wp_throw. split; [|done].
    pose proof (close_outbox (t, close_socket n3)) as E'. cbn [fst snd] in *. by rewrite E', close_keeps. }
  apply wp_bind, wp_remaining; cbn [fst snd]; [|intros; apply Hfail; congruence]. intros q' n3 _ _ E3.
  apply wp_bind, wp_os. cbn [fst snd]. pose proof (options_keeps q' n3) as Hc.
  destruct (set_options q' n3) as [[v|x|] n4]; cbn [fst snd] in *; [|apply Hfail; congruence|split; [congruence|done]].
  apply wp_bind, wp_os. cbn [fst snd]. pose proof (wrap_keeps (server_name e) n4) as Hw.
  pose proof (wrap_sets (server_name e) n4) as Hp.
  destruct (wrap_socket (server_name e) n4) as [[sans|x|] n5]; cbn [fst snd] in *;
    [|apply Hfail; congruence|split; [congruence|done]].
  apply wp_bind. unfold wp at 1, tset, modify. cbn [fst snd]. apply wp_bind. unfold when.
  destruct (existsb _ sans) eqn:Hsan; cbn [negb].
  - apply wp_ret. unfold wp, tset, modify. cbn [fst snd]. split; [congruence|]. split; [done|].
    unfold has_san. by rewrite (Hp sans eq_refl).
  - apply wp_throw. apply Hfail. congruence.
Qed.

(** Nothing but a receive loop and a decoder touches the sockets after sending. *)
Lemma receive_quiet fuel size d data s :
  wp (receive fuel size d data) (fun _ s' => s'.1 = s.1 /\ peer s'.2 = peer s.2 /\ outbox s'.2 = outbox s.2) s.
Proof.
  revert data s. induction fuel as [|f IH]; intros data [t n]; cbn [receive];
    (destruct (zlen data <? size); [|by apply wp_ret]); [by apply wp_lift|].
  apply wp_bind, wp_remaining; [|done]. cbn [fst snd]. intros q n1 _ Hp1 Ho1.
  apply wp_bind, wp_os. cbn [fst snd]. pose proof (settimeout_keeps q n1) as (_ & Hp2 & Ho2).
  destruct (settimeout q n1) as [[u|e|] n2]; cbn [fst snd] in *; [|split_and!; congruence..].
  apply wp_bind, wp_os. cbn [fst snd]. pose proof (recv_keeps (size - zlen data) n2) as (Hp3 & Ho3).
  destruct (recv (size - zlen data) n2) as [[chunk|e|] n3]; cbn [fst snd] in *; [|split_and!; congruence..].
  case_bool_decide; [apply wp_throw; split_and!; cbn [fst snd]; congruence|].
  eapply wp_mono; [apply IH|]. intros r s' (Ht & Hp & Ho). cbn [fst snd] in *. split_and!; congruence.
Qed.

(** The pieces sent between two states all went to a peer named as [e], and are
    parts of the one framed body. *)
Definition sent_to (e : Endpoint) (bytes : list Z) n n' : Prop :=
  exists pieces, outbox n' = outbox n ++ pieces /\
    Forall (fun piece => has_san piece.1 e /\ exists r, bytes = piece.2 ++ r) pieces.

Lemma sent_nothing e bytes n n' : outbox n' = outbox n -> sent_to e bytes n n'.
Proof. intros Ho. exists []. by rewrite app_nil_r. Qed.

Lemma exchange_frames_sends e body d s :
  authenticated s ->
  wp (exchange_frames e body d) (fun r s' =>
    sent_to e (frame body) s.2 s'.2 /\
    match r with Ok _ => s'.1 = mkTransport true (Some e) /\ has_san (peer s'.2) e | _ => True end) s.
Proof.
  intros Ha. unfold exchange_frames. apply wp_bind. unfold wp at 1, tself, gets. cbn [fst snd].
  apply wp_bind.
  enough (Hconn : wp (when (negb (bool_decide (t_endpoint s.1 = Some e)) || negb (t_socket s.1)) (connect_to e d))
    (fun r s' => outbox s'.2 = outbox s.2 /\
       match r with Ok _ => s'.1 = mkTransport true (Some e) /\ has_san (peer s'.2) e | _ => True end) s).
  2: { unfold when. destruct (negb _ || _) eqn:Hc.
       - eapply wp_mono; [apply connect_authenticates|]. intros [[]|x|] s' [Ho Hr]; done.
       - apply orb_false_iff in Hc as [Hc1 Hc2]. apply negb_false_iff, bool_decide_eq_true in Hc1.
         apply negb_false_iff in Hc2. apply wp_ret. split; [done|]. destruct (Ha e Hc1) as [_ Hs].
         split; [|done]. destruct s as [[] n]. simpl in *. by subst. }
  eapply wp_mono; [exact Hconn|]. clear Hconn Ha. intros [u|x|] [t n1] [Ho Hr]; cbn [fst snd] in *;
    [|split; [by apply sent_nothing|done]..]. destruct Hr as [-> Hsan]. clear u.
  apply wp_bind, wp_remaining; cbn [fst snd];
    [|intros; split; [apply sent_nothing; cbn [snd]; congruence|done]].
  intros q n2 _ Hp2 Ho2. apply wp_bind, wp_os. cbn [fst snd].
  pose proof (settimeout_keeps q n2) as (_ & Hp3 & Ho3).
  destruct (settimeout q n2) as [[u|x|] n3]; cbn [fst snd] in *;
    [|split; [apply sent_nothing; cbn [snd]; congruence|done]..].
  apply wp_bind, wp_os. cbn [fst snd].
  pose proof (sendall_sends (frame body) n3) as (Hp4 & _ & sent & Ho4 & Hsent).
  assert (Hs4 : sent_to e (frame body) s.2 (sendall (frame body) n3).2).
  { exists sent. split; [congruence|]. destruct Hsent as [->|(b' & r & Hb & ->)]; [done|].
    apply Forall_singleton. split; [cbn [fst]; congruence|]. by exists r. }
  assert (Hp : peer (sendall (frame body) n3).2 = peer n1) by congruence.
  destruct (sendall (frame body) n3) as [[u'|x|] n4]; cbn [fst snd] in *; [|done..].
  assert (Hrest : forall n', outbox n' = outbox n4 -> sent_to e (frame body) s.2 n').
  { intros n' E. destruct Hs4 as (pieces & E' & Hf). exists pieces. by rewrite E, E'. }
  apply wp_bind. eapply wp_mono; [apply receive_quiet|].
  intros [head|x|] [t' n5] (Ht5 & Hp5 & Ho5); cbn [fst snd] in *; [|split; [by apply Hrest|done]..].
  destruct (negb _); [apply wp_throw; split; [by apply Hrest|done]|].
  apply wp_bind. eapply wp_mono; [apply receive_quiet|].
  intros [data|x|] [t'' n6] (Ht6 & Hp6 & Ho6); cbn [fst snd] in *; [|split; [apply Hrest; congruence|done]..].
  assert (Ho' : outbox n6 = outbox n4) by congruence.
  apply wp_bind, wp_lift. destruct (json_loads data) as [v|x|]; [|split; [by apply Hrest|done]..].
  destruct v; try (apply wp_throw; split; [by apply Hrest|done]).
  apply wp_ret. split; [by apply Hrest|]. cbn [fst snd]. split; congruence.
Qed.

(** C15: whatever the sockets do, an exchange sends its framed request only over
    a connection whose peer proved the endpoint's exact DNS name in its
    certificate, sends nothing else, and afterwards the transport is either
    connected to that authenticated endpoint or, on any failure, closed (or
    untouched, when the request could not be encoded). *)
Theorem exchange_authenticated e q d s :
  authenticated s ->
  wp (exchange_request e q d) (fun r s' =>
    authenticated s' /\
    match r with
    | Ok _ => s'.1 = mkTransport true (Some e)
    | Raise (ConnectionError _) => s'.1 = Transport_new
    | _ => s' = s
    end /\
    (s' = s \/ exists text body, dumps compact (PDict q) = Ok text /\ utf8_encode text = Some body /\
                 zlen body <= 65536 /\ sent_to e (frame body) s.2 s'.2)) s.
Proof.
  intros Ha. unfold exchange_request. apply wp_bind, wp_lift. pose proof (dumps_fails compact (PDict q)) as Hd.
  destruct (dumps compact (PDict q)) as [text|x|] eqn:Ht; [| |done].
  2: { simpl in Hd. destruct x; try done; (split_and!; [done|done|by left]). }
  destruct (utf8_encode text) as [body|] eqn:Hb; [|apply wp_throw; split_and!; [done|done|by left]].
  destruct (Z.ltb_spec 65536 (zlen body)); [apply wp_throw; split_and!; [done|done|by left]|].
  apply wp_try_except. pose proof (calm_exchange_frames e body d s) as Hcalm.
  eapply wp_mono; [exact (wp_and _ _ _ _ (exchange_frames_sends e body d s Ha) Hcalm)|].
  intros r s' [[Hs Hr] [_ He]].
  destruct r as [v|x|]; [| |done].
  - destruct Hr as [E Hsan]. split_and!; [|done|right; exists text, body; done].
    intros e' He'. rewrite E in He'. simplify_eq/=. by rewrite E.
  - rewrite He. apply wp_bind, wp_close, wp_throw. split_and!; [by intros e' [=]|done|].
    right. exists text, body. split_and!; [done..|]. destruct Hs as (pieces & E & Hf). exists pieces.
    cbn [snd]. by rewrite close_outbox.
Qed.

(** C16: framing is transparent: over an open authenticated connection, however
    the network splits the bytes, a reply is the JSON object in exactly the
    [n] bytes that follow the peer's 4-byte little-endian length [n], and exactly
    those bytes are consumed; lengths outside 1..2^20 are never accepted. *)
Theorem exchange_reassembles e q d n b rest :
  inbox n = frame b ++ rest -> Forall is_byte b -> zlen b < 2 ^ 32 ->
  wp (exchange_request e q d) (fun r s' =>
    forall v, r = Ok v -> json_loads b = Ok (PDict v) /\ inbox s'.2 = rest /\ 0 < zlen b <= 2 ^ 20)
    (mkTransport true (Some e), n).
Proof.
  intros Hi Hb Hlen. unfold exchange_request. apply wp_bind, wp_lift.
  destruct (dumps compact (PDict q)) as [text|x|]; [|done..].
  destruct (utf8_encode text) as [body|]; [|by apply wp_throw].
  destruct (65536 <? zlen body); [by apply wp_throw|]. apply wp_try_except.
  enough (Hgo : wp (exchange_frames e body d) (fun r s' =>
    forall v, r = Ok v -> json_loads b = Ok (PDict v) /\ inbox s'.2 = rest /\ 0 < zlen b <= 2 ^ 20)
    (mkTransport true (Some e), n)).
  { eapply wp_mono; [exact Hgo|]. intros [v|x|] s' Hv; [done| |done].
    destruct (_ || _); [|done]. by apply wp_bind, wp_close, wp_throw. }
  unfold exchange_frames. apply wp_bind. unfold wp at 1, tself, gets. cbn [fst snd t_endpoint t_socket].
  rewrite bool_decide_eq_true_2 by done. apply wp_bind, wp_ret.
  apply wp_bind, wp_remaining; [|done]. cbn [fst snd]. intros t n1 Hi1 _ _.
  apply wp_bind, wp_os. cbn [fst snd]. pose proof (settimeout_keeps t n1) as (Hi2 & _).
  destruct (settimeout t n1) as [[u|x|] n2]; cbn [fst snd] in *; [|done..].
  apply wp_bind, wp_os. cbn [fst snd]. pose proof (sendall_sends (frame body) n2) as (_ & Hi3 & _).
  destruct (sendall (frame body) n2) as [[u'|x|] n3]; cbn [fst snd] in *; [|done..].
  apply wp_bind. eapply wp_mono; [by apply receive_stream|].
  intros [head|x|] [t4 n4] [_ Hh]; [|done..]. cbn [snd] in Hh. destruct Hh as (h & -> & Hh & Hz).
  cbn [app] in *. rewrite Hi3, Hi2, Hi1, Hi in Hh. unfold frame in Hh. rewrite <- app_assoc in Hh.
  assert (Hlh : length (le_pack 4 (zlen b)) = length h) by (rewrite le_pack_length; unfold zlen in Hz; lia).
  apply app_inj_1 in Hh as [<- Hh]; [|done]. rewrite le_unpack_pack by (pose proof (zlen_nonneg b); lia).
  destruct (negb _) eqn:Hsz; [by apply wp_throw|]. apply negb_false_iff in Hsz. unbool.
  apply wp_bind. eapply wp_mono; [apply receive_stream; by apply zlen_nonneg|].
  intros [data|x|] [t5 n5] [_ Hd]; [|done..]. cbn [snd] in Hd. destruct Hd as (c & -> & Hd & Hz').
  cbn [app] in *. rewrite <- Hh in Hd. apply app_inj_1 in Hd as [<- Hd]; [|unfold zlen in Hz'; lia].
  apply wp_bind, wp_lift. destruct (json_loads b) as [v|x|] eqn:Hv; [|done..].
  destruct v; try (by apply wp_throw). apply wp_ret. intros v [= <-]. split_and!; [done|done|lia..].
Qed.
End Streams.

(** ** A concrete network: a peer that has already written its replies

    [recv] hands out at most [p_chunk] bytes at a time; the certificate presented
    is [p_cert]. *)
Record Pipe := mkPipe {
  p_time : Q; p_in : list Z; p_chunk : positive; p_cert : names; p_peer : names; p_out : list (names * list Z)
}.

Definition pipe_recv (k : Z) (n : Pipe) : pyres (list Z) * Pipe :=
  let b := take (Z.to_nat (Z.min k (Z.pos (p_chunk n)))) (p_in n) in
  (Ok b, mkPipe (p_time n) (drop (Z.to_nat (Z.min k (Z.pos (p_chunk n)))) (p_in n)) (p_chunk n) (p_cert n)
                (p_peer n) (p_out n)).

#[export] Instance pipe_sockets : Sockets Pipe := {
  now n := (p_time n, n);
  pause d n := mkPipe (p_time n + d) (p_in n) (p_chunk n) (p_cert n) (p_peer n) (p_out n);
  random_hex16 n := (py "00000000000000000000000000000001", n);
  create_connection _ _ _ n := (Ok tt, n);
  set_options _ n := (Ok tt, n);
  wrap_socket _ n := (Ok (p_cert n), mkPipe (p_time n) (p_in n) (p_chunk n) (p_cert n) (p_cert n) (p_out n));
  settimeout _ n := (Ok tt, n);
  sendall b n := (Ok tt, mkPipe (p_time n) (p_in n) (p_chunk n) (p_cert n) (p_peer n) (p_out n ++ [(p_peer n, b)]));
  recv := pipe_recv;
  close_socket n := n
}.

#[export] Instance pipe_laws : SocketsLaws Pipe.
Proof.
  refine {| time := p_time |}; try done; intros; simpl; try lra.
  unfold pipe_recv in *. simpl in *. simplify_eq. unfold zlen. rewrite length_take. lia.
Defined.

#[export] Instance pipe_streams : Streams Pipe.
Proof.
  refine {| inbox := p_in; peer := p_peer; outbox := p_out |}; try done.
  - intros k n b [= <-]. symmetry. apply take_drop.
  - intros b n. split_and!; [done|done|]. exists [(p_peer n, b)]. split; [done|]. right.
    exists b, []. by rewrite app_nil_r.
  - intros s n sans [= <-]. done.
Defined.

Module PipeDemo.
Definition server : Endpoint := mkEndpoint (py "db.test:7401") (py "db.test").
Definition reply : list Z := py "{'status': 'ok'}".
Definition reply_json : list Z := (fun c => if c =? 39 then 34 else c) <$> reply.
Definition net : Pipe :=
  mkPipe 0 (frame reply_json ++ [1; 2]) 3 [(py "DNS", py "db.test")] [(py "DNS", py "db.test")] [].
Definition request : dict := mkdict [("op", PStr (py "status"))].
End PipeDemo.

Example exchange_authenticated_witness :
  wp (exchange_request PipeDemo.server PipeDemo.request 5) (fun r s' =>
    authenticated s' /\
    match r with
    | Ok _ => s'.1 = mkTransport true (Some PipeDemo.server)
    | Raise (ConnectionError _) => s'.1 = Transport_new
    | _ => s' = (Transport_new, PipeDemo.net)
    end /\
    (s' = (Transport_new, PipeDemo.net) \/ exists text body,
       dumps compact (PDict PipeDemo.request) = Ok text /\ utf8_encode text = Some body /\
       zlen body <= 65536 /\ sent_to PipeDemo.server (frame body) PipeDemo.net s'.2))
    (Transport_new, PipeDemo.net).
Proof. apply (exchange_authenticated _ _ _ (Transport_new, PipeDemo.net)). by intros e [=]. Defined.

Example exchange_reassembles_witness :
  wp (exchange_request PipeDemo.server PipeDemo.request 5) (fun r s' =>
    forall v, r = Ok v -> json_loads PipeDemo.reply_json = Ok (PDict v) /\ inbox s'.2 = [1; 2] /\
                          0 < zlen PipeDemo.reply_json <= 2 ^ 20)
    (mkTransport true (Some PipeDemo.server), PipeDemo.net).
Proof.
  apply exchange_reassembles; [reflexivity|repeat constructor; done|vm_compute; reflexivity].
Defined.

(** Three-byte chunks, and the reply is whole. *)
Example exchange_demo :
  (exchange_request PipeDemo.server PipeDemo.request 5 (Transport_new, PipeDemo.net)).1 =
    Ok (mkdict [("status", PStr (py "ok"))]).
Proof. vm_compute. reflexivity. Qed.
