(* ===== verification/DbapiTheorems.v ===== *)
(** * Lemmas about the DB-API adapter

    What each operation does to the adapter's state, to the native connection
    and, through it, to the writes the service has applied. *)

From Corelib Require Import Floats.SpecFloat.
From S2P Require Import Prelude PyStr PyFloat Objects Json Bytes Vector Parameters Results Net Client Transaction ClientProofs ClientFrames ExactlyOnce Search Dbapi.

(** ** Bodies end *)

Lemma body_parts_ends l texts vs : body_parts l texts vs <> OutOfFuel.
Proof.
  revert texts vs. induction l as [|[sql ps] l IH]; intros texts vs; cbn [body_parts]; [done|].
  apply res_bind_total; [apply prepare_ends|auto].
Qed.

Lemma body_ends l : _body l <> OutOfFuel.
Proof.
  unfold _body. apply res_bind_total; [apply body_parts_ends|intros [texts vs] _].
  apply res_bind_total; [by res_total|intros _ _]. by res_total.
Qed.

Lemma span_word_length s w r : span_word s = (w, r) -> (length r <= length s)%nat.
Proof.
  revert w r. induction s as [|c s IH]; intros w r; cbn [span_word]; [by intros [= <- <-]|].
  destruct (_ || _); [|by intros [= <- <-]]. destruct (span_word s) as [w' r'] eqn:E.
  intros [= <- <-]. specialize (IH _ _ eq_refl). simpl. lia.
Qed.

Lemma skip_quote_length q s t r : skip_quote q s = Some (t, r) -> (length r < length s)%nat.
Proof.
  intros Hs. apply skip_quote_sound in Hs as (b & -> & _). rewrite length_app. simpl. lia.
Qed.

Lemma kind_scan_ends f depth words s : (length s < f)%nat -> kind_scan f depth words s <> OutOfFuel.
Proof.
  revert depth words s. induction f as [|f IH]; intros depth words s Hf; [lia|]. cbn [kind_scan].
  destruct s as [|c s]; [done|]. simpl in Hf.
  destruct (is_prefix (py "--") (c :: s)) eqn:Hl.
  { destruct (find_sub [10] (c :: s)) as [[pre post]|] eqn:E; [|apply IH; simpl; lia].
    apply find_sub_split in E as [E [t ->]]. apply IH. destruct pre as [|x pre].
    - apply (f_equal (fun l => l)) in E. cbn [app] in E. injection E as -> ->.
      by change (py "--") with [45; 45] in Hl.
    - apply (f_equal length) in E. rewrite length_app in E. simpl in E |- *. lia. }
  destruct (is_prefix (py "/*") (c :: s)).
  { destruct (find_sub (py "*/") (drop 2 (c :: s))) as [[pre post]|] eqn:E; [|done].
    apply find_sub_split in E as [E _]. apply IH. apply (f_equal length) in E.
    rewrite length_drop, length_app in E. simpl in E. rewrite length_drop. lia. }
  destruct (is_quote c).
  { destruct (skip_quote _ s) as [[t r]|] eqn:E; [|done]. apply skip_quote_length in E. apply IH. lia. }
  destruct (c =? 40); [apply IH; lia|]. destruct (c =? 41); [apply IH; lia|].
  destruct (_ && _); [apply IH; lia|]. destruct (_ && _); [|apply IH; lia].
  destruct (span_word s) as [w r] eqn:E. apply span_word_length in E. apply IH. lia.
Qed.

Lemma kind_ends sql : _kind sql <> OutOfFuel.
Proof.
  unfold _kind. apply res_bind_total; [apply kind_scan_ends; lia|intros [depth words] _].
  apply res_bind_total; [apply guard_total|intros _ _]. apply res_bind_total; [apply guard_total|intros _ _].
  by res_total.
Qed.

(** ** Reading through the native connection *)

Section Adapter.
Context {W : Type} `{Service W}.

(** What reading does to the native connection: nothing a write depends on. *)
Definition peaceful (s s' : Conn * W) : Prop := keeps s s' /\ unwritten s s'.

#[global] Instance peaceful_frame : Frame peaceful.
Proof.
  pose proof keeps_frame as HK. pose proof unwritten_frame as HU.
  split; unfold peaceful.
  - split; [by split|]. intros s1 s2 s3 [] []. split; etransitivity; eauto.
  - intros. split; apply frame_monotonic.
  - intros. split; apply frame_sleep.
  - intros. split; apply frame_tclose.
  - intros. split; by apply frame_exchange.
  - intros. split; by apply frame_index.
  - intros. split; by apply frame_epoch.
  - intros s s' [Hk _]. by apply (frame_timeout (R:=keeps)).
  - intros. split; apply frame_closed.
  - intros c w c' w' []. split; by apply frame_lock.
Qed.

(** The adapter's state after reading: a transaction may have begun, or failed. *)
Definition touched (d d' : DConn) : Prop :=
  exists v f, d' = mkD (d_closed d) (d_autocommit d) v (d_statements d) (d_savepoints d) f /\
              (d_version d = None \/ v = d_version d).

Lemma touched_refl d : touched d d.
Proof. exists (d_version d), (d_failed d). destruct d; simpl; auto. Qed.

Lemma touched_trans d1 d2 d3 : touched d1 d2 -> touched d2 d3 -> touched d1 d3.
Proof. intros (v1 & f1 & -> & H1') (v2 & f2 & -> & H2'). exists v2, f2. simpl in *. split; [done|]. intuition congruence. Qed.

Lemma touched_failed b d : touched d (d_set_failed b d).
Proof. exists (d_version d), b. auto. Qed.

Definition cleared (d : DConn) : DConn := mkD (d_closed d) (d_autocommit d) None [] [] false.

(** Symbolic execution of the adapter's primitives. *)
Lemma wp_dself Q s : Q (Ok s.1) s -> wp (dself : D W DConn) Q s.
Proof. done. Qed.
Lemma wp_dupdate f (Q : pyres unit -> DConn * (Conn * W) -> Prop) s :
  Q (Ok tt) (f s.1, s.2) -> wp (dupdate f) Q s.
Proof. done. Qed.
Lemma wp_native {A} (m : C W A) (Q : pyres A -> DConn * (Conn * W) -> Prop) s :
  wp m (fun r c => Q r (s.1, c)) s.2 -> wp (native m) Q s.
Proof. unfold wp, native. by destruct (m s.2). Qed.
Lemma wp_native_pending Q s : Q (Ok (c_pending s.2.1)) s -> wp (native_pending : D W _) Q s.
Proof. done. Qed.
Lemma wp_raise_translated {A} e (Q : pyres A -> DConn * (Conn * W) -> Prop) s :
  Q (Raise (_translate e (c_pending s.2.1))) s -> wp (raise_translated e) Q s.
Proof. done. Qed.

Lemma wp_d_ready b (Q : pyres unit -> DConn * (Conn * W) -> Prop) s :
  (forall e, Q (Raise e) s) ->
  (d_closed s.1 = false -> c_pending s.2.1 = None -> Q (Ok tt) s) -> wp (d_ready b) Q s.
Proof.
  intros He Hok. unfold d_ready. apply wp_bind, wp_dself.
  destruct (d_closed s.1); [by apply wp_throw|]. apply wp_bind, wp_native_pending.
  destruct (c_pending s.2.1); [by apply wp_throw|]. destruct (_ && _); [by apply wp_throw|].
  by apply wp_ret, Hok.
Qed.

(** A computation that reads; once it returns, a transaction is open. *)
Definition reading {A} (m : D W A) : Prop :=
  forall s, (c_timeout s.2.1 <= 60)%Q ->
  wp m (fun r s' => r <> OutOfFuel /\ touched s.1 s'.1 /\ peaceful s.2 s'.2 /\
                    (forall a, r = Ok a -> d_version s'.1 <> None)) s.

Lemma peaceful_timeout s s' : peaceful s s' -> (c_timeout s.1 <= 60)%Q -> (c_timeout s'.1 <= 60)%Q.
Proof. intros HR. by rewrite (frame_timeout (R:=peaceful) _ _ HR). Qed.

Lemma reading_begin : reading d_begin.
Proof.
  intros [d n] Ht. cbn [fst snd] in *. unfold d_begin. apply wp_bind, wp_d_ready.
  { intros e. split_and!; [done|apply touched_refl|reflexivity|done]. }
  intros _ _. apply wp_bind, wp_dself. cbn [fst snd]. destruct (d_version d) as [v|] eqn:Hv.
  { apply wp_ret. split_and!; [done|apply touched_refl|reflexivity|]. cbn [fst]. congruence. }
  apply wp_bind, wp_try_except, wp_native. cbn [fst snd].
  eapply wp_mono; [by apply (stable_begin peaceful)|]. intros [v|e|] n' [Hr HR]; cbn [fst snd] in *; [|..|done].
  - apply wp_dupdate. cbn [fst snd]. split_and!; try done.
    exists (Some v), (d_failed d). auto.
  - destruct (isinstance e CError).
    + apply wp_bind, wp_dupdate, wp_raise_translated. split_and!; [done|apply touched_failed|done|done].
    + split_and!; [done|apply touched_refl|done|done].
Qed.

Lemma reading_preview statements q : reading (d_preview statements q).
Proof.
  intros [d n] Ht. cbn [fst snd] in *.
  assert (Hstay : forall A (r : pyres A), r <> OutOfFuel -> (forall a, r <> Ok a) ->
    r <> OutOfFuel /\ touched d d /\ peaceful n n /\ (forall a, r = Ok a -> d_version d <> None)).
  { intros A r Hr Hn. split_and!; [done|apply touched_refl|reflexivity|]. by intros a ?%Hn. }
  unfold d_preview. apply wp_bind, wp_lift. pose proof (body_ends statements).
  destruct (_body statements) as [bp|e|]; [|by apply Hstay|done].
  apply wp_bind, wp_lift. destruct (match q with Some _ => _ | None => _ end) as [tb|e|] eqn:Hq; [|by apply Hstay|].
  2: { exfalso. destruct q as [[text vs]|]; [|done]. destruct (bool_decide _); [done|]. by eapply prepare_ends. }
  apply wp_bind. eapply wp_mono; [by apply reading_begin|].
  intros [u|e|] [d1 n1] (Hr & Ht1 & HR & Hv); cbn [fst snd] in *; [|split_and!; done|done].
  apply wp_bind, wp_dself, wp_native. cbn [fst snd].
  eapply wp_mono; [apply (stable_preview peaceful); by eapply peaceful_timeout|].
  intros r n2 [Hr2 HR2]. cbn [fst snd]. split_and!; [done|done|by etransitivity|]. intros a _. by apply (Hv u).
Qed.

(** ** Committing *)

(** The one write a list of statements amounts to. *)
Definition batch_body (statements : list (pystr * list pyval)) : option body :=
  if bool_decide (statements = []) then None
  else match _body statements with Ok bv => body_for bv.1 bv.2 | _ => None end.

(** How [commit] leaves things: the batch is applied and the transaction over, or
    nothing is and the transaction is as it was, marked failed if it had begun
    to commit. *)
Definition committed (log : list body) (d : DConn) (n : Conn * W) (r : pyres unit) (s' : DConn * (Conn * W)) : Prop :=
  r <> OutOfFuel /\ keeps n s'.2 /\
  match r with
  | Ok _ => s'.1 = cleared d /\ abstracts (log ++ option_list (batch_body (d_statements d))) s'.2
  | _ => (s'.1 = d \/ s'.1 = d_set_failed true d) /\ abstracts log s'.2
  end.

(** The [try] block of [commit]. *)
Lemma submit_spec log d n :
  Inv n.1 -> abstracts log n ->
  wp (let! d := dself in
      if bool_decide (d_statements d = []) then ret tt
      else
        let! bv := lift (_body (d_statements d)) in
        do! native (with_lock (_execute_prepared bv.1 bv.2 (default 0 (d_version d))));;
        ret tt)
     (fun r s' => r <> OutOfFuel /\ s'.1 = d /\ keeps n s'.2 /\
        logged (batch_body (d_statements d)) log r s'.2) (d, n).
Proof.
  intros HI Ha. assert (Ht : (c_timeout n.1 <= 60)%Q) by apply HI.
  apply wp_bind, wp_dself. cbn [fst]. unfold batch_body. case_bool_decide as Hs.
  { apply wp_ret. cbn [logged option_list]. by rewrite app_nil_r. }
  apply wp_bind, wp_lift. pose proof (body_ends (d_statements d)) as Hb.
  destruct (_body (d_statements d)) as [bv|e|]; [|by split_and!|done].
  apply wp_bind, wp_native. cbn [fst snd].
  eapply wp_mono; [apply wp_and|].
  - by apply (stable_with_lock keeps _ (stable_execute_prepared bv.1 bv.2 (default 0 (d_version d))) n).
  - apply logged_with_lock, (execute_prepared_once bv.1 bv.2 (default 0 (d_version d)) log); [by apply Inv_lock|].
    by destruct n.
  - intros [wr|e|] n' [[Hr Hk] Hl]; [apply wp_ret|..]; by split_and!.
Qed.

Lemma commit_spec log d n :
  Inv n.1 -> abstracts log n -> wp commit (committed log d n) (d, n).
Proof.
  intros HI Ha. unfold commit. apply wp_bind, wp_d_ready.
  { intros e. by split_and!; [..|left|]. }
  intros _ _. apply wp_bind, wp_try_except. eapply wp_mono; [by apply submit_spec|].
  intros [u|e|] [d' n'] (Hr & Hd & Hk & Hl); cbn [fst snd] in *; subst d'; [by apply wp_dupdate| |done].
  destruct (client_failure e).
  - apply wp_bind, wp_dupdate, wp_raise_translated. by split_and!; [..|right|].
  - by split_and!; [..|left|].
Qed.

(** ** Cursors *)

Lemma wp_kself Q (s : Cursor * (DConn * (Conn * W))) : Q (Ok s.1) s -> wp (kself : K W Cursor) Q s.
Proof. done. Qed.
Lemma wp_kupdate f (Q : pyres unit -> Cursor * (DConn * (Conn * W)) -> Prop) s :
  Q (Ok tt) (f s.1, s.2) -> wp (kupdate f) Q s.
Proof. done. Qed.
Lemma wp_on_db {A} (m : D W A) (Q : pyres A -> Cursor * (DConn * (Conn * W)) -> Prop) s :
  wp m (fun r d => Q r (s.1, d)) s.2 -> wp (on_db m) Q s.
Proof. unfold wp, on_db. by destruct (m s.2). Qed.

Lemma wp_k_ready (Q : pyres unit -> Cursor * (DConn * (Conn * W)) -> Prop) s :
  (forall e, Q (Raise e) s) ->
  (d_closed s.2.1 = false -> c_pending s.2.2.1 = None -> Q (Ok tt) s) -> wp k_ready Q s.
Proof.
  intros He Hok. unfold k_ready. apply wp_bind, wp_kself. destruct (k_closed s.1); [by apply wp_throw|].
  apply wp_on_db, wp_d_ready; destruct s; auto.
Qed.

Lemma preview_rows_ends d : preview_rows d <> OutOfFuel.
Proof.
  unfold preview_rows. do 3 (apply res_bind_total; [apply getitem_ends || apply py_iter_ends|intros ? _]).
  apply res_bind_total; [|intros ? _; apply res_bind_total; [apply py_iter_ends|done]].
  apply map_res_ends. intros row. apply res_bind_total; [apply py_iter_ends|intros ? _].
  apply map_res_ends, decode_ends.
Qed.

(** The adapter after a failed [execute]: the two [except] clauses. *)
Definition failing (d d' : DConn) : Prop :=
  d' = d \/ d' = d_set_failed true d \/ (d_autocommit d = true /\ d' = cleared d).

Lemma wp_after_failure e (Q : pyres unit -> Cursor * (DConn * (Conn * W)) -> Prop) s :
  (forall e d', failing s.2.1 d' -> Q (Raise e) (s.1, (d', s.2.2))) ->
  wp (try_except (throw e) after_failure) Q s.
Proof.
  destruct s as [k [d n]]. cbn [fst snd]. intros HQ. apply wp_try_except, wp_throw. unfold after_failure.
  assert (Hd0 : failing d d) by by left.
  assert (Hd1 : failing d (d_set_failed true d)) by by right; left.
  destruct (client_failure e); [|destruct (isinstance e (CDb DBError)); [|by apply HQ]].
  - apply wp_bind, wp_on_db, wp_dself. apply wp_bind, wp_on_db, wp_native_pending. cbn [fst snd].
    apply wp_bind. destruct (d_autocommit d && _) eqn:Ha.
    + apply wp_on_db, wp_dupdate, wp_on_db, wp_raise_translated. cbn [fst snd]. apply HQ.
      unbool. by right; right.
    + unfold when. destruct (_ || _); [apply wp_on_db, wp_dupdate|apply wp_ret];
        apply wp_on_db, wp_raise_translated; by apply HQ.
  - apply wp_bind, wp_on_db, wp_dself. apply wp_bind, wp_on_db, wp_native_pending. cbn [fst snd].
    apply wp_bind. unfold when. destruct (d_autocommit d && _) eqn:Ha.
    + apply wp_on_db, wp_dupdate, wp_throw, HQ. unbool. by right; right.
    + apply wp_ret, wp_throw. by apply HQ.
Qed.

(** A handled computation, from one where [m] raises [e]. *)
Lemma wp_handled {E S A} (m : M E S A) h (Q : res E A -> S -> Prop) s :
  wp m (fun r s' => match r with
                    | Raise e => wp (try_except (throw e) h) Q s'
                    | _ => Q r s'
                    end) s -> wp (try_except m h) Q s.
Proof. intros Hm. apply wp_try_except. eapply wp_mono; [exact Hm|].
  intros [a|e|] s' HQ; [done| |done]. unfold wp, try_except, throw in HQ. by destruct (h e).
Qed.

Definition timely (s : Cursor * (DConn * (Conn * W))) : Prop := (c_timeout s.2.2.1 <= 60)%Q.

Lemma run_query_spec op ps s :
  timely s ->
  wp (run_query op ps) (fun r s' => r <> OutOfFuel /\ touched s.2.1 s'.2.1 /\ peaceful s.2.2 s'.2.2) s.
Proof.
  destruct s as [k [d n]]. unfold timely. cbn [fst snd]. intros Ht. unfold run_query.
  apply wp_bind, wp_on_db, wp_dself. cbn [fst snd]. apply wp_bind. destruct (d_autocommit d).
  - apply wp_bind, wp_on_db, wp_native. cbn [fst snd].
    eapply wp_mono; [by apply (stable_query peaceful)|]. intros [rs|e|] n' [Hr HR]; [|split_and!; auto using touched_refl..].
    apply wp_ret, wp_kupdate. split_and!; auto using touched_refl.
  - apply wp_bind, wp_on_db. eapply wp_mono; [by apply reading_preview|].
    intros [dict|e|] [d' n'] (Hr & Hd & HR & _); cbn [fst snd] in *; [|split_and!; done|done].
    apply wp_lift. pose proof (preview_rows_ends dict).
    destruct (preview_rows dict) as [nr|e|]; [apply wp_kupdate|..]; by split_and!.
Qed.

(** A previewed write is recorded: [cand] is the new list of statements. *)
Definition recorded (cand : list (pystr * list pyval)) (d d' : DConn) : Prop :=
  touched (d_set_statements cand d) d' /\ d_version d' <> None.

(** [run_write] up to its commit. *)
Definition record_write (op : pystr) (ps : pyval) : K W unit :=
  let! d := on_db dself in
  let! vs := lift (py_iter ps) in
  let candidate := d_statements d ++ [(op, vs)] in
  let! result := on_db (d_preview candidate None) in
  do! on_db (dupdate (d_set_statements candidate));;
  let! changes := lift (int_field "changes" result) in
  let! rowid := lift (getitem "lastrowid" result) in
  kupdate (k_set_counts changes rowid).

Lemma wp_run_write op ps Q s :
  wp (record_write op ps)
     (fun r s' => match r with
                  | Ok _ => wp (when (d_autocommit s'.2.1) (on_db commit)) Q s'
                  | Raise e => Q (Raise e) s'
                  | OutOfFuel => Q OutOfFuel s'
                  end) s ->
  wp (run_write op ps) Q s.
Proof.
  assert (Htail : forall d s', wp (when (d_autocommit d) (on_db commit)) Q s' ->
    wp (do! when (d_autocommit d) (on_db commit);; ret tt) Q s').
  { intros d s' Hw. apply wp_bind. eapply wp_mono; [exact Hw|]. by intros [[]|e|] s'' HQ. }
  unfold record_write, run_write, wp, bind, lift, on_db, dself, gets, dupdate, kupdate, modify. cbn [fst snd].
  destruct (py_iter ps) as [vs|e|]; [|done..].
  destruct (d_preview _ _ _) as [[dict|e|] d']; [|done..]. cbn [fst snd].
  destruct (int_field "changes" dict) as [n|e|]; [|done..].
  destruct (getitem "lastrowid" dict) as [v|e|]; [|done..]. apply Htail.
Qed.

Lemma record_write_spec op ps k d n :
  (c_timeout n.1 <= 60)%Q ->
  wp (record_write op ps)
     (fun r s' => r <> OutOfFuel /\ peaceful n s'.2.2 /\
        ((touched d s'.2.1 /\ forall u, r <> Ok u) \/
         exists vs, py_iter ps = Ok vs /\ recorded (d_statements d ++ [(op, vs)]) d s'.2.1)) (k, (d, n)).
Proof.
  intros Ht. unfold record_write. apply wp_bind, wp_on_db, wp_dself, wp_bind, wp_lift. cbn [fst snd].
  pose proof (py_iter_ends ps) as Hps. destruct (py_iter ps) as [vs|e|] eqn:Hvs; [|split_and!; auto using touched_refl; reflexivity|done].
  apply wp_bind, wp_on_db. eapply wp_mono; [by apply reading_preview|].
  intros [dict|e|] [d' n'] (Hr & Hd & HR & Hv); cbn [fst snd] in *; [|split_and!; auto|done].
  apply wp_bind, wp_on_db, wp_dupdate. cbn [fst snd].
  assert (Hrec : recorded (d_statements d ++ [(op, vs)]) d (d_set_statements (d_statements d ++ [(op, vs)]) d')).
  { specialize (Hv _ eq_refl). split; [|exact Hv]. destruct Hd as (v & f & -> & Hver). exists v, f. auto. }
  apply wp_bind, wp_lift. pose proof (int_field_ends "changes" dict).
  destruct (int_field "changes" dict) as [m|e|]; [|split_and!; eauto|done].
  apply wp_bind, wp_lift. pose proof (getitem_ends "lastrowid" dict).
  destruct (getitem "lastrowid" dict) as [v|e|]; [apply wp_kupdate|..]; split_and!; eauto.
Qed.

(** Lifts a postcondition over the two [except] clauses. *)
Definition unless_failing {A} (Q : pyres A -> Cursor * (DConn * (Conn * W)) -> Prop)
    (r : pyres A) (s : Cursor * (DConn * (Conn * W))) : Prop :=
  match r with
  | Raise _ => forall e d', failing s.2.1 d' -> Q (Raise e) (s.1, (d', s.2.2))
  | _ => Q r s
  end.

Lemma wp_k_execute op ps (Q : pyres unit -> Cursor * (DConn * (Conn * W)) -> Prop) k d n :
  (forall e k', Q (Raise e) (k', (d, n))) ->
  (forall k', _kind op = Ok KQuery -> wp (run_query op ps) (unless_failing Q) (k', (d, n))) ->
  (forall k', _kind op = Ok KExecute -> wp (run_write op ps) (unless_failing Q) (k', (d, n))) ->
  wp (k_execute op ps) Q (k, (d, n)).
Proof.
  intros He Hq Hw. unfold k_execute. apply wp_bind, wp_k_ready; [intros; apply He|]. intros _ _.
  apply wp_bind, wp_kupdate. cbn [fst snd].
  assert (Hrun : wp (let! kind := lift (_kind op) in
     try_except (match kind with KQuery => run_query op ps | KExecute => run_write op ps end) after_failure)
     Q (k_reset (-1) k, (d, n))).
  { apply wp_bind, wp_lift. pose proof (kind_ends op). destruct (_kind op) as [kind|e|] eqn:Hk; [|by apply He|done].
    apply wp_handled. apply (wp_mono _ (unless_failing Q)).
    - destruct kind; auto.
    - intros [u|e|] s' HQ; [done| |done]. by apply wp_after_failure. }
  destruct ps; try exact Hrun. by apply wp_throw.
Qed.

(** What one [execute] adds to the transaction. *)
Definition plan (op : pystr) (ps : pyval) : list (pystr * list pyval) :=
  match _kind op, py_iter ps with
  | Ok KExecute, Ok vs => [(op, vs)]
  | _, _ => []
  end.

Lemma plan_write op ps vs : _kind op = Ok KExecute -> py_iter ps = Ok vs -> plan op ps = [(op, vs)].
Proof. unfold plan. by intros -> ->. Qed.
Lemma plan_query op ps : _kind op = Ok KQuery -> plan op ps = [].
Proof. unfold plan. by intros ->. Qed.

Lemma failing_touched d d' : d_autocommit d = false -> failing d d' -> touched d d'.
Proof. intros Ha [->|[->|[? _]]]; [apply touched_refl|apply touched_failed|congruence]. Qed.

Lemma touched_autocommit d d' : touched d d' -> d_autocommit d' = d_autocommit d.
Proof. by intros (v & f & -> & _). Qed.

(** Inside a transaction, executing a statement records it or not, and writes nothing. *)
Definition grown (extra : list (pystr * list pyval)) {A} (r : pyres A) (d d' : DConn) : Prop :=
  (touched d d' /\ forall u, r = Ok u -> extra = []) \/
  (extra <> [] /\ recorded (d_statements d ++ extra) d d').

Lemma grown_failing extra (r : pyres unit) e d d1 d2 :
  d_autocommit d = false -> grown extra r d d1 -> failing d1 d2 -> grown extra (@Raise exn unit e) d d2.
Proof.
  intros Ha [[Ht _]|(Hx & Ht & Hv)] Hf.
  - left. split; [|done]. eapply touched_trans; [exact Ht|]. apply failing_touched; [|done].
    by rewrite (touched_autocommit _ _ Ht).
  - right. split; [done|].
    assert (Ha1 : d_autocommit d1 = false) by by rewrite (touched_autocommit _ _ Ht).
    split; [by eapply touched_trans, failing_touched|].
    destruct (failing_touched _ _ Ha1 Hf) as (v & f & -> & [Hn | ->]); done.
Qed.

Lemma k_execute_tx op ps k d n :
  d_autocommit d = false -> (c_timeout n.1 <= 60)%Q ->
  wp (k_execute op ps)
     (fun r s' => r <> OutOfFuel /\ peaceful n s'.2.2 /\ grown (plan op ps) r d s'.2.1 /\
                  (forall u, r = Ok u -> _kind op = Ok KExecute -> plan op ps <> [])) (k, (d, n)).
Proof.
  intros Ha Ht. set (Q := fun (r : pyres unit) (s' : Cursor * (DConn * (Conn * W))) =>
    r <> OutOfFuel /\ peaceful n s'.2.2 /\ grown (plan op ps) r d s'.2.1 /\
    (forall u, r = Ok u -> _kind op = Ok KExecute -> plan op ps <> [])).
  assert (Hlift : forall (m : K W unit) k', wp m Q (k', (d, n)) -> wp m (unless_failing Q) (k', (d, n))).
  { intros m k' Hm. eapply wp_mono; [exact Hm|]. intros [u|e|] [k1 [d1 n1]] HQ; [exact HQ| |exact HQ].
    intros e' d' Hf. destruct HQ as (Hr & HR & Hg & _). cbn [fst snd] in *. split_and!; [done|done|by eapply grown_failing|done]. }
  apply wp_k_execute.
  - intros e k'. split_and!; [done|reflexivity| |done]. left. split; [apply touched_refl|done].
  - intros k' Hk. apply Hlift. eapply wp_mono; [by apply run_query_spec|].
    intros r s' (Hr & Hd & HR). split_and!; [done|done| |by rewrite Hk].
    left. split; [done|]. intros u _. by apply plan_query.
  - intros k' Hk. apply Hlift. apply wp_run_write. eapply wp_mono; [by apply record_write_spec|].
    intros r [k1 [d1 n1]] (Hr & HR & Hg). cbn [fst snd] in *.
    assert (HQ : Q r (k1, (d1, n1))).
    { unfold Q, grown. destruct Hg as [[Hd Hn]|(vs & Hvs & Hrec)]; [|rewrite (plan_write op ps vs) by done];
        cbn [fst snd]; (split_and!; [done|done|..]); [left|by intros u ?%Hn|by right|done].
      split; [done|]. by intros u ?%Hn. }
    assert (Ha1 : d_autocommit d1 = false).
    { destruct Hg as [[Hd _]|(vs & _ & Hd & _)]; by rewrite (touched_autocommit _ _ Hd). }
    destruct r as [[]|e|]; [|done..]. rewrite Ha1. by apply wp_ret.
Qed.

(** With autocommit, executing a write also commits the batch it completes. *)
Definition auto_body (d : DConn) (extra : list (pystr * list pyval)) : option body :=
  if bool_decide (extra = []) then None else batch_body (d_statements d ++ extra).

(** A statement was recorded, or none was. *)
Definition maybe_recorded (extra : list (pystr * list pyval)) (d d' : DConn) : Prop :=
  touched d d' \/ (extra <> [] /\ recorded (d_statements d ++ extra) d d').

Lemma logged_peaceful {A} log b (r : pyres A) n n' :
  peaceful n n' -> abstracts log n -> (forall a, r = Ok a -> b = None) -> logged b log r n'.
Proof.
  intros [_ Hu] Ha Hb. assert (abstracts log n') by by eapply abstracts_unwritten.
  destruct r; [rewrite (Hb _ eq_refl)|..]; simpl; by rewrite ?app_nil_r.
Qed.

Lemma maybe_recorded_failing extra d d1 d2 :
  maybe_recorded extra d d1 -> failing d1 d2 -> maybe_recorded extra d d2 \/ d2 = cleared d.
Proof.
  assert (Hc : forall l d0, touched (d_set_statements l d) d0 -> cleared d0 = cleared d)
    by by intros l d0 (v & f & -> & _).
  intros Hd [->|[->|[_ ->]]]; [by left|left|right].
  - destruct Hd as [Ht|(Hx & Ht & Hv)]; [left|right; split; [done|split; [|done]]];
      (eapply touched_trans; [exact Ht|apply touched_failed]).
  - destruct Hd as [Ht|(Hx & Ht & Hv)]; [|by eapply Hc]. apply (Hc (d_statements d)). by destruct d.
Qed.

(** What an [execute] with autocommit leaves. *)
Definition auto_executed (extra : list (pystr * list pyval)) (log : list body) d (n : Conn * W)
    (r : pyres unit) (s' : Cursor * (DConn * (Conn * W))) : Prop :=
  r <> OutOfFuel /\ keeps n s'.2.2 /\ logged (auto_body d extra) log r s'.2.2 /\
  (maybe_recorded extra d s'.2.1 \/ s'.2.1 = cleared d).

Lemma maybe_recorded_auto extra d d' : maybe_recorded extra d d' -> d_autocommit d' = d_autocommit d.
Proof. intros [(v & f & -> & _)|(_ & (v & f & -> & _) & _)]; done. Qed.

Lemma auto_commit extra log d d1 n n1 k :
  extra <> [] -> recorded (d_statements d ++ extra) d d1 -> Inv n.1 -> keeps n n1 -> abstracts log n1 ->
  wp (on_db commit) (unless_failing (auto_executed extra log d n)) (k, (d1, n1)).
Proof.
  intros Hx Hrec HI Hk Ha. assert (Hst : d_statements d1 = d_statements d ++ extra).
  { by destruct Hrec as [(v & f & -> & _) _]. }
  apply wp_on_db. eapply wp_mono; [apply (commit_spec log); [by apply Hk|done]|].
  intros [[]|e|] [d2 n2] (Hr & Hk2 & Hres); cbn [fst snd] in *; [|..|done].
  - destruct Hres as [-> Habs]. split_and!; [done|by etransitivity| |right].
    + unfold auto_body. rewrite bool_decide_eq_false_2 by done. by rewrite <- Hst.
    + by destruct Hrec as [(v & f & -> & _) _].
  - destruct Hres as [Hd Habs]. intros e' d' Hf. cbn [fst snd] in *.
    split_and!; [done|by etransitivity|done|].
    apply (maybe_recorded_failing extra d d2); [|done].
    destruct Hd as [-> | ->]; [by right|].
    right. split; [done|]. split; [|by apply Hrec]. eapply touched_trans; [apply Hrec|apply touched_failed].
Qed.

Lemma k_execute_auto log op ps k d n :
  d_autocommit d = true -> Inv n.1 -> abstracts log n ->
  wp (k_execute op ps) (auto_executed (plan op ps) log d n) (k, (d, n)).
Proof.
  intros Hau HI Ha. assert (Ht : (c_timeout n.1 <= 60)%Q) by apply HI.
  assert (Hfail : forall e n1 d1 d2 k1, peaceful n n1 -> maybe_recorded (plan op ps) d d1 -> failing d1 d2 ->
            auto_executed (plan op ps) log d n (Raise e) (k1, (d2, n1))).
  { intros e n1 d1 d2 k1 HR Hm Hf. split_and!; [done|apply HR|by eapply (logged_peaceful log _ (Raise e))|].
    by eapply maybe_recorded_failing. }
  apply wp_k_execute.
  - intros e k'. apply (Hfail _ _ d); [reflexivity|left; apply touched_refl|by left].
  - intros k' Hk. eapply wp_mono; [by apply run_query_spec|]. intros [u|e|] [k1 [d1 n1]] (Hr & Hd & HR); [|..|done].
    + split_and!; [done|apply HR| |by left; left]. eapply logged_peaceful; [done..|].
      intros _ _. unfold auto_body. by rewrite plan_query.
    + intros e' d' Hf. cbn [fst snd] in *. eapply Hfail; [done| |done]. by left.
  - intros k' Hk. apply wp_run_write. eapply wp_mono; [by apply record_write_spec|].
    intros r [k1 [d1 n1]] (Hr & HR & Hg). cbn [fst snd] in *.
    assert (Hm : maybe_recorded (plan op ps) d d1).
    { destruct Hg as [[Hd Hn]|(vs & Hvs & Hrec)]; [by left|right]. by rewrite (plan_write op ps vs). }
    destruct r as [[]|e|]; [| |done].
    + rewrite (maybe_recorded_auto _ _ _ Hm), Hau. unfold when.
      destruct Hg as [[Hd Hn]|(vs & Hvs & Hrec)]; [by destruct (Hn tt)|].
      apply auto_commit; [by rewrite (plan_write op ps vs)|by rewrite (plan_write op ps vs)|done|apply HR|].
      by eapply abstracts_unwritten; [apply HR|].
    + intros e' d' Hf. by eapply Hfail.
Qed.

(** ** [executemany] *)

(** The transaction holds [extra] more statements. *)
Definition extends (extra : list (pystr * list pyval)) (d d' : DConn) : Prop :=
  touched (d_set_statements (d_statements d ++ extra) d) d' /\ (extra <> [] -> d_version d' <> None).

Lemma extends_nil d d' : extends [] d d' <-> touched d d'.
Proof.
  unfold extends. rewrite app_nil_r. replace (d_set_statements (d_statements d) d) with d by by destruct d.
  naive_solver.
Qed.

Lemma extends_trans x y d1 d2 d3 : extends x d1 d2 -> extends y d2 d3 -> extends (x ++ y) d1 d3.
Proof.
  intros [(v1 & f1 & -> & H1') Hv1] [(v2 & f2 & -> & H2') Hv2]. simpl in *. split.
  - exists v2, f2. simpl. rewrite app_assoc. split; [done|]. destruct H1' as [H1'|H1']; [by left|].
    destruct H2' as [H2'|H2']; [left; congruence|right; congruence].
  - intros Hxy. destruct H2' as [H2'|H2']; simpl in *; [|destruct y as [|st y]; [|by apply Hv2]].
    + destruct y as [|st y]; [|by apply Hv2]. rewrite app_nil_r in Hxy. by apply Hv1 in Hxy.
    + rewrite app_nil_r in Hxy. rewrite H2'. by apply Hv1.
Qed.

Lemma grown_extends extra (r : pyres unit) d d' :
  grown extra r d d' -> exists x, extends x d d' /\ forall u, r = Ok u -> x = extra.
Proof.
  intros [[Ht Hn]|(Hx & Ht & Hv)].
  - exists []. rewrite extends_nil. split; [done|]. intros u Hu. symmetry. by eapply Hn.
  - by exists extra.
Qed.

Lemma extends_autocommit x d d' : extends x d d' -> d_autocommit d' = d_autocommit d.
Proof. by intros [(v & f & -> & _) _]. Qed.

Lemma execute_each_spec op ps count k d n :
  d_autocommit d = false -> (c_timeout n.1 <= 60)%Q ->
  wp (execute_each op ps count)
     (fun r s' => r <> OutOfFuel /\ peaceful n s'.2.2 /\
        exists x, extends x d s'.2.1 /\ forall m, r = Ok m -> x = concat (plan op <$> ps) /\
             (_kind op = Ok KExecute -> ps <> [] -> x <> [])) (k, (d, n)).
Proof.
  revert count k d n. induction ps as [|p ps IH]; intros count k d n Ha Ht; cbn [execute_each].
  { apply wp_ret. split_and!; [done|reflexivity|]. exists []. rewrite extends_nil. split; [apply touched_refl|done]. }
  apply wp_bind. eapply wp_mono; [by apply k_execute_tx|].
  intros [[]|e|] [k1 [d1 n1]] (Hr & HR & (x & Hx & Hp)%grown_extends & Hpl); cbn [fst snd] in *; [| |done].
  2: { split_and!; [done|done|]. by exists x. }
  apply wp_bind, wp_kself. cbn [fst snd]. eapply wp_mono; [apply IH|].
  - by rewrite (extends_autocommit _ _ _ Hx).
  - by eapply peaceful_timeout.
  - intros r s' (Hr' & HR' & y & Hy & Hyp). split_and!; [done|by etransitivity|].
    exists (x ++ y). split; [by eapply extends_trans|]. intros m Hm. cbn [fmap list_fmap concat].
    destruct (Hyp m Hm) as [-> _]. rewrite (Hp tt) by done. split; [done|].
    intros Hk _. pose proof (Hpl tt eq_refl Hk). by destruct (plan op p).
Qed.

Lemma wp_with_cleanup {A} (body : K W A) cleanup last (Q : pyres A -> Cursor * (DConn * (Conn * W)) -> Prop) s :
  wp body (fun r s1 =>
    match r with
    | OutOfFuel => Q OutOfFuel s1
    | Ok a => wp last (fun r' s2 => match r' with
                                    | Ok _ => Q (Ok a) s2 | Raise e => Q (Raise e) s2 | OutOfFuel => Q OutOfFuel s2
                                    end) s1
    | Raise e => wp (do! cleanup;; throw e : K W A)
                    (fun r' s2 => match r' with
                       | Ok a => True
                       | Raise e' => wp last (fun r'' s3 => match r'' with
                           | Ok _ => Q (Raise e') s3 | Raise e => Q (Raise e) s3 | OutOfFuel => Q OutOfFuel s3
                           end) s2
                       | OutOfFuel => Q OutOfFuel s2 end) s1
    end) s ->
  wp (with_cleanup body cleanup last) Q s.
Proof.
  intros Hb. apply wp_try_finally, wp_try_except. eapply wp_mono; [exact Hb|].
  intros [a|e|] s1; [done| |done]. intros Hc.
  assert (Hno : forall a s2, (do! cleanup;; throw e : K W A) s1 <> (Ok a, s2)).
  { intros a s2. unfold bind, throw. by destruct (cleanup s1) as [[]]. }
  apply wp_intro. intros r s2 Hr. pose proof (wp_run _ _ _ _ _ Hr Hc) as HQ. cbn beta in HQ.
  destruct r as [a|e'|]; [|done..]. by destruct (Hno a s2).
Qed.

(** The statements of a whole [executemany]. *)
Definition plans (op : pystr) (seq : pyval) : list (pystr * list pyval) :=
  match py_iter seq with Ok l => concat (plan op <$> l) | _ => [] end.

(** What an operation that can only commit when [d] has autocommit leaves. *)
Definition executed_many (extra : list (pystr * list pyval)) (log : list body) d (n : Conn * W)
    (r : pyres unit) (s' : Cursor * (DConn * (Conn * W))) : Prop :=
  r <> OutOfFuel /\ keeps n s'.2.2 /\ (d_autocommit d = false -> unwritten n s'.2.2) /\
  logged (if d_autocommit d then auto_body d extra else None) log r s'.2.2 /\
  match r with
  | Ok _ => extends extra d s'.2.1 \/ (d_autocommit d = true /\ s'.2.1 = cleared d)
  | _ => touched d s'.2.1 \/ (d_autocommit d = true /\ s'.2.1 = cleared d)
  end.

(** The block's clean-up, then its [finally]: the statements before it again. *)
Lemma wp_restore extra log d n d1 n1 k (e : exn) :
  (exists x, extends x (d_set_autocommit false d) d1) -> keeps n n1 ->
  (d_autocommit d = false -> unwritten n n1) -> abstracts log n1 ->
  wp (do! (do! on_db (dupdate (d_set_statements (d_statements d)));;
           let! p := on_db native_pending in
           when (d_autocommit d && bool_decide (p = None)) (on_db d_clear));; throw e : K W unit)
     (fun r' s2 => match r' with
        | Ok _ => True
        | Raise e' => wp (on_db (dupdate (d_set_autocommit (d_autocommit d))))
            (fun r'' s3 => match r'' with
               | Ok _ => executed_many extra log d n (Raise e') s3
               | Raise e => executed_many extra log d n (Raise e) s3
               | OutOfFuel => executed_many extra log d n OutOfFuel s3
               end) s2
        | OutOfFuel => executed_many extra log d n OutOfFuel s2 end) (k, (d1, n1)).
Proof.
  intros (x & (v & f & -> & Hv) & _) Hk Hu Ha.
  apply wp_bind, wp_bind, wp_on_db, wp_dupdate, wp_bind, wp_on_db, wp_native_pending. cbn [fst snd].
  unfold when. destruct (d_autocommit d) eqn:Hau; cbn [andb]; [case_bool_decide|].
  1: apply wp_on_db, wp_dupdate. 2,3: apply wp_ret.
  all: apply wp_throw, wp_on_db, wp_dupdate; cbn [fst snd]; unfold executed_many; rewrite Hau; cbn [fst snd].
  all: split_and!; [done|done| |done|]; [by intros; try (apply Hu)..|].
  - right. split; [done|]. unfold cleared. simpl. by rewrite Hau.
  - left. exists v, f. simpl. rewrite Hau. auto.
  - left. exists v, f. simpl. rewrite Hau. auto.
Qed.

Lemma executemany_commit extra log d n d1 n1 k :
  d_autocommit d = true -> Inv n.1 -> extra <> [] -> extends extra (d_set_autocommit false d) d1 ->
  peaceful n n1 -> abstracts log n1 ->
  wp (on_db commit)
     (fun r s1 =>
      match r with
      | Ok a => wp (on_db (dupdate (d_set_autocommit true))) (fun r' s2 => match r' with
            | Ok _ => executed_many extra log d n (Ok a) s2
            | Raise e => executed_many extra log d n (Raise e) s2
            | OutOfFuel => executed_many extra log d n OutOfFuel s2
            end) s1
      | Raise e => wp (do! (do! on_db (dupdate (d_set_statements (d_statements d)));;
           let! p := on_db native_pending in
           when (true && bool_decide (p = None)) (on_db d_clear));; throw e : K W unit)
         (fun r' s2 => match r' with
            | Ok _ => True
            | Raise e' => wp (on_db (dupdate (d_set_autocommit true))) (fun r'' s3 => match r'' with
                   | Ok _ => executed_many extra log d n (Raise e') s3
                   | Raise e => executed_many extra log d n (Raise e) s3
                   | OutOfFuel => executed_many extra log d n OutOfFuel s3
                   end) s2
            | OutOfFuel => executed_many extra log d n OutOfFuel s2 end) s1
      | OutOfFuel => executed_many extra log d n OutOfFuel s1
      end) (k, (d1, n1)).
Proof.
  intros Hau HI Hne Hx HR Habs. pose proof Hx as [(v & f & Hd1 & _) _].
  apply wp_on_db. eapply wp_mono; [apply (commit_spec log); [by apply HR|done]|].
  intros [[]|e|] [d2 n2] (Hr & Hk & Hres); cbn [fst snd] in *; [|..|done].
  - destruct Hres as [-> Hlog]. apply wp_on_db, wp_dupdate. cbn [fst snd]. unfold executed_many. rewrite Hau.
    split_and!; [done|etransitivity; [apply HR|done]|done| |].
    + cbn [logged fst snd]. unfold auto_body. rewrite bool_decide_eq_false_2 by done. by subst d1.
    + right. split; [done|]. subst d1. unfold cleared. simpl. by rewrite Hau.
  - destruct Hres as [Hd Hlog]. rewrite <- Hau. apply wp_restore; [|etransitivity; [apply HR|done]|congruence|done].
    exists extra. destruct Hd as [-> | ->]; [done|]. destruct Hx as [Ht Hv]. split; [|done].
    eapply touched_trans, touched_failed. exact Ht.
Qed.

Lemma take_short {A} (l : list A) : (8 <? zlen (take 9 l)) = false -> take 9 l = l.
Proof. intros Hl. unbool. unfold zlen in Hl. rewrite length_take in Hl. apply take_ge. lia. Qed.

Lemma executemany_spec log op seq k d n :
  Inv n.1 -> abstracts log n ->
  wp (executemany op seq) (executed_many (plans op seq) log d n) (k, (d, n)).
Proof.
  intros HI Ha. assert (Ht : (c_timeout n.1 <= 60)%Q) by apply HI.
  assert (Hstay : forall r k', r <> OutOfFuel -> (forall u, r = Ok u -> plans op seq = []) ->
            executed_many (plans op seq) log d n r (k', (d, n))).
  { intros r k' Hr Hp. split_and!; [done|reflexivity|reflexivity| |].
    - apply (logged_peaceful log _ r n n); [reflexivity|done|]. intros u Hu. unfold auto_body.
      rewrite (Hp u Hu). by destruct (d_autocommit d).
    - destruct r as [u|e|]; [|left; apply touched_refl..]. left. rewrite (Hp u) by done.
      apply extends_nil, touched_refl. }
  unfold executemany. apply wp_bind, wp_k_ready; [intros; by apply Hstay|]. intros _ _.
  apply wp_bind, wp_lift. pose proof (kind_ends op).
  destruct (_kind op) as [kind|e|] eqn:Hk; [|by apply Hstay|done].
  case_bool_decide as Hkind; [by apply Hstay|]. subst kind.
  apply wp_bind, wp_lift. pose proof (py_iter_ends seq).
  destruct (py_iter seq) as [all|e|] eqn:Hall; [|by apply Hstay|done].
  destruct (8 <? zlen (take 9 all)) eqn:H8; [by apply Hstay|]. apply take_short in H8. rewrite H8.
  apply wp_bind, wp_kupdate. cbn [fst snd]. case_bool_decide as Hnil.
  { apply Hstay; [done|]. intros _ _. destruct all; [|done]. unfold plans. by rewrite Hall. }
  apply wp_bind, wp_on_db, wp_dself. cbn [fst snd]. apply wp_bind, wp_on_db, wp_dupdate. cbn [fst snd].
  assert (Hpl : plans op seq = concat (plan op <$> all)) by (unfold plans; by rewrite Hall).
  apply wp_with_cleanup, wp_bind.
  eapply wp_mono; [by apply execute_each_spec|].
  intros [count|e|] [k1 [d1 n1]] (Hr & HR & x & Hx & Hpx); cbn [fst snd] in *; [| |done].
  2: { apply wp_restore; [by eauto|apply HR|intros; apply HR|by eapply abstracts_unwritten; [apply HR|]]. }
  apply wp_bind, wp_kupdate. cbn [fst snd]. destruct (Hpx count eq_refl) as [-> Hne]. rewrite <- Hpl in *.
  assert (Habs : abstracts log n1) by by eapply abstracts_unwritten; [apply HR|].
  destruct (d_autocommit d) eqn:Hau; unfold when.
  - assert (Hne' : plans op seq <> []) by (apply Hne; [done|]; by intros ->).
    by apply (executemany_commit (plans op seq) log d n).
  - apply wp_ret, wp_on_db, wp_dupdate. cbn [fst snd]. unfold executed_many. rewrite Hau. split_and!; [done|apply HR| | |].
    + intros _. apply HR.
    + by eapply (logged_peaceful log None (Ok tt) n n1).
    + left. destruct Hx as [(v & f & -> & Hv) Hver]. split; [|done]. exists v, f. simpl. by rewrite Hau.
Qed.
End Adapter.

(** * Correctness of the DB-API adapter

    Transactions through the adapter are applied exactly once and only by
    commits that report success; the adapter's bookkeeping stays consistent;
    savepoints restore what they saved; and fetching returns each row once. *)

(** ** The adapter's operations *)

(** Every public operation of a connection and its current cursor; [ACursor]
    replaces the cursor by a new one. *)
Inductive action :=
| AExecute (operation : pystr) (parameters : pyval)
| AExecutemany (operation : pystr) (seq_of_parameters : pyval)
| AFetchone
| AFetchmany (size : pyval)
| AFetchall
| ANext
| ACloseCursor
| ACursor
| ACommit
| ARollback
| ASavepoint (name : pystr)
| ARollback_savepoint (name : pystr)
| ARelease_savepoint (name : pystr)
| AAutocommit (value : pyval)
| AClose.

Section Actions.
Context {W : Type} `{Service W}.

Definition act_on (a : action) : K W unit :=
  match a with
  | AExecute sql ps => k_execute sql ps
  | AExecutemany sql ps => executemany sql ps
  | AFetchone => do! fetchone;; ret tt
  | AFetchmany n => do! fetchmany n;; ret tt
  | AFetchall => do! fetchall;; ret tt
  | ANext => do! k_next;; ret tt
  | ACloseCursor => k_close
  | ACursor => let! k := on_db cursor in kupdate (fun _ => k)
  | ACommit => on_db commit
  | ARollback => on_db rollback
  | ASavepoint n => on_db (savepoint n)
  | ARollback_savepoint n => on_db (rollback_savepoint n)
  | ARelease_savepoint n => on_db (release_savepoint n)
  | AAutocommit v => on_db (set_autocommit v)
  | AClose => on_db d_close
  end.

(** The write an action commits when it succeeds. *)
Definition commits (a : action) (d : DConn) : option body :=
  match a with
  | AExecute sql ps => if d_autocommit d then auto_body d (plan sql ps) else None
  | AExecutemany sql ps => if d_autocommit d then auto_body d (plans sql ps) else None
  | ACommit => batch_body (d_statements d)
  | _ => None
  end.

(** ** The adapter's invariant *)

(** The statements, the savepoints' positions and the read version belong
    together: without a version there is nothing to commit, and the savepoints
    mark growing prefixes of the statements. *)
Record DInv (d : DConn) : Prop := {
  dinv_idle : d_version d = None -> d_statements d = [] /\ d_savepoints d = [];
  dinv_positions i j a b :
    (d_savepoints d).*2 !! i = Some a -> (d_savepoints d).*2 !! j = Some b -> (i <= j)%nat -> (a <= b)%nat;
  dinv_bounds : Forall (fun k => (k <= length (d_statements d))%nat) (d_savepoints d).*2
}.

Lemma DInv_cleared d : DInv (cleared d).
Proof. by split. Qed.

Lemma DInv_extends x d d' : DInv d -> extends x d d' -> DInv d'.
Proof.
  intros [Hi Hs Hb] [(v & f & -> & Hv) Hx]. simpl in *. split; simpl; [|done|].
  - intros ->. destruct x as [|st x]; [|by destruct Hx]. rewrite app_nil_r. apply Hi.
    destruct Hv; congruence.
  - eapply Forall_impl; [exact Hb|]. intros k Hk. cbn beta in *. rewrite length_app. lia.
Qed.

Lemma DInv_touched d d' : DInv d -> touched d d' -> DInv d'.
Proof. intros HI Ht. eapply DInv_extends; [done|]. by apply extends_nil. Qed.

Lemma DInv_recorded x d d' : DInv d -> recorded (d_statements d ++ x) d d' -> DInv d'.
Proof. intros HI [Ht Hv]. eapply (DInv_extends x); [done|]. by split. Qed.

(** What an action may do: the connection keeps its invariant, the log grows by
    the action's write if it succeeds, and the bookkeeping stays consistent. *)
Definition acted (b : option body) (log : list body) (d : DConn) (n : Conn * W)
    (r : pyres unit) (s' : Cursor * (DConn * (Conn * W))) : Prop :=
  r <> OutOfFuel /\ keeps n s'.2.2 /\ logged b log r s'.2.2 /\ (DInv d -> DInv s'.2.1).

Lemma acted_peaceful log d n (r : pyres unit) k d' n' :
  r <> OutOfFuel -> peaceful n n' -> abstracts log n -> (DInv d -> DInv d') ->
  acted None log d n r (k, (d', n')).
Proof. intros Hr HR Ha Hd. split_and!; [done|apply HR|by eapply (logged_peaceful log None r n n')|done]. Qed.

(** *** Savepoints *)

Lemma DInv_savepoint name d :
  d_version d <> None -> DInv d ->
  DInv (d_set_savepoints (d_savepoints d ++ [(name, length (d_statements d))]) d).
Proof.
  intros Hv [Hi Hs Hb]. split; simpl; rewrite ?fmap_app; [done|..].
  - intros i j a b [Ha|[Hl Ha]]%lookup_app_Some [Hb'|[Hl' Hb']]%lookup_app_Some Hij.
    + by eapply Hs.
    + simpl in Hb'. apply list_lookup_singleton_Some in Hb' as [_ <-]. rewrite Forall_lookup in Hb. by eapply Hb.
    + apply lookup_lt_Some in Hb'. lia.
    + simpl in *. apply list_lookup_singleton_Some in Hb' as [_ <-].
      by apply list_lookup_singleton_Some in Ha as [_ <-].
  - apply Forall_app. split; [done|]. by constructor.
Qed.

Lemma DInv_release i d : DInv d -> DInv (d_set_savepoints (take i (d_savepoints d)) d).
Proof.
  intros [Hi Hs Hb]. split; simpl.
  - intros Hv. destruct (Hi Hv) as [-> ->]. by rewrite take_nil.
  - intros i' j a b. rewrite fmap_take. intros [Ha _]%lookup_take_Some [Hb' _]%lookup_take_Some. by eapply Hs.
  - rewrite fmap_take. by apply Forall_take.
Qed.

Lemma DInv_rollback_savepoint i d :
  (i < length (d_savepoints d))%nat -> DInv d ->
  DInv (d_set_savepoints (take (S i) (d_savepoints d))
          (d_set_statements (take (savepoint_position d i) (d_statements d)) d)).
Proof.
  intros Hlt [Hi Hs Hb]. split; simpl.
  - intros Hv. destruct (Hi Hv) as [-> ->]. by rewrite !take_nil.
  - intros i' j a b. rewrite fmap_take. intros [Ha _]%lookup_take_Some [Hb' _]%lookup_take_Some. by eapply Hs.
  - rewrite fmap_take. apply Forall_lookup. intros j k [Hk Hj]%lookup_take_Some.
    destruct (lookup_lt_is_Some_2 (d_savepoints d) i Hlt) as [[name p] Hp].
    unfold savepoint_position. rewrite Hp, length_take.
    assert (Hpi : (d_savepoints d).*2 !! i = Some p) by by rewrite list_lookup_fmap, Hp.
    rewrite Forall_lookup in Hb. pose proof (Hb _ _ Hk). pose proof (Hb _ _ Hpi).
    pose proof (Hs j i k p Hk Hpi). lia.
Qed.

Lemma last_index_lt name l i : last_index name l = Some i -> (i < length l)%nat.
Proof.
  revert i. induction l as [|[x p] l IH]; intros i; cbn [last_index]; [done|].
  destruct (last_index name l) as [j|]; simpl.
  - intros [= <-]. specialize (IH j eq_refl). lia.
  - destruct (pyeqb _ _); [|done]. intros [= <-]. lia.
Qed.

(** [_savepoint_index] and what follows it. *)
Lemma wp_savepoint_index name {A} (f : nat -> D W A) Q s :
  (forall e, Q (Raise e) s) ->
  (forall i, last_index name (d_savepoints s.1) = Some i -> wp (f i) Q s) ->
  wp (bind (_savepoint_index name) f) Q s.
Proof.
  intros He Hf. apply wp_bind. unfold _savepoint_index. apply wp_bind, wp_d_ready; [done|]. intros _ _.
  apply wp_bind, wp_dself. destruct (last_index _ _) as [i|] eqn:Hi; [|by apply wp_throw]. by apply wp_ret, Hf.
Qed.

(** *** Fetching *)

(** Fetching touches the cursor only. *)
Definition fetching {A} (m : K W A) : Prop :=
  forall s, wp m (fun r s' => r <> OutOfFuel /\ s'.2 = s.2) s.

Lemma fetching_ready {A} (f : Cursor -> K W A) :
  (forall k, fetching (f k)) -> fetching (do! k_ready;; let! k := kself in f k).
Proof.
  intros Hf s. apply wp_bind, wp_k_ready; [done|]. intros _ _. apply wp_bind, wp_kself. apply Hf.
Qed.

Lemma fetching_fetchone : fetching fetchone.
Proof.
  apply fetching_ready. intros k s. destruct (k_description k); [|by apply wp_throw].
  destruct (_ !! _); [|by apply wp_ret]. by apply wp_bind, wp_kupdate, wp_ret.
Qed.

Lemma fetching_up_to n : fetching (fetch_up_to n).
Proof.
  induction n as [|n IH]; intros s; cbn [fetch_up_to]; [by apply wp_ret|].
  apply wp_bind. eapply wp_mono; [apply fetching_fetchone|]. intros [[row|]|e|] s' [Hr Hs]; [|by apply wp_ret|done..].
  apply wp_bind. eapply wp_mono; [apply IH|]. intros [rows|e|] s'' [Hr' Hs']; [apply wp_ret|..]; rewrite Hs'; done.
Qed.

Lemma fetching_fetchmany v : fetching (fetchmany v).
Proof.
  apply fetching_ready. intros k s. destruct (k_description k); [|by apply wp_throw].
  destruct (as_int _); [|by apply wp_throw]. destruct (_ <? _); [by apply wp_throw|apply fetching_up_to].
Qed.

Lemma fetching_then {A} (m : K W A) : fetching m -> fetching (do! m;; ret tt).
Proof. intros Hm s. apply wp_bind. eapply wp_mono; [apply Hm|]. intros [] s' []; [by apply wp_ret|done..]. Qed.

(** ** Every action *)

Lemma savepoint_spec name log k d n :
  Inv n.1 -> abstracts log n ->
  wp (savepoint name) (fun r s' => acted None log d n r (k, s')) (d, n).
Proof.
  intros HI Ha. unfold savepoint. apply wp_bind, wp_dself. cbn [fst snd].
  destruct (d_autocommit d); [by apply wp_throw, acted_peaceful|].
  apply wp_bind. eapply wp_mono; [apply reading_begin, HI|].
  intros [u|e|] [d' n'] (Hr & Hd & HR & Hv); cbn [fst snd] in *; [apply wp_dupdate|..]; apply acted_peaceful; try done; intros HD.
  - apply DInv_savepoint; [by eapply Hv|]. by eapply DInv_touched.
  - by eapply DInv_touched.
Qed.

Lemma act_spec a log k d n :
  Inv n.1 -> abstracts log n -> wp (act_on a) (acted (commits a d) log d n) (k, (d, n)).
Proof.
  intros HI Ha. assert (Ht : (c_timeout n.1 <= 60)%Q) by apply HI.
  assert (Hstay : forall r k', r <> OutOfFuel -> acted None log d n r (k', (d, n))).
  { intros r k' Hr. by apply acted_peaceful. }
  assert (Hfetch : forall m : K W unit, fetching m -> wp m (acted None log d n) (k, (d, n))).
  { intros m Hm. eapply wp_mono; [apply Hm|]. intros r [k' [d' n']] [Hr [= -> ->]]. by apply Hstay. }
  destruct a; cbn [act_on commits].
  - destruct (d_autocommit d) eqn:Hau.
    + eapply wp_mono; [by apply k_execute_auto|]. intros r [k' [d' n']] (Hr & Hk & Hl & Hd). split_and!; [done..|].
      cbn [fst snd] in *. intros HD. destruct Hd as [[Hd|[_ Hd]]| ->]; [by eapply DInv_touched|by eapply DInv_recorded|].
      apply DInv_cleared.
    + eapply wp_mono; [by apply k_execute_tx|]. intros r [k' [d' n']] (Hr & HR & Hg & _). cbn [fst snd] in *.
      apply acted_peaceful; [done..|]. intros HD. apply grown_extends in Hg as (x & Hx & _). by eapply DInv_extends.
  - eapply wp_mono; [by apply executemany_spec|]. intros r [k' [d' n']] (Hr & Hk & _ & Hl & Hd). split_and!; [done..|].
    cbn [fst snd] in *. intros HD. destruct r as [u|e|]; (destruct Hd as [Hd|[_ ->]]; [|apply DInv_cleared]);
      by eauto using DInv_extends, DInv_touched.
  - by apply Hfetch, fetching_then, fetching_fetchone.
  - by apply Hfetch, fetching_then, fetching_fetchmany.
  - apply Hfetch, fetching_then. intros s. apply wp_bind, wp_kself. apply fetching_fetchmany.
  - apply Hfetch, fetching_then. intros s. apply wp_bind. eapply wp_mono; [apply fetching_fetchone|].
    intros [[row|]|e|] s' [Hr Hs]; [by apply wp_ret|by apply wp_throw|done..].
  - apply wp_kupdate. by apply Hstay.
  - apply wp_bind, wp_on_db, wp_bind, wp_d_ready; [intros; by apply Hstay|]. intros _ _.
    apply wp_ret, wp_kupdate. by apply Hstay.
  - apply wp_on_db. eapply wp_mono; [by apply (commit_spec log)|]. intros r [d' n'] (Hr & Hk & Hres).
    cbn [fst snd] in *. destruct r as [[]|e|]; destruct Hres as [Hd Hl]; split_and!; try done; cbn [fst snd].
    + intros _. rewrite Hd. apply DInv_cleared.
    + intros HD. destruct Hd as [-> | ->]; [done|]. eapply DInv_touched; [done|apply touched_failed].
  - apply wp_on_db, wp_bind, wp_d_ready; [intros; by apply Hstay|]. intros _ _. apply wp_dupdate.
    apply acted_peaceful; [done..|]. intros _. apply DInv_cleared.
  - apply wp_on_db. by apply savepoint_spec.
  - apply wp_on_db, wp_savepoint_index; [intros; by apply Hstay|]. intros i Hi. cbn [fst] in Hi.
    apply wp_bind, wp_dupdate, wp_dupdate. cbn [fst snd] in *. apply acted_peaceful; [done..|].
    intros HD. exact (DInv_rollback_savepoint i d (last_index_lt _ _ _ Hi) HD).
  - apply wp_on_db, wp_savepoint_index; [intros; by apply Hstay|]. intros i Hi.
    apply wp_dupdate. cbn [fst snd]. apply acted_peaceful; [done..|]. by apply DInv_release.
  - apply wp_on_db. destruct value; try (apply wp_throw; by apply Hstay). unfold set_autocommit.
    apply wp_bind, wp_d_ready; [intros; by apply Hstay|]. intros _ _. apply wp_bind, wp_dself.
    destruct (_ && _); [apply wp_throw; by apply Hstay|]. apply wp_dupdate. apply acted_peaceful; [done..|].
    intros []. by split.
  - apply wp_on_db, wp_bind, wp_dupdate, wp_bind, wp_native. cbn [fst snd].
    eapply wp_mono; [by apply (stable_close peaceful)|]. intros [u|e|] n' [Hr HR]; cbn [fst snd]; [apply wp_dupdate|..];
      apply acted_peaceful; try done; intros _; apply DInv_cleared.
Qed.

(** A program's actions in order, and the writes it was told had succeeded. *)
Fixpoint perform (acts : list action) (s : Cursor * (DConn * (Conn * W)))
    : list body * (Cursor * (DConn * (Conn * W))) :=
  match acts with
  | [] => ([], s)
  | a :: l =>
      let '(r, s1) := act_on a s in
      let '(bs, s2) := perform l s1 in
      ((match r with Ok _ => option_list (commits a s.2.1) | _ => [] end) ++ bs, s2)
  end.

Lemma perform_spec acts log s :
  Inv s.2.2.1 -> abstracts log s.2.2 ->
  let s' := (perform acts s).2 in
  Inv s'.2.2.1 /\ abstracts (log ++ (perform acts s).1) s'.2.2 /\ (DInv s.2.1 -> DInv s'.2.1).
Proof.
  revert log s. induction acts as [|a l IH]; intros log [k [d n]] HI Ha; cbn [perform].
  { by rewrite app_nil_r. }
  pose proof (act_spec a log k d n HI Ha) as Hact. unfold wp in Hact.
  destruct (act_on a (k, (d, n))) as [r s1]. destruct Hact as (_ & Hk & Hl & Hd). cbn [fst snd] in *.
  destruct (perform l s1) as [bs s2] eqn:Hp. cbn [fst snd].
  assert (HI1 : Inv s1.2.2.1) by by apply Hk.
  destruct r as [u|e|]; cbn [logged] in Hl; specialize (IH _ s1 HI1 Hl); rewrite Hp in IH; cbn [fst snd] in IH;
    [rewrite app_assoc|..]; naive_solver.
Qed.

(** ** Savepoints *)

(** Actions inside a savepoint [name] taken when the savepoints were [outer]:
    they may take, roll back and release savepoints of their own. *)
Definition nested (outer : list pystr) (name : pystr) (a : action) : Prop :=
  match a with
  | ASavepoint m => m <> name
  | ARollback_savepoint m | ARelease_savepoint m => m <> name /\ m ∉ outer
  | ACommit | ARollback | AAutocommit _ | AClose => False
  | _ => True
  end.

(** [name] still marks the statements [saved]. *)
Definition marks (outer : list (pystr * nat)) (name : pystr) (saved : list (pystr * list pyval)) (d : DConn) : Prop :=
  exists more inner, d_statements d = saved ++ more /\ d_autocommit d = false /\
    d_savepoints d = outer ++ (name, length saved) :: inner /\ name ∉ inner.*1 /\
    Forall (fun k => (length saved <= k)%nat) inner.*2.

Lemma last_index_None name l : name ∉ l.*1 -> last_index name l = None.
Proof.
  induction l as [|[x p] l IH]; cbn [last_index]; [done|]. intros [Hx Hl]%not_elem_of_cons.
  rewrite IH by done. destruct (pyeqb x name) eqn:E; [|done]. by apply pyeqb_eq in E.
Qed.

Lemma last_index_app name l1 l2 :
  last_index name (l1 ++ l2) = match last_index name l2 with
                               | Some i => Some (length l1 + i)%nat
                               | None => last_index name l1
                               end.
Proof.
  induction l1 as [|[x p] l1 IH]; cbn [last_index app length]; [by destruct (last_index name l2)|].
  rewrite IH. by destruct (last_index name l2).
Qed.

Lemma last_index_marked outer name p inner :
  name ∉ inner.*1 -> last_index name (outer ++ (name, p) :: inner) = Some (length outer).
Proof.
  intros Hn. rewrite last_index_app. cbn [last_index]. rewrite last_index_None by done.
  rewrite pyeqb_refl. f_equal. lia.
Qed.

Lemma last_index_inner outer name p inner m i :
  m <> name -> m ∉ outer.*1 -> last_index m (outer ++ (name, p) :: inner) = Some i ->
  exists j, i = (length outer + S j)%nat /\ last_index m inner = Some j.
Proof.
  intros Hn Ho. rewrite last_index_app. cbn [last_index]. destruct (last_index m inner) as [j|].
  - intros [= <-]. by exists j.
  - destruct (pyeqb name m) eqn:E; [by apply pyeqb_eq in E|]. by rewrite last_index_None.
Qed.

Lemma marks_extends outer name saved x d d' : marks outer name saved d -> extends x d d' -> marks outer name saved d'.
Proof.
  intros (more & inner & Hs & Ha & Hp & Hn & Hf) [(v & f & -> & _) _]. exists (more ++ x), inner. simpl.
  by rewrite Hs, app_assoc.
Qed.

Lemma marks_touched outer name saved d d' : marks outer name saved d -> touched d d' -> marks outer name saved d'.
Proof. intros Hm Ht. eapply marks_extends; [done|]. by apply extends_nil. Qed.

Lemma marks_savepoint outer name saved m d :
  m <> name -> marks outer name saved d ->
  marks outer name saved (d_set_savepoints (d_savepoints d ++ [(m, length (d_statements d))]) d).
Proof.
  intros Hm (more & inner & Hs & Ha & Hp & Hn & Hf). exists more, (inner ++ [(m, length (d_statements d))]).
  simpl. rewrite Hp, <- app_assoc, !fmap_app. split_and!; [done..| |].
  - rewrite not_elem_of_app. split; [done|]. simpl. by rewrite list_elem_of_singleton.
  - apply Forall_app. split; [done|]. constructor; [|done]. cbn [snd]. rewrite Hs, length_app. lia.
Qed.

Lemma take_marks {A} (l : list A) x l' j : take (length l + S j) (l ++ x :: l') = l ++ x :: take j l'.
Proof. by rewrite take_app_add. Qed.

Lemma marks_release outer name saved m i d :
  m <> name -> m ∉ outer.*1 -> last_index m (d_savepoints d) = Some i -> marks outer name saved d ->
  marks outer name saved (d_set_savepoints (take i (d_savepoints d)) d).
Proof.
  intros Hm Ho Hi (more & inner & Hs & Ha & Hp & Hn & Hf). rewrite Hp in Hi.
  apply last_index_inner in Hi as (j & -> & Hj); [|done..]. exists more, (take j inner). simpl.
  rewrite Hp, take_marks, !fmap_take. split_and!; [done..| |by apply Forall_take].
  intros Hin. by apply Hn, (subseteq_take _ _ _ Hin).
Qed.

Lemma marks_rollback outer name saved m i d :
  m <> name -> m ∉ outer.*1 -> last_index m (d_savepoints d) = Some i -> marks outer name saved d ->
  marks outer name saved (d_set_savepoints (take (S i) (d_savepoints d))
    (d_set_statements (take (savepoint_position d i) (d_statements d)) d)).
Proof.
  intros Hm Ho Hi (more & inner & Hs & Ha & Hp & Hn & Hf). rewrite Hp in Hi.
  apply last_index_inner in Hi as (j & -> & Hj); [|done..].
  destruct (lookup_lt_is_Some_2 inner j (last_index_lt _ _ _ Hj)) as [[x p] Hx].
  assert (Hpos : savepoint_position d (length outer + S j) = p).
  { unfold savepoint_position. rewrite Hp, lookup_app_r by lia.
    replace (length outer + S j - length outer)%nat with (S j) by lia. by rewrite (lookup_cons_ne_0 _ _ (S j)) by done; cbn [pred]; rewrite Hx. }
  assert (Hle : (length saved <= p)%nat).
  { rewrite Forall_lookup in Hf. apply (Hf j). by rewrite list_lookup_fmap, Hx. }
  exists (take (p - length saved) more), (take (S j) inner). simpl.
  rewrite Hpos, Hs, Hp, <- Nat.add_succ_r, take_marks, !fmap_take.
  split_and!; [by rewrite take_app, take_ge by lia|done|done| |by apply Forall_take].
  intros Hin. by apply Hn, (subseteq_take _ _ _ Hin).
Qed.

Lemma nested_spec a outer name saved log k d n :
  nested outer.*1 name a -> Inv n.1 -> abstracts log n -> marks outer name saved d ->
  wp (act_on a) (fun _ s' => marks outer name saved s'.2.1) (k, (d, n)).
Proof.
  intros Hn HI Ha Hm. assert (Ht : (c_timeout n.1 <= 60)%Q) by apply HI.
  assert (Hau : d_autocommit d = false) by by destruct Hm as (? & ? & _ & ? & _).
  assert (Hfetch : forall m : K W unit, fetching m -> wp m (fun _ s' => marks outer name saved s'.2.1) (k, (d, n))).
  { intros m Hf. eapply wp_mono; [apply Hf|]. by intros r [k' [d' n']] [Hr [= -> ->]]. }
  destruct a; cbn [act_on nested] in *; try done.
  - eapply wp_mono; [by apply k_execute_tx|]. intros r s' (_ & _ & (x & Hx & _)%grown_extends & _).
    by eapply marks_extends.
  - eapply wp_mono; [by apply executemany_spec|]. intros r s' (_ & _ & _ & _ & Hd).
    destruct r; (destruct Hd as [Hd|[? _]]; [|congruence]); by eauto using marks_extends, marks_touched.
  - by apply Hfetch, fetching_then, fetching_fetchone.
  - by apply Hfetch, fetching_then, fetching_fetchmany.
  - apply Hfetch, fetching_then. intros s. apply wp_bind, wp_kself. apply fetching_fetchmany.
  - apply Hfetch, fetching_then. intros s. apply wp_bind. eapply wp_mono; [apply fetching_fetchone|].
    intros [[row|]|e|] s' [Hr Hs]; [by apply wp_ret|by apply wp_throw|done..].
  - apply wp_bind, wp_on_db, wp_bind, wp_d_ready; [done|]. intros _ _. by apply wp_ret, wp_kupdate.
  - apply wp_on_db. unfold savepoint. apply wp_bind, wp_dself. cbn [fst snd]. rewrite Hau.
    apply wp_bind. eapply wp_mono; [by apply reading_begin|].
    intros [u|e|] [d' n'] (_ & Hd & _); cbn [fst snd] in *; [apply wp_dupdate, marks_savepoint; [done|]|..];
      by eapply marks_touched.
  - apply wp_on_db, wp_savepoint_index; [done|]. intros i Hi. cbn [fst snd] in Hi.
    apply wp_bind, wp_dupdate, wp_dupdate. destruct Hn. by apply (marks_rollback outer name saved name0 i d).
  - apply wp_on_db, wp_savepoint_index; [done|]. intros i Hi. cbn [fst snd] in Hi.
    apply wp_dupdate. destruct Hn. by eapply marks_release.
Qed.

Lemma perform_marks acts log outer name saved s :
  Forall (nested outer.*1 name) acts -> Inv s.2.2.1 -> abstracts log s.2.2 -> marks outer name saved s.2.1 ->
  marks outer name saved (perform acts s).2.2.1.
Proof.
  revert log s. induction acts as [|a l IH]; intros log [k [d n]] Hn HI Ha Hm; cbn [perform]; [done|].
  apply Forall_cons in Hn as [Hna Hn]. cbn [fst snd] in *.
  pose proof (act_spec a log k d n HI Ha) as Hact. pose proof (nested_spec a _ _ _ _ k d n Hna HI Ha Hm) as Hm1.
  unfold wp in Hact, Hm1. destruct (act_on a (k, (d, n))) as [r s1]. destruct Hact as (_ & Hk & Hl & _). cbn [fst snd] in *.
  assert (HI1 : Inv s1.2.2.1) by by apply Hk.
  destruct (perform l s1) as [bs s2] eqn:Hp. cbn [fst snd].
  destruct r as [u|e|]; cbn [logged] in Hl; specialize (IH _ s1 Hn HI1 Hl Hm1); by rewrite Hp in IH.
Qed.

Lemma savepoint_marks name log k d n k1 d1 n1 :
  Inv n.1 -> abstracts log n -> act_on (ASavepoint name) (k, (d, n)) = (Ok tt, (k1, (d1, n1))) ->
  Inv n1.1 /\ abstracts log n1 /\ marks (d_savepoints d) name (d_statements d) d1.
Proof.
  intros HI Ha Hsp. assert (Ht : (c_timeout n.1 <= 60)%Q) by apply HI.
  pose proof (act_spec (ASavepoint name) log k d n HI Ha) as Hact. pose proof (wp_run _ _ _ _ _ Hsp Hact) as Hs.
  destruct Hs as (_ & Hk & Hl & _). cbn [fst snd logged commits option_list] in *. rewrite app_nil_r in Hl.
  split_and!; [by apply Hk|done|].
  assert (Hw : wp (act_on (ASavepoint name)) (fun r s => r = Ok tt -> marks (d_savepoints d) name (d_statements d) s.2.1) (k, (d, n))).
  { cbn [act_on]. apply wp_on_db. unfold savepoint. apply wp_bind, wp_dself. cbn [fst snd].
    destruct (d_autocommit d) eqn:Hau; [by apply wp_throw|]. apply wp_bind.
    eapply wp_mono; [by apply reading_begin|]. intros [u|e|] [d' n'] (_ & Hd & _); [|done..].
    apply wp_dupdate. intros _. cbn [fst snd] in *. destruct Hd as (v & f & -> & _).
    exists [], []. simpl. rewrite app_nil_r. split_and!; try done. apply not_elem_of_nil. }
  by apply (wp_run _ _ _ _ _ Hsp Hw).
Qed.

Lemma rollback_marked outer name saved k d n :
  marks outer name saved d -> (d_ready false (d, n)).1 = Ok tt ->
  let '(r, s) := act_on (ARollback_savepoint name) (k, (d, n)) in
  r = Ok tt /\ d_statements s.2.1 = saved /\ d_savepoints s.2.1 = outer ++ [(name, length saved)].
Proof.
  intros (more & inner & Hs & Ha & Hp & Hn & Hf) Hr.
  assert (Hr' : d_ready false (d, n) = (Ok tt, (d, n))).
  { revert Hr. unfold d_ready, bind, dself, native_pending, gets. cbn [fst snd].
    destruct (d_closed d); [done|]. cbn [fst snd]. destruct (c_pending n.1); [done|]. by destruct (d_failed d && _). }
  unfold act_on, rollback_savepoint, _savepoint_index, on_db, dupdate, modify, bind. cbn [fst snd].
  rewrite Hr'. unfold dself, gets. cbn [fst snd].
  rewrite Hp, last_index_marked by done. unfold ret. cbn [fst snd]. split; [done|].
  unfold savepoint_position. rewrite Hp, list_lookup_middle by done. simpl. rewrite Hs, Hp, take_app_length.
  split; [done|]. change (S (length outer)) with (1 + length outer)%nat. rewrite Nat.add_comm, take_app_add. done.
Qed.
End Actions.

(** ** Fetching *)

Section Fetching.
Context {W : Type} `{Env W}.

(** A cursor with a result, open and usable. *)
Definition fetchable (k : Cursor) (d : DConn) (n : Conn * W) : Prop :=
  k_closed k = false /\ d_closed d = false /\ d_failed d = false /\ c_pending n.1 = None /\
  k_description k <> None /\ (k_position k <= length (k_rows k))%nat.

Definition remaining (k : Cursor) : list (list pyval) := drop (k_position k) (k_rows k).

Lemma fetchable_move p k d n : (p <= length (k_rows k))%nat -> fetchable k d n -> fetchable (k_set_position p k) d n.
Proof. by intros ? (? & ? & ? & ? & ? & ?). Qed.

Lemma k_ready_fetchable k d n : fetchable k d n -> k_ready (k, (d, n)) = (Ok tt, (k, (d, n))).
Proof.
  destruct n as [c w]. intros (Hk & Hd & Hf & Hp & _). cbn [fst] in Hp.
  unfold k_ready, d_ready, bind, kself, gets, on_db, dself, native_pending, gets. cbn [fst snd]. rewrite Hk.
  cbn [fst snd]. rewrite Hd. cbn [fst snd]. by rewrite Hp, Hf.
Qed.

Lemma fetchone_fetchable k d n :
  fetchable k d n ->
  fetchone (k, (d, n)) = match remaining k with
                         | [] => (Ok None, (k, (d, n)))
                         | row :: _ => (Ok (Some row), (k_set_position (S (k_position k)) k, (d, n)))
                         end.
Proof.
  intros Hf. unfold fetchone, bind. rewrite k_ready_fetchable by done.
  destruct Hf as (_ & _ & _ & _ & Hd & Hp). unfold kself, gets. cbn [fst snd].
  destruct (k_description k); [|done]. unfold remaining.
  destruct (k_rows k !! k_position k) as [row|] eqn:E.
  - by rewrite (drop_S _ _ _ E).
  - apply lookup_ge_None_1 in E. by rewrite drop_ge.
Qed.

Lemma remaining_move m k : remaining (k_set_position (k_position k + m) k) = drop m (remaining k).
Proof. unfold remaining. cbn [k_position k_rows k_set_position]. by rewrite drop_drop. Qed.

(** The cursor [m] rows further. *)
Definition moved (m : nat) (k : Cursor) : Cursor := k_set_position (k_position k + m) k.

Lemma fetch_up_to_fetchable m k d n :
  fetchable k d n ->
  fetch_up_to m (k, (d, n)) =
    (Ok (take m (remaining k)), (moved (Nat.min m (length (remaining k))) k, (d, n))).
Proof.
  revert k. induction m as [|m IH]; intros k Hf; cbn [fetch_up_to].
  - unfold moved, ret. rewrite Nat.add_0_r, take_0. do 2 f_equal. by destruct k.
  - unfold bind. rewrite fetchone_fetchable by done. destruct (remaining k) as [|row rows] eqn:Hr.
    + unfold moved, ret. rewrite Nat.min_0_r, Nat.add_0_r, take_nil. do 2 f_equal. by destruct k.
    + assert (Hrem : remaining (moved 1 k) = rows) by (unfold moved; by rewrite remaining_move, Hr).
      assert (Hlt : (k_position k < length (k_rows k))%nat).
      { apply (f_equal length) in Hr. unfold remaining in Hr. rewrite length_drop in Hr. simpl in Hr. lia. }
      rewrite <- Nat.add_1_r. fold (moved 1 k).
      rewrite IH by (apply fetchable_move; [lia|done]). rewrite Hrem. cbn [take length].
      rewrite <- Nat.succ_min_distr. unfold ret, moved, k_set_position. cbn [k_position k_closed k_description k_lastrowid k_rowcount k_rows].
      by rewrite <- Nat.add_assoc.
Qed.

Lemma fetchmany_fetchable m k d n :
  fetchable k d n ->
  fetchmany (PInt (Z.of_nat m)) (k, (d, n)) =
    (Ok (take m (remaining k)), (moved (Nat.min m (length (remaining k))) k, (d, n))).
Proof.
  intros Hf. unfold fetchmany, bind. rewrite k_ready_fetchable by done. unfold kself, gets. cbn [fst snd].
  destruct Hf as (? & ? & ? & ? & Hd & Hp). destruct (k_description k) eqn:E; [|done]. cbn [as_int].
  destruct (Z.ltb_spec (Z.of_nat m) 0); [lia|]. rewrite Nat2Z.id.
  apply fetch_up_to_fetchable. split_and!; congruence || done.
Qed.

(** Successive [fetchmany] calls. *)
Fixpoint fetch_sizes (sizes : list nat) (s : Cursor * (DConn * (Conn * W)))
    : list (list pyval) * (Cursor * (DConn * (Conn * W))) :=
  match sizes with
  | [] => ([], s)
  | m :: l =>
      let '(r, s1) := fetchmany (PInt (Z.of_nat m)) s in
      let '(rows, s2) := fetch_sizes l s1 in
      ((match r with Ok rs => rs | _ => [] end) ++ rows, s2)
  end.

Lemma fetch_sizes_fetchable sizes k d n :
  fetchable k d n ->
  exists m, fetch_sizes sizes (k, (d, n)) = (take m (remaining k), (moved m k, (d, n))) /\
            (m <= length (remaining k))%nat.
Proof.
  revert k. induction sizes as [|a l IH]; intros k Hf; cbn [fetch_sizes].
  - exists O. unfold moved. rewrite Nat.add_0_r, take_0. split; [|lia]. do 2 f_equal. by destruct k.
  - rewrite fetchmany_fetchable by done. set (b := Nat.min a (length (remaining k))).
    assert (Hb : (b <= length (remaining k))%nat) by lia.
    assert (Hk : fetchable (moved b k) d n).
    { apply fetchable_move; [|done]. unfold remaining in Hb. rewrite length_drop in Hb.
      destruct Hf as (_ & _ & _ & _ & _ & Hp). lia. }
    destruct (IH _ Hk) as (m & -> & Hm). unfold moved in *. rewrite remaining_move in *. rewrite length_drop in Hm.
    exists (b + m)%nat. split; [|lia]. f_equal.
    + assert (Htake : take a (remaining k) = take b (remaining k)).
      { unfold b. destruct (Nat.min_spec a (length (remaining k))) as [[_ ->]|[? ->]]; [done|].
        by rewrite !take_ge by lia. }
      by rewrite Htake, take_take_drop.
    + unfold k_set_position. cbn [k_position k_closed k_description k_lastrowid k_rowcount k_rows].
      by rewrite Nat.add_assoc.
Qed.
End Fetching.

(** Fetching returns each remaining row exactly once, in order: whatever the
    sizes of successive [fetchmany] calls, they and a final [fetchall] return
    together the rows the cursor had left, nothing on the connection changes,
    and iterating further stops. *)
Theorem fetch_partitions {W} `{Env W} sizes k d (n : Conn * W) :
  fetchable k d n ->
  let '(rows, s) := fetch_sizes sizes (k, (d, n)) in
  exists k', fetchall s = (Ok (drop (length rows) (remaining k)), (k', (d, n))) /\
    rows ++ drop (length rows) (remaining k) = remaining k /\
    k_next (k', (d, n)) = (Raise StopIteration, (k', (d, n))).
Proof.
  intros Hf. destruct (fetch_sizes_fetchable sizes k d n Hf) as (m & -> & Hm).
  assert (Hlen : length (take m (remaining k)) = m) by (rewrite length_take; lia). rewrite Hlen.
  assert (Hpos : (k_position k + length (remaining k) = length (k_rows k))%nat).
  { unfold remaining. rewrite length_drop. destruct Hf as (_ & _ & _ & _ & _ & Hp). lia. }
  assert (Hk : fetchable (moved m k) d n) by (apply fetchable_move; [lia|done]).
  set (k' := moved (length (remaining (moved m k))) (moved m k)).
  assert (Hrem : remaining (moved m k) = drop m (remaining k)) by apply remaining_move.
  assert (Hk' : fetchable k' d n).
  { apply fetchable_move; [|done]. rewrite Hrem, length_drop. cbn [moved k_position k_rows k_set_position]. lia. }
  exists k'. split_and!.
  - unfold fetchall, bind, kself, gets. cbn [fst snd].
    replace (zlen (k_rows (moved m k)) - Z.of_nat (k_position (moved m k)))
      with (Z.of_nat (length (remaining (moved m k)))).
    + rewrite fetchmany_fetchable by done. rewrite Nat.min_id, Hrem. rewrite take_ge by done. by rewrite <- Hrem.
    + unfold zlen. rewrite Hrem, length_drop. cbn [moved k_position k_rows k_set_position]. lia.
  - apply take_drop.
  - unfold k_next, bind. rewrite fetchone_fetchable by done. unfold k', moved. rewrite remaining_move, drop_all. done.
Qed.

(** ** Transactions *)

(** C9: exactly once, through the DB-API: from a new connection, after any
    sequence of actions on it and its cursor, returning or raising, over a
    network that may lose any request or reply, the writes applied under the
    session are exactly the batches of the commits (and autocommitted
    statements) that reported success, each once and in order, followed at most
    by the one write still pending.  Statements of a transaction not committed
    are never applied. *)
Theorem dbapi_exactly_once {W} `{Service W} eps cluster timeout auto (w : W) d c w' acts :
  dbapi_connect eps cluster timeout auto w = (Ok (d, c), w') ->
  ledger (c_session c) w' = [] ->
  let '(told, s) := perform acts (Cursor_new, (d, (c, w'))) in
  exists tail, body_of <$> ledger (c_session s.2.2.1) s.2.2.2 = told ++ tail /\
    (tail = [] \/ exists p params, c_pending s.2.2.1 = Some p /\ encode_all (parameters p) = Ok params /\
                                   tail = [write_body (sql p) params]).
Proof.
  intros Hnew Hl. unfold dbapi_connect in Hnew. destruct auto as [|b| | | | | | |]; try done.
  unfold connect in Hnew. destruct (Connection_new _ cluster timeout None w) as [[c0|e|] w0] eqn:Hc; try done.
  simplify_eq/=. apply Connection_new_Inv in Hc as [HI _]; [|done].
  assert (Ha : abstracts [] (c, w')) by (exists [], []; cbn [fst snd]; rewrite Hl; split_and!; [done..|by left]).
  pose proof (perform_spec acts [] (Cursor_new, (DConn_new b, (c, w'))) HI Ha) as Hp.
  destruct (perform acts _) as [told s]. destruct Hp as (_ & (dn & tail & HL & Hb & _ & Ht) & _). cbn [fst snd] in *.
  exists (body_of <$> tail). rewrite HL, fmap_app, Hb. split; [done|].
  destruct Ht as [->|(p & ps & q & -> & Hp & He & _ & Hq)]; [by left|right].
  exists p, ps. split_and!; [done..|]. simpl. by rewrite Hq.
Qed.

(** C18: the adapter's bookkeeping stays consistent through any sequence of
    actions: without a read version there are no statements and no savepoints,
    savepoints mark growing prefixes of the statements, the native connection
    keeps its invariant, and every further action ends. *)
Theorem adapter_bookkeeping {W} `{Service W} acts a log k d (n : Conn * W) :
  DInv d -> Inv n.1 -> abstracts log n ->
  let s := (perform acts (k, (d, n))).2 in
  DInv s.2.1 /\ Inv s.2.2.1 /\ (act_on a s).1 <> OutOfFuel.
Proof.
  intros Hd HI Ha. pose proof (perform_spec acts log (k, (d, n)) HI Ha) as Hp. cbv zeta in *.
  destruct (perform acts (k, (d, n))) as [told [k' [d' n']]]. destruct Hp as (HI' & Ha' & Hd'). cbn [fst snd] in *.
  split_and!; [by apply Hd'|done|]. apply (act_spec a _ k' d' n' HI' Ha').
Qed.

(** Rolling back to a savepoint restores the transaction: after
    [savepoint(name)], whatever statements are executed and whatever further
    savepoints are taken, rolled back or released in between, failing or not,
    [rollback_savepoint(name)] on a usable connection succeeds and leaves
    exactly the statements there were, with [name] the last savepoint. *)
Theorem savepoint_restores {W} `{Service W} name acts log k d (n : Conn * W) k1 d1 n1 :
  Inv n.1 -> abstracts log n ->
  act_on (ASavepoint name) (k, (d, n)) = (Ok tt, (k1, (d1, n1))) ->
  Forall (nested (d_savepoints d).*1 name) acts ->
  let s2 := (perform acts (k1, (d1, n1))).2 in
  (d_ready false s2.2).1 = Ok tt ->
  let '(r, s3) := act_on (ARollback_savepoint name) s2 in
  r = Ok tt /\ d_statements s3.2.1 = d_statements d /\
  d_savepoints s3.2.1 = d_savepoints d ++ [(name, length (d_statements d))].
Proof.
  intros HI Ha Hsp Hn.
  destruct (savepoint_marks name log k d n k1 d1 n1 HI Ha Hsp) as (HI1 & Ha1 & Hm).
  pose proof (perform_marks acts log (d_savepoints d) name (d_statements d) (k1, (d1, n1)) Hn HI1 Ha1 Hm) as Hm'.
  cbv zeta. intros Hready. destruct (perform acts (k1, (d1, n1))) as [told [k2 [d2 n2]]]. cbn [fst snd] in *.
  by apply rollback_marked.
Qed.

(** C17: [executemany] is all or nothing: on success every statement of the batch
    is in the transaction (with autocommit, committed as one write); on failure
    the transaction holds the statements it held before (with autocommit,
    possibly none), nothing was applied, and in a transaction nothing is ever
    sent that could be. *)
Theorem executemany_atomic {W} `{Service W} op seq log k d (n : Conn * W) :
  Inv n.1 -> abstracts log n ->
  wp (executemany op seq)
     (fun r s' =>
        (d_autocommit d = false -> unwritten n s'.2.2) /\
        match r with
        | Ok _ => if d_autocommit d then abstracts (log ++ option_list (auto_body d (plans op seq))) s'.2.2
                  else d_statements s'.2.1 = d_statements d ++ plans op seq
        | Raise _ => abstracts log s'.2.2 /\
                     (d_statements s'.2.1 = d_statements d \/ (d_autocommit d = true /\ s'.2.1 = cleared d))
        | OutOfFuel => False
        end) (k, (d, n)).
Proof.
  intros HI Ha. eapply wp_mono; [by apply executemany_spec|]. intros r s' (Hr & _ & Hu & Hl & Hd).
  split; [done|]. destruct r as [u|e|]; [| |done]; cbn [logged] in Hl.
  - destruct (d_autocommit d); [done|]. destruct Hd as [[(v & f & -> & _) _]|[? _]]; done.
  - split; [done|]. destruct Hd as [(v & f & -> & _)|Hd]; [by left|by right].
Qed.

(** ** Witnesses *)

Module AdapterDemo.
(** Two statements and a savepoint in a transaction whose commit's reply is lost
    once; then an uncommitted statement. *)
Definition world : Lossy :=
  mkLossy 0 [Deliver; Deliver; Deliver; Deliver; LoseReply; Deliver] [] [].
Definition insert (n : Z) : action := AExecute (py "INSERT INTO t VALUES (?)") (PList [PInt n]).
Definition program : list action :=
  [insert 1; ASavepoint (py "s"); insert 2; ARollback_savepoint (py "s"); insert 3; ACommit; insert 4].

Definition start : Cursor * (DConn * (Conn * Lossy)) :=
  (Cursor_new, (DConn_new false, (LossyDemo.conn, world))).

Lemma start_ready : DInv (DConn_new false) /\ Inv LossyDemo.conn /\ abstracts [] (LossyDemo.conn, world).
Proof.
  split_and!; [by split| |].
  - apply (Connection_new_Inv LossyDemo.endpoints (py "test") (1 # 50) None world LossyDemo.conn world); done.
  - exists [], []. by split_and!; [..|left].
Qed.
End AdapterDemo.

Example dbapi_exactly_once_witness :
  let '(told, s) := perform AdapterDemo.program AdapterDemo.start in
  exists tail, body_of <$> ledger (c_session s.2.2.1) s.2.2.2 = told ++ tail /\
    (tail = [] \/ exists p params, c_pending s.2.2.1 = Some p /\ encode_all (parameters p) = Ok params /\
                                   tail = [write_body (sql p) params]).
Proof.
  apply (dbapi_exactly_once (inr LossyDemo.endpoints) (py "test") (1 # 50) (PBool false) AdapterDemo.world); reflexivity.
Defined.

Example dbapi_demo :
  let '(told, s) := perform AdapterDemo.program AdapterDemo.start in
  (length told, length (l_ledger s.2.2.2), length (l_sent s.2.2.2), length (d_statements s.2.1)) =
  (1%nat, 1%nat, 8%nat, 1%nat).
Proof. vm_compute. reflexivity. Qed.

Example adapter_bookkeeping_witness :
  let s := (perform AdapterDemo.program AdapterDemo.start).2 in
  DInv s.2.1 /\ Inv s.2.2.1 /\ (act_on AFetchall s).1 <> OutOfFuel.
Proof.
  destruct AdapterDemo.start_ready as (Hd & HI & Ha).
  exact (adapter_bookkeeping AdapterDemo.program AFetchall [] Cursor_new _ (LossyDemo.conn, AdapterDemo.world) Hd HI Ha).
Defined.

Example savepoint_restores_witness :
  let acts := [AdapterDemo.insert 1; ASavepoint (py "inner"); AdapterDemo.insert 2;
               ARollback_savepoint (py "inner")] in
  let s1 := (act_on (ASavepoint (py "s")) AdapterDemo.start).2 in
  let s2 := (perform acts s1).2 in
  let '(r, s3) := act_on (ARollback_savepoint (py "s")) s2 in
  r = Ok tt /\ d_statements s3.2.1 = [] /\ d_savepoints s3.2.1 = [(py "s", 0%nat)].
Proof.
  destruct AdapterDemo.start_ready as (_ & HI & Ha).
  apply (savepoint_restores (py "s") _ [] Cursor_new (DConn_new false) (LossyDemo.conn, AdapterDemo.world) _ _ _ HI Ha).
  - vm_compute. reflexivity.
  - repeat constructor; try (apply (bool_decide_eq_true_1 _); reflexivity); apply not_elem_of_nil.
  - vm_compute. reflexivity.
Defined.

Example executemany_atomic_witness :
  let rows := PList [PList [PInt 1]; PList [PInt 2]] in
  let s' := executemany (py "INSERT INTO t VALUES (?)") rows AdapterDemo.start in
  s'.1 = Ok tt /\
  d_statements s'.2.2.1 = [] ++ plans (py "INSERT INTO t VALUES (?)") rows.
Proof.
  destruct AdapterDemo.start_ready as (_ & HI & Ha).
  pose proof (executemany_atomic (py "INSERT INTO t VALUES (?)") (PList [PList [PInt 1]; PList [PInt 2]])
    [] Cursor_new (DConn_new false) (LossyDemo.conn, AdapterDemo.world) HI Ha) as [_ Hw].
  assert (Hok : (executemany (py "INSERT INTO t VALUES (?)") (PList [PList [PInt 1]; PList [PInt 2]])
                   AdapterDemo.start).1 = Ok tt) by (vm_compute; reflexivity).
  split; [exact Hok|]. unfold AdapterDemo.start in *. rewrite Hok in Hw. exact Hw.
Defined.

Example fetch_partitions_witness :
  let k := mkCursor false (Some [PStr (py "n")]) PNone (-1) [[PInt 1]; [PInt 2]; [PInt 3]] 0 in
  let '(rows, s) := fetch_sizes [2%nat] (k, AdapterDemo.start.2) in
  exists k', fetchall s = (Ok (drop (length rows) (remaining k)), (k', AdapterDemo.start.2)) /\
    rows ++ drop (length rows) (remaining k) = remaining k /\
    k_next (k', AdapterDemo.start.2) = (Raise StopIteration, (k', AdapterDemo.start.2)).
Proof. apply fetch_partitions. split_and!; [done..|simpl; lia]. Defined.

(** * How the DB-API adapter classifies statements

    [_kind] reads characters; [top_words] says what it finds, on the tokens of
    the grammar [prepare] implements: the words and semicolons outside
    parentheses, never anything inside quotes or comments. *)

Definition is_word_char (c : Z) : bool := is_alnum c || (c =? 95).
Definition starts_word (c : Z) : bool := is_alpha c || (c =? 95).

(** The words outside parentheses, upper-cased, with each [;] a word of its own,
    and the balance of parentheses; [word] is the word being read. *)
Definition flush (word : pystr) (r : Z * list pystr) : Z * list pystr :=
  if bool_decide (word = []) then r else (r.1, upper word :: r.2).

Fixpoint top_words (depth : Z) (word : pystr) (toks : list token) : Z * list pystr :=
  match toks with
  | [] => flush word (depth, [])
  | Plain c :: l =>
      if negb (bool_decide (word = [])) && is_word_char c then top_words depth (word ++ [c]) l
      else
        flush word
          (if c =? 40 then top_words (depth + 1) [] l
           else if c =? 41 then top_words (depth - 1) [] l
           else if (c =? 59) && (depth =? 0) then let '(d, ws) := top_words depth [] l in (d, [59] :: ws)
           else if starts_word c && (depth =? 0) then top_words depth [c] l
           else top_words depth [] l)
  | _ :: l => flush word (top_words depth [] l)
  end.

(** A word's characters are plain tokens. *)
Lemma word_char_plain c : is_word_char c = true -> is_quote c = false /\ c <> 63 /\ c <> 45 /\ c <> 47.
Proof.
  intros Hc. assert (Hno : forall x, is_word_char x = false -> c <> x) by (intros x Hx ->; congruence).
  split_and!; [|by apply Hno..]. apply not_true_iff_false. intros Hq.
  apply quote_values in Hq as [->|[->|[->| ->]]]; by vm_compute in Hc.
Qed.

Lemma lexes_cons_inv c s toks :
  lexes (c :: s) toks -> is_quote c = false -> c <> 63 -> c <> 45 -> c <> 47 ->
  exists l, toks = Plain c :: l /\ lexes s l.
Proof. intros Hl Hq H1 H2 H3. inversion Hl; simplify_eq/=; eauto; congruence. Qed.

Lemma span_word_lexes s toks w r :
  span_word s = (w, r) -> lexes s toks ->
  exists l, toks = (Plain <$> w) ++ l /\ lexes r l /\ Forall (fun c => is_word_char c = true) w /\
            match r with c :: _ => is_word_char c = false | [] => True end.
Proof.
  revert w r toks. induction s as [|c s IH]; intros w r toks; cbn [span_word]; [intros [= <- <-]; eauto|].
  fold (is_word_char c). destruct (is_word_char c) eqn:Hc; [|intros [= <- <-]; eauto].
  destruct (span_word s) as [w' r'] eqn:E. intros [= <- <-] Hl.
  apply lexes_cons_inv in Hl as (l & -> & Hl); [|by apply word_char_plain..].
  destruct (IH _ _ _ eq_refl Hl) as (l' & -> & Hl' & Hw & Hr). exists l'. by repeat constructor.
Qed.

Lemma lexes_head c s toks :
  lexes (c :: s) toks -> (exists l, toks = Plain c :: l) \/ exists x l, toks = x :: l /\ forall d, x <> Plain d.
Proof. intros Hl. inversion Hl; subst; [right|right|right|right|left]; eauto. Qed.

(** Reading a word to its end. *)
Lemma top_words_word depth word w l r :
  word <> [] -> Forall (fun c => is_word_char c = true) w -> lexes r l ->
  match r with c :: _ => is_word_char c = false | [] => True end ->
  top_words depth word ((Plain <$> w) ++ l) =
    let '(d, ws) := top_words depth [] l in (d, upper (word ++ w) :: ws).
Proof.
  intros Hne Hw Hl Hr. revert word Hne. induction Hw as [|c w Hc Hw IH]; intros word Hne.
  - rewrite app_nil_r. cbn [fmap list_fmap app].
    assert (Hflush : forall p, flush word p = let '(d, ws) := p in (d, upper word :: ws)).
    { intros [d ws]. unfold flush. by rewrite bool_decide_eq_false_2. }
    destruct r as [|c r]; [inversion Hl; subst; apply Hflush|].
    apply lexes_head in Hl as [[l' ->]|(x & l' & -> & Hx)]; cbn [top_words].
    + rewrite Hr, !andb_false_r, Hflush. by unfold flush at 1.
    + destruct x; [by rewrite Hflush; unfold flush|by rewrite Hflush; unfold flush|by destruct (Hx c0)].
  - cbn [fmap list_fmap app top_words]. rewrite bool_decide_eq_false_2, Hc by done. cbn [negb andb].
    unfold fmap in IH. rewrite IH by by destruct word. by rewrite <- app_assoc.
Qed.

Lemma lex_line_scan body s :
  10 ∉ body -> (s = [] \/ starts_with 10 s) ->
  find_sub [10] (45 :: 45 :: body ++ s) =
    match s with [] => None | _ => Some (45 :: 45 :: body, s) end.
Proof.
  intros Hb Hs. change (45 :: 45 :: body ++ s) with ((45 :: 45 :: body) ++ s).
  destruct Hs as [->|[u ->]].
  - rewrite app_nil_r, find_char_None; [done|]. by repeat (apply not_elem_of_cons; split).
  - rewrite find_char_app; [done|]. by repeat (apply not_elem_of_cons; split).
Qed.

Lemma plain_no_comment c s : plain_at c s -> is_prefix (py "--") (c :: s) = false /\ is_prefix (py "/*") (c :: s) = false.
Proof.
  intros (_ & _ & _ & _ & _ & Hline & Hblock). split; apply not_true_iff_false; intros E.
  - change (py "--") with [45; 45] in E. apply is_prefix_two in E as [s' E]. simplify_eq.
    destruct Hline. split; [done|by eexists].
  - change (py "/*") with [47; 42] in E. apply is_prefix_two in E as [s' E]. simplify_eq.
    destruct Hblock. split; [done|by eexists].
Qed.

(** [reverse words] followed by what [top_words] finds. *)
Definition scanned (words : list pystr) (r : Z * list pystr) : pyres (Z * list pystr) :=
  Ok (r.1, reverse words ++ r.2).

Lemma scanned_cons w words r : scanned (w :: words) r = scanned words (r.1, w :: r.2).
Proof. unfold scanned. by rewrite reverse_cons, <- app_assoc. Qed.

Lemma kind_scan_plain f depth words c s l :
  (forall depth words s' l', (length s' < S (length s))%nat -> lexes s' l' ->
     kind_scan f depth words s' = scanned words (top_words depth [] l')) ->
  plain_at c s -> lexes s l ->
  kind_scan (S f) depth words (c :: s) = scanned words (top_words depth [] (Plain c :: l)).
Proof.
  intros IH Hp Hl. destruct (plain_no_comment c s Hp) as [Hn1 Hn2]. destruct Hp as (Hq & _).
  cbn [kind_scan]. rewrite Hn1, Hn2, Hq. cbn [top_words]. unfold flush at 1. cbn [negb andb].
  rewrite bool_decide_eq_true_2 by done. cbn [negb andb].
  destruct (c =? 40); [apply IH; [lia|done]|]. destruct (c =? 41); [apply IH; [lia|done]|].
  destruct ((c =? 59) && (depth =? 0)).
  { rewrite (IH depth _ s l) by (done || lia). rewrite scanned_cons. by destruct (top_words depth [] l). }
  fold (starts_word c). destruct (starts_word c && (depth =? 0)); [|apply IH; [lia|done]].
  destruct (span_word s) as [w r] eqn:E. pose proof (span_word_length _ _ _ E).
  destruct (span_word_lexes _ _ _ _ E Hl) as (l' & -> & Hl' & Hw & Hr).
  rewrite (IH depth _ r l') by (done || lia). rewrite (top_words_word depth [c] w l' r) by done.
  rewrite scanned_cons. by destruct (top_words depth [] l').
Qed.

Lemma kind_scan_words fuel depth words s toks :
  lexes s toks -> (length s < fuel)%nat ->
  kind_scan fuel depth words s = scanned words (top_words depth [] toks).
Proof.
  revert depth words s toks. induction fuel as [|f IH]; intros depth words s toks Hl Hf; [lia|].
  assert (IH' : forall depth words s' l', (length s' < length s)%nat -> lexes s' l' ->
     kind_scan f depth words s' = scanned words (top_words depth [] l')) by (intros; apply IH; [done|lia]).
  clear IH. destruct Hl as [|body s toks Hb Hs Hl|body s toks Hb Hl|c body s toks Hq Hb Hs Hl|s toks Hd Hl|c s toks Hp Hl].
  - cbn [kind_scan top_words]. unfold scanned, flush. simpl. by rewrite app_nil_r.
  - cbn [top_words]. unfold flush. rewrite bool_decide_eq_true_2 by done.
    change (py "--" ++ body ++ s) with (45 :: 45 :: body ++ s) in *. cbn [kind_scan].
    change (is_prefix (py "--") (45 :: 45 :: body ++ s)) with true. cbv iota.
    rewrite lex_line_scan by done. destruct s as [|c s]; (apply IH'; [|done]); simpl; rewrite ?length_app; simpl; lia.
  - cbn [top_words]. unfold flush. rewrite bool_decide_eq_true_2 by done.
    change (py "/*" ++ body ++ py "*/" ++ s) with (47 :: 42 :: body ++ 42 :: 47 :: s) in *. cbn [kind_scan].
    change (is_prefix (py "--") (47 :: 42 :: body ++ 42 :: 47 :: s)) with false.
    change (is_prefix (py "/*") (47 :: 42 :: body ++ 42 :: 47 :: s)) with true. cbv iota.
    change (drop 2 (47 :: 42 :: body ++ 42 :: 47 :: s)) with (body ++ 42 :: 47 :: s).
    change (py "*/") with [42; 47] in *. rewrite find_two_app by done.
    change (drop 2 (42 :: 47 :: s)) with s. apply IH'; [|done]. simpl. rewrite length_app. simpl. lia.
  - cbn [top_words]. unfold flush. rewrite bool_decide_eq_true_2 by done. cbn [kind_scan].
    assert (Hn : is_prefix (py "--") (c :: body ++ closing_of c :: s) = false /\
                 is_prefix (py "/*") (c :: body ++ closing_of c :: s) = false).
    { apply quote_values in Hq as [->|[->|[->| ->]]]; done. }
    destruct Hn as [-> ->]. rewrite Hq, skip_quote_complete by done.
    apply IH'; [|done]. simpl. rewrite length_app. simpl. lia.
  - cbn [top_words]. unfold flush. rewrite bool_decide_eq_true_2 by done. cbn [kind_scan].
    change (is_prefix (py "--") (63 :: s)) with false. change (is_prefix (py "/*") (63 :: s)) with false.
    change (is_quote 63) with false. change (63 =? 40) with false. change (63 =? 41) with false.
    change (63 =? 59) with false. change (is_alpha 63 || (63 =? 95)) with false. cbn [andb].
    apply IH'; [simpl; lia|done].
  - by apply kind_scan_plain.
Qed.

(** What the words of a statement make it. *)
Definition classify (depth : Z) (words : list pystr) : pyres skind :=
  let words := reverse (drop_semicolons (reverse words)) in
  if bool_decide (words = []) || str_in [59] words || negb (depth =? 0)
  then Raise (dbe ProgrammingError "Execute exactly one balanced SQL statement")
  else if str_in (py "RETURNING") words
  then Raise (dbe NotSupportedError "DML RETURNING is not supported by the SQLodin service")
  else
    let first := hd [] words in
    let verb := if pyeqb first (py "WITH")
                then default [] (List.find (fun w => str_in w (py <$> ["SELECT"; "INSERT"; "UPDATE"; "DELETE"; "REPLACE"]%string)) (tl words))
                else first in
    if str_in verb [py "SELECT"; py "VALUES"] then Ok KQuery
    else if str_in verb write_words then Ok KExecute
    else Raise (dbe NotSupportedError "Only queries and DML/DDL statements are supported; transaction control uses Connection methods").

Lemma kind_classify sql toks :
  lexes sql toks -> _kind sql = let '(depth, words) := top_words 0 [] toks in classify depth words.
Proof.
  intros Hl. unfold _kind. rewrite (kind_scan_words _ 0 [] sql toks Hl) by lia.
  unfold scanned. destruct (top_words 0 [] toks) as [depth words]. cbn [fst snd res_bind].
  change (reverse [] ++ words) with words. unfold classify.
  destruct (bool_decide _ || _ || _); [done|]. cbn [guard res_bind].
  by destruct (str_in (py "RETURNING") _).
Qed.

(** Two texts with the same plain tokens differ in literals, quoted names and
    comments only. *)
Definition same_shape (x y : token) : Prop :=
  match x, y with
  | Verbatim _, Verbatim _ | Hole, Hole => True
  | Plain c, Plain d => c = d
  | _, _ => False
  end.

Lemma top_words_shape depth word t1 t2 : Forall2 same_shape t1 t2 -> top_words depth word t1 = top_words depth word t2.
Proof.
  intros Hs. revert depth word. induction Hs as [|x y t1 t2 Hxy Hs IH]; intros depth word; [done|].
  destruct x, y; try done; cbn [top_words]; [by rewrite IH..|]. simpl in Hxy. subst.
  by rewrite !IH.
Qed.

(** C13: on any statement [prepare] can lex, [_kind] sees exactly the words and
    semicolons outside parentheses, quotes and comments: it is decided by
    [classify] on them, so no literal, quoted name or comment can change how a
    statement is classified, nor hide a second statement. *)
Theorem kind_tokens sql toks sql' toks' :
  lexes sql toks -> lexes sql' toks' -> Forall2 same_shape toks toks' ->
  _kind sql = (let '(depth, words) := top_words 0 [] toks in classify depth words) /\
  _kind sql' = _kind sql.
Proof.
  intros Hl Hl' Hs. rewrite (kind_classify sql toks), (kind_classify sql' toks') by done.
  by rewrite (top_words_shape 0 [] toks toks').
Qed.

(** [SELECT] and a literal. *)
Lemma lex_select b : 39 ∉ b ->
  lexes (py "SELECT " ++ 39 :: b ++ [39]) ((Plain <$> py "SELECT ") ++ [Verbatim (39 :: b ++ [39])]).
Proof.
  intros Hb. apply simple_app; [reflexivity|done|]. apply (lex_quote 39 b [] []); [done| | |constructor].
  - induction b as [|c b IH]; [constructor|]. apply not_elem_of_cons in Hb as [Hc Hb].
    apply quoted_char; [|by apply IH]. change (closing_of 39) with 39. congruence.
  - by intros _ [? ?].
Qed.

Example kind_tokens_witness :
  let sql b := py "SELECT " ++ 39 :: py b ++ [39] in
  _kind (sql "x") = Ok KQuery /\ _kind (sql "; DELETE FROM t --") = _kind (sql "x").
Proof.
  pose proof (kind_tokens _ _ _ _ (lex_select (py "x") ltac:(vm_compute; set_solver))
    (lex_select (py "; DELETE FROM t --") ltac:(apply (bool_decide_eq_true_1 _); reflexivity))) as Hk.
  destruct Hk as [Hk Hk']; [by repeat constructor|]. split; [|exact Hk']. rewrite Hk. vm_compute. reflexivity.
Defined.

(** A closing parenthesis with nothing open hides what follows it up to the next
    opening one: two statements pass as one balanced query. *)
Example kind_negative_depth : _kind (py "SELECT 1) ; DROP TABLE t (") = Ok KQuery.
Proof. vm_compute. reflexivity. Qed.
