(* ===== verification/Dict.v ===== *)
(** * Python dictionaries and loops, for the qualification tools

    Insertion-ordered dictionaries with arbitrary keys, and the loops of the
    tools' monadic code. *)

From S2P Require Import Prelude PyStr PyFloat Objects.

Section Dict.
Context {K A : Type} `{EqDecision K}.

(** [d.get(k)], [d[k] = v], [del d[k]] *)
Fixpoint dget (k : K) (d : list (K * A)) : option A :=
  match d with
  | [] => None
  | (k', v) :: l => if decide (k = k') then Some v else dget k l
  end.

Fixpoint dset (k : K) (v : A) (d : list (K * A)) : list (K * A) :=
  match d with
  | [] => [(k, v)]
  | (k', v') :: l => if decide (k = k') then (k', v) :: l else (k', v') :: dset k v l
  end.

Definition ddel (k : K) (d : list (K * A)) : list (K * A) := filter (fun kv => kv.1 <> k) d.

(** [k in d] *)
Definition dmem (k : K) (d : list (K * A)) : bool := match dget k d with Some _ => true | None => false end.

(** [d[k]] *)
Definition dindex (k : K) (d : list (K * A)) : pyres A :=
  match dget k d with Some v => Ok v | None => Raise (KeyError "key") end.

Lemma dget_dset k k' v d : dget k (dset k' v d) = if decide (k = k') then Some v else dget k d.
Proof.
  induction d as [|[k2 v2] d IH]; simpl; [by destruct (decide (k = k'))|].
  destruct (decide (k' = k2)) as [->|Hn]; simpl.
  - by destruct (decide (k = k2)).
  - rewrite IH. destruct (decide (k = k2)) as [->|]; [|done]. by rewrite decide_False.
Qed.

Lemma dget_ddel k k' d : dget k (ddel k' d) = if decide (k = k') then None else dget k d.
Proof.
  unfold ddel. induction d as [|[k2 v2] d IH]; [by destruct (decide (k = k'))|].
  rewrite filter_cons. cbn [fst]. destruct (decide (k2 <> k')) as [Hn|Hn]; cbn [dget].
  - rewrite IH. destruct (decide (k = k2)) as [->|]; [|done]. by rewrite decide_False.
  - apply dec_stable in Hn as ->. rewrite IH. by destruct (decide (k = k')).
Qed.

Lemma dget_Some_In k v d : dget k d = Some v -> (k, v) ∈ d.
Proof.
  induction d as [|[k2 v2] d IH]; simpl; [done|]. destruct (decide (k = k2)) as [->|]; [intros [= ->]; by left|].
  intros Hd. right. auto.
Qed.
End Dict.

(** ** Loops *)

Section Loops.
Context {E S : Type}.

(** [for x in l: body] threading an accumulator of local variables. *)
Fixpoint for_each {A B} (l : list A) (body : A -> B -> M E S B) (acc : B) : M E S B :=
  match l with
  | [] => ret acc
  | x :: l' => let! acc := body x acc in for_each l' body acc
  end.

(** [for x in l: body] without local variables. *)
Fixpoint for_do {A} (l : list A) (body : A -> M E S unit) : M E S unit :=
  match l with
  | [] => ret tt
  | x :: l' => do! body x;; for_do l' body
  end.

(** [for attempt in range(n): ...; return r] then the [else] clause. *)
Fixpoint for_search {A B} (attempt : nat) (n : nat) (body : nat -> A -> M E S (A + B)) (acc : A)
    (otherwise : A -> M E S B) : M E S B :=
  match n with
  | O => otherwise acc
  | Datatypes.S n' =>
      let! r := body attempt acc in
      match r with
      | inr b => ret b
      | inl acc => for_search (Datatypes.S attempt) n' body acc otherwise
      end
  end.

(** [while cond: body], with fuel. *)
Fixpoint while_loop {A} (fuel : nat) (body : A -> M E S (A + A)) (acc : A) : M E S A :=
  match fuel with
  | O => lift OutOfFuel
  | Datatypes.S f =>
      let! r := body acc in
      match r with
      | inr a => ret a
      | inl a => while_loop f body a
      end
  end.

(** Loop rules: [I] holds of the accumulator and the state at every iteration. *)
Lemma wp_for_each {A B} (I : B -> S -> Prop) (Q : res E B -> S -> Prop) l (body : A -> B -> M E S B) acc s :
  I acc s ->
  (forall x acc s, x ∈ l -> I acc s ->
     wp (body x acc) (fun r s' => match r with Ok b => I b s' | Raise e => Q (Raise e) s' | OutOfFuel => Q OutOfFuel s' end) s) ->
  (forall acc s, I acc s -> Q (Ok acc) s) ->
  wp (for_each l body acc) Q s.
Proof.
  intros HI Hb HQ. revert acc s HI. induction l as [|x l IH]; intros acc s HI; cbn [for_each].
  { by apply wp_ret, HQ. }
  apply wp_bind. eapply wp_mono; [apply Hb; [by left|exact HI]|].
  intros [b|e|] s' HI'; [|done..]. apply IH; [|exact HI']. intros y acc' s2 Hy. apply Hb. by right.
Qed.

Lemma wp_for_do {A} (I : S -> Prop) (Q : res E unit -> S -> Prop) l (body : A -> M E S unit) s :
  I s ->
  (forall x s, x ∈ l -> I s ->
     wp (body x) (fun r s' => match r with Ok _ => I s' | Raise e => Q (Raise e) s' | OutOfFuel => Q OutOfFuel s' end) s) ->
  (forall s, I s -> Q (Ok tt) s) ->
  wp (for_do l body) Q s.
Proof.
  intros HI Hb HQ. revert s HI. induction l as [|x l IH]; intros s HI; cbn [for_do].
  { by apply wp_ret, HQ. }
  apply wp_bind. eapply wp_mono; [apply Hb; [by left|exact HI]|].
  intros [b|e|] s' HI'; [|done..]. apply IH; [|exact HI']. intros y s2 Hy. apply Hb. by right.
Qed.

Lemma wp_for_search {A B} (I : A -> S -> Prop) (Q : res E B -> S -> Prop) a n (body : nat -> A -> M E S (A + B)) acc otherwise s :
  I acc s ->
  (forall k acc s, I acc s ->
     wp (body k acc) (fun r s' => match r with
        | Ok (inl x) => I x s' | Ok (inr b) => Q (Ok b) s' | Raise e => Q (Raise e) s' | OutOfFuel => Q OutOfFuel s' end) s) ->
  (forall acc s, I acc s -> wp (otherwise acc) Q s) ->
  wp (for_search a n body acc otherwise) Q s.
Proof.
  intros HI Hb HQ. revert a acc s HI. induction n as [|n IH]; intros a acc s HI; cbn [for_search]; [by apply HQ|].
  apply wp_bind. eapply wp_mono; [apply Hb, HI|]. intros [[x|b]|e|] s' HI'; [by apply IH|by apply wp_ret|done..].
Qed.
End Loops.

(** [l[i] = v] in range. *)
Definition lset {A} (i : nat) (v : A) (l : list A) : list A := <[i := v]> l.
