(* ===== verification/Sqlalchemy.v ===== *)
(** * sqlodin/sqlalchemy.py

    The SQLAlchemy dialect: what it hands to the DB-API adapter, how isolation
    levels map to autocommit, which catalog queries it runs, and the vector
    column type.  SQLAlchemy itself is a parameter: [exec_driver_sql] runs a
    statement on the dialect's connection and [sa_create_engine] receives the
    engine's arguments. *)

From Corelib Require Import Floats.SpecFloat.
From S2P Require Import Prelude PyStr PyFloat Objects Json Bytes Vector Text Parameters Results.
From S2P Require Import Net Client Transaction Dbapi Transport Dict.

(** ** class VectorType *)

Definition VectorType_new (dimensions : pyval) : pyres Z :=
  match as_int dimensions with
  | Some n => if (1 <=? n) && (n <=? 384) then Ok n
              else Raise (ValueError "Vector dimensions must be in 1..384")
  | None => Raise (ValueError "Vector dimensions must be in 1..384")
  end.

Definition get_col_spec : pystr := py "BLOB".

(** The function [bind_processor] returns. *)
Definition bind_process (dimensions : Z) (value : pyval) : pyres pyval :=
  match value with
  | PNone => Ok PNone
  | _ =>
      let? v := match value with PVec w => Ok w | _ => Vector_new value end in
      do? guard (negb (vlen v =? dimensions)) (ValueError "Vector dimension mismatch");;
      Ok (PVec v)
  end.

(** [Vector.from_bytes] on any value: its length is tested before [struct]
    insists on bytes. *)
Definition from_bytes_value (value : pyval) : pyres Vector :=
  let bad := ValueError "A float32 vector BLOB needs 1..384 four-byte components" in
  let sized n := if (n mod 4 =? 0) && negb (384 * 4 <? n)
                 then TypeError "a bytes-like object is required" else bad in
  match value with
  | PBytes b => from_bytes b
  | _ =>
      if negb (truthy value) then Raise bad
      else match value with
           | PStr s => Raise (sized (zlen s))
           | PList l => Raise (sized (zlen l))
           | PDict d => Raise (sized (zlen d))
           | PVec w => Raise (sized (vlen w))
           | _ => Raise (TypeError "object has no len()")
           end
  end.

(** The function [result_processor] returns. *)
Definition result_process (dimensions : Z) (value : pyval) : pyres pyval :=
  match value with
  | PNone => Ok PNone
  | _ =>
      let? v := from_bytes_value value in
      do? guard (negb (vlen v =? dimensions)) (ValueError "Stored vector dimension mismatch");;
      Ok (PVec v)
  end.

(** ** class SQLodinDialect *)

(** The attributes of the class, which replace the SQLite dialect's. *)
Record DialectClass := mkDialectClass {
  dc_name : pystr; driver : pystr; supports_statement_cache : bool; insert_returning : bool; update_returning : bool;
  delete_returning : bool; use_insertmanyvalues : bool; postfetch_lastrowid : bool; supports_sane_rowcount : bool;
  supports_sane_multi_rowcount : bool; supports_default_values : bool
}.
Definition SQLodinDialect : DialectClass := mkDialectClass (py "sqlodin") (py "native") true false false false false true true true true.

(** The constructor keeps the module away from [SQLiteDialect.__init__], a
    parameter, and sets it afterwards: the instance's attributes. *)
Definition Dialect_init {A} (super_init : dict -> pyres A) (kwargs : dict) : pyres (A * pyval) :=
  let module := match dget (py "dbapi") kwargs with Some x => x | None => PNone end in
  let rest := filter (fun kv => kv.1 <> py "dbapi") kwargs in
  let? self := super_init ((py "dbapi", PNone) :: rest) in
  Ok (self, module).

(** [registry.register]: the name, module and class [create_engine]'s URL is
    looked up with. *)
Definition registered : pystr * pystr * pystr := (py "sqlodin", py "sqlodin.sqlalchemy", py "SQLodinDialect").

(** The components of [url] the dialect looks at, as truth values. *)
Record URL := mkURL { u_host : bool; u_database : bool; u_username : bool; u_password : bool; u_query : bool }.

Definition create_connect_args (url : URL) : pyres (list pyval * list (pystr * pyval)) :=
  if u_host url || u_database url || u_username url || u_password url || u_query url
  then Raise (ValueError "Use sqlodin:// with explicit connect_args for endpoints, cluster and TLS")
  else Ok ([], []).

(** [s.split('.')] *)
Fixpoint split_dot (s : pystr) : list pystr :=
  match s with
  | [] => [[]]
  | c :: l => if c =? 46 then [] :: split_dot l
              else match split_dot l with
                   | w :: ws => (c :: w) :: ws
                   | [] => [[c]]
                   end
  end.

Fixpoint ints_of (l : list pystr) : pyres (list Z) :=
  match l with
  | [] => Ok []
  | w :: ws => match int_of_str w with
               | Some n => let? ns := ints_of ws in Ok (n :: ns)
               | None => Raise (ValueError "invalid literal for int()")
               end
  end.

Definition get_default_schema_name : pystr := py "main".
Definition get_isolation_level_values : list pystr := py <$> ["SERIALIZABLE"; "AUTOCOMMIT"]%string.
Definition get_default_isolation_level : pystr := py "SERIALIZABLE".
Definition get_isolation_level (d : DConn) : pystr :=
  if d_autocommit d then py "AUTOCOMMIT" else py "SERIALIZABLE".
Definition detect_autocommit_setting (d : DConn) : bool := d_autocommit d.

Section Dialect.
Context {W : Type} `{Env W}.

Definition set_isolation_level (level : pystr) : D W unit :=
  if str_in level (py <$> ["SERIALIZABLE"; "AUTOCOMMIT"]%string)
  then set_autocommit (PBool (pyeqb level (py "AUTOCOMMIT")))
  else throw (dbe NotSupportedError "Supported isolation levels: SERIALIZABLE and AUTOCOMMIT").

Definition do_savepoint (name : pystr) : D W unit := savepoint name.
Definition do_rollback_to_savepoint (name : pystr) : D W unit := rollback_savepoint name.
Definition do_release_savepoint (name : pystr) : D W unit := release_savepoint name.
Definition do_begin_twophase : D W unit :=
  throw (dbe NotSupportedError "Two-phase transactions are unsupported").

Definition do_execute (statement : pystr) (parameters : pyval) : K W unit := k_execute statement parameters.
Definition do_executemany (statement : pystr) (parameters : pyval) : K W unit := executemany statement parameters.

(** *** The catalog *)

Variable exec_driver_sql : pystr -> list pyval -> K W (list (list pyval)).

(** [.scalar()]: the first column of the first row, [None] without rows. *)
Definition sa_scalar (rows : list (list pyval)) : pyval :=
  match rows with (v :: _) :: _ => v | _ => PNone end.

Definition get_server_version_info : K W (list Z) :=
  let! rows := exec_driver_sql (py "SELECT sqlite_version()") [] in
  match sa_scalar rows with
  | PStr s => lift (ints_of (split_dot s))
  | _ => throw (AttributeError "split")
  end.

Definition schema_ok (schema : option pystr) : bool :=
  match schema with None => true | Some s => pyeqb s (py "main") end.

Definition has_table (table_name : pystr) (schema : option pystr) : K W bool :=
  if negb (schema_ok schema) then ret false
  else
    let! rows := exec_driver_sql (py "SELECT 1 FROM sqlite_schema WHERE name=? AND type IN ('table','view')")
                                 [PStr table_name] in
    ret (match rows with [] => false | _ => true end).

Definition get_table_names (schema : option pystr) : K W (list pyval) :=
  if negb (schema_ok schema) then ret []
  else
    let! rows := exec_driver_sql
      (py "SELECT name FROM sqlite_schema WHERE type='table' AND name NOT LIKE 'sqlite_%' AND name NOT LIKE '_sqlodin_%' ORDER BY name") [] in
    lift (map_res (fun r => match r with v :: _ => Ok v | [] => Raise (IndexError "tuple index out of range") end) rows).

Definition get_columns : K W unit :=
  throw (NotImplementedError "Schema reflection is not supported; declare SQLAlchemy tables explicitly").
Definition get_foreign_keys : K W unit := throw (NotImplementedError "Foreign-key reflection is not supported").
Definition get_indexes : K W unit := throw (NotImplementedError "Index reflection is not supported").
Definition get_pk_constraint : K W unit := throw (NotImplementedError "Primary-key reflection is not supported").
End Dialect.

(** ** [create_engine] *)

(** What SQLAlchemy's own [create_engine] is given. *)
Record EngineArgs := mkEngine {
  e_url : pystr;
  e_isolation : pystr;
  e_autocommit : bool;
  e_endpoints : Endpoint + list Endpoint;
  e_cluster : pystr;
  e_tls : TLS;
  e_timeout : Q;
  e_options : dict
}.

Definition create_engine {E} (sa_create_engine : EngineArgs -> pyres E) (endpoints : Endpoint + list Endpoint)
    (cluster : pystr) (tls : TLS) (autocommit : pyval) (timeout : Q) (options : dict) : pyres E :=
  match autocommit with
  | PBool b =>
      if bool_decide (dict_get (py "connect_args") options <> None)
         || bool_decide (dict_get (py "isolation_level") options <> None)
      then Raise (ValueError "Connection arguments and isolation are set by this helper")
      else sa_create_engine (mkEngine (py "sqlodin://") (if b then py "AUTOCOMMIT" else py "SERIALIZABLE") b endpoints cluster tls timeout options)
  | _ => Raise (ValueError "autocommit must be bool")
  end.

(** ** Properties *)

(** A vector column stores what it was given: whatever value a [VectorType]
    accepts for binding, the BLOB sent for it has four bytes per dimension and
    the column's result processor reads the same vector back; a vector of any
    other dimension is refused on both sides. *)
Theorem vector_column_roundtrip dims x v :
  (forall w, x = PVec w -> wf_vector w) -> x <> PNone ->
  bind_process dims x = Ok v ->
  exists w b, v = PVec w /\ to_bytes w = Ok b /\ zlen b = 4 * dims /\
    result_process dims (PBytes b) = Ok (PVec w) /\
    forall other, other <> dims -> result_process other (PBytes b) = Raise (ValueError "Stored vector dimension mismatch").
Proof.
  intros Hw Hx Hb.
  assert (Hv : exists w, wf_vector w /\ vlen w = dims /\ v = PVec w).
  { destruct x; try done; unfold bind_process in Hb; res_inv; unbool; eexists; (split; [|split; [exact Hr0|reflexivity]]);
      simplify_eq; eauto using new_wf. }
  destruct Hv as (w & Hwf & <- & ->). destruct (blob_roundtrip w Hwf) as (b & Ht & Hl & Hf).
  exists w, b. split_and!; [done..| |].
  - unfold result_process, from_bytes_value. rewrite Hf. cbn [res_bind]. by rewrite Z.eqb_refl.
  - intros other Ho. unfold result_process, from_bytes_value. rewrite Hf. cbn [res_bind].
    by rewrite (proj2 (Z.eqb_neq _ _)) by congruence.
Qed.

(** The isolation level set through SQLAlchemy is the one it reads back, and
    it changes nothing in the middle of a transaction: on a usable connection
    without an open transaction either level takes effect, and with one open only
    the current level is accepted. *)
Theorem isolation_levels {W} `{Env W} level (d : DConn) (n : Conn * W) :
  level ∈ get_isolation_level_values ->
  d_closed d = false -> c_pending n.1 = None -> d_failed d = false ->
  let '(r, s) := set_isolation_level level (d, n) in
  if bool_decide (d_version d = None) || pyeqb (get_isolation_level d) level
  then r = Ok tt /\ s = (d_set_autocommit (pyeqb level (py "AUTOCOMMIT")) d, n) /\ get_isolation_level s.1 = level
  else r = Raise (dbe ProgrammingError "Commit or roll back before changing autocommit") /\ s = (d, n).
Proof.
  destruct d as [cl au v st sp fl], n as [c w]. intros Hl Hcl Hp Hf. cbn [d_closed d_failed fst] in *. subst cl fl.
  unfold set_isolation_level. change (py <$> ["SERIALIZABLE"; "AUTOCOMMIT"]%string) with get_isolation_level_values.
  rewrite (proj2 (str_in_spec _ _) Hl).
  unfold set_autocommit, d_ready, bind, dself, native_pending, gets, dupdate, modify.
  cbn [fst snd d_closed d_failed d_autocommit d_version]. rewrite Hp. cbn [andb fst snd].
  unfold get_isolation_level_values in Hl. cbn [fmap list_fmap] in Hl.
  apply elem_of_cons in Hl as [->|Hl]; [|apply list_elem_of_singleton in Hl as ->];
    destruct au, v; vm_compute; done.
Qed.

Example vector_column_roundtrip_witness :
  exists w b, bind_process 2 (PList [PInt 1; PStr (py "2.5")]) = Ok (PVec w) /\ to_bytes w = Ok b /\ zlen b = 4 * 2 /\
    result_process 2 (PBytes b) = Ok (PVec w).
Proof.
  destruct (vector_column_roundtrip 2 (PList [PInt 1; PStr (py "2.5")]) (PVec (mkVector [S754_finite false 4503599627370496 (-52); S754_finite false 5629499534213120 (-51)])))
    as (w & b & E & Ht & Hl & Hr & _); [done|done|vm_compute; reflexivity|].
  injection E as <-. eexists _, b. split; [vm_compute; reflexivity|]. done.
Defined.

Example isolation_levels_witness :
  let n := (mkConn [mkEndpoint (py "one:7401") (py "one")] (py "test") 10 (py "00000000000000000000000000000001")
                   1 None None 0 0 false false, mkScript 0 [] []) in
  let '(r, s) := set_isolation_level (py "AUTOCOMMIT") (DConn_new false, n) in
  r = Ok tt /\ s = (d_set_autocommit true (DConn_new false), n) /\ get_isolation_level s.1 = py "AUTOCOMMIT".
Proof.
  apply (isolation_levels (py "AUTOCOMMIT") (DConn_new false)
    (mkConn [mkEndpoint (py "one:7401") (py "one")] (py "test") 10 (py "00000000000000000000000000000001")
            1 None None 0 0 false false, mkScript 0 [] [])); try reflexivity.
  apply (bool_decide_eq_true_1 _). reflexivity.
Defined.
