(* ===== verification/History.v ===== *)
(** * tools/check_transaction_history.py: the serial checker

    [serial_history] decides whether a recorded history of concurrent
    transactions and reads has a serial explanation that respects real time.  A
    history entry is an [Op]; sets of operations are bit masks, as in the code;
    the memo table is threaded through the search. *)

From stdpp Require Import sorting.
From S2P Require Import Prelude PyStr PyFloat Objects.

(** ['read'], ['readonly_transaction'], ['transaction'] *)
Inductive opkind := KRead | KReadonly | KTransaction.
(** ['pending'], ['ok'], ['serialization_abort'] *)
Inductive opstatus := SPending | SOk | SAborted.

#[export] Instance opkind_eq_dec : EqDecision opkind.
Proof. solve_decision. Defined.
#[export] Instance opstatus_eq_dec : EqDecision opstatus.
Proof. solve_decision. Defined.

(** One [op] dictionary; [o_after] and [o_key] matter for transactions only. *)
Record Op := mkOp {
  o_id : Z; o_node : Z; o_start : Z; o_end : Z; o_kind : opkind; o_key : Z;
  o_status : opstatus; o_observed : list Z; o_after : list Z
}.

(** [sorted(set(state) ^ {key})] *)
Definition toggle (key : Z) (state : list Z) : list Z :=
  let s := remove_dups state in
  merge_sort Z.le (if decide (key ∈ s) then filter (fun k => k <> key) s else key :: s).

Section Search.
Variable ops : list Op.

(** [sum(1 << j for j, other in enumerate(ops) if other['end'] < op['start'])] *)
Fixpoint before_mask (op : Op) (j : Z) (l : list Op) : Z :=
  match l with
  | [] => 0
  | other :: l' => (if o_end other <? o_start op then Z.shiftl 1 j else 0) + before_mask op (j + 1) l'
  end.

Definition before (op : Op) : Z := before_mask op 0 ops.
Definition full : Z := Z.shiftl 1 (zlen ops) - 1.

(** The state after [op], when it can be the next operation. *)
Definition effect (op : Op) (state : list Z) : option (list Z) :=
  match o_kind op with
  | KTransaction => let after := toggle (o_key op) state in if bool_decide (o_after op = after) then Some after else None
  | KReadonly => if bool_decide (o_after op = state) then Some state else None
  | KRead => Some state
  end.

(** The guards of the loop body of [search]. *)
Definition next_state (mask : Z) (i : nat) (op : Op) (state : list Z) : option (list Z) :=
  if negb (Z.land mask (Z.shiftl 1 (Z.of_nat i)) =? 0) || negb (Z.land (before op) (Z.lnot mask) =? 0)
     || negb (bool_decide (o_observed op = state))
  then None
  else effect op state.

Definition visited_set := list (Z * list Z).
Definition answer := option (list Z * list Z).

(** [for i, op in enumerate(ops)] of [search], given the recursive call. *)
Fixpoint try_each (rec : Z -> list Z -> list Z -> visited_set -> res exn answer * visited_set)
    (mask : Z) (state order : list Z) (i : nat) (l : list Op) (visited : visited_set)
    : res exn answer * visited_set :=
  match l with
  | [] => (Ok None, visited)
  | op :: l' =>
      match next_state mask i op state with
      | None => try_each rec mask state order (S i) l' visited
      | Some after =>
          match rec (Z.lor mask (Z.shiftl 1 (Z.of_nat i))) after (order ++ [o_id op]) visited with
          | (Ok None, visited) => try_each rec mask state order (S i) l' visited
          | out => out
          end
      end
  end.

(** [search]; the depth is at most the number of operations. *)
Fixpoint search (fuel : nat) (mask : Z) (state order : list Z) (visited : visited_set)
    : res exn answer * visited_set :=
  match fuel with
  | O => (OutOfFuel, visited)
  | S f =>
      if mask =? full then (Ok (Some (state, order)), visited)
      else if bool_decide ((mask, state) ∈ visited) then (Ok None, visited)
      else try_each (search f) mask state order 0 ops ((mask, state) :: visited)
  end.
End Search.

Definition is_ok (op : Op) : bool := bool_decide (o_status op = SOk).

Definition serial_history (initial : list Z) (history : list Op) : res exn answer :=
  let ops := List.filter is_ok history in
  (search ops (S (length ops)) 0 (merge_sort Z.le initial) [] []).1.

(** ** [negative_controls] *)

Definition py_assert {E} (b : bool) (e : E) : res E unit := guard (negb b) e.

Definition control_write : Op := mkOp 0 0 1 2 KTransaction 1 SOk [] [1].
Definition control_stale : Op := mkOp 1 0 3 4 KRead 0 SOk [] [].
Definition control_skew : Op := mkOp 1 0 1 3 KTransaction 2 SOk [] [2].
Definition control_valid : Op := mkOp 1 0 3 4 KRead 0 SOk [1] [].

Definition negative_controls : pyres (list pystr) :=
  let? r1 := serial_history [] [control_write; control_stale] in
  do? py_assert (bool_decide (r1 = None)) (AssertionError "");;
  let? r2 := serial_history [] [control_write; control_skew] in
  do? py_assert (bool_decide (r2 = None)) (AssertionError "");;
  let? r3 := serial_history [] [control_write; control_valid] in
  match r3 with
  | Some (state, _) =>
      do? py_assert (bool_decide (state = [1])) (AssertionError "");;
      Ok (py <$> ["completed_write_then_stale_predicate_rejected"; "committed_write_skew_rejected";
                  "ordered_write_and_fresh_predicate_accepted"]%string)
  | None => Raise (TypeError "'NoneType' object is not subscriptable")
  end.

(** ** What it means for a history to have a serial explanation *)

(** Running operations one after another: each sees exactly the state its
    predecessors left. *)
Fixpoint replay (state : list Z) (l : list Op) : option (list Z) :=
  match l with
  | [] => Some state
  | op :: l' => if bool_decide (o_observed op = state)
                then match effect op state with Some after => replay after l' | None => None end
                else None
  end.

(** An operation that ended before another began comes before it. *)
Definition real_time (order : list Op) : Prop :=
  forall i j a b, order !! i = Some a -> order !! j = Some b -> o_end a < o_start b -> (i < j)%nat.

Definition serial_order (initial : list Z) (ops order : list Op) (final : list Z) : Prop :=
  order ≡ₚ ops /\ real_time order /\ replay initial order = Some final.

(** * Correctness of the serial checker

    [serial_history] answers exactly whether the successful operations of a
    history have a serial order that respects real time and explains every
    observation: the bit masks, the pruning and the memo table lose nothing. *)

(** ** Bit masks *)

Definition bit (i : nat) : Z := Z.shiftl 1 (Z.of_nat i).

Lemma testbit_bit i j : Z.testbit (bit i) (Z.of_nat j) = bool_decide (i = j).
Proof.
  unfold bit. rewrite Z.shiftl_1_l, Z.pow2_bits_eqb by lia.
  case_bool_decide as E; [subst; apply Z.eqb_refl|]. apply Z.eqb_neq. lia.
Qed.

Lemma land_bit mask i : (Z.land mask (bit i) =? 0) = negb (Z.testbit mask (Z.of_nat i)).
Proof.
  destruct (Z.testbit mask (Z.of_nat i)) eqn:E; simpl.
  - apply Z.eqb_neq. intros H. apply (f_equal (fun z => Z.testbit z (Z.of_nat i))) in H.
    rewrite Z.land_spec, E, testbit_bit, bool_decide_eq_true_2, Z.bits_0 in H by done. done.
  - apply Z.eqb_eq, Z.bits_inj_0. intros n. rewrite Z.land_spec. destruct (Z.ltb_spec n 0).
    { by rewrite Z.testbit_neg_r, andb_false_l by lia. }
    rewrite <- (Z2Nat.id n) by done. rewrite testbit_bit. case_bool_decide as Hi; [by rewrite <- Hi, E|by rewrite andb_false_r].
Qed.

Lemma land_lnot a mask :
  0 <= a -> (Z.land a (Z.lnot mask) =? 0) = true <->
  forall i : nat, Z.testbit a (Z.of_nat i) = true -> Z.testbit mask (Z.of_nat i) = true.
Proof.
  intros Ha. rewrite Z.eqb_eq. split.
  - intros H i Hi. apply (f_equal (fun z => Z.testbit z (Z.of_nat i))) in H.
    rewrite Z.land_spec, Z.lnot_spec, Hi, Z.bits_0 in H by lia. simpl in H. by destruct (Z.testbit mask _).
  - intros H. apply Z.bits_inj_0. intros n. destruct (Z.ltb_spec n 0); [by rewrite Z.testbit_neg_r by lia|].
    rewrite Z.land_spec, Z.lnot_spec by lia. specialize (H (Z.to_nat n)). rewrite Z2Nat.id in H by done.
    destruct (Z.testbit a n); [|done]. by rewrite H.
Qed.

Section Masks.
Variable ops : list Op.
Implicit Types (mask : Z) (i j : nat) (op : Op) (state : list Z).

Lemma before_mask_shift op k l : 0 <= k -> before_mask op k l = 2 ^ k * before_mask op 0 l.
Proof.
  revert k. induction l as [|o l IH]; intros k Hk; cbn [before_mask]; [lia|].
  rewrite (IH (k + 1)), (IH (0 + 1)) by lia. rewrite !Z.shiftl_1_l, Z.pow_add_r by lia.
  change (2 ^ 0) with 1. change (2 ^ (0 + 1)) with 2. change (2 ^ 1) with 2. destruct (_ <? _); ring.
Qed.

Lemma before_mask_cons op o l :
  before_mask op 0 (o :: l) = 2 * before_mask op 0 l + Z.b2z (o_end o <? o_start op).
Proof.
  cbn [before_mask]. rewrite before_mask_shift by lia. change (2 ^ (0 + 1)) with 2. change (Z.shiftl 1 0) with 1.
  destruct (_ <? _); simpl; lia.
Qed.

Lemma before_mask_nonneg op l : 0 <= before_mask op 0 l.
Proof. induction l as [|o l IH]; [done|]. rewrite before_mask_cons. destruct (_ <? _); simpl; lia. Qed.

(** Bit [j] of [before[i]]: operation [j] ended before [i] began. *)
Lemma before_mask_testbit op l j :
  Z.testbit (before_mask op 0 l) (Z.of_nat j) = true <-> exists o, l !! j = Some o /\ o_end o < o_start op.
Proof.
  revert j. induction l as [|o l IH]; intros j.
  { cbn [before_mask]. rewrite Z.bits_0, lookup_nil. naive_solver. }
  rewrite before_mask_cons. destruct j as [|j].
  - change (Z.of_nat 0) with 0. rewrite Z.testbit_0_r. cbn [lookup list_lookup]. rewrite Z.ltb_lt. naive_solver.
  - rewrite Nat2Z.inj_succ, Z.testbit_succ_r by lia. apply IH.
Qed.

(** [mask] is the set of indices [done]. *)
Definition covers mask (done : list nat) : Prop :=
  0 <= mask /\ (forall i, Z.testbit mask (Z.of_nat i) = true <-> i ∈ done) /\
  (forall i, i ∈ done -> (i < length ops)%nat).

Lemma covers_nil : covers 0 [].
Proof.
  split_and!; [done| |by intros i ?%elem_of_nil]. intros i. rewrite Z.bits_0, elem_of_nil. done.
Qed.

Lemma covers_snoc mask done i :
  covers mask done -> (i < length ops)%nat -> covers (Z.lor mask (bit i)) (done ++ [i]).
Proof.
  intros (H0 & Hb & Hl) Hi. split_and!.
  - apply Z.lor_nonneg. split; [done|]. unfold bit. rewrite Z.shiftl_1_l. lia.
  - intros j. rewrite Z.lor_spec, testbit_bit, orb_true_iff, Hb, bool_decide_eq_true, elem_of_app, list_elem_of_singleton.
    naive_solver.
  - intros j [Hj|Hj]%elem_of_app; [by apply Hl|]. by apply list_elem_of_singleton in Hj as ->.
Qed.

Lemma full_testbit i : Z.testbit (full ops) (Z.of_nat i) = true <-> (i < length ops)%nat.
Proof.
  unfold full. rewrite Z.shiftl_1_l. replace (2 ^ zlen ops - 1) with (Z.ones (zlen ops)) by (rewrite Z.ones_equiv; lia).
  rewrite Z.testbit_ones_nonneg by (unfold zlen; lia). rewrite Z.ltb_lt. unfold zlen. lia.
Qed.

(** All bits are set when every operation is done. *)
Lemma covers_full mask done :
  covers mask done -> mask = full ops <-> forall i, (i < length ops)%nat -> i ∈ done.
Proof.
  intros (H0 & Hb & Hl). split.
  - intros -> i Hi. by apply Hb, full_testbit.
  - intros Hall. apply Z.bits_inj'. intros n Hn. rewrite <- (Z2Nat.id n) by done.
    apply eq_true_iff_eq. rewrite Hb, full_testbit. split; [apply Hl|apply Hall].
Qed.

(** ** The search, as a path of choices *)

Lemma next_state_Some mask i op state after done :
  covers mask done ->
  next_state ops mask i op state = Some after <->
  i ∉ done /\ (forall j o, ops !! j = Some o -> o_end o < o_start op -> j ∈ done) /\
  o_observed op = state /\ effect op state = Some after.
Proof.
  intros (H0 & Hb & Hl). unfold next_state. change (Z.shiftl 1 (Z.of_nat i)) with (bit i).
  rewrite land_bit, negb_involutive.
  assert (Hbef : negb (Z.land (before ops op) (Z.lnot mask) =? 0) = false <->
    forall j o, ops !! j = Some o -> o_end o < o_start op -> j ∈ done).
  { rewrite negb_false_iff, land_lnot by apply before_mask_nonneg. setoid_rewrite Hb.
    unfold before. setoid_rewrite before_mask_testbit. naive_solver. }
  destruct (Z.testbit mask (Z.of_nat i)) eqn:Ei; cbn [orb].
  { split; [done|]. intros (Hn & _). by apply Hb in Ei. }
  assert (Hni : i ∉ done) by (rewrite <- Hb; congruence).
  destruct (negb (Z.land _ _ =? 0)) eqn:En; cbn [orb].
  { split; [done|]. intros (_ & Hj & _). apply Hbef in Hj. congruence. }
  case_bool_decide; cbn [negb]; [|naive_solver]. split; [|naive_solver]. intros. split_and!; try done. by apply Hbef.
Qed.

(** Performing the operations [rest] in that order ends the search with [state]. *)
Fixpoint follow mask state (rest : list nat) : option (list Z) :=
  match rest with
  | [] => if mask =? full ops then Some state else None
  | i :: l => match ops !! i with
              | Some op => match next_state ops mask i op state with
                           | Some after => follow (Z.lor mask (bit i)) after l
                           | None => None
                           end
              | None => None
              end
  end.

Definition dead mask state : Prop := forall rest final, follow mask state rest <> Some final.

(** How many operations a mask holds. *)
Definition size mask : nat := length (filter (fun i => Z.testbit mask (Z.of_nat i) = true) (seq 0 (length ops))).

Lemma size_add mask i :
  (i < length ops)%nat -> Z.testbit mask (Z.of_nat i) = false -> size (Z.lor mask (bit i)) = S (size mask).
Proof.
  intros Hi Hb. unfold size.
  assert (Hin : seq 0 (length ops) = seq 0 i ++ i :: seq (S i) (length ops - S i)).
  { replace (length ops) with (i + S (length ops - S i))%nat at 1 by lia. by rewrite seq_app. }
  rewrite Hin, !filter_app, !length_app, !filter_cons.
  assert (Hsame : forall l : list nat, i ∉ l -> filter (fun j => Z.testbit (Z.lor mask (bit i)) (Z.of_nat j) = true) l =
                                    filter (fun j => Z.testbit mask (Z.of_nat j) = true) l).
  { induction l as [|j l IH]; intros Hl; [done|]. apply not_elem_of_cons in Hl as [Hj Hl].
    rewrite !filter_cons, IH by done.
    by rewrite Z.lor_spec, testbit_bit, bool_decide_eq_false_2, orb_false_r. }
  rewrite !Hsame by (rewrite elem_of_seq; lia).
  rewrite decide_True by (rewrite Z.lor_spec, testbit_bit, bool_decide_eq_true_2, orb_true_r by done; done).
  rewrite decide_False by congruence. simpl. lia.
Qed.

Lemma size_bound mask : (size mask <= length ops)%nat.
Proof. unfold size. etransitivity; [apply length_filter|]. by rewrite length_seq. Qed.

(** ** The search finds a path exactly when there is one *)

(** The memo table: states already explored without success, and those the
    search is in the middle of, which have fewer operations. *)
Definition memo_ok (n : nat) (visited : visited_set) : Prop :=
  forall m s, (m, s) ∈ visited -> dead m s \/ (size m < n)%nat.

Definition grows (visited visited' : visited_set) : Prop :=
  forall m s, (m, s) ∈ visited' -> (m, s) ∈ visited \/ dead m s.

Definition ids (rest : list nat) : list Z := o_id <$> omap (fun i => ops !! i) rest.

(** What [search] promises. *)
Definition search_ok mask state (order : list Z) visited (out : res exn answer * visited_set) : Prop :=
  match out.1 with
  | Ok (Some (final, order')) => exists rest, follow mask state rest = Some final /\ order' = order ++ ids rest
  | Ok None => dead mask state /\ grows visited out.2
  | _ => False
  end.

Definition choices_dead mask state i (l : list Op) : Prop :=
  forall k op after, l !! k = Some op -> next_state ops mask (i + k)%nat op state = Some after ->
                     dead (Z.lor mask (bit (i + k))) after.

Lemma try_each_ok rec mask state order i l visited :
  (forall k, l !! k = ops !! (i + k)%nat) ->
  (forall j op after order visited, ops !! j = Some op -> next_state ops mask j op state = Some after ->
     memo_ok (S (size mask)) visited ->
     search_ok (Z.lor mask (bit j)) after order visited (rec (Z.lor mask (bit j)) after order visited)) ->
  memo_ok (S (size mask)) visited ->
  let out := try_each ops rec mask state order i l visited in
  match out.1 with
  | Ok (Some (final, order')) => exists rest, follow mask state rest = Some final /\ order' = order ++ ids rest
  | Ok None => choices_dead mask state i l /\ grows visited out.2
  | _ => False
  end.
Proof.
  intros Hl Hrec. revert i visited Hl. induction l as [|op l IH]; intros i visited Hl Hm; cbn [try_each].
  { cbn [fst snd]. split; [intros k op after Hk; by rewrite lookup_nil in Hk|]. intros m s; auto. }
  assert (Hop : ops !! i = Some op) by (rewrite <- (Nat.add_0_r i), <- Hl; done).
  assert (Hl' : forall k, l !! k = ops !! (S i + k)%nat).
  { intros k. rewrite Nat.add_succ_comm, <- (Hl (S k)). done. }
  assert (Hskip : forall visited', memo_ok (S (size mask)) visited' -> grows visited visited' ->
    (forall after, next_state ops mask i op state = Some after -> dead (Z.lor mask (bit i)) after) ->
    let out := try_each ops rec mask state order (S i) l visited' in
    match out.1 with
    | Ok (Some (final, order')) => exists rest, follow mask state rest = Some final /\ order' = order ++ ids rest
    | Ok None => choices_dead mask state i (op :: l) /\ grows visited out.2
    | _ => False
    end).
  { intros visited' Hm' Hg Hd. specialize (IH (S i) visited' Hl' Hm').
    cbv zeta in *. destruct (try_each ops rec mask state order (S i) l visited') as [[[[final o']|]| |] v2]; try done.
    destruct IH as [Hc Hg2]. split.
    - intros [|k] op' after Hk Hn; [injection Hk as <-; rewrite Nat.add_0_r in *; auto|].
      rewrite <- Nat.add_succ_comm in *. by eapply Hc.
    - intros m s [Hin|Hin]%Hg2; [by apply Hg|by right]. }
  destruct (next_state ops mask i op state) as [after|] eqn:Hn.
  - change (Z.shiftl 1 (Z.of_nat i)) with (bit i).
    pose proof (Hrec i op after (order ++ [o_id op]) visited Hop Hn Hm) as Hr.
    destruct (rec (Z.lor mask (bit i)) after (order ++ [o_id op]) visited) as [[[[final o']|]| |] v1]; cbn [fst snd] in *; try done.
    + destruct Hr as (rest & Hf & ->). exists (i :: rest). cbn [follow]. rewrite Hop, Hn. split; [done|].
      unfold ids. cbn [omap list_omap]. rewrite Hop. cbn [fmap list_fmap]. by rewrite <- app_assoc.
    + destruct Hr as [Hd Hg]. apply Hskip; [|done|by intros ? [= <-]].
      intros m s [Hin|Hin]%Hg; [by apply Hm|by left].
  - apply Hskip; [done| |done]. intros m s; auto.
Qed.

Lemma search_correct f mask state order visited done :
  covers mask done -> memo_ok (size mask) visited -> (length ops - size mask < f)%nat ->
  search_ok mask state order visited (search ops f mask state order visited).
Proof.
  revert mask state order visited done. induction f as [|f IH]; intros mask state order visited done Hc Hm Hf; [lia|].
  cbn [search]. destruct (mask =? full ops) eqn:Hfull.
  { exists []. cbn [follow]. rewrite Hfull. unfold ids. cbn. by rewrite app_nil_r. }
  case_bool_decide as Hv.
  { destruct (Hm _ _ Hv) as [Hd|Hlt]; [|lia]. split; [done|]. intros m s; auto. }
  assert (Hm' : memo_ok (S (size mask)) ((mask, state) :: visited)).
  { intros m s [[= -> ->]|Hin]%elem_of_cons; [right; lia|]. destruct (Hm _ _ Hin); [by left|right; lia]. }
  pose proof (try_each_ok (search ops f) mask state order 0 ops ((mask, state) :: visited)) as Ht.
  specialize (Ht ltac:(done)). assert (Hrec : forall j op after order visited, ops !! j = Some op ->
     next_state ops mask j op state = Some after -> memo_ok (S (size mask)) visited ->
     search_ok (Z.lor mask (bit j)) after order visited (search ops f (Z.lor mask (bit j)) after order visited)).
  { intros j op after o v Hj Hn Hmv. pose proof (lookup_lt_Some _ _ _ Hj) as Hlt.
    pose proof (proj1 (next_state_Some mask j op state after done Hc) Hn) as (Hnot & _).
    assert (Hbit : Z.testbit mask (Z.of_nat j) = false).
    { apply not_true_iff_false. destruct Hc as (_ & Hb & _). by rewrite Hb. }
    pose proof (size_add mask j Hlt Hbit) as Hsz.
    assert (size mask < length ops)%nat.
    { pose proof (size_bound (Z.lor mask (bit j))). lia. }
    apply (IH _ _ _ _ (done ++ [j])); [by apply covers_snoc|by rewrite Hsz|lia]. }
  specialize (Ht Hrec Hm'). cbv zeta in Ht. unfold search_ok.
  destruct (try_each ops (search ops f) mask state order 0 ops ((mask, state) :: visited)) as [[[[final o']|]| |] v1];
    cbn [fst snd] in *; try done.
  destruct Ht as [Hcd Hg].
  assert (Hdead : dead mask state).
  { intros [|i rest] final; cbn [follow]; [by rewrite Hfull|].
    destruct (ops !! i) as [op|] eqn:Hi; [|done]. destruct (next_state ops mask i op state) as [after|] eqn:Hn; [|done].
    by apply (Hcd i op after). }
  split; [done|]. intros m s [Hin|Hin]%Hg; [|by right].
  apply elem_of_cons in Hin as [[= -> ->]|Hin]; [by right|by left].
Qed.

(** ** Paths are serial orders *)

Definition at_ (rest : list nat) : list Op := omap (fun i => ops !! i) rest.

(** Whatever ended before an operation began is done when it is performed. *)
Definition precedence (done rest : list nat) : Prop :=
  forall a i op j o, rest !! a = Some i -> ops !! i = Some op -> ops !! j = Some o ->
                     o_end o < o_start op -> j ∈ done ++ take a rest.

Lemma precedence_cons done i rest :
  precedence done (i :: rest) <->
  (forall op j o, ops !! i = Some op -> ops !! j = Some o -> o_end o < o_start op -> j ∈ done) /\
  precedence (done ++ [i]) rest.
Proof.
  unfold precedence. split.
  - intros H. split.
    + intros op j o Hi Hj Hlt. specialize (H O i op j o eq_refl Hi Hj Hlt). by rewrite take_0, app_nil_r in H.
    + intros a k op j o Ha. rewrite <- app_assoc. by apply (H (S a)).
  - intros [H1 H2] [|a] k op j o Ha Hk Hj Hlt.
    + injection Ha as ->. rewrite take_0, app_nil_r. by eapply H1.
    + cbn [take]. rewrite cons_middle, app_assoc. by eapply H2.
Qed.

Lemma follow_spec mask state done rest final :
  covers mask done -> NoDup done ->
  follow mask state rest = Some final <->
  done ++ rest ≡ₚ seq 0 (length ops) /\ precedence done rest /\ replay state (at_ rest) = Some final.
Proof.
  revert mask state done. induction rest as [|i rest IH]; intros mask state done Hc Hnd; cbn [follow].
  - rewrite app_nil_r. destruct (Z.eqb_spec mask (full ops)) as [E|E].
    + split; [intros [= <-]|by intros (_ & _ & Hr)]. split_and!; [|by intros a i op j o Ha; rewrite lookup_nil in Ha|done].
      apply NoDup_Permutation; [done|apply NoDup_seq|]. intros j. rewrite elem_of_seq.
      destruct Hc as (Hc1 & Hc2 & Hl). split; [intros Hj%Hl; lia|].
      intros [_ Hj]. by apply (covers_full mask done (conj Hc1 (conj Hc2 Hl))).
    + split; [done|]. intros (Hp & _). exfalso. apply E, (covers_full mask done Hc). intros j Hj.
      rewrite Hp, elem_of_seq. lia.
  - destruct (ops !! i) as [op|] eqn:Hi.
    2: { split; [done|]. intros (Hp & _). exfalso. apply lookup_ge_None_1 in Hi.
         assert (Hin : i ∈ seq 0 (length ops)) by (rewrite <- Hp; set_solver). apply elem_of_seq in Hin. lia. }
    pose proof (lookup_lt_Some _ _ _ Hi) as Hlt. rewrite precedence_cons, cons_middle, app_assoc.
    unfold at_ in *. cbn [omap list_omap]. rewrite Hi. cbn [replay].
    destruct (next_state ops mask i op state) as [after|] eqn:Hn.
    + apply (next_state_Some mask i op state after done Hc) in Hn as (Hni & Hb & Ho & He).
      rewrite (IH _ _ (done ++ [i])); [|by apply covers_snoc|].
      2: { apply NoDup_app. split_and!; [done| |apply NoDup_singleton]. intros j Hj ->%list_elem_of_singleton. done. }
      rewrite bool_decide_eq_true_2, He by done. split; [|naive_solver]. intros (? & ? & ?). split_and!; try done.
      intros op' j o [= <-]. apply Hb.
    + split; [done|]. intros (Hp & [Hb _] & Hr). case_bool_decide as Ho; [|done].
      destruct (effect op state) as [after|] eqn:He; [|done]. rewrite <- Hn. exfalso.
      assert (Hs : next_state ops mask i op state = Some after); [|congruence].
      apply (next_state_Some mask i op state after done Hc). split_and!; [|by intros; eapply Hb|done..].
      intros Hin. assert (Hnd' : NoDup ((done ++ [i]) ++ rest)) by (rewrite Hp; apply NoDup_seq).
      apply NoDup_app in Hnd' as [Hnd' _]. apply NoDup_app in Hnd' as (_ & Hx & _).
      apply (Hx i Hin). by apply list_elem_of_singleton.
Qed.

Lemma at_lookup (p : list nat) : Forall (fun i => (i < length ops)%nat) p -> forall a, at_ p !! a = p !! a ≫= (ops !!.).
Proof.
  induction 1 as [|i p Hi Hp IH]; intros a; [done|]. unfold at_ in *. cbn [omap list_omap].
  destruct (lookup_lt_is_Some_2 ops i Hi) as [op Ho]. rewrite Ho.
  destruct a as [|a]; [symmetry; exact Ho|exact (IH a)].
Qed.

Lemma at_seq : at_ (seq 0 (length ops)) = ops.
Proof.
  apply list_eq. intros a. rewrite at_lookup.
  - destruct (decide (a < length ops)%nat) as [Ha|Ha].
    + by rewrite lookup_seq_lt by lia.
    + rewrite lookup_seq_ge by lia. cbn. symmetry. apply lookup_ge_None_2. lia.
  - apply Forall_forall. intros i Hi%elem_of_seq. lia.
Qed.

Lemma at_perm p q : p ≡ₚ q -> at_ p ≡ₚ at_ q.
Proof. intros Hp. unfold at_. by rewrite Hp. Qed.

(** A rearrangement of the operations is one of their indices. *)
Lemma perm_indices order : order ≡ₚ ops -> exists p, p ≡ₚ seq 0 (length ops) /\ at_ p = order.
Proof.
  intros Hp. pose proof (Permutation_length Hp) as Hlen. apply Permutation_inj in Hp as (_ & f & Hinj & Hf).
  assert (Hlt : forall a, (a < length order)%nat -> (f a < length ops)%nat).
  { intros a Ha. destruct (lookup_lt_is_Some_2 order a Ha) as [o Ho]. rewrite Hf in Ho. by eapply lookup_lt_Some. }
  assert (Hall : Forall (fun i => (i < length ops)%nat) (f <$> seq 0 (length ops))).
  { apply Forall_fmap, Forall_forall. intros a Ha%elem_of_seq. apply Hlt. lia. }
  exists (f <$> seq 0 (length ops)). split.
  - apply submseteq_length_Permutation; [|by rewrite length_fmap].
    apply NoDup_submseteq; [apply NoDup_fmap_2; [exact Hinj|apply NoDup_seq]|].
    intros i Hi. rewrite Forall_forall in Hall. apply Hall in Hi. apply elem_of_seq. lia.
  - apply list_eq. intros a. rewrite at_lookup by done. rewrite list_lookup_fmap.
    destruct (decide (a < length ops)%nat) as [Ha|Ha].
    + rewrite lookup_seq_lt by done. cbn. by rewrite Hf.
    + rewrite lookup_seq_ge by lia. cbn. symmetry. apply lookup_ge_None_2. lia.
Qed.

Lemma real_time_precedence p :
  p ≡ₚ seq 0 (length ops) -> real_time (at_ p) <-> precedence [] p.
Proof.
  intros Hp.
  assert (Hall : Forall (fun i => (i < length ops)%nat) p).
  { apply Forall_forall. intros i. rewrite Hp, elem_of_seq. lia. }
  assert (Hnd : NoDup p) by (rewrite Hp; apply NoDup_seq). split.
  - intros Hr a i op j o Ha Hi Hj Hlt. cbn [app].
    assert (Hjp : j ∈ p) by (rewrite Hp; apply elem_of_seq; apply lookup_lt_Some in Hj; lia).
    apply list_elem_of_lookup in Hjp as [b Hb].
    assert (b < a)%nat by (eapply (Hr b a o op); [by rewrite at_lookup, Hb|by rewrite at_lookup, Ha|done]).
    apply list_elem_of_lookup. exists b. by rewrite lookup_take_lt.
  - intros Hr a b x y Hx Hy Hlt. rewrite at_lookup in Hx, Hy by done.
    apply bind_Some in Hx as (i & Hi & Hx), Hy as (j & Hj & Hy).
    specialize (Hr b j y i x Hj Hy Hx Hlt). cbn [app] in Hr.
    apply list_elem_of_lookup in Hr as [c [Hc Hcb]%lookup_take_Some].
    by rewrite (NoDup_lookup p a c i Hnd Hi Hc).
Qed.

Lemma follow_serial state rest final :
  follow 0 state rest = Some final ->
  serial_order state ops (at_ rest) final.
Proof.
  intros Hf. apply (follow_spec 0 state [] rest final covers_nil (NoDup_nil_2)) in Hf as (Hp & Hr & Hrep).
  cbn [app] in Hp. split_and!; [|by apply real_time_precedence|done].
  transitivity (at_ (seq 0 (length ops))); [by apply at_perm|by rewrite at_seq].
Qed.

Lemma serial_follow state order final :
  serial_order state ops order final -> exists rest, follow 0 state rest = Some final.
Proof.
  intros (Hp & Hr & Hrep). apply perm_indices in Hp as (p & Hp & <-). exists p.
  apply (follow_spec 0 state [] p final covers_nil (NoDup_nil_2)). cbn [app].
  split_and!; [done|by apply real_time_precedence|done].
Qed.
End Masks.

(** C12: the serial checker is exact.  On any history it answers; it reports a
    final state and an order of identifiers exactly for a serial order of the
    successful operations that respects real time (whatever had ended before an
    operation began comes first) and in which every operation observed precisely
    the state its predecessors left; and it reports no explanation only if there
    is none. *)
Theorem serial_history_exact initial history :
  let ops := List.filter is_ok history in
  let start := merge_sort Z.le initial in
  match serial_history initial history with
  | Ok (Some (final, ids)) =>
      exists order, serial_order start ops order final /\ ids = o_id <$> order
  | Ok None => forall order final, ~ serial_order start ops order final
  | _ => False
  end.
Proof.
  cbv zeta. unfold serial_history. set (ops := List.filter is_ok history). set (start := merge_sort Z.le initial).
  pose proof (search_correct ops (S (length ops)) 0 start [] [] [] (covers_nil ops)) as Hs.
  specialize (Hs ltac:(by intros m s ?%elem_of_nil) ltac:(lia)). unfold search_ok in Hs.
  destruct (search ops (S (length ops)) 0 start [] []) as [[[[final o']|]| |] v]; cbn [fst] in *; try done.
  - destruct Hs as (rest & Hf & ->). exists (at_ ops rest). split; [by apply follow_serial|done].
  - destruct Hs as [Hd _]. intros order final Ho. apply serial_follow in Ho as [rest Hf]. by apply (Hd rest final).
Qed.
