(* ===== verification/Worker.v ===== *)
(** * tools/check_process_cluster.py and tools/qualification_worker.py: framed pipes

    Length-prefixed JSON over a child's standard streams: the controller's side
    ([Worker.rpc], non-blocking descriptors and one deadline) and the
    supervisor's side ([read_frame], [send_frame]).  [Pipes] is what they use of
    the operating system. *)

From Stdlib Require Import QArith Qminmax Lqa.
From S2P Require Import Prelude PyStr PyFloat Objects Json Bytes Vector Parameters Results.
From S2P Require Import Net Client Transport Dict.
#[local] Open Scope Z_scope.

Class Pipes (P : Type) := {
  pipe_now : P -> Q * P;
  (** [select.select([], [fd], [], t)[1]] and [select.select([fd], [], [], t)[0]] *)
  writable : Q -> P -> bool * P;
  readable : Q -> P -> bool * P;
  (** [os.write(fd, data)], the number of bytes written; [os.read(fd, n)] *)
  os_write : list Z -> P -> pyres Z * P;
  os_read : Z -> P -> pyres (list Z) * P
}.

Definition MAX_FRAME : Z := 8 * 1024 * 1024.

(** *** Worker.__init__ *)

(** [directory.mkdir(parents=True, exist_ok=True)], a log opened for appending,
    a child with both streams piped (its pid and the two descriptors), and
    [os.set_blocking(fd, False)] *)
Class Children (P : Type) := {
  c_mkdir : pystr -> P -> pyres unit * P;
  c_open_log : pystr -> P -> pyres Z * P;
  c_popen : list pystr -> Z -> P -> pyres (Z * Z * Z) * P;
  c_nonblocking : Z -> P -> pyres unit * P
}.
Record WorkerObj := mkWorkerObj { wk_log : Z; wk_pid : Z; wk_stdin : Z; wk_stdout : Z; wk_node : Z }.

Definition Worker_init {P} `{Children P} (binary directory : pystr) (node : Z) (create : bool) : M exn P WorkerObj :=
  let path name := directory ++ 47 :: py name in
  do! c_mkdir directory;;
  let! log := c_open_log (path "stderr.log"%string) in
  let! child := c_popen [binary; directory; dec (node + 1); py (if create then "create" else "open")] log in
  let '(pid, stdin, stdout) := child in
  let self := mkWorkerObj log pid stdin stdout node in
  do! for_do [wk_stdin self; wk_stdout self] c_nonblocking;;
  ret self.

Section Rpc.
Context {P : Type} `{Pipes P}.

Definition Pm (A : Type) : Type := M exn P A.
Definition sys {A} (f : P -> A * P) : Pm A := fun p => let '(a, p') := f p in (Ok a, p').
Definition sys_res {A} (f : P -> pyres A * P) : Pm A := fun p => f p.

(** The loop that writes a frame. *)
Fixpoint write_all (fuel : nat) (deadline : Q) (data : list Z) : Pm unit :=
  match data with
  | [] => ret tt
  | _ =>
      match fuel with
      | O => lift OutOfFuel
      | S f =>
          let! now := sys pipe_now in
          let! ready := sys (writable (Qmax 0 (deadline - now))) in
          if negb ready then throw (TimeoutError "Worker {self.node} write timeout")
          else
            let! n := sys_res (os_write data) in
            write_all f deadline (drop (Z.to_nat n) data)
      end
  end.

(** [read_exact]; [chunks] joined as they arrive. *)
Fixpoint read_chunks (fuel : nat) (deadline : Q) (count : Z) (data : list Z) : Pm (list Z) :=
  if count =? 0 then ret data
  else
    match fuel with
    | O => lift OutOfFuel
    | S f =>
        let! now := sys pipe_now in
        let! ready := sys (readable (Qmax 0 (deadline - now))) in
        if negb ready then throw (TimeoutError "Worker {self.node} response timeout")
        else
          let! chunk := sys_res (os_read count) in
          if bool_decide (chunk = []) then throw (RuntimeError "Worker {self.node} exited; see its stderr.log")
          else read_chunks f deadline (count - zlen chunk) (data ++ chunk)
    end.

Definition read_exact (count : Z) (deadline : Q) : Pm (list Z) := read_chunks (Z.to_nat count) deadline count [].

(** [json.dumps(command, separators=(',', ':')).encode()]: ASCII text.  Commands
    hold no floats, so that [allow_nan] does not matter. *)
Definition payload_of (command : pyval) : pyres (list Z) :=
  let? text := dumps compact command in
  match utf8_encode text with Some b => Ok b | None => Raise (ValueError "surrogates not allowed") end.

Definition rpc (command : pyval) : Pm pyval :=
  let! payload := lift (payload_of command) in
  if MAX_FRAME <? zlen payload then throw (RuntimeError "Controller frame exceeds its budget")
  else
    let! now := sys pipe_now in
    let deadline := (now + 45)%Q in
    let data := frame payload in
    do! write_all (length data) deadline data;;
    let! header := read_exact 4 deadline in
    let length := le_unpack header in
    if negb ((0 <? length) && (length <=? MAX_FRAME)) then throw (RuntimeError "Invalid worker frame length")
    else
      let! body := read_exact length deadline in
      lift (json_loads body).

(** *** The supervisor's side (qualification_worker.py) *)

(** [exact] of [read_frame]. *)
Fixpoint frame_chunks (fuel : nat) (deadline : Q) (count : Z) (data : list Z) : Pm (list Z) :=
  if count =? 0 then ret data
  else
    match fuel with
    | O => lift OutOfFuel
    | S f =>
        let! now := sys pipe_now in
        let remaining := (deadline - now)%Q in
        if Qle_bool remaining 0 then throw (TimeoutError "Supervisor frame timeout")
        else
          let! ready := sys (readable remaining) in
          if negb ready then throw (TimeoutError "Supervisor frame timeout")
          else
            let! chunk := sys_res (os_read count) in
            if bool_decide (chunk = []) then throw (EOFError "Frame stream closed")
            else frame_chunks f deadline (count - zlen chunk) (data ++ chunk)
    end.

Definition read_frame (deadline : Q) : Pm (list Z) :=
  let! header := frame_chunks 4 deadline 4 [] in
  let length := le_unpack header in
  if negb ((0 <? length) && (length <=? MAX_FRAME)) then throw (ValueError "Frame length outside budget")
  else frame_chunks (Z.to_nat length) deadline length [].

(** [send_frame]: a buffered stream writes everything. *)
Definition send_frame (send : list Z -> P -> pyres unit * P) (payload : list Z) : Pm unit :=
  if negb ((0 <? zlen payload) && (zlen payload <=? MAX_FRAME)) then throw (ValueError "Frame length outside budget")
  else sys_res (send (frame payload)).
End Rpc.

(** ** Byte streams

    What was written so far and what is left to read.  A write accepts a
    nonempty prefix or fails; a read returns a prefix of what is left, at most
    as much as asked for. *)
Class PipeLaws (P : Type) `{Pipes P} := {
  written : P -> list Z;
  pending_in : P -> list Z;
  now_streams p : written (pipe_now p).2 = written p /\ pending_in (pipe_now p).2 = pending_in p;
  writable_streams t p : written (writable t p).2 = written p /\ pending_in (writable t p).2 = pending_in p;
  readable_streams t p : written (readable t p).2 = written p /\ pending_in (readable t p).2 = pending_in p;
  write_streams b p : b <> [] -> pending_in (os_write b p).2 = pending_in p /\
    match (os_write b p).1 with
    | Ok n => 1 <= n <= zlen b /\ written (os_write b p).2 = written p ++ take (Z.to_nat n) b
    | Raise _ => written (os_write b p).2 = written p
    | OutOfFuel => False
    end;
  read_streams n p : 0 < n -> written (os_read n p).2 = written p /\
    match (os_read n p).1 with
    | Ok b => zlen b <= n /\ pending_in p = b ++ pending_in (os_read n p).2
    | Raise _ => pending_in (os_read n p).2 = pending_in p
    | OutOfFuel => False
    end
}.

Section Laws.
Context {P : Type} `{PipeLaws P}.
Implicit Types (p : P).

Lemma wp_sys {A} (f : P -> A * P) Q p : Q (Ok (f p).1) (f p).2 -> wp (sys f) Q p.
Proof. unfold wp, sys. by destruct (f p). Qed.
Lemma wp_sys_res {A} (f : P -> pyres A * P) (Q : pyres A -> P -> Prop) p : Q (f p).1 (f p).2 -> wp (sys_res f) Q p.
Proof. done. Qed.

Lemma write_all_spec fuel deadline data p :
  (length data <= fuel)%nat ->
  wp (write_all fuel deadline data)
     (fun r p' => pending_in p' = pending_in p /\ r <> OutOfFuel /\
        exists sent rest, data = sent ++ rest /\ written p' = written p ++ sent /\
                          (forall u, r = Ok u -> rest = [])) p.
Proof.
  revert data p. induction fuel as [|f IH]; intros data p Hf.
  { destruct data; [|simpl in Hf; lia]. apply wp_ret. split_and!; [done..|]. exists [], []; rewrite !app_nil_r; by split_and!. }
  destruct data as [|b data]; [apply wp_ret; split_and!; [done..|]; exists [], []; rewrite !app_nil_r; by split_and!|].
  cbn [write_all]. apply wp_bind, wp_sys. destruct (now_streams p) as [Hw1 Hi1]. set (p1 := (pipe_now p).2) in *.
  apply wp_bind, wp_sys. destruct (writable_streams (Qmax 0 (deadline - (pipe_now p).1)) p1) as [Hw2 Hi2].
  set (p2 := (writable _ p1).2) in *.
  assert (Hstop : forall (r : pyres unit) p', r <> OutOfFuel -> (forall u, r <> Ok u) -> written p' = written p ->
    pending_in p' = pending_in p -> pending_in p' = pending_in p /\ r <> OutOfFuel /\
        exists sent rest, b :: data = sent ++ rest /\ written p' = written p ++ sent /\ (forall u, r = Ok u -> rest = [])).
  { intros r p' Hr Hn Hw Hi. split_and!; [done..|]. exists [], (b :: data). rewrite app_nil_r. split_and!; [done..|].
    intros u Hu. by destruct (Hn u). }
  destruct (writable _ p1).1; cbn [negb]; [|apply wp_throw, Hstop; congruence].
  apply wp_bind, wp_sys_res. destruct (write_streams (b :: data) p2) as [Hi3 Hw3]; [done|].
  destruct (os_write (b :: data) p2) as [[n|e|] p3]; cbn [fst snd] in *; [|apply Hstop; congruence|done].
  destruct Hw3 as [Hn Hw3]. eapply wp_mono; [apply IH|].
  - rewrite length_drop. unfold zlen in Hn. simpl in *. lia.
  - intros r p' (Hi & Hr & sent & rest & Hd & Hw & Hok). split_and!; [congruence|done|].
    exists (take (Z.to_nat n) (b :: data) ++ sent), rest. rewrite <- app_assoc, <- Hd, take_drop.
    split_and!; [done| |done]. by rewrite Hw, Hw3, Hw2, Hw1, app_assoc.
Qed.

(** Reading loops take exactly what was asked for from the stream. *)
Definition takes (count : Z) (r : pyres (list Z)) p p' (data : list Z) : Prop :=
  written p' = written p /\ r <> OutOfFuel /\
  exists got, pending_in p = got ++ pending_in p' /\
              match r with Ok d => d = data ++ got /\ zlen got = count | _ => zlen got <= count end.

Lemma takes_more count chunk p p1 p' r data :
  written p1 = written p -> pending_in p = chunk ++ pending_in p1 ->
  takes (count - zlen chunk) r p1 p' (data ++ chunk) -> takes count r p p' data.
Proof.
  intros Hw Hi (Hw' & Hr & got & Hg & Hd). split_and!; [congruence|done|].
  exists (chunk ++ got). rewrite Hi, Hg, app_assoc. split; [done|].
  destruct r as [d|e|]; rewrite zlen_app; [|lia..]. destruct Hd as [-> Hl]. rewrite app_assoc. split; [done|lia].
Qed.

Lemma takes_none count r p p' data :
  (forall d, r <> Ok d) -> r <> OutOfFuel -> 0 <= count -> written p' = written p -> pending_in p' = pending_in p ->
  takes count r p p' data.
Proof. intros Hd Hr Hc Hw Hi. split_and!; [done..|]. exists []. rewrite Hi. split; [done|]. destruct r as [d| |]; [by destruct (Hd d)|done..]. Qed.

Lemma read_chunks_spec fuel deadline count data p :
  0 <= count <= Z.of_nat fuel ->
  wp (read_chunks fuel deadline count data) (fun r p' => takes count r p p' data) p.
Proof.
  revert count data p. induction fuel as [|f IH]; intros count data p Hc; cbn [read_chunks];
    destruct (Z.eqb_spec count 0) as [->|Hn]; try lia;
    try (apply wp_ret; split_and!; [done..|]; exists []; by rewrite app_nil_r).
  apply wp_bind, wp_sys. destruct (now_streams p) as [Hw1 Hi1]. set (p1 := (pipe_now p).2) in *.
  apply wp_bind, wp_sys. destruct (readable_streams (Qmax 0 (deadline - (pipe_now p).1)) p1) as [Hw2 Hi2].
  set (p2 := (readable _ p1).2) in *.
  destruct (readable _ p1).1; cbn [negb]; [|apply wp_throw, takes_none; congruence || lia].
  apply wp_bind, wp_sys_res. destruct (read_streams count p2) as [Hw3 Hi3]; [lia|].
  destruct (os_read count p2) as [[b|e|] p3]; cbn [fst snd] in *; [|apply takes_none; congruence || lia|done].
  destruct Hi3 as [Hl Hi3]. case_bool_decide as Hb.
  { subst b. apply wp_throw, takes_none; cbn [app] in Hi3; solve [done | lia | congruence]. }
  eapply wp_mono; [apply IH|].
  - destruct b; [done|]. rewrite zlen_cons in *. pose proof (zlen_nonneg b). lia.
  - intros r p' Hr. apply (takes_more count b p p3); [congruence|congruence|done].
Qed.

Lemma read_exact_spec count deadline p :
  0 <= count -> wp (read_exact count deadline) (fun r p' => takes count r p p' []) p.
Proof. intros Hc. apply read_chunks_spec. lia. Qed.

Lemma frame_chunks_spec fuel deadline count data p :
  0 <= count <= Z.of_nat fuel ->
  wp (frame_chunks fuel deadline count data) (fun r p' => takes count r p p' data) p.
Proof.
  revert count data p. induction fuel as [|f IH]; intros count data p Hc; cbn [frame_chunks];
    destruct (Z.eqb_spec count 0) as [->|Hn]; try lia;
    try (apply wp_ret; split_and!; [done..|]; exists []; by rewrite app_nil_r).
  apply wp_bind, wp_sys. destruct (now_streams p) as [Hw1 Hi1]. set (p1 := (pipe_now p).2) in *.
  destruct (Qle_bool _ 0); [apply wp_throw, takes_none; congruence || lia|].
  apply wp_bind, wp_sys. destruct (readable_streams (deadline - (pipe_now p).1) p1) as [Hw2 Hi2].
  set (p2 := (readable _ p1).2) in *.
  destruct (readable _ p1).1; cbn [negb]; [|apply wp_throw, takes_none; congruence || lia].
  apply wp_bind, wp_sys_res. destruct (read_streams count p2) as [Hw3 Hi3]; [lia|].
  destruct (os_read count p2) as [[b|e|] p3]; cbn [fst snd] in *; [|apply takes_none; congruence || lia|done].
  destruct Hi3 as [Hl Hi3]. case_bool_decide as Hb.
  { subst b. apply wp_throw, takes_none; cbn [app] in Hi3; solve [done | lia | congruence]. }
  eapply wp_mono; [apply IH|].
  - destruct b; [done|]. rewrite zlen_cons in *. pose proof (zlen_nonneg b). lia.
  - intros r p' Hr. apply (takes_more count b p p3); [congruence|congruence|done].
Qed.

Lemma payload_of_ends command : payload_of command <> OutOfFuel.
Proof.
  unfold payload_of. apply res_bind_total; [|intros t _; by destruct (utf8_encode t)].
  pose proof (dumps_fails compact command) as Hd. by destruct (dumps compact command).
Qed.

Lemma json_loads_ends b : json_loads b <> OutOfFuel.
Proof. pose proof (json_loads_expected b) as He. by destruct (json_loads b). Qed.

(** How far an exchange got: a prefix of the frame was written, and what was
    read comes off the front of the stream. *)
Definition partial (data : list Z) p p' : Prop :=
  (exists sent rest, data = sent ++ rest /\ written p' = written p ++ sent) /\
  exists got, pending_in p = got ++ pending_in p'.

(** A complete exchange: the request's frame out, the reply's frame in. *)
Definition exchanged (payload : list Z) (v : pyval) p p' : Prop :=
  written p' = written p ++ frame payload /\
  exists header body, pending_in p = header ++ body ++ pending_in p' /\ zlen header = 4 /\
    le_unpack header = zlen body /\ 0 < zlen body <= MAX_FRAME /\ json_loads body = Ok v.

Lemma partial_takes data p p1 count (r : pyres (list Z)) p' :
  written p1 = written p ++ data -> (exists got, pending_in p = got ++ pending_in p1) ->
  takes count r p1 p' [] -> partial data p p'.
Proof.
  intros Hw [g Hg] (Hw' & _ & got & Hgot & _). split.
  - exists data, []. rewrite app_nil_r. split; [done|congruence].
  - exists (g ++ got). by rewrite Hg, Hgot, app_assoc.
Qed.

Definition rpc_post (command : pyval) p (r : pyres pyval) p' : Prop :=
  r <> OutOfFuel /\
  ((p' = p /\ forall v, r <> Ok v) \/
   exists payload, payload_of command = Ok payload /\
     match r with Ok v => exchanged payload v p p' | _ => partial (frame payload) p p' end).

Lemma rpc_spec command p : wp (rpc command) (rpc_post command p) p.
Proof.
  unfold rpc. apply wp_bind, wp_lift. pose proof (payload_of_ends command) as Hpe.
  destruct (payload_of command) as [payload|e|] eqn:Hpl; [|split; [done|by left]|done].
  destruct (_ <? _); [apply wp_throw; split; [done|by left]|].
  apply wp_bind, wp_sys. destruct (now_streams p) as [Hw1 Hi1]. set (p1 := (pipe_now p).2) in *.
  assert (Hfail : forall (r : pyres pyval) p', r <> OutOfFuel -> (forall v, r <> Ok v) ->
    partial (frame payload) p p' -> rpc_post command p r p').
  { intros r p' Hr Hn Hp. split; [done|right]. exists payload. split; [done|]. destruct r as [v| |]; [by destruct (Hn v)|done..]. }
  apply wp_bind. eapply wp_mono; [by apply write_all_spec|].
  intros [[]|e|] p2 (Hi2 & Hr2 & sent & rest & Hd & Hw2 & Hrest); [| |done].
  2: { apply Hfail; [done..|]. split; [exists sent, rest; by rewrite Hw2, Hw1|]. exists []. cbn [app]. congruence. }
  rewrite (Hrest tt eq_refl), app_nil_r in Hd. subst sent.
  assert (Hin2 : exists got, pending_in p = got ++ pending_in p2) by (exists []; cbn [app]; congruence).
  assert (Hout2 : written p2 = written p ++ frame payload) by congruence.
  apply wp_bind. eapply wp_mono; [apply read_exact_spec; lia|].
  intros [header|e|] p3 Ht3; [| |by destruct Ht3 as (_ & ? & _)].
  2: { apply Hfail; [done..|]. by eapply partial_takes. }
  pose proof Ht3 as (Hw3 & _ & g3 & Hg3 & -> & Hl3). cbn [app] in *.
  destruct (negb _) eqn:Hlen; [apply wp_throw, Hfail; [done..|by eapply partial_takes]|].
  apply negb_false_iff in Hlen. unbool.
  apply wp_bind. eapply wp_mono; [apply (read_chunks_spec _ _ (le_unpack g3) [] p3); lia|].
  assert (Hin3 : exists got, pending_in p = got ++ pending_in p3).
  { destruct Hin2 as [g Hg]. exists (g ++ g3). by rewrite Hg, Hg3, app_assoc. }
  intros [body|e|] p4 Ht4; [| |by destruct Ht4 as (_ & ? & _)].
  2: { apply Hfail; [done..|]. eapply (partial_takes _ p p3); [congruence|done|done]. }
  pose proof Ht4 as (Hw4 & _ & g4 & Hg4 & -> & Hl4). cbn [app] in *.
  apply wp_lift. pose proof (json_loads_ends g4) as Hje. destruct (json_loads g4) as [v|e|] eqn:Hj; [| |done].
  - split; [done|right]. exists payload. split; [done|]. split; [congruence|].
    exists g3, g4. split_and!; try done; try lia. rewrite <- Hg4, <- Hg3. congruence.
  - apply Hfail; [done..|]. eapply (partial_takes _ p p3); [congruence|done|exact Ht4].
Qed.
End Laws.

(** C14: the controller's framed-pipe call: whatever sizes the operating system
    writes and reads in, and however it fails, the call ends; what it wrote is a
    prefix of the command's frame (four little-endian length bytes, then the
    compact JSON), all of it if it returns; what it read is exactly the front of
    the stream; and a returned reply is the JSON of one complete frame of at most
    8 MiB, leaving the stream at the next frame. *)
Theorem rpc_frames {P} `{PipeLaws P} command (p : P) :
  let '(r, p') := rpc command p in
  r <> OutOfFuel /\
  ((p' = p /\ forall v, r <> Ok v) \/
   exists payload, payload_of command = Ok payload /\
     match r with Ok v => exchanged payload v p p' | _ => partial (frame payload) p p' end).
Proof. pose proof (rpc_spec command p) as Hr. unfold wp, rpc_post in Hr. by destruct (rpc command p). Qed.

(** The supervisor's frame reader: it ends, reads only from the front of the
    stream, and returns exactly the body of the next frame, whose length is
    within 1..8 MiB. *)
Theorem read_frame_spec {P} `{PipeLaws P} deadline (p : P) :
  wp (read_frame deadline)
     (fun r p' => r <> OutOfFuel /\ written p' = written p /\
        match r with
        | Ok body => exists header, pending_in p = header ++ body ++ pending_in p' /\ zlen header = 4 /\
                                    le_unpack header = zlen body /\ 0 < zlen body <= MAX_FRAME
        | _ => exists got, pending_in p = got ++ pending_in p'
        end) p.
Proof.
  unfold read_frame. apply wp_bind. eapply wp_mono; [apply (frame_chunks_spec 4 _ 4 [] p); lia|].
  intros [header|e|] p1 (Hw1 & Hr1 & g1 & Hg1 & Hd1); [|by eauto 6|done].
  destruct Hd1 as [-> Hl1]. cbn [app]. destruct (negb _) eqn:Hlen; [apply wp_throw; by eauto 6|].
  apply negb_false_iff in Hlen. unbool.
  eapply wp_mono; [apply (frame_chunks_spec _ _ (le_unpack g1) [] p1); lia|].
  intros [body|e|] p2 (Hw2 & Hr2 & g2 & Hg2 & Hd2); [|split_and!; [done|congruence|]|done].
  - destruct Hd2 as [-> Hl2]. cbn [app]. split_and!; [done|congruence|]. exists g1.
    split_and!; try lia. by rewrite Hg1, Hg2.
  - exists (g1 ++ g2). by rewrite Hg1, Hg2, app_assoc.
Qed.

(** ** A concrete pipe

    Reads and writes at most three bytes at a time. *)
Record Pipe3 := mkPipe3 { out3 : list Z; in3 : list Z }.

#[export] Instance pipe3 : Pipes Pipe3 := {
  pipe_now p := (0%Q, p);
  writable _ p := (true, p);
  readable _ p := (true, p);
  os_write b p := (Ok (Z.min 3 (zlen b)), mkPipe3 (out3 p ++ take (Z.to_nat (Z.min 3 (zlen b))) b) (in3 p));
  os_read n p := (Ok (take (Z.to_nat (Z.min 3 n)) (in3 p)), mkPipe3 (out3 p) (drop (Z.to_nat (Z.min 3 n)) (in3 p)))
}.

#[export] Instance pipe3_laws : PipeLaws Pipe3.
Proof.
  refine {| written := out3; pending_in := in3 |}; try done.
  - intros b p Hb. cbn. split; [done|]. split; [|done]. destruct b; [done|]. rewrite zlen_cons. pose proof (zlen_nonneg b). lia.
  - intros n p Hn. cbn. split; [done|]. split; [|by rewrite take_drop]. unfold zlen. rewrite length_take. lia.
Defined.

Definition drive_command : pyval := PDict (mkdict [("action", PStr (py "drive"))]).

Example rpc_demo :
  (rpc drive_command (mkPipe3 [] (frame [123; 125] ++ [7]))).1 = Ok (PDict []) /\
  in3 (rpc drive_command (mkPipe3 [] (frame [123; 125] ++ [7]))).2 = [7].
Proof. vm_compute. done. Qed.
