(* ===== verification/Host.v ===== *)
(** * What the qualification tools use of their host

    Files, processes, clocks and standard output, as one interface [Host].  A
    path is its text, ['/'.join] of its parts; operations on paths that only
    look at the text are definitions.  [tv] is what reports hold: JSON data,
    with times and rates as exact rationals. *)

From Stdlib Require Import QArith.
From Corelib Require Import Floats.SpecFloat.
From stdpp Require Import sorting.
From S2P Require Import Prelude PyStr PyFloat Objects Json Vector Text Dict Net.
#[local] Open Scope Z_scope.

(** ** Report values *)

Inductive tv :=
| J (v : pyval)
| Num (q : Q)
| Arr (l : list tv)
| Obj (d : list (pystr * tv)).

Definition report := list (pystr * tv).

(** [report.update(k=v, ...)]; [d.get(k)] *)
Definition fields (kvs : list (string * tv)) : report := (fun '(k, v) => (py k, v)) <$> kvs.
Definition rupdate (kvs : list (string * tv)) (r : report) : report :=
  foldl (fun r '(k, v) => dset (py k) v r) r kvs.
Definition rget (k : string) (r : report) : option tv := dget (py k) r.

(** JSON data as report values and back, where both apply. *)
Definition tstr (s : pystr) : tv := J (PStr s).
Definition tint (n : Z) : tv := J (PInt n).
Definition tbool (b : bool) : tv := J (PBool b).
Definition tnone : tv := J PNone.

(** ** Paths *)

(** [path / name] *)
Definition join_path (path name : pystr) : pystr := path ++ 47 :: name.

(** [path.name]: the text after the last ['/']. *)
Definition path_name (path : pystr) : pystr := default [] (last (split_char 47 path)).
Definition path_parent (path : pystr) : pystr := take (length path - length (path_name path) - 1) path.

(** [path.suffix] and [path.stem] of a name: from its last dot on, unless the
    dot is its first or last character. *)
Definition path_suffix (path : pystr) : pystr :=
  let name := path_name path in
  match split_char 46 name with
  | _ :: (_ :: _) as parts =>
      let ext := default [] (last parts) in
      if bool_decide (ext = []) || bool_decide (length ext + 1 = length name)%nat then [] else 46 :: ext
  | _ => []
  end.
Definition path_stem (path : pystr) : pystr :=
  take (length (path_name path) - length (path_suffix path)) (path_name path).
Definition with_suffix (path suffix : pystr) : pystr :=
  take (length path - length (path_suffix path)) path ++ suffix.

Lemma path_name_split (p w : pystr) : 47 ∉ w -> path_name (p ++ 47 :: w) = w /\ path_parent (p ++ 47 :: w) = p.
Proof.
  intros Hw. unfold path_parent, path_name. destruct (split_char_last 47 p w Hw) as [-> _]. unfold default, id. split; [done|].
  rewrite length_app. cbn [length]. replace (length p + S (length w) - length w - 1)%nat with (length p + 0)%nat by lia.
  by rewrite take_app_add, take_0, app_nil_r.
Qed.

Lemma path_suffix_split (path p w : pystr) :
  path_name path = p ++ 46 :: w -> 46 ∉ w -> path_suffix path = (if bool_decide (p = []) || bool_decide (w = []) then [] else 46 :: w).
Proof.
  intros Hn Hw. unfold path_suffix. rewrite Hn. destruct (split_char_last 46 p w Hw) as [Hl H2].
  destruct (split_char 46 (p ++ 46 :: w)) as [|x [|y l]]; [cbn in H2; lia..|]. cbv beta iota zeta. change (last (y :: l) = Some w) in Hl. rewrite Hl. unfold default, id.
  rewrite length_app. cbn [length].
  replace (bool_decide ((length w + 1)%nat = (length p + S (length w))%nat)) with (bool_decide (p = [])).
  { by rewrite orb_comm. }
  apply bool_decide_ext. destruct p; cbn; split; intros; [lia|done|done|lia].
Qed.

Lemma path_suffix_none path : 46 ∉ path_name path -> path_suffix path = [].
Proof. intros Hn. unfold path_suffix. by rewrite split_char_none. Qed.

(** A path in [dir] with a non-empty stem and an extension. *)
Lemma path_parts (dir ext path stem : pystr) :
  47 ∉ ext -> 46 ∉ ext -> ext <> [] ->
  path_parent path = dir /\ dir <> [] /\ path_suffix path = 46 :: ext /\ path_stem path = stem <->
  path = dir ++ 47 :: stem ++ 46 :: ext /\ dir <> [] /\ 47 ∉ stem /\ stem <> [].
Proof.
  intros He47 He46 Hne. split.
  - intros (Hp & Hd & Hs & Hst). destruct (split_char_cases 47 path) as [Hn|(p & w & Hw & ->)].
    { revert Hp. unfold path_parent, path_name. rewrite split_char_none by done. cbn [last]. unfold default, id.
      rewrite Nat.sub_diag. cbn. intros <-. done. }
    destruct (path_name_split p w Hw) as [Hnm Hpp]. rewrite Hpp in Hp. subst p.
    unfold path_stem in Hst. rewrite Hs, Hnm in Hst.
    destruct (split_char_cases 46 w) as [Hn|(p & e & He & ->)].
    { rewrite path_suffix_none in Hs by (by rewrite Hnm). done. }
    rewrite (path_suffix_split _ p e Hnm He) in Hs. destruct (bool_decide (p = []) || bool_decide (e = [])) eqn:E; [done|].
    injection Hs as ->. apply orb_false_iff in E as [Hp0 _]. unbool.
    rewrite length_app in Hst. cbn [length] in Hst.
    replace (length p + S (length ext) - S (length ext))%nat with (length p + 0)%nat in Hst by lia.
    rewrite take_app_add, take_0, app_nil_r in Hst. subst p. split; [done|]. split; [done|]. split; [|done].
    intros Hin. apply Hw. apply elem_of_app. by left.
  - intros (-> & Hd & Hst & Hs0).
    assert (Hw : 47 ∉ stem ++ 46 :: ext) by (rewrite elem_of_app, elem_of_cons; intros [?|[?|?]]; done).
    destruct (path_name_split dir _ Hw) as [Hnm Hpp].
    assert (Hsf : path_suffix (dir ++ 47 :: stem ++ 46 :: ext) = 46 :: ext).
    { rewrite (path_suffix_split _ stem ext Hnm He46). by rewrite !bool_decide_eq_false_2. }
    split; [done|]. split; [done|]. split; [done|]. unfold path_stem. rewrite Hsf, Hnm, length_app. cbn [length].
    replace (length stem + S (length ext) - S (length ext))%nat with (length stem + 0)%nat by lia.
    by rewrite take_app_add, take_0, app_nil_r.
Qed.

(** Sorting: strings by code points, paths by their parts. *)
Fixpoint lex_le {A} (eqb leb : A -> A -> bool) (a b : list A) : bool :=
  match a, b with
  | [], _ => true
  | _ :: _, [] => false
  | x :: a', y :: b' => if eqb x y then lex_le eqb leb a' b' else leb x y
  end.
Definition text_le : pystr -> pystr -> bool := lex_le Z.eqb Z.leb.
Definition path_le (a b : pystr) : bool := lex_le pyeqb text_le (split_char 47 a) (split_char 47 b).
Definition path_rel (a b : pystr) : Prop := path_le a b = true.
Definition text_rel (a b : pystr) : Prop := text_le a b = true.

#[export] Instance path_rel_dec : RelDecision path_rel.
Proof. intros a b. unfold path_rel. apply _. Defined.

#[export] Instance text_rel_dec : RelDecision text_rel.
Proof. intros a b. unfold text_rel. apply _. Defined.

Definition sort_paths : list pystr -> list pystr := merge_sort path_rel.
Definition sort_texts : list pystr -> list pystr := merge_sort text_rel.

(** [str(path.relative_to(root))] of a path under [root] *)
Definition relative_to (root path : pystr) : pystr := drop (length root + 1) path.

(** [int(q)] and [q // 1] of a number. *)
Definition trunc_q (q : Q) : Z := Z.quot (Qnum q) (Z.pos (Qden q)).
Definition floor_q (q : Q) : Z := Qnum q / Z.pos (Qden q).

(** ** Processes *)

Record Finished := mkFinished { returncode : Z; stdout : pystr; stderr : pystr }.

Class Host (W : Type) := {
  h_monotonic : W -> Q * W;
  h_monotonic_ns : W -> Z * W;
  h_time : W -> Q * W;
  h_utc : W -> pystr * W;
  h_sleep : Q -> W -> W;
  (** files *)
  h_exists : pystr -> W -> bool * W;
  h_is_file : pystr -> W -> bool * W;
  h_read_text : pystr -> W -> pyres pystr * W;
  h_read_bytes : pystr -> W -> pyres (list Z) * W;
  h_write_text : pystr -> pystr -> W -> pyres unit * W;
  h_append : pystr -> pystr -> W -> pyres unit * W;
  h_write_json : pystr -> tv -> W -> pyres unit * W;
  h_append_json : pystr -> tv -> W -> pyres unit * W;
  h_fsync : pystr -> W -> pyres unit * W;
  h_replace : pystr -> pystr -> W -> pyres unit * W;
  h_mkdir : pystr -> W -> pyres unit * W;
  h_glob : pystr -> pystr -> W -> list pystr * W;
  (** [tempfile.mkdtemp(prefix, dir)]; an empty argument is the default one *)
  h_mkdtemp : pystr -> pystr -> W -> pyres pystr * W;
  h_remove : pystr -> W -> pyres unit * W;
  h_sha256 : list Z -> pystr;
  (** [subprocess.run(argv, cwd=..., timeout=..., capture_output=True, text=True)] *)
  h_run : list pystr -> pystr -> option Q -> W -> pyres Finished * W;
  h_print : pystr -> W -> W;
  h_print_json : tv -> W -> W;
  h_getenv : pystr -> W -> option pystr;
  h_linux : bool;
  (** [path.resolve()], [platform.system()], [platform.platform()] *)
  h_resolve : pystr -> W -> pystr;
  h_system : pystr;
  h_platform : pystr;
  (** [subprocess.run(..., input=text)]; what a child that ran out of time had printed *)
  h_run_input : list pystr -> pystr -> Q -> W -> pyres Finished * W;
  h_timeout_output : W -> pystr
}.

(** A host of its own for examples: nothing is there but the given texts, every
    write succeeds, commands print nothing. *)
Definition quiet_host {W} (monotonic : W -> Q * W) (slept : Q -> W -> W) (text : pystr -> option pystr) (linux : bool) : Host W := {|
  h_monotonic := monotonic;
  h_monotonic_ns w := (trunc_q ((monotonic w).1 * inject_Z 1000000000), (monotonic w).2);
  h_time := monotonic;
  h_utc w := (py "2026", w);
  h_sleep := slept;
  h_exists _ w := (false, w);
  h_is_file _ w := (false, w);
  h_read_text p w := (match text p with Some s => Ok s | None => Raise (OSError "FileNotFoundError") end, w);
  h_read_bytes _ w := (Raise (OSError "FileNotFoundError"), w);
  h_write_text _ _ w := (Ok tt, w);
  h_append _ _ w := (Ok tt, w);
  h_write_json _ _ w := (Ok tt, w);
  h_append_json _ _ w := (Ok tt, w);
  h_fsync _ w := (Ok tt, w);
  h_replace _ _ w := (Ok tt, w);
  h_mkdir _ w := (Ok tt, w);
  h_glob _ _ w := ([], w);
  h_mkdtemp _ _ w := (Ok (py "/tmp/run"), w);
  h_remove _ w := (Ok tt, w);
  h_sha256 data := dec (foldr Z.add 0 data);
  h_run _ _ _ w := (Ok (mkFinished 0 [] []), w);
  h_print _ w := w;
  h_print_json _ w := w;
  h_getenv _ _ := None;
  h_linux := linux;
  h_resolve p _ := p;
  h_system := py (if linux then "Linux" else "Darwin");
  h_platform := py (if linux then "Linux-6" else "Darwin-23");
  h_run_input _ _ _ w := (Raise (OSError "no process"), w);
  h_timeout_output _ := []
|}.

Section Run.
Context {W : Type} `{Host W}.

Definition Hm (A : Type) : Type := M exn W A.
Definition io {A} (f : W -> A * W) : Hm A := fun w => let '(a, w) := f w in (Ok a, w).
Definition io_res {A} (f : W -> pyres A * W) : Hm A := f.
Definition io_do (f : W -> W) : Hm unit := modify f.

(** [check=True] *)
Definition run_checked (argv : list pystr) (cwd : pystr) (timeout : option Q) : Hm Finished :=
  let! finished := io_res (h_run argv cwd timeout) in
  if negb (returncode finished =? 0) then throw (CalledProcessError "returned non-zero exit status") else ret finished.

(** [subprocess.check_output(argv, text=True)] *)
Definition check_output (argv : list pystr) (cwd : pystr) (timeout : option Q) : Hm pystr :=
  let! finished := run_checked argv cwd timeout in ret (stdout finished).

(** [json.loads(path.read_text())] *)
Definition read_json (path : pystr) : Hm pyval := let! text := io_res (h_read_text path) in lift (loads text).

(** [hashlib.sha256(path.read_bytes()).hexdigest()] *)
Definition file_sha256 (path : pystr) : Hm pystr := let! data := io_res (h_read_bytes path) in ret (h_sha256 data).

(** [{str(p.relative_to(root)): sha256 of p for p in sorted(paths)}] *)
Definition manifest (root : pystr) (paths : list pystr) : Hm (list (pystr * pystr)) :=
  for_each (sort_paths paths) (fun path entries =>
    let! digest := file_sha256 path in ret (dset (relative_to root path) digest entries)) [].
Definition manifest_report (entries : list (pystr * pystr)) : tv := Obj ((fun '(k, v) => (k, tstr v)) <$> entries).

Definition print_line (line : pystr) : Hm unit := io_do (h_print line).

(** [with tempfile.TemporaryDirectory(prefix=..., dir=...)] *)
Definition with_tempdir {A} (prefix dir : pystr) (body : pystr -> Hm A) : Hm A :=
  let! path := io_res (h_mkdtemp prefix dir) in
  try_finally (body path) (io_res (h_remove path)).

(** The report writer of the soaks: a temporary sibling replaces the report. *)
Definition save_json (sync : bool) (path : pystr) (value : tv) : Hm unit :=
  let temp := with_suffix path (py ".tmp") in
  do! io_res (h_write_json temp value);;
  do! (if sync then io_res (h_fsync temp) else ret tt);;
  io_res (h_replace temp path).
End Run.

(** The exact value of a finite float. *)
Definition q_of_float (f : pyfloat) : option Q :=
  match f with
  | S754_zero _ => Some 0%Q
  | S754_finite s m e =>
      let n := if s then Z.neg m else Z.pos m in
      Some (if 0 <=? e then inject_Z (n * 2 ^ e) else n # Z.to_pos (2 ^ (- e)))
  | _ => None
  end.

(** A JSON number. *)
Definition vnum (v : pyval) : pyres Q :=
  match v with
  | PInt n => Ok (inject_Z n)
  | PFloat f => match q_of_float f with Some q => Ok q | None => Raise (ValueError "not a finite number") end
  | _ => Raise (TypeError "number expected")
  end.

(** Subscripts of JSON data. *)
Definition vget (k : string) (v : pyval) : pyres pyval :=
  match v with PDict d => getitem k d | _ => Raise (TypeError "indices") end.
Definition vindex (i : Z) (v : pyval) : pyres pyval :=
  match v with PList l => list_index l i | _ => Raise (TypeError "indices") end.
Definition vint (v : pyval) : pyres Z := match v with PInt n => Ok n | _ => Raise (TypeError "int expected") end.
Definition vstr (v : pyval) : pyres pystr := match v with PStr s => Ok s | _ => Raise (TypeError "str expected") end.
Definition vget_or (k : string) (default : pyval) (v : pyval) : pyres pyval :=
  match v with PDict d => Ok (get_or (py k) default d) | _ => Raise (AttributeError "get") end.

Fixpoint try_map {A B} (f : A -> pyres B) (l : list A) : pyres (list B) :=
  match l with
  | [] => Ok []
  | x :: l' => let? y := f x in let? ys := try_map f l' in Ok (y :: ys)
  end.

(** Equality of JSON data holding objects of
    strings, compared as dicts are. *)
Definition same_hashes (a b : pyval) : bool :=
  match a, b with
  | PDict d, PDict d' =>
      bool_decide (length d = length d') &&
      forallb (fun '(k, v) => match v, dict_get k d' with PStr x, Some (PStr y) => pyeqb x y | _, _ => false end) d
  | _, _ => false
  end.
