(* ===== verification/Stats.v ===== *)
(** * Percentiles of the measuring scripts
    (tools/calibrate_native_mixed.py, tools/check_resource_load.py)

    Both take [values[math.ceil(p*len(values))-1]] of the sorted values, the
    product being one of floats.  [rank_spec] proves it the nearest rank: at
    least the wanted share of the values is at most the one returned, and fewer
    are below it. *)

From Stdlib Require Import QArith.
From stdpp Require Import sorting.
From S2P Require Import Prelude PyStr PyFloat Objects Text Dict Host.
#[local] Open Scope Z_scope.

(** A positive integer rounded to the 53 significant bits of a float, ties to
    even. *)
Definition round53 (m : Z) : Z :=
  let u := 2 ^ Z.max 0 (Z.log2 m - 52) in
  let q := m / u in
  let r := m mod u in
  (if (2 * r <? u) || (2 * r =? u) && Z.even q then q else q + 1) * u.

(** The floats [.5] and [.99], and products, in units of 2^-53: a length is
    converted to a float, and the product rounded. *)
Definition UNIT : Z := 2 ^ 53.
Definition FLOAT_50 : Z := 4503599627370496.
Definition FLOAT_99 : Z := 8917127262193582.
Definition float_times (p n : Z) : Z := round53 (p * round53 n).
(** [math.ceil(p*n)] *)
Definition ceil_times (p n : Z) : Z := - (- float_times p n / UNIT).

#[export] Instance Qle_rel_dec : RelDecision Qle.
Proof. intros x y. destruct (Qle_bool x y) eqn:E; [left; by apply Qle_bool_iff|right; intros H%Qle_bool_iff; congruence]. Defined.
#[export] Instance Qle_total : Total Qle.
Proof. intros x y. destruct (Qlt_le_dec x y) as [Hx%Qlt_le_weak|Hy]; auto. Qed.
#[export] Instance Qle_transitive : Transitive Qle.
Proof. intros x y z. apply Qle_trans. Qed.

(** [sorted(values)], [values[math.ceil(p*len(values))-1]] *)
Definition sort_q (values : list Q) : list Q := merge_sort Qle values.
Definition nearest_rank (p : Z) (values : list Q) : pyres Q := list_index (sort_q values) (ceil_times p (zlen values) - 1).

(** ** Ranks *)

Lemma round53_small m : 0 <= m < UNIT -> round53 m = m.
Proof.
  unfold UNIT. intros Hm. unfold round53. replace (Z.max 0 (Z.log2 m - 52)) with 0.
  - rewrite Z.pow_0_r, Z.div_1_r, Z.mod_1_r. change ((2 * 0 <? 1)) with true. cbv zeta. cbn [orb]. lia.
  - destruct (decide (m = 0)) as [->|]; [done|]. assert (Z.log2 m < 53) by (apply Z.log2_lt_pow2; lia). lia.
Qed.

(** The error is at most half a unit in the last place, and multiples of the
    unit near enough are hit. *)
Lemma round53_error m : 0 < m -> 2 * Z.abs (round53 m - m) <= 2 ^ Z.max 0 (Z.log2 m - 52).
Proof.
  intros Hm. unfold round53. set (u := 2 ^ _). assert (0 < u) by (apply Z.pow_pos_nonneg; lia).
  pose proof (Z.div_mod m u ltac:(lia)). pose proof (Z.mod_pos_bound m u ltac:(lia)).
  destruct (_ || _) eqn:E; [apply orb_true_iff in E as [E|[E _]%andb_true_iff]|apply orb_false_iff in E as [E _]]; nia.
Qed.

Lemma round53_near m t : 0 < m -> (2 ^ Z.max 0 (Z.log2 m - 52) | t) -> 2 * Z.abs (t - m) < 2 ^ Z.max 0 (Z.log2 m - 52) -> round53 m = t.
Proof.
  intros Hm [c Hc] Ht. pose proof (round53_error m Hm) as He. revert Ht He Hc. unfold round53. set (u := 2 ^ _).
  assert (0 < u) by (apply Z.pow_pos_nonneg; lia). set (q := if (_ : bool) then _ else (_ : Z)). intros Ht He Hc. subst t.
  assert (Hqc : Z.abs (c * u - q * u) < u) by lia. destruct (Z.lt_trichotomy c q) as [|[->|]]; [nia|done|nia].
Qed.

(** A length and its products. *)
Lemma unit_of_product n : 0 < n < 2 ^ 40 ->
  0 < FLOAT_99 * n /\ 2 ^ Z.max 0 (Z.log2 (FLOAT_99 * n) - 52) <= 2 * n /\
  n <= 2 * 2 ^ Z.max 0 (Z.log2 (FLOAT_99 * n) - 52) /\ Z.max 0 (Z.log2 (FLOAT_99 * n) - 52) <= 53.
Proof.
  intros Hn. unfold FLOAT_99. set (m := 8917127262193582 * n). assert (Hm : 0 < m) by lia. split; [done|].
  pose proof (Z.log2_spec m Hm) as [Hl Hu]. pose proof (Z.log2_nonneg m).
  assert (52 <= Z.log2 m) by (apply Z.log2_le_pow2; lia). rewrite Z.max_r by lia.
  assert (Z.log2 m < 93) by (apply Z.log2_lt_pow2; [done|]; unfold m; lia).
  replace (Z.log2 m) with (52 + (Z.log2 m - 52)) in Hl by lia. rewrite Z.pow_add_r in Hl by lia.
  replace (Z.succ (Z.log2 m)) with (53 + (Z.log2 m - 52)) in Hu by lia. rewrite Z.pow_add_r in Hu by lia.
  change (2 ^ 52) with 4503599627370496 in Hl. change (2 ^ 53) with 9007199254740992 in Hu.
  set (u := 2 ^ (Z.log2 m - 52)) in *. clearbody u. unfold m in Hl, Hu. split_and!; lia.
Qed.

(** The float ranks are the exact ones. *)
Lemma ranks_exact n : 0 < n < 2 ^ 40 ->
  ceil_times FLOAT_50 n = (n + 1) / 2 /\ ceil_times FLOAT_99 n = (99 * n + 99) / 100.
Proof.
  intros Hn. unfold ceil_times, float_times. rewrite (round53_small n) by (unfold UNIT; lia). split.
  { assert (E : round53 (FLOAT_50 * n) = FLOAT_50 * n).
    { pose proof (round53_small n ltac:(unfold UNIT; lia)) as _. unfold FLOAT_50.
      apply round53_near; [lia| |]; [|rewrite Z.sub_diag; cbn; apply Z.pow_pos_nonneg; lia].
      replace (4503599627370496 * n) with (n * 2 ^ 52) by (change (2 ^ 52) with 4503599627370496; lia).
      rewrite Z.log2_mul_pow2 by lia. assert (Z.log2 n < 40) by (apply Z.log2_lt_pow2; lia). pose proof (Z.log2_nonneg n).
      apply Z.divide_mul_r. exists (2 ^ (52 - Z.log2 n)). rewrite <-Z.pow_add_r by lia. f_equal. lia. }
    rewrite E. unfold FLOAT_50, UNIT. change (2 ^ 53) with 9007199254740992. dlia. }
  destruct (unit_of_product n Hn) as (Hm & Hle & Hge & Hk). pose proof (round53_error _ Hm) as He.
  pose proof (round53_near (FLOAT_99 * n) (99 * n / 100 * UNIT) Hm) as Hnear.
  assert (Hdiv : (2 ^ Z.max 0 (Z.log2 (FLOAT_99 * n) - 52) | 99 * n / 100 * UNIT)).
  { apply Z.divide_mul_r. exists (2 ^ (53 - Z.max 0 (Z.log2 (FLOAT_99 * n) - 52))). rewrite <-Z.pow_add_r by lia. unfold UNIT. f_equal. lia. }
  specialize (Hnear Hdiv). set (u := 2 ^ Z.max 0 _) in *. set (r := round53 _) in *.
  unfold FLOAT_99, UNIT in *. change (2 ^ 53) with 9007199254740992 in *.
  pose proof (Z.div_mod (99 * n) 100 ltac:(lia)). pose proof (Z.mod_pos_bound (99 * n) 100 ltac:(lia)).
  destruct (decide ((99 * n) mod 100 = 0)) as [Hj|Hj].
  - rewrite Hnear by lia. set (j := 99 * n / 100) in *.
    replace ((99 * n + 99) / 100) with j by (apply (Z.div_unique_pos _ _ _ 99); lia).
    replace (- (j * 9007199254740992)) with (- j * 9007199254740992) by lia. rewrite Z.div_mul by lia. lia.
  - set (j := 99 * n / 100) in *.
    replace ((99 * n + 99) / 100) with (j + 1) by (apply (Z.div_unique_pos _ _ _ ((99 * n) mod 100 - 1)); lia).
    enough (- r / 9007199254740992 = - (j + 1)) by lia.
    symmetry. apply (Z.div_unique_pos _ _ _ ((j + 1) * 9007199254740992 - r)); lia.
Qed.

(** ** Order statistics *)

Lemma Sorted_lookup_le (l : list Q) i j x y :
  StronglySorted Qle l -> l !! i = Some x -> l !! j = Some y -> (i <= j)%nat -> (x <= y)%Q.
Proof.
  intros Hs. revert i j. induction Hs as [|a l Hs IH Ha]; intros i j Hi Hj Hij; [by rewrite lookup_nil in Hi|].
  destruct i as [|i], j as [|j]; cbn in *; try lia.
  - injection Hi as <-. injection Hj as <-. apply Qle_refl.
  - injection Hi as <-. rewrite Forall_lookup in Ha. by apply (Ha j).
  - by apply (IH i j); [..|lia].
Qed.

(** How many values are at most, and below, a bound. *)
Definition at_most (x : Q) (l : list Q) : Z := zlen (filter (fun y => (y <= x)%Q) l).
Definition below (x : Q) (l : list Q) : Z := zlen (filter (fun y => ~ (x <= y)%Q) l).

Lemma filter_Permutation_len {A} (P : A -> Prop) `{forall x, Decision (P x)} l l' :
  l ≡ₚ l' -> zlen (filter P l) = zlen (filter P l').
Proof. intros Hp. unfold zlen. by rewrite Hp. Qed.

Lemma list_filter_all {A} (P : A -> Prop) `{forall x, Decision (P x)} l : Forall P l -> filter P l = l.
Proof. induction 1 as [|x l Hx _ IH]; [done|]. by rewrite filter_cons_True, IH. Qed.

Lemma list_filter_none {A} (P : A -> Prop) `{forall x, Decision (P x)} l : Forall (fun x => ~ P x) l -> filter P l = [].
Proof. induction 1 as [|x l Hx _ IH]; [done|]. by rewrite filter_cons_False. Qed.

(** The element at place [k] of a sorted list. *)
Lemma sorted_rank (l : list Q) k x :
  StronglySorted Qle l -> l !! k = Some x -> Z.of_nat k + 1 <= at_most x l /\ below x l <= Z.of_nat k.
Proof.
  intros Hs Hk. pose proof (lookup_lt_Some _ _ _ Hk) as Hlt. unfold at_most, below.
  rewrite <-(take_drop (S k) l), !filter_app, !zlen_app.
  assert (H1 : filter (fun y => (y <= x)%Q) (take (S k) l) = take (S k) l).
  { apply list_filter_all, Forall_lookup. intros i y [Hi Hik]%lookup_take_Some. eapply Sorted_lookup_le; eauto. lia. }
  assert (H2 : filter (fun y => ~ (x <= y)%Q) (drop (S k) l) = []).
  { apply list_filter_none, Forall_lookup. intros i y Hy. rewrite lookup_drop in Hy. intros Hn. apply Hn. eapply Sorted_lookup_le; eauto. lia. }
  assert (H3 : zlen (filter (fun y => ~ (x <= y)%Q) (take (S k) l)) <= Z.of_nat k).
  { rewrite (take_S_r _ _ _ Hk), filter_app, zlen_app. rewrite (filter_cons_False _ x []) by (intros Hn; apply Hn, Qle_refl).
    rewrite filter_nil, zlen_nil. unfold zlen. pose proof (length_filter (fun y => ~ (x <= y)%Q) (take k l)) as Hle.
    rewrite length_take in Hle. lia. }
  rewrite H1, H2, zlen_nil. split; [|lia]. pose proof (zlen_nonneg (filter (fun y => (y <= x)%Q) (drop (S k) l))).
  unfold zlen at 1. rewrite length_take. lia.
Qed.

(** The nearest rank, whatever the order the values came in. *)
Lemma rank_spec p (values : list Q) :
  let k := ceil_times p (zlen values) in
  1 <= k <= zlen values ->
  exists x, nearest_rank p values = Ok x /\ x ∈ values /\ k <= at_most x values /\ below x values < k.
Proof.
  intros k Hr. unfold nearest_rank. fold k.
  pose proof (merge_sort_Permutation Qle values) as Hp. pose proof (StronglySorted_merge_sort Qle values) as Hs. fold (sort_q values) in Hp, Hs.
  assert (Hlen : length (sort_q values) = length values) by (by rewrite Hp).
  destruct (lookup_lt_is_Some_2 (sort_q values) (Z.to_nat (k - 1))) as [x Hx]; [unfold zlen in Hr; lia|].
  exists x. unfold list_index, py_index. replace (k - 1 <? 0) with false by lia.
  replace (zlen (sort_q values)) with (zlen values) by (unfold zlen; by rewrite Hlen).
  replace ((0 <=? k - 1) && (k - 1 <? zlen values)) with true by lia. rewrite Hx.
  destruct (sorted_rank _ _ _ Hs Hx) as [H1 H2]. unfold at_most, below in *.
  rewrite (filter_Permutation_len (fun y => (y <= x)%Q) _ _ Hp) in H1. rewrite (filter_Permutation_len (fun y => ~ (x <= y)%Q) _ _ Hp) in H2.
  split; [done|]. split; [rewrite <-Hp; by eapply list_elem_of_lookup_2|]. lia.
Qed.

(** Medians and 99th percentiles of up to 2^40 values. *)
Definition nearest (percent : Z) (values : list Q) (x : Q) : Prop :=
  x ∈ values /\ percent * zlen values <= 100 * at_most x values /\ 100 * below x values < percent * zlen values.

Lemma percentiles_nearest (values : list Q) :
  values <> [] -> zlen values < 2 ^ 40 ->
  exists a b, nearest_rank FLOAT_50 values = Ok a /\ nearest_rank FLOAT_99 values = Ok b /\
              nearest 50 values a /\ nearest 99 values b.
Proof.
  intros Hne Hlt. assert (Hpos : 0 < zlen values) by (destruct values; [done|]; rewrite zlen_cons; pose proof (zlen_nonneg values); lia).
  destruct (ranks_exact (zlen values) ltac:(lia)) as [E1 E2].
  destruct (rank_spec FLOAT_50 values) as (a & Ha & Ha1 & Ha2 & Ha3); [rewrite E1; dlia|].
  destruct (rank_spec FLOAT_99 values) as (b & Hb & Hb1 & Hb2 & Hb3); [rewrite E2; dlia|].
  exists a, b. rewrite E1 in Ha2, Ha3. rewrite E2 in Hb2, Hb3. unfold nearest. split_and!; try done; dlia.
Qed.
