(* ===== verification/Random.v ===== *)
(** * random.Random: the generator workloads are drawn from

    The Mersenne Twister of the standard library, with the methods the tools
    call.  It is a state machine of its own: the same seed gives the same draws,
    so plans made from a seed can be evaluated here. *)

From S2P Require Import Prelude PyStr PyFloat Objects Text Dict.
#[local] Open Scope Z_scope.

(** 624 words of 32 bits and the position of the next one. *)
Record Mt := mkMt { mt_words : list Z; mt_index : nat }.
Definition Rm (A : Type) : Type := M exn Mt A.

Definition u32 (x : Z) : Z := Z.land x 4294967295.
Definition word (mt : list Z) (i : nat) : Z := nth i mt 0.

(** ** Seeding *)

(** [init_genrand(s)]: the words after the first, from the last one. *)
Fixpoint genrand_from (fuel : nat) (i : Z) (previous : Z) : list Z :=
  match fuel with
  | O => []
  | S fuel' =>
      let next := u32 (1812433253 * Z.lxor previous (Z.shiftr previous 30) + i) in
      next :: genrand_from fuel' (i + 1) next
  end.
Definition init_genrand (s : Z) : list Z := u32 s :: genrand_from 623 1 (u32 s).

(** The two passes of [init_by_array(key)], word [i] from word [i - 1]; after
    the last word the first one takes its value. *)
Definition wrap (mt : list Z) (i : nat) : list Z * nat :=
  if (624 <=? i)%nat then (<[0%nat := word mt 623]> mt, 1%nat) else (mt, i).
Fixpoint mix_key (fuel : nat) (key : list Z) (mt : list Z) (i j : nat) : list Z * nat :=
  match fuel with
  | O => (mt, i)
  | S fuel' =>
      let p := word mt (i - 1) in
      let x := u32 (Z.lxor (word mt i) (Z.lxor p (Z.shiftr p 30) * 1664525) + nth j key 0 + Z.of_nat j) in
      let '(mt, i) := wrap (<[i := x]> mt) (S i) in
      mix_key fuel' key mt i (if (length key <=? S j)%nat then 0%nat else S j)
  end.
Fixpoint mix_rest (fuel : nat) (mt : list Z) (i : nat) : list Z :=
  match fuel with
  | O => mt
  | S fuel' =>
      let p := word mt (i - 1) in
      let x := u32 (Z.lxor (word mt i) (Z.lxor p (Z.shiftr p 30) * 1566083941) - Z.of_nat i) in
      let '(mt, i) := wrap (<[i := x]> mt) (S i) in
      mix_rest fuel' mt i
  end.
Definition init_by_array (key : list Z) : list Z :=
  let '(mt, i) := mix_key (Nat.max 624 (length key)) key (init_genrand 19650218) 1 0 in
  <[0%nat := 2147483648]> (mix_rest 623 mt i).

(** [random.Random(seed)]: the key is the absolute value, 32 bits at a time. *)
Fixpoint seed_key (fuel : nat) (n : Z) : list Z :=
  match fuel with
  | O => []
  | S fuel' => if n =? 0 then [] else u32 n :: seed_key fuel' (Z.shiftr n 32)
  end.
Definition Random_new (seed : Z) : Mt :=
  let n := Z.abs seed in
  let key := if n =? 0 then [0] else seed_key (S (Z.to_nat (Z.log2 n))) n in
  mkMt (init_by_array key) 624.

(** ** Drawing *)

(** The next 624 words, each in place of the word it comes from. *)
Definition twist_word (mt : list Z) (k : nat) : list Z :=
  let y := Z.lor (Z.land (word mt k) 2147483648) (Z.land (word mt ((k + 1) mod 624)) 2147483647) in
  let x := Z.lxor (word mt ((k + 397) mod 624)) (Z.shiftr y 1) in
  <[k := if Z.odd y then Z.lxor x 2567483615 else x]> mt.
Definition twist (mt : list Z) : list Z := foldl twist_word mt (seq 0 624).

Definition temper (y : Z) : Z :=
  let y := Z.lxor y (Z.shiftr y 11) in
  let y := Z.lxor y (Z.land (Z.shiftl y 7) 2636928640) in
  let y := Z.lxor y (Z.land (Z.shiftl y 15) 4022730752) in
  Z.lxor y (Z.shiftr y 18).

Definition genrand_uint32 : Rm Z := fun g =>
  let g := if (624 <=? mt_index g)%nat then mkMt (twist (mt_words g)) 0 else g in
  (Ok (temper (word (mt_words g) (mt_index g))), mkMt (mt_words g) (S (mt_index g))).

(** [getrandbits(k)] of at most 32 bits. *)
Definition getrandbits (k : Z) : Rm Z := let! x := genrand_uint32 in ret (Z.shiftr x (32 - k)).

(** [_randbelow(n)]: draws of [n.bit_length()] bits until one is below [n]; a
    draw misses less than half of the time. *)
Definition randbelow (fuel : nat) (n : Z) : Rm Z :=
  while_loop fuel (fun _ =>
    let! r := getrandbits (Z.log2 n + 1) in
    ret (if n <=? r then inl r else inr r)) 0.

(** [randrange(stop)], [randrange(first, stop)] *)
Definition randrange (fuel : nat) (first stop : Z) : Rm Z :=
  if 0 <? stop - first then let! r := randbelow fuel (stop - first) in ret (first + r)
  else throw (ValueError "empty range for randrange()").

(** [random()], in units of 2^-53. *)
Definition random53 : Rm Z :=
  let! a := genrand_uint32 in
  let! b := genrand_uint32 in
  ret (Z.shiftr a 5 * 67108864 + Z.shiftr b 6).

(** [shuffle(x)]: from the last place down, each exchanged with one not after
    it. *)
Definition swap {A} (i j : nat) (l : list A) : list A :=
  match l !! i, l !! j with
  | Some x, Some y => <[j := x]> (<[i := y]> l)
  | _, _ => l
  end.
Definition shuffle {A} (fuel : nat) (l : list A) : Rm (list A) :=
  for_each (reverse (seq 1 (length l - 1))) (fun i l =>
    let! j := randbelow fuel (Z.of_nat i + 1) in ret (swap i (Z.to_nat j) l)) l.

(** ** Its contract: draws are in range, a shuffle permutes *)

Lemma swap_Permutation {A} i j (l : list A) : swap i j l ≡ₚ l.
Proof.
  unfold swap. destruct (l !! i) as [x|] eqn:Hi; [|done]. destruct (l !! j) as [y|] eqn:Hj; [|done].
  destruct (decide (i = j)) as [->|Hn].
  - rewrite list_insert_insert_eq. simplify_eq. by rewrite list_insert_id.
  - apply Permutation_inj. split; [by rewrite !length_insert|].
    exists (fun k => if decide (k = i) then j else if decide (k = j) then i else k). split.
    + intros a b. repeat destruct (decide _); congruence.
    + intros k. pose proof (lookup_lt_Some _ _ _ Hi). pose proof (lookup_lt_Some _ _ _ Hj).
      destruct (decide (k = i)) as [->|]; [|destruct (decide (k = j)) as [->|]].
      * rewrite list_lookup_insert_ne by done. rewrite list_lookup_insert_eq by done. done.
      * rewrite list_lookup_insert_eq by (by rewrite length_insert). done.
      * by rewrite !list_lookup_insert_ne.
Qed.

(** Words are never negative. *)
Definition mt_wf (g : Mt) : Prop := Forall (fun x => 0 <= x) (mt_words g).

Lemma u32_nonneg x : 0 <= u32 x.
Proof. apply Z.land_nonneg. right. lia. Qed.

Lemma word_nonneg mt i : Forall (fun x => 0 <= x) mt -> 0 <= word mt i.
Proof. intros Hf. unfold word. destruct (nth_in_or_default i mt 0) as [Hi| ->]; [|lia]. rewrite Forall_forall in Hf. apply Hf. by apply list_elem_of_In. Qed.

Lemma Forall_set {A} (P : A -> Prop) i x (l : list A) : P x -> Forall P l -> Forall P (<[i := x]> l).
Proof. intros Hx Hl. destruct (decide (i < length l)%nat). - by apply Forall_insert. - by rewrite list_insert_ge by lia. Qed.

#[local] Hint Resolve u32_nonneg word_nonneg Forall_set : core.

Lemma wrap_nonneg mt i : Forall (fun x => 0 <= x) mt -> Forall (fun x => 0 <= x) (wrap mt i).1.
Proof. unfold wrap. destruct (_ <=? _)%nat; cbn [fst]; auto. Qed.

Lemma genrand_from_nonneg f i p : Forall (fun x => 0 <= x) (genrand_from f i p).
Proof. revert i p. induction f; intros; constructor; auto. Qed.

Lemma mix_key_nonneg f key mt i j : Forall (fun x => 0 <= x) mt -> Forall (fun x => 0 <= x) (mix_key f key mt i j).1.
Proof.
  revert mt i j. induction f as [|f IH]; intros mt i j Hm; cbn [mix_key]; [done|].
  destruct (wrap _ _) as [mt' i'] eqn:E. apply IH. change mt' with (mt', i').1. rewrite <-E. apply wrap_nonneg. auto.
Qed.

Lemma mix_rest_nonneg f mt i : Forall (fun x => 0 <= x) mt -> Forall (fun x => 0 <= x) (mix_rest f mt i).
Proof.
  revert mt i. induction f as [|f IH]; intros mt i Hm; cbn [mix_rest]; [done|].
  destruct (wrap _ _) as [mt' i'] eqn:E. apply IH. change mt' with (mt', i').1. rewrite <-E. apply wrap_nonneg. auto.
Qed.

Lemma Random_new_wf seed : mt_wf (Random_new seed).
Proof.
  unfold Random_new, mt_wf, init_by_array. cbn [mt_words]. destruct (mix_key _ _ _ _ _) as [mt i] eqn:E.
  apply Forall_set; [lia|]. apply mix_rest_nonneg. change mt with (mt, i).1. rewrite <-E. apply mix_key_nonneg.
  constructor; [apply u32_nonneg|apply genrand_from_nonneg].
Qed.

Lemma twist_nonneg mt : Forall (fun x => 0 <= x) mt -> Forall (fun x => 0 <= x) (twist mt).
Proof.
  unfold twist. generalize (seq 0 624). intros l. revert mt. induction l as [|k l IH]; intros mt Hm; cbn [foldl]; [done|].
  apply IH. unfold twist_word. apply Forall_set; [|done].
  assert (0 <= Z.lor (Z.land (word mt k) 2147483648) (Z.land (word mt ((k + 1) mod 624)) 2147483647))
    by (apply Z.lor_nonneg; split; apply Z.land_nonneg; right; lia).
  assert (0 <= word mt ((k + 397) mod 624)) by auto.
  destruct (Z.odd _); rewrite ?Z.lxor_nonneg, ?Z.shiftr_nonneg; lia.
Qed.

Lemma temper_nonneg y : 0 <= y -> 0 <= temper y.
Proof.
  intros Hy. unfold temper.
  set (a := Z.lxor y (Z.shiftr y 11)). assert (0 <= a) by (apply Z.lxor_nonneg; rewrite Z.shiftr_nonneg; lia).
  set (b := Z.lxor a _). assert (0 <= b) by (apply Z.lxor_nonneg; rewrite Z.land_nonneg; split; intros; lia).
  set (c := Z.lxor b _). assert (0 <= c) by (apply Z.lxor_nonneg; rewrite Z.land_nonneg; split; intros; lia).
  apply Z.lxor_nonneg. rewrite Z.shiftr_nonneg. lia.
Qed.

Lemma wp_genrand (Q : res exn Z -> Mt -> Prop) g :
  mt_wf g -> (forall y g', 0 <= y -> mt_wf g' -> Q (Ok y) g') -> wp genrand_uint32 Q g.
Proof.
  intros Hg HQ. unfold wp, genrand_uint32. cbn [fst].
  set (g' := if (624 <=? mt_index g)%nat then mkMt (twist (mt_words g)) 0 else g).
  assert (Hw : mt_wf g') by (unfold g', mt_wf; destruct (_ <=? _)%nat; [by apply twist_nonneg|done]).
  apply HQ; [|done]. by apply temper_nonneg, word_nonneg.
Qed.

Lemma wp_random53 (Q : res exn Z -> Mt -> Prop) g :
  mt_wf g -> (forall k g', mt_wf g' -> Q (Ok k) g') -> wp random53 Q g.
Proof.
  intros Hg HQ. apply wp_bind, wp_genrand; [done|]. intros a g1 _ H1. apply wp_bind, wp_genrand; [done|].
  intros b g2 _ H2. by apply wp_ret, HQ.
Qed.

Lemma wp_randbelow fuel n (Q : res exn Z -> Mt -> Prop) g :
  mt_wf g -> (forall r g', 0 <= r < n -> mt_wf g' -> Q (Ok r) g') -> (forall g', mt_wf g' -> Q OutOfFuel g') ->
  wp (randbelow fuel n) Q g.
Proof.
  intros Hg HQ HF. unfold randbelow. generalize 0 as acc. revert g Hg.
  induction fuel as [|fuel IH]; intros g Hg acc; cbn [while_loop]; [by apply wp_lift, HF|].
  apply wp_bind, wp_bind, wp_bind, wp_genrand; [done|]. intros y g1 Hy H1. apply wp_ret, wp_ret.
  destruct (n <=? _) eqn:E; [by apply IH|]. unbool. apply wp_ret, HQ; [|done]. split; [|done]. by apply Z.shiftr_nonneg.
Qed.

Lemma wp_randrange fuel a b (Q : res exn Z -> Mt -> Prop) g :
  mt_wf g -> a < b -> (forall r g', a <= r < b -> mt_wf g' -> Q (Ok r) g') -> (forall g', mt_wf g' -> Q OutOfFuel g') ->
  wp (randrange fuel a b) Q g.
Proof.
  intros Hg Hab HQ HF. unfold randrange. replace (0 <? b - a) with true by lia.
  apply wp_bind, wp_randbelow; [done| |done]. intros r g' Hr Hg'. apply wp_ret, HQ; [lia|done].
Qed.

Lemma wp_shuffle {A} fuel (l : list A) (Q : res exn (list A) -> Mt -> Prop) g :
  mt_wf g -> (forall l' g', l' ≡ₚ l -> mt_wf g' -> Q (Ok l') g') -> (forall g', mt_wf g' -> Q OutOfFuel g') ->
  wp (shuffle fuel l) Q g.
Proof.
  intros Hg HQ HF. unfold shuffle. apply (wp_for_each (fun l' g => l' ≡ₚ l /\ mt_wf g)).
  - done.
  - intros i l' g1 _ [Hp H1]. apply wp_bind, wp_randbelow; [done| |by auto]. intros j g2 _ H2.
    apply wp_ret. split; [|done]. by rewrite swap_Permutation.
  - intros l' g' [Hp H1]. by apply HQ.
Qed.

Lemma shuffle_permutes {A} fuel (l : list A) g :
  mt_wf g -> forall l', (shuffle fuel l g).1 = Ok l' -> l' ≡ₚ l /\ mt_wf (shuffle fuel l g).2.
Proof.
  intros Hg. assert (Hw : wp (shuffle fuel l) (fun r g' => forall l', r = Ok l' -> l' ≡ₚ l /\ mt_wf g') g).
  { apply wp_shuffle; [done| |done]. by intros l2 g' Hl Hg' ? [= <-]. }
  unfold wp in Hw. destruct (shuffle fuel l g) as [r g']. exact Hw.
Qed.

(** The draws of the interpreter. *)
Example random_draws :
  ((let! a := randrange 100 0 1024 in let! b := randrange 100 33 127 in let! c := random53 in
   let! l := shuffle 100 [1; 2; 3; 4; 5; 6; 7; 8] in ret (a, b, c, l))
    (Random_new 20260925)).1 = Ok (674, 49, 6918128202837414, [1; 7; 3; 8; 6; 5; 4; 2]).
Proof. vm_compute. reflexivity. Qed.
