(* ===== verification/Script.v ===== *)
(** * Scripts that keep a report

    The checking scripts build a report as they go and write it on every path
    out of their [try] block.  Their state is that report next to the host;
    reports held as data ([report]) have the updates of a Python dict. *)

From Stdlib Require Import QArith.
From S2P Require Import Prelude PyStr PyFloat Objects Json Vector Text Dict Host.
#[local] Open Scope Z_scope.

(** ** [repr(exc)] of the exceptions the scripts record *)

Definition class_name (e : exn) : string :=
  match e with
  | ValueError _ => "ValueError" | TypeError _ => "TypeError" | KeyError _ => "KeyError"
  | IndexError _ => "IndexError" | AttributeError _ => "AttributeError"
  | OverflowError _ => "OverflowError" | AssertionError _ => "AssertionError"
  | RuntimeError _ => "RuntimeError" | OSError _ => "OSError" | TimeoutError _ => "TimeoutError"
  | CertificateError _ => "CertificateError" | NotImplementedError _ => "NotImplementedError"
  | StopIteration => "StopIteration" | ZeroDivisionError _ => "ZeroDivisionError"
  | EOFError _ => "EOFError" | SystemExit _ => "SystemExit" | TimeoutExpired _ => "TimeoutExpired"
  | CalledProcessError _ => "CalledProcessError" | ConnectionError _ => "ConnectionError"
  | QueryError _ => "QueryError" | ConstraintError _ => "ConstraintError"
  | SerializationError _ => "SerializationError" | SessionError _ => "SessionError"
  | PendingWriteError _ => "PendingWriteError" | UnknownOutcome _ => "UnknownOutcome"
  | Dbapi _ _ _ => "OperationalError"
  end.
Definition repr_exn (e : exn) : pystr := py (class_name e) ++ py "('" ++ str_exn e ++ py "')".

(** [parser.error(message)] *)
Definition parser_error {A} {S} (m : string) : M exn S A := throw (SystemExit (py m)).

Section Script.
Context {W : Type} `{Host W} {R : Type}.

Definition Sc (A : Type) : Type := M exn (R * W) A.
Definition on_host {A} (m : Hm A) : Sc A := fun s => let '(r, w) := m s.2 in (r, (s.1, w)).
Definition amend (f : R -> R) : Sc unit := modify (fun s => (f s.1, s.2)).
Definition reported : Sc R := gets fst.

(** [try: body / except BaseException as exc: record; raise] *)
Definition recording {A} (record : exn -> R -> R) (body : Sc A) : Sc A :=
  try_except body (fun e => Some (do! amend (record e);; throw e)).

(** [finally: path.write_text(json.dumps(report))] *)
Definition writing {A} (path : pystr) (render : R -> tv) (body : Sc A) : Sc A :=
  try_finally body (let! rep := reported in on_host (io_res (h_write_json path (render rep)))).

(** Runs a script that starts from a report. *)
Definition with_report {A} (initial : R) (body : Sc A) : Hm A :=
  fun w => let '(r, s) := body (initial, w) in (r, s.2).

(** ** Rules *)

Lemma wp_io {A} (f : W -> A * W) (Q : res exn A -> W -> Prop) w : (forall a w', f w = (a, w') -> Q (Ok a) w') -> wp (io f) Q w.
Proof. intros HQ. unfold wp, io. destruct (f w) as [a w'] eqn:E. by apply HQ. Qed.

Lemma wp_io_res {A} (f : W -> pyres A * W) (Q : res exn A -> W -> Prop) w :
  (forall r w', f w = (r, w') -> Q r w') -> wp (io_res f) Q w.
Proof. intros HQ. apply wp_intro. intros r w'. unfold io_res. apply HQ. Qed.

Lemma wp_on_host {A} (m : Hm A) Q s : wp m (fun r w => Q r (s.1, w)) s.2 -> wp (on_host m) Q s.
Proof. unfold wp, on_host. destruct (m s.2). done. Qed.

Lemma wp_amend f (Q : res exn unit -> R * W -> Prop) s : Q (Ok tt) (f s.1, s.2) -> wp (amend f) Q s.
Proof. done. Qed.

(** A host operation leaves the report alone. *)
Lemma wp_host_step {A} (m : Hm A) (Q : res exn A -> R * W -> Prop) s :
  (forall r w, Q r (s.1, w)) -> wp (on_host m) Q s.
Proof. intros HQ. apply wp_on_host. apply wp_intro. intros r w _. apply HQ. Qed.

Lemma wp_recording {A} record (body : Sc A) (Q : res exn A -> R * W -> Prop) s :
  wp body (fun r s' => match r with Raise e => Q (Raise e) (record e s'.1, s'.2) | out => Q out s' end) s ->
  wp (recording record body) Q s.
Proof.
  intros Hb. apply wp_try_except. eapply wp_mono; [exact Hb|]. intros [a|e|] s' HQ; [done| |done].
  apply wp_bind, wp_amend, wp_throw, HQ.
Qed.

(** The host after [path.write_text(json.dumps(value))]. *)
Definition written (path : pystr) (v : tv) (w' : W) : Prop := exists w, w' = (h_write_json path v w).2.

(** Whatever the body does, the report it leaves is the one written, unless
    fuel ran out; the script succeeds only if its body did. *)
Lemma wp_writing {A} path render (body : Sc A) (P : res exn A -> R -> Prop) s :
  wp body (fun r s' => P r s'.1) s ->
  wp (writing path render body)
     (fun r s' => exists r0, P r0 s'.1 /\ (r = OutOfFuel \/ written path (render s'.1) s'.2) /\
                             (forall a, r = Ok a -> r0 = Ok a)) s.
Proof.
  intros Hb. apply wp_try_finally. eapply wp_mono; [exact Hb|]. intros r [rep w] HP. cbn [fst] in HP.
  assert (Hw : wp (let! rep := reported in on_host (io_res (h_write_json path (render rep))))
                 (fun _ s'' => s''.1 = rep /\ written path (render rep) s''.2) (rep, w)).
  { unfold wp, bind, reported, gets, on_host, io_res, written. cbn.
    destruct (h_write_json path (render rep) w) as [[?|?|] w2] eqn:E; (split; [done|]); exists w; by rewrite E. }
  destruct r as [a|e|]; [| |by exists OutOfFuel; auto]; (eapply wp_mono; [exact Hw|]); intros [?|e'|] [rep' w'] [Hrep Hwr];
    cbn [fst snd] in Hrep, Hwr |- *; rewrite Hrep; eexists; (split; [exact HP|]); (split; [by right|]); done.
Qed.
End Script.
#[global] Arguments Sc {W} R A.

(** ** Reports as data *)

(** [report[k].append(v)], [report[k][-1].update(...)] *)
Definition rappend (k : string) (v : tv) (r : report) : report :=
  match rget k r with Some (Arr l) => dset (py k) (Arr (l ++ [v])) r | _ => r end.
Definition rupdate_last (k : string) (kvs : list (string * tv)) (r : report) : report :=
  match rget k r with
  | Some (Arr l) =>
      match last l with
      | Some (Obj d) => dset (py k) (Arr (take (length l - 1) l ++ [Obj (rupdate kvs d)])) r
      | _ => r
      end
  | _ => r
  end.
Definition tseconds (q : Q) : tv := Num q.
Definition topt {A} (f : A -> tv) (o : option A) : tv := match o with Some a => f a | None => tnone end.

Lemma rget_rupdate_other k kvs d :
  forallb (fun '(k', _) => negb (pyeqb (py k') (py k))) kvs = true -> rget k (rupdate kvs d) = rget k d.
Proof.
  unfold rupdate. revert d. induction kvs as [|[k' v] kvs IH]; intros d; cbn; [done|]. intros Hk. unbool.
  unfold rget in *. rewrite IH by done. rewrite dget_dset, decide_False; [done|]. intros E. rewrite E, pyeqb_refl in H. done.
Qed.

Lemma rget_rset k v r : rget k (rupdate [(k, v)] r) = Some v.
Proof. unfold rget, rupdate. cbn. by rewrite dget_dset, decide_True. Qed.

Lemma rget_rappend_other k k' v r : pyeqb (py k') (py k) = false -> rget k (rappend k' v r) = rget k r.
Proof.
  intros Hk. unfold rappend. destruct (rget k' r) as [[| |l|]|]; try done. unfold rget.
  rewrite dget_dset, decide_False; [done|]. intros E. rewrite E, pyeqb_refl in Hk. done.
Qed.

Lemma rget_rappend k v l r : rget k r = Some (Arr l) -> rget k (rappend k v r) = Some (Arr (l ++ [v])).
Proof. intros Hr. unfold rappend. rewrite Hr. unfold rget. by rewrite dget_dset, decide_True. Qed.
