(* ===== verification/ProcessCluster.v ===== *)
(** * tools/check_process_cluster.py: the cluster controller

    Three voter processes driven in rounds over framed pipes (Worker models one
    call).  Data that travels in frames is typed as the voter's wire records
    (internal/process_probe/main.odin); [Probe] is what the controller uses of
    the operating system and of the voters.  The calls of one round run in a
    thread pool, each on its own pipe: they are modelled one after the other in
    node order, before any result is looked at. *)

From Stdlib Require Import QArith Qminmax.
From S2P Require Import Prelude PyStr PyFloat Objects Json Vector Text Net Dict Host.
#[local] Open Scope Z_scope.

(** ** The voter's records *)

(** A request [{'client', 'sequence', 'sql'}] and a routed packet. *)
Record Request := mkRequest { r_client : Z; r_sequence : Z; r_sql : pystr }.
Record Packet := mkPacket { p_from : Z; p_to : Z; p_body : pyval }.
Record Completion := mkCompletion { c_client : Z; c_sequence : Z; c_kind : pystr; c_slot : Z }.
Record ReadResult := mkReadResult { rr_status : pystr; rr_sql_error : pystr; rr_rows : Z }.
(** ['_resources'], which a remote supervisor adds: the numbers the controller
    reads, and the whole record it copies into reports. *)
Record Resources := mkResources { res_pid : Z; res_cpu_seconds : Q; res_high_water : option Z; res_record : pyval }.
Record Response := mkResponse {
  applied : Z; packets : list Packet; completed_now : list Completion; accepted : Z; backpressure : bool;
  rows : Z; sql_error : pystr; ticket : pyval; read_result : ReadResult; resources : option Resources
}.

(** [command]: [controls] replaces the action. *)
Inductive Action :=
| Drive | Tick | Read
| Begin_read
| Poll_read (ticket : pyval) (sql : pystr).
Record Command := mkCommand { action : Action; incoming : list Packet; write_requests : list Request; read_sql : pystr }.

#[export] Instance completion_eq_dec : EqDecision Completion.
Proof. solve_decision. Defined.

(** ** The outside world *)

Class Probe (W : Type) := {
  p_monotonic : W -> Q * W;
  (** [subprocess.Popen] of a voter, giving its pid; [Worker.rpc] on it, with a
      command and with any JSON value *)
  p_spawn : list pystr -> W -> pyres Z * W;
  p_rpc : Z -> Command -> W -> pyres Response * W;
  p_call : Z -> pyval -> W -> pyres pyval * W;
  p_poll : Z -> W -> option Z * W;
  p_kill : Z -> W -> W;
  p_close_stdin : Z -> W -> W;
  p_wait : Z -> Z -> W -> pyres Z * W;
  p_close_pipes : Z -> W -> W;
  p_returncode : Z -> W -> option Z;
  (** the texts of [/proc/<pid>/stat] and [/proc/<pid>/status], if they exist *)
  p_stat : Z -> W -> option pystr * W;
  p_status : Z -> W -> option pystr * W;
  p_clock_ticks : Z;
  (** [random.Random(seed)], [random()] and [randrange(n)] *)
  p_seed : Z -> W -> W;
  p_random : W -> Q * W;
  p_randrange : Z -> W -> Z * W
}.

(** ** class Cluster *)

Abbreviation request_key := (Z * Z)%type.

(** What a subclass adds to the state ([RemoteCluster]), with the report its
    coordinator fills in place. *)
Record Remote := mkRemote { remote_resources : list (option Resources); actual_peak : list Z; evidence : report }.

(** CPU times are kept by local pid, or by node and remote pid. *)
Abbreviation cpu_key := (option nat * Z)%type.

Record Cluster := mkCluster {
  binary : pystr; directory : pystr; remote : Remote;
  workers : list (option Z); queues : list (list Packet); partition : list (Z * Z);
  completed : list (request_key * Completion); first_completion : list (request_key * Q);
  completion_counts : list (request_key * Z); awaited_counts : list (request_key * Z);
  peak_rss : list (option Z); pids : list Z; cpu_by_pid : list (cpu_key * Q); read_latency_samples : list Q
}.

Definition Cluster_new (binary directory : pystr) : Cluster :=
  mkCluster binary directory (mkRemote [None; None; None] [0; 0; 0] []) [None; None; None] [[]; []; []] [] [] [] [] [] [None; None; None] [] [] [].

Definition set_workers l c := mkCluster (binary c) (directory c) (remote c) l (queues c) (partition c) (completed c) (first_completion c)
  (completion_counts c) (awaited_counts c) (peak_rss c) (pids c) (cpu_by_pid c) (read_latency_samples c).
Definition set_queues l c := mkCluster (binary c) (directory c) (remote c) (workers c) l (partition c) (completed c) (first_completion c)
  (completion_counts c) (awaited_counts c) (peak_rss c) (pids c) (cpu_by_pid c) (read_latency_samples c).
Definition set_partition l c := mkCluster (binary c) (directory c) (remote c) (workers c) (queues c) l (completed c) (first_completion c)
  (completion_counts c) (awaited_counts c) (peak_rss c) (pids c) (cpu_by_pid c) (read_latency_samples c).
Definition set_completions a b d c := mkCluster (binary c) (directory c) (remote c) (workers c) (queues c) (partition c) a b d
  (awaited_counts c) (peak_rss c) (pids c) (cpu_by_pid c) (read_latency_samples c).
Definition set_awaited l c := mkCluster (binary c) (directory c) (remote c) (workers c) (queues c) (partition c) (completed c)
  (first_completion c) (completion_counts c) l (peak_rss c) (pids c) (cpu_by_pid c) (read_latency_samples c).
Definition set_peak l c := mkCluster (binary c) (directory c) (remote c) (workers c) (queues c) (partition c) (completed c)
  (first_completion c) (completion_counts c) (awaited_counts c) l (pids c) (cpu_by_pid c) (read_latency_samples c).
Definition set_pids l c := mkCluster (binary c) (directory c) (remote c) (workers c) (queues c) (partition c) (completed c)
  (first_completion c) (completion_counts c) (awaited_counts c) (peak_rss c) l (cpu_by_pid c) (read_latency_samples c).
Definition set_cpu l c := mkCluster (binary c) (directory c) (remote c) (workers c) (queues c) (partition c) (completed c)
  (first_completion c) (completion_counts c) (awaited_counts c) (peak_rss c) (pids c) l (read_latency_samples c).
Definition set_samples l c := mkCluster (binary c) (directory c) (remote c) (workers c) (queues c) (partition c) (completed c)
  (first_completion c) (completion_counts c) (awaited_counts c) (peak_rss c) (pids c) (cpu_by_pid c) l.

Definition set_remote r c := mkCluster (binary c) (directory c) r (workers c) (queues c) (partition c) (completed c)
  (first_completion c) (completion_counts c) (awaited_counts c) (peak_rss c) (pids c) (cpu_by_pid c) (read_latency_samples c).

(** Positions of a Python list index. *)
Definition py_pos {A} (l : list A) (k : Z) : option nat :=
  let k' := if k <? 0 then k + zlen l else k in
  if (0 <=? k') && (k' <? zlen l) then Some (Z.to_nat k') else None.

(** [[node, worker] in enumerate(self.workers)] *)
Definition enumerate {A} (l : list A) : list (nat * A) := zip (seq 0 (length l)) l.

(** [VmHWM: 123 kB] lines of [/proc/<pid>/status] *)
Definition high_water (line : pystr) : pyres (option Z) :=
  if is_prefix (py "VmHWM:") line
  then let? word := list_index (words line) 1 in let? n := int_of_text word in Ok (Some (n * 1024))
  else Ok None.

(** CPU seconds from [/proc/<pid>/stat]: fields 11 and 12 after the last [')']. *)
Definition cpu_seconds (ticks : Z) (stat : pystr) : pyres Q :=
  let? rest := after_last 41 stat in
  let fields := words rest in
  let? user := list_index fields 11 in
  let? u := int_of_text user in
  let? system := list_index fields 12 in
  let? s := int_of_text system in
  if ticks =? 0 then Raise (ZeroDivisionError "division by zero") else Ok (inject_Z (u + s) / inject_Z ticks)%Q.

Section Effects.
Context {W : Type}.

Definition P (A : Type) : Type := M exn (Cluster * W) A.
Definition self : P Cluster := gets fst.
Definition update (f : Cluster -> Cluster) : P unit := modify (fun s => (f s.1, s.2)).
Definition os {A} (f : W -> A * W) : P A := fun s => let '(a, w) := f s.2 in (Ok a, (s.1, w)).
Definition os_do (f : W -> W) : P unit := modify (fun s => (s.1, f s.2)).
Definition os_res {A} (f : W -> pyres A * W) : P A := fun s => let '(r, w) := f s.2 in (r, (s.1, w)).
End Effects.

(** The methods of [Cluster] and of its workers that [RemoteCluster] overrides:
    the base class's code calls them on [self].  [m_round_end] is what [round]
    does after the base class's round. *)
Class Methods (W : Type) := {
  m_close : P (W := W) unit;
  m_argv : Cluster -> nat -> bool -> list pystr;
  m_worker_stop : nat -> Z -> P (W := W) unit;
  m_sample_cpu : Z -> P (W := W) unit;
  m_round_end : list (nat * Response) -> P (W := W) unit
}.

Section Local.
Context {W : Type} `{Probe W}.

(** [Worker.__init__]: the voter's command line *)
Definition worker_argv (c : Cluster) (node : nat) (create : bool) : list pystr :=
  [binary c; directory c ++ fstr [L "/node-"; D (Z.of_nat node + 1)]; dec (Z.of_nat node + 1);
   py (if create then "create" else "open")].

(** [Worker.stop] *)
Definition worker_stop (pid : Z) (kill : bool) : P unit :=
  let! code := os (p_poll pid) in
  do! match code with
      | Some _ => ret tt
      | None =>
          do! os_do (if kill then p_kill pid else p_close_stdin pid);;
          try_except (let! _ := os_res (p_wait pid 10) in ret tt)
            (fun e => if isinstance e CTimeoutExpired
                      then Some (do! os_do (p_kill pid);; let! _ := os_res (p_wait pid 10) in ret tt)
                      else None)
      end;;
  do! os_do (p_close_pipes pid);;
  let! code := gets (fun s => p_returncode pid s.2) in
  if negb kill && negb (bool_decide (code = Some 0))
  then throw (RuntimeError "Worker {self.node} did not close cleanly") else ret tt.

(** [sample_cpu] *)
Definition sample_cpu (pid : Z) : P unit :=
  let! stat := os (p_stat pid) in
  match stat with
  | None => ret tt
  | Some text =>
      let! seconds := lift (cpu_seconds p_clock_ticks text) in
      update (fun c => set_cpu (dset (None, pid) seconds (cpu_by_pid c)) c)
  end.

Definition close : P unit :=
  let! c := self in
  for_do (workers c) (fun worker => match worker with Some pid => worker_stop pid true | None => ret tt end).

#[export] Instance local_methods : Methods W := {
  m_close := close;
  m_argv := worker_argv;
  m_worker_stop _ pid := worker_stop pid true;
  m_sample_cpu := sample_cpu;
  m_round_end _ := ret tt
}.
End Local.

Section Controller.
Context {W : Type} `{Probe W} `{!Methods W}.
Abbreviation P := (P (W := W)).

Definition start (node : nat) (create : bool) : P unit :=
  let! c := self in
  let! pid := os_res (p_spawn (m_argv c node create)) in
  update (fun c => set_pids (pids c ++ [pid]) (set_workers (<[node := Some pid]> (workers c)) c)).

(** [self.workers[node].stop(kill=True)]: [None] has no [stop]. *)
Definition stop (node : nat) : P unit :=
  let! c := self in
  match workers c !! node with
  | Some (Some pid) =>
      do! m_worker_stop node pid;;
      update (fun c => set_queues (<[node := []]> (queues c)) (set_workers (<[node := None]> (workers c)) c))
  | Some None => throw (AttributeError "stop")
  | None => throw (IndexError "list index out of range")
  end.

(** [Cluster.__init__] from its assignments on. *)
Definition Cluster_init : P unit :=
  try_except (for_do (seq 0 3) (fun node => start node true))
    (fun e => Some (do! m_close;; throw e)).

Definition sample_rss (node : nat) (pid : Z) : P unit :=
  let! status := os (p_status pid) in
  match status with
  | None => ret tt
  | Some text =>
      for_do (splitlines text) (fun line =>
        let! found := lift (high_water line) in
        match found with
        | None => ret tt
        | Some bytes =>
            update (fun c => set_peak (<[node := Some (Z.max (default 0 (default None (peak_rss c !! node))) bytes)]> (peak_rss c)) c)
        end)
  end.

(** *** round *)

(** The loop that builds the jobs. *)
Definition take_incoming (node : nat) : P (list Packet) :=
  let! c := self in
  let queue := default [] (queues c !! node) in
  do! update (fun c => set_queues (<[node := drop 128 queue]> (queues c)) c);;
  ret (take 128 queue).

Definition round_command (writes : list (nat * list Request)) (tick : bool) (reads : list (nat * pystr))
    (controls : list (nat * Action)) (node : nat) (batch : list Packet) : Command :=
  mkCommand (match dget node controls with
             | Some control => control
             | None => if dmem node reads then Read else if tick then Tick else Drive
             end) batch (default [] (dget node writes))
    (match dget node controls with Some (Poll_read _ sql) => sql | _ => default [] (dget node reads) end).

Definition submit_jobs (command_of : nat -> list Packet -> Command) : P (list (nat * (Z * Command))) :=
  let! c := self in
  for_each (enumerate (workers c)) (fun '(node, worker) jobs =>
    match worker with
    | None => do! update (fun c => set_queues (<[node := []]> (queues c)) c);; ret jobs
    | Some pid => let! batch := take_incoming node in ret (jobs ++ [(node, (pid, command_of node batch))])
    end) [].

Definition run_jobs (jobs : list (nat * (Z * Command))) : P (list (nat * Z * pyres Response)) :=
  for_each jobs (fun '(node, (pid, command)) outcomes =>
    let! outcome := os (p_rpc pid command) in ret (outcomes ++ [(node, pid, outcome)])) [].

(** Routing one packet. *)
Definition route (packet : Packet) : P unit :=
  let! c := self in
  let source := p_from packet - 1 in
  let target := p_to packet - 1 in
  if bool_decide ((source, target) ∈ partition c) then ret tt
  else
    match py_pos (workers c) target with
    | None => throw (IndexError "list index out of range")
    | Some i =>
        match workers c !! i with
        | Some (Some _) =>
            let queue := default [] (queues c !! i) in
            if 4096 <=? zlen queue then throw (RuntimeError "Controller peer queue exceeded its budget")
            else update (fun c => set_queues (<[i := queue ++ [packet]]> (queues c)) c)
        | _ => ret tt
        end
    end.

(** Recording one completion. *)
Definition record_completion (completion : Completion) : P unit :=
  let! c := self in
  let key := (c_client completion, c_sequence completion) in
  do! match dget key (completed c) with
  | Some previous =>
      if negb (bool_decide (previous = completion))
      then throw (RuntimeError "Unstable retry outcome: {previous} / {completion}") else ret tt
  | None => ret tt
  end;;
  let! now := os p_monotonic in
  update (fun c =>
    set_completions (dset key completion (completed c))
      (match dget key (first_completion c) with Some _ => first_completion c | None => dset key now (first_completion c) end)
      (dset key (default 0 (dget key (completion_counts c)) + 1) (completion_counts c)) c).

(** One response of a round. *)
Definition process_response (node : nat) (pid : Z) (response : Response) : P unit :=
  if negb (pyeqb (sql_error response) (py "None"))
  then throw (RuntimeError "Worker {node} read failed: {response['sql_error']}; query={reads.get(node, '')!r}")
  else
    do! for_do (packets response) route;;
    do! for_do (completed_now response) record_completion;;
    do! m_sample_cpu pid;;
    sample_rss node pid.

Definition process_outcome (outcome : nat * Z * pyres Response) (results : list (nat * Response)) : P (list (nat * Response)) :=
  let '(node, pid, job) := outcome in
  let! response := lift job in
  do! process_response node pid response;;
  ret (results ++ [(node, response)]).

Definition round (writes : list (nat * list Request)) (tick : bool) (reads : list (nat * pystr))
    (controls : list (nat * Action)) : P (list (nat * Response)) :=
  let! jobs := submit_jobs (round_command writes tick reads controls) in
  let! outcomes := run_jobs jobs in
  let! results := for_each outcomes process_outcome [] in
  do! m_round_end results;;
  ret results.

Definition round_tick (tick : bool) : P (list (nat * Response)) := round [] tick [] [].

(** *** settle, submit *)

Definition key_of (r : Request) : request_key := (r_client r, r_sequence r).

Definition count_of (k : request_key) (c : Cluster) : Z := default 0 (dget k (completion_counts c)).
Definition awaited_of (k : request_key) (c : Cluster) : Z := default 1 (dget k (awaited_counts c)).

Definition settled (keys : list request_key) (c : Cluster) : bool :=
  forallb (fun k => awaited_of k c <=? count_of k c) keys && forallb (fun q => bool_decide (zlen q = 0)) (queues c).

Definition settle (requests : list Request) : P unit :=
  let keys := remove_dups (key_of <$> requests) in
  for_search 0 300 (fun attempt _ =>
    let! c := self in
    if settled keys c then ret (inr tt)
    else let! _ := round_tick (Nat.eqb (attempt mod 8) 7) in ret (inl tt))
    tt (fun _ => throw (RuntimeError "Cluster did not settle; missing {keys - self.completed.keys()}")).

(** [groups.setdefault(node, []).append(request)] *)
Fixpoint group_requests (alive : list nat) (offset index : nat) (requests : list Request)
    (groups : list (nat * list Request)) : pyres (list (nat * list Request)) :=
  match requests with
  | [] => Ok groups
  | request :: rest =>
      match alive with
      | [] => Raise (ZeroDivisionError "integer modulo by zero")
      | first :: _ =>
          let node := default first (alive !! ((index + offset) mod length alive)%nat) in
          group_requests alive offset (S index) rest (dset node (default [] (dget node groups) ++ [request]) groups)
      end
  end.

Definition submit (requests : list Request) (offset : nat) (alive : list nat) : P unit :=
  do! for_do requests (fun r =>
    update (fun c => set_awaited (dset (key_of r) (count_of (key_of r) c + 1) (awaited_counts c)) c));;
  let! groups := lift (group_requests alive offset 0 requests []) in
  let! result := round groups false [] [] in
  for_do groups (fun '(node, group) =>
    let! response := lift (dindex node result) in
    if negb (accepted response =? zlen group) || backpressure response
    then throw (RuntimeError "Unexpected bounded-workload backpressure") else ret tt).

Definition all_nodes : list nat := [0; 1; 2]%nat.

(** *** fenced_reads *)

Definition tickets_of (queries : list (nat * pystr)) (replies : list (nat * Response)) : pyres (list (nat * pyval)) :=
  foldr (fun '(n, _) acc => let? t := dindex n replies in let? l := acc in Ok ((n, ticket t) :: l)) (Ok []) queries.

(** The commands of one polling round; [queries[n]] is there for every ticket. *)
Definition polls (queries : list (nat * pystr)) (tickets : list (nat * pyval)) : list (nat * Action) :=
  (fun '(n, t) => (n, Poll_read t (default [] (dget n queries)))) <$> tickets.

(** One node's poll result. *)
Definition poll_result (started : Q) (replies : list (nat * Response)) (n : nat)
    (acc : list (nat * Z) * list (nat * pyval)) : P (list (nat * Z) * list (nat * pyval)) :=
  let '(results, tickets) := acc in
  let! response := lift (dindex n replies) in
  let read := read_result response in
  if pyeqb (rr_status read) (py "Ready") then
    if negb (pyeqb (rr_sql_error read) (py "None")) then throw (RuntimeError "Fenced read failed: {read}")
    else
      let! now := os p_monotonic in
      do! update (fun c => set_samples (read_latency_samples c ++ [1000 * (now - started)]%Q) c);;
      ret (dset n (rr_rows read) results, ddel n tickets)
  else if pyeqb (rr_status read) (py "Displaced") then
    let! restart := round [] false [] [(n, Begin_read)] in
    let! again := lift (dindex n restart) in
    ret (results, dset n (ticket again) tickets)
  else ret (results, tickets).

Definition fenced_reads (queries : list (nat * pystr)) : P (list (nat * Z)) :=
  let! started := os p_monotonic in
  let! replies := round [] false [] ((fun '(n, _) => (n, Begin_read)) <$> queries) in
  let! tickets := lift (tickets_of queries replies) in
  for_search 0 300 (fun attempt '(results, tickets) =>
    do! (if Nat.eqb (attempt mod 4) 3 then let! _ := round_tick true in ret tt else ret tt);;
    let! replies := round [] false [] (polls queries tickets) in
    let! acc := for_each (fst <$> tickets) (poll_result started replies) (results, tickets) in
    let '(results, tickets) := acc in
    ret (match tickets with [] => inr results | _ => inl (results, tickets) end))
    ([], tickets) (fun _ => throw (RuntimeError "Read barrier did not complete")).
End Controller.
