(* ===== verification/RemoteCluster.v ===== *)
(** * tools/run_cluster_soak.py: the remote cluster

    [RemoteCluster] and [RemoteWorker] override methods of [Cluster] and
    [Worker]: voters are started over SSH through a supervisor that confirms a
    kill and reports the voter's resources with every response.  The overriding
    methods are an instance of [Methods], over which the base class's code is
    written. *)

From Stdlib Require Import QArith.
From S2P Require Import Prelude PyStr PyFloat Objects Json Vector Text Net Dict Host ProcessCluster.
#[local] Open Scope Z_scope.

(** The configuration file's entries the coordinator reads. *)
Record Config := mkConfig {
  remote_root : pystr; known_hosts : pystr; ssh_key : pystr; hosts : list pystr; local_results : pystr
}.

(** [command] *)
Definition command (config : Config) (node : nat) (args : list pystr) : list pystr :=
  let root := remote_root config in
  if Nat.eqb node 0 then [py "python3"; root ++ py "/qualification_worker.py"; root] ++ args
  else (py <$> ["ssh"; "-o"; "BatchMode=yes"; "-o"; "IdentitiesOnly=yes";
                "-o"; "StrictHostKeyChecking=yes"; "-o"; "ConnectTimeout=10";
                "-o"; "ServerAliveInterval=15"; "-o"; "ServerAliveCountMax=3"]%string)
       ++ [py "-o"; py "UserKnownHostsFile=" ++ known_hosts config;
           py "-i"; ssh_key config; default [] (hosts config !! node)] ++ args.

(** [response != {'stopped': True, 'returncode': -9}]: dict equality, where
    [True == 1]. *)
Definition confirmed_kill (response : pyval) : bool :=
  match response with
  | PDict d => bool_decide (length d = 2%nat) && eq_int (get_or (py "stopped") PNone d) 1
               && eq_int (get_or (py "returncode") PNone d) (-9)
  | _ => false
  end.

Section Remote.
Context {W : Type} `{Probe W} (config : Config) (phase : pystr).
Abbreviation PR := (P (W := W)).

(** [try: m except Exception as exc: error = exc] *)
Definition catching (m : PR unit) : PR (option exn) :=
  try_except (do! m;; ret None) (fun e => if isinstance e CException then Some (ret (Some e)) else None).

(** [RemoteWorker.stop] *)
Definition remote_stop (pid : Z) : PR unit :=
  let! code := os (p_poll pid) in
  let! error :=
    match code with
    | Some _ => ret None
    | None =>
        try_finally
          (catching (let! response := os_res (p_call pid (PDict (mkdict [("_supervisor", PStr (py "kill"))]))) in
                     if negb (confirmed_kill response) then throw (RuntimeError "Unconfirmed remote SIGKILL: {response}")
                     else ret tt))
          (do! os_do (p_close_stdin pid);;
           try_except (let! _ := os_res (p_wait pid 20) in ret tt)
             (fun e => if isinstance e CTimeoutExpired
                       then Some (do! os_do (p_kill pid);; let! _ := os_res (p_wait pid 10) in ret tt)
                       else None))
    end in
  do! os_do (p_close_pipes pid);;
  match error with Some e => throw e | None => ret tt end.

(** [RemoteCluster.close]: every voter is stopped, whatever the others raise. *)
Definition remote_close : PR unit :=
  let! c := self in
  let! errors := for_each (enumerate (workers c)) (fun '(node, worker) errors =>
    match worker with
    | None => ret errors
    | Some pid =>
        let! error := catching (remote_stop pid) in
        do! update (fun c => set_workers (<[node := None]> (workers c)) c);;
        ret (match error with Some e => errors ++ [str_exn e] | None => errors end)
    end) [] in
  match errors with
  | [] => ret tt
  | _ => throw (RuntimeError "Remote cleanup errors: {'; '.join(errors)}")
  end.

(** The loop of [RemoteCluster.round] over one node's response. *)
Definition note_resources (node : nat) (resource : Resources) : PR unit :=
  update (fun c =>
    let r := remote c in
    set_cpu (dset (Some node, res_pid resource) (res_cpu_seconds resource) (cpu_by_pid c))
      (set_remote (mkRemote (<[node := Some resource]> (remote_resources r))
        (<[node := Z.max (default 0 (actual_peak r !! node)) (default 0 (res_high_water resource))]> (actual_peak r)) (evidence r)) c)).

Definition remote_round_end (results : list (nat * Response)) : PR unit :=
  do! for_do results (fun '(node, response) =>
    match resources response with
    | None => throw (KeyError "_resources")
    | Some resource => note_resources node resource
    end);;
  update (fun c => set_peak (Some <$> actual_peak (remote c)) c).

(** [RemoteWorker.__init__]'s command *)
Definition remote_argv (c : Cluster) (node : nat) (create : bool) : list pystr :=
  command config node [py "start"; phase; py (if create then "create" else "open")].

(** Never mislabel the local SSH client's CPU as remote voter CPU. *)
Definition remote_sample_cpu (pid : Z) : PR unit := ret tt.

#[local] Instance remote_methods : Methods W := {
  m_close := remote_close;
  m_argv := remote_argv;
  m_worker_stop _ pid := remote_stop pid;
  m_sample_cpu := remote_sample_cpu;
  m_round_end := remote_round_end
}.

(** [report.update(k=v, ...)] on the coordinator's report. *)
Definition note (kvs : list (string * tv)) : PR unit :=
  update (fun c => let r := remote c in
    set_remote (mkRemote (remote_resources r) (actual_peak r) (rupdate kvs (evidence r))) c).
Definition the_report : PR tv := let! c := self in ret (Obj (evidence (remote c))).

(** [forget_completed] *)
Definition forget_completed : PR unit :=
  update (fun c => set_samples [] (set_awaited [] (set_completions [] [] [] c))).
End Remote.
