(* ===== verification/Workload.v ===== *)
(** * tools/check_process_cluster.py: the transfer workload

    [transaction], the SQL of [verify], and [exercise]: the sequence of healthy
    load, crashes, partitions and restarts with its checks.  Transfers form a
    dict from identifiers to amounts, in insertion order. *)

From Stdlib Require Import QArith Qminmax.
From stdpp Require Import sorting.
From S2P Require Import Prelude PyStr PyFloat Objects Json Vector Text Net Dict Host Stats ProcessCluster.
#[local] Open Scope Z_scope.

Abbreviation transfers := (list (Z * Z)).

Definition payload256 : pystr := replicate 256 120.

(** ** transaction *)

Definition transaction (identifier : Z) : Request * Z :=
  let source := identifier mod 3 + 1 in
  let target := source mod 3 + 1 in
  let amount := identifier mod 17 + 1 in
  let text := fstr [L "INSERT INTO transfers VALUES("; D identifier; L ","; D source; L ","; D target; L ","; D amount;
                    L ",'"; T payload256; L "');";
                    L "UPDATE accounts SET balance=balance-"; D amount; L " WHERE id="; D source; L ";";
                    L "UPDATE accounts SET balance=balance+"; D amount; L " WHERE id="; D target; L ";"] in
  (mkRequest (identifier + 100) 1 text, amount).

(** ** verify *)

Definition count_query (t : transfers) : pystr :=
  let count := zlen t in
  let amount := zsum (snd <$> t) in
  fstr [L "SELECT 1 WHERE (SELECT count(*) FROM transfers)="; D count;
        L " AND (SELECT coalesce(sum(amount),0) FROM transfers)="; D amount;
        L " AND (SELECT count(*) FROM ledger)="; D (count * 2);
        L " AND (SELECT coalesce(sum(delta),0) FROM ledger)=0";
        L " AND (SELECT sum(balance) FROM accounts)=3000000";
        L " AND NOT EXISTS(SELECT 1 FROM accounts WHERE balance<0)";
        L " AND NOT EXISTS(SELECT tx FROM ledger GROUP BY tx HAVING count(*)!=2)"].

(** [balances[i] += delta] *)
Definition credit (i : Z) (delta : Z) (balances : list Z) : list Z :=
  <[Z.to_nat i := default 0 (balances !! Z.to_nat i) + delta]> balances.

Definition move (identifier value : Z) (balances : list Z) : list Z :=
  let source := identifier mod 3 in
  credit ((source + 1) mod 3) value (credit source (- value) balances).

Definition opening : list Z := [1000000; 1000000; 1000000].

Definition balances_after (t : transfers) : list Z := foldl (fun b '(i, v) => move i v b) opening t.

(** [f'(id={i + 1} AND balance={balance})' ...] joined by OR *)
Definition balance_terms (balances : list Z) : list pystr :=
  (fun '(i, b) => fstr [L "(id="; D (Z.of_nat i + 1); L " AND balance="; D b; L ")"]) <$> enumerate balances.
Definition balances_query (balances : list Z) : pystr :=
  fstr [L "SELECT id FROM accounts WHERE "; T (join (py " OR ") (balance_terms balances))].

Definition expected_row (i amount : Z) : pystr :=
  fstr [L "("; D i; L ","; D (i mod 3 + 1); L ","; D ((i mod 3 + 1) mod 3 + 1); L ","; D amount; L ")"].

Definition exact_query (batch : transfers) : pystr :=
  fstr [L "WITH expected(id,src,dst,amount) AS (VALUES "; T (join (py ",") ((fun '(i, v) => expected_row i v) <$> batch)); L ") ";
        L "SELECT t.id FROM expected e JOIN transfers t ON t.id=e.id ";
        L "JOIN ledger l ON l.tx=e.id ";
        L "WHERE t.src=e.src AND t.dst=e.dst AND t.amount=e.amount ";
        L "AND t.payload='"; T payload256; L "' ";
        L "AND ((l.account=e.src AND l.delta=-e.amount) ";
        L "OR (l.account=e.dst AND l.delta=e.amount)) ";
        L "GROUP BY t.id HAVING count(*)=2 AND count(DISTINCT l.account)=2"].

(** The windows [list(transfers)[start:start + 32]]. *)
Fixpoint windows {A} (fuel n : nat) (l : list A) : list (list A) :=
  match fuel, l with
  | S f, _ :: _ => take n l :: windows f n (drop n l)
  | _, _ => []
  end.

Section Verify.
Context {W : Type} `{Probe W} `{!Methods W}.

(** [self.round(reads={n: query ...})] and the test of every response's rows *)
Definition read_all (nodes : list nat) (query : pystr) (wanted : Z) (e : exn) : P (W := W) unit :=
  let! responses := round [] false ((fun n => (n, query)) <$> nodes) [] in
  for_do responses (fun '(_, response) => if negb (rows response =? wanted) then throw e else ret tt).

Definition live_nodes (c : Cluster) : list nat :=
  omap (fun '(n, w) => match w with Some _ => Some n | None => None end) (enumerate (workers c)).

Definition verify (t : transfers) : P (W := W) unit :=
  do! settle [];;
  let! c := self in
  let! result := round [] false ((fun n => (n, count_query t)) <$> live_nodes c) [] in
  do! for_do result (fun '(_, response) =>
        if negb (rows response =? 1) then throw (RuntimeError "Account/transfer/ledger invariant failed on node {node}") else ret tt);;
  let nodes := fst <$> result in
  do! read_all nodes (balances_query (balances_after t)) 3 (RuntimeError "Exact per-account balance mismatch");;
  for_do (windows (length t) 32 t) (fun batch =>
    read_all nodes (exact_query batch) (zlen batch) (RuntimeError "Exact transfer or audit-pair verification failed")).

(** ** exercise *)

Definition setup_sql : pystr := py
  "CREATE TABLE accounts(id INTEGER PRIMARY KEY,balance INTEGER CHECK(balance>=0));INSERT INTO accounts VALUES(1,1000000),(2,1000000),(3,1000000);CREATE TABLE transfers(id INTEGER PRIMARY KEY,src REFERENCES accounts(id),dst REFERENCES accounts(id),amount INTEGER CHECK(amount>0),payload TEXT);CREATE TABLE ledger(tx REFERENCES transfers(id),account REFERENCES accounts(id),delta INTEGER);CREATE INDEX ledger_tx ON ledger(tx);CREATE TRIGGER audit AFTER INSERT ON transfers BEGIN INSERT INTO ledger VALUES(new.id,new.src,-new.amount);INSERT INTO ledger VALUES(new.id,new.dst,new.amount); END;".

(** [identifier = len(expected) + 1; expected[identifier] = amount] *)
Definition next_transfer (expected : transfers) : Request * transfers :=
  let identifier := zlen expected + 1 in
  let '(request, amount) := transaction identifier in
  (request, dset identifier amount expected).

Fixpoint next_transfers (n : nat) (requests : list Request) (expected : transfers) : list Request * transfers :=
  match n with
  | O => (requests, expected)
  | S n' => let '(request, expected) := next_transfer expected in next_transfers n' (requests ++ [request]) expected
  end.

(** The double [.7]. *)
Definition point7 : Q := 3152519739159347 # 4503599627370496.
Definition Qltb (x y : Q) : bool := negb (Qle_bool y x).

(** One wave's choices: reads counted, transfers generated. *)
Definition draw_wave (n : nat) (expected : transfers) : P (W := W) (Z * list Request * transfers) :=
  for_each (seq 0 n) (fun _ '(read_count, requests, expected) =>
    let! r := os p_random in
    if Qltb r point7 then ret (read_count + 1, requests, expected)
    else let '(request, expected) := next_transfer expected in ret (read_count, requests ++ [request], expected))
    (0, [], expected).

(** The balance of account 1 a read expects. *)
Definition first_balance (expected : transfers) : Z :=
  1000000 + zsum (omap (fun '(key, value) =>
    if (key mod 3 =? 0) || (key mod 3 =? 2)
    then Some (value * (if (key mod 3 + 1) mod 3 =? 0 then 1 else -1)) else None) expected).

Definition first_balance_query (balance : Z) : pystr := fstr [L "SELECT id FROM accounts WHERE id=1 AND balance="; D balance].

(** The transfers of a wave, measured and required to apply. *)
Definition write_wave (requests : list Request) (latencies : list Q) : P (W := W) (list Q) :=
  let! before := os p_monotonic in
  match requests with
  | [] => ret latencies
  | _ =>
      do! submit requests 0 all_nodes;;
      do! settle requests;;
      for_each requests (fun r latencies =>
        let! c := self in
        let! first := lift (dindex (r_client r, 1) (first_completion c)) in
        let! done := lift (dindex (r_client r, 1) (completed c)) in
        if negb (pyeqb (c_kind done) (py "Applied")) then throw (RuntimeError "Healthy transaction rejected")
        else ret (latencies ++ [1000 * (first - before)]%Q)) latencies
  end.

(** [range(0, read_count, 3)] *)
Definition offsets (count : Z) : list Z := (fun k => 3 * Z.of_nat k) <$> seq 0 (Z.to_nat ((count + 2) / 3)).

Definition read_wave (fenced : bool) (read_count : Z) (expected : transfers) : P (W := W) unit :=
  for_do (offsets read_count) (fun offset =>
    let query := fstr [L "SELECT balance FROM accounts WHERE id=1 AND balance="; D (first_balance expected)] in
    let queries := (fun n => (n, query)) <$> seq 0 (Z.to_nat (Z.min 3 (read_count - offset))) in
    if fenced then
      let! counts := fenced_reads queries in
      if existsb (fun '(_, rows) => negb (rows =? 1)) counts
      then throw (RuntimeError "Fenced read returned an unexpected account set") else ret tt
    else let! _ := round [] false queries [] in ret tt).

Record Load := mkLoad {
  l_expected : transfers; l_requests : list Request; l_latencies : list Q; l_reads : Z; l_writes : Z
}.

(** The timed closed loop over waves of at most twelve operations. *)
Definition healthy_load (operations : Z) (fenced : bool) : P (W := W) Load :=
  for_each (seq 0 (Z.to_nat ((operations + 11) / 12))) (fun k load =>
    let start := 12 * Z.of_nat k in
    let! wave := draw_wave (Z.to_nat (Z.min 12 (operations - start))) (l_expected load) in
    let '(read_count, requests, expected) := wave in
    let! latencies := write_wave requests (l_latencies load) in
    do! read_wave fenced read_count expected;;
    ret (mkLoad expected (l_requests load ++ requests) latencies (l_reads load + read_count) (l_writes load + zlen requests)))
    (mkLoad [] [] [] 0 0).
End Verify.

(** * tools/check_process_cluster.py: the fault phases and the sample

    [exercise] from its first verification on: each phase is one definition, run
    in the source's order, each adding the name of the check it passed. *)

(** [values[min(len(values) - 1, int(len(values) * p / 100))]]: the division is
    exact enough that truncating the double is the integer quotient. *)
Definition percentile (values : list Q) (p : Z) : option Q :=
  values !! Z.to_nat (Z.min (zlen values - 1) (zlen values * p / 100)).

Definition percentiles (values : list Q) : list (pystr * Q) :=
  let sorted := merge_sort Qle values in
  omap (fun p => (fun v => (fstr [L "p"; D p], v)) <$> percentile sorted p) [50; 95; 99].

Record Sample := mkSample {
  s_operations : Z; s_reads : Z; s_writes : Z; s_seconds : Q; s_operations_per_second : Q;
  s_voter_cpu_seconds : option Q; s_read_latency_ms : list (pystr * Q); s_write_latency_ms : list (pystr * Q);
  s_verified_transfers : Z; s_peak_rss : list (option Z); s_checks : list pystr
}.

Definition cpu_total (c : Cluster) : Q := foldr Qplus 0%Q (snd <$> cpu_by_pid c).

Section Phases.
Context {W : Type} `{Probe W} `{!Methods W}.
Abbreviation PW := (P (W := W)).

Definition restart_all : PW unit :=
  do! for_do all_nodes stop;;
  for_do all_nodes (fun node => start node false).

Fixpoint ticks (n : nat) : PW unit :=
  match n with O => ret tt | S n' => let! _ := round_tick true in ticks n' end.

Definition expect_reads (queries : list (nat * pystr)) (wanted : list (nat * Z)) (e : exn) : PW unit :=
  let! counts := fenced_reads queries in
  (** dict equality: the same keys with the same values *)
  if bool_decide (length counts = length wanted) && forallb (fun '(n, v) => bool_decide (dget n counts = Some v)) wanted
  then ret tt else throw e.

Definition account_ids : pystr := py "SELECT id FROM accounts".

(** All voters killed with the uncertain requests undelivered; another master
    retries them. *)
Definition crash_phase (expected : transfers) : PW transfers :=
  let '(uncertain, expected) := next_transfers 9 [] expected in
  do! submit uncertain 0 all_nodes;;
  do! restart_all;;
  do! update (set_queues [[]; []; []]);;
  do! submit uncertain 1 all_nodes;;
  do! settle uncertain;;
  do! verify expected;;
  ret expected.

(** Retried acknowledgements. *)
Definition retry_phase (all_requests : list Request) (expected : transfers) : PW unit :=
  let retries := take 6 all_requests in
  do! submit retries 2 all_nodes;;
  do! settle retries;;
  verify expected.

(** A partitioned minority neither acknowledges a write nor completes a read. *)
Definition minority_phase (expected : transfers) : PW (Request * Z * pyval) :=
  let identifier := zlen expected + 1 in
  let '(minority, amount) := transaction identifier in
  do! update (set_partition [(0, 1); (0, 2); (1, 0); (2, 0)]);;
  let! begun := round [] false [] [(0%nat, Begin_read)] in
  let! first := lift (dindex 0%nat begun) in
  let barrier := ticket first in
  do! submit [minority] 0 [0%nat];;
  do! ticks 16;;
  let! c := self in
  if dmem (r_client minority, 1) (completed c) then throw (RuntimeError "Minority acknowledged a write")
  else
    let! result := round [] false [] [(0%nat, Poll_read barrier account_ids)] in
    let! response := lift (dindex 0%nat result) in
    if negb (pyeqb (rr_status (read_result response)) (py "Pending"))
    then throw (RuntimeError "Minority completed a fenced read without quorum")
    else ret (minority, amount, barrier).

(** Healing: the same identity is reproposed and the old barrier resolves. *)
Definition await_barrier (barrier : pyval) : PW unit :=
  for_search 0 300 (fun attempt _ =>
    do! (if Nat.eqb (attempt mod 4) 3 then let! _ := round_tick true in ret tt else ret tt);;
    let! result := round [] false [] [(0%nat, Poll_read barrier account_ids)] in
    let! response := lift (dindex 0%nat result) in
    ret (if negb (pyeqb (rr_status (read_result response)) (py "Pending")) then inr tt else inl tt))
    tt (fun _ => throw (RuntimeError "Old read barrier did not resolve after partition healing")).

Definition heal_phase (minority : Request) (amount : Z) (barrier : pyval) (expected : transfers) : PW transfers :=
  do! update (set_partition []);;
  do! submit [minority] 0 [1%nat];;
  do! settle [minority];;
  let expected := dset (zlen expected + 1) amount expected in
  do! verify expected;;
  do! await_barrier barrier;;
  do! expect_reads [(0%nat, account_ids)] [(0%nat, 3)] (AssertionError "");;
  ret expected.

(** A stopped voter; the quorum keeps writing; the stale replica catches up. *)
Definition offline_phase (expected : transfers) : PW transfers :=
  do! stop 0;;
  let '(more, expected) := next_transfers 12 [] expected in
  do! submit more 0 [1; 2]%nat;;
  do! settle more;;
  do! start 0 false;;
  let query := fstr [L "SELECT 1 WHERE (SELECT count(*) FROM transfers)="; D (zlen expected)] in
  do! expect_reads [(0%nat, query)] [(0%nat, 1)] (RuntimeError "Restarted replica served a stale fenced read");;
  ret expected.

Definition catchup_phase (expected : transfers) : PW unit :=
  do! ticks 40;;
  do! settle [];;
  verify expected.

Definition final_phase (expected : transfers) : PW unit :=
  do! restart_all;;
  do! ticks 12;;
  verify expected.

Definition fault_phases (load : Load) : PW (transfers * list pystr) :=
  do! verify (l_expected load);;
  let cases := [py "mixed_transactions_indexes_triggers_foreign_keys_all_voters"] in
  do! expect_reads ((fun n => (n, account_ids)) <$> all_nodes) [(0%nat, 3); (1%nat, 3); (2%nat, 3)] (AssertionError "");;
  let cases := cases ++ [py "fresh_ordered_read_barrier_on_every_voter"] in
  let! expected := crash_phase (l_expected load) in
  let cases := cases ++ [py "all_processes_sigkill_uncertain_retry_other_master"] in
  do! retry_phase (l_requests load) expected;;
  let cases := cases ++ [py "acknowledged_retry_other_master_after_restart"] in
  let! minority := minority_phase expected in
  let '(request, amount, barrier) := minority in
  let cases := cases ++ [py "minority_cannot_complete_fenced_read"] in
  let! expected := heal_phase request amount barrier expected in
  let cases := cases ++ [py "minority_no_ack_heal_retry"] in
  let! expected := offline_phase expected in
  let cases := cases ++ [py "restarted_stale_voter_fenced_read_observes_acknowledged_writes"] in
  do! catchup_phase expected;;
  let cases := cases ++ [py "surviving_quorum_writes_offline_voter_catchup"] in
  do! final_phase expected;;
  ret (expected, cases ++ [py "all_acknowledged_transactions_survive_final_sigkill"]).

Definition exercise (operations seed : Z) (fenced : bool) : PW Sample :=
  let setup := mkRequest 1 1 setup_sql in
  do! submit [setup] 0 all_nodes;;
  do! settle [setup];;
  do! os_do (p_seed seed);;
  let! c := self in
  let cpu_before := cpu_total c in
  let read_sample_start := length (read_latency_samples c) in
  let! started := os p_monotonic in
  let! load := healthy_load operations fenced in
  let! finished := os p_monotonic in
  let seconds := (finished - started)%Q in
  let! c := self in
  let cpu := (cpu_total c - cpu_before)%Q in
  let read_latencies := drop read_sample_start (read_latency_samples c) in
  let! outcome := fault_phases load in
  let '(expected, cases) := outcome in
  let! c := self in
  if Qeq_bool seconds 0 then throw (ZeroDivisionError "float division by zero")
  else ret (mkSample operations (l_reads load) (l_writes load) seconds (inject_Z operations / seconds)%Q
    (match cpu_by_pid c with [] => None | _ => Some cpu end)
    (percentiles read_latencies) (percentiles (l_latencies load))
    (zlen expected) (peak_rss c) cases).
End Phases.
