(* ===== verification/Supervisor.v ===== *)
(** * tools/qualification_worker.py: the host supervisor

    One supervisor per host relays framed commands to its voter, adds the
    voter's resource usage to every response and enforces the host's budgets;
    [audit] checks a stopped voter's database against the prescribed workload.
    [Supervised] is what it uses of its host: two framed streams (its own
    standard streams and the voter's), the voter process, and SQLite. *)

From Stdlib Require Import QArith.
From Corelib Require Import Floats.SpecFloat.
From S2P Require Import Prelude PyStr PyFloat Objects Json Bytes Vector Text Net Transport Dict Worker Host ProcessCluster Workload.
#[local] Open Scope Z_scope.

Class Supervised (W : Type) := {
  s_host :: Host W;
  (** standard input and output; the voter's output and input *)
  s_up : Pipes W;
  s_down : Pipes W;
  s_send_up : list Z -> W -> pyres unit * W;
  s_send_down : list Z -> W -> pyres unit * W;
  (** the voter's process *)
  s_spawn : list pystr -> W -> pyres Z * W;
  s_poll : Z -> W -> option Z * W;
  s_kill : Z -> W -> W;
  s_wait : Z -> Z -> W -> pyres Z * W;
  (** [shutil.disk_usage(root).free], the sizes of the files matching a pattern *)
  s_free : pystr -> W -> Z;
  s_sizes : pystr -> pystr -> W -> list Z;
  s_clock_ticks : Z;
  (** [shlex.split] *)
  s_shlex : pystr -> pyres (list pystr);
  (** [sqlite3.connect(path, mode=ro)]: the rows of a query, and [sqlite_version] *)
  s_query : pystr -> pystr -> W -> pyres (list (list pyval)) * W;
  s_sqlite_version : pystr;
  (** [os.uname()]'s node name and release, [os.sched_getaffinity(0)] *)
  s_uname : W -> pystr * pystr;
  s_affinity : W -> list Z
}.

(** [a / b] on integers a double holds exactly. *)
Definition true_division (a b : Z) : pyres pyval :=
  if b =? 0 then Raise (ZeroDivisionError "division by zero")
  else match float_of_int a, float_of_int b with
       | Some x, Some y => Ok (PFloat (SFdiv prec64 emax64 x y))
       | _, _ => Raise (OverflowError "integer division result too large for a float")
       end.

(** One line of [/proc/<pid>/status]. *)
Definition status_field (line : pystr) : pyres (option (pystr * pyval)) :=
  if starts_any [py "VmRSS:"; py "VmHWM:"] line
  then match words line with
       | [key; value; _] => let? n := int_of_text value in Ok (Some (rstrip_char 58 key, PInt (n * 1024)))
       | _ => Raise (ValueError "not enough values to unpack")
       end
  else Ok None.

Fixpoint status_fields (lines : list pystr) (result : dict) : pyres dict :=
  match lines with
  | [] => Ok result
  | line :: rest =>
      let? found := status_field line in
      status_fields rest (match found with Some (k, v) => dict_set k v result | None => result end)
  end.

Section Supervisor.
Context {W : Type} `{Supervised W}.
Abbreviation S := (Hm (W := W)).

(** [usage] *)
Definition usage (root : pystr) (child : option Z) : S dict :=
  let! free := gets (s_free root) in
  let! sizes := gets (s_sizes root (py "*/node.db*")) in
  let result := mkdict [("free_bytes", PInt free); ("data_bytes", PInt (zsum sizes))] in
  match child with
  | None => ret result
  | Some pid =>
      let! stat := io_res (h_read_text (fstr [L "/proc/"; D pid; L "/stat"])) in
      let! rest := lift (after_last 41 stat) in
      let fields := words rest in
      let! user := lift (list_index fields 11) in
      let! u := lift (int_of_text user) in
      let! system := lift (list_index fields 12) in
      let! s := lift (int_of_text system) in
      let! seconds := lift (true_division (u + s) s_clock_ticks) in
      let result := dict_set (py "cpu_seconds") seconds (dict_set (py "pid") (PInt pid) result) in
      let! status := io_res (h_read_text (fstr [L "/proc/"; D pid; L "/status"])) in
      lift (status_fields (splitlines status) result)
  end.

(** ** audit *)

(** The digest of a query's rows, streamed as JSON lines, and their number. *)
Fixpoint json_lines (rows : list (list pyval)) : pyres (list Z) :=
  match rows with
  | [] => Ok []
  | row :: rest =>
      let? text := dumps compact (PList row) in
      let? more := json_lines rest in
      match utf8_encode text with Some b => Ok (b ++ [10] ++ more) | None => Raise (ValueError "surrogates not allowed") end
  end.

Definition audit_queries : list (string * string) :=
  [("accounts", "SELECT * FROM accounts ORDER BY id");
   ("transfers", "SELECT * FROM transfers ORDER BY id");
   ("ledger", "SELECT * FROM ledger ORDER BY tx,account");
   ("sessions", "SELECT hex(session),seq,hex(hash),kind,code,changes,slot FROM _sqlodin_sessions ORDER BY session");
   ("state", "SELECT * FROM _sqlodin_state ORDER BY id")]%string.

(** One row of the transfers: it must be the one its identifier prescribes. *)
Definition audit_row (expected_id : Z) (row : list pyval) (balances : list Z) : pyres (list Z) :=
  match row with
  | [identifier; source; target; amount; payload] =>
      let s := expected_id mod 3 + 1 in
      let t := s mod 3 + 1 in
      let a := expected_id mod 17 + 1 in
      if negb (eq_int identifier expected_id) || negb (eq_int source s) || negb (eq_int target t)
         || negb (eq_int amount a) || negb (eq_str payload payload256)
      then Raise (RuntimeError "Unexpected transfer {identifier}")
      else
        let? i := vint source in
        let? j := vint target in
        Ok (credit (j - 1) a (credit (i - 1) (- a) balances))
  | _ => Raise (ValueError "wrong number of values to unpack")
  end.

Fixpoint audit_rows (expected_id : Z) (rows : list (list pyval)) (balances : list Z) : pyres (list Z) :=
  match rows with
  | [] => Ok balances
  | row :: rest => let? balances := audit_row expected_id row balances in audit_rows (expected_id + 1) rest balances
  end.

(** [actual != list(enumerate(balances, 1))] *)
Fixpoint same_accounts (i : Z) (actual : list (list pyval)) (balances : list Z) : bool :=
  match actual, balances with
  | [], [] => true
  | [id; b] :: actual, v :: balances => eq_int id i && eq_int b v && same_accounts (i + 1) actual balances
  | _, _ => false
  end.

(** [connection.execute(...).fetchone()[0]] *)
Definition first_cell (rows : list (list pyval)) : pyres pyval :=
  match rows with
  | [] => Raise (TypeError "'NoneType' object is not subscriptable")
  | row :: _ => list_index row 0
  end.

Definition invalid_query : pystr := py
  "SELECT count(*) FROM ledger l JOIN transfers t ON t.id=l.tx WHERE NOT ((l.account=t.src AND l.delta=-t.amount) OR (l.account=t.dst AND l.delta=t.amount))".
Definition pairs_query : pystr := py
  "SELECT count(*) FROM (SELECT tx FROM ledger GROUP BY tx HAVING count(*)!=2 OR count(DISTINCT account)!=2)".

Record Audit := mkAudit { logical_sha256 : list (pystr * pystr); counts : list (pystr * Z); audit_resources : dict }.

Definition digest_tables (path : pystr) : S (list (pystr * pystr) * list (pystr * Z)) :=
  for_each audit_queries (fun '(name, query) '(hashes, counts) =>
    let! rows := io_res (s_query path (py query)) in
    let! data := lift (json_lines rows) in
    ret (hashes ++ [(py name, h_sha256 data)], counts ++ [(py name, zlen rows)])) ([], []).

Definition audit (root phase : pystr) : S Audit :=
  let path := join_path (join_path root phase) (py "node.db") in
  let! integrity := io_res (s_query path (py "PRAGMA integrity_check")) in
  let! integrity := lift (try_map (fun row => list_index row 0) integrity) in
  let! tables := digest_tables path in
  let '(hashes, counts) := tables in
  let! rows := io_res (s_query path (py "SELECT id,src,dst,amount,payload FROM transfers ORDER BY id")) in
  let! balances := lift (audit_rows 1 rows opening) in
  let! actual := io_res (s_query path (py "SELECT id,balance FROM accounts ORDER BY id")) in
  if negb (same_accounts 1 actual balances) then throw (RuntimeError "Final exact balances differ")
  else
    let! invalid := io_res (s_query path invalid_query) in
    let! invalid := lift (first_cell invalid) in
    let! bad_pairs := io_res (s_query path pairs_query) in
    let! bad_pairs := lift (first_cell bad_pairs) in
    let! foreign_keys := io_res (s_query path (py "PRAGMA foreign_key_check")) in
    let! ledger := lift (dindex (py "ledger") counts) in
    let! transfers := lift (dindex (py "transfers") counts) in
    if negb (match integrity with [x] => eq_str x (py "ok") | _ => false end) || negb (bool_decide (foreign_keys = []))
       || truthy invalid || truthy bad_pairs || negb (ledger =? 2 * transfers)
    then throw (RuntimeError "Offline integrity/audit-pair check failed")
    else let! resources := usage root None in ret (mkAudit hashes counts resources).

(** ** supervise *)

Record HostConfig := mkHostConfig { host_node : Z; min_free_bytes : Z; max_data_bytes : Z; max_rss_bytes : Z }.

Definition send_up (payload : list Z) : S unit := send_frame s_send_up payload.
Definition send_down (payload : list Z) : S unit := send_frame s_send_down payload.

Definition over_budget (config : HostConfig) (resources : dict) : pyres unit :=
  let? free := getitem "free_bytes" resources in
  let? free := vint free in
  do? guard (free <? min_free_bytes config) (RuntimeError "Free-space safety floor reached");;
  let? data := getitem "data_bytes" resources in
  let? data := vint data in
  do? guard (max_data_bytes config <? data) (RuntimeError "Configured per-host data budget reached");;
  let? rss := vint (get_or (py "VmRSS") (PInt 0) resources) in
  guard (max_rss_bytes config <? rss) (RuntimeError "Configured voter RSS budget reached").

(** [command.pop('_supervisor', None)] *)
Definition pop_supervisor (command : pyval) : pyres (pyval * pyval) :=
  match command with
  | PDict d => Ok (get_or (py "_supervisor") PNone d, PDict (filter (fun kv => kv.1 <> py "_supervisor") d))
  | _ => Raise (AttributeError "pop")
  end.

(** One iteration: [true] when the supervisor returns. *)
Definition relay (root : pystr) (config : HostConfig) (child : Z) : S bool :=
  let! now := io h_monotonic in
  let! frame := read_frame (H := s_up) (now + 90) in
  let! command := lift (json_loads frame) in
  let! popped := lift (pop_supervisor command) in
  let '(verb, command) := popped in
  if eq_str verb (py "kill") then
    do! io_do (s_kill child);;
    let! code := io_res (s_wait child 15) in
    let! reply := lift (dumps spaced (PDict (mkdict [("stopped", PBool true); ("returncode", PInt code)]))) in
    do! send_up reply;;  (** ASCII text is its own encoding *)
    ret true
  else
    let! payload := lift (payload_of command) in
    do! send_down payload;;
    let! now := io h_monotonic in
    let! frame := read_frame (H := s_down) (now + 300) in
    let! response := lift (json_loads frame) in
    let! resources := usage root (Some child) in
    match response with
    | PDict d =>
        do! lift (over_budget config resources);;
        let! payload := lift (payload_of (PDict (dict_set (py "_resources") (PDict resources) d))) in
        do! send_up payload;;
        ret false
    | _ => throw (TypeError "'_resources' assignment")
    end.

(** The [finally] clause: the voter never outlives the supervisor. *)
Definition reap (child : Z) : S unit :=
  let! code := io (s_poll child) in
  do! match code with None => io_do (s_kill child) | Some _ => ret tt end;;
  let! _ := io_res (s_wait child 15) in
  ret tt.

(** The guarded loop. *)
Definition serve (fuel : nat) (root : pystr) (config : HostConfig) (child : Z) : S unit :=
  try_finally
    (while_loop fuel (fun _ => let! stopped := relay root config child in
                               ret (if (stopped : bool) then inr tt else inl tt)) tt)
    (reap child).

Definition supervise (fuel : nat) (root : pystr) (config : HostConfig) (phase mode : pystr) : S unit :=
  let directory := join_path root phase in
  do! (if pyeqb mode (py "create") then io_res (h_mkdir directory)
       else
         let! present := io (h_is_file (join_path directory (py "node.db"))) in
         if (present : bool) then ret tt else throw (RuntimeError "Refusing to replace a missing voter"));;
  let! child := io_res (s_spawn [join_path root (py "worker"); directory; dec (host_node config); mode]) in
  do! io_res (h_write_text (join_path directory (py "worker.pid")) (dec child ++ [10]));;
  serve fuel root config child.

(** ** inspect *)

Definition identity_files : list string :=
  ["/etc/os-release"; "/etc/machine-id"; "/proc/sys/kernel/random/boot_id";
   "/sys/fs/cgroup/memory.max"; "/sys/fs/cgroup/cpu.max"]%string.

Definition inspect (root : pystr) : S report :=
  let! files := for_each identity_files (fun name files =>
    let! present := io (h_exists (py name)) in
    if (present : bool) then
      let! text := io_res (h_read_text (py name)) in ret (dict_set (py name) (PStr (strip text)) files)
    else ret (dict_set (py name) PNone files)) [] in
  let! uname := gets s_uname in
  let! affinity := gets s_affinity in
  let! resources := usage root None in
  let! binary := file_sha256 (join_path root (py "worker")) in
  let! mount := check_output [py "findmnt"; py "--json"; py "-T"; root; py "-o"; py "TARGET,FSTYPE,SOURCE,OPTIONS"] [] None in
  let! filesystem := lift (loads mount) in
  let! virtualization := io_res (h_run [py "systemd-detect-virt"] [] None) in
  let! epoch := io h_time in
  ret (fields [("hostname", tstr uname.1); ("kernel", tstr uname.2); ("identity", J (PDict files));
               ("cpu_affinity", Arr (tint <$> affinity)); ("resources", J (PDict resources));
               ("binary_sha256", tstr binary); ("filesystem", J filesystem);
               ("virtualization", tstr (strip (stdout virtualization))); ("clock_epoch", Num epoch)]).

(** ** main *)

Inductive verb := Inspect | AuditPhase (phase : pystr) | StartPhase (phase mode : pystr).

Definition phases : list pystr := py <$> ["smoke"; "pilot"; "soak"]%string.

Definition parse_args (args : list pystr) : pyres verb :=
  let bad := Raise (SystemExit (py "Only inspect, audit PHASE, or start PHASE create|open is allowed")) in
  match args with
  | [a] => if pyeqb a (py "inspect") then Ok Inspect else bad
  | [a; phase] => if pyeqb a (py "audit") && str_in phase phases then Ok (AuditPhase phase) else bad
  | [a; phase; mode] =>
      if pyeqb a (py "start") && str_in phase phases && str_in mode [py "create"; py "open"]
      then Ok (StartPhase phase mode) else bad
  | _ => bad
  end.

(** The arguments, from the command line or from the SSH forced command. *)
Definition arguments (argv : list pystr) : S (list pystr) :=
  if bool_decide (length argv = 2%nat) then
    let! original := gets (h_getenv (py "SSH_ORIGINAL_COMMAND")) in
    lift (s_shlex (default [] original))
  else ret (drop 2 argv).

Definition host_config (v : pyval) : pyres HostConfig :=
  let? node := vget "node" v in let? node := vint node in
  let? free := vget "min_free_bytes" v in let? free := vint free in
  let? data := vget "max_data_bytes" v in let? data := vint data in
  let? rss := vget "max_rss_bytes" v in let? rss := vint rss in
  Ok (mkHostConfig node free data rss).

Inductive outcome := Inspected (r : report) | Audited (a : Audit) | Supervised_done.

Definition supervisor_main (fuel : nat) (argv : list pystr) : S outcome :=
  let! root := lift (list_index argv 1) in
  let! value := read_json (join_path root (py "host.json")) in
  let! expires := lift (vget "expires_epoch" value) in
  let! expires := lift (vnum expires) in
  let! now := io h_time in
  if trunc_q (expires - now) <=? 0 then throw (SystemExit (py "This qualification supervisor has expired"))
  else
    let! args := arguments argv in
    let! verb := lift (parse_args args) in
    match verb with
    | Inspect => let! r := inspect root in ret (Inspected r)
    | AuditPhase phase => let! a := audit root phase in ret (Audited a)
    | StartPhase phase mode =>
        let! config := lift (host_config value) in
        do! supervise fuel root config phase mode;;
        ret Supervised_done
    end.
End Supervisor.
