(* ===== verification/ClusterProofs.v ===== *)
(** * The controller's invariant

    Whatever the voters answer, and however the operating system fails, an
    operation of the controller ends, keeps the shape of its tables and the
    bound of its queues, and never loses or changes a recorded outcome. *)

From Stdlib Require Import QArith.
From S2P Require Import Prelude PyStr PyFloat Objects Text Net Dict Host ProcessCluster Workload.
#[local] Open Scope Z_scope.

(** Voters and processes answer: a call returns or raises. *)
Class ProbeLaws (W : Type) `{Probe W} := {
  spawn_ends argv (w : W) : (p_spawn argv w).1 <> OutOfFuel;
  rpc_ends pid command (w : W) : (p_rpc pid command w).1 <> OutOfFuel;
  wait_ends pid t (w : W) : (p_wait pid t w).1 <> OutOfFuel
}.

Definition outcome_of (k : request_key) (c : Cluster) : option Completion := dget k (completed c).

Record CInv (c : Cluster) : Prop := {
  ci_workers : length (workers c) = 3%nat;
  ci_queues : length (queues c) = 3%nat;
  ci_peak : length (peak_rss c) = 3%nat;
  ci_remote : length (actual_peak (remote c)) = 3%nat;
  ci_bound : Forall (fun q => zlen q <= 4096) (queues c);
  ci_keys : forall k v, outcome_of k c = Some v -> k = (c_client v, c_sequence v);
  ci_counts : forall k, 0 <= count_of k c;
  ci_counted : forall k, 0 < count_of k c <-> exists v, outcome_of k c = Some v;
  ci_first : forall k, (exists v, outcome_of k c = Some v) -> exists t, dget k (first_completion c) = Some t
}.

(** Outcomes are never lost nor changed, completions are only added, and the
    moment of a first completion stays. *)
Definition claim_of (c : Cluster) : option tv * option tv :=
  (rget "complete" (evidence (remote c)), rget "offline_audits" (evidence (remote c))).

Record extends (c c' : Cluster) : Prop := {
  ex_evidence : evidence (remote c') = evidence (remote c);
  ex_outcome : forall k v, outcome_of k c = Some v -> outcome_of k c' = Some v;
  ex_count : forall k, count_of k c <= count_of k c';
  ex_first : forall k t, dget k (first_completion c) = Some t -> dget k (first_completion c') = Some t
}.

Lemma ex_claim c c' : extends c c' -> claim_of c' = claim_of c.
Proof. intros [He _ _ _]. unfold claim_of. by rewrite He. Qed.

#[export] Instance extends_preorder : PreOrder extends.
Proof.
  split; [intros c; split; done|]. intros a b c [H0 H1 H2 H3] [K0 K1 K2 K3]. split; [congruence|auto| |auto].
  intros k. specialize (H2 k). specialize (K2 k). lia.
Qed.

(** An extension that awaits nothing new. *)
Definition calm (c c' : Cluster) : Prop := extends c c' /\ awaited_counts c' = awaited_counts c.

#[export] Instance calm_preorder : PreOrder calm.
Proof. split; [by intros c|]. intros a b c [H1 H2] [K1 K2]. split; [by etrans|congruence]. Qed.

(** A calm change that also leaves the queues, the voters and the partition alone. *)
Definition still (c c' : Cluster) : Prop :=
  calm c c' /\ queues c' = queues c /\ workers c' = workers c /\ partition c' = partition c.

#[export] Instance still_preorder : PreOrder still.
Proof.
  split; [by intros c|]. intros a b c (H1 & H2 & H3 & H4) (K1 & K2 & K3 & K4). split; [by etrans|].
  split_and!; congruence.
Qed.

(** What the report claims stays: all a soak guarantees of the state, since it
    forgets completed requests between its waves. *)
Definition soaking (c c' : Cluster) : Prop := claim_of c' = claim_of c.
#[export] Instance soaking_preorder : PreOrder soaking.
Proof. split; [by intros c|]. unfold soaking. intros a b c. congruence. Qed.

(** The frames the controller's code is checked against.  Only a soak's loop,
    which runs until a deadline, may exhaust its fuel. *)
Inductive frame := Still | Calm | Grow | Soaking.
Definition within (f : frame) : Cluster -> Cluster -> Prop :=
  match f with Still => still | Calm => calm | Grow => extends | Soaking => soaking end.
Definition ends {A} (f : frame) (r : pyres A) : Prop := match f with Soaking => True | _ => r <> OutOfFuel end.

Lemma ends_Ok {A} f (a : A) : ends f (Ok a).
Proof. by destruct f. Qed.
Lemma ends_Raise {A} f e : ends f (Raise e : pyres A).
Proof. by destruct f. Qed.
Lemma ends_of {A} f (r : pyres A) : r <> OutOfFuel -> ends f r.
Proof. by destruct f. Qed.
Lemma ends_cast {A B} f : ends f (OutOfFuel : pyres A) -> ends f (OutOfFuel : pyres B).
Proof. by destruct f. Qed.
#[export] Hint Resolve ends_Ok ends_Raise ends_of ends_cast : core.
#[export] Instance within_preorder f : PreOrder (within f).
Proof. destruct f; apply _. Qed.

Ltac framed := split; [by eauto|split; [by eauto|first [done | reflexivity]]].

Section Keeps.
Context {W : Type} `{ProbeLaws W} (F : frame).

(** The code ends, keeps the invariant, and its effect on the controller is within [F]. *)
Definition keeps {A} (m : P (W := W) A) : Prop :=
  forall s, CInv s.1 -> wp m (fun r s' => ends F r /\ CInv s'.1 /\ within F s.1 s'.1) s.

Lemma keeps_bind {A B} (m : P A) (f : A -> P B) : keeps m -> (forall a, keeps (f a)) -> keeps (bind m f).
Proof.
  intros Hm Hf s Hs. apply wp_bind. eapply wp_mono; [by apply Hm|].
  intros [a|e|] s' (Hr & Hi & He); [|by framed..].
  eapply wp_mono; [by apply Hf|]. intros r s'' (Hr' & Hi' & He'). split_and!; [done..|by etrans].
Qed.

Lemma keeps_ret {A} (a : A) : keeps (ret a).
Proof. intros s Hs. apply wp_ret. framed. Qed.
Lemma keeps_throw {A} e : keeps (throw e : P A).
Proof. intros s Hs. apply wp_throw. framed. Qed.
Lemma keeps_self : keeps self.
Proof. intros s Hs. apply wp_gets. framed. Qed.
Lemma keeps_gets {A} (f : Cluster * W -> A) : keeps (gets f).
Proof. intros s Hs. apply wp_gets. framed. Qed.
Lemma keeps_lift {A} (r : pyres A) : r <> OutOfFuel -> keeps (lift r).
Proof. intros Hr s Hs. apply wp_lift. framed. Qed.
Lemma keeps_os {A} (f : W -> A * W) : keeps (os f).
Proof. intros s Hs. unfold wp, os. destruct (f s.2). framed. Qed.
Lemma keeps_os_do f : keeps (os_do f).
Proof. intros s Hs. apply wp_modify. framed. Qed.
Lemma keeps_os_res {A} (f : W -> pyres A * W) : (forall w, (f w).1 <> OutOfFuel) -> keeps (os_res f).
Proof. intros Hf s Hs. unfold wp, os_res. specialize (Hf s.2). destruct (f s.2). framed. Qed.
Lemma keeps_if {A} (b : bool) (m n : P A) : keeps m -> keeps n -> keeps (if b then m else n).
Proof. by destruct b. Qed.
Lemma keeps_update f : (forall c, CInv c -> CInv (f c) /\ within F c (f c)) -> keeps (update f).
Proof. intros Hf s Hs. apply wp_modify. split; [auto|by apply Hf]. Qed.

Lemma keeps_try_except {A} (m : P A) h :
  keeps m -> (forall e k, h e = Some k -> keeps k) -> keeps (try_except m h).
Proof.
  intros Hm Hh s Hs. apply wp_try_except. eapply wp_mono; [by apply Hm|].
  intros [a|e|] s' (Hr & Hi & He); [by framed| |by framed]. destruct (h e) as [k|] eqn:Hk; [|by framed].
  eapply wp_mono; [by eapply Hh|]. intros r s'' (? & ? & ?). split_and!; [done..|by etrans].
Qed.

Lemma keeps_for_each {A B} (l : list A) (body : A -> B -> P B) acc :
  (forall x acc, keeps (body x acc)) -> keeps (for_each l body acc).
Proof. intros Hb. revert acc. induction l as [|x l IH]; intros acc; [apply keeps_ret|by apply keeps_bind]. Qed.

Lemma keeps_for_do {A} (l : list A) (body : A -> P unit) : (forall x, keeps (body x)) -> keeps (for_do l body).
Proof. intros Hb. induction l as [|x l IH]; [apply keeps_ret|by apply keeps_bind]. Qed.

Lemma keeps_for_search {A B} a n (body : nat -> A -> P (A + B)) acc other :
  (forall k acc, keeps (body k acc)) -> (forall acc, keeps (other acc)) -> keeps (for_search a n body acc other).
Proof.
  intros Hb Ho. revert a acc. induction n as [|n IH]; intros a acc; [apply Ho|].
  apply keeps_bind; [apply Hb|]. intros [x|b]; [apply IH|apply keeps_ret].
Qed.

End Keeps.

Lemma keeps_weak {W} `{ProbeLaws W} {A} (m : P (W := W) A) : keeps Calm m -> keeps Grow m.
Proof. intros Hm s Hs. eapply wp_mono; [by apply Hm|]. intros r s' (? & ? & [? _]). by split_and!. Qed.

Lemma keeps_still {W} `{ProbeLaws W} {A} F (m : P (W := W) A) : keeps Still m -> keeps F m.
Proof.
  intros Hm s Hs. eapply wp_mono; [by apply Hm|]. intros r s' (? & ? & Hs').
  split_and!; [by apply ends_of|done|]. destruct F; [exact Hs'|apply Hs'|apply Hs'|]. apply (ex_claim _ _ (proj1 (proj1 Hs'))).
Qed.

Lemma keeps_soaking {W} {A} (m : P (W := W) A) : keeps Grow m -> keeps Soaking m.
Proof. intros Hm s Hs. eapply wp_mono; [by apply Hm|]. intros r s' (? & ? & Hx). split; [exact I|]. split; [done|exact (ex_claim _ _ Hx)]. Qed.

Section Updates.
Context {W : Type} `{ProbeLaws W}.

(** Updates that leave the completion tables alone. *)
Definition same_tables (c c' : Cluster) : Prop :=
  completed c' = completed c /\ first_completion c' = first_completion c /\ completion_counts c' = completion_counts c /\
  awaited_counts c' = awaited_counts c /\ remote c' = remote c.

Lemma same_tables_calm c c' : same_tables c c' -> calm c c'.
Proof. intros (H1 & H2 & H3 & H4 & H5). split; [|done]. split; [by rewrite H5|..]; unfold outcome_of, count_of; intros; rewrite ?H1, ?H2, ?H3 in *; done || lia. Qed.

Lemma same_tables_inv c c' :
  same_tables c c' -> CInv c -> length (workers c') = 3%nat -> length (queues c') = 3%nat -> length (peak_rss c') = 3%nat ->
  Forall (fun q => zlen q <= 4096) (queues c') -> CInv c'.
Proof.
  intros (H1 & H2 & H3 & _ & H5) Hc Hw Hq Hp Hb.
  split; try done; unfold outcome_of, count_of; rewrite ?H1, ?H2, ?H3, ?H5; apply Hc.
Qed.

Lemma keeps_same f :
  (forall c, CInv c -> same_tables c (f c) /\ length (workers (f c)) = 3%nat /\ length (queues (f c)) = 3%nat /\
             length (peak_rss (f c)) = 3%nat /\ Forall (fun q => zlen q <= 4096) (queues (f c))) ->
  keeps (W := W) Calm (update f).
Proof.
  intros Hf. apply keeps_update. intros c Hc. destruct (Hf c Hc) as (Hs & ? & ? & ? & ?).
  split; [by eapply same_tables_inv|by apply same_tables_calm].
Qed.

Lemma keeps_rest f :
  (forall c, same_tables c (f c) /\ workers (f c) = workers c /\ queues (f c) = queues c /\
             length (peak_rss (f c)) = length (peak_rss c) /\ partition (f c) = partition c) ->
  keeps (W := W) Still (update f).
Proof.
  intros Hf. apply keeps_update. intros c Hc. destruct (Hf c) as (Hs & Hw & Hq & Hp & Ht).
  split; [|split; [by apply same_tables_calm|done]].
  apply (same_tables_inv c); rewrite ?Hw, ?Hq, ?Hp; try apply Hc; done.
Qed.

Lemma forall_insert {A} (R : A -> Prop) l i x : Forall R l -> R x -> Forall R (<[i := x]> l).
Proof. intros Hl Hx. by apply Forall_insert. Qed.

Lemma queue_bound c i : CInv c -> zlen (default [] (queues c !! i)) <= 4096.
Proof.
  intros Hc. destruct (queues c !! i) as [q|] eqn:E; [|simpl; rewrite zlen_nil; lia].
  pose proof (ci_bound c Hc) as Hb. rewrite Forall_lookup in Hb. by apply (Hb i).
Qed.

(** Replacing one queue by a bounded one, and the workers of one node. *)
Lemma keeps_queue i (f : Cluster -> list Packet) :
  (forall c, CInv c -> zlen (f c) <= 4096) -> keeps (W := W) Calm (update (fun c => set_queues (<[i := f c]> (queues c)) c)).
Proof.
  intros Hf. apply keeps_same. intros c Hc. split; [done|]. cbn. rewrite length_insert.
  split_and!; try apply Hc. apply forall_insert; [apply Hc|by apply Hf].
Qed.
End Updates.

Create HintDb keeps discriminated.
#[export] Hint Resolve keeps_ret keeps_throw keeps_self keeps_gets keeps_os keeps_os_do : keeps.

(** Walks through a program, closing the leaves by the [keeps] database. *)
Ltac keeps_step :=
  lazymatch goal with
  | |- keeps _ (bind _ _) => apply keeps_bind; [|intros ?]
  | |- keeps _ (try_except _ _) => apply keeps_try_except; [|intros ? ? ?]
  | |- keeps _ (for_each _ _ _) => apply keeps_for_each; intros ? ?
  | |- keeps _ (for_do _ _) => apply keeps_for_do; intros ?
  | |- keeps _ (for_search _ _ _ _ _) => apply keeps_for_search; [intros ? ?|intros ?]
  | |- keeps _ (match ?x with _ => _ end) => destruct x
  | |- keeps _ ((match ?x with _ => _ end) _) => destruct x
  | |- keeps _ _ => solve [eauto 3 with keeps | apply keeps_still; eauto 3 with keeps | apply keeps_weak; eauto 3 with keeps
      | apply keeps_soaking; eauto 3 with keeps | apply keeps_soaking, keeps_weak; eauto 3 with keeps]
  end.
Ltac keeps_auto := repeat keeps_step.

(** What the base class relies on in the methods a subclass may override. *)
Class MethodLaws (W : Type) `{ProbeLaws W} `{!Methods W} := {
  close_calm : keeps (W := W) Calm m_close;
  stop_still node pid : keeps (W := W) Still (m_worker_stop node pid);
  sample_still pid : keeps (W := W) Still (m_sample_cpu pid);
  round_end_still results : keeps (W := W) Still (m_round_end results)
}.
#[export] Hint Extern 1 (keeps _ (m_worker_stop _ _)) => apply keeps_still, stop_still : keeps.
#[export] Hint Extern 1 (keeps _ m_close) => (apply close_calm || apply keeps_weak, close_calm) : keeps.
#[export] Hint Extern 1 (keeps _ (m_sample_cpu _)) => apply keeps_still, sample_still : keeps.
#[export] Hint Extern 1 (keeps _ (m_round_end _)) => apply keeps_still, round_end_still : keeps.

Section Local.
Context {W : Type} `{ProbeLaws W}.

Lemma keeps_wait F pid t : keeps (W := W) F (os_res (p_wait pid t)).
Proof. apply keeps_os_res. intros. apply wait_ends. Qed.
Lemma keeps_spawn F argv : keeps (W := W) F (os_res (p_spawn argv)).
Proof. apply keeps_os_res. intros. apply spawn_ends. Qed.
#[local] Hint Resolve keeps_wait keeps_spawn : keeps.

Lemma keeps_worker_stop pid kill : keeps (W := W) Still (worker_stop pid kill).
Proof.
  unfold worker_stop. keeps_step; [keeps_auto|]. keeps_step; [|keeps_auto].
  destruct a; [keeps_auto|]. keeps_step; [keeps_auto|].
  apply keeps_try_except; [keeps_auto|]. intros e k. destruct (isinstance e _); [|done]. intros [= <-]. keeps_auto. 
Qed.

Lemma int_of_text_ends s : int_of_text s <> OutOfFuel.
Proof. unfold int_of_text. by destruct (int_of_str s). Qed.
Lemma list_index_ends {A} (l : list A) k : list_index l k <> OutOfFuel.
Proof. unfold list_index. by destruct (py_index l k). Qed.
Lemma after_last_ends c s : after_last c s <> OutOfFuel.
Proof. unfold after_last. destruct (split_char c s) as [|w [|w' ws]]; try done. by destruct (last _). Qed.
Lemma dindex_ends {K A} `{EqDecision K} (k : K) (d : list (K * A)) : dindex k d <> OutOfFuel.
Proof. unfold dindex. by destruct (dget k d). Qed.

Lemma cpu_seconds_ends t s : cpu_seconds t s <> OutOfFuel.
Proof.
  unfold cpu_seconds. repeat (apply res_bind_total; [first [apply after_last_ends|apply list_index_ends|apply int_of_text_ends]|intros ? _]).
  by destruct (t =? 0).
Qed.
Lemma high_water_ends line : high_water line <> OutOfFuel.
Proof.
  unfold high_water. destruct (is_prefix _ line); [|done].
  repeat (apply res_bind_total; [first [apply list_index_ends|apply int_of_text_ends]|intros ? _]). done.
Qed.

Lemma keeps_sample_cpu pid : keeps (W := W) Still (sample_cpu pid).
Proof. unfold sample_cpu. keeps_auto; [apply keeps_lift, cpu_seconds_ends|]. by apply keeps_rest. Qed.

Lemma keeps_close : keeps (W := W) Calm close.
Proof. unfold close. keeps_auto. apply keeps_still, keeps_worker_stop. Qed.

#[export] Instance local_method_laws : MethodLaws W.
Proof. split; [apply keeps_close|intros; apply keeps_worker_stop|intros; apply keeps_sample_cpu|intros; apply keeps_ret]. Qed.
End Local.
#[export] Hint Resolve keeps_wait keeps_spawn : keeps.

Section Operations.
Context {W : Type} `{MethodLaws W}.

(** Code that reads the state first may use its invariant, the state not having
    changed since. *)
Lemma keeps_read {A} F (f : Cluster -> P (W := W) A) :
  (forall c w, CInv c -> wp (f c) (fun r s' => ends F r /\ CInv s'.1 /\ within F c s'.1) (c, w)) ->
  keeps (W := W) F (bind self f).
Proof. intros Hf [c w] Hc. apply wp_bind, wp_gets. by apply Hf. Qed.

Lemma py_pos_Some {A} (l : list A) k i : py_pos l k = Some i -> (i < length l)%nat.
Proof. unfold py_pos. destruct (_ && _) eqn:E; [|done]. intros [= <-]. unbool. unfold zlen in *. lia. Qed.

Lemma keeps_start node create : keeps (W := W) Calm (start node create).
Proof.
  unfold start. keeps_auto.
  apply keeps_same. intros c Hc. split; [done|]. cbn. rewrite length_insert. split_and!; apply Hc.
Qed.

Lemma keeps_stop node : keeps (W := W) Calm (stop node).
Proof.
  unfold stop. keeps_auto.
  apply keeps_same. intros c Hc. split; [done|]. cbn. rewrite !length_insert. split_and!; try apply Hc.
  apply forall_insert; [apply Hc|]. rewrite zlen_nil. lia.
Qed.

Lemma keeps_Cluster_init : keeps (W := W) Calm Cluster_init.
Proof.
  unfold Cluster_init. apply keeps_try_except; [keeps_auto; apply keeps_start|].
  intros e k [= <-]. keeps_auto.
Qed.

Lemma keeps_sample_rss node pid : keeps (W := W) Still (sample_rss node pid).
Proof.
  unfold sample_rss. repeat keeps_step; [apply keeps_lift, high_water_ends|].
  apply keeps_rest. intros c. cbn. by rewrite length_insert.
Qed.

Lemma keeps_take_incoming node : keeps (W := W) Calm (take_incoming node).
Proof.
  apply keeps_read. intros c w Hc. apply wp_bind, wp_modify. cbn [fst snd]. apply wp_ret.
  split; [done|]. cbn. pose proof (queue_bound c node Hc) as Hb. split; [|by apply same_tables_calm].
  apply (same_tables_inv c); [done|done|apply Hc|cbn; rewrite length_insert; apply Hc|apply Hc|].
  apply forall_insert; [apply Hc|]. unfold zlen in *. rewrite length_drop. lia.
Qed.

Lemma keeps_submit_jobs command_of : keeps (W := W) Calm (submit_jobs command_of).
Proof.
  unfold submit_jobs. repeat keeps_step; [apply keeps_take_incoming|].
  apply (keeps_queue n (fun _ => [])). intros. rewrite zlen_nil. lia.
Qed.

Lemma keeps_run_jobs jobs : keeps (W := W) Still (run_jobs jobs).
Proof. unfold run_jobs. keeps_auto. Qed.

Lemma keeps_route packet : keeps (W := W) Calm (route packet).
Proof.
  unfold route. apply keeps_read. intros c w Hc. destruct (bool_decide _); [by apply wp_ret|].
  destruct (py_pos _ _) as [i|]; [|by apply wp_throw]. destruct (workers c !! i) as [[pid|]|]; [|by apply wp_ret..].
  destruct (4096 <=? _) eqn:Hq; [by apply wp_throw|]. unbool. apply wp_modify. split; [done|]. cbn [fst].
  split; [|by apply same_tables_calm].
  apply (same_tables_inv c); [done|done|apply Hc|cbn; rewrite length_insert; apply Hc|apply Hc|].
  apply forall_insert; [apply Hc|]. rewrite zlen_app, zlen_cons, zlen_nil. lia.
Qed.
End Operations.
#[export] Hint Extern 1 (keeps _ (stop _)) => (apply keeps_stop || apply keeps_weak, keeps_stop) : keeps.

#[export] Hint Resolve keeps_start keeps_sample_rss
  keeps_submit_jobs keeps_run_jobs keeps_route : keeps.

Section Rounds.
Context {W : Type} `{MethodLaws W}.

(** What [record_completion] writes once the outcome is known to be stable. *)
Definition recorded (completion : Completion) (now : Q) (c : Cluster) : Cluster :=
  let key := (c_client completion, c_sequence completion) in
  set_completions (dset key completion (completed c))
    (match dget key (first_completion c) with Some _ => first_completion c | None => dset key now (first_completion c) end)
    (dset key (default 0 (dget key (completion_counts c)) + 1) (completion_counts c)) c.

Lemma recorded_outcome completion now c k :
  outcome_of k (recorded completion now c) =
  if decide (k = (c_client completion, c_sequence completion)) then Some completion else outcome_of k c.
Proof. apply dget_dset. Qed.

Lemma recorded_count completion now c k :
  count_of k (recorded completion now c) =
  count_of k c + if decide (k = (c_client completion, c_sequence completion)) then 1 else 0.
Proof.
  unfold count_of at 1. cbn [recorded completion_counts set_completions]. rewrite dget_dset.
  destruct (decide _) as [->|]; cbn; unfold count_of; lia.
Qed.

Lemma recorded_first completion now c k :
  dget k (first_completion (recorded completion now c)) =
  match dget k (first_completion c) with
  | Some t => Some t
  | None => if decide (k = (c_client completion, c_sequence completion)) then Some now else None
  end.
Proof.
  cbn. set (key := (_, _)). destruct (dget key (first_completion c)) as [t|] eqn:E.
  - destruct (dget k (first_completion c)) eqn:Ek; [done|]. destruct (decide (k = key)) as [->|]; congruence.
  - rewrite dget_dset. destruct (decide (k = key)) as [->|]; [by rewrite E|]. by destruct (dget k _).
Qed.

Lemma recorded_keeps completion now c :
  CInv c -> (forall v, outcome_of (c_client completion, c_sequence completion) c = Some v -> v = completion) ->
  CInv (recorded completion now c) /\ extends c (recorded completion now c).
Proof.
  intros Hc Hs. split.
  - split; try apply Hc.
    + intros k v. rewrite recorded_outcome. destruct (decide _) as [->|]; [by intros [= <-]|apply Hc].
    + intros k. rewrite recorded_count. pose proof (ci_counts c Hc k). destruct (decide _); lia.
    + intros k. rewrite recorded_count, recorded_outcome. pose proof (ci_counts c Hc k). pose proof (ci_counted c Hc k) as Hk.
      destruct (decide _); [split; [by eauto|lia]|]. rewrite <- Hk. lia.
    + intros k. rewrite recorded_outcome, recorded_first. pose proof (ci_first c Hc k) as Hk.
      destruct (decide _); [|intros Ho; destruct (Hk Ho) as [t ->]; by eauto].
      destruct (dget k (first_completion c)); by eauto.
  - split; [done| | |].
    + intros k v Hv. rewrite recorded_outcome. destruct (decide _) as [->|]; [|done]. f_equal. symmetry. by apply Hs.
    + intros k. rewrite recorded_count. destruct (decide _); lia.
    + intros k t Ht. by rewrite recorded_first, Ht.
Qed.

Lemma keeps_record completion : keeps (W := W) Still (record_completion completion).
Proof.
  apply keeps_read. intros c w Hc.
  assert (Hgo : (forall v, outcome_of (c_client completion, c_sequence completion) c = Some v -> v = completion) ->
    wp (let! now := os p_monotonic in update (recorded completion now))
       (fun r s' => r <> OutOfFuel /\ CInv s'.1 /\ still c s'.1) (c, w)).
  { intros Hs. apply wp_bind. unfold wp at 1, os. cbn [snd]. destruct (p_monotonic w) as [now w']. cbn [fst snd].
    apply wp_modify. split; [done|]. destruct (recorded_keeps completion now c Hc Hs) as [Hi He]. split; [exact Hi|]. by repeat split; try apply He. }
  apply wp_bind. destruct (dget _ (completed c)) as [previous|] eqn:E.
  - destruct (bool_decide (previous = completion)) eqn:Hb; cbn [negb]; [|by apply wp_throw]. unbool.
    apply wp_ret. apply Hgo. unfold outcome_of. rewrite E. congruence.
  - apply wp_ret. apply Hgo. unfold outcome_of. by rewrite E.
Qed.
#[local] Hint Resolve keeps_record : keeps.

Lemma keeps_process_response node pid response : keeps (W := W) Calm (process_response node pid response).
Proof. unfold process_response. keeps_auto. Qed.
#[local] Hint Resolve keeps_process_response : keeps.

(** Every outcome of a round ends. *)
Definition jobs_end (outcomes : list (nat * Z * pyres Response)) : Prop := Forall (fun o => o.2 <> OutOfFuel) outcomes.

Lemma keeps_process_outcomes outcomes results :
  jobs_end outcomes -> keeps (W := W) Calm (for_each outcomes process_outcome results).
Proof.
  intros Ho. revert results. induction Ho as [|[[node pid] job] outcomes Hj Ho IH]; intros results; [apply keeps_ret|].
  apply keeps_bind; [|done]. unfold process_outcome. keeps_auto. by apply keeps_lift.
Qed.

Lemma run_jobs_end jobs acc (s : Cluster * W) :
  jobs_end acc ->
  wp (for_each jobs (fun '(node, (pid, command)) outcomes =>
        let! outcome := os (p_rpc pid command) in ret (outcomes ++ [(node, pid, outcome)])) acc)
     (fun r s' => s'.1 = s.1 /\ match r with
        | Ok l => jobs_end l /\ exists l', l = acc ++ l' /\ (fun o => o.1) <$> l' = (fun j => (j.1, j.2.1)) <$> jobs
        | Raise _ => False | OutOfFuel => False end) s.
Proof.
  intros Ha. revert acc s Ha. induction jobs as [|[node [pid command]] jobs IH]; intros acc s Ha.
  { apply wp_ret. split; [done|]. split; [done|]. exists []. by rewrite app_nil_r. }
  cbn [for_each]. apply wp_bind, wp_bind. unfold wp at 1, os. pose proof (rpc_ends pid command s.2) as Hr.
  destruct (p_rpc pid command s.2) as [job w] eqn:Ej. cbn [fst snd] in *. apply wp_ret.
  eapply wp_mono; [apply IH, Forall_app_2; [done|by repeat constructor]|].
  cbn [fst]. intros [l|e|] s' [Hs Hl]; [|done..]. split; [done|]. destruct Hl as (Hl & l' & -> & Hm).
  split; [done|]. exists ((node, pid, job) :: l'). rewrite <- app_assoc. split; [done|]. cbn. by rewrite Hm.
Qed.

Lemma keeps_round writes tick reads controls : keeps (W := W) Calm (round writes tick reads controls).
Proof.
  unfold round. apply keeps_bind; [auto with keeps|]. intros jobs [c w] Hc. apply wp_bind.
  eapply wp_mono; [apply (run_jobs_end jobs []); constructor|]. cbn [fst].
  intros [outcomes|e|] [c' w'] [Hs Hl]; [|done..]. cbn [fst] in Hs. subst c'.
  assert (Hk : keeps (W := W) Calm (let! results := for_each outcomes process_outcome [] in do! m_round_end results;; ret results)).
  { apply keeps_bind; [apply keeps_process_outcomes, Hl|intros results; keeps_auto]. }
  exact (Hk (c, w') Hc).
Qed.
#[local] Hint Resolve keeps_round : keeps.

Lemma keeps_round_tick tick : keeps (W := W) Calm (round_tick tick).
Proof. apply keeps_round. Qed.
#[local] Hint Resolve keeps_round_tick : keeps.

Lemma keeps_settle requests : keeps (W := W) Calm (settle requests).
Proof. unfold settle. keeps_auto. Qed.

Lemma group_requests_ends alive offset index requests groups :
  group_requests alive offset index requests groups <> OutOfFuel.
Proof. revert index groups. induction requests; intros; cbn; [done|]. by destruct alive. Qed.

Lemma keeps_dindex F {A} n (d : list (nat * A)) : keeps (W := W) F (lift (dindex n d)).
Proof. apply keeps_lift, dindex_ends. Qed.
#[local] Hint Resolve keeps_dindex : keeps.

Lemma keeps_awaited k : keeps (W := W) Grow (update (fun c => set_awaited (dset k (count_of k c + 1) (awaited_counts c)) c)).
Proof. apply keeps_update. intros c Hc. by split; [destruct Hc|]. Qed.
Lemma keeps_groups F alive offset requests : keeps (W := W) F (lift (group_requests alive offset 0 requests [])).
Proof. apply keeps_lift, group_requests_ends. Qed.
#[local] Hint Resolve keeps_awaited keeps_groups : keeps.

Lemma keeps_submit requests offset alive : keeps (W := W) Grow (submit requests offset alive).
Proof. unfold submit. keeps_auto. Qed.

Lemma tickets_of_ends queries replies : tickets_of queries replies <> OutOfFuel.
Proof.
  induction queries as [|[n q] l IH]; cbn; [done|]. apply res_bind_total; [apply dindex_ends|]. intros t _.
  apply res_bind_total; [exact IH|done].
Qed.

Lemma keeps_fenced_reads queries : keeps (W := W) Calm (fenced_reads queries).
Proof.
  unfold fenced_reads, poll_result. keeps_auto; [apply keeps_lift, tickets_of_ends|by apply keeps_still, keeps_rest].
Qed.
#[local] Hint Resolve keeps_settle keeps_submit keeps_fenced_reads : keeps.

Lemma keeps_verify t : keeps (W := W) Calm (verify t).
Proof. unfold verify, read_all. keeps_auto. Qed.
#[local] Hint Resolve keeps_verify : keeps.

Lemma keeps_key F {A} (k : request_key) (d : list (request_key * A)) : keeps (W := W) F (lift (dindex k d)).
Proof. apply keeps_lift, dindex_ends. Qed.
#[local] Hint Resolve keeps_key : keeps.

Lemma keeps_healthy_load operations fenced : keeps (W := W) Grow (healthy_load operations fenced).
Proof. unfold healthy_load, draw_wave, write_wave, read_wave. keeps_auto. Qed.

Lemma keeps_ticks n : keeps (W := W) Calm (ticks n).
Proof. induction n; cbn [ticks]; keeps_auto. Qed.
#[local] Hint Resolve keeps_healthy_load keeps_ticks keeps_start : keeps.

Lemma keeps_restart_all : keeps (W := W) Calm restart_all.
Proof. unfold restart_all. keeps_auto. Qed.

Lemma keeps_expect queries wanted e : keeps (W := W) Calm (expect_reads queries wanted e).
Proof. unfold expect_reads. keeps_auto. Qed.
#[local] Hint Resolve keeps_restart_all keeps_expect : keeps.

Lemma keeps_drop_queues : keeps (W := W) Calm (update (set_queues [[]; []; []])).
Proof.
  apply keeps_same. intros c Hc. split; [done|]. cbn. split_and!; try apply Hc; [done|].
  repeat constructor; rewrite zlen_nil; lia.
Qed.

Lemma keeps_set_partition l : keeps (W := W) Calm (update (set_partition l)).
Proof. apply keeps_same. intros c Hc. split; [done|]. split_and!; apply Hc. Qed.
#[local] Hint Resolve keeps_drop_queues keeps_set_partition : keeps.

Lemma keeps_fault_phases load : keeps (W := W) Grow (fault_phases load).
Proof.
  unfold fault_phases, crash_phase, retry_phase, minority_phase, heal_phase, await_barrier, offline_phase,
    catchup_phase, final_phase. keeps_auto.
Qed.
#[local] Hint Resolve keeps_fault_phases : keeps.

Lemma keeps_exercise operations seed fenced : keeps (W := W) Grow (exercise operations seed fenced).
Proof. unfold exercise. keeps_auto. Qed.
End Rounds.
#[export] Hint Resolve keeps_round keeps_round_tick keeps_settle keeps_submit keeps_fenced_reads keeps_verify
  keeps_dindex keeps_key keeps_groups keeps_healthy_load keeps_ticks keeps_restart_all keeps_expect
  keeps_drop_queues keeps_set_partition keeps_fault_phases keeps_exercise : keeps.
