(* ===== verification/ClusterTheorems.v ===== *)
(** * What the cluster controller guarantees

    Stability of recorded outcomes and termination of the whole exercise; what a
    settled submission means; FIFO routing between voters; the account
    arithmetic of the workload.  [Toy] is a voter that answers at once, for the
    examples. *)

From Stdlib Require Import QArith.
From S2P Require Import Prelude PyStr PyFloat Objects Text Net Dict Host ProcessCluster Workload ClusterProofs.
#[local] Open Scope Z_scope.

Lemma CInv_new b d : CInv (Cluster_new b d).
Proof.
  split; try done.
  - repeat constructor; rewrite zlen_nil; lia.
  - intros k. unfold count_of. cbn. split; [lia|]. by intros [v Hv].
  - intros k [v Hv]. done.
Qed.

Section Settling.
Context {W : Type} `{MethodLaws W}.

Lemma settle_spec requests (s : Cluster * W) :
  CInv s.1 ->
  wp (settle requests) (fun r s' => r <> OutOfFuel /\ CInv s'.1 /\ calm s.1 s'.1 /\
    (r = Ok tt -> settled (remove_dups (key_of <$> requests)) s'.1 = true)) s.
Proof.
  intros Hs. unfold settle.
  apply (wp_for_search (fun _ s' => CInv s'.1 /\ calm s.1 s'.1)); [by split| |].
  - intros attempt [] s1 [Hi He]. apply wp_bind, wp_gets. destruct (settled _ s1.1) eqn:Hd.
    + apply wp_ret. by split_and!.
    + apply wp_bind. eapply wp_mono; [by apply keeps_round_tick|].
      intros [res|e|] s2 (Hr & Hi2 & He2); [|split_and!; [done..|by etrans|done]|done].
      apply wp_ret. split; [done|by etrans].
  - intros [] s1 [Hi He]. apply wp_throw. by split_and!.
Qed.

(** Marking requests as awaited. *)
Lemma await_spec requests (s : Cluster * W) (done : list Request) c0 :
  CInv s.1 -> extends c0 s.1 -> (forall k, count_of k s.1 = count_of k c0) ->
  (forall r, r ∈ done -> count_of (key_of r) c0 < awaited_of (key_of r) s.1) ->
  wp (for_do requests (fun r =>
        update (fun c => set_awaited (dset (key_of r) (count_of (key_of r) c + 1) (awaited_counts c)) c)))
     (fun r s' => r = Ok tt /\ CInv s'.1 /\ extends c0 s'.1 /\
        forall r, r ∈ done ++ requests -> count_of (key_of r) c0 < awaited_of (key_of r) s'.1) s.
Proof.
  revert s done. induction requests as [|r requests IH]; intros s done Hs He Hc Ha; cbn [for_do].
  { apply wp_ret. rewrite app_nil_r. by split_and!. }
  apply wp_bind, wp_modify. eapply wp_mono; [apply (IH _ (done ++ [r]))|].
  - cbn. destruct Hs. by split.
  - etrans; [exact He|]. by split.
  - exact Hc.
  - intros q Hq. unfold awaited_of. cbn. rewrite dget_dset. destruct (decide (key_of q = key_of r)) as [E|E].
    + cbn. rewrite Hc, E. lia.
    + apply elem_of_app in Hq as [Hq|Hq]; [by apply Ha|]. apply list_elem_of_singleton in Hq. congruence.
  - intros res s' (Hr & Hi & Hx & Hd). split_and!; [done..|]. intros q Hq. apply Hd. by rewrite <- app_assoc.
Qed.

Lemma submitted_spec requests offset alive (s : Cluster * W) :
  CInv s.1 ->
  wp (submit requests offset alive) (fun r s' => r <> OutOfFuel /\ CInv s'.1 /\ extends s.1 s'.1 /\
    (r = Ok tt -> forall q, q ∈ requests -> count_of (key_of q) s.1 < awaited_of (key_of q) s'.1)) s.
Proof.
  intros Hs. unfold submit. apply wp_bind. eapply wp_mono; [apply (await_spec requests s [] s.1); [done|done|done|by intros r Hr%elem_of_nil]|].
  intros r s1 (-> & Hi & He & Ha). cbn [app] in Ha.
  assert (Hrest : keeps (W := W) Calm (let! groups := lift (group_requests alive offset 0 requests []) in
    let! result := round groups false [] [] in
    for_do groups (fun '(node, group) =>
      let! response := lift (dindex node result) in
      if negb (accepted response =? zlen group) || backpressure response
      then throw (RuntimeError "Unexpected bounded-workload backpressure") else ret tt))).
  { keeps_auto. }
  eapply wp_mono; [by apply Hrest|]. intros r s2 (Hr & Hi2 & [He2 Hw]). split_and!; [done..|by etrans|].
  intros _ q Hq. unfold awaited_of. rewrite Hw. by apply Ha.
Qed.
End Settling.

(** ** Routing *)

Definition queue (i : nat) (c : Cluster) : list Packet := default [] (queues c !! i).

(** A packet reaches node [i]: not partitioned, addressed to it, its voter up. *)
Definition delivers (c : Cluster) (i : nat) (p : Packet) : bool :=
  negb (bool_decide ((p_from p - 1, p_to p - 1) ∈ partition c)) &&
  bool_decide (py_pos (workers c) (p_to p - 1) = Some i) &&
  match workers c !! i with Some (Some _) => true | _ => false end.

Definition live (c : Cluster) : list (nat * Z) :=
  omap (fun '(n, w) => match w with Some pid => Some (n, pid) | None => None end) (enumerate (workers c)).

Section Routing.
Context {W : Type} `{MethodLaws W}.

(** What a node's queue gains while the voters and the partition stay. *)
Definition gains (c0 : Cluster) (c c' : Cluster) (packets : list Packet) : Prop :=
  workers c' = workers c0 /\ partition c' = partition c0 /\
  forall i, (i < 3)%nat -> queue i c' = queue i c ++ List.filter (delivers c0 i) packets.

Lemma delivers_same c c' i p : workers c' = workers c -> partition c' = partition c -> delivers c' i p = delivers c i p.
Proof. unfold delivers. by intros -> ->. Qed.

Lemma route_spec p (s : Cluster * W) :
  CInv s.1 -> wp (route p) (fun r s' => r = Ok tt -> gains s.1 s.1 s'.1 [p]) s.
Proof.
  destruct s as [c w]. cbn [fst]. intros Hc. unfold route. apply wp_bind, wp_gets.
  assert (Hno : (forall i, delivers c i p = false) -> gains c c c [p]).
  { intros Hd. split_and!; [done..|]. intros i _. cbn. by rewrite Hd, app_nil_r. }
  cbn [fst]. destruct (bool_decide _) eqn:Hp.
  { apply wp_ret. intros _. apply Hno. intros i. unfold delivers. by rewrite Hp. }
  destruct (py_pos _ _) as [j|] eqn:Hj; [|by apply wp_throw].
  destruct (workers c !! j) as [[pid|]|] eqn:Hw.
  2,3: apply wp_ret; intros _; apply Hno; intros i; unfold delivers; rewrite Hj;
    (destruct (bool_decide (Some j = Some i)) eqn:Hi; rewrite ?andb_false_r; [|done]);
    apply bool_decide_eq_true in Hi; injection Hi as <-; by rewrite Hw, ?andb_false_r.
  destruct (4096 <=? _); [by apply wp_throw|]. apply wp_modify. intros _. split_and!; [done..|].
  intros i Hi. unfold queue at 1. cbn [fst set_queues queues List.filter]. unfold delivers.
  rewrite Hp, Hj. cbn [negb andb]. destruct (decide (j = i)) as [->|Hn].
  - rewrite bool_decide_true by done. rewrite Hw. cbn [andb]. rewrite list_lookup_insert_eq; [done|].
    rewrite (ci_queues _ Hc). done.
  - rewrite bool_decide_false by congruence. cbn [andb]. rewrite list_lookup_insert_ne by done. by rewrite app_nil_r.
Qed.

Lemma gains_more c0 c c1 c2 l1 l2 :
  gains c0 c c1 l1 -> gains c1 c1 c2 l2 -> gains c0 c c2 (l1 ++ l2).
Proof.
  intros (Hw & Hp & Hq) (Hw' & Hp' & Hq'). split_and!; [congruence..|]. intros i Hi.
  rewrite Hq', Hq, <- app_assoc by done. f_equal. rewrite List.filter_app. f_equal.
  apply List.filter_ext. intros p. by apply delivers_same.
Qed.

Lemma routes_spec packets (s : Cluster * W) :
  CInv s.1 -> wp (for_do packets route) (fun r s' => r = Ok tt -> gains s.1 s.1 s'.1 packets) s.
Proof.
  revert s. induction packets as [|p packets IH]; intros s Hs; cbn [for_do].
  { apply wp_ret. intros _. split_and!; [done..|]. intros i _. by rewrite app_nil_r. }
  apply wp_bind. eapply wp_mono; [apply wp_and; [by apply keeps_route|by apply route_spec]|].
  intros [[]|e|] s1 [(Hr & Hi & He) Hg]; [|done..]. eapply wp_mono; [by apply IH|].
  intros r s2 Hg2 ->. apply (gains_more _ _ s1.1 s2.1 [p]); auto.
Qed.

Lemma gains_still c0 c c' c'' l : gains c0 c c' l -> still c' c'' -> gains c0 c c'' l.
Proof. intros (Hw & Hp & Hq) (_ & Hq' & Hw' & Hp'). split_and!; [congruence..|]. intros i Hi. unfold queue. rewrite Hq'. by apply Hq. Qed.

Lemma process_response_spec node pid response (s : Cluster * W) :
  CInv s.1 ->
  wp (process_response node pid response) (fun r s' => r = Ok tt -> gains s.1 s.1 s'.1 (packets response)) s.
Proof.
  intros Hs. unfold process_response. destruct (negb _); [by apply wp_throw|].
  apply wp_bind. eapply wp_mono; [apply wp_and; [|by apply routes_spec]|].
  { apply (keeps_for_do Calm (packets response) route); [|done]. auto with keeps. }
  intros [[]|e|] s1 [(Hr & Hi & He) Hg]; [|done..].
  assert (Hk : keeps (W := W) Still (do! for_do (completed_now response) record_completion;; do! m_sample_cpu pid;; sample_rss node pid)).
  { keeps_auto. apply keeps_record. }
  eapply wp_mono; [by apply Hk|]. intros r s2 (_ & _ & Hst) _. eapply gains_still; [by apply Hg|done].
Qed.

Definition all_packets (results : list (nat * Response)) : list Packet := concat ((fun r => packets r.2) <$> results).

Lemma process_outcomes_spec outcomes results (s : Cluster * W) c0 c :
  jobs_end outcomes -> CInv s.1 -> gains c0 c s.1 (all_packets results) ->
  wp (for_each outcomes process_outcome results)
     (fun r s' => forall l, r = Ok l -> gains c0 c s'.1 (all_packets l) /\ fst <$> l = (fst <$> results) ++ ((fun o => o.1.1) <$> outcomes)) s.
Proof.
  intros Ho. revert results s. induction Ho as [|[[node pid] job] outcomes Hj Ho IH]; intros results s Hs Hg; cbn [for_each].
  { apply wp_ret. intros l [= <-]. by rewrite app_nil_r. }
  apply wp_bind. unfold process_outcome at 1. apply wp_bind, wp_lift. destruct job as [response|e|]; [|done..].
  apply wp_bind. eapply wp_mono; [apply wp_and; [by apply keeps_process_response|by apply process_response_spec]|].
  intros [[]|e|] s1 [(Hr & Hi & He) Hp]; [|done..]. apply wp_ret.
  eapply wp_mono; [apply IH; [exact Hi|]|].
  - unfold all_packets. rewrite fmap_app, concat_app. cbn. rewrite app_nil_r.
    apply (gains_more _ _ s.1); [done|by apply Hp].
  - intros r s2 Hl l ->. destruct (Hl l eq_refl) as [Hg2 Hn]. split; [done|]. rewrite Hn, fmap_app, <- app_assoc. done.
Qed.

(** What the job-building loop leaves and hands out. *)
Lemma submit_jobs_spec command_of (c : Cluster) (w : W) :
  CInv c ->
  exists c', submit_jobs command_of (c, w) =
    (Ok ((fun '(n, pid) => (n, (pid, command_of n (take 128 (queue n c))))) <$> live c), (c', w)) /\
    workers c' = workers c /\ partition c' = partition c /\
    forall i, (i < 3)%nat -> queue i c' = if bool_decide (i ∈ (live c).*1) then drop 128 (queue i c) else [].
Proof.
  intros Hc. pose proof (ci_workers c Hc) as Hw. pose proof (ci_queues c Hc) as Hq.
  unfold submit_jobs, live, queue, enumerate. unfold self, bind at 1, gets. cbn [fst].
  destruct (workers c) as [|a [|b [|d [|]]]] eqn:Ew; try discriminate Hw.
  destruct (queues c) as [|q1 [|q2 [|q3 [|]]]] eqn:Eq; try discriminate Hq.
  destruct a, b, d;
    (eexists; split; [cbn; unfold take_incoming, self, update, bind, gets, modify, ret; cbn; rewrite ?Eq; cbn; reflexivity|]);
    cbn; rewrite ?Ew; (split; [done|]); (split; [done|]);
    intros [|[|[|]]] Hi; try lia; reflexivity.
Qed.
End Routing.

(** ** The workload's arithmetic *)

Lemma credit_sum i delta b : (i < length b)%nat -> zsum (credit (Z.of_nat i) delta b) = zsum b + delta.
Proof.
  unfold credit. rewrite Nat2Z.id. revert i. induction b as [|x b IH]; intros i Hi; [simpl in Hi; lia|].
  destruct i as [|i]; cbn; [lia|]. specialize (IH i ltac:(simpl in Hi; lia)). 
  transitivity (x + (zsum b + delta)); [f_equal; exact IH|unfold zsum; lia].
Qed.

Lemma move_sum i v b : length b = 3%nat -> length (move i v b) = 3%nat /\ zsum (move i v b) = zsum b.
Proof.
  intros Hb. unfold move. pose proof (Z.mod_pos_bound i 3 ltac:(lia)). pose proof (Z.mod_pos_bound (i mod 3 + 1) 3 ltac:(lia)).
  split; [unfold credit; by rewrite !length_insert|].
  rewrite <- (Z2Nat.id ((i mod 3 + 1) mod 3)) by lia. rewrite credit_sum by (unfold credit; rewrite length_insert; lia).
  rewrite <- (Z2Nat.id (i mod 3)) at 1 by lia. rewrite credit_sum by lia. lia.
Qed.

Lemma move_first i v b :
  length b = 3%nat ->
  default 0 (move i v b !! 0%nat) =
  default 0 (b !! 0%nat) + (if (i mod 3 =? 0) || (i mod 3 =? 2) then v * (if (i mod 3 + 1) mod 3 =? 0 then 1 else -1) else 0).
Proof.
  intros Hb. destruct b as [|x [|y [|z [|]]]]; try discriminate Hb. unfold move, credit.
  assert (Hm : i mod 3 = 0 \/ i mod 3 = 1 \/ i mod 3 = 2) by (pose proof (Z.mod_pos_bound i 3 ltac:(lia)); lia).
  destruct Hm as [-> | [-> | ->]];
    change ((0 + 1) mod 3) with 1; change ((1 + 1) mod 3) with 2; change ((2 + 1) mod 3) with 0;
    change (Z.to_nat 0) with 0%nat; change (Z.to_nat 1) with 1%nat; change (Z.to_nat 2) with 2%nat; cbn; lia.
Qed.

Lemma balances_fold t b :
  length b = 3%nat ->
  length (foldl (fun b '(i, v) => move i v b) b t) = 3%nat /\
  zsum (foldl (fun b '(i, v) => move i v b) b t) = zsum b /\
  default 0 (foldl (fun b '(i, v) => move i v b) b t !! 0%nat) = default 0 (b !! 0%nat) + (first_balance t - 1000000).
Proof.
  revert b. induction t as [|[i v] t IH]; intros b Hb; cbn [foldl].
  { unfold first_balance. cbn. split_and!; [done|done|lia]. }
  destruct (move_sum i v b Hb) as [Hl Hs]. destruct (IH _ Hl) as (H1 & H2 & H3).
  split_and!; [done|lia|]. rewrite H3, move_first by done. unfold first_balance, zsum. cbn.
  destruct (_ || _); cbn; lia.
Qed.

Lemma windows_concat {A} fuel n (l : list A) : (length l <= fuel)%nat -> (0 < n)%nat -> concat (windows fuel n l) = l.
Proof.
  revert l. induction fuel as [|f IH]; intros l Hl Hn; [by destruct l; [|simpl in Hl; lia]|].
  destruct l as [|x l]; [done|]. cbn [windows concat]. rewrite IH; [apply take_drop| |done].
  rewrite length_drop. simpl in *. lia.
Qed.

Lemma windows_size {A} fuel n (l : list A) : Forall (fun w => zlen w <= Z.of_nat n) (windows fuel n l).
Proof.
  revert l. induction fuel as [|f IH]; intros l; [constructor|]. destruct l as [|x l]; [constructor|].
  cbn [windows]. constructor; [unfold zlen; rewrite length_take; lia|apply IH].
Qed.

(** The transfers of [n] fresh transactions. *)
Definition prescribed (t : transfers) : Prop :=
  forall k i v, t !! k = Some (i, v) -> i = Z.of_nat k + 1 /\ v = i mod 17 + 1.

Lemma prescribed_fresh t : prescribed t -> dget (zlen t + 1) t = None.
Proof.
  intros Ht. destruct (dget (zlen t + 1) t) as [v|] eqn:E; [|done]. apply dget_Some_In in E.
  apply list_elem_of_lookup in E as [k Hk]. destruct (Ht k _ _ Hk) as [Hi _]. apply lookup_lt_Some in Hk. unfold zlen in Hi. lia.
Qed.

Lemma dset_fresh {K A} `{EqDecision K} (k : K) (v : A) d : dget k d = None -> dset k v d = d ++ [(k, v)].
Proof.
  induction d as [|[k' v'] d IH]; cbn; [done|]. destruct (decide (k = k')); [done|]. intros Hn. by rewrite IH.
Qed.

Lemma next_transfer_spec t :
  prescribed t ->
  let '(r, t') := next_transfer t in
  t' = t ++ [(zlen t + 1, (zlen t + 1) mod 17 + 1)] /\ prescribed t' /\ key_of r = (zlen t + 101, 1).
Proof.
  intros Ht. unfold next_transfer. cbn [transaction fst snd]. rewrite dset_fresh by by apply prescribed_fresh.
  split_and!; [done| |unfold key_of; cbn; f_equal; lia].
  intros k i v Hk. apply lookup_app_Some in Hk as [Hk|[Hl Hk]]; [by apply Ht|].
  apply list_lookup_singleton_Some in Hk as [Hz [= <- <-]]. split; [unfold zlen; lia|done].
Qed.

Lemma next_transfers_spec n rs t :
  prescribed t ->
  let '(rs', t') := next_transfers n rs t in
  prescribed t' /\ length t' = (length t + n)%nat /\ (exists l, t' = t ++ l) /\
  key_of <$> rs' = (key_of <$> rs) ++ ((fun k => (zlen t + 101 + Z.of_nat k, 1)) <$> seq 0 n).
Proof.
  revert rs t. induction n as [|n IH]; intros rs t Ht; cbn [next_transfers].
  { split_and!; [done|lia|exists []; by rewrite app_nil_r|by rewrite app_nil_r]. }
  pose proof (next_transfer_spec t Ht) as Hn. destruct (next_transfer t) as [r t'] eqn:E. destruct Hn as (-> & Hp & Hk).
  specialize (IH (rs ++ [r]) _ Hp). destruct (next_transfers n _ _) as [rs' t'']. destruct IH as (H1 & H2 & [l H3] & H4).
  split_and!; [done|rewrite H2, length_app; simpl; lia|eexists; by rewrite H3, <- app_assoc|].
  rewrite H4, fmap_app, <- app_assoc. f_equal. cbn. rewrite Hk. f_equal; [f_equal; lia|].
  rewrite <- fmap_S_seq, <- list_fmap_compose. apply list_fmap_ext. intros ? k _. cbn. rewrite zlen_app, zlen_cons, zlen_nil. f_equal. lia.
Qed.

(** ** Fenced reads *)

Section Fenced.
Context {W : Type} `{MethodLaws W}.

(** Every queried node has a result or a ticket, and nobody else. *)
Definition covered (queries : list (nat * pystr)) (acc : list (nat * Z) * list (nat * pyval)) : Prop :=
  forall n, dmem n acc.1 || dmem n acc.2 = dmem n queries.

Lemma dmem_dset {K A} `{EqDecision K} (k k' : K) (v : A) d : dmem k (dset k' v d) = bool_decide (k = k') || dmem k d.
Proof. unfold dmem. rewrite dget_dset. destruct (decide (k = k')) as [->|]; [by rewrite bool_decide_true|by rewrite bool_decide_false]. Qed.
Lemma dmem_ddel {K A} `{EqDecision K} (k k' : K) (d : list (K * A)) : dmem k (ddel k' d) = negb (bool_decide (k = k')) && dmem k d.
Proof. unfold dmem. rewrite dget_ddel. destruct (decide (k = k')) as [->|]; [by rewrite bool_decide_true|by rewrite bool_decide_false]. Qed.
Lemma dmem_keys {K A} `{EqDecision K} (k : K) (d : list (K * A)) : k ∈ d.*1 -> dmem k d = true.
Proof.
  unfold dmem. induction d as [|[k' v] d IH]; cbn; [by intros ?%elem_of_nil|].
  intros [-> |Hk]%elem_of_cons; destruct (decide _); auto; congruence.
Qed.

Lemma covered_result queries n rows results tickets :
  dmem n queries = true -> covered queries (results, tickets) -> covered queries (dset n rows results, ddel n tickets).
Proof.
  intros Hn Hc k. cbn. rewrite dmem_dset, dmem_ddel. specialize (Hc k). cbn in Hc.
  destruct (bool_decide (k = n)) eqn:E; cbn; [|done]. unbool. by subst.
Qed.

Lemma covered_ticket queries n t results tickets :
  dmem n queries = true -> covered queries (results, tickets) -> covered queries (results, dset n t tickets).
Proof.
  intros Hn Hc k. cbn. rewrite dmem_dset. specialize (Hc k). cbn in Hc.
  destruct (bool_decide (k = n)) eqn:E; cbn; [|done]. unbool. subst. by rewrite orb_true_r.
Qed.

Lemma poll_result_spec queries started replies n acc (s : Cluster * W) :
  dmem n queries = true -> covered queries acc ->
  wp (poll_result started replies n acc) (fun r _ => forall acc', r = Ok acc' -> covered queries acc') s.
Proof.
  intros Hn Hc. destruct acc as [results tickets]. unfold poll_result.
  apply wp_bind, wp_lift. destruct (dindex n replies) as [response|e|]; [|done..].
  destruct (pyeqb _ _).
  { destruct (negb _); [by apply wp_throw|]. apply wp_bind. unfold wp at 1, os. destruct (p_monotonic s.2) as [now w].
    apply wp_bind, wp_modify, wp_ret. intros acc' [= <-]. by apply covered_result. }
  destruct (pyeqb _ _); [|by apply wp_ret; intros acc' [= <-]].
  apply wp_bind, wp_intro. intros [restart|e|] s' _; [|done..].
  apply wp_bind, wp_lift. destruct (dindex n restart) as [again|e|]; [|done..].
  apply wp_ret. intros acc' [= <-]. by apply covered_ticket.
Qed.

Lemma tickets_of_keys queries replies l : tickets_of queries replies = Ok l -> l.*1 = queries.*1.
Proof.
  revert l. induction queries as [|[n q] queries IH]; intros l; cbn; [by intros [= <-]|].
  intros Hl. res_inv. cbn. by rewrite (IH _ Hr0).
Qed.

Lemma dmem_same_keys {K A B} `{EqDecision K} (k : K) (d : list (K * A)) (d' : list (K * B)) : d.*1 = d'.*1 -> dmem k d = dmem k d'.
Proof.
  revert d'. induction d as [|[k1 v1] d IH]; intros [|[k2 v2] d']; cbn; try done.
  intros [= -> Hd]. unfold dmem in *. cbn. destruct (decide (k = k2)); [done|]. by apply IH.
Qed.

Lemma fenced_covered queries (s : Cluster * W) :
  wp (fenced_reads queries) (fun r _ => forall results, r = Ok results -> forall n, dmem n results = dmem n queries) s.
Proof.
  unfold fenced_reads. apply wp_bind, wp_intro. intros [started|e|] s1 _; [|done..].
  apply wp_bind, wp_intro. intros [replies|e|] s2 _; [|done..].
  apply wp_bind, wp_lift. destruct (tickets_of queries replies) as [tickets|e|] eqn:Ht; [|done..].
  apply tickets_of_keys in Ht.
  apply (wp_for_search (fun acc _ => covered queries acc)).
  - intros n. cbn. by apply dmem_same_keys.
  - intros attempt [results tickets1] s3 Hc. apply wp_bind, wp_intro. intros [[]|e|] s4 _; [|done..].
    apply wp_bind, wp_intro. intros [replies2|e|] s5 _; [|done..].
    apply wp_bind, (wp_for_each (fun acc _ => covered queries acc)); [done| |].
    + intros n acc s6 Hn Hacc. eapply wp_mono; [apply (poll_result_spec queries); [|done]|].
      * rewrite <- (Hc n). cbn. by rewrite (dmem_keys n tickets1 Hn), orb_true_r.
      * intros [acc'|e|] s7 Hr; [by apply Hr|done..].
    + intros [results' tickets'] s6 Hacc. apply wp_ret. destruct tickets' as [|t tickets']; [|done].
      intros res [= <-] n. rewrite <- (Hacc n). cbn. by rewrite orb_false_r.
  - intros acc s3 _. by apply wp_throw.
Qed.
End Fenced.

(** ** A voter that answers at once *)

Definition toy_response (command : Command) : Response :=
  mkResponse 1 [] ((fun r => mkCompletion (r_client r) (r_sequence r) (py "Applied") 1) <$> write_requests command)
    (zlen (write_requests command)) false 3 (py "None") (PInt 7) (mkReadResult (py "Ready") (py "None") 3) None.

#[export] Instance toy : Probe Z := {
  p_monotonic w := (inject_Z w, w + 1);
  p_spawn _ w := (Ok w, w + 1);
  p_rpc _ command w := (Ok (toy_response command), w + 1);
  p_call _ _ w := (Ok PNone, w);
  p_poll _ w := (None, w);
  p_kill _ w := w;
  p_close_stdin _ w := w;
  p_wait _ _ w := (Ok (-9), w);
  p_close_pipes _ w := w;
  p_returncode _ _ := Some (-9);
  p_stat _ w := (None, w);
  p_status _ w := (None, w);
  p_clock_ticks := 100;
  p_seed _ w := w;
  p_random w := (0%Q, w);
  p_randrange _ w := (0, w)
}.

#[export] Instance toy_laws : ProbeLaws Z.
Proof. by split. Defined.

Definition toy_cluster : Cluster := (Cluster_init (Cluster_new (py "worker") (py "run"), 0)).2.1.

(** C20: the whole exercise against any voters and any operating system: it ends
    (every wait and retry loop is bounded), the controller's tables keep their
    shape, no peer queue ever holds more than 4,096 packets, and, from any state
    it is run in, no recorded outcome is ever lost or replaced by a different
    one, nor a completion uncounted, whether it passes or raises. *)
Theorem exercise_invariant {W} `{MethodLaws W} operations seed fenced (s : Cluster * W) :
  CInv s.1 ->
  wp (exercise operations seed fenced)
     (fun r s' => r <> OutOfFuel /\ CInv s'.1 /\ extends s.1 s'.1) s.
Proof. intros Hs. by apply keeps_exercise. Qed.

(** C19: a settled submission was answered: when [submit] and then [settle]
    return, every request submitted has completed again since (even one that had
    completed before), its recorded outcome is the one it first had, and no
    packet is left undelivered. *)
Theorem settled_submission {W} `{MethodLaws W} requests offset alive (s : Cluster * W) :
  CInv s.1 ->
  wp (do! submit requests offset alive;; settle requests)
     (fun r s' => r <> OutOfFuel /\ (r = Ok tt ->
        Forall (fun q => q = []) (queues s'.1) /\
        forall q, q ∈ requests ->
          count_of (key_of q) s.1 < count_of (key_of q) s'.1 /\
          exists v, outcome_of (key_of q) s'.1 = Some v /\
                    forall v0, outcome_of (key_of q) s.1 = Some v0 -> v0 = v)) s.
Proof.
  intros Hs. apply wp_bind. eapply wp_mono; [by apply submitted_spec|].
  intros [[]|e|] s1 (Hr & Hi & He & Ha); [|done..].
  eapply wp_mono; [by apply settle_spec|]. intros r s2 (Hr2 & Hi2 & [He2 Hw] & Hd). split; [done|]. intros ->.
  specialize (Hd eq_refl). unfold settled in Hd. apply andb_true_iff in Hd as [Hk Hq]. split.
  - apply Forall_forall. intros q Hin. apply list_elem_of_In in Hin. rewrite forallb_forall in Hq.
    specialize (Hq q Hin). unbool. destruct q; [done|]. rewrite zlen_cons in Hq. pose proof (zlen_nonneg q). lia.
  - intros q Hin. rewrite forallb_forall in Hk.
    specialize (Hk (key_of q)). rewrite <- list_elem_of_In, elem_of_remove_dups, list_elem_of_fmap in Hk.
    specialize (Hk (ex_intro _ q (conj eq_refl Hin))). unbool.
    specialize (Ha eq_refl q Hin). unfold awaited_of in Hk, Ha. rewrite Hw in Hk.
    pose proof (ci_counts _ Hs (key_of q)). split; [lia|].
    destruct (proj1 (ci_counted _ Hi2 (key_of q))) as [v Hv]; [lia|]. exists v. split; [done|].
    intros v0 Hv0. apply (ex_outcome _ _ He), (ex_outcome _ _ He2) in Hv0. congruence.
Qed.

(** C21: routing is FIFO and lossless: a completed round hands every voter the
    first 128 packets queued for it, keeps the rest in order, and appends exactly
    the packets the voters returned for it, in order, those across the partition
    or to a stopped voter excepted; stopped voters have empty queues. *)
Theorem round_routes {W} `{MethodLaws W} writes tick reads controls (s : Cluster * W) :
  CInv s.1 ->
  (submit_jobs (round_command writes tick reads controls) s).1 =
    Ok ((fun '(n, pid) => (n, (pid, round_command writes tick reads controls n (take 128 (queue n s.1))))) <$> live s.1) /\
  wp (round writes tick reads controls)
     (fun r s' => forall results, r = Ok results ->
        results.*1 = (live s.1).*1 /\
        forall i, (i < 3)%nat ->
          queue i s'.1 = (if bool_decide (i ∈ (live s.1).*1) then drop 128 (queue i s.1) else [])
                         ++ List.filter (delivers s.1 i) (all_packets results)) s.
Proof.
  destruct s as [c w]. cbn [fst]. intros Hc.
  pose proof (keeps_submit_jobs (round_command writes tick reads controls) (c, w) Hc) as Hk. unfold wp in Hk.
  destruct (submit_jobs_spec (round_command writes tick reads controls) c w Hc) as (c1 & Hj & Hw & Hp & Hq).
  rewrite Hj in Hk |- *. split; [done|]. destruct Hk as (_ & Hi & _). cbn [fst snd] in Hi.
  unfold round. apply wp_bind. unfold wp at 1. rewrite Hj. cbn [fst snd].
  apply wp_bind. eapply wp_mono; [apply (run_jobs_end _ []); constructor|]. cbn [fst].
  intros [outcomes|e|] [c2 w2] [Hs Ho]; [|done..]. cbn [fst] in Hs. subst c2. destruct Ho as (Hend & l' & -> & Hm).
  apply wp_bind. eapply wp_mono; [apply wp_and; [by apply (keeps_process_outcomes _ [] Hend (c1, w2))|
    apply (process_outcomes_spec _ [] (c1, w2) c1 c1); [done|done|]]|].
  { split_and!; [done..|]. intros i _. by rewrite app_nil_r. }
  intros [results|e|] s3 [(_ & Hi3 & _) Hl]; [|done..]. destruct (Hl results eq_refl) as [Hgain Hn].
  apply wp_bind. eapply wp_mono; [by apply round_end_still|].
  intros [[]|e|] s4 (_ & _ & Hst); [apply wp_ret|done..]. intros ? [= <-].
  destruct (gains_still _ _ _ _ _ Hgain Hst) as (_ & _ & Hg). split.
  - rewrite Hn. cbn [app fmap list_fmap] in *. apply (f_equal (fmap fst)) in Hm. rewrite <- !list_fmap_compose in Hm.
    change (fun o : nat * Z * pyres Response => o.1.1) with (fst ∘ (fun o : nat * Z * pyres Response => o.1)).
    rewrite Hm. apply list_fmap_ext. by intros ? [n pid] _.
  - intros i Hlt. rewrite Hg, Hq by done. f_equal. apply List.filter_ext. intros p. by apply delivers_same.
Qed.

(** A fenced read answers for exactly the voters it queried: whatever they
    reply, displaced barriers included, a returned result has one entry for each
    queried voter and none other. *)
Theorem fenced_reads_answer {W} `{MethodLaws W} queries (s : Cluster * W) :
  wp (fenced_reads queries) (fun r _ => forall results, r = Ok results -> forall n, dmem n results = dmem n queries) s.
Proof. apply fenced_covered. Qed.

(** The accounts add up: however many transfers were acknowledged, the
    balances the verifier expects have the opening total of 3,000,000, the
    closed-form balance checked by reads of account 1 is the one the verifier
    computes, and the windows of the exact query cover every transfer once, at
    most 32 at a time. *)
Theorem workload_balances (t : transfers) :
  length (balances_after t) = 3%nat /\ zsum (balances_after t) = 3000000 /\
  balances_after t !! 0%nat = Some (first_balance t) /\
  concat (windows (length t) 32 t) = t /\ Forall (fun w => zlen w <= 32) (windows (length t) 32 t).
Proof.
  destruct (balances_fold t opening eq_refl) as (Hl & Hs & Hf). fold (balances_after t) in *.
  split_and!; [done|rewrite Hs; done| |by apply windows_concat; lia|apply (windows_size _ 32)].
  destruct (balances_after t) as [|x l] eqn:E; [done|]. cbn in *. f_equal. lia.
Qed.

(** Fresh transactions are prescribed by their identifiers: [n] new ones
    after any prescribed transfers extend them by the next identifiers with the
    amounts the auditors recompute, under request identities used once each. *)
Theorem fresh_transfers n t :
  prescribed t ->
  let '(requests, t') := next_transfers n [] t in
  prescribed t' /\ length t' = (length t + n)%nat /\ (exists l, t' = t ++ l) /\ NoDup (key_of <$> requests).
Proof.
  intros Ht. pose proof (next_transfers_spec n [] t Ht) as Hn. destruct (next_transfers n [] t) as [rs t'].
  destruct Hn as (H1 & H2 & H3 & H4). split_and!; [done..|]. rewrite H4. cbn [app fmap list_fmap].
  apply NoDup_fmap_2; [|apply NoDup_seq]. intros i j [= Hij]. lia.
Qed.

Lemma toy_inv : CInv toy_cluster.
Proof.
  destruct (keeps_Cluster_init (W := Z) (Cluster_new (py "worker") (py "run"), 0) (CInv_new _ _)) as (_ & Hi & _). exact Hi.
Qed.

Lemma exercise_invariant_witness :
  CInv toy_cluster /\
  wp (exercise 24 1 true) (fun r s' => r <> OutOfFuel /\ CInv s'.1 /\ extends toy_cluster s'.1) (toy_cluster, 0).
Proof. split; [apply toy_inv|]. apply (exercise_invariant 24 1 true (toy_cluster, 0)), toy_inv. Defined.

Definition toy_request : Request := mkRequest 7 1 (py "INSERT INTO t VALUES(1)").

Lemma settled_submission_witness :
  (bind (submit [toy_request] 0 all_nodes) (fun _ => settle [toy_request]) (toy_cluster, 0)).1 = Ok tt /\
  wp (do! submit [toy_request] 0 all_nodes;; settle [toy_request])
     (fun r s' => r <> OutOfFuel /\ (r = Ok tt ->
        Forall (fun q => q = []) (queues s'.1) /\
        forall q, q ∈ [toy_request] ->
          count_of (key_of q) toy_cluster < count_of (key_of q) s'.1 /\
          exists v, outcome_of (key_of q) s'.1 = Some v /\
                    forall v0, outcome_of (key_of q) toy_cluster = Some v0 -> v0 = v)) (toy_cluster, 0).
Proof.
  split; [vm_compute; reflexivity|]. apply (settled_submission [toy_request] 0 all_nodes (toy_cluster, 0)), toy_inv.
Defined.

Lemma round_routes_witness :
  (submit_jobs (round_command [] true [] []) (toy_cluster, 0)).1 =
    Ok ((fun '(n, pid) => (n, (pid, round_command [] true [] [] n (take 128 (queue n toy_cluster))))) <$> live toy_cluster) /\
  (live toy_cluster).*1 = [0; 1; 2]%nat.
Proof. split; [apply (round_routes [] true [] [] (toy_cluster, 0)), toy_inv|vm_compute; reflexivity]. Defined.

Lemma fenced_reads_answer_witness :
  (fenced_reads [(2%nat, account_ids)] (toy_cluster, 0)).1 = Ok [(2%nat, 3)] /\
  wp (fenced_reads [(2%nat, account_ids)])
    (fun r _ => forall results, r = Ok results -> forall n, dmem n results = dmem n [(2%nat, account_ids)]) (toy_cluster, 0).
Proof. split; [vm_compute; reflexivity|]. apply (fenced_reads_answer [(2%nat, account_ids)]). Defined.

Lemma fresh_transfers_witness :
  prescribed [] /\
  let '(requests, t') := next_transfers 3 [] [] in
  prescribed t' /\ length t' = 3%nat /\ (exists l, t' = [] ++ l) /\ NoDup (key_of <$> requests).
Proof. split; [by intros [|k]|]. apply (fresh_transfers 3 []). by intros [|k]. Defined.
