(* ===== verification/Soak.v ===== *)
(** * tools/run_cluster_soak.py: the bounded soak

    The coordinator's checks and [run_soak]: waves of reads and transfers over
    twelve long-lived sessions, interval verification, acknowledged retries,
    hourly kills and the final whole-cluster recovery.  [run_soak]'s outer loop
    runs until a deadline, so it takes fuel; every inner loop is bounded. *)

From Stdlib Require Import QArith.
From stdpp Require Import sorting.
From S2P Require Import Prelude PyStr PyFloat Objects Json Vector Text Net Dict Host Stats Script ProcessCluster RemoteCluster Workload.
#[local] Open Scope Z_scope.

(** [percentiles] *)
Definition soak_percentiles (samples : list Q) : report :=
  let values := merge_sort Qle samples in
  match values with
  | [] => []
  | _ => omap (fun p => (fun v => (fstr [L "p"; D p], Num v))
                <$> values !! Z.to_nat (Z.min (zlen values - 1) (zlen values * p / 100))) [50; 95; 99]
  end.

(** The query of one window of [verify_range]. *)
Definition range_query (start end_ : Z) : pystr :=
  fstr [L "SELECT t.id FROM transfers t JOIN ledger l ON l.tx=t.id ";
        L "WHERE t.id BETWEEN "; D start; L " AND "; D end_; L " AND l.tx BETWEEN "; D start; L " AND "; D end_; L " ";
        L "AND t.src=t.id%3+1 ";
        L "AND t.dst=t.src%3+1 AND t.amount=t.id%17+1 ";
        L "AND t.payload='"; T payload256; L "' ";
        L "AND ((l.account=t.src AND l.delta=-t.amount) ";
        L "OR (l.account=t.dst AND l.delta=t.amount)) ";
        L "GROUP BY t.id HAVING count(*)=2 AND count(DISTINCT l.account)=2"].

(** [for start in range(first, last + 1, n): end = min(start + n - 1, last)] *)
Definition ranges (n first last : Z) : list (Z * Z) :=
  (fun k => (first + n * Z.of_nat k, Z.min (first + n * Z.of_nat k + n - 1) last))
    <$> seq 0 (Z.to_nat ((last - first + n) / n)).

(** A transfer under one of the twelve sessions. *)
Definition session_request (identifier sequence : Z) : Request :=
  let '(request, _) := transaction identifier in
  mkRequest (100 + (identifier - 1) mod 12) sequence (r_sql request).

(** One drawn operation of a wave: [None] for a read, otherwise the next transfer. *)
Record Wave := mkWave { v_requests : list Request; v_reads : Z; v_sequences : list Z; v_balances : list Z }.

Definition draw_transfer (writes : Z) (wave : Wave) : Wave :=
  let identifier := writes + zlen (v_requests wave) + 1 in
  let amount := (transaction identifier).2 in
  let client := Z.to_nat ((identifier - 1) mod 12) in
  let sequence := default 0 (v_sequences wave !! client) + 1 in
  mkWave (v_requests wave ++ [session_request identifier sequence]) (v_reads wave)
    (<[client := sequence]> (v_sequences wave)) (move identifier amount (v_balances wave)).

Definition draw_read (wave : Wave) : Wave :=
  mkWave (v_requests wave) (v_reads wave + 1) (v_sequences wave) (v_balances wave).

(** The local variables of [run_soak]. *)
Record Soak := mkSoak {
  sequences : list Z; balances : list Z;
  writes : Z; reads : Z; checked : Z; rounds : Z; retries : Z;
  latencies : list Q; read_latencies : list Q;
  next_status : Q; next_fault : Q; interval_operations : Z; interval_started : Q;
  last_requests : list Request
}.

Definition after_wave (k : Soak) (wave : Wave) (latencies read_latencies : list Q) : Soak :=
  mkSoak (v_sequences wave) (v_balances wave)
    (writes k + zlen (v_requests wave)) (reads k + v_reads wave) (checked k) (rounds k + 1) (retries k)
    latencies read_latencies (next_status k) (next_fault k) (interval_operations k + 12) (interval_started k)
    (match v_requests wave with [] => last_requests k | requests => requests end).

Definition after_interval (k : Soak) (retried : Z) (now : Q) : Soak :=
  mkSoak (sequences k) (balances k) (writes k) (reads k) (writes k) (rounds k) (retries k + retried)
    [] [] (now + 60)%Q (next_fault k) 0 now (last_requests k).

Definition after_fault (k : Soak) : Soak :=
  mkSoak (sequences k) (balances k) (writes k) (reads k) (checked k) (rounds k) (retries k)
    (latencies k) (read_latencies k) (next_status k) (next_fault k + 3600)%Q (interval_operations k) (interval_started k)
    (last_requests k).

Section RunSoak.
Context {W : Type} `{Probe W} `{Host W} `{!Methods W}.
Abbreviation PS := (P (W := W)).

Definition require_applied (requests : list Request) : PS unit :=
  for_do requests (fun request =>
    let! c := self in
    match dget (key_of request) (completed c) with
    | Some completion =>
        if negb (pyeqb (c_kind completion) (py "Applied")) then throw (RuntimeError "Request did not apply: {key}") else ret tt
    | None => throw (RuntimeError "Request did not apply: {key}")
    end).

Definition verify_range (first last : Z) (balances : list Z) : PS unit :=
  do! settle [];;
  do! expect_reads ((fun n => (n, balances_query balances)) <$> all_nodes) [(0%nat, 3); (1%nat, 3); (2%nat, 3)]
        (RuntimeError "Fenced account balances differ");;
  for_do (ranges 32 first last) (fun '(start, end_) =>
    let! responses := round [] false ((fun n => (n, range_query start end_)) <$> all_nodes) [] in
    if existsb (fun '(_, r) => negb (rows r =? end_ - start + 1)) responses
    then throw (RuntimeError "Exact transfer/audit mismatch in {start}..{end}") else ret tt).

(** The twelve draws of a wave. *)
Definition draw (k : Soak) : PS Wave :=
  for_each (seq 0 12) (fun _ wave =>
    let! r := os p_random in
    ret (if Qltb r point7 then draw_read wave else draw_transfer (writes k) wave))
    (mkWave [] 0 (sequences k) (balances k)).

(** Submitting a wave's transfers and timing their completions. *)
Definition soak_writes (k : Soak) (requests : list Request) : PS (list Q) :=
  let! before := os p_monotonic in
  match requests with
  | [] => ret (latencies k)
  | _ =>
      do! submit requests (Z.to_nat (rounds k mod 3)) all_nodes;;
      do! settle requests;;
      do! require_applied requests;;
      for_each requests (fun r acc =>
        let! c := self in
        let! first := lift (dindex (key_of r) (first_completion c)) in
        ret (acc ++ [1000 * (first - before)]%Q)) (latencies k)
  end.

Definition soak_reads (wave : Wave) : PS unit :=
  for_do (offsets (v_reads wave)) (fun offset =>
    let query := first_balance_query (default 0 (v_balances wave !! 0%nat)) in
    let! counts := fenced_reads ((fun n => (n, query)) <$> seq 0 (Z.to_nat (Z.min 3 (v_reads wave - offset)))) in
    if existsb (fun '(_, count) => negb (count =? 1)) counts
    then throw (RuntimeError "Ordered read missed an acknowledged write") else ret tt).

(** [event]: a line appended to the event file, and synced. *)
Definition event (events : pystr) (value : report) : PS unit :=
  let! utc := os h_utc in
  do! os_res (h_append_json events (Obj (dset (py "utc") (tstr utc) value)));;
  os_res (h_fsync events).

Definition sample_of (k : Soak) (c : Cluster) (started now : Q) : pyres report :=
  if Qeq_bool (now - interval_started k) 0 then Raise (ZeroDivisionError "float division by zero")
  else if existsb (fun r => match r with None => true | Some _ => false end) (remote_resources (remote c))
  then Raise (TypeError "'NoneType' object is not iterable")
  else Ok (fields [("type", tstr (py "interval")); ("elapsed_seconds", Num (now - started));
     ("operations", tint (reads k + writes k)); ("reads", tint (reads k)); ("writes", tint (writes k));
     ("verified_transfers", tint (checked k)); ("acknowledged_retries", tint (retries k));
     ("interval_operations_per_second", Num (inject_Z (interval_operations k) / (now - interval_started k)));
     ("write_latency_ms", Obj (soak_percentiles (latencies k)));
     ("read_latency_ms", Obj (soak_percentiles (read_latencies k)));
     ("voter_resources", Arr ((fun r => match r with Some x => J (res_record x) | None => tnone end) <$> remote_resources (remote c)));
     ("voter_cpu_seconds", Num (cpu_total c));
     ("peak_rss_bytes_per_voter", Arr ((fun r => match r with Some n => tint n | None => tnone end) <$> peak_rss c))]).

(** [atomic_json(output, report)] *)
Definition save_report (output : pystr) : PS unit :=
  let! rep := the_report in os_res (save_json true output rep).

Definition due (at_ : Q) : PS bool := let! now := os p_monotonic in ret (Qle_bool at_ now).

(** The interval's verification, acknowledged retries, sample and report. *)
Definition interval (events output : pystr) (started : Q) (k : Soak) : PS Soak :=
  do! verify_range (checked k + 1) (writes k) (balances k);;
  do! match last_requests k with
      | [] => ret tt
      | requests =>
          do! submit requests (Z.to_nat ((rounds k + 1) mod 3)) all_nodes;;
          do! settle requests;;
          require_applied requests
      end;;
  let retried := zlen (last_requests k) in
  let! now := os p_monotonic in
  let! c := self in
  let done := mkSoak (sequences k) (balances k) (writes k) (reads k) (writes k) (rounds k) (retries k + retried)
                (latencies k) (read_latencies k) (next_status k) (next_fault k) (interval_operations k) (interval_started k)
                (last_requests k) in
  let! sample := lift (sample_of done c started now) in
  do! event events sample;;
  do! note [("progress", Obj sample)];;
  do! save_report output;;
  do! os_do (h_print_json (Obj sample));;
  ret (after_interval k retried now).

(** An hourly kill of one voter and the read of its recovered prefix. *)
Definition hourly_fault (events : pystr) (started : Q) (k : Soak) : PS Soak :=
  let! now := os p_monotonic in
  let hours := (floor_q ((now - started) / 3600) - 1) mod 3 in
  let node := Z.to_nat hours in
  do! stop node;;
  do! start node false;;
  let query := first_balance_query (default 0 (balances k !! 0%nat)) in
  do! expect_reads [(node, query)] [(node, 1)] (RuntimeError "Restarted voter served stale state");;
  do! event events (fields [("type", tstr (py "hourly_voter_sigkill_recovery")); ("node", tint (hours + 1)); ("writes", tint (writes k))]);;
  ret (after_fault k).

(** One iteration of the loop. *)
Definition soak_step (events output : pystr) (started deadline : Q) (k : Soak) : PS Soak :=
  do! forget_completed;;
  let! wave := draw k in
  let! lat := soak_writes k (v_requests wave) in
  do! soak_reads wave;;
  let! c := self in
  let k := after_wave k wave lat (read_latencies k ++ read_latency_samples c) in
  if 100000 <? zlen (latencies k) + zlen (read_latencies k)
  then throw (RuntimeError "Interval latency sample budget exceeded")
  else
    let! status_due := due (next_status k) in
    let! over := (if status_due then ret true else due deadline) in
    let! k := (if over then interval events output started k else ret k) in
    let! fault_due := due (next_fault k) in
    let! room := (if fault_due then let! now := os p_monotonic in ret (Qltb now (deadline - 120)) else ret false) in
    if room then hourly_fault events started k else ret k.

(** The final kill of all three voters and the check of the recovered view. *)
Definition final_recovery (events : pystr) (k : Soak) : PS unit :=
  do! restart_all;;
  do! ticks 12;;
  do! verify_range (checked k + 1) (writes k) (balances k);;
  do! settle [];;
  let! responses := round_tick false in
  let prefixes := (fun '(_, r) => applied r) <$> responses in
  if negb (bool_decide (length (remove_dups prefixes) = 1%nat))
  then throw (RuntimeError "Final applied prefixes differ: {applied}")
  else
    do! event events (fields [("type", tstr (py "final_whole_cluster_sigkill_recovery"));
                              ("applied", Arr (tint <$> prefixes)); ("writes", tint (writes k))]);;
    note [("reads", tint (reads k)); ("writes", tint (writes k)); ("operations", tint (reads k + writes k));
                  ("acknowledged_retries", tint (retries k)); ("final_applied", Arr (tint <$> prefixes));
                  ("session_count", tint 13); ("expected_balances", Arr (tint <$> balances k))].

Definition run_soak (fuel : nat) (seconds seed : Z) (output : pystr) : PS unit :=
  let request := mkRequest 1 1 setup_sql in
  do! submit [request] 0 all_nodes;;
  do! settle [request];;
  do! require_applied [request];;
  do! os_do (p_seed seed);;
  let! started := os p_monotonic in
  let deadline := (started + inject_Z seconds)%Q in
  let! utc := os h_utc in
  let! epoch := os h_time in
  do! note [("status", tstr (py "running")); ("workload_started_utc", tstr utc);
            ("requested_workload_seconds", tint seconds);
            ("planned_workload_end_utc", Num (epoch + inject_Z seconds))];;
  do! save_report output;;
  let events := with_suffix output (py ".jsonl") in
  (** [open('x')] *)
  let! present := os (h_exists events) in
  if (present : bool) then throw (OSError "FileExistsError")
  else
    let first := mkSoak (replicate 12 0) opening 0 0 0 0 0 [] [] (started + 60) (started + 3600) 0 started [] in
    let! k := while_loop fuel (fun k =>
      let! over := due deadline in
      if over then ret (inr k) else let! k := soak_step events output started deadline k in ret (inl k)) first in
    let! now := os p_monotonic in
    let! utc := os h_utc in
    do! note [("workload_seconds", Num (now - started)); ("workload_finished_utc", tstr utc);
              ("status", tstr (py "final_recovery"))];;
    do! save_report output;;
    final_recovery events k.
End RunSoak.

(** ** main *)

Record SoakArgs := mkSoakArgs { a_config : pystr; a_phase : pystr; a_seconds : Z; a_seed : Z }.

(** [config[...]] of the parsed configuration file. *)
Definition config_of (v : pyval) : pyres Config :=
  let? root := vget "remote_root" v in let? root := vstr root in
  let? known := vget "known_hosts" v in let? known := vstr known in
  let? key := vget "ssh_key" v in let? key := vstr key in
  let? hosts := vget "hosts" v in let? hosts := py_iter hosts in let? hosts := try_map vstr hosts in
  let? results := vget "local_results" v in let? results := vstr results in
  Ok (mkConfig root known key hosts results).

(** What the host inspections must say. *)
Definition fstype_of (inspection : pyval) : pyres pyval :=
  let? fs := vget "filesystem" inspection in let? l := vget "filesystems" fs in
  let? first := vindex 0 l in vget "fstype" first.
Definition binary_of : pyval -> pyres pystr := fun v => let? x := vget "binary_sha256" v in vstr x.
Definition machine_of (v : pyval) : pyres pystr :=
  let? id := vget "identity" v in let? x := vget "/etc/machine-id" id in vstr x.

Definition check_inspections (inspections : list pyval) : pyres unit :=
  let? binaries := try_map binary_of inspections in
  do? guard (negb (bool_decide (length (remove_dups binaries) = 1%nat))) (RuntimeError "Voter binary fingerprints differ");;
  let? machines := try_map machine_of inspections in
  do? guard (negb (bool_decide (length (remove_dups machines) = 3%nat)))
        (RuntimeError "Three distinct Linux instance identities required");;
  let? types := try_map fstype_of inspections in
  guard (existsb (fun t => val_in t ["tmpfs"; "ramfs"]%string) types) (RuntimeError "Persistent filesystems required").

(** The offline audits against each other and against the acknowledged work. *)
Definition transfers_of (audit : pyval) : pyres Z :=
  let? counts := vget "counts" audit in let? n := vget "transfers" counts in vint n.
Definition hashes_of (audit : pyval) : pyres pyval := vget "logical_sha256" audit.

Definition check_audits (audits : list pyval) (expected_writes : Z) : pyres unit :=
  let? hashes := try_map hashes_of audits in
  let? first := list_index hashes 0 in
  do? guard (existsb (fun h => negb (same_hashes h first)) hashes) (RuntimeError "Offline logical state hashes differ across voters");;
  let? counts := try_map transfers_of audits in
  guard (existsb (fun n => negb (n =? expected_writes)) counts)
        (RuntimeError "Offline transfer count differs from acknowledged workload").

(** The sample of [exercise] as the report holds it. *)
Definition sample_report (s : Sample) : tv :=
  let latency l := Obj ((fun '(k, v) => (k, Num v)) <$> l) in
  Obj (fields [("operations", tint (s_operations s)); ("reads", tint (s_reads s)); ("writes", tint (s_writes s));
    ("seconds", Num (s_seconds s)); ("operations_per_second", Num (s_operations_per_second s));
    ("voter_cpu_seconds_timed", match s_voter_cpu_seconds s with Some q => Num q | None => tnone end);
    ("controller_boundary", tstr (py "closed-loop waves, at most 12 writes or 3 fenced reads outstanding"));
    ("read_latency_ms", latency (s_read_latency_ms s)); ("write_latency_ms", latency (s_write_latency_ms s));
    ("verified_transfers_including_fault_phases", tint (s_verified_transfers s));
    ("peak_rss_bytes_per_voter", Arr ((fun r => match r with Some n => tint n | None => tnone end) <$> s_peak_rss s));
    ("checks", Arr (tstr <$> s_checks s))]).

Section Main.
Context {W : Type} `{Probe W} `{Host W}.
Abbreviation PS := (P (W := W)).

Definition check_json (argv : list pystr) (timeout : Q) : PS pyval :=
  let! text := os_res (check_output argv [] (Some timeout)) in lift (loads text).

(** [RemoteCluster(config, phase)] *)
Definition new_cluster (config : Config) (phase : pystr) : PS unit :=
  do! update (fun c => set_remote (mkRemote [None; None; None] [0; 0; 0] (evidence (remote c)))
                         (Cluster_new [] (local_results config)));;
  Cluster_init (Methods0 := remote_methods config phase).

(** The body of the [try]: inspections, the workload, the audits.  [opened]
    tells the [finally] clause whether [cluster] is set. *)
Definition qualify (fuel : nat) (config : Config) (args : SoakArgs) (output : pystr) : PS Z :=
  let! inspections := for_each all_nodes (fun node acc =>
    let! v := check_json (command config node [py "inspect"]) 30 in ret (acc ++ [v])) [] in
  do! lift (check_inspections inspections);;
  do! note [("host_inspection", Arr (J <$> inspections))];;
  do! new_cluster config (a_phase args);;
  try_except
    (let! writes :=
       (if pyeqb (a_phase args) (py "smoke") then
          let! sample := exercise (Methods0 := remote_methods config (a_phase args)) 240 (a_seed args) true in
          do! note [("sample", sample_report sample)];;
          ret (s_verified_transfers sample)
        else
          do! run_soak (Methods0 := remote_methods config (a_phase args)) fuel (a_seconds args) (a_seed args) output;;
          let! c := self in
          match rget "writes" (evidence (remote c)) with
          | Some (J (PInt n)) => ret n
          | _ => throw (KeyError "writes")
          end) in
     do! remote_close;; ret writes)
    (** the [finally] clause's own [close], whose errors are recorded *)
    (fun e => Some (
      let! error := catching remote_close in
      do! match error with Some x => note [("cleanup_error", tstr (str_exn x))] | None => ret tt end;;
      throw e)).

Definition audit_all (config : Config) (args : SoakArgs) (writes : Z) : PS unit :=
  let! audits := for_each all_nodes (fun node acc =>
    let! v := check_json (command config node [py "audit"; a_phase args]) 300 in ret (acc ++ [v])) [] in
  do! lift (check_audits audits writes);;
  note [("complete", tbool true); ("status", tstr (py "passed")); ("offline_audits", Arr (J <$> audits))].

Definition soak_main (fuel : nat) (args : SoakArgs) : PS unit :=
  if negb ((30 <=? a_seconds args) && (a_seconds args <=? 28800))
  then throw (SystemExit (py "Workload duration must be 30 seconds through eight hours"))
  else
    let! value := os_res (read_json (a_config args)) in
    let! config := lift (config_of value) in
    let! limits := lift (vget "limits" value) in
    let output := join_path (local_results config) (a_phase args ++ py ".json") in
    do! os_res (h_mkdir (path_parent output));;
    let! present := os (h_exists output) in
    if (present : bool) then throw (SystemExit (py "Report already exists; do not overwrite evidence"))
    else
      let! utc := os h_utc in
      let! manifest := os_res (read_json (join_path (remote_root config) (py "manifest.json"))) in
      do! note [("complete", tbool false); ("status", tstr (py "preflight")); ("started_utc", tstr utc);
                ("hosts", Arr (tstr <$> hosts config));
                ("scope", tstr (py "three Linux instances, one fixed-membership durable voter each; authenticated SSH framed-pipe transport through a coordinator; not a native network service or proof of physical-host independence"));
                ("workload", tstr (py ("70/30 generated mixed point reads/transfers; " ++
                   if pyeqb (a_phase args) (py "smoke") then "distinct sessions for smoke fault cases"
                   else "twelve long-lived transfer sessions plus one schema session")%string));
                ("limits", J limits); ("seed", tint (a_seed args));
                ("phase", tstr (a_phase args)); ("manifest", J manifest)];;
      do! save_report output;;
      try_finally
        (try_except
          (let! writes := qualify fuel config args output in audit_all config args writes)
          (fun e => Some (do! note [("status", tstr (py "failed")); ("error", tstr (str_exn e))];; throw e)))
        (let! utc := os h_utc in
         do! note [("finished_utc", tstr utc)];;
         save_report output).
End Main.

(** * tools/check_process_cluster.py: main

    Argument checks, the voter's build, the persistent-filesystem check, the
    exercise, and the report; evidence of earlier runs is never overwritten. *)

Record ClusterArgs := mkClusterArgs {
  g_operations : Z; g_seed : Z; g_fenced : bool; g_individual_journal : bool; g_output : pystr; g_work_dir : option pystr
}.


Section Main.
Context {W : Type} `{Probe W} `{Host W} (ROOT : pystr).
Abbreviation PM := (P (W := W)).

Definition check_args (args : ClusterArgs) : PM unit :=
  if negb ((12 <=? g_operations args) && (g_operations args <=? 10000))
  then parser_error "operations must be between 12 and 10000"
  else
    let! present := os (h_exists (g_output args)) in
    if (present : bool) then parser_error "output exists; retain previous evidence and use a new path"
    else
      match g_work_dir args with
      | None => ret tt
      | Some work =>
          let! present := os (h_exists work) in
          if (present : bool) then parser_error "work directory exists; use a new isolated test directory" else ret tt
      end.

Definition build_command (args : ClusterArgs) (odin binary : pystr) : list pystr :=
  [odin; py "build"; join_path ROOT (py "internal/process_probe"); py (if h_linux then "-o:speed" else "-debug");
   py "-vet"; py "-strict-style";
   py (if g_individual_journal args then "-define:SQLODIN_JOURNAL_GROUP_COMMIT=false"
       else "-define:SQLODIN_JOURNAL_GROUP_COMMIT=true");
   py "-out:" ++ binary].

Definition work_directory (args : ClusterArgs) (data_root : pystr) : PM pystr :=
  match g_work_dir args with
  | Some work => do! os_res (h_mkdir work);; ret work
  | None => os_res (h_mkdtemp (py "run-") data_root)
  end.

(** The mount of the work directory; a durable workload refuses memory. *)
Definition check_filesystem (work : pystr) : PM pyval :=
  if h_linux then
    let! text := os_res (check_output [py "findmnt"; py "--json"; py "-T"; work; py "-o"; py "TARGET,FSTYPE,SOURCE,OPTIONS"] [] None) in
    let! filesystem := lift (loads text) in
    let! l := lift (vget "filesystems" filesystem) in
    let! first := lift (vindex 0 l) in
    let! fstype := lift (vget "fstype" first) in
    if val_in fstype ["tmpfs"; "ramfs"]%string
    then throw (RuntimeError "Durable disk workload refuses tmpfs/ramfs; select persistent --work-dir")
    else ret filesystem
  else ret PNone.

Definition run_report (args : ClusterArgs) (binary work : pystr) (filesystem : pyval) (sample : Sample) : PM report :=
  let! core := os (h_glob ROOT (py "src/**/*.odin")) in
  let! probe := os (h_glob ROOT (py "internal/process_probe/*.odin")) in
  let! utc := os h_utc in
  let! sources := os_res (manifest ROOT (core ++ probe ++ [join_path ROOT (py "tools/check_process_cluster.py")])) in
  let! digest := os_res (file_sha256 binary) in
  let! native := (if h_linux then os_res (read_json (join_path ROOT (py "build/native/build.json")))
                  else ret (PDict (mkdict [("sqlite", PStr (py "macOS platform library"))]))) in
  let! c := self in
  ret (fields [("complete", tbool true); ("run_at_utc", tstr utc);
    ("scope", tstr (py "one machine, three separate voter processes/directories; FULL durability; framed JSON/base64 pipe transport via parallel controller; bounded workload/fault test, not service capacity or power-loss qualification"));
    ("source_sha256", manifest_report sources);
    ("read_mode", tstr (py (if g_fenced args then "fenced" else "local"))); ("seed", tint (g_seed args));
    ("sample", sample_report sample); ("worker_pids", Arr (tint <$> pids c));
    ("journal_group_commit", tbool (negb (g_individual_journal args)));
    ("binary_sha256", tstr digest); ("filesystem", J filesystem); ("run_directory", tstr work);
    ("native_dependencies", J native)]).

Definition cluster_main (args : ClusterArgs) : PM unit :=
  do! check_args args;;
  let! scratch := os_res (h_mkdtemp (py "sqlodin-process-build-") []) in
  let binary := join_path scratch (py "worker") in
  let! odin := gets (fun s => default (py "odin") (h_getenv (py "ODIN") s.2)) in
  let! _ := os_res (run_checked (build_command args odin binary) ROOT None) in
  let data_root := join_path ROOT (py "build/process-checks") in
  do! os_res (h_mkdir data_root);;
  let! work := work_directory args data_root in
  let! filesystem := check_filesystem work in
  do! update (fun _ => Cluster_new binary work);;
  do! Cluster_init;;
  try_finally
    (let! sample := exercise (g_operations args) (g_seed args) (g_fenced args) in
     let! rep := run_report args binary work filesystem sample in
     do! os_res (h_mkdir (path_parent (g_output args)));;
     do! os_res (h_write_json (g_output args) (Obj rep));;
     os_do (h_print_json (sample_report sample)))
    (do! close;; os_res (h_remove scratch)).
End Main.
