(* ===== verification/Formal.v ===== *)
(** * Formal-check drivers and source checks: tools/check_formal.py,
    check_ci_formal.py, check_proofs.py and collect_formal_evidence.py;
    ci_changes.py, check_ci.py and check_style.py; check_contracts.py

    Each bounded TLA+ model is run once and must give exactly the result its
    case requires, a completed search or a named violation; the unbounded proofs
    must discharge all their obligations; the collector reuses only evidence of
    unchanged sources.  A pull request's paths select its checks.  The style
    checker accepts what a grammar of its own, independent of the code's tests,
    describes ([style_exact]); the contract fixtures come last. *)

From Stdlib Require Import QArith.
From S2P Require Import Prelude Unicode PyStr PyFloat Objects Json Vector Text Dict Host Script.
#[local] Open Scope Z_scope.

(** ** CASES *)

Record FormalCase := mkFormalCase { f_model : pystr; f_config : pystr; f_expected : option pystr }.
Definition case (model config : string) (expected : option string) : FormalCase :=
  mkFormalCase (py model) (py config) (py <$> expected).

Definition CASES : list FormalCase :=
  [
    case "ReadCohort" "ReadCohort" None;
    case "ReadCohort" "ReadCohortLateJoin" (Some "Invariant RealTimeOrder is violated"%string);
    case "ReadCohort" "ReadCohortEarly" (Some "Invariant AppliedBeforeSnapshot is violated"%string);
    case "ReadCohort" "ReadCohortCancel" (Some "Invariant MembersHaveBarrier is violated"%string);
    case "RotatingWindow" "RotatingConcurrent" None;
    case "RotatingWindow" "RotatingThreeWindows" None;
    case "RotatingWindow" "RotatingDown1" None;
    case "RotatingWindow" "RotatingDown2" None;
    case "RotatingWindow" "RotatingDown3" None;
    case "RotatingWindow" "RotatingNoSkip" (Some "Temporal properties were violated"%string);
    case "RotatingWindow" "RotatingNoRevoke" (Some "Temporal properties were violated"%string);
    case "RotatingWindow" "RotatingNoRelease" (Some "Temporal properties were violated"%string);
    case "RotatingWindow" "RotatingReuse" (Some "Invariant HeldSlot is violated"%string);
    case "SessionRetirement" "SessionRetirement" None;
    case "SessionRetirement" "SessionNoEpochGuard" (Some "Invariant AtMostOnce is violated"%string);
    case "SessionRetirement" "SessionLostEpoch" (Some "Invariant AtMostOnce is violated"%string);
    case "SessionRetirement" "SessionRepeatRetirement" (Some "Invariant CommandIdempotent is violated"%string);
    case "SessionRetirement" "SessionKeepRows" (Some "Invariant OnlyCurrentRows is violated"%string);
    case "RestoredGenesis" "RestoredGenesis" None;
    case "RestoredGenesis" "GenesisOldNamespace" (Some "Invariant FreshNamespace is violated"%string);
    case "RestoredGenesis" "GenesisMixedImages" (Some "Invariant CompatibleInitialState is violated"%string);
    case "RestoredGenesis" "GenesisEarlyReady" (Some "Invariant ReadyDurable is violated"%string);
    case "RestoredGenesis" "GenesisResetPrefix" (Some "Invariant RetryOriginsValid is violated"%string);
    case "ImageRetirement" "ImageRetirement" None;
    case "ImageRetirement" "ImageNoSuccessor" (Some "Invariant LatestQuorumRetained is violated"%string);
    case "ImageRetirement" "ImageNoCurrent" (Some "Invariant ActiveImageRetained is violated"%string);
    case "ImageRetirement" "ImageNoPrevious" (Some "Invariant PreviousImageRetained is violated"%string);
    case "GenerationRetirement" "GenerationRetirement" None;
    case "GenerationRetirement" "RetirementCurrent" (Some "Invariant CurrentRetained is violated"%string);
    case "GenerationRetirement" "RetirementPrevious" (Some "Invariant PreviousRetained is violated"%string);
    case "GenerationRetirement" "RetirementUnowned" (Some "Invariant UnownedUntouched is violated"%string);
    case "GenerationRetirement" "RetirementUnsynced" (Some "Invariant InventoryComplete is violated"%string);
    case "GenerationCatalog" "GenerationCatalog" None;
    case "GenerationCatalog" "GenerationEarlyPublish" (Some "Invariant PublishedDurable is violated"%string);
    case "GenerationCatalog" "GenerationLostVote" (Some "Invariant AcceptedSuffix is violated"%string);
    case "GenerationCatalog" "GenerationLostPromise" (Some "Invariant PromiseFence is violated"%string);
    case "GenerationCatalog" "GenerationReusedIDs" (Some "Invariant RequestIDs is violated"%string);
    case "OwnedSlot" "OwnedSlot" None;
    case "OwnedSlot" "OwnedSlotDown1" None;
    case "OwnedSlot" "OwnedSlotDown2" None;
    case "OwnedSlot" "OwnedSlotDown3" None;
    case "OwnedSlot" "OwnedSlotNoDurability" (Some "Invariant Agreement is violated"%string);
    case "RecoveryProgress" "RecoveryProgress" None;
    case "RecoveryProgress" "RecoveryNoProbe" (Some "Temporal properties were violated"%string);
    case "RecoveryProgress" "RecoveryOneChunk" (Some "Temporal properties were violated"%string);
    case "DurableEffects" "DurableEffects" None;
    case "DurableEffects" "DurableNoGate" (Some "Invariant DurableBeforeSend is violated"%string);
    case "SnapshotPublication" "SnapshotPublication" None;
    case "SnapshotPublication" "SnapshotNoGuard" (Some "Invariant Recoverable is violated"%string);
    case "ReadFence" "ReadFence" None;
    case "ReadFence" "ReadFenceReuse" (Some "Invariant RealTimeOrder is violated"%string);
    case "ReadFence" "ReadFenceNoApply" (Some "Invariant AppliedBeforeSnapshot is violated"%string);
    case "SnapshotIdentity" "SnapshotIdentity" None;
    case "SnapshotIdentity" "SnapshotMixedKeys" (Some "Invariant MatchingDurableQuorum is violated"%string);
    case "SnapshotIdentity" "SnapshotDuplicateVotes" (Some "Invariant MatchingDurableQuorum is violated"%string);
    case "SnapshotIdentity" "SnapshotVolatileReceipt" (Some "Invariant MatchingDurableQuorum is violated"%string);
    case "ManifestDurability" "ManifestDurability" None;
    case "ManifestDurability" "ManifestNoFileSync" (Some "Invariant SuccessSurvives is violated"%string);
    case "ManifestDurability" "ManifestNoDirectorySync" (Some "Invariant SuccessSurvives is violated"%string);
    case "OwnedSkip" "OwnedSkip" None;
    case "OwnedSkip" "OwnedSkipDown1" None;
    case "OwnedSkip" "OwnedSkipDown2" None;
    case "OwnedSkip" "OwnedSkipDown3" None;
    case "OwnedSkip" "OwnedSkipAnyRevoke" (Some "Invariant LearnedAgreement is violated"%string);
    case "OwnedSkip" "OwnedSkipAmnesia" (Some "Invariant LearnedAgreement is violated"%string);
    case "OwnedSkip" "OwnedSkipLearnUnvoted" (Some "Invariant LearnedAgreement is violated"%string);
    case "JournalCache" "JournalCache" None;
    case "JournalCache" "JournalApplyStaged" (Some "Invariant AckedRecoverable is violated"%string);
    case "JournalCache" "JournalTrimWithoutImage" (Some "Invariant AckedRecoverable is violated"%string);
    case "QuorumReadReconnect" "QuorumReadReconnect" None;
    case "QuorumReadReconnect" "QuorumReadConnectionCount" (Some "Invariant RealTimeOrder is violated"%string);
    case "QuorumRead" "QuorumRead" None;
    case "QuorumRead" "QuorumReadApplied" (Some "Invariant RealTimeOrder is violated"%string);
    case "QuorumRead" "QuorumReadNoPeers" (Some "Invariant RealTimeOrder is violated"%string)
  ].

Definition JAR_SHA256 : pystr := py "71ce43150b6ee0a76cc33849ec45b2c6ae4323dc933b0acaef0928668ed0de72".

(** ** check_formal.py: main *)

Record FormalArgs := mkFormalArgs {
  jar : option pystr; fa_output : pystr; fa_timeout : Z; heap_mib : Z; fa_workers : Z; selected : list pystr
}.

(** One entry of [report['cases']], and the report. *)
Record CaseReport := mkCaseReport {
  cr_case : FormalCase; cr_sources : list (pystr * pystr); cr_seconds : option Q;
  cr_exit_code : option Z; cr_timed_out : bool; cr_output : option pystr; cr_passed : bool
}.
Record FormalReport := mkFormalReport {
  fr_complete : bool; fr_passed : bool; fr_heap_mib : Z; fr_workers : Z;
  fr_cases : list CaseReport; fr_error : option pystr
}.

Definition case_entry (c : CaseReport) : tv :=
  Obj (fields ([("model", tstr (f_model (cr_case c))); ("config", tstr (f_config (cr_case c)));
    ("expected_violation", topt tstr (f_expected (cr_case c))); ("passed", tbool (cr_passed c));
    ("sources", manifest_report (cr_sources c))]%string
    ++ match cr_seconds c with Some q => [("seconds"%string, Num q)] | None => [] end
    ++ (if cr_timed_out c then [("timed_out"%string, tbool true)] else [])
    ++ match cr_exit_code c with Some n => [("exit_code"%string, tint n)] | None => [] end
    ++ match cr_output c with Some o => [("output"%string, tstr o)] | None => [] end)).
Definition formal_entry (r : FormalReport) : tv :=
  Obj (fields ([("complete", tbool (fr_complete r)); ("passed", tbool (fr_passed r));
    ("scope", tstr (py "bounded owned-decree and host-seam models; not a full multi-slot refinement proof"));
    ("tlc_sha256", tstr JAR_SHA256); ("heap_mib", tint (fr_heap_mib r)); ("workers", tint (fr_workers r));
    ("cases", Arr (case_entry <$> fr_cases r))]%string
    ++ match fr_error r with Some e => [("error"%string, tstr e)] | None => [] end)).

(** The result a case requires of TLC. *)
Definition case_passed (expected : option pystr) (code : Z) (out : pystr) : bool :=
  match expected with
  | Some violation => ((code =? 12) || (code =? 13)) && text_in violation out
  | None => (code =? 0) && text_in (py "Model checking completed. No error has been found.") out
            && text_in (py "0 states left on queue") out
  end.

Definition add_case (c : CaseReport) (r : FormalReport) : FormalReport :=
  mkFormalReport (fr_complete r) (fr_passed r) (fr_heap_mib r) (fr_workers r) (fr_cases r ++ [c]) (fr_error r).
(** [case.update(...)] on the entry just appended *)
Definition update_case (f : CaseReport -> CaseReport) (r : FormalReport) : FormalReport :=
  mkFormalReport (fr_complete r) (fr_passed r) (fr_heap_mib r) (fr_workers r)
    (match last (fr_cases r) with Some c => take (length (fr_cases r) - 1) (fr_cases r) ++ [f c] | None => [] end)
    (fr_error r).
Definition finish_report (r : FormalReport) : FormalReport :=
  mkFormalReport true true (fr_heap_mib r) (fr_workers r) (fr_cases r) (fr_error r).
Definition fail_report (e : exn) (r : FormalReport) : FormalReport :=
  mkFormalReport (fr_complete r) (fr_passed r) (fr_heap_mib r) (fr_workers r) (fr_cases r) (Some (repr_exn e)).

Definition timed_out_case (seconds : Q) (output : pystr) (c : CaseReport) : CaseReport :=
  mkCaseReport (cr_case c) (cr_sources c) (Some seconds) (cr_exit_code c) true (Some output) (cr_passed c).
Definition finished_case (seconds : Q) (code : Z) (out : pystr) (c : CaseReport) : CaseReport :=
  mkCaseReport (cr_case c) (cr_sources c) (Some seconds) (Some code) (cr_timed_out c) (Some out)
    (case_passed (f_expected (cr_case c)) code out).

(** [argparse]'s checks of the arguments, and the cases to run. *)
Definition known_names : list pystr := f_config <$> CASES.
Definition chosen_cases (names : list pystr) : list FormalCase :=
  filter (fun c => bool_decide (names = []) || str_in (f_config c) names) CASES.

Section Formal.
Context {W : Type} `{Host W} (ROOT : pystr).
Abbreviation F := (Sc (W := W) FormalReport).

(** The [sources] dict of a case: digests of its module and configuration. *)
Definition source_digests (names : list pystr) : Hm (W := W) (list (pystr * pystr)) :=
  for_each names (fun name acc =>
    let! digest := file_sha256 (join_path (join_path ROOT (py "specs")) name) in
    ret (dset name digest acc)) [].
Definition case_files (c : FormalCase) : list pystr := [f_model c ++ py ".tla"; f_config c ++ py ".cfg"].

Definition tlc_command (args : FormalArgs) (jar dir : pystr) (c : FormalCase) : list pystr :=
  [py "java"; py "-XX:+UseParallelGC"; fstr [L "-Xmx"; D (heap_mib args); L "m"]; py "-cp"; jar; py "tlc2.TLC";
   py "-deadlock"; py "-workers"; dec (fa_workers args); py "-metadir"; join_path dir (f_config c);
   py "-config"; f_config c ++ py ".cfg"; f_model c ++ py ".tla"].

(** One case: the result must be the required one; a timeout never passes. *)
Definition run_case (args : FormalArgs) (jar dir : pystr) (c : FormalCase) : F unit :=
  let! jar := on_host (gets (h_resolve jar)) in
  let! started := on_host (io h_monotonic) in
  let! sources := on_host (source_digests (case_files c)) in
  do! amend (add_case (mkCaseReport c sources None None false None false));;
  let! result :=
    try_except
      (on_host (io_res (h_run (tlc_command args jar dir c) (join_path ROOT (py "specs"))
                          (Some (inject_Z (fa_timeout args))))))
      (fun e => if isinstance e CTimeoutExpired
                then Some (let! output := on_host (gets h_timeout_output) in
                           let! now := on_host (io h_monotonic) in
                           do! amend (update_case (timed_out_case (now - started)%Q output));;
                           throw e)
                else None) in
  let out := stdout result ++ stderr result in
  let! now := on_host (io h_monotonic) in
  do! amend (update_case (finished_case (now - started)%Q (returncode result) out));;
  let passed := case_passed (f_expected c) (returncode result) out in
  do! on_host (print_line ((if passed then py "PASS " else py "FAIL ") ++ f_config c));;
  if passed then ret tt else throw (RuntimeError "Formal check {cfg} did not produce its required result").

Definition run_cases (args : FormalArgs) (jar : pystr) (cases : list FormalCase) : F unit :=
  let! dir := on_host (io_res (h_mkdtemp (py "sqlodin-tlc-") [])) in
  try_finally (for_do cases (run_case args jar dir)) (on_host (io_res (h_remove dir))).

Definition formal_report (args : FormalArgs) (jar : pystr) (cases : list FormalCase) : F unit :=
  do! on_host (io_res (h_mkdir (path_parent (fa_output args))));;
  writing (fa_output args) formal_entry
    (recording fail_report
       (do! run_cases args jar cases;; amend finish_report)).

Definition check_formal_args (args : FormalArgs) : Hm (W := W) pystr :=
  match jar args with
  | None => parser_error "Supply --jar or TLA2TOOLS_JAR (tla2tools v1.6.0, pinned SHA-256)"
  | Some jar =>
      let! file := io (h_is_file jar) in
      if negb file then parser_error "Supply --jar or TLA2TOOLS_JAR (tla2tools v1.6.0, pinned SHA-256)"
      else
        let! digest := file_sha256 jar in
        if negb (pyeqb digest JAR_SHA256) then parser_error "TLC artifact hash differs from the reviewed pin"
        else
          let! present := io (h_exists (fa_output args)) in
          if present || (fa_timeout args <? 1) || negb ((256 <=? heap_mib args) && (heap_mib args <=? 8192))
             || negb ((1 <=? fa_workers args) && (fa_workers args <=? 8))
          then parser_error "Use a new output path, positive timeout, heap 256..8192 MiB and 1..8 workers"
          else if existsb (fun name => negb (str_in name known_names)) (selected args)
          then parser_error "Unknown configuration name"
          else ret jar
  end.

Definition formal_main (args : FormalArgs) : Hm (W := W) unit :=
  let! jar := check_formal_args args in
  with_report (mkFormalReport false false (heap_mib args) (fa_workers args) [] None)
    (formal_report args jar (chosen_cases (selected args))).
End Formal.

(** * The other formal-check drivers: check_ci_formal.py, check_proofs.py and
    collect_formal_evidence.py

    The model selection of a pull request, the unbounded proofs with their
    obligation counts, and the collector that reuses only evidence of unchanged
    sources. *)

(** ** check_ci_formal.py *)

Definition SMOKE : list pystr := py <$> ["JournalCache"; "QuorumRead"; "QuorumReadReconnect"; "DurableEffects"]%string.

(** [configs]: the model of each configuration. *)
Definition configs : list (pystr * pystr) := foldl (fun d c => dset (f_config c) (f_model c) d) [] CASES.
Definition known : list pystr := f_model <$> CASES.

(** One changed path: the model it adds, if any. *)
Definition select_path (name : pystr) : pyres (option pystr) :=
  if negb (pyeqb (path_parent name) (py "specs")) then Ok None
  else
    match pyeqb (path_suffix name) (py ".cfg"), dget (path_stem name) configs with
    | true, Some model => Ok (Some model)
    | _, _ =>
        if pyeqb (path_suffix name) (py ".tla") && str_in (path_stem name) known then Ok (Some (path_stem name))
        else if str_in (path_suffix name) [py ".tla"; py ".cfg"]
        then Raise (SystemExit (name ++ py " has no bounded CI case. Register its model/config in tools/check_formal.py or supply its separate proof-checking workflow."))
        else Ok None
    end.

Fixpoint select_models (paths models : list pystr) : pyres (list pystr) :=
  match paths with
  | [] => Ok models
  | name :: rest =>
      let? model := select_path name in
      select_models rest (match model with Some x => x :: models | None => models end)
  end.

Definition select (paths : list pystr) : pyres (list pystr) :=
  let? models := select_models paths SMOKE in
  Ok (f_config <$> filter (fun c => str_in (f_model c) models) CASES).

(** [set(base) != {'0'}] of a non-empty base *)
Definition real_base (base : option pystr) : bool :=
  match base with Some b => negb (bool_decide (b = [])) && negb (forallb (Z.eqb 48) b) | None => false end.

Section CiFormal.
Context {W : Type} `{Host W} (ROOT executable : pystr).

Definition ci_command (chosen : list pystr) : list pystr :=
  [executable; py "tools/check_formal.py"; py "--jar"; py "build/tla2tools.jar"; py "--output"; py "build/formal-ci.json";
   py "--workers"; py "2"; py "--heap-mib"; py "2048"; py "--timeout"; py "180"]
  ++ (chosen ≫= (fun config => [py "--case"; config])).

Definition ci_formal_main (base : option pystr) (all : bool) : Hm (W := W) unit :=
  let! paths :=
    (if real_base base
     then let! text := check_output [py "git"; py "diff"; py "--name-only"; default [] base; py "HEAD"] [] None in
          ret (splitlines text)
     else ret []) in
  let! chosen := (if all then ret [] else lift (select paths)) in
  do! print_line (py "Formal configurations: " ++ (if bool_decide (chosen = []) then py "all" else join (py ", ") chosen));;
  let! _ := run_checked (ci_command chosen) [] None in
  ret tt.
End CiFormal.

(** ** check_proofs.py *)

Definition ARCHIVE : pystr := py "tlapm-1.6.0-pre-x86_64-linux-gnu.tar.gz".
Definition SHA256 : pystr := py "a2860384bc89c4c5b2c73ec367e29f44d829e4d4a2698ab295139f829219331c".
Definition VERSION : pystr := py "7824dab".

Inductive Proof_ := DurableHistoryProof | PrefixRecoveryProof | OwnedSkipProof.
Definition proof_name (p : Proof_) : string :=
  match p with
  | DurableHistoryProof => "DurableHistoryProof" | PrefixRecoveryProof => "PrefixRecoveryProof"
  | OwnedSkipProof => "OwnedSkipProof"
  end.
Definition expected_obligations (p : Proof_) : Z :=
  match p with DurableHistoryProof => 12 | PrefixRecoveryProof => 36 | OwnedSkipProof => 41 end.

Record ProofArgs := mkProofArgs { pa_tools : pystr; pa_output : pystr; pa_timeout : Z; pa_case : Proof_ }.

Definition obligation_counts (output : pystr) : list pystr :=
  findall_numbers (py "All ") (py " obligations proved.") output.
Definition discharged (p : Proof_) (code : Z) (output : pystr) : bool :=
  (code =? 0) && bool_decide (obligation_counts output = [dec (expected_obligations p)]).

Section Proofs.
Context {W : Type} `{Host W} (ROOT : pystr).
Abbreviation F := (Sc (W := W) report).

Definition check_proof_args (args : ProofArgs) : Hm (W := W) pystr :=
  let! present := io (h_exists (pa_output args)) in
  if present || (pa_timeout args <? 1) then parser_error "Choose a new output path and positive timeout"
  else
    let! digest := file_sha256 (join_path (pa_tools args) ARCHIVE) in
    if negb (pyeqb digest SHA256) then parser_error "Proof checker distribution checksum mismatch"
    else
      let! executable := gets (h_resolve (join_path (pa_tools args) (py "tlapm/bin/tlapm"))) in
      let! version := check_output [executable; py "--version"] [] None in
      if negb (pyeqb (strip version) VERSION) then parser_error "Unexpected proof checker revision: {version}"
      else ret executable.

Definition run_proof (args : ProofArgs) (executable source : pystr) : F unit :=
  let! work := on_host (io_res (h_mkdtemp (py "sqlodin-proof-") [])) in
  try_finally
    (let! text := on_host (io_res (h_read_text source)) in
     do! on_host (io_res (h_write_text (join_path work (path_name source)) text));;
     let! result := on_host (io_res (h_run [executable; py "--threads"; py "2"; path_name source] work
                                       (Some (inject_Z (pa_timeout args))))) in
     let output := stdout result ++ stderr result in
     do! amend (rupdate [("output", tstr output); ("exit_code", tint (returncode result))]);;
     if negb (discharged (pa_case args) (returncode result) output)
     then throw (RuntimeError "The full set of proof obligations was not discharged")
     else amend (rupdate [("complete", tbool true); ("passed", tbool true);
                          ("obligations", tint (expected_obligations (pa_case args)))]))
    (on_host (io_res (h_remove work))).

Definition proofs_main (args : ProofArgs) : Hm (W := W) unit :=
  let! executable := check_proof_args args in
  let source := join_path (join_path ROOT (py "specs")) (py (proof_name (pa_case args)) ++ py ".tla") in
  let! executable_sha256 := file_sha256 executable in
  let! source_sha256 := file_sha256 source in
  do! io_res (h_mkdir (path_parent (pa_output args)));;
  let! started := io h_monotonic in
  do! with_report (fields [("complete", tbool false); ("passed", tbool false);
        ("scope", tstr (py "unbounded durable-history/prefix seam and owned no-op determinacy; not a full consensus/refinement proof"));
        ("model", tstr (py (proof_name (pa_case args)))); ("tool_revision", tstr VERSION);
        ("distribution_sha256", tstr SHA256); ("executable_sha256", tstr executable_sha256);
        ("source_sha256", tstr source_sha256)])
      (writing (pa_output args) Obj
        (try_finally
          (recording (fun e => rupdate [("error", tstr (repr_exn e))]) (run_proof args executable source))
          (let! now := on_host (io h_monotonic) in
           amend (rupdate [("seconds", Num (now - started)%Q)]))));;
  print_line (fstr [L "PASS "; D (expected_obligations (pa_case args)); L " unbounded ";
                    L (proof_name (pa_case args)); L " proof obligations"]).
End Proofs.

(** ** collect_formal_evidence.py *)

(** [value in text] where [text] need not be a string *)
Definition text_has (sub : pystr) (v : pyval) : pyres bool :=
  match v with
  | PStr s => Ok (text_in sub s)
  | PList l => Ok (existsb (fun x => eq_str x sub) l)
  | PDict d => Ok (match dict_get sub d with Some _ => true | None => false end)
  | _ => Raise (TypeError "argument is not iterable")
  end.
(** [a and b] of a test and a fallible one *)
Definition and_then (a : bool) (b : pyres bool) : pyres bool := if a then b else Ok false.

(** [case.get(k)] of JSON data *)
Definition vfield (k : string) (v : pyval) : pyres pyval := vget_or k PNone v.
Definition eq_opt_str (v : pyval) (o : option pystr) : bool :=
  match v, o with PNone, None => true | PStr s, Some t => pyeqb s t | _, _ => false end.
Definition strings_value (entries : list (pystr * pystr)) : pyval := PDict ((fun '(k, v) => (k, PStr v)) <$> entries).

(** Whether one recorded case is a passing run of [c] on these sources. *)
Definition valid_result (c : FormalCase) (v : pyval) : pyres bool :=
  let? code := vfield "exit_code" v in
  let? output := vget_or "output" (PStr []) v in
  match f_expected c with
  | Some violation => and_then (eq_int code 12 || eq_int code 13) (text_has violation output)
  | None =>
      and_then (eq_int code 0)
        (let? a := text_has (py "No error has been found") output in
         and_then a (text_has (py "0 states left") output))
  end.
Definition case_matches (c : FormalCase) (sources : list (pystr * pystr)) (v : pyval) : pyres bool :=
  let? model := vfield "model" v in
  let? config := vfield "config" v in
  let? recorded := vfield "sources" v in
  let? passed := vfield "passed" v in
  let? expected := vfield "expected_violation" v in
  let? timed_out := vfield "timed_out" v in
  and_then (eq_str model (f_model c) && eq_str config (f_config c) && same_hashes recorded (strings_value sources)
            && truthy passed && eq_opt_str expected (f_expected c) && negb (truthy timed_out))
    (valid_result c v).

(** The recorded cases of one report that match. *)
Definition matching_cases (c : FormalCase) (sources : list (pystr * pystr)) (v : pyval) : pyres (list pyval) :=
  let? digest := vfield "tlc_sha256" v in
  if negb (eq_str digest JAR_SHA256) then Ok []
  else
    let? l := vget_or "cases" (PList []) v in
    let? cases := py_iter l in
    let? hits := try_map (fun x => let? b := case_matches c sources x in Ok (if (b : bool) then Some x else None)) cases in
    Ok (omap id hits).

Definition proof_matches (p : Proof_) (source : pystr) (v : pyval) : pyres bool :=
  let? model := vget_or "model" (PStr (py (proof_name p))) v in
  let? recorded := vfield "source_sha256" v in
  let? distribution := vfield "distribution_sha256" v in
  let? revision := vfield "tool_revision" v in
  let? passed := vfield "passed" v in
  let? code := vfield "exit_code" v in
  let? obligations := vfield "obligations" v in
  let? output := vget_or "output" (PStr []) v in
  and_then (eq_str model (py (proof_name p)) && eq_str recorded source && eq_str distribution SHA256
            && eq_str revision VERSION && truthy passed && eq_int code 0
            && eq_int obligations (expected_obligations p))
    (text_has (fstr [L "All "; D (expected_obligations p); L " obligations proved"]) output).

(** [result], as data of its own. *)
Record Evidence := mkEvidence { ev_report : pystr; ev_sha256 : pystr }.
Record Collected := mkCollected {
  co_missing : list pystr;
  co_cases : list (FormalCase * list (pystr * pystr) * list Evidence);
  co_proofs : list (Proof_ * pystr * list Evidence)
}.
Definition co_complete (r : Collected) : bool := bool_decide (co_missing r = []).
Definition evidence_entry (e : Evidence) : tv :=
  Obj (fields [("report", tstr (ev_report e)); ("report_sha256", tstr (ev_sha256 e))]).
Definition collected_entry (scope digest : pystr) (r : Collected) : tv :=
  Obj (fields [("complete", tbool (co_complete r));
    ("cases", Arr ((fun '(c, sources, evidence) =>
       Obj (fields [("model", tstr (f_model c)); ("config", tstr (f_config c)); ("sources", manifest_report sources);
                    ("expected_violation", topt tstr (f_expected c)); ("evidence", Arr (evidence_entry <$> evidence))])) <$> co_cases r));
    ("proofs", Arr ((fun '(p, source, evidence) =>
       Obj (fields [("model", tstr (py (proof_name p))); ("source_sha256", tstr source);
                    ("obligations", tint (expected_obligations p)); ("evidence", Arr (evidence_entry <$> evidence))])) <$> co_proofs r));
    ("missing", Arr (tstr <$> co_missing r)); ("scope", tstr scope); ("collector_sha256", tstr digest)]).

Section Collect.
Context {W : Type} `{Host W} (ROOT : pystr).

(** The readable reports of the evidence directory. *)
Definition read_reports (evidence : pystr) : Hm (W := W) (list (pystr * pyval)) :=
  let! paths := io (h_glob evidence (py "formal*.json")) in
  for_each (sort_paths paths) (fun path acc =>
    try_except (let! v := read_json path in ret (acc ++ [(path, v)]))
      (fun e => if isinstance e CValueError || isinstance e COSError then Some (ret acc) else None)) [].

Definition collect_case (reports : list (pystr * pyval)) (c : FormalCase) (r : Collected) : Hm (W := W) Collected :=
  let! sources := source_digests ROOT (case_files c) in
  let! matches := for_each reports (fun '(path, v) acc =>
    let! hits := lift (matching_cases c sources v) in
    for_each hits (fun _ acc => let! digest := file_sha256 path in ret (acc ++ [mkEvidence path digest])) acc) [] in
  ret (mkCollected (if bool_decide (matches = []) then co_missing r ++ [f_config c] else co_missing r)
         (co_cases r ++ [(c, sources, take 1 matches)]) (co_proofs r)).

Definition collect_proof (reports : list (pystr * pyval)) (p : Proof_) (r : Collected) : Hm (W := W) Collected :=
  let! source := file_sha256 (join_path (join_path ROOT (py "specs")) (py (proof_name p) ++ py ".tla")) in
  let! matches := for_each reports (fun '(path, v) acc =>
    let! hit := lift (proof_matches p source v) in
    if (hit : bool) then let! digest := file_sha256 path in ret (acc ++ [mkEvidence path digest]) else ret acc) [] in
  ret (mkCollected (if bool_decide (matches = []) then co_missing r ++ [py (proof_name p)] else co_missing r)
         (co_cases r) (co_proofs r ++ [(p, source, take 1 matches)])).

Definition collect (evidence : pystr) : Hm (W := W) Collected :=
  let! reports := read_reports evidence in
  let! r := for_each CASES (collect_case reports) (mkCollected [] [] []) in
  for_each [DurableHistoryProof; PrefixRecoveryProof] (collect_proof reports) r.

Definition collect_main (evidence output : pystr) : Hm (W := W) unit :=
  let! present := io (h_exists output) in
  do! lift (guard present (AssertionError ""));;
  let! digest := file_sha256 (join_path ROOT (py "tools/collect_formal_evidence.py")) in
  let! r := collect evidence in
  do! io_res (h_mkdir (path_parent output));;
  do! io_res (h_write_json output
        (collected_entry (py "reuse only source-identical successful checks; not a new TLC/TLAPS execution") digest r));;
  do! print_line (fstr [D (zlen (co_cases r)); L " model cases; ";
        D (zsum ((fun x => expected_obligations x.1.1) <$> co_proofs r)); L " inductive obligations; missing: ";
        T (join (py ", ") (co_missing r))]);;
  if co_complete r then ret tt else throw (SystemExit (py "1")).
End Collect.

(** * Theorems on the formal-check drivers

    check_formal.py reports a pass exactly when every chosen case produced its
    required result; the pull-request selection runs every configuration of
    every changed model; the collector is complete only with evidence for every
    case. *)

Section FormalSound.
Context {W : Type} `{Host W} (ROOT : pystr) (args : FormalArgs).

(** An entry of the report that is a run with the required result. *)
Definition required_result (c : CaseReport) : Prop :=
  cr_passed c = true /\ cr_timed_out c = false /\
  exists code out, cr_exit_code c = Some code /\ cr_output c = Some out /\
                   case_passed (f_expected (cr_case c)) code out = true.

Definition running (r : FormalReport) : Prop := fr_complete r = false /\ fr_passed r = false.

Lemma update_case_last f r c l :
  fr_cases r = l ++ [c] -> fr_cases (update_case f r) = l ++ [f c].
Proof.
  intros Hc. unfold update_case. cbn. rewrite Hc, last_snoc, length_app. cbn [length].
  replace (length l + 1 - 1)%nat with (length l + 0)%nat by lia. by rewrite take_app_add, take_0, app_nil_r.
Qed.

Lemma run_case_spec jar dir c (s : FormalReport * W) :
  running s.1 ->
  wp (run_case ROOT args jar dir c)
     (fun r s' => running s'.1 /\
        (r = Ok tt -> exists e, fr_cases s'.1 = fr_cases s.1 ++ [e] /\ cr_case e = c /\ required_result e)) s.
Proof.
  intros Hr. unfold run_case.
  apply wp_bind, wp_host_step. intros [jar'|e|] w; [|done..].
  apply wp_bind, wp_host_step. intros [started|e|] w2; [|done..].
  apply wp_bind, wp_host_step. intros [sources|e|] w3; [|done..].
  apply wp_bind, wp_amend. remember (mkCaseReport c sources None None false None false) as e0 eqn:He0.
  assert (Hr0 : running (add_case e0 s.1)) by done.
  assert (Hc0 : fr_cases (add_case e0 s.1) = fr_cases s.1 ++ [e0]) by done.
  apply wp_bind, wp_try_except, wp_host_step. intros [result|e|] w4; cbn beta iota; [| |done].
  - apply wp_bind, wp_host_step. intros [now|e|] w5; [|done..].
    apply wp_bind, wp_amend. apply wp_bind, wp_host_step. intros [u|e|] w6; [|done..]. cbn [fst snd].
    destruct (case_passed _ _ _) eqn:Hp; [|by apply wp_throw].
    apply wp_ret. cbn [fst snd]. split; [done|]. intros _. eexists.
    split; [by apply update_case_last|]. subst e0. cbn. split; [done|]. split; [done|]. split; [done|]. eauto.
  - destruct (isinstance e CTimeoutExpired); [|done].
    apply wp_bind, wp_host_step. intros [o|e'|] w5; [|done..].
    apply wp_bind, wp_host_step. intros [now|e'|] w6; [|done..].
    apply wp_bind, wp_amend, wp_throw. done.
Qed.

Lemma run_each_spec jar dir l (s : FormalReport * W) :
  running s.1 ->
  wp (for_do l (run_case ROOT args jar dir))
     (fun r s' => running s'.1 /\
        (r = Ok tt -> exists es, fr_cases s'.1 = fr_cases s.1 ++ es /\ cr_case <$> es = l /\ Forall required_result es)) s.
Proof.
  revert s. induction l as [|c l IH]; intros s Hr; cbn [for_do].
  { apply wp_ret. split; [done|]. intros _. exists []. by rewrite app_nil_r. }
  apply wp_bind. eapply wp_mono; [by apply run_case_spec|]. intros [[]|e|] s1 [Hr1 Hc]; [|done..].
  destruct (Hc eq_refl) as (e & He & Hce & Hreq). eapply wp_mono; [by apply IH|].
  intros r s2 [Hr2 Hok]. split; [done|]. intros Hrr. destruct (Hok Hrr) as (es & Hes & Hcs & Hall).
  exists (e :: es). rewrite Hes, He, <-app_assoc. split; [done|]. rewrite fmap_cons, Hce, Hcs. split; [done|]. by constructor.
Qed.

(** What the report says. *)
Definition sound (cases : list FormalCase) (r : FormalReport) : Prop :=
  fr_passed r = true ->
  fr_complete r = true /\ cr_case <$> fr_cases r = cases /\ Forall required_result (fr_cases r).

Lemma formal_body_spec jar cases (s : FormalReport * W) :
  running s.1 -> fr_cases s.1 = [] ->
  wp (recording fail_report (do! run_cases ROOT args jar cases;; amend finish_report))
     (fun r s' => sound cases s'.1 /\ (fr_passed s'.1 = true <-> r = Ok tt)) s.
Proof.
  intros Hr Hc. apply wp_recording, wp_bind. unfold run_cases.
  assert (Hno : forall r : FormalReport, running r -> forall r' : res exn unit, r' <> Ok tt ->
            sound cases r /\ (fr_passed r = true <-> r' = Ok tt)).
  { intros rep [H1 H2] r' Hn. unfold sound. rewrite H2. by split. }
  apply wp_bind, wp_host_step. intros [dir|e|] w; [|by apply (Hno (fail_report e s.1))|by apply Hno].
  apply wp_try_finally. eapply wp_mono; [by apply run_each_spec|].
  intros [[]|e|] s1 [Hr1 Hok]; cbn beta iota.
  - apply wp_host_step. intros [[]|e|] w2; cbn beta iota.
    + apply wp_amend. destruct (Hok eq_refl) as (es & Hes & Hcs & Hall). cbn [fst snd] in Hes. rewrite Hc in Hes.
      split; [|done]. intros _. cbn. by rewrite Hes.
    + by apply (Hno (fail_report e s1.1)).
    + by apply Hno.
  - apply wp_host_step. intros [[]|e'|] w2; cbn beta iota; first [by apply (Hno (fail_report e s1.1))
      |by apply (Hno (fail_report e' s1.1))|by apply Hno].
  - by apply Hno.
Qed.
End FormalSound.

(** Check_formal.py never reports a pass it did not see: once its report is
    opened, the report written on every path out, whatever the host does, says
    passed exactly when every chosen case ran, in order, to the result the
    case requires (a completed search with no state left, or TLC's exit codes
    12 and 13 with the named violation, and no timeout), and [main] succeeds
    only with such a report. *)
Theorem formal_sound {W} `{Host W} (ROOT : pystr) (args : FormalArgs) (jar : pystr) (w : W) :
  let initial := mkFormalReport false false (heap_mib args) (fa_workers args) [] None in
  wp (formal_report ROOT args jar (chosen_cases (selected args)))
     (fun r s =>
        s.1 = initial /\ r <> Ok tt \/
        (r = OutOfFuel \/ written (fa_output args) (formal_entry s.1) s.2) /\
        sound (chosen_cases (selected args)) s.1 /\ (r = Ok tt -> fr_passed s.1 = true))
     (initial, w).
Proof.
  intros initial. unfold formal_report.
  apply wp_bind, wp_host_step. intros [[]|e|] w1; [|by left..].
  eapply wp_mono; [apply (wp_writing _ _ _ (fun r rep => sound (chosen_cases (selected args)) rep /\ (fr_passed rep = true <-> r = Ok tt)));
    by apply formal_body_spec|].
  intros r s (r0 & (Hs & Hp) & Hw & Hr). right. split; [done|]. split; [done|].
  intros ->. apply Hp. by apply Hr.
Qed.

(** ** The pull-request selection *)

(** [specs/<stem>.<ext>] *)
Definition spec_file (name stem ext : pystr) : Prop :=
  name = py "specs" ++ 47 :: stem ++ 46 :: ext /\ 47 ∉ stem /\ stem <> [].

(** A changed path that is part of a bounded model: its module, or a
    configuration of one of its cases. *)
Definition touches (name model : pystr) : Prop :=
  (exists config, spec_file name config (py "cfg") /\ dget config configs = Some model) \/
  (spec_file name model (py "tla") /\ model ∈ known).

(** A changed module or configuration without any case. *)
Definition unregistered (name : pystr) : Prop :=
  exists stem, spec_file name stem (py "cfg") /\ dget stem configs = None \/
               spec_file name stem (py "tla") /\ stem ∉ known.

Lemma spec_file_parts name stem ext :
  47 ∉ ext -> 46 ∉ ext -> ext <> [] ->
  spec_file name stem ext <->
  path_parent name = py "specs" /\ path_suffix name = 46 :: ext /\ path_stem name = stem.
Proof.
  intros H1 H2 H3. pose proof (path_parts (py "specs") ext name stem H1 H2 H3) as Hp. unfold spec_file.
  assert (Hs : py "specs" <> []) by done. split.
  - intros (? & ? & ?). by destruct (proj2 Hp) as (? & ? & ? & ?).
  - intros (? & ? & ?). by destruct (proj1 Hp) as (? & ? & ? & ?).
Qed.

Lemma cfg_file name stem :
  spec_file name stem (py "cfg") <-> path_parent name = py "specs" /\ path_suffix name = py ".cfg" /\ path_stem name = stem.
Proof. apply spec_file_parts; [intros H; vm_compute in H; set_solver..|done]. Qed.
Lemma tla_file name stem :
  spec_file name stem (py "tla") <-> path_parent name = py "specs" /\ path_suffix name = py ".tla" /\ path_stem name = stem.
Proof. apply spec_file_parts; [intros H; vm_compute in H; set_solver..|done]. Qed.

Lemma select_path_spec name :
  match select_path name with
  | Ok (Some model) => touches name model
  | Ok None => ~ unregistered name /\ forall model, ~ touches name model
  | Raise e => unregistered name /\ class_of e = CSystemExit
  | OutOfFuel => False
  end.
Proof.
  assert (Hne : py ".cfg" <> py ".tla") by done.
  unfold select_path, unregistered, touches.
  destruct (pyeqb (path_parent name) (py "specs")) eqn:Hd; cbn [negb].
  2: { assert (path_parent name <> py "specs") by (intros E; rewrite E, pyeqb_refl in Hd; done).
       split; [intros (s & [[Hf _]|[Hf _]])|intros m [(c & Hf & _)|[Hf _]]]; rewrite ?cfg_file, ?tla_file in Hf; by destruct Hf. }
  apply pyeqb_eq in Hd.
  destruct (pyeqb (path_suffix name) (py ".cfg")) eqn:Hc;
    [apply pyeqb_eq in Hc|assert (path_suffix name <> py ".cfg") by (intros E; rewrite E, pyeqb_refl in Hc; done); clear Hc].
  - destruct (dget (path_stem name) configs) as [m|] eqn:Hg.
    { left. exists (path_stem name). by rewrite cfg_file. }
    assert (Ht : pyeqb (path_suffix name) (py ".tla") = false) by (rewrite Hc; done). rewrite Ht. cbn [andb].
    rewrite Hc. replace (str_in (py ".cfg") [py ".tla"; py ".cfg"]) with true by done.
    split; [|done]. exists (path_stem name). left. by rewrite cfg_file.
  - destruct (pyeqb (path_suffix name) (py ".tla")) eqn:Ht; cbn [andb].
    + apply pyeqb_eq in Ht. destruct (str_in (path_stem name) known) eqn:Hk.
      { apply str_in_spec in Hk. right. by rewrite tla_file. }
      assert (Hnk : path_stem name ∉ known) by (intros E; apply str_in_spec in E; congruence).
      rewrite Ht. replace (str_in (py ".tla") [py ".tla"; py ".cfg"]) with true by done.
      split; [|done]. exists (path_stem name). right. by rewrite tla_file.
    + assert (path_suffix name <> py ".tla") by (intros E; rewrite E, pyeqb_refl in Ht; done).
      destruct (str_in (path_suffix name) [py ".tla"; py ".cfg"]) eqn:Hi.
      { apply str_in_spec in Hi. apply elem_of_cons in Hi as [?|Hi]; [done|]. apply list_elem_of_singleton in Hi. done. }
      split; [intros (s & [[Hf _]|[Hf _]])|intros m [(c & Hf & _)|[Hf _]]]; rewrite ?cfg_file, ?tla_file in Hf;
        destruct Hf as (_ & ? & _); done.
Qed.

Lemma touches_unique name a b : touches name a -> touches name b -> a = b.
Proof.
  intros Ha Hb. assert (Hne : py ".cfg" <> py ".tla") by done. unfold touches in *.
  destruct Ha as [(c & Hf & Hg)|[Hf Hk]], Hb as [(c' & Hf' & Hg')|[Hf' Hk']]; rewrite ?cfg_file, ?tla_file in *;
    destruct Hf as (_ & Hs & <-), Hf' as (_ & Hs' & Hst); try (rewrite Hs in Hs'; done); congruence.
Qed.

Lemma touches_registered name model : touches name model -> ~ unregistered name.
Proof.
  intros Ht (stem & Hu). assert (Hne : py ".cfg" <> py ".tla") by done. unfold touches in *.
  destruct Ht as [(c & Hf & Hg)|[Hf Hk]], Hu as [[Hf' Hg']|[Hf' Hk']]; rewrite ?cfg_file, ?tla_file in *;
    destruct Hf as (_ & Hs & Hst), Hf' as (_ & Hs' & Hst'); try (rewrite Hs in Hs'; done); subst; congruence.
Qed.

Lemma select_models_spec paths models :
  match select_models paths models with
  | Ok l => (forall name, name ∈ paths -> ~ unregistered name) /\
            forall m, m ∈ l <-> m ∈ models \/ exists name, name ∈ paths /\ touches name m
  | Raise e => (exists name, name ∈ paths /\ unregistered name) /\ class_of e = CSystemExit
  | OutOfFuel => False
  end.
Proof.
  revert models. induction paths as [|name rest IH]; intros models; cbn [select_models].
  { split; [set_solver|]. intros m. set_solver. }
  pose proof (select_path_spec name) as Hn. destruct (select_path name) as [[m|]|e|]; cbn [res_bind]; [| |split; [|by apply Hn]; exists name; set_solver|done].
  - specialize (IH (m :: models)). destruct (select_models rest (m :: models)) as [l|e|]; [|set_solver|done].
    destruct IH as [Hr Hl]. split; [intros n [->|Hin]%elem_of_cons; [by eapply touches_registered|by apply Hr]|].
    intros m'. rewrite Hl. split.
    + intros [[->|Hin]%elem_of_cons|(n & Hin & Ht)]; [right; exists name; set_solver|by left|right; exists n; set_solver].
    + intros [Hin|(n & [->|Hin]%elem_of_cons & Ht)]; [set_solver|rewrite (touches_unique _ _ _ Ht Hn); set_solver|right; eauto].
  - destruct Hn as [Hr0 Ht0]. specialize (IH models). destruct (select_models rest models) as [l|e|]; [|set_solver|done].
    destruct IH as [Hr Hl]. split; [intros n [->|Hin]%elem_of_cons; [done|by apply Hr]|].
    intros m'. rewrite Hl. split; [set_solver|]. intros [Hin|(n & [->|Hin]%elem_of_cons & Ht)]; [by left|by destruct (Ht0 m')|right; eauto].
Qed.

(** A pull request runs, in the order of the table, every configuration of
    exactly the smoke models and the models whose module or configuration it
    changes; a changed module or configuration without a case stops the run. *)
Theorem select_exact (paths : list pystr) :
  (forall chosen, select paths = Ok chosen ->
     (forall name, name ∈ paths -> ~ unregistered name) /\
     exists cases, chosen = f_config <$> cases /\ cases `sublist_of` CASES /\
       forall c, c ∈ cases <->
         c ∈ CASES /\ (f_model c ∈ SMOKE \/ exists name, name ∈ paths /\ touches name (f_model c))) /\
  ((exists name, name ∈ paths /\ unregistered name) <-> exists message, select paths = Raise (SystemExit message)).
Proof.
  unfold select. pose proof (select_models_spec paths SMOKE) as Hm.
  destruct (select_models paths SMOKE) as [l|e|]; cbn [res_bind]; [| |done].
  - destruct Hm as [Hr Hl]. split.
    + intros chosen [= <-]. split; [done|]. eexists. split; [done|]. split; [apply sublist_filter|].
      intros c. rewrite list_elem_of_filter. rewrite Is_true_true, str_in_spec, Hl. tauto.
    + split; [|by intros [? [=]]]. intros (n & Hin & Hu). by destruct (Hr n Hin).
  - destruct Hm as [Hu He]. split; [done|]. split; [|done]. intros _. destruct e; try done. eauto.
Qed.

Lemma select_exact_witness :
  exists chosen, select [py "specs/ReadFence.tla"; py "README.md"] = Ok chosen /\ py "ReadFenceReuse" ∈ chosen /\
    forall name, name ∈ [py "specs/ReadFence.tla"; py "README.md"] -> ~ unregistered name.
Proof.
  eexists. split; [vm_compute; reflexivity|]. split; [apply str_in_spec; vm_compute; reflexivity|].
  destruct (select_exact [py "specs/ReadFence.tla"; py "README.md"]) as [Hok _]. eapply Hok. vm_compute. reflexivity.
Defined.

(** * Pull-request and source checks: tools/ci_changes.py, check_ci.py,
    check_style.py and check_contracts.py *)

(** ** ci_changes.py *)

Record Work := mkWork { w_native : bool; w_python : bool; w_formal : bool; w_upstream : bool }.

Definition formal_path (path : pystr) : bool :=
  str_in path [py "tools/check_formal.py"; py "tools/check_ci_formal.py"]
  || (starts_any [py "specs/"] path && ends_any [py ".tla"; py ".cfg"] path).
Definition ignored_path (path : pystr) : bool :=
  starts_any (py <$> ["docs/"; "specs/"; "benchmarks/results/"; ".github/ISSUE_TEMPLATE/"]%string) path
  || str_in path (py <$> ["README.md"; "CONTRIBUTING.md"; "LICENSE"; ".gitignore";
       ".github/PULL_REQUEST_TEMPLATE.md"; ".github/release-notes.md";
       "tools/build_site.py"; ".github/workflows/pages.yml"]%string).

Definition classify_path (work : Work) (path : pystr) : Work :=
  if bool_decide (path = []) then work
  else
    let upstream := w_upstream work || pyeqb path (py "deps/paxos-odin") || pyeqb path (py ".gitmodules") in
    if starts_any [py "languages/python/"] path then mkWork (w_native work) true (w_formal work) upstream
    else if formal_path path then mkWork (w_native work) (w_python work) true upstream
    else if ignored_path path then work
    else mkWork true true (w_formal work) upstream.
Definition classify (paths : list pystr) : Work := foldl classify_path (mkWork false false false false) paths.

Definition work_items (w : Work) : list (string * bool) :=
  [("native", w_native w); ("python", w_python w); ("formal", w_formal w); ("upstream", w_upstream w)].

Section Changes.
Context {W : Type} `{Host W}.

Definition changes_main (base : pystr) (head : pystr) (all : bool) (output : pystr) : Hm (W := W) unit :=
  let! selected :=
    (if all || bool_decide (base = []) || forallb (Z.eqb 48) base then ret (mkWork true true true true)
     else let! diff := check_output [py "git"; py "diff"; py "--name-only"; py "-z"; base; head] [] None in
          ret (classify (split_char 0 diff))) in
  for_do (work_items selected) (fun '(key, value) =>
    do! io_res (h_append output (py key ++ py "=" ++ py (if (value : bool) then "true" else "false") ++ [10]));;
    print_line (py key ++ py ": " ++ py (if value then "True" else "False"))).
End Changes.

(** ** check_ci.py *)

Section CheckCi.
Context {W : Type} `{Host W} (ROOT executable : pystr).
Definition OUT : pystr := join_path ROOT (py "build/ci").

Definition run_ci (command : list pystr) : Hm (W := W) unit :=
  let! _ := run_checked command ROOT (Some 600%Q) in ret tt.

Definition tests (package name : pystr) : Hm (W := W) unit :=
  let report := join_path OUT (name ++ py ".json") in
  do! io_res (h_remove report);;
  do! run_ci [py "odin"; py "test"; package; py "-debug"; py "-vet"; py "-strict-style"; py "-thread-count:4";
              py "-define:ODIN_TEST_THREADS=4"; py "-out:" ++ join_path OUT name;
              py "-define:ODIN_TEST_JSON_REPORT=" ++ report];;
  let! result := read_json report in
  let! total := lift (let? t := vget_or "total" (PInt 0) result in vint t) in
  let! success := lift (vget_or "success" PNone result) in
  if (total <=? 0) || negb (eq_int success total)
  then throw (SystemExit (py "Tests failed or ran no tests: " ++ report)) else ret tt.

Definition ci_main (upstream_only : bool) : Hm (W := W) unit :=
  if negb h_linux then throw (SystemExit (py "Run CI tests on Linux"))
  else
    do! io_res (h_mkdir OUT);;
    if upstream_only then tests (py "deps/paxos-odin/tests") (py "paxos")
    else
      do! tests (py "tests") (py "sqlodin");;
      do! run_ci [executable; py "tools/check_contracts.py"];;
      let simulator := join_path OUT (py "sim") in
      do! run_ci [py "odin"; py "build"; py "sim"; py "-o:minimal"; py "-vet"; py "-strict-style"; py "-out:" ++ simulator];;
      for_do [1; 3; 5] (fun nodes => run_ci [simulator; fstr [L "--nodes="; D nodes]; py "--seed=1"; py "--steps=1000"]).
End CheckCi.

(** ** check_style.py *)

Definition MAX_FILE_LINES : Z := 1408.
Definition HARD_COLUMNS : Z := 108.
Definition SOFT_COLUMNS : Z := 99.
Definition MAX_PROC_LOGIC_LINES : Z := 70.
Definition TAB : Z := 4.

Definition is_ascii_alpha (c : Z) : bool := ((65 <=? c) && (c <=? 90)) || ((97 <=? c) && (c <=? 122)).
Definition ident_start (c : Z) : bool := is_ascii_alpha c || (c =? 95).
Definition ident_char (c : Z) : bool := ident_start c || ((48 <=? c) && (c <=? 57)).

(** [^[A-Za-z_][A-Za-z0-9_]*\s*::\s*(?:#force_inline\s+)?proc\b]: every part ends
    where the next one begins, so the match needs no backtracking. *)
Definition proc_word (s : pystr) : bool :=
  match strip_prefix "proc" s with Some [] => true | Some (c :: _) => negb (is_word c) | None => false end.
Definition PROC_START (line : pystr) : bool :=
  match line with
  | c :: _ =>
      ident_start c &&
      match strip_prefix "::" (lstrip (span_class ident_char line).2) with
      | Some rest =>
          let rest := lstrip rest in
          match strip_prefix "#force_inline" rest with
          | Some after => negb (bool_decide ((span_class is_space after).1 = [])) && proc_word (lstrip after)
          | None => proc_word rest
          end
      | None => false
      end
  | [] => false
  end.

(** [^\s*//\s*[-=_*]{3,}\s*$] *)
Definition ornament_char (c : Z) : bool := (c =? 45) || (c =? 61) || (c =? 95) || (c =? 42).
Definition ORNAMENT (line : pystr) : bool :=
  match strip_prefix "//" (lstrip line) with
  | Some rest =>
      let '(run, rest) := span_class ornament_char (lstrip rest) in
      (3 <=? zlen run) && bool_decide (lstrip rest = [])
  | None => false
  end.

Definition is_logic (line : pystr) : bool :=
  let stripped := strip line in
  negb (bool_decide (stripped = []) || is_prefix (py "//") stripped || ORNAMENT line).
Definition logic_lines (body : list pystr) : Z :=
  foldl (fun count line => if is_logic line then count + 1 else count) 0 body.

Definition opens_proc (line : pystr) : bool :=
  PROC_START line && negb (ends_any [py "}"; py ")"; py ","] (rstrip line)).
Definition opens_body (line : pystr) : bool := ends_with (py "{") (rstrip line).
Definition closes_body (line : pystr) : bool := pyeqb line (py "}").

(** [while i < len(lines) and not p(lines[i]): i += 1] *)
Fixpoint skip_until (p : pystr -> bool) (lines : list pystr) (i : nat) : nat :=
  match lines with
  | [] => i
  | line :: rest => if p line then i else skip_until p rest (S i)
  end.
Definition scan_from (p : pystr -> bool) (lines : list pystr) (i : nat) : nat := skip_until p (drop i lines) i.

(** [lines[i].split('::')[0].strip()] *)
Definition proc_name (line : pystr) : pystr :=
  match find_sub (py "::") line with Some (before, _) => strip before | None => strip line end.

(** One procedure over the limit. *)
Record LongProc := mkLongProc { lp_line : nat; lp_name : pystr; lp_count : Z }.
Definition proc_problem (path : pystr) (p : LongProc) : pystr :=
  fstr [T path; L ":"; D (Z.of_nat (lp_line p)); L ": "; T (lp_name p); L " has "; D (lp_count p);
        L " lines of logic (limit "; D MAX_PROC_LOGIC_LINES; L ")"].

(** The loop of [check_procs]; [i] moves past a line at every iteration. *)
Fixpoint procs_from (fuel : nat) (lines : list pystr) (i : nat) : list LongProc :=
  match fuel with
  | O => []
  | S f =>
      match lines !! i with
      | None => []
      | Some line =>
          if opens_proc line then
            let j := scan_from opens_body lines i in
            if (length lines <=? j)%nat then []
            else
              let k := scan_from closes_body lines (S j) in
              let count := logic_lines (take (k - S j) (drop (S j) lines)) in
              (if MAX_PROC_LOGIC_LINES <? count then [mkLongProc (S i) (proc_name line) count] else [])
              ++ procs_from f lines (S k)
          else procs_from f lines (S i)
      end
  end.
Definition check_procs (path : pystr) (lines : list pystr) : list pystr :=
  proc_problem path <$> procs_from (S (length lines)) lines 0.

(** Lines over the hard and the soft limit, with their numbers. *)
Fixpoint wide_lines (path : pystr) (number : Z) (lines : list pystr) : list pystr * list pystr :=
  match lines with
  | [] => ([], [])
  | line :: rest =>
      let width := expanded_width TAB line in
      let '(problems, soft) := wide_lines path (number + 1) rest in
      if HARD_COLUMNS <? width
      then (fstr [T path; L ":"; D number; L ": "; D width; L " columns (hard limit "; D HARD_COLUMNS; L ")"] :: problems, soft)
      else if SOFT_COLUMNS <? width
      then (problems, fstr [T path; L ":"; D number; L ": "; D width; L " columns (soft limit "; D SOFT_COLUMNS; L ")"] :: soft)
      else (problems, soft)
  end.

Definition check_file (path : pystr) (lines : list pystr) : list pystr * list pystr :=
  let '(wide, soft) := wide_lines path 1 lines in
  ((if MAX_FILE_LINES <? zlen lines
    then [fstr [T path; L ": "; D (zlen lines); L " lines (limit "; D MAX_FILE_LINES; L ")"]] else [])
   ++ wide ++ check_procs path lines, soft).

Section Style.
Context {W : Type} `{Host W} (ROOT : pystr).

Definition style_file (path : pystr) (acc : list pystr * list pystr) : Hm (W := W) (list pystr * list pystr) :=
  let! text := io_res (h_read_text path) in
  let '(problems, soft) := check_file (relative_to ROOT path) (splitlines text) in
  ret (acc.1 ++ problems, acc.2 ++ soft).

Definition style_main (soft : bool) (bases : list pystr) : Hm (W := W) Z :=
  let! found := for_each bases (fun base acc =>
    let! paths := io (h_glob (join_path ROOT base) (py "**/*.odin")) in
    for_each (sort_paths paths) style_file acc) ([], []) in
  let '(problems, wide) := found in
  do! when (soft && negb (bool_decide (wide = [])))
        (print_line (py "Soft limit exceeded (wrap when convenient):" ++ [10; 32; 32] ++ join [10; 32; 32] wide));;
  if negb (bool_decide (problems = [])) then
    do! print_line (py "-- STYLE CONSTRAINT VIOLATED " ++ replicate 51 45);;
    do! print_line (join [10] ((fun p => [32; 32] ++ p) <$> problems));;
    do! print_line ([10] ++ py "Hint: split the file, wrap the line, or extract a helper procedure; see SOD 0001.");;
    ret 1
  else
    do! print_line (fstr [L "PASS style: files <= "; D MAX_FILE_LINES; L " lines, lines <= "; D HARD_COLUMNS;
                          L " columns, procedures <= "; D MAX_PROC_LOGIC_LINES; L " logic lines"]);;
    ret 0.
End Style.

(** * Theorems on the source checks

    check_style.py accepts a file exactly when it obeys the three limits for the
    procedures it measures. Which those are is said by a grammar of lines that
    does not use the program's functions: a procedure whose first line ends in a
    closing brace, a closing parenthesis or a comma, so one whose parameters run
    over several lines, is not measured. *)

Definition blank (s : pystr) : Prop := Forall (fun c => is_space c = true) s.
(** The last character of [line] that is not a space is [c]. *)
Definition last_char (line : pystr) (c : Z) : Prop :=
  exists before spaces, line = before ++ c :: spaces /\ is_space c = false /\ blank spaces.

(** A line that starts a procedure: a name, [::], [#force_inline] or nothing, and
    the word [proc]. *)
Inductive proc_header : pystr -> Prop :=
| proc_header_intro c name spaces spaces' inline tail :
    ident_start c = true -> Forall (fun x => ident_char x = true) name -> blank spaces -> blank spaces' ->
    (inline = [] \/ exists gap, gap <> [] /\ blank gap /\ inline = py "#force_inline" ++ gap) ->
    (tail = [] \/ exists d rest, tail = d :: rest /\ is_word d = false) ->
    proc_header ((c :: name) ++ spaces ++ py "::" ++ spaces' ++ inline ++ py "proc" ++ tail).

Definition measured (line : pystr) : Prop :=
  proc_header line /\ ~ (last_char line 125 \/ last_char line 41 \/ last_char line 44).
Definition opening (line : pystr) : Prop := last_char line 123.
Definition closing (line : pystr) : Prop := line = [125].
(** A line of logic is neither blank nor a comment; an ornamental line is a comment. *)
Definition logic_line (line : pystr) : Prop :=
  ~ (blank line \/ exists spaces text, blank spaces /\ line = spaces ++ py "//" ++ text).

(** A procedure: its first line's number, and the lines of its body. *)
Record Procedure := mkProcedure { p_line : nat; p_start : pystr; p_body : list pystr }.

(** The measured procedures of lines [n], [n + 1], ...: the body begins after the
    first line ending in an opening brace and lasts to a closing brace alone on
    its line, or to the end. *)
Inductive procedures : nat -> list pystr -> list Procedure -> Prop :=
| procedures_end n : procedures n [] []
| procedures_other n line rest ps :
    ~ measured line -> procedures (S n) rest ps -> procedures n (line :: rest) ps
| procedures_unopened n line rest :
    measured line -> Forall (fun l => ~ opening l) (line :: rest) -> procedures n (line :: rest) []
| procedures_last n line rest header open body :
    measured line -> line :: rest = header ++ open :: body ->
    Forall (fun l => ~ opening l) header -> opening open -> Forall (fun l => ~ closing l) body ->
    procedures n (line :: rest) [mkProcedure (S n) line body]
| procedures_proc n line rest header open body close rest' ps :
    measured line -> line :: rest = header ++ open :: body ++ close :: rest' ->
    Forall (fun l => ~ opening l) header -> opening open -> Forall (fun l => ~ closing l) body -> closing close ->
    procedures (n + length header + length body + 2) rest' ps ->
    procedures n (line :: rest) (mkProcedure (S n) line body :: ps).

(** The number of lines of logic. *)
Inductive logic_count : list pystr -> Z -> Prop :=
| logic_count_none : logic_count [] 0
| logic_count_line line body n : logic_line line -> logic_count body n -> logic_count (line :: body) (n + 1)
| logic_count_skip line body n : ~ logic_line line -> logic_count body n -> logic_count (line :: body) n.

(** *** The program's tests on a line are those of the grammar *)

Lemma lstrip_split s : exists spaces, s = spaces ++ lstrip s /\ blank spaces.
Proof.
  induction s as [|c s (spaces & IH & HF)]; cbn [lstrip].
  { exists []. split; [done|constructor]. } destruct (is_space c) eqn:E.
  - exists (c :: spaces). split; [cbn; by f_equal|by constructor].
  - exists []. split; [done|constructor].
Qed.
Lemma lstrip_blank spaces s : blank spaces -> lstrip (spaces ++ s) = lstrip s.
Proof. intros HF. induction HF as [|c spaces Hc _ IH]; cbn [app lstrip]; [done|by rewrite Hc]. Qed.
Lemma lstrip_solid c s : is_space c = false -> lstrip (c :: s) = c :: s.
Proof. intros Hc. cbn [lstrip]. by rewrite Hc. Qed.
Lemma lstrip_py p s : match py p with c :: _ => is_space c | [] => true end = false -> lstrip (py p ++ s) = py p ++ s.
Proof. destruct (py p) as [|c t]; [done|]. apply lstrip_solid. Qed.
Lemma lstrip_nil s : lstrip s = [] <-> blank s.
Proof.
  split; [|intros HF; by rewrite <-(app_nil_r s), lstrip_blank].
  intros E. destruct (lstrip_split s) as (spaces & -> & HF). by rewrite E, app_nil_r.
Qed.
Lemma ident_char_solid c : ident_char c = true -> is_space c = false.
Proof.
  intros H. assert (Hc : 48 <= c <= 122).
  { unfold ident_char, ident_start, is_ascii_alpha in H. lia. }
  unfold is_space, in_ranges, space_ranges. cbn [existsb]. lia.
Qed.
Lemma rstrip_split s : exists spaces, s = rstrip s ++ spaces /\ blank spaces.
Proof.
  destruct (lstrip_split (reverse s)) as (spaces & E & HF). exists (reverse spaces). split; [|by apply Forall_reverse].
  apply (f_equal reverse) in E. rewrite reverse_involutive, reverse_app in E. exact E.
Qed.

Lemma last_char_ends line c : is_space c = false -> ends_with [c] (rstrip line) = true <-> last_char line c.
Proof.
  intros Hc. unfold ends_with, rstrip, last_char. rewrite reverse_involutive, is_prefix_spec. cbn [reverse rev_append app]. split.
  - intros [t E]. destruct (lstrip_split (reverse line)) as (spaces & El & HF). rewrite E in El.
    exists (reverse t), (reverse spaces). split; [|by split; [|apply Forall_reverse]].
    apply (f_equal reverse) in El. rewrite reverse_involutive, reverse_app, reverse_cons, <-app_assoc in El. exact El.
  - intros (before & spaces & -> & _ & HF). exists (reverse before).
    rewrite reverse_app, reverse_cons, <-app_assoc, lstrip_blank by by apply Forall_reverse. by apply lstrip_solid.
Qed.

Lemma proc_word_spec s :
  proc_word s = true <-> exists tail, s = py "proc" ++ tail /\ (tail = [] \/ exists d rest, tail = d :: rest /\ is_word d = false).
Proof.
  unfold proc_word. destruct (strip_prefix "proc" s) as [tail|] eqn:E.
  - apply strip_prefix_Some in E as ->. split.
    + intros H. exists tail. split; [done|]. destruct tail as [|d rest]; [by left|]. right. exists d, rest. by apply negb_true_iff in H.
    + intros (t & <-%app_inv_head & [->|(d & rest & -> & Hd)]); [done|by rewrite Hd].
  - split; [done|]. intros (tail & E' & _). apply strip_prefix_Some in E'. congruence.
Qed.

Lemma PROC_START_spec line : PROC_START line = true <-> proc_header line.
Proof.
  split.
  - unfold PROC_START. destruct line as [|c s]; [done|]. intros [Hc H]%andb_true_iff.
    destruct (strip_prefix "::" _) as [rest|] eqn:E1; [|done]. apply strip_prefix_Some in E1.
    cbn [span_class] in E1. assert (Hic : ident_char c = true) by (unfold ident_char; by rewrite Hc).
    rewrite Hic in E1. destruct (span_class_forall ident_char s) as [Es Hn].
    destruct (span_class ident_char s) as [name after]. cbn [fst snd] in *.
    destruct (lstrip_split after) as (sp & Ea & Hsp). rewrite E1 in Ea. destruct (lstrip_split rest) as (sp' & Er & Hsp').
    destruct (strip_prefix "#force_inline" (lstrip rest)) as [more|] eqn:E2.
    + apply strip_prefix_Some in E2. apply andb_true_iff in H as [Hne Hp]. apply proc_word_spec in Hp as (tail & Hp & Ht).
      destruct (lstrip_split more) as (gap & Em & Hg). rewrite Hp in Em. rewrite E2, Em in Er. rewrite Er in Ea. rewrite Ea in Es.
      rewrite Es. assert (Hgap : gap <> []).
      { intros ->. apply negb_true_iff, bool_decide_eq_false in Hne. apply Hne. rewrite Em. done. }
      rewrite (app_assoc (py "#force_inline") gap). apply (proc_header_intro c name sp sp' (py "#force_inline" ++ gap) tail); try done.
      right. by exists gap.
    + apply proc_word_spec in H as (tail & Hp & Ht). rewrite Hp in Er. rewrite Er in Ea. rewrite Ea in Es. rewrite Es.
      apply (proc_header_intro c name sp sp' [] tail); try done. by left.
  - intros [c name sp sp' inline tail Hc Hn Hsp Hsp' Hi Ht]. unfold PROC_START. cbn [app]. rewrite Hc. cbn [andb].
    assert (Hic : ident_char c = true) by (unfold ident_char; by rewrite Hc).
    assert (Hm : forall p x, strip_prefix p (py p ++ x) = Some x) by (intros p x; by apply strip_prefix_Some).
    assert (Hw : proc_word (py "proc" ++ tail) = true) by (apply proc_word_spec; by exists tail).
    rewrite app_comm_cons, span_class_run; [|by constructor|].
    2: { right. destruct Hsp as [|d sp Hd Hsp]; [by eexists _, _|]. exists d. eexists. split; [done|].
         destruct (ident_char d) eqn:E; [|done]. by rewrite (ident_char_solid d) in Hd. }
    cbn [snd]. rewrite lstrip_blank by done. rewrite lstrip_py by done. rewrite Hm, lstrip_blank by done.
    destruct Hi as [->|(gap & Hgap & Hg & ->)].
    + cbn [app]. rewrite lstrip_py by done. exact Hw.
    + rewrite <-(app_assoc (py "#force_inline")), lstrip_py by done. rewrite Hm, lstrip_blank, lstrip_py by done. rewrite Hw.
      destruct Hg as [|d gap Hd Hg]; [done|]. cbn [app span_class]. rewrite Hd. by destruct (span_class is_space _).
Qed.
Lemma opens_proc_spec line : opens_proc line = true <-> measured line.
Proof.
  unfold opens_proc, measured, ends_any. cbn [existsb]. rewrite andb_true_iff, negb_true_iff, PROC_START_spec, orb_false_r.
  rewrite <-not_true_iff_false, !orb_true_iff.
  change (py "}") with [125]. change (py ")") with [41]. change (py ",") with [44]. rewrite !last_char_ends by done. tauto.
Qed.
Lemma opens_body_spec line : opens_body line = true <-> opening line.
Proof. by apply last_char_ends. Qed.
Lemma closes_body_spec line : closes_body line = true <-> closing line.
Proof. unfold closes_body, pyeqb. by rewrite bool_decide_eq_true. Qed.

(** A comment is one whatever the spaces at its end. *)
Lemma comment_strip line :
  is_prefix (py "//") (strip line) = true <-> exists spaces text, blank spaces /\ line = spaces ++ py "//" ++ text.
Proof.
  change (strip line) with (rstrip (lstrip line)). rewrite is_prefix_spec. split.
  - intros [t E]. destruct (lstrip_split line) as (spaces & El & HF), (rstrip_split (lstrip line)) as (spaces' & Er & _).
    exists spaces, (t ++ spaces'). split; [done|]. rewrite El at 1. f_equal. by rewrite Er, E, <-app_assoc at 1.
  - intros (spaces & text & HF & ->). rewrite lstrip_blank, lstrip_py by done.
    destruct (rstrip_split (py "//" ++ text)) as (spaces' & E & HF').
    destruct (rstrip (py "//" ++ text)) as [|a [|b t]].
    + cbn in E. subst spaces'. by inversion HF'.
    + injection E as <- E. subst spaces'. by inversion HF'.
    + injection E as <- <- _. by exists t.
Qed.
Lemma strip_nil line : strip line = [] <-> blank line.
Proof.
  change (strip line) with (rstrip (lstrip line)). split; [|intros ->%lstrip_nil; done].
  intros E. destruct (rstrip_split (lstrip line)) as (spaces & El & HF). rewrite E in El. cbn in El.
  destruct (lstrip_split line) as (before & -> & HF'). rewrite El. by apply Forall_app.
Qed.
Lemma is_logic_spec line : is_logic line = true <-> logic_line line.
Proof.
  unfold is_logic, logic_line. rewrite <-comment_strip, <-strip_nil.
  assert (Ho : ORNAMENT line = true -> is_prefix (py "//") (strip line) = true).
  { rewrite comment_strip. unfold ORNAMENT. destruct (strip_prefix "//" (lstrip line)) as [rest|] eqn:E; [|done]. intros _.
    apply strip_prefix_Some in E. destruct (lstrip_split line) as (spaces & El & HF). exists spaces, rest. by rewrite El, E at 1. }
  rewrite negb_true_iff, <-not_true_iff_false, !orb_true_iff, bool_decide_eq_true. tauto.
Qed.

Lemma logic_lines_cons line body : logic_lines (line :: body) = (if is_logic line then 1 else 0) + logic_lines body.
Proof.
  unfold logic_lines. cbn [foldl].
  assert (Hc : forall l n, foldl (fun count line => if is_logic line then count + 1 else count) n l
                           = n + foldl (fun count line => if is_logic line then count + 1 else count) 0 l).
  { induction l as [|x l IH]; intros n; cbn [foldl]; [lia|]. rewrite IH, (IH (if is_logic x then 0 + 1 else 0)). destruct (is_logic x); lia. }
  rewrite Hc. by destruct (is_logic line).
Qed.
Lemma logic_lines_count body n : logic_count body n <-> logic_lines body = n.
Proof.
  split.
  - intros H. induction H as [|line body n Hl _ IH|line body n Hl _ IH]; [done|..]; rewrite logic_lines_cons, IH.
    + apply is_logic_spec in Hl as ->. lia.
    + destruct (is_logic line) eqn:E; [by apply is_logic_spec in E|lia].
  - intros <-. induction body as [|line body IH]; [constructor|]. rewrite logic_lines_cons.
    destruct (is_logic line) eqn:E; [rewrite Z.add_comm; constructor; [by apply is_logic_spec|done]|].
    constructor; [|done]. rewrite <-is_logic_spec. congruence.
Qed.
Definition logic (p : Procedure) : Z := logic_lines (p_body p).

(** The first line with a property, when there is one, is one line. *)
Lemma first_unique {A} (P : A -> Prop) l m x y r s :
  Forall (fun a => ~ P a) l -> P x -> Forall (fun a => ~ P a) m -> P y -> l ++ x :: r = m ++ y :: s -> l = m /\ x = y /\ r = s.
Proof.
  intros Hl Hx Hm Hy. revert m Hm. induction Hl as [|a l Ha _ IH]; intros m Hm; destruct Hm as [|b m Hb Hm]; cbn [app]; intros [= -> E]; subst; try done.
  by destruct (IH m Hm E) as (-> & -> & ->).
Qed.
Lemma first_absent {A} (P : A -> Prop) l m y s : Forall (fun a => ~ P a) l -> P y -> l <> m ++ y :: s.
Proof. intros Hl Hy ->. apply Forall_app in Hl as [_ Hl]. by inversion Hl. Qed.

Lemma procedures_unique n l ps qs : procedures n l ps -> procedures n l qs -> qs = ps.
Proof.
  intros H. revert qs. induction H as [n|n line rest ps Hm _ IH|n line rest Hm Hall|n line rest h o b Hm E Hh Ho Hb|n line rest h o b c rest' ps Hm E Hh Ho Hb Hc _ IH];
    intros qs Hq; inversion Hq as [|? ? ? ? Hm' Hr|? ? ? Hm' Hall'|? ? ? h' o' b' Hm' E' Hh' Ho' Hb'|? ? ? h' o' b' c' r' ps' Hm' E' Hh' Ho' Hb' Hc' Hr]; subst; try done;
    try (by apply IH); try (by rewrite E' in Hall; destruct (first_absent opening _ h' o' _ Hall Ho' eq_refl));
    try (by rewrite E in Hall'; destruct (first_absent opening _ h o _ Hall' Ho eq_refl));
    rewrite E in E'; apply (first_unique opening) in E' as (<- & <- & E'); try done.
  - by subst.
  - destruct (first_absent closing b b' c' r' Hb Hc' E').
  - symmetry in E'. destruct (first_absent closing b' b c rest' Hb' Hc E').
  - apply (first_unique closing) in E' as (<- & <- & <-); try done. f_equal. by apply IH.
Qed.

Lemma skip_until_split p (P : pystr -> Prop) (HP : forall l, p l = true <-> P l) l i :
  (exists pre x post, l = pre ++ x :: post /\ Forall (fun l => ~ P l) pre /\ P x /\ skip_until p l i = (i + length pre)%nat) \/
  (Forall (fun l => ~ P l) l /\ skip_until p l i = (i + length l)%nat).
Proof.
  revert i. induction l as [|x l IH]; intros i; cbn [skip_until]; [right; split; [constructor|cbn; lia]|].
  destruct (p x) eqn:Hp.
  { left. exists [], x, l. split; [done|]. split; [constructor|]. split; [by apply HP|cbn; lia]. }
  assert (Hx : ~ P x) by (rewrite <-HP; congruence).
  destruct (IH (S i)) as [(pre & y & post & -> & Hpre & Hy & ->)|[Hall ->]].
  - left. exists (x :: pre), y, post. repeat split; [by constructor|done|cbn; lia].
  - right. split; [by constructor|cbn; lia].
Qed.

Definition over_limit (p : Procedure) : option LongProc :=
  if MAX_PROC_LOGIC_LINES <? logic p then Some (mkLongProc (p_line p) (proc_name (p_start p)) (logic p)) else None.

Lemma scan_split p before l :
  scan_from p (before ++ l) (length before) = skip_until p l (length before).
Proof. unfold scan_from. by rewrite drop_app_length. Qed.

Lemma procs_from_spec fuel before l :
  (length l < fuel)%nat ->
  exists ps, procedures (length before) l ps /\ procs_from fuel (before ++ l) (length before) = omap over_limit ps.
Proof.
  revert before l. induction fuel as [|f IH]; intros before l Hf; [lia|]. cbn [procs_from].
  destruct l as [|line rest].
  { exists []. split; [constructor|]. rewrite app_nil_r, lookup_ge_None_2 by lia. done. }
  rewrite list_lookup_middle by done. cbn [length] in Hf. destruct (opens_proc line) eqn:Ho; [apply opens_proc_spec in Ho|].
  2: { destruct (IH (before ++ [line]) rest ltac:(lia)) as (ps & Hps & Heq). exists ps.
       rewrite length_app, Nat.add_1_r in Hps, Heq. split; [apply procedures_other; [rewrite <-opens_proc_spec; congruence|done]|].
       rewrite <-Heq, <-app_assoc. done. }
  rewrite scan_split. destruct (skip_until_split opens_body opening opens_body_spec (line :: rest) (length before))
    as [(header & open & tail & Hl & Hh & Hop & ->)|[Hall ->]].
  2: { exists []. split; [by apply procedures_unopened|]. destruct (Nat.leb_spec (length (before ++ line :: rest)) (length before + length (line :: rest))); [done|].
       rewrite length_app in *. lia. }
  rewrite Hl. destruct (Nat.leb_spec (length (before ++ header ++ open :: tail)) (length before + length header));
    [rewrite !length_app in *; cbn in *; lia|].
  replace (before ++ header ++ open :: tail) with ((before ++ header ++ [open]) ++ tail) by (rewrite <-!app_assoc; done).
  assert (Hn : S (length before + length header) = length (before ++ header ++ [open])) by (rewrite !length_app; cbn; lia).
  rewrite Hn, scan_split, drop_app_length.
  assert (Hlen : (length tail <= length rest)%nat).
  { apply (f_equal length) in Hl. rewrite length_app in Hl. cbn in Hl. lia. }
  destruct (skip_until_split closes_body closing closes_body_spec tail (length (before ++ header ++ [open])))
    as [(body & close & rest' & -> & Hb & Hc & ->)|[Hall ->]].
  - rewrite Nat.add_comm, Nat.add_sub, take_app_length.
    destruct (IH (before ++ header ++ [open] ++ body ++ [close]) rest') as (ps & Hps & Heq).
    { rewrite length_app in Hlen. cbn in Hlen. lia. }
    exists (mkProcedure (S (length before)) line body :: ps). split.
    { rewrite <-Hl. eapply procedures_proc; [done|exact Hl|done..|]. erewrite <-(f_equal (fun n => procedures n rest' ps)); [exact Hps|].
      rewrite !length_app. cbn. lia. }
    cbn [omap list_omap]. unfold over_limit at 1, logic. cbn [p_line p_start p_body].
    replace (procs_from f ((before ++ header ++ [open]) ++ body ++ close :: rest') (S (length body + length (before ++ header ++ [open]))))
      with (omap over_limit ps).
    { by destruct (MAX_PROC_LOGIC_LINES <? logic_lines body). }
    rewrite <-Heq. f_equal; [by rewrite <-!app_assoc|]. rewrite !length_app. cbn. lia.
  - rewrite Nat.add_comm, Nat.add_sub. rewrite take_ge by lia.
    exists [mkProcedure (S (length before)) line tail]. split; [rewrite <-Hl; by eapply procedures_last|].
    cbn [omap list_omap]. unfold over_limit, logic. cbn [p_line p_start p_body].
    assert (Hend : procs_from f ((before ++ header ++ [open]) ++ tail) (S (length tail + length (before ++ header ++ [open]))) = []).
    { destruct f; [done|]. cbn [procs_from]. rewrite lookup_ge_None_2; [done|]. rewrite length_app. lia. }
    rewrite Hend, app_nil_r. by destruct (MAX_PROC_LOGIC_LINES <? logic_lines tail).
Qed.

Lemma over_limit_none ps : omap over_limit ps = [] <-> Forall (fun p => exists n, logic_count (p_body p) n /\ n <= 70) ps.
Proof.
  induction ps as [|p ps IH]; [done|]. cbn [omap list_omap]. rewrite Forall_cons, <-IH. unfold over_limit at 1, logic.
  assert (Hn : (exists n, logic_count (p_body p) n /\ n <= 70) <-> logic_lines (p_body p) <= 70).
  { split; [intros (n & <-%logic_lines_count & H); done|]. intros H. eexists. by split; [apply logic_lines_count|]. }
  rewrite Hn. destruct (Z.ltb_spec MAX_PROC_LOGIC_LINES (logic_lines (p_body p))) as [Hlt|Hge]; unfold MAX_PROC_LOGIC_LINES in *; split; [done|lia|done|tauto].
Qed.

Lemma wide_lines_none path number lines :
  (wide_lines path number lines).1 = [] <-> Forall (fun line => expanded_width TAB line <= HARD_COLUMNS) lines.
Proof.
  revert number. induction lines as [|line rest IH]; intros number; cbn [wide_lines]; [by split|].
  specialize (IH (number + 1)). destruct (wide_lines path (number + 1) rest) as [problems soft]. cbn [fst] in IH.
  rewrite Forall_cons, <-IH.
  destruct (Z.ltb_spec HARD_COLUMNS (expanded_width TAB line)); cbn [fst]; [split; [done|lia]|].
  destruct (SOFT_COLUMNS <? expanded_width TAB line); cbn [fst]; split; intros Hx; [split; [lia|exact Hx]|apply Hx..|split; [lia|exact Hx]|apply Hx].
Qed.

(** C25: check_style.py reports no problem with a file exactly when it has at
    most 1408 lines, every line has at most 108 columns with tab stops of four,
    and every measured procedure has at most 70 lines of logic. The measured
    procedures are those of an independent grammar of lines, which describes
    every file in exactly one way: the scan ends, misses none of them and
    measures nothing else. Procedures whose first line ends in a closing brace,
    a closing parenthesis or a comma are not measured. *)
Theorem style_exact (path : pystr) (lines : list pystr) :
  exists ps, procedures 0 lines ps /\ (forall qs, procedures 0 lines qs -> qs = ps) /\
    ((check_file path lines).1 = [] <->
       zlen lines <= 1408 /\ Forall (fun line => expanded_width 4 line <= 108) lines /\
       Forall (fun p => exists n, logic_count (p_body p) n /\ n <= 70) ps).
Proof.
  destruct (procs_from_spec (S (length lines)) [] lines) as (ps & Hps & Heq); [lia|]. exists ps. split; [done|].
  split; [by intros; eapply procedures_unique|].
  pose proof (wide_lines_none path 1 lines) as Hw. unfold check_file, check_procs.
  destruct (wide_lines path 1 lines) as [wide soft]. cbn [fst] in *. cbn [app length] in Heq. rewrite Heq.
  assert (Hm : forall l, proc_problem path <$> l = [] <-> l = []) by (intros [|]; done).
  rewrite !app_nil, Hw, Hm, over_limit_none.
  assert (Hl : (if MAX_FILE_LINES <? zlen lines then [fstr [T path; L ": "; D (zlen lines); L " lines (limit "; D MAX_FILE_LINES; L ")"]] else []) = []
               <-> zlen lines <= 1408).
  { destruct (Z.ltb_spec MAX_FILE_LINES (zlen lines)) as [Hlt|Hge]; unfold MAX_FILE_LINES in *; split; intros; (done || lia). }
  rewrite Hl. tauto.
Qed.

(** What the limit of 70 lines does not cover: a procedure of any length passes
    when its parameters begin on its first line and go on below it, or its brace
    stands below a first line ending in a parenthesis, and a
    [#assert] line, which CONTRIBUTING.md does not count, is counted. *)
Definition odin_file (header : list string) (logic : list string) : list pystr :=
  (py <$> header) ++ [py "{"] ++ (py <$> logic) ++ [py "}"].
Example style_parameters_below :
  (check_file (py "a.odin") (odin_file ["parse :: proc(text: string)"] (replicate 1000 "    step()"))).1 = [] /\
  (check_file (py "a.odin") (odin_file ["parse :: proc(text: string,"; "    count: int) -> int"] (replicate 1000 "    step()"))).1 = [] /\
  length (check_file (py "a.odin") (odin_file ["parse :: proc(text: string) -> int"] (replicate 71 "    step()"))).1 = 1%nat.
Proof. vm_compute. auto. Qed.
Example style_asserts_counted :
  length (check_file (py "a.odin") (odin_file ["parse :: proc() -> int"] ("    #assert(true)"%string :: replicate 70 "    step()"%string))).1 = 1%nat /\
  (check_file (py "a.odin") (odin_file ["parse :: proc() -> int"] (replicate 70 "    step()"%string))).1 = [].
Proof. vm_compute. auto. Qed.

(** * tools/check_contracts.py: compile-time and durability contracts

    Small programs against the library: each compile-fail fixture must be
    rejected with its diagnostic, each durability fixture must stop with its
    diagnostic, or run, in the debug and the optimized build. *)

(** A source line, and lines of program text. *)
Definition source_lines (l : list string) : pystr := l ≫= (fun s => py s ++ [10]).

Definition PREFIX : pystr := source_lines ["package main"] ++ py "import sqlodin " ++ [34] ++ py "review:src" ++ [34; 10].
Definition INIT : pystr :=
  [10] ++ source_lines ["    m: sqlodin.Membership(1)"; "    ids := [1]sqlodin.Node_Id{1}";
    "    _ = sqlodin.membership_init(&m, ids[:])"; "    noop := sqlodin.mutation_make_skip(0, 0)"]%string.

Record CompileFail := mkCompileFail { cf_name : string; cf_declarations : pystr; cf_body : pystr; cf_expected : list string }.

(** A body declaring a node of the given shape. *)
Definition node_body (shape : string) : pystr :=
  py " n: sqlodin.MultiMaster_Node(sqlodin.Mutation, " ++ py shape ++ source_lines [", .Host_Managed)"]%string
  ++ source_lines [" _ = sqlodin.node_init(&n, 1, m, noop)"]%string.
Definition membership_body (name size : string) : pystr :=
  fstr [L " "; L name; L ": sqlodin.Membership("; L size; L ")"] ++ [10]
  ++ fstr [L " _ = sqlodin.membership_init(&"; L name; L ", ids[:])"] ++ [10].

Definition COMPILE_FAIL : list CompileFail :=
  [mkCompileFail "zero_window" [] (node_body "1, 0, 1") ["#assert"; "Hint:"];
   mkCompileFail "zero_chunk" [] (node_body "1, 4, 0") ["#assert"; "Hint:"];
   mkCompileFail "window_not_power_of_two" [] (node_body "1, 3, 1") ["#assert"; "Hint:"];
   mkCompileFail "chunk_exceeds_window" [] (node_body "1, 4, 5") ["#assert"; "Hint:"];
   mkCompileFail "zero_members" [] (membership_body "z" "0") ["#assert"; "Hint:"];
   mkCompileFail "too_many_members" [] (membership_body "big" "65536") ["#assert"; "Hint:"]].

Record Durability := mkDurability { du_name : string; du_operation : pystr; du_expected : option string }.
Definition DURABILITY : list Durability :=
  [mkDurability "messages_before_confirm" (py "_ = sqlodin.effects_messages_slice(&e)")
     (Some "messages_slice before confirm_writes_durable"%string);
   mkDurability "reset_before_confirm" (py "sqlodin.effects_reset(&e)")
     (Some "reset discarded unconfirmed writes"%string);
   mkDurability "correct_order"
     (source_lines ["sqlodin.effects_confirm_writes_durable(&e)"; "    _ = sqlodin.effects_messages_slice(&e)"]%string
      ++ py "    sqlodin.effects_reset(&e)") None;
   mkDurability "zero_value_is_ready"
     (source_lines ["sqlodin.effects_reset(&e)"]%string ++ py "    _ = sqlodin.effects_messages_slice(&e)") None].

(** The verdicts. *)
Definition rejected (expected : list string) (result : Finished) : bool :=
  negb (returncode result =? 0) && forallb (fun fragment => text_in (py fragment) (stderr result)) expected.
Definition gate_holds (expected : option string) (result : Finished) : bool :=
  match expected with
  | Some diagnostic =>
      negb (returncode result =? 0) && text_in (py diagnostic) (stderr result) && text_in (py "Hint:") (stderr result)
  | None => returncode result =? 0
  end.

(** The programs. *)
Definition compile_fail_source (f : CompileFail) : pystr :=
  PREFIX ++ cf_declarations f ++ py "main :: proc() {" ++ INIT ++ cf_body f ++ py "}" ++ [10].
Definition pending_write (name : string) : pystr :=
  if String.eqb name "zero_value_is_ready" then []
  else source_lines ["    sqlodin.effects_add_write(&e, sqlodin.Write_Promise{ballot = sqlodin.ballot_make(1, 0, 1)})"]%string.
Definition durability_source (d : Durability) : pystr :=
  PREFIX ++ source_lines ["main :: proc() {"; "    e: sqlodin.Effects(sqlodin.Mutation, 1, 4, 1, .Enforced)"]%string
  ++ pending_write (du_name d) ++ py "    " ++ du_operation d ++ [10] ++ py "}" ++ [10].

Section Contracts.
Context {W : Type} `{Host W} (ROOT ODIN : pystr).

Definition collection : pystr := py "-collection:review=" ++ ROOT.
Definition run_check (source : pystr) : Hm (W := W) Finished :=
  io_res (h_run [ODIN; py "check"; source; py "-file"; collection] [] None).

Definition check_compile_fail (source : pystr) (f : CompileFail) : Hm (W := W) unit :=
  do! io_res (h_write_text source (compile_fail_source f));;
  let! result := run_check source in
  if rejected (cf_expected f) result then print_line (py "PASS compile-fail " ++ py (cf_name f))
  else throw (SystemExit (fstr [L (cf_name f); L ": expected the compiler to reject this program"] ++ [10]
                          ++ stdout result ++ stderr result)).

Definition check_durability (source binary mode : pystr) (d : Durability) : Hm (W := W) unit :=
  do! io_res (h_write_text source (durability_source d));;
  let! _ := run_checked [ODIN; py "build"; source; py "-file"; collection; py "-out:" ++ binary; mode] [] None in
  let! result := io_res (h_run [binary] [] None) in
  if gate_holds (du_expected d) result then print_line (fstr [L "PASS durability "; L (du_name d); L " "; T mode])
  else throw (SystemExit (fstr [L (du_name d); L " "; T mode;
         L (match du_expected d with Some _ => ": expected durability rejection" | None => ": correct ordering failed" end)]
         ++ [10] ++ stderr result)).

Definition contracts_main : Hm (W := W) unit :=
  with_tempdir (py "sqlodin-contracts-") [] (fun directory =>
    let source := join_path directory (py "main.odin") in
    let binary := join_path directory (py "check") in
    do! for_do COMPILE_FAIL (check_compile_fail source);;
    for_do [py "-debug"; py "-o:speed"] (fun mode => for_do DURABILITY (check_durability source binary mode))).
End Contracts.

(** The programs are the ones the script writes. *)
Example zero_members_source :
  compile_fail_source (mkCompileFail "zero_members" [] (membership_body "z" "0") []) =
  PREFIX ++ py "main :: proc() {" ++ INIT
  ++ source_lines [" z: sqlodin.Membership(0)"; " _ = sqlodin.membership_init(&z, ids[:])"; "}"]%string.
Proof. vm_compute. reflexivity. Qed.
