(* ===== verification/Service.v ===== *)
(** * The three-voter service the qualification scripts exercise
    (tools/check_network_service.py: generate, port, Cluster; check_mtls.py:
    run, certificates; check_majority.py: ready)

    A script owns three voter processes and any number of client connections.
    The connections are those of Client, kept in a store so that every use of
    one sees its current state; the network they use is the host's [Env], which
    stands for all their transports.  [Service] adds what else a script needs:
    processes, free ports, random numbers. *)

From Stdlib Require Import QArith.
From S2P Require Import Prelude PyStr PyFloat Objects Json Vector Text Parameters Results Net Client Dict Host Script.
#[local] Open Scope Z_scope.

Class Service (W : Type) := {
  v_host :: Host W;
  v_env :: Env W;
  (** [subprocess.Popen(argv, stdout=log, stderr=log)], [poll], [kill],
      [terminate], [wait(timeout)] *)
  v_spawn : list pystr -> pystr -> W -> pyres Z * W;
  v_poll : Z -> W -> option Z * W;
  v_kill : Z -> W -> W;
  v_terminate : Z -> W -> W;
  v_wait : Z -> Z -> W -> pyres Z * W;
  (** a port bound to 127.0.0.1 and released *)
  v_port : W -> pyres Z * W;
  v_chmod : pystr -> Z -> W -> W;
  (** [random.Random(seed)], [random()], [randrange(n)] *)
  v_seed : Z -> W -> W;
  v_random : W -> Q * W;
  v_randrange : Z -> W -> Z * W
}.

(** ** State *)

Record Member := mkMember { m_id : Z; m_address : pystr; m_identity : pystr }.

(** class Cluster with its open connections; log files are closed by the host.
    [n_namespace] is the cluster name connections use: RecoveryCluster of
    check_restore_service.py changes it. *)
Record Voters := mkVoters {
  n_root : pystr; n_binary : pystr; n_members : list Member;
  n_processes : list (Z * Z);
  n_conns : list Conn;
  n_namespace : pystr
}.
Definition set_processes (p : list (Z * Z)) (c : Voters) : Voters :=
  mkVoters (n_root c) (n_binary c) (n_members c) p (n_conns c) (n_namespace c).
Definition set_conns (l : list Conn) (c : Voters) : Voters :=
  mkVoters (n_root c) (n_binary c) (n_members c) (n_processes c) l (n_namespace c).
Definition set_namespace (name : pystr) (c : Voters) : Voters :=
  mkVoters (n_root c) (n_binary c) (n_members c) (n_processes c) (n_conns c) name.

(** A host next to a component's state is a host. *)
Definition beside {S W A} (f : W -> A * W) (s : S * W) : A * (S * W) := let '(a, w) := f s.2 in (a, (s.1, w)).
Definition beside_do {S W} (f : W -> W) (s : S * W) : S * W := (s.1, f s.2).

#[export] Instance host_beside {S W} `{Host W} : Host (S * W) | 100 := {
  h_monotonic := beside h_monotonic; h_monotonic_ns := beside h_monotonic_ns; h_time := beside h_time;
  h_utc := beside h_utc; h_sleep q := beside_do (h_sleep q);
  h_exists p := beside (h_exists p); h_is_file p := beside (h_is_file p);
  h_read_text p := beside (h_read_text p); h_read_bytes p := beside (h_read_bytes p);
  h_write_text p t := beside (h_write_text p t); h_append p t := beside (h_append p t);
  h_write_json p v := beside (h_write_json p v); h_append_json p v := beside (h_append_json p v);
  h_fsync p := beside (h_fsync p); h_replace p q := beside (h_replace p q); h_mkdir p := beside (h_mkdir p);
  h_glob p q := beside (h_glob p q); h_mkdtemp p q := beside (h_mkdtemp p q); h_remove p := beside (h_remove p);
  h_sha256 := h_sha256; h_run a d t := beside (h_run a d t); h_print p := beside_do (h_print p);
  h_print_json v := beside_do (h_print_json v); h_getenv k s := h_getenv k s.2; h_linux := h_linux;
  h_resolve p s := h_resolve p s.2; h_system := h_system; h_platform := h_platform;
  h_run_input a i t := beside (h_run_input a i t); h_timeout_output s := h_timeout_output s.2
}.

(** ** Certificates *)

Section Generate.
Context {W : Type} `{Service W} (openssl : pystr).

(** check_mtls.py's [run]: a failing command raises. *)
Definition run_openssl (argv : list pystr) : Hm (W := W) Finished :=
  let! result := io_res (h_run argv [] (Some 60%Q)) in
  if negb (returncode result =? 0) then throw (RuntimeError "Command failed: {argv[0]}") else ret result.

Definition file_in (directory name ext : pystr) : pystr := join_path directory (name ++ ext).

Definition make_ca (directory name : pystr) : Hm (W := W) unit :=
  let! _ := run_openssl [openssl; py "req"; py "-x509"; py "-newkey"; py "ed25519"; py "-noenc"; py "-days"; py "2";
    py "-subj"; py "/CN=" ++ name; py "-keyout"; file_in directory name (py ".key"); py "-out"; file_in directory name (py ".pem");
    py "-addext"; py "basicConstraints=critical,CA:TRUE"; py "-addext"; py "keyUsage=critical,keyCertSign,cRLSign"] in
  ret tt.

(** The key and the signing request of a name. *)
Definition make_request (directory name cn : pystr) : Hm (W := W) unit :=
  let! _ := run_openssl [openssl; py "req"; py "-new"; py "-newkey"; py "ed25519"; py "-noenc"; py "-subj"; py "/CN=" ++ cn;
    py "-keyout"; file_in directory name (py ".key"); py "-out"; file_in directory name (py ".csr")] in
  ret tt.
Definition sign_request (directory name issuer serial days : pystr) : Hm (W := W) unit :=
  let! _ := run_openssl [openssl; py "x509"; py "-req"; py "-in"; file_in directory name (py ".csr");
    py "-CA"; file_in directory issuer (py ".pem"); py "-CAkey"; file_in directory issuer (py ".key");
    py "-set_serial"; serial; py "-days"; days; py "-extfile"; file_in directory name (py ".ext");
    py "-out"; file_in directory name (py ".pem")] in
  ret tt.

Record Leaf := mkLeaf { leaf_name : pystr; leaf_dns : pystr; leaf_issuer : pystr; leaf_purpose : pystr; leaf_san : bool; leaf_days : Z }.
Definition leaf (name dns : string) : Leaf :=
  mkLeaf (py name) (py dns) (py "ca") (py "serverAuth,clientAuth") true 2.
Definition leaves : list Leaf :=
  [leaf "server" "node-1.test.sqlodin"; leaf "client" "node-2.test.sqlodin";
   mkLeaf (py "rogue") (py "node-2.test.sqlodin") (py "rogue-ca") (py "serverAuth,clientAuth") true 2;
   leaf "wildcard" "*.test.sqlodin";
   mkLeaf (py "cn-only") (py "node-2.test.sqlodin") (py "ca") (py "serverAuth,clientAuth") false 2;
   mkLeaf (py "wrong-purpose") (py "node-2.test.sqlodin") (py "ca") (py "serverAuth") true 2;
   mkLeaf (py "expired") (py "node-2.test.sqlodin") (py "ca") (py "serverAuth,clientAuth") true 0].

Definition extensions (purpose : pystr) (san : option pystr) : pystr :=
  py "basicConstraints=critical,CA:FALSE" ++ [10] ++ py "keyUsage=critical,digitalSignature" ++ [10]
  ++ py "extendedKeyUsage=" ++ purpose ++ [10]
  ++ match san with Some dns => py "subjectAltName=DNS:" ++ dns ++ [10] | None => [] end.

Definition make_leaf (directory : pystr) (l : Leaf) : Hm (W := W) unit :=
  do! make_request directory (leaf_name l) (leaf_dns l);;
  do! io_res (h_write_text (file_in directory (leaf_name l) (py ".ext"))
                (extensions (leaf_purpose l) (if leaf_san l then Some (leaf_dns l) else None)));;
  let! pems := io (h_glob directory (py "*.pem")) in
  sign_request directory (leaf_name l) (leaf_issuer l) (dec (zlen pems + 1)) (dec (leaf_days l)).

Definition certificates (directory : pystr) : Hm (W := W) unit :=
  do! make_ca directory (py "ca");;
  do! make_ca directory (py "rogue-ca");;
  for_do leaves (make_leaf directory).

(** One certificate per voter; private keys are readable by their owner only. *)
Definition generate (directory : pystr) : Hm (W := W) unit :=
  do! certificates directory;;
  do! for_do [1; 2; 3] (fun node =>
    let name := fstr [L "node"; D node] in
    do! make_request directory name name;;
    do! io_res (h_write_text (file_in directory name (py ".ext"))
                  (extensions (py "serverAuth,clientAuth") (Some (name ++ py ".sqlodin.test"))));;
    sign_request directory name (py "ca") (dec (100 + node)) (py "2"));;
  let! keys := io (h_glob directory (py "*.key")) in
  for_do keys (fun path => io_do (v_chmod path 384)).
End Generate.

(** ** class Cluster *)

Section Voters.
Context {W : Type} `{Service W}.
Definition V (A : Type) : Type := Hm (W := Voters * W) A.
Definition cluster : V Voters := gets fst.
Definition with_cluster (f : Voters -> Voters) : V unit := modify (fun s => (f s.1, s.2)).
Definition base {A} (m : Hm (W := W) A) : V A := fun s => let '(r, w) := m s.2 in (r, (s.1, w)).

Definition node_file (c : Voters) (node : Z) (ext : string) : pystr :=
  join_path (n_root c) (fstr [L "node"; D node; L ext]).

Definition member_value (m : Member) : pyval :=
  PDict (mkdict [("id", PInt (m_id m)); ("address", PStr (m_address m)); ("identity", PStr (m_identity m))]).

Definition voter_config (root : pystr) (members : list Member) (storage_format : Z) (maintenance : string) (m : Member) : pyval :=
  let node := m_id m in
  PDict (mkdict [("storage_format", PInt storage_format); ("maintenance", PStr (py maintenance));
    ("cluster", PStr (py "network-qualification")); ("node", PInt node); ("listen", PStr (m_address m));
    ("data", PStr (join_path root (fstr [L "data"; D node])));
    ("certificate", PStr (join_path root (fstr [L "node"; D node; L ".pem"])));
    ("key", PStr (join_path root (fstr [L "node"; D node; L ".key"])));
    ("ca", PStr (join_path root (py "ca.pem"))); ("members", PList (member_value <$> members));
    ("clients", PList [PStr (py "node-2.test.sqlodin")])]).

(** [__init__] *)
Definition Voters_new (root binary openssl : pystr) (storage_format : Z) (maintenance : string) : Hm (W := W) Voters :=
  do! generate openssl root;;
  let! members := for_each [1; 2; 3] (fun i acc =>
    let! port := io_res v_port in
    ret (acc ++ [mkMember i (fstr [L "127.0.0.1:"; D port]) (fstr [L "node"; D i; L ".sqlodin.test"])])) [] in
  do! for_do members (fun m =>
    do! io_res (h_mkdir (join_path root (fstr [L "data"; D (m_id m)])));;
    let! text := lift (dumps spaced (voter_config root members storage_format maintenance m)) in
    io_res (h_write_text (join_path root (fstr [L "node"; D (m_id m); L ".json"])) text));;
  ret (mkVoters root binary members [] [] (py "network-qualification")).

Definition process_of (c : Voters) (node : Z) : pyres Z := dindex node (n_processes c).

Definition serve_argv (c : Voters) (node : Z) (create : bool) : list pystr :=
  [n_binary c; py "serve"; node_file c node ".json"] ++ (if create then [py "--create"] else []).

Definition start (node : Z) (create : bool) : V unit :=
  let! c := cluster in
  let! process := base (io_res (v_spawn (serve_argv c node create) (node_file c node ".log"))) in
  do! with_cluster (fun c => set_processes (dset node process (n_processes c)) c);;
  do! base (io_do (sleep (15 # 100)));;
  let! code := base (io (v_poll process)) in
  lift (guard (negb (bool_decide (code = None))) (AssertionError "the voter's log")).

Definition stop (node : Z) : V unit :=
  let! c := cluster in
  let! process := lift (process_of c node) in
  let! code := base (io (v_poll process)) in
  do! when (bool_decide (code = None)) (base (io_do (v_kill process)));;
  let! _ := base (io_res (v_wait process 10)) in
  ret tt.

(** [close]: every voter that was started is stopped. *)
Definition close_voters : V unit :=
  let! c := cluster in for_do (n_processes c).*1 stop.

(** The methods that start and stop a voter, which a class over Cluster may
    override. *)
Record Control := mkControl { ct_start : Z -> bool -> V unit; ct_stop : Z -> V unit }.
Definition local_control : Control := mkControl start stop.
Definition close_with (ct : Control) : V unit :=
  let! c := cluster in for_do (n_processes c).*1 (ct_stop ct).

(** ** Connections *)

Definition endpoints_of (c : Voters) (nodes : list Z) : list Endpoint :=
  (fun m => mkEndpoint (m_address m) (m_identity m)) <$> filter (fun m => m_id m ∈ nodes) (n_members c).

(** [cluster.connect(nodes, timeout=..., pending=...)] *)
Definition open_conn (nodes : list Z) (timeout : Q) (pending : option PendingWrite) : V nat :=
  let! c := cluster in
  let! conn := base (Connection_new (endpoints_of c nodes) (n_namespace c) timeout pending) in
  do! with_cluster (fun c => set_conns (n_conns c ++ [conn]) c);;
  ret (length (n_conns c)).

(** A method of an open connection. *)
Definition call {A} (h : nat) (op : C W A) : V A := fun s =>
  match n_conns s.1 !! h with
  | None => (Raise (IndexError "no such connection"), s)
  | Some conn =>
      let '(r, (conn', w')) := op (conn, s.2) in
      (r, (set_conns (<[h := conn']> (n_conns s.1)) s.1, w'))
  end.

(** [with cluster.connect(...) as db: body] *)
Definition with_conn {A} (nodes : list Z) (timeout : Q) (pending : option PendingWrite) (body : nat -> V A) : V A :=
  let! h := open_conn nodes timeout pending in
  try_finally (body h) (call h Client.close).

(** What the scripts do with a connection; parameters are a tuple. *)
Definition all_voters : list Z := [1; 2; 3].
Definition db_execute (h : nat) (sql : pystr) (parameters : list pyval) : V WriteResult :=
  call h (execute (PStr sql) (PList parameters)).
Definition db_query (h : nat) (sql : pystr) (parameters : list pyval) : V Rows :=
  call h (query (PStr sql) (PList parameters) (py "linearizable")).
Definition db_scalar (h : nat) (sql : pystr) (parameters : list pyval) : V pyval :=
  let! rows := db_query h sql parameters in lift (scalar rows).

(** [assert condition] *)
Definition check_that {S} (condition : bool) : M exn S unit := lift (guard (negb condition) (AssertionError "")).
(** [assert db.query(sql, parameters).scalar() == n] *)
Definition expect_scalar (h : nat) (sql : pystr) (parameters : list pyval) (n : Z) : V unit :=
  let! v := db_scalar h sql parameters in check_that (eq_int v n).

(** The same on a fresh connection. *)
Definition expect_on (nodes : list Z) (sql : pystr) (n : Z) : V unit :=
  with_conn nodes 10 None (fun h => expect_scalar h sql [] n).

(** [try: body / except cls: pass / else: raise AssertionError(...)] *)
Definition expect_raise {A} (c : cls) (message : string) (body : V A) : V unit :=
  let! raised :=
    try_except (do! body;; ret false) (fun e => if isinstance e c then Some (ret true) else None) in
  if (raised : bool) then ret tt else throw (AssertionError message).

(** check_majority.py's [ready]: retries until the voter answers a fenced read
    or the time is over; the fuel bounds the retries of the model. *)
Definition ready (fuel : nat) (node : Z) (seconds : Q) : V Q :=
  let! start := base (io monotonic) in
  while_loop fuel (fun _ =>
    let! now := base (io monotonic) in
    if Qle_bool seconds (now - start)
    then throw (TimeoutError "Node {node} not quorum-ready: {last}")
    else
      let! now := base (io monotonic) in
      try_except
        (with_conn [node] (Qmin 2 (seconds - (now - start))) None (fun h =>
           do! expect_scalar h (py "SELECT 1") [] 1;;
           let! now := base (io monotonic) in
           ret (inr (now - start)%Q)))
        (fun e => if isinstance e CConnectionError
                  then Some (do! base (io_do (sleep (2 # 100)));; ret (inl 0%Q)) else None)) 0%Q.
End Voters.
