(* ===== verification/ServiceChecks.v ===== *)
(** * tools/check_network_service.py: the service's qualification

    The checks run against three voters through the client; each one that holds
    is recorded, the first that fails ends the run, and the report says passed
    only after all of them. *)

From Stdlib Require Import QArith.
From Corelib Require Import Floats.SpecFloat.
From S2P Require Import Prelude PyStr PyFloat Objects Json Bytes Vector Text Parameters Results Net Client Transaction Dict Host Script Service.
#[local] Open Scope Z_scope.

(** What the checks need besides: a client with other certificates, and raw TLS
    connections.  [x_send_frame] gives the first byte of the answer, or nothing
    after a TLS error or a reset. *)
Class Probes (W : Type) := {
  x_service :: Service W;
  x_exchange_as : pystr -> Endpoint -> dict -> Q -> W -> pyres dict * W;
  x_send_frame : Endpoint -> list Z -> W -> pyres (option (list Z)) * W
}.

(** Equality of SQL cells. *)
Definition same_cell (a b : pyval) : bool :=
  match a, b with
  | PNone, PNone => true
  | PStr s, PStr t => pyeqb s t
  | PBytes s, PBytes t => bool_decide (s = t)
  | PFloat x, PFloat y => float_eqb x y
  | x, PInt n => eq_int x n
  | _, _ => false
  end.
Fixpoint same_cells (a b : list pyval) : bool :=
  match a, b with
  | [], [] => true
  | x :: a', y :: b' => same_cell x y && same_cells a' b'
  | _, _ => false
  end.

(** [a == b] of two pending writes, parameters compared as cells. *)
Definition same_pending (a b : PendingWrite) : bool :=
  pyeqb (session a) (session b) && (sequence a =? sequence b) && pyeqb (sql a) (sql b)
  && same_cells (parameters a) (parameters b) && (read_version a =? read_version b) && (epoch a =? epoch b).

Section Checks.
Context {W : Type} `{Probes W}.
Abbreviation K := (Sc (W := Voters * W) report).
Abbreviation VM := (V (W := W)).

Definition v {A} (m : VM A) : K A := on_host m.

(** [record(name)] *)
Definition record_text (name : pystr) : K unit :=
  do! amend (rappend "checks" (Obj (fields [("name", tstr name); ("passed", tbool true)])));;
  v (print_line (py "PASS " ++ name)).
Definition record (name : string) : K unit := record_text (py name).

(** [try: body / except QueryError as exc: assert exc.code == code / else: raise] *)
Definition expect_code {A} (code message : string) (body : VM A) : VM unit :=
  let! raised :=
    try_except (do! body;; ret None) (fun e => if isinstance e CQueryError then Some (ret (Some (str_exn e))) else None) in
  match raised with
  | Some c => check_that (pyeqb c (py code))
  | None => throw (AssertionError message)
  end.

(** The column [name] of every row. *)
Definition column (name : string) (rows : Rows) : pyres (list pyval) :=
  try_map (fun r => row_getitem r (PStr (py name))) (_rows rows).

(** Statements of one transaction block. *)
Definition run_transaction (h : nat) (statements : list (string * list pyval)) : VM (option WriteResult) :=
  call h (transaction_result (tx_executes ((fun '(sql, ps) => (PStr (py sql), PList ps)) <$> statements))).

Definition FLOAT_1_25 : pyval := PFloat (S754_finite false 5629499534213120 (-52)).

Definition schema_checks (h : nat) : K unit :=
  let! _ := v (db_execute h (py "CREATE TABLE account(id INTEGER PRIMARY KEY, amount INTEGER CHECK(amount>=0), name TEXT);") []) in
  do! record "native_cluster_schema";;
  do! v (expect_code "Policy" "Snapshot-incompatible schema was acknowledged"
           (db_execute h (py "CREATE TABLE ambiguous(rowid,_rowid_,oid); INSERT INTO account VALUES(99,1,'reject')") []));;
  do! v (expect_scalar h (py "SELECT count(*) FROM sqlite_schema WHERE name='ambiguous'") [] 0);;
  do! v (expect_scalar h (py "SELECT count(*) FROM account WHERE id=99") [] 0);;
  let! status := v (call h status) in
  let! policy := v (lift (getitem "policy" status)) in
  do! v (check_that (eq_int policy 9));;
  record "schema_policy_rejects_complete_request_before_snapshot_failure".

Definition row_checks (h : nat) : K unit :=
  do! v (for_do all_voters (fun node =>
    with_conn [node] 10 None (fun writer =>
      let! _ := db_execute writer (py "INSERT INTO account VALUES(?, ?, ?)")
                  [PInt node; PInt 100; PStr (fstr [L "node-"; D node])] in
      ret tt)));;
  let! rows := v (db_query h (py "SELECT id, amount, name FROM account ORDER BY id") []) in
  let! ids := v (lift (column "id" rows)) in
  do! v (check_that (same_cells ids [PInt 1; PInt 2; PInt 3]));;
  let! second := v (lift (list_index (_rows rows) 1)) in
  let! name := v (lift (row_getitem second (PInt 2))) in
  do! v (check_that (eq_str name (py "node-2")));;
  do! record "write_any_node_fenced_rows";;
  let big := 2 ^ 63 - 1 in
  let! rows := v (db_query h (py "SELECT ? AS txt, ? AS big, ? AS nil, ? AS real, X'00FF' AS blob")
                    [PStr [97; 0; 98]; PInt big; PNone; FLOAT_1_25]) in
  let! row := v (lift (one rows)) in
  do! v (check_that (same_cells (as_tuple row) [PStr [97; 0; 98]; PInt big; PNone; FLOAT_1_25; PBytes [0; 255]]));;
  record "typed_parameters_and_results".

Definition transaction_checks (h : nat) : K unit :=
  let! result := v (run_transaction h [("UPDATE account SET amount=amount-? WHERE id=?"%string, [PInt 10; PInt 1]);
                                       ("UPDATE account SET amount=amount+? WHERE id=?"%string, [PInt 10; PInt 2])]) in
  do! match result with
      | Some r => v (check_that (w_changes r =? 2))
      | None => throw (AttributeError "changes")
      end;;
  do! v (expect_scalar h (py "SELECT amount FROM account WHERE id=?") [PInt 1] 90);;
  do! v (expect_raise CConstraintError "Constraint should reject complete batch"
           (run_transaction h [("UPDATE account SET amount=amount-? WHERE id=?"%string, [PInt 1000; PInt 1]);
                               ("UPDATE account SET amount=amount+? WHERE id=?"%string, [PInt 1000; PInt 2])]));;
  do! v (expect_scalar h (py "SELECT SUM(amount) FROM account") [] 300);;
  record "atomic_batch_rollback_and_next_sequence".

Definition readonly_checks (h : nat) : K unit :=
  do! v (for_do ["SELECT 1; SELECT 2;"; "DELETE FROM account"; "SELECT * FROM _sqlodin_sessions"]%string (fun text =>
           expect_raise CQueryError "Read policy accepted {text}" (db_query h (py text) [])));;
  do! v (expect_code "Query_Limit" "Expected bounded result rejection"
           (db_query h (py "WITH RECURSIVE x(n) AS (VALUES(1) UNION ALL SELECT n+1 FROM x WHERE n<5000) SELECT n FROM x") []));;
  record "readonly_policy_and_result_limit".

Definition pragma_checks : K unit :=
  do! v (with_conn all_voters 10 None (fun h =>
    do! for_do ["PrAgMa_data_version"; "PRAGMA_DATA_VERSION"]%string (fun module =>
          expect_code "Policy" "Mixed-case local pragma entered replicated data"
            (db_execute h (py "INSERT INTO account(id,amount,name) SELECT 999,data_version,'local' FROM " ++ py module) []));;
    do! expect_code "Policy" "Write API silently discarded RETURNING results"
          (db_execute h (py "INSERT INTO account VALUES(999,1,'discarded') RETURNING id") []);;
    expect_scalar h (py "SELECT count(*) FROM account WHERE id=999") [] 0));;
  record "mixed_case_local_pragma_cannot_mutate_replicated_state".

(** The same immutable identity submitted to distinct masters, and one submitted
    under isolation. *)
Definition identity (digit : string) (amount row : Z) (epoch : pyval) : pyres PendingWrite :=
  PendingWrite_new (PStr (concat (replicate 32 (py digit)))) (PInt 1)
    (PStr (py "UPDATE account SET amount=amount+?1 WHERE id=?2")) [PInt amount; PInt row] (PInt 0) epoch.

Definition dedup_checks : K unit :=
  let! pending := v (lift (identity "1" 7 3 (PInt 0))) in
  do! v (for_do all_voters (fun node =>
    with_conn [node] 10 (Some pending) (fun h =>
      let! r := call h resolve_pending in check_that (w_changes r =? 1))));;
  do! v (expect_on all_voters (py "SELECT amount FROM account WHERE id=3") 107);;
  record "cross_master_durable_deduplication".

(** The pending write saved from the unknown outcome. *)
Definition minority_checks (h : nat) : VM PendingWrite :=
  let! outcome :=
    try_except (do! call h resolve_pending;; ret None)
      (fun e => match e with UnknownOutcome p => Some (ret (Some p)) | _ => None end) in
  match outcome with
  | None => throw (AssertionError "Minority write acknowledged")
  | Some pending =>
      let! text := lift (to_json pending) in
      let! saved := lift (from_json text) in
      let! again := call h (gets (fun s => c_pending s.1)) in
      do! check_that (match again with Some p => same_pending p saved | None => false end);;
      do! expect_raise CPendingWriteError "Pending identity was abandoned" (db_execute h (py "DELETE FROM account") []);;
      do! expect_raise CConnectionError "Minority fenced read completed" (db_query h (py "SELECT count(*) FROM account") []);;
      let! rows := call h (query (PStr (py "SELECT count(*) FROM account")) (PList []) (py "local")) in
      let! n := lift (scalar rows) in
      do! check_that (eq_int n 3);;
      ret saved
  end.

Definition isolation_checks (ct : Control) : K unit :=
  let! epoch := v (with_conn [1] 10 None (fun h => call h session_epoch)) in
  let! isolated := v (lift (identity "3" 5 1 (PInt epoch))) in
  do! v (ct_stop ct 2);;
  do! v (ct_stop ct 3);;
  let! saved := v (with_conn [1] (8 # 10) (Some isolated) minority_checks) in
  do! record "minority_no_ack_and_explicit_stale_read";;
  do! v (ct_start ct 2 false);;
  do! v (ct_start ct 3 false);;
  do! v (with_conn all_voters 20 (Some saved) (fun h =>
    let! _ := call h resolve_pending in
    expect_scalar h (py "SELECT amount FROM account WHERE id=1") [] 95));;
  record "recover_uncertain_write_after_quorum_restored".

Definition expect_total (node : Z) : VM unit :=
  with_conn [node] 20 None (fun h => expect_scalar h (py "SELECT SUM(amount) FROM account") [] 312).

Definition restart_checks (ct : Control) : K unit :=
  do! v (for_do all_voters (ct_stop ct));;
  do! v (for_do all_voters (fun node => ct_start ct node false));;
  do! v (for_do all_voters expect_total);;
  record "all_process_sigkill_reopen_fenced_convergence".

(** ** lifecycle_checks, cli_checks, security_checks, concurrent_checks *)

Definition digests (paths : list pystr) : VM (list pystr) :=
  for_each paths (fun p acc => let! d := file_sha256 p in ret (acc ++ [d])) [].

Definition lifecycle_checks : K unit :=
  let! c := v cluster in
  let! process := v (lift (process_of c 1)) in
  do! v (base (io_do (v_terminate process)));;
  let! code := v (base (io_res (v_wait process 10))) in
  do! v (check_that (code =? 0));;
  let! files := v (io (h_glob (join_path (n_root c) (py "data1")) (py "node.db*"))) in
  let! before := v (digests files) in
  let! result := v (io_res (h_run (serve_argv c 1 true) [] (Some 10%Q))) in
  do! v (check_that (returncode result =? 1));;
  let! after := v (digests files) in
  do! v (check_that (bool_decide (after = before)));;
  do! v (start 1 false);;
  do! v (expect_total 1);;
  record "graceful_shutdown_and_exclusive_creation".

Definition cli_requests : list (list (string * pyval)) :=
  [[("op", PStr (py "status"))];
   [("op", PStr (py "execute")); ("session", PStr (concat (replicate 32 (py "2")))); ("sequence", PInt 1);
    ("sql", PStr (py "CREATE TABLE cli_test(id INTEGER PRIMARY KEY)"))];
   [("op", PStr (py "query")); ("sql", PStr (py "SELECT count(*) AS n FROM cli_test"))]]%string.

Definition cli_request (c : Voters) (cfgpath reqpath : pystr) (request : list (string * pyval)) : VM unit :=
  let! text := lift (dumps spaced (PDict (mkdict request))) in
  do! io_res (h_write_text reqpath text);;
  let! result := io_res (h_run [n_binary c; py "request"; cfgpath; reqpath] [] (Some 65%Q)) in
  do! check_that (returncode result =? 0);;
  let! response := lift (loads (stdout result)) in
  let! status := lift (vget "status" response) in
  do! check_that (eq_str status (py "ok"));;
  if existsb (fun '(k, x) => String.eqb k "op" && eq_str x (py "query")) request then
    let! n := lift (let? rows := vget "rows" response in let? row := vindex 0 rows in
                    let? cell := vindex 0 row in vget "integer" cell) in
    check_that (eq_int n 0)
  else ret tt.

Definition cli_checks : K unit :=
  let! c := v cluster in
  let! m := v (lift (list_index (n_members c) 0)) in
  let cfgpath := join_path (n_root c) (py "client.json") in
  let file name := PStr (join_path (n_root c) (py name)) in
  let! text := v (lift (dumps spaced (PDict (mkdict
    [("cluster", PStr (py "network-qualification")); ("address", PStr (m_address m)); ("identity", PStr (m_identity m));
     ("certificate", file "client.pem"%string); ("key", file "client.key"%string); ("ca", file "ca.pem"%string)])))) in
  do! v (io_res (h_write_text cfgpath text));;
  do! v (for_do cli_requests (cli_request c cfgpath (join_path (n_root c) (py "request.json"))));;
  record "native_cli_status_write_and_query".

(** Frames the service must refuse: an empty one, one over the limit, a
    truncated document and one nested too deeply. *)
Definition nested : list Z := py "{" ++ [34] ++ py "op" ++ [34; 58; 34] ++ py "status" ++ [34; 44; 34] ++ py "junk" ++ [34; 58]
  ++ replicate 4096 91 ++ [48] ++ replicate 4096 93 ++ [125].
Definition bad_frames : list (list Z) :=
  [le_pack 4 0; le_pack 4 65537; le_pack 4 1 ++ [123]; le_pack 4 (zlen nested) ++ nested].

Definition security_checks : K unit :=
  let! c := v cluster in
  let! m := v (lift (list_index (n_members c) 0)) in
  let endpoint := mkEndpoint (m_address m) (m_identity m) in
  let request := mkdict [("protocol", PInt 1); ("cluster", PStr (py "network-qualification")); ("op", PStr (py "status"))] in
  do! v (for_do ["rogue"; "server"; "node2"]%string (fun cert =>
    let! now := base (io monotonic) in
    expect_raise CConnectionError "Unauthorized identity/role accepted"
      (base (io_res (x_exchange_as (py cert) endpoint request (now + 2)%Q)))));;
  do! record "untrusted_unlisted_and_peer_as_client_rejected";;
  do! v (for_do bad_frames (fun frame =>
    let! answer := base (io_res (x_send_frame endpoint frame)) in
    match answer with Some bytes => check_that (bool_decide (bytes = [])) | None => ret tt end));;
  do! v (expect_on all_voters (py "SELECT count(*) FROM account") 3);;
  record "malformed_frames_close_only_offending_connection".

(** One of the six writers; the pool's threads run one after the other here. *)
Definition writer (i : Z) : VM unit :=
  with_conn [i mod 3 + 1] 30 None (fun h =>
    for_do (seq 0 20) (fun _ =>
      let! _ := db_execute h (py "UPDATE counters SET n=n+1 WHERE id=?") [PInt i] in
      let! n := db_scalar h (py "SELECT n FROM counters WHERE id=?") [PInt i] in
      let! n := lift (vint n) in
      check_that (1 <=? n))).

Definition concurrent_checks : K unit :=
  do! v (with_conn all_voters 10 None (fun h =>
    let! _ := db_execute h (py "CREATE TABLE counters(id INTEGER PRIMARY KEY, n INTEGER);") [] in
    for_do [0; 1; 2; 3; 4; 5] (fun i =>
      let! _ := db_execute h (py "INSERT INTO counters VALUES(?, 0)") [PInt i] in ret tt)));;
  do! v (for_do [0; 1; 2; 3; 4; 5] writer);;
  do! v (with_conn all_voters 10 None (fun h =>
    let! rows := db_query h (py "SELECT n FROM counters ORDER BY id") [] in
    let! ns := lift (column "n" rows) in
    check_that (same_cells ns (replicate 6 (PInt 20)))));;
  record "six_concurrent_sessions_mixed_writes_and_fenced_reads".

(** ** checks, main *)

(** [remote] is [hasattr(c, 'remote_root')]. *)
Definition checks (ct : Control) (remote : bool) : K unit :=
  do! v (for_do all_voters (fun node => ct_start ct node true));;
  do! v (base (io_do (sleep 2)));;
  do! when (negb remote) cli_checks;;
  let! h := v (open_conn all_voters 10 None) in
  do! try_finally
        (do! schema_checks h;; do! row_checks h;; do! transaction_checks h;; readonly_checks h)
        (v (call h Client.close));;
  do! pragma_checks;;
  do! security_checks;;
  do! concurrent_checks;;
  do! dedup_checks;;
  do! isolation_checks ct;;
  do! restart_checks ct;;
  when (negb remote) lifecycle_checks.

Record ServiceArgs := mkServiceArgs { sa_binary : pystr; sa_openssl : pystr; sa_output : pystr; sa_storage_format : Z }.

(** The mount of the work directory; memory file systems are refused. *)
Definition mount_of (path : pystr) : Hm (W := W) pyval :=
  let! text := check_output [py "findmnt"; py "-J"; py "-T"; path] [] None in lift (loads text).
Definition refuse_memory (filesystem : pyval) : Hm (W := W) unit :=
  let! fstype := lift (let? l := vget "filesystems" filesystem in let? first := vindex 0 l in vget "fstype" first) in
  check_that (negb (val_in fstype ["tmpfs"; "ramfs"]%string)).
Definition note_filesystem {R} (note : list (string * tv) -> R -> R) (wanted : bool) (work : pystr) : Sc (W := Voters * W) R unit :=
  if wanted then
    let! filesystem := on_host (base (mount_of work)) in
    do! amend (note [("filesystem"%string, J filesystem)]);;
    on_host (base (refuse_memory filesystem))
  else ret tt.

(** [{p.name: p.read_text()[-n:] for p in root.glob(pattern)}] *)
Definition last_logs (n : nat) (root pattern : pystr) : VM (list (pystr * pystr)) :=
  let! paths := io (h_glob root pattern) in
  for_each paths (fun p acc =>
    let! text := io_res (h_read_text p) in
    ret (dset (path_name p) (drop (length text - n) text) acc)) [].

Definition service_sources (ROOT : pystr) (directories : list string) : Hm (W := W) (list (pystr * pystr)) :=
  for_each directories (fun directory acc =>
    let! found := io (h_glob (join_path ROOT (py directory)) (py "**/*")) in
    let! entries := manifest ROOT (filter (fun p => str_in (path_suffix p) [py ".odin"; py ".py"]) found) in
    ret (foldl (fun acc '(k, x) => dset k x acc) acc entries)) [].

(** The part every script has in common: three voters around its checks, their
    logs kept whatever happens; [prepare] is what runs before the [try]. *)
Definition voters_run {A} (binary openssl : pystr) (storage_format : Z) (kept : nat) (prepare : VM A) (body : A -> K unit) (work : pystr) : K unit :=
  let! c := v (base (Voters_new work binary openssl storage_format "manual")) in
  do! v (with_cluster (fun _ => c));;
  let! prepared := v prepare in
  try_finally
    (do! body prepared;; amend (rupdate [("complete", tbool true); ("passed", tbool true)]))
    (do! v close_voters;;
     let! logs := v (last_logs kept work (py "*.log")) in
     amend (rupdate [("logs", manifest_report logs)])).
Definition cluster_run (binary openssl : pystr) (storage_format : Z) (kept : nat) (body : K unit) (work : pystr) : K unit :=
  do! note_filesystem rupdate h_linux work;;
  let! binary := v (base (gets (h_resolve binary))) in
  voters_run binary openssl storage_format kept (ret tt) (fun _ => body) work.

(** Its work in a directory of its own, its report written on every path out. *)
Definition evidence_script (output scratch prefix : pystr) (run : pystr -> K unit) : K unit :=
  writing output Obj
    (recording (fun e => rupdate [("error", tstr (repr_exn e))])
      (do! v (io_res (h_mkdir scratch));;
       let! work := v (io_res (h_mkdtemp prefix scratch)) in
       try_finally (run work) (v (io_res (h_remove work))))).

Definition service_run (args : ServiceArgs) : pystr -> K unit :=
  cluster_run (sa_binary args) (sa_openssl args) (sa_storage_format args) 6000 (checks local_control false).

(** [main]: the cluster's state starts empty and is built in [service_run]. *)
Definition no_voters : Voters := mkVoters [] [] [] [] [] [].
Definition service_report (ROOT : pystr) (args : ServiceArgs) : K unit :=
  let! utc := v (io h_utc) in
  do! amend (rupdate [("complete", tbool false); ("passed", tbool false);
    ("scope", tstr (py "three native mTLS SQL service processes on one host; disk-backed"));
    ("platform", tstr h_platform); ("started_utc", tstr utc); ("checks", Arr []);
    ("storage_format", tint (sa_storage_format args));
    ("durability", tstr (py (if sa_storage_format args =? 5 then "FULL journal; NORMAL replayable application"
                             else "FULL combined store")))]);;
  let! binary_sha256 := v (file_sha256 (sa_binary args)) in
  do! amend (rupdate [("binary_sha256", tstr binary_sha256)]);;
  let! sources := v (base (service_sources ROOT ["src"; "service"; "transport"; "cli"; "languages/python/src"])) in
  do! amend (rupdate [("source_sha256", manifest_report sources)]);;
  do! v (io_res (h_mkdir (path_parent (sa_output args))));;
  evidence_script (sa_output args) (join_path ROOT (py "build/network-work")) (py "sqlodin-network-") (service_run args).
Definition service_main (ROOT : pystr) (args : ServiceArgs) : Hm (W := W) unit :=
  fun w => let '(r, s) := service_report ROOT args ([], (no_voters, w)) in (r, s.2.2).
End Checks.
