(* ===== verification/Evidence.v ===== *)
(** * Scripts whose report lists the checks that held

    The service scripts share one shape: checks recorded as they hold, a verdict
    set at the end, a report written on every path out.  The lemmas here prove
    such a report honest from the list of checks its body records. *)

From Stdlib Require Import QArith.
From S2P Require Import Prelude PyStr PyFloat Objects Json Vector Text Parameters Results Net Client Dict Host Script Service ServiceChecks.
#[local] Open Scope Z_scope.

(** An entry of [report['checks']]. *)
Definition check_entry (name : pystr) : tv := Obj (fields [("name", tstr name); ("passed", tbool true)]%string).

Section Emits.
Context {W : Type} `{Probes W}.
Abbreviation St := (report * (Voters * W))%type.

Definition has_checks (l : list tv) (s : St) : Prop := rget "checks" s.1 = Some (Arr l).
Definition verdict (r : report) : option tv := rget "passed" r.

(** [m] records exactly the checks [names] when it succeeds, and never touches
    the verdict. *)
Definition emits {A} (names : list pystr) (m : Sc report A) : Prop :=
  forall (s : St) l, has_checks l s ->
    wp m (fun r s' => verdict s'.1 = verdict s.1 /\ exists l', has_checks l' s' /\
                      match r with Ok _ => l' = l ++ (check_entry <$> names) | _ => True end) s.

Lemma emits_bind {A B} (m : Sc report A) (f : A -> Sc report B) a b :
  emits a m -> (forall x, emits b (f x)) -> emits (a ++ b) (bind m f).
Proof.
  intros Hm Hf s l Hl. apply wp_bind. eapply wp_mono; [by apply Hm|]. intros [x|e|] s1 (Hv & l1 & Hl1 & Heq); [|by eauto..].
  subst l1. eapply wp_mono; [by apply Hf|]. intros r s2 (Hv2 & l2 & Hl2 & Heq2). split; [congruence|]. exists l2. split; [done|].
  destruct r; [|done..]. by rewrite Heq2, <-app_assoc, fmap_app.
Qed.

(** A step that records nothing, then the rest. *)
Lemma emits_then {A B} (m : Sc report A) (f : A -> Sc report B) names :
  emits [] m -> (forall x, emits names (f x)) -> emits names (bind m f).
Proof. apply (emits_bind m f []). Qed.

Lemma emits_host {A} (m : V A) : emits [] (v m).
Proof. intros s l Hl. apply wp_host_step. intros r w. split; [done|]. exists l. split; [done|]. destruct r; [by rewrite app_nil_r|done..]. Qed.

Lemma emits_ret {A} (a : A) : emits [] (ret a).
Proof. intros s l Hl. apply wp_ret. split; [done|]. exists l. by rewrite app_nil_r. Qed.

Lemma emits_throw {A} (e : exn) names : emits names (throw e : Sc report A).
Proof. intros s l Hl. apply wp_throw. eauto. Qed.

Lemma emits_record_text name : emits [name] (record_text name).
Proof.
  intros s l Hl. apply wp_bind, wp_amend, wp_host_step. intros r w. cbn [fst]. split; [by apply rget_rappend_other|].
  exists (l ++ [check_entry name]). split; [by apply rget_rappend|]. by destruct r.
Qed.

Lemma emits_finally {A} (m : Sc report A) (f : V unit) names : emits names m -> emits names (try_finally m (v f)).
Proof.
  intros Hm s l Hl. apply wp_try_finally. eapply wp_mono; [by apply Hm|]. intros r s1 (Hv & l1 & Hl1 & Heq).
  destruct r as [x|e|]; [| |by eauto]; apply wp_host_step; intros [?|?|] w; (split; [done|]); exists l1; by split.
Qed.

Lemma emits_record name : emits [py name] (record name).
Proof. apply emits_record_text. Qed.

(** A note in the report under another key. *)
Lemma emits_note kvs :
  forallb (fun k => forallb (fun '(k', _) => negb (pyeqb (py k') (py k))) kvs) ["checks"; "passed"]%string = true ->
  emits [] (amend (rupdate kvs) : Sc report unit).
Proof.
  cbn [forallb]. intros Hk. unbool. intros s l Hl. apply wp_amend. cbn [fst]. unfold verdict, has_checks. cbn [fst].
  rewrite !rget_rupdate_other by done. split; [done|]. exists l. by rewrite app_nil_r.
Qed.

Lemma emits_for {A} (l : list A) (body : A -> Sc report unit) (names : A -> list pystr) :
  (forall x, emits (names x) (body x)) -> emits (l ≫= names) (for_do l body).
Proof.
  intros Hb. induction l as [|x l IH]; cbn [for_do]; [apply emits_ret|].
  change ((x :: l) ≫= names) with (names x ++ (l ≫= names)). apply emits_bind; [apply Hb|]. intros _. exact IH.
Qed.

(** A report that claims a pass holds every check, and a success claims it. *)
Definition true_ : option tv := Some (J (PBool true)).
Definition honest (names : list pystr) (r : res exn unit) (rep : report) : Prop :=
  (verdict rep = true_ -> rget "checks" rep = Some (Arr (check_entry <$> names))) /\
  (r = Ok tt -> verdict rep = true_).
Definition opening (rep : report) : Prop := verdict rep <> true_ /\ rget "checks" rep = Some (Arr []).

Lemma honest_opening names r rep : verdict rep <> true_ -> r <> Ok tt -> honest names r rep.
Proof. by split. Qed.

Lemma honest_note names r rep r' kvs :
  forallb (fun '(k, _) => negb (pyeqb (py k) (py "passed"))) kvs = true ->
  forallb (fun '(k, _) => negb (pyeqb (py k) (py "checks"))) kvs = true ->
  honest names r rep -> (r' = Ok tt -> r = Ok tt) -> honest names r' (rupdate kvs rep).
Proof. intros H1 H2 [Ha Hb] Hr. unfold honest, verdict in *. rewrite !rget_rupdate_other by done. split; [done|]. intros. by apply Hb, Hr. Qed.

Lemma opening_note rep kvs :
  forallb (fun '(k, _) => negb (pyeqb (py k) (py "passed"))) kvs = true ->
  forallb (fun '(k, _) => negb (pyeqb (py k) (py "checks"))) kvs = true ->
  opening rep -> opening (rupdate kvs rep).
Proof. intros H1 H2 Ho. unfold opening, verdict. by rewrite !rget_rupdate_other. Qed.

Lemma honest_host {A} names (m : V A) (k : A -> Sc report unit) (s : St) :
  opening s.1 -> (forall a w, wp (k a) (fun r s' => honest names r s'.1) (s.1, w)) ->
  wp (bind (v m) k) (fun r s' => honest names r s'.1) s.
Proof. intros [Hv Hc] Hk. apply wp_bind, wp_host_step. intros [a|e|] w; [apply Hk|by apply honest_opening..]. Qed.

(** A run in a cluster records what its checks record. *)
Lemma checked_run names (body : Sc report unit) (s : St) :
  emits names body -> opening s.1 ->
  wp (do! body;; amend (rupdate [("complete", tbool true); ("passed", tbool true)]%string)) (fun r s' => honest names r s'.1) s.
Proof.
  intros Hem [Hv Hc]. apply wp_bind. eapply wp_mono; [by apply Hem|].
  intros [[]|e|] s1 (Hv1 & l & Hl & Heq); [|by apply honest_opening; rewrite ?Hv1..].
  apply wp_amend. cbn [fst]. subst l.
  split; [|intros _; exact (rget_rset "passed" (tbool true) (rupdate [("complete"%string, tbool true)] s1.1))]. intros _.
  rewrite rget_rupdate_other by done. exact Hl.
Qed.

Lemma honest_voters {A} names binary openssl format kept (prepare : V A) body work (s : St) :
  (forall a, emits names (body a)) -> opening s.1 ->
  wp (voters_run binary openssl format kept prepare body work) (fun r s' => honest names r s'.1) s.
Proof.
  intros Hem Ho. unfold voters_run. apply honest_host; [done|]. intros c w.
  apply honest_host; [done|]. intros u w2. apply honest_host; [done|]. intros a w3.
  apply wp_try_finally. eapply wp_mono; [by apply checked_run|].
  intros r s2 Hh. destruct r as [[]|e|]; [| |done];
    (apply wp_bind, wp_host_step; intros [?|e'|] w4; [|by destruct Hh..]);
    (apply wp_bind, wp_host_step; intros [logs|e'|] w5; [|by destruct Hh..]);
    apply wp_amend; cbn [fst]; by eapply honest_note.
Qed.

(** Noting the file system leaves a report that is still open. *)
Lemma honest_filesystem names wanted work (rest : Sc report unit) (s : St) :
  opening s.1 -> (forall s1 : St, opening s1.1 -> wp rest (fun r s' => honest names r s'.1) s1) ->
  wp (do! note_filesystem rupdate wanted work;; rest) (fun r s' => honest names r s'.1) s.
Proof.
  intros Ho Hrest. apply wp_bind. unfold note_filesystem. destruct wanted; [|by apply wp_ret, Hrest].
  apply wp_bind, wp_host_step. intros [fs|e|] w; [|apply honest_opening; [apply Ho|done]..].
  apply wp_bind, wp_amend, wp_host_step. cbn [fst snd].
  assert (Ho' : opening (rupdate [("filesystem"%string, J fs)] s.1)) by (by apply opening_note).
  intros [[]|e|] w1; [by apply Hrest|apply honest_opening; [apply Ho'|done]..].
Qed.

Lemma honest_run names binary openssl format kept body work (s : St) :
  emits names body -> opening s.1 ->
  wp (cluster_run binary openssl format kept body work) (fun r s' => honest names r s'.1) s.
Proof.
  intros Hem Ho. unfold cluster_run. apply honest_filesystem; [done|]. intros s1 H1.
  apply honest_host; [done|]. intros b w. by apply honest_voters.
Qed.

(** What a script leaves: an honest report, on disk unless fuel ran out. *)
Definition script_honest (names : list pystr) (output : pystr) (r : res exn unit) (s : St) : Prop :=
  (r = OutOfFuel \/ written output (Obj s.1) s.2) /\ honest names r s.1.

Lemma evidence_script_honest names output scratch prefix run (s : St) :
  (forall work s1, opening s1.1 -> wp (run work) (fun r s' => honest names r s'.1) s1) ->
  opening s.1 -> wp (evidence_script output scratch prefix run) (script_honest names output) s.
Proof.
  intros Hrun Ho. unfold evidence_script, script_honest. eapply wp_mono; [apply (wp_writing _ _ _ (honest names))|].
  - apply wp_recording.
    eapply wp_mono; [apply honest_host; [done|]; intros u w; apply honest_host; [done|]; intros work w2|].
    + apply wp_try_finally. eapply wp_mono; [by apply Hrun|]. intros r s' Hh.
      destruct r as [[]|e|]; [| |done]; apply wp_host_step; intros [?|?|] w3; cbn [fst]; first [done|by destruct Hh].
    + intros [[]|e|] s' Hh; [done| |done]. by eapply honest_note.
  - intros r s' (r0 & [Hh1 Hh2] & Hw & Hr). split; [done|]. split; [done|]. intros ->. apply Hh2. by apply Hr.
Qed.

(** Scripts that note their sources last: the verdict is honest, and a success
    is on disk. *)
Definition closed_honest (names : list pystr) (output : pystr) (r : res exn unit) (s : St) : Prop :=
  honest names r s.1 /\ (r = Ok tt -> written output (Obj s.1) s.2).

Lemma honest_closing names output k (sources : V (list (pystr * pystr))) (body : Sc report unit) (s : St) :
  (forall x : tv, forallb (fun '(k', _) => negb (pyeqb (py k') (py "passed"))) [(k, x)] = true) ->
  (forall x : tv, forallb (fun '(k', _) => negb (pyeqb (py k') (py "checks"))) [(k, x)] = true) ->
  wp body (fun r s' => honest names r s'.1) s ->
  wp (try_finally body
        (let! m := v sources in
         do! amend (rupdate [(k, manifest_report m)]);;
         let! rep := reported in v (io_res (h_write_json output (Obj rep))))) (closed_honest names output) s.
Proof.
  intros Hp Hc Hb. apply wp_try_finally. eapply wp_mono; [exact Hb|]. intros r s1 Hh.
  assert (Hfin : wp (let! m := v sources in
         do! amend (rupdate [(k, manifest_report m)]);;
         let! rep := reported in v (io_res (h_write_json output (Obj rep))))
      (fun r' s2 => honest names r s2.1 /\ (r' = Ok tt -> written output (Obj s2.1) s2.2)) s1).
  { apply wp_bind, wp_host_step. intros [m|e|] w1; [|by split..]. apply wp_bind, wp_amend. cbn [fst snd].
    assert (Hh' : honest names r (rupdate [(k, manifest_report m)] s1.1)) by (apply (honest_note names r); [apply Hp|apply Hc|done|done]).
    apply wp_bind, wp_gets, wp_on_host, wp_intro. cbn [fst snd]. intros r' w2 Hw. split; [done|]. intros _.
    exists w1. unfold io_res in Hw. by rewrite Hw. }
  destruct r as [[]|e|]; [| |by split]; (eapply wp_mono; [exact Hfin|]); intros [[]|e'|] s2 [[F1 F2] F3]; (split; [by split|done]).
Qed.

(** A step before the report is complete enough to be written. *)
Lemma preparing {A} (m : V A) (k : A -> Sc report unit) (Q : res exn unit -> St -> Prop) (s : St) :
  verdict s.1 <> true_ -> (forall r s', verdict s'.1 <> true_ /\ r <> Ok tt -> Q r s') ->
  (forall a w, wp (k a) Q (s.1, w)) -> wp (bind (v m) k) Q s.
Proof. intros H1 HQ Hk. apply wp_bind, wp_host_step. intros [a|e|] w; [apply Hk|by apply HQ..]. Qed.
End Emits.

(** The steps of a check, up to the names it records. *)
Ltac emits_auto :=
  repeat lazymatch goal with
  | |- emits _ (bind (record ?n) _) => apply (emits_bind _ _ [py n]); [apply emits_record|intros ?]
  | |- emits _ (bind (record_text ?n) _) => apply (emits_bind _ _ [n]); [apply emits_record_text|intros ?]
  | |- emits _ (bind (amend (rupdate _)) _) => apply emits_then; [by apply emits_note|intros ?]
  | |- emits _ (bind (v _) _) => apply emits_then; [apply emits_host|intros ?]
  | |- emits _ (record _) => apply emits_record
  | |- emits _ (record_text _) => apply emits_record_text
  | |- emits _ (ret _) => apply emits_ret
  | |- emits _ (v _) => apply emits_host
  | |- emits _ (throw _) => apply emits_throw
  | |- emits _ (bind (match ?x with _ => _ end) _) => apply emits_then; [destruct x|intros ?]
  end.

(** * Theorems on the service's qualification

    The report of check_network_service.py says passed only after every check
    held, in the order the script makes them. *)

(** The checks in their order. *)
Definition local_checks : list pystr := py <$>
  ["native_cli_status_write_and_query"; "native_cluster_schema";
   "schema_policy_rejects_complete_request_before_snapshot_failure"; "write_any_node_fenced_rows";
   "typed_parameters_and_results"; "atomic_batch_rollback_and_next_sequence"; "readonly_policy_and_result_limit";
   "mixed_case_local_pragma_cannot_mutate_replicated_state"; "untrusted_unlisted_and_peer_as_client_rejected";
   "malformed_frames_close_only_offending_connection"; "six_concurrent_sessions_mixed_writes_and_fenced_reads";
   "cross_master_durable_deduplication"; "minority_no_ack_and_explicit_stale_read";
   "recover_uncertain_write_after_quorum_restored"; "all_process_sigkill_reopen_fenced_convergence";
   "graceful_shutdown_and_exclusive_creation"]%string.

Section Emitted.
Context {W : Type} `{Probes W}.

Lemma emits_schema h : emits (py <$> ["native_cluster_schema"; "schema_policy_rejects_complete_request_before_snapshot_failure"]%string) (schema_checks h).
Proof. unfold schema_checks. emits_auto. Qed.
Lemma emits_rows h : emits (py <$> ["write_any_node_fenced_rows"; "typed_parameters_and_results"]%string) (row_checks h).
Proof. unfold row_checks. cbv zeta. emits_auto. Qed.
Lemma emits_transaction h : emits (py <$> ["atomic_batch_rollback_and_next_sequence"]%string) (transaction_checks h).
Proof. unfold transaction_checks. emits_auto. Qed.
Lemma emits_readonly h : emits (py <$> ["readonly_policy_and_result_limit"]%string) (readonly_checks h).
Proof. unfold readonly_checks. emits_auto. Qed.
Lemma emits_pragma : emits (py <$> ["mixed_case_local_pragma_cannot_mutate_replicated_state"]%string) pragma_checks.
Proof. unfold pragma_checks. emits_auto. Qed.
Lemma emits_security :
  emits (py <$> ["untrusted_unlisted_and_peer_as_client_rejected"; "malformed_frames_close_only_offending_connection"]%string) security_checks.
Proof. unfold security_checks. cbv zeta. emits_auto. Qed.
Lemma emits_concurrent : emits (py <$> ["six_concurrent_sessions_mixed_writes_and_fenced_reads"]%string) concurrent_checks.
Proof. unfold concurrent_checks. emits_auto. Qed.
Lemma emits_dedup : emits (py <$> ["cross_master_durable_deduplication"]%string) dedup_checks.
Proof. unfold dedup_checks. emits_auto. Qed.
Lemma emits_isolation ct :
  emits (py <$> ["minority_no_ack_and_explicit_stale_read"; "recover_uncertain_write_after_quorum_restored"]%string) (isolation_checks (W := W) ct).
Proof. unfold isolation_checks. emits_auto. Qed.
Lemma emits_restart ct : emits (py <$> ["all_process_sigkill_reopen_fenced_convergence"]%string) (restart_checks (W := W) ct).
Proof. unfold restart_checks. emits_auto. Qed.
Lemma emits_lifecycle : emits (py <$> ["graceful_shutdown_and_exclusive_creation"]%string) lifecycle_checks.
Proof. unfold lifecycle_checks. emits_auto. Qed.
Lemma emits_cli : emits (py <$> ["native_cli_status_write_and_query"]%string) cli_checks.
Proof. unfold cli_checks. cbv zeta. emits_auto. Qed.

(** The checks that need nothing of the voters' host. *)
Definition remote_checks : list pystr := take 14 (drop 1 local_checks).
Lemma emits_middle ct (ending : Sc (W := Voters * W) report unit) names :
  emits names ending ->
  emits (remote_checks ++ names)
    (let! h := v (open_conn all_voters 10 None) in
     do! try_finally (do! schema_checks h;; do! row_checks h;; do! transaction_checks h;; readonly_checks h) (v (call h Client.close));;
     do! pragma_checks;; do! security_checks;; do! concurrent_checks;; do! dedup_checks;; do! isolation_checks ct;; do! restart_checks ct;; ending).
Proof.
  intros He. apply emits_then; [apply emits_host|intros h].
  apply (emits_bind _ _ (take 6 remote_checks) (drop 6 remote_checks ++ names)).
  { apply emits_finally.
    apply (emits_bind _ _ _ _ (emits_schema h)). intros ?. apply (emits_bind _ _ _ _ (emits_rows h)). intros ?.
    apply (emits_bind _ _ _ _ (emits_transaction h)). intros ?. apply emits_readonly. }
  intros ?. apply (emits_bind _ _ _ (drop 7 remote_checks ++ names) emits_pragma). intros ?.
  apply (emits_bind _ _ _ (drop 9 remote_checks ++ names) emits_security). intros ?.
  apply (emits_bind _ _ _ (drop 10 remote_checks ++ names) emits_concurrent). intros ?.
  apply (emits_bind _ _ _ (drop 11 remote_checks ++ names) emits_dedup). intros ?.
  apply (emits_bind _ _ _ (drop 13 remote_checks ++ names) (emits_isolation ct)). intros ?.
  apply (emits_bind _ _ _ names (emits_restart ct)). intros ?. exact He.
Qed.
Lemma emits_checks ct : emits local_checks (checks (W := W) ct false).
Proof.
  unfold checks. do 2 (apply emits_then; [apply emits_host|intros ?]).
  apply (emits_bind _ _ _ (drop 1 local_checks) emits_cli). intros ?. apply (emits_middle ct _ _ emits_lifecycle).
Qed.
Lemma emits_checks_remote ct : emits remote_checks (checks (W := W) ct true).
Proof.
  unfold checks. do 2 (apply emits_then; [apply emits_host|intros ?]). apply emits_then; [apply emits_ret|intros ?].
  apply (emits_middle ct _ [] (emits_ret tt)).
Qed.
End Emitted.

(** Check_network_service.py passes no service that it did not check:
    whatever the voters, the network and the host do, the report written on
    every path out says passed only when it records all sixteen checks, in the
    order the script makes them, and the run succeeds only with such a report. *)
Theorem service_sound {W} `{Probes W} (ROOT : pystr) (args : ServiceArgs) (s : Voters * W) :
  wp (service_report ROOT args)
     (fun r s' =>
        verdict s'.1 <> true_ /\ r <> Ok tt \/
        script_honest local_checks (sa_output args) r s')
     ([], s).
Proof.
  unfold service_report.
  apply preparing; [done|by left|]. intros utc w1. apply wp_bind, wp_amend. cbn [fst].
  match goal with |- wp _ _ (?rep, _) => assert (Hop : opening rep) by (by split); generalize dependent rep end.
  intros rep Hop. apply preparing; [apply Hop|by left|]. intros digest w2. apply wp_bind, wp_amend. cbn [fst snd].
  assert (Hop2 : opening (rupdate [("binary_sha256"%string, tstr digest)] rep)) by (by apply opening_note).
  apply preparing; [apply Hop2|by left|]. intros sources w3. apply wp_bind, wp_amend. cbn [fst snd].
  match goal with |- wp _ _ (?rep, _) => assert (Hop3 : opening rep) by (by apply opening_note); generalize dependent rep end.
  intros rep3 Hop3. apply preparing; [apply Hop3|by left|]. intros u w4. cbn [fst snd].
  eapply wp_mono; [apply (evidence_script_honest local_checks); [|done]|intros r s' Hh; by right].
  intros work s1 Ho. apply honest_run; [apply emits_checks|done].
Qed.
