(* ===== verification/Snapshots.v ===== *)
(** * Snapshot and generation qualification
    (tools/check_snapshot_service.py, tools/check_generation_service.py)

    A snapshot is requested, its certificate awaited on the voters while writes
    go on, and every acknowledged write must survive restarts; compaction must
    be refused on an active voter and publish a generation on a stopped one. *)

From Stdlib Require Import QArith.
From S2P Require Import Prelude PyStr PyFloat Objects Json Vector Text Parameters Results Net Client Dict Host Script Service ServiceChecks Evidence.
#[local] Open Scope Z_scope.

Record SnapshotArgs := mkSnapshotArgs { sn_binary : pystr; sn_output : pystr; sn_operations : Z; sn_openssl : pystr }.

Section Snapshots.
Context {W : Type} `{Probes W} (fuel : nat).
Abbreviation K := (Sc (W := Voters * W) report).
Abbreviation VM := (V (W := W)).

(** ** check_snapshot_service.py: wait_sealed *)

(** [s.get('snapshot_sealed', 0) >= target] of every state, in order, up to the
    first that is not. *)
Fixpoint all_sealed (target : Z) (states : list (Z * dict)) : pyres bool :=
  match states with
  | [] => Ok true
  | (_, s) :: l =>
      let? sealed := vnum (get_or (py "snapshot_sealed") (PInt 0) s) in
      if Qle_bool (inject_Z target) sealed then all_sealed target l else Ok false
  end.

(** One round of statuses; a voter that reports a snapshot error ends the wait. *)
Definition poll_states (nodes : list Z) (states : list (Z * dict)) : VM (list (Z * dict)) :=
  for_each nodes (fun node states =>
    with_conn [node] 5 None (fun h =>
      let! s := call h status in
      do! check_that (negb (truthy (get_or (py "snapshot_error") PNone s)));;
      ret (dset node s states))) states.

Definition wait_sealed (target : Z) (nodes : list Z) : VM (list (Z * dict)) :=
  let! now := base (io monotonic) in
  let deadline := (now + 60)%Q in
  while_loop fuel (fun states =>
    let! now := base (io monotonic) in
    if Qle_bool deadline now then throw (TimeoutError "No certified snapshot for {target}: {states}")
    else
      let! states := poll_states nodes states in
      let! sealed := lift (all_sealed target states) in
      if (sealed : bool) then ret (inr states)
      else do! base (io_do (sleep (2 # 100)));; ret (inl states)) [].

Definition states_report (states : list (Z * dict)) : tv := Obj ((fun '(n, s) => (dec n, J (PDict s))) <$> states).

(** ** Steps of both scripts *)

Definition start_all (create : bool) : VM unit := for_do all_voters (fun node => start node create).
Definition stop_all : VM unit := for_do all_voters stop.
Definition ready_one (node : Z) : VM unit := let! _ := ready fuel node 60 in ret tt.
Definition run_sql (h : nat) (sql : pystr) (parameters : list pyval) : VM unit :=
  let! _ := db_execute h sql parameters in ret tt.

Definition ITEMS : pystr := py "CREATE TABLE items(id INTEGER PRIMARY KEY, value TEXT)".
Definition INSERT : pystr := py "INSERT INTO items VALUES(?,?)".
Definition COUNT_ITEMS : pystr := py "SELECT count(*) FROM items".

(** [db.query(sql).scalar() == text] *)
Definition expect_text (h : nat) (sql : pystr) (text : string) : VM unit :=
  let! x := db_scalar h sql [] in check_that (eq_str x (py text)).

(** [db.status()[key] >= target] *)
Definition expect_at_least (h : nat) (key : string) (target : Z) : VM unit :=
  let! s := call h status in
  let! n := lift (let? x := getitem key s in vnum x) in
  check_that (Qle_bool (inject_Z target) n).

(** ** check_snapshot_service.py: main *)

Definition request_first : VM Z :=
  with_conn all_voters 10 None (fun h =>
    do! run_sql h ITEMS [];;
    do! run_sql h (py "INSERT INTO items VALUES(1,'before')") [];;
    call h request_snapshot).

(** Writes through every voter in turn. *)
Definition insert_after (operations : Z) : VM unit :=
  for_do (seq 0 (Z.to_nat operations)) (fun i =>
    let i := Z.of_nat i in
    with_conn [i mod 3 + 1] 10 None (fun h => run_sql h INSERT [PInt (i + 2); PStr (fstr [L "after-"; D i])])).

Definition request_second : VM Z :=
  with_conn [1; 2] 10 None (fun h =>
    let! second := call h request_snapshot in
    do! run_sql h (py "UPDATE items SET value='survives' WHERE id=1") [];;
    ret second).

Definition snapshot_checks (operations : Z) : K unit :=
  do! v (start_all true);;
  do! v (for_do all_voters ready_one);;
  let! target := v request_first in
  do! v (insert_after operations);;
  let! states := v (wait_sealed target all_voters) in
  do! amend (rupdate [("first"%string, states_report states)]);;
  do! record "quorum_snapshot_certified_while_all_voters_continue_writes";;
  do! v stop_all;;
  do! v (start_all false);;
  do! v (for_do all_voters (fun node =>
    do! ready_one node;;
    with_conn [node] 10 None (fun h =>
      do! expect_at_least h "snapshot_sealed" target;;
      expect_scalar h COUNT_ITEMS [] (operations + 1))));;
  do! record "chosen_certificate_and_all_acknowledged_writes_survive_full_restart";;
  do! v (stop 3);;
  let! second := v request_second in
  let! states := v (wait_sealed second [1; 2]) in
  do! amend (rupdate [("second"%string, states_report states)]);;
  do! record "two_survivors_capture_and_certify_without_third_voter";;
  do! v (start 3 false);;
  do! v (ready_one 3);;
  do! v (with_conn [3] 10 None (fun h => expect_text h (py "SELECT value FROM items WHERE id=1") "survives"));;
  record "returning_voter_catches_up_after_certificate".

(** The report before the [try], the work inside it. *)
Definition snapshot_script (ROOT folder : pystr) (args : SnapshotArgs) (initial : pystr -> list (string * tv)) (kept : nat) (body : K unit) : K unit :=
  let! binary := v (file_sha256 (sn_binary args)) in
  do! amend (rupdate (initial binary));;
  do! v (io_res (h_mkdir (path_parent (sn_output args))));;
  evidence_script (sn_output args) (join_path ROOT folder) []
    (cluster_run (sn_binary args) (sn_openssl args) 5 kept body).

Definition snapshot_report (ROOT : pystr) (args : SnapshotArgs) : K unit :=
  snapshot_script ROOT (py "build/snapshot-work") args
    (fun binary => [("complete", tbool false); ("passed", tbool false); ("checks", Arr []); ("binary_sha256", tstr binary);
       ("scope", tstr (py "format-5 online capture, authenticated quorum receipts and chosen certificate; no trim"))]%string)
    8000 (snapshot_checks (sn_operations args)).

(** ** check_generation_service.py: main *)

(** [compact(root, node)] *)
Definition compact (node : Z) : VM Finished :=
  let! c := cluster in base (io_res (h_run [n_binary c; py "compact"; node_file c node ".json"] [] (Some 120%Q))).

Definition cycle_name (cycle : Z) (rest : string) : pystr := fstr [L "cycle_"; D cycle; L rest].

Definition insert_cycle (operations cycle : Z) : VM unit :=
  for_do (seq 0 (Z.to_nat operations)) (fun i =>
    let i := Z.of_nat i in
    with_conn [i mod 3 + 1] 10 None (fun h =>
      run_sql h INSERT [PInt (cycle * operations + i); PStr (fstr [L "cycle-"; D cycle; L "-item-"; D i])])).

(** A stopped voter publishes its generation and serves again. *)
Definition publish (operations cycle target node : Z) : VM unit :=
  do! stop node;;
  let! result := compact node in
  do! check_that (returncode result =? 0);;
  do! check_that (text_in (py "Previous files retained") (stdout result));;
  do! start node false;;
  do! ready_one node;;
  with_conn [node] 10 None (fun h =>
    do! expect_at_least h "generation_prefix" target;;
    expect_scalar h COUNT_ITEMS [] ((cycle + 1) * operations)).

Definition generation_cycle (operations cycle : Z) : K unit :=
  do! v (insert_cycle operations cycle);;
  let! target := v (with_conn all_voters 10 None (fun h => call h request_snapshot)) in
  let! _ := v (wait_sealed target all_voters) in
  let! live := v (compact 1) in
  do! v (check_that ((returncode live =? 1) && text_in (py "Locked") (stderr live)));;
  do! record_text (cycle_name cycle "_active_voter_compaction_refused");;
  do! v (for_do all_voters (publish operations cycle target));;
  record_text (cycle_name cycle "_each_voter_publishes_and_serves_certified_generation").

Definition generation_checks (operations : Z) : K unit :=
  do! v (start_all true);;
  do! v (for_do all_voters ready_one);;
  do! v (with_conn all_voters 10 None (fun h => run_sql h ITEMS []));;
  do! for_do [0; 1] (generation_cycle operations);;
  do! v stop_all;;
  do! v (start_all false);;
  do! v (for_do all_voters (fun node =>
    do! ready_one node;;
    with_conn [node] 10 None (fun h => expect_scalar h COUNT_ITEMS [] (2 * operations))));;
  do! v (for_do all_voters (fun node =>
    with_conn [node] 10 None (fun h => run_sql h INSERT [PInt (100000 + node); PStr (py "after-restart")])));;
  record "all_published_voters_restart_and_continue_multi_master_writes".

Definition generation_report (ROOT : pystr) (args : SnapshotArgs) : K unit :=
  snapshot_script ROOT (py "build/generation-service-work") args
    (fun binary => [("complete", tbool false); ("passed", tbool false); ("checks", Arr []);
       ("operations_per_cycle", tint (sn_operations args)); ("binary_sha256", tstr binary);
       ("scope", tstr (py "two public CLI compaction cycles and native startup; peers already past each snapshot"))]%string)
    10000 (generation_checks (sn_operations args)).

(** Both [main]s refuse the same arguments. *)
Definition snapshot_main (message : string) (script : K unit) (args : SnapshotArgs) : Hm (W := W) unit :=
  let! present := io (h_exists (sn_output args)) in
  if (present : bool) || (sn_operations args <? 3) then parser_error message
  else fun w => let '(r, s) := script ([], (no_voters, w)) in (r, s.2.2).
Definition snapshot_service_main (ROOT : pystr) (args : SnapshotArgs) : Hm (W := W) unit :=
  snapshot_main "Use at least three operations and a new evidence path" (snapshot_report ROOT args) args.
Definition generation_service_main (ROOT : pystr) (args : SnapshotArgs) : Hm (W := W) unit :=
  snapshot_main "Use a new evidence path and at least three operations" (generation_report ROOT args) args.
End Snapshots.

(** * Lemmas on the snapshot and generation qualification

    The checks each script records, in order; a wait for a certificate returns
    only states in which every voter asked has sealed the snapshot. *)

Definition snapshot_names : list pystr := py <$>
  ["quorum_snapshot_certified_while_all_voters_continue_writes";
   "chosen_certificate_and_all_acknowledged_writes_survive_full_restart";
   "two_survivors_capture_and_certify_without_third_voter"; "returning_voter_catches_up_after_certificate"]%string.
Definition generation_names : list pystr := py <$>
  ["cycle_0_active_voter_compaction_refused"; "cycle_0_each_voter_publishes_and_serves_certified_generation";
   "cycle_1_active_voter_compaction_refused"; "cycle_1_each_voter_publishes_and_serves_certified_generation";
   "all_published_voters_restart_and_continue_multi_master_writes"]%string.

Section Snapshots.
Context {W : Type} `{Probes W} (fuel : nat).
Abbreviation St := (report * (Voters * W))%type.

Lemma emits_snapshot operations : emits snapshot_names (snapshot_checks fuel operations).
Proof. unfold snapshot_checks. emits_auto. Qed.

Lemma emits_cycle operations cycle :
  emits [cycle_name cycle "_active_voter_compaction_refused"; cycle_name cycle "_each_voter_publishes_and_serves_certified_generation"]
    (generation_cycle fuel operations cycle).
Proof. unfold generation_cycle. emits_auto. Qed.

Lemma emits_generation operations : emits generation_names (generation_checks fuel operations).
Proof.
  unfold generation_checks. do 3 (apply emits_then; [apply emits_host|intros ?]).
  apply (emits_bind _ _ (take 4 generation_names) (drop 4 generation_names)); [exact (emits_for [0; 1] _ _ (emits_cycle operations))|intros ?].
  emits_auto.
Qed.

Lemma snapshot_script_honest names ROOT folder args initial kept body (s : Voters * W) :
  emits names body -> (forall binary, opening (rupdate (initial binary) [])) ->
  wp (snapshot_script ROOT folder args initial kept body)
     (fun r s' => verdict s'.1 <> true_ /\ r <> Ok tt \/ script_honest names (sn_output args) r s') ([], s).
Proof.
  intros Hem Hop. unfold snapshot_script. apply preparing; [done|by left|]. intros binary w1. apply wp_bind, wp_amend. cbn [fst snd].
  apply preparing; [apply Hop|by left|]. intros u w2.
  eapply wp_mono; [apply (evidence_script_honest names); [|apply Hop]|intros r s' Hh; by right].
  intros work s1 Ho. by apply honest_run.
Qed.

(** ** wait_sealed *)

(** The state of a voter in which the snapshot is certified. *)
Definition certified (target : Z) (s : dict) : Prop :=
  exists q, vnum (get_or (py "snapshot_sealed") (PInt 0) s) = Ok q /\ (inject_Z target <= q)%Q.

Lemma all_sealed_true target states :
  all_sealed target states = Ok true -> Forall (fun '(_, s) => certified target s) states.
Proof.
  induction states as [|[n s] l IH]; [constructor|]. cbn [all_sealed]. intros Ha.
  apply res_bind_Ok in Ha as (q & Hq & Ha). destruct (Qle_bool (inject_Z target) q) eqn:E; [|done].
  constructor; [exists q; split; [done|by apply Qle_bool_iff]|by apply IH].
Qed.

Lemma wp_with_conn {A} nodes timeout pending (body : nat -> V A) (Q : A -> Prop) (s : Voters * W) :
  (forall h s1, wp (body h) (fun r _ => forall a, r = Ok a -> Q a) s1) ->
  wp (with_conn nodes timeout pending body) (fun r _ => forall a, r = Ok a -> Q a) s.
Proof.
  intros Hb. unfold with_conn. apply wp_bind, wp_intro. intros [h|e|] s1 _; [|done..].
  apply wp_try_finally. eapply wp_mono; [apply Hb|]. intros [a|e|] s2 HQ; [| |done];
    apply wp_intro; intros [[]|e'|] s3 _; done.
Qed.

(** A round asks every node once; a returned state carries no snapshot error. *)
Lemma poll_states_spec nodes states (s : Voters * W) :
  wp (poll_states nodes states)
     (fun r _ => forall out, r = Ok out ->
        (forall n, n ∈ nodes -> exists st, dget n out = Some st /\ truthy (get_or (py "snapshot_error") PNone st) = false) /\
        (forall n, n ∉ nodes -> dget n out = dget n states)) s.
Proof.
  unfold poll_states. revert states s. induction nodes as [|n l IH]; intros states s; cbn [for_each].
  { apply wp_ret. intros out [= <-]. split; [intros n Hn; by apply elem_of_nil in Hn|done]. }
  apply wp_bind. eapply wp_mono.
  { apply (wp_with_conn _ _ _ _ (fun out => exists st, out = dset n st states /\ truthy (get_or (py "snapshot_error") PNone st) = false)).
    intros h s1. apply wp_bind, wp_intro. intros [st|e|] s2 _; [|done..]. apply wp_bind, wp_lift.
    destruct (truthy (get_or (py "snapshot_error") PNone st)) eqn:E; cbn; [done|]. intros a [= <-]. by exists st. }
  intros [out1|e|] s1 Hq; [|done..]. destruct (Hq out1 eq_refl) as (st & -> & Hst).
  eapply wp_mono; [apply IH|]. intros r s2 Hr out Ho. destruct (Hr out Ho) as [Hin Hout]. split.
  - intros m Hm. destruct (decide (m ∈ l)) as [Hml|Hml]; [by apply Hin|].
    apply elem_of_cons in Hm as [->|Hm]; [|done]. exists st. by rewrite Hout, dget_dset, decide_True.
  - intros m Hm. apply not_elem_of_cons in Hm as [Hmn Hml]. by rewrite Hout, dget_dset, decide_False.
Qed.

(** A wait returns only when every voter asked has certified the snapshot and
    reports no snapshot error. *)
Lemma wait_sealed_certified target nodes (s : Voters * W) :
  wp (wait_sealed fuel target nodes)
     (fun r _ => forall states, r = Ok states ->
        forall n, n ∈ nodes -> exists st, dget n states = Some st /\ certified target st /\
                                 truthy (get_or (py "snapshot_error") PNone st) = false) s.
Proof.
  unfold wait_sealed. apply wp_bind, wp_intro. intros [t|e|] s1 _; [|done..]. cbv zeta.
  generalize (@nil (Z * dict)). intros states. revert states s1.
  induction fuel as [|f IH]; intros states s1; cbn [while_loop]; [done|].
  apply wp_bind, wp_bind, wp_intro. intros [now|e|] s2 _; [|done..].
  destruct (Qle_bool _ now); [by apply wp_throw|]. apply wp_bind. eapply wp_mono; [apply poll_states_spec|].
  intros [out|e|] s3 Hout; [|done..]. destruct (Hout out eq_refl) as [Hin _]. apply wp_bind, wp_lift.
  destruct (all_sealed target out) as [[|]|e|] eqn:Ha; [| |done..].
  - apply wp_ret, wp_ret. intros states' [= <-] n Hn. destruct (Hin n Hn) as (st & Hst & He). exists st. split_and!; try done.
    apply all_sealed_true in Ha. rewrite Forall_forall in Ha. exact (Ha (n, st) (dget_Some_In _ _ _ Hst)).
  - apply wp_bind, wp_intro. intros [[]|e|] s4 _; [|done..]. apply wp_ret, IH.
Qed.
End Snapshots.
