(* ===== verification/Recovery.v ===== *)
(** * Recovery into a fresh namespace, and retirement of sessions
    (tools/check_restore_service.py, tools/check_session_retirement.py)

    A voter loses its data directory; the survivors' backup is restored under a
    new cluster name and the old instance must stay out.  Retiring the sessions
    of an epoch must fence its retries for good: through other voters, through
    compaction and through a restore. *)

From Stdlib Require Import QArith.
From S2P Require Import Prelude PyStr PyFloat Objects Json Vector Text Parameters Results Net Client Dict Host Script Service ServiceChecks Evidence Snapshots.
#[local] Open Scope Z_scope.

Record RecoveryArgs := mkRecoveryArgs { rc_binary : pystr; rc_output : pystr; rc_openssl : pystr }.

Section Recovery.
Context {W : Type} `{Probes W} (fuel : nat).
Abbreviation K := (Sc (W := Voters * W) report).
Abbreviation VM := (V (W := W)).

(** ** Steps *)

(** [command(...)]: the command of the voters' binary must succeed, or fail. *)
Definition command (argv : list pystr) (success : bool) : VM Finished :=
  let! c := cluster in
  let! result := base (io_res (h_run (n_binary c :: argv) [] (Some 120%Q))) in
  do! check_that (eqb (returncode result =? 0) success);;
  ret result.
Definition command_ok (argv : list pystr) : VM unit := let! _ := command argv true in ret tt.

Definition rooted (name : pystr) : VM pystr := let! c := cluster in ret (join_path (n_root c) name).
Definition config_path (node : Z) : VM pystr := let! c := cluster in ret (node_file c node ".json").
Definition rename (from to : string) : VM unit :=
  let! old := rooted (py from) in let! new := rooted (py to) in base (io_res (h_replace old new)).

(** [config.update(k=v, ...)] *)
Definition update_config (kvs : list (string * pyval)) (config : pyval) : pyres pyval :=
  match config with
  | PDict d => Ok (PDict (foldl (fun d '(k, x) => dset (py k) x d) d kvs))
  | _ => Raise (AttributeError "update")
  end.
Definition write_config (node : Z) (config : pyval) : VM unit :=
  let! path := config_path node in
  let! text := lift (dumps spaced config) in
  base (io_res (h_write_text path text)).

(** The configuration of a voter under the cluster's name, with its own data. *)
Definition renamed_config (prefix : string) (node : Z) (config : pyval) : VM pyval :=
  let! c := cluster in
  lift (update_config [("cluster"%string, PStr (n_namespace c)); ("data"%string, PStr (join_path (n_root c) (fstr [L prefix; D node])))] config).
Definition restore (backup : pystr) (node : Z) : VM unit :=
  let! path := config_path node in command_ok [py "restore"; backup; path; py "--new-cluster"].

(** [no_quorum(c, node)] *)
Definition no_quorum (node : Z) : VM unit :=
  let! refused := with_conn [node] (8 # 10) None (fun h =>
    try_except (do! db_query h (py "SELECT 1") [];; ret false)
      (fun e =>
         if isinstance e CConnectionError then Some (ret true)
         else if isinstance e CQueryError
         then Some (do! check_that (pyeqb (str_exn e) (py "Timeout") || pyeqb (str_exn e) (py "Busy"));; ret true)
         else None)) in
  if (refused : bool) then ret tt else throw (AssertionError "Incompatible voter served a fresh quorum read").

(** A resolved pending write. *)
Definition resolve_on (nodes : list Z) (pending : PendingWrite) (body : nat -> VM unit) : VM unit :=
  with_conn nodes 10 (Some pending) (fun h => do! call h resolve_pending;; body h).
Definition skip_body (h : nat) : VM unit := ret tt.

Definition saved_write (id sql : pystr) (epoch : Z) : VM PendingWrite :=
  lift (PendingWrite_new (PStr (concat (replicate 16 id))) (PInt 1) (PStr sql) [] (PInt 0) (PInt epoch)).

(** ** check_restore_service.py: main *)

Definition INCREMENT : pystr := py "UPDATE items SET visits=visits+1 WHERE id=1".
Definition VISITS : pystr := py "SELECT visits FROM items".
Definition DURABLE : pystr := py "SELECT count(*) FROM search WHERE search MATCH 'durable'".
Definition vector12 : pyres pyval := let? x := Vector_new (PList [PInt 1; PInt 2]) in Ok (PVec x).

(** The configurations written by the cluster. *)
Definition originals : VM (list (Z * pystr)) :=
  for_each all_voters (fun node acc =>
    let! path := config_path node in
    let! text := base (io_res (h_read_text path)) in ret (dset node text acc)) [].

Definition restore_schema : VM unit :=
  with_conn [1] 10 None (fun h =>
    do! run_sql h (py "CREATE TABLE items(id INTEGER PRIMARY KEY,visits INTEGER)") [];;
    do! run_sql h (py "INSERT INTO items VALUES(1,0)") [];;
    do! run_sql h (py "CREATE VIRTUAL TABLE search USING fts5(body)") [];;
    do! run_sql h (py "INSERT INTO search VALUES('durable text')") [];;
    do! run_sql h (py "CREATE TABLE vectors(id INTEGER PRIMARY KEY,embedding BLOB)") [];;
    let! x := lift vector12 in
    run_sql h (py "INSERT INTO vectors VALUES(?,?)") [PInt 1; x]).

(** Up to the backup of the survivors' last acknowledged write. *)
Definition lose_and_backup (pending : PendingWrite) (older backup : pystr) : VM unit :=
  do! resolve_on [1] pending (fun h => expect_scalar h VISITS [] 1);;
  do! stop 1;;
  let! path := config_path 1 in
  do! command_ok [py "backup"; path; older];;
  do! start 1 false;;
  do! ready_one fuel 1;;
  do! with_conn [2] 10 None (fun h => run_sql h INCREMENT []);;
  do! with_conn [1] 10 None (fun h => expect_scalar h VISITS [] 2);;
  do! stop 1;;
  do! command_ok [py "backup"; path; backup];;
  stop 2.

(** Every voter's configuration renamed and restored, the third from the older
    backup. *)
Definition restore_all (original : list (Z * pystr)) (older backup : pystr) : VM (list (Z * pyval)) :=
  for_each all_voters (fun node configs =>
    let! text := lift (dindex node original) in
    let! config := lift (loads text) in
    let! config := renamed_config "restored" node config in
    do! write_config node config;;
    do! restore (if node =? 3 then older else backup) node;;
    ret (dset node config configs)) [].

Definition serve_restored (node : Z) : VM unit :=
  do! ready_one fuel node;;
  with_conn [node] 10 None (fun h =>
    do! run_sql h INCREMENT [];;
    do! expect_scalar h DURABLE [] 1;;
    let! x := lift vector12 in
    expect_scalar h (py "SELECT vec_distance_l2(embedding,?) FROM vectors") [x] 0).

Definition compact_one (node : Z) : VM unit :=
  do! stop node;;
  let! path := config_path node in
  do! command_ok [py "compact"; path];;
  do! start node false;;
  ready_one fuel node.

Definition restore_checks (original : list (Z * pystr)) : K unit :=
  do! v (start_all true);;
  do! v (for_do all_voters (ready_one fuel));;
  do! v restore_schema;;
  do! v (stop 3);;
  do! v (rename "data3" "lost-data3");;
  let! pending := v (saved_write (py "ab") INCREMENT 0) in
  let! older := v (rooted (py "older-backup")) in
  let! backup := v (rooted (py "backup")) in
  do! v (lose_and_backup pending older backup);;
  do! record "survivors_establish_fresh_backup_cut_after_voter_directory_loss";;
  do! v (with_cluster (fun c => set_namespace (py "recovered-" ++ path_name (n_root c)) c));;
  let! configs := v (restore_all original older backup) in
  do! v (start_all false);;
  do! v (for_do [1; 2] (ready_one fuel));;
  do! v (no_quorum 3);;
  do! v (resolve_on [2] pending (fun h => expect_scalar h VISITS [] 2));;
  do! record "mismatched_genesis_cannot_join_and_cross_voter_retry_has_no_duplicate_effect";;
  do! v (stop 3);;
  do! v (rename "lost-data3" "data3");;
  do! v (let! text := lift (dindex 3 original) in let! path := config_path 3 in base (io_res (h_write_text path text)));;
  do! v (start 3 false);;
  do! v (no_quorum 3);;
  do! v (with_conn [1; 2] 10 None (fun h => expect_scalar h VISITS [] 2));;
  do! record "old_instance_cannot_rejoin_or_delay_the_new_quorum";;
  do! v (stop 3);;
  do! v (let! config := lift (dindex 3 configs) in
         let! repaired := rooted (py "repaired3") in
         let! config := lift (update_config [("data"%string, PStr repaired)] config) in
         write_config 3 config);;
  do! v (restore backup 3);;
  do! v (start 3 false);;
  do! v (for_do all_voters serve_restored);;
  do! record "all_restored_voters_accept_writes_and_serve_fts_and_vectors";;
  let! target := v (with_conn [1] 10 None (fun h => call h request_snapshot)) in
  let! _ := v (wait_sealed fuel target all_voters) in
  do! v (for_do all_voters compact_one);;
  do! v stop_all;;
  do! v (start_all false);;
  do! v (for_do all_voters (fun node =>
    do! ready_one fuel node;; with_conn [node] 10 None (fun h => expect_scalar h VISITS [] 5)));;
  do! v (resolve_on [3] pending (fun h => expect_scalar h VISITS [] 5));;
  record "genesis_retry_fences_and_writes_survive_compaction_and_full_restart".

(** ** check_session_retirement.py: main *)

(** [expired(c, pending, node)]: a fenced request is refused and stays pending. *)
Definition expired (node : Z) (pending : PendingWrite) : VM unit :=
  with_conn [node] 10 (Some pending) (fun h =>
    let! code := try_except (do! call h resolve_pending;; ret None)
                   (fun e => if isinstance e CSessionError then Some (ret (Some (str_exn e))) else None) in
    do! match code with
        | Some c => check_that (pyeqb c (py "Expired"))
        | None => throw (AssertionError "Retired request was not fenced")
        end;;
    let! again := call h (gets (fun s => c_pending s.1)) in
    check_that (match again with Some p => same_pending p pending | None => false end)).

Definition BUMP : pystr := py "UPDATE items SET v=v+1".
Definition VALUE : pystr := py "SELECT v FROM items".

Definition expect_epoch (h : nat) (expected epoch : Z) : VM unit :=
  let! e := call h (retire_sessions (PInt expected)) in check_that (e =? epoch).

(** With voter 3 absent: retirement fences the old epoch, the new one works, and
    repeating the control changes nothing. *)
Definition fence_checks (old : PendingWrite) : VM PendingWrite :=
  do! with_conn [1] 10 None (fun h => do! expect_epoch h 0 1;; expect_epoch h 0 1);;
  do! expired 2 old;;
  let! current := saved_write (py "ca") BUMP 1 in
  do! resolve_on [2] current skip_body;;
  do! with_conn [1] 10 None (fun h => expect_epoch h 0 1);;
  do! resolve_on [1] current skip_body;;
  do! with_conn [2] 10 None (fun h =>
    do! run_sql h BUMP [];;
    do! expect_scalar h VALUE [] 3;;
    do! expect_epoch h 1 2;;
    expect_raise CSerializationError "Stale retirement advanced the epoch" (call h (retire_sessions (PInt 0))));;
  do! expired 2 current;;
  ret current.

(** [preview['rows'][0][0]['integer']] *)
Definition first_integer (preview : dict) : pyres pyval :=
  let? rows := getitem "rows" preview in let? row := vindex 0 rows in let? cell := vindex 0 row in vget "integer" cell.

(** A preview on the published generation. *)
Definition preview_check (h : nat) : VM unit :=
  do! run_sql h (py "UPDATE items SET v=v") [];;
  let! revision := call h _begin_optimistic in
  let! preview := call h (_preview BUMP [] revision VALUE []) in
  let! n := lift (first_integer preview) in
  do! check_that (eq_int n 7);;
  expect_scalar h VALUE [] 6.

Definition compaction_checks (old current : PendingWrite) : VM unit :=
  do! start 3 false;;
  do! for_do all_voters (fun node =>
    do! ready_one fuel node;;
    with_conn [node] 10 None (fun h =>
      let! e := call h session_epoch in
      do! check_that (e =? 2);;
      run_sql h BUMP []));;
  let! target := with_conn [1] 10 None (fun h => call h request_snapshot) in
  let! _ := wait_sealed fuel target all_voters in
  do! stop_all;;
  do! for_do all_voters (fun node => let! path := config_path node in command_ok [py "compact"; path]);;
  do! start_all false;;
  do! for_do all_voters (ready_one fuel);;
  do! expired 3 old;;
  do! expired 3 current;;
  with_conn [3] 10 None preview_check.

(** The command-line client: its saved state is fenced like any other. *)
Definition client_config : VM pystr :=
  let! c := cluster in
  let! m := lift (list_index (n_members c) 0) in
  let file name := PStr (join_path (n_root c) (py name)) in
  let config := join_path (n_root c) (py "client.json") in
  let! text := lift (dumps spaced (PDict (mkdict
    [("cluster", PStr (n_namespace c)); ("address", PStr (m_address m)); ("identity", PStr (m_identity m));
     ("ca", file "ca.pem"%string); ("certificate", file "client.pem"%string); ("key", file "client.key"%string)]%string))) in
  do! base (io_res (h_write_text config text));;
  ret config.
Definition connect_argv (config state text : pystr) : list pystr := [py "connect"; config; py "--state"; state; py "-c"; text].

Definition cli_checks : VM PendingWrite :=
  let! config := client_config in
  let! state := rooted (py "old-client.db") in
  do! command_ok (connect_argv config state BUMP);;
  let! result := command (connect_argv config state (py ".retire-sessions 2 --quiesced")) true in
  do! check_that (text_in (py "session epoch: 3") (stdout result));;
  let! rejected := command (connect_argv config state BUMP) false in
  do! check_that (text_in (py "SESSION RETIRED") (stderr rejected) && text_in (py "Do not relabel") (stderr rejected));;
  let! fresh := rooted (py "new-client.db") in
  do! command_ok (connect_argv config fresh BUMP);;
  let! kept := saved_write (py "de") BUMP 3 in
  do! resolve_on [1] kept (fun h => expect_scalar h VALUE [] 9);;
  ret kept.

(** Every voter restored from voter 1's backup under a new name. *)
Definition restored_checks (old current kept : PendingWrite) : VM unit :=
  do! stop 1;;
  let! backup := rooted (py "backup") in
  let! path := config_path 1 in
  do! command_ok [py "backup"; path; backup];;
  do! stop 2;;
  do! stop 3;;
  do! with_cluster (set_namespace (py "recovered-session-retirement"));;
  do! for_do all_voters (fun node =>
    let! path := config_path node in
    let! config := base (read_json path) in
    let! config := renamed_config "restored" node config in
    do! write_config node config;;
    restore backup node);;
  do! start_all false;;
  do! for_do all_voters (ready_one fuel);;
  do! expired 2 old;;
  do! expired 2 current;;
  resolve_on [3] kept (fun h =>
    do! expect_scalar h VALUE [] 9;;
    let! e := call h session_epoch in check_that (e =? 3)).

Definition retirement_checks : K unit :=
  do! v (start_all true);;
  do! v (for_do all_voters (ready_one fuel));;
  do! v (with_conn all_voters 10 None (fun h =>
    do! run_sql h (py "CREATE TABLE items(v INTEGER)") [];;
    run_sql h (py "INSERT INTO items VALUES(0)") []));;
  let! old := v (saved_write (py "ca") BUMP 0) in
  do! v (resolve_on [1] old skip_body);;
  do! v (stop 3);;
  let! current := v (fence_checks old) in
  do! record "absent_voter_retirement_old_retry_fence_new_epoch_and_idempotent_control";;
  do! v (compaction_checks old current);;
  do! record "epoch_fences_survive_compaction_and_preview_uses_active_generation";;
  let! kept := v cli_checks in
  do! record "cli_retirement_durable_old_state_rejection_and_fresh_epoch_discovery";;
  do! v (restored_checks old current kept);;
  record "backup_restore_preserves_epoch_and_current_retry_without_reviving_old_epochs".

(** ** Both mains *)

(** [{str(p.relative_to(ROOT)): ... for folder in folders for p in (ROOT/folder).rglob('*.odin')}] *)
Definition odin_sources (ROOT : pystr) (folders : list string) : VM (list (pystr * pystr)) :=
  let! paths := for_each folders (fun folder acc =>
    let! found := io (h_glob (join_path ROOT (py folder)) (py "**/*.odin")) in ret (acc ++ found)) [] in
  for_each paths (fun path entries =>
    let! digest := file_sha256 path in ret (dset (relative_to ROOT path) digest entries)) [].

Definition recovery_script {A} (ROOT folder : pystr) (args : RecoveryArgs) (initial : pystr -> pystr -> list (string * tv))
    (kept : nat) (prepare : VM A) (body : A -> K unit) : K unit :=
  let! binary := v (base (gets (h_resolve (rc_binary args)))) in
  let! utc := v (io h_utc) in
  let! digest := v (file_sha256 binary) in
  do! amend (rupdate (initial utc digest));;
  do! v (io_res (h_mkdir (path_parent (rc_output args))));;
  let scratch := join_path ROOT folder in
  do! v (io_res (h_mkdir scratch));;
  try_finally
    (recording (fun e => rupdate [("error"%string, tstr (repr_exn e))])
      (let! work := v (io_res (h_mkdtemp [] scratch)) in
       try_finally
         (do! note_filesystem rupdate h_linux work;; voters_run binary (rc_openssl args) 5 kept prepare body work)
         (v (io_res (h_remove work)))))
    (let! sources := v (odin_sources ROOT ["src"; "service"; "cli"; "transport"]%string) in
     do! amend (rupdate [("sources"%string, manifest_report sources)]);;
     let! rep := reported in v (io_res (h_write_json (rc_output args) (Obj rep)))).

Definition restore_report (ROOT : pystr) (args : RecoveryArgs) : K unit :=
  recovery_script ROOT (py "build/restore-service-work") args
    (fun utc digest => [("complete", tbool false); ("passed", tbool false); ("checks", Arr []); ("run_at_utc", tstr utc);
       ("binary_sha256", tstr digest); ("scope", tstr (py "coordinated fresh namespace; process/data-directory faults, not physical disk loss"))]%string)
    16000 originals restore_checks.

Definition retirement_report (ROOT : pystr) (args : RecoveryArgs) : K unit :=
  recovery_script ROOT (py "build/session-retirement-work") args
    (fun utc digest => [("complete", tbool false); ("passed", tbool false); ("checks", Arr []); ("run_at_utc", tstr utc);
       ("binary_sha256", tstr digest)]%string)
    12000 (ret tt) (fun _ => retirement_checks).

Definition recovery_main (script : K unit) (message : string) (args : RecoveryArgs) : Hm (W := W) unit :=
  let! present := io (h_exists (rc_output args)) in
  if (present : bool) then parser_error message
  else fun w => let '(r, s) := script ([], (no_voters, w)) in (r, s.2.2).
Definition restore_main (ROOT : pystr) (args : RecoveryArgs) : Hm (W := W) unit :=
  recovery_main (restore_report ROOT args) "Use a new evidence path; earlier failures are retained" args.
Definition retirement_main (ROOT : pystr) (args : RecoveryArgs) : Hm (W := W) unit :=
  recovery_main (retirement_report ROOT args) "Use a new evidence path" args.
End Recovery.

(** * Theorems on the qualification scripts

    The reports of the service, snapshot, generation, restore and retirement
    scripts say passed only after every check held, in the order the scripts
    make them. *)

Definition restore_names : list pystr := py <$>
  ["survivors_establish_fresh_backup_cut_after_voter_directory_loss";
   "mismatched_genesis_cannot_join_and_cross_voter_retry_has_no_duplicate_effect";
   "old_instance_cannot_rejoin_or_delay_the_new_quorum"; "all_restored_voters_accept_writes_and_serve_fts_and_vectors";
   "genesis_retry_fences_and_writes_survive_compaction_and_full_restart"]%string.
Definition retirement_names : list pystr := py <$>
  ["absent_voter_retirement_old_retry_fence_new_epoch_and_idempotent_control";
   "epoch_fences_survive_compaction_and_preview_uses_active_generation";
   "cli_retirement_durable_old_state_rejection_and_fresh_epoch_discovery";
   "backup_restore_preserves_epoch_and_current_retry_without_reviving_old_epochs"]%string.

Section Recovery.
Context {W : Type} `{Probes W} (fuel : nat).

Lemma emits_restore original : emits restore_names (restore_checks fuel original).
Proof. unfold restore_checks. emits_auto. Qed.

Lemma emits_retirement : emits retirement_names (retirement_checks fuel).
Proof. unfold retirement_checks. emits_auto. Qed.

Lemma recovery_script_honest {A} names ROOT folder args initial kept (prepare : V A) body (s : Voters * W) :
  (forall a, emits names (body a)) -> (forall utc digest, opening (rupdate (initial utc digest) [])) ->
  wp (recovery_script ROOT folder args initial kept prepare body)
     (fun r s' => verdict s'.1 <> true_ /\ r <> Ok tt \/ closed_honest names (rc_output args) r s') ([], s).
Proof.
  intros Hem Hop. unfold recovery_script. apply preparing; [done|by left|]. intros binary w1.
  apply preparing; [done|by left|]. intros utc w2. apply preparing; [done|by left|]. intros digest w3.
  apply wp_bind, wp_amend. cbn [fst snd]. apply preparing; [apply Hop|by left|]. intros u w4.
  apply preparing; [apply Hop|by left|]. intros u' w5.
  eapply wp_mono; [apply (honest_closing names); [done|done|]|intros r s' Hh; by right].
  apply wp_recording. eapply wp_mono; [apply honest_host; [apply Hop|]; intros work w6|].
  - apply wp_try_finally. eapply wp_mono; [apply honest_filesystem; [apply Hop|]; intros s1 H1; by apply honest_voters|].
    intros r s' Hh. destruct r as [[]|e|]; [| |done]; apply wp_host_step; intros [?|?|] w7; cbn [fst]; first [done|by destruct Hh].
  - intros [[]|e|] s' Hh; [done| |done]. by eapply honest_note.
Qed.
End Recovery.

(** The qualification scripts pass no service that they did not check:
    whatever the voters, the network and the host do, the reports of
    check_network_service.py, check_snapshot_service.py,
    check_generation_service.py, check_restore_service.py and
    check_session_retirement.py say passed only when they record all of the
    script's checks, in the order it makes them; a run succeeds only with such a
    report; and the report is on disk, on every path out of the first three and
    after every success of the last two. *)
Theorem scripts_sound {W} `{Probes W} (ROOT : pystr) (fuel : nat) (args : ServiceArgs) (sargs : SnapshotArgs) (rargs : RecoveryArgs) (s : Voters * W) :
  let unopened (r : res exn unit) (s' : report * (Voters * W)) := verdict s'.1 <> true_ /\ r <> Ok tt in
  let sound names output r s' := unopened r s' \/ script_honest names output r s' in
  let closed names r s' := unopened r s' \/ closed_honest names (rc_output rargs) r s' in
  wp (service_report ROOT args) (sound local_checks (sa_output args)) ([], s) /\
  wp (snapshot_report fuel ROOT sargs) (sound snapshot_names (sn_output sargs)) ([], s) /\
  wp (generation_report fuel ROOT sargs) (sound generation_names (sn_output sargs)) ([], s) /\
  wp (restore_report fuel ROOT rargs) (closed restore_names) ([], s) /\
  wp (retirement_report fuel ROOT rargs) (closed retirement_names) ([], s).
Proof.
  cbv zeta. split_and!.
  - apply service_sound.
  - apply snapshot_script_honest; [apply emits_snapshot|by split].
  - apply snapshot_script_honest; [apply emits_generation|by split].
  - apply recovery_script_honest; [apply emits_restore|by split].
  - apply recovery_script_honest; [intros ?; apply emits_retirement|by split].
Qed.
