(* ===== verification/Majority.v ===== *)
(** * tools/check_majority.py: every voter absent in turn

    While one voter is down both survivors serve a mixed workload, the absent
    voter must then catch up, and a restart of all must keep every write. *)

From Stdlib Require Import QArith.
From S2P Require Import Prelude PyStr PyFloat Objects Json Vector Text Parameters Results Net Client Dict Host Script Service ServiceChecks.
#[local] Open Scope Z_scope.

Record MajorityArgs := mkMajorityArgs {
  ma_binary : pystr; ma_operations : Z; ma_openssl : pystr; ma_output : pystr; ma_storage_format : Z
}.

(** One entry of [report['cases']]. *)
Record Row_ := mkRow_ {
  r_absent : Z; r_operations : Z; r_writes : Z; r_passed : bool;
  r_first_write : option Q; r_lag : option Z; r_recovery : option Q
}.
Definition Row_new (victim : Z) : Row_ := mkRow_ victim 0 0 false None None None.
Definition row_wrote (r : Row_) : Row_ :=
  mkRow_ (r_absent r) (r_operations r) (r_writes r + 1) (r_passed r) (r_first_write r) (r_lag r) (r_recovery r).
Definition row_operated (r : Row_) : Row_ :=
  mkRow_ (r_absent r) (r_operations r + 1) (r_writes r) (r_passed r) (r_first_write r) (r_lag r) (r_recovery r).
Definition row_first (q : Q) (r : Row_) : Row_ :=
  mkRow_ (r_absent r) (r_operations r) (r_writes r) (r_passed r) (Some q) (r_lag r) (r_recovery r).
Definition row_lag (n : Z) (r : Row_) : Row_ :=
  mkRow_ (r_absent r) (r_operations r) (r_writes r) (r_passed r) (r_first_write r) (Some n) (r_recovery r).
Definition row_recovered (q : Q) (r : Row_) : Row_ :=
  mkRow_ (r_absent r) (r_operations r) (r_writes r) (r_passed r) (r_first_write r) (r_lag r) (Some q).
Definition row_passed (r : Row_) : Row_ :=
  mkRow_ (r_absent r) (r_operations r) (r_writes r) true (r_first_write r) (r_lag r) (r_recovery r).

Record MajorityReport := mkMajorityReport {
  mj_fixed : report;          (** the fields known before the run *)
  mj_cases : list Row_;
  mj_verified : option Z;     (** [complete], [passed] and [verified_writes] *)
  mj_logs : list (pystr * pystr);
  mj_error : option pystr
}.
Definition mj_passed (r : MajorityReport) : bool := match mj_verified r with Some _ => true | None => false end.
Definition mj_fix (kvs : list (string * tv)) (r : MajorityReport) : MajorityReport :=
  mkMajorityReport (rupdate kvs (mj_fixed r)) (mj_cases r) (mj_verified r) (mj_logs r) (mj_error r).
Definition mj_add (row : Row_) (r : MajorityReport) : MajorityReport :=
  mkMajorityReport (mj_fixed r) (mj_cases r ++ [row]) (mj_verified r) (mj_logs r) (mj_error r).
Definition mj_row (f : Row_ -> Row_) (r : MajorityReport) : MajorityReport :=
  mkMajorityReport (mj_fixed r)
    (match last (mj_cases r) with Some row => take (length (mj_cases r) - 1) (mj_cases r) ++ [f row] | None => [] end)
    (mj_verified r) (mj_logs r) (mj_error r).
Definition mj_finish (writes : Z) (r : MajorityReport) : MajorityReport :=
  mkMajorityReport (mj_fixed r) (mj_cases r) (Some writes) (mj_logs r) (mj_error r).
Definition mj_log (logs : list (pystr * pystr)) (r : MajorityReport) : MajorityReport :=
  mkMajorityReport (mj_fixed r) (mj_cases r) (mj_verified r) logs (mj_error r).
Definition mj_fail (e : exn) (r : MajorityReport) : MajorityReport :=
  mkMajorityReport (mj_fixed r) (mj_cases r) (mj_verified r) (mj_logs r) (Some (repr_exn e)).

Definition row_entry (r : Row_) : tv :=
  Obj (fields ([("absent", tint (r_absent r)); ("operations", tint (r_operations r)); ("writes", tint (r_writes r));
                ("passed", tbool (r_passed r))]%string
    ++ match r_first_write r with Some q => [("quorum_first_write_seconds"%string, Num q)] | None => [] end
    ++ match r_lag r with Some n => [("lag_slots"%string, tint n)] | None => [] end
    ++ match r_recovery r with Some q => [("recovery_seconds"%string, Num q)] | None => [] end)).
Definition majority_entry (r : MajorityReport) : tv :=
  Obj (rupdate ([("cases"%string, Arr (row_entry <$> mj_cases r))]
        ++ match mj_verified r with
           | Some n => [("complete", tbool true); ("passed", tbool true); ("verified_writes", tint n); ("all_voter_restart", tbool true)]%string
           | None => [] end
        ++ [("logs"%string, manifest_report (mj_logs r))]
        ++ match mj_error r with Some e => [("error"%string, tstr e)] | None => [] end) (mj_fixed r)).

Section Majority.
Context {W : Type} `{Probes W}.
Abbreviation K := (Sc (W := Voters * W) MajorityReport).
Abbreviation VM := (V (W := W)).

Definition mv {A} (m : VM A) : K A := on_host m.

(** [db.status()['applied']] *)
Definition applied_of (h : nat) : VM Z :=
  let! status := call h status in lift (let? x := getitem "applied" status in vint x).

Definition payload256 : pystr := replicate 256 120.
Definition COUNT : pystr := py "SELECT count(*) FROM durable_majority".

(** The double [.3] *)
Definition point3 : Q := 5404319552844595 # 18014398509481984.

(** One operation of the workload with [writes] rows inserted so far. *)
Definition majority_operation (clients : list nat) (started : Q) (i : nat) (writes : Z) : K Z :=
  let! h := mv (lift (list_index clients (Z.of_nat i mod 2))) in
  let! writing := (if Nat.eqb i 0 then ret true
                   else let! x := mv (base (io v_random)) in ret (negb (Qle_bool point3 x))) in
  let! writes :=
    (if (writing : bool) then
       let! _ := mv (db_execute h (py "INSERT INTO durable_majority VALUES(?,?)") [PInt (writes + 1); PStr payload256]) in
       do! amend (mj_row row_wrote);;
       ret (writes + 1)
     else do! mv (expect_scalar h COUNT [] writes);; ret writes) in
  do! amend (mj_row row_operated);;
  do! (if Nat.eqb i 0 then
         let! now := mv (base (io monotonic)) in amend (mj_row (row_first (now - started)%Q))
       else ret tt);;
  ret writes.

(** [max(db.status()['applied'] for db in clients)] *)
Definition max_applied (clients : list nat) : VM Z :=
  let! l := for_each clients (fun h acc => let! a := applied_of h in ret (acc ++ [a])) [] in
  match l with [] => throw (ValueError "max() arg is an empty sequence") | a :: l => ret (foldl Z.max a l) end.

(** The run while [victim] is down; the prefix the survivors reached. *)
Definition survivors_serve (operations : Z) (victim before : Z) (clients : list nat) (started : Q) (writes : Z) : K (Z * Z) :=
  do! mv (base (io_do (v_seed (24000 + victim))));;
  let! writes := for_each (seq 0 (Z.to_nat operations)) (majority_operation clients started) writes in
  let! rep := reported in
  let! first := mv (match last (mj_cases rep) with
                    | Some row => match r_first_write row with Some q => ret q | None => throw (KeyError "quorum_first_write_seconds") end
                    | None => throw (KeyError "quorum_first_write_seconds")
                    end) in
  do! check_that (Qle_bool first 5);;
  let! prefix := mv (max_applied clients) in
  do! check_that (64 <? prefix - before);;
  do! amend (mj_row (row_lag (prefix - before)));;
  ret (prefix, writes).

Definition majority_case (fuel : nat) (operations victim writes : Z) : K Z :=
  let survivors := filter (fun n => n <> victim) all_voters in
  let! before := mv (with_conn [victim] 10 None applied_of) in
  do! mv (stop victim);;
  do! amend (mj_add (Row_new victim));;
  let! started := mv (base (io monotonic)) in
  let! clients := for_each survivors (fun n acc => let! h := mv (open_conn [n] 5 None) in ret (acc ++ [h])) [] in
  let! out := try_finally (survivors_serve operations victim before clients started writes)
                (for_do clients (fun h => mv (call h Client.close))) in
  let '(prefix, writes) := out in
  do! mv (start victim false);;
  let! recovery := mv (ready fuel victim 60) in
  do! amend (mj_row (row_recovered recovery));;
  do! mv (with_conn [victim] 10 None (fun h =>
    do! expect_scalar h COUNT [] writes;;
    let! applied := applied_of h in
    check_that (prefix <=? applied)));;
  do! amend (mj_row row_passed);;
  do! mv (print_line (fstr [L "PASS voter "; D victim; L " absent: both survivors served "; D operations; L " operations"]));;
  ret writes.

Definition majority_run (fuel : nat) (operations : Z) : K unit :=
  do! mv (for_do all_voters (fun node => start node true));;
  do! mv (for_do all_voters (fun node => do! ready fuel node 60;; ret tt));;
  do! mv (with_conn all_voters 10 None (fun h =>
    let! _ := db_execute h (py "CREATE TABLE durable_majority(id INTEGER PRIMARY KEY, payload TEXT)") [] in ret tt));;
  let! writes := for_each all_voters (majority_case fuel operations) 0 in
  do! mv (for_do all_voters stop);;
  do! mv (for_do all_voters (fun node => start node false));;
  do! mv (for_do all_voters (fun node =>
    do! ready fuel node 60;;
    expect_on [node] COUNT writes));;
  amend (mj_finish writes).

(** The cluster, and its logs whatever happens. *)
Definition majority_cluster (fuel : nat) (args : MajorityArgs) (work : pystr) : K unit :=
  do! note_filesystem mj_fix (bool_decide (h_system = py "Linux")) work;;
  let! binary := mv (base (gets (h_resolve (ma_binary args)))) in
  let! c := mv (base (Voters_new work binary (ma_openssl args) (ma_storage_format args) "manual")) in
  do! mv (with_cluster (fun _ => c));;
  try_finally (majority_run fuel (ma_operations args))
    (do! mv close_voters;;
     let! logs := mv (let! paths := io (h_glob work (py "node*.log")) in
                      for_each paths (fun p acc => let! text := io_res (h_read_text p) in ret (dset (path_name p) text acc)) []) in
     amend (mj_log logs)).

Definition majority_report (ROOT : pystr) (fuel : nat) (args : MajorityArgs) : K unit :=
  let work_root := join_path ROOT (py "build/majority-work") in
  do! mv (io_res (h_mkdir work_root));;
  let! sources := mv (base (for_each ["src"; "service"]%string (fun folder acc =>
    let! found := io (h_glob (join_path ROOT (py folder)) (py "**/*.odin")) in
    let! entries := manifest ROOT found in ret (acc ++ entries)) [])) in
  let! harness := mv (file_sha256 (join_path ROOT (py "tools/check_majority.py"))) in
  let! binary := mv (file_sha256 (ma_binary args)) in
  do! amend (mj_fix [("complete", tbool false); ("passed", tbool false); ("cases", Arr []);
    ("operations_per_failure", tint (ma_operations args)); ("storage_format", tint (ma_storage_format args));
    ("platform", tstr h_platform); ("source_sha256", manifest_report sources);
    ("harness_sha256", tstr harness); ("binary_sha256", tstr binary)]%string);;
  do! mv (io_res (h_mkdir (path_parent (ma_output args))));;
  writing (ma_output args) majority_entry
    (recording mj_fail
      (let! work := mv (io_res (h_mkdtemp (py "sqlodin-majority-") work_root)) in
       try_finally (majority_cluster fuel args work) (mv (io_res (h_remove work))))).

Definition majority_main (ROOT : pystr) (fuel : nat) (args : MajorityArgs) : Hm (W := W) unit :=
  let! present := io (h_exists (ma_output args)) in
  if (ma_operations args <? 90) || present then parser_error "Use at least 90 operations and a new output path"
  else fun w => let '(r, s) := majority_report ROOT fuel args (mkMajorityReport [] [] None [] None, (no_voters, w)) in (r, s.2.2).
End Majority.

(** * Theorems on the majority qualification

    Its report says passed only with the whole evidence. *)

(** A row that shows the claim: the survivors finished every operation, the
    first write came within five seconds, the prefix grew by more than a window
    of 64 slots, and the absent voter caught up. *)
Definition row_shows (operations : Z) (r : Row_) : Prop :=
  r_passed r = true /\ r_operations r = Z.max 0 operations /\
  (exists q, r_first_write r = Some q /\ (q <= 5)%Q) /\
  (exists n, r_lag r = Some n /\ 64 < n) /\ r_recovery r <> None.

Definition evidence (operations : Z) (r : MajorityReport) : Prop :=
  forall writes, mj_verified r = Some writes ->
    r_absent <$> mj_cases r = [1; 2; 3] /\ Forall (row_shows operations) (mj_cases r) /\
    writes = zsum (r_writes <$> mj_cases r).

Section Sound.
Context {W : Type} `{Probes W}.
Abbreviation St := (MajorityReport * (Voters * W))%type.

Definition open_ (s : St) : Prop := mj_verified s.1 = None.

(** The outcomes a step may have: fuel and exceptions leave the report open. *)
Definition opened {A} (P : A -> St -> Prop) (r : res exn A) (s : St) : Prop :=
  open_ s /\ match r with Ok a => P a s | _ => True end.

Lemma wp_opened_bind {A B} (m : Sc MajorityReport A) (f : A -> Sc MajorityReport B) (P : A -> St -> Prop) Q s :
  wp m (opened P) s -> (forall a s', open_ s' -> P a s' -> wp (f a) (opened Q) s') -> wp (bind m f) (opened Q) s.
Proof. intros Hm Hf. apply wp_bind. eapply wp_mono; [exact Hm|]. intros [a|e|] s' [Ho HP]; [by apply Hf|done..]. Qed.

Lemma wp_opened_host {A} (m : V A) (Q : A -> St -> Prop) s :
  open_ s -> (forall a w, Q a (s.1, w)) -> wp (on_host m) (opened Q) s.
Proof. intros Ho HQ. apply wp_host_step. intros [a|e|] w; by split. Qed.

(** A step that only uses the host, then the rest. *)
Lemma wp_opened_skip {A B} (m : V A) (f : A -> Sc MajorityReport B) Q s :
  open_ s -> (forall a w, open_ (s.1, w) -> wp (f a) (opened Q) (s.1, w)) -> wp (bind (on_host m) f) (opened Q) s.
Proof. intros Ho Hf. apply wp_bind, wp_host_step. intros [a|e|] w; [by apply Hf|done..]. Qed.

Lemma wp_opened_amend f (Q : unit -> St -> Prop) s :
  mj_verified (f s.1) = None -> Q tt (f s.1, s.2) -> wp (amend f) (opened Q) s.
Proof. intros Ho HQ. apply wp_amend. by split. Qed.

Lemma wp_opened_then {A} f (k : unit -> Sc MajorityReport A) Q (s : St) :
  mj_verified (f s.1) = None -> (open_ (f s.1, s.2) -> wp (k tt) (opened Q) (f s.1, s.2)) -> wp (bind (amend f) k) (opened Q) s.
Proof. intros Ho Hk. apply wp_bind, wp_amend. by apply Hk. Qed.

Lemma mj_row_last f r l row :
  mj_cases r = l ++ [row] -> mj_cases (mj_row f r) = l ++ [f row].
Proof.
  intros Hc. unfold mj_row. cbn. rewrite Hc, last_snoc, length_app. cbn [length].
  replace (length l + 1 - 1)%nat with (length l + 0)%nat by lia. by rewrite take_app_add, take_0, app_nil_r.
Qed.

(** [row] after [n] more operations that brought the writes from [a] to [b]. *)
Definition served (n : Z) (a b : Z) (row row' : Row_) : Prop :=
  r_absent row' = r_absent row /\ r_passed row' = r_passed row /\
  r_operations row' = r_operations row + n /\ r_writes row' = r_writes row + (b - a).

(** Closes a goal about the last row after named updates. *)
Ltac row_done :=
  eexists; split; [repeat (eassumption || apply mj_row_last)|]; unfold served; cbn; repeat split; lia.

Lemma operation_spec clients started i writes l row (s : St) :
  open_ s -> mj_cases s.1 = l ++ [row] ->
  wp (majority_operation clients started i writes)
     (opened (fun n s' => exists row', mj_cases s'.1 = l ++ [row'] /\ served 1 writes n row row')) s.
Proof.
  intros Ho Hc. unfold majority_operation, mv.
  apply wp_opened_skip; [done|]. intros h w Hw.
  eapply (wp_opened_bind _ _ (fun _ s' => mj_cases s'.1 = l ++ [row])).
  { destruct (Nat.eqb i 0); [by apply wp_ret|]. apply wp_opened_skip; [done|]. intros x w' Hw'. by apply wp_ret. }
  intros writing s1 Ho1 Hc1.
  eapply (wp_opened_bind _ _ (fun n s' => exists row', mj_cases s'.1 = l ++ [row'] /\ served 0 writes n row row')).
  { destruct writing; cbn [bool_decide].
    - apply wp_opened_skip; [done|]. intros u w' Hw'. apply wp_opened_then; [done|]. intros Ho2. apply wp_ret.
      split; [done|]. row_done.
    - apply wp_opened_skip; [done|]. intros u w' Hw'. apply wp_ret. split; [done|]. row_done. }
  intros n s2 Ho2 (row2 & Hc2 & Hs2). apply wp_opened_then; [done|]. intros Ho3.
  assert (Hserved : forall f, (forall r, r_absent (f r) = r_absent r /\ r_passed (f r) = r_passed r /\
            r_operations (f r) = r_operations r /\ r_writes (f r) = r_writes r) -> served 1 writes n row (f (row_operated row2))).
  { intros f Hf. unfold served. destruct (Hf (row_operated row2)) as (-> & -> & -> & ->). destruct Hs2 as (? & ? & ? & ?).
    cbn. repeat split; (done || lia). }
  eapply (wp_opened_bind _ _ (fun _ s' => exists row', mj_cases s'.1 = l ++ [row'] /\ served 1 writes n row row')).
  { destruct (Nat.eqb i 0).
    - apply wp_opened_skip; [done|]. intros now w' Hw'. apply wp_opened_amend; [done|]. cbn [fst].
      eexists. split; [by apply mj_row_last, mj_row_last|]. by apply (Hserved (row_first (now - started)%Q)).
    - apply wp_ret. split; [done|]. eexists. split; [by apply mj_row_last|]. by apply (Hserved id). }
  intros u s4 Ho4 Hr4. by apply wp_ret.
Qed.

Lemma operations_spec clients started ks writes l row (s : St) :
  open_ s -> mj_cases s.1 = l ++ [row] ->
  wp (for_each ks (majority_operation clients started) writes)
     (opened (fun n s' => exists row', mj_cases s'.1 = l ++ [row'] /\ served (zlen ks) writes n row row')) s.
Proof.
  revert writes row s. induction ks as [|i ks IH]; intros writes row s Ho Hc; cbn [for_each].
  { apply wp_ret. split; [done|]. exists row. split; [done|]. unfold served, zlen. cbn. repeat split; lia. }
  eapply wp_opened_bind; [by apply operation_spec|]. intros n s1 Ho1 (row1 & Hc1 & Hs1).
  eapply wp_mono; [by apply IH|]. intros r s2 [Ho2 Hr]. split; [done|]. destruct r as [m|e|]; [|done..].
  destruct Hr as (row2 & Hc2 & Hs2). exists row2. split; [done|]. revert Hs1 Hs2. unfold served. rewrite zlen_cons.
  intros (? & ? & ? & ?) (? & ? & ? & ?). repeat split; (congruence || lia).
Qed.

(** What [survivors_serve] leaves in the row. *)
Definition survived (operations a b : Z) (row row' : Row_) : Prop :=
  served (Z.max 0 operations) a b row row' /\
  (exists q, r_first_write row' = Some q /\ (q <= 5)%Q) /\ (exists n, r_lag row' = Some n /\ 64 < n).

Lemma survivors_spec operations victim before clients started writes l row (s : St) :
  open_ s -> mj_cases s.1 = l ++ [row] ->
  wp (survivors_serve operations victim before clients started writes)
     (opened (fun out s' => exists row', mj_cases s'.1 = l ++ [row'] /\ survived operations writes out.2 row row')) s.
Proof.
  intros Ho Hc. unfold survivors_serve, mv. apply wp_opened_skip; [done|]. intros u w Hw.
  eapply wp_opened_bind; [by apply operations_spec|]. intros n s1 Ho1 (row1 & Hc1 & Hs1).
  apply wp_bind, wp_gets. cbn beta iota. rewrite Hc1, last_snoc.
  eapply (wp_opened_bind _ _ (fun q s' => s' = s1 /\ r_first_write row1 = Some q)).
  { apply wp_on_host. destruct (r_first_write row1) as [q|]; [apply wp_ret|apply wp_throw]; (split; [done|]); by destruct s1. }
  intros q s2 Ho2 [-> Hq]. destruct (Qle_bool q 5) eqn:Hq5; [|by apply wp_bind, wp_lift].
  apply wp_bind, wp_lift. cbn [guard negb]. apply wp_opened_skip; [done|]. intros prefix w3 Hw3.
  destruct (64 <? prefix - before) eqn:Hlag; [|by apply wp_bind, wp_lift].
  apply wp_bind, wp_lift. cbn [guard negb]. apply wp_opened_then; [done|]. intros Ho3. apply wp_ret. split; [done|].
  eexists. split; [by apply mj_row_last|]. unbool. apply Qle_bool_iff in Hq5.
  assert (Hz : zlen (seq 0 (Z.to_nat operations)) = Z.max 0 operations) by (unfold zlen; rewrite length_seq; lia).
  rewrite Hz in Hs1. split; [exact Hs1|]. cbn. split; eauto.
Qed.

Lemma for_host {A} (l : list A) (f : A -> V unit) (Q : unit -> St -> Prop) s :
  open_ s -> (forall w, Q tt (s.1, w)) -> wp (for_do l (fun x => on_host (f x))) (fun r s' => s'.1 = s.1 /\ opened Q r s') s.
Proof.
  intros Ho HQ. revert s Ho HQ. induction l as [|x l IH]; intros s Ho HQ; cbn [for_do].
  { apply wp_ret. destruct s. by repeat split. }
  apply wp_bind, wp_host_step. intros [u|e|] w; [|by repeat split..].
  by apply (IH (s.1, w)).
Qed.

Lemma case_spec fuel operations victim writes (s : St) l :
  open_ s -> mj_cases s.1 = l ->
  wp (majority_case fuel operations victim writes)
     (opened (fun n s' => exists row, mj_cases s'.1 = l ++ [row] /\ r_absent row = victim /\ row_shows operations row /\
                                      n = writes + r_writes row)) s.
Proof.
  intros Ho Hc. unfold majority_case, mv.
  apply wp_opened_skip; [done|]. intros before w Hw. apply wp_opened_skip; [done|]. intros u w2 Hw2.
  apply wp_opened_then; [done|]. intros Ho3. cbn [fst snd]. apply wp_opened_skip; [done|]. intros started w4 Hw4.
  assert (Hc4 : mj_cases (mj_add (Row_new victim) s.1) = l ++ [Row_new victim]) by (cbn; by rewrite Hc).
  eapply (wp_opened_bind _ _ (fun _ s' => mj_cases s'.1 = l ++ [Row_new victim])).
  { apply (wp_for_each (fun _ s' => open_ s' /\ mj_cases s'.1 = l ++ [Row_new victim])); [done| |].
    - intros n acc s1 _ [Ho1 Hc1]. apply wp_bind, wp_host_step. intros [h|e|] w5; [by apply wp_ret|by repeat split..].
    - intros acc s1 [Ho1 Hc1]. by split. }
  intros clients s5 Ho5 Hc5.
  eapply (wp_opened_bind _ _ (fun out s' => exists row', mj_cases s'.1 = l ++ [row'] /\
            survived operations writes out.2 (Row_new victim) row')).
  { apply wp_try_finally. eapply wp_mono; [by apply survivors_spec|]. intros [out|e|] s6 [Ho6 Hr6]; [| |done];
      (eapply wp_mono; [apply (for_host _ _ (fun _ s' => open_ s' /\ s'.1 = s6.1)); [done|by intros]|]);
      intros [?|e'|] s7 [Hs7 [Ho7 _]]; (split; [done|]); try done. cbn beta iota in Hr6. by rewrite Hs7. }
  intros [prefix n] s8 Ho8 (row8 & Hc8 & Hs8). cbn [snd] in Hs8.
  apply wp_opened_skip; [done|]. intros u9 w9 Hw9. apply wp_opened_skip; [done|]. intros recovery w10 Hw10.
  apply wp_opened_then; [done|]. intros Ho11. cbn [fst snd]. apply wp_opened_skip; [done|]. intros u12 w12 Hw12.
  apply wp_opened_then; [done|]. intros Ho13. cbn [fst snd]. apply wp_opened_skip; [done|]. intros u14 w14 Hw14.
  apply wp_ret. split; [done|]. cbn [fst]. eexists. split; [by apply mj_row_last, mj_row_last|].
  destruct Hs8 as ((Ha & Hp & Hn & Hw8) & Hf & Hl). cbn in Ha, Hn, Hw8. cbn. split; [done|]. split; [|lia].
  unfold row_shows. cbn. repeat split; try done; lia.
Qed.

Lemma run_spec fuel operations (s : St) :
  open_ s -> mj_cases s.1 = [] ->
  wp (majority_run fuel operations)
     (fun r s' => evidence operations s'.1 /\ (mj_passed s'.1 = true <-> r = Ok tt)) s.
Proof.
  intros Ho Hc. unfold majority_run, mv.
  assert (Hend : forall (r : res exn unit) (s' : St), opened (fun _ _ => False) r s' ->
            evidence operations s'.1 /\ (mj_passed s'.1 = true <-> r = Ok tt)).
  { intros r s' [Ho' Hr]. unfold evidence, mj_passed. rewrite Ho'. split; [done|]. split; [done|]. by intros ->. }
  assert (Hskip : forall {A} (m : V A) (k : A -> Sc MajorityReport unit) (s1 : St), open_ s1 ->
            (forall a w, wp (k a) (fun r s' => evidence operations s'.1 /\ (mj_passed s'.1 = true <-> r = Ok tt)) (s1.1, w)) ->
            wp (bind (on_host m) k) (fun r s' => evidence operations s'.1 /\ (mj_passed s'.1 = true <-> r = Ok tt)) s1).
  { intros A m k s1 Ho1 Hk. apply wp_bind, wp_host_step. intros [a|e|] w; [apply Hk|by apply Hend..]. }
  apply Hskip; [done|]. intros u w. apply Hskip; [done|]. intros u2 w2. apply Hskip; [done|]. intros u3 w3. cbn [fst].
  apply wp_bind. change all_voters with [1; 2; 3]. cbn [for_each].
  eapply wp_mono.
  { eapply wp_opened_bind; [by apply case_spec|]. intros n1 s1 Ho1 (r1 & Hc1 & Ha1 & Hr1 & Hn1).
    eapply wp_opened_bind; [by apply case_spec|]. intros n2 s2 Ho2 (r2 & Hc2 & Ha2 & Hr2 & Hn2).
    eapply wp_opened_bind; [by apply case_spec|]. intros n3 s3 Ho3 (r3 & Hc3 & Ha3 & Hr3 & Hn3).
    apply (wp_ret _ (opened (fun n s' => evidence operations (mj_finish n s'.1)))). split; [done|].
    intros writes [= <-]. cbn. rewrite Hc3. cbn. rewrite Ha1, Ha2, Ha3. split; [done|]. split; [apply Forall_cons; split; [done|]; apply Forall_cons; split; [done|]; by apply Forall_singleton|lia]. }
  intros [writes|e|] s4 [Ho4 Hev]; [|by apply Hend..].
  apply Hskip; [done|]. intros u5 w5. apply Hskip; [done|]. intros u6 w6. apply Hskip; [done|]. intros u7 w7.
  apply wp_amend. by split.
Qed.
(** The report of a run that has not been opened for long: no rows, no verdict. *)
Definition fresh (r : MajorityReport) : Prop := mj_verified r = None /\ mj_cases r = [].
Definition judged (operations : Z) (r : res exn unit) (rep : MajorityReport) : Prop :=
  evidence operations rep /\ (r = Ok tt -> mj_passed rep = true).

Lemma judged_fresh operations r rep : fresh rep -> r <> Ok tt -> judged operations r rep.
Proof. intros [Hv _] Hr. split; [|done]. unfold evidence. by rewrite Hv. Qed.

Lemma judged_keeps operations r r' rep rep' :
  judged operations r rep -> mj_verified rep' = mj_verified rep -> mj_cases rep' = mj_cases rep ->
  (r' = Ok tt -> r = Ok tt) -> judged operations r' rep'.
Proof. intros [He Hp] Hv Hc Hr. unfold judged, evidence, mj_passed in *. rewrite Hv, Hc. split; [done|]. intros. by apply Hp, Hr. Qed.

(** The clean-up of a [finally] clause adds nothing to the evidence. *)
Lemma judged_finally operations (m f : Sc MajorityReport unit) (s : St) :
  wp m (fun r s' => judged operations r s'.1) s ->
  (forall s', wp f (fun _ s'' => mj_verified s''.1 = mj_verified s'.1 /\ mj_cases s''.1 = mj_cases s'.1) s') ->
  wp (try_finally m f) (fun r s' => judged operations r s'.1) s.
Proof.
  intros Hm Hf. apply wp_try_finally. eapply wp_mono; [exact Hm|]. intros r s' Hj.
  destruct r as [[]|e|]; [| |done]; (eapply wp_mono; [apply Hf|]); intros [[]|e'|] s'' [Hv Hc]; by eapply judged_keeps.
Qed.

Lemma cluster_spec fuel args work (s : St) :
  fresh s.1 -> wp (majority_cluster fuel args work) (fun r s' => judged (ma_operations args) r s'.1) s.
Proof.
  intros Hf. unfold majority_cluster, mv.
  assert (Hskip : forall {A} (m : V A) (k : A -> Sc MajorityReport unit) (s1 : St), fresh s1.1 ->
            (forall a w, wp (k a) (fun r s' => judged (ma_operations args) r s'.1) (s1.1, w)) ->
            wp (bind (on_host m) k) (fun r s' => judged (ma_operations args) r s'.1) s1).
  { intros A m k s1 H1 Hk. apply wp_bind, wp_host_step. intros [a|e|] w; [apply Hk|by apply judged_fresh..]. }
  assert (Hrest : forall s1 : St, fresh s1.1 ->
    wp (let! binary := on_host (base (gets (h_resolve (ma_binary args)))) in
        let! c := on_host (base (Voters_new work binary (ma_openssl args) (ma_storage_format args) "manual")) in
        do! on_host (with_cluster (fun _ => c));;
        try_finally (majority_run fuel (ma_operations args))
          (do! on_host close_voters;;
           let! logs := on_host (let! paths := io (h_glob work (py "node*.log")) in
             for_each paths (fun p acc => let! text := io_res (h_read_text p) in ret (dset (path_name p) text acc)) []) in
           amend (mj_log logs))) (fun r s' => judged (ma_operations args) r s'.1) s1).
  { intros s1 H1. apply Hskip; [done|]. intros binary w. apply Hskip; [done|]. intros c w2. apply Hskip; [done|]. intros u w3.
    apply judged_finally.
    - eapply wp_mono; [apply run_spec; apply H1|]. intros r s' [He Hp]. split; [done|]. intros. by apply Hp.
    - intros s'. apply wp_bind, wp_host_step. intros [?|e|] w4; [|done..].
      apply wp_bind, wp_host_step. intros [logs|e|] w5; [|done..]. by apply wp_amend. }
  apply wp_bind. unfold note_filesystem. destruct (bool_decide (h_system = py "Linux")); [|by apply wp_ret, Hrest].
  apply wp_bind, wp_host_step. intros [fs|e|] w; [|by apply judged_fresh..]. apply wp_bind, wp_amend, wp_host_step. cbn [fst snd].
  intros [[]|e|] w1; [apply Hrest, Hf|apply judged_fresh; [apply Hf|done]..].
Qed.
End Sound.

(** Check_majority.py's report is honest whatever the voters, the network
    and the host do: once it is opened it is written on every path out; it says
    passed only with one passed row for each absent voter in turn, every
    operation finished, the first write within five seconds, more than 64 slots
    of lag and a recovery, and a verified count that is the sum of the rows'
    writes; and the run succeeds only with such a report. *)
Theorem majority_sound {W} `{Probes W} (ROOT : pystr) (fuel : nat) (args : MajorityArgs) (s : Voters * W) :
  wp (majority_report ROOT fuel args)
     (fun r s' =>
        fresh s'.1 /\ r <> Ok tt \/
        (r = OutOfFuel \/ written (ma_output args) (majority_entry s'.1) s'.2) /\
        evidence (ma_operations args) s'.1 /\ (r = Ok tt -> mj_passed s'.1 = true))
     (mkMajorityReport [] [] None [] None, s).
Proof.
  unfold majority_report, mv.
  assert (Hskip : forall {A} (m : V A) (k : A -> Sc MajorityReport unit) Q (s1 : MajorityReport * (Voters * W)), fresh s1.1 ->
            (forall r s', fresh s'.1 /\ r <> Ok tt -> Q r s') ->
            (forall a w, wp (k a) Q (s1.1, w)) -> wp (bind (on_host m) k) Q s1).
  { intros A m k Q s1 H1 HQ Hk. apply wp_bind, wp_host_step. intros [a|e|] w; [apply Hk|by apply HQ..]. }
  do 4 (apply Hskip; [done|by left|]; intros ? ?). apply wp_bind, wp_amend. apply Hskip; [done|by left|]. intros u9 w9.
  eapply wp_mono; [apply (wp_writing _ _ _ (judged (ma_operations args)))|].
  - apply wp_recording. apply wp_bind, wp_host_step. intros [work|e|] w10; [|by apply judged_fresh..].
    eapply wp_mono; [apply judged_finally; [by apply cluster_spec|]|].
    + intros s'. apply wp_host_step. by intros.
    + intros [[]|e|] s' Hj; [done| |done]. by eapply judged_keeps.
  - intros r s' (r0 & [He Hp] & Hw & Hr). right. split; [done|]. split; [done|]. intros ->. apply Hp. by apply Hr.
Qed.
