(* ===== verification/HistoryCampaign.v ===== *)
(** * tools/check_transaction_history.py: the campaign

    Batches of concurrent reads and transactions against three voters, each
    voter absent in turn; every batch must have a serial explanation, whose
    final state is what the next batch starts from.  SQLAlchemy's engines are an
    interface; the threads of a batch run one after the other here, which the
    checker, reading only the recorded times, does not depend on.  The file
    ends with a service on which the campaign and other scripts run. *)

From Stdlib Require Import QArith.
From stdpp Require Import sorting.
From S2P Require Import Prelude PyStr PyFloat Objects Json Vector Text Parameters Results Net Client Dict History Host Script Service ServiceChecks Majority.
#[local] Open Scope Z_scope.

(** [engines[node]]: [begin()], the block's statements, and the end of the
    block.  A lost commit is raised as the DB-API error it carries. *)
Class Engines (W : Type) := {
  en_probes :: Probes W;
  en_begin : Z -> W -> pyres unit * W;
  en_select : Z -> pystr -> W -> pyres (list Z) * W;
  en_update : Z -> pystr -> Z -> Z -> W -> pyres unit * W;
  en_commit : Z -> W -> pyres unit * W;
  en_rollback : Z -> W -> W;
  en_dispose : Z -> W -> W;
  (** [rng.randint(a, b)] *)
  en_randint : Z -> Z -> W -> Z * W
}.

Definition set_observed (l : list Z) (op : Op) : Op :=
  mkOp (o_id op) (o_node op) (o_start op) (o_end op) (o_kind op) (o_key op) (o_status op) l (o_after op).
Definition set_after (l : list Z) (op : Op) : Op :=
  mkOp (o_id op) (o_node op) (o_start op) (o_end op) (o_kind op) (o_key op) (o_status op) (o_observed op) l.
Definition set_status (st : opstatus) (op : Op) : Op :=
  mkOp (o_id op) (o_node op) (o_start op) (o_end op) (o_kind op) (o_key op) st (o_observed op) (o_after op).
Definition set_end (t : Z) (op : Op) : Op :=
  mkOp (o_id op) (o_node op) (o_start op) t (o_kind op) (o_key op) (o_status op) (o_observed op) (o_after op).
Definition kind_of (key : option Z) : opkind :=
  match key with None => KRead | Some k => if k =? 0 then KReadonly else KTransaction end.

(** One entry of [report['batches']], and the report's growing parts. *)
Record Batch := mkBatch {
  b_absent : option Z; b_batch : Z; b_initial : list Z; b_history : list Op; b_witness : option (list Z * list Z)
}.
Record Campaign := mkCampaign { cp_batches : list Batch; cp_rejoin : list Op; cp_restart : list Op }.
Definition add_batch (b : Batch) (r : Campaign) : Campaign := mkCampaign (cp_batches r ++ [b]) (cp_rejoin r) (cp_restart r).
Definition on_batch (f : Batch -> Batch) (r : Campaign) : Campaign :=
  mkCampaign (match last (cp_batches r) with Some b => take (length (cp_batches r) - 1) (cp_batches r) ++ [f b] | None => [] end)
    (cp_rejoin r) (cp_restart r).
Definition add_history (op : Op) (b : Batch) : Batch :=
  mkBatch (b_absent b) (b_batch b) (b_initial b) (b_history b ++ [op]) (b_witness b).
Definition set_witness (x : list Z * list Z) (b : Batch) : Batch :=
  mkBatch (b_absent b) (b_batch b) (b_initial b) (b_history b) (Some x).
Definition add_rejoin (op : Op) (r : Campaign) : Campaign := mkCampaign (cp_batches r) (cp_rejoin r ++ [op]) (cp_restart r).
Definition add_restart (op : Op) (r : Campaign) : Campaign := mkCampaign (cp_batches r) (cp_rejoin r) (cp_restart r ++ [op]).

Section Campaign.
Context {W : Type} `{Engines W}.
Abbreviation VM := (V (W := W)).
Abbreviation O := (Sc (W := Voters * W) Op).
Abbreviation K := (Sc (W := Voters * W) Campaign).

Definition QUERY : pystr := py "SELECT id FROM history_rows WHERE active=1 ORDER BY id".

(** [[row[0] for row in db.query(query)]] *)
Definition ids_of (rows : Rows) : pyres (list Z) :=
  try_map (fun row => let? x := row_getitem row (PInt 0) in vint x) (_rows rows).

(** [with engine.begin() as conn: body] *)
Definition with_engine {A} (node : Z) (body : O A) : O A :=
  do! on_host (base (io_res (en_begin node)));;
  let! a := try_except body (fun e => Some (do! on_host (base (io_do (en_rollback node)));; throw e)) in
  do! on_host (base (io_res (en_commit node)));;
  ret a.

Definition operation_reads (node : Z) (key : option Z) : O unit :=
  match key with
  | None =>
      let! ids := on_host (with_conn [node] 15 None (fun h => let! rows := db_query h QUERY [] in lift (ids_of rows))) in
      amend (set_observed ids)
  | Some k =>
      with_engine node
        (let! observed := on_host (base (io_res (en_select node QUERY))) in
         do! amend (set_observed observed);;
         do! (if k =? 0 then ret tt
              else on_host (base (io_res (en_update node (py "UPDATE history_rows SET active=:active WHERE id=:key")
                                            (if bool_decide (k ∈ observed) then 0 else 1) k))));;
         let! after := on_host (base (io_res (en_select node QUERY))) in
         amend (set_after after))
  end.

(** [operation]: only a serialization failure is an outcome; any other error
    ends the campaign. *)
Definition operation (node identifier : Z) (key : option Z) : VM Op := fun s =>
  let '(r, (op, s')) :=
    (try_finally
       (try_except (do! operation_reads node key;; amend (set_status SOk))
          (fun e => match e with Dbapi DBSerializationError _ _ => Some (amend (set_status SAborted)) | _ => None end))
       (let! now := on_host (base (io h_monotonic_ns)) in amend (set_end now)) : O unit)
      (let '(now, w) := h_monotonic_ns s.2 in
       (mkOp identifier node now 0 (kind_of key) (default 0 key) SPending [] [], (s.1, w))) in
  (res_bind r (fun _ => Ok op), s').

(** The key of the [i]-th job of a batch. *)
Definition draw_key (i : nat) : VM (option Z) :=
  if Nat.eqb (i mod 2) 0 then let! k := base (io (en_randint 1 4)) in ret (Some k)
  else ret (if Nat.eqb (i mod 4) 3 then Some 0 else None).

(** [live[i % len(live)]] *)
Definition live_node (live : list Z) (i : Z) : pyres Z :=
  if zlen live =? 0 then Raise (ZeroDivisionError "integer modulo by zero") else list_index live (i mod zlen live).

(** A batch: eight jobs, the anchoring read, and the serial explanation. *)
Definition campaign_batch (absent : option Z) (live : list Z) (batch : Z) (st : list Z * Z) : K (list Z * Z) :=
  let '(state, identifier) := st in
  do! amend (add_batch (mkBatch absent batch state [] None));;
  let! jobs := for_each (seq 0 8) (fun i acc =>
    let! node := lift (live_node live (Z.of_nat i)) in
    let! key := on_host (draw_key i) in
    ret (acc ++ [(node, identifier + Z.of_nat i, key)])) [] in
  do! for_do jobs (fun '(node, id, key) =>
    let! op := on_host (operation node id key) in amend (on_batch (add_history op)));;
  let! node := lift (live_node live batch) in
  let! anchor := on_host (operation node (identifier + 8) None) in
  do! amend (on_batch (add_history anchor));;
  let! rep := reported in
  let history := match last (cp_batches rep) with Some b => b_history b | None => [] end in
  let! explained := lift (serial_history state history) in
  match explained with
  | None => throw (AssertionError "No serial explanation: {entry}")
  | Some witness =>
      do! amend (on_batch (set_witness witness));;
      do! lift (guard (negb (existsb (fun op => bool_decide (o_kind op = KTransaction) && is_ok op) history))
                  (AssertionError "No transaction made progress"));;
      ret (witness.1, identifier + 9)
  end.

(** A read on every voter, which must observe the state. *)
Definition anchor_reads (add : Op -> Campaign -> Campaign) (state : list Z) (identifier : Z) : K Z :=
  for_each all_voters (fun node identifier =>
    let! anchor := on_host (operation node identifier None) in
    do! amend (add anchor);;
    do! check_that (bool_decide (o_observed anchor = state));;
    ret (identifier + 1)) identifier.

Definition absence_name (absent : option Z) : pystr := match absent with Some n => dec n | None => py "None" end.

Definition campaign_phase (rounds : Z) (absent : option Z) (st : list Z * Z) : K (list Z * Z) :=
  let live := filter (fun node => absent <> Some node) all_voters in
  do! match absent with Some node => on_host (stop node) | None => ret tt end;;
  let! st := try_finally
    (for_each (seq 0 (Z.to_nat rounds)) (fun batch => campaign_batch absent live (Z.of_nat batch)) st)
    (match absent with Some node => on_host (start node false) | None => ret tt end) in
  let! identifier := anchor_reads add_rejoin st.1 st.2 in
  do! on_host (print_line (py "PASS serial_predicate_histories_absent_" ++ absence_name absent));;
  ret (st.1, identifier).

Definition campaign_setup : VM unit :=
  do! for_do all_voters (fun node => start node true);;
  with_conn all_voters 20 None (fun h =>
    let! _ := db_execute h (py "CREATE TABLE history_rows(id INTEGER PRIMARY KEY, active INTEGER NOT NULL)") [] in
    let! _ := db_execute h (py "INSERT INTO history_rows VALUES(1,0),(2,0),(3,0),(4,0)") [] in
    ret tt).

Definition campaign (rounds seed : Z) : K unit :=
  try_finally
    (do! on_host (base (io_do (v_seed seed)));;
     do! on_host campaign_setup;;
     let! st := for_each [None; Some 1; Some 2; Some 3] (campaign_phase rounds) ([], 0) in
     do! on_host (for_do all_voters stop);;
     do! on_host (for_do all_voters (fun node => start node false));;
     let! _ := anchor_reads add_restart st.1 st.2 in
     on_host (print_line (py "PASS final_predicate_state_after_full_restart")))
    (for_do all_voters (fun node => on_host (base (io_do (en_dispose node))))).

(** ** main *)

Record HistoryArgs := mkHistoryArgs { hi_binary : pystr; hi_output : pystr; hi_rounds : Z; hi_seed : Z }.

Definition status_name (s : opstatus) : pystr :=
  py (match s with SPending => "pending" | SOk => "ok" | SAborted => "serialization_abort" end).
Definition kind_name (k : opkind) : pystr :=
  py (match k with KRead => "read" | KReadonly => "readonly_transaction" | KTransaction => "transaction" end).
Definition op_entry (op : Op) : tv :=
  Obj (fields [("id", tint (o_id op)); ("node", tint (o_node op)); ("start", tint (o_start op)); ("kind", tstr (kind_name (o_kind op)));
    ("key", match o_kind op with KRead => tnone | _ => tint (o_key op) end); ("status", tstr (status_name (o_status op)));
    ("observed", Arr (tint <$> o_observed op)); ("after", Arr (tint <$> o_after op)); ("end", tint (o_end op))]).
Definition batch_entry (b : Batch) : tv :=
  Obj (fields ([("absent", topt tint (b_absent b)); ("batch", tint (b_batch b)); ("initial", Arr (tint <$> b_initial b));
    ("history", Arr (op_entry <$> b_history b))]%string
    ++ match b_witness b with
       | Some (state, order) => [("witness"%string, Obj (fields [("state", Arr (tint <$> state)); ("order", Arr (tint <$> order))]))]
       | None => []
       end)).

(** The report: its fixed part, the campaign's, and how it ended. *)
Record HistoryReport := mkHistoryReport {
  hr_fixed : report; hr_campaign : Campaign; hr_complete : bool; hr_logs : list (pystr * pystr); hr_error : option pystr
}.
Definition history_entry (r : HistoryReport) : tv :=
  Obj (rupdate ([("complete", tbool (hr_complete r)); ("batches", Arr (batch_entry <$> cp_batches (hr_campaign r)));
    ("rejoin_reads", Arr (op_entry <$> cp_rejoin (hr_campaign r))); ("restart_reads", Arr (op_entry <$> cp_restart (hr_campaign r)));
    ("logs", manifest_report (hr_logs r))]%string
    ++ match hr_error r with Some e => [("error"%string, tstr e)] | None => [] end) (hr_fixed r)).
Definition hr_fix (kvs : list (string * tv)) (r : HistoryReport) : HistoryReport :=
  mkHistoryReport (rupdate kvs (hr_fixed r)) (hr_campaign r) (hr_complete r) (hr_logs r) (hr_error r).
Definition hr_finish (r : HistoryReport) : HistoryReport :=
  mkHistoryReport (hr_fixed r) (hr_campaign r) true (hr_logs r) (hr_error r).
Definition hr_log (logs : list (pystr * pystr)) (r : HistoryReport) : HistoryReport :=
  mkHistoryReport (hr_fixed r) (hr_campaign r) (hr_complete r) logs (hr_error r).
Definition hr_fail (e : exn) (r : HistoryReport) : HistoryReport :=
  mkHistoryReport (hr_fixed r) (hr_campaign r) (hr_complete r) (hr_logs r) (Some (repr_exn e)).

(** The campaign works on its part of the report. *)
Abbreviation HK := (Sc (W := Voters * W) HistoryReport).
Definition in_campaign {A} (m : K A) : HK A := fun s =>
  let '(r, (c, w)) := m (hr_campaign s.1, s.2) in
  (r, (mkHistoryReport (hr_fixed s.1) c (hr_complete s.1) (hr_logs s.1) (hr_error s.1), w)).

Definition history_cluster (ROOT : pystr) (args : HistoryArgs) (work : pystr) : HK unit :=
  do! note_filesystem hr_fix (bool_decide (h_system = py "Linux")) work;;
  let! binary := on_host (base (gets (h_resolve (hi_binary args)))) in
  let! c := on_host (base (Voters_new work binary (join_path ROOT (py "build/native/openssl")) 5 "manual")) in
  do! on_host (with_cluster (fun _ => c));;
  try_finally
    (do! in_campaign (campaign (hi_rounds args) (hi_seed args));;
     let! policy := on_host (with_conn all_voters 10 None (fun h =>
       let! status := call h status in ret (get_or (py "policy") PNone status))) in
     do! amend (hr_fix [("policy"%string, J policy)]);;
     amend hr_finish)
    (do! on_host close_voters;;
     let! logs := on_host (last_logs 6000 work (py "*.log")) in
     amend (hr_log logs)).

Definition history_report (ROOT : pystr) (args : HistoryArgs) : HK unit :=
  let! controls := lift negative_controls in
  let! binary := on_host (file_sha256 (hi_binary args)) in
  let! harness := on_host (file_sha256 (join_path ROOT (py "tools/check_transaction_history.py"))) in
  let! sources := on_host (base (service_sources ROOT ["src"; "service"; "languages/python/src"])) in
  do! amend (hr_fix [("format", tint 5); ("policy", tnone); ("seed", tint (hi_seed args)); ("rounds", tint (hi_rounds args));
    ("platform", tstr h_platform); ("negative_controls", Arr (tstr <$> controls)); ("binary_sha256", tstr binary);
    ("harness_sha256", tstr harness); ("sources", manifest_report sources)]%string);;
  let root := join_path ROOT (py "build/history-work") in
  do! on_host (io_res (h_mkdir root));;
  writing (hi_output args) history_entry
    (try_finally
      (recording hr_fail
        (let! work := on_host (io_res (h_mkdtemp [] root)) in
         try_finally (history_cluster ROOT args work) (on_host (io_res (h_remove work)))))
      (on_host (io_res (h_mkdir (path_parent (hi_output args)))))).

Definition history_main (ROOT : pystr) (args : HistoryArgs) : Hm (W := W) unit :=
  let! present := io (h_exists (hi_output args)) in
  if negb ((1 <=? hi_rounds args) && (hi_rounds args <=? 32)) || present
  then parser_error "Use 1..32 rounds and a new output path"
  else fun w =>
    let '(r, s) := history_report ROOT args (mkHistoryReport [] (mkCampaign [] [] []) false [] None, (no_voters, w)) in
    (r, s.2.2).
End Campaign.

(** * Theorems on the history campaign

    A campaign that succeeds has one long serial explanation: every batch is
    explained from the state the batch before it ended in. *)

(** A batch explained from [state]: its successful operations have a serial
    order that respects real time and ends in the witnessed state, and one of
    its transactions committed. *)
Definition explained (state : list Z) (b : Batch) (final : list Z) : Prop :=
  b_initial b = state /\
  exists ids order, b_witness b = Some (final, ids) /\ ids = o_id <$> order /\
    serial_order (merge_sort Z.le state) (List.filter is_ok (b_history b)) order final /\
    exists op, op ∈ b_history b /\ o_kind op = KTransaction /\ o_status op = SOk.

Fixpoint explained_from (state : list Z) (l : list Batch) (final : list Z) : Prop :=
  match l with
  | [] => final = state
  | b :: l' => exists after, explained state b after /\ explained_from after l' final
  end.

Lemma explained_app state l1 l2 final :
  explained_from state (l1 ++ l2) final <-> exists mid, explained_from state l1 mid /\ explained_from mid l2 final.
Proof.
  revert state. induction l1 as [|b l1 IH]; intros state; cbn.
  - split; [by eauto|]. by intros (? & -> & ?).
  - setoid_rewrite IH. naive_solver.
Qed.

Section Campaign.
Context {W : Type} `{Engines W}.
Abbreviation St := (Campaign * (Voters * W))%type.

(** Only successful outcomes are constrained. *)
Definition succeeds {A} (P : A -> St -> Prop) (r : res exn A) (s : St) : Prop :=
  match r with Ok a => P a s | _ => True end.

Lemma wp_succeeds_bind {A B} (m : Sc Campaign A) (f : A -> Sc Campaign B) (P : A -> St -> Prop) Q s :
  wp m (succeeds P) s -> (forall a s', P a s' -> wp (f a) (succeeds Q) s') -> wp (bind m f) (succeeds Q) s.
Proof. intros Hm Hf. apply wp_bind. eapply wp_mono; [exact Hm|]. intros [a|e|] s' HP; [by apply Hf|done..]. Qed.

Lemma wp_succeeds_host {A B} (m : V A) (f : A -> Sc Campaign B) Q s :
  (forall a w, wp (f a) (succeeds Q) (s.1, w)) -> wp (bind (on_host m) f) (succeeds Q) s.
Proof. intros Hf. apply wp_bind, wp_host_step. intros [a|e|] w; [by apply Hf|done..]. Qed.

Lemma wp_succeeds_lift {A B} (m : res exn A) (f : A -> Sc Campaign B) Q s :
  (forall a, m = Ok a -> wp (f a) (succeeds Q) s) -> wp (bind (lift m) f) (succeeds Q) s.
Proof. intros Hf. apply wp_bind, wp_lift. destruct m; [by apply Hf|done..]. Qed.

Lemma wp_succeeds_finally (m f : Sc Campaign unit) (P : unit -> St -> Prop) s :
  wp m (succeeds P) s -> (forall s', P tt s' -> wp f (succeeds P) s') -> wp (try_finally m f) (succeeds P) s.
Proof.
  intros Hm Hf. apply wp_try_finally. eapply wp_mono; [exact Hm|]. intros [[]|e|] s' HP; [| |done].
  - eapply wp_mono; [by apply Hf|]. by intros [[]|e|] s''.
  - apply wp_intro. by intros [[]|e'|] s'' _.
Qed.

Lemma on_batch_last f r l b :
  cp_batches r = l ++ [b] -> cp_batches (on_batch f r) = l ++ [f b].
Proof.
  intros Hc. unfold on_batch. cbn. rewrite Hc, last_snoc, length_app. cbn [length].
  replace (length l + 1 - 1)%nat with (length l + 0)%nat by lia. by rewrite take_app_add, take_0, app_nil_r.
Qed.

(** The batch a campaign is collecting: begun, without a witness yet. *)
Definition collecting (absent : option Z) (batch : Z) (state : list Z) (b : Batch) : Prop :=
  b_initial b = state /\ b_witness b = None.

Lemma batch_spec absent live batch state identifier l (s : St) :
  cp_batches s.1 = l ->
  wp (campaign_batch absent live batch (state, identifier))
     (succeeds (fun st s' => exists b, cp_batches s'.1 = l ++ [b] /\ explained state b st.1)) s.
Proof.
  intros Hl. unfold campaign_batch. apply wp_bind, wp_amend. cbn [fst].
  set (Collected := fun s' : St => exists h, cp_batches s'.1 = l ++ [mkBatch absent batch state h None]).
  eapply (wp_succeeds_bind _ _ (fun _ => Collected)).
  { apply (wp_for_each (fun _ => Collected)); [exists []; cbn; by rewrite Hl| |by intros].
    intros i acc s1 _ HC. apply wp_bind, wp_lift. destruct (live_node live (Z.of_nat i)); [|done..].
    apply wp_bind, wp_host_step. intros [k|e|] w; [|done..]. by apply wp_ret. }
  intros jobs s1 HC1.
  eapply (wp_succeeds_bind _ _ (fun _ => Collected)).
  { apply (wp_for_do Collected); [done| |by intros]. intros [[node id] key] s2 _ [h Hh].
    apply wp_bind, wp_host_step. intros [op|e|] w; [|done..]. apply wp_amend. exists (h ++ [op]). cbn [fst].
    by apply (on_batch_last (add_history op)) in Hh. }
  intros _ s2 HC2. apply wp_succeeds_lift. intros node _. apply wp_succeeds_host. intros anchor w. cbn [fst].
  apply wp_bind, wp_amend. cbn [fst snd]. destruct HC2 as [h Hh].
  assert (Hh2 : cp_batches (on_batch (add_history anchor) s2.1) = l ++ [mkBatch absent batch state (h ++ [anchor]) None])
    by exact (on_batch_last (add_history anchor) _ _ _ Hh).
  apply wp_bind, wp_gets. cbn beta iota zeta. cbn [fst]. rewrite Hh2, last_snoc. cbn [b_history].
  apply wp_succeeds_lift. intros [[final ids]|] Hs; [|done]. apply wp_bind, wp_amend. cbn [fst snd].
  destruct (existsb _ (h ++ [anchor])) eqn:Hex; [|by apply wp_bind, wp_lift].
  apply wp_bind, wp_lift. cbn [guard negb]. apply wp_ret. cbn [succeeds fst].
  eexists. split; [exact (on_batch_last (set_witness (final, ids)) _ _ _ Hh2)|].
  pose proof (serial_history_exact state (h ++ [anchor])) as Hx. rewrite Hs in Hx. destruct Hx as (order & Ho & Hi).
  split; [done|]. exists ids, order. split; [done|]. split; [done|]. split; [done|].
  apply existsb_exists in Hex as (op & Hin & Hop). apply andb_true_iff in Hop as [H1 H2].
  apply bool_decide_eq_true in H1, H2. exists op. split; [by apply list_elem_of_In|done].
Qed.

Lemma batches_spec absent live ks state identifier l (s : St) :
  cp_batches s.1 = l ->
  wp (for_each ks (fun batch => campaign_batch absent live (Z.of_nat batch)) (state, identifier))
     (succeeds (fun st s' => exists bs, cp_batches s'.1 = l ++ bs /\ length bs = length ks /\ explained_from state bs st.1)) s.
Proof.
  revert state identifier l s. induction ks as [|k ks IH]; intros state identifier l s Hl; cbn [for_each].
  { apply wp_ret. exists []. by rewrite app_nil_r. }
  eapply wp_succeeds_bind; [by apply batch_spec|]. intros [mid id'] s1 (b & Hb & He). cbn [fst] in He.
  eapply wp_mono; [by apply IH|]. intros [st|e|] s2 Hr; [|done..]. destruct Hr as (bs & Hbs & Hn & Hes).
  exists (b :: bs). rewrite Hbs, <-app_assoc. split; [done|]. split; [cbn; by rewrite Hn|]. by exists mid.
Qed.

Lemma anchors_spec (add : Op -> Campaign -> Campaign) (reads : Campaign -> list Op) state identifier (s : St) :
  (forall op r, reads (add op r) = reads r ++ [op]) -> (forall op r, cp_batches (add op r) = cp_batches r) ->
  wp (anchor_reads add state identifier)
     (succeeds (fun _ s' => cp_batches s'.1 = cp_batches s.1 /\
                  exists a b c, reads s'.1 = reads s.1 ++ [a; b; c] /\ Forall (fun op => o_observed op = state) [a; b; c])) s.
Proof.
  intros Hadd Hkeep. unfold anchor_reads. change all_voters with [1; 2; 3]. cbn [for_each].
  assert (Hone : forall {B} node id (f : Z -> Sc Campaign B) Q (s1 : St),
    (forall op w, o_observed op = state -> wp (f (id + 1)) (succeeds Q) (add op s1.1, w)) ->
    wp (bind (let! anchor := on_host (operation node id None) in
              do! amend (add anchor);;
              do! check_that (bool_decide (o_observed anchor = state));;
              ret (id + 1)) f) (succeeds Q) s1).
  { intros B node id f Q s1 Hf. apply wp_bind, wp_succeeds_host. intros op w. apply wp_bind, wp_amend. cbn [fst snd].
    destruct (bool_decide (o_observed op = state)) eqn:Ho; [|by apply wp_bind, wp_lift].
    apply bool_decide_eq_true in Ho. apply wp_bind, wp_lift. cbn [guard negb]. by apply wp_ret, Hf. }
  apply Hone. intros a w1 Ha. apply Hone. intros b w2 Hb. apply Hone. intros c w3 Hc. apply wp_ret. cbn [succeeds fst].
  split; [by rewrite !Hkeep|]. exists a, b, c. rewrite !Hadd, <-!app_assoc. split; [done|]. by repeat constructor.
Qed.

(** The voter absent during a phase comes and goes without touching the report. *)
Lemma optional_host {A} (o : option A) (f : A -> V unit) (P : St -> Prop) (s : St) :
  (forall w, P (s.1, w)) ->
  wp (match o with Some x => on_host (f x) | None => ret tt end) (succeeds (fun _ => P)) s.
Proof.
  intros HP. destruct o; [|apply wp_ret; destruct s; apply HP].
  apply wp_host_step. intros [[]|e|] w; [apply HP|done..].
Qed.

Lemma phase_spec rounds absent state identifier l (s : St) :
  cp_batches s.1 = l ->
  wp (campaign_phase rounds absent (state, identifier))
     (succeeds (fun st s' => exists bs, cp_batches s'.1 = l ++ bs /\ length bs = Z.to_nat rounds /\ explained_from state bs st.1)) s.
Proof.
  intros Hl. unfold campaign_phase.
  eapply (wp_succeeds_bind _ _ (fun _ s' => cp_batches s'.1 = l)); [by apply optional_host|]. intros _ s1 Hl1.
  eapply (wp_succeeds_bind _ _ (fun st s' => exists bs, cp_batches s'.1 = l ++ bs /\ length bs = Z.to_nat rounds /\
            explained_from state bs st.1)).
  { apply wp_try_finally. eapply wp_mono; [by apply batches_spec|]. rewrite length_seq.
    intros [st|e|] s2 Hr; [| |done].
    - eapply wp_mono; [apply (optional_host _ _ (fun s' => cp_batches s'.1 = cp_batches s2.1)); done|].
      intros [[]|e|] s3 Hs3; [|done..]. cbn in Hs3, Hr. by rewrite <-Hs3 in Hr.
    - apply wp_intro. by intros [?|?|] ? _. }
  intros [mid id'] s2 (bs & Hb & Hn & He). cbn [fst snd] in *.
  eapply wp_succeeds_bind; [apply (anchors_spec add_rejoin cp_rejoin); done|]. intros id2 s3 [Hk _].
  apply wp_succeeds_host. intros u w. apply wp_ret. exists bs. cbn [fst]. by rewrite Hk, Hb.
Qed.

Lemma dispose_spec (l : list Z) (f : Z -> V unit) (P : St -> Prop) (s : St) :
  (forall w, P (s.1, w)) -> wp (for_do l (fun x => on_host (f x))) (succeeds (fun _ => P)) s.
Proof.
  revert s. induction l as [|x l IH]; intros s HP; cbn [for_do]; [apply wp_ret; destruct s; apply HP|].
  apply wp_succeeds_host. intros u w. by apply IH.
Qed.
End Campaign.

(** C26: a history campaign that succeeds has one serial explanation from end to
    end: against any voters, engines and network, with [rounds] batches for each
    of the four phases, every batch's successful operations have a serial order
    that respects real time, starts in the state the batch before it ended in
    and sees a transaction commit; and after the restart of all voters the three
    last reads observe the final state. *)
Theorem campaign_serial {W} `{Engines W} (rounds seed : Z) (s : Voters * W) :
  wp (campaign rounds seed)
     (fun r s' => r = Ok tt ->
        exists final before a b c,
          explained_from [] (cp_batches s'.1) final /\
          length (cp_batches s'.1) = (4 * Z.to_nat rounds)%nat /\
          cp_restart s'.1 = before ++ [a; b; c] /\ Forall (fun op => o_observed op = final) [a; b; c])
     (mkCampaign [] [] [], s).
Proof.
  set (Done := fun c : Campaign => exists final before x y z, explained_from [] (cp_batches c) final /\
      length (cp_batches c) = (4 * Z.to_nat rounds)%nat /\
      cp_restart c = before ++ [x; y; z] /\ Forall (fun op => o_observed op = final) [x; y; z]).
  enough (Hs : wp (campaign rounds seed) (succeeds (fun _ s' => Done s'.1)) (mkCampaign [] [] [], s)).
  { eapply wp_mono; [exact Hs|]. by intros [[]|e|] s' Hd. }
  unfold campaign. apply (wp_succeeds_finally _ _ (fun _ s' => Done s'.1)).
  2: { intros s' Hd. by apply dispose_spec. }
  apply wp_succeeds_host. intros u w. apply wp_succeeds_host. intros u2 w2. cbn [fst].
  eapply (wp_succeeds_bind _ _ (fun st s' => explained_from [] (cp_batches s'.1) st.1 /\
            length (cp_batches s'.1) = (4 * Z.to_nat rounds)%nat)).
  { cbn [for_each].
    eapply wp_succeeds_bind; [by apply phase_spec|]. intros [st1 id1] s1 (b1 & H1 & N1 & E1).
    eapply wp_succeeds_bind; [by apply phase_spec|]. intros [st2 id2] s2 (b2 & H2 & N2 & E2).
    eapply wp_succeeds_bind; [by apply phase_spec|]. intros [st3 id3] s3 (b3 & H3 & N3 & E3).
    eapply wp_succeeds_bind; [by apply phase_spec|]. intros [st4 id4] s4 (b4 & H4 & N4 & E4).
    apply wp_ret. cbn [succeeds fst] in *. rewrite H4. cbn [app]. split.
    - apply explained_app. exists st3. split; [|done]. apply explained_app. exists st2. split; [|done]. apply explained_app. by exists st1.
    - rewrite !length_app, N1, N2, N3, N4. cbn [cp_batches length]. lia. }
  intros [final id] s5 [He Hn]. cbn [fst snd] in *.
  apply wp_succeeds_host. intros u6 w6. apply wp_succeeds_host. intros u7 w7.
  eapply wp_succeeds_bind; [apply (anchors_spec add_restart cp_restart); done|].
  intros id' s8 (Hk & a & b & c & Hr & Hall). apply wp_host_step. intros [[]|e|] w9; [|done..].
  exists final, (cp_restart s5.1), a, b, c. cbn [fst] in *. by rewrite Hk.
Qed.

(** * A service to run the qualification scripts on

    One table of rows with an identifier and a flag, a count of inserted rows,
    and a network that always answers: enough for the campaign of
    check_transaction_history.py and the run of check_majority.py to succeed by
    evaluation, so that their theorems speak of runs that exist. *)

Record Toy := mkToy { t_now : Z; t_active : list Z; t_inserted : Z }.
Definition t_tick (w : Toy) : Toy := mkToy (t_now w + 1) (t_active w) (t_inserted w).

#[export] Instance demo_host : Host Toy :=
  quiet_host (fun w => (t_now w # 1000, t_tick w)) (fun _ => t_tick) (fun _ => None) false.

(** The answers: every write is applied, a query returns a count or the active
    rows. *)
Definition is_insert (sql : pyval) : bool :=
  match sql with PStr s => is_prefix (py "INSERT INTO durable_majority") s | _ => false end.
Definition integer_rows (l : list Z) : pyval :=
  PList ((fun n => PList [PDict (mkdict [("kind", PStr (py "Integer")); ("integer", PInt n)])]) <$> l).
Definition answer_rows (sql : pyval) (w : Toy) : list Z :=
  match sql with
  | PStr s => if is_prefix (py "SELECT 1") s then [1]
              else if is_prefix (py "SELECT count") s then [t_inserted w] else t_active w
  | _ => []
  end.
Definition answer (request : dict) (w : Toy) : dict :=
  let sql := get_or (py "sql") PNone request in
  mkdict [("cluster", get_or (py "cluster") PNone request); ("protocol", PInt 1); ("status", PStr (py "ok"));
          ("error", PStr []); ("node", PInt 1); ("applied", PInt (100 * t_inserted w)); ("changes", PInt 1);
          ("sequence", get_or (py "sequence") (PInt 0) request); ("session_epoch", PInt 0);
          ("columns", PList [PStr (py "id")]); ("rows", integer_rows (answer_rows sql w))].
Definition demo_exchange (request : dict) (w : Toy) : pyres dict * Toy :=
  let insert := eq_str (get_or (py "op") PNone request) (py "execute") && is_insert (get_or (py "sql") PNone request) in
  (Ok (answer request w), mkToy (t_now w + 1) (t_active w) (if insert then t_inserted w + 1 else t_inserted w)).

#[export] Instance demo_env : Env Toy := {
  monotonic w := (t_now w # 1000, t_tick w);
  sleep _ w := t_tick w;
  token_hex16 w := (concat (replicate 32 (py "a")), w);
  exchange _ request _ w := demo_exchange request w;
  tclose w := w
}.

#[export] Instance demo_service : Service Toy := {
  v_host := demo_host;
  v_env := demo_env;
  v_spawn _ _ w := (Ok (t_now w), t_tick w);
  v_poll _ w := (None, w);
  v_kill _ w := w;
  v_terminate _ w := w;
  v_wait _ _ w := (Ok 0, w);
  v_port w := (Ok (t_now w), t_tick w);
  v_chmod _ _ w := w;
  v_seed _ w := w;
  v_random w := (1 # 10, w);
  v_randrange n w := (t_now w mod n, t_tick w)
}.

#[export] Instance demo_probes : Probes Toy := {
  x_service := demo_service;
  x_exchange_as _ _ _ _ w := (Raise (ConnectionError (py "refused")), w);
  x_send_frame _ _ w := (Ok None, w)
}.

Definition flip (key : Z) (w : Toy) : Toy := mkToy (t_now w + 1) (toggle key (t_active w)) (t_inserted w).
#[export] Instance demo_engines : Engines Toy := {
  en_probes := demo_probes;
  en_begin _ w := (Ok tt, w);
  en_select _ _ w := (Ok (t_active w), t_tick w);
  en_update _ _ _ key w := (Ok tt, flip key w);
  en_commit _ w := (Ok tt, w);
  en_rollback _ w := w;
  en_dispose _ w := w;
  en_randint a b w := (a + t_now w mod (b - a + 1), t_tick w)
}.

Definition demo_members : list Member :=
  (fun i => mkMember i (fstr [L "127.0.0.1:"; D (27600 + i)]) (fstr [L "node"; D i; L ".sqlodin.test"])) <$> all_voters.
Definition demo_voters : Voters := mkVoters (py "/tmp/run") (py "sqlodin") demo_members [] [] (py "network-qualification").
Definition demo_state : Voters * Toy := (demo_voters, mkToy 0 [] 0).

(** A campaign of one round per phase succeeds, with four explained batches. *)
Example campaign_demo :
  let '(r, s) := campaign 1 481516 (mkCampaign [] [] [], demo_state) in
  r = Ok tt /\ length (cp_batches s.1) = 4%nat /\ length (cp_restart s.1) = 3%nat.
Proof. vm_compute. by repeat split. Qed.

(** A majority run of ninety operations succeeds: each phase inserts ninety
    rows. *)
Example majority_demo :
  let '(r, s) := majority_run 3 90 (mkMajorityReport [] [] None [] None, demo_state) in
  r = Ok tt /\ mj_verified s.1 = Some 270 /\ r_writes <$> mj_cases s.1 = [90; 90; 90].
Proof. vm_compute. by repeat split. Qed.
