(* ===== verification/GroupReference.v ===== *)
(** * tools/sqlite_group_reference.py: grouped commits

    Client threads put requests on a bounded queue; one server thread takes a
    request and whatever else is already waiting, up to a maximum, runs them in
    one transaction and answers each with the transaction's error or success.
    The state machine below has one step per queue operation of a thread, so
    that every interleaving of clients and server is a list of events. *)

From S2P Require Import Prelude PyStr PyFloat Objects Json Vector Text Dict.

Record Request := mkRequest { q_text : pystr; q_write : bool; q_id : nat }.

(** [database.run(text)] *)
Class Database (W : Type) := { db_run : pystr -> W -> pyres unit * W }.

(** Where the server thread is: waiting for a first request, collecting a group
    with [get_nowait], ended by the sentinel, or dead of an exception. *)
Inductive phase := Idle | Collecting (group : list (option Request)) | Stopped | Died (e : exn).

(** [queue.put(None)] is the sentinel of [close]. *)
Record Ref (W : Type) := mkRef {
  r_queue : list (option Request);
  r_groups : list (Z * Z);
  r_answers : list (nat * option exn);
  r_phase : phase;
  r_db : W
}.
Arguments mkRef {W}. Arguments r_queue {W}. Arguments r_groups {W}. Arguments r_answers {W}.
Arguments r_phase {W}. Arguments r_db {W}.

Definition Ref_new {W} (w : W) : Ref W := mkRef [] [] [] Idle w.

(** [request[1]] of a queue item *)
Definition is_write (x : option Request) : pyres bool :=
  match x with Some r => Ok (q_write r) | None => Raise (TypeError "'NoneType' object is not subscriptable") end.

(** [any(request[1] for request in group)] stops at the first write. *)
Fixpoint any_write (group : list (option Request)) : pyres bool :=
  match group with
  | [] => Ok false
  | x :: l => let? b := is_write x in if (b : bool) then Ok true else any_write l
  end.
(** [sum(r[1] for r in group)] *)
Fixpoint sum_writes (group : list (option Request)) : pyres Z :=
  match group with
  | [] => Ok 0
  | x :: l => let? b := is_write x in let? n := sum_writes l in Ok ((if (b : bool) then 1 else 0) + n)
  end.

Section Server.
Context {W : Type} `{Database W} (maximum : nat).

Definition run_sql (text : pystr) : M exn W unit := fun w => db_run text w.

(** The [try] block *)
Definition attempt (writing : bool) (group : list (option Request)) : M exn W (option exn) :=
  do! when writing (run_sql (py "BEGIN IMMEDIATE"));;
  do! for_do group (fun x => match x with
                             | Some r => run_sql (q_text r)
                             | None => throw (TypeError "cannot unpack non-iterable NoneType object")
                             end);;
  do! when writing (run_sql (py "COMMIT"));;
  ret None.
(** The block and its handler: the error the group is answered with.  An error of
    [ROLLBACK] leaves the handler. *)
Definition transaction (writing : bool) (group : list (option Request)) : M exn W (option exn) :=
  try_except (attempt writing group)
    (fun e => Some (do! when writing (run_sql (py "ROLLBACK"));; ret (Some e))).

(** The answers of a group: [result.append(error); done.set()]. *)
Definition answers_of (group : list (option Request)) (error : option exn) : list (nat * option exn) :=
  omap (fun x => (fun r => (q_id r, error)) <$> x) group.

(** What the server does with a group; an exception outside the [try] ends the
    thread. *)
Definition serve_group (group : list (option Request)) (st : Ref W) : Ref W :=
  let dead e w := mkRef (r_queue st) (r_groups st) (r_answers st) (Died e) w in
  match any_write group with
  | Ok writing =>
      match transaction writing group (r_db st) with
      | (Ok error, w) =>
          match sum_writes group with
          | Ok n => mkRef (r_queue st) (r_groups st ++ [(zlen group, n)]) (r_answers st ++ answers_of group error) Idle w
          | Raise e => dead e w
          | OutOfFuel => st
          end
      | (Raise e, w) => dead e w
      | (OutOfFuel, w) => st
      end
  | Raise e => dead e (r_db st)
  | OutOfFuel => st
  end.

(** [connection.run] puts a request, [close] the sentinel; both wait while the
    queue holds 64 items.  [ETake] is the server's [get] or a successful
    [get_nowait], [EServe] what follows a full group or [queue.Empty]. *)
Inductive event := EPut (r : Request) | EClose | ETake | EServe.

Definition put (x : option Request) (st : Ref W) : option (Ref W) :=
  if (length (r_queue st) <? 64)%nat
  then Some (mkRef (r_queue st ++ [x]) (r_groups st) (r_answers st) (r_phase st) (r_db st)) else None.

Definition step (e : event) (st : Ref W) : option (Ref W) :=
  match e with
  | EPut r => put (Some r) st
  | EClose => put None st
  | ETake =>
      match r_phase st, r_queue st with
      | Idle, None :: q => Some (mkRef q (r_groups st) (r_answers st) Stopped (r_db st))
      | Idle, Some r :: q => Some (mkRef q (r_groups st) (r_answers st) (Collecting [Some r]) (r_db st))
      | Collecting g, x :: q =>
          if (length g <? maximum)%nat
          then Some (mkRef q (r_groups st) (r_answers st) (Collecting (g ++ [x])) (r_db st)) else None
      | _, _ => None
      end
  | EServe =>
      match r_phase st with
      | Collecting g =>
          if bool_decide (r_queue st = []) || (length g =? maximum)%nat then Some (serve_group g st) else None
      | _ => None
      end
  end.

Fixpoint run (events : list event) (st : Ref W) : option (Ref W) :=
  match events with
  | [] => Some st
  | e :: l => match step e st with Some st' => run l st' | None => None end
  end.
End Server.

(** ** What the reference promises *)

(** The requests put, collected and waiting. *)
Definition puts (events : list event) : list Request := omap (fun e => match e with EPut r => Some r | _ => None end) events.
Definition waiting {W} (st : Ref W) : list Request := omap id (r_queue st).
Definition collected {W} (st : Ref W) : list Request := match r_phase st with Collecting g => omap id g | _ => [] end.

Definition summary (group : list Request) : Z * Z :=
  (zlen group, zlen (List.filter q_write group)).
Definition group_answers (x : list Request * option exn) : list (nat * option exn) :=
  (fun r => (q_id r, x.2)) <$> x.1.

(** The groups as transactions on the database, one after the other. *)
Fixpoint transacted {W} `{Database W} (gs : list (list Request * option exn)) (w w' : W) : Prop :=
  match gs with
  | [] => w' = w
  | (g, error) :: l =>
      exists w1, transaction (existsb q_write g) (Some <$> g) w = (Ok error, w1) /\ transacted l w1 w'
  end.

Definition alive {W} (st : Ref W) : Prop := match r_phase st with Died _ => False | _ => True end.

(** * Theorems on the grouped reference

    Whatever the interleaving of clients and server, requests are served in the
    order they were put, in groups within the maximum, each group one
    transaction, each request answered once with its group's outcome; and while
    it is open the server can always answer everything that waits. *)

(** What the liveness of the server relies on: running a statement ends.  Any
    statement may fail, [ROLLBACK] too: SQLite refuses it when no transaction is
    active. *)
Class DatabaseLaws (W : Type) `{Database W} := {
  db_ends text w : (db_run text w).1 <> OutOfFuel
}.

Lemma sum_writes_some g n :
  sum_writes g = Ok n -> exists rs, g = Some <$> rs /\ n = zlen (List.filter q_write rs).
Proof.
  revert n. induction g as [|x g IH]; intros n; cbn [sum_writes]; [intros [= <-]; by exists []|].
  intros Hs. apply res_bind_Ok in Hs as (b & Hb & Hs). apply res_bind_Ok in Hs as (m & Hm & [= <-]).
  destruct (IH m Hm) as (rs & -> & ->). destruct x as [r|]; cbn in Hb; [|done]. injection Hb as <-.
  exists (r :: rs). split; [done|]. cbn [List.filter]. destruct (q_write r); [rewrite zlen_cons|]; lia.
Qed.

Lemma sum_writes_all rs : sum_writes (Some <$> rs) = Ok (zlen (List.filter q_write rs)).
Proof.
  induction rs as [|r rs IH]; [done|]. rewrite fmap_cons. cbn [sum_writes is_write res_bind]. rewrite IH. cbn [res_bind List.filter].
  destruct (q_write r); [by rewrite zlen_cons|by rewrite Z.add_0_l].
Qed.

Lemma any_write_all rs : any_write (Some <$> rs) = Ok (existsb q_write rs).
Proof. induction rs as [|r rs IH]; [done|]. rewrite fmap_cons. cbn [any_write is_write res_bind existsb]. rewrite IH. by destruct (q_write r). Qed.

Lemma omap_some {A} (l : list A) : omap id (Some <$> l) = l.
Proof. induction l as [|x l IH]; [done|]. rewrite fmap_cons. cbn. by f_equal. Qed.

Lemma answers_some rs error : answers_of (Some <$> rs) error = group_answers (rs, error).
Proof. unfold answers_of, group_answers. cbn. induction rs as [|r rs IH]; [done|]. cbn. by f_equal. Qed.

Lemma transacted_snoc {W} `{Database W} gs g error w w1 w2 :
  transacted gs w w1 -> transaction (existsb q_write g) (Some <$> g) w1 = (Ok error, w2) ->
  transacted (gs ++ [(g, error)]) w w2.
Proof.
  revert w. induction gs as [|[g' e'] gs IH]; intros w; cbn; [intros -> Ht; by exists w2|].
  intros (w' & Hw' & Hr) Ht. exists w'. split; [done|]. by apply IH.
Qed.

Section Reference.
Context {W : Type} `{Database W} (maximum : nat) (Hmax : (0 < maximum)%nat).

(** The state explained by the groups served so far. *)
Definition accounts_for (ps : list Request) (w : W) (gs : list (list Request * option exn)) (st : Ref W) : Prop :=
  transacted gs w (r_db st) /\ r_groups st = summary <$> gs.*1 /\ r_answers st = gs ≫= group_answers /\
  concat gs.*1 ++ collected st ++ waiting st = ps /\
  Forall (fun g : list Request => 1 <= length g <= maximum)%nat gs.*1 /\ (length (r_queue st) <= 64)%nat /\
  match r_phase st with Collecting g => (1 <= length g <= maximum)%nat | _ => True end.

Lemma put_accounts ps w gs st st' x :
  accounts_for ps w gs st -> put x st = Some st' ->
  accounts_for (ps ++ match x with Some r => [r] | None => [] end) w gs st' /\ r_phase st' = r_phase st.
Proof.
  intros (H1 & H2 & H3 & H4 & H5 & H6 & H7). unfold put. destruct (Nat.ltb_spec (length (r_queue st)) 64); [|done].
  intros [= <-]. split; [|done]. unfold accounts_for, collected, waiting in *. cbn. split_and!; try done.
  - rewrite omap_app, <-H4, <-!app_assoc. by destruct x.
  - rewrite length_app. cbn. lia.
Qed.

Lemma take_accounts ps w gs st st' :
  accounts_for ps w gs st -> step maximum ETake st = Some st' -> accounts_for ps w gs st'.
Proof.
  intros (H1 & H2 & H3 & H4 & H5 & H6 & H7). cbn [step].
  destruct st as [q groups answers ph db]. unfold accounts_for, collected, waiting in *. cbn [r_queue r_groups r_answers r_phase r_db] in *.
  destruct ph as [|g| |e].
  - destruct q as [|[r|] q]; [done| |]; intros [= <-]; cbn in *; split_and!; (done || lia).
  - destruct q as [|x q]; [done|]. destruct (Nat.ltb_spec (length g) maximum); [|done].
    intros [= <-]. cbn in *. rewrite omap_app, length_app. cbn in *. split_and!; try done; try lia.
    rewrite <-H4. f_equal. rewrite <-app_assoc. f_equal. destruct x; reflexivity.
  - done.
  - done.
Qed.

Lemma serve_accounts ps w gs st st' :
  accounts_for ps w gs st -> step maximum EServe st = Some st' -> alive st' -> exists gs', accounts_for ps w gs' st'.
Proof.
  intros Hacc. pose proof Hacc as (H1 & H2 & H3 & H4 & H5 & H6 & H7). cbn [step].
  destruct (r_phase st) as [|g| |e] eqn:Hph; try done.
  destruct (bool_decide (r_queue st = []) || (length g =? maximum)%nat); [|done]. intros [= <-]. unfold serve_group, alive.
  assert (Hstuck : exists gs', accounts_for ps w gs' st) by (by exists gs).
  destruct (any_write g) as [writing|e|] eqn:Ha; [|done|by intros].
  destruct (transaction writing g (r_db st)) as [[error|e|] w'] eqn:Ht; [|done|by intros].
  destruct (sum_writes g) as [n|e|] eqn:Hs; [|done|by intros]. intros _.
  apply sum_writes_some in Hs as (rs & -> & ->). rewrite any_write_all in Ha. injection Ha as <-.
  exists (gs ++ [(rs, error)]). unfold accounts_for, collected, waiting in *. rewrite Hph in *. cbn.
  rewrite !fmap_app, bind_app, answers_some. cbn. rewrite !app_nil_r.
  rewrite length_fmap in H7. split_and!; try done.
  - by eapply transacted_snoc.
  - rewrite H2. unfold summary, zlen. by rewrite length_fmap.
  - by rewrite H3.
  - rewrite <-H4, omap_some, concat_app. cbn. by rewrite app_nil_r, <-app_assoc.
  - apply Forall_app. split; [done|]. by apply Forall_singleton.
Qed.

Lemma dead_stays e events st st' : r_phase st = Died e -> run maximum events st = Some st' -> r_phase st' = Died e.
Proof.
  revert st. induction events as [|x l IH]; intros st Hd; cbn [run]; [by intros [= <-]|].
  destruct (step maximum x st) as [st1|] eqn:Hs; [|done]. apply IH.
  destruct x; cbn [step] in Hs; unfold put in Hs; rewrite ?Hd in Hs; try done;
    destruct (_ <? _)%nat; try done; by injection Hs as <-.
Qed.

Lemma alive_before events st st' : run maximum events st = Some st' -> alive st' -> alive st.
Proof.
  unfold alive. intros Hr Hl. destruct (r_phase st) eqn:Hp; try done. by rewrite (dead_stays _ _ _ _ Hp Hr) in Hl.
Qed.

Lemma step_accounts x ps w gs st st' :
  accounts_for ps w gs st -> step maximum x st = Some st' -> alive st' ->
  exists gs', accounts_for (ps ++ puts [x]) w gs' st'.
Proof.
  intros Ha Hs Hl. destruct x as [r| | |]; cbn [puts omap list_omap]; rewrite ?app_nil_r.
  - exists gs. exact (proj1 (put_accounts _ _ _ _ _ (Some r) Ha Hs)).
  - exists gs. pose proof (put_accounts _ _ _ _ _ None Ha Hs) as [Hp _]. by rewrite app_nil_r in Hp.
  - exists gs. by eapply take_accounts.
  - by eapply serve_accounts.
Qed.

Lemma run_accounts events ps w gs st st' :
  accounts_for ps w gs st -> run maximum events st = Some st' -> alive st' ->
  exists gs', accounts_for (ps ++ puts events) w gs' st'.
Proof.
  revert ps gs st. induction events as [|x l IH]; intros ps gs st Ha; cbn [run].
  { intros [= <-]. rewrite app_nil_r. eauto. }
  destruct (step maximum x st) as [st1|] eqn:Hs; [|done]. intros Hr Hl.
  destruct (step_accounts x ps w gs st st1 Ha Hs (alive_before _ _ _ Hr Hl)) as (gs1 & H1).
  destruct (IH _ _ _ H1 Hr Hl) as (gs' & H'). exists gs'.
  change (x :: l) with ([x] ++ l). unfold puts in *. by rewrite omap_app, app_assoc.
Qed.

(** Without a sentinel on the queue the server stays in service. *)
Definition in_service (st : Ref W) : Prop :=
  Forall is_Some (r_queue st) /\
  match r_phase st with
  | Idle => True
  | Collecting g => Forall is_Some g /\ (1 <= length g <= maximum)%nat
  | _ => False
  end.

Lemma in_service_alive st : in_service st -> alive st.
Proof. unfold in_service, alive. by destruct (r_phase st) as [| | |]; [| |intros []|intros []]. Qed.

Lemma somes g : Forall is_Some g -> exists rs : list Request, g = Some <$> rs.
Proof. induction 1 as [|x l [r ->] _ (rs & ->)]; [by exists []|]. by exists (r :: rs). Qed.

Context `{!DatabaseLaws W}.

Lemma run_sql_ends text (Q : pyres unit -> W -> Prop) w :
  (forall r w', r <> OutOfFuel -> Q r w') -> wp (run_sql text) Q w.
Proof. intros HQ. apply wp_intro. unfold run_sql. intros r w' Hr. apply HQ. pose proof (db_ends text w) as He. by rewrite Hr in He. Qed.

Lemma attempt_ends writing g w : (attempt writing g w).1 <> OutOfFuel.
Proof.
  enough (wp (attempt writing g) (fun r _ => r <> OutOfFuel) w) as Hwp.
  { destruct (attempt writing g w) as [r w'] eqn:Ha. exact (wp_run _ _ _ _ _ Ha Hwp). }
  assert (Hwhen : forall text (Q : pyres unit -> W -> Prop) w', (forall r w'', r <> OutOfFuel -> Q r w'') -> wp (when writing (run_sql text)) Q w').
  { intros text Q w' HQ. destruct writing; cbn [when]; [by apply run_sql_ends|by apply wp_ret, HQ]. }
  apply wp_bind, Hwhen. intros [[]|e|] w1 Hr1; try done.
  apply wp_bind, (wp_for_do (fun _ => True)); [done| |intros w2 _; apply wp_bind, Hwhen; intros [[]|e|] w3 Hr3; try done].
  intros [r|] w2 _ _; [apply run_sql_ends; by intros [[]|e|]|by apply wp_throw].
Qed.

(** [ROLLBACK] failed after the group did. *)
Definition rollback_failed (g : list (option Request)) (w : W) (e : exn) (w' : W) : Prop :=
  exists cause w1, attempt true g w = (Raise cause, w1) /\ db_run (py "ROLLBACK") w1 = (Raise e, w').

Lemma transaction_cases writing g w :
  (exists error w', transaction writing g w = (Ok error, w')) \/
  exists e w', transaction writing g w = (Raise e, w') /\ writing = true /\ rollback_failed g w e w'.
Proof.
  pose proof (attempt_ends writing g w) as He. unfold transaction, try_except.
  destruct (attempt writing g w) as [[x|cause|] w1] eqn:Ha; [by left; eauto| |done].
  destruct writing; cbn [when]; unfold bind, ret, run_sql; [|by left; eauto].
  pose proof (db_ends (py "ROLLBACK") w1) as Hr. destruct (db_run (py "ROLLBACK") w1) as [[[]|e|] w2] eqn:Hrb; [by left; eauto| |done].
  right. exists e, w2. split_and!; [done|done|]. by exists cause, w1.
Qed.

(** The server thread is dead of a [ROLLBACK] that failed: its group and what
    waits stay unanswered. *)
Definition fell (ps : list Request) (w : W) (st : Ref W) : Prop :=
  exists gs rs w1 e, transacted gs w w1 /\ r_groups st = summary <$> gs.*1 /\ r_answers st = gs ≫= group_answers /\
    concat gs.*1 ++ rs ++ waiting st = ps /\ existsb q_write rs = true /\ rollback_failed (Some <$> rs) w1 e (r_db st) /\ r_phase st = Died e.

Lemma serve_cases ps w gs st st' :
  accounts_for ps w gs st -> in_service st -> step maximum EServe st = Some st' ->
  (in_service st' /\ r_phase st' = Idle /\ r_queue st' = r_queue st) \/ fell ps w st'.
Proof.
  intros (H1 & H2 & H3 & H4 & _) (Hq & Hp). destruct st as [q groups answers ph db]. unfold collected, waiting in H4.
  cbn [r_queue r_phase r_groups r_answers r_db step] in *. destruct ph as [|g| |e]; try done. destruct (_ || _); [|done]. intros [= <-].
  destruct Hp as (Hg & Hl). destruct (somes g Hg) as (rs & ->). unfold serve_group. cbn [r_queue r_groups r_answers r_phase r_db].
  rewrite any_write_all. destruct (transaction_cases (existsb q_write rs) (Some <$> rs) db) as [(error & w' & ->)|(e & w' & -> & Hw & Hf)].
  - left. rewrite sum_writes_all. by split_and!.
  - right. exists gs, rs, db, e. unfold waiting. cbn. rewrite omap_some in H4. by split_and!.
Qed.

Lemma fell_stays x ps w st st' : fell ps w st -> step maximum x st = Some st' -> fell (ps ++ puts [x]) w st'.
Proof.
  intros (gs & rs & w1 & e & H1 & H2 & H3 & H4 & H5 & H6 & H7). destruct st as [q groups answers ph db]. unfold fell, waiting in *.
  cbn [r_queue r_phase r_groups r_answers r_db] in *. subst ph.
  destruct x as [r| | |]; cbn [step]; unfold put; cbn [r_queue r_groups r_answers r_phase r_db]; try done;
    (destruct (_ <? _)%nat; [|done]); intros [= <-]; exists gs, rs, w1, e; cbn [r_queue r_phase r_groups r_answers r_db puts omap list_omap];
    rewrite omap_app, <-H4, <-?app_assoc; by split_and!.
Qed.

Lemma step_in_service x ps w gs st st' :
  accounts_for ps w gs st -> in_service st -> x <> EClose -> step maximum x st = Some st' -> in_service st' \/ fell (ps ++ puts [x]) w st'.
Proof.
  intros Ha Hin Hx Hs. destruct x as [r| | |]; [| done | | ].
  - left. destruct Hin as (Hq & Hp). destruct st as [q groups answers ph db]. unfold in_service in *. cbn [r_queue r_phase step] in *. unfold put in Hs.
    cbn [r_queue r_groups r_answers r_phase r_db] in Hs. destruct (_ <? _)%nat; [|done]. injection Hs as <-. cbn. split; [|done].
    apply Forall_app. split; [done|]. by apply Forall_singleton.
  - left. destruct Hin as (Hq & Hp). destruct st as [q groups answers ph db]. unfold in_service in *. cbn [r_queue r_phase step] in *.
    cbn [r_queue r_groups r_answers r_phase r_db] in Hs. destruct ph as [|g| |e]; try done; (destruct q as [|y q]; [done|]); apply Forall_cons in Hq as [[r ->] Hq].
    + injection Hs as <-. cbn. split_and!; try done; try lia. by apply Forall_singleton.
    + destruct (Nat.ltb_spec (length g) maximum); [|done]. injection Hs as <-. cbn [r_queue r_phase]. rewrite length_app. cbn [length].
      split_and!; try done; try lia. apply Forall_app. split; [tauto|]. by apply Forall_singleton.
  - cbn [puts omap list_omap]. rewrite app_nil_r. destruct (serve_cases ps w gs st st' Ha Hin Hs) as [[H1 _]|H1]; [by left|by right].
Qed.

(** Until [close], the server is in service or fell. *)
Definition stands (ps : list Request) (w : W) (st : Ref W) : Prop :=
  (in_service st /\ exists gs, accounts_for ps w gs st) \/ fell ps w st.

Lemma run_stands events ps w st st' :
  stands ps w st -> EClose ∉ events -> run maximum events st = Some st' -> stands (ps ++ puts events) w st'.
Proof.
  revert ps st. induction events as [|x l IH]; intros ps st Hin Hc; cbn [run]; [intros [= <-]; by rewrite app_nil_r|].
  apply not_elem_of_cons in Hc as [Hx Hc]. destruct (step maximum x st) as [st1|] eqn:Hs; [|done]. intros Hr.
  replace (ps ++ puts (x :: l)) with ((ps ++ puts [x]) ++ puts l).
  2: { change (x :: l) with ([x] ++ l). unfold puts. by rewrite omap_app, app_assoc. }
  apply (IH _ st1); [|done|done]. destruct Hin as [[Hi (gs & Ha)]|Hf]; [|right; by eapply fell_stays].
  destruct (step_in_service x ps w gs st st1) as [H1|H1]; [done..| |by right].
  left. split; [done|]. apply (step_accounts x ps w gs st st1); [done|done|by apply in_service_alive].
Qed.

(** The events of the server thread. *)
Definition of_server (x : event) : Prop := x = ETake \/ x = EServe.

(** What is left for the server to do. *)
Definition work (st : Ref W) : nat :=
  2 * length (r_queue st) + match r_phase st with Collecting _ => 1 | _ => 0 end.

Lemma next_step ps w gs st : accounts_for ps w gs st -> in_service st ->
  (r_phase st = Idle /\ r_queue st = []) \/
  exists x st', of_server x /\ step maximum x st = Some st' /\ ((work st' < work st)%nat \/ fell ps w st').
Proof.
  intros Ha Hin. pose proof Hin as (Hq & Hp). destruct st as [q groups answers ph db]. unfold in_service, work in *. cbn [r_queue r_phase] in *.
  destruct ph as [|g| |e]; try done.
  - destruct q as [|y q]; [by left|]. apply Forall_cons in Hq as [[r ->] Hq]. right. exists ETake. eexists.
    split; [by left|]. split; [reflexivity|]. left. cbn [r_queue r_phase length]. lia.
  - right. destruct Hp as (Hg & Hl).
    destruct (bool_decide (q = []) || (length g =? maximum)%nat) eqn:Hfull.
    + exists EServe. eexists. split; [by right|]. split; [cbn [step r_phase r_queue]; rewrite Hfull; reflexivity|].
      destruct (serve_cases ps w gs (mkRef q groups answers (Collecting g) db) (serve_group g (mkRef q groups answers (Collecting g) db)) Ha Hin) as [(_ & Hi & Hsame)|Hf];
        [cbn [step r_phase r_queue]; rewrite Hfull; reflexivity| |by right].
      left. rewrite Hi, Hsame. cbn [r_queue]. lia.
    + apply orb_false_iff in Hfull as [He Hm]. destruct q as [|y q]; [by rewrite bool_decide_eq_true_2 in He|].
      apply Nat.eqb_neq in Hm. exists ETake. eexists. split; [by left|]. cbn [step r_phase r_queue].
      destruct (Nat.ltb_spec (length g) maximum); [|lia]. split; [reflexivity|]. left. cbn [r_queue r_phase length]. lia.
Qed.

Lemma drains ps w st : stands ps w st ->
  exists events st', Forall of_server events /\ run maximum events st = Some st' /\
    ((exists gs, accounts_for ps w gs st' /\ r_phase st' = Idle /\ r_queue st' = []) \/ fell ps w st').
Proof.
  remember (work st) as n eqn:Hn. revert st Hn. induction n as [n IH] using lt_wf_ind. intros st -> Hin.
  destruct Hin as [[Hi (gs & Ha)]|Hf]; [|exists [], st; by split_and!; [|done|right]].
  destruct (next_step ps w gs st Ha Hi) as [[Hp Hq]|(x & st1 & Hx & Hs & [Hw|Hf])].
  - exists [], st. split_and!; [done|done|]. left. by exists gs.
  - assert (Hx' : puts [x] = []) by (by destruct Hx as [-> | ->]).
    assert (Hst : stands ps w st1).
    { pose proof (run_stands [x] ps w st st1) as H1. rewrite Hx', app_nil_r in H1. apply H1; [left; eauto| |cbn; by rewrite Hs].
      destruct Hx as [-> | ->]; set_solver. }
    destruct (IH _ Hw st1 eq_refl Hst) as (l & st' & Hl & Hr & Hend).
    exists (x :: l), st'. split_and!; [by apply Forall_cons|cbn [run]; by rewrite Hs|done].
  - exists [x], st1. split_and!; [by apply Forall_singleton|cbn [run]; by rewrite Hs|by right].
Qed.

Lemma served_all ps w gs st :
  accounts_for ps w gs st -> r_phase st = Idle -> r_queue st = [] ->
  concat gs.*1 = ps /\ (r_answers st).*1 = q_id <$> ps.
Proof.
  intros (_ & _ & H3 & H4 & _) Hp Hq. unfold collected, waiting in H4. rewrite Hp, Hq, !app_nil_r in H4. split; [done|].
  rewrite H3, <-H4. clear. induction gs as [|[g error] gs IH]; [done|]. cbn. rewrite !fmap_app, IH. f_equal.
  unfold group_answers. rewrite <-list_fmap_compose. by apply list_fmap_ext.
Qed.
End Reference.

Lemma puts_server events : Forall of_server events -> puts events = [].
Proof. induction 1 as [|x l [-> | ->] _ IH]; done. Qed.

(** C27: the grouped reference serves requests first come, first served: in
    every interleaving that leaves the server alive, the requests put so far
    are the groups served, in order, then the group being collected, then the
    queue; every group has one to [maximum] requests, is one transaction on the
    database left by the group before it, is counted once, and each of its
    requests is answered once with the outcome of that transaction; at most 64
    requests wait.  As long as [close] has not been called, the server's own
    steps alone lead to a state where every request put has exactly one answer,
    in the order they were put, or the server dies in the one way there is: a
    writing group failed and the database then refused its [ROLLBACK], leaving
    that group and everything behind it unanswered. *)
Theorem reference_serves {W} `{DatabaseLaws W} maximum events (w : W) st :
  (0 < maximum)%nat -> run maximum events (Ref_new w) = Some st ->
  (alive st -> exists gs, accounts_for maximum (puts events) w gs st) /\
  (EClose ∉ events ->
   (alive st \/ fell (puts events) w st) /\
   exists l st', Forall of_server l /\ run maximum l st = Some st' /\
     ((exists gs, accounts_for maximum (puts events) w gs st' /\ (r_answers st').*1 = q_id <$> puts events) \/ fell (puts events) w st')).
Proof.
  intros Hmax Hr.
  assert (Hnew : accounts_for maximum [] w [] (Ref_new w)).
  { unfold accounts_for. cbn. split_and!; try done; lia. }
  split; [intros Hl; exact (run_accounts maximum Hmax events [] w [] (Ref_new w) st Hnew Hr Hl)|]. intros Hc.
  assert (Hst : stands maximum (puts events) w st).
  { apply (run_stands maximum Hmax events [] w (Ref_new w)); [|done|done]. left. split; [|by exists []]. by split; [apply Forall_nil|]. }
  split; [destruct Hst as [[Hi _]|Hf]; [left; by apply (in_service_alive maximum)|by right]|].
  destruct (drains maximum Hmax _ w st Hst) as (l & st' & Hsv & Hrun & [(gs & Ha & Hi & Hq)|Hf]).
  - exists l, st'. split_and!; [done..|]. left. exists gs. split; [done|]. by eapply (served_all maximum).
  - exists l, st'. split_and!; [done..|by right].
Qed.

(** A database that logs the statements it runs and refuses one of them. *)
Module GroupDemo.
#[local] Instance logging : Database (list pystr) :=
  {| db_run text w := if pyeqb text (py "refused") then (Raise (RuntimeError "refused"), w) else (Ok tt, w ++ [text]) |}.

#[local] Instance logging_laws : DatabaseLaws (list pystr).
Proof. split. intros. cbn. by destruct (pyeqb _ _). Qed.

Definition ask (n : nat) : Request := mkRequest (py (if (n =? 2)%nat then "refused" else "insert")) true n.

Definition three : list event := [EPut (ask 1); ETake; EPut (ask 2); EPut (ask 3); ETake; EServe; ETake].

Example two_groups :
  (fun st => (r_answers st, r_groups st)) <$> run 2 (three ++ [EServe]) (Ref_new []) =
  Some ([(1%nat, Some (RuntimeError "refused")); (2%nat, Some (RuntimeError "refused")); (3%nat, None)], [(2, 2); (1, 1)]).
Proof. vm_compute. reflexivity. Qed.

(** [close] while a request waits: the sentinel is drained into the group, and
    reading its second field ends the thread with the request unanswered. *)
Example sentinel_in_group :
  (fun st => (r_answers st, r_phase st)) <$> run 16 [EPut (mkRequest (py "select") false 1); EClose; ETake; ETake; EServe] (Ref_new []) =
  Some ([], Died (TypeError "'NoneType' object is not subscriptable")).
Proof. vm_compute. reflexivity. Qed.

(** The group being collected is served and everything put is answered. *)
Lemma reference_serves_witness :
  exists st gs l st', run 2 three (Ref_new []) = Some st /\ accounts_for 2 (puts three) [] gs st /\ Forall of_server l /\ run 2 l st = Some st' /\
    ((exists gs', accounts_for 2 (puts three) [] gs' st' /\ (r_answers st').*1 = [1%nat; 2%nat; 3%nat]) \/ fell (puts three) [] st').
Proof.
  destruct (run 2 three (Ref_new [])) as [st|] eqn:Hr; [|discriminate Hr].
  destruct (reference_serves 2 three [] st) as [Hl Hc]; [lia|exact Hr|].
  assert (Ha : alive st) by (vm_compute in Hr; injection Hr as <-; exact I).
  destruct (Hl Ha) as (gs & Hgs). destruct Hc as (_ & l & st' & Hsv & Hrun & Hend).
  { unfold three. rewrite !not_elem_of_cons. repeat split; [discriminate..|apply not_elem_of_nil]. }
  exists st, gs, l, st'. split_and!; [reflexivity|exact Hgs|exact Hsv|exact Hrun|exact Hend].
Defined.

(** When [BEGIN IMMEDIATE] is refused no transaction is active, so [ROLLBACK]
    is refused too: the server thread dies and the client is never answered. *)
Definition busy_run (text : pystr) (w : nat) : pyres unit * nat :=
  if pyeqb text (py "BEGIN IMMEDIATE") then (Raise (RuntimeError "database is locked"), w)
  else if pyeqb text (py "ROLLBACK") then (Raise (RuntimeError "cannot rollback - no transaction is active"), w) else (Ok tt, S w).
Lemma begin_refused :
  (fun st => (r_answers st, r_phase st)) <$> run (H := {| db_run := busy_run |}) 16 [EPut (ask 1); ETake; EServe] (Ref_new 0%nat) =
  Some ([], Died (RuntimeError "cannot rollback - no transaction is active")).
Proof. vm_compute. reflexivity. Qed.
End GroupDemo.
