(* ===== verification/Mixed.v ===== *)
(** * Workloads and their measurement
    (tools/calibrate_native_mixed.py: SQLite, workload, measure;
    tools/sqlite_reference_worker.py)

    A workload is drawn from a seed; [measure] runs one per client against
    SQLite, the grouped reference or a native connection, and summarises the
    latencies.  The same transactions run on both sides, and the balances they
    leave are compared with the number of writes. *)

From Stdlib Require Import QArith.
From stdpp Require Import sorting.
From S2P Require Import Prelude PyStr PyFloat Objects Json Vector Text Parameters Results Net Client Dict Host Stats Random Script Service ServiceChecks GroupReference.
#[local] Open Scope Z_scope.

(** ** class SQLite, over the library loaded with ctypes *)

Class SqliteLib (W : Type) := {
  q_host :: Host W;
  (** the result code and the handle *)
  sqlite3_open : pystr -> W -> (Z * Z) * W;
  sqlite3_busy_timeout : Z -> Z -> W -> Z * W;
  sqlite3_exec : Z -> pystr -> W -> Z * W;
  sqlite3_errmsg : Z -> W -> pystr;
  sqlite3_prepare : Z -> pystr -> W -> (Z * Z) * W;
  sqlite3_step : Z -> W -> Z * W;
  sqlite3_column_int64 : Z -> Z -> W -> Z * W;
  sqlite3_finalize : Z -> W -> W;
  sqlite3_close : Z -> W -> Z * W
}.

Section SQLite.
Context {W : Type} `{SqliteLib W}.

(** [self.run(text)] *)
Definition run_text (db : Z) (text : pystr) : Hm (W := W) unit :=
  let! rc := io (sqlite3_exec db text) in
  if rc =? 0 then ret tt
  else let! message := gets (sqlite3_errmsg db) in throw (RuntimeError "SQLite {rc}: {message}").

(** [self.run(text, write)]: a write is a transaction of its own, rolled back
    if its text or its commit fails. *)
Definition SQLite_run (db : Z) (text : pystr) (write : bool) : Hm (W := W) unit :=
  do! when write (run_text db (py "BEGIN IMMEDIATE"));;
  try_except
    (do! run_text db text;; when write (run_text db (py "COMMIT")))
    (fun e => Some (do! when write (run_text db (py "ROLLBACK"));; throw e)).

Definition SQLite_new (path : pystr) : Hm (W := W) Z :=
  let! opened := io (sqlite3_open path) in
  do! check_that (opened.1 =? 0);;
  let! rc := io (sqlite3_busy_timeout opened.2 30000) in
  do! check_that (rc =? 0);;
  do! SQLite_run opened.2 (py "PRAGMA journal_mode=WAL;PRAGMA synchronous=FULL;PRAGMA foreign_keys=ON") false;;
  ret opened.2.

Definition SQLite_scalar (db : Z) (text : pystr) : Hm (W := W) Z :=
  let! prepared := io (sqlite3_prepare db text) in
  do! check_that (prepared.1 =? 0);;
  try_finally
    (let! rc := io (sqlite3_step prepared.2) in
     do! check_that (rc =? 100);;
     io (sqlite3_column_int64 prepared.2 0))
    (io_do (sqlite3_finalize prepared.2)).

Definition SQLite_close (db : Z) : Hm (W := W) unit :=
  let! rc := io (sqlite3_close db) in check_that (rc =? 0).
End SQLite.

(** ** workload *)

Record Case := mkCase {
  k_clients : Z; k_read_percent : Z; k_payload : Z; k_statements : Z; k_rows : Z; k_skew : bool; k_seed : Z; k_rate : Z
}.

(** The ids a write updates, one range per statement. *)
Definition piece (key statements rows statement : Z) : Z * Z :=
  let first := key + statement * rows / statements in
  let last := key + (statement + 1) * rows / statements in
  (first, if first =? last then first + 1 else last).
Definition pieces (key statements rows : Z) : list (Z * Z) :=
  (fun k => piece key statements rows (Z.of_nat k)) <$> seq 0 (Z.to_nat statements).
Definition update_text (payload : Z) (range : Z * Z) : pystr :=
  fstr [L "UPDATE account SET balance=balance+1,payload=zeroblob("; D payload; L ") WHERE id>="; D range.1; L " AND id<"; D range.2].
Definition select_text (key : Z) : pystr :=
  fstr [L "SELECT id,balance,length(payload) FROM account WHERE id="; D key].

(** The float [.9] in units of 2^-53. *)
Definition FLOAT_90 : Z := 8106479329266893.
Definition draw_fuel : nat := 100.

Definition operation (reads payload statements rows : Z) (skew : bool) : Rm (bool * pystr) :=
  let! n := (if skew then let! r := random53 in ret (if r <? FLOAT_90 then 32 else 1024) else ret 1024) in
  let! key := randrange draw_fuel 0 n in
  do! lift (guard (rows =? 0) (ZeroDivisionError "integer modulo by zero"));;
  let key := key - key mod rows in
  let! percent := randrange draw_fuel 0 100 in
  let write := reads <=? percent in
  ret (write, if (write : bool) then join (py ";") (update_text payload <$> pieces key statements rows) else select_text key).

Definition workload (seed : Z) (count : nat) (reads payload statements rows : Z) (skew : bool) : pyres (list (bool * pystr)) :=
  (for_each (seq 0 count) (fun _ acc =>
     let! op := operation reads payload statements rows skew in ret (acc ++ [op])) [] (Random_new seed)).1.

(** ** measure *)

(** A database as a worker sees it: SQLite and the grouped reference run text,
    a connection executes and queries. *)
Record Native (W : Type) := mkNative {
  nv_session_epoch : Hm (W := W) Z;
  nv_query : pystr -> Hm (W := W) Rows;
  nv_execute : pystr -> Hm (W := W) WriteResult;
  nv_pending : Hm (W := W) (option PendingWrite);
  nv_resolve : Hm (W := W) WriteResult
}.
Arguments mkNative {W}. Arguments nv_session_epoch {W}. Arguments nv_query {W}. Arguments nv_execute {W}.
Arguments nv_pending {W}. Arguments nv_resolve {W}.
Inductive kind (W : Type) :=
| Reference (run : pystr -> bool -> Hm (W := W) unit)
| Service_ (n : Native W).
Arguments Reference {W}. Arguments Service_ {W}.
Record Target (W : Type) := mkTarget { t_kind : kind W; t_close : Hm (W := W) unit }.
Arguments mkTarget {W}. Arguments t_kind {W}. Arguments t_close {W}.

Inductive outcome := SOk | SError | SResolved.
Record Sample := mkSample {
  x_start : Q; x_due : Q; x_write : bool; x_client : Z; x_operation : Z; x_status : outcome;
  x_reply : option (Z * Z); x_error : option pystr; x_pending : option pystr; x_resolution : option pystr; x_end : Q
}.

Definition is_error (x : Sample) : bool := match x_status x with SError => true | _ => false end.
Definition is_resolved (x : Sample) : bool := match x_status x with SResolved => true | _ => false end.

Record Latency := mkLatency { l_count : Z; l_p50 : Q; l_p99 : Q }.
Record Measurement := mkMeasurement {
  m_elapsed : Q; m_rate : Z; m_offered : Z; m_invoked : Z; m_completed : Z; m_errors : Z; m_resolved : Z;
  m_per_second : Q; m_read : option Latency; m_write : option Latency; m_raw : list Sample
}.

Section Measure.
Context {W : Type} `{Host W}.

(** The connection is made and its session epoch discovered before the clock
    starts. *)
Definition warm_up (db : Target W) : Hm (W := W) unit :=
  match t_kind db with
  | Reference _ => ret tt
  | Service_ n => do! nv_session_epoch n;; do! nv_query n (py "SELECT 1");; ret tt
  end.

(** The operation itself: what it returns of the reply. *)
Definition attempt (db : Target W) (write : bool) (text : pystr) : Hm (W := W) (option (Z * Z)) :=
  match t_kind db with
  | Reference run => do! run text write;; ret None
  | Service_ n =>
      if write then let! reply := nv_execute n text in ret (Some (w_applied reply, w_node reply))
      else
        let! reply := nv_query n text in
        do! check_that (rows_len reply =? 1);;
        ret (Some (applied reply, node reply))
  end.

(** After an exception: a pending write is resolved once, and kept in the
    sample either way. *)
Definition resolve_after (db : Target W) (e : exn) : Hm (W := W) (outcome * option pystr * option pystr) :=
  match t_kind db with
  | Reference _ => ret (SError, None, None)
  | Service_ n =>
      let! pending := nv_pending n in
      match pending with
      | None => ret (SError, None, None)
      | Some p =>
          let! text := lift (to_json p) in
          try_except (do! nv_resolve n;; ret (SResolved, Some text, None))
            (fun resolution => Some (ret (SError, Some text, Some (repr_exn resolution))))
      end
  end.

Definition measure_op (case : Case) (epoch : Q) (index number : Z) (db : Target W) (op : bool * pystr) : Hm (W := W) Sample :=
  let '(write, text) := op in
  let due := (epoch + inject_Z (number * k_clients case + index) / inject_Z (k_rate case))%Q in
  do! when (negb (k_rate case =? 0))
        (let! now := io h_monotonic in io_do (h_sleep (if Qle_bool 0 (due - now) then due - now else 0)%Q));;
  let! started := io h_monotonic in
  let due := if k_rate case =? 0 then started else due in
  let! result :=
    try_except (let! reply := attempt db write text in ret (SOk, reply, None, (None, None)))
      (fun e => Some (let! r := resolve_after db e in
                      ret (r.1.1, None, Some (repr_exn e), (r.1.2, r.2)))) in
  let '(status, reply, error, (pending, resolution)) := result in
  let! finished := io h_monotonic in
  ret (mkSample started due write index number status reply error pending resolution finished).

(** The operations of one worker, up to its first failure. *)
Fixpoint worker_ops (case : Case) (epoch : Q) (index number : Z) (db : Target W) (ops : list (bool * pystr)) (raw : list Sample) : Hm (W := W) (list Sample) :=
  match ops with
  | [] => ret raw
  | op :: ops =>
      let! x := measure_op case epoch index number db op in
      if is_error x then ret (raw ++ [x]) else worker_ops case epoch index (number + 1) db ops (raw ++ [x])
  end.

(** A worker up to the barrier. *)
Definition worker_start (factory : Z -> Hm (W := W) (Target W)) (case : Case) (count : nat) (index : Z) : Hm (W := W) (Z * Target W * list (bool * pystr)) :=
  let! db := factory index in
  let! ops := lift (workload (k_seed case + index) count (k_read_percent case) (k_payload case) (k_statements case) (k_rows case) (k_skew case)) in
  try_except (do! warm_up db;; ret (index, db, ops)) (fun e => Some (do! t_close db;; throw e)).

(** All workers reach the barrier, which sets the epoch, or the barrier breaks
    and each closes its connection; their operations then run one worker after
    the other, each closing its connection at its end. *)
Definition measure_raw (factory : Z -> Hm (W := W) (Target W)) (case : Case) (count : nat) : Hm (W := W) (list Sample) :=
  let! workers := for_each (seq 0 (Z.to_nat (k_clients case))) (fun i workers =>
    try_except (let! x := worker_start factory case count (Z.of_nat i) in ret (workers ++ [x]))
      (fun e => Some (do! for_do workers (fun x => t_close x.1.2);; throw e))) [] in
  let! now := io h_monotonic in
  let epoch := (now + (2 # 100))%Q in
  for_each workers (fun x raw =>
    let '(index, db, ops) := x in
    try_finally (worker_ops case epoch index 0 db ops raw) (t_close db)) [].
End Measure.

(** *** The summary *)

Definition q_max (x : Q) (l : list Q) : Q := foldl (fun a b => if Qle_bool b a then a else b) x l.
Definition q_min (x : Q) (l : list Q) : Q := foldl (fun a b => if Qle_bool a b then a else b) x l.

Definition latencies (write : bool) (raw : list Sample) : list Q :=
  (fun x => 1000 * (x_end x - x_due x))%Q <$> filter (fun x => x_write x = write) raw.
Definition latency (write : bool) (raw : list Sample) : pyres (option Latency) :=
  match latencies write raw with
  | [] => Ok None
  | values =>
      let? p50 := nearest_rank FLOAT_50 values in
      let? p99 := nearest_rank FLOAT_99 values in
      Ok (Some (mkLatency (zlen values) p50 p99))
  end.
Definition count_if {A} (f : A -> bool) (l : list A) : Z := zlen (filter (fun x => f x = true) l).

Definition measured (case : Case) (count : nat) (raw : list Sample) : pyres Measurement :=
  match raw with
  | [] => Raise (AssertionError "No workload operations recorded")
  | x :: l =>
      let elapsed := (q_max (x_end x) (x_end <$> l) - q_min (x_start x) (x_start <$> l))%Q in
      let completed := count_if (fun x => negb (is_error x)) raw in
      let? reads := latency false raw in
      let? writes := latency true raw in
      do? guard (Qeq_bool elapsed 0) (ZeroDivisionError "float division by zero");;
      Ok (mkMeasurement elapsed (k_rate case) (Z.of_nat count * k_clients case) (zlen raw) completed
            (count_if is_error raw) (count_if is_resolved raw) (inject_Z completed / elapsed)%Q reads writes raw)
  end.

Definition measure {W} `{Host W} (factory : Z -> Hm (W := W) (Target W)) (case : Case) (count : nat) : Hm (W := W) Measurement :=
  let! raw := measure_raw factory case count in lift (measured case count raw).

(** [sum(x['write'] for x in raw)] *)
Definition writes_of (raw : list Sample) : Z := count_if x_write raw.

(** *** As data *)

Definition outcome_text (o : outcome) : string := match o with SOk => "ok" | SError => "error" | SResolved => "resolved_unknown" end.
Definition opt_field (k : string) (o : option pystr) : list (pystr * tv) := match o with Some s => [(py k, tstr s)] | None => [] end.
Definition sample_data (x : Sample) : tv :=
  Obj (fields [("start", Num (x_start x)); ("due", Num (x_due x)); ("write", tbool (x_write x)); ("client", tint (x_client x));
               ("operation", tint (x_operation x)); ("status", tstr (py (outcome_text (x_status x))))]%string
       ++ match x_reply x with Some (a, n) => fields [("applied", tint a); ("node", tint n)]%string | None => [] end
       ++ opt_field "error" (x_error x) ++ opt_field "pending" (x_pending x) ++ opt_field "resolution_error" (x_resolution x)
       ++ fields [("end"%string, Num (x_end x))]).
Definition latency_data (l : Latency) : tv := Obj (fields [("count", tint (l_count l)); ("p50", Num (l_p50 l)); ("p99", Num (l_p99 l))]%string).
Definition latency_field (k : string) (o : option Latency) : report := match o with Some l => [(py k, latency_data l)] | None => [] end.
Definition measurement_data (m : Measurement) : tv :=
  Obj (fields [("elapsed", Num (m_elapsed m)); ("scheduled_rate", if (m_rate m =? 0)%Z then tnone else tint (m_rate m));
    ("latency_basis", tstr (py (if (m_rate m =? 0)%Z then "closed-loop invocation" else "scheduled arrival")));
    ("offered", tint (m_offered m)); ("invoked", tint (m_invoked m)); ("completed", tint (m_completed m));
    ("errors", tint (m_errors m)); ("resolved_unknown", tint (m_resolved m)); ("per_second", Num (m_per_second m));
    ("latency_ms", Obj (latency_field "read" (m_read m) ++ latency_field "write" (m_write m)));
    ("raw", Arr (sample_data <$> m_raw m))]%string).

(** * What the measured workloads amount to

    The operations of a workload, the rows its writes touch, the samples a
    measurement keeps of it and the percentiles it reports. *)

(** ** Rows touched *)

(** [UPDATE account SET balance=balance+1 WHERE id>=a AND id<b] on a table of
    balances by id, and the sum over the 1024 accounts of the setup. *)
Definition credit (range : Z * Z) (balance : Z -> Z) : Z -> Z :=
  fun id => if (range.1 <=? id) && (id <? range.2) then balance id + 1 else balance id.
Definition accounts : list Z := (fun k => Z.of_nat k) <$> seq 0 1024.
Definition total (balance : Z -> Z) : Z := zsum (balance <$> accounts).
Definition credits (ranges : list (Z * Z)) (balance : Z -> Z) : Z -> Z := foldl (fun b r => credit r b) balance ranges.

Lemma sum_credit range balance n :
  0 <= range.1 <= range.2 -> range.2 <= Z.of_nat n ->
  zsum (credit range balance <$> (Z.of_nat <$> seq 0 n)) = zsum (balance <$> (Z.of_nat <$> seq 0 n)) + (range.2 - range.1).
Proof.
  destruct range as [a b]. cbn [fst snd]. intros Hab Hb.
  enough (Hn : forall m, zsum (credit (a, b) balance <$> (Z.of_nat <$> seq 0 m)) =
                    zsum (balance <$> (Z.of_nat <$> seq 0 m)) + (Z.min b (Z.of_nat m) - Z.min a (Z.of_nat m))).
  { rewrite Hn. lia. }
  intros m. induction m as [|m IH]; [cbn; lia|].
  rewrite seq_S, !fmap_app, !zsum_app, IH. cbn [fmap list_fmap zsum foldr]. cbn [Nat.add]. unfold credit at 1. cbn [fst snd].
  destruct (_ && _) eqn:E; [unbool|apply andb_false_iff in E as [?|?]; unbool]; lia.
Qed.

Definition in_table (range : Z * Z) : Prop := 0 <= range.1 <= range.2 /\ range.2 <= 1024.
Definition width (ranges : list (Z * Z)) : Z := zsum ((fun r => r.2 - r.1) <$> ranges).

Lemma total_credits ranges balance : Forall in_table ranges -> total (credits ranges balance) = total balance + width ranges.
Proof.
  intros Hr. revert balance. induction Hr as [|r l [H1 H2] Hl IH]; intros balance; [by rewrite Z.add_0_r|].
  change (credits (r :: l) balance) with (credits l (credit r balance)). change (width (r :: l)) with (r.2 - r.1 + width l). rewrite IH. unfold total, accounts.
  change ((fun k => Z.of_nat k) <$> seq 0 1024) with (Z.of_nat <$> seq 0 1024). rewrite sum_credit by (by cbn). lia.
Qed.

(** ** The ranges of a write *)

Lemma piece_range key statements rows i :
  0 < statements -> 0 < rows -> 0 <= i < statements ->
  let '(a, b) := piece key statements rows i in
  key <= a /\ a < b /\ b <= key + rows /\ b - a = Z.max 1 ((i + 1) * rows / statements - i * rows / statements).
Proof.
  intros Hs Hr Hi. unfold piece. set (x := i * rows / statements). set (y := (i + 1) * rows / statements).
  assert (0 <= x) by (apply Z.div_pos; nia). assert (x < rows) by (apply Z.div_lt_upper_bound; nia).
  assert (x <= y) by (apply Z.div_le_mono; nia). assert (y <= rows) by (apply Z.div_le_upper_bound; nia).
  destruct (key + x =? key + y) eqn:E; unbool; lia.
Qed.

(** Together they touch as many rows as there are statements or rows, whichever
    is more: consecutive bounds differ by at least one in the first case, by at
    most one in the second. *)
Lemma pieces_width key statements rows : 0 < statements -> 0 < rows -> width (pieces key statements rows) = Z.max rows statements.
Proof.
  intros Hs Hr. unfold width, pieces.
  enough (Hn : forall n : nat, Z.of_nat n <= statements ->
    zsum ((fun r => r.2 - r.1) <$> ((fun k => piece key statements rows (Z.of_nat k)) <$> seq 0 n)) =
    if rows <=? statements then Z.of_nat n else Z.of_nat n * rows / statements).
  { rewrite Hn, Z2Nat.id by lia. destruct (rows <=? statements) eqn:E; unbool; [lia|].
    rewrite Z.mul_comm, Z.div_mul by lia. lia. }
  intros n. induction n as [|n IH]; intros Hn; [cbn; destruct (_ <=? _); [done|by rewrite Z.div_0_l by lia]|].
  rewrite seq_S, !fmap_app, zsum_app, IH by lia. cbn [fmap list_fmap zsum foldr]. cbn [Nat.add].
  pose proof (piece_range key statements rows (Z.of_nat n) Hs Hr ltac:(lia)) as Hp.
  destruct (piece key statements rows (Z.of_nat n)) as [a b]. cbn [fst snd]. destruct Hp as (_ & _ & _ & ->).
  rewrite Nat2Z.inj_succ, <-Z.add_1_r. set (x := Z.of_nat n * rows / statements). set (y := (Z.of_nat n + 1) * rows / statements).
  replace ((Z.of_nat n + 1) * rows) with (Z.of_nat n * rows + rows) in * by lia.
  destruct (rows <=? statements) eqn:E; unbool.
  - assert (y <= x + 1); [|lia]. unfold x, y. replace ((Z.of_nat n + 1) * rows) with (Z.of_nat n * rows + rows) by lia.
    rewrite <-(Z.div_add _ 1) by lia. apply Z.div_le_mono; lia.
  - assert (x + 1 <= y); [|lia]. unfold x, y. replace ((Z.of_nat n + 1) * rows) with (Z.of_nat n * rows + rows) by lia.
    rewrite <-(Z.div_add _ 1) by lia. apply Z.div_le_mono; lia.
Qed.

Lemma pieces_in_table key statements rows :
  0 < statements -> 0 < rows -> 0 <= key -> key + rows <= 1024 -> Forall in_table (pieces key statements rows).
Proof.
  intros Hs Hr Hk Hl. apply Forall_fmap, Forall_forall. intros i Hi%elem_of_seq. cbn.
  pose proof (piece_range key statements rows (Z.of_nat i) Hs Hr ltac:(lia)) as Hp. unfold in_table.
  destruct (piece key statements rows (Z.of_nat i)) as [a b]. cbn. lia.
Qed.

(** ** Operations drawn *)

(** An operation and the ranges it updates. *)
Inductive drawn (payload statements rows : Z) : bool * pystr -> list (Z * Z) -> Prop :=
| drawn_read key : 0 <= key < 1024 -> drawn payload statements rows (false, select_text key) []
| drawn_write key :
    0 <= key < 1024 -> key mod rows = 0 ->
    drawn payload statements rows (true, join (py ";") (update_text payload <$> pieces key statements rows)) (pieces key statements rows).

Lemma operation_drawn reads payload statements rows skew g (Q : res exn (bool * pystr) -> Mt -> Prop) :
  0 < rows -> mt_wf g ->
  (forall op ranges g', drawn payload statements rows op ranges -> mt_wf g' -> Q (Ok op) g') -> (forall g', mt_wf g' -> Q OutOfFuel g') ->
  wp (operation reads payload statements rows skew) Q g.
Proof.
  intros Hrows Hg HQ HF. unfold operation. apply wp_bind.
  assert (Hrest : forall n g1, 0 < n <= 1024 -> mt_wf g1 ->
    wp (let! key := randrange draw_fuel 0 n in
        do! lift (guard (rows =? 0) (ZeroDivisionError "integer modulo by zero"));;
        let key := key - key mod rows in
        let! percent := randrange draw_fuel 0 100 in
        let write := reads <=? percent in
        ret (write, if (write : bool) then join (py ";") (update_text payload <$> pieces key statements rows) else select_text key)) Q g1).
  { intros n g1 Hn H1. apply wp_bind, wp_randrange; [done|lia| |done]. intros key g2 Hkey H2. apply wp_bind, wp_lift.
    replace (rows =? 0) with false by lia. cbn [guard]. apply wp_bind, wp_randrange; [done|lia| |done]. intros percent g3 _ H3.
    apply wp_ret. pose proof (Z.mod_pos_bound key rows Hrows). pose proof (Z.div_mod key rows ltac:(lia)) as Hdm.
    pose proof (Z.div_pos key rows ltac:(lia) Hrows).
    assert (0 <= key - key mod rows < 1024) by nia.
    destruct (reads <=? percent).
    - eapply HQ; [|done]. apply drawn_write; [done|]. replace (key - key mod rows) with (key / rows * rows) by lia. apply Z.mod_mul. lia.
    - eapply HQ; [|done]. by apply drawn_read. }
  destruct skew; [|by apply wp_ret, Hrest; [lia|]].
  apply wp_bind, wp_random53; [done|]. intros r g1 H1. apply wp_ret, Hrest; [destruct (_ <? _); lia|done].
Qed.

Lemma workload_drawn seed count reads payload statements rows skew ops :
  0 < rows -> workload seed count reads payload statements rows skew = Ok ops ->
  length ops = count /\ exists ranges, Forall2 (drawn payload statements rows) ops ranges.
Proof.
  intros Hrows. unfold workload.
  assert (Hw : wp (for_each (seq 0 count) (fun _ acc => let! op := operation reads payload statements rows skew in ret (acc ++ [op])) [])
     (fun r (_ : Mt) => match r with Ok ops => length ops = count /\ exists ranges, Forall2 (drawn payload statements rows) ops ranges | _ => True end)
     (Random_new seed)).
  { enough (Hn : forall n a acc g, mt_wf g -> (exists ranges, Forall2 (drawn payload statements rows) acc ranges) ->
      wp (for_each (seq a n) (fun _ acc => let! op := operation reads payload statements rows skew in ret (acc ++ [op])) acc)
         (fun r (_ : Mt) => match r with
            | Ok ops => length ops = (length acc + n)%nat /\ exists ranges, Forall2 (drawn payload statements rows) ops ranges | _ => True end) g).
    { apply Hn; [apply Random_new_wf|by exists []]. }
    induction n as [|n IH]; intros a acc g Hg [rs Hrs]; cbn [seq for_each].
    { apply wp_ret. split; [lia|by exists rs]. }
    apply wp_bind, wp_bind, operation_drawn; [done|done| |done]. intros op r g' Hop Hg'. apply wp_ret.
    eapply wp_mono; [apply IH; [done|]|].
    - exists (rs ++ [r]). apply Forall2_app; [done|]. by repeat constructor.
    - intros [ops'|?|] g2; [|done..]. intros [Hl He]. split; [|done]. rewrite Hl, length_app. cbn. lia. }
  unfold wp in Hw. destruct (for_each _ _ _ _) as [r g]. cbn. intros ->. done.
Qed.

(** The balance a workload adds when every operation of it is carried out once. *)
Definition writes_in (ops : list (bool * pystr)) : Z := count_if fst ops.

Lemma count_if_cons {A} (f : A -> bool) x l : count_if f (x :: l) = (if f x then 1 else 0) + count_if f l.
Proof. unfold count_if. rewrite filter_cons. destruct (f x); [by rewrite decide_True, zlen_cons|by rewrite decide_False]. Qed.

Lemma count_if_app {A} (f : A -> bool) l l' : count_if f (l ++ l') = count_if f l + count_if f l'.
Proof. unfold count_if. by rewrite filter_app, zlen_app. Qed.

Lemma drawn_total payload statements rows ops ranges balance :
  0 < statements -> 0 < rows -> (rows | 1024) ->
  Forall2 (drawn payload statements rows) ops ranges ->
  total (credits (concat ranges) balance) = total balance + Z.max rows statements * writes_in ops.
Proof.
  intros Hs Hr [c Hc] Hd.
  assert (Hin : Forall in_table (concat ranges) /\ width (concat ranges) = Z.max rows statements * writes_in ops).
  { induction Hd as [|op rs ops ranges Hop Hd [IH1 IH2]]; [split; [apply Forall_nil_2|by rewrite Z.mul_0_r]|].
    unfold writes_in in *. rewrite count_if_cons. cbn [concat].
    assert (Hone : Forall in_table rs /\ width rs = if op.1 then Z.max rows statements else 0).
    { destruct Hop as [key Hkey|key Hkey Hmod]; cbn [fst]; [by split; [apply Forall_nil_2|]|].
      split; [|by apply pieces_width]. apply pieces_in_table; [done..|lia|].
      pose proof (Z.div_mod key rows ltac:(lia)) as Hdm. rewrite Hmod in Hdm. assert (key / rows < c) by nia. nia. }
    destruct Hone as [H1 H2]. split; [by apply Forall_app|]. unfold width in *. rewrite fmap_app, zsum_app, H2, IH2. destruct op.1; lia. }
  destruct Hin as [H1 H2]. rewrite total_credits, H2; [lia|done].
Qed.

(** ** Samples kept *)

(** The samples of one worker: its operations in order, the last one perhaps an
    error and then not all of them. *)
Fixpoint ran (index number : Z) (ops : list (bool * pystr)) (xs : list Sample) : Prop :=
  match ops, xs with
  | [], [] => True
  | op :: ops, x :: xs =>
      x_client x = index /\ x_operation x = number /\ x_write x = op.1 /\
      if is_error x then xs = [] else ran index (number + 1) ops xs
  | _, _ => False
  end.

Section Measure.
Context {W : Type} `{Host W}.

(** A step whose effects do not matter here. *)
Lemma wp_any {A} (m : Hm (W := W) A) (Q : res exn A -> W -> Prop) w : (forall r w', Q r w') -> wp m Q w.
Proof. intros HQ. apply wp_intro. intros. apply HQ. Qed.

Lemma measure_op_spec case epoch index number (db : Target W) op w :
  wp (measure_op case epoch index number db op)
     (fun r _ => match r with Ok x => x_client x = index /\ x_operation x = number /\ x_write x = op.1 | _ => True end) w.
Proof.
  unfold measure_op. destruct op as [write text].
  apply wp_bind, wp_any. intros [[]|e|] w1; [|done..]. apply wp_bind, wp_any. intros [started|e|] w2; [|done..].
  apply wp_bind, wp_any. intros [[[[status reply] error] [pending resolution]]|e|] w3; [|done..].
  apply wp_bind, wp_any. intros [finished|e|] w4; [|done..]. by apply wp_ret.
Qed.

Lemma worker_ops_spec case epoch index (db : Target W) ops number raw w :
  wp (worker_ops case epoch index number db ops raw)
     (fun r _ => match r with Ok raw' => exists xs, raw' = raw ++ xs /\ ran index number ops xs | _ => True end) w.
Proof.
  revert number raw w. induction ops as [|op ops IH]; intros number raw w; cbn [worker_ops].
  { apply wp_ret. exists []. by rewrite app_nil_r. }
  apply wp_bind. eapply wp_mono; [apply measure_op_spec|]. intros [x|e|] w1 Hx; [|done..]. destruct Hx as (H1 & H2 & H3).
  destruct (is_error x) eqn:E.
  - apply wp_ret. exists [x]. split; [done|]. cbn [ran]. by rewrite E.
  - eapply wp_mono; [apply IH|]. intros [raw'|e|] w2; [|done..]. intros (xs & -> & Hr). exists (x :: xs).
    rewrite <-app_assoc. split; [done|]. cbn [ran]. by rewrite E.
Qed.

(** The workload of a client. *)
Definition client_workload (case : Case) (count : nat) (index : Z) : pyres (list (bool * pystr)) :=
  workload (k_seed case + index) count (k_read_percent case) (k_payload case) (k_statements case) (k_rows case) (k_skew case).

Definition worker_of (case : Case) (count : nat) (i : nat) (x : Z * Target W * list (bool * pystr)) : Prop :=
  x.1.1 = Z.of_nat i /\ client_workload case count (Z.of_nat i) = Ok x.2.

Lemma worker_start_spec factory case count index w :
  wp (worker_start factory case count index)
     (fun r (_ : W) => match r with Ok x => x.1.1 = index /\ client_workload case count index = Ok x.2 | _ => True end) w.
Proof.
  unfold worker_start. apply wp_bind, wp_any. intros [db|e|] w1; [|done..]. apply wp_bind, wp_lift.
  fold (client_workload case count index). destruct (client_workload case count index) as [ops|e|] eqn:E; [|done..].
  apply wp_try_except, wp_bind, wp_any. intros [[]|e|] w2; [by apply wp_ret| |done].
  apply wp_bind, wp_any. intros [[]|e'|] w3; [by apply wp_throw|done..].
Qed.

(** What [measure] has of every client when it returns. *)
Definition sampled (case : Case) (count : nat) (n : nat) (raw : list Sample) : Prop :=
  exists parts, raw = concat parts /\ length parts = n /\
    forall i xs, parts !! i = Some xs -> exists ops, client_workload case count (Z.of_nat i) = Ok ops /\ ran (Z.of_nat i) 0 ops xs.

Lemma measure_raw_spec factory case count w :
  wp (measure_raw factory case count)
     (fun r (_ : W) => match r with Ok raw => sampled case count (Z.to_nat (k_clients case)) raw | _ => True end) w.
Proof.
  unfold measure_raw. apply wp_bind.
  set (body := fun (i : nat) workers => try_except _ _).
  assert (Hstart : forall n a (workers : list (Z * Target W * list (bool * pystr))) w,
    length workers = a -> (forall i x, workers !! i = Some x -> worker_of case count i x) ->
    wp (for_each (seq a n) body workers)
       (fun r _ => match r with Ok l => length l = (a + n)%nat /\ forall i x, l !! i = Some x -> worker_of case count i x | _ => True end) w).
  { induction n as [|n IH]; intros a workers w0 Ha Hw; cbn [seq for_each]; [by apply wp_ret; split; [lia|]|].
    apply wp_bind. unfold body at 1. apply wp_try_except, wp_bind.
    eapply wp_mono; [apply worker_start_spec|]. intros [x|e|] w1; [| |done].
    - intros [Hx1 Hx2]. apply wp_ret. eapply wp_mono; [apply IH|].
      + rewrite length_app. cbn. lia.
      + intros i y [Hy|[Hi Hy]]%lookup_app_Some; [by apply Hw|]. apply list_lookup_singleton_Some in Hy as [Hi0 <-].
        replace i with a by lia. by split.
      + intros [l|e|] w2; [|done..]. intros [Hl Hf]. split; [lia|done].
    - intros _. apply wp_bind, wp_any. intros [[]|e'|] w2; [by apply wp_throw|done..]. }
  eapply wp_mono; [apply (Hstart _ 0%nat []); [done|intros i x Hx; by rewrite lookup_nil in Hx]|].
  intros [workers|e|] w1; [|done..]. intros [Hlen Hw]. apply wp_bind, wp_any. intros [now|e|] w2; [|done..].
  cbn zeta. set (run := fun x raw => _).
  assert (Hrun : forall l a raw w, (forall i x, l !! i = Some x -> worker_of case count (a + i) x) ->
    wp (for_each l run raw)
       (fun r (_ : W) => match r with
          | Ok raw' => exists parts, raw' = raw ++ concat parts /\ length parts = length l /\
              forall i xs, parts !! i = Some xs -> exists ops, client_workload case count (Z.of_nat (a + i)) = Ok ops /\ ran (Z.of_nat (a + i)) 0 ops xs
          | _ => True end) w).
  { induction l as [|[[index db] ops] l IH]; intros a raw w0 Hl; cbn [for_each].
    { apply wp_ret. exists []. split; [by rewrite app_nil_r|]. split; [done|]. intros i xs Hx. by rewrite lookup_nil in Hx. }
    destruct (Hl 0%nat _ eq_refl) as [Hi Ho]. cbn [fst snd] in Hi, Ho. rewrite Nat.add_0_r in Hi, Ho.
    apply wp_bind. unfold run at 1. apply wp_try_finally. eapply wp_mono; [apply worker_ops_spec|].
    intros [raw1|e|] w3; [|intros _; apply wp_any; by intros [[]|?|]|done]. intros (xs & -> & Hr).
    apply wp_any. intros [[]|e|] w4; [|done..]. eapply wp_mono; [apply (IH (S a))|].
    - intros i x Hx. replace (S a + i)%nat with (a + S i)%nat by lia. by apply Hl.
    - intros [raw'|e|] w5; [|done..]. intros (parts & -> & Hp & Hf). exists (xs :: parts).
      cbn [concat length]. rewrite app_assoc. split; [done|]. split; [by rewrite Hp|]. intros [|i] ys Hy.
      + cbn in Hy. injection Hy as <-. exists ops. rewrite Nat.add_0_r, <-Hi. rewrite <-Hi in Ho. done.
      + replace (a + S i)%nat with (S a + i)%nat by lia. by apply Hf. }
  eapply wp_mono; [apply (Hrun workers 0%nat [])|]; [done|].
  intros [raw|e|] w3; [|done..]. intros (parts & -> & Hp & Hf). exists parts. split; [done|]. split; [lia|done].
Qed.
End Measure.

(** ** Counting *)

Lemma count_if_bounds {A} (f : A -> bool) l : 0 <= count_if f l <= zlen l.
Proof. induction l as [|x l IH]; [done|]. rewrite count_if_cons, zlen_cons. destruct (f x); lia. Qed.

Lemma count_if_negb {A} (f : A -> bool) l : count_if (fun x => negb (f x)) l + count_if f l = zlen l.
Proof. induction l as [|x l IH]; [done|]. rewrite !count_if_cons, zlen_cons. destruct (f x); cbn [negb]; lia. Qed.

Lemma ran_spec index number ops xs :
  ran index number ops xs ->
  zlen xs <= zlen ops /\ (count_if is_error xs = 0 -> zlen xs = zlen ops /\ count_if x_write xs = writes_in ops) /\
  (0 < count_if is_error xs -> 0 < zlen ops /\ count_if (fun x => negb (is_error x)) xs < zlen ops).
Proof.
  revert number xs. induction ops as [|op ops IH]; intros number [|x xs]; cbn [ran]; try done.
  unfold writes_in in *. rewrite !count_if_cons, !zlen_cons. intros (_ & _ & Hw & Hr). pose proof (zlen_nonneg ops).
  destruct (is_error x); cbn [negb].
  - subst xs. change (zlen []) with 0. change (count_if is_error []) with 0. change (count_if (fun x => negb (is_error x)) []) with 0. lia.
  - destruct (IH _ _ Hr) as (H1 & H2 & H3). rewrite Hw. pose proof (count_if_bounds is_error xs).
    split; [lia|]. split; intros Hc; [destruct H2 as [H2 H4]; [lia|]; rewrite H4; lia|]. destruct H3; lia.
Qed.

(** The operations of every client. *)
Definition planned (case : Case) (count : nat) (plans : list (list (bool * pystr))) : Prop :=
  zlen plans = k_clients case /\ forall i ops, plans !! i = Some ops -> client_workload case count (Z.of_nat i) = Ok ops.

Lemma concat_counts case count n raw :
  0 < k_rows case -> sampled case count n raw ->
  let completed := count_if (fun x => negb (is_error x)) raw in
  zlen raw <= Z.of_nat count * Z.of_nat n /\
  (count_if is_error raw = 0 -> completed = Z.of_nat count * Z.of_nat n /\
     exists plans, length plans = n /\ (forall i ops, plans !! i = Some ops -> client_workload case count (Z.of_nat i) = Ok ops) /\
                   count_if x_write raw = writes_in (concat plans)) /\
  (0 < count_if is_error raw -> completed < Z.of_nat count * Z.of_nat n).
Proof.
  intros Hrows (parts & -> & Hn & Hparts). cbn zeta.
  enough (Hg : forall a, (forall i xs, parts !! i = Some xs -> exists ops, client_workload case count (Z.of_nat (a + i)) = Ok ops /\ ran (Z.of_nat (a + i)) 0 ops xs) ->
    zlen (concat parts) <= Z.of_nat count * Z.of_nat (length parts) /\
    (count_if is_error (concat parts) = 0 -> count_if (fun x => negb (is_error x)) (concat parts) = Z.of_nat count * Z.of_nat (length parts) /\
       exists plans, length plans = length parts /\ (forall i ops, plans !! i = Some ops -> client_workload case count (Z.of_nat (a + i)) = Ok ops) /\
                     count_if x_write (concat parts) = writes_in (concat plans)) /\
    (0 < count_if is_error (concat parts) -> count_if (fun x => negb (is_error x)) (concat parts) < Z.of_nat count * Z.of_nat (length parts))).
  { rewrite Hn in Hg. by apply (Hg 0%nat). }
  clear Hn n Hparts. induction parts as [|xs parts IH]; intros a Hparts; cbn [concat length].
  { rewrite Z.mul_0_r. change (count_if is_error []) with 0. split; [done|]. split; [|lia]. intros _. split; [done|]. exists []. split; [done|].
    split; [intros i ops Hi; by rewrite lookup_nil in Hi|done]. }
  destruct (Hparts 0%nat xs eq_refl) as (ops & Hops & Hr). rewrite Nat.add_0_r in Hops, Hr.
  destruct (workload_drawn _ _ _ _ _ _ _ _ Hrows Hops) as [Hlen _]. apply ran_spec in Hr as (R1 & R2 & R3).
  destruct (IH (S a)) as (I1 & I2 & I3).
  { intros i ys Hy. replace (S a + i)%nat with (a + S i)%nat by lia. by apply Hparts. }
  assert (Hz : zlen ops = Z.of_nat count) by (unfold zlen; by rewrite Hlen). rewrite Hz in R1, R2, R3.
  rewrite !count_if_app, zlen_app. pose proof (count_if_bounds is_error xs). pose proof (count_if_bounds is_error (concat parts)).
  pose proof (count_if_negb is_error xs). pose proof (count_if_negb is_error (concat parts)).
  split; [lia|]. split.
  - intros Hc. destruct R2 as [R2 R4]; [lia|]. destruct I2 as (I2 & plans & P1 & P2 & P3); [lia|].
    split; [lia|]. exists (ops :: plans). cbn [length concat]. split; [by rewrite P1|]. split.
    + intros [|i] ops' Hi; [injection Hi as <-; by rewrite Nat.add_0_r|]. replace (a + S i)%nat with (S a + i)%nat by lia. by apply P2.
    + unfold writes_in in *. rewrite count_if_app, R4, P3. done.
  - intros Hc. assert (count_if is_error xs = 0 \/ 0 < count_if is_error xs) as [He|He] by lia.
    + assert (0 < count_if is_error (concat parts)) as Hd by lia. specialize (I3 Hd). lia.
    + specialize (R3 He). lia.
Qed.

(** The ranges all clients update. *)
Definition all_drawn (case : Case) (count : nat) (ranges : list (list (Z * Z))) : Prop :=
  exists plans, planned case count plans /\ Forall2 (drawn (k_payload case) (k_statements case) (k_rows case)) (concat plans) ranges.

Lemma planned_unique case count plans plans' : planned case count plans -> planned case count plans' -> plans = plans'.
Proof.
  intros [Hl Hp] [Hl' Hp']. apply list_eq_same_length with (length plans); unfold zlen in *; [lia|done|].
  intros i ops ops' _ Ho%Hp Ho'%Hp'. congruence.
Qed.

Lemma plans_drawn case count plans :
  0 < k_rows case -> (forall i ops, plans !! i = Some ops -> client_workload case count (Z.of_nat i) = Ok ops) ->
  exists ranges, Forall2 (drawn (k_payload case) (k_statements case) (k_rows case)) (concat plans) ranges.
Proof.
  intros Hrows Hp. enough (Hg : forall a, (forall i ops, plans !! i = Some ops -> client_workload case count (Z.of_nat (a + i)) = Ok ops) ->
    exists ranges, Forall2 (drawn (k_payload case) (k_statements case) (k_rows case)) (concat plans) ranges) by (by apply (Hg 0%nat)).
  clear Hp. induction plans as [|ops plans IH]; intros a Hp; cbn [concat]; [by exists []|].
  destruct (workload_drawn _ _ _ _ _ _ _ _ Hrows (Hp 0%nat ops eq_refl)) as [_ [r1 H1]].
  destruct (IH (S a)) as [r2 H2]; [|by exists (r1 ++ r2); apply Forall2_app].
  intros i ops' Hi. replace (S a + i)%nat with (a + S i)%nat by lia. by apply Hp.
Qed.

(** C31: a measurement accounts for every operation: invoked operations either
    completed or failed, never more than were offered, and all offered ones
    completed exactly when none failed.  If none failed and the number of rows
    per write divides 1024 (of the parser's choices, any but 3), carrying out
    each client's drawn updates once adds, to any table of the 1024 accounts,
    exactly max(rows, statements) per write sampled: the figure that
    calibrate_native_mixed.py and sqlite_reference_worker.py compare with
    sum(balance).  With three rows per write it does not (the example
    [rows_past_table]). *)
Theorem measure_exact {W} `{Host W} (factory : Z -> Hm (W := W) (Target W)) (case : Case) (count : nat) (w : W) :
  0 < k_statements case -> 0 < k_rows case -> 0 <= k_clients case ->
  wp (measure factory case count) (fun r _ => forall m, r = Ok m ->
    m_offered m = Z.of_nat count * k_clients case /\
    m_completed m + m_errors m = m_invoked m /\ m_invoked m <= m_offered m /\
    (m_completed m = m_offered m <-> m_errors m = 0) /\
    (m_errors m = 0 -> (k_rows case | 1024) -> (exists ranges, all_drawn case count ranges) /\
       forall ranges balance, all_drawn case count ranges ->
         total (credits (concat ranges) balance) = total balance + Z.max (k_rows case) (k_statements case) * writes_of (m_raw m))) w.
Proof.
  intros Hs Hrows Hc. unfold measure. apply wp_bind. eapply wp_mono; [apply measure_raw_spec|].
  intros [raw|e|] w1 Hraw; [|done..]. apply wp_lift. intros m Hm.
  destruct (concat_counts case count _ raw Hrows Hraw) as (H1 & H2 & H3). rewrite Z2Nat.id in H1, H2, H3 by done.
  assert (Hf : m_raw m = raw /\ m_offered m = Z.of_nat count * k_clients case /\ m_invoked m = zlen raw /\
               m_completed m = count_if (fun x => negb (is_error x)) raw /\ m_errors m = count_if is_error raw).
  { unfold measured in Hm. destruct raw as [|x l]; [done|]. apply res_bind_Ok in Hm as (reads & _ & Hm). apply res_bind_Ok in Hm as (writes & _ & Hm).
    apply res_bind_Ok in Hm as (u & _ & Hm). injection Hm as <-. done. }
  destruct Hf as (-> & -> & -> & -> & ->). pose proof (count_if_negb is_error raw). pose proof (count_if_bounds is_error raw).
  split; [done|]. split; [lia|]. split; [lia|]. split.
  - split; [intros He|intros He; by apply H2]. assert (~ 0 < count_if is_error raw); [|lia]. intros Hp. specialize (H3 Hp). lia.
  - intros He Hdiv. destruct (H2 He) as (_ & plans & P1 & P2 & P3). destruct (plans_drawn case count plans Hrows P2) as [ranges Hr].
    assert (Hplan : planned case count plans) by (split; [unfold zlen; lia|done]). split; [by exists ranges, plans|].
    intros ranges' balance (plans' & Hplan' & Hr'). rewrite (planned_unique _ _ _ _ Hplan' Hplan) in Hr'.
    unfold writes_of. rewrite P3. by eapply drawn_total.
Qed.

(** C32: the latencies a measurement reports, read and write apart, are nearest
    ranks of the samples in whatever order the clients' threads recorded them:
    at least half (99%) of the samples took at most the p50 (p99) reported and
    fewer than that took less; the float product math.ceil(.99*n) is exact for
    every campaign of fewer than 2^40 operations. *)
Theorem latencies_nearest (case : Case) (count : nat) (raw : list Sample) (m : Measurement) :
  measured case count raw = Ok m -> zlen raw < 2 ^ 40 ->
  forall write, match if (write : bool) then m_write m else m_read m with
    | None => latencies write raw = []
    | Some l => l_count l = zlen (latencies write raw) /\ nearest 50 (latencies write raw) (l_p50 l) /\ nearest 99 (latencies write raw) (l_p99 l)
    end.
Proof.
  intros Hm Hlen write.
  assert (Hl : latency write raw = Ok (if write then m_write m else m_read m)).
  { unfold measured in Hm. destruct raw as [|x l]; [done|]. apply res_bind_Ok in Hm as (reads & Hr & Hm). apply res_bind_Ok in Hm as (writes & Hw & Hm).
    apply res_bind_Ok in Hm as (u & _ & Hm). injection Hm as <-. by destruct write. }
  assert (Hn : zlen (latencies write raw) <= zlen raw).
  { unfold latencies, zlen. rewrite length_fmap. pose proof (length_filter (fun x => x_write x = write) raw). lia. }
  revert Hl. unfold latency. destruct (latencies write raw) as [|v l] eqn:E; [intros [= <-]; done|]. rewrite <-E in *.
  destruct (percentiles_nearest (latencies write raw)) as (a & b & Ha & Hb & Na & Nb); [by rewrite E|lia|].
  rewrite Ha, Hb. cbn [res_bind]. intros [= <-]. done.
Qed.

(** ** A campaign by evaluation *)
Module MixedDemo.
(** A clock that advances by a millisecond at each look, and a database whose
    every statement succeeds. *)
#[local] Instance demo_host : Host Q := quiet_host (fun w => (w, Qred (w + (1 # 1000)))) (fun d w => Qred (w + d)) (fun _ => None) true.
Definition demo_factory (i : Z) : Hm (W := Q) (Target Q) := ret (mkTarget (Reference (fun _ _ => ret tt)) (ret tt)).
Definition demo_case : Case := mkCase 1 50 256 4 2 false 20260925 0.
Definition demo_run : res exn Measurement * Q := Eval vm_compute in measure demo_factory demo_case 3 0%Q.

Example demo_counts :
  match demo_run.1 with
  | Ok m => (m_offered m, m_invoked m, m_completed m, m_errors m, writes_of (m_raw m), l_count <$> m_read m) = (3, 3, 3, 0, 2, Some 1)
  | _ => False
  end.
Proof. vm_compute. reflexivity. Qed.

(** Two of the drawn operations, as the interpreter draws them. *)
Example demo_workload :
  match workload 20260925 2 50 256 4 2 false with Ok l => l | _ => [] end =
  [(false, py "SELECT id,balance,length(payload) FROM account WHERE id=674"); 
    (true, py "UPDATE account SET balance=balance+1,payload=zeroblob(256) WHERE id>=240 AND id<241;UPDATE account SET balance=balance+1,payload=zeroblob(256) WHERE id>=240 AND id<241;UPDATE account SET balance=balance+1,payload=zeroblob(256) WHERE id>=241 AND id<242;UPDATE account SET balance=balance+1,payload=zeroblob(256) WHERE id>=241 AND id<242")].
Proof. vm_compute. reflexivity. Qed.

(** Three rows per write do not fit the table: a key of 1023 updates one row. *)
Example rows_past_table : total (credits (pieces 1023 1 3) (fun _ => 0)) = 1.
Proof. vm_compute. reflexivity. Qed.

Lemma measure_exact_witness :
  match demo_run.1 with
  | Ok m => m_completed m = m_offered m /\ (exists ranges, all_drawn demo_case 3 ranges) /\
      forall ranges balance, all_drawn demo_case 3 ranges -> total (credits (concat ranges) balance) = total balance + 4 * writes_of (m_raw m)
  | _ => False
  end.
Proof.
  assert (Hd : (2 | 1024)) by (exists 512; reflexivity).
  pose proof (measure_exact demo_factory demo_case 3 0%Q eq_refl eq_refl (proj1 (Z.leb_le 0 1) eq_refl)) as Hw.
  assert (Hrun : measure demo_factory demo_case 3 0%Q = demo_run) by (vm_compute; reflexivity).
  unfold wp in Hw. rewrite Hrun in Hw. clear Hrun.
  destruct demo_run as [[m| |] w] eqn:E; [|discriminate E..].
  destruct (Hw m eq_refl) as (_ & _ & _ & H1 & H2).
  assert (He : m_errors m = 0) by (injection E as <- <-; reflexivity).
  split; [by apply H1|]. exact (H2 He Hd).
Defined.

Lemma latencies_nearest_witness :
  match demo_run.1 with
  | Ok m => exists l, m_write m = Some l /\ nearest 99 (latencies true (m_raw m)) (l_p99 l)
  | _ => False
  end.
Proof.
  cbn [demo_run fst].
  match goal with |- exists l, m_write ?m = _ /\ _ =>
    destruct (latencies_nearest demo_case 3 (m_raw m) m eq_refl (eq_refl Lt) true) as (_ & _ & Hn) end.
  eexists. split; [reflexivity|exact Hn].
Defined.
End MixedDemo.
