(* ===== verification/Returns.v ===== *)
(** * What an operation returns, whatever its state

    [returns m P] is partial correctness with the state abstracted away: if [m]
    returns a value, [P] holds of it.  It is how the scripts' checks are turned
    into facts, and composes along the monad without mentioning the voters or
    the host. *)

From Stdlib Require Import QArith.
From S2P Require Import Prelude PyStr PyFloat Objects Json Vector Text Parameters Results Net Client ClientProofs Dict Host Random Script Service ServiceChecks.
#[local] Open Scope Z_scope.

Definition returns {E S A} (m : M E S A) (P : A -> Prop) : Prop := forall s, wp m (fun r _ => forall a, r = Ok a -> P a) s.

Section Returns.
Context {E S : Type}.

Lemma returns_any {A} (m : M E S A) : returns m (fun _ => True).
Proof. intros s. by apply wp_intro. Qed.

(** A returned value is one the operation gives in some state. *)
Lemma returns_run {A} (m : M E S A) : returns m (fun a => exists s s', m s = (Ok a, s')).
Proof. intros s. apply wp_intro. intros r s' Hm a ->. by exists s, s'. Qed.

Lemma returns_ret {A} (a : A) (P : A -> Prop) : P a -> returns (ret a : M E S A) P.
Proof. intros Ha s. apply wp_ret. by intros a' [= <-]. Qed.

Lemma returns_throw {A} (e : E) (P : A -> Prop) : returns (throw e : M E S A) P.
Proof. intros s. by apply wp_throw. Qed.

Lemma returns_lift {A} (r : res E A) (P : A -> Prop) : (forall a, r = Ok a -> P a) -> returns (lift r : M E S A) P.
Proof. intros Hr s. by apply wp_lift. Qed.

Lemma returns_bind {A B} (P : A -> Prop) (m : M E S A) (f : A -> M E S B) (Q : B -> Prop) :
  returns m P -> (forall a, P a -> returns (f a) Q) -> returns (bind m f) Q.
Proof.
  intros Hm Hf s. apply wp_bind. eapply wp_mono; [apply Hm|]. intros [a|e|] s' Ha; [|done..]. by apply Hf, Ha.
Qed.

(** A step whose result does not matter. *)
Lemma returns_then {A B} (m : M E S A) (f : A -> M E S B) (Q : B -> Prop) : (forall a, returns (f a) Q) -> returns (bind m f) Q.
Proof. intros Hf. eapply returns_bind; [apply returns_any|]. intros a _. apply Hf. Qed.

Lemma returns_mono {A} (m : M E S A) (P Q : A -> Prop) : returns m P -> (forall a, P a -> Q a) -> returns m Q.
Proof. intros Hm HPQ s. eapply wp_mono; [apply Hm|]. intros r s' Hr a Ha. auto. Qed.

Lemma returns_finally {A} (m : M E S A) f (P : A -> Prop) : returns m P -> returns (try_finally m f) P.
Proof.
  intros Hm s. apply wp_try_finally. eapply wp_mono; [apply Hm|]. intros [a|e|] s' Ha; [| |done];
    apply wp_intro; intros [u|e'|] s2 _ a' Ha'; try done. by apply Ha.
Qed.

(** A handler returns what its body may. *)
Lemma returns_except {A} (m : M E S A) h (P : A -> Prop) :
  returns m P -> (forall e k, h e = Some k -> returns k P) -> returns (try_except m h) P.
Proof.
  intros Hm Hh s. apply wp_try_except. eapply wp_mono; [apply Hm|]. intros [a|e|] s' Ha; [done| |done].
  destruct (h e) as [k|] eqn:E1; [|done]. by apply (Hh e).
Qed.

(** A loop over a list: [I] holds of the elements done and the accumulator. *)
Lemma returns_for_each {A B} (I : list A -> B -> Prop) l (body : A -> B -> M E S B) acc (Q : B -> Prop) :
  I [] acc -> (forall pre x acc, I pre acc -> returns (body x acc) (I (pre ++ [x]))) -> (forall acc, I l acc -> Q acc) ->
  returns (for_each l body acc) Q.
Proof.
  intros H0 Hb HQ.
  enough (Hg : forall l' pre acc, pre ++ l' = l -> I pre acc -> returns (for_each l' body acc) Q) by (by apply (Hg l [])).
  induction l' as [|x l' IH]; intros pre acc' Hl HI; cbn [for_each].
  - rewrite app_nil_r in Hl. subst pre. apply returns_ret. auto.
  - eapply returns_bind; [by apply Hb|]. intros acc2 HI2. apply (IH (pre ++ [x])); [by rewrite <-app_assoc|done].
Qed.

Lemma returns_for_do {A} (P : A -> Prop) l (body : A -> M E S unit) :
  (forall x, x ∈ l -> returns (body x) (fun _ => P x)) -> returns (for_do l body) (fun _ => Forall P l).
Proof.
  induction l as [|x l IH]; intros Hb; cbn [for_do]; [by apply returns_ret; constructor|].
  eapply returns_bind; [apply Hb; by left|]. cbv beta. intros u Hx. eapply returns_mono; [apply IH|].
  - intros y Hy. apply Hb. by right.
  - cbv beta. intros u' Hl. by constructor.
Qed.

(** A loop that ends did so from its body's last round; [I] holds of every
    accumulator. *)
Lemma returns_while {A} (I : A -> Prop) fuel (body : A -> M E S (A + A)) acc (Q : A -> Prop) :
  I acc -> (forall acc, I acc -> returns (body acc) (fun r => match r with inl a => I a | inr a => Q a end)) ->
  returns (while_loop fuel body acc) Q.
Proof.
  revert acc. induction fuel as [|fuel IH]; intros acc HI Hb; cbn [while_loop]; [by apply returns_lift|].
  eapply returns_bind; [by apply Hb|]. intros [a|a] Ha; [by apply IH|by apply returns_ret].
Qed.

(** The rule for [while]: [I] holds at the start of every round. *)
Lemma wp_while {A} (I : A -> S -> Prop) (Q : res E A -> S -> Prop) fuel (body : A -> M E S (A + A)) acc s :
  I acc s ->
  (forall acc s, I acc s ->
     wp (body acc) (fun r s' => match r with
        | Ok (inl a) => I a s' | Ok (inr a) => Q (Ok a) s' | Raise e => Q (Raise e) s' | OutOfFuel => Q OutOfFuel s' end) s) ->
  (forall acc s, I acc s -> Q OutOfFuel s) ->
  wp (while_loop fuel body acc) Q s.
Proof.
  intros HI Hb HF. revert acc s HI. induction fuel as [|fuel IH]; intros acc s HI; cbn [while_loop]; [by eapply wp_lift, HF|].
  apply wp_bind. eapply wp_mono; [apply Hb, HI|]. intros [[a|a]|e|] s' Ha; [by apply IH|by apply wp_ret|done..].
Qed.

Lemma returns_check (b : bool) (e : E) : returns (lift (guard b e) : M E S unit) (fun _ => b = false).
Proof. apply returns_lift. intros u Hu. by apply guard_Ok in Hu. Qed.
End Returns.

Lemma returns_check_that {S} (b : bool) : returns (check_that b : M exn S unit) (fun _ => b = true).
Proof. eapply returns_mono; [apply returns_check|]. intros ? Hb. by apply negb_false_iff. Qed.

Lemma returns_wp {E S A} (m : M E S A) (P : A -> Prop) s : returns m P -> wp m (fun r _ => forall a, r = Ok a -> P a) s.
Proof. intros Hm. apply Hm. Qed.

(** ** Scripts and connections *)

Section Connections.
Context {W : Type} `{Probes W}.

Lemma returns_base {A} (m : Hm (W := W) A) (P : A -> Prop) : returns m P -> returns (base m) P.
Proof.
  intros Hm s. unfold wp, base. specialize (Hm s.2). unfold wp in Hm. destruct (m s.2) as [r w]. exact Hm.
Qed.

Lemma returns_host {R A} (m : Hm (W := W) A) (P : A -> Prop) : returns m P -> returns (on_host m : Sc R A) P.
Proof. intros Hm s. apply wp_on_host. eapply wp_mono; [apply Hm|]. done. Qed.

Lemma returns_v {A} (m : V (W := W) A) (P : A -> Prop) : returns m P -> returns (v m) P.
Proof. intros Hm s. apply wp_on_host. eapply wp_mono; [apply Hm|]. done. Qed.

Lemma returns_call {A} h (op : C W A) (P : A -> Prop) : returns op P -> returns (call h op) P.
Proof.
  intros Ho [c w]. unfold wp, call. cbn [fst snd]. destruct (n_conns c !! h) as [conn|]; [|done].
  specialize (Ho (conn, w)). unfold wp in Ho. destruct (op (conn, w)) as [r [conn' w']]. exact Ho.
Qed.

Lemma returns_with_conn {A} nodes timeout pending (body : nat -> V (W := W) A) (P : A -> Prop) :
  (forall h, returns (body h) P) -> returns (with_conn nodes timeout pending body) P.
Proof. intros Hb. apply returns_then. intros h. apply returns_finally, Hb. Qed.

(** [assert db.query(...).scalar() == n] on a fact about what scalars return. *)
Lemma returns_expect_scalar h sql ps n (P : pyval -> Prop) (Q : Prop) :
  returns (db_scalar (W := W) h sql ps) P -> (forall v, P v -> eq_int v n = true -> Q) -> returns (expect_scalar h sql ps n) (fun _ => Q).
Proof.
  intros Hs Hq. eapply returns_bind; [exact Hs|]. intros v Hv. eapply returns_mono; [apply returns_check_that|]. intros ? He. eauto.
Qed.

(** A query's rows are decoded from a reply to the request it sent. *)
Definition query_reply (sql : pystr) (ps : list pyval) (rows : Rows) : Prop :=
  exists tv params e q t (w0 : W) resp (w1 : W),
    prepare (PStr sql) (PList ps) 0 = Ok tv /\ encode_all tv.2 = Ok params /\
    exchange e q t w0 = (Ok resp, w1) /\ dict_get (py "op") q = Some (PStr (py "query")) /\
    dict_get (py "sql") q = Some (PStr tv.1) /\ dict_get (py "parameters") q = Some (PList params) /\
    decode_rows resp = Ok rows.

Lemma malformed_Ok {A} m (r : pyres A) a : malformed m r = Ok a -> r = Ok a.
Proof. destruct r as [x|e|]; cbn; [done| |done]. by destruct (_ || _). Qed.

Lemma returns_query sql ps consistency : returns (query (W := W) (PStr sql) (PList ps) consistency) (query_reply sql ps).
Proof.
  intros s. unfold query. apply wp_bind, wp_lift. destruct (guard _ _); [|done..]. apply wp_bind, wp_lift.
  destruct (prepare (PStr sql) (PList ps) 0) as [tv|e|] eqn:Hp; [|done..]. apply wp_with_lock.
  apply wp_bind, wp_intro. intros [u1|e|] [c1 w1] _; [|done..]. apply wp_bind, wp_lift.
  destruct (encode_all tv.2) as [params|e|] eqn:He; [|done..]. apply wp_bind, wp_bind.
  eapply wp_mono; [apply (call_world (fun _ : W => True)); done|]. intros [resp|e|] s2; [|done..].
  intros [_ (e0 & q & t & w0 & Hq & _ & Hx)]. apply wp_bind, wp_lift. destruct (_raise_query resp) as [u2|e|]; [|done..].
  apply wp_ret, wp_lift. destruct (malformed _ _) as [rows|e|] eqn:Hm; [|done..]. intros rows' [= <-]. apply malformed_Ok in Hm.
  exists tv, params, e0, q, t, w0, resp, s2.2. split_and!; try done.
  all: rewrite Hq by py_neq; rewrite dict_get_stamp by py_neq; done.
Qed.

(** A value the service gives for a query, whenever it answers one. *)
Definition service_scalar (sql : pystr) (ps : list pyval) (P : pyval -> Prop) : Prop :=
  forall rows v, query_reply sql ps rows -> scalar rows = Ok v -> P v.

Lemma returns_scalar h sql ps P : service_scalar sql ps P -> returns (db_scalar (W := W) h sql ps) P.
Proof.
  intros HP. eapply returns_bind; [apply returns_call, returns_query|]. intros rows Hr. apply returns_lift. intros v Hv. by eapply HP.
Qed.
End Connections.

(** The last update of a key. *)
Lemma rget_rupdate_at k v before after r :
  forallb (fun '(k', _) => negb (pyeqb (py k') (py k))) after = true -> rget k (rupdate (before ++ (k, v) :: after) r) = Some v.
Proof.
  intros Hk. unfold rupdate. rewrite foldl_app. cbn [foldl]. fold (rupdate after (dset (py k) v (foldl (fun r '(k, v) => dset (py k) v r) r before))).
  rewrite rget_rupdate_other by done. exact (rget_rset k v _).
Qed.

(** ** What a computation keeps of its state

    [stays I m]: whatever the outcome, [m] leaves [I] true of the state. *)

Section KeepsState.
Context {E S : Type} (I : S -> Prop).

Definition stays {A} (m : M E S A) : Prop := forall s, I s -> wp m (fun _ s' => I s') s.

Lemma stays_bind {A B} (m : M E S A) (f : A -> M E S B) : stays m -> (forall a, stays (f a)) -> stays (bind m f).
Proof. intros Hm Hf s Hs. apply wp_bind. eapply wp_mono; [by apply Hm|]. intros [a|e|] s1 H1; [by apply Hf|done..]. Qed.
Lemma stays_ret {A} (a : A) : stays (ret a).
Proof. intros s Hs. by apply wp_ret. Qed.
Lemma stays_throw {A} (e : E) : stays (throw e : M E S A).
Proof. intros s Hs. by apply wp_throw. Qed.
Lemma stays_lift {A} (r : res E A) : stays (lift r).
Proof. intros s Hs. by apply wp_lift. Qed.
Lemma stays_gets {A} (f : S -> A) : stays (gets f).
Proof. intros s Hs. by apply wp_gets. Qed.
Lemma stays_except {A} (m : M E S A) h : stays m -> (forall e k, h e = Some k -> stays k) -> stays (try_except m h).
Proof.
  intros Hm Hh s Hs. apply wp_try_except. eapply wp_mono; [by apply Hm|]. intros [a|e|] s1 H1; [done| |done].
  destruct (h e) as [k|] eqn:Ek; [|done]. by apply (Hh e).
Qed.
Lemma stays_finally {A} (m : M E S A) f : stays m -> stays f -> stays (try_finally m f).
Proof.
  intros Hm Hf s Hs. apply wp_try_finally. eapply wp_mono; [by apply Hm|]. intros [a|e|] s1 H1; [| |done];
    (eapply wp_mono; [by apply Hf|]); by intros [?|?|] s2 H2.
Qed.
Lemma stays_for_do {A} (l : list A) (body : A -> M E S unit) : (forall x, x ∈ l -> stays (body x)) -> stays (for_do l body).
Proof.
  induction l as [|x l IH]; intros Hb; cbn [for_do]; [apply stays_ret|].
  apply stays_bind; [apply Hb; left|intros _; apply IH; intros y Hy; apply Hb; by right].
Qed.
Lemma stays_for_each {A B} (l : list A) (body : A -> B -> M E S B) acc : (forall x b, stays (body x b)) -> stays (for_each l body acc).
Proof.
  intros Hb. revert acc. induction l as [|x l IH]; intros acc; cbn [for_each]; [apply stays_ret|apply stays_bind; [apply Hb|intros b; apply IH]].
Qed.
(** A step that is known to have returned a fact. *)
Lemma stays_value {A B} (F : A -> Prop) (m : M E S A) (f : A -> M E S B) :
  stays m -> returns m F -> (forall a, F a -> stays (f a)) -> stays (bind m f).
Proof.
  intros Hm HF Hf s Hs. apply wp_bind. eapply wp_mono; [apply wp_and; [by apply Hm|apply HF]|]. intros [a|e|] s1 [H1 H2]; [by apply Hf; [apply H2|]|done..].
Qed.
End KeepsState.

(** ** What a script keeps of its report

    [preserves I m]: whatever the outcome, [m] leaves [I] true of what the script
    holds next to its host, if it was true before. *)

Section Keeps.
Context {W : Type} `{Host W} {R : Type} (I : R -> Prop).

Definition preserves {A} (m : Sc (W := W) R A) : Prop := forall s : R * W, I s.1 -> wp m (fun _ s' => I s'.1) s.

Lemma preserves_bind {A B} (m : Sc R A) (f : A -> Sc R B) : preserves m -> (forall a, preserves (f a)) -> preserves (bind m f).
Proof.
  intros Hm Hf s Hs. apply wp_bind. eapply wp_mono; [by apply Hm|]. intros [a|e|] s1 H1; [by apply Hf|done..].
Qed.
Lemma preserves_host {A} (m : Hm (W := W) A) : preserves (on_host m).
Proof. intros s Hs. by apply wp_host_step. Qed.
Lemma preserves_ret {A} (a : A) : preserves (ret a).
Proof. intros s Hs. by apply wp_ret. Qed.
Lemma preserves_throw {A} (e : exn) : preserves (throw e : Sc R A).
Proof. intros s Hs. by apply wp_throw. Qed.
Lemma preserves_lift {A} (r : pyres A) : preserves (lift r).
Proof. intros s Hs. by apply wp_lift. Qed.
Lemma preserves_reported : preserves reported.
Proof. intros s Hs. by apply wp_gets. Qed.
Lemma preserves_amend f : (forall r, I r -> I (f r)) -> preserves (amend f).
Proof. intros Hf s Hs. apply wp_amend. by apply Hf. Qed.
Lemma preserves_finally {A} (m : Sc R A) f : preserves m -> preserves f -> preserves (try_finally m f).
Proof.
  intros Hm Hf s Hs. apply wp_try_finally. eapply wp_mono; [by apply Hm|]. intros r s1 H1.
  destruct r; [| |done]; (eapply wp_mono; [by apply Hf|]); intros [?|?|] s2 H2; done.
Qed.
Lemma preserves_except {A} (m : Sc R A) h : preserves m -> (forall e k, h e = Some k -> preserves k) -> preserves (try_except m h).
Proof.
  intros Hm Hh s Hs. apply wp_try_except. eapply wp_mono; [by apply Hm|]. intros [a|e|] s1 H1; [done| |done].
  destruct (h e) as [k|] eqn:E; [|done]. by apply (Hh e).
Qed.
Lemma preserves_for_do {A} (l : list A) (body : A -> Sc R unit) : (forall x, preserves (body x)) -> preserves (for_do l body).
Proof. intros Hb. induction l as [|x l IH]; cbn [for_do]; [apply preserves_ret|apply preserves_bind; [apply Hb|intros _; exact IH]]. Qed.
Lemma preserves_for_each {A B} (l : list A) (body : A -> B -> Sc R B) acc : (forall x b, preserves (body x b)) -> preserves (for_each l body acc).
Proof.
  intros Hb. revert acc. induction l as [|x l IH]; intros acc; cbn [for_each]; [apply preserves_ret|apply preserves_bind; [apply Hb|intros b; apply IH]].
Qed.
Lemma preserves_while {A} fuel (body : A -> Sc R (A + A)) acc : (forall x, preserves (body x)) -> preserves (while_loop fuel body acc).
Proof.
  intros Hb. revert acc. induction fuel as [|fuel IH]; intros acc; cbn [while_loop]; [apply preserves_lift|].
  apply preserves_bind; [apply Hb|]. intros [a|a]; [apply IH|apply preserves_ret].
Qed.
(** What was read is what the rest of the script starts from. *)
Lemma preserves_reading {A} (f : R -> Sc R A) : (forall r, I r -> preserves (f r)) -> preserves (bind reported f).
Proof. intros Hf s Hs. apply wp_bind, wp_gets. by apply Hf. Qed.
End Keeps.

(** ** Steps that only matter when they return

    [leads U P m Q]: from [P], [m] leaves [U] true whatever its outcome, and [Q]
    when it returns. *)

Section Leads.
Context {W : Type} `{Host W} {R : Type} (U : R -> Prop).

Definition leads {A} (P : R -> Prop) (m : Sc (W := W) R A) (Q : R -> Prop) : Prop :=
  forall s : R * W, P s.1 -> wp m (fun r s' => U s'.1 /\ (forall a, r = Ok a -> Q s'.1)) s.

(** What the step returned may be known of its value. *)
Lemma leads_value {A B} (F : A -> Prop) P Q T (m : Sc R A) (f : A -> Sc R B) :
  leads P m Q -> returns m F -> (forall a, F a -> leads Q (f a) T) -> leads P (bind m f) T.
Proof.
  intros Hm HF Hf s Hs. apply wp_bind. eapply wp_mono; [apply wp_and; [by apply Hm|apply HF]|].
  intros [a|e|] s1 [[Hu H1] H2]; [|by split..]. apply Hf; [by apply H2|by apply (H1 a)].
Qed.
Lemma leads_bind {A B} P Q T (m : Sc R A) (f : A -> Sc R B) :
  leads P m Q -> (forall a, leads Q (f a) T) -> leads P (bind m f) T.
Proof. intros Hm Hf. eapply (leads_value (fun _ => True)); [exact Hm|apply returns_any|auto]. Qed.
Lemma leads_preserves {A} P (m : Sc R A) : (forall q, P q -> U q) -> preserves P m -> leads P m P.
Proof. intros HP Hm s Hs. eapply wp_mono; [by apply Hm|]. intros r s' Hs'. split; [by apply HP|done]. Qed.
Lemma leads_weaken {A} P P' Q (m : Sc R A) : (forall q, P q -> P' q) -> leads P' m Q -> leads P m Q.
Proof. intros HP Hm s Hs. by apply Hm, HP. Qed.
(** A step that preserves a stage's predicate, then the rest. *)
Lemma leads_step {A B} P T (m : Sc R A) (f : A -> Sc R B) :
  (forall q, P q -> U q) -> preserves P m -> (forall a, leads P (f a) T) -> leads P (bind m f) T.
Proof. intros HP Hm. by apply leads_bind, leads_preserves. Qed.
(** A loop whose body advances an indexed predicate. *)
Lemma leads_for_do {A} (P : Z -> R -> Prop) (step : Z) (l : list A) (body : A -> Sc R unit) k :
  (forall k q, P k q -> U q) -> (forall x k, leads (P k) (body x) (P (k + step))) -> leads (P k) (for_do l body) (P (k + step * zlen l)).
Proof.
  intros HP Hb. revert k. induction l as [|x l IH]; intros k; cbn [for_do].
  - intros s Hs. apply wp_ret. change (zlen (@nil A)) with 0. rewrite Z.mul_0_r, Z.add_0_r. split; [by eapply HP|done].
  - eapply leads_bind; [apply Hb|]. intros _. replace (k + step * zlen (x :: l)) with (k + step + step * zlen l) by (rewrite zlen_cons; lia). apply IH.
Qed.
(** The same over the elements done. *)
Lemma leads_for_list {A} (P : list A -> R -> Prop) (l : list A) (body : A -> Sc R unit) :
  (forall l q, P l q -> U q) -> (forall pre x, x ∈ l -> leads (P pre) (body x) (P (pre ++ [x]))) -> leads (P []) (for_do l body) (P l).
Proof.
  intros HP Hb. enough (Hg : forall rest pre, pre ++ rest = l -> leads (P pre) (for_do rest body) (P l)) by by apply (Hg l []).
  induction rest as [|x rest IH]; intros pre E; cbn [for_do].
  - rewrite app_nil_r in E. subst pre. intros s Hs. apply wp_ret. split; [by eapply HP|done].
  - eapply leads_bind; [apply Hb; rewrite <-E; apply elem_of_app; right; left|]. intros _. apply IH. by rewrite <-app_assoc.
Qed.
Lemma leads_finally {A} P Q (m : Sc R A) f : leads P m Q -> preserves U f -> preserves Q f -> leads P (try_finally m f) Q.
Proof.
  intros Hm HU HQ s Hs. apply wp_try_finally. eapply wp_mono; [by apply Hm|]. intros [a|e|] s1 [Hu H1]; [| |by split].
  - eapply wp_mono; [apply wp_and; [by apply HU|by apply HQ, (H1 a)]|]. intros [x|e|] s2 [H2 H3]; by split.
  - eapply wp_mono; [by apply HU|]. intros [x|e2|] s2 H2; by split.
Qed.
Lemma leads_recording {A} P Q record (m : Sc R A) :
  leads P m Q -> (forall e q, U q -> U (record e q)) -> leads P (recording record m) Q.
Proof.
  intros Hm HU s Hs. apply wp_recording. eapply wp_mono; [by apply Hm|]. intros [a|e|] s1 [Hu H1]; [by split| |by split].
  split; [by apply HU|done].
Qed.
Lemma leads_amend P Q (f : R -> R) : (forall q, P q -> U (f q) /\ Q (f q)) -> leads P (amend f : Sc (W := W) R unit) Q.
Proof. intros Hf s Hs. apply wp_amend. destruct (Hf _ Hs). by split. Qed.
End Leads.

(** The claim kept on failure may be weakened. *)
Lemma leads_kept {W} `{Host W} {R A} (U V : R -> Prop) P Q (m : Sc (W := W) R A) :
  (forall q, U q -> V q) -> leads U P m Q -> leads V P m Q.
Proof. intros HU Hm s Hs. eapply wp_mono; [by apply Hm|]. intros r s' [Hu Hq]. split; [by apply HU|done]. Qed.

Ltac preserves_auto :=
  repeat lazymatch goal with
  | |- preserves _ (bind _ _) => apply preserves_bind; [|intros ?]
  | |- preserves _ (on_host _) => apply preserves_host
  | |- preserves _ (ret _) => apply preserves_ret
  | |- preserves _ (throw _) => apply preserves_throw
  | |- preserves _ (lift _) => apply preserves_lift
  | |- preserves _ reported => apply preserves_reported
  | |- preserves _ (for_do _ _) => apply preserves_for_do; intros ?
  | |- preserves _ (for_each _ _ _) => apply preserves_for_each; intros ? ?
  | |- preserves _ (while_loop _ _ _) => apply preserves_while; intros ?
  | |- preserves _ (match ?x with _ => _ end) => destruct x
  end.
