(* ===== verification/Resource.v ===== *)
(** * Resource samples and the saturation workers
    (tools/check_resource_load.py: summarize, sample, frame, worker)

    A sample reads every voter's counters from /proc; the summary compares the
    first and the last one and the peaks of each quarter of the campaign. *)

From Stdlib Require Import QArith.
From S2P Require Import Prelude PyStr PyFloat Objects Json Bytes Vector Text Parameters Results Net Client Dict Host Stats Script Service ServiceChecks.
#[local] Open Scope Z_scope.

(** [os.sysconf('SC_CLK_TCK')], [os.sysconf('SC_PAGE_SIZE')] *)
Class Platform := { clk_tck : Z; page_size : Z }.

(** ** sample *)

Record NodeUsage := mkNodeUsage { u_cpu_seconds : Q; u_rss_bytes : Z; u_io : list (pystr * Z) }.
Record Usage := mkUsage { u_time : Q; u_nodes : list (Z * NodeUsage) }.

(** [text.split(sep)] *)
Fixpoint split_on (fuel : nat) (sep s : pystr) : list pystr :=
  match fuel with
  | O => [s]
  | S fuel' =>
      match find_sub sep s with
      | Some (pre, post) => pre :: split_on fuel' sep (drop (length sep) post)
      | None => [s]
      end
  end.
(** [dict(line.split(': ') for line in text.splitlines())] *)
Fixpoint colon_pairs (lines : list pystr) (acc : list (pystr * pystr)) : pyres (list (pystr * pystr)) :=
  match lines with
  | [] => Ok acc
  | line :: lines =>
      match split_on (length line) (py ": ") line with
      | [k; v] => colon_pairs lines (dset k v acc)
      | _ => Raise (ValueError "dictionary update sequence element has the wrong length; 2 is required")
      end
  end.
Definition colon_dict (text : pystr) : pyres (list (pystr * pystr)) := colon_pairs (splitlines text) [].

Section Sample.
Context {W : Type} `{Service W} `{Platform}.

(** The counters of one process. *)
Definition node_usage (stat io : pystr) : pyres NodeUsage :=
  let? rest := after_last 41 stat in
  let fields := words rest in
  let? io := colon_dict io in
  let field i := (let? x := list_index fields i in int_of_text x) in
  let? user := field 11 in
  let? system := field 12 in
  do? guard (clk_tck =? 0) (ZeroDivisionError "division by zero");;
  let? pages := field 21 in
  let? values := try_map (fun '(k, v) => let? n := int_of_text v in Ok (k, n)) io in
  Ok (mkNodeUsage (inject_Z (user + system) / inject_Z clk_tck)%Q (pages * page_size) values).

Definition sample : V (W := W) Usage :=
  let! now := base (io monotonic) in
  let! c := cluster in
  let! nodes := for_each (n_processes c) (fun '(node, pid) nodes =>
    let! stat := base (io_res (h_read_text (fstr [L "/proc/"; D pid; L "/stat"]))) in
    let! io := base (io_res (h_read_text (fstr [L "/proc/"; D pid; L "/io"]))) in
    let! usage := lift (node_usage stat io) in
    ret (dset node usage nodes)) [] in
  ret (mkUsage now nodes).
End Sample.

Definition usage_data (u : NodeUsage) : tv :=
  Obj (fields [("cpu_seconds", Num (u_cpu_seconds u)); ("rss_bytes", tint (u_rss_bytes u));
               ("io", Obj ((fun '(k, n) => (k, tint n)) <$> u_io u))]%string).
Definition sample_report (s : Usage) : tv :=
  Obj (fields [("time", Num (u_time s)); ("nodes", Obj ((fun '(n, u) => (dec n, usage_data u)) <$> u_nodes s))]%string).

(** ** summarize *)

Record Operation := mkOperation { o_kind : string; o_start : Q; o_end : Q; o_target : Z; o_node : Z; o_identity : Z }.

Record KindSummary := mkKindSummary { ks_completed : Z; ks_p99_ms : Q }.
Record NodeSummary := mkNodeSummary { ns_cores : Q; ns_peaks : list Z; ns_io : list (pystr * Z) }.
Record LoadSummary := mkLoadSummary {
  ls_elapsed : Q; ls_per_second : Q; ls_operations : list (string * KindSummary); ls_nodes : list (Z * NodeSummary)
}.

(** [sorted({op['kind'] for op in operations})]: the kinds in the order of
    their names. *)
Definition KINDS : list string := ["limited_read"; "read"; "snapshot"; "write"]%string.
Definition kinds_of (operations : list Operation) : list string :=
  filter (fun k => existsb (fun o => String.eqb (o_kind o) k) operations) KINDS.

Definition summarize_kind (operations : list Operation) (kind : string) : pyres (string * KindSummary) :=
  let durations := (fun o => o_end o - o_start o)%Q <$> filter (fun o => o_kind o = kind) operations in
  let? p99 := nearest_rank FLOAT_99 durations in
  Ok (kind, mkKindSummary (zlen durations) (1000 * p99)%Q).

(** [samples[len*i//4 : len*(i+1)//4] for i in range(4)] *)
Definition quarter {A} (l : list A) (i : Z) : list A :=
  let a := zlen l * i / 4 in
  take (Z.to_nat (zlen l * (i + 1) / 4 - a)) (drop (Z.to_nat a) l).
Definition quarters {A} (l : list A) : list (list A) := quarter l <$> [0; 1; 2; 3].

Definition usage_of (node : Z) (s : Usage) : pyres NodeUsage := dindex node (u_nodes s).
(** [max(values)] *)
Definition max_of (l : list Z) : pyres Z :=
  match l with [] => Raise (ValueError "max() arg is an empty sequence") | x :: l => Ok (foldl Z.max x l) end.
Definition peak (node : Z) (part : list Usage) : pyres Z :=
  let? values := try_map (fun s => let? u := usage_of node s in Ok (u_rss_bytes u)) part in max_of values.

Definition summarize_node (samples : list Usage) (node : Z) : pyres (Z * NodeSummary) :=
  let? first := list_index samples 0 in
  let? last := list_index samples (-1) in
  let? a := usage_of node first in
  let? b := usage_of node last in
  do? guard (Qeq_bool (u_time last - u_time first) 0) (ZeroDivisionError "float division by zero");;
  let? peaks := try_map (peak node) (quarters samples) in
  let? io := try_map (fun '(k, x) => let? y := dindex k (u_io b) in Ok (k, y - x)) (u_io a) in
  Ok (node, mkNodeSummary ((u_cpu_seconds b - u_cpu_seconds a) / (u_time last - u_time first))%Q peaks io).

Definition summarize (started finished : Q) (all : list Operation) (samples : list Usage) : pyres LoadSummary :=
  let elapsed := (finished - started)%Q in
  let operations := filter (fun o => o_kind o <> "snapshot"%string) all in
  let? kinds := try_map (summarize_kind operations) (kinds_of operations) in
  let? nodes := try_map (summarize_node samples) [1; 2; 3] in
  do? guard (Qeq_bool elapsed 0) (ZeroDivisionError "float division by zero");;
  Ok (mkLoadSummary elapsed (inject_Z (zlen operations) / elapsed)%Q kinds nodes).

(** ** frame, worker *)

(** [struct.pack('<I', len(body))+body] *)
Definition frame (request : list (string * pyval)) : pyres (list Z) :=
  let? text := dumps spaced (PDict (mkdict ([("cluster", PStr (py "network-qualification")); ("protocol", PInt 1)]%string ++ request))) in
  match utf8_encode text with
  | Some body => if zlen body <? 4294967296 then Ok (le_pack 4 (zlen body) ++ body) else Raise (OverflowError "argument out of range")
  | None => Raise (ValueError "surrogates not allowed")
  end.

Section Worker.
Context {W : Type} `{Probes W}.
Abbreviation VM := (V (W := W)).

(** One operation of a saturating client. *)
Definition worker_step (h : nat) (identity : Z) (i : Z) : VM string :=
  if i mod 4 =? 0 then
    do! db_execute h (py "UPDATE resource_rows SET value=value+1 WHERE id=?") [PInt identity];;
    ret "write"%string
  else if i mod 4 =? 3 then
    let! raised := try_except (do! db_query h (py "SELECT count(*) FROM seed a,seed b,seed c,seed d") [];; ret None)
                     (fun e => if isinstance e CQueryError then Some (ret (Some (repr_exn e))) else None) in
    match raised with
    | Some text => do! check_that (text_in (py "Query_Limit") text);; ret "limited_read"%string
    | None => throw (AssertionError "Expensive read did not hit its instruction budget")
    end
  else
    do! expect_scalar h (py "SELECT count(*) FROM resource_rows") [] 60;;
    ret "read"%string.

Definition worker (h : nat) (node identity : Z) (operations : nat) (snapshot : bool) : VM (list Operation) :=
  for_each (seq 0 operations) (fun i results =>
    let i := Z.of_nat i in
    let! before := base (io monotonic) in
    let! results :=
      (if snapshot && (i =? 1) then
         let! target := call h request_snapshot in
         let! now := base (io monotonic) in
         ret (results ++ [mkOperation "snapshot" before now target 0 0])
       else ret results) in
    let! kind := worker_step h identity i in
    let! now := base (io monotonic) in
    ret (results ++ [mkOperation kind before now 0 node identity])) [].
End Worker.

(** * What a resource summary holds

    Its quarters are the whole campaign, its percentiles nearest ranks, its
    counts all the operations; and a worker that ends has written as often as
    the campaign expects of it. *)

(** ** Quarters *)

Lemma take_slices {A} (l : list A) a b c :
  (a <= b <= c)%nat -> take (b - a) (drop a l) ++ take (c - b) (drop b l) = take (c - a) (drop a l).
Proof.
  intros Habc. replace (drop b l) with (drop (b - a) (drop a l)) by (rewrite drop_drop; f_equal; lia).
  replace (c - a)%nat with ((b - a) + (c - b))%nat by lia. by rewrite take_take_drop.
Qed.

(** The quarters are consecutive slices, as even as the division allows. *)
Lemma quarters_partition {A} (l : list A) :
  concat (quarters l) = l /\ Forall (fun q => zlen l / 4 <= zlen q <= zlen l / 4 + 1) (quarters l).
Proof.
  unfold quarters, quarter. cbn [fmap list_fmap concat]. cbv zeta. rewrite app_nil_r.
  pose proof (zlen_nonneg l). assert (Hl : Z.of_nat (length l) = zlen l) by done. set (n := zlen l) in *.
  rewrite Z.mul_0_r. change (0 / 4) with 0. change (0 + 1) with 1. change (1 + 1) with 2. change (2 + 1) with 3. change (3 + 1) with 4.
  rewrite (Z.div_mul n 4), Z.mul_1_r by lia.
  assert (H1 : 0 <= n / 4 <= n * 2 / 4) by dlia. assert (H2 : n * 2 / 4 <= n * 3 / 4) by dlia. assert (H3 : n * 3 / 4 <= n) by dlia.
  split.
  - rewrite !Z2Nat.inj_sub by lia. rewrite (take_slices l (Z.to_nat (n * 2 / 4)) (Z.to_nat (n * 3 / 4)) (Z.to_nat n)) by lia.
    rewrite (take_slices l (Z.to_nat (n / 4)) (Z.to_nat (n * 2 / 4)) (Z.to_nat n)) by lia.
    rewrite (take_slices l (Z.to_nat 0) (Z.to_nat (n / 4)) (Z.to_nat n)) by lia. cbn [Z.to_nat]. rewrite drop_0. apply take_ge. lia.
  - repeat constructor; unfold zlen; rewrite length_take, length_drop; dlia.
Qed.

(** ** try_map *)

Lemma try_map_Ok {A B} (f : A -> pyres B) l ys : try_map f l = Ok ys -> Forall2 (fun x y => f x = Ok y) l ys.
Proof.
  revert ys. induction l as [|x l IH]; intros ys; cbn [try_map]; [intros [= <-]; constructor|].
  intros (y & Hy & Hr)%res_bind_Ok. apply res_bind_Ok in Hr as (ys' & Hys & [= <-]). constructor; auto.
Qed.

(** ** The summary *)

Definition taken (operations : list Operation) (kind : string) : list Q :=
  (fun o => o_end o - o_start o)%Q <$> filter (fun o => o_kind o = kind) operations.
Definition measured_kind (o : Operation) : Prop := o_kind o ∈ KINDS.

(** Every operation is of exactly one of the kinds summarised. *)
Lemma kinds_count (operations : list Operation) :
  Forall measured_kind operations ->
  zsum ((fun k => zlen (filter (fun o => o_kind o = k) operations)) <$> kinds_of operations) = zlen operations.
Proof.
  intros Hk. assert (Hall : zsum ((fun k => zlen (filter (fun o => o_kind o = k) operations)) <$> KINDS) = zlen operations).
  { induction Hk as [|o l Ho Hl IH]; [done|]. rewrite zlen_cons, <-IH. unfold measured_kind, KINDS in Ho.
    repeat (apply elem_of_cons in Ho as [Ho|Ho]); [..|by apply elem_of_nil in Ho];
      cbn [fmap list_fmap KINDS zsum foldr]; rewrite !filter_cons, Ho; repeat (case_decide; [try discriminate|try done]); rewrite ?zlen_cons; lia. }
  rewrite <-Hall. unfold kinds_of. clear Hk Hall. generalize KINDS as ks. intros ks. induction ks as [|k ks IH]; [done|].
  rewrite filter_cons. change (zsum (?f <$> k :: ks)) with (f k + zsum (f <$> ks)).
  destruct (decide _) as [E|E]; cbn [fmap list_fmap]; [by rewrite <-IH|].
  rewrite IH, list_filter_none; [done|]. apply Forall_forall. intros o Ho Hok.
  apply E, Is_true_true, existsb_exists. exists o. split; [by apply list_elem_of_In|]. by apply String.eqb_eq.
Qed.

(** A resource summary describes the whole campaign: its per-kind counts add
    up to the operations other than snapshots, its 99th percentiles are nearest
    ranks of those operations' durations, and the four quarters whose peaks it
    reports are consecutive, cover every sample, and differ in size by at most
    one, with one peak each. *)
Theorem summary_exact (started finished : Q) (all : list Operation) (samples : list Usage) (s : LoadSummary) :
  summarize started finished all samples = Ok s -> Forall measured_kind all -> zlen all < 2 ^ 40 ->
  let operations := filter (fun o => o_kind o <> "snapshot"%string) all in
  zsum ((fun '(_, k) => ks_completed k) <$> ls_operations s) = zlen operations /\
  Forall (fun '(kind, k) => exists p99, ks_p99_ms k = (1000 * p99)%Q /\ nearest 99 (taken operations kind) p99) (ls_operations s) /\
  concat (quarters samples) = samples /\
  Forall (fun q => zlen samples / 4 <= zlen q <= zlen samples / 4 + 1) (quarters samples) /\
  Forall (fun '(node, n) => Forall2 (fun q p => peak node q = Ok p) (quarters samples) (ns_peaks n)) (ls_nodes s).
Proof.
  intros Hs Hk Hlen operations. unfold summarize in Hs. fold operations in Hs.
  apply res_bind_Ok in Hs as (kinds & Hkinds & Hs). apply res_bind_Ok in Hs as (nodes & Hnodes & Hs). apply res_bind_Ok in Hs as (u & _ & [= <-]).
  cbn [ls_operations ls_nodes]. apply try_map_Ok in Hkinds, Hnodes.
  assert (Hko : Forall measured_kind operations) by (apply Forall_forall; intros o Ho; apply list_elem_of_filter in Ho as [_ Ho]; rewrite Forall_forall in Hk; auto).
  assert (Hlo : zlen operations <= zlen all) by (unfold operations, zlen; pose proof (length_filter (fun o => o_kind o <> "snapshot"%string) all); lia).
  destruct (quarters_partition samples) as [Hq1 Hq2]. split_and!; [| |done|done|].
  - rewrite <-(kinds_count operations Hko). f_equal. clear Hnodes. induction Hkinds as [|k [kind x] ks xs Hx _ IH]; [done|].
    cbn [fmap list_fmap]. unfold summarize_kind in Hx. apply res_bind_Ok in Hx as (p & _ & [= <- <-]). f_equal; [|exact IH].
    cbn. unfold zlen. by rewrite length_fmap.
  - assert (Hne : Forall (fun k => taken operations k <> []) (kinds_of operations)).
    { apply Forall_forall. intros k Hin. unfold kinds_of in Hin. apply list_elem_of_filter in Hin as [Hb _].
      apply Is_true_true, existsb_exists in Hb as (o & Ho & Heq). apply String.eqb_eq in Heq. unfold taken.
      intros Hnil%fmap_nil_inv. apply (not_elem_of_nil o). rewrite <-Hnil. apply list_elem_of_filter. split; [done|by apply list_elem_of_In]. }
    revert Hne. induction Hkinds as [|k [kind x] ks xs Hx _ IH]; [constructor|]. intros Hne. apply Forall_cons in Hne as [Hk1 Hks].
    constructor; [|by apply IH]. unfold summarize_kind in Hx. fold (taken operations k) in Hx.
    destruct (percentiles_nearest (taken operations k) Hk1) as (a & b & _ & Hb & _ & Nb).
    { unfold taken, zlen. rewrite length_fmap. pose proof (length_filter (fun o => o_kind o = k) operations). unfold zlen in *. lia. }
    rewrite Hb in Hx. cbn in Hx. injection Hx as <- <-. by exists b.
  - clear Hkinds. induction Hnodes as [|n [node x] ns xs Hx _ IH]; [constructor|]. constructor; [|exact IH].
    unfold summarize_node in Hx. repeat (apply res_bind_Ok in Hx as (? & ? & Hx)). injection Hx as <- <-. cbn [ns_peaks]. by apply try_map_Ok.
Qed.

(** ** The worker *)

Section Worker.
Context {W : Type} `{Probes W}.

Definition kind_at (i : Z) : string := if i mod 4 =? 0 then "write" else if i mod 4 =? 3 then "limited_read" else "read".

Lemma worker_step_kind (h : nat) identity i (s : Voters * W) :
  wp (worker_step h identity i) (fun r _ => match r with Ok k => k = kind_at i | _ => True end) s.
Proof.
  unfold worker_step, kind_at. destruct (i mod 4 =? 0); [|destruct (i mod 4 =? 3)].
  - apply wp_bind, wp_intro. intros [r|e|] s1 _; [by apply wp_ret|done..].
  - apply wp_bind, wp_intro. intros [[text|]|e|] s1 _; [|by apply wp_throw|done..].
    apply wp_bind, wp_intro. intros [r|e|] s2 _; [by apply wp_ret|done..].
  - apply wp_bind, wp_intro. intros [r|e|] s1 _; [by apply wp_ret|done..].
Qed.

(** The kinds of the first [n] operations, the snapshot before the second. *)
Definition kinds_until (snapshot : bool) (n : nat) : list string :=
  seq 0 n ≫= (fun i => (if snapshot && (i =? 1)%nat then ["snapshot"%string] else []) ++ [kind_at (Z.of_nat i)]).

Lemma writes_until snapshot n :
  zlen (filter (fun k => k = "write"%string) (kinds_until snapshot n)) = (Z.of_nat n + 3) / 4.
Proof.
  induction n as [|n IH]; [done|]. unfold kinds_until in *. rewrite seq_S, bind_app, filter_app, zlen_app, IH.
  cbn [Nat.add]. change (mbind ?f [n]) with (f n ++ []). cbn beta. rewrite app_nil_r, filter_app, zlen_app.
  assert (H0 : zlen (filter (fun k => k = "write"%string) (if snapshot && (n =? 1)%nat then ["snapshot"%string] else [])) = 0) by (by destruct (_ && _)).
  rewrite H0. unfold kind_at. destruct (Z.of_nat n mod 4 =? 0) eqn:E; [|destruct (Z.of_nat n mod 4 =? 3)]; unbool;
    rewrite filter_cons, filter_nil; (case_decide; [try discriminate|try done]); rewrite ?zlen_cons; change (zlen (@nil string)) with 0; dlia.
Qed.

(** A saturating worker that returns has made its operations in the order
    of its schedule and written (operations + 3) // 4 times, the value the
    campaign then requires of each of the 60 rows on every voter. *)
Theorem worker_writes (h : nat) (node identity : Z) (operations : nat) (snapshot : bool) (s : Voters * W) :
  wp (worker h node identity operations snapshot)
     (fun r _ => forall results, r = Ok results ->
        o_kind <$> results = kinds_until snapshot operations /\
        zlen (filter (fun k => k = "write"%string) (o_kind <$> results)) = (Z.of_nat operations + 3) / 4) s.
Proof.
  enough (Hk : wp (worker h node identity operations snapshot)
     (fun r _ => match r with Ok results => o_kind <$> results = kinds_until snapshot operations | _ => True end) s).
  { eapply wp_mono; [exact Hk|]. intros [l|e|] s' Hl results; [|done..]. intros [= <-]. by rewrite Hl, writes_until. }
  unfold worker. set (body := fun i results => _).
  enough (Hn : forall n a results s, o_kind <$> results = kinds_until snapshot a ->
    wp (for_each (seq a n) body results) (fun r _ => match r with Ok l => o_kind <$> l = kinds_until snapshot (a + n) | _ => True end) s)
    by (by apply (Hn operations 0%nat [])).
  clear s. induction n as [|n IH]; intros a results s Hr; cbn [seq for_each].
  { apply wp_ret. by rewrite Nat.add_0_r. }
  apply wp_bind. unfold body at 1. apply wp_bind, wp_intro. intros [before|e|] s1 _; [|done..]. apply wp_bind.
  eapply wp_mono with (P := fun r _ => match r with
    | Ok l => o_kind <$> l = kinds_until snapshot a ++ (if snapshot && (a =? 1)%nat then ["snapshot"%string] else []) | _ => True end).
  { replace (Z.of_nat a =? 1) with (a =? 1)%nat by (destruct (a =? 1)%nat eqn:E; [apply Nat.eqb_eq in E|apply Nat.eqb_neq in E]; lia).
    destruct (snapshot && (a =? 1)%nat); [|apply wp_ret; by rewrite app_nil_r].
    apply wp_bind, wp_intro. intros [target|e|] s2 _; [|done..]. apply wp_bind, wp_intro. intros [now|e|] s3 _; [|done..].
    apply wp_ret. by rewrite fmap_app, Hr. }
  intros [results1|e|] s2 H1; [|done..]. apply wp_bind. eapply wp_mono; [apply worker_step_kind|].
  intros [kind|e|] s3 Hkind; [|done..]. subst kind. apply wp_bind, wp_intro. intros [now|e|] s4 _; [|done..]. apply wp_ret.
  replace (a + S n)%nat with (S a + n)%nat by lia. apply IH. rewrite fmap_app, H1. unfold kinds_until at 2. rewrite seq_S, bind_app.
  cbn [Nat.add]. change (mbind ?f [a]) with (f a ++ []). cbn beta. by rewrite app_nil_r, <-app_assoc.
Qed.
End Worker.

(** ** A summary by evaluation *)
Module ResourceDemo.
Definition usage (t rss : Z) : Usage := mkUsage (inject_Z t) ((fun n => (n, mkNodeUsage (inject_Z t / 10) rss [(py "wchar", 100 * t)])) <$> [1; 2; 3]).
Definition demo_samples : list Usage := [usage 1 10; usage 2 40; usage 3 20; usage 4 30; usage 5 25].
Definition demo_operations : list Operation :=
  [mkOperation "write" 0 (1 # 2) 0 1 1; mkOperation "snapshot" 0 1 7 1 1; mkOperation "read" 1 (5 # 4) 0 1 1].
Definition demo_summary : pyres LoadSummary := summarize 0 2 demo_operations demo_samples.

Example demo_peaks : ((fun '(n, x) => (n, ns_peaks x)) <$> match demo_summary with Ok s => ls_nodes s | _ => [] end) =
  [(1, [10; 40; 20; 30]); (2, [10; 40; 20; 30]); (3, [10; 40; 20; 30])].
Proof. vm_compute. reflexivity. Qed.

Lemma summary_exact_witness :
  match demo_summary with
  | Ok s => zsum ((fun '(_, k) => ks_completed k) <$> ls_operations s) = 2 /\ concat (quarters demo_samples) = demo_samples
  | _ => False
  end.
Proof.
  destruct demo_summary as [s| |] eqn:E; [|vm_compute in E; discriminate E..].
  destruct (summary_exact 0 2 demo_operations demo_samples s E) as (H1 & _ & H2 & _); [repeat constructor; set_solver|done|].
  split; [exact H1|exact H2].
Defined.
End ResourceDemo.
