(* ===== verification/Capacity.v ===== *)
(** * tools/check_capacity.py: capacity, live snapshots and recovery

    A table of fixed-size rows is doubled until it holds a stage's payload, read
    back in full, snapshotted while it is served, and read again after a
    restart.  A failed campaign keeps its directory and can be resumed.
    [load_exact] reads the rows from the writes the service has applied. *)

From Stdlib Require Import QArith.
From S2P Require Import Prelude PyStr PyFloat Objects Json JsonProofs Vector Text Parameters Results Net Client ClientProofs ClientFrames ExactlyOnce Dict Host Random Script Service ServiceChecks Snapshots Returns Resource.
#[local] Open Scope Z_scope.

Definition GIB : Z := 1024 ^ 3.
Definition VERIFY_RANGE_ROWS : Z := 16384.

(** What else the campaign asks of its host: [path.stat()], free space,
    [path.is_dir()], and how often the sampling thread woke up before it was
    stopped. *)
Class Disk (W : Type) := {
  d_probes :: Probes W;
  d_platform :: Platform;
  d_stat : pystr -> W -> pyres (Z * Z) * W;
  d_free : pystr -> W -> Z * W;
  d_is_dir : pystr -> W -> bool * W;
  d_wakes : W -> nat * W
}.

(** [a == b] of JSON data. *)
Fixpoint json_eq (a b : pyval) : bool :=
  match a, b with
  | PList l, PList l' =>
      (fix eqs l l' := match l, l' with
                       | [], [] => true
                       | x :: l, y :: l' => json_eq x y && eqs l l'
                       | _, _ => false
                       end) l l'
  | PDict d, PDict d' =>
      bool_decide (length d = length d') &&
      (fix all d := match d with
                    | [] => true
                    | (k, x) :: d => match dict_get k d' with Some y => json_eq x y | None => false end && all d
                    end) d
  | PBool x, PBool y => Bool.eqb x y
  | x, y => same_cell x y
  end.

(** ** Workloads and plans *)

(** [[''.join(chr(rng.randrange(33,127)) for _ in range(4096)) for _ in range(256)]] *)
Definition draw_fuel : nat := 100.
Definition payload_of (size : nat) : Rm pystr :=
  for_each (seq 0 size) (fun _ acc => let! c := randrange draw_fuel 33 127 in ret (acc ++ [c])) [].
Definition draw_payloads (count size : nat) : Rm (list pystr) :=
  for_each (seq 0 count) (fun _ acc => let! p := payload_of size in ret (acc ++ [p])) [].

(** [range(0, rows, VERIFY_RANGE_ROWS)] with the end of each range *)
Definition verify_ranges (rows : Z) : list (Z * Z) :=
  (fun k => let first := VERIFY_RANGE_ROWS * Z.of_nat k in (first, Z.min rows (first + VERIFY_RANGE_ROWS)))
    <$> seq 0 (Z.to_nat ((rows + VERIFY_RANGE_ROWS - 1) / VERIFY_RANGE_ROWS)).

(** [text[:32].encode().hex().upper()] of ASCII text *)
Definition hex_digit (n : Z) : Z := if n <? 10 then 48 + n else 55 + n.
Definition hex_upper (s : pystr) : pystr := s ≫= (fun c => [hex_digit (c / 16); hex_digit (c mod 16)]).

Definition MIN_ID : pystr := py "SELECT min(id) FROM capacity".
Definition MAX_ID : pystr := py "SELECT max(id) FROM capacity".
Definition RANGE_COUNT : pystr := py "SELECT count(*) FROM capacity WHERE id>=? AND id<?".
Definition PAYLOAD : pystr := py "SELECT length(payload),hex(substr(payload,1,32)) FROM capacity WHERE id=?".

(** [payload[i:i+256] for i in range(0,4096,256)] *)
Definition chunks256 (payload : pystr) : list pystr :=
  (fun k => take 256 (drop (256 * k) payload)) <$> seq 0 16.
Definition insert_text (key : Z) : pystr :=
  fstr [L "INSERT INTO capacity VALUES("; D key; L ",0,CAST("; T (join (py "||") (replicate 16 (py "?"))); L " AS BLOB))"].
Definition double_text (verb : string) (rows chunk : Z) : pystr :=
  fstr [L verb; L " INTO capacity SELECT id+"; D rows; L ",0,payload FROM capacity WHERE id<"; D chunk].

(** [sizes == sorted(set(sizes))] *)
Fixpoint strictly_increasing (l : list Z) : bool :=
  match l with
  | x :: ((y :: _) as l') => (x <? y) && strictly_increasing l'
  | _ => true
  end.

Section Capacity.
Context {W : Type} `{Disk W} (fuel : nat).
Abbreviation K := (Sc (W := Voters * W) report).
Abbreviation VM := (V (W := W)).

(** A draw threads the generator, like any local variable. *)
Definition drawing {A} (m : Rm A) (g : Mt) : VM (A * Mt) :=
  let '(r, g') := m g in let! a := lift r in ret (a, g').

(** ** retained_workspace, retained_cluster, inventory *)

Definition retained_workspace (base_dir : pystr) (resume : option pystr) (body : pystr -> K unit) : K unit :=
  let! root := match resume with
               | Some path => ret path
               | None => v (io_res (h_mkdtemp [] base_dir))
               end in
  do! amend (rupdate [("work_directory"%string, tstr root)]);;
  do! recording (fun _ => rupdate [("failed_data_retained"%string, tbool true)]) (body root);;
  v (io_res (h_remove root)).

Definition member_of (x : pyval) : pyres Member :=
  let? id := vget "id" x in let? id := vint id in
  let? address := vget "address" x in let? address := vstr address in
  let? identity := vget "identity" x in let? identity := vstr identity in
  Ok (mkMember id address identity).

(** [assert Path(config[key]).resolve() == root/name] *)
Definition expect_path (config : pyval) (key : string) (path : pystr) : VM unit :=
  let! text := lift (let? x := vget key config in vstr x) in
  let! resolved := base (gets (h_resolve text)) in
  check_that (pyeqb resolved path).

Definition retained_cluster (root binary : pystr) : VM unit :=
  let file name := join_path root name in
  let node_path node ext := file (fstr [L "node"; D node; L ext]) in
  let! first := base (read_json (node_path 1 ".json"%string)) in
  let! listed := lift (vget "members" first) in
  let! members := lift (match listed with PList l => try_map member_of l | _ => Raise (TypeError "not iterable") end) in
  do! check_that (bool_decide (m_id <$> members = [1; 2; 3]));;
  do! check_that (forallb (fun m => is_prefix (py "127.0.0.1:") (m_address m)) members);;
  do! for_do all_voters (fun node =>
    let! config := base (read_json (node_path node ".json"%string)) in
    let expect k x := (let! found := lift (vget k config) in check_that (json_eq found x)) in
    do! expect "node"%string (PInt node);;
    do! expect "members"%string listed;;
    do! expect "cluster"%string (PStr (py "network-qualification"));;
    do! expect "storage_format"%string (PInt 5);;
    do! expect "maintenance"%string (PStr (py "auto"));;
    do! expect_path config "data" (file (fstr [L "data"; D node]));;
    do! expect_path config "certificate" (node_path node ".pem"%string);;
    do! expect_path config "key" (node_path node ".key"%string);;
    expect_path config "ca" (file (py "ca.pem")));;
  with_cluster (fun _ => mkVoters root binary members [] [] (py "network-qualification")).

Record Stored := mkStored { f_path : pystr; f_bytes : Z; f_allocated : Z }.
Definition inventory (root : pystr) : VM (list Stored) :=
  let! paths := base (io (h_glob root (py "**/*"))) in
  for_each paths (fun p files =>
    let! is_file := base (io (h_is_file p)) in
    if (is_file : bool) && negb (str_in (path_suffix p) [py ".pem"; py ".key"; py ".csr"]) then
      let! st := base (io_res (d_stat p)) in
      ret (files ++ [mkStored (relative_to root p) st.1 (st.2 * 512)])
    else ret files) [].
Definition stored_data (l : list Stored) : tv :=
  Arr ((fun f => Obj (fields [("path", tstr (f_path f)); ("bytes", tint (f_bytes f)); ("allocated", tint (f_allocated f))]%string)) <$> l).

(** ** states, execute *)

Definition states : VM (list (Z * dict)) :=
  for_each all_voters (fun node result =>
    with_conn [node] 5 None (fun h => let! s := call h status in ret (dset node s result))) [].

(** The request's outcome is asked for up to three times; no other write is
    submitted in between. *)
Definition unknown {A} (handler : VM A) (e : exn) : option (VM A) :=
  match e with UnknownOutcome _ => Some handler | _ => None end.
Fixpoint resolve_again (h : nat) (attempts : nat) : VM WriteResult :=
  match attempts with
  | O => call h resolve_pending
  | S attempts => try_except (call h resolve_pending) (unknown (resolve_again h attempts))
  end.
Definition capacity_execute (h : nat) (sql : pystr) (parameters : list pyval) : VM WriteResult :=
  try_except (db_execute h sql parameters) (unknown (resolve_again h 2)).

(** ** checkpoint: over the report of the current stage *)

Definition stage_note (kvs : list (string * tv)) : K unit := amend (rupdate_last "stages" kvs).
Definition stage_get (k : string) (r : report) : option tv :=
  match rget "stages" r with
  | Some (Arr l) => match last l with Some (Obj d) => rget k d | _ => None end
  | _ => None
  end.
Definition number (k : string) (s : dict) : pyres Z := let? x := getitem k s in vint x.

(** [max(s[k] for s in states)] and the like, of at least one state. *)
Definition over_states (f : list Z -> pyres Z) (g : dict -> pyres Z) (states : list (Z * dict)) : pyres Z :=
  let? values := try_map g states.*2 in f values.
Definition max_state : list Z -> pyres Z := max_of.
Definition min_state (l : list Z) : pyres Z :=
  match l with [] => Raise (ValueError "min() arg is an empty sequence") | x :: l => Ok (foldl Z.min x l) end.

Fixpoint all_states (p : dict -> pyres bool) (states : list (Z * dict)) : pyres bool :=
  match states with
  | [] => Ok true
  | (_, s) :: l => let? b := p s in if (b : bool) then all_states p l else Ok false
  end.
Definition no_error (s : dict) : pyres bool := let? x := getitem "snapshot_error" s in Ok (negb (truthy x)).
Definition published (target : Z) (s : dict) : pyres bool := let? n := number "generation_prefix" s in Ok (target <=? n).
Definition idle (s : dict) : pyres bool :=
  let? p := number "snapshot_prefix" s in let? q := number "snapshot_sealed" s in
  let? n := number "generation_prefix" s in Ok (Z.max p q <=? n).

(** [target or required] *)
Definition target_or (target : option Z) (required : Z) : Z :=
  match target with Some t => if t =? 0 then required else t | None => required end.

Definition BUSY : pystr := py "Operation deadline exceeded: Busy".

(** One request for a snapshot: Busy is counted, and asked again later. *)
Definition ask_snapshot : K (option Z) :=
  let! asked := try_except
    (let! target := v (with_conn all_voters 5 None (fun h => call h request_snapshot)) in
     do! stage_note [("snapshot_target"%string, tint target)];;
     ret (Some target))
    (fun e => if isinstance e CConnectionError
              then if pyeqb (str_exn e) BUSY then Some (ret None) else Some (throw e)
              else None) in
  match asked with
  | Some target => ret (Some target)
  | None =>
      let! rep := reported in
      let retries := match stage_get "snapshot_busy_retries" rep with Some (J (PInt n)) => n | _ => 0 end in
      do! stage_note [("snapshot_busy_retries"%string, tint (retries + 1))];;
      ret None
  end.

Definition checkpoint (output : K unit) (payload_bytes : Z) : K unit :=
  let! before := v (base (io monotonic)) in
  let! first := v states in
  let! required := v (lift (over_states max_state (number "applied") first)) in
  let watchdog := Qmax 1800 (inject_Z (90 * payload_bytes) / inject_Z GIB) in
  do! stage_note [("snapshot_watchdog_seconds", Num watchdog); ("required_snapshot_prefix", tint required)]%string;;
  let! _ := while_loop fuel (fun target =>
    let! now := v (base (io monotonic)) in
    if Qle_bool watchdog (now - before)
    then throw (TimeoutError "Capacity snapshot did not publish within the campaign watchdog")
    else
      let! current := v states in
      do! stage_note [("last_snapshot_states"%string, states_report current)];;
      let! fine := v (lift (all_states no_error current)) in
      do! v (check_that fine);;
      let! done := v (lift (all_states (published (target_or target required)) current)) in
      if (done : bool) then
        let! lowest := v (lift (over_states min_state (number "generation_prefix") current)) in
        let! now := v (base (io monotonic)) in
        do! stage_note [("snapshot_target"%string, tint (target_or target lowest)); ("snapshot_seconds"%string, Num (now - before)%Q)];;
        ret (inr target)
      else
        let! quiet := v (lift (all_states idle current)) in
        let! target := (if bool_decide (target = None) && (quiet : bool) then ask_snapshot else ret target) in
        do! output;;
        do! v (base (io_do (sleep 1)));;
        ret (inl target)) None in
  ret tt.

(** ** verify *)

Definition verify_row (h : nat) (payloads : list pystr) (key : Z) : VM unit :=
  let! rows := db_query h PAYLOAD [PInt key] in
  let! row := lift (one rows) in
  let! payload := lift (list_index payloads (key mod zlen payloads)) in
  check_that (same_cells (as_tuple row) [PInt 4096; PStr (hex_upper (take 32 payload))]).

(** Every row of a voter is counted, range by range; eight of them are read. *)
Definition verify_counts (h : nat) (rows : Z) : VM Z :=
  for_each (verify_ranges rows) (fun '(first, last) counted =>
    let! n := db_scalar h RANGE_COUNT [PInt first; PInt last] in
    let! n := lift (vint n) in
    ret (counted + n)) 0.
Definition verify_node (h : nat) (rows : Z) (payloads : list pystr) (g : Mt) : VM Mt :=
  do! expect_scalar h MIN_ID [] 0;;
  do! expect_scalar h MAX_ID [] (rows - 1);;
  let! counted := verify_counts h rows in
  do! check_that (counted =? rows);;
  for_each (seq 0 8) (fun _ g =>
    let! drawn := drawing (randrange draw_fuel 0 rows) g in
    do! verify_row h payloads drawn.1;;
    ret drawn.2) g.
Definition verify (rows : Z) (payloads : list pystr) (seed : Z) : VM unit :=
  let! _ := for_each all_voters (fun node g =>
    with_conn [node] 60 None (fun h => verify_node h rows payloads g)) (Random_new seed) in
  ret tt.

(** ** The load *)

(** The first rows, one for each payload. *)
Definition load_first (h : nat) (payloads : list pystr) : VM unit :=
  do! capacity_execute h (py "CREATE TABLE capacity(id INTEGER PRIMARY KEY,balance INTEGER NOT NULL,payload BLOB)") [];;
  for_do (zip (seq 0 (length payloads)) payloads) (fun '(key, payload) =>
    do! capacity_execute h (insert_text (Z.of_nat key)) (PStr <$> chunks256 payload);; ret tt).

Definition chunk_of (rows target : Z) : Z := Z.min (Z.min rows 4096) (target - rows).

(** One copy of what is there, a progress note every 256 Ki rows. *)
Definition load_chunk (save : K unit) (root : pystr) (h : nat) (verb : string) (target rows : Z) : K Z :=
  let chunk := chunk_of rows target in
  do! v (capacity_execute h (double_text verb rows chunk) []);;
  let rows := rows + chunk in
  if rows mod (64 * 4096) =? 0 then
    let! free := v (base (io (d_free root))) in
    do! stage_note [("rows", tint rows); ("free_bytes", tint free)]%string;;
    do! v (check_that (20 * GIB <? free));;
    do! save;;
    ret rows
  else ret rows.

(** [while rows < target]: each round copies at least one row. *)
Definition load (save : K unit) (root : pystr) (h : nat) (verb : string) (target rows : Z) : K Z :=
  while_loop (S (Z.to_nat (target - rows))) (fun rows =>
    if rows <? target then let! rows := load_chunk save root h verb target rows in ret (inl rows)
    else ret (inr rows)) rows.

(** ** A stage *)

(** Ninety short transactions through all voters, on random rows. *)
Definition touch_rows (rows : Z) (g : Mt) : VM Mt :=
  for_each (seq 0 90) (fun operation g =>
    with_conn [Z.of_nat operation mod 3 + 1] 60 None (fun client =>
      let! drawn := drawing (randrange draw_fuel 0 rows) g in
      let key := drawn.1 in
      do! capacity_execute client (py "UPDATE capacity SET balance=balance+1 WHERE id=?") [PInt key];;
      let! balance := db_scalar client (py "SELECT balance FROM capacity WHERE id=?") [PInt key] in
      let! n := lift (vint balance) in
      do! check_that (1 <=? n);;
      ret drawn.2)) g.

Definition restart_timed (ready_seconds : Q) : VM Q :=
  do! for_do all_voters stop;;
  let! started := base (io monotonic) in
  do! for_do all_voters (fun node => start node false);;
  do! for_do all_voters (fun node => let! _ := ready fuel node ready_seconds in ret tt);;
  let! now := base (io monotonic) in
  ret (now - started)%Q.

Record CapacityArgs := mkCapacityArgs {
  cp_binary : pystr; cp_output : pystr; cp_sizes : list Z; cp_fixture : option Z; cp_resume : option pystr; cp_interrupt : bool
}.

Definition seed_of_report : Z := 20260925.

(** The handle, the row count and the generator go from stage to stage. *)
Definition stage (args : CapacityArgs) (save : K unit) (root : pystr) (resumed : bool) (payloads : list pystr)
    (size : Z) (st : nat * Z * Mt) : K (nat * Z * Mt) :=
  let '(h, rows, g) := st in
  let! started := v (base (io monotonic)) in
  do! amend (rappend "stages" (Obj (fields [("target_payload_bytes", tint size); ("started", Num started)]%string)));;
  let! rows := load save root h (if resumed then "INSERT OR IGNORE" else "INSERT") (size / 4096) rows in
  let! now := v (base (io monotonic)) in
  do! stage_note [("rows", tint rows); ("load_seconds", Num (now - started)%Q)]%string;;
  do! v (verify rows payloads seed_of_report);;
  do! (if cp_interrupt args then
         do! amend (rupdate [("expected_fixture_interruption"%string, tbool true)]);;
         throw (RuntimeError "Requested fixture interruption after verified load")
       else ret tt);;
  let! before := v (inventory root) in
  do! stage_note [("before_snapshot_files"%string, stored_data before)];;
  do! checkpoint save size;;
  let! after := v (inventory root) in
  do! stage_note [("after_snapshot_files"%string, stored_data after)];;
  let! g := v (touch_rows rows g) in
  let! restart_seconds := v (restart_timed 60) in
  do! stage_note [("restart_seconds"%string, Num restart_seconds)];;
  do! v (verify rows payloads (seed_of_report + 1));;
  do! stage_note [("restart_goal_met", tbool (Qle_bool restart_seconds 60)); ("complete", tbool true)]%string;;
  do! v (print_line (py "PASS capacity stage"));;
  do! save;;
  do! v (call h Client.close);;
  let! h := v (open_conn all_voters 60 None) in
  ret (h, rows, g).

(** ** main *)

(** One round of the sampling thread; [false] once it has died. *)
Definition watch_round : K bool :=
  try_except
    (let! s := v sample in do! amend (rappend "samples" (sample_report s));; ret true)
    (fun e =>
       match e with
       | OSError m =>
           if String.eqb m "FileNotFoundError" || String.eqb m "ProcessLookupError" then Some (ret true)
           else if String.eqb m "PermissionError" then
             Some (do! amend (fun r => match rget "sampling_errors" r with
                                       | Some (Arr l) => rappend "sampling_errors" (tstr (repr_exn e)) r
                                       | _ => rupdate [("sampling_errors"%string, Arr [tstr (repr_exn e)])] r
                                       end);;
                   ret true)
           else Some (ret false)
       | _ => Some (ret false)
       end).
Fixpoint watch (rounds : nat) : K unit :=
  match rounds with
  | O => ret tt
  | S rounds => let! alive := watch_round in if (alive : bool) then watch rounds else ret tt
  end.

(** [max((s['nodes'].get(node,{}).get('rss_bytes',0) for s in samples), default=0)] *)
Definition rss_of (node : Z) (s : tv) : Z :=
  match s with
  | Obj d => match rget "nodes" d with
             | Some (Obj nodes) => match dget (dec node) nodes with
                                   | Some (Obj u) => match rget "rss_bytes" u with Some (J (PInt n)) => n | _ => 0 end
                                   | _ => 0
                                   end
             | _ => 0
             end
  | _ => 0
  end.
Definition peak_rss (r : report) (node : Z) : Z :=
  match rget "samples" r with
  | Some (Arr (x :: l)) => foldl Z.max (rss_of node x) (rss_of node <$> l)
  | _ => 0
  end.

Definition resume_of (args : CapacityArgs) (report_path : pystr) : K pystr :=
  let! previous := v (read_json report_path) in
  let get k := lift (vget k previous) in
  let! complete := get "complete"%string in
  let! retained := get "failed_data_retained"%string in
  do! v (check_that (negb (truthy complete) && truthy retained));;
  let! seed := get "seed"%string in
  let! fixture := get "fixture_only"%string in
  do! v (check_that (json_eq seed (PInt seed_of_report) && json_eq fixture (PBool (bool_decide (cp_fixture args <> None)))));;
  let! resume := v (lift (let? x := vget "work_directory" previous in vstr x)) in
  let! resolved := v (base (gets (h_resolve resume))) in
  let! is_dir := v (base (io (d_is_dir resume))) in
  do! v (check_that (is_prefix [47] resume && pyeqb resolved resume && (is_dir : bool)));;
  let! digest := v (file_sha256 report_path) in
  let! binary := v (lift (vget "binary_sha256" previous)) in
  let! path := v (base (gets (h_resolve report_path))) in
  do! amend (rupdate [("resume"%string, Obj (fields [("report", tstr path); ("report_sha256", tstr digest);
    ("previous_binary_sha256", J binary);
    ("note", tstr (py "Explicit recovery continuation; previous failure remains, retained files are reopened in place"))]%string))]);;
  ret resume.

(** Up to the readiness of all voters, within what is left of the watchdog. *)
Definition start_campaign (resumed : bool) (save : K unit) : K unit :=
  let! startup := v (base (io monotonic)) in
  do! v (start_all (negb resumed));;
  let watchdog := (if resumed then 600 else 60)%Q in
  do! amend (rupdate [("initial_readiness_watchdog_seconds"%string, Num watchdog)]);;
  do! v (for_do all_voters (fun node =>
    let! now := base (io monotonic) in
    let! _ := ready fuel node (Qmax 1 (watchdog - (now - startup))) in ret tt));;
  let! now := v (base (io monotonic)) in
  do! amend (rupdate [("initial_readiness_seconds", Num (now - startup)%Q);
                      ("initial_sixty_second_goal_met", tbool (Qle_bool (now - startup) 60))]%string);;
  save.

(** The rows the load starts from: the payloads', or those a failed campaign
    left. *)
Definition first_rows (h : nat) (resumed : bool) (sizes : list Z) (payloads : list pystr) : K Z :=
  if resumed then
    let! top := v (db_scalar h MAX_ID []) in
    let! top := v (lift (vint top)) in
    let rows := top + 1 in
    do! v (expect_scalar h MIN_ID [] 0);;
    do! v (expect_scalar h MAX_ID [] (rows - 1));;
    let! largest := v (lift (max_of sizes)) in
    do! v (check_that ((zlen payloads <=? rows) && (rows <=? largest / 4096)));;
    do! v (verify rows payloads seed_of_report);;
    do! amend (fun r => match rget "resume" r with
                        | Some (Obj d) => dset (py "resume") (Obj (rupdate [("verified_rows_before_continuation"%string, tint rows)] d)) r
                        | _ => r
                        end);;
    ret rows
  else
    do! v (load_first h payloads);;
    ret (zlen payloads).

Definition campaign (args : CapacityArgs) (save : K unit) (root : pystr) (resumed : bool) (sizes : list Z) : K unit :=
  do! start_campaign resumed save;;
  let! drawn := v (drawing (draw_payloads 256 4096) (Random_new seed_of_report)) in
  let '(payloads, g) := drawn in
  let! h := v (open_conn all_voters 60 None) in
  do! try_finally
    (let! rows := first_rows h resumed sizes payloads in
     let! final := for_each sizes (stage args save root resumed payloads) (h, rows, g) in
     v (call final.1.1 Client.close))
    (v (call h Client.close));;
  amend (rupdate [("complete"%string, tbool true)]).

(** What always ends a campaign. *)
Definition end_campaign (root : pystr) : K unit :=
  let! wakes := v (base (io d_wakes)) in
  do! watch wakes;;
  do! amend (fun r => rupdate [("peak_rss"%string, Obj ((fun n => (dec n, tint (peak_rss r n))) <$> all_voters))] r);;
  let! c := v cluster in
  let! codes := v (for_each (n_processes c) (fun '(node, process) codes =>
    let! code := base (io (v_poll process)) in ret (dset node code codes)) []) in
  do! amend (rupdate [("process_returncodes_before_cleanup"%string,
        Obj ((fun '(n, code) => (dec n, topt tint code)) <$> (codes : list (Z * option Z))))]);;
  do! v close_voters;;
  let! logs := v (last_logs 12000 root (py "*.log")) in
  amend (rupdate [("logs"%string, manifest_report logs)]).

Definition in_workspace (ROOT : pystr) (args : CapacityArgs) (save : K unit) (resume : option pystr) (sizes : list Z) (root : pystr) : K unit :=
  let! filesystem := v (base (mount_of root)) in
  do! amend (rupdate [("filesystem"%string, J filesystem)]);;
  do! v (base (refuse_memory filesystem));;
  let! free := v (base (io (d_free root))) in
  do! amend (rupdate [("initial_free_bytes"%string, tint free)]);;
  let resumed := bool_decide (resume <> None) in
  let! existing := v (if resumed then let! files := inventory root in ret (zsum (f_allocated <$> files)) else ret 0) in
  do! amend (rupdate [("initial_allocated_bytes"%string, tint existing)]);;
  let! largest := v (lift (max_of sizes)) in
  do! v (check_that (largest * 12 + 20 * GIB <? free + existing));;
  let! binary := v (base (gets (h_resolve (cp_binary args)))) in
  do! v (if resumed then retained_cluster root binary
         else let! c := base (Voters_new root binary (join_path ROOT (py "build/native/openssl")) 5 "auto") in with_cluster (fun _ => c));;
  try_finally (campaign args save root resumed sizes) (end_campaign root).

Definition save_report (args : CapacityArgs) : K unit :=
  let! rep := reported in v (io_res (h_write_json (cp_output args) (Obj rep))).

(** The sizes of the stages, once the arguments are accepted; [cp_sizes] are
    the GiB asked for. *)
Definition checked_sizes (args : CapacityArgs) : VM (list Z) :=
  let! present := base (io (h_exists (cp_output args))) in
  do! check_that (negb present && strictly_increasing (cp_sizes args));;
  do! check_that (forallb (fun n => (1 <=? n) && (n <=? 100)) (cp_sizes args));;
  let! sizes := match cp_fixture args with
                | Some mib => do! check_that ((2 <=? mib) && (mib <=? 64));; ret [mib * 1024 ^ 2]
                | None => ret ((fun n => n * GIB) <$> cp_sizes args)
                end in
  do! check_that (negb (cp_interrupt args) || bool_decide (cp_fixture args <> None));;
  ret sizes.

Definition capacity_report (ROOT : pystr) (args : CapacityArgs) : K unit :=
  let! sizes := v (checked_sizes args) in
  let base_dir := join_path ROOT (py "build/capacity-work") in
  do! v (io_res (h_mkdir base_dir));;
  let! binary := v (file_sha256 (cp_binary args)) in
  let! harness := v (file_sha256 (join_path ROOT (py "tools/check_capacity.py"))) in
  do! amend (rupdate [("complete", tbool false); ("stages", Arr []); ("seed", tint seed_of_report); ("binary_sha256", tstr binary);
    ("harness_sha256", tstr harness);
    ("scope", tstr (py "4 KiB printable random payloads cast to BLOB; public SQL; allocated bytes recorded separately"));
    ("fixture_only", tbool (bool_decide (cp_fixture args <> None)));
    ("verification", Obj (fields [("kind", tstr (py "complete primary-key range counts plus payload samples"));
                                  ("rows_per_query", tint VERIFY_RANGE_ROWS)]));
    ("samples", Arr [])]%string);;
  do! v (io_res (h_mkdir (path_parent (cp_output args))));;
  let! resume := match cp_resume args with
                 | Some path => let! root := resume_of args path in ret (Some root)
                 | None => ret None
                 end in
  try_finally
    (recording (fun e => rupdate [("error"%string, tstr (repr_exn e))])
      (retained_workspace base_dir resume (in_workspace ROOT args (save_report args) resume sizes)))
    (save_report args).
Definition capacity_main (ROOT : pystr) (args : CapacityArgs) : Hm (W := W) unit :=
  fun w => let '(r, s) := capacity_report ROOT args ([], (no_voters, w)) in (r, s.2.2).
End Capacity.

(** * What a capacity campaign establishes

    Verification accounts for every row; the load is a plan of copies that tile
    the rows it adds; a checkpoint ends on a snapshot every voter has
    published. *)

(** ** Ranges *)

(** How many of the ids from [first] up to [last] a table holds. *)
Definition range_count (stored : Z -> bool) (first last : Z) : Z := zlen (filter (fun id => stored id = true) (seqZ first (last - first))).

Lemma range_count_add stored a b c : a <= b -> b <= c -> range_count stored a b + range_count stored b c = range_count stored a c.
Proof.
  intros Hab Hbc. unfold range_count. replace (c - a) with ((b - a) + (c - b)) by lia.
  rewrite seqZ_app, filter_app, zlen_app by lia. by replace (a + (b - a)) with b by lia.
Qed.

Lemma range_count_full stored a b : a <= b -> range_count stored a b = b - a -> forall id, a <= id < b -> stored id = true.
Proof.
  intros Hab Hc id Hid. destruct (stored id) eqn:E; [done|]. exfalso.
  rewrite <-(range_count_add stored a id b), <-(range_count_add stored id (id + 1) b) in Hc by lia.
  assert (Hle : forall x y, x <= y -> range_count stored x y <= y - x).
  { intros x y Hxy. unfold range_count, zlen. pose proof (length_filter (fun id => stored id = true) (seqZ x (y - x))) as Hl.
    rewrite length_seqZ in Hl. lia. }
  assert (H0 : range_count stored id (id + 1) = 0).
  { unfold range_count. replace (id + 1 - id) with 1 by lia. rewrite seqZ_cons by lia. rewrite filter_cons_False by congruence.
    by rewrite (seqZ_nil (Z.succ id) (Z.pred 1)) by lia. }
  pose proof (Hle a id ltac:(lia)). pose proof (Hle (id + 1) b ltac:(lia)). lia.
Qed.

(** The ranges of a verification leave no id out and overlap nowhere. *)
Lemma ranges_sum stored rows :
  0 <= rows -> zsum ((fun '(a, b) => range_count stored a b) <$> verify_ranges rows) = range_count stored 0 rows.
Proof.
  intros Hr. unfold verify_ranges. set (n := (rows + VERIFY_RANGE_ROWS - 1) / VERIFY_RANGE_ROWS).
  assert (Hn : rows <= VERIFY_RANGE_ROWS * n < rows + VERIFY_RANGE_ROWS) by (unfold n, VERIFY_RANGE_ROWS; dlia).
  enough (Hk : forall k, VERIFY_RANGE_ROWS * (Z.of_nat k - 1) < rows ->
    zsum ((fun '(a, b) => range_count stored a b) <$>
      ((fun k => let first := VERIFY_RANGE_ROWS * Z.of_nat k in (first, Z.min rows (first + VERIFY_RANGE_ROWS))) <$> seq 0 k)) =
    range_count stored 0 (Z.min rows (VERIFY_RANGE_ROWS * Z.of_nat k))).
  { unfold VERIFY_RANGE_ROWS in *. rewrite Hk by lia. f_equal. lia. }
  unfold VERIFY_RANGE_ROWS in *. induction k as [|k IH]; intros Hlt; [cbn; by rewrite Z.min_r by lia|].
  rewrite seq_S, !fmap_app, zsum_app, IH by lia. cbn [fmap list_fmap zsum foldr Nat.add]. rewrite Z.add_0_r.
  rewrite (Z.min_r rows (16384 * Z.of_nat k)) by lia. rewrite range_count_add by lia. f_equal. lia.
Qed.

(** ** The load *)

(** The copies a load makes: the first new id and how many. *)
Fixpoint load_plan (fuel : nat) (target rows : Z) : list (Z * Z) :=
  match fuel with
  | O => []
  | S fuel => if rows <? target then (rows, chunk_of rows target) :: load_plan fuel target (rows + chunk_of rows target) else []
  end.

Lemma load_plan_tiles fuel target rows :
  0 < rows -> target - rows <= Z.of_nat fuel ->
  (load_plan fuel target rows ≫= fun '(r, c) => seqZ r c) = seqZ rows (target - rows) /\
  Forall (fun '(r, c) => 0 < c <= 4096 /\ c <= r /\ r + c <= target) (load_plan fuel target rows).
Proof.
  revert rows. induction fuel as [|fuel IH]; intros rows Hr Hf; cbn [load_plan].
  { rewrite seqZ_nil by lia. by split; [|constructor]. }
  destruct (rows <? target) eqn:E; unbool; [|rewrite seqZ_nil by lia; by split; [|constructor]].
  assert (Hc : 0 < chunk_of rows target <= 4096 /\ chunk_of rows target <= rows /\ rows + chunk_of rows target <= target) by (unfold chunk_of; lia).
  destruct (IH (rows + chunk_of rows target)) as [H1 H2]; [lia|lia|]. split; [|constructor; [lia|done]].
  cbn [mbind list_bind]. rewrite H1, <-seqZ_app by lia. f_equal. lia.
Qed.

Section Capacity.
Context {W : Type} `{Disk W}.

Lemma load_chunk_next save root h verb target rows (s : report * (Voters * W)) a s' :
  load_chunk save root h verb target rows s = (Ok a, s') -> a = rows + chunk_of rows target.
Proof.
  intros Hrun. assert (Hr : returns (load_chunk save root h verb target rows) (fun a => a = rows + chunk_of rows target)).
  { unfold load_chunk. apply returns_then. intros _. destruct (_ =? 0); [|by apply returns_ret].
    repeat (apply returns_then; intros ?). by apply returns_ret. }
  specialize (Hr s). unfold wp in Hr. rewrite Hrun in Hr. by apply Hr.
Qed.

(** The loop is its plan, one copy after the other. *)
Lemma load_is_plan save root h verb target fuel rows (s : report * (Voters * W)) :
  0 < rows -> target - rows <= Z.of_nat fuel ->
  while_loop (S fuel) (fun rows =>
    if rows <? target then let! rows := load_chunk save root h verb target rows in ret (inl rows)
    else ret (inr rows)) rows s =
  for_each (load_plan fuel target rows) (fun '(r, _) _ => load_chunk save root h verb target r) rows s.
Proof.
  revert rows s. induction fuel as [|fuel IH]; intros rows s Hr Hf.
  - cbn [while_loop load_plan for_each]. unfold bind at 1. replace (rows <? target) with false by lia. done.
  - change (while_loop (S (S fuel)) ?b rows) with (let! r := b rows in match r with inr a => ret a | inl a => while_loop (S fuel) b a end).
    cbn beta. cbn [load_plan]. unfold bind at 1. destruct (rows <? target) eqn:E; [|done]. unbool. cbn [for_each]. unfold bind.
    destruct (load_chunk save root h verb target rows s) as [[a|e|] s1] eqn:Hc; [|done..].
    apply load_chunk_next in Hc as ->. apply IH; unfold chunk_of; lia.
Qed.
End Capacity.

(** *** What the copies do to the table

    A row is its balance and its payload.  A copy is read from the text of the
    statement; anything else, and a plain [INSERT] of an id that is there, makes
    the table unknown. *)

Definition read_number (s : pystr) : option (Z * pystr) :=
  match span_class is_dec s with ([], _) => None | (digits, rest) => Some (int_of_digits digits, rest) end.
Definition COPY : string := "INTO capacity SELECT id+".
Definition read_copy (text : pystr) : option (bool * Z * Z) :=
  '(ignore, rest) ← match strip_prefix "INSERT OR IGNORE INTO capacity SELECT id+" text with
                    | Some rest => Some (true, rest)
                    | None => rest ← strip_prefix "INSERT INTO capacity SELECT id+" text; Some (false, rest)
                    end;
  '(offset, rest) ← read_number rest;
  rest ← strip_prefix ",0,payload FROM capacity WHERE id<" rest;
  '(bound, rest) ← read_number rest;
  if bool_decide (rest = []) then Some (ignore, offset, bound) else None.

Section Table.
Context {P : Type}.
Abbreviation Table := (gmap Z (Z * P)).

Definition new_rows (offset bound : Z) (T : Table) : Table :=
  kmap (Z.add offset) ((fun row => (0, row.2)) <$> filter (fun '(id, _) => id < bound) T).
Definition executed (T : Table) (b : body) : option Table :=
  match b with
  | (Some (PStr text), Some (PList [])) =>
      '(ignore, offset, bound) ← read_copy text;
      if ignore || bool_decide ((dom (new_rows offset bound T) : gset Z) ## dom T) then Some (T ∪ new_rows offset bound T) else None
  | _ => None
  end.
(** The table after the statements of a ledger, in order. *)
Fixpoint executed_all (T : Table) (l : list body) : option Table :=
  match l with
  | [] => Some T
  | b :: l => T ← executed T b; executed_all T l
  end.

(** The ids of a table are those below [rows], and row [i] holds the payload
    [i mod p]. *)
Definition holds (p : Z) (payload : Z -> P) (rows : Z) (T : Table) : Prop :=
  forall i, snd <$> T !! i = if bool_decide (0 <= i < rows) then Some (payload (i mod p)) else None.

Lemma executed_all_snoc T l b : executed_all T (l ++ [b]) = executed_all T l ≫= (fun T => executed T b).
Proof.
  revert T. induction l as [|x l IH]; intros T; cbn [app executed_all]; [cbn [mbind option_bind]; by destruct (executed T b)|].
  destruct (executed T x) as [T1|]; [exact (IH T1)|done].
Qed.

Lemma new_rows_lookup offset bound (T : Table) i :
  snd <$> new_rows offset bound T !! i = if bool_decide (i - offset < bound) then snd <$> T !! (i - offset) else None.
Proof.
  unfold new_rows. assert (Hinj : Inj (=) (=) (Z.add offset)) by (intros x y; lia).
  replace (kmap _ _ !! i) with ((fun row => (0, row.2)) <$> (filter (fun '(id, _) => id < bound) T !! (i - offset))).
  2: { rewrite <-lookup_fmap. rewrite <-(lookup_kmap (Z.add offset)). f_equal. lia. }
  rewrite map_lookup_filter. destruct (T !! (i - offset)) as [row|]; cbn [mbind option_bind fmap option_fmap option_map].
  - case_bool_decide; [by rewrite option_guard_True|by rewrite option_guard_False].
  - by case_bool_decide.
Qed.

(** A copy of rows from the start puts the right payloads behind the table. *)
Lemma copy_holds p payload rows chunk verb T :
  0 < p -> (p | rows) -> 0 <= chunk <= rows -> verb ∈ ["INSERT"; "INSERT OR IGNORE"]%string ->
  read_copy (double_text verb rows chunk) = Some (bool_decide (verb = "INSERT OR IGNORE"%string), rows, chunk) ->
  holds p payload rows T ->
  exists T', executed T (write_body (double_text verb rows chunk) []) = Some T' /\ holds p payload (rows + chunk) T'.
Proof.
  intros Hp [k Hk] Hc Hv Hr HT. unfold executed, write_body. rewrite Hr. cbn [mbind option_bind].
  assert (Hnew : forall i, snd <$> new_rows rows chunk T !! i = if bool_decide (rows <= i < rows + chunk) then Some (payload (i mod p)) else None).
  { intros i. rewrite new_rows_lookup, HT. assert (Hmod : (i - rows) mod p = i mod p).
    { rewrite Hk. replace (i - k * p) with (i + (- k) * p) by lia. by rewrite Z.mod_add by lia. }
    destruct (decide (rows <= i < rows + chunk)); [by rewrite !bool_decide_eq_true_2, Hmod by lia|].
    rewrite (bool_decide_eq_false_2 (rows <= i < rows + chunk)) by done.
    destruct (bool_decide (i - rows < chunk)) eqn:E; [|done]. apply bool_decide_eq_true in E. by rewrite bool_decide_eq_false_2 by lia. }
  rewrite (bool_decide_eq_true_2 ((_ : gset Z) ## _)).
  2: { apply elem_of_disjoint. intros i [r1 H1]%elem_of_dom [r2 H2]%elem_of_dom. specialize (Hnew i). specialize (HT i). rewrite H1 in Hnew. rewrite H2 in HT.
       cbn in *. do 2 case_bool_decide; try done; lia. }
  rewrite orb_true_r. eexists. split; [done|]. intros i. specialize (Hnew i). specialize (HT i). rewrite lookup_union.
  destruct (T !! i) as [r|], (new_rows rows chunk T !! i) as [r'|]; cbn in *; repeat case_bool_decide; try done; lia.
Qed.
End Table.

(** *** The text of a copy *)

Lemma read_number_dec n rest :
  0 <= n -> match rest with [] => True | c :: _ => is_dec c = false end -> read_number (dec n ++ rest) = Some (n, rest).
Proof.
  intros Hn Hrest. unfold dec. replace (n <? 0) with false by lia. destruct (dec_nonneg_spec n Hn) as (Hd & Hv & _).
  unfold read_number. rewrite span_class_run; [|done|].
  - destruct (dec_nonneg n) as [|c digits] eqn:E; [|by rewrite <-Hv]. unfold dec_nonneg in E. cbn [dec_digits] in E.
    destruct (n <? 10); [done|]. by apply app_nil in E as [_ [=]].
  - destruct rest as [|c rest]; [by left|right; by eexists _, _].
Qed.

Lemma read_double verb rows chunk :
  verb ∈ ["INSERT"; "INSERT OR IGNORE"]%string -> 0 <= rows -> 0 <= chunk ->
  read_copy (double_text verb rows chunk) = Some (bool_decide (verb = "INSERT OR IGNORE"%string), rows, chunk).
Proof.
  intros Hv Hr Hc. assert (Hm : forall p x, strip_prefix p (py p ++ x) = Some x) by (intros p x; by apply strip_prefix_Some).
  assert (Ht : forall v w, py v ++ py " INTO capacity SELECT id+" = py w ->
    double_text v rows chunk = py w ++ dec rows ++ py ",0,payload FROM capacity WHERE id<" ++ dec chunk ++ []).
  { intros v w Hw. unfold double_text, fstr. cbn [concat fmap list_fmap]. rewrite <-Hw, <-!app_assoc. done. }
  assert (Hn : forall (b : bool), ('(offset, rest) ← read_number (dec rows ++ py ",0,payload FROM capacity WHERE id<" ++ dec chunk ++ []);
    rest ← strip_prefix ",0,payload FROM capacity WHERE id<" rest; '(bound, rest) ← read_number rest;
    if bool_decide (rest = []) then Some (b, offset, bound) else None) = Some (b, rows, chunk)).
  { intros b. rewrite read_number_dec by done. cbn [mbind option_bind]. rewrite Hm. cbn [mbind option_bind].
    rewrite read_number_dec by done. done. }
  unfold read_copy. apply elem_of_cons in Hv as [->|Hv%list_elem_of_singleton]; [|subst verb].
  - rewrite (Ht _ "INSERT INTO capacity SELECT id+") by done.
    replace (strip_prefix "INSERT OR IGNORE INTO capacity SELECT id+" _) with (@None pystr) by done. rewrite Hm. apply Hn.
  - rewrite (Ht _ "INSERT OR IGNORE INTO capacity SELECT id+") by done. rewrite Hm. apply Hn.
Qed.

(** *** What an acknowledged statement did

    The service is the one of ExactlyOnce.v: it applies a write of a session
    under a sequence number at most once, and answers truthfully. *)

(** A statement without placeholders, quotes or comments is sent as it is. *)
Definition plain_char (c : Z) : bool :=
  negb (is_quote c || (c =? 63) || str_in [c] [py ":"; py "@"; py "$"] || (c =? 45) || (c =? 47)).
Lemma scan_plain text fuel offset count out :
  forallb plain_char text = true ->
  match scan fuel offset count out text with Ok (out', n) => concat out' = concat out ++ text /\ n = count | _ => True end.
Proof.
  revert fuel out. induction text as [|c text IH]; intros [|fuel] out; cbn [forallb scan]; try done; [by rewrite app_nil_r|].
  intros [Hc Ht]%andb_true_iff. unfold plain_char in Hc. rewrite !negb_orb, !andb_true_iff, !negb_true_iff in Hc.
  destruct Hc as ((((Hq & H63) & Hs) & H45) & H47).
  change (is_prefix (py "--") (c :: text)) with ((45 =? c) && is_prefix [45] text).
  change (is_prefix (py "/*") (c :: text)) with ((47 =? c) && is_prefix [42] text).
  rewrite (Z.eqb_sym 45), (Z.eqb_sym 47), H45, H47, Hq, H63, Hs. cbn [andb].
  specialize (IH fuel (out ++ [[c]]) Ht). destruct (scan fuel offset count (out ++ [[c]]) text) as [[out' n]| |]; [|done..].
  destruct IH as [-> ->]. split; [|done]. by rewrite concat_app, <-app_assoc.
Qed.
Lemma prepare_plain text t vs :
  forallb plain_char text = true -> prepare (PStr text) (PList []) 0 = Ok (t, vs) -> t = text /\ vs = [].
Proof.
  intros Ht Hp. unfold prepare in Hp. apply res_bind_Ok in Hp as (u & _ & Hp). apply res_bind_Ok in Hp as (l & [= <-] & Hp).
  do 3 (apply res_bind_Ok in Hp as (? & _ & Hp)). apply res_bind_Ok in Hp as ([out n] & Hs & Hp).
  pose proof (scan_plain text (S (length text)) 0 0 [] Ht) as Hc. rewrite Hs in Hc. destruct Hc as [Hc _].
  apply res_bind_Ok in Hp as (? & _ & Hp). destruct (utf8_len _); [|done]. apply res_bind_Ok in Hp as (? & _ & Hp).
  injection Hp as <- <-. by rewrite Hc.
Qed.

Section Acknowledged.
Context {W : Type} `{EO : ExactlyOnce.Service W}.

(** The connection waits for nothing but the statement. *)
Definition awaiting (text : pystr) (c : Conn) : Prop :=
  c_pending c = None \/ exists p, c_pending c = Some p /\ sql p = text /\ parameters p = [].
(** How a submission of [text] leaves a session whose settled writes are [log]. *)
Definition outcome (text session : pystr) (log : list body) (r : pyres WriteResult) (s : Conn * W) : Prop :=
  Inv s.1 /\ c_session s.1 = session /\
  match r with
  | Ok _ => abstracts (log ++ [write_body text []]) s /\ c_pending s.1 = None
  | Raise _ => abstracts log s /\ awaiting text s.1
  | OutOfFuel => False
  end.

Lemma resolve_pending_after p s :
  c_pending s.1 = Some p -> encode_all (parameters p) = Ok [] ->
  wp (_resolve (W := W)) (fun r s' => match r with Ok _ => c_pending s'.1 = None | _ => c_pending s'.1 = None \/ c_pending s'.1 = Some p end) s.
Proof.
  destruct s as [c w]. cbn [fst]. intros Hp He. apply (resolve_rule p []); [done|done|]. eapply wp_mono; [apply call_spec|].
  intros r0 [c1 w1] [Hfr Hcr]. split; [exact Hcr|]. intros r c' HR _. destruct Hfr as [[i Hi] _]. cbn [fst] in Hi, HR. subst c1.
  destruct r as [wr|x|]; [by destruct HR as [_ ->]|destruct x|]; cbn [resolved fst] in *;
    try (by destruct HR as (_ & _ & ->); right); try (by destruct HR as [_ ->]; first [by left|by right]);
    try (by subst c'; right). destruct HR as [[_ ->]|[_ ->]]; by left.
Qed.

Lemma prepared_pending_after text vs rv s :
  c_pending s.1 = None -> Inv s.1 -> encode_all vs = Ok [] ->
  wp (_execute_prepared (W := W) text vs rv)
     (fun r s' => match r with Ok _ => c_pending s'.1 = None | _ => c_pending s'.1 = None \/
                    exists p, c_pending s'.1 = Some p /\ sql p = text /\ parameters p = vs end) s.
Proof.
  destruct s as [c w]. cbn [fst]. intros Hp HI He. unfold _execute_prepared. apply wp_bind, wp_self. cbn [fst]. rewrite Hp.
  apply wp_bind. eapply wp_mono.
  { instantiate (1 := fun r s' => c_pending s'.1 = None). destruct (c_epoch c) as [e|]; [by apply wp_ret|].
    apply wp_bind. eapply wp_mono; [apply (stable_session_epoch unwritten (c, w)); apply HI|].
    intros [e|x|] [c' w'] [_ Hu]; destruct Hu as (_ & _ & Hpe & _); cbn [fst] in Hpe |- *; rewrite Hp in Hpe; [by apply wp_update|done..]. }
  intros [u|x|] [c1 w1] Hn; cbn [fst] in Hn; [|by left..].
  apply wp_bind, wp_self. cbn [fst]. apply wp_bind, wp_lift.
  destruct (PendingWrite_new _ _ _ _ _ _) as [p|x|] eqn:Hnew; [|by left..].
  apply PendingWrite_new_Ok in Hnew as [E Hv]. apply wp_bind, wp_update. cbn [fst snd].
  eapply wp_mono; [apply (resolve_pending_after p); [done|by rewrite E]|].
  intros [wr|x|] s' Hs'; [done|..]; (destruct Hs' as [Hs'|Hs']; [by left|right; exists p; by rewrite E in Hs' |- *]).
Qed.

Lemma settled_outcome m (op : C W WriteResult) text session log s :
  invoke m = (do! op;; ret tt) -> Inv s.1 -> c_session s.1 = session -> abstracts log s ->
  wp op (fun r s' => match r with Ok _ => c_pending s'.1 = None | _ => awaiting text s'.1 end) s ->
  (forall wr s', op s = (Ok wr, s') -> submits m s.1 = Some (write_body text [])) ->
  wp op (outcome text session log) s.
Proof.
  intros Hop HI Hs Ha Hpend Hsub. pose proof (method_once m log s HI Ha) as Hm.
  pose proof (invoke_stable m s ltac:(apply HI)) as [Hr Hk]. rewrite Hop in Hm, Hr, Hk. unfold wp in Hm, Hpend |- *.
  unfold bind in *. destruct (op s) as [[wr|x|] s1] eqn:E; cbn [fst snd ret] in *; [| |done].
  all: split; [by apply Hk|]; split; [destruct Hk as ([= _ _ _ Hss _ _] & _); congruence|]; split; [|done].
  - by rewrite (Hsub wr s1) in Hm.
  - exact Hm.
Qed.

Lemma submit_settles text session log s :
  forallb plain_char text = true -> c_pending s.1 = None -> Inv s.1 -> c_session s.1 = session -> abstracts log s ->
  wp (execute (PStr text) (PList [])) (outcome text session log) s.
Proof.
  intros Ht Hp HI Hs Ha. apply (settled_outcome (MExecute (PStr text) (PList []))); try done; unfold execute.
  - apply wp_bind, wp_lift. destruct (prepare (PStr text) (PList []) 0) as [[t vs]|x|] eqn:E; [|by left..].
    apply prepare_plain in E as [-> ->]; [|done]. cbn [fst snd]. apply wp_with_lock.
    eapply wp_mono; [apply (wp_ready (W := W))|].
    + instantiate (1 := fun r s' => match r with Ok _ => c_pending s'.1 = None | _ => awaiting text s'.1 end). intros e. by left.
    + by apply prepared_pending_after; [|apply Inv_lock|].
    + by intros [wr|x|] [c w].
  - cbn [submits]. unfold bind, lift. intros wr s'. destruct (prepare (PStr text) (PList []) 0) as [[t vs]|x|] eqn:E; [|done..].
    by apply prepare_plain in E as [-> ->].
Qed.

Lemma resolve_settles text session log s :
  awaiting text s.1 -> Inv s.1 -> c_session s.1 = session -> abstracts log s ->
  wp resolve_pending (outcome text session log) s.
Proof.
  intros Hp HI Hs Ha. apply (settled_outcome MResolve_pending); try done.
  - unfold resolve_pending. apply wp_with_lock. eapply wp_mono; [apply (wp_ready (W := W))|].
    + instantiate (1 := fun r s' => match r with Ok _ => c_pending s'.1 = None | _ => awaiting text s'.1 end). done.
    + apply wp_bind, wp_self. cbn [fst snd]. change (c_pending (set_lock _ s.1)) with (c_pending s.1).
      destruct Hp as [Hp|(p & Hp & Ht & Hps)]; rewrite Hp; [apply wp_throw; by left|].
      eapply wp_mono; [apply (resolve_pending_after p); [done|by rewrite Hps]|].
      intros [wr|x|] s' Hs'; [done|..]; (destruct Hs' as [Hs'|Hs']; [by left|right; by exists p]).
    + by intros [wr|x|] [c w].
  - intros wr s' E. destruct Hp as [Hp|(p & Hp & Ht & Hps)]; cbn [submits]; rewrite Hp; cbn [mbind option_bind].
    + exfalso. revert E. unfold resolve_pending, with_lock, bind, _ready, self, gets, lift, throw, try_finally, update, modify.
      destruct s as [c w]. cbn in Hp |- *. destruct (c_closed c), (c_transaction c); cbn; rewrite ?Hp; done.
    + unfold body_for. by rewrite Hps, Ht.
Qed.
End Acknowledged.

(** *** The loop, statement by statement *)

(** The table of a service is not a file of the host: free space and reports
    can be asked for and written without touching a ledger. *)
Class DiskApart (W : Type) `{Disk W} `{!EnvLaws W} `{!ExactlyOnce.Service W} : Prop := {
  free_apart session path (w : W) : ledger session (d_free path w).2 = ledger session w;
  write_apart session path data (w : W) : ledger session (h_write_json path data w).2 = ledger session w;
  write_ends path data (w : W) : (h_write_json path data w).1 <> OutOfFuel
}.

Section Loading.
Context {W : Type} `{Disk W} `{!EnvLaws W} `{!ExactlyOnce.Service W} `{!DiskApart W}.

Definition at_conn (h : nat) (Q : Conn * W -> Prop) (s : Voters * W) : Prop := exists c, n_conns s.1 !! h = Some c /\ Q (c, s.2).
(** Connection [h] of session [session] has settled exactly the writes [log]. *)
Definition settled (session : pystr) (log : list body) (s : Conn * W) : Prop :=
  Inv s.1 /\ c_session s.1 = session /\ abstracts log s /\ c_pending s.1 = None.

Lemma wp_call {A} h (op : C W A) (Q : pyres A -> Conn * W -> Prop) (s : Voters * W) c :
  n_conns s.1 !! h = Some c -> wp op Q (c, s.2) -> wp (call h op) (fun r s' => at_conn h (Q r) s') s.
Proof.
  intros Hc Hop. unfold wp, call in *. rewrite Hc. destruct (op (c, s.2)) as [r [c' w']]. cbn [fst snd] in *.
  exists c'. split; [|done]. cbn [fst n_conns set_conns]. apply list_lookup_insert_eq. by eapply lookup_lt_Some.
Qed.

Lemma resolve_again_settles h attempts text session log (s : Voters * W) :
  at_conn h (fun s => Inv s.1 /\ c_session s.1 = session /\ abstracts log s /\ awaiting text s.1) s ->
  wp (resolve_again h attempts) (fun r s' => at_conn h (outcome text session log r) s') s.
Proof.
  revert s. induction attempts as [|attempts IH]; intros s (c & Hc & HI & Hs & Ha & Hw); cbn [resolve_again].
  { apply (wp_call h _ (outcome text session log) s c Hc). by apply resolve_settles. }
  apply wp_try_except. eapply wp_mono.
  { apply (wp_call h _ (outcome text session log) s c Hc). by apply resolve_settles. }
  intros [wr|x|] s' Hs'; [done| |done]. destruct x; cbn [unknown]; try done. apply IH.
  destruct Hs' as (c' & Hc' & HI' & Hss & Ha' & Hw'). by exists c'.
Qed.

Lemma capacity_execute_settles h text session log (s : Voters * W) :
  forallb plain_char text = true -> at_conn h (settled session log) s ->
  wp (capacity_execute h text []) (fun r s' => at_conn h (outcome text session log r) s') s.
Proof.
  intros Ht (c & Hc & HI & Hs & Ha & Hp). apply wp_try_except. eapply wp_mono.
  { apply (wp_call h _ (outcome text session log) s c Hc). by apply submit_settles. }
  intros [wr|x|] s' Hs'; [done| |done]. destruct x; cbn [unknown]; try done. apply resolve_again_settles.
  destruct Hs' as (c' & Hc' & HI' & Hss & Ha' & Hw'). by exists c'.
Qed.

(** Steps of the script that leave the connections and the ledgers alone. *)
Definition aside {A} (m : Sc (W := Voters * W) report A) : Prop :=
  forall s, wp m (fun r s' => r <> OutOfFuel /\ n_conns s'.2.1 = n_conns s.2.1 /\
                              forall session, ledger session s'.2.2 = ledger session s.2.2) s.
Lemma aside_bind {A B} (m : Sc report A) (f : A -> Sc report B) : aside m -> (forall a, aside (f a)) -> aside (bind m f).
Proof.
  intros Hm Hf s. apply wp_bind. eapply wp_mono; [apply Hm|]. intros [a|e|] s' (Hr & Hc & Hl); [|by split..].
  eapply wp_mono; [apply Hf|]. intros r s'' (Hr' & Hc' & Hl'). split; [done|]. split; [congruence|]. intros session. by rewrite Hl', Hl.
Qed.
Lemma aside_ret {A} (a : A) : aside (ret a).
Proof. by intros s. Qed.
Lemma aside_amend f : aside (amend f).
Proof. by intros [rep s]. Qed.
Lemma aside_check b : aside (v (check_that b)).
Proof. intros [rep s]. unfold wp, v, on_host, check_that, lift, guard. by destruct (negb b). Qed.
Lemma aside_free root : aside (v (base (io (d_free root)))).
Proof.
  intros [rep [c w]]. unfold wp, v, on_host, base, io. cbn [fst snd]. pose proof (fun session => free_apart session root w) as Hl.
  by destruct (d_free root w).
Qed.
Lemma aside_save args : aside (save_report args).
Proof.
  apply aside_bind; [by intros s|]. intros rep [rep' [c w]]. unfold wp, v, on_host, io_res. cbn [fst snd h_write_json host_beside beside].
  pose proof (fun session => write_apart session (cp_output args) (Obj rep) w) as Hl. pose proof (write_ends (cp_output args) (Obj rep) w) as He.
  unfold beside. cbn [fst snd]. by destruct (h_write_json (cp_output args) (Obj rep) w) as [r w1].
Qed.
(** The ledger of a session since [before]: the copies in it were executed on
    [T0], one after the other, and the table has [rows] rows now. *)
Definition loaded {P} (session : pystr) (before : list body) (T0 : gmap Z (Z * P)) (p : Z) (payload : Z -> P) (rows : Z) (w : W) : Prop :=
  exists written T, body_of <$> ledger session w = before ++ written /\ executed_all T0 written = Some T /\ holds p payload rows T.

Lemma plain_app s t : forallb plain_char s = true -> forallb plain_char t = true -> forallb plain_char (s ++ t) = true.
Proof. intros Hs Ht. by rewrite forallb_app, Hs, Ht. Qed.
Lemma plain_dec n : 0 <= n -> forallb plain_char (dec n) = true.
Proof.
  intros Hn. unfold dec. replace (n <? 0) with false by lia. destruct (dec_nonneg_spec n Hn) as (Hd & _).
  apply forallb_forall. intros c Hc%list_elem_of_In. eapply Forall_forall in Hd; [|exact Hc]. apply is_dec_range in Hd.
  assert (Hall : forallb plain_char (seqZ 48 10) = true) by (vm_compute; reflexivity).
  rewrite forallb_forall in Hall. apply Hall, list_elem_of_In, elem_of_seqZ. lia.
Qed.
Lemma plain_double verb rows chunk :
  verb ∈ ["INSERT"; "INSERT OR IGNORE"]%string -> 0 <= rows -> 0 <= chunk -> forallb plain_char (double_text verb rows chunk) = true.
Proof.
  intros Hv Hr Hc. unfold double_text, fstr. cbn [mbind list_bind fpart_text].
  repeat apply plain_app; try (by apply plain_dec); try reflexivity.
  apply elem_of_cons in Hv as [->|Hv%list_elem_of_singleton]; [reflexivity|by subst verb].
Qed.

Section Chunks.
Context {P : Type} (T0 : gmap Z (Z * P)) (session : pystr) (before : list body) (p : Z) (payload : Z -> P).
Context (args : CapacityArgs) (root : pystr) (h : nat) (verb : string) (target : Z).
Hypothesis (Hp : 0 < p) (Hp4096 : (p | 4096)) (Hverb : verb ∈ ["INSERT"; "INSERT OR IGNORE"]%string).

(** The connection has settled the copies that made the first [rows] rows. *)
Definition ready_for (rows : Z) (s : Voters * W) : Prop :=
  exists written T, at_conn h (settled session (before ++ written)) s /\ executed_all T0 written = Some T /\ holds p payload rows T.

Lemma abstracts_ledger log text c (w : W) :
  abstracts log (c, w) -> c_session c = session -> awaiting text c ->
  body_of <$> ledger session w = log \/ body_of <$> ledger session w = log ++ [write_body text []].
Proof.
  intros (dn & tail & HL & Hb & _ & Ht) Hs Hw. cbn [fst snd] in *. rewrite <-Hs, HL, fmap_app, Hb.
  destruct Ht as [->|(q & params & x & -> & Hq & He & _ & Hx)]; [left; by rewrite app_nil_r|right].
  destruct Hw as [Hw|(q' & Hq' & <- & Hps)]; [congruence|]. assert (q' = q) as -> by congruence.
  rewrite Hps in He. injection He as <-. cbn [fmap list_fmap]. by rewrite Hx.
Qed.

Lemma ready_loaded rows s : ready_for rows s -> loaded session before T0 p payload rows s.2.
Proof.
  intros (written & T & (c & _ & _ & Hs & Ha & Hn) & HT & Hh). exists written, T. split; [|done].
  destruct (abstracts_ledger _ [] c s.2 Ha Hs) as [E|E]; [by left|done|]. exfalso.
  destruct Ha as (dn & tail & HL & Hb & _ & Ht). cbn [fst snd] in *. rewrite Hs in HL. rewrite HL in E.
  destruct Ht as [->|(q & ps & x & _ & Hq & _)]; [|congruence]. rewrite app_nil_r, Hb in E.
  apply (f_equal length) in E. rewrite !length_app in E. cbn in E. lia.
Qed.

Lemma load_chunk_loads rows (s : report * (Voters * W)) :
  (p | rows) -> 0 < rows < target -> ready_for rows s.2 ->
  wp (load_chunk (save_report args) root h verb target rows)
     (fun r s' => match r with
                  | Ok n => n = rows + chunk_of rows target /\ ready_for n s'.2
                  | Raise _ => exists n, (n = rows \/ n = rows + chunk_of rows target) /\ loaded session before T0 p payload n s'.2.2
                  | OutOfFuel => False
                  end) s.
Proof.
  intros Hd Hr (written & T & Hat & HT & Hh). set (chunk := chunk_of rows target).
  assert (Hc : 0 < chunk /\ chunk <= rows) by (unfold chunk, chunk_of; lia).
  set (text := double_text verb rows chunk).
  assert (Hplain : forallb plain_char text = true) by (apply plain_double; [done|lia..]).
  destruct (copy_holds p payload rows chunk verb T) as (T' & HT' & Hh'); [done|done|lia|done|apply read_double; [done|lia..]|done|].
  fold text in HT'.
  assert (Hall : executed_all T0 (written ++ [write_body text []]) = Some T') by (rewrite executed_all_snoc, HT; exact HT').
  unfold load_chunk. fold chunk. fold text. apply wp_bind. destruct s as [rep s]. unfold v at 1, on_host. cbn [fst snd] in *.
  pose proof (capacity_execute_settles h text session (before ++ written) s Hplain Hat) as He.
  unfold wp in He |- *. cbn [fst snd]. destruct (capacity_execute h text [] s) as [[wr|x|] [vs w]]; cbn [fst snd] in *.
  - assert (Hready : ready_for (rows + chunk) (vs, w)).
    { exists (written ++ [write_body text []]), T'. split; [|done]. rewrite app_assoc.
      destruct He as (c & Hcn & HI & Hs & Ha & Hn). by exists c. }
    assert (Hframe : forall m : Sc (W := Voters * W) report Z, aside m -> returns m (fun n => n = rows + chunk) ->
      wp m (fun r s' => match r with
                  | Ok n => n = rows + chunk /\ ready_for n s'.2
                  | Raise _ => exists n, (n = rows \/ n = rows + chunk) /\ loaded session before T0 p payload n s'.2.2
                  | OutOfFuel => False end) (rep, (vs, w))).
    { intros m Hm Hn. eapply wp_mono; [apply (wp_and _ _ _ _ (Hm (rep, (vs, w))) (Hn (rep, (vs, w))))|].
      intros r [rep' [vs' w']] [(Hr' & Hcs & Hl) Hv]. cbn [fst snd] in *.
      assert (Hready' : ready_for (rows + chunk) (vs', w')).
      { destruct Hready as (wr' & T1 & (c & Hcn & HI & Hs & (dn & tail & HL & Hab) & Hpn) & H2).
        exists wr', T1. split; [|done]. exists c. cbn [fst snd] in *. rewrite Hcs. split; [done|]. split; [done|]. split; [done|].
        split; [|done]. exists dn, tail. cbn [fst snd]. by rewrite Hl. }
      destruct r as [n|e|]; [|exists (rows + chunk); split; [by right|exact (ready_loaded _ _ Hready')]|done].
      rewrite (Hv n eq_refl). by split. }
    apply Hframe.
    + destruct (_ =? 0); [|apply aside_ret].
      repeat (apply aside_bind; [apply aside_free || apply aside_amend || apply aside_check || apply aside_save|intros ?]). apply aside_ret.
    + destruct (_ =? 0); [|by apply returns_ret]. repeat (apply returns_then; intros ?). by apply returns_ret.
  - destruct He as (c & Hcn & HI & Hs & Ha & Hw). cbn [fst snd] in *.
    destruct (abstracts_ledger _ text c w Ha Hs Hw) as [E|E].
    + exists rows. split; [by left|]. by exists written, T.
    + exists (rows + chunk). split; [by right|]. exists (written ++ [write_body text []]), T'. by rewrite app_assoc.
  - destruct He as (c & _ & _ & _ & []).
Qed.

Lemma load_loads fuel rows (s : report * (Voters * W)) :
  (rows < target -> (p | rows)) -> 0 < rows -> target - rows <= Z.of_nat fuel -> ready_for rows s.2 ->
  wp (for_each (load_plan fuel target rows) (fun '(r, _) _ => load_chunk (save_report args) root h verb target r) rows)
     (fun r s' => r <> OutOfFuel /\ exists n, rows <= n <= Z.max rows target /\ loaded session before T0 p payload n s'.2.2 /\
                  forall a, r = Ok a -> a = n /\ n = Z.max rows target) s.
Proof.
  revert rows s. induction fuel as [|fuel IH]; intros rows s Hd Hr Hf Hready; cbn [load_plan].
  { apply wp_ret. split; [done|]. exists rows. split; [lia|]. split; [by apply ready_loaded|]. intros a [= <-]. split; [done|lia]. }
  destruct (rows <? target) eqn:E; unbool.
  2: { apply wp_ret. split; [done|]. exists rows. split; [lia|]. split; [by apply ready_loaded|]. intros a [= <-]. split; [done|lia]. }
  cbn [for_each]. apply wp_bind. assert (Hc : 0 < chunk_of rows target /\ chunk_of rows target <= target - rows) by (unfold chunk_of; lia).
  eapply wp_mono; [apply load_chunk_loads; [by apply Hd|lia|done]|]. intros [n|x|] s' Hs'; [|split; [done|]|done].
  - destruct Hs' as [-> Hs']. eapply wp_mono; [apply IH; [|lia|lia|done]|].
    + intros Hlt. assert (Hcase : chunk_of rows target = rows \/ chunk_of rows target = 4096) by (unfold chunk_of in *; lia).
      destruct Hcase as [->| ->]; apply Z.divide_add_r; auto.
    + intros r s'' (Hr' & m & Hm & Hl & Ha). split; [done|]. exists m. split; [lia|]. split; [done|]. intros a E'. destruct (Ha a E'). split; [done|lia].
  - destruct Hs' as (m & Hm & Hl). exists m. split; [lia|]. by split.
Qed.
End Chunks.
End Loading.

(** C29: the loading loop of the capacity campaign always ends, and puts exactly
    the rows it is meant to put into the table. The service applies a write
    under a sequence number at most once and answers truthfully, over a network
    that may lose any request or reply (the laws of ExactlyOnce.v). Let the table hold
    the ids below [rows], row [i] with the payload of [i mod p], let only this
    session write it, and let [p] divide [rows] and 4096, as 256 does. The effect of each
    statement in the session's ledger is read from its text. Then, when the
    loop returns, the ledger's new statements have made of it the table of the
    ids below the target, each row with its payload; and when it raises, a
    table of the ids below some number in between, never one with a gap, a
    conflict or a wrong payload. *)
Theorem load_exact {W} `{Disk W} `{!EnvLaws W} `{!ExactlyOnce.Service W} `{!DiskApart W} {P} (T : gmap Z (Z * P)) (payload : Z -> P)
    (p rows target : Z) (args : CapacityArgs) (root : pystr) (h : nat) (verb : string) (c : Conn) (s : report * (Voters * W)) :
  verb ∈ ["INSERT"; "INSERT OR IGNORE"]%string -> 0 < p -> (p | 4096) -> (p | rows) -> 0 < rows ->
  n_conns s.2.1 !! h = Some c -> settled (c_session c) (body_of <$> ledger (c_session c) s.2.2) (c, s.2.2) ->
  holds p payload rows T ->
  wp (load (save_report args) root h verb target rows)
     (fun r s' => r <> OutOfFuel /\
        exists n written T', body_of <$> ledger (c_session c) s'.2.2 = (body_of <$> ledger (c_session c) s.2.2) ++ written /\
          executed_all T written = Some T' /\ holds p payload n T' /\ rows <= n <= Z.max rows target /\
          forall a, r = Ok a -> a = n /\ n = Z.max rows target) s.
Proof.
  intros Hv Hp Hp4096 Hd Hr Hc Hset HT. unfold wp, load. rewrite load_is_plan by lia.
  pose proof (load_loads T (c_session c) (body_of <$> ledger (c_session c) s.2.2) p payload args root h verb target Hp Hp4096 Hv
    (Z.to_nat (target - rows)) rows s) as Hl. unfold wp in Hl.
  destruct Hl as (Hf & n & Hn & (written & T' & HL & HT' & Hh) & Ha); [done|done|lia| |].
  - exists [], T. split; [exists c; split; [done|by rewrite app_nil_r]|done].
  - split; [exact Hf|]. by exists n, written, T'.
Qed.

(** ** Verification *)

(** The service counts its rows truthfully. *)
Definition counts_rows (W : Type) `{Probes W} (stored : Z -> bool) : Prop :=
  forall a b, service_scalar (W := W) RANGE_COUNT [PInt a; PInt b] (fun x => x = PInt (range_count stored a b)).

(** C30: a verification that passes has seen every row: if the service counts
    truthfully, none of the ids below the row count can be missing from its
    table, however few queries per voter that took. *)
Theorem verify_covers {W} `{Disk W} (stored : Z -> bool) (rows : Z) (payloads : list pystr) (seed : Z) (s : Voters * W) :
  counts_rows W stored ->
  wp (verify rows payloads seed) (fun r _ => r = Ok tt -> forall id, 0 <= id < rows -> stored id = true) s.
Proof.
  intros Hc. destruct (decide (0 <= rows)) as [Hrows|]; [|apply wp_intro; intros; lia].
  assert (Hn : forall h g, returns (verify_node (W := W) h rows payloads g) (fun _ => range_count stored 0 rows = rows)).
  { intros h g. unfold verify_node. do 2 (apply returns_then; intros _).
    eapply (returns_bind (fun n => n = range_count stored 0 rows)).
    - unfold verify_counts. rewrite <-(ranges_sum stored rows Hrows).
      apply (returns_for_each (fun pre acc => acc = zsum ((fun '(a, b) => range_count stored a b) <$> pre))); [done| |done].
      intros pre [a b] acc ->. eapply returns_bind; [apply returns_scalar, Hc|]. cbv beta. intros x ->.
      eapply (returns_bind (fun n => n = range_count stored a b)); [apply returns_lift; by intros n [= <-]|]. intros n ->.
      apply returns_ret. rewrite fmap_app, zsum_app. cbn. lia.
    - intros n ->. eapply returns_bind; [apply returns_check_that|]. cbv beta. intros ? He.
      eapply returns_mono; [apply returns_any|]. intros ? _. by apply Z.eqb_eq. }
  assert (Hv : returns (verify (W := W) rows payloads seed) (fun _ => range_count stored 0 rows = rows)).
  { unfold verify. eapply (returns_bind (fun _ : Mt => range_count stored 0 rows = rows)); [|intros g Hg; by apply returns_ret].
    apply (returns_for_each (fun pre _ => pre <> [] -> range_count stored 0 rows = rows)); [done| |intros g Hg; by apply Hg].
    intros pre node g _. apply returns_with_conn. intros h. eapply returns_mono; [apply Hn|]. done. }
  eapply wp_mono; [apply Hv|]. intros [[]|e|] s' Hr; [|done..]. intros _ id Hid.
  apply (range_count_full stored 0 rows); [done| |done]. rewrite (Hr tt eq_refl). lia.
Qed.

(** ** Checkpoints *)

(** What a stage's report says of a snapshot: its target is published by every
    voter in the states last seen, none of which reports an error. *)
Definition snapshot_seen (rep : report) : Prop :=
  exists current target,
    stage_get "last_snapshot_states" rep = Some (states_report current) /\ stage_get "snapshot_target" rep = Some (tint target) /\
    current.*1 = [1; 2; 3] /\
    Forall (fun s => exists n, number "generation_prefix" s = Ok n /\ target <= n /\ no_error s = Ok true) current.*2.

Definition has_stage (rep : report) : Prop := exists l d, rget "stages" rep = Some (Arr (l ++ [Obj d])).

Lemma stage_note_get kvs rep :
  has_stage rep -> exists l d, rget "stages" rep = Some (Arr (l ++ [Obj d])) /\
    rget "stages" (rupdate_last "stages" kvs rep) = Some (Arr (l ++ [Obj (rupdate kvs d)])).
Proof.
  intros (l & d & Hl). exists l, d. split; [done|]. unfold rupdate_last. rewrite Hl, last_snoc.
  unfold rget. rewrite dget_dset, decide_True by done. rewrite length_app. cbn [length].
  replace (length l + 1 - 1)%nat with (length l) by lia. by rewrite take_app_length.
Qed.

Lemma stage_get_last k rep l d : rget "stages" rep = Some (Arr (l ++ [Obj d])) -> stage_get k rep = rget k d.
Proof. intros Hl. unfold stage_get. by rewrite Hl, last_snoc. Qed.

Lemma stage_note_stage kvs rep : has_stage rep -> has_stage (rupdate_last "stages" kvs rep).
Proof. intros (l & d & H1 & H2)%(stage_note_get kvs). by exists l, (rupdate kvs d). Qed.

Lemma stage_get_note k v kvs rep : has_stage rep -> stage_get k (rupdate_last "stages" (kvs ++ [(k, v)]) rep) = Some v.
Proof.
  intros (l & d & H1 & H2)%(stage_note_get (kvs ++ [(k, v)])). rewrite (stage_get_last _ _ _ _ H2).
  unfold rupdate. rewrite foldl_app. apply (rget_rset k v).
Qed.

Lemma stage_get_other k kvs rep :
  forallb (fun '(k', _) => negb (pyeqb (py k') (py k))) kvs = true -> has_stage rep ->
  stage_get k (rupdate_last "stages" kvs rep) = stage_get k rep.
Proof.
  intros Hk (l & d & H1 & H2)%(stage_note_get kvs). rewrite (stage_get_last _ _ _ _ H1), (stage_get_last _ _ _ _ H2). by apply rget_rupdate_other.
Qed.

Lemma dset_fresh_keys {A} (k : Z) (x : A) d : k ∉ d.*1 -> (dset k x d).*1 = d.*1 ++ [k].
Proof.
  induction d as [|[k' y] d IH]; intros Hk; cbn [dset]; [done|]. apply not_elem_of_cons in Hk as [Hn Hk]. cbn in Hn.
  rewrite decide_False by congruence. cbn. by rewrite IH.
Qed.

Lemma all_states_Forall p states : all_states p states = Ok true -> Forall (fun s => p s = Ok true) states.*2.
Proof.
  induction states as [|[n s] l IH]; cbn [all_states]; [intros _; constructor|]. intros (b & Hb & Hl)%res_bind_Ok.
  destruct b; [|done]. constructor; [done|by apply IH].
Qed.

Lemma foldl_min l x : foldl Z.min x l <= x /\ Forall (fun y => foldl Z.min x l <= y) l.
Proof.
  revert x. induction l as [|y l IH]; intros x; cbn [foldl]; [split; [lia|constructor]|].
  destruct (IH (Z.min x y)) as [H1 H2]. split; [lia|]. constructor; [lia|done].
Qed.

Lemma min_state_le states lowest :
  over_states min_state (number "generation_prefix") states = Ok lowest ->
  Forall (fun s => exists n, number "generation_prefix" s = Ok n /\ lowest <= n) states.*2.
Proof.
  unfold over_states. intros (values & Hv & Hm)%res_bind_Ok.
  assert (Hle : Forall (fun n => lowest <= n) values).
  { destruct values as [|x l]; [done|]. injection Hm as <-. destruct (foldl_min l x). by constructor. }
  clear Hm. revert values Hv Hle. induction states.*2 as [|s l IH]; intros values; cbn [try_map]; [constructor|].
  intros (n & Hn & (ns & Hns & [= <-])%res_bind_Ok)%res_bind_Ok Hle. apply Forall_cons in Hle as [H1 H2]. constructor; [by exists n|by eapply IH].
Qed.

Section Checkpoint.
Context {W : Type} `{Disk W} (fuel : nat).

Lemma states_nodes : returns (states (W := W)) (fun l => l.*1 = [1; 2; 3]).
Proof.
  unfold states, all_voters. cbn [for_each].
  assert (Hn : forall node (l : list (Z * dict)), node ∉ l.*1 ->
    returns (with_conn (W := W) [node] 5 None (fun h => let! s := call h status in ret (dset node s l))) (fun l' => l'.*1 = l.*1 ++ [node])).
  { intros node l Hl. apply returns_with_conn. intros h. apply returns_then. intros s. apply returns_ret. by apply dset_fresh_keys. }
  eapply returns_bind; [apply (Hn 1 []); by apply not_elem_of_nil|]. cbv beta. intros l1 E1.
  eapply returns_bind; [apply (Hn 2 l1); rewrite E1; set_solver|]. cbv beta. intros l2 E2.
  eapply returns_bind; [apply (Hn 3 l2); rewrite E2, E1; set_solver|]. cbv beta. intros l3 E3.
  apply returns_ret. by rewrite E3, E2, E1.
Qed.

(** A step on the host, with what it returns. *)
Lemma wp_v_returns {A} (m : V (W := W) A) (P : A -> Prop) (Q : res exn A -> report * (Voters * W) -> Prop) s :
  returns m P -> (forall r w, (forall a, r = Ok a -> P a) -> Q r (s.1, w)) -> wp (v m) Q s.
Proof. intros Hm HQ. apply wp_on_host. eapply wp_mono; [apply Hm|]. intros r w Hr. by apply HQ. Qed.

Lemma save_report_keeps args (Q : res exn unit -> report * (Voters * W) -> Prop) s :
  (forall r w, Q r (s.1, w)) -> wp (save_report args) Q s.
Proof. intros HQ. apply wp_bind, wp_gets. apply wp_host_step. apply HQ. Qed.

(** The end of a round that found every state published. *)
Lemma checkpoint_done before current (target : option Z) required (s : report * (Voters * W)) :
  has_stage s.1 -> stage_get "last_snapshot_states" s.1 = Some (states_report current) -> current.*1 = [1; 2; 3] ->
  all_states no_error current = Ok true -> all_states (published (target_or target required)) current = Ok true ->
  wp (let! lowest := v (lift (over_states min_state (number "generation_prefix") current)) in
      let! now := v (base (io monotonic)) in
      do! stage_note [("snapshot_target"%string, tint (target_or target lowest)); ("snapshot_seconds"%string, Num (now - before)%Q)];;
      ret (inr target : option Z + option Z))
     (fun r s' => match r with Ok (inr _) => snapshot_seen s'.1 | Ok (inl _) => False | _ => True end) s.
Proof.
  intros Hst Hlast Hn Hf Hp. apply wp_bind. eapply wp_v_returns; [apply (returns_lift _ (fun a => over_states min_state (number "generation_prefix") current = Ok a)); by intros ? ->|].
  intros [lowest|e|] w1 Hlow; [|done..]. specialize (Hlow lowest eq_refl). apply wp_bind, wp_host_step. intros [now|e|] w2; [|done..].
  apply wp_bind, wp_amend, wp_ret. cbn [fst snd].
  exists current, (target_or target lowest). split_and!.
  - by rewrite stage_get_other.
  - destruct (stage_note_get [("snapshot_target"%string, tint (target_or target lowest)); ("snapshot_seconds"%string, Num (now - before)%Q)] s.1 Hst) as (l & d & _ & Hg).
    rewrite (stage_get_last _ _ _ _ Hg). change (rupdate ?kvs d) with (rupdate (drop 1 kvs) (rupdate (take 1 kvs) d)).
    cbn [take drop]. rewrite rget_rupdate_other by done. apply rget_rset.
  - done.
  - apply all_states_Forall in Hf, Hp. apply min_state_le in Hlow. apply Forall_forall. intros x Hx.
    rewrite Forall_forall in Hf, Hp, Hlow. specialize (Hf x Hx). specialize (Hp x Hx). destruct (Hlow x Hx) as (n & En & Hle).
    exists n. split; [done|]. split; [|done]. unfold published in Hp. rewrite En in Hp. injection Hp as Hp. unbool.
    unfold target_or in *. destruct target as [t|]; [destruct (t =? 0)|]; lia.
Qed.

Lemma ask_snapshot_keeps (s : report * (Voters * W)) : has_stage s.1 -> wp ask_snapshot (fun _ s' => has_stage s'.1) s.
Proof.
  intros Hst. unfold ask_snapshot. apply wp_bind, wp_try_except, wp_bind, wp_host_step. intros [target|e|] w1; [| |done].
  - apply wp_bind, wp_amend, wp_ret. apply wp_ret. by apply stage_note_stage.
  - destruct (isinstance e CConnectionError); [|done]. destruct (pyeqb _ _); [|by apply wp_throw]. apply wp_ret.
    apply wp_bind, wp_gets. apply wp_bind, wp_amend, wp_ret. by apply stage_note_stage.
Qed.

(** A checkpoint that passes is on record: when it returns, the stage's
    report holds a snapshot target and the last states of voters 1, 2 and 3, in
    which every voter has published a generation up to that target and none
    reports a snapshot error. *)
Theorem checkpoint_published (args : CapacityArgs) (payload_bytes : Z) (s : report * (Voters * W)) :
  has_stage s.1 ->
  wp (checkpoint fuel (save_report args) payload_bytes) (fun r s' => r = Ok tt -> snapshot_seen s'.1) s.
Proof.
  intros Hst. unfold checkpoint. apply wp_bind, wp_host_step. intros [before|e|] w1; [|done..].
  apply wp_bind, wp_host_step. intros [first|e|] w2; [|done..]. apply wp_bind, wp_host_step. intros [required|e|] w3; [|done..].
  cbn zeta. apply wp_bind, wp_amend. cbn [fst snd]. apply wp_bind.
  apply (wp_while (fun _ s' => has_stage s'.1)); [by apply stage_note_stage| |done].
  clear s Hst w1 w2 w3. intros target s Hst. apply wp_bind, wp_host_step. intros [now|e|] w1; [|done..].
  destruct (Qle_bool _ _); [by apply wp_throw|]. apply wp_bind. eapply wp_v_returns; [apply states_nodes|].
  intros [current|e|] w2 Hc; [|done..]. specialize (Hc current eq_refl).
  apply wp_bind, wp_amend. cbn [fst snd]. set (rep := rupdate_last _ _ _).
  assert (Hrep : has_stage rep) by (by apply stage_note_stage).
  assert (Hlast : stage_get "last_snapshot_states" rep = Some (states_report current)) by (by apply (stage_get_note _ _ [])).
  clearbody rep. apply wp_bind. eapply wp_v_returns; [apply (returns_lift _ (fun a => all_states no_error current = Ok a)); by intros ? ->|].
  intros [fine|e|] w3 Hfine; [|done..]. specialize (Hfine fine eq_refl). apply wp_bind. eapply wp_v_returns; [apply returns_check_that|].
  intros [[]|e|] w4 Hok; [|done..]. rewrite (Hok tt eq_refl) in Hfine.
  apply wp_bind. eapply wp_v_returns; [apply (returns_lift _ (fun a => all_states (published (target_or target required)) current = Ok a)); by intros ? ->|].
  intros [done_|e|] w5 Hdone; [|done..]. specialize (Hdone done_ eq_refl). destruct done_.
  - eapply wp_mono; [by apply (checkpoint_done before current target required)|].
    intros [[a|a]|e|] s' Hs; [done|by apply wp_ret|done|done].
  - apply wp_bind, wp_host_step. intros [quiet|e|] w6; [|done..]. apply wp_bind.
    eapply wp_mono with (P := fun _ s' => has_stage s'.1).
    + destruct (_ && _); [by apply ask_snapshot_keeps|by apply wp_ret].
    + intros [t'|e|] s' Hs'; [|done..]. apply wp_bind, save_report_keeps. intros [[]|e|] w7; [|done..].
      apply wp_bind, wp_host_step. intros [[]|e|] w8; [|done..]. by apply wp_ret.
Qed.
End Checkpoint.

(** ** A campaign's steps by evaluation *)
(** The lossy service of ExactlyOnce.v with a disk: eight rows of four payloads
    become twenty, although the second copy's reply is lost twice. *)
Module LoadDemo.
#[local] Instance load_host : Host Lossy :=
  quiet_host (fun w => (l_now w, w)) (fun d w => mkLossy (Qred (l_now w + d)) (l_fates w) (l_ledger w) (l_sent w)) (fun _ => None) true.
#[local] Instance load_service : Service Lossy := {
  v_host := load_host; v_env := lossy_env; v_spawn _ _ w := (Ok 0, w); v_poll _ w := (None, w); v_kill _ w := w;
  v_terminate _ w := w; v_wait _ _ w := (Ok 0, w); v_port w := (Ok 0, w); v_chmod _ _ w := w; v_seed _ w := w;
  v_random w := (1 # 2, w); v_randrange n w := (0, w)
}.
#[local] Instance load_probes : Probes Lossy := {
  x_service := load_service; x_exchange_as _ _ _ _ w := (Raise (ConnectionError (py "refused")), w); x_send_frame _ _ w := (Ok None, w)
}.
#[local] Instance load_disk : Disk Lossy := {
  d_probes := load_probes; d_platform := {| clk_tck := 100; page_size := 4096 |}; d_stat _ w := (Ok (10, 8), w);
  d_free _ w := (2 ^ 50, w); d_is_dir _ w := (true, w); d_wakes w := (0%nat, w)
}.
#[local] Instance load_laws : EnvLaws Lossy := lossy_laws.
#[local] Instance load_ledger : ExactlyOnce.Service Lossy := lossy_service.
#[local] Instance load_apart : DiskApart Lossy.
Proof.
  constructor.
  - intros session path w. reflexivity.
  - intros session path data w. reflexivity.
  - intros path data w. cbn. discriminate.
Defined.

Definition args : CapacityArgs := mkCapacityArgs (py "sqlodin") (py "/tmp/out.json") [10] None None false.
Definition network (fates : list fate) : Lossy := mkLossy 0 fates [] [].
Definition start (fates : list fate) : report * (Voters * Lossy) :=
  (fields [("stages"%string, Arr [Obj []])],
   (mkVoters (py "/tmp/run") (py "sqlodin") [] [] [LossyDemo.conn] (py "test"), network fates)).
Definition payload (i : Z) : Z := 100 + i.
Definition eight : gmap Z (Z * Z) := list_to_map ((fun i => (i, (i, payload (i mod 4)))) <$> seqZ 0 8).

Lemma eight_holds : holds 4 payload 8 eight.
Proof.
  intros i. destruct (decide (0 <= i < 8)) as [Hi|Hi].
  - rewrite bool_decide_eq_true_2 by done.
    assert (Hall : forallb (fun i => bool_decide (snd <$> eight !! i = Some (payload (i mod 4)))) (seqZ 0 8) = true) by (vm_compute; reflexivity).
    rewrite forallb_forall in Hall. apply (bool_decide_eq_true _), Hall, list_elem_of_In, elem_of_seqZ. lia.
  - rewrite bool_decide_eq_false_2 by done. unfold eight. rewrite not_elem_of_list_to_map_1; [done|].
    rewrite <-list_fmap_compose. intros (k & -> & Hk%elem_of_seqZ)%list_elem_of_fmap. cbn in Hi. lia.
Qed.

Definition fates : list fate := [Deliver; Deliver; LoseReply; LoseReply; Deliver].
Lemma load_exact_witness :
  let '(r, s) := load (save_report args) (py "/tmp/run") 0 "INSERT" 20 8 (start fates) in
  r = Ok 20 /\ exists written T, body_of <$> ledger (c_session LossyDemo.conn) s.2.2 = written /\ executed_all eight written = Some T /\ holds 4 payload 20 T.
Proof.
  assert (Hr : (load (save_report args) (py "/tmp/run") 0 "INSERT" 20 8 (start fates)).1 = Ok 20) by (vm_compute; reflexivity).
  pose proof (load_exact eight payload 4 8 20 args (py "/tmp/run") 0 "INSERT" LossyDemo.conn (start fates)) as Hl. unfold wp in Hl.
  destruct (load _ _ _ _ _ _ _) as [r s]. cbn [fst] in *. subst r. split; [done|].
  destruct Hl as (_ & n & written & T & HL & HT & Hh & _ & Ha).
  - by left.
  - done.
  - by exists 1024.
  - by exists 2.
  - done.
  - done.
  - split; [|split; [done|split; [|done]]].
    + apply (Connection_new_Inv LossyDemo.endpoints (py "test") (1 # 50) None LossyDemo.world LossyDemo.conn LossyDemo.world); [done|reflexivity].
    + exists [], []. split; [reflexivity|]. split; [reflexivity|]. split; [constructor|by left].
  - exact eight_holds.
  - destruct (Ha 20 eq_refl) as [_ ->]. by exists written, T.
Defined.
End LoadDemo.

Module CapacityDemo.
(** A service holding the ids below [demo_rows], each row's payload [A]s. *)
Definition demo_rows : Z := 300.
Definition stored (id : Z) : bool := (0 <=? id) && (id <? demo_rows).

#[local] Instance demo_host : Host Z := quiet_host (fun w => (w # 1000, w + 1)) (fun _ w => w + 1) (fun _ => None) true.

Definition integer (n : Z) : pyval := PDict (mkdict [("kind", PStr (py "Integer")); ("integer", PInt n)]%string).
Definition text (s : pystr) : pyval := PDict (mkdict [("kind", PStr (py "Text")); ("text", PStr s)]%string).
Definition ids_of (parameters : pyval) : list Z :=
  match parameters with
  | PList l => omap (fun p => match p with PDict d => as_int (get_or (py "integer") PNone d) | _ => None end) l
  | _ => []
  end.
Definition RANGE_TEXT : pystr := py "SELECT count(*) FROM capacity WHERE id>=?1 AND id<?2".
Definition cells (sql : pystr) (ids : list Z) : list pyval :=
  if pyeqb sql RANGE_TEXT then match ids with [a; b] => [integer (range_count stored a b)] | _ => [] end
  else if is_prefix (py "SELECT length") sql then [integer 4096; text (hex_upper (replicate 32 65))]
  else if is_prefix (py "SELECT max") sql then [integer (demo_rows - 1)] else [integer 0].
Definition reply (request : dict) : dict :=
  let cs := match dict_get (py "sql") request with
            | Some (PStr sql) => cells sql (ids_of (get_or (py "parameters") PNone request))
            | _ => []
            end in
  mkdict [("cluster", get_or (py "cluster") PNone request); ("protocol", PInt 1); ("status", PStr (py "ok"));
          ("error", PStr []); ("node", PInt 1); ("applied", PInt 5); ("changes", PInt 0); ("sequence", PInt 0);
          ("columns", PList ((fun _ => PStr (py "c")) <$> cs)); ("rows", PList [PList cs]); ("policy", PInt 9);
          ("snapshot_prefix", PInt 5); ("snapshot_sealed", PInt 5); ("snapshot_error", PStr []); ("generation_prefix", PInt 5)]%string.

#[local] Instance demo_env : Env Z := {
  monotonic w := (w # 1000, w + 1); sleep _ w := w + 1; token_hex16 w := (concat (replicate 32 (py "a")), w);
  exchange _ request _ w := (Ok (reply request), w + 1); tclose w := w
}.
#[local] Instance demo_service : Service Z := {
  v_host := demo_host; v_env := demo_env; v_spawn _ _ w := (Ok w, w + 1); v_poll _ w := (None, w); v_kill _ w := w;
  v_terminate _ w := w; v_wait _ _ w := (Ok 0, w); v_port w := (Ok w, w + 1); v_chmod _ _ w := w; v_seed _ w := w;
  v_random w := (1 # 2, w); v_randrange n w := (w mod n, w + 1)
}.
#[local] Instance demo_probes : Probes Z := {
  x_service := demo_service; x_exchange_as _ _ _ _ w := (Raise (ConnectionError (py "refused")), w); x_send_frame _ _ w := (Ok None, w)
}.
#[local] Instance demo_platform : Platform := { clk_tck := 100; page_size := 4096 }.
#[local] Instance demo_disk : Disk Z := {
  d_probes := demo_probes; d_platform := demo_platform; d_stat _ w := (Ok (10, 8), w); d_free _ w := (2 ^ 50, w);
  d_is_dir _ w := (true, w); d_wakes w := (0%nat, w)
}.

Definition demo_members : list Member :=
  (fun i => mkMember i (fstr [L "127.0.0.1:"; D (27600 + i)]) (fstr [L "node"; D i; L ".sqlodin.test"])) <$> all_voters.
Definition demo_voters : Voters := mkVoters (py "/tmp/run") (py "sqlodin") demo_members [] [] (py "network-qualification").
Definition demo_args : CapacityArgs := mkCapacityArgs (py "sqlodin") (py "/tmp/out.json") [10] None None false.
Definition demo_stage : report := fields [("stages"%string, Arr [Obj []])].

Lemma encode_int n e : encode (PInt n) = Ok e -> e = PDict (mkdict [("kind", PStr (py "integer")); ("integer", PInt n)]%string).
Proof. unfold encode. cbn [isinstance_int default]. intros (u & _ & [= <-])%res_bind_Ok. done. Qed.

(** The demo service counts truthfully. *)
Lemma demo_stored_counts : counts_rows Z stored.
Proof.
  intros a b rows x (tv & params & e & q & t & w0 & resp & w1 & Hp & He & Hx & _ & Hs & Hq & Hd) Hv.
  assert (Htv : tv = (RANGE_TEXT, [PInt a; PInt b])).
  { unfold prepare in Hp. apply res_bind_Ok in Hp as (u & _ & Hp). apply res_bind_Ok in Hp as (vs & [= <-] & Hp).
    do 3 (apply res_bind_Ok in Hp as (? & _ & Hp)). vm_compute in Hp. by injection Hp as <-. }
  subst tv. cbn [fst snd encode_all] in *.
  apply res_bind_Ok in He as (ea & Ha%encode_int & He). apply res_bind_Ok in He as (es & He & [= <-]).
  apply res_bind_Ok in He as (eb & Hb%encode_int & [= <-]). subst ea eb.
  cbn [exchange demo_env] in Hx. injection Hx as <- _. unfold reply in Hd. rewrite Hs in Hd. unfold get_or in Hd. rewrite Hq in Hd.
  revert Hd. generalize (default PNone (dict_get (py "cluster") q)). intros cluster.
  change (cells RANGE_TEXT _) with [integer (range_count stored a b)]. generalize (range_count stored a b). intros n Hd.
  vm_compute in Hd. injection Hd as <-. cbn in Hv. by injection Hv as <-.
Qed.

(** Both ranges of a verification of 20000 rows. *)
Example demo_ranges : verify_ranges 20000 = [(0, 16384); (16384, 20000)].
Proof. vm_compute. reflexivity. Qed.

Lemma verify_covers_witness :
  (verify demo_rows [replicate 4096 65] 7 (demo_voters, 0)).1 = Ok tt /\ (forall id, 0 <= id < demo_rows -> stored id = true).
Proof.
  assert (Hr : (verify demo_rows [replicate 4096 65] 7 (demo_voters, 0)).1 = Ok tt) by (vm_compute; reflexivity).
  split; [exact Hr|]. pose proof (verify_covers stored demo_rows [replicate 4096 65] 7 (demo_voters, 0) demo_stored_counts) as Hw.
  unfold wp in Hw. destruct (verify _ _ _ _) as [r s]. exact (Hw Hr).
Defined.

Example demo_plan : load_plan 100 1000 256 = [(256, 256); (512, 488)].
Proof. vm_compute. reflexivity. Qed.

Lemma checkpoint_published_witness :
  let '(r, s) := checkpoint 3 (save_report demo_args) 0 (demo_stage, (demo_voters, 0)) in r = Ok tt /\ snapshot_seen s.1.
Proof.
  assert (Hst : has_stage demo_stage) by (by exists [], []).
  pose proof (checkpoint_published 3 demo_args 0 (demo_stage, (demo_voters, 0)) Hst) as Hw. unfold wp in Hw.
  assert (Hr : (checkpoint 3 (save_report demo_args) 0 (demo_stage, (demo_voters, 0))).1 = Ok tt) by (vm_compute; reflexivity).
  destruct (checkpoint _ _ _ _) as [r s]. cbn [fst] in Hr. split; [exact Hr|exact (Hw Hr)].
Defined.
End CapacityDemo.
