(* ===== verification/Lab.v ===== *)
(** * What the longer qualification scripts share

    check_live_compaction.py, check_snapshot_catchup.py, check_migration.py,
    check_backup_service.py, check_certificate_lifecycle.py,
    check_legacy_epoch_restore.py, check_admission.py and
    check_storage_faults.py run three voters like the scripts of ServiceChecks;
    they also read SQLite files, copy and damage directories, start a voter
    under an injected library, open raw sockets and connect with other
    credentials.  [Lab] is that interface; the shapes of their [try] blocks
    are here. *)

From Stdlib Require Import QArith.
From S2P Require Import Prelude PyStr PyFloat Objects Json Vector Text Parameters Results Net Client Transport Dict Host Script Service ServiceChecks Snapshots Recovery Resource Capacity.
#[local] Open Scope Z_scope.

Class Lab (W : Type) := {
  lab_disk :: Disk W;
  (** [sqlite3.connect(path)], [db.execute(sql)] with the rows it fetches, and
      leaving [with db], after success or an exception *)
  l_connect : pystr -> W -> pyres Z * W;
  l_execute : Z -> pystr -> W -> pyres (list (list pyval)) * W;
  l_exit : Z -> bool -> W -> pyres unit * W;
  (** [shutil.copytree], [path.unlink()], [path.symlink_to(target)], [f.seek(n); f.write(bytes)] *)
  l_copytree : pystr -> pystr -> W -> pyres unit * W;
  l_unlink : pystr -> W -> pyres unit * W;
  l_symlink : pystr -> pystr -> W -> pyres unit * W;
  l_write_at : pystr -> Z -> list Z -> W -> pyres unit * W;
  (** [subprocess.Popen(argv, stdout=log, stderr=log, env=...)] *)
  l_spawn_env : list pystr -> pystr -> list (pystr * pystr) -> W -> pyres Z * W;
  (** [socket.create_connection((host, port), timeout)], [sock.close()], and
      the sockets not closed yet *)
  l_socket : pystr -> Z -> Q -> W -> pyres Z * W;
  l_close_socket : Z -> W -> W;
  l_sockets : W -> list Z;
  (** an exchange with the given credentials, over a transport of its own *)
  l_exchange_with : TLS -> Endpoint -> dict -> Q -> W -> pyres dict * W;
  (** connections opened from here on use the credentials under a directory *)
  l_credentials : pystr -> W -> W
}.

Section Lab.
Context {W : Type} `{Lab W} (fuel : nat).
Abbreviation K := (Sc (W := Voters * W) report).
Abbreviation VM := (V (W := W)).

(** ** SQLite files *)

Definition file_uri (path : pystr) (options : string) : pystr := py "file:" ++ path ++ py options.

(** [with sqlite3.connect(path) as db: body] *)
Definition with_sqlite {A} (path : pystr) (body : Z -> VM A) : VM A :=
  let! db := base (io_res (l_connect path)) in
  let! x := try_except (body db) (fun e => Some (do! base (io_res (l_exit db false));; throw e)) in
  do! base (io_res (l_exit db true));;
  ret x.
Definition sqlite_rows (db : Z) (sql : string) : VM (list (list pyval)) := base (io_res (l_execute db (py sql))).
Definition sqlite_do (db : Z) (sql : string) : VM unit := let! _ := sqlite_rows db sql in ret tt.
(** [db.execute(sql).fetchone()], unpacked or indexed: [None] is no row. *)
Definition fetchone (db : Z) (sql : string) : VM (list pyval) :=
  let! rows := sqlite_rows db sql in
  match rows with row :: _ => ret row | [] => throw (TypeError "cannot unpack non-iterable NoneType object") end.
(** [name, = db.execute(sql).fetchone()] *)
Definition fetch_text (db : Z) (sql : string) : VM pystr :=
  let! row := fetchone db sql in
  match row with [x] => lift (vstr x) | _ => throw (ValueError "too many values to unpack (expected 1)") end.
(** [assert db.execute(sql).fetchone() == (n,)] *)
Definition expect_row (db : Z) (sql : string) (n : Z) : VM unit :=
  let! rows := sqlite_rows db sql in
  check_that (match rows with [x] :: _ => eq_int x n | _ => false end).

(** ** Voters *)

Definition set_binary (binary : pystr) (c : Voters) : Voters :=
  mkVoters (n_root c) binary (n_members c) (n_processes c) (n_conns c) (n_namespace c).

Definition restart_all : VM unit := do! stop_all;; start_all false.
Definition ready_all : VM unit := for_do all_voters (ready_one fuel).
(** [for node in (1, 2, 3): ready(c, node); with c.connect((node,)) as db: body] *)
Definition each_ready (body : nat -> VM unit) : VM unit :=
  for_do all_voters (fun node => do! ready_one fuel node;; with_conn [node] 10 None body).

(** [json.loads(path.read_text())] of every voter's configuration *)
Definition configurations : VM (list (Z * pyval)) :=
  for_each all_voters (fun node acc =>
    let! path := config_path node in
    let! config := base (read_json path) in ret (dset node config acc)) [].

(** Another command of a binary, with its result. *)
Definition binary_command (binary : pystr) (argv : list pystr) : VM Finished :=
  base (io_res (h_run (binary :: argv) [] (Some 120%Q))).

(** ** The shapes of the scripts *)

(** [with tempfile.TemporaryDirectory(dir=scratch) as directory: run] *)
Definition in_directory (scratch : pystr) (run : pystr -> K unit) : K unit :=
  let! work := v (io_res (h_mkdtemp [] scratch)) in
  try_finally (run work) (v (io_res (h_remove work))).
(** [except BaseException as exc: report['error'] = repr(exc); raise] *)
Definition noting_error (body : K unit) : K unit :=
  recording (fun e => rupdate [("error"%string, tstr (repr_exn e))]) body.
(** [finally: args.output.write_text(json.dumps(report))] *)
Definition written_last (output : pystr) (body : K unit) : K unit := writing output Obj body.
(** The same after the digests of the sources. *)
Definition sources_last (ROOT output : pystr) (folders : list string) (body : K unit) : K unit :=
  try_finally body
    (let! sources := v (odin_sources ROOT folders) in
     do! amend (rupdate [("sources"%string, manifest_report sources)]);;
     let! rep := reported in v (io_res (h_write_json output (Obj rep)))).

(** What always ends a cluster: the voters are closed and their logs kept. *)
Definition close_and_log (kept : nat) (work : pystr) (closed : VM unit) : K unit :=
  do! v close_voters;;
  do! v closed;;
  let! logs := v (last_logs kept work (py "*.log")) in
  amend (rupdate [("logs"%string, manifest_report logs)]).

(** A cluster around its checks, which return what the verdict adds;
    [ending] runs first on the way out, [closed] once the voters are. *)
Definition session_run {A} (maintenance : string) (binary openssl : pystr) (storage_format : Z) (kept : nat)
    (prepare : VM A) (body : A -> K (list (string * tv))) (ending : K unit) (closed : VM unit) (work : pystr) : K unit :=
  let! c := v (base (Voters_new work binary openssl storage_format maintenance)) in
  do! v (with_cluster (fun _ => c));;
  let! prepared := v prepare in
  try_finally
    (let! extra := body prepared in amend (rupdate ([("complete", tbool true); ("passed", tbool true)]%string ++ extra)))
    (do! ending;; close_and_log kept work closed).

(** [assert not state['snapshot_error']] *)
Definition expect_no_error (s : dict) : VM unit :=
  let! fine := lift (no_error s) in check_that fine.

(** A [main]: arguments refused, or a script run from an empty report. *)
Definition lab_main (refused : VM bool) (message : string) (script : K unit) : Hm (W := W) unit :=
  fun w =>
    let '(r, s) := (let! bad := v refused in if (bad : bool) then parser_error message else script) ([], (no_voters, w)) in
    (r, s.2.2).
End Lab.
