(* ===== verification/Upgrade.v ===== *)
(** * Migration, upgrades, backups and certificates
    (tools/check_migration.py, check_legacy_epoch_restore.py,
    check_backup_service.py, check_certificate_lifecycle.py)

    Stopped voters are migrated to the current format without touching their
    source; until they are activated the retained binary can go back to it.  A
    backup made by a binary older than session epochs is restored by the current
    one, with the identity of a write saved before it. *)

From Stdlib Require Import QArith.
From S2P Require Import Prelude PyStr PyFloat Objects Json Vector Text Parameters Results Net Client Transport Dict Host Script Service ServiceChecks Snapshots Recovery Resource Capacity Lab.
#[local] Open Scope Z_scope.

Record MigrationArgs := mkMigrationArgs {
  mg_binary : pystr; mg_output : pystr; mg_old_binary : option pystr; mg_operations : Z; mg_openssl : pystr
}.
Record LegacyArgs := mkLegacyArgs { lg_old_binary : pystr; lg_binary : pystr; lg_output : pystr }.

Section Upgrade.
Context {W : Type} `{Lab W} (fuel : nat).
Abbreviation K := (Sc (W := Voters * W) report).
Abbreviation VM := (V (W := W)).

(** ** check_migration.py *)

(** The digests of a voter's database and write-ahead log, those that exist. *)
Definition hashes (directory : pystr) : VM (list (pystr * pystr)) :=
  for_each [py "node.db"; py "node.db-wal"] (fun name acc =>
    let! present := base (io (h_exists (join_path directory name))) in
    if (present : bool) then let! digest := file_sha256 (join_path directory name) in ret (dset name digest acc)
    else ret acc) [].

(** [migrate(root, node, destination)] *)
Definition migrate (args : MigrationArgs) (node : Z) (destination : pystr) : VM Finished :=
  let! binary := base (gets (h_resolve (mg_binary args))) in
  let! path := config_path node in
  binary_command binary [py "migrate"; path; destination].

(** A migration that must succeed and leave its source alone. *)
Definition migrate_aside (args : MigrationArgs) (node : Z) (prefix : string) : VM pystr :=
  let! data := rooted (fstr [L "data"; D node]) in
  let! destination := rooted (fstr [L prefix; D node]) in
  let! before := hashes data in
  let! result := migrate args node destination in
  do! check_that (returncode result =? 0);;
  let! after := hashes data in
  do! check_that (bool_decide (after = before));;
  ret destination.

Definition INSERT_ITEM : pystr := py "INSERT INTO migration_items VALUES(?,?)".
Definition COUNT_MIGRATED : pystr := py "SELECT count(*) FROM migration_items".

Definition insert_items (operations : Z) : VM unit :=
  for_do (seq 0 (Z.to_nat operations)) (fun i =>
    let i := Z.of_nat i in
    with_conn [i mod 3 + 1] 10 None (fun h => run_sql h INSERT_ITEM [PInt i; PStr (fstr [L "item-"; D i])])).

(** Copies that are never activated, and the retained binary on the source. *)
Definition roll_back (args : MigrationArgs) (original : list (Z * pystr)) : VM unit :=
  do! for_do all_voters (fun node =>
    let! _ := migrate_aside args node "abandoned-format5-" in
    let! path := config_path node in
    let! text := base (io_res (h_read_text path)) in
    let! kept := lift (dindex node original) in
    check_that (pyeqb text kept));;
  do! start_all false;;
  do! for_do all_voters (fun node =>
    do! ready_one fuel node;;
    with_conn [node] 10 None (fun h =>
      do! expect_scalar h COUNT_MIGRATED [] (mg_operations args);;
      run_sql h (py "UPDATE migration_items SET value=? WHERE id=?") [PStr (fstr [L "rollback-"; D node]); PInt (node - 1)]));;
  stop_all.

(** Each voter migrated for good, its configuration replaced by the one the
    migration wrote. *)
Definition migrate_all (args : MigrationArgs) : VM unit :=
  for_do all_voters (fun node =>
    let! destination := migrate_aside args node "format5-" in
    let! config := base (read_json (join_path destination (py "node.json"))) in
    let! format := lift (vget "storage_format" config) in
    let! data := lift (vget "data" config) in
    do! check_that (eq_int format 5 && eq_str data destination);;
    write_config node config).

(** What item [i] holds once the migrated voters serve it. *)
Definition item_text (rolled_back : bool) (i : Z) : pystr :=
  if rolled_back && (i <? 3) then fstr [L "rollback-"; D (i + 1)] else fstr [L "item-"; D i].
Definition expect_items (rolled_back : bool) (operations : Z) (h : nat) : VM unit :=
  let! rows := db_query h (py "SELECT id,value FROM migration_items ORDER BY id") [] in
  let ids := Z.of_nat <$> seq 0 (Z.to_nat operations) in
  let! keys := lift (column "id" rows) in
  let! values := lift (column "value" rows) in
  check_that (same_cells keys (PInt <$> ids) && same_cells values ((fun i => PStr (item_text rolled_back i)) <$> ids)).

Definition migration_checks (args : MigrationArgs) (original : list (Z * pystr)) : K (list (string * tv)) :=
  do! v (start_all true);;
  do! v (ready_all fuel);;
  do! v (with_conn all_voters 10 None (fun h => run_sql h (py "CREATE TABLE migration_items(id INTEGER PRIMARY KEY, value TEXT)") []));;
  do! v (insert_items (mg_operations args));;
  let! refused := v (rooted (py "refused-live")) in
  let! live := v (migrate args 1 refused) in
  do! v (check_that ((returncode live =? 1) && text_in (py "Locked") (stderr live)));;
  do! record "live_source_refused";;
  do! v stop_all;;
  do! (if bool_decide (mg_old_binary args <> None) then
         do! v (roll_back args original);;
         record "preactivation_rollback_runs_retained_binary_and_source_with_new_acknowledged_writes"
       else ret tt);;
  let! binary := v (base (gets (h_resolve (mg_binary args)))) in
  do! v (with_cluster (set_binary binary));;
  do! v (migrate_all args);;
  do! record "all_voters_migrated_source_database_and_wal_unchanged";;
  do! v (start_all false);;
  do! v (each_ready fuel (expect_items (bool_decide (mg_old_binary args <> None)) (mg_operations args)));;
  do! v (for_do all_voters (fun node =>
    with_conn [node] 10 None (fun h => run_sql h INSERT_ITEM [PInt (10000 + node); PStr (py "new")])));;
  do! record "migrated_voters_serve_exact_data_and_accept_writes_on_every_node";;
  do! v restart_all;;
  do! v (each_ready fuel (fun h => expect_scalar h COUNT_MIGRATED [] (mg_operations args + 3)));;
  do! record "second_full_restart_preserves_old_and_new_writes";;
  ret [].

(** The cluster runs the retained binary if there is one. *)
Definition first_binary (args : MigrationArgs) : pystr := default (mg_binary args) (mg_old_binary args).

Definition migration_report (ROOT : pystr) (args : MigrationArgs) : K unit :=
  let! binary := v (file_sha256 (mg_binary args)) in
  do! amend (rupdate [("complete", tbool false); ("passed", tbool false); ("checks", Arr []);
    ("operations", tint (mg_operations args)); ("binary_sha256", tstr binary)]%string);;
  do! v (io_res (h_mkdir (path_parent (mg_output args))));;
  do! match mg_old_binary args with
      | Some old => let! digest := v (file_sha256 old) in amend (rupdate [("old_binary_sha256"%string, tstr digest)])
      | None => ret tt
      end;;
  let scratch := join_path ROOT (py "build/migration-work") in
  written_last (mg_output args) (noting_error
    (do! v (io_res (h_mkdir scratch));;
     in_directory scratch (fun work =>
       do! note_filesystem rupdate h_linux work;;
       let! binary := v (base (gets (h_resolve (first_binary args)))) in
       session_run "manual" binary (mg_openssl args) 4 6000 originals (migration_checks args) (ret tt) (ret tt) work))).
Definition migration_main (ROOT : pystr) (args : MigrationArgs) : Hm (W := W) unit :=
  lab_main (if mg_operations args <? 6 then ret true else base (io (h_exists (mg_output args))))
    "Use at least six operations and a new evidence file" (migration_report ROOT args).

(** ** check_legacy_epoch_restore.py *)

(** [command(binary, ...)]: it must succeed. *)
Definition legacy_command (binary : pystr) (argv : list pystr) : VM unit :=
  let! binary := base (gets (h_resolve binary)) in
  let! result := binary_command binary argv in
  check_that (returncode result =? 0).

Definition LEGACY_BUMP : pystr := py "UPDATE legacy SET v=v+1".
Definition LEGACY_VALUE : pystr := py "SELECT v FROM legacy".

(** Up to the backup the current binary verifies. *)
Definition legacy_backup (args : LegacyArgs) (saved : PendingWrite) (backup : pystr) : VM unit :=
  do! resolve_on [1] saved (fun h => expect_scalar h LEGACY_VALUE [] 1);;
  do! stop 1;;
  let! path := config_path 1 in
  do! legacy_command (lg_old_binary args) [py "backup"; path; backup];;
  do! legacy_command (lg_binary args) [py "verify-backup"; backup];;
  do! stop 2;;
  stop 3.

(** The current binary and a fresh name; each voter restored into new data. *)
Definition legacy_restore (args : LegacyArgs) (backup : pystr) : VM unit :=
  let! binary := base (gets (h_resolve (lg_binary args))) in
  do! with_cluster (fun c => set_binary binary (set_namespace (py "epoch-upgraded-recovery") c));;
  for_do all_voters (fun node =>
    let! path := config_path node in
    let! config := base (read_json path) in
    let! config := renamed_config "upgraded" node config in
    do! write_config node config;;
    legacy_command (lg_binary args) [py "restore"; backup; path; py "--new-cluster"]).

(** The old identity is answered once more, then retired with its epoch. *)
Definition legacy_retire (saved : PendingWrite) : VM unit :=
  do! resolve_on [3] saved (fun h => do! expect_scalar h LEGACY_VALUE [] 1;; expect_epoch h 0 1);;
  do! with_conn [2] 10 (Some saved) (fun h =>
    let! refused :=
      try_except (do! call h resolve_pending;; ret None)
        (fun e => if isinstance e CSessionError then Some (ret (Some (str_exn e))) else None) in
    match refused with
    | Some code => check_that (pyeqb code (py "Expired"))
    | None => throw (AssertionError "Old epoch request revived")
    end);;
  with_conn [1] 10 None (fun h => do! run_sql h LEGACY_BUMP [];; expect_scalar h LEGACY_VALUE [] 2).

Definition LEGACY_CHECK : pystr := py "legacy_backup_retry_epoch_conversion_retirement_and_restart".

Definition legacy_steps (args : LegacyArgs) : VM unit :=
  do! start_all true;;
  do! ready_all fuel;;
  do! with_conn all_voters 10 None (fun h =>
    do! run_sql h (py "CREATE TABLE legacy(v INTEGER)") [];; run_sql h (py "INSERT INTO legacy VALUES(0)") []);;
  let! saved := saved_write (py "ab") LEGACY_BUMP 0 in
  let! backup := rooted (py "backup") in
  do! legacy_backup args saved backup;;
  do! legacy_restore args backup;;
  do! start_all false;;
  do! ready_all fuel;;
  do! legacy_retire saved;;
  do! restart_all;;
  each_ready fuel (fun h =>
    let! e := call h session_epoch in
    do! check_that (e =? 1);;
    expect_scalar h LEGACY_VALUE [] 2).

(** The verdict comes before its one check. *)
Definition legacy_body (args : LegacyArgs) : K unit :=
  do! v (legacy_steps args);;
  do! amend (rupdate [("complete", tbool true); ("passed", tbool true)]%string);;
  record_text LEGACY_CHECK.

Definition legacy_run (ROOT : pystr) (args : LegacyArgs) (work : pystr) : K unit :=
  let! binary := v (base (gets (h_resolve (lg_old_binary args)))) in
  let! c := v (base (Voters_new work binary (join_path ROOT (py "build/native/openssl")) 5 "manual")) in
  do! v (with_cluster (fun _ => c));;
  try_finally (legacy_body args) (close_and_log 8000 work (ret tt)).

Definition legacy_report (ROOT : pystr) (args : LegacyArgs) : K unit :=
  let! old := v (file_sha256 (lg_old_binary args)) in
  let! binary := v (file_sha256 (lg_binary args)) in
  do! amend (rupdate [("complete", tbool false); ("passed", tbool false); ("checks", Arr []);
    ("old_binary_sha256", tstr old); ("binary_sha256", tstr binary)]%string);;
  let scratch := join_path ROOT (py "build/legacy-epoch-work") in
  do! v (io_res (h_mkdir scratch));;
  do! v (io_res (h_mkdir (path_parent (lg_output args))));;
  sources_last ROOT (lg_output args) ["src"; "service"; "cli"]%string
    (noting_error (in_directory scratch (legacy_run ROOT args))).
Definition legacy_main (ROOT : pystr) (args : LegacyArgs) : Hm (W := W) unit :=
  lab_main (base (io (h_exists (lg_output args)))) "Use a new evidence path" (legacy_report ROOT args).
End Upgrade.

(** * Offline backup, and the life of certificates
    (tools/check_backup_service.py, tools/check_certificate_lifecycle.py)

    A stopped voter's application image is backed up while the others keep
    serving, and a damaged or linked image must be refused.  Expired
    credentials, a foreign membership and a mismatched engine must not start;
    renewing the authority, keys and leaves keeps the retry fences and refuses
    the old credentials. *)

Section Backup.
Context {W : Type} `{Lab W} (fuel : nat).
Abbreviation K := (Sc (W := Voters * W) report).
Abbreviation VM := (V (W := W)).

(** ** check_backup_service.py *)

(** [command(...)]: the binary is the voters'. *)
Definition backup_command (argv : list pystr) : VM Finished :=
  let! c := cluster in binary_command (n_binary c) argv.

Definition ITEMS_COUNT : pystr := py "SELECT count(*) FROM items".

Definition backup_schema : VM unit :=
  with_conn [1] 10 None (fun h =>
    do! run_sql h (py "CREATE TABLE items(id INTEGER PRIMARY KEY,value TEXT)") [];;
    do! run_sql h (py "INSERT INTO items VALUES(1,'before backup')") [];;
    do! run_sql h (py "CREATE VIRTUAL TABLE search USING fts5(body)") [];;
    do! run_sql h (py "INSERT INTO search VALUES('durable text')") [];;
    expect_scalar h ITEMS_COUNT [] 1).

(** The image of the stopped voter: what was printed, and its digest. *)
Definition make_backup (backup path : pystr) : K pystr :=
  do! v (stop 1);;
  let! result := v (backup_command [py "backup"; path; backup]) in
  do! v (check_that (returncode result =? 0));;
  do! amend (rupdate [("backup_output"%string, tstr (stdout result))]);;
  let image := join_path backup (py "application.db") in
  let! before := v (file_sha256 image) in
  let! verified := v (backup_command [py "verify-backup"; backup]) in
  do! v (check_that (returncode verified =? 0));;
  let! after := v (file_sha256 image) in
  do! v (check_that (pyeqb before after));;
  let! again := v (backup_command [py "backup"; path; backup]) in
  do! v (check_that (returncode again =? 1));;
  ret before.

(** What the image holds. *)
Definition expect_image (backup : pystr) : VM unit :=
  with_sqlite (file_uri (join_path backup (py "application.db")) "?mode=ro&immutable=1") (fun image =>
    do! expect_row image "SELECT count(*) FROM items" 1;;
    do! expect_row image "SELECT count(*) FROM search WHERE search MATCH 'durable'" 1;;
    let! row := fetchone image "SELECT count(*) FROM _sqlodin_sessions" in
    let! n := lift (let? x := list_index row 0 in vnum x) in
    do! check_that (negb (Qle_bool n 0));;
    expect_row image "SELECT count(*) FROM sqlite_schema WHERE name='_sqlodin_journal'" 0).

(** The last byte of a file flipped in its lowest bit. *)
Definition flip_last (path : pystr) : VM unit :=
  let! bytes := base (io_res (h_read_bytes path)) in
  match last bytes with
  | Some b => base (io_res (l_write_at path (zlen bytes - 1) [Z.lxor b 1]))
  | None => throw (OSError "Invalid argument")
  end.

(** A damaged copy, then one whose image is a link to the good one. *)
Definition refuse_damage (backup : pystr) : VM unit :=
  let! corrupt := rooted (py "corrupt") in
  do! base (io_res (l_copytree backup corrupt));;
  let path := join_path corrupt (py "application.db") in
  do! flip_last path;;
  let! rejected := backup_command [py "verify-backup"; corrupt] in
  do! check_that ((returncode rejected =? 1) && text_in (py "BACKUP VERIFICATION FAILED") (stderr rejected));;
  do! base (io_res (l_unlink path));;
  do! base (io_res (l_symlink path (join_path backup (py "application.db"))));;
  let! linked := backup_command [py "verify-backup"; corrupt] in
  check_that (returncode linked =? 1).

Definition backup_checks : K (list (string * tv)) :=
  do! v (start_all true);;
  do! v (ready_all fuel);;
  do! v backup_schema;;
  let! backup := v (rooted (py "backup")) in
  let! path := v (config_path 1) in
  let! rejected := v (backup_command [py "backup"; path; backup]) in
  do! v (check_that ((returncode rejected =? 1) && text_in (py "Locked") (stderr rejected)));;
  let! present := v (base (io (h_exists backup))) in
  do! v (check_that (negb present));;
  do! record "backup_refuses_active_voter_without_creating_destination";;
  let! before := make_backup backup path in
  do! record "public_backup_verifies_without_rewriting_image_and_refuses_existing_destination";;
  do! v (with_conn [2; 3] 10 None (fun h =>
    do! run_sql h (py "INSERT INTO items VALUES(2,'after backup')") [];;
    expect_scalar h ITEMS_COUNT [] 2));;
  do! v (expect_image backup);;
  do! record "backup_cut_preserves_data_fts_and_retry_state_without_acceptor_tables";;
  do! v (start 1 false);;
  do! v (ready_one fuel 1);;
  do! v (expect_on [1] ITEMS_COUNT 2);;
  do! record "source_rejoins_and_recovers_writes_accepted_by_surviving_quorum";;
  do! v (refuse_damage backup);;
  do! record "corrupt_and_symlinked_backup_images_are_rejected";;
  ret [("image_sha256"%string, tstr before)].

Definition FOLDERS : list string := ["src"; "service"; "cli"; "transport"]%string.

Definition backup_report (ROOT : pystr) (args : RecoveryArgs) : K unit :=
  let! binary := v (base (gets (h_resolve (rc_binary args)))) in
  let! digest := v (file_sha256 binary) in
  do! amend (rupdate [("complete", tbool false); ("passed", tbool false); ("checks", Arr []); ("binary_sha256", tstr digest)]%string);;
  do! v (io_res (h_mkdir (path_parent (rc_output args))));;
  let scratch := join_path ROOT (py "build/backup-service-work") in
  do! v (io_res (h_mkdir scratch));;
  sources_last ROOT (rc_output args) FOLDERS (noting_error (in_directory scratch (fun work =>
    do! note_filesystem rupdate h_linux work;;
    session_run "manual" binary (rc_openssl args) 5 10000 (ret tt) (fun _ => backup_checks) (ret tt) (ret tt) work))).
Definition backup_main (ROOT : pystr) (args : RecoveryArgs) : Hm (W := W) unit :=
  lab_main (base (io (h_exists (rc_output args)))) "Use a new evidence path; earlier failures are retained" (backup_report ROOT args).

(** ** check_certificate_lifecycle.py *)

(** The network as a client with other credentials sees it. *)
Definition env_with (tls : TLS) : Env W := {|
  monotonic := monotonic; sleep := sleep; token_hex16 := token_hex16; exchange := l_exchange_with tls; tclose := tclose
|}.

(** [rejected_connection(c, tls)]: no answer at all. *)
Definition rejected_connection (tls : TLS) : VM unit :=
  let! c := cluster in
  let! m := lift (list_index (n_members c) 0) in
  let! conn := base (Connection_new [mkEndpoint (m_address m) (m_identity m)] (py "network-qualification") (8 # 10) None) in
  let! refused := base (fun w =>
    let '(r, s) := try_finally
      (try_except (do! status (H := env_with tls);; ret false)
         (fun e => if isinstance e CConnectionError then Some (ret true) else None))
      (Client.close (H := env_with tls)) (conn, w) in
    (r, s.2)) in
  if (refused : bool) then ret tt else throw (AssertionError "Rejected credential obtained a service response").

(** [refused_start(path, reason)] *)
Definition refused_start (reason : string) : VM pystr :=
  let! c := cluster in
  let! path := config_path 1 in
  let! result := base (io_res (h_run [n_binary c; py "serve"; path] [] (Some 10%Q))) in
  do! check_that ((returncode result =? 1) && text_in (py reason) (stderr result));;
  ret (stderr result).

Definition under (directory : pystr) (name : string) : pystr := join_path directory (py name).
Definition expired_tls (root : pystr) : TLS := mkTLS (under root "ca.pem") (under root "expired.pem") (under root "expired.key").
Definition client_tls (ca root : pystr) : TLS := mkTLS (under ca "ca.pem") (under root "client.pem") (under root "client.key").

Definition VISIT : pystr := py "UPDATE items SET visits=visits+1 WHERE id=1".
Definition VISITED : pystr := py "SELECT visits FROM items".

(** A certificate that expires at once, for voter 1. *)
Definition expired_voter (openssl : pystr) (config : pyval) : VM unit :=
  let! c := cluster in
  let file name := under (n_root c) name in
  let! _ := base (run_openssl [openssl; py "x509"; py "-req"; py "-in"; file "node1.csr"%string; py "-CA"; file "ca.pem"%string;
    py "-CAkey"; file "ca.key"%string; py "-set_serial"; py "9001"; py "-days"; py "0"; py "-extfile"; file "node1.ext"%string;
    py "-out"; file "expired-node1.pem"%string]) in
  let! config := lift (update_config [("certificate"%string, PStr (file "expired-node1.pem"%string))] config) in
  write_config 1 config.

(** [config['members'][2]['id'] = 4] *)
Definition foreign_member (config : pyval) : pyres pyval :=
  let? members := vget "members" config in
  match members with
  | PList (a :: b :: m :: rest) =>
      let? m := update_config [("id"%string, PInt 4)] m in
      update_config [("members"%string, PList (a :: b :: m :: rest))] config
  | _ => Raise (IndexError "list index out of range")
  end.

(** Neither a foreign membership nor a mismatched engine starts. *)
Definition refuse_mismatches (config : pyval) : VM unit :=
  let! foreign := lift (foreign_member config) in
  do! write_config 1 foreign;;
  let! _ := refused_start "Storage" in
  let! mismatch := rooted (py "engine-mismatch") in
  let! data := rooted (py "data1") in
  do! base (io_res (l_copytree data mismatch));;
  do! with_sqlite (under mismatch "consensus.db") (fun db =>
    sqlite_do db "UPDATE _sqlodin_journal_meta SET identity=replace(identity,'sqlite=','sqlite=bad')");;
  let! moved := lift (update_config [("data"%string, PStr mismatch)] config) in
  do! write_config 1 moved;;
  let! _ := refused_start "Storage" in
  do! write_config 1 config;;
  do! start 1 false;;
  ready_one fuel 1.

(** A voter without a quorum answers its status and no fenced read. *)
Definition minority_status : VM unit :=
  do! stop 2;;
  do! stop 3;;
  do! with_conn [1] (8 # 10) None (fun h =>
    let! s := call h status in
    let! node := lift (getitem "node" s) in
    do! check_that (eq_int node 1);;
    let! refused := try_except (do! db_query h (py "SELECT 1") [];; ret false)
      (fun e => if isinstance e CConnectionError || isinstance e CQueryError then Some (ret true) else None) in
    if (refused : bool) then ret tt else throw (AssertionError "Minority reported quorum readiness"));;
  stop 1.

(** New authority, keys and leaves for every voter. *)
Definition renew (openssl : pystr) (original : list (Z * pyval)) : K pystr :=
  let! renewed := v (rooted (py "renewed")) in
  do! v (base (io_res (h_mkdir renewed)));;
  do! v (base (generate openssl renewed));;
  let! c := v cluster in
  let! old := v (file_sha256 (under (n_root c) "ca.pem")) in
  let! new := v (file_sha256 (under renewed "ca.pem")) in
  do! amend (rupdate [("ca_sha256"%string, Arr [tstr old; tstr new])]);;
  do! v (check_that (negb (pyeqb old new)));;
  do! v (for_do all_voters (fun node =>
    let! config := lift (dindex node original) in
    let file ext := join_path renewed (fstr [L "node"; D node; L ext]) in
    let! config := lift (update_config [("ca", PStr (under renewed "ca.pem")); ("certificate", PStr (file ".pem")); ("key", PStr (file ".key"))]%string config) in
    write_config node config));;
  do! v (base (io_do (l_credentials renewed)));;
  ret renewed.

Definition renewed_checks (renewed : pystr) (pending : PendingWrite) : VM unit :=
  do! start_all false;;
  do! ready_all fuel;;
  let! c := cluster in
  do! rejected_connection (client_tls (n_root c) (n_root c));;
  do! rejected_connection (client_tls renewed (n_root c));;
  do! resolve_on [3] pending (fun h => expect_scalar h VISITED [] 2);;
  for_do all_voters (fun node => with_conn [node] 10 None (fun h => run_sql h VISIT [])).

Definition certificate_checks (openssl : pystr) (original : list (Z * pyval)) : K (list (string * tv)) :=
  do! v (start_all true);;
  do! v (ready_all fuel);;
  do! v (with_conn all_voters 10 None (fun h =>
    do! run_sql h (py "CREATE TABLE items(id INTEGER PRIMARY KEY,visits INTEGER)") [];;
    run_sql h (py "INSERT INTO items VALUES(1,0)") []));;
  let! pending := v (saved_write (py "cd") VISIT 0) in
  do! v (resolve_on [1] pending skip_body);;
  let! c := v cluster in
  do! v (rejected_connection (expired_tls (n_root c)));;
  do! record "expired_client_certificate_rejected_by_native_service";;
  do! v (stop 1);;
  let! config := v (lift (dindex 1 original)) in
  do! v (expired_voter openssl config);;
  let! diagnostic := v (refused_start "certificate dates") in
  do! amend (rupdate [("expired_start_diagnostic"%string, tstr diagnostic)]);;
  do! v (with_conn [2; 3] 10 None (fun h => run_sql h VISIT []));;
  do! record "expired_local_certificate_fails_startup_with_corrective_diagnostic_and_survivors_progress";;
  do! v (refuse_mismatches config);;
  do! record "membership_and_engine_identity_mismatch_refuse_startup_without_replacing_source";;
  do! v minority_status;;
  do! record "listening_status_is_distinct_from_quorum_readiness";;
  let! renewed := renew openssl original in
  do! v (renewed_checks renewed pending);;
  do! record "coordinated_ca_key_and_leaf_renewal_preserves_retry_fences_and_rejects_old_credentials";;
  do! v restart_all;;
  do! v (each_ready fuel (fun h => expect_scalar h VISITED [] 5));;
  do! record "renewed_cluster_restarts_with_all_acknowledged_effects";;
  ret [].

Definition certificate_report (ROOT : pystr) (args : RecoveryArgs) : K unit :=
  let! binary := v (base (gets (h_resolve (rc_binary args)))) in
  let! utc := v (io h_utc) in
  let! digest := v (file_sha256 binary) in
  do! amend (rupdate [("complete", tbool false); ("passed", tbool false); ("checks", Arr []); ("run_at_utc", tstr utc); ("binary_sha256", tstr digest)]%string);;
  do! v (io_res (h_mkdir (path_parent (rc_output args))));;
  let scratch := join_path ROOT (py "build/certificate-lifecycle-work") in
  do! v (io_res (h_mkdir scratch));;
  sources_last ROOT (rc_output args) FOLDERS (noting_error (in_directory scratch (fun work =>
    do! note_filesystem rupdate h_linux work;;
    session_run "manual" binary (rc_openssl args) 5 12000 configurations (certificate_checks (rc_openssl args)) (ret tt) (ret tt) work))).
Definition certificate_main (ROOT : pystr) (args : RecoveryArgs) : Hm (W := W) unit :=
  lab_main (base (io (h_exists (rc_output args)))) "Use a new evidence path" (certificate_report ROOT args).
End Backup.
