(* ===== verification/SnapshotProxy.v ===== *)
(** * tools/snapshot_proxy.py: a throttling relay

    Every accepted connection has a handler thread, which relays what the client
    sends to the target, throttled, and a second thread which relays the
    answers.  The counters are shared under a lock.  Threads interleave at the
    points where they touch what they share; a step is one such point, and what
    the sockets do (the bytes a [recv] returns, where a [sendall] fails) is
    the step's argument.  A run is any sequence of steps. *)

From Stdlib Require Import QArith.
From S2P Require Import Prelude PyStr PyFloat Objects Net Transport.
#[local] Open Scope Z_scope.

(** ** State *)

(** Where a relay is in its loop: in [recv], holding a chunk before and after
    the throttling sleep, in [sendall], or past its [finally]. *)
Inductive relay := Waiting | Held (data : list Z) | Slept (data : list Z) | Ready (data : list Z) | Over.
Record Link := mkLink { k_received : list Z; k_delivered : list Z; k_relay : relay }.
Inductive phase := Connecting | Relaying | Finished.
(** [h_closed]: [_close] has been called on the handler's sockets.  [h_slept]
    and [h_counted] are what the throttled relay slept and counted. *)
Record Handler := mkHandler {
  h_phase : phase; h_closed : bool; h_down : Link; h_up : Link; h_slept : Q; h_counted : Z
}.
Record Proxy := mkProxy {
  p_target : pystr * Z; p_rate : Z; p_drop_after : Z; p_downstream : Z; p_drops : Z;
  p_slots : nat; p_serving : bool; p_handlers : list Handler
}.

(** [SnapshotProxy(target, kib_per_second, drop_after)] *)
Definition SnapshotProxy_new (target : pystr) (kib_per_second drop_after : Z) : pyres Proxy :=
  let? address := socket_address (mkEndpoint target []) in
  Ok (mkProxy address (kib_per_second * 1024) drop_after 0 0 4 true []).

Definition new_link : Link := mkLink [] [] Waiting.
Definition new_handler : Handler := mkHandler Connecting false new_link new_link 0 0.

(** [owner.active]: the handlers whose sockets [close] shuts down. *)
Definition active (h : Handler) : bool := match h_phase h with Relaying => true | _ => false end.
Definition open_handler (h : Handler) : bool := match h_phase h with Finished => false | _ => true end.

(** ** Steps *)

Inductive direction := Down | Up.
Inductive event :=
| Accept
| Connected (i : nat) (ok : bool)
| Recv (i : nat) (d : direction) (data : list Z)
| Throttled (i : nat)
| Counted (i : nat)
| Sent (i : nat) (d : direction) (n : nat)
| Ended (i : nat) (d : direction)
| Finish (i : nat)
| Close.

Definition set_handlers (l : list Handler) (p : Proxy) : Proxy :=
  mkProxy (p_target p) (p_rate p) (p_drop_after p) (p_downstream p) (p_drops p) (p_slots p) (p_serving p) l.
Definition set_slots (n : nat) (p : Proxy) : Proxy :=
  mkProxy (p_target p) (p_rate p) (p_drop_after p) (p_downstream p) (p_drops p) n (p_serving p) (p_handlers p).
Definition put (i : nat) (h : Handler) (p : Proxy) : Proxy := set_handlers (<[i := h]> (p_handlers p)) p.

Definition link (d : direction) (h : Handler) : Link := match d with Down => h_down h | Up => h_up h end.
Definition set_link (d : direction) (l : Link) (h : Handler) : Handler :=
  match d with
  | Down => mkHandler (h_phase h) (h_closed h) l (h_up h) (h_slept h) (h_counted h)
  | Up => mkHandler (h_phase h) (h_closed h) (h_down h) l (h_slept h) (h_counted h)
  end.
Definition set_closed (h : Handler) : Handler := mkHandler (h_phase h) true (h_down h) (h_up h) (h_slept h) (h_counted h).
Definition set_phase (f : phase) (h : Handler) : Handler := mkHandler f (h_closed h) (h_down h) (h_up h) (h_slept h) (h_counted h).

Definition move (r : relay) (l : Link) : Link := mkLink (k_received l) (k_delivered l) r.
(** A relay's [finally]: it is over and both sockets are closed. *)
Definition relay_over (d : direction) (l : Link) (h : Handler) : Handler := set_closed (set_link d (move Over l) h).

(** A handler's [finally]: its sockets closed, its slot released. *)
Definition finish (i : nat) (h : Handler) (p : Proxy) : Proxy := set_slots (S (p_slots p)) (put i (set_closed (set_phase Finished h)) p).

(** [while data := source.recv(8192)]: some bytes have come. *)
Definition received (d : direction) (data : list Z) (h : Handler) : option Handler :=
  let l := link d h in
  match k_relay l with
  | Waiting =>
      if bool_decide (data <> []) && (length data <=? 8192)%nat
      then Some (set_link d (mkLink (k_received l ++ data) (k_delivered l) (match d with Down => Held data | Up => Ready data end)) h)
      else None
  | _ => None
  end.

(** [time.sleep(len(data) / self.rate)]: without a rate the division raises, and
    with a negative one [sleep] does; either way the relay's [finally] runs. *)
Definition throttled (rate : Z) (h : Handler) : option Handler :=
  match k_relay (h_down h) with
  | Held data =>
      if rate <=? 0 then Some (relay_over Down (h_down h) h)
      else Some (mkHandler (h_phase h) (h_closed h) (move (Slept data) (h_down h)) (h_up h)
                   (h_slept h + inject_Z (zlen data) / inject_Z rate) (h_counted h))
  | _ => None
  end.

(** The block under the lock. *)
Definition counted (i : nat) (h : Handler) (p : Proxy) : option Proxy :=
  match k_relay (h_down h) with
  | Slept data =>
      let downstream := p_downstream p + zlen data in
      let h := mkHandler (h_phase h) (h_closed h) (h_down h) (h_up h) (h_slept h) (h_counted h + zlen data) in
      if negb (p_drop_after p =? 0) && (p_drop_after p <=? downstream)
      then Some (put i (relay_over Down (h_down h) h)
                   (mkProxy (p_target p) (p_rate p) 0 downstream (p_drops p + 1) (p_slots p) (p_serving p) (p_handlers p)))
      else Some (put i (set_link Down (move (Ready data) (h_down h)) h)
                   (mkProxy (p_target p) (p_rate p) (p_drop_after p) downstream (p_drops p) (p_slots p) (p_serving p) (p_handlers p)))
  | _ => None
  end.

(** [destination.sendall(data)]: all of it, or an [OSError] after [n] bytes. *)
Definition sent (d : direction) (n : nat) (h : Handler) : option Handler :=
  let l := link d h in
  match k_relay l with
  | Ready data =>
      let l := mkLink (k_received l) (k_delivered l ++ take n data) Waiting in
      if (length data <=? n)%nat
      then if h_closed h then None else Some (set_link d l h)
      else Some (relay_over d l h)
  | _ => None
  end.

(** The end of the stream, or an [OSError] of [recv]. *)
Definition ended (d : direction) (h : Handler) : option Handler :=
  match k_relay (link d h) with Waiting => Some (relay_over d (link d h) h) | _ => None end.

(** A step of handler [i] while it relays. *)
Definition relaying (i : nat) (p : Proxy) (f : Handler -> option Proxy) : option Proxy :=
  h ← p_handlers p !! i; if active h then f h else None.
Definition relayed (i : nat) (p : Proxy) (f : Handler -> option Handler) : option Proxy :=
  relaying i p (fun h => h' ← f h; Some (put i h' p)).

Definition step (e : event) (p : Proxy) : option Proxy :=
  match e with
  | Accept =>
      if p_serving p then
        match p_slots p with
        | O => Some p
        | S n => Some (set_slots n (set_handlers (p_handlers p ++ [new_handler]) p))
        end
      else None
  | Connected i ok =>
      h ← p_handlers p !! i;
      match h_phase h with
      | Connecting => Some (if (ok : bool) then put i (set_phase Relaying h) p else finish i h p)
      | _ => None
      end
  | Recv i d data => relayed i p (fun h => if h_closed h then None else received d data h)
  | Throttled i => relayed i p (throttled (p_rate p))
  | Counted i => relaying i p (fun h => counted i h p)
  | Sent i d n => relayed i p (sent d n)
  | Ended i d => relayed i p (ended d)
  | Finish i => relaying i p (fun h => match k_relay (h_down h) with Over => Some (finish i h p) | _ => None end)
  | Close =>
      Some (mkProxy (p_target p) (p_rate p) (p_drop_after p) (p_downstream p) (p_drops p) (p_slots p) false
              ((fun h => if active h then set_closed h else h) <$> p_handlers p))
  end.

Fixpoint run (events : list event) (p : Proxy) : option Proxy :=
  match events with
  | [] => Some p
  | e :: events => p' ← step e p; run events p'
  end.

(** ** The invariant *)

Definition in_hand (r : relay) : list Z := match r with Held d | Slept d | Ready d => d | _ => [] end.
Definition uncounted (r : relay) : list Z := match r with Held d | Slept d => d | _ => [] end.

Definition link_ok (l : Link) : Prop :=
  match k_relay l with
  | Over => k_delivered l `prefix_of` k_received l
  | r => k_received l = k_delivered l ++ in_hand r
  end.

(** Every byte delivered has been counted, and none that was not received. *)
Definition counted_ok (h : Handler) : Prop :=
  let l := h_down h in
  match k_relay l with
  | Over => zlen (k_delivered l) <= h_counted h <= zlen (k_received l)
  | Ready d => h_counted h = zlen (k_delivered l) + zlen d
  | _ => h_counted h = zlen (k_delivered l)
  end.
(** The throttled relay has slept for what it counted, and for the chunk it is
    about to count. *)
Definition slept_ok (rate : Z) (h : Handler) : Prop :=
  rate <> 0 ->
  (h_slept h == inject_Z (h_counted h + match k_relay (h_down h) with Slept d => zlen d | _ => 0 end) / inject_Z rate)%Q.

Record handler_ok (rate : Z) (h : Handler) : Prop := {
  ho_down : link_ok (h_down h);
  ho_up : link_ok (h_up h);
  ho_counted : counted_ok h;
  ho_slept : slept_ok rate h;
  ho_connecting : h_phase h = Connecting -> h_down h = new_link /\ h_counted h = 0;
  ho_finished : h_phase h = Finished -> h_closed h = true
}.

Definition open_count (l : list Handler) : Z := zsum ((fun h => if open_handler h then 1 else 0) <$> l).

(** The drop counter under the lock. *)
Definition drops_at (limit downstream : Z) : Z := if negb (limit =? 0) && (limit <=? downstream) then 1 else 0.
Definition armed (limit drops : Z) : Z := if drops =? 0 then limit else 0.

Record proxy_ok (limit rate : Z) (p : Proxy) : Prop := {
  ok_rate : p_rate p = rate;
  ok_handlers : Forall (handler_ok rate) (p_handlers p);
  ok_slots : Z.of_nat (p_slots p) + open_count (p_handlers p) = 4;
  ok_count : p_downstream p = zsum (h_counted <$> p_handlers p);
  ok_drops : p_drops p = drops_at limit (p_downstream p);
  ok_limit : p_drop_after p = armed limit (p_drops p)
}.

(** ** Every step keeps it *)

Lemma zsum_insert {A} (f : A -> Z) l i x y : l !! i = Some x -> zsum (f <$> <[i := y]> l) = zsum (f <$> l) - f x + f y.
Proof.
  intros Hi. rewrite insert_take_drop by (by eapply lookup_lt_Some). rewrite <-(take_drop_middle l i x Hi) at 3.
  rewrite !fmap_app, !zsum_app, !fmap_cons. unfold zsum. cbn [foldr]. lia.
Qed.

Lemma open_count_insert l i h h' :
  l !! i = Some h -> open_handler h' = open_handler h -> open_count (<[i := h']> l) = open_count l.
Proof. intros Hi Ho. unfold open_count. rewrite (zsum_insert _ _ _ h) by done. rewrite Ho. lia. Qed.

Lemma drops_grow limit d n :
  0 <= limit -> 0 <= n ->
  let a := armed limit (drops_at limit d) in
  if negb (a =? 0) && (a <=? d + n) then drops_at limit (d + n) = drops_at limit d + 1 /\ armed limit (drops_at limit (d + n)) = 0
  else drops_at limit (d + n) = drops_at limit d.
Proof.
  intros Hl Hn. cbv zeta. unfold armed, drops_at.
  destruct (limit =? 0) eqn:E1, (limit <=? d) eqn:E2, (limit <=? d + n) eqn:E3; cbn; rewrite ?E1, ?E3; cbn; unbool; try done; lia.
Qed.

(** A step of one handler which keeps its counters, up to what the slots and
    the shared counters say. *)
Lemma put_ok limit rate i h h' p :
  proxy_ok limit rate p -> p_handlers p !! i = Some h -> handler_ok rate h' -> h_counted h' = h_counted h ->
  open_handler h' = open_handler h -> proxy_ok limit rate (put i h' p).
Proof.
  intros [Hr Hh Hs Hc Hd Hl] Hi Hok Hcount Hopen. split; cbn [put set_handlers p_rate p_handlers p_slots p_downstream p_drops p_drop_after]; try done.
  - by apply Forall_insert.
  - by rewrite (open_count_insert _ _ h).
  - rewrite (zsum_insert _ _ _ h) by done. lia.
Qed.

Lemma finish_ok limit rate i h p :
  proxy_ok limit rate p -> p_handlers p !! i = Some h -> h_phase h <> Finished -> proxy_ok limit rate (finish i h p).
Proof.
  intros [Hr Hh Hs Hc Hd Hl] Hi Hphase. pose proof (Forall_lookup_1 _ _ _ _ Hh Hi) as [].
  split; cbn [finish put set_slots set_handlers p_rate p_handlers p_slots p_downstream p_drops p_drop_after]; try done.
  - apply Forall_insert; [done|]. by split.
  - unfold open_count. rewrite (zsum_insert _ _ _ h) by done. fold (open_count (p_handlers p)).
    unfold open_handler at 1 2. destruct (h_phase h); [|..|done]; cbn [set_closed set_phase h_phase]; lia.
  - rewrite (zsum_insert _ _ _ h) by done. cbn [set_closed set_phase h_counted]. lia.
Qed.

(** ** The steps of a relaying handler *)

Lemma over_ok rate d h :
  handler_ok rate h -> h_phase h = Relaying ->
  (match k_relay (link d h) with Slept _ => False | _ => True end) -> handler_ok rate (relay_over d (link d h) h).
Proof.
  intros [Hd Hu Hc Hs Hcn Hf] Hp Hr.
  assert (Hl : forall l, link_ok l -> link_ok (move Over l)).
  { intros l. unfold link_ok, move. cbn. destruct (k_relay l); intros Hl; try done; rewrite Hl; by apply prefix_app_r. }
  unfold relay_over, set_closed, set_link. destruct d; cbn [link] in *; split; cbn [h_down h_up h_counted h_slept h_phase h_closed]; auto; try congruence.
  - unfold counted_ok, link_ok in *. cbn [h_down h_counted move k_relay k_delivered k_received].
    destruct (k_relay (h_down h)); try done; rewrite Hd, zlen_app; cbn [in_hand]; autorewrite with py in *; pose proof (zlen_nonneg (k_delivered (h_down h)));
      try (pose proof (zlen_nonneg data)); lia.
  - intros Hz. specialize (Hs Hz). cbn [h_down h_counted h_slept move k_relay] in *. destruct (k_relay (h_down h)); done.
Qed.

Lemma received_ok rate d data h h' :
  handler_ok rate h -> h_phase h = Relaying -> received d data h = Some h' ->
  handler_ok rate h' /\ h_counted h' = h_counted h /\ open_handler h' = open_handler h.
Proof.
  intros [Hd Hu Hc Hs Hcn Hf] Hp. unfold received. destruct (k_relay (link d h)) eqn:Er; try done.
  destruct (_ && _); [|done]. intros [= <-]. unfold set_link, link in *.
  destruct d; (split; [|by split]); split; cbn [h_down h_up h_counted h_slept h_phase h_closed]; auto; try congruence.
  - unfold link_ok in *. rewrite Er in Hd. cbn in *. by rewrite Hd, app_nil_r.
  - unfold counted_ok in *. rewrite Er in Hc. done.
  - unfold slept_ok in *. rewrite Er in Hs. done.
  - unfold link_ok in *. rewrite Er in Hu. cbn in *. by rewrite Hu, app_nil_r.
Qed.

Lemma throttled_ok rate h h' :
  handler_ok rate h -> h_phase h = Relaying -> throttled rate h = Some h' ->
  handler_ok rate h' /\ h_counted h' = h_counted h /\ open_handler h' = open_handler h.
Proof.
  intros Hok Hp. unfold throttled. destruct (k_relay (h_down h)) eqn:Er; try done.
  destruct (rate <=? 0) eqn:Ez; intros [= <-].
  { split; [|by split]. apply (over_ok rate Down); [done..|]. cbn [link]. by rewrite Er. }
  destruct Hok as [Hd Hu Hc Hs Hcn Hf]. split; [|by split]. split; cbn [h_down h_up h_counted h_slept h_phase h_closed]; auto; try congruence.
  - unfold link_ok in *. rewrite Er in Hd. done.
  - unfold counted_ok in *. rewrite Er in Hc. done.
  - unfold slept_ok in *. rewrite Er in Hs. cbn [h_down h_counted h_slept move k_relay]. intros Hz. specialize (Hs Hz).
    rewrite Hs, !inject_Z_plus. assert (Hq : ~ (inject_Z rate == 0)%Q) by (unfold Qeq; cbn; lia). field. done.
Qed.

Lemma sent_ok rate d n h h' :
  handler_ok rate h -> h_phase h = Relaying -> sent d n h = Some h' ->
  handler_ok rate h' /\ h_counted h' = h_counted h /\ open_handler h' = open_handler h.
Proof.
  intros [Hd Hu Hc Hs Hcn Hf] Hp. unfold sent. destruct (k_relay (link d h)) as [| | |data|] eqn:Er; try done.
  unfold relay_over, set_closed, set_link, link in *.
  assert (Hpre : forall l, k_relay l = Ready data -> link_ok l -> link_ok (mkLink (k_received l) (k_delivered l ++ take n data) Over)).
  { unfold link_ok. intros l El. rewrite El. cbn [k_relay k_received k_delivered in_hand]. intros ->. apply prefix_app, prefix_take. }
  destruct (length data <=? n)%nat eqn:En; [destruct (h_closed h); [done|]|]; intros [= <-]; destruct d; (split; [|by split]);
    split; cbn [h_down h_up h_counted h_slept h_phase h_closed]; auto; try congruence.
  - unfold link_ok in *. rewrite Er in Hd. cbn in *. rewrite Hd, take_ge, app_nil_r by (apply Nat.leb_le; done). done.
  - unfold counted_ok in *. rewrite Er in Hc. cbn in *. rewrite take_ge by (apply Nat.leb_le; done). by rewrite zlen_app.
  - unfold slept_ok in *. by rewrite Er in Hs.
  - unfold link_ok in *. rewrite Er in Hu. cbn in *. rewrite Hu, take_ge, app_nil_r by (apply Nat.leb_le; done). done.
  - by apply Hpre.
  - unfold counted_ok, link_ok in *. rewrite Er in Hc, Hd. cbn in *. rewrite Hd, !zlen_app.
    assert (zlen (take n data) <= zlen data) by (unfold zlen; rewrite length_take; lia). lia.
  - unfold slept_ok in *. by rewrite Er in Hs.
  - by apply Hpre.
Qed.

Lemma ended_ok rate d h h' :
  handler_ok rate h -> h_phase h = Relaying -> ended d h = Some h' ->
  handler_ok rate h' /\ h_counted h' = h_counted h /\ open_handler h' = open_handler h.
Proof.
  intros Hok Hp. unfold ended. destruct (k_relay (link d h)) eqn:Er; try done. intros [= <-].
  split; [apply over_ok; [done..|by rewrite Er]|by destruct d].
Qed.

(** ** The shared counters *)

Lemma counted_step limit rate i h p p' :
  0 <= limit -> proxy_ok limit rate p -> p_handlers p !! i = Some h -> h_phase h = Relaying -> counted i h p = Some p' ->
  proxy_ok limit rate p'.
Proof.
  intros Hlim [Hr Hh Hs Hc Hd Hl] Hi Hp. unfold counted. destruct (k_relay (h_down h)) as [| |data| |] eqn:Er; try done.
  pose proof (Forall_lookup_1 _ _ _ _ Hh Hi) as [Kd Ku Kc Ks Kcn Kf].
  assert (Hz : 0 <= zlen data) by apply zlen_nonneg.
  assert (Hcount : h_counted h = zlen (k_delivered (h_down h)) /\ k_received (h_down h) = k_delivered (h_down h) ++ data).
  { unfold counted_ok, link_ok in *. rewrite Er in *. done. }
  destruct Hcount as [Hcount Hrecv].
  assert (Hok' : forall r, r = Over \/ r = Ready data -> forall closed,
    handler_ok rate (mkHandler (h_phase h) closed (move r (h_down h)) (h_up h) (h_slept h) (h_counted h + zlen data))).
  { intros r Hrel closed. split; cbn [h_down h_up h_counted h_slept h_phase h_closed]; auto; try congruence.
    - unfold link_ok, move. cbn. destruct Hrel as [-> | ->]; cbn; rewrite Hrecv; [by apply prefix_app_r|done].
    - unfold counted_ok, move. cbn. destruct Hrel as [-> | ->]; cbn; rewrite ?Hrecv, ?zlen_app; lia.
    - unfold slept_ok in *. rewrite Er in Ks. cbn [h_down h_counted h_slept move k_relay]. intros Hq. rewrite (Ks Hq).
      destruct Hrel as [-> | ->]; by rewrite Z.add_0_r. }
  cbv zeta. unfold relay_over, set_closed, set_link.
  pose proof (drops_grow limit (p_downstream p) (zlen data) Hlim Hz) as Hg. cbv zeta in Hg. rewrite <-Hd, <-Hl in Hg.
  destruct (negb (p_drop_after p =? 0) && (p_drop_after p <=? p_downstream p + zlen data)) eqn:Eb; intros [= <-]; split;
    cbn [put set_handlers p_rate p_handlers p_slots p_downstream p_drops p_drop_after h_phase h_closed h_down h_up h_slept h_counted]; try done;
    try (apply Forall_insert; [done|]; apply Hok'; auto);
    try (by rewrite (open_count_insert _ _ h));
    try (rewrite (zsum_insert _ _ _ h) by done; cbn [h_counted]; lia).
  - by destruct Hg as [-> _].
  - destruct Hg as [<- Ha]. by rewrite Ha.
Qed.

(** ** Whole runs *)

Lemma relayed_ok limit rate i p f p' :
  proxy_ok limit rate p -> relayed i p f = Some p' ->
  (forall h h', handler_ok rate h -> h_phase h = Relaying -> f h = Some h' ->
     handler_ok rate h' /\ h_counted h' = h_counted h /\ open_handler h' = open_handler h) ->
  proxy_ok limit rate p'.
Proof.
  intros Hp Hr Hf. unfold relayed, relaying in Hr. destruct (p_handlers p !! i) as [h|] eqn:Ei; [|done]. cbn in Hr.
  unfold active in Hr. destruct (h_phase h) eqn:Eph; try done. destruct (f h) as [h'|] eqn:Eh; [|done]. injection Hr as <-.
  destruct (Hf h h') as (H1 & H2 & H3); [exact (Forall_lookup_1 _ _ _ _ (ok_handlers _ _ _ Hp) Ei)|done..|]. by apply (put_ok _ _ _ h).
Qed.

Lemma step_ok limit rate e p p' : 0 <= limit -> proxy_ok limit rate p -> step e p = Some p' -> proxy_ok limit rate p'.
Proof.
  intros Hlim Hp. destruct e as [|i ok|i d data|i|i|i d n|i d|i|]; cbn [step].
  - destruct (p_serving p); [|done]. destruct (p_slots p) as [|n] eqn:En; intros [= <-]; [done|].
    destruct Hp as [Hr Hh Hs Hc Hd Hl]. split; cbn [set_slots set_handlers p_rate p_handlers p_slots p_downstream p_drops p_drop_after]; try done.
    + apply Forall_app_2; [done|]. apply Forall_singleton. by split.
    + unfold open_count in *. rewrite fmap_app, zsum_app. cbn. lia.
    + rewrite fmap_app, zsum_app. cbn. lia.
  - destruct (p_handlers p !! i) as [h|] eqn:Ei; [|done]. cbn. destruct (h_phase h) eqn:Eph; [|done..].
    pose proof (Forall_lookup_1 _ _ _ _ (ok_handlers _ _ _ Hp) Ei) as [].
    destruct ok; intros [= <-]; [apply (put_ok _ _ _ h); [done|done|by split|done|]|apply finish_ok; congruence].
    unfold open_handler. by rewrite Eph.
  - intros Hr. eapply relayed_ok; [done|exact Hr|]. intros h h' Hh Hph. cbv beta. destruct (h_closed h); [done|]. by apply received_ok.
  - intros Hr. eapply relayed_ok; [done|exact Hr|]. intros h h' Hh Hph. cbv beta. rewrite (ok_rate _ _ _ Hp). by apply throttled_ok.
  - unfold relaying. destruct (p_handlers p !! i) as [h|] eqn:Ei; [|done]. cbn. unfold active. destruct (h_phase h) eqn:Eph; try done.
    by apply counted_step.
  - intros Hr. eapply relayed_ok; [done|exact Hr|]. intros h h' Hh Hph. by apply sent_ok.
  - intros Hr. eapply relayed_ok; [done|exact Hr|]. intros h h' Hh Hph. by apply ended_ok.
  - unfold relaying. destruct (p_handlers p !! i) as [h|] eqn:Ei; [|done]. cbn. unfold active. destruct (h_phase h) eqn:Eph; try done.
    destruct (k_relay (h_down h)); try done. intros [= <-]. apply finish_ok; congruence.
  - intros [= <-]. destruct Hp as [Hr Hh Hs Hc Hd Hl].
    split; cbn [p_rate p_handlers p_slots p_downstream p_drops p_drop_after]; try done.
    + apply Forall_fmap. eapply Forall_impl; [exact Hh|]. intros h Hok. cbn. destruct (active h) eqn:Ea; [|done].
      destruct Hok. by split.
    + rewrite <-Hs. f_equal. unfold open_count. rewrite <-list_fmap_compose. f_equal. apply list_fmap_ext. intros j h Hj.
      cbn. by destruct (active h).
    + rewrite Hc, <-list_fmap_compose. f_equal. apply list_fmap_ext. intros j h Hj. cbn. by destruct (active h).
Qed.

Lemma run_ok limit rate events p p' : 0 <= limit -> proxy_ok limit rate p -> run events p = Some p' -> proxy_ok limit rate p'.
Proof.
  intros Hlim. revert p. induction events as [|e events IH]; intros p Hp; cbn; [by intros [= <-]|].
  destruct (step e p) as [p1|] eqn:E; [|done]. cbn. by apply IH, (step_ok limit rate e p).
Qed.

(** What a connection's relay has done to the bytes it received: nothing but
    stop early. *)
Definition transparent (l : Link) : Prop :=
  k_delivered l `prefix_of` k_received l /\ (k_relay l = Waiting -> k_delivered l = k_received l).

Lemma link_transparent l : link_ok l -> transparent l.
Proof.
  unfold link_ok, transparent. destruct (k_relay l); cbn; intros Hl; try (split; [rewrite Hl; by apply prefix_app_r|intros; try done]);
    [by rewrite Hl, app_nil_r|by split].
Qed.

(** C33: the throttling proxy of the catch-up test is transparent and bounded in
    every interleaving of its threads: it relays on each connection, in both
    directions, a prefix of the bytes received, all of them while the relay runs;
    no throttled byte is delivered uncounted or before the time its rate asks
    for; downstream_bytes is the sum of what the connections counted; at most
    four connections are open at a time, each holding a slot; and it drops
    a connection at most once, exactly when downstream_bytes has reached a
    non-zero limit. *)
Theorem proxy_relays target kib_per_second drop_after p0 events p :
  0 <= drop_after -> SnapshotProxy_new target kib_per_second drop_after = Ok p0 -> run events p0 = Some p ->
  Forall (fun h => transparent (h_down h) /\ transparent (h_up h) /\
                   zlen (k_delivered (h_down h)) <= h_counted h /\
                   (0 < kib_per_second -> (inject_Z (h_counted h) / inject_Z (kib_per_second * 1024) <= h_slept h)%Q) /\
                   (h_phase h = Finished -> h_closed h = true)) (p_handlers p) /\
  p_downstream p = zsum (h_counted <$> p_handlers p) /\
  Z.of_nat (p_slots p) + open_count (p_handlers p) = 4 /\
  0 <= p_drops p <= 1 /\ (p_drops p = 1 <-> drop_after <> 0 /\ drop_after <= p_downstream p).
Proof.
  intros Hlim Hnew Hrun. assert (Hok : proxy_ok drop_after (kib_per_second * 1024) p).
  { eapply run_ok; [done| |exact Hrun]. unfold SnapshotProxy_new in Hnew. destruct (socket_address _); cbn in Hnew; try done.
    injection Hnew as <-. split; cbn; try done; unfold drops_at, armed; destruct (drop_after =? 0) eqn:E; unbool; cbn; subst; try done;
      destruct (drop_after <=? 0) eqn:E2; unbool; cbn; lia. }
  destruct Hok as [Hr Hh Hs Hc Hd Hl]. split_and!; [|done..| | |].
  - eapply Forall_impl; [exact Hh|]. intros h [Kd Ku Kc Ks Kcn Kf]. split_and!; [by apply link_transparent..| | |done].
    + unfold counted_ok in Kc. destruct (k_relay (h_down h)); try lia. pose proof (zlen_nonneg data). lia.
    + intros Hk. specialize (Ks ltac:(lia)). rewrite Ks. apply Qmult_le_compat_r; [|apply Qinv_le_0_compat; unfold Qle; cbn; lia].
      rewrite <-Zle_Qle. destruct (k_relay (h_down h)); try lia. pose proof (zlen_nonneg data). lia.
  - rewrite Hd. unfold drops_at. destruct (_ && _); lia.
  - rewrite Hd. unfold drops_at. destruct (_ && _); lia.
  - rewrite Hd. unfold drops_at. destruct (drop_after =? 0) eqn:E1, (drop_after <=? p_downstream p) eqn:E2; unbool; cbn; lia.
Qed.

Module ProxyDemo.
(** A connection that delivers three bytes, answers one, and is dropped at the
    fifth. *)
Definition demo_events : list event := (
  [Accept; Connected 0 true; Recv 0 Down [1; 2; 3]; Throttled 0; Counted 0; Sent 0 Down 3; Recv 0 Up [9]; Sent 0 Up 1;
   Recv 0 Down [4; 5]; Throttled 0; Counted 0; Ended 0 Up; Finish 0]).
Definition demo_run : option Proxy :=
  match SnapshotProxy_new (py "127.0.0.1:7401") 1 4 with Ok p => run demo_events p | _ => None end.

Lemma proxy_relays_witness :
  exists p, demo_run = Some p /\ p_drops p = 1 /\ p_downstream p = 5 /\ p_slots p = 4%nat /\
    Forall (fun h => k_delivered (h_down h) `prefix_of` k_received (h_down h) /\ k_delivered (h_up h) = [9]) (p_handlers p).
Proof.
  destruct (SnapshotProxy_new (py "127.0.0.1:7401") 1 4) as [p0|e|] eqn:Hnew; [|vm_compute in Hnew; discriminate..].
  assert (Hdemo : demo_run = run demo_events p0) by (unfold demo_run; by rewrite Hnew).
  assert (Hv : (fun p => (p_downstream p, p_slots p, (k_delivered ∘ h_up) <$> p_handlers p)) <$> demo_run = Some (5, 4%nat, [[9]]))
    by (vm_compute; reflexivity).
  destruct demo_run as [p|]; [|done]. injection Hv as Hd Hs Hu. symmetry in Hdemo.
  destruct (proxy_relays (py "127.0.0.1:7401") 1 4 p0 demo_events p ltac:(lia) Hnew Hdemo) as (Hh & _ & _ & _ & Hdrop).
  exists p. split_and!; [done|apply Hdrop; lia|done..|].
  destruct (p_handlers p) as [|h [|h' l]]; try done. inversion Hh as [|? ? [[H1 _] _] _]. subst.
  constructor; [|constructor]. split; [done|]. cbn in Hu. congruence.
Defined.
End ProxyDemo.
