(* ===== verification/LiveCompaction.v ===== *)
(** * Online compaction, and catching up from certified images
    (tools/check_live_compaction.py, tools/check_snapshot_catchup.py)

    Two live voters publish generation after generation while they keep
    accepting writes; the third, absent throughout, installs what they
    published and serves every acknowledged write.  In the second script its
    transfer can be throttled and interrupted by the proxy of SnapshotProxy. *)

From Stdlib Require Import QArith.
From S2P Require Import Prelude PyStr PyFloat Objects Json Vector Text Parameters Results Net Client Transport Dict Host Script Service ServiceChecks Snapshots Recovery Resource Capacity Lab SnapshotProxy.
#[local] Open Scope Z_scope.

Record LiveArgs := mkLiveArgs {
  lv_binary : pystr; lv_output : pystr; lv_operations : Z; lv_cycles : Z; lv_scheduled : bool; lv_openssl : pystr
}.

Section Live.
Context {W : Type} `{Lab W} (fuel : nat).
Abbreviation K := (Sc (W := Voters * W) report).
Abbreviation VM := (V (W := W)).

(** ** retained_generation_files *)

(** [owned[name].is_file()] *)
Definition owned_file (owned : list (pystr * pystr)) (name : pystr) : VM bool :=
  let! path := lift (dindex name owned) in base (io (h_is_file path)).

(** [SELECT previous,name FROM _sqlodin_generation_base] *)
Definition generation_base (path : pystr) : VM (pyval * pystr) :=
  with_sqlite (file_uri path "?mode=ro") (fun db =>
    let! row := fetchone db "SELECT previous,name FROM _sqlodin_generation_base" in
    match row with
    | [previous; image] => let! image := lift (vstr image) in ret (previous, image)
    | _ => throw (ValueError "not enough values to unpack (expected 2)")
    end).

Definition image_row (row : list pyval) : pyres (pystr * pystr) :=
  match row with
  | [name; directory] => let? n := vstr name in let? d := vstr directory in Ok (n, join_path d n)
  | _ => Raise (ValueError "not enough values to unpack (expected 2)")
  end.

(** The active generation and its exact predecessor are there with their
    images: how many generations and images there are, and whether the first
    store is gone. *)
Definition retained_generation_files (root : pystr) : VM (Z * Z * bool) :=
  let file name := join_path root (py name) in
  with_sqlite (file_uri (file "consensus.db"%string) "?mode=ro") (fun catalog =>
    do! sqlite_do catalog "BEGIN";;
    let! current := fetch_text catalog "SELECT name FROM _sqlodin_current_generation" in
    let store generation := join_path (join_path root generation) (py "consensus.db") in
    let! active := generation_base (store current) in
    do! check_that (truthy active.1);;
    let! previous := lift (vstr active.1) in
    let! present := base (io (h_is_file (join_path (join_path root previous) (py "node.db")))) in
    do! check_that present;;
    let! prior_image := with_sqlite (file_uri (store previous) "?mode=ro") (fun predecessor =>
      fetch_text predecessor "SELECT name FROM _sqlodin_generation_base") in
    let! images := sqlite_rows catalog "SELECT name,directory FROM _sqlodin_image_inventory" in
    let! pairs := lift (try_map image_row images) in
    let owned := foldl (fun d '(k, x) => dset k x d) [] pairs in
    let! a := owned_file owned active.2 in
    let! b := (if (a : bool) then owned_file owned prior_image else ret false) in
    do! check_that b;;
    let! generations := base (io (h_glob root (py "generation-*"))) in
    let! old := base (io (h_exists (file "node.db"%string))) in
    ret (zlen generations, zlen images, negb old)).

(** ** check_live_compaction.py *)

Definition VISIT_ITEM : pystr := py "UPDATE items SET visits=visits+1 WHERE id=1".
Definition ITEM_VISITS : pystr := py "SELECT visits FROM items".

(** Writes of a cycle, and the snapshot they lead to: a scheduled one has not
    been asked for. *)
Definition cycle_writes (args : LiveArgs) (writes : Z) : VM (Z * Z) :=
  with_conn [1; 2] 10 None (fun h =>
    let! s := call h status in
    let! old := lift (number "generation_prefix" s) in
    do! for_do (seq 0 (Z.to_nat (lv_operations args))) (fun _ => run_sql h VISIT_ITEM []);;
    let! target := (if lv_scheduled args then ret (old + 1) else call h request_snapshot) in
    ret (target, writes + Z.max 0 (lv_operations args))).

(** One round over the live voters: who has published, and a write through
    each. *)
Definition publish_round (target : Z) (st : list Z * Z) : VM (list Z * Z) :=
  for_each [1; 2] (fun node '(published, writes) =>
    with_conn [node] 5 None (fun h =>
      let! s := call h status in
      do! expect_no_error s;;
      let! n := lift (number "generation_prefix" s) in
      do! run_sql h VISIT_ITEM [];;
      ret (if (target <=? n) && negb (bool_decide (node ∈ published)) then published ++ [node] else published, writes + 1))) st.

Definition await_published (target writes : Z) : VM Z :=
  let! now := base (io monotonic) in
  let deadline := (now + 60)%Q in
  let! st := while_loop fuel (fun '(published, writes) =>
    let! now := base (io monotonic) in
    if Qle_bool deadline now then ret (inr (published, writes))
    else
      let! st := publish_round target (published, writes) in
      if zlen st.1 =? 2 then ret (inr st)
      else do! base (io_do (sleep (1 # 10)));; ret (inl st)) ([], writes) in
  do! check_that (zlen st.1 =? 2);;
  ret st.2.

Definition live_cycle (args : LiveArgs) (cycle writes : Z) : K Z :=
  let! st := v (cycle_writes args writes) in
  let! writes := v (await_published st.1 st.2) in
  do! record_text (cycle_name cycle "_both_live_voters_publish_while_accepting_writes");;
  ret writes.

(** Superseded generations and images go within half a minute. *)
Definition retired (counts : list (Z * Z * bool)) : bool :=
  forallb (fun '(dirs, images, root_retired) => (dirs =? 2) && (images <=? 3) && root_retired) counts.
Definition await_retired : VM unit :=
  let! now := base (io monotonic) in
  let deadline := (now + 30)%Q in
  let! counts := while_loop fuel (fun counts =>
    let! now := base (io monotonic) in
    if Qle_bool deadline now then ret (inr counts)
    else
      let! counts := for_each [1; 2] (fun node acc =>
        let! data := rooted (fstr [L "data"; D node]) in
        let! files := retained_generation_files data in ret (acc ++ [files])) [] in
      if retired counts then ret (inr (Some counts))
      else do! base (io_do (sleep (1 # 10)));; ret (inl (Some counts))) None in
  match counts with
  | Some counts => check_that (retired counts)
  | None => throw (RuntimeError "cannot access local variable 'counts'")
  end.

(** ** check_snapshot_catchup.py: wait_caught_up *)

(** Voter 3's own state first; a fenced read once it has arrived. *)
Definition caught_up (target frontier : Z) (deadline : Q) : VM bool :=
  with_conn [3] 2 None (fun h =>
    let! s := call h status in
    let! n := lift (number "generation_prefix" s) in
    let! there := (if target <=? n then let! applied := lift (number "applied" s) in ret (frontier <=? applied) else ret false) in
    if (there : bool) then
      let! now := base (io monotonic) in
      do! with_conn [3] (Qmin 10 (deadline - now)) None (fun reader => expect_scalar reader (py "SELECT 1") [] 1);;
      ret true
    else ret false).

Definition wait_caught_up (target frontier : Z) (deadline : Q) : VM unit :=
  while_loop fuel (fun _ =>
    let! now := base (io monotonic) in
    if Qle_bool deadline now
    then throw (TimeoutError "Voter 3 did not recover certified prefix {target} and frontier {frontier}")
    else
      let! there := try_except (caught_up target frontier deadline)
        (fun e => if isinstance e CException
                  then Some (let! now := base (io monotonic) in if Qle_bool deadline now then throw e else ret false)
                  else None) in
      if (there : bool) then ret (inr tt)
      else do! base (io_do (sleep (1 # 10)));; ret (inl tt)) tt.

(** *** check_live_compaction.py: main *)

(** The absent voter comes back and takes part. *)
Definition rejoin (writes : Z) : VM Z :=
  let! goal := with_conn [1] 10 None (fun h =>
    let! s := call h status in
    let! target := lift (number "generation_prefix" s) in
    let! s := call h status in
    let! frontier := lift (number "applied" s) in ret (target, frontier)) in
  do! start 3 false;;
  let! now := base (io monotonic) in
  do! wait_caught_up goal.1 goal.2 (now + 90)%Q;;
  with_conn [3] 10 None (fun h =>
    do! expect_scalar h ITEM_VISITS [] writes;;
    do! run_sql h VISIT_ITEM [];;
    ret (writes + 1)).

Definition live_checks (args : LiveArgs) : K (list (string * tv)) :=
  do! v (start_all true);;
  do! v (ready_all fuel);;
  do! v (with_conn all_voters 10 None (fun h =>
    do! run_sql h (py "CREATE TABLE items(id INTEGER PRIMARY KEY, visits INTEGER)") [];;
    run_sql h (py "INSERT INTO items VALUES(1,0)") []));;
  do! v (expect_on [3] ITEM_VISITS 0);;
  do! v (stop 3);;
  let! writes := for_each (Z.of_nat <$> seq 0 (Z.to_nat (lv_cycles args))) (live_cycle args) 0 in
  do! (if 3 <=? lv_cycles args then
         do! v await_retired;;
         record "superseded_generations_and_images_retire_with_active_and_exact_predecessor_preserved"
       else ret tt);;
  let! writes := v (rejoin writes) in
  do! record "offline_voter_installs_online_generation_and_accepts_write";;
  do! v restart_all;;
  do! v (each_ready fuel (fun h => expect_scalar h ITEM_VISITS [] writes));;
  do! record "all_acknowledged_writes_survive_full_restart";;
  ret [("writes"%string, tint writes)].

Definition live_report (ROOT : pystr) (args : LiveArgs) : K unit :=
  let! binary := v (file_sha256 (lv_binary args)) in
  do! amend (rupdate [("complete", tbool false); ("passed", tbool false); ("checks", Arr []); ("scheduled", tbool (lv_scheduled args));
    ("binary_sha256", tstr binary); ("operations", tint (lv_operations args)); ("cycles", tint (lv_cycles args))]%string);;
  do! v (io_res (h_mkdir (path_parent (lv_output args))));;
  let scratch := join_path ROOT (py "build/live-compaction-work") in
  do! v (io_res (h_mkdir scratch));;
  written_last (lv_output args) (noting_error (in_directory scratch (fun work =>
    do! note_filesystem rupdate h_linux work;;
    let! binary := v (base (gets (h_resolve (lv_binary args)))) in
    session_run "auto" binary (lv_openssl args) 5 12000 (ret tt) (fun _ => live_checks args) (ret tt) (ret tt) work))).
Definition live_main (ROOT : pystr) (args : LiveArgs) : Hm (W := W) unit :=
  lab_main (let! present := base (io (h_exists (lv_output args))) in
            ret ((present : bool) || (lv_operations args <? 3) || negb ((2 <=? lv_cycles args) && (lv_cycles args <=? 8))))
    "Use a new output path and at least three operations" (live_report ROOT args).
End Live.

(** * tools/check_snapshot_catchup.py: an offline voter catches up

    Two voters compact twice while the third is away, and it must install their
    certified image; its inbound links can be throttled and cut once by the
    proxy of SnapshotProxy while the others keep writing. *)

(** The script's proxy, once it has been started: its address, and the state its
    threads keep changing. *)
Class Proxied (W : Type) := {
  r_lab :: Lab W;
  r_start : Proxy -> W -> pyres pystr * W;
  r_state : W -> option Proxy;
  r_close : W -> W
}.

Record CatchupArgs := mkCatchupArgs {
  cu_binary : pystr; cu_output : pystr; cu_rows : Z; cu_operations : Z; cu_slow_kib : Z; cu_drop_once : bool; cu_openssl : pystr
}.

Section Catchup.
Context {W : Type} `{Proxied W} (fuel : nat).
Abbreviation K := (Sc (W := Voters * W) report).
Abbreviation VM := (V (W := W)).

(** [concurrent]: the acknowledged writes and the errors of the writing thread.
    The report names this dict on every way out of the cluster's block; it is
    kept there from the start. *)
Definition concurrent_of (r : report) : Z * list tv :=
  match rget "concurrent" r with
  | Some (Obj d) => (match rget "writes" d with Some (J (PInt n)) => n | _ => 0 end,
                     match rget "errors" d with Some (Arr l) => l | _ => [] end)
  | _ => (0, [])
  end.
Definition set_concurrent (writes : Z) (errors : list tv) (r : report) : report :=
  rupdate [("concurrent"%string, Obj (fields [("writes", tint writes); ("errors", Arr errors)]%string))] r.
Definition more_writes (r : report) : report := let '(writes, errors) := concurrent_of r in set_concurrent (writes + 1) errors r.
Definition more_errors (e : exn) (r : report) : report :=
  let '(writes, errors) := concurrent_of r in set_concurrent writes (errors ++ [tstr (repr_exn e)]) r.

Definition BULK (rows : Z) : pystr :=
  py "WITH d(x) AS (VALUES(0),(1),(2),(3),(4),(5),(6),(7),(8),(9)), n(x) AS (SELECT 1+a.x+10*b.x+100*c.x+1000*e.x FROM d a CROSS JOIN d b CROSS JOIN d c CROSS JOIN d e) INSERT INTO items SELECT x,printf('%0256d',x),0 FROM n WHERE x<="
  ++ dec rows ++ py " ORDER BY x".
Definition SUM_VISITS : pystr := py "SELECT sum(visits) FROM items".

(** The table, its state on voter 3, which then leaves, and the rows. *)
Definition offline_start (rows : Z) : K unit :=
  do! v (with_conn all_voters 10 None (fun h => run_sql h (py "CREATE TABLE items(id INTEGER PRIMARY KEY, value TEXT, visits INTEGER)") []));;
  let! prefix := v (with_conn [3] 10 None (fun h =>
    do! expect_scalar h COUNT_ITEMS [] 0;;
    let! s := call h status in lift (getitem "applied" s))) in
  do! amend (rupdate [("offline_prefix"%string, J prefix)]);;
  do! v (stop 3);;
  v (with_conn [1; 2] 30 None (fun h => run_sql h (BULK rows) [])).

(** One survivor publishes its certified generation. *)
Definition publish_survivor (target node : Z) : VM unit :=
  do! stop node;;
  let! result := compact node in
  do! check_that (returncode result =? 0);;
  do! start node false;;
  do! ready_one fuel node;;
  with_conn [node] 10 None (fun h => expect_at_least h "generation_prefix" target).

Definition catchup_cycle (rows operations cycle : Z) : K Z :=
  let! target := v (with_conn [1; 2] 10 None (fun h =>
    do! for_do (seq 0 (Z.to_nat operations)) (fun i =>
      run_sql h (py "UPDATE items SET visits=visits+1 WHERE id=?") [PInt (Z.of_nat i mod rows + 1)]);;
    call h request_snapshot)) in
  let! _ := v (wait_sealed fuel target [1; 2]) in
  do! v (for_do [1; 2] (publish_survivor target));;
  do! record_text (cycle_name cycle "_survivors_publish_while_third_voter_remains_offline");;
  ret target.

(** [max(path.stat().st_size for path in images)] *)
Definition largest_image : VM Z :=
  let! data := rooted (py "data1/snapshots") in
  let! images := base (io (h_glob data (py "image-*.db"))) in
  let! sizes := for_each images (fun path acc => let! st := base (io_res (d_stat path)) in ret (acc ++ [st.1])) [] in
  lift (max_of sizes).

(** [cfg['members'][2]['address'] = address] *)
Definition through_proxy (address : pystr) (config : pyval) : pyres pyval :=
  let? members := vget "members" config in
  match members with
  | PList (a :: b :: m :: rest) =>
      let? m := update_config [("address"%string, PStr address)] m in
      update_config [("members"%string, PList (a :: b :: m :: rest))] config
  | _ => Raise (IndexError "list index out of range")
  end.

(** The proxy before voter 3, and the survivors restarted behind it. *)
Definition start_proxy (args : CatchupArgs) : VM unit :=
  let! c := cluster in
  let! m := lift (list_index (n_members c) 2) in
  let! p := lift (SnapshotProxy_new (m_address m) (cu_slow_kib args) (if cu_drop_once args then 2 * 1024 * 1024 else 0)) in
  let! address := base (io_res (r_start p)) in
  for_do [1; 2] (fun node =>
    let! path := config_path node in
    let! config := base (read_json path) in
    let! config := lift (through_proxy address config) in
    do! write_config node config;;
    do! stop node;;
    do! start node false;;
    ready_one fuel node).

(** The writing thread; it runs to its end when it is started. *)
Definition write_during_transfer : K unit :=
  try_except
    (let! h := v (open_conn [1; 2] 5 None) in
     try_finally
       (for_do (seq 0 30) (fun _ =>
          do! v (run_sql h VISIT_ITEM []);;
          do! amend more_writes;;
          v (base (io_do (sleep (2 # 100))))))
       (v (call h Client.close)))
    (fun e => if isinstance e CException then Some (amend (more_errors e)) else None).

Definition throttle (args : CatchupArgs) : K unit :=
  do! v (start_proxy args);; write_during_transfer.

(** All thirty concurrent writes were acknowledged. *)
Definition joined : K unit :=
  let! rep := reported in
  let '(writes, errors) := concurrent_of rep in
  do! v (check_that (bool_decide (length errors = 0%nat)));;
  do! v (check_that (writes =? 30));;
  record "healthy_quorum_writes_continue_during_throttled_snapshot_transfer".

Definition proxy_note : K (option Proxy) :=
  let! proxy := v (base (gets r_state)) in
  match proxy with
  | Some p =>
      do! amend (rupdate [("proxy"%string, Obj (fields [("downstream_bytes", tint (p_downstream p)); ("drops", tint (p_drops p))]%string))]);;
      ret (Some p)
  | None => ret None
  end.

(** Every row and every acknowledged update is on voter 3, which writes on. *)
Definition expect_installed (rows visits target : Z) : VM unit :=
  with_conn [3] 10 None (fun h =>
    let! s := call h status in
    do! expect_no_error s;;
    let! reached := lift (published target s) in
    do! check_that reached;;
    do! expect_scalar h COUNT_ITEMS [] rows;;
    do! expect_scalar h SUM_VISITS [] visits;;
    run_sql h VISIT_ITEM []).

Definition catchup_checks (args : CatchupArgs) : K (list (string * tv)) :=
  let throttled := negb (cu_slow_kib args =? 0) in
  do! amend (set_concurrent 0 []);;
  do! v (start_all true);;
  do! v (ready_all fuel);;
  do! offline_start (cu_rows args);;
  let! target := for_each [0; 1] (fun cycle _ => catchup_cycle (cu_rows args) (cu_operations args) cycle) 0 in
  let! largest := v largest_image in
  do! amend (rupdate [("largest_image_bytes"%string, tint largest)]);;
  do! v (check_that ((cu_rows args <? 8192) || (1024 * 1024 <? largest)));;
  do! (if throttled then throttle args else ret tt);;
  do! v (start 3 false);;
  let! started := v (base (io monotonic)) in
  do! (if throttled then joined else ret tt);;
  let! frontier := v (with_conn [1; 2] 10 None (fun h => let! s := call h status in lift (number "applied" s))) in
  do! amend (rupdate [("catchup_frontier"%string, tint frontier)]);;
  do! v (wait_caught_up fuel target frontier (started + 90)%Q);;
  let! now := v (base (io monotonic)) in
  do! amend (rupdate [("catchup_seconds"%string, Num (now - started)%Q)]);;
  let! proxy := proxy_note in
  do! v (check_that match proxy with Some p => negb (cu_drop_once args) || (p_drops p =? 1) | None => true end);;
  let! rep := reported in
  let visits := 2 * Z.max 0 (cu_operations args) + (concurrent_of rep).1 in
  do! v (expect_installed (cu_rows args) visits target);;
  do! record "offline_voter_installs_certified_image_and_continues_writes";;
  do! v restart_all;;
  do! v (each_ready fuel (fun h => expect_scalar h SUM_VISITS [] (visits + 1)));;
  do! record "installed_generation_and_all_acknowledged_effects_survive_full_restart";;
  ret [].

(** *** On every way out *)

Definition final_status (node : Z) (acc : report) : VM report :=
  try_except
    (let! s := with_conn [node] 2 None (fun h => call h status) in ret (dset (dec node) (J (PDict s)) acc))
    (fun e => if isinstance e CException then Some (ret (dset (dec node) (Obj (fields [("error"%string, tstr (repr_exn e))])) acc)) else None).
Definition catchup_ending : K unit :=
  let! _ := proxy_note in
  let! final := v (for_each all_voters final_status []) in
  amend (rupdate [("final_status"%string, Obj final)]).
Definition catchup_closed : VM unit :=
  let! proxy := base (gets r_state) in when (bool_decide (is_Some (const tt <$> proxy))) (base (io_do r_close)).

Definition catchup_report (ROOT : pystr) (args : CatchupArgs) : K unit :=
  let! binary := v (file_sha256 (cu_binary args)) in
  do! amend (rupdate [("complete", tbool false); ("passed", tbool false); ("checks", Arr []); ("rows", tint (cu_rows args));
    ("operations_per_cycle", tint (cu_operations args)); ("slow_kib", tint (cu_slow_kib args)); ("drop_once", tbool (cu_drop_once args));
    ("binary_sha256", tstr binary);
    ("scope", tstr (py "authenticated snapshot catch-up after two retained-prefix changes; explicit compaction"))]%string);;
  do! v (io_res (h_mkdir (path_parent (cu_output args))));;
  let scratch := join_path ROOT (py "build/snapshot-catchup-work") in
  written_last (cu_output args) (noting_error
    (do! v (io_res (h_mkdir scratch));;
     in_directory scratch (fun work =>
       do! note_filesystem rupdate h_linux work;;
       let! binary := v (base (gets (h_resolve (cu_binary args)))) in
       session_run "manual" binary (cu_openssl args) 5 14000 (ret tt) (fun _ => catchup_checks args) catchup_ending catchup_closed work))).
Definition catchup_main (ROOT : pystr) (args : CatchupArgs) : Hm (W := W) unit :=
  lab_main (let! present := base (io (h_exists (cu_output args))) in
            ret ((present : bool) || negb ((3 <=? cu_rows args) && (cu_rows args <=? 10000)) || (cu_operations args <? 3) || (cu_slow_kib args <? 0)))
    "Use a new evidence path, 3-10000 rows and at least three operations" (catchup_report ROOT args).
End Catchup.
