(* ===== verification/Faults.v ===== *)
(** * Saturated clients, and storage that fails
    (tools/check_admission.py, tools/check_storage_faults.py)

    Every voter's client slots are filled: more clients are told Busy, and the
    quorum keeps working with a voter gone.  An injected library makes one
    voter's journal or application log fail: the write it cannot persist stays
    unknown and is applied once through another voter. *)

From Stdlib Require Import QArith.
From S2P Require Import Prelude PyStr PyFloat Objects Json Vector Text Parameters Results Net Client Transport Dict Host Script Service ServiceChecks Snapshots Recovery Resource Capacity Lab Upgrade.
#[local] Open Scope Z_scope.

Section Faults.
Context {W : Type} `{Lab W} (fuel : nat).
Abbreviation K := (Sc (W := Voters * W) report).
Abbreviation VM := (V (W := W)).

(** ** check_admission.py *)

(** A client of its own beyond the limit is told Busy. *)
Definition expect_busy (node : Z) : VM unit :=
  let! c := cluster in
  let! m := lift (list_index (n_members c) (node - 1)) in
  let! now := base (io monotonic) in
  let request := mkdict [("op", PStr (py "status")); ("protocol", PInt 1); ("cluster", PStr (py "network-qualification"))]%string in
  let! response := base (io_res (l_exchange_with (client_tls (n_root c) (n_root c)) (mkEndpoint (m_address m) (m_identity m)) request (now + 2)%Q)) in
  let! outcome := lift (getitem "status" response) in
  do! check_that (eq_str outcome (py "error"));;
  let! error := lift (getitem "error" response) in
  check_that (eq_str error (py "Busy")).

(** Twenty-four clients of one voter. *)
Definition fill_pool (node : Z) : VM (list nat) :=
  for_each (seq 0 24) (fun _ pool =>
    let! h := open_conn [node] 10 None in
    let! s := call h status in
    let! n := lift (getitem "node" s) in
    do! check_that (eq_int n node);;
    ret (pool ++ [h])) [].
Definition fill_pools : VM (list (Z * list nat)) :=
  for_each all_voters (fun node clients =>
    let! pool := fill_pool node in
    do! expect_busy node;;
    ret (dset node pool clients)) [].

Definition client (clients : list (Z * list nat)) (node : Z) : VM nat :=
  lift (let? pool := dindex node clients in list_index pool 0).
Definition ADMISSION_COUNT : pystr := py "SELECT count(*) FROM admission_items".
Definition insert_literal (clients : list (Z * list nat)) (node n : Z) : VM unit :=
  let! h := client clients node in run_sql h (py "INSERT INTO admission_items VALUES(" ++ dec n ++ py ")") [].

(** A TLS handshake that is never finished. *)
Definition stall (node : Z) : VM unit :=
  let! c := cluster in
  let! m := lift (list_index (n_members c) (node - 1)) in
  let! address := lift (socket_address (mkEndpoint (m_address m) [])) in
  for_do (seq 0 4) (fun _ => let! _ := base (io_res (l_socket address.1 address.2 2)) in ret tt).
Definition close_stalled : VM unit :=
  let! open := base (gets l_sockets) in for_do open (fun s => base (io_do (l_close_socket s))).

Definition admission_checks : K (list (string * tv)) :=
  do! v (start_all true);;
  do! v (ready_all fuel);;
  let! clients := v fill_pools in
  do! record "24_clients_per_voter_and_explicit_busy_without_peer_eviction";;
  do! v (let! h := client clients 1 in run_sql h (py "CREATE TABLE admission_items(id INTEGER PRIMARY KEY)") []);;
  do! v (for_do all_voters (fun node =>
    let! h := client clients node in run_sql h (py "INSERT INTO admission_items VALUES(?)") [PInt node]));;
  do! record "all_voters_write_with_every_client_pool_full";;
  do! v (for_do [1; 2] stall);;
  do! v (stop 3);;
  let! started := v (base (io monotonic)) in
  do! v (insert_literal clients 1 4);;
  do! v (insert_literal clients 2 5);;
  let! now := v (base (io monotonic)) in
  do! amend (rupdate [("survivor_two_writes_seconds"%string, Num (now - started)%Q)]);;
  do! v (let! h := client clients 2 in expect_scalar h ADMISSION_COUNT [] 5);;
  do! record "healthy_quorum_progress_with_full_clients_stalled_handshakes_and_one_crash";;
  do! v close_stalled;;
  let! third := v (lift (dindex 3 clients)) in
  do! v (for_do third (fun h => call h Client.close));;
  do! v (start 3 false);;
  do! v (ready_one fuel 3);;
  do! v (with_conn [3] 10 None (fun h =>
    do! expect_scalar h ADMISSION_COUNT [] 5;; run_sql h (py "INSERT INTO admission_items VALUES(6)") []));;
  do! v (for_do [1; 2] (fun node => let! h := client clients node in expect_scalar h ADMISSION_COUNT [] 6));;
  do! record "restarted_peer_reconnects_and_catches_up_with_survivor_client_pools_full";;
  do! v (let! released := lift (let? pool := dindex 1 clients in list_index pool (-1)) in call released Client.close);;
  do! v (expect_on [1] ADMISSION_COUNT 6);;
  do! record "released_client_capacity_is_reusable";;
  ret [].

(** What is still open on the way out: the sockets of [stalled], the
    connections of [clients]. *)
Definition open_handles (c : Voters) : list nat :=
  (fun x => x.1) <$> filter (fun x => c_closed x.2 = false) (zip (seq 0 (length (n_conns c))) (n_conns c)).
Definition admission_ending : K unit :=
  do! v close_stalled;;
  let! c := v cluster in
  v (for_do (open_handles c) (fun h => call h Client.close)).

Definition admission_report (ROOT : pystr) (args : RecoveryArgs) : K unit :=
  let! utc := v (io h_utc) in
  let! digest := v (file_sha256 (rc_binary args)) in
  do! amend (rupdate [("complete", tbool false); ("passed", tbool false); ("checks", Arr []); ("run_at_utc", tstr utc); ("binary_sha256", tstr digest)]%string);;
  do! v (io_res (h_mkdir (path_parent (rc_output args))));;
  let scratch := join_path ROOT (py "build/admission-work") in
  do! v (io_res (h_mkdir scratch));;
  sources_last ROOT (rc_output args) FOLDERS (noting_error (in_directory scratch (fun work =>
    do! note_filesystem rupdate h_linux work;;
    let! binary := v (base (gets (h_resolve (rc_binary args)))) in
    session_run "manual" binary (rc_openssl args) 5 8000 (ret tt) (fun _ => admission_checks) admission_ending (ret tt) work))).
Definition admission_main (ROOT : pystr) (args : RecoveryArgs) : Hm (W := W) unit :=
  lab_main (base (io (h_exists (rc_output args)))) "Use a new evidence path" (admission_report ROOT args).

(** ** check_storage_faults.py *)

(** The environment of the faulting voter. *)
Definition injection (library root database mode : pystr) : list (pystr * pystr) :=
  [(py "LD_PRELOAD", library); (py "SQLODIN_FAULT_TARGET", join_path (join_path root (py "data1")) database);
   (py "SQLODIN_FAULT_ARMED", under root "armed"); (py "SQLODIN_FAULT_MARKER", under root "triggered"); (py "SQLODIN_FAULT_MODE", mode)].

(** [FaultCluster.start] of voter 1 under an injection *)
Definition start_injected (environment : list (pystr * pystr)) : VM unit :=
  let! c := cluster in
  let! process := base (io_res (l_spawn_env (serve_argv c 1 false) (node_file c 1 ".log") environment)) in
  do! with_cluster (fun c => set_processes (dset 1 process (n_processes c)) c);;
  do! base (io_do (sleep (15 # 100)));;
  let! code := base (io (v_poll process)) in
  lift (guard (negb (bool_decide (code = None))) (AssertionError "the voter's log")).

Definition FAULT_VALUE : pystr := py "SELECT value FROM faults WHERE id=1".
Definition FAULT_BUMP : pystr := py "UPDATE faults SET value=value+1 WHERE id=1".

(** The faulting voter does not acknowledge the write. *)
Definition faulting_write (pending : PendingWrite) : K unit :=
  let! unknown := v (with_conn [1] 2 (Some pending) (fun h =>
    try_except (do! call h resolve_pending;; ret false)
      (fun e => match e with UnknownOutcome _ => Some (ret true) | _ => None end))) in
  if (unknown : bool) then amend (rupdate [("client_outcome"%string, tstr (py "unknown"))])
  else throw (AssertionError "Faulting voter acknowledged its failed persistence").

(** The fault was reached; a short write was short and not empty. *)
Definition expect_triggered (root mode : pystr) : K unit :=
  let! text := v (base (io_res (h_read_text (under root "triggered")))) in
  do! v (lift (guard (negb (pyeqb text mode)) (AssertionError "Injection never reached selected syscall")));;
  if pyeqb mode (py "short-write") then
    let! text := v (base (io_res (h_read_text (under root "triggered.partial")))) in
    match split_char 47 text with
    | [a; b] =>
        let! actual := v (lift (int_of_text a)) in
        let! requested := v (lift (int_of_text b)) in
        do! v (check_that ((0 <? actual) && (actual <? requested)));;
        amend (rupdate [("partial_write"%string, Obj (fields [("actual", tint actual); ("requested", tint requested)]%string))])
    | _ => throw (ValueError "not enough values to unpack (expected 2)")
    end
  else ret tt.

(** The same identity through a voter, applied once. *)
Definition resolve_once (node : Z) (pending : PendingWrite) : VM unit :=
  resolve_on [node] pending (fun h => expect_scalar h FAULT_VALUE [] 101).

Definition fault_steps (library root database mode : pystr) : K unit :=
  do! v (start_all true);;
  do! v (ready_all fuel);;
  do! v (with_conn [1] 10 None (fun h =>
    do! run_sql h (py "CREATE TABLE faults(id INTEGER PRIMARY KEY, value INTEGER)") [];;
    run_sql h (py "INSERT INTO faults VALUES(1,100)") []));;
  do! v (for_do all_voters (fun node => expect_on [node] FAULT_VALUE 100));;
  do! v (stop 1);;
  do! v (start_injected (injection library root database mode));;
  do! v (ready_one fuel 1);;
  do! v (base (io_res (h_write_text (under root "armed") (py "armed after quorum readiness" ++ [10]))));;
  let! pending := v (saved_write (py "ef") FAULT_BUMP 0) in
  do! faulting_write pending;;
  do! expect_triggered root mode;;
  let! c := v cluster in
  let! process := v (lift (process_of c 1)) in
  let! code := v (base (io_res (v_wait process 10))) in
  do! amend (rupdate [("faulting_exit"%string, tint code)]);;
  do! v (lift (guard (code =? 0) (AssertionError "Storage error did not halt the voter")));;
  do! v (resolve_once 2 pending);;
  do! v (base (io_res (l_unlink (under root "armed"))));;
  do! v (start 1 false);;
  do! v (ready_one fuel 1);;
  do! v (resolve_once 1 pending);;
  do! v restart_all;;
  do! v (each_ready fuel (fun h => expect_scalar h FAULT_VALUE [] 101));;
  amend (rupdate [("passed"%string, tbool true)]).

(** [case(...)]: its own result; only what starts and ends the cluster can
    raise. *)
Definition fault_run (binary library openssl root database mode : pystr) : K unit :=
  do! v (base (io_res (h_mkdir root)));;
  let! c := v (base (Voters_new root binary openssl 5 "manual")) in
  do! v (with_cluster (fun _ => c));;
  try_finally
    (try_except (fault_steps library root database mode)
       (fun e => Some (amend (rupdate [("error"%string, tstr (repr_exn e))]))))
    (close_and_log 12000 root (ret tt)).
Definition fault_case (binary library openssl root database mode : pystr) : VM report := fun s =>
  let result := fields [("database", tstr database); ("mode", tstr mode); ("passed", tbool false)]%string in
  let '(r, (rep, s)) := fault_run binary library openssl root database mode (result, s) in
  ((let? _ := r in Ok rep), s).

Record FaultArgs := mkFaultArgs { fa_binary : pystr; fa_output : pystr; fa_modes : option (list pystr); fa_openssl : pystr }.
Definition DATABASES : list pystr := [py "consensus.db-wal"; py "node.db-wal"].
Definition MODES : list pystr := [py "write-enospc"; py "short-write"; py "sync-eio"].
(** [args.mode or (...)] *)
Definition chosen_modes (args : FaultArgs) : list pystr := match fa_modes args with Some (x :: l) => x :: l | _ => MODES end.
(** The cases in the order they run. *)
Definition fault_cases (args : FaultArgs) : list (pystr * pystr) :=
  DATABASES ≫= (fun database => (fun mode => (database, mode)) <$> chosen_modes args).

Definition case_passed (result : report) : bool := match rget "passed" result with Some (J (PBool b)) => b | _ => false end.
Definition case_error (result : report) : exn :=
  match rget "error" result with Some (J (PStr s)) => AssertionError "the case's error" | _ => AssertionError "None" end.

(** One case: its result is on disk before the next one starts. *)
Definition run_fault_case (args : FaultArgs) (library work : pystr) (databasemode : pystr * pystr) : K unit :=
  let '(database, mode) := databasemode in
  let! binary := v (base (gets (h_resolve (fa_binary args)))) in
  let! result := v (fault_case binary library (fa_openssl args) (join_path work (database ++ py "-" ++ mode)) database mode) in
  do! amend (rappend "cases" (Obj result));;
  do! (let! rep := reported in v (io_res (h_write_json (fa_output args) (Obj rep))));;
  do! v (print_line ((if case_passed result then py "PASS " else py "FAIL ") ++ database ++ py " " ++ mode));;
  if case_passed result then ret tt else throw (case_error result).

Definition faults_report (ROOT : pystr) (args : FaultArgs) : K unit :=
  let source := join_path ROOT (py "internal/storage_fault/interpose.c") in
  let scratch := join_path ROOT (py "build/storage-fault-work") in
  let library := join_path scratch (py "libsqlodin-storage-fault.so") in
  do! v (io_res (h_mkdir scratch));;
  let! _ := v (run_checked ((py <$> ["cc"; "-shared"; "-fPIC"; "-O2"; "-Wall"; "-Wextra"; "-Werror"]%string) ++ [source; py "-o"; library]) [] None) in
  let! utc := v (io h_utc) in
  let! binary := v (file_sha256 (fa_binary args)) in
  let! injector := v (file_sha256 source) in
  let! harness := v (file_sha256 (join_path ROOT (py "tools/check_storage_faults.py"))) in
  do! amend (rupdate [("complete", tbool false); ("passed", tbool false); ("cases", Arr []); ("run_at_utc", tstr utc);
    ("binary_sha256", tstr binary); ("injector_sha256", tstr injector); ("harness_sha256", tstr harness);
    ("scope", tstr (py "Injected Linux WAL syscall failures, not physical power-loss certification"))]%string);;
  do! v (io_res (h_mkdir (path_parent (fa_output args))));;
  sources_last ROOT (fa_output args) FOLDERS (in_directory scratch (fun work =>
    do! note_filesystem rupdate true work;;
    do! for_do (fault_cases args) (run_fault_case args library work);;
    amend (rupdate [("complete", tbool true); ("passed", tbool true)]%string))).
Definition faults_main (ROOT : pystr) (args : FaultArgs) : Hm (W := W) unit :=
  lab_main (if negb h_linux then ret true else base (io (h_exists (fa_output args))))
    "Linux and a new evidence path required" (faults_report ROOT args).
End Faults.
