(* ===== verification/LabTheorems.v ===== *)
(** * What the reports of the longer scripts may claim

    The scripts of Upgrade, LiveCompaction and Faults say passed only with the
    whole list of the checks they record, in order. *)

From Stdlib Require Import QArith.
From S2P Require Import Prelude PyStr PyFloat Objects Json Vector Text Parameters Results Net Client Dict Host Script Service ServiceChecks Evidence Snapshots Recovery Returns Resource Capacity Lab Upgrade SnapshotProxy LiveCompaction Faults.
#[local] Open Scope Z_scope.

(** ** Steps that leave entries of a report alone *)

Section Leaves.
Context {W : Type} `{Probes W} (keys : list string).
Abbreviation St := (report * (Voters * W))%type.

Definition leaves {A} (m : Sc report A) : Prop :=
  forall s : St, wp m (fun _ s' => forall k, k ∈ keys -> rget k s'.1 = rget k s.1) s.

Lemma leaves_bind {A B} (m : Sc report A) (f : A -> Sc report B) : leaves m -> (forall a, leaves (f a)) -> leaves (bind m f).
Proof.
  intros Hm Hf s. apply wp_bind. eapply wp_mono; [apply Hm|]. intros [a|e|] s1 H1; [|done..].
  eapply wp_mono; [apply Hf|]. intros r s2 H2 k Hk. by rewrite H2, H1.
Qed.
Lemma leaves_host {A} (m : V A) : leaves (v m).
Proof. intros s. by apply wp_host_step. Qed.
Lemma leaves_ret {A} (a : A) : leaves (ret a).
Proof. intros s. by apply wp_ret. Qed.
Lemma leaves_throw {A} (e : exn) : leaves (throw e : Sc report A).
Proof. intros s. by apply wp_throw. Qed.
Lemma leaves_reported : leaves (reported : Sc report report).
Proof. intros s. by apply wp_gets. Qed.
Lemma leaves_amend f : (forall r k, k ∈ keys -> rget k (f r) = rget k r) -> leaves (amend f : Sc report unit).
Proof. intros Hf s. apply wp_amend. apply Hf. Qed.
Lemma leaves_note kvs :
  forallb (fun k => forallb (fun '(k', _) => negb (pyeqb (py k') (py k))) kvs) keys = true -> leaves (amend (rupdate kvs) : Sc report unit).
Proof.
  intros Hk. apply leaves_amend. intros r k Hin. apply rget_rupdate_other. rewrite forallb_forall in Hk. apply Hk. by apply list_elem_of_In.
Qed.
Lemma leaves_finally {A} (m : Sc report A) f : leaves m -> leaves f -> leaves (try_finally m f).
Proof.
  intros Hm Hf s. apply wp_try_finally. eapply wp_mono; [apply Hm|]. intros r s1 H1.
  destruct r; [| |done]; (eapply wp_mono; [apply Hf|]); intros [?|?|] s2 H2 k Hk; by rewrite H2, H1.
Qed.
Lemma leaves_except {A} (m : Sc report A) h : leaves m -> (forall e k, h e = Some k -> leaves k) -> leaves (try_except m h).
Proof.
  intros Hm Hh s. apply wp_try_except. eapply wp_mono; [apply Hm|]. intros [a|e|] s1 H1; [done| |done].
  destruct (h e) as [k|] eqn:E; [|done]. eapply wp_mono; [by apply (Hh e)|]. intros r s2 H2 k' Hk. by rewrite H2, H1.
Qed.
Lemma leaves_for_do {A} (l : list A) (body : A -> Sc report unit) : (forall x, leaves (body x)) -> leaves (for_do l body).
Proof. intros Hb. induction l as [|x l IH]; cbn [for_do]; [apply leaves_ret|apply leaves_bind; [apply Hb|intros _; exact IH]]. Qed.
End Leaves.

Ltac leaves_auto :=
  repeat lazymatch goal with
  | |- leaves _ (bind _ _) => apply leaves_bind; [|intros ?]
  | |- leaves _ (v _) => apply leaves_host
  | |- leaves _ (ret _) => apply leaves_ret
  | |- leaves _ (throw _) => apply leaves_throw
  | |- leaves _ reported => apply leaves_reported
  | |- leaves _ (amend (rupdate _)) => by apply leaves_note
  | |- leaves _ (match ?x with _ => _ end) => destruct x
  end.

(** Steps that leave the checks and the verdict alone. *)
Abbreviation quiet := (leaves ["checks"; "passed"]%string).

Section Quiet.
Context {W : Type} `{Probes W}.
Abbreviation St := (report * (Voters * W))%type.

Lemma emits_quiet {A} (m : Sc (W := Voters * W) report A) : quiet m -> emits [] m.
Proof.
  intros Hm s l Hl. eapply wp_mono; [apply Hm|]. intros r s' Hk. split; [apply Hk; set_solver|]. exists l.
  split; [unfold has_checks in *; rewrite Hk; [done|set_solver]|]. destruct r; [by rewrite app_nil_r|done..].
Qed.

(** A loop over a list with an accumulator. *)
Lemma emits_for_each {A B} (l : list A) (body : A -> B -> Sc report B) (names : A -> list pystr) acc :
  (forall x b, emits (W := W) (names x) (body x b)) -> emits (W := W) (l ≫= names) (for_each l body acc).
Proof.
  intros Hb. revert acc. induction l as [|x l IH]; intros acc; cbn [for_each]; [apply emits_ret|].
  change ((x :: l) ≫= names) with (names x ++ (l ≫= names)). apply emits_bind; [apply Hb|]. intros b. apply IH.
Qed.

Lemma emits_if (b : bool) names (m m' : Sc report unit) :
  emits (W := W) names m -> emits (W := W) [] m' -> emits (W := W) (if b then names else []) (if b then m else m').
Proof. by destruct b. Qed.
End Quiet.

(** ** The shapes of the scripts *)

Section Shapes.
Context {W : Type} `{Lab W}.
Abbreviation St := (report * (Voters * W))%type.

Lemma quiet_close kept work closed : quiet (close_and_log (W := W) kept work closed).
Proof. unfold close_and_log. leaves_auto. Qed.

(** A report after a quiet end. *)
Lemma honest_quiet names (r r' : res exn unit) rep rep' :
  (forall k, k ∈ ["checks"; "passed"]%string -> rget k rep' = rget k rep) -> honest names r rep -> (r' = Ok tt -> r = Ok tt) -> honest names r' rep'.
Proof. intros Hk [H1 H2] Hr. unfold honest, verdict in *. rewrite !Hk by set_solver. auto. Qed.

(** What a verdict may add. *)
Definition foreign (l : list (string * tv)) : bool :=
  forallb (fun k => forallb (fun '(k', _) => negb (pyeqb (py k') (py k))) l) ["checks"; "passed"]%string.

Lemma honest_session {A} names maintenance binary openssl format kept (prepare : V A) body ending closed work (s : St) :
  (forall a, emits names (body a)) -> quiet ending ->
  (forall a, returns (body a) (fun l => foreign l = true)) ->
  opening s.1 ->
  wp (session_run maintenance binary openssl format kept prepare body ending closed work) (fun r s' => honest names r s'.1) s.
Proof.
  intros Hem Hq Hextra Ho. unfold session_run. apply honest_host; [done|]. intros c w.
  apply honest_host; [done|]. intros u w2. apply honest_host; [done|]. intros a w3.
  apply wp_try_finally. eapply (wp_mono _ (fun r s' => honest names r s'.1)).
  - apply wp_bind. destruct Ho as [Hv Hc]. eapply wp_mono; [apply wp_and; [apply (Hem a _ []); exact Hc|apply (Hextra a)]|].
    intros [l|e|] s1 [(Hv1 & l1 & Hl1 & Heq) Hl]; [|by apply honest_opening; rewrite ?Hv1..].
    specialize (Hl l eq_refl). unfold foreign in Hl. cbn [forallb] in Hl. unbool. apply wp_amend. cbn [fst]. subst l1. unfold honest, verdict.
    assert (Hpass : rget "passed" (rupdate ([("complete", tbool true); ("passed", tbool true)]%string ++ l) s1.1) = true_).
    { unfold rupdate. rewrite foldl_app. fold (rupdate [("complete", tbool true); ("passed", tbool true)]%string s1.1).
      fold (rupdate l (rupdate [("complete", tbool true); ("passed", tbool true)]%string s1.1)). rewrite rget_rupdate_other by done.
      exact (rget_rset "passed" (tbool true) (rupdate [("complete"%string, tbool true)] s1.1)). }
    split; [|done]. intros _. unfold rupdate. rewrite foldl_app.
    fold (rupdate [("complete", tbool true); ("passed", tbool true)]%string s1.1).
    fold (rupdate l (rupdate [("complete", tbool true); ("passed", tbool true)]%string s1.1)).
    rewrite !rget_rupdate_other by done. exact Hl1.
  - intros r s1 Hh. assert (Hend : quiet (do! ending;; close_and_log kept work closed)) by (apply leaves_bind; [done|intros _; apply quiet_close]).
    destruct r as [[]|e|]; [| |done]; (eapply wp_mono; [apply Hend|]); intros [?|?|] s2 H1;
      by apply (honest_quiet _ _ _ _ _ H1 Hh).
Qed.

Lemma honest_directory names scratch run (s : St) :
  (forall work s1, opening s1.1 -> wp (run work) (fun r s' => honest names r s'.1) s1) ->
  opening s.1 -> wp (in_directory scratch run) (fun r s' => honest names r s'.1) s.
Proof.
  intros Hrun Ho. unfold in_directory. apply honest_host; [done|]. intros work w. apply wp_try_finally.
  eapply wp_mono; [by apply Hrun|]. intros r s' Hh.
  destruct r as [[]|e|]; [| |done]; apply wp_host_step; intros [?|?|] w3; cbn [fst]; first [done|by destruct Hh].
Qed.

Lemma honest_noting names (body : Sc report unit) (s : St) :
  wp body (fun r s' => honest names r s'.1) s -> wp (noting_error body) (fun r s' => honest names r s'.1) s.
Proof.
  intros Hb. apply wp_recording. eapply wp_mono; [exact Hb|]. intros [[]|e|] s' Hh; [done| |done]. by eapply honest_note.
Qed.

Lemma written_honest names output (body : Sc report unit) (s : St) :
  wp body (fun r s' => honest names r s'.1) s -> wp (written_last output body) (script_honest names output) s.
Proof.
  intros Hb. unfold script_honest. eapply wp_mono; [apply (wp_writing _ _ _ (honest names)); exact Hb|].
  intros r s' (r0 & [H1 H2] & Hw & Hr). split; [done|]. split; [done|]. intros ->. apply H2. by apply Hr.
Qed.

Lemma sources_honest names ROOT output folders (body : Sc report unit) (s : St) :
  wp body (fun r s' => honest names r s'.1) s -> wp (sources_last ROOT output folders body) (closed_honest names output) s.
Proof. intros Hb. by apply honest_closing. Qed.

(** The cluster's part of most of them. *)
Lemma honest_cluster {A} names maintenance binary openssl format kept (prepare : V A) body ending closed work wanted (s : St) :
  (forall a, emits names (body a)) -> quiet ending -> (forall a, returns (body a) (fun l => foreign l = true)) -> opening s.1 ->
  wp (do! note_filesystem rupdate wanted work;;
      let! binary := v (base (gets (h_resolve binary))) in
      session_run maintenance binary openssl format kept prepare body ending closed work) (fun r s' => honest names r s'.1) s.
Proof.
  intros Hem Hq Hex Ho. apply honest_filesystem; [done|]. intros s1 H1. apply honest_host; [done|]. intros b w. by apply honest_session.
Qed.
End Shapes.

Ltac verdict_adds := repeat (apply returns_then; intros ?); by apply returns_ret.

(** ** The checks each script records *)

Definition migration_names (args : MigrationArgs) : list pystr :=
  [py "live_source_refused"]
  ++ (if bool_decide (mg_old_binary args <> None)
      then [py "preactivation_rollback_runs_retained_binary_and_source_with_new_acknowledged_writes"] else [])
  ++ [py "all_voters_migrated_source_database_and_wal_unchanged";
      py "migrated_voters_serve_exact_data_and_accept_writes_on_every_node"; py "second_full_restart_preserves_old_and_new_writes"].
Definition backup_names : list pystr := py <$>
  ["backup_refuses_active_voter_without_creating_destination";
   "public_backup_verifies_without_rewriting_image_and_refuses_existing_destination";
   "backup_cut_preserves_data_fts_and_retry_state_without_acceptor_tables";
   "source_rejoins_and_recovers_writes_accepted_by_surviving_quorum"; "corrupt_and_symlinked_backup_images_are_rejected"]%string.
Definition certificate_names : list pystr := py <$>
  ["expired_client_certificate_rejected_by_native_service";
   "expired_local_certificate_fails_startup_with_corrective_diagnostic_and_survivors_progress";
   "membership_and_engine_identity_mismatch_refuse_startup_without_replacing_source";
   "listening_status_is_distinct_from_quorum_readiness";
   "coordinated_ca_key_and_leaf_renewal_preserves_retry_fences_and_rejects_old_credentials";
   "renewed_cluster_restarts_with_all_acknowledged_effects"]%string.
Definition live_names (args : LiveArgs) : list pystr :=
  ((Z.of_nat <$> seq 0 (Z.to_nat (lv_cycles args))) ≫= fun cycle => [cycle_name cycle "_both_live_voters_publish_while_accepting_writes"])
  ++ (if 3 <=? lv_cycles args then [py "superseded_generations_and_images_retire_with_active_and_exact_predecessor_preserved"] else [])
  ++ [py "offline_voter_installs_online_generation_and_accepts_write"; py "all_acknowledged_writes_survive_full_restart"].
Definition catchup_names (args : CatchupArgs) : list pystr :=
  [cycle_name 0 "_survivors_publish_while_third_voter_remains_offline"; cycle_name 1 "_survivors_publish_while_third_voter_remains_offline"]
  ++ (if negb (cu_slow_kib args =? 0) then [py "healthy_quorum_writes_continue_during_throttled_snapshot_transfer"] else [])
  ++ [py "offline_voter_installs_certified_image_and_continues_writes";
      py "installed_generation_and_all_acknowledged_effects_survive_full_restart"].
Definition admission_names : list pystr := py <$>
  ["24_clients_per_voter_and_explicit_busy_without_peer_eviction"; "all_voters_write_with_every_client_pool_full";
   "healthy_quorum_progress_with_full_clients_stalled_handshakes_and_one_crash";
   "restarted_peer_reconnects_and_catches_up_with_survivor_client_pools_full"; "released_client_capacity_is_reusable"]%string.

Section Names.
Context {W : Type} `{Lab W} (fuel : nat).

Lemma emits_migration args original : emits (migration_names args) (migration_checks fuel args original).
Proof.
  unfold migration_checks, migration_names. do 7 (apply emits_then; [apply emits_host|intros ?]).
  apply emits_bind; [apply emits_record|intros ?]. apply emits_then; [apply emits_host|intros ?].
  apply emits_bind; [apply emits_if; [apply emits_then; [apply emits_host|intros ?; apply emits_record]|apply emits_ret]|intros ?].
  emits_auto.
Qed.

Lemma emits_backup : emits backup_names (backup_checks fuel).
Proof.
  unfold backup_checks. emits_auto. apply emits_then; [apply emits_quiet; unfold make_backup; leaves_auto|intros ?]. emits_auto.
Qed.

Lemma emits_certificate openssl original : emits certificate_names (certificate_checks fuel openssl original).
Proof.
  unfold certificate_checks. emits_auto. apply emits_then; [apply emits_quiet; unfold renew; leaves_auto|intros ?]. emits_auto.
Qed.

Lemma emits_live args : emits (live_names args) (live_checks fuel args).
Proof.
  unfold live_checks, live_names. do 5 (apply emits_then; [apply emits_host|intros ?]).
  apply emits_bind; [apply emits_for_each; intros cycle writes; unfold live_cycle; emits_auto|intros writes].
  apply emits_bind; [apply emits_if; [apply emits_then; [apply emits_host|intros ?; apply emits_record]|apply emits_ret]|intros ?].
  emits_auto.
Qed.

Lemma emits_admission : emits admission_names (admission_checks fuel).
Proof. unfold admission_checks. emits_auto. Qed.

Lemma quiet_admission_ending : quiet (admission_ending (W := W)).
Proof. unfold admission_ending. leaves_auto. Qed.
End Names.

(** ** Catching up *)

Section CatchupNames.
Context {W : Type} `{Proxied W} (fuel : nat).

Lemma quiet_concurrent f : (forall r, exists writes errors, f r = set_concurrent writes errors r) -> quiet (amend f : Sc (W := Voters * W) report unit).
Proof.
  intros Hf. apply leaves_amend. intros r k Hk. destruct (Hf r) as (n & l & ->). unfold set_concurrent.
  apply rget_rupdate_other. apply elem_of_cons in Hk as [->|Hk]; [done|]. by apply list_elem_of_singleton in Hk as ->.
Qed.

Lemma quiet_writer : quiet (write_during_transfer (W := W)).
Proof.
  unfold write_during_transfer. apply leaves_except.
  - apply leaves_bind; [apply leaves_host|intros h]. apply leaves_finally; [|apply leaves_host]. apply leaves_for_do. intros _.
    apply leaves_bind; [apply leaves_host|intros ?]. apply leaves_bind; [|intros ?; apply leaves_host].
    apply quiet_concurrent. intros r. unfold more_writes. destruct (concurrent_of r); eauto.
  - intros e k. destruct (isinstance e CException); [|done]. intros [= <-].
    apply quiet_concurrent. intros r. unfold more_errors. destruct (concurrent_of r); eauto.
Qed.

Lemma quiet_proxy_note : quiet (proxy_note (W := W)).
Proof. unfold proxy_note. leaves_auto. Qed.

Lemma quiet_catchup_ending : quiet (catchup_ending (W := W)).
Proof. unfold catchup_ending. apply leaves_bind; [apply quiet_proxy_note|intros ?]. leaves_auto. Qed.

Lemma emits_joined : emits [py "healthy_quorum_writes_continue_during_throttled_snapshot_transfer"] (joined (W := W)).
Proof.
  unfold joined. apply emits_then; [apply emits_quiet, leaves_reported|intros rep]. destruct (concurrent_of rep). emits_auto.
Qed.

Lemma emits_catchup args : emits (catchup_names args) (catchup_checks fuel args).
Proof.
  unfold catchup_checks, catchup_names. apply emits_then; [apply emits_quiet, quiet_concurrent; eauto|intros ?].
  do 2 (apply emits_then; [apply emits_host|intros ?]).
  apply emits_then; [apply emits_quiet; unfold offline_start; leaves_auto|intros ?].
  apply emits_bind.
  { apply (emits_for_each [0; 1] _ (fun cycle => [cycle_name cycle "_survivors_publish_while_third_voter_remains_offline"])).
    intros cycle target. unfold catchup_cycle. emits_auto. }
  intros target. apply emits_then; [apply emits_host|intros largest]. apply emits_then; [by apply emits_note|intros ?].
  apply emits_then; [apply emits_host|intros ?].
  apply emits_then; [apply emits_quiet; destruct (negb _); [apply leaves_bind; [apply leaves_host|intros ?; apply quiet_writer]|apply leaves_ret]|intros ?].
  do 2 (apply emits_then; [apply emits_host|intros ?]).
  apply emits_bind; [apply emits_if; [apply emits_joined|apply emits_ret]|intros ?].
  apply emits_then; [apply emits_host|intros frontier]. apply emits_then; [by apply emits_note|intros ?].
  do 2 (apply emits_then; [apply emits_host|intros ?]). apply emits_then; [by apply emits_note|intros ?].
  apply emits_then; [apply emits_quiet, quiet_proxy_note|intros proxy]. apply emits_then; [apply emits_host|intros ?].
  apply emits_then; [apply emits_quiet, leaves_reported|intros rep]. emits_auto.
Qed.

Lemma catchup_adds args : returns (catchup_checks fuel args) (fun l => foreign l = true).
Proof. unfold catchup_checks. verdict_adds. Qed.
End CatchupNames.

(** ** Reports *)

Section Reports.
Context {W : Type} `{Proxied W} (fuel : nat) (ROOT : pystr).
Abbreviation St := (report * (Voters * W))%type.

Lemma migration_adds args original : returns (migration_checks fuel args original) (fun l => foreign l = true).
Proof. unfold migration_checks. verdict_adds. Qed.
Lemma backup_adds : returns (backup_checks fuel) (fun l => foreign l = true).
Proof. unfold backup_checks. verdict_adds. Qed.
Lemma certificate_adds openssl original : returns (certificate_checks fuel openssl original) (fun l => foreign l = true).
Proof. unfold certificate_checks. verdict_adds. Qed.
Lemma live_adds args : returns (live_checks fuel args) (fun l => foreign l = true).
Proof. unfold live_checks. verdict_adds. Qed.
Lemma admission_adds : returns (admission_checks fuel) (fun l => foreign l = true).
Proof. unfold admission_checks. verdict_adds. Qed.

(** What a script has done when it ends before its report is complete enough to
    be written, or with an honest one. *)
Definition sound (names : list pystr) (output : pystr) (r : res exn unit) (s' : St) : Prop :=
  verdict s'.1 <> true_ /\ r <> Ok tt \/ script_honest names output r s'.
Definition closed_sound (names : list pystr) (output : pystr) (r : res exn unit) (s' : St) : Prop :=
  verdict s'.1 <> true_ /\ r <> Ok tt \/ closed_honest names output r s'.

Lemma migration_sound args (s : Voters * W) : wp (migration_report fuel ROOT args) (sound (migration_names args) (mg_output args)) ([], s).
Proof.
  unfold migration_report. apply preparing; [done|by left|]. intros binary w1. apply wp_bind, wp_amend. cbn [fst snd].
  set (rep := rupdate _ _). assert (Ho : opening rep) by (by split). clearbody rep.
  apply preparing; [apply Ho|by left|]. intros u w2. cbv zeta. apply wp_bind.
  eapply (wp_mono _ (fun r s' => opening s'.1)).
  { destruct (mg_old_binary args) as [old|]; [|by apply wp_ret]. apply wp_bind, wp_host_step. intros [d|e|] w3; [|done..].
    apply wp_amend. by apply opening_note. }
  intros [[]|e|] s1 H1; [|left; split; [apply H1|done]..].
  eapply wp_mono; [apply written_honest, honest_noting|intros r s' Hh; by right].
  apply honest_host; [done|]. intros x w3. apply honest_directory; [|done]. intros work s2 H2.
  apply honest_cluster; [intros ?; apply emits_migration|apply leaves_ret|intros ?; apply migration_adds|done].
Qed.

Lemma recovery_opening (K : list (string * tv)) (s : Voters * W) (body : pystr -> Sc report unit) names output folders scratch :
  opening (rupdate K []) -> (forall work s1, opening s1.1 -> wp (body work) (fun r s' => honest names r s'.1) s1) ->
  wp (do! amend (rupdate K);;
      do! v (io_res (h_mkdir (path_parent output)));;
      do! v (io_res (h_mkdir scratch));;
      sources_last ROOT output folders (noting_error (in_directory scratch body))) (closed_sound names output) ([], s).
Proof.
  intros Hop Hb. apply wp_bind, wp_amend. cbn [fst snd]. apply preparing; [apply Hop|by left|]. intros u w2.
  apply preparing; [apply Hop|by left|]. intros u' w3. eapply wp_mono; [apply sources_honest, honest_noting|intros r s' Hh; by right].
  by apply honest_directory.
Qed.

Lemma backup_sound args (s : Voters * W) : wp (backup_report fuel ROOT args) (closed_sound backup_names (rc_output args)) ([], s).
Proof.
  unfold backup_report. do 2 (apply preparing; [done|by left|]; intros ? ?). apply recovery_opening; [by split|]. intros work s1 Ho.
  apply honest_filesystem; [done|]. intros s2 H2. apply honest_session; [intros ?; apply emits_backup|apply leaves_ret|intros ?; apply backup_adds|done].
Qed.

Lemma certificate_sound args (s : Voters * W) : wp (certificate_report fuel ROOT args) (closed_sound certificate_names (rc_output args)) ([], s).
Proof.
  unfold certificate_report. do 3 (apply preparing; [done|by left|]; intros ? ?). apply recovery_opening; [by split|]. intros work s1 Ho.
  apply honest_filesystem; [done|]. intros s2 H2.
  apply honest_session; [intros ?; apply emits_certificate|apply leaves_ret|intros ?; apply certificate_adds|done].
Qed.

Lemma admission_sound args (s : Voters * W) : wp (admission_report fuel ROOT args) (closed_sound admission_names (rc_output args)) ([], s).
Proof.
  unfold admission_report. do 2 (apply preparing; [done|by left|]; intros ? ?). apply recovery_opening; [by split|]. intros work s1 Ho.
  apply honest_cluster; [intros ?; apply emits_admission|apply quiet_admission_ending|intros ?; apply admission_adds|done].
Qed.

Lemma live_sound args (s : Voters * W) : wp (live_report fuel ROOT args) (sound (live_names args) (lv_output args)) ([], s).
Proof.
  unfold live_report. apply preparing; [done|by left|]. intros binary w1. apply wp_bind, wp_amend. cbn [fst snd].
  do 2 (apply preparing; [done|by left|]; intros ? ?).
  eapply wp_mono; [apply written_honest, honest_noting|intros r s' Hh; by right]. apply honest_directory; [|by split].
  intros work s1 Ho. apply honest_cluster; [intros ?; apply emits_live|apply leaves_ret|intros ?; apply live_adds|done].
Qed.

Lemma catchup_sound args (s : Voters * W) : wp (catchup_report fuel ROOT args) (sound (catchup_names args) (cu_output args)) ([], s).
Proof.
  unfold catchup_report. apply preparing; [done|by left|]. intros binary w1. apply wp_bind, wp_amend. cbn [fst snd].
  apply preparing; [done|by left|]. intros ? ?.
  eapply wp_mono; [apply written_honest, honest_noting|intros r s' Hh; by right].
  apply honest_host; [by split|]. intros x w3. apply honest_directory; [|by split]. intros work s1 Ho.
  apply honest_cluster; [intros ?; apply emits_catchup|apply quiet_catchup_ending|intros ?; apply catchup_adds|done].
Qed.

(** The verdict of the legacy restore comes before its check, and nothing that
    can fail lies between them. *)
Lemma legacy_sound args (s : Voters * W) : wp (legacy_report fuel ROOT args) (closed_sound [LEGACY_CHECK] (lg_output args)) ([], s).
Proof.
  unfold legacy_report. do 2 (apply preparing; [done|by left|]; intros ? ?). apply wp_bind, wp_amend. cbn [fst snd].
  do 2 (apply preparing; [done|by left|]; intros ? ?). eapply wp_mono; [apply sources_honest, honest_noting|intros r s' Hh; by right].
  apply honest_directory; [|by split]. intros work s1 Ho. unfold legacy_run.
  do 3 (apply honest_host; [done|]; intros ? ?). apply wp_try_finally. eapply (wp_mono _ (fun r s' => honest [LEGACY_CHECK] r s'.1)).
  - unfold legacy_body. apply honest_host; [done|]. intros u w'. apply wp_bind, wp_amend. cbn [fst snd]. destruct Ho as [Hv Hc].
    apply wp_bind, wp_amend. cbn [fst snd]. set (rep := rupdate _ _).
    assert (Hchecks : rget "checks" rep = Some (Arr [])) by (unfold rep; by rewrite rget_rupdate_other).
    assert (Hpass : verdict rep = true_) by exact (rget_rset "passed" (tbool true) (rupdate [("complete"%string, tbool true)] s1.1)).
    clearbody rep. split; cbn [fst].
    + intros _. exact (rget_rappend "checks" _ [] rep Hchecks).
    + intros _. etransitivity; [by apply (rget_rappend_other "passed" "checks")|exact Hpass].
  - intros r s2 Hh. destruct r as [[]|e|]; [| |done]; (eapply wp_mono; [apply quiet_close|]); intros [?|?|] s3 H1;
      by apply (honest_quiet _ _ _ _ _ H1 Hh).
Qed.
End Reports.

(** ** Storage faults *)

Section FaultCases.
Context {W : Type} `{Lab W} (fuel : nat).
Abbreviation St := (report * (Voters * W))%type.

(** A step that leaves the entries alone unless it succeeds. *)
Definition fails_clean {A} (keys : list string) (m : Sc (W := Voters * W) report A) : Prop :=
  forall s, wp m (fun r s' => match r with Ok _ => True | _ => forall k, k ∈ keys -> rget k s'.1 = rget k s.1 end) s.
Lemma fails_clean_bind {A B} keys (m : Sc (W := Voters * W) report A) (f : A -> Sc report B) :
  leaves keys m -> (forall a, fails_clean keys (f a)) -> fails_clean keys (bind m f).
Proof.
  intros Hm Hf s. apply wp_bind. eapply wp_mono; [apply Hm|]. intros [a|e|] s1 H1; [|done..].
  eapply wp_mono; [apply Hf|]. intros [b|e|] s2 H2; [done|..]; intros k Hk; by rewrite H2, H1.
Qed.

Lemma faulting_write_leaves keys pending :
  forallb (fun k => negb (pyeqb (py "client_outcome") (py k))) keys = true -> leaves keys (faulting_write (W := W) pending).
Proof.
  intros Hk. unfold faulting_write. apply leaves_bind; [apply leaves_host|intros u]. destruct u; [|apply leaves_throw].
  apply leaves_note. rewrite forallb_forall in *. intros k Hin. cbn. by rewrite Hk.
Qed.
Lemma triggered_leaves keys root mode :
  forallb (fun k => negb (pyeqb (py "partial_write") (py k))) keys = true -> leaves keys (expect_triggered (W := W) root mode).
Proof.
  intros Hk. unfold expect_triggered. apply leaves_bind; [apply leaves_host|intros ?]. apply leaves_bind; [apply leaves_host|intros ?].
  destruct (pyeqb _ _); [|apply leaves_ret]. apply leaves_bind; [apply leaves_host|intros t].
  destruct (split_char 47 t) as [|x1 [|x2 [|x3 l]]]; try apply leaves_throw. do 3 (apply leaves_bind; [apply leaves_host|intros ?]).
  apply leaves_note. rewrite forallb_forall in *. intros k Hin. cbn. by rewrite Hk.
Qed.

Lemma fault_steps_names library root database mode : leaves ["database"; "mode"]%string (fault_steps (W := W) fuel library root database mode).
Proof.
  unfold fault_steps. do 9 (apply leaves_bind; [apply leaves_host|intros ?]).
  apply leaves_bind; [by apply faulting_write_leaves|intros ?]. apply leaves_bind; [by apply triggered_leaves|intros ?]. leaves_auto.
Qed.
Lemma fault_steps_verdict library root database mode : fails_clean ["passed"]%string (fault_steps (W := W) fuel library root database mode).
Proof.
  unfold fault_steps. do 9 (apply fails_clean_bind; [apply leaves_host|intros ?]).
  apply fails_clean_bind; [by apply faulting_write_leaves|intros ?].
  apply fails_clean_bind; [by apply triggered_leaves|intros ?].
  do 3 (apply fails_clean_bind; [apply leaves_host|intros ?]). apply fails_clean_bind; [by apply leaves_note|intros ?].
  do 8 (apply fails_clean_bind; [apply leaves_host|intros ?]). intros s. by apply wp_amend.
Qed.

(** What the entry of a case says: which case, and that its steps succeeded. *)
Definition case_ok (library root database mode : pystr) (result : report) : Prop :=
  rget "database" result = Some (tstr database) /\ rget "mode" result = Some (tstr mode) /\
  (case_passed result = true -> exists s1 s2, fault_steps fuel library root database mode s1 = (Ok tt, s2)).

Lemma fault_case_ok binary library openssl root database mode :
  returns (fault_case (W := W) fuel binary library openssl root database mode) (case_ok library root database mode).
Proof.
  intros s. unfold fault_case. set (result := fields _).
  assert (Hb : wp (fault_run fuel binary library openssl root database mode) (fun r s' => r = Ok tt -> case_ok library root database mode s'.1) (result, s)).
  { unfold fault_run. do 3 (apply wp_bind, wp_host_step; intros [?|?|] ?; cbn [fst snd]; [|done..]).
    apply wp_try_finally. eapply (wp_mono _ (fun r s' => case_ok library root database mode s'.1)).
    - apply wp_try_except. eapply wp_mono.
      + apply wp_and; [apply fault_steps_names|]. apply wp_and; [apply fault_steps_verdict|]. apply wp_intro. intros r s' Heq. exact Heq.
      + intros r s' (Hn & Hv & Heq). cbn [fst] in *.
        assert (Hdm : rget "database" s'.1 = Some (tstr database) /\ rget "mode" s'.1 = Some (tstr mode)) by (rewrite !Hn by set_solver; done).
        destruct r as [[]|e|].
        * split_and!; [apply Hdm..|]. intros _. eauto.
        * cbn. apply wp_amend. cbn [fst]. unfold case_ok, case_passed. rewrite !rget_rupdate_other by done. rewrite (Hv "passed"%string) by (apply elem_of_cons; by left). by split_and!; [apply Hdm..|].
        * unfold case_ok, case_passed. rewrite (Hv "passed"%string) by (apply elem_of_cons; by left). by split_and!; [apply Hdm..|].
    - intros r s' (H1 & H2 & H3). assert (Hend : leaves ["database"; "mode"; "passed"]%string (close_and_log (W := W) 12000 root (ret tt))) by (unfold close_and_log; leaves_auto).
      destruct r as [[]|e|]; [| |done]; (eapply wp_mono; [apply Hend|]); intros [[]|?|] s2 Hk; try done.
      intros _. unfold case_ok, case_passed in *. rewrite !Hk by set_solver. done. }
  unfold wp in *. cbv zeta. destruct (fault_run fuel binary library openssl root database mode (result, s)) as [r [rep s']] eqn:E. cbn [fst snd] in *. intros rep' Hr.
  destruct r as [[]|e|]; try done. injection Hr as <-. by apply Hb.
Qed.
End FaultCases.

(** ** The reports *)

Section FaultReport.
Context {W : Type} `{Lab W} (fuel : nat) (ROOT : pystr).
Abbreviation St := (report * (Voters * W))%type.

(** Entries of a run's cases, each passed. *)
Definition cases_ok (library work : pystr) : list (pystr * pystr) -> list report -> Prop :=
  Forall2 (fun '(database, mode) result =>
    case_ok (W := W) fuel library (join_path work (database ++ py "-" ++ mode)) database mode result /\ case_passed result = true).

Definition cases_so_far (library work : pystr) (done : list (pystr * pystr)) (rep : report) : Prop :=
  verdict rep <> true_ /\ exists results, rget "cases" rep = Some (Arr (Obj <$> results)) /\ cases_ok library work done results.

Lemma run_fault_case_ok args library work done c (s : St) :
  cases_so_far library work done s.1 ->
  wp (run_fault_case fuel args library work c)
    (fun r s' => match r with Ok _ => cases_so_far library work (done ++ [c]) s'.1 | _ => verdict s'.1 <> true_ end) s.
Proof.
  intros (Hv & results & Hc & Hok). unfold run_fault_case. destruct c as [database mode].
  apply wp_bind, wp_host_step. intros [binary|e|] w1; [|done..].
  apply wp_bind. eapply (wp_mono _ (fun r s1 => s1.1 = s.1 /\ forall a, r = Ok a -> case_ok fuel library (join_path work (database ++ py "-" ++ mode)) database mode a)).
  { apply wp_on_host. eapply wp_mono; [apply fault_case_ok|]. intros r w2 Hr. by split. }
  intros [result|e|] s1 [E1 Hr]; [|by rewrite E1..]. specialize (Hr result eq_refl).
  apply wp_bind, wp_amend. cbn [fst snd]. set (rep := rappend _ _ _).
  assert (Hv2 : verdict rep <> true_) by (unfold rep, verdict; rewrite rget_rappend_other, E1; done).
  assert (Hc2 : rget "cases" rep = Some (Arr (Obj <$> (results ++ [result])))).
  { unfold rep. rewrite (rget_rappend "cases" _ (Obj <$> results)) by by rewrite E1. by rewrite fmap_app. }
  clearbody rep. apply wp_bind, wp_bind, wp_gets, wp_host_step. intros [[]|e|] w3; [|done..].
  apply wp_bind, wp_host_step. intros [[]|e|] w4; [|done..].
  destruct (case_passed result) eqn:Ep; [|by apply wp_throw].
  apply wp_ret. cbn [fst]. split; [done|]. exists (results ++ [result]). split; [done|]. apply Forall2_app; [done|]. by constructor.
Qed.

Lemma run_fault_cases_ok args library work l done (s : St) :
  cases_so_far library work done s.1 ->
  wp (for_do l (run_fault_case fuel args library work))
    (fun r s' => match r with Ok _ => cases_so_far library work (done ++ l) s'.1 | _ => verdict s'.1 <> true_ end) s.
Proof.
  revert done s. induction l as [|c l IH]; intros done s Hd; cbn [for_do].
  - apply wp_ret. by rewrite app_nil_r.
  - apply wp_bind. eapply wp_mono; [by apply run_fault_case_ok|]. intros [u|e|] s1 H1; [|done..].
    eapply wp_mono; [by apply IH|]. intros r s2. by rewrite <-app_assoc.
Qed.

(** What the verdict of check_storage_faults.py means. *)
Definition faults_honest (args : FaultArgs) (library : pystr) (r : res exn unit) (rep : report) : Prop :=
  (verdict rep = true_ -> exists work results, rget "cases" rep = Some (Arr (Obj <$> results)) /\ cases_ok library work (fault_cases args) results) /\
  (r = Ok tt -> verdict rep = true_).

Lemma faults_body_honest args library scratch (s : St) :
  verdict s.1 <> true_ -> rget "cases" s.1 = Some (Arr []) ->
  wp (in_directory scratch (fun work =>
    do! note_filesystem rupdate true work;;
    do! for_do (fault_cases args) (run_fault_case fuel args library work);;
    amend (rupdate [("complete", tbool true); ("passed", tbool true)]%string)))
    (fun r s' => faults_honest args library r s'.1) s.
Proof.
  intros Hv Hc. unfold in_directory. apply wp_bind, wp_host_step. intros [work|e|] w; [|by split..]. apply wp_try_finally.
  eapply (wp_mono _ (fun r s' => faults_honest args library r s'.1)).
  - apply wp_bind. eapply (wp_mono _ (fun r s1 => rget "passed" s1.1 = rget "passed" s.1 /\ rget "cases" s1.1 = rget "cases" s.1)).
    { apply wp_bind, wp_host_step. intros [fs|e|] w1; [|done..]. apply wp_bind, wp_amend. cbn [fst snd].
      apply wp_host_step. intros r w2. cbn [fst]. by rewrite !rget_rupdate_other. }
    intros [[]|e|] s1 [H1 H2]; [|by split; [unfold verdict; rewrite H1|]..].
    apply wp_bind. eapply wp_mono; [apply (run_fault_cases_ok args library work _ [])|].
    + split; [unfold verdict; by rewrite H1|]. exists []. split; [by rewrite H2|constructor].
    + intros [[]|e|] s2 Hs; [|by split..]. destruct Hs as (_ & results & Hc2 & Hok). apply wp_amend. cbn [fst].
      split; [|intros _; exact (rget_rset "passed" (tbool true) (rupdate [("complete"%string, tbool true)] s2.1))].
      intros _. exists work, results. split; [|done]. by rewrite rget_rupdate_other.
  - intros r s' [H1 H2]. destruct r as [[]|e|]; [| |done]; apply wp_host_step; intros [?|?|] w3; cbn [fst]; split; auto; done.
Qed.

Lemma faults_sound args (s : Voters * W) :
  let library := join_path (join_path ROOT (py "build/storage-fault-work")) (py "libsqlodin-storage-fault.so") in
  wp (faults_report fuel ROOT args)
    (fun r s' => faults_honest args library r s'.1 /\ (r = Ok tt -> written (fa_output args) (Obj s'.1) s'.2)) ([], s).
Proof.
  intros library. unfold faults_report. cbv zeta.
  assert (Hnot : forall (r : res exn unit) rep, r <> Ok tt -> verdict rep <> true_ -> faults_honest args library r rep) by by split.
  do 6 (apply wp_bind, wp_host_step; intros [?|?|] ?; [|split; [by apply Hnot|done]..]). apply wp_bind, wp_amend. cbn [fst snd].
  apply wp_bind, wp_host_step; intros [?|?|] ?; [|split; [by apply Hnot|done]..].
  unfold sources_last. apply wp_try_finally. eapply wp_mono; [by apply faults_body_honest|].
  intros r s1 Hh.
  assert (Hfin : wp (let! sources := v (odin_sources ROOT FOLDERS) in
         do! amend (rupdate [("sources"%string, manifest_report sources)]);;
         let! rep := reported in v (io_res (h_write_json (fa_output args) (Obj rep))))
      (fun r' s2 => faults_honest args library r s2.1 /\ (r' = Ok tt -> written (fa_output args) (Obj s2.1) s2.2)) s1).
  { apply wp_bind, wp_host_step. intros [m|e|] w9; [|by split..]. apply wp_bind, wp_amend. cbn [fst snd].
    assert (Hh' : faults_honest args library r (rupdate [("sources"%string, manifest_report m)] s1.1)).
    { unfold faults_honest, verdict in *. by rewrite !rget_rupdate_other. }
    apply wp_bind, wp_gets, wp_on_host, wp_intro. cbn [fst snd]. intros r' w10 Hw. split; [done|]. intros _.
    exists w9. unfold io_res in Hw. by rewrite Hw. }
  destruct r as [[]|e|]; [| |by split]; (eapply wp_mono; [exact Hfin|]); intros [[]|e'|] s2 [[F1 F2] F3]; (split; [by split; auto|auto; done]).
Qed.
End FaultReport.

(** The longer qualification scripts pass no service that they did not
    check: whatever the voters, the network and the host do, the reports of
    check_migration.py, check_live_compaction.py, check_snapshot_catchup.py,
    check_backup_service.py, check_certificate_lifecycle.py,
    check_admission.py and check_legacy_epoch_restore.py say passed only when
    they record all of the checks their arguments ask for, in order, and a run
    succeeds only with such a report; check_storage_faults.py says passed only
    with one entry per database and failure mode, in order, each the result of
    steps that all succeeded.  The report is on disk on every path out of the
    first three and after every success of the others. *)
Theorem lab_scripts_sound {W} `{Proxied W} (ROOT : pystr) (fuel : nat) (margs : MigrationArgs) (largs : LiveArgs) (cargs : CatchupArgs)
    (rargs : RecoveryArgs) (gargs : LegacyArgs) (fargs : FaultArgs) (s : Voters * W) :
  let library := join_path (join_path ROOT (py "build/storage-fault-work")) (py "libsqlodin-storage-fault.so") in
  wp (migration_report fuel ROOT margs) (sound (migration_names margs) (mg_output margs)) ([], s) /\
  wp (live_report fuel ROOT largs) (sound (live_names largs) (lv_output largs)) ([], s) /\
  wp (catchup_report fuel ROOT cargs) (sound (catchup_names cargs) (cu_output cargs)) ([], s) /\
  wp (backup_report fuel ROOT rargs) (closed_sound backup_names (rc_output rargs)) ([], s) /\
  wp (certificate_report fuel ROOT rargs) (closed_sound certificate_names (rc_output rargs)) ([], s) /\
  wp (admission_report fuel ROOT rargs) (closed_sound admission_names (rc_output rargs)) ([], s) /\
  wp (legacy_report fuel ROOT gargs) (closed_sound [LEGACY_CHECK] (lg_output gargs)) ([], s) /\
  wp (faults_report fuel ROOT fargs)
    (fun r s' => faults_honest fuel fargs library r s'.1 /\ (r = Ok tt -> written (fa_output fargs) (Obj s'.1) s'.2)) ([], s).
Proof.
  cbv zeta. split_and!; [apply migration_sound|apply live_sound|apply catchup_sound|apply backup_sound|apply certificate_sound|
    apply admission_sound|apply legacy_sound|apply faults_sound].
Qed.
