(* ===== verification/Hosts.v ===== *)
(** * Three hosts: tools/check_network_hosts.py, check_saved_recovery.py and
    audit_recovery.py

    [RemoteCluster] is Cluster with its voters on three hosts: it provisions
    them over ssh and rsync and starts and stops them through a supervisor sent
    as a Python program in a shell command, while SQL goes directly over TLS.
    The checks of ServiceChecks run against it; then a stopped data set can be
    replayed in isolation and its replicas audited.  What the remote shell and
    Python read of the commands is in Quote. *)

From Stdlib Require Import QArith.
From S2P Require Import Prelude PyStr PyFloat Objects Json JsonProofs Bytes Vector Text Parameters Results Quote Net Client Transport Dict Host Script Service ServiceChecks Evidence Snapshots Recovery HistoryCampaign Returns Resource Capacity Lab LabTheorems.
#[local] Open Scope Z_scope.

Class Hosts (W : Type) := {
  hs_lab :: Lab W;
  (** [str.isprintable] beyond ASCII; [repr] of a pending write;
      [strftime('%Y%m%dT%H%M%SZ')] of the time *)
  hs_printable : Z -> bool;
  hs_repr_pending : option PendingWrite -> pystr;
  hs_stamp : W -> pystr * W
}.

Definition SSH : list pystr := py <$> ["ssh"; "-o"; "BatchMode=yes"; "-o"; "ConnectTimeout=10"]%string.
(** [s.encode()] *)
Definition encoded (s : pystr) : pyres (list Z) :=
  match utf8_encode s with Some b => Ok b | None => Raise (ValueError "UnicodeEncodeError") end.
Definition line (s : pystr) : pystr := s ++ [10].

(** The last element of [report[k]], a list of dictionaries, changed. *)
Definition on_last (k : string) (f : report -> report) (r : report) : report :=
  match rget k r with
  | Some (Arr l) => match last l with Some (Obj d) => dset (py k) (Arr (take (length l - 1) l ++ [Obj (f d)])) r | _ => r end
  | _ => r
  end.

Section Remote.
Context {W : Type} `{Hosts W} (fuel : nat) (hosts : list pystr) (remote_root : pystr).
Abbreviation K := (Sc (W := Voters * W) report).
Abbreviation VM := (V (W := W)).
Definition remote (name : pystr) : pystr := join_path remote_root name.
Definition str_ (s : pystr) : pystr := repr_str hs_printable s.
Definition host_of (node : Z) : pyres pystr := list_index hosts (node - 1).

(** ** RemoteCluster.__init__ *)

(** [host.split('@')[-1]] *)
Definition address_of (host : pystr) : pystr := default [] (last (split_char 64 host)).
Definition remote_members : list Member :=
  imap (fun i host => mkMember (Z.of_nat i + 1) (address_of host ++ py ":27601") (fstr [L "node"; D (Z.of_nat i + 1); L ".sqlodin.test"])) hosts.
Definition remote_config (m : Member) : pyval :=
  let node := m_id m in
  PDict (mkdict [("storage_format", PInt 5); ("maintenance", PStr (py "auto")); ("cluster", PStr (py "network-qualification")); ("node", PInt node);
    ("listen", PStr (m_address m)); ("data", PStr (remote (py "data"))); ("certificate", PStr (remote (fstr [L "node"; D node; L ".pem"])));
    ("key", PStr (remote (fstr [L "node"; D node; L ".key"]))); ("ca", PStr (remote (py "ca.pem"))); ("members", PList (member_value <$> remote_members));
    ("clients", PList [PStr (py "node-2.test.sqlodin")])]%string).
Definition mkdir_command : pystr :=
  py "mkdir -m 700 -p " ++ shell_quote (path_parent remote_root) ++ py " && mkdir -m 700 " ++ shell_quote remote_root
  ++ py " && mkdir -m 700 " ++ shell_quote (remote (py "data")).
Definition provision (root binary : pystr) (m : Member) (host : pystr) : Hm (W := W) unit :=
  let node := m_id m in
  let named ext := join_path root (fstr [L "node"; D node; L ext]) in
  let! text := lift (dumps spaced (remote_config m)) in
  do! io_res (h_write_text (named ".json"%string) text);;
  let! _ := run_checked (SSH ++ [host; mkdir_command]) [] (Some 20%Q) in
  let! _ := run_checked ([py "rsync"; py "-az"; binary; named ".json"%string; join_path root (py "ca.pem"); named ".pem"%string; named ".key"%string]
                         ++ [host ++ py ":" ++ remote_root ++ py "/"]) [] (Some 30%Q) in
  ret tt.
Definition RemoteCluster_new (root binary openssl : pystr) : Hm (W := W) Voters :=
  do! generate openssl root;;
  do! for_do (zip remote_members hosts) (fun '(m, host) => provision root binary m host);;
  ret (mkVoters root binary remote_members [] [] (py "network-qualification")).

(** ** start and stop *)

Definition remote_argv (c : Voters) (node : Z) (create : bool) : list pystr :=
  [remote (path_name (n_binary c)); py "serve"; remote (fstr [L "node"; D node; L ".json"])] ++ if create then [py "--create"] else [].
(** The supervisor: it owns only this child, writes its PID, and reaps it. *)
Definition start_script (argv : list pystr) (pidfile : pystr) : pystr :=
  line (py "import pathlib,subprocess") ++ line (py "p=subprocess.Popen(" ++ repr_list hs_printable argv ++ py ")")
  ++ line (py "pathlib.Path(" ++ str_ pidfile ++ py ").write_text(str(p.pid))")
  ++ line (py "try:") ++ line (py " p.wait(timeout=300)") ++ line (py "finally:") ++ line (py " if p.poll() is None: p.kill()") ++ line (py " p.wait()").
Definition python_command (script : pystr) : pystr := py "python3 -c " ++ shell_quote script.

(** [with socket.create_connection((address, int(port)), timeout=1): return] *)
Definition accepts (address : pystr) (port : Z) : VM bool :=
  try_except (let! sock := base (io_res (l_socket address port 1)) in do! base (io_do (l_close_socket sock));; ret true)
    (fun e => if isinstance e COSError then Some (do! base (io_do (sleep (5 # 100)));; ret false) else None).
Definition split_address (m : Member) : pyres (pystr * Z) :=
  match rsplit_colon (m_address m) with
  | Some (address, port) => let? port := int_of_text port in Ok (address, port)
  | None => Raise (ValueError "not enough values to unpack")
  end.
Definition await_listener (node process : Z) (address : pystr) (port : Z) (deadline : Q) : VM unit :=
  while_loop fuel (fun _ : unit =>
    let! now := base (io monotonic) in
    if Qle_bool deadline now then throw (TimeoutError "Node {node} did not open its listener within 60 seconds")
    else
      let! code := base (io (v_poll process)) in
      do! lift (guard (negb (bool_decide (code = None))) (AssertionError "the voter's log"));;
      let! up := accepts address port in
      if (up : bool) then ret (inr tt) else ret (inl tt)) tt.
Definition remote_start (node : Z) (create : bool) : VM unit :=
  let! host := lift (host_of node) in
  let! c := cluster in
  let script := start_script (remote_argv c node create) (remote (py "server.pid")) in
  let! process := base (io_res (v_spawn (SSH ++ [host; python_command script]) (node_file c node ".log"))) in
  do! with_cluster (fun c => set_processes (dset node process (n_processes c)) c);;
  let! now := base (io monotonic) in
  let! m := lift (list_index (n_members c) (node - 1)) in
  let! target := lift (split_address m) in
  await_listener node process target.1 target.2 (now + 60)%Q.

Definition q34 : pystr := [34].
Definition stop_script (pidfile : pystr) (executable : list Z) : pystr :=
  line (py "import pathlib,os,signal") ++ line (py "pid=int(pathlib.Path(" ++ str_ pidfile ++ py ").read_text())")
  ++ line (py "p=pathlib.Path(f" ++ q34 ++ py "/proc/{pid}/cmdline" ++ q34 ++ py ")")
  ++ line (py "if p.exists() and p.read_bytes().split(b" ++ q34 ++ py "\x00" ++ q34 ++ py ")[0]==" ++ repr_bytes executable ++ py ":")
  ++ line (py " os.kill(pid,signal.SIGKILL)").
Definition remote_stop (node : Z) : VM unit :=
  let! c := cluster in
  let! process := lift (process_of c node) in
  let! code := base (io (v_poll process)) in
  if negb (bool_decide (code = None)) then ret tt
  else
    let! host := lift (host_of node) in
    let! executable := lift (encoded (remote (path_name (n_binary c)))) in
    let script := stop_script (remote (py "server.pid")) executable in
    let! _ := base (run_checked (SSH ++ [host; python_command script]) [] (Some 15%Q)) in
    let! _ := base (io_res (v_wait process 15)) in
    ret tt.
Definition remote_control : Control (W := W) := mkControl remote_start remote_stop.

(** ** majority_checks *)

Definition PROGRESS : pystr := py "SELECT value FROM host_progress WHERE id=1".
Definition case_update (f : report -> report) : K unit := amend (on_last "majority_cases" f).
Definition operations_of (r : report) : Z := match rget "operations" r with Some (J (PInt n)) => n | _ => 0 end.
Definition operated (sample : tv) (r : report) : report := rappend "samples" sample (rupdate [("operations"%string, tint (operations_of r + 1))] r).

(** One of the ninety operations, with [writes] writes so far. *)
Definition host_operation (clients : list nat) (survivors : list Z) (started : Q) (operation : nat) (writes : Z) : K Z :=
  let index := Z.of_nat operation mod 2 in
  let! h := v (lift (list_index clients index)) in
  let! op_started := v (base (io monotonic)) in
  let! writes :=
    (if Nat.eqb (operation mod 3) 0 then
       let! _ := v (db_execute h (py "UPDATE host_progress SET value=value+1 WHERE id=1") []) in
       do! (if Nat.eqb operation 0 then
              let! now := v (base (io monotonic)) in case_update (rupdate [("first_write_seconds"%string, Num (now - started)%Q)])
            else ret tt);;
       ret (writes + 1)
     else do! v (expect_scalar h PROGRESS [] writes);; ret writes) in
  let! now := v (base (io monotonic)) in
  let! node := v (lift (list_index survivors index)) in
  do! case_update (operated (Obj (fields [("operation", tint (Z.of_nat operation)); ("node", tint node); ("seconds", Num (now - op_started)%Q)]%string)));;
  ret writes.
Definition first_write (r : report) : pyres Q :=
  match rget "majority_cases" r with
  | Some (Arr l) => match last l with Some (Obj d) => match rget "first_write_seconds" d with Some (Num q) => Ok q | _ => Raise (KeyError "first_write_seconds") end
                    | _ => Raise (KeyError "first_write_seconds") end
  | _ => Raise (KeyError "first_write_seconds")
  end.

(** What is noted of a case that failed, before the failure goes on. *)
Definition failure_state (node : Z) : VM tv :=
  try_except (let! s := with_conn [node] 2 None (fun h => call h status) in ret (J (PDict s)))
    (fun e => if isinstance e CException then Some (ret (Obj (fields [("node", tint node); ("error", tstr (repr_exn e))]%string))) else None).
Definition diagnose (clients : list nat) (survivors : list Z) : K unit :=
  do! case_update (fun r => rupdate [("failure_operation"%string, tint (operations_of r))] r);;
  let! c := v cluster in
  let! codes := v (for_each (n_processes c) (fun '(n, p) acc =>
    let! code := base (io (v_poll p)) in ret (dset (dec n) (topt tint code) acc)) []) in
  do! case_update (rupdate [("process_returncodes"%string, Obj codes)]);;
  do! case_update (rupdate [("failure_states"%string, Arr [])]);;
  do! for_do survivors (fun node => let! state := v (failure_state node) in case_update (rappend "failure_states" state));;
  let! pending := v (for_each clients (fun h acc => let! p := call h (gets (fun s => c_pending s.1)) in ret (acc ++ [tstr (hs_repr_pending p)])) []) in
  case_update (rupdate [("pending_requests"%string, Arr pending)]).

Definition survivors_of (victim : Z) : list Z := filter (fun n => n <> victim) all_voters.
Definition survivors_write (victim : Z) (clients : list nat) (survivors : list Z) (writes : Z) : K Z :=
  do! v (for_do clients (fun h => do! call h session_epoch;; let! _ := db_query h (py "SELECT 1") [] in ret tt));;
  let! started := v (base (io monotonic)) in
  do! v (remote_stop victim);;
  let! writes := for_each (seq 0 90) (host_operation clients survivors started) writes in
  let! r := reported in
  let! first := v (lift (first_write r)) in
  do! case_update (rupdate [("recovery_goal_met"%string, tbool (Qle_bool first 5))]);;
  ret writes.
Definition expect_progress (node writes : Z) : VM unit := expect_on [node] PROGRESS writes.
Definition absent_name (victim : Z) : pystr := fstr [L "absent_"; D victim; L "_both_survivors_continue_and_rejoin"].
Definition host_case (victim writes : Z) : K Z :=
  let survivors := survivors_of victim in
  let! clients := v (for_each survivors (fun n acc => let! h := open_conn [n] 5 None in ret (acc ++ [h])) []) in
  do! amend (rappend "majority_cases" (Obj (fields [("absent", tint victim); ("operations", tint 0); ("samples", Arr [])]%string)));;
  let! writes := try_finally
    (try_except (survivors_write victim clients survivors writes) (fun e => Some (do! diagnose clients survivors;; throw e)))
    (v (for_do clients (fun h => call h Client.close))) in
  do! v (remote_start victim false);;
  do! v (ready_one fuel victim);;
  do! v (expect_progress victim writes);;
  do! record_text (absent_name victim);;
  ret writes.

(** Every voter's state, none with a snapshot error. *)
Definition host_states : VM (list (Z * dict)) :=
  for_each all_voters (fun node acc => let! s := with_conn [node] 10 None (fun h => call h status) in ret (acc ++ [(node, s)])) [].
Definition await_publication (target : Z) (deadline : Q) : VM unit :=
  while_loop fuel (fun _ : unit =>
    let! now := base (io monotonic) in
    if Qle_bool deadline now then throw (TimeoutError "Three-host snapshot publication timed out")
    else
      let! states := host_states in
      let! fine := lift (all_states no_error states) in
      do! check_that fine;;
      let! all := lift (all_states (published target) states) in
      if (all : bool) then ret (inr tt) else do! base (io_do (sleep (1 # 10)));; ret (inl tt)) tt.
Definition survived (target writes node : Z) : VM unit :=
  do! ready_one fuel node;;
  with_conn [node] 10 None (fun h =>
    do! expect_scalar h PROGRESS [] writes;;
    let! s := call h status in
    let! kept := lift (published target s) in
    check_that kept).
Definition majority_checks : K unit :=
  do! v (with_conn all_voters 10 None (fun h =>
    do! run_sql h (py "CREATE TABLE host_progress(id INTEGER PRIMARY KEY,value INTEGER)") [];;
    run_sql h (py "INSERT INTO host_progress VALUES(1,0)") []));;
  do! amend (rupdate [("majority_cases"%string, Arr [])]);;
  let! writes := for_each all_voters host_case 0 in
  let! target := v (with_conn all_voters 10 None (fun h => call h request_snapshot)) in
  let! now := v (base (io monotonic)) in
  do! v (await_publication target (now + 120)%Q);;
  do! record "three_host_certified_generation_published";;
  do! v (for_do all_voters remote_stop);;
  do! v (for_do all_voters (fun node => remote_start node false));;
  do! v (for_do all_voters (survived target writes));;
  record "three_host_generation_and_acknowledged_data_survive_restart".
End Remote.

(** ** check_network_hosts.py: main *)

Record HostsArgs := mkHostsArgs {
  ha_hosts : list pystr; ha_binary : pystr; ha_openssl : pystr; ha_output : pystr; ha_majority : bool; ha_orm : bool; ha_features : bool
}.

Section HostsMain.
Context {W : Type} `{Hosts W} (fuel : nat) (ROOT : pystr).
Abbreviation K := (Sc (W := Voters * W) report).
Abbreviation VM := (V (W := W)).
(** The checks of check_python_features.py and check_orm_transactions.py
    against a running cluster. *)
Context (features orm_checks : Control (W := W) -> K unit).

Definition host_filesystem (remote_root host : pystr) : K unit :=
  let! result := v (base (run_checked (SSH ++ [host; py "findmnt -J -T " ++ shell_quote remote_root]) [] (Some 15%Q))) in
  let! fs := v (lift (loads (stdout result))) in
  do! v (base (refuse_memory fs));;
  amend (rappend "filesystem" (J fs)).
Definition hosts_checks (args : HostsArgs) (remote_root : pystr) : K unit :=
  let ct := remote_control fuel (ha_hosts args) remote_root in
  do! checks ct true;;
  do! (if ha_features args then features ct else ret tt);;
  do! (if ha_orm args then orm_checks ct else ret tt);;
  if ha_majority args then majority_checks fuel (ha_hosts args) remote_root else ret tt.
Definition hosts_verified (args : HostsArgs) (remote_root : pystr) : K unit :=
  do! hosts_checks args remote_root;;
  do! amend (rupdate [("complete", tbool true); ("passed", tbool true)]%string);;
  do! amend (rupdate [("filesystem"%string, Arr [])]);;
  for_do (ha_hosts args) (host_filesystem remote_root).
(** [finally: c.close(); report['logs'] = ...] *)
Definition hosts_ending (remote_root : pystr) (args : HostsArgs) : K unit :=
  do! v (close_with (remote_control fuel (ha_hosts args) remote_root));;
  let! c := v cluster in
  let! logs := v (last_logs 6000 (n_root c) (py "*.log")) in
  amend (rupdate [("logs"%string, manifest_report logs)]).
Definition hosts_run (args : HostsArgs) (remote_root work : pystr) : K unit :=
  let! binary := v (base (gets (h_resolve (ha_binary args)))) in
  let! c := v (base (RemoteCluster_new (ha_hosts args) remote_root work binary (ha_openssl args))) in
  do! v (with_cluster (fun _ => c));;
  try_finally (hosts_verified args remote_root) (hosts_ending remote_root args).

(** [except BaseException as exc: report.update(error=..., complete=False, passed=False)] *)
Definition failed_report (e : exn) : report -> report :=
  rupdate [("error", tstr (repr_exn e)); ("complete", tbool false); ("passed", tbool false)]%string.
Definition harness_files : list pystr :=
  (fun n => join_path ROOT (py n)) <$> ["tools/check_network_hosts.py"; "tools/check_network_service.py"; "tools/check_python_features.py"; "tools/check_orm_transactions.py"]%string.
Definition hosts_script (args : HostsArgs) (remote_root : pystr) : K unit :=
  try_finally
    (recording failed_report
       (let! work := v (io_res (h_mkdtemp (py "sqlodin-native-hosts-") [])) in
        try_finally (hosts_run args remote_root work) (v (io_res (h_remove work)))))
    (let! utc := v (io h_utc) in
     do! amend (rupdate [("ended_utc"%string, tstr utc)]);;
     let! rep := reported in
     v (io_res (h_write_json (ha_output args) (Obj rep)))).
Definition hosts_report (args : HostsArgs) : K unit :=
  let! present := v (io (h_exists (ha_output args))) in
  do! (if (present : bool) then parser_error "Retain earlier evidence; choose a new output file" else ret tt);;
  let! stamp := v (base (io hs_stamp)) in
  let remote_root := join_path (py "/home/insan/projects/sqlodin/network-service") stamp in
  let! binary := v (file_sha256 (ha_binary args)) in
  let! sources := v (for_each harness_files (fun p acc => let! digest := file_sha256 p in ret (dset p digest acc)) []) in
  do! amend (rupdate [("complete", tbool false); ("passed", tbool false); ("hosts", Arr (tstr <$> ha_hosts args)); ("remote_root", tstr remote_root);
        ("scope", tstr (py "three Linux instances; direct native mTLS consensus and SQL; fixed membership")); ("binary_sha256", tstr binary); ("checks", Arr []);
        ("python_features", tbool (ha_features args)); ("orm", tbool (ha_orm args)); ("majority", tbool (ha_majority args));
        ("source_sha256", manifest_report sources)]%string);;
  do! v (io_res (h_mkdir (path_parent (ha_output args))));;
  hosts_script args remote_root.
Definition hosts_main (args : HostsArgs) : Hm (W := W) unit :=
  fun w => let '(r, s) := hosts_report args ([], (no_voters, w)) in (r, s.2.2).
End HostsMain.

(** ** check_saved_recovery.py *)

(** An entry of [report['nodes']]. *)
Record Recovered := mkRecovered { rv_status : dict; rv_transfers : pyval; rv_accounts : list (list pyval); rv_seconds : Q }.
Definition recovered_data (e : Recovered) : tv :=
  Obj (fields [("status", J (PDict (rv_status e))); ("transfers", J (rv_transfers e)); ("accounts", J (PList (PList <$> rv_accounts e))); ("ready_seconds", Num (rv_seconds e))]%string).
Record Saved := mkSaved { sv_report : report; sv_nodes : list (Z * Recovered) }.
Definition on_saved (f : report -> report) (s : Saved) : Saved := mkSaved (f (sv_report s)) (sv_nodes s).
Definition add_recovered (node : Z) (e : Recovered) (s : Saved) : Saved := mkSaved (sv_report s) (dset node e (sv_nodes s)).
Definition saved_data (s : Saved) : tv :=
  Obj (rupdate [("nodes"%string, Obj ((fun '(n, e) => (dec n, recovered_data e)) <$> sv_nodes s))] (sv_report s)).
(** [report.setdefault('last_error', {})[node] = str(exc)] *)
Definition last_error (node : Z) (e : exn) (r : report) : report :=
  let errors := match rget "last_error" r with Some (Obj d) => d | _ => [] end in
  rupdate [("last_error"%string, Obj (dset (dec node) (tstr (str_exn e)) errors))] r.

Record SavedArgs := mkSavedArgs { sr_hosts : list pystr; sr_source : pystr; sr_binary : pystr; sr_openssl : pystr; sr_output : pystr }.

Section SavedRecovery.
Context {W : Type} `{Hosts W} (fuel : nat).
Abbreviation K := (Sc (W := Voters * W) Saved).
Abbreviation VM := (V (W := W)).

Definition copy_script (remote_root source : pystr) (node : Z) : pystr :=
  line (py "import json, pathlib, shutil") ++ line (py "src=pathlib.Path(" ++ str_ source ++ py ")")
  ++ line (py "dst=pathlib.Path(" ++ str_ remote_root ++ py ")") ++ line (py "pidfile=src/'server.pid'")
  ++ line (py "if pidfile.exists():") ++ line (py "    proc=pathlib.Path('/proc')/pidfile.read_text().strip()/'cmdline'")
  ++ line (py "    if proc.exists() and proc.read_bytes().split(b'\0')[0]==str(src/'sqlodin').encode():")
  ++ line (py "        raise RuntimeError('Source voter is running; refusing to copy live state')")
  ++ line (py "for suffix in ('','-wal','-shm'):") ++ line (py "    old=src/'data'/('node.db'+suffix)")
  ++ line (py "    if old.exists(): shutil.copy2(old,dst/'data'/old.name)") ++ line (fstr [L "cfgpath=dst/'node"; D node; L ".json'"])
  ++ line (py "cfg=json.loads(cfgpath.read_text()); cfg['cluster']='native-soak'") ++ line (py "cfgpath.write_text(json.dumps(cfg))").
Definition copy_data (hosts : list pystr) (remote_root source : pystr) : VM unit :=
  for_do (imap (fun i host => (Z.of_nat i + 1, host)) hosts) (fun '(node, host) =>
    let! _ := base (run_checked (SSH ++ [host; python_command (copy_script remote_root source node)]) [] (Some 60%Q)) in ret tt).

Definition TRANSFERS : pystr := py "SELECT count(*) FROM transfers".
Definition ACCOUNTS : pystr := py "SELECT * FROM accounts ORDER BY id".
(** [with c.connect((node,), timeout=2) as db: ...] *)
Definition recovered (node : Z) (started : Q) : VM Recovered :=
  with_conn [node] 2 None (fun h =>
    let! status := call h status in
    let! transfers := db_scalar h TRANSFERS [] in
    let! accounts := db_query h ACCOUNTS [] in
    let! now := base (io monotonic) in
    ret (mkRecovered status transfers (as_tuple <$> _rows accounts) (now - started)%Q)).
(** One attempt on every voter still pending. *)
Definition attempt (started : Q) (pending : list Z) : K (list Z) :=
  for_each pending (fun node remaining =>
    try_except
      (let! e := on_host (recovered node started) in
       do! amend (add_recovered node e);;
       ret (filter (fun n => n <> node) remaining))
      (fun e => if isinstance e CConnectionError then Some (do! amend (on_saved (last_error node e));; ret remaining) else None)) pending.
Definition await_voters (started deadline : Q) : K (list Z) :=
  while_loop fuel (fun pending : list Z =>
    if bool_decide (pending = []) then ret (inr pending)
    else
      let! now := on_host (base (io monotonic)) in
      if Qle_bool deadline now then ret (inr pending)
      else
        let! remaining := attempt started pending in
        do! (if bool_decide (remaining = []) then ret tt else on_host (base (io_do (sleep (5 # 100)))));;
        ret (inl remaining)) all_voters.

(** [len({v['transfers'] for v in values}) == 1] and equal accounts *)
Definition same_transfers (values : list Recovered) : bool :=
  match values with [] => false | e :: l => forallb (fun x => same_cell (rv_transfers x) (rv_transfers e)) l end.
Definition same_rows (a b : list (list pyval)) : bool :=
  bool_decide (length a = length b) && forallb (fun '(x, y) => same_cells x y) (zip a b).
Definition same_accounts (values : list Recovered) : bool :=
  match values with [] => true | e :: _ => forallb (fun x => same_rows (rv_accounts x) (rv_accounts e)) values end.

Definition saved_verified (args : SavedArgs) (remote_root : pystr) : K unit :=
  do! on_host (copy_data (sr_hosts args) remote_root (sr_source args));;
  let! started := on_host (base (io monotonic)) in
  do! on_host (for_do all_voters (fun node => remote_start fuel (sr_hosts args) remote_root node false));;
  let! pending := await_voters started (started + 90)%Q in
  do! (if bool_decide (pending = []) then ret tt else throw (TimeoutError "Voters did not recover"));;
  let! s := reported in
  let values := (sv_nodes s).*2 in
  do! check_that (same_transfers values);;
  do! check_that (same_accounts values);;
  amend (on_saved (rupdate [("complete", tbool true); ("passed", tbool true)]%string)).
Definition saved_run (args : SavedArgs) (remote_root work : pystr) : K unit :=
  let! binary := on_host (base (gets (h_resolve (sr_binary args)))) in
  let! c := on_host (base (RemoteCluster_new (sr_hosts args) remote_root work binary (sr_openssl args))) in
  do! on_host (with_cluster (fun _ => set_namespace (py "native-soak") c));;
  try_finally (saved_verified args remote_root)
    (do! on_host (close_with (remote_control fuel (sr_hosts args) remote_root));;
     let! paths := on_host (io (h_glob work (py "node*.log"))) in
     let! logs := on_host (for_each paths (fun p acc => let! text := io_res (h_read_text p) in ret (dset (path_name p) text acc)) []) in
     amend (on_saved (rupdate [("logs"%string, manifest_report logs)]))).
Definition saved_script (args : SavedArgs) (remote_root : pystr) : K unit :=
  writing (sr_output args) saved_data
    (recording (fun e => on_saved (rupdate [("error"%string, tstr (repr_exn e))]))
       (let! work := on_host (io_res (h_mkdtemp (py "sqlodin-recovery-") [])) in
        try_finally (saved_run args remote_root work) (on_host (io_res (h_remove work))))).
Definition saved_main (args : SavedArgs) : Hm (W := W) unit :=
  let! present := io (h_exists (sr_output args)) in
  do! (if (present : bool) then parser_error "Use a new output path; retain previous evidence" else ret tt);;
  let! stamp := io hs_stamp in
  let remote_root := join_path (py "/home/insan/projects/sqlodin/recovery-replay") stamp in
  let! binary := file_sha256 (sr_binary args) in
  do! io_res (h_mkdir (path_parent (sr_output args)));;
  fun w =>
    let initial := fields [("complete", tbool false); ("passed", tbool false); ("source_root", tstr (sr_source args)); ("remote_root", tstr remote_root);
                           ("hosts", Arr (tstr <$> sr_hosts args)); ("binary_sha256", tstr binary); ("nodes", Obj [])]%string in
    let '(r, s) := saved_script args remote_root (mkSaved initial [], (no_voters, w)) in (r, s.2.2).
End SavedRecovery.

(** ** audit_recovery.py *)

Definition compared : list string := ["accounts"; "transfers"; "ledger"; "sessions"]%string.
(** [result['logical_sha256'][table]], [result['counts']['transfers']] *)
Definition digest_in (table : string) (result : pyval) : pyres pyval := let? l := vget "logical_sha256" result in vget table l.
Definition transfers_in (result : pyval) : pyres pyval := let? c := vget "counts" result in vget "transfers" c.
(** An element of a set must be hashable. *)
Definition hashable (v : pyval) : pyres pyval :=
  match v with PList _ | PDict _ => Raise (TypeError "unhashable type") | v => Ok v end.
(** [{node['transfers'] for node in nodes.values()} == {value}] *)
Definition all_transfers (nodes value : pyval) : pyres bool :=
  match nodes with
  | PDict d =>
      let? counts := try_map (fun x : pystr * pyval => let? n := vget "transfers" x.2 in hashable n) d in
      let? value := hashable value in
      Ok (negb (bool_decide (counts = [])) && forallb (fun n => json_eq n value) counts)
  | _ => Raise (AttributeError "values")
  end.
Fixpoint check_each {A} (f : A -> pyres unit) (l : list A) : pyres unit :=
  match l with [] => Ok tt | x :: l => let? _ := f x in check_each f l end.
Definition compare_replica (recovery : pyval) (results : list pyval) (result : pyval) : pyres unit :=
  do? check_each (fun table =>
    let? first := list_index results 0 in
    let? a := digest_in table result in
    let? b := digest_in table first in
    guard (negb (json_eq a b)) (ValueError "Replica mismatch in {table}: {host}")) compared;;
  let? nodes := vget "nodes" recovery in
  let? n := transfers_in result in
  let? same := all_transfers nodes n in
  guard (negb same) (ValueError "Offline transfer count differs from the live replay").

Section Audit.
Context {W : Type} `{Hosts W} (ROOT : pystr).

Definition audit_script (root source : pystr) : pystr :=
  line (py "__name__ = 'recovery_audit'") ++ source ++ line [] ++ line (py "root = Path(" ++ str_ root ++ py ")")
  ++ line (py "pid = (root/'server.pid').read_text().strip()") ++ line (py "if not pid.isdecimal() or (Path('/proc')/pid).exists():")
  ++ line (py "    raise RuntimeError('Recovery voter PID is live or invalid; stop it before auditing')") ++ line (py "print(json.dumps(audit(root, 'data')))").
(** [result['host'] = host] *)
Definition with_host (host : pystr) (result : pyval) : pyres pyval :=
  match result with PDict d => Ok (PDict (dict_set (py "host") (PStr host) d)) | _ => Raise (TypeError "item assignment") end.
Definition audit_host (script host : pystr) : Hm (W := W) pyval :=
  let! run := io_res (h_run_input (SSH ++ [host; py "python3 -"]) script 180) in
  do! (if negb (returncode run =? 0) then throw (CalledProcessError "returned non-zero exit status") else ret tt);;
  lift (let? result := loads (stdout run) in with_host host result).
Definition REPLAYS : pystr := py "/home/insan/projects/sqlodin/recovery-replay".
Definition recovery_hosts (recovery : pyval) : pyres (list pystr) :=
  let? l := vget "hosts" recovery in match l with PList l => try_map vstr l | _ => Raise (TypeError "not iterable") end.
Definition audit_replicas (recovery : pyval) : Hm (W := W) report :=
  let! complete := lift (vget_or "complete" PNone recovery) in
  let! passed := lift (vget_or "passed" PNone recovery) in
  do! (if negb (truthy complete && truthy passed) then throw (ValueError "A completed recovery replay is required") else ret tt);;
  let! root := lift (let? r := vget "remote_root" recovery in vstr r) in
  do! (if negb (pyeqb (path_parent root) REPLAYS) then throw (ValueError "Expected an isolated recovery-replay directory") else ret tt);;
  let! source := io_res (h_read_text (join_path ROOT (py "tools/qualification_worker.py"))) in
  let! hosts := lift (recovery_hosts recovery) in
  let! results := for_each hosts (fun host acc => let! result := audit_host (audit_script root source) host in ret (acc ++ [result])) [] in
  do! lift (check_each (compare_replica recovery results) results);;
  let! verifier := lift (encoded source) in
  ret (fields [("complete", tbool true); ("passed", tbool true); ("remote_root", tstr root); ("audits", Arr (J <$> results));
               ("compared_tables", Arr ((fun t => tstr (py t)) <$> compared)); ("verifier_sha256", tstr (h_sha256 verifier))]%string).
(** [report.update(found)] *)
Definition merged (found : report) (r : report) : report := foldl (fun r '(k, x) => dset k x r) r found.
Definition audit_body (path : pystr) : Sc (W := W) report unit :=
  let! recovery := on_host (read_json path) in
  let! found := on_host (audit_replicas recovery) in
  amend (merged found).
Definition audit_main (recovery_report output : pystr) : Hm (W := W) unit :=
  let! present := io (h_exists output) in
  do! (if (present : bool) then parser_error "Use a new output path; retain earlier evidence" else ret tt);;
  let! digest := file_sha256 recovery_report in
  do! io_res (h_mkdir (path_parent output));;
  with_report (fields [("complete", tbool false); ("passed", tbool false); ("recovery_report_sha256", tstr digest)]%string)
    (writing output Obj (recording (fun e => rupdate [("error"%string, tstr (repr_exn e))]) (audit_body recovery_report))).
End Audit.

(** * What the other hosts are told *)

Section Commands.
Context {W : Type} `{Hosts W}.

(** A program handed to the remote Python is one word of the remote shell,
    unchanged. *)
Lemma python_command_words script : sh_tokens (python_command script) = Some [Word (py "python3"); Word (py "-c"); Word script].
Proof.
  unfold sh_tokens, python_command. change (py "python3 -c ") with (py "python3" ++ 32 :: (py "-c" ++ [32])). rewrite <-!app_assoc. cbn [app].
  rewrite <-app_assoc. cbn [app]. rewrite sh_word by done. rewrite sh_word by done. by rewrite sh_quoted_end.
Qed.

Lemma sh_command ws s r : forallb safe_word ws = true ->
  sh_read Plain None ((ws ≫= (fun w => w ++ [32])) ++ shell_quote s ++ r) = tokens ← sh_read Plain None (shell_quote s ++ r); Some ((Word <$> ws) ++ tokens).
Proof.
  intros Hw. induction ws as [|w ws IH]; [cbn; by destruct (sh_read Plain None (shell_quote s ++ r))|]. cbn [forallb] in Hw. apply andb_true_iff in Hw as [Hw Hws].
  change ((w :: ws) ≫= ?f) with (f w ++ (ws ≫= f)). cbn beta. rewrite <-!app_assoc. cbn [app]. rewrite sh_word, IH by done.
  by destruct (sh_read Plain None (shell_quote s ++ r)).
Qed.

Definition mkdir_words (remote_root : pystr) : list token :=
  let mkdir := Word <$> (py <$> ["mkdir"; "-m"; "700"]%string) in
  mkdir ++ [Word (py "-p"); Word (path_parent remote_root); AndIf] ++ mkdir ++ [Word remote_root; AndIf] ++ mkdir ++ [Word (remote remote_root (py "data"))].
Lemma mkdir_command_words remote_root : sh_tokens (mkdir_command remote_root) = Some (mkdir_words remote_root).
Proof.
  assert (Hand : forall ws s t tokens, forallb safe_word ws = true -> sh_read Plain None t = Some tokens ->
    sh_read Plain None ((ws ≫= (fun w => w ++ [32])) ++ shell_quote s ++ 32 :: 38 :: 38 :: 32 :: t) = Some ((Word <$> ws) ++ [Word s; AndIf] ++ tokens)).
  { intros ws s t tokens Hw Ht. by rewrite sh_command, sh_quoted_word, sh_and, Ht by done. }
  unfold mkdir_command, mkdir_words, sh_tokens.
  assert (Hlast : sh_read Plain None ((((py <$> ["mkdir"; "-m"; "700"]%string) ≫= (fun w => w ++ [32])) ++ shell_quote (remote remote_root (py "data")) ++ []))
    = Some ((Word <$> (py <$> ["mkdir"; "-m"; "700"]%string)) ++ [Word (remote remote_root (py "data"))])).
  { rewrite sh_command by done. by rewrite app_nil_r, sh_quoted_end. }
  pose proof (Hand (py <$> ["mkdir"; "-m"; "700"]%string) remote_root _ _ eq_refl Hlast) as H2.
  pose proof (Hand (py <$> ["mkdir"; "-m"; "700"; "-p"]%string) (path_parent remote_root) _ _ eq_refl H2) as H3.
  rewrite app_nil_r in H3. exact H3.
Qed.

(** The literals of the supervisor's and the killer's programs, and what
    surrounds them. *)
Lemma start_script_literals argv pidfile :
  Forall code_points argv -> code_points pidfile ->
  exists before between after_,
    start_script argv pidfile = before ++ repr_list hs_printable argv ++ between ++ str_ pidfile ++ after_ /\
    (forall r, read_list (repr_list hs_printable argv ++ r) = Some (argv, r)) /\ (forall r, read_str (str_ pidfile ++ r) = Some (pidfile, r)).
Proof.
  intros Ha Hp. exists (line (py "import pathlib,subprocess") ++ py "p=subprocess.Popen("), (py ")" ++ [10] ++ py "pathlib.Path(").
  eexists. split; [|split; intros r; [by apply read_list_repr|by apply read_repr]].
  unfold start_script, line. rewrite <-!app_assoc. reflexivity.
Qed.
Lemma stop_script_literals pidfile executable :
  code_points pidfile -> Forall (fun b => 0 <= b < 256) executable ->
  exists before between after_,
    stop_script pidfile executable = before ++ str_ pidfile ++ between ++ repr_bytes executable ++ after_ /\
    (forall r, read_str (str_ pidfile ++ r) = Some (pidfile, r)) /\ (forall r, read_bytes (repr_bytes executable ++ r) = Some (executable, r)).
Proof.
  intros Hp He. exists (line (py "import pathlib,os,signal") ++ py "pid=int(pathlib.Path("),
    (line (py ").read_text())") ++ line (py "p=pathlib.Path(f" ++ q34 ++ py "/proc/{pid}/cmdline" ++ q34 ++ py ")")
     ++ py "if p.exists() and p.read_bytes().split(b" ++ q34 ++ py "\x00" ++ q34 ++ py ")[0]=="),
    (line (py ":") ++ line (py " os.kill(pid,signal.SIGKILL)")).
  split; [|split; intros r; [by apply read_repr|by apply read_repr_bytes]].
  unfold stop_script, line. rewrite <-!app_assoc. reflexivity.
Qed.

Lemma encoded_bytes s b : code_points s -> encoded s = Ok b -> Forall (fun x => 0 <= x < 256) b.
Proof.
  unfold encoded, utf8_encode. intros Hs. destruct (existsb is_surrogate s); [done|]. intros [= <-]. induction Hs as [|c s Hc Hs IH]; [constructor|].
  change ((c :: s) ≫= utf8_char) with (utf8_char c ++ (s ≫= utf8_char)). apply Forall_app. split; [|exact IH].
  unfold utf8_char. repeat case_match; unbool; repeat constructor; dlia.
Qed.
End Commands.

(** C40: whatever the names of directories, binaries and hosts, a remote shell
    divides the provisioning command and the commands that carry a program into
    exactly the words meant, and the literals spliced into those programs are
    read by Python as exactly the argument vector, the PID file and the
    executable meant. *)
Theorem remote_commands {W} `{Hosts W} (remote_root pidfile executable : pystr) (argv : list pystr) (bytes : list Z) :
  Forall code_points argv -> code_points pidfile -> code_points executable -> encoded executable = Ok bytes ->
  sh_tokens (mkdir_command remote_root) = Some (mkdir_words remote_root) /\
  (forall script, sh_tokens (python_command script) = Some [Word (py "python3"); Word (py "-c"); Word script]) /\
  (exists before between after_,
     start_script argv pidfile = before ++ repr_list hs_printable argv ++ between ++ str_ pidfile ++ after_ /\
     forall r, read_list (repr_list hs_printable argv ++ r) = Some (argv, r) /\ read_str (str_ pidfile ++ r) = Some (pidfile, r)) /\
  (exists before between after_,
     stop_script pidfile bytes = before ++ str_ pidfile ++ between ++ repr_bytes bytes ++ after_ /\
     forall r, read_str (str_ pidfile ++ r) = Some (pidfile, r) /\ read_bytes (repr_bytes bytes ++ r) = Some (bytes, r)).
Proof.
  intros Ha Hp He Hb. split; [apply mkdir_command_words|]. split; [apply python_command_words|]. split.
  - destruct (start_script_literals argv pidfile Ha Hp) as (b & m & e & Heq & H1 & H2). exists b, m, e. split; [exact Heq|]. intros r. by split.
  - destruct (stop_script_literals pidfile bytes Hp) as (b & m & e & Heq & H1 & H2); [by eapply encoded_bytes|].
    exists b, m, e. split; [exact Heq|]. intros r. by split.
Qed.

(** * What the reports may claim *)

(** ** check_network_hosts.py *)

Definition majority_names : list pystr :=
  (absent_name <$> all_voters) ++ (py <$> ["three_host_certified_generation_published"; "three_host_generation_and_acknowledged_data_survive_restart"]%string).
Definition hosts_names (args : HostsArgs) (features orm : list pystr) : list pystr :=
  remote_checks ++ (if ha_features args then features else []) ++ (if ha_orm args then orm else []) ++ (if ha_majority args then majority_names else []).

Lemma rget_on_last_other k k' f r : pyeqb (py k') (py k) = false -> rget k (on_last k' f r) = rget k r.
Proof.
  intros Hk. unfold on_last. destruct (rget k' r) as [[| |l|]|]; try done. destruct (last l) as [[| | |d]|]; try done.
  unfold rget. rewrite dget_dset, decide_False; [done|]. intros E. rewrite E, pyeqb_refl in Hk. done.
Qed.

Section HostsNames.
Context {W : Type} `{Hosts W} (fuel : nat) (hosts : list pystr) (remote_root : pystr).
Abbreviation Kr A := (Sc (W := Voters * W) report A).

Lemma quiet_case f : quiet (case_update (W := W) f).
Proof. apply leaves_amend. intros r k Hk. apply rget_on_last_other. apply elem_of_cons in Hk as [->|Hk]; [done|]. by apply list_elem_of_singleton in Hk as ->. Qed.
Lemma quiet_append k x : existsb (fun k' => pyeqb (py k) (py k')) ["checks"; "passed"]%string = false -> quiet (amend (rappend k x) : Kr unit).
Proof.
  cbn [existsb]. intros Hk. unbool. apply leaves_amend. intros r k' Hin. apply rget_rappend_other.
  apply elem_of_cons in Hin as [->|Hin]; [done|]. by apply list_elem_of_singleton in Hin as ->.
Qed.
Lemma quiet_for_each {A B} (l : list A) (body : A -> B -> Kr B) acc : (forall x b, quiet (body x b)) -> quiet (for_each l body acc).
Proof. intros Hb. revert acc. induction l as [|x l IH]; intros acc; cbn [for_each]; [apply leaves_ret|apply leaves_bind; [apply Hb|intros b; apply IH]]. Qed.

Lemma quiet_operation clients survivors started i writes : quiet (host_operation (W := W) clients survivors started i writes).
Proof.
  unfold host_operation. cbv zeta. leaves_auto; apply quiet_case.
Qed.
Lemma quiet_diagnose clients survivors : quiet (diagnose (W := W) clients survivors).
Proof.
  unfold diagnose. leaves_auto; try apply quiet_case. apply leaves_for_do. intros node. leaves_auto. apply quiet_case.
Qed.
Lemma quiet_write victim clients survivors writes : quiet (survivors_write (W := W) hosts remote_root victim clients survivors writes).
Proof.
  unfold survivors_write. leaves_auto; [|apply quiet_case]. apply quiet_for_each. intros i n. apply quiet_operation.
Qed.
Lemma emits_case victim writes : emits (W := W) [absent_name victim] (host_case fuel hosts remote_root victim writes).
Proof.
  unfold host_case. cbv zeta. apply emits_then; [apply emits_host|intros clients]. apply emits_then; [by apply emits_quiet, quiet_append|intros _].
  apply emits_then; [|intros n; emits_auto].
  apply emits_quiet, leaves_finally; [|apply leaves_host]. apply leaves_except; [apply quiet_write|].
  intros e k [= <-]. apply leaves_bind; [apply quiet_diagnose|intros _; apply leaves_throw].
Qed.
Lemma emits_majority : emits (W := W) majority_names (majority_checks fuel hosts remote_root).
Proof.
  unfold majority_checks, majority_names. apply emits_then; [apply emits_host|intros _]. apply emits_then; [by apply emits_note|intros _].
  apply emits_bind; [|intros writes; emits_auto].
  apply (emits_for_each all_voters _ (fun victim => [absent_name victim])). intros victim n. apply emits_case.
Qed.
End HostsNames.

Section HostsSound.
Context {W : Type} `{Hosts W} (fuel : nat) (ROOT : pystr).
Context (features orm_checks : Control (W := W) -> Sc (W := Voters * W) report unit) (fnames onames : list pystr).
Hypothesis (Hfeatures : forall ct, emits fnames (features ct)) (Horm : forall ct, emits onames (orm_checks ct)).
Abbreviation St := (report * (Voters * W))%type.

Lemma emits_hosts args remote_root : emits (hosts_names args fnames onames) (hosts_checks fuel features orm_checks args remote_root).
Proof.
  unfold hosts_checks, hosts_names. cbv zeta. apply emits_bind; [apply emits_checks_remote|intros _].
  apply emits_bind; [apply emits_if; [apply Hfeatures|apply emits_ret]|intros _].
  apply emits_bind; [apply emits_if; [apply Horm|apply emits_ret]|intros _].
  apply emits_if; [apply emits_majority|apply emits_ret].
Qed.
Lemma quiet_filesystem remote_root host : quiet (host_filesystem (W := W) remote_root host).
Proof. unfold host_filesystem. leaves_auto. by apply quiet_append. Qed.
Lemma quiet_ending remote_root args : quiet (hosts_ending (W := W) fuel remote_root args).
Proof. unfold hosts_ending. leaves_auto. Qed.

(** A quiet step after an honest one. *)
Lemma honest_after names (m m' : Sc (W := Voters * W) report unit) (s : St) :
  wp m (fun r s' => honest names r s'.1) s -> quiet m' -> wp (do! m;; m') (fun r s' => honest names r s'.1) s.
Proof.
  intros Hm Hq. apply wp_bind. eapply wp_mono; [exact Hm|]. intros [[]|e|] s1 Hh; [|exact Hh..].
  eapply wp_mono; [apply Hq|]. intros r s2 Hk. by apply (honest_quiet _ _ _ _ _ Hk Hh).
Qed.
Lemma honest_finally names (m f : Sc (W := Voters * W) report unit) (s : St) :
  wp m (fun r s' => honest names r s'.1) s -> quiet f -> wp (try_finally m f) (fun r s' => honest names r s'.1) s.
Proof.
  intros Hm Hq. apply wp_try_finally. eapply wp_mono; [exact Hm|]. intros r s1 Hh.
  destruct r as [[]|e|]; [| |done]; (eapply wp_mono; [apply Hq|]); intros [[]|?|] s2 Hk; by apply (honest_quiet _ _ _ _ _ Hk Hh).
Qed.

Lemma hosts_run_honest args remote_root work (s : St) :
  opening s.1 -> wp (hosts_run fuel features orm_checks args remote_root work) (fun r s' => honest (hosts_names args fnames onames) r s'.1) s.
Proof.
  intros Ho. unfold hosts_run. apply honest_host; [done|]. intros b w1. apply honest_host; [done|]. intros c w2. apply honest_host; [done|]. intros u w3.
  apply honest_finally; [|apply quiet_ending]. unfold hosts_verified.
  apply wp_bind. eapply wp_mono; [apply (emits_hosts args remote_root _ []); apply Ho|].
  intros [[]|e|] s1 (Hv & l & Hl & Heq); [|apply honest_opening; [rewrite Hv; apply Ho|done]..]. cbn [app] in Heq. subst l.
  apply honest_after.
  - apply wp_amend. cbn [fst]. split; [|intros _; exact (rget_rset "passed" (tbool true) (rupdate [("complete"%string, tbool true)] s1.1))]. intros _.
    rewrite rget_rupdate_other by done. exact Hl.
  - apply leaves_bind; [by apply leaves_note|intros _]. apply leaves_for_do. intros host. apply quiet_filesystem.
Qed.

(** What a failure leaves is no pass, whatever the report said before. *)
Lemma honest_failed names (body : Sc (W := Voters * W) report unit) (s : St) :
  wp body (fun r s' => honest names r s'.1) s -> wp (recording failed_report body) (fun r s' => honest names r s'.1) s.
Proof.
  intros Hb. apply wp_recording. eapply wp_mono; [exact Hb|]. intros [[]|e|] s' Hh; [done| |done].
  apply honest_opening; [|done]. unfold verdict. cbn [fst].
  assert (rget "passed" (failed_report e s'.1) = Some (tbool false)) as ->; [|done].
  exact (rget_rset "passed" (tbool false) (rupdate [("error", tstr (repr_exn e)); ("complete", tbool false)]%string s'.1)).
Qed.

(** check_network_hosts.py says passed only when every check its arguments ask
    for was recorded, in order, and it succeeds only with such a report. *)
Theorem hosts_sound args remote_root (s : St) :
  opening s.1 ->
  wp (hosts_script fuel features orm_checks args remote_root) (fun r s' => honest (hosts_names args fnames onames) r s'.1) s.
Proof.
  intros Ho. unfold hosts_script. apply honest_finally; [|leaves_auto]. apply honest_failed.
  apply honest_host; [done|]. intros work w. apply honest_finally; [by apply hosts_run_honest|apply leaves_host].
Qed.
End HostsSound.

(** ** check_saved_recovery.py *)

Section SavedSound.
Context {W : Type} `{Hosts W} (fuel : nat).
Abbreviation St := (Saved * (Voters * W))%type.

Definition found (s : Saved) (node : Z) : Prop := exists e, dget node (sv_nodes s) = Some e.
(** Every voter was read, and all hold the same transfers and accounts. *)
Definition agreed (s : Saved) : Prop :=
  exists first, forall node, node ∈ all_voters ->
    exists e, dget node (sv_nodes s) = Some e /\
      (e = first \/ same_cell (rv_transfers e) (rv_transfers first) = true /\ same_rows (rv_accounts e) (rv_accounts first) = true).
Definition saved_verdict (s : Saved) : option tv := rget "passed" (sv_report s).
Definition saved_honest (r : res exn unit) (s : Saved) : Prop :=
  (saved_verdict s = true_ -> agreed s) /\ (r = Ok tt -> saved_verdict s = true_).
(** While voters are awaited: no verdict, and all but the pending are read. *)
Definition awaiting (pending : list Z) (s : St) : Prop :=
  saved_verdict s.1 <> true_ /\ forall node, node ∈ all_voters -> node ∉ pending -> found s.1 node.

Lemma saved_open r s : saved_verdict s <> true_ -> r <> Ok tt -> saved_honest r s.
Proof. by split. Qed.

Lemma found_added s node n e : found s node \/ node = n -> found (add_recovered n e s) node.
Proof. unfold found. cbn. rewrite dget_dset. case_decide; [by eexists|]. intros [Hf| ->]; done. Qed.
Lemma on_saved_other k v s : pyeqb (py k) (py "passed") = false -> saved_verdict (on_saved (rupdate [(k, v)]) s) = saved_verdict s.
Proof. intros Hk. unfold saved_verdict. cbn [sv_report on_saved]. apply rget_rupdate_other. cbn [forallb]. by rewrite Hk. Qed.

Lemma last_error_verdict node e s : saved_verdict (on_saved (last_error node e) s) = saved_verdict s.
Proof. unfold saved_verdict. cbn [sv_report on_saved]. unfold last_error. cbv zeta. by rewrite rget_rupdate_other. Qed.

Lemma attempt_awaits started pending (s : St) :
  awaiting pending s -> wp (attempt started pending) (fun r s' => match r with Ok p => awaiting p s' | _ => saved_verdict s'.1 <> true_ end) s.
Proof.
  intros Ha. unfold attempt. apply (wp_for_each awaiting); [done| |done]. clear s Ha. intros node remaining s _ [Hv Hf].
  apply wp_try_except, wp_bind, wp_host_step. intros [e|e|] w; [| |done].
  - apply wp_bind, wp_amend, wp_ret. split; [done|]. cbn [fst]. intros n Hn Hout. apply found_added.
    destruct (decide (n = node)); [by right|left]. apply Hf; [done|]. intros Hin. apply Hout. by apply list_elem_of_filter.
  - destruct (isinstance e CConnectionError); [|done]. apply wp_bind, wp_amend, wp_ret. split; [|done].
    cbn [fst]. by rewrite last_error_verdict.
Qed.
Lemma await_finds started deadline (s : St) :
  saved_verdict s.1 <> true_ ->
  wp (await_voters fuel started deadline) (fun r s' => match r with Ok p => awaiting p s' | _ => saved_verdict s'.1 <> true_ end) s.
Proof.
  intros Hv. unfold await_voters. apply (wp_while awaiting); [by split| |by intros ? ? []]. clear s Hv. intros pending s Ha.
  case_bool_decide; [by apply wp_ret|]. apply wp_bind, wp_host_step. intros [now|e|] w; [|by apply Ha..].
  destruct (Qle_bool deadline now); [by apply wp_ret|]. apply wp_bind. eapply wp_mono; [by apply attempt_awaits|].
  intros [p|e|] s1 H1; [|done..]. apply wp_bind. case_bool_decide; [by apply wp_ret, wp_ret|].
  apply wp_host_step. intros [[]|e|] w2; [by apply wp_ret|by apply H1..].
Qed.

Lemma values_agree s :
  (forall node, node ∈ all_voters -> found s node) -> same_transfers (sv_nodes s).*2 = true -> same_accounts (sv_nodes s).*2 = true -> agreed s.
Proof.
  intros Hf Ht Hc. unfold same_transfers, same_accounts in *. destruct (sv_nodes s).*2 as [|first l] eqn:E; [done|].
  exists first. intros node Hn. destruct (Hf node Hn) as [e He]. exists e. split; [exact He|].
  assert (Hin : e ∈ first :: l) by (rewrite <-E; apply list_elem_of_fmap; exists (node, e); split; [done|by apply dget_Some_In]).
  rewrite forallb_forall in Hc. pose proof (Hc e (proj1 (list_elem_of_In _ _) Hin)) as Hr.
  apply elem_of_cons in Hin as [->|Hin]; [by left|right]. split; [|exact Hr].
  rewrite forallb_forall in Ht. by apply Ht, list_elem_of_In.
Qed.

Lemma saved_keeps (m f : Sc (W := Voters * W) Saved unit) (s : St) :
  wp m (fun r s' => saved_honest r s'.1) s ->
  (forall s1 : St, wp f (fun _ s' => saved_verdict s'.1 = saved_verdict s1.1 /\ sv_nodes s'.1 = sv_nodes s1.1) s1) ->
  wp (try_finally m f) (fun r s' => saved_honest r s'.1) s.
Proof.
  intros Hm Hf. apply wp_try_finally. eapply wp_mono; [exact Hm|]. intros r s1 [H1 H2].
  assert (Hkeep : forall s2 : Saved, saved_verdict s2 = saved_verdict s1.1 -> sv_nodes s2 = sv_nodes s1.1 -> saved_verdict s2 = true_ -> agreed s2).
  { intros s2 Hv Hn Ht. unfold agreed. rewrite Hn. apply H1. by rewrite <-Hv. }
  destruct r as [[]|e|]; [| |done]; (eapply wp_mono; [apply Hf|]); intros r' s2 [Hv Hn]; destruct r' as [[]|e'|];
    (split; [by apply Hkeep|]); try done. intros _. rewrite Hv. by apply H2.
Qed.

Lemma saved_body args remote_root (s : St) :
  saved_verdict s.1 <> true_ -> wp (saved_verified fuel args remote_root) (fun r s' => saved_honest r s'.1) s.
Proof.
  intros Hv. unfold saved_verified.
  apply wp_bind, wp_host_step. intros [u|e|] w1; [|by apply saved_open..].
  apply wp_bind, wp_host_step. intros [started|e|] w2; [|by apply saved_open..].
  apply wp_bind, wp_host_step. intros [u2|e|] w3; [|by apply saved_open..].
  apply wp_bind. eapply wp_mono; [by apply await_finds|]. intros [pending|e|] s1 H1; [|by apply saved_open..].
  apply wp_bind. case_bool_decide as Hp; [|apply wp_throw, saved_open; [apply H1|done]]. subst pending. apply wp_ret, wp_bind, wp_gets.
  apply wp_bind, wp_lift. destruct (same_transfers _) eqn:Et; [|apply saved_open; [apply H1|done]]. cbn [negb guard].
  apply wp_bind, wp_lift. destruct (same_accounts _) eqn:Ea; [|apply saved_open; [apply H1|done]]. cbn [negb guard].
  apply wp_amend. split.
  - intros _. apply (values_agree s1.1); [|done..]. intros node Hn. apply H1; [done|set_solver].
  - intros _. exact (rget_rset "passed" (tbool true) (rupdate [("complete"%string, tbool true)] (sv_report s1.1))).
Qed.

(** check_saved_recovery.py says passed only when every voter of the copied
    data was read and all hold the same transfers and accounts, and it succeeds
    only with that verdict, written. *)
Theorem saved_sound args remote_root (s : St) :
  saved_verdict s.1 <> true_ ->
  wp (saved_script fuel args remote_root)
     (fun r s' => saved_honest r s'.1 /\ (r = OutOfFuel \/ written (sr_output args) (saved_data s'.1) s'.2)) s.
Proof.
  intros Hv. unfold saved_script. eapply wp_mono; [apply (wp_writing _ _ _ saved_honest)|].
  - apply wp_recording. apply wp_bind, wp_host_step. intros [work|e|] w; [|by apply saved_open; [cbn [fst]; rewrite on_saved_other|]|by apply saved_open].
    eapply (wp_mono _ (fun r s' => saved_honest r s'.1)).
    + apply saved_keeps; [|intros s1; by apply wp_host_step]. unfold saved_run.
      apply wp_bind, wp_host_step. intros [b|e|] w1; [|by apply saved_open..].
      apply wp_bind, wp_host_step. intros [c|e|] w2; [|by apply saved_open..].
      apply wp_bind, wp_host_step. intros [u|e|] w3; [|by apply saved_open..].
      apply saved_keeps; [by apply saved_body|]. intros s1. apply wp_bind, wp_host_step. intros [?|?|] w4; [|done..].
      apply wp_bind, wp_host_step. intros [?|?|] w5; [|done..]. apply wp_bind, wp_host_step. intros [?|?|] w6; [|done..].
      apply wp_amend. cbn [fst]. by rewrite on_saved_other.
    + intros [[]|e|] s' [H1 H2]; [done| |done]. split; [|done]. cbn [fst]. rewrite on_saved_other by done. exact H1.
  - intros r s' (r0 & [H1 H2] & Hw & Hr). split; [|exact Hw]. split; [exact H1|]. intros ->. apply H2. by apply Hr.
Qed.
End SavedSound.

(** ** audit_recovery.py *)

Section AuditExact.
Context {W : Type} `{Hosts W} (ROOT : pystr).

(** Two replicas agree on every compared table, and one's transfers are the
    replay's. *)
Definition matches_first (recovery first result : pyval) : Prop :=
  (forall table, table ∈ compared -> exists a b, digest_in table result = Ok a /\ digest_in table first = Ok b /\ json_eq a b = true) /\
  (exists nodes n, vget "nodes" recovery = Ok nodes /\ transfers_in result = Ok n /\ all_transfers nodes n = Ok true).

Definition replayed (recovery : pyval) : Prop :=
  exists complete passed, vget_or "complete" PNone recovery = Ok complete /\ vget_or "passed" PNone recovery = Ok passed /\ truthy complete && truthy passed = true.

Lemma check_each_Ok {A} (f : A -> pyres unit) l : check_each f l = Ok tt -> forall x, x ∈ l -> f x = Ok tt.
Proof.
  induction l as [|x l IH]; cbn [check_each]; [by intros _ x Hx%elem_of_nil|]. intros ([] & Hx & Hl)%res_bind_Ok y [->|Hy]%elem_of_cons; [done|by apply IH].
Qed.
Lemma guard_not (b : bool) (e : exn) u : guard (negb b) e = Ok u -> b = true.
Proof. intros Hg%guard_Ok. by apply negb_false_iff. Qed.

Lemma compare_replica_Ok recovery first results result :
  compare_replica recovery (first :: results) result = Ok tt -> matches_first recovery first result.
Proof.
  unfold compare_replica. intros ([] & Ht & (nodes & Hn & (n & Hc & (same & Hs & Hg)%res_bind_Ok)%res_bind_Ok)%res_bind_Ok)%res_bind_Ok. split.
  - intros table Hin. pose proof (check_each_Ok _ _ Ht table Hin) as (f & Hf & (a & Ha & (b & Hb & Hj%guard_not)%res_bind_Ok)%res_bind_Ok)%res_bind_Ok.
    injection Hf as <-. by exists a, b.
  - apply guard_not in Hg. subst same. by exists nodes, n.
Qed.

Lemma with_host_named host result named : with_host host result = Ok named -> vget "host" named = Ok (PStr host).
Proof. destruct result; try done. intros [= <-]. cbn [vget]. unfold getitem. by rewrite dict_get_set, pyeqb_refl. Qed.
Lemma audit_host_named script host : returns (audit_host (W := W) script host) (fun result => vget "host" result = Ok (PStr host)).
Proof.
  unfold audit_host. apply returns_then. intros run. apply returns_then. intros _. apply returns_lift.
  intros named (result & _ & Hh)%res_bind_Ok. by eapply with_host_named.
Qed.

(** audit_recovery.py reports a pass only of a completed replay in a directory
    of its own, of which every host was audited, where each replica holds the
    first one's accounts, transfers, ledger and sessions, and as many transfers
    as the live replay saw. *)
Theorem replica_audit_exact recovery :
  returns (audit_replicas (W := W) ROOT recovery) (fun report =>
    exists hosts results root,
      replayed recovery /\ recovery_hosts recovery = Ok hosts /\ vget "remote_root" recovery = Ok (PStr root) /\ path_parent root = REPLAYS /\
      rget "audits" report = Some (Arr (J <$> results)) /\
      Forall2 (fun host result => vget "host" result = Ok (PStr host)) hosts results /\
      forall first rest, results = first :: rest -> forall result, result ∈ results -> matches_first recovery first result).
Proof.
  unfold audit_replicas. eapply (returns_bind (fun c => vget_or "complete" PNone recovery = Ok c)); [by apply returns_lift|]. intros complete Hcomplete.
  eapply (returns_bind (fun p => vget_or "passed" PNone recovery = Ok p)); [by apply returns_lift|]. intros passed Hpassed.
  eapply (returns_bind (fun _ => replayed recovery)).
  { destruct (truthy complete && truthy passed) eqn:E; [|apply returns_throw]. apply returns_ret. by exists complete, passed. }
  intros _ Hreplayed.
  eapply (returns_bind (fun root => vget "remote_root" recovery = Ok (PStr root))).
  { apply returns_lift. intros root (x & Hx & Hs)%res_bind_Ok. destruct x; try done. by injection Hs as <-. }
  intros root Hroot. eapply (returns_bind (fun _ => path_parent root = REPLAYS)).
  { destruct (pyeqb (path_parent root) REPLAYS) eqn:E; [|apply returns_throw]. apply returns_ret. by apply pyeqb_eq. }
  intros _ Hparent. apply returns_then. intros source. eapply (returns_bind (fun hosts => recovery_hosts recovery = Ok hosts)); [by apply returns_lift|].
  intros hosts Hh. eapply (returns_bind (fun results => Forall2 (fun host result => vget "host" result = Ok (PStr host)) hosts results)).
  { apply (returns_for_each (fun pre results => Forall2 (fun host result => vget "host" result = Ok (PStr host)) pre results)); [constructor| |done].
    intros pre host acc Hacc. eapply returns_bind; [apply audit_host_named|]. intros result Hr. apply returns_ret. apply Forall2_app; [done|by constructor]. }
  intros results Hres. eapply (returns_bind (fun _ => check_each (compare_replica recovery results) results = Ok tt)).
  { apply returns_lift. by intros [] Hc. }
  intros _ Hc. apply returns_then. intros verifier. apply returns_ret. exists hosts, results, root. do 6 (split; [done|]).
  intros one others -> replica Hin. eapply compare_replica_Ok, (check_each_Ok _ _ Hc replica Hin).
Qed.
End AuditExact.

(** A run where every replica answers alike, and the words of a supervisor. *)
Module HostsDemo.
#[local] Instance demo_platform : Platform := { clk_tck := 100; page_size := 4096 }.
#[local] Instance demo_disk : Disk Toy := {
  d_probes := demo_probes; d_platform := demo_platform; d_stat _ w := (Ok (10, 8), w); d_free _ w := (2 ^ 50, w); d_is_dir _ w := (true, w); d_wakes w := (0%nat, w)
}.
#[local] Instance demo_lab : Lab Toy := {
  lab_disk := demo_disk; l_connect _ w := (Ok 1, w); l_execute _ _ w := (Ok [], w); l_exit _ _ w := (Ok tt, w); l_copytree _ _ w := (Ok tt, w);
  l_unlink _ w := (Ok tt, w); l_symlink _ _ w := (Ok tt, w); l_write_at _ _ _ w := (Ok tt, w); l_spawn_env _ _ _ w := (Ok 1, w);
  l_socket _ _ _ w := (Ok 1, w); l_close_socket _ w := w; l_sockets _ := []; l_exchange_with _ _ _ _ w := (Ok [], w); l_credentials _ w := w
}.
#[local] Instance demo_hosts : Hosts Toy := {
  hs_lab := demo_lab; hs_printable _ := false; hs_repr_pending _ := py "None"; hs_stamp w := (py "20260101T000000Z", w)
}.
Definition root : pystr := py "/tmp/it's here/20260101T000000Z".
Definition argv : list pystr := [join_path root (py "sqlodin"); py "serve"; join_path root (py "node1.json"); py "--create"].

Example mkdir_demo : sh_tokens (mkdir_command root) =
  Some (let mkdir := Word <$> (py <$> ["mkdir"; "-m"; "700"]%string) in
        mkdir ++ [Word (py "-p"); Word (py "/tmp/it's here"); AndIf] ++ mkdir ++ [Word root; AndIf] ++ mkdir ++ [Word (root ++ py "/data")]).
Proof. vm_compute. reflexivity. Qed.

Lemma remote_commands_witness :
  exists bytes, encoded (join_path root (py "sqlodin")) = Ok bytes /\ sh_tokens (mkdir_command root) = Some (mkdir_words root).
Proof.
  eexists. split; [reflexivity|].
  eapply (remote_commands root (join_path root (py "server.pid")) (join_path root (py "sqlodin")) argv);
    [unfold code_points; apply (bool_decide_unpack _); vm_compute; exact I..|reflexivity].
Defined.
End HostsDemo.
