(* ===== verification/Cli.v ===== *)
(** * tools/check_cli.py: the command-line client

    The local shell and the cluster shell, run as processes: scripts on their
    standard input, a terminal, a locked state file, a conflicting commit, and a
    commit whose reply a proxy drops.  Every check is noted as it passes, and
    the report is written only after the last one. *)

From Stdlib Require Import QArith.
From S2P Require Import Prelude PyStr PyFloat Objects Json Bytes Vector Text Parameters Results Net Client Transport Dict Host Script Service ServiceChecks Returns Resource Capacity Lab.
#[local] Open Scope Z_scope.

(** Where a process started here reads and writes: pipes, errors to a
    descriptor, or everything on a terminal. *)
Inductive Streams := Pipes | ErrorsTo (fd : Z) | Terminal (fd : Z).
(** [dict(os.environ, k=v)] and [env.pop(k, None)] *)
Inductive Setting := Sets (k : string) (v : pystr) | Drops (k : string).

Class Cli (W : Type) := {
  cl_lab :: Lab W;
  (** [subprocess.run(argv, input=..., text=True, capture_output=True, timeout=..., cwd=...)];
      the same without [text]; the same with [stdout] a descriptor *)
  cl_run : list pystr -> option pystr -> pystr -> Q -> W -> pyres Finished * W;
  cl_run_bytes : list pystr -> Q -> W -> pyres (Z * list Z * list Z) * W;
  cl_run_to : list pystr -> Z -> Q -> W -> pyres (Z * list Z) * W;
  (** [subprocess.Popen], [communicate], writing to and reading from its pipes,
      [returncode] *)
  cl_popen : list pystr -> Streams -> list Setting -> pystr -> W -> pyres Z * W;
  cl_communicate : Z -> pystr -> Q -> W -> pyres (pystr * pystr) * W;
  cl_write_stdin : Z -> pystr -> W -> pyres unit * W;
  cl_readline : Z -> W -> pyres pystr * W;
  cl_returncode : Z -> W -> option Z;
  cl_wait : Z -> W -> pyres Z * W;
  (** [os.pipe], [pty.openpty], [os.close], [os.read], [os.write], [select.select([fd], [], [], t)[0]] *)
  cl_pipe : W -> pyres (Z * Z) * W;
  cl_openpty : W -> pyres (Z * Z) * W;
  cl_close : Z -> W -> pyres unit * W;
  cl_read : Z -> Z -> W -> pyres (list Z) * W;
  cl_write : Z -> list Z -> W -> pyres unit * W;
  cl_select : Z -> Q -> W -> bool * W;
  cl_write_bytes : pystr -> list Z -> W -> pyres unit * W;
  cl_mode : pystr -> W -> pyres Z * W;  (** [path.stat().st_mode] *)
  (** a listening socket with its port, [accept], TLS contexts of a server and of
      a client from their files, [wrap_socket] of either, [recv], [sendall] *)
  cl_listen : W -> pyres (Z * Z) * W;
  cl_accept : Z -> W -> pyres Z * W;
  cl_server_context : pystr -> pystr -> pystr -> W -> pyres Z * W;
  cl_client_context : pystr -> pystr -> pystr -> W -> pyres Z * W;
  cl_connect : pystr -> Z -> W -> pyres Z * W;
  cl_wrap_server : Z -> Z -> W -> pyres Z * W;
  cl_wrap_client : Z -> Z -> pystr -> W -> pyres Z * W;
  cl_recv : Z -> Z -> W -> pyres (list Z) * W;
  cl_sendall : Z -> list Z -> W -> pyres unit * W;
  (** a command run beside a thread; then the thread is joined for five seconds:
      what it returned, if it ended *)
  cl_beside : (W -> pyres (list pystr) * W) -> list pystr -> Q -> W -> (pyres Finished * option (list pystr)) * W
}.

Record CliCheckArgs := mkCliCheckArgs { cc_binary : pystr; cc_server : pystr; cc_openssl : pystr; cc_output : pystr }.

(** A script, a line each. *)
Definition script (lines : list string) : pystr := lines ≫= (fun l => py l ++ [10]).
Definition qt : pystr := [34].

Section Cli.
Context {W : Type} `{Cli W} (fuel : nat).
Abbreviation VM := (V (W := W)).
Abbreviation K := (Sc (W := Voters * W) (list pystr)).
Definition c_ {A} (m : VM A) : K A := on_host m.
(** [record(name)] *)
Definition pass (name : string) : K unit :=
  do! amend (fun l => l ++ [py name]);; c_ (base (print_line (py "PASS " ++ py name))).
Definition os_ {A} (f : W -> pyres A * W) : VM A := base (io_res f).

(** ** run *)

(** A local shell reads no initialisation file of the user. *)
Definition local_argv (argv : list pystr) : list pystr :=
  match argv with
  | first :: rest => if pyeqb first (py "local") then [py "local"; py "-init"; py "/dev/null"] ++ rest else argv
  | [] => []
  end.
Definition shell (binary root : pystr) (argv : list pystr) (text : option pystr) (code : Z) : VM Finished :=
  let! p := os_ (cl_run (binary :: local_argv argv) text root 90) in
  do! check_that (returncode p =? code);;
  ret p.
Definition has (part : string) (text : pystr) : bool := text_in (py part) text.
Definition stripped (p : Finished) (text : string) : bool := pyeqb (strip (stdout p)) (py text).
(** [assert json.loads(text) == value] *)
Definition json_is (text : pystr) (value : pyval) : VM unit := let! v := lift (loads text) in check_that (json_eq v value).
Definition row (kvs : list (string * pyval)) : pyval := PDict (mkdict kvs).

(** ** color_test *)

Definition read_all (fd : Z) (output : list Z) : VM (list Z) :=
  while_loop fuel (fun output : list Z =>
    try_except (let! part := os_ (cl_read fd 4096) in ret (if bool_decide (part = []) then inr output else inl (output ++ part)))
      (fun e => if isinstance e COSError then Some (ret (inr output)) else None)) output.
Definition color_case (binary root : pystr) (disabled : bool) : VM unit :=
  let! pty := os_ cl_openpty in
  let '(master, slave) := pty in
  let settings := [Sets "TERM" (py "xterm-256color"); Drops "NO_COLOR"] ++ if disabled then [Sets "NO_COLOR" []] else [] in
  let! p := os_ (cl_popen [binary; py "unknown"] (ErrorsTo slave) settings root) in
  do! os_ (cl_close slave);;
  let! output := read_all master [] in
  do! os_ (cl_close master);;
  let! code := os_ (v_wait p 5) in
  do! check_that (code =? 2);;
  do! check_that (xorb (text_in [27; 91] output) disabled);;
  check_that (has "Hint:" output).
Definition color_test (binary root : pystr) : VM unit := for_do [false; true] (color_case binary root).

(** ** lock_test *)

Definition lock_test (binary config : pystr) : VM unit :=
  let! holder := os_ (cl_popen [binary; py "connect"; config] Pipes [] []) in
  try_finally
    (do! base (io_do (sleep (3 # 10)));;
     let! other := os_ (cl_run_bytes [binary; py "connect"; config; py "-c"; py ".status"] 10) in
     let '(code, _, err) := other in
     check_that ((code =? 2) && has "locked" err))
    (let! _ := os_ (cl_communicate holder (script [".quit"%string]) 10) in ret tt).

(** ** conflict_test *)

Definition reap (p : Z) : VM unit :=
  let! code := base (io (v_poll p)) in
  if bool_decide (code = None) then do! base (io_do (v_kill p));; let! _ := os_ (cl_wait p) in ret tt else ret tt.
Definition ITEM_AMOUNT : pystr := py "SELECT amount FROM item WHERE id=1".
Definition conflict_test (binary config : pystr) : VM unit :=
  let! p := os_ (cl_popen [binary; py "connect"; config] Pipes [] []) in
  try_finally
    (do! os_ (cl_write_stdin p (script ["BEGIN;"; "UPDATE item SET amount=77 WHERE id=1;"; ".print ready"]%string));;
     let! line := os_ (cl_readline p) in
     do! check_that (pyeqb (strip line) (py "ready"));;
     do! with_conn all_voters 10 None (fun db => let! _ := db_execute db (py "UPDATE item SET amount=88 WHERE id=1") [] in ret tt);;
     let! finished := os_ (cl_communicate p (script ["COMMIT;"%string]) 30) in
     let! code := base (gets (cl_returncode p)) in
     do! check_that (bool_decide (code = Some 1) && has "CONFLICT" finished.2);;
     expect_on all_voters ITEM_AMOUNT 88)
    (reap p).

(** ** editor_test *)

(** [expect(text)]: the output read so far, until it holds the text. *)
Definition expect (master : Z) (text : list Z) (output : list Z) : VM (list Z) :=
  let! now := base (io monotonic) in
  let deadline := (now + 15)%Q in
  while_loop fuel (fun output : list Z =>
    if text_in text output then ret (inr output)
    else
      let! now := base (io monotonic) in
      do! check_that (negb (Qle_bool deadline now));;
      let! ready := base (io (cl_select master (2 # 10))) in
      if (ready : bool) then let! part := os_ (cl_read master 65536) in ret (inl (output ++ part)) else ret (inl output)) output.
(** What is left on the terminal when the client ended. *)
Definition drained (master : Z) (output : list Z) : VM (list Z) :=
  while_loop fuel (fun output : list Z =>
    let! ready := base (io (cl_select master (1 # 10))) in
    if (ready : bool) then
      try_except (let! part := os_ (cl_read master 65536) in ret (if bool_decide (part = []) then inr output else inl (output ++ part)))
        (fun e => if isinstance e COSError then Some (ret (inr output)) else None)
    else ret (inr output)) output.
Definition crlf (text : string) : list Z := [13; 10] ++ py text ++ [13; 10].
Definition editor_session (master process : Z) : VM unit :=
  let! _ := expect master (py "sqlodin>") [] in
  do! os_ (cl_write master (py ".print editor-okX" ++ [127; 13]));;
  let! _ := expect master (crlf "editor-ok") [] in
  do! os_ (cl_write master [27; 91; 65; 13]);;
  let! _ := expect master (crlf "editor-ok") [] in
  do! os_ (cl_write master (py ".heal" ++ [9; 13]));;
  let! _ := expect master (py "quorum read passed") [] in
  do! os_ (cl_write master (py ".print cancelled-value" ++ [3] ++ py ".quit" ++ [13]));;
  let! _ := os_ (v_wait process 10) in
  let! output := drained master [] in
  do! check_that (negb (text_in (crlf "cancelled-value") output));;
  let! code := base (gets (cl_returncode process)) in
  check_that (bool_decide (code = Some 0)).
Definition editor_test (binary config : pystr) : VM unit :=
  let! pty := os_ cl_openpty in
  let '(master, slave) := pty in
  let! process := os_ (cl_popen [binary; py "connect"; config] (Terminal slave) [Sets "TERM" (py "xterm-256color")] []) in
  do! os_ (cl_close slave);;
  try_finally (editor_session master process) (do! reap process;; os_ (cl_close master)).
End Cli.

(** ** The proxy that loses a reply *)

Section Proxy.
Context {W : Type} `{Cli W} (fuel : nat).
Abbreviation P := (Hm (W := W)).

(** [exact(sock, count)]: each round reads a byte or more. *)
Fixpoint exact_from (rounds : nat) (sock count : Z) (data : list Z) : P (list Z) :=
  if count <=? zlen data then ret data
  else
    match rounds with
    | O => lift OutOfFuel
    | S rounds =>
        let! part := io_res (cl_recv sock (count - zlen data)) in
        if bool_decide (part = []) then throw (EOFError "") else exact_from rounds sock count (data ++ part)
    end.
Definition exact (sock count : Z) : P (list Z) := exact_from (Z.to_nat count) sock count [].
Definition proxy_frame (sock : Z) : P (list Z) :=
  let! header := exact sock 4 in
  let! body := exact sock (le_unpack header) in
  ret (header ++ body).
(** [with sock: body] *)
Definition with_socket {A} (sock : Z) (body : P A) : P A := try_finally body (io_do (l_close_socket sock)).

(** One connection: the request goes on and its reply comes back, except that
    the reply to a write is dropped; whether that was the last one. *)
Definition proxied (server client listener : Z) (address identity : pystr) : P bool :=
  let! raw := io_res (cl_accept listener) in
  let! incoming := io_res (cl_wrap_server server raw) in
  with_socket incoming
    (let! message := proxy_frame incoming in
     let! req := lift (json_loads (drop 4 message)) in
     let! target := lift (match rsplit_colon address with Some t => Ok t | None => Raise (ValueError "not enough values to unpack") end) in
     let! port := lift (int_of_text target.2) in
     let! connected := io_res (cl_connect target.1 port) in
     let! outgoing := io_res (cl_wrap_client client connected identity) in
     let! response := with_socket outgoing (do! io_res (cl_sendall outgoing message);; proxy_frame outgoing) in
     let! op := lift (vget "op" req) in
     if eq_str op (py "execute") then ret true
     else do! io_res (cl_sendall incoming response);; ret false).
Definition proxy (server client listener : Z) (address identity : pystr) : P (list pystr) :=
  try_except
    (do! while_loop fuel (fun _ : unit => let! last := proxied server client listener address identity in ret (if (last : bool) then inr tt else inl tt)) tt;;
     ret [])
    (fun e => Some (ret [repr_exn e])).
End Proxy.

Section CliMain.
Context {W : Type} `{Cli W} (fuel : nat).
Abbreviation VM := (V (W := W)).
Abbreviation K := (Sc (W := Voters * W) (list pystr)).

(** [cfg] and what replaces its address and identity. *)
Definition client_config (root address identity : pystr) : list (pystr * pyval) :=
  mkdict [("cluster", PStr (py "network-qualification")); ("address", PStr address); ("identity", PStr identity); ("certificate", PStr (join_path root (py "client.pem")));
    ("key", PStr (join_path root (py "client.key"))); ("ca", PStr (join_path root (py "ca.pem")))]%string.
Definition write_config (path root address identity : pystr) : VM unit :=
  let! text := lift (dumps spaced (PDict (client_config root address identity))) in os_ (h_write_text path text).
(** [json.loads(db.execute('SELECT body FROM state').fetchone()[0])['pending']['op'] == op] *)
Definition pending_is (state : pystr) (op : string) : VM unit :=
  with_sqlite state (fun db =>
    let! row := fetchone db "SELECT body FROM state" in
    let! pending := lift (let? cell := list_index row 0 in let? text := vstr cell in let? body := loads text in let? p := vget "pending" body in vget "op" p) in
    check_that (eq_str pending (py op))).

Definition lost_reply_test (binary root config address identity : pystr) : VM unit :=
  let certificate := join_path root (py "client.pem") in
  let key := join_path root (py "client.key") in
  let! listening := os_ cl_listen in
  let '(listener, port) := listening in
  let! server := os_ (cl_server_context (join_path root (py "node1.pem")) (join_path root (py "node1.key")) (join_path root (py "ca.pem"))) in
  let! client := os_ (cl_client_context (join_path root (py "ca.pem")) certificate key) in
  do! write_config config root (fstr [L "127.0.0.1:"; D port]) identity;;
  let! done_ := base (io (cl_beside (proxy fuel server client listener address identity)
    [binary; py "connect"; config; py "-c"; py "UPDATE item SET amount=amount+1 WHERE id=1;"] 90)) in
  let! p := lift done_.1 in
  do! base (io_do (l_close_socket listener));;
  do! check_that (bool_decide (done_.2 = Some []));;
  do! check_that ((returncode p =? 2) && has "outcome unknown" (stderr p));;
  let state := config ++ py ".shell.db" in
  do! pending_is state "execute";;
  do! write_config config root address identity;;
  let! old_cert := os_ (h_read_bytes certificate) in
  let! old_key := os_ (h_read_bytes key) in
  do! try_finally
    (let! other := os_ (h_read_bytes (join_path root (py "node1.pem"))) in
     do! os_ (cl_write_bytes certificate other);;
     let! other := os_ (h_read_bytes (join_path root (py "node1.key"))) in
     do! os_ (cl_write_bytes key other);;
     let! rejected := os_ (cl_run [binary; py "connect"; config; py "-c"; py ".retry"] None [] 10) in
     do! check_that ((returncode rejected =? 2) && has "certificate" (stderr rejected));;
     pending_is state "execute")
    (do! os_ (cl_write_bytes certificate old_cert);; os_ (cl_write_bytes key old_key));;
  let! c := cluster in
  let! third := lift (list_index (n_members c) 2) in
  do! write_config config root (m_address third) (m_identity third);;
  let! p := os_ (cl_run [binary; py "connect"; config; py "-c"; py ".retry"] None [] 90) in
  do! check_that (returncode p =? 0);;
  do! expect_on all_voters ITEM_AMOUNT 89;;
  do! pending_is state "";;
  let! mode := os_ (cl_mode state) in
  check_that (Z.land mode 63 =? 0).

(** ** main: the local shell *)

Definition local_checks (binary root : pystr) : K unit :=
  let local := join_path root (py "local.db") in
  let run argv text code := c_ (shell binary root argv text code) in
  let! r := run [py "local"; local] (Some (script ["CREATE TABLE t(id INTEGER PRIMARY KEY, name TEXT);"; "INSERT INTO t VALUES(1,'Ada');"; ".mode json"; "SELECT * FROM t;";
    "CREATE VIRTUAL TABLE search USING fts5(body);"; "INSERT INTO search VALUES('hello');"; "SELECT count(*) AS hits FROM search WHERE search MATCH 'hello';"; "SELECT vec_version();"]%string)) 0 in
  do! check_that (has "Ada" (stdout r) && has "0.1.9" (stdout r) && has "hits" (stdout r));;
  do! pass "local_sql_rows_fts_vector";;
  let backup := join_path root (py "backup.db") in
  let! _ := run [py "local"; local] (Some (py ".backup " ++ backup ++ [10] ++ script [".dump t"%string])) 0 in
  do! c_ (with_sqlite backup (fun db =>
    let! rows := sqlite_rows db "SELECT name FROM t" in
    check_that (match rows with [x] :: _ => eq_str x (py "Ada") | _ => false end)));;
  let data := join_path root (py "data.csv") in
  do! c_ (os_ (h_write_text data (script ["2,Grace"; "3,Linus"]%string)));;
  let! _ := run [py "local"; local] (Some (script [".mode csv"%string] ++ py ".import " ++ data ++ py " t" ++ [10])) 0 in
  let! r := run [py "local"; local; py "SELECT count(*) FROM t"] None 0 in
  do! check_that (stripped r "3");;
  do! pass "local_backup_dump_csv_import";;
  let! r := run [py "local"; local; py "SELECT * FROM absent"] None 1 in
  do! check_that (has "Hint:" (stderr r) && has "no such table" (stderr r));;
  do! pass "local_sql_failure_hint_exit";;
  let! r := run [py "connect"; py "missing.json"] None 2 in
  do! check_that (has "Hint:" (stderr r) && negb (text_in [27] (stderr r)));;
  do! pass "redirected_diagnostics_plain";;
  do! c_ (color_test fuel binary root);;
  pass "terminal_color_and_no_color".

(** ** main: the cluster shell *)

Section Connected.
Context (binary root config : pystr).
Definition cli (text : pystr) (code : Z) (options : list pystr) : K Finished := c_ (shell binary root ([py "connect"; config] ++ options) (Some text) code).
Definition lines (l : list string) : pystr := script l.
(** A script whose output, stripped, is the given text. *)
Definition cli_answers (text : pystr) (answer : string) : K unit := let! r := cli text 0 [] in check_that (stripped r answer).
Definition cli_json (text : pystr) (value : pyval) : K unit := let! r := cli text 0 [] in c_ (json_is (stdout r) value).

Definition cluster_checks : K unit :=
  do! cli_json (lines ["CREATE TABLE item(id INTEGER PRIMARY KEY, name TEXT, amount INTEGER CHECK(amount>=0));"; "INSERT INTO item VALUES(1,'Ada',100);"; ".mode json"; "SELECT * FROM item;"]%string)
    (PList [row [("id", PInt 1); ("name", PStr (py "Ada")); ("amount", PInt 100)]%string]);;
  do! pass "cluster_create_write_read_json";;
  let! r := cli (lines [".tables"; ".schema item"; ".indexes item"; ".status"; ".health"; ".connection"; ".nodes"]%string) 0 [] in
  do! check_that (has "item" (stdout r) && has "CREATE TABLE" (stdout r) && has "quorum read passed" (stdout r));;
  do! pass "cluster_catalog_status_quorum_health";;
  let second := join_path root (py "second.json") in
  let! c := c_ cluster in
  let! other := lift (list_index (n_members c) 1) in
  do! c_ (write_config second root (m_address other) (m_identity other));;
  let! r := cli (py ".reconnect " ++ second ++ [10] ++ lines [".status"%string]) 0 [] in
  do! check_that (has "node=2" (stdout r));;
  pass "reconnect_another_master_same_identity".
(** [[json.loads(x) for x in text.splitlines()] == values] *)
Definition json_lines (text : pystr) (values : list pyval) : pyres bool :=
  let? found := try_map loads (splitlines text) in Ok (json_eq (PList found) (PList values)).
Definition transaction_checks : K unit :=
  let! r := cli (lines ["-- transaction comment"; "BEGIN /* serializable */ TRANSACTION;"; "UPDATE item SET amount=amount-10 WHERE id=1;"; "SAVEPOINT change;"; "UPDATE item SET amount=amount-20 WHERE id=1;";
    "ROLLBACK TO change;"; "RELEASE change;"; ".mode json"; "SELECT amount FROM item;"; "COMMIT;"; "SELECT amount FROM item;"]%string) 0 [] in
  let amount := PList [row [("amount"%string, PInt 90)]] in
  let! same := lift (json_lines (stdout r) [amount; amount]) in
  do! check_that same;;
  do! pass "transaction_preview_savepoint_commit";;
  do! cli_answers (lines ["BEGIN;"; "UPDATE item SET amount=1;"; "ROLLBACK;"; "SELECT amount FROM item;"]%string) "90";;
  do! pass "transaction_rollback";;
  let! r := cli (lines ["BEGIN;"; "UPDATE item SET amount=2;"]%string) 0 [] in
  do! check_that (has "discarded" (stderr r));;
  do! cli_answers (lines ["SELECT amount FROM item;"%string]) "90";;
  do! pass "exit_discards_uncommitted_preview";;
  let! r := cli (lines ["BEGIN;"; "UPDATE item SET amount=-1;"; "COMMIT;"; "ROLLBACK;"; "SELECT amount FROM item;"]%string) 1 [] in
  do! check_that (stripped r "90" && has "Hint:" (stderr r) && has "CONSTRAINT" (stderr r));;
  pass "failed_transaction_requires_rollback".
Definition OBRIEN : pystr := py "O'Brien; -- quoted".
Definition value_checks : K unit :=
  let! r := cli (py ".parameter set ?1 " ++ qt ++ OBRIEN ++ qt ++ [10] ++ lines ["UPDATE item SET name=?1 WHERE id=1;"; ".mode json"; "SELECT name, ?1 AS bound FROM item;"]%string) 0 [] in
  let! first := lift (let? v := loads (stdout r) in vindex 0 v) in
  do! check_that (json_eq first (row [("name", PStr OBRIEN); ("bound", PStr OBRIEN)]%string));;
  do! pass "typed_parameter_literal_escaping";;
  do! cli_answers (lines [".parameter set ?1 1.0"; "SELECT typeof(?1);"]%string) "real";;
  do! pass "real_parameter_type_preserved";;
  do! cli_answers (lines ["-- leading comment"; ".mode list"; "CREATE TABLE audit(id INTEGER);"; "CREATE TRIGGER log AFTER INSERT ON item BEGIN"; "INSERT INTO audit VALUES(new.id);"; "END;";
    "INSERT INTO item VALUES(2,'Grace; Hopper',50); SELECT count(*) FROM audit;"]%string) "1";;
  do! pass "multiline_trigger_and_semicolon_in_string";;
  let! r := cli (lines [".mode csv"; ".headers on"; "SELECT id,name FROM item WHERE id=2;"]%string) 0 [] in
  let quoted s := qt ++ py s ++ qt in
  do! check_that (pyeqb (stdout r) (quoted "id" ++ py "," ++ quoted "name" ++ [10] ++ quoted "2" ++ py "," ++ quoted "Grace; Hopper" ++ [10]));;
  do! pass "csv_headers_and_rows";;
  let! r := cli (lines [".mode json"; "SELECT 9223372036854775807 AS big, NULL AS empty, X'00FF' AS blob;"]%string) 0 [] in
  let! typed := lift (match loads (stdout r) with Raise e => if isinstance e CValueError then Raise (AssertionError "repr(r.stdout)") else Raise e | r => r end) in
  do! check_that (json_eq typed (PList [row [("big", PInt (2 ^ 63 - 1)); ("empty", PNone); ("blob", row [("base64", PStr (py "AP8="))])]%string]));;
  pass "json_int64_null_blob_types".
Definition closed_pipe : VM unit :=
  let! fds := os_ cl_pipe in
  let '(read_fd, write_fd) := fds in
  do! os_ (cl_close read_fd);;
  try_finally
    (let! p := os_ (cl_run_to [binary; py "connect"; config; py "-c"; py "SELECT 42;"] write_fd 30) in
     check_that ((p.1 =? 1) && has "query output" p.2))
    (os_ (cl_close write_fd)).
Definition batch_checks : K unit :=
  do! c_ closed_pipe;;
  do! pass "closed_output_pipe_nonzero_exit";;
  let file := join_path root (py "script with spaces.sql") in
  do! c_ (os_ (h_write_text file (lines ["SELECT count(*) FROM item;"%string])));;
  let out := join_path root (py "output.csv") in
  let! r := cli (py ".once " ++ qt ++ out ++ qt ++ [10] ++ py ".read " ++ qt ++ file ++ qt ++ [10] ++ lines ["SELECT 42;"%string]) 0 [] in
  let! text := c_ (os_ (h_read_text out)) in
  do! check_that (pyeqb (strip text) (py "2") && stripped r "42");;
  do! pass "read_script_once_output";;
  let! r := cli (lines ["SELECT absent FROM item;"; "SELECT 42;"]%string) 1 [py "--bail"] in
  do! check_that (negb (has "42" (stdout r)) && has "Hint:" (stderr r));;
  do! pass "batch_bail_nonzero_exit";;
  let! r := cli (lines [".notacommand"%string]) 1 [] in
  do! check_that (has ".help" (stderr r) && has "Hint:" (stderr r));;
  do! pass "unknown_dot_command_correction";;
  let! r := cli (py "SELECT " ++ replicate (Z.to_nat 5000) 97 ++ py "; SELECT 42;" ++ [10]) 1 [] in
  do! check_that (bool_decide (stdout r = []));;
  pass "oversized_input_tail_never_executed".
Definition process_checks (address identity : pystr) : K unit :=
  do! c_ (lock_test binary config);;
  do! pass "exclusive_client_state_lock";;
  do! c_ (editor_test fuel binary config);;
  do! pass "interactive_edit_history_completion_cancel";;
  do! c_ (conflict_test binary config);;
  do! pass "transaction_conflict_never_publishes";;
  do! c_ (lost_reply_test binary root config address identity);;
  do! pass "lost_write_reply_cross_master_retry_once";;
  do! pass "replaced_certificate_cannot_replay_pending_identity";;
  do! c_ (expect_on all_voters (py "SELECT count(*) FROM item") 2);;
  do! c_ (for_do all_voters stop);;
  do! c_ (for_do all_voters (fun node => start node false));;
  do! cli_answers (lines ["SELECT count(*) FROM item;"%string]) "2";;
  pass "shell_writes_survive_all_voter_restart".
End Connected.

Definition connected (binary root : pystr) : K unit :=
  do! c_ (for_do all_voters (fun node => start node true));;
  do! c_ (base (io_do (sleep 2)));;
  let! c := c_ cluster in
  let! first := lift (list_index (n_members c) 0) in
  let config := join_path root (py "client.json") in
  do! c_ (write_config config root (m_address first) (m_identity first));;
  do! cluster_checks binary root config;;
  do! transaction_checks binary root config;;
  do! value_checks binary root config;;
  do! batch_checks binary root config;;
  process_checks binary root config (m_address first) (m_identity first).
Definition cli_body (args : CliCheckArgs) (binary root : pystr) : K unit :=
  do! local_checks binary root;;
  let! server := c_ (base (gets (h_resolve (cc_server args)))) in
  let! openssl := c_ (base (gets (h_resolve (cc_openssl args)))) in
  let! c := c_ (base (Voters_new root server openssl 4 "manual")) in
  do! c_ (with_cluster (fun _ => c));;
  try_finally (connected binary root) (c_ close_voters).
(** The report, written when every check passed. *)
Definition cli_report (cases : list pystr) (utc binary server : pystr) : tv :=
  Obj (fields [("complete", tbool true); ("checks", Arr (tstr <$> cases)); ("count", tint (zlen cases)); ("generated_utc", tstr utc); ("binary_sha256", tstr binary); ("server_sha256", tstr server)]%string).
Definition check_cli (args : CliCheckArgs) : K unit :=
  let! binary := c_ (base (gets (h_resolve (cc_binary args)))) in
  let! root := c_ (os_ (h_mkdtemp (py "sqlodin-cli-") [])) in
  do! try_finally (cli_body args binary root) (c_ (os_ (h_remove root)));;
  do! c_ (os_ (h_mkdir (path_parent (cc_output args))));;
  let! cases := reported in
  let! utc := c_ (base (io h_utc)) in
  let! shell := c_ (base (file_sha256 binary)) in
  let! server := c_ (base (file_sha256 (cc_server args))) in
  c_ (os_ (h_write_json (cc_output args) (cli_report cases utc shell server))).
Definition cli_main (args : CliCheckArgs) : Hm (W := W) unit := fun w => let '(r, s) := check_cli args ([], (no_voters, w)) in (r, s.2.2).
End CliMain.

(** * What the report shows *)

Section Notes.
Context {W : Type} `{Cli W} (fuel : nat).
Abbreviation K := (Sc (W := Voters * W) (list pystr)).
Abbreviation St := (list pystr * (Voters * W))%type.

(** When [m] succeeds it has noted exactly the checks [names]. *)
Definition notes {A} (names : list string) (m : K A) : Prop :=
  forall s : St, wp m (fun r s' => forall a, r = Ok a -> s'.1 = s.1 ++ (py <$> names)) s.

Lemma notes_bind {A B} (m : K A) (f : A -> K B) a b : notes a m -> (forall x, notes b (f x)) -> notes (a ++ b) (bind m f).
Proof.
  intros Hm Hf s. apply wp_bind. eapply wp_mono; [apply Hm|]. intros [x|e|] s1 H1; [|done..].
  eapply wp_mono; [apply Hf|]. intros r s2 H2 y Hy. by rewrite (H2 y Hy), (H1 x eq_refl), <-app_assoc, fmap_app.
Qed.
Lemma notes_then {A B} (m : K A) (f : A -> K B) names : notes [] m -> (forall x, notes names (f x)) -> notes names (bind m f).
Proof. apply (notes_bind m f []). Qed.
Lemma notes_host {A} (m : V (W := W) A) : notes [] (c_ m).
Proof. intros s. apply wp_host_step. intros r w a _. by rewrite app_nil_r. Qed.
Lemma notes_ret {A} (a : A) : notes [] (ret a).
Proof. intros s. apply wp_ret. intros x _. by rewrite app_nil_r. Qed.
Lemma notes_lift {A} (r : res exn A) : notes [] (lift r).
Proof. intros s. apply wp_lift. intros x _. by rewrite app_nil_r. Qed.
Lemma notes_pass name : notes [name] (pass (W := W) name).
Proof. intros s. apply wp_bind, wp_amend, wp_host_step. intros r w a _. done. Qed.
Lemma notes_finally {A} (m : K A) (f : V (W := W) unit) names : notes names m -> notes names (try_finally m (c_ f)).
Proof.
  intros Hm s. apply wp_try_finally. eapply wp_mono; [apply Hm|]. intros r s1 H1. destruct r as [x|e|]; [| |done]; apply wp_host_step; intros [u|?|] w a Ha; try done.
  injection Ha as <-. by apply (H1 x).
Qed.
End Notes.

(** Steps down to the first noted name. *)
Ltac notes_auto :=
  cbv zeta;
  repeat lazymatch goal with
  | |- notes _ (bind (pass ?n) _) => apply (notes_bind (pass n) _ [n] _ (notes_pass n)); intros ?
  | |- notes _ (pass ?n) => apply notes_pass
  | |- notes _ (bind _ _) => apply notes_then; [|intros ?]
  | |- notes [] (c_ _) => apply notes_host
  | |- notes [] (shell _ _ _ _ _) => apply notes_host
  | |- notes [] (on_host _) => apply notes_host
  | |- notes [] (lift _) => apply notes_lift
  | |- notes [] (check_that _) => apply notes_lift
  | |- notes [] (ret _) => apply notes_ret
  end.

(** The checks of check_cli.py, in order. *)
Definition LOCAL_CHECKS : list string :=
  ["local_sql_rows_fts_vector"; "local_backup_dump_csv_import"; "local_sql_failure_hint_exit"; "redirected_diagnostics_plain"; "terminal_color_and_no_color"].
Definition CLUSTER_CHECKS : list string := ["cluster_create_write_read_json"; "cluster_catalog_status_quorum_health"; "reconnect_another_master_same_identity"].
Definition TRANSACTION_CHECKS : list string :=
  ["transaction_preview_savepoint_commit"; "transaction_rollback"; "exit_discards_uncommitted_preview"; "failed_transaction_requires_rollback"].
Definition VALUE_CHECKS : list string :=
  ["typed_parameter_literal_escaping"; "real_parameter_type_preserved"; "multiline_trigger_and_semicolon_in_string"; "csv_headers_and_rows"; "json_int64_null_blob_types"].
Definition BATCH_CHECKS : list string :=
  ["closed_output_pipe_nonzero_exit"; "read_script_once_output"; "batch_bail_nonzero_exit"; "unknown_dot_command_correction"; "oversized_input_tail_never_executed"].
Definition PROCESS_CHECKS : list string :=
  ["exclusive_client_state_lock"; "interactive_edit_history_completion_cancel"; "transaction_conflict_never_publishes"; "lost_write_reply_cross_master_retry_once";
   "replaced_certificate_cannot_replay_pending_identity"; "shell_writes_survive_all_voter_restart"].
Definition CLI_CHECKS : list string := LOCAL_CHECKS ++ CLUSTER_CHECKS ++ TRANSACTION_CHECKS ++ VALUE_CHECKS ++ BATCH_CHECKS ++ PROCESS_CHECKS.

Section CliSound.
Context {W : Type} `{Cli W} (fuel : nat) (binary root config : pystr).

Lemma notes_cli text code options : notes [] (cli (W := W) binary root config text code options).
Proof. apply notes_host. Qed.
Lemma notes_answers text answer : notes [] (cli_answers (W := W) binary root config text answer).
Proof. unfold cli_answers, cli. notes_auto. Qed.
Lemma notes_json text value : notes [] (cli_json (W := W) binary root config text value).
Proof. unfold cli_json, cli. notes_auto. Qed.

Ltac notes_checks := notes_auto; try first [apply notes_cli | apply notes_answers | apply notes_json].
Lemma notes_local : notes LOCAL_CHECKS (local_checks (W := W) fuel binary root).
Proof. unfold local_checks, LOCAL_CHECKS. repeat notes_checks. Qed.
Lemma notes_cluster : notes CLUSTER_CHECKS (cluster_checks (W := W) binary root config).
Proof. unfold cluster_checks, CLUSTER_CHECKS. repeat notes_checks. Qed.
Lemma notes_transaction : notes TRANSACTION_CHECKS (transaction_checks (W := W) binary root config).
Proof. unfold transaction_checks, TRANSACTION_CHECKS. repeat notes_checks. Qed.
Lemma notes_value : notes VALUE_CHECKS (value_checks (W := W) binary root config).
Proof. unfold value_checks, VALUE_CHECKS. repeat notes_checks. Qed.
Lemma notes_batch : notes BATCH_CHECKS (batch_checks (W := W) binary root config).
Proof. unfold batch_checks, BATCH_CHECKS. repeat notes_checks. Qed.
Lemma notes_process address identity : notes PROCESS_CHECKS (process_checks (W := W) fuel binary root config address identity).
Proof. unfold process_checks, PROCESS_CHECKS. repeat notes_checks. Qed.
End CliSound.

(** check_cli.py writes its report when all its checks passed, each noted once
    and in order, and never otherwise reports success. *)
Theorem check_cli_sound {W} `{Cli W} (fuel : nat) (args : CliCheckArgs) (s : list pystr * (Voters * W)) :
  wp (check_cli fuel args)
     (fun r s' => r = Ok tt -> s'.1 = s.1 ++ (py <$> CLI_CHECKS) /\ exists utc binary server, written (cc_output args) (cli_report s'.1 utc binary server) s'.2.2) s.
Proof.
  assert (Hbody : forall binary root, notes CLI_CHECKS (cli_body fuel args binary root)).
  { intros binary root. unfold cli_body, CLI_CHECKS. apply notes_bind; [apply notes_local|intros _]. do 4 (apply notes_then; [apply notes_host|intros ?]).
    apply notes_finally. unfold connected. do 3 (apply notes_then; [apply notes_host|intros ?]). apply notes_then; [apply notes_lift|intros first].
    cbv zeta. apply notes_then; [apply notes_host|intros _].
    apply notes_bind; [apply notes_cluster|intros _]. apply notes_bind; [apply notes_transaction|intros _]. apply notes_bind; [apply notes_value|intros _].
    apply notes_bind; [apply notes_batch|intros _]. apply notes_process. }
  unfold check_cli. apply wp_bind, wp_host_step. intros [binary|e|] w; [|done..]. apply wp_bind, wp_host_step. intros [root|e|] w1; [|done..]. cbn [fst].
  apply wp_bind. eapply wp_mono; [apply (notes_finally _ _ CLI_CHECKS), Hbody|]. intros [[]|e|] s1 H1; [|done..]. specialize (H1 tt eq_refl). cbn [fst] in H1.
  apply wp_bind, wp_host_step. intros [[]|e|] w2; [|done..]. apply wp_bind, wp_gets. cbn [fst].
  apply wp_bind, wp_host_step. intros [utc|e|] w3; [|done..]. apply wp_bind, wp_host_step. intros [shell|e|] w4; [|done..]. apply wp_bind, wp_host_step. intros [server|e|] w5; [|done..].
  apply wp_on_host, wp_intro. cbn [fst snd]. intros r [c w6] Hw _. split; [exact H1|]. exists utc, shell, server.
  unfold os_, base, io_res in Hw. cbn [snd fst] in Hw. exists w5.2. destruct (h_write_json _ _ w5.2) as [r' w']. by injection Hw as <- <- <-.
Qed.

(** ** What the proxy reads *)

Section ProxyFrames.
Context {W : Type} `{Cli W}.
(** [recv(n)] answers with at most [n] bytes, or raises. *)
Hypothesis (Hrecv : forall sock n (w : W), match (cl_recv sock n w).1 with Ok part => zlen part <= n /\ Forall is_byte part | OutOfFuel => False | Raise _ => True end).
Definition reads (count : Z) (r : res exn (list Z)) : Prop := match r with Ok d => zlen d = count /\ Forall is_byte d | OutOfFuel => False | Raise _ => True end.

Lemma exact_from_reads rounds sock count data (w : W) :
  zlen data <= count -> Forall is_byte data -> count - zlen data <= Z.of_nat rounds -> wp (exact_from rounds sock count data) (fun r _ => reads count r) w.
Proof.
  revert data w. induction rounds as [|rounds IH]; intros data w Hd Hby Hr; cbn [exact_from]; destruct (count <=? zlen data) eqn:E; unbool; try (apply wp_ret; split; [lia|done]); [lia|].
  apply wp_bind, wp_io_res. intros r w' Hp. pose proof (Hrecv sock (count - zlen data) w) as Hn. rewrite Hp in Hn. destruct r as [part|e|]; [|done..]. cbn [fst] in Hn. destruct Hn as [Hn Hp2].
  case_bool_decide as Hne; [by apply wp_throw|]. assert (0 < zlen part) by (destruct part; [done|unfold zlen; cbn [length]; lia]).
  apply IH; [|by apply Forall_app|]; unfold zlen in *; rewrite length_app; lia.
Qed.
(** However the network divides the bytes, [exact] ends, with as many as asked. *)
Lemma exact_reads sock count (w : W) : 0 <= count -> wp (exact sock count) (fun r _ => reads count r) w.
Proof. intros Hc. apply exact_from_reads; [|constructor|]; unfold zlen; cbn [length]; lia. Qed.

(** A frame is its header and exactly as many bytes as that announces. *)
Theorem proxy_frame_exact sock (w : W) :
  wp (proxy_frame sock) (fun r _ => match r with
      | Ok message => exists header body, message = header ++ body /\ zlen header = 4 /\ zlen body = le_unpack header
      | OutOfFuel => False | Raise _ => True end) w.
Proof.
  unfold proxy_frame. apply wp_bind. eapply wp_mono; [by apply exact_reads|]. intros [header|e|] w1 Hh; [|done..]. destruct Hh as [Hh Hbytes].
  apply wp_bind. eapply wp_mono; [apply exact_reads; by apply le_unpack_bounds|]. intros [body|e|] w2 Hb; [|done..]. destruct Hb as [Hb _]. apply wp_ret. by exists header, body.
Qed.
End ProxyFrames.
