(* ===== verification/ResourceLoad.v ===== *)
(** * tools/check_resource_load.py: the saturation campaign

    Sixty clients, twelve readers that do not read, clients over capacity and
    idle connections; the limits, the counters and the durable results are
    checked while the service is saturated (the workers and the summary are in
    Resource).  The sampling thread runs when it is stopped, the workers one after
    the other. *)

From Stdlib Require Import QArith.
From S2P Require Import Prelude PyStr PyFloat Objects Json Bytes Vector Text Parameters Results Net Client Transport Dict Host Stats Random Script Service ServiceChecks Snapshots Recovery Returns Resource Capacity Lab.
#[local] Open Scope Z_scope.

(** Transports of the script's own, by handle: [Transport(tls)], [exchange],
    [socket.setsockopt(SO_RCVBUF)], [socket.sendall], [close]; how often the
    sampling thread woke up before it was stopped is [d_wakes] of [Disk]. *)
Class Saturation (W : Type) := {
  j_lab :: Lab W;
  j_transport : TLS -> W -> Z * W;
  j_exchange : Z -> Endpoint -> dict -> Q -> W -> pyres dict * W;
  j_rcvbuf : Z -> Z -> W -> W;
  j_sendall : Z -> list Z -> W -> pyres unit * W;
  j_close : Z -> W -> W
}.

(** [[json.loads(line.split(' ', 1)[1]) for line in lines if line.startswith(prefix)]];
    the prefix ends with the space. *)
Definition profiles_of (prefix text : pystr) : pyres (list pyval) :=
  try_map (fun line => loads (drop (length prefix) line)) (filter (fun line => is_prefix prefix line = true) (splitlines text)).
Definition only_profile (profiles : list pyval) : pyres pyval :=
  match profiles with [x] => Ok x | _ => Raise (AssertionError "profiles") end.

Definition operation_data (o : Operation) : tv :=
  Obj (fields (if String.eqb (o_kind o) "snapshot"
               then [("kind", tstr (py "snapshot")); ("target", tint (o_target o)); ("start", Num (o_start o)); ("end", Num (o_end o))]%string
               else [("kind", tstr (py (o_kind o))); ("start", Num (o_start o)); ("end", Num (o_end o)); ("node", tint (o_node o)); ("identity", tint (o_identity o))]%string)).
Definition summary_data (s : LoadSummary) : tv :=
  Obj (fields [("scope", tstr (py "closed-loop admitted saturation; excess connections separately rejected")); ("elapsed_seconds", Num (ls_elapsed s)); ("completed_per_second", Num (ls_per_second s));
    ("operations", Obj ((fun '(k, x) => (py k, Obj (fields [("completed", tint (ks_completed x)); ("p99_ms", Num (ks_p99_ms x))]%string))) <$> ls_operations s));
    ("nodes", Obj ((fun '(n, x) => (dec n, Obj (fields [("average_cpu_cores", Num (ns_cores x)); ("rss_quarter_peaks", Arr (tint <$> ns_peaks x));
        ("kernel_io_delta", Obj ((fun '(k, d) => (k, tint d)) <$> ns_io x))]%string))) <$> ls_nodes s))]%string).

(** The local variables of [campaign], and the parts of its report that are read
    back. *)
Record Loading := mkLoading {
  q_report : report; q_operations : list Operation; q_samples : list Usage;
  q_clients : list (Z * nat); q_slow : list Z; q_stalled : list Z;
  q_sampling : bool; q_monitor_error : bool
}.
Definition on_report (f : report -> report) (q : Loading) : Loading :=
  mkLoading (f (q_report q)) (q_operations q) (q_samples q) (q_clients q) (q_slow q) (q_stalled q) (q_sampling q) (q_monitor_error q).
Definition set_operations (l : list Operation) (q : Loading) : Loading :=
  mkLoading (q_report q) l (q_samples q) (q_clients q) (q_slow q) (q_stalled q) (q_sampling q) (q_monitor_error q).
Definition add_sample (s : Usage) (q : Loading) : Loading :=
  mkLoading (q_report q) (q_operations q) (q_samples q ++ [s]) (q_clients q) (q_slow q) (q_stalled q) (q_sampling q) (q_monitor_error q).
Definition add_client (c : Z * nat) (q : Loading) : Loading :=
  mkLoading (q_report q) (q_operations q) (q_samples q) (q_clients q ++ [c]) (q_slow q) (q_stalled q) (q_sampling q) (q_monitor_error q).
Definition set_slow (l : list Z) (q : Loading) : Loading :=
  mkLoading (q_report q) (q_operations q) (q_samples q) (q_clients q) l (q_stalled q) (q_sampling q) (q_monitor_error q).
Definition set_stalled (l : list Z) (q : Loading) : Loading :=
  mkLoading (q_report q) (q_operations q) (q_samples q) (q_clients q) (q_slow q) l (q_sampling q) (q_monitor_error q).
Definition set_sampling (b : bool) (q : Loading) : Loading :=
  mkLoading (q_report q) (q_operations q) (q_samples q) (q_clients q) (q_slow q) (q_stalled q) b (q_monitor_error q).
Definition fail_monitor (q : Loading) : Loading :=
  mkLoading (q_report q) (q_operations q) (q_samples q) (q_clients q) (q_slow q) (q_stalled q) (q_sampling q) true.

Section ResourceLoad.
Context {W : Type} `{Saturation W} (fuel : nat).
Abbreviation K := (Sc (W := Voters * W) Loading).
Abbreviation VM := (V (W := W)).
Definition l {A} (m : VM A) : K A := on_host m.
Definition put_note (kvs : list (string * tv)) : K unit := amend (on_report (rupdate kvs)).
Definition time : VM Q := base (io monotonic).

(** [cluster.start(node, create=True)] with [cluster.environment]: its additions
    to the script's own environment, if any. *)
Definition start_in (environment : option (list (pystr * pystr))) (node : Z) : VM unit :=
  match environment with
  | None => start node true
  | Some additions =>
      let! c := cluster in
      let! process := base (io_res (l_spawn_env (serve_argv c node true) (node_file c node ".log") additions)) in
      do! with_cluster (fun c => set_processes (dset node process (n_processes c)) c);;
      do! base (io_do (sleep (15 # 100)));;
      let! code := base (io (v_poll process)) in
      lift (guard (negb (bool_decide (code = None))) (AssertionError "the voter's log"))
  end.

Definition text_rows (count : Z) : pystr := join (py ",") ((fun i => fstr [L "("; D (Z.of_nat i); L ")"]) <$> seq 1 (Z.to_nat count)).
Definition resource_schema : list pystr :=
  [py "CREATE TABLE seed(id INTEGER PRIMARY KEY)"; py "INSERT INTO seed VALUES " ++ text_rows 64;
   py "CREATE TABLE resource_rows(id INTEGER PRIMARY KEY,value INTEGER NOT NULL)";
   py "INSERT INTO resource_rows SELECT id,0 FROM seed WHERE id<=60";
   py "CREATE TABLE payload(id INTEGER PRIMARY KEY, value BLOB)";
   py "INSERT INTO payload SELECT a.id*64+b.id,zeroblob(1024) FROM seed a,seed b";
   py "CREATE TABLE work_result(value INTEGER)"].
Definition run_all (texts : list pystr) : VM unit :=
  with_conn all_voters 10 None (fun h => for_do texts (fun sql => let! _ := db_execute h sql [] in ret tt)).

(** *** Slow readers, clients and clients too many *)

Definition status_request : dict :=
  mkdict [("op", PStr (py "status")); ("cluster", PStr (py "network-qualification")); ("protocol", PInt 1)]%string.
Definition ZEROBLOB : pystr := py "SELECT hex(zeroblob(60000))".
Definition blob_request : dict :=
  mkdict [("op", PStr (py "query")); ("consistency", PStr (py "local")); ("sql", PStr ZEROBLOB); ("timeout_ms", PInt 5000);
          ("cluster", PStr (py "network-qualification")); ("protocol", PInt 1)]%string.
Definition is_ok (response : dict) : pyres bool := let? s := getitem "status" response in Ok (eq_str s (py "ok")).
(** [len(response['rows'][0][0]['text']) == 120000] *)
Definition blob_length (response : dict) : pyres Z :=
  let? rows := getitem "rows" response in let? row := vindex 0 rows in let? cell := vindex 0 row in
  let? text := vget "text" cell in let? text := vstr text in Ok (zlen text).

Definition voter_tls (c : Voters) : TLS :=
  mkTLS (join_path (n_root c) (py "ca.pem")) (join_path (n_root c) (py "client.pem")) (join_path (n_root c) (py "client.key")).
Definition exchange_on (t : Z) (endpoint : Endpoint) (request : dict) : VM dict :=
  let! now := time in base (io_res (j_exchange t endpoint request (now + 5)%Q)).
Definition slow_reader (tls : TLS) (endpoint : Endpoint) : K unit :=
  let! t := l (base (io (j_transport tls))) in
  let! response := l (exchange_on t endpoint status_request) in
  let! ok := lift (is_ok response) in
  do! l (check_that ok);;
  let! response := l (exchange_on t endpoint blob_request) in
  let! ok := lift (is_ok response) in
  do! l (check_that ok);;
  let! n := lift (blob_length response) in
  do! l (check_that (n =? 120000));;
  do! l (base (io_do (j_rcvbuf t 4096)));;
  amend (fun q => set_slow (q_slow q ++ [t]) q).
Definition saturating_client (node : Z) : K unit :=
  let! h := l (open_conn [node] 20 None) in
  let! s := l (call h status) in
  let! found := lift (getitem "node" s) in
  do! l (check_that (eq_int found node));;
  amend (add_client (node, h)).
Definition excess_client (tls : TLS) (endpoint : Endpoint) : K unit :=
  let! t := l (base (io (j_transport tls))) in
  try_finally
    (let! response := l (exchange_on t endpoint status_request) in
     l (check_that (eq_str (get_or (py "error") PNone response) (py "Busy"))))
    (l (base (io_do (j_close t)))).
Definition occupy (node : Z) : K unit :=
  let! c := l cluster in
  let! m := lift (list_index (n_members c) (node - 1)) in
  let endpoint := mkEndpoint (m_address m) (m_identity m) in
  do! for_do (seq 0 4) (fun _ => slow_reader (voter_tls c) endpoint);;
  do! for_do (seq 0 20) (fun _ => saturating_client node);;
  for_do (seq 0 4) (fun _ => excess_client (voter_tls c) endpoint).

(** *** The sampling thread *)

Definition monitor_round : K bool :=
  try_except (let! s := l sample in do! amend (add_sample s);; ret true)
    (fun e => Some (do! amend fail_monitor;; do! put_note [("monitor_error"%string, tstr (repr_exn e))];; ret false)).
Fixpoint monitor (rounds : nat) : K unit :=
  match rounds with
  | O => ret tt
  | S rounds => let! alive := monitor_round in if (alive : bool) then monitor rounds else ret tt
  end.
(** [stop.set(); sampler.join(timeout=5)] of a thread that runs *)
Definition stop_sampler : K unit :=
  let! q := reported in
  if q_sampling q then
    let! wakes := l (base (io d_wakes)) in
    do! amend (set_sampling false);;
    monitor wakes
  else ret tt.

(** *** The load *)

Definition large_read : pyres (list Z) :=
  frame [("op", PStr (py "query")); ("consistency", PStr (py "local")); ("timeout_ms", PInt 5000); ("sql", PStr ZEROBLOB)]%string.
Definition flood : K unit :=
  let! data := lift large_read in
  let! q := reported in
  do! for_do (q_slow q) (fun t => l (base (io_res (j_sendall t (concat (replicate 64 data))))));;
  let! c := l cluster in
  for_do (n_members c) (fun m =>
    let! address := lift (socket_address (mkEndpoint (m_address m) [])) in
    for_do (seq 0 4) (fun _ =>
      let! s := l (base (io_res (l_socket address.1 address.2 2))) in
      amend (fun q => set_stalled (q_stalled q ++ [s]) q))).

(** The identities count the clients from 1; the first asks for a snapshot. *)
Definition saturate (operations : nat) : K unit :=
  do! put_note [("operations"%string, Arr [])];;
  let! q := reported in
  for_do (zip (seq 1 (length (q_clients q))) (q_clients q)) (fun '(identity, (node, h)) =>
    let! results := l (worker h node (Z.of_nat identity) operations (Nat.eqb identity 1)) in
    amend (fun q => set_operations (q_operations q ++ results) q)).

Definition close_stalled_sockets : K unit :=
  let! q := reported in for_do (q_stalled q) (fun s => l (base (io_do (l_close_socket s)))).
Definition close_slow : K unit :=
  let! q := reported in for_do (q_slow q) (fun t => l (base (io_do (j_close t)))).

Definition client_at (q : Loading) (i : Z) : pyres nat := let? c := list_index (q_clients q) i in Ok c.2.

(** *** What must hold after it *)

Definition COUNT_VALUE : pystr := py "SELECT count(*) FROM resource_rows WHERE value=?".
Definition settled_voter (expected node : Z) : K unit :=
  let! q := reported in
  let! h := lift (client_at q ((node - 1) * 20)) in
  do! l (expect_scalar h COUNT_VALUE [PInt expected] 60);;
  do! l (expect_scalar h (py "SELECT value FROM work_result") [] (64 ^ 3));;
  let! s := l (call h status) in
  amend (on_report (fun r =>
    let after := match rget "status_after" r with Some (Obj d) => d | _ => [] end in
    rupdate [("status_after"%string, Obj (dset (dec node) (J (PDict s)) after))] r)).

Definition snapshot_target (q : Loading) : pyres Z :=
  match filter (fun o => o_kind o = "snapshot"%string) (q_operations q) with
  | o :: _ => Ok (o_target o)
  | [] => Raise StopIteration
  end.
Definition three_states (q : Loading) : VM (list dict) :=
  for_each [0; 1; 2] (fun i acc =>
    let! h := lift (client_at q (i * 20)) in let! s := call h status in ret (acc ++ [s])) [].
Definition clean_state (s : dict) : pyres bool := let? e := getitem "snapshot_error" s in Ok (negb (truthy e)).
Definition reached (target : Z) (s : dict) : pyres bool :=
  let? n := getitem "generation_prefix" s in let? n := vint n in Ok (target <=? n).
Fixpoint all_of (p : dict -> pyres bool) (states : list dict) : pyres bool :=
  match states with
  | [] => Ok true
  | s :: rest => let? ok := p s in if (ok : bool) then all_of p rest else Ok false
  end.
Definition await_snapshot (q : Loading) (target : Z) : VM (list dict) :=
  let! now := time in
  let deadline := (now + 60)%Q in
  let! states := while_loop fuel (fun last =>
    let! now := time in
    if Qle_bool deadline now then ret (inr last)
    else
      let! states := three_states q in
      let! clean := lift (all_of clean_state states) in
      do! check_that clean;;
      let! ok := lift (all_of (reached target) states) in
      if (ok : bool) then ret (inr (Some states)) else do! base (io_do (sleep (1 # 10)));; ret (inl (Some states))) None in
  match states with
  | None => throw (RuntimeError "cannot access local variable 'states'")
  | Some states => let! ok := lift (all_of (reached target) states) in do! check_that ok;; ret states
  end.

Definition peaks (samples : list Usage) : pyres (list (Z * Z)) := try_map (fun node => let? p := peak node samples in Ok (node, p)) [1; 2; 3].
Definition MAX_RSS : Z := 512 * 1024 * 1024.

Definition campaign_end (started finished : Q) : K unit :=
  do! stop_sampler;;
  let! q := reported in
  do! l (check_that (negb (q_monitor_error q)));;
  let! found := lift (peaks (q_samples q)) in
  do! put_note [("rss_peak_bytes"%string, Obj ((fun '(n, p) => (dec n, tint p)) <$> found))];;
  let! most := lift (max_of found.*2) in
  do! l (check_that (most <=? MAX_RSS));;
  let! summary := lift (summarize started finished (q_operations q) (q_samples q)) in
  do! put_note [("summary"%string, summary_data summary)];;
  let! c := l cluster in
  do! for_do (n_processes c) (fun '(_, process) =>
    let! code := l (base (io (v_poll process))) in l (check_that (bool_decide (code = None))));;
  l (print_line (py "PASS bounded saturation, slow readers, expensive SQL, snapshot and consistent writes")).

Definition campaign_load (operations : nat) : K unit :=
  do! put_note [("capacity"%string, Obj (fields [("active_clients", tint 60); ("slow_readers", tint 12); ("rejected_excess", tint 12)]%string)); ("samples"%string, Arr [])];;
  do! amend (set_sampling true);;
  do! flood;;
  let! started := l time in
  do! put_note [("load_started"%string, Num started)];;
  do! saturate operations;;
  let! finished := l time in
  do! put_note [("load_finished"%string, Num finished)];;
  do! close_stalled_sockets;;
  do! amend (set_stalled []);;
  do! close_slow;;
  do! amend (set_slow []);;
  let! before := l time in
  let! q := reported in
  let! first := lift (client_at q 0) in
  do! l (let! _ := db_execute first (py "INSERT INTO work_result SELECT count(*) FROM seed a,seed b,seed c") [] in ret tt);;
  let! now := l time in
  do! put_note [("expensive_write_seconds"%string, Num (now - before)%Q)];;
  do! for_do [1; 2; 3] (settled_voter ((Z.of_nat operations + 3) / 4));;
  let! q := reported in
  let! target := lift (snapshot_target q) in
  let! states := l (await_snapshot q target) in
  do! put_note [("snapshot_states"%string, Arr ((fun s => J (PDict s)) <$> states))];;
  campaign_end started finished.

Definition campaign_body (environment : option (list (pystr * pystr))) (operations : nat) : K unit :=
  do! l (for_do [1; 2; 3] (start_in environment));;
  do! l (for_do [1; 2; 3] (ready_one fuel));;
  do! l (run_all resource_schema);;
  let! idle := l sample in
  do! put_note [("idle_start"%string, sample_report idle)];;
  do! l (base (io_do (sleep 1)));;
  let! idle := l sample in
  do! put_note [("idle_end"%string, sample_report idle)];;
  do! for_do [1; 2; 3] occupy;;
  campaign_load operations.

(** The [finally] clause. *)
Definition campaign_finally : K unit :=
  do! stop_sampler;;
  let! q := reported in
  do! for_do (q_clients q) (fun '(_, h) => l (call h Client.close));;
  do! close_slow;;
  close_stalled_sockets.
Definition saturation (environment : option (list (pystr * pystr))) (operations : nat) : K unit :=
  try_finally (campaign_body environment operations) campaign_finally.

(** ** main *)

Record LoadArgs := mkLoadArgs { la_binary : pystr; la_output : pystr; la_operations : Z; la_profile : bool; la_library : option pystr }.

(** Every voter's log has one profile that meets [good]. *)
Definition voter_profiles (prefix : pystr) (good : pyval -> pyres bool) : VM (list (Z * pyval)) :=
  for_each [1; 2; 3] (fun node acc =>
    let! c := cluster in
    let! text := base (io_res (h_read_text (node_file c node ".log"))) in
    let! profiles := lift (profiles_of prefix text) in
    let! profile := lift (only_profile profiles) in
    let! ok := lift (good profile) in
    do! check_that ok;;
    ret (dset node profile acc)) [].
Definition positive (k : string) (least : Z) (profile : pyval) : pyres bool := let? x := vget k profile in let? x := vint x in Ok (least <? x).
Definition allocation_good (p : pyval) : pyres bool :=
  let? a := positive "heap_calls" 1000 p in if (a : bool) then positive "frame_copy_bytes" 0 p else Ok false.
Definition io_good (p : pyval) : pyres bool :=
  let? a := positive "sync_calls" 0 p in
  if (a : bool) then
    let? b := positive "write_bytes" 0 p in
    if (b : bool) then let? e := vget "errors" p in Ok (eq_int e 0) else Ok false
  else Ok false.
Definition profiles_data (l : list (Z * pyval)) : tv := Obj ((fun '(n, p) => (dec n, J p)) <$> l).

(** Every voter is asked to end and must end well. *)
Definition terminate_all : VM unit :=
  let! c := cluster in
  do! for_do (n_processes c) (fun '(_, process) => base (io_do (v_terminate process)));;
  for_do (n_processes c) (fun '(_, process) =>
    let! code := base (io_res (v_wait process 10)) in check_that (code =? 0)).

Definition load_run (args : LoadArgs) (environment : option (list (pystr * pystr))) : K unit :=
  do! saturation environment (Z.to_nat (la_operations args));;
  do! l terminate_all;;
  do! (if la_profile args then
         let! found := l (voter_profiles (py "SQLODIN_RESOURCE_PROFILE ") allocation_good) in
         put_note [("allocation_profiles"%string, profiles_data found)]
       else ret tt);;
  do! (match environment with
       | Some _ => let! found := l (voter_profiles (py "SQLODIN_IO_PROFILE ") io_good) in put_note [("io_profiles"%string, profiles_data found)]
       | None => ret tt
       end);;
  put_note [("complete"%string, tbool true)].

Definition io_environment (ROOT : pystr) (args : LoadArgs) : K (option (list (pystr * pystr))) :=
  match la_library args with
  | None => ret None
  | Some path =>
      let! library := l (base (gets (h_resolve path))) in
      let! digest := l (file_sha256 library) in
      let! source := l (file_sha256 (join_path ROOT (py "internal/io_profile/profile.c"))) in
      do! put_note [("io_library_sha256", tstr digest); ("io_source_sha256", tstr source);
                    ("io_scope", tstr (py "whole-process sync/pwrite calls, including setup/maintenance/shutdown; forwarded unchanged"))]%string;;
      ret (Some [(py "LD_PRELOAD", library)])
  end.

Definition load_work (ROOT : pystr) (args : LoadArgs) (work : pystr) : K unit :=
  let! filesystem := l (base (mount_of work)) in
  do! put_note [("filesystem"%string, J filesystem)];;
  do! l (base (refuse_memory filesystem));;
  let! binary := l (base (gets (h_resolve (la_binary args)))) in
  let! c := l (base (Voters_new work binary (join_path ROOT (py "build/native/openssl")) 5 "auto")) in
  do! l (with_cluster (fun _ => c));;
  let! environment := io_environment ROOT args in
  try_finally (load_run args environment)
    (do! l close_voters;;
     let! logs := l (last_logs 10000 work (py "*.log")) in
     put_note [("logs"%string, manifest_report logs)]).

(** The lists of the report are kept beside it; they replace their empty
    places. *)
Definition refill (k : string) (data : list tv) (r : report) : report :=
  match rget k r with Some _ => rupdate [(k, Arr data)] r | None => r end.
Definition report_of (q : Loading) : report :=
  refill "samples" (sample_report <$> q_samples q) (refill "operations" (operation_data <$> q_operations q) (q_report q)).

(** [{str(p.relative_to(ROOT)): sha256 for p in (ROOT/directory).rglob('*.odin')}] *)
Definition odin_files (ROOT : pystr) : VM (list (pystr * pystr)) :=
  for_each ["src"; "service"; "transport"]%string (fun directory acc =>
    let! found := base (io (h_glob (join_path ROOT (py directory)) (py "**/*.odin"))) in
    for_each found (fun path acc => let! digest := base (file_sha256 path) in ret (dset (relative_to ROOT path) digest acc)) acc) [].

Definition load_report (ROOT : pystr) (args : LoadArgs) : K unit :=
  let! linux := l (base (io (h_exists (py "/proc/self/stat")))) in
  let! taken := l (base (io (h_exists (la_output args)))) in
  do! (if negb linux || taken || negb ((4 <=? la_operations args) && (la_operations args <=? 64))
       then parser_error "Linux, a new output path, and 4..64 operations/client are required" else ret tt);;
  let! binary := l (file_sha256 (la_binary args)) in
  let! harness := l (file_sha256 (join_path ROOT (py "tools/check_resource_load.py"))) in
  do! put_note [("complete", tbool false); ("operations_per_client", tint (la_operations args)); ("instrumented", tbool (la_profile args));
                ("binary_sha256", tstr binary); ("harness_sha256", tstr harness)]%string;;
  let root := join_path ROOT (py "build/resource-work") in
  do! l (base (io_res (h_mkdir root)));;
  try_finally
    (try_except
       (let! work := l (base (io_res (h_mkdtemp [] root))) in
        try_finally (load_work ROOT args work) (l (base (io_res (h_remove work)))))
       (fun e => Some (do! put_note [("error"%string, tstr (repr_exn e))];; throw e)))
    (let! sources := l (odin_files ROOT) in
     do! put_note [("sources"%string, manifest_report sources)];;
     do! l (base (io_res (h_mkdir (path_parent (la_output args)))));;
     let! q := reported in
     l (base (io_res (h_write_json (la_output args)
       (Obj (report_of q)))))).

Definition load_main (ROOT : pystr) (args : LoadArgs) : Hm (W := W) unit :=
  fun w => let '(r, s) := load_report ROOT args (mkLoading [] [] [] [] [] [] false false, (no_voters, w)) in (r, s.2.2).
End ResourceLoad.

(** * What the saturation campaign's report may claim *)

Section Sound.
Context {W : Type} `{Saturation W} (fuel : nat).

Definition is_write (k : string) : Prop := k = "write"%string.
#[export] Instance is_write_dec k : Decision (is_write k).
Proof. unfold is_write. apply _. Defined.

(** How many operations, and how many writes among them, the workers have
    recorded. *)
Definition recorded (total writes : Z) (q : Loading) : Prop :=
  zlen (q_operations q) = total /\ zlen (filter is_write (o_kind <$> q_operations q)) = writes.
(** A voter answered that all sixty rows hold the number of writes expected. *)
Definition rows_hold (expected : Z) : Prop :=
  exists rows v, query_reply (W := W) COUNT_VALUE [PInt expected] rows /\ scalar rows = Ok v /\ eq_int v 60 = true.

(** The verdict on a campaign of [n] operations per client. *)
Definition sound_load (n : nat) (q : Loading) : Prop :=
  recorded (60 * Z.of_nat n + 1) (60 * ((Z.of_nat n + 3) / 4)) q /\
  rows_hold ((Z.of_nat n + 3) / 4) /\
  Forall (fun node => exists p, peak node (q_samples q) = Ok p /\ p <= MAX_RSS) [1; 2; 3] /\
  exists started finished s, summarize started finished (q_operations q) (q_samples q) = Ok s /\
    rget "summary" (q_report q) = Some (summary_data s).

Definition unfinished (q : Loading) : Prop := rget "complete" (q_report q) = Some (tbool false).

(** Notes of other keys leave both alone. *)
Definition minor (kvs : list (string * tv)) : bool :=
  forallb (fun '(k, _) => negb (pyeqb (py k) (py "complete"))) kvs && forallb (fun '(k, _) => negb (pyeqb (py k) (py "summary"))) kvs.
Definition indifferent (I : Loading -> Prop) : Prop := forall kvs q, minor kvs = true -> I q -> I (on_report (rupdate kvs) q).

Lemma preserves_put I kvs : indifferent I -> minor kvs = true -> preserves I (put_note (W := W) kvs).
Proof. intros HI Hk. apply preserves_amend. intros q. by apply HI. Qed.

Lemma unfinished_note : indifferent unfinished.
Proof. intros kvs q [Hk _]%andb_true_iff Hu. unfold unfinished in *. cbn [on_report q_report]. by rewrite rget_rupdate_other. Qed.

(** ** The clients *)

Definition clients_are (k : Z) (q : Loading) : Prop := unfinished q /\ q_operations q = [] /\ zlen (q_clients q) = k.
Lemma clients_note k : indifferent (clients_are k).
Proof. intros kvs q Hk (Hu & Ho & Hc). split; [by apply unfinished_note|done]. Qed.

Lemma preserves_slow_reader k tls endpoint : preserves (clients_are k) (slow_reader (W := W) tls endpoint).
Proof. unfold slow_reader, l. preserves_auto. by apply preserves_amend. Qed.

Lemma preserves_excess k tls endpoint : preserves (clients_are k) (excess_client (W := W) tls endpoint).
Proof. unfold excess_client, l. preserves_auto. apply preserves_finally; preserves_auto. Qed.

Lemma wp_client node k (s : Loading * (Voters * W)) :
  clients_are k s.1 -> wp (saturating_client node) (fun r s' => unfinished s'.1 /\ (r = Ok tt -> clients_are (k + 1) s'.1)) s.
Proof.
  intros (Hu & Ho & Hc). unfold saturating_client, l.
  apply wp_bind, wp_host_step. intros [h|e|] w1; [|by split..].
  apply wp_bind, wp_host_step. intros [st|e|] w2; [|by split..].
  apply wp_bind, wp_lift. destruct (getitem _ _) as [found|e|]; [|by split..].
  apply wp_bind, wp_host_step. intros [u|e|] w3; [|by split..].
  apply wp_amend. split; [exact Hu|]. intros _. split; [exact Hu|]. split; [exact Ho|]. cbn. rewrite zlen_app, Hc. done.
Qed.

Abbreviation lead := (leads (W := Voters * W) unfinished).

Lemma leads_occupy node k : lead (clients_are k) (occupy (W := W) node) (clients_are (k + 20)).
Proof.
  assert (HP : forall k q, clients_are k q -> unfinished q) by (by intros ? ? []).
  unfold occupy, l. eapply leads_bind; [apply leads_preserves; [apply HP|apply preserves_host]|intros c].
  eapply leads_bind; [apply leads_preserves; [apply HP|apply preserves_lift]|intros m]. cbv zeta.
  eapply leads_bind; [apply leads_preserves; [apply HP|apply preserves_for_do; intros ?; apply preserves_slow_reader]|intros _].
  eapply leads_bind; [|intros _; apply leads_preserves; [apply HP|apply preserves_for_do; intros ?; apply preserves_excess]].
  apply (leads_for_do unfinished clients_are 1 (seq 0 20) (fun _ => saturating_client node) k HP).
  intros _ j s Hs. eapply wp_mono; [by apply (wp_client node j)|]. intros r s' [Hu Hr]. split; [done|]. intros [] Ha. by apply Hr.
Qed.

(** ** The workers *)

Definition steady_of (k : Z) (total writes : Z) (q : Loading) : Prop := unfinished q /\ zlen (q_clients q) = k /\ recorded total writes q.
Lemma steady_note k t w : indifferent (steady_of k t w).
Proof. intros kvs q Hk (Hu & Hc). split; [by apply unfinished_note|done]. Qed.

Lemma kinds_until_length (snapshot : bool) (n : nat) :
  zlen (kinds_until snapshot n) = Z.of_nat n + (if snapshot && (2 <=? n)%nat then 1 else 0).
Proof.
  induction n as [|n IH]; [by rewrite andb_false_r|]. unfold kinds_until in *. rewrite seq_S, bind_app, zlen_app, IH.
  cbn [Nat.add]. change (mbind ?f [n]) with (f n ++ []). cbn beta. rewrite app_nil_r, zlen_app.
  destruct snapshot; cbn [andb].
  - destruct (n =? 1)%nat eqn:E1; [apply Nat.eqb_eq in E1; subst n; done|]. apply Nat.eqb_neq in E1.
    destruct (2 <=? n)%nat eqn:E2; [apply Nat.leb_le in E2|apply Nat.leb_gt in E2]; destruct (2 <=? S n)%nat eqn:E3; [apply Nat.leb_le in E3|apply Nat.leb_gt in E3|apply Nat.leb_le in E3|apply Nat.leb_gt in E3]; change (zlen (@nil string)) with 0; change (zlen [kind_at (Z.of_nat n)]) with 1; lia.
  - change (zlen (@nil string)) with 0; change (zlen [kind_at (Z.of_nat n)]) with 1; lia.
Qed.

(** After the workers [from], ..., the records grow by what each of them makes. *)
Definition made (n : nat) (from : nat) (len : nat) : Z := Z.of_nat len * Z.of_nat n + (if (from <=? 1)%nat && (2 <=? from + len)%nat then 1 else 0).

Lemma leads_saturate_from (n : nat) (clients : list (Z * nat)) from k t w :
  (2 <= n)%nat -> (1 <= from)%nat ->
  lead (steady_of k t w)
    (for_do (zip (seq from (length clients)) clients) (fun '(identity, (node, h)) =>
       let! results := l (worker (W := W) h node (Z.of_nat identity) n (Nat.eqb identity 1)) in
       amend (fun q => set_operations (q_operations q ++ results) q)))
    (steady_of k (t + made n from (length clients)) (w + zlen clients * ((Z.of_nat n + 3) / 4))).
Proof.
  intros Hn Hf. revert from t w Hf. induction clients as [|[node h] clients IH]; intros from t w Hf; cbn [length seq zip zip_with for_do].
  - intros s (Hu & Hc & Hr). apply wp_ret. split; [exact Hu|]. intros _ _. split; [exact Hu|]. split; [exact Hc|].
    change (zlen (@nil (Z * nat))) with 0. unfold made. replace ((from <=? 1)%nat && (2 <=? from + 0)%nat) with false.
    + by replace (t + _) with t by lia; replace (w + _) with w by lia.
    + symmetry. apply andb_false_iff. destruct (decide (from <= 1)%nat); [right; apply Nat.leb_gt; lia|left; apply Nat.leb_gt; lia].
  - eapply (leads_bind _ _ (steady_of k (t + zlen (kinds_until (Nat.eqb from 1) n)) (w + (Z.of_nat n + 3) / 4))).
    + intros s (Hu & Hc & Ht & Hw). unfold l. apply wp_bind, wp_on_host. eapply wp_mono; [apply worker_writes|]. cbv beta.
      intros [results|e|] s1 Hr; [|by split..]. destruct (Hr results eq_refl) as [Hk Hwr]. clear Hr.
      apply wp_amend. cbn [fst snd]. split; [exact Hu|]. intros _ _. split; [exact Hu|]. split; [exact Hc|]. unfold recorded. cbn [q_operations set_operations].
      rewrite fmap_app, filter_app, !zlen_app, Ht, Hw. split; f_equal.
      * rewrite <-Hk. unfold zlen. by rewrite length_fmap.
      * exact Hwr.
    + intros []. replace (t + made n from (S (length clients))) with (t + zlen (kinds_until (Nat.eqb from 1) n) + made n (S from) (length clients)).
      { replace (w + zlen ((node, h) :: clients) * ((Z.of_nat n + 3) / 4)) with (w + (Z.of_nat n + 3) / 4 + zlen clients * ((Z.of_nat n + 3) / 4)) by (rewrite zlen_cons; lia).
        apply IH. lia. }
      rewrite kinds_until_length. unfold made. replace (2 <=? n)%nat with true by (symmetry; apply Nat.leb_le; lia). rewrite andb_true_r.
      replace (S from <=? 1)%nat with false by (symmetry; apply Nat.leb_gt; lia). cbn [andb].
      destruct (Nat.eqb from 1) eqn:E; [apply Nat.eqb_eq in E; subst from|apply Nat.eqb_neq in E].
      * replace (1 <=? 1)%nat with true by done. replace (2 <=? 1 + S (length clients))%nat with true by (symmetry; apply Nat.leb_le; lia). cbn [andb]. lia.
      * replace (from <=? 1)%nat with false by (symmetry; apply Nat.leb_gt; lia). cbn [andb]. lia.
Qed.

Lemma leads_saturate (n : nat) : (2 <= n)%nat -> lead (clients_are 60) (saturate (W := W) n) (steady_of 60 (60 * Z.of_nat n + 1) (60 * ((Z.of_nat n + 3) / 4))).
Proof.
  intros Hn s0 Hs. unfold saturate. apply wp_bind, wp_amend. apply (clients_note 60 [("operations"%string, Arr [])]) in Hs; [|done].
  change (on_report _ s0.1) with (on_report (rupdate [("operations"%string, Arr [])]) s0.1, s0.2).1 in Hs.
  set (s := (_, s0.2)) in *. clearbody s. destruct Hs as (Hu & Ho & Hc). apply wp_bind, wp_gets.
  assert (Hl : length (q_clients s.1) = 60%nat) by (unfold zlen in Hc; lia).
  pose proof (leads_saturate_from n (q_clients s.1) 1 60 0 0 Hn (le_n 1) s) as Hs. unfold made in Hs. rewrite Hl, Hc in Hs.
  replace (0 + _) with (60 * Z.of_nat n + 1) in Hs by (cbn; lia). rewrite Z.add_0_l in Hs. rewrite Hl. apply Hs. split; [exact Hu|]. split; [exact Hc|]. unfold recorded. by rewrite Ho.
Qed.

(** ** The sampling thread *)

Definition stopped (q : Loading) : Prop := q_sampling q = false.

Lemma preserves_monitor I rounds :
  indifferent I -> (forall q u, I q -> I (add_sample u q)) -> (forall q, I q -> I (fail_monitor q)) -> preserves I (monitor (W := W) rounds).
Proof.
  intros HI Hs Hf. induction rounds as [|rounds IH]; cbn [monitor]; [apply preserves_ret|].
  apply preserves_bind; [|intros []; [exact IH|apply preserves_ret]]. unfold monitor_round, l.
  apply preserves_except; [preserves_auto; apply preserves_amend; auto|]. intros e m [= <-]. preserves_auto; [by apply preserves_amend|by apply preserves_put].
Qed.

Lemma preserves_stop I :
  indifferent I -> (forall q u, I q -> I (add_sample u q)) -> (forall q, I q -> I (fail_monitor q)) -> (forall q, I q -> I (set_sampling false q)) ->
  preserves I (stop_sampler (W := W)).
Proof.
  intros HI Hs Hf Hx. unfold stop_sampler, l. preserves_auto; [by apply preserves_amend|by apply preserves_monitor].
Qed.

(** A thread that was stopped does nothing the second time. *)
Lemma wp_stopped (s : Loading * (Voters * W)) : stopped s.1 -> wp (stop_sampler (W := W)) (fun r s' => r = Ok tt /\ s' = s) s.
Proof. intros Hs. unfold stop_sampler. apply wp_bind, wp_gets. unfold stopped in Hs. rewrite Hs. by apply wp_ret. Qed.

Lemma leads_stop k t w : lead (steady_of k t w) (stop_sampler (W := W)) (fun q => steady_of k t w q /\ stopped q).
Proof.
  intros s Hs. unfold stop_sampler, l. apply wp_bind, wp_gets. destruct (q_sampling s.1) eqn:E.
  - apply wp_bind, wp_host_step. intros [wakes|e|] w1; [|by split; [apply Hs|]..]. apply wp_bind, wp_amend. cbn [fst snd].
    eapply wp_mono; [apply (preserves_monitor (fun q => steady_of k t w q /\ stopped q))|].
    + intros kvs q Hk [H1 H2]. split; [by apply steady_note|exact H2].
    + by intros q u.
    + by intros q.
    + by split.
    + cbv beta. intros r s' [H1 H2]. split; [apply H1|done].
  - apply wp_ret. split; [apply Hs|]. done.
Qed.

(** ** The end of a campaign *)

Definition finished_load (n : nat) (q : Loading) : Prop := unfinished q /\ sound_load n q /\ stopped q.

Lemma sound_note n : indifferent (sound_load n).
Proof.
  intros kvs q [_ Hk]%andb_true_iff (Hr & Hrows & Hp & Hs). split; [exact Hr|]. split; [exact Hrows|]. split; [exact Hp|].
  destruct Hs as (a & b & x & Hx & Hn). exists a, b, x. split; [exact Hx|]. cbn [on_report q_report]. by rewrite rget_rupdate_other.
Qed.
Lemma finished_note n : indifferent (finished_load n).
Proof. intros kvs q Hk (Hu & Hs & Ht). split; [by apply unfinished_note|]. split; [by apply sound_note|exact Ht]. Qed.

Lemma peaks_bounded samples found most :
  peaks samples = Ok found -> max_of found.*2 = Ok most -> most <= MAX_RSS ->
  Forall (fun node => exists p, peak node samples = Ok p /\ p <= MAX_RSS) [1; 2; 3].
Proof.
  unfold peaks. intros Hf%try_map_Ok Hm Hle.
  assert (Hmax : forall (rest : list Z) first, first <= foldl Z.max first rest /\ Forall (fun x => x <= foldl Z.max first rest) rest).
  { induction rest as [|y rest IH]; intros first; cbn [foldl]; [by split; [lia|]|]. destruct (IH (Z.max first y)) as [H1 H2].
    split; [lia|]. constructor; [lia|exact H2]. }
  assert (Hall : Forall (fun p => p <= MAX_RSS) found.*2).
  { destruct found.*2 as [|p ps] eqn:E; [done|]. cbn [max_of] in Hm. injection Hm as <-. destruct (Hmax ps p) as [H1 H2].
    constructor; [lia|]. eapply Forall_impl; [exact H2|]. cbv beta. intros; lia. }
  clear Hm Hle most. induction Hf as [|node [node' p] nodes found Hp _ IH]; [constructor|].
  cbn [fmap list_fmap] in Hall. inversion Hall as [|? ? Hle Hrest]; subst. constructor; [|by apply IH].
  apply res_bind_Ok in Hp as (p' & Hp & [= <- <-]). by exists p'.
Qed.

Lemma leads_end (n : nat) k started finished :
  rows_hold ((Z.of_nat n + 3) / 4) ->
  lead (steady_of k (60 * Z.of_nat n + 1) (60 * ((Z.of_nat n + 3) / 4))) (campaign_end (W := W) started finished) (finished_load n).
Proof.
  intros Hrows. unfold campaign_end. eapply leads_bind; [apply leads_stop|intros _].
  intros s [Hs Hst]. assert (Hu : unfinished s.1) by apply Hs. assert (Hr : recorded (60 * Z.of_nat n + 1) (60 * ((Z.of_nat n + 3) / 4)) s.1) by apply Hs.
  apply wp_bind, wp_gets. unfold l. apply wp_bind, wp_host_step. intros [u|e|] w1; [|by split..].
  apply wp_bind, wp_lift. destruct (peaks (q_samples s.1)) as [found|e|] eqn:Hp; [|by split..].
  apply wp_bind, wp_amend. cbn [fst snd]. assert (Hu1 := unfinished_note [("rss_peak_bytes"%string, Obj ((fun '(node, p) => (dec node, tint p)) <$> found))] s.1 eq_refl Hu).
  set (q1 := on_report _ s.1) in *. apply wp_bind, wp_lift. destruct (max_of found.*2) as [most|e|] eqn:Hm; [|by split..].
  apply wp_bind, wp_on_host. eapply wp_mono; [apply (returns_check_that (most <=? MAX_RSS))|]. cbv beta. intros [u2|e|] w2 Hle; [|by split..]. specialize (Hle u2 eq_refl).
  apply wp_bind, wp_lift. destruct (summarize started finished (q_operations s.1) (q_samples s.1)) as [summary|e|] eqn:Hsum; [|by split..].
  apply wp_bind, wp_amend. cbn [fst snd]. assert (Hu2 := rget_rupdate_other "complete" [("summary"%string, summary_data summary)] (q_report q1) eq_refl).
  set (q2 := on_report _ q1) in *. assert (Hf : finished_load n q2).
  { split; [by unfold unfinished; cbn [q2 on_report q_report]; rewrite Hu2|]. split; [|exact Hst].
    split; [exact Hr|]. split; [exact Hrows|]. split; [eapply peaks_bounded; [exact Hp|exact Hm|by unbool]|].
    exists started, finished, summary. split; [exact Hsum|]. apply (rget_rset "summary"). }
  clearbody q1 q2. clear Hs Hst Hp Hm Hsum.
  apply wp_bind, wp_host_step. intros [c|e|] w3; [|split; [apply Hf|done]..].
  assert (Hlast : forall m : Sc (W := Voters * W) Loading unit, preserves (finished_load n) m -> lead (finished_load n) m (finished_load n)).
  { intros m Hm. apply leads_preserves; [by intros ? []|exact Hm]. }
  refine (leads_bind _ _ _ _ _ _ _ (fun _ => _) (_, _) Hf); apply Hlast; preserves_auto.
Qed.

(** ** The campaign *)

Definition held (k total writes expected : Z) (q : Loading) : Prop := steady_of k total writes q /\ rows_hold expected.

Lemma leads_settled k t w expected node :
  lead (steady_of k t w) (settled_voter (W := W) expected node) (held k t w expected).
Proof.
  intros s Hs. assert (Hu : unfinished s.1) by apply Hs. unfold settled_voter, l. apply wp_bind, wp_gets.
  apply wp_bind, wp_lift. destruct (client_at _ _) as [h|e|]; [|by split..].
  apply wp_bind, wp_on_host. eapply wp_mono.
  { apply (returns_expect_scalar h COUNT_VALUE [PInt expected] 60
      (fun v => exists rows, query_reply (W := W) COUNT_VALUE [PInt expected] rows /\ scalar rows = Ok v) (rows_hold expected)).
    - apply returns_scalar. intros rows v Hr Hv. by exists rows.
    - intros v (rows & Hr & Hv) He. by exists rows, v. }
  cbv beta. intros [u|e|] w1 Hh; [|by split..]. specialize (Hh u eq_refl).
  apply wp_bind, wp_host_step. intros [u2|e|] w2; [|by split..].
  apply wp_bind, wp_host_step. intros [st|e|] w3; [|by split..].
  apply wp_amend. cbn [fst snd].
  assert (Hs' : forall v, steady_of k t w (on_report (rupdate [("status_after"%string, v)]) s.1)) by (intros v; by apply steady_note).
  split; [apply Hs'|]. intros _ _. split; [apply Hs'|exact Hh].
Qed.

Lemma held_note k t w e : indifferent (held k t w e).
Proof. intros kvs q Hk [Hs Hr]. split; [by apply steady_note|exact Hr]. Qed.

Lemma leads_steady_settled k t w expected node : lead (held k t w expected) (settled_voter (W := W) expected node) (held k t w expected).
Proof. intros s [Hs _]. by apply leads_settled. Qed.

Lemma preserves_stalled I : (forall x q, I q -> I (set_stalled x q)) -> preserves I (flood (W := W)).
Proof. intros HI. unfold flood, l. preserves_auto. apply preserves_amend. intros q. apply HI. Qed.

Lemma leads_load (n : nat) : (2 <= n)%nat -> lead (clients_are 60) (campaign_load (W := W) fuel n) (finished_load n).
Proof.
  intros Hn. unfold campaign_load, l.
  assert (HC : forall q, clients_are 60 q -> unfinished q) by (by intros ? []).
  set (t := 60 * Z.of_nat n + 1). set (w := 60 * ((Z.of_nat n + 3) / 4)). set (e := (Z.of_nat n + 3) / 4).
  assert (HS : forall q, steady_of 60 t w q -> unfinished q) by (by intros ? []).
  assert (HH : forall q, held 60 t w e q -> unfinished q) by (by intros ? [[]]).
  apply leads_step; [exact HC|by apply preserves_put; [apply clients_note|]|intros _].
  apply leads_step; [exact HC|by apply preserves_amend|intros _].
  apply leads_step; [exact HC|by apply preserves_stalled|intros _].
  apply leads_step; [exact HC|apply preserves_host|intros started].
  apply leads_step; [exact HC|by apply preserves_put; [apply clients_note|]|intros _].
  eapply leads_bind; [by apply leads_saturate|intros _]. fold t w.
  apply leads_step; [exact HS|apply preserves_host|intros finished].
  apply leads_step; [exact HS|by apply preserves_put; [apply steady_note|]|intros _].
  apply leads_step; [exact HS|unfold close_stalled_sockets, l; preserves_auto|intros _].
  apply leads_step; [exact HS|by apply preserves_amend|intros _].
  apply leads_step; [exact HS|unfold close_slow, l; preserves_auto|intros _].
  apply leads_step; [exact HS|by apply preserves_amend|intros _].
  apply leads_step; [exact HS|apply preserves_host|intros before].
  apply leads_step; [exact HS|apply preserves_reported|intros q].
  apply leads_step; [exact HS|apply preserves_lift|intros first].
  apply leads_step; [exact HS|apply preserves_host|intros _].
  apply leads_step; [exact HS|apply preserves_host|intros now].
  apply leads_step; [exact HS|by apply preserves_put; [apply steady_note|]|intros _].
  eapply (leads_bind _ _ (held 60 t w e)).
  { cbn [for_do]. eapply leads_bind; [apply leads_settled|intros _]. do 2 (eapply leads_bind; [apply leads_steady_settled|intros _]).
    apply leads_preserves; [exact HH|apply preserves_ret]. }
  intros _.
  apply leads_step; [exact HH|apply preserves_reported|intros q2].
  apply leads_step; [exact HH|apply preserves_lift|intros target].
  apply leads_step; [exact HH|apply preserves_host|intros states].
  apply leads_step; [exact HH|by apply preserves_put; [apply held_note|]|intros _].
  intros s [Hs Hr]. by apply (leads_end n 60).
Qed.

Lemma leads_body (n : nat) environment : (2 <= n)%nat -> lead (clients_are 0) (campaign_body (W := W) fuel environment n) (finished_load n).
Proof.
  intros Hn. unfold campaign_body, l. assert (HC : forall q, clients_are 0 q -> unfinished q) by (by intros ? []).
  do 3 (apply leads_step; [exact HC|apply preserves_host|intros ?]).
  apply leads_step; [exact HC|apply preserves_host|intros idle].
  apply leads_step; [exact HC|by apply preserves_put; [apply clients_note|]|intros _].
  apply leads_step; [exact HC|apply preserves_host|intros _].
  apply leads_step; [exact HC|apply preserves_host|intros idle2].
  apply leads_step; [exact HC|by apply preserves_put; [apply clients_note|]|intros _].
  eapply leads_bind; [|intros _; by apply leads_load].
  apply (leads_for_do unfinished clients_are 20 [1; 2; 3] occupy 0); [by intros ? ? []|intros; apply leads_occupy].
Qed.

Lemma leads_saturation (n : nat) environment : (2 <= n)%nat -> lead (clients_are 0) (saturation (W := W) fuel environment n) (finished_load n).
Proof.
  intros Hn s Hs. unfold saturation. apply wp_try_finally. eapply wp_mono; [by apply leads_body|]. cbv beta.
  assert (Hrest : forall I : Loading -> Prop, preserves I (bind reported (fun q : Loading =>
     do! for_do (q_clients q) (fun '(_, h) => l (call (W := W) h Client.close));; do! close_slow;; close_stalled_sockets))).
  { intros I. unfold close_slow, close_stalled_sockets, l. preserves_auto. }
  intros [u|e|] s1 [Hu Hr]; [| |by split].
  - unfold campaign_finally. apply wp_bind. eapply wp_mono; [apply wp_stopped; by apply (Hr u)|]. intros r s2 [-> ->].
    eapply wp_mono; [apply (Hrest (finished_load n)); by apply (Hr u)|]. cbv beta. intros [u2|e|] s3 H3; (split; [apply H3|done]).
  - unfold campaign_finally. apply wp_bind. eapply wp_mono; [apply (preserves_stop unfinished); [apply unfinished_note|done..]|]. cbv beta.
    intros [u2|e2|] s2 H2; [|by split..]. eapply wp_mono; [by apply (Hrest unfinished)|]. cbv beta. intros [u3|e3|] s3 H3; by split.
Qed.

(** ** The report of [main] *)

Definition settled_load (args : LoadArgs) (r : res exn unit) (q : Loading) : Prop :=
  (rget "complete" (q_report q) = Some (tbool true) -> 4 <= la_operations args <= 64 /\ sound_load (Z.to_nat (la_operations args)) q) /\
  (r = Ok tt -> rget "complete" (q_report q) = Some (tbool true)).

Lemma settled_unfinished args r q : unfinished q -> r <> Ok tt -> settled_load args r q.
Proof. intros Hu Hr. split; [|done]. unfold unfinished in Hu. by rewrite Hu. Qed.

Lemma settled_minor args r : indifferent (settled_load args r).
Proof.
  intros kvs q Hk [H1 H2]. unfold settled_load in *. cbn [on_report q_report]. pose proof Hk as [Hc _]%andb_true_iff. rewrite rget_rupdate_other by done.
  split; [|exact H2]. intros Ht. destruct (H1 Ht) as [Hr Hs]. split; [exact Hr|by apply sound_note].
Qed.

Lemma settled_raise args r q e : settled_load args r q -> settled_load args (Raise e) q.
Proof. intros [H1 _]. by split. Qed.
Lemma settled_fuel args r q : settled_load args r q -> settled_load args OutOfFuel q.
Proof. intros [H1 _]. by split. Qed.

(** Cleanups and notes after the verdict. *)
Lemma wp_cleanup args {A} (m : Sc (W := Voters * W) Loading A) (r : res exn unit) (s : Loading * (Voters * W)) :
  (forall r, preserves (settled_load args r) m) -> settled_load args r s.1 ->
  wp m (fun rf s' => settled_load args r s'.1) s.
Proof. intros Hm Hs. by apply Hm. Qed.

Lemma wp_finally_settled args (m f : Sc (W := Voters * W) Loading unit) s :
  (forall r, preserves (settled_load args r) f) -> wp m (fun r s' => settled_load args r s'.1) s ->
  wp (try_finally m f) (fun r s' => settled_load args r s'.1) s.
Proof.
  intros Hf Hm. apply wp_try_finally. eapply wp_mono; [exact Hm|]. cbv beta. intros [[]|e|] s1 H1; [| |exact H1];
    (eapply wp_mono; [apply (Hf _ s1 H1)|]); cbv beta; intros [[]|e2|] s2 H2; first [exact H2|by eapply settled_raise|by eapply settled_fuel].
Qed.

(** A step towards the verdict. *)
Lemma settled_step {A} args P Q (m : Sc (W := Voters * W) Loading A) (f : A -> Sc Loading unit) (s : Loading * (Voters * W)) :
  lead P m Q -> P s.1 -> (forall a (s' : Loading * (Voters * W)), Q s'.1 -> wp (f a) (fun r s2 => settled_load args r s2.1) s') ->
  wp (bind m f) (fun r s2 => settled_load args r s2.1) s.
Proof.
  intros Hm Hs Hf. apply wp_bind. eapply wp_mono; [by apply Hm|]. intros [a|e|] s1 [Hu H1]; [|by apply settled_unfinished..].
  by apply Hf, (H1 a).
Qed.

Lemma load_run_spec args environment (s : Loading * (Voters * W)) :
  4 <= la_operations args <= 64 -> clients_are 0 s.1 -> wp (load_run fuel args environment) (fun r s' => settled_load args r s'.1) s.
Proof.
  intros Ho Hs. unfold load_run. set (n := Z.to_nat (la_operations args)). assert (HF : forall q, finished_load n q -> unfinished q) by (by intros ? []).
  eapply settled_step; [apply (leads_saturation n); lia|exact Hs|]. intros _ s1 H1.
  eapply settled_step; [apply leads_preserves; [exact HF|apply preserves_host]|exact H1|]. intros _ s2 H2.
  eapply settled_step; [apply leads_preserves; [exact HF|]|exact H2|].
  { unfold l. preserves_auto. apply preserves_put; [apply finished_note|done]. }
  intros _ s3 H3. eapply settled_step; [apply leads_preserves; [exact HF|]|exact H3|].
  { unfold l. preserves_auto. apply preserves_put; [apply finished_note|done]. }
  intros _ s4 (Hu & (Hr & Hrows & Hp & a & b & x & Hx & Hn) & _). apply wp_amend. cbn [fst snd]. split.
  - intros _. split; [exact Ho|]. split; [exact Hr|]. split; [exact Hrows|]. split; [exact Hp|]. exists a, b, x. split; [exact Hx|].
    cbn [on_report q_report]. by rewrite rget_rupdate_other.
  - intros _. cbn [on_report q_report]. apply (rget_rset "complete").
Qed.

Lemma preserves_settled_note args kvs r : minor kvs = true -> preserves (settled_load args r) (put_note (W := W) kvs).
Proof. apply preserves_put, settled_minor. Qed.

Lemma load_work_spec ROOT args work (s : Loading * (Voters * W)) :
  4 <= la_operations args <= 64 -> clients_are 0 s.1 -> wp (load_work fuel ROOT args work) (fun r s' => settled_load args r s'.1) s.
Proof.
  intros Ho Hs. unfold load_work, l. assert (HC : forall q, clients_are 0 q -> unfinished q) by (by intros ? []).
  assert (Hk : forall A (m : Sc (W := Voters * W) Loading A) (f : A -> Sc Loading unit) s, preserves (clients_are 0) m -> clients_are 0 s.1 ->
    (forall a (s' : Loading * (Voters * W)), clients_are 0 s'.1 -> wp (f a) (fun r s2 => settled_load args r s2.1) s') ->
    wp (bind m f) (fun r s2 => settled_load args r s2.1) s).
  { intros A m f s0 Hm. apply settled_step. by apply leads_preserves. }
  apply Hk; [apply preserves_host|exact Hs|intros fs s1 H1].
  apply Hk; [by apply preserves_put; [apply clients_note|]|exact H1|intros _ s2 H2].
  apply Hk; [apply preserves_host|exact H2|intros _ s3 H3].
  apply Hk; [apply preserves_host|exact H3|intros binary s4 H4].
  apply Hk; [apply preserves_host|exact H4|intros c s5 H5].
  apply Hk; [apply preserves_host|exact H5|intros _ s6 H6].
  apply Hk; [|exact H6|intros environment s7 H7].
  { unfold io_environment, l. preserves_auto. by apply preserves_put; [apply clients_note|]. }
  apply wp_finally_settled; [|by apply load_run_spec]. intros r. preserves_auto. by apply preserves_settled_note.
Qed.

(** C34: the saturation campaign reports itself complete whenever it
    succeeds, and only for 4 to 64 operations per client, after its 60 clients
    made all their operations and the one snapshot request, with
    60 * ((operations + 3) // 4) writes; after a voter answered that all sixty
    rows hold that number; with no voter's peak memory over 512 MB in the
    samples; and with the summary of exactly those operations and samples in the
    report. *)
Theorem load_sound (ROOT : pystr) (args : LoadArgs) (w : W) :
  let '(r, s) := load_report fuel ROOT args (mkLoading [] [] [] [] [] [] false false, (no_voters, w)) in settled_load args r s.1.
Proof.
  enough (Hw : wp (load_report fuel ROOT args) (fun r s => settled_load args r s.1) (mkLoading [] [] [] [] [] [] false false, (no_voters, w))) by (unfold wp in Hw; destruct (load_report _ _ _ _) as [r s]; exact Hw).
  set (q0 := mkLoading _ _ _ _ _ _ _ _). assert (Hempty : forall r : res exn unit, r <> Ok tt -> settled_load args r q0) by (intros r Hr; by split).
  unfold load_report, l. do 2 (apply wp_bind, wp_host_step; intros [?|?|] ?; [|by apply Hempty..]; cbn [fst]).
  apply wp_bind. destruct (negb _ || _ || _) eqn:Ho; [by apply wp_throw, Hempty|]. apply wp_ret.
  apply orb_false_iff in Ho as [_ Ho]. apply negb_false_iff, andb_true_iff in Ho as [Ho1 Ho2].
  assert (Hops : 4 <= la_operations args <= 64) by (unbool; lia). clear Ho1 Ho2.
  do 2 (apply wp_bind, wp_host_step; intros [?|?|] ?; [|by apply Hempty..]; cbn [fst]).
  apply wp_bind, wp_amend. cbn [fst snd]. set (q1 := on_report _ q0).
  assert (H1 : clients_are 0 q1).
  { split; [|done]. unfold unfinished. cbn [q1 on_report q_report]. by apply (rget_rupdate_at "complete" _ []). }
  clearbody q1. assert (Hq1 : forall r : res exn unit, r <> Ok tt -> settled_load args r q1) by (intros r; apply settled_unfinished, H1).
  cbv zeta. apply wp_bind, wp_host_step. intros [?|?|] ?; [|by apply Hq1..]. cbn [fst].
  apply wp_finally_settled; [intros r; preserves_auto; by apply preserves_settled_note|].
  apply wp_try_except. eapply wp_mono with (P := fun r s => settled_load args r s.1).
  - apply wp_bind, wp_host_step. intros [work|?|] ?; [|by apply Hq1..]. cbn [fst].
    apply wp_finally_settled; [intros r; apply preserves_host|]. by apply load_work_spec.
  - intros [u|e|] s2 H2; [exact H2| |exact H2]. apply wp_bind. eapply wp_mono; [apply (preserves_settled_note args [("error"%string, tstr (repr_exn e))] (Raise e)); [done|exact H2]|].
    cbv beta. intros [?|?|] s3 H3; [by apply wp_throw|by eapply settled_raise|by eapply settled_fuel].
Qed.
End Sound.
