(* ===== verification/Mtls.v ===== *)
(** * tools/check_mtls.py: the TLS probe, without SQL

    A C probe is both ends of a TLS connection over a socket pair, or one end
    against Python's own TLS; each pairing of certificates, names, versions and
    traffic is a case with the exit codes it must have. *)

From Stdlib Require Import QArith.
From S2P Require Import Prelude PyStr PyFloat Objects Json Bytes Vector Text Net Transport Dict Host Script Service Returns.
#[local] Open Scope Z_scope.

(** ** Decoding what a probe printed *)

(** [data.decode()]: UTF-8 without surrogates. *)
Definition surrogate (c : Z) : bool := (55296 <=? c) && (c <=? 57343).
Definition decode_strict (l : list Z) : pyres pystr :=
  match utf8_decode (length l) l with
  | Some s => if existsb surrogate s then Raise (ValueError "invalid continuation byte") else Ok s
  | None => Raise (ValueError "invalid start byte")
  end.

(** [data.decode(errors='replace')]: every maximal part of a sequence that does
    not go on becomes one replacement character. *)
Definition sequence_of (b0 : Z) : option (nat * (Z * Z)) :=
  if (194 <=? b0) && (b0 <=? 223) then Some (1%nat, (128, 191))
  else if b0 =? 224 then Some (2%nat, (160, 191))
  else if b0 =? 237 then Some (2%nat, (128, 159))
  else if (225 <=? b0) && (b0 <=? 239) then Some (2%nat, (128, 191))
  else if b0 =? 240 then Some (3%nat, (144, 191))
  else if b0 =? 244 then Some (3%nat, (128, 143))
  else if (241 <=? b0) && (b0 <=? 243) then Some (3%nat, (128, 191))
  else None.
Fixpoint continues (n : nat) (range : Z * Z) (l : list Z) : nat :=
  match n, l with
  | S n, b :: l => if (range.1 <=? b) && (b <=? range.2) then S (continues n (128, 191) l) else O
  | _, _ => O
  end.
Definition code_of (b0 : Z) (rest : list Z) : Z :=
  foldl (fun c b => c * 64 + (b - 128)) (if b0 <? 224 then b0 - 192 else if b0 <? 240 then b0 - 224 else b0 - 240) rest.
Fixpoint decode_replace (fuel : nat) (l : list Z) : pystr :=
  match fuel, l with
  | S fuel, b0 :: rest =>
      if b0 <? 128 then b0 :: decode_replace fuel rest
      else match sequence_of b0 with
           | None => 65533 :: decode_replace fuel rest
           | Some (n, range) =>
               let k := continues n range rest in
               (if Nat.eqb k n then code_of b0 (take k rest) else 65533) :: decode_replace fuel (drop k rest)
           end
  | _, _ => []
  end.

(** ** The host *)

Class Pairing (W : Type) := {
  u_service :: Service W;
  (** [socket.socketpair()], [setblocking], [settimeout], [close], [sendall],
      [shutdown(SHUT_WR)], [recv] *)
  u_socketpair : W -> pyres (Z * Z) * W;
  u_setblocking : Z -> bool -> W -> W;
  u_settimeout : Z -> Q -> W -> W;
  u_close : Z -> W -> W;
  u_sendall : Z -> list Z -> W -> pyres unit * W;
  u_shutdown : Z -> W -> pyres unit * W;
  u_recv : Z -> Z -> W -> pyres (list Z) * W;
  u_fileno : Z -> Z;
  (** [subprocess.Popen(argv, pass_fds=(fd,), stdout=PIPE, stderr=PIPE)] and its methods *)
  u_spawn : list pystr -> Z -> W -> pyres Z * W;
  u_communicate : Z -> Q -> W -> pyres (Z * list Z * list Z) * W;
  u_poll : Z -> W -> option Z * W;
  u_kill : Z -> W -> W;
  u_wait : Z -> Q -> W -> pyres Z * W;
  (** [ssl.SSLContext(PROTOCOL_TLS_CLIENT)] with what is loaded into it, and
      [wrap_socket]: the new socket *)
  u_load_verify : pystr -> W -> pyres unit * W;
  u_load_chain : pystr -> pystr -> W -> pyres unit * W;
  u_wrap : Z -> SSLContext -> pystr -> W -> pyres Z * W;
  u_openssl_version : pystr
}.

Section Mtls.
Context {W : Type} `{Pairing W}.
Abbreviation H_ := (Hm (W := W)).

Definition in_dir (directory : pystr) (name : pystr) (ext : string) : pystr := join_path directory (name ++ py ext).

(** ** native_pair *)

Record Options := mkOptions { po_client : pystr; po_server_peer : pystr; po_client_peer : pystr; po_client_key : option pystr; po_nonblocking : bool }.
Definition defaults : Options := mkOptions (py "client") (py "node-2.test.sqlodin") (py "node-1.test.sqlodin") None true.

Record Exit := mkExit { e_code : Z; e_stdout : pystr; e_stderr : pystr }.

Definition probe_command (binary role : pystr) (sock : Z) (directory identity key expected : pystr) : list pystr :=
  [binary; role; dec (u_fileno sock); in_dir directory identity ".pem"; in_dir directory key ".key";
   in_dir directory (py "ca") ".pem"; expected].

(** [process.communicate(timeout=8)] with both outputs decoded *)
Definition finish_probe (process : Z) : H_ Exit :=
  let! out := io_res (u_communicate process 8) in
  let! stdout := lift (decode_strict out.1.2) in
  let! stderr := lift (decode_strict out.2) in
  ret (mkExit out.1.1 stdout stderr).

(** The [finally] clause for one process. *)
Definition reap_child (process : Z) : H_ unit :=
  let! code := io (u_poll process) in
  do! (if bool_decide (code = None) then io_do (u_kill process) else ret tt);;
  let! _ := io_res (u_wait process 5) in ret tt.

(** The state of the block: the processes started so far. *)
Definition native_pair (binary directory : pystr) (options : Options) : H_ (list Exit) :=
  let! ends := io_res u_socketpair in
  let left := ends.1 in let right := ends.2 in
  do! io_do (u_setblocking left (negb (po_nonblocking options)));;
  do! io_do (u_setblocking right false);;
  with_report [] (try_finally
    (do! for_do [(py "server", left, py "server", po_server_peer options, py "server");
                 (py "client", right, po_client options, po_client_peer options, default (po_client options) (po_client_key options))]
       (fun '(role, sock, identity, expected, key) =>
          let! process := on_host (io_res (u_spawn (probe_command binary role sock directory identity key expected) (u_fileno sock))) in
          amend (fun processes => processes ++ [process]));;
     do! on_host (io_do (u_close left));;
     do! on_host (io_do (u_close right));;
     let! processes := reported in
     for_each processes (fun process acc => let! x := on_host (finish_probe process) in ret (acc ++ [x])) [])
    (do! on_host (io_do (u_close left));;
     do! on_host (io_do (u_close right));;
     let! processes := reported in
     for_do processes (fun process => on_host (reap_child process)))).

(** ** python_peer *)

Record Peer := mkPeer { pr_exit : Exit; pr_reply : pystr; pr_error : option pystr; pr_seconds : Q }.

(** [ssl.SSLContext(ssl.PROTOCOL_TLS_CLIENT)] *)
Definition client_context : SSLContext := mkContext [] TLSv1_2 TLSv1_3 true None.

Definition peer_context (directory mode : pystr) : H_ SSLContext :=
  let ca := in_dir directory (py "ca") ".pem" in
  do! io_res (u_load_verify ca);;
  let cert := in_dir directory (py "client") ".pem" in
  let key := in_dir directory (py "client") ".key" in
  let! chain := (if pyeqb mode (py "missing-certificate") then ret None
                 else do! io_res (u_load_chain cert key);; ret (Some (cert, key))) in
  ret (if pyeqb mode (py "tls12") then mkContext ca TLSv1_2 TLSv1_2 true chain else mkContext ca TLSv1_3 TLSv1_3 true chain).

Definition PING : list Z := [112; 105; 110; 103].

(** The state of the block is [right] and [reply].  Each chunk received has a
    byte, so that five turns are enough. *)
Definition exchange_bytes (right : Z) : Sc (W := W) (Z * list Z) unit :=
  do! for_do PING (fun byte => on_host (io_res (u_sendall right [byte])));;
  while_loop 5 (fun _ =>
    let! st := reported in
    if 4 <=? zlen st.2 then ret (inr tt)
    else
      let! chunk := on_host (io_res (u_recv right (4 - zlen st.2))) in
      if bool_decide (chunk = []) then ret (inr tt)
      else do! amend (fun st => (st.1, st.2 ++ chunk));; ret (inl tt)) tt.

Definition peer_traffic (directory mode : pystr) : Sc (W := W) (Z * list Z) (option pystr) :=
  let! st := reported in
  let right := st.1 in
  if pyeqb mode (py "plaintext") then
    do! on_host (io_res (u_sendall right (py "not tls at all")));;
    do! on_host (io_res (u_shutdown right));; ret None
  else if pyeqb mode (py "idle") then ret None
  else
    let! context := on_host (peer_context directory mode) in
    try_except
      (let! wrapped := on_host (io_res (u_wrap right context (py "node-1.test.sqlodin"))) in
       do! amend (fun st => (wrapped, st.2));;
       do! exchange_bytes wrapped;; ret None)
      (fun e => if isinstance e COSError then Some (ret (Some (str_exn e))) else None).

Definition python_peer (binary directory mode : pystr) : H_ Peer :=
  let! ends := io_res u_socketpair in
  let left := ends.1 in let right := ends.2 in
  do! io_do (u_setblocking left false);;
  do! io_do (u_settimeout right 7);;
  let! process := io_res (u_spawn (probe_command binary (py "server") left directory (py "server") (py "server") (py "node-2.test.sqlodin")) (u_fileno left)) in
  do! io_do (u_close left);;
  let! started := io h_monotonic in
  fun w => let '(r, s) := (try_finally
    (let! error := peer_traffic directory mode in
     let! out := on_host (io_res (u_communicate process 8)) in
     let! st := reported in
     let! stdout := lift (decode_strict out.1.2) in
     let! stderr := lift (decode_strict out.2) in
     let! t := on_host (io h_monotonic) in
     ret (mkPeer (mkExit out.1.1 stdout stderr) (decode_replace (length st.2) st.2) error (t - started)%Q))
    (let! st := reported in
     do! on_host (io_do (u_close st.1));;
     on_host (reap_child process))) ((right, []), w) in (r, s.2).

End Mtls.

(** ** main *)

Record MtlsArgs := mkMtlsArgs { mt_openssl : pystr; mt_library_dir : option pystr; mt_output : pystr }.

(** The cases of the probe against itself: a name, its options, and whether the
    connection must be accepted. *)
Definition with_client (client : string) : Options := mkOptions (py client) (py "node-2.test.sqlodin") (py "node-1.test.sqlodin") None true.
Definition native_cases : list (string * Options * bool) :=
  [("native_mutual_tls13", defaults, true);
   ("reject_wrong_client_identity", mkOptions (py "client") (py "node-3.test.sqlodin") (py "node-1.test.sqlodin") None true, false);
   ("reject_wrong_server_identity", mkOptions (py "client") (py "node-2.test.sqlodin") (py "node-3.test.sqlodin") None true, false);
   ("reject_untrusted_ca", with_client "rogue", false);
   ("reject_wildcard_identity", with_client "wildcard", false);
   ("reject_common_name_fallback", with_client "cn-only", false);
   ("reject_wrong_certificate_purpose", with_client "wrong-purpose", false);
   ("reject_expired_certificate", with_client "expired", false);
   ("reject_key_certificate_mismatch", mkOptions (py "client") (py "node-2.test.sqlodin") (py "node-1.test.sqlodin") (Some (py "server")) true, false);
   ("reject_blocking_socket", mkOptions (py "client") (py "node-2.test.sqlodin") (py "node-1.test.sqlodin") None false, false)]%string.
Definition peer_modes : list string := ["fragmented"; "missing-certificate"; "tls12"; "plaintext"; "idle"]%string.

(** What a case showed. *)
Inductive result := Processes (exits : list Exit) | PeerResult (p : Peer).
Record Checked := mkChecked { ck_name : pystr; ck_passed : bool; ck_result : result }.

Definition native_passed (accepted : bool) (exits : list Exit) : bool :=
  forallb (fun r => e_code r =? (if accepted then 0 else 1)) exits.
Definition peer_passed (mode : pystr) (p : Peer) : bool :=
  if pyeqb mode (py "fragmented") then (e_code (pr_exit p) =? 0) && pyeqb (pr_reply p) (py "pong")
  else (e_code (pr_exit p) =? 1) && negb (pyeqb (pr_reply p) (py "pong")) && negb (Qle_bool 7 (pr_seconds p)).

Definition exit_fields (x : Exit) : list (string * tv) :=
  [("returncode", tint (e_code x)); ("stdout", tstr (e_stdout x)); ("stderr", tstr (e_stderr x))]%string.
Definition result_data (r : result) : string * tv :=
  match r with
  | Processes exits => ("processes"%string, Arr ((fun x => Obj (fields (exit_fields x))) <$> exits))
  | PeerResult p =>
      ("result", Obj (fields [("returncode", tint (e_code (pr_exit p))); ("reply", tstr (pr_reply p)); ("stdout", tstr (e_stdout (pr_exit p)));
         ("stderr", tstr (e_stderr (pr_exit p))); ("peer_error", topt tstr (pr_error p)); ("seconds", Num (pr_seconds p))]))%string
  end.
Definition checked_data (c : Checked) : tv :=
  Obj (fields [("name"%string, tstr (ck_name c)); ("passed"%string, tbool (ck_passed c)); result_data (ck_result c)]).

Section Main.
Context {W : Type} `{Pairing W}.

Definition run_cases (binary directory : pystr) : Hm (W := W) (list Checked) :=
  let! cases := for_each native_cases (fun '(name, options, accepted) cases =>
    let! exits := native_pair binary directory options in
    ret (cases ++ [mkChecked (py name) (native_passed accepted exits) (Processes exits)])) [] in
  for_each peer_modes (fun mode cases =>
    let! p := python_peer binary directory (py mode) in
    ret (cases ++ [mkChecked (py mode) (peer_passed (py mode) p) (PeerResult p)])) cases.

Definition build_command (ROOT binary : pystr) (args : MtlsArgs) : Hm (W := W) (list pystr) :=
  let build := [py "odin"; py "build"; join_path ROOT (py "internal/mtls_probe"); py "-vet"; py "-strict-style";
                py (if pyeqb h_system (py "Linux") then "-o:speed" else "-debug"); py "-out:" ++ binary] in
  match mt_library_dir args with
  | None => ret build
  | Some dir => let! dir := gets (h_resolve dir) in ret (build ++ [py "-extra-linker-flags:-L" ++ dir])
  end.

(** [{str(p.relative_to(ROOT)): sha256 of p for p in sources}], in their order *)
Definition probe_sources (ROOT : pystr) : Hm (W := W) (list (pystr * pystr)) :=
  let! transport := io (h_glob ROOT (py "transport/mtls/*.odin")) in
  let! probe := io (h_glob ROOT (py "internal/mtls_probe/*.odin")) in
  for_each (transport ++ probe ++ [join_path ROOT (py "tools/check_mtls.py")]) (fun path entries =>
    let! digest := file_sha256 path in ret (dset (relative_to ROOT path) digest entries)) [].

Definition mtls_report (ROOT binary : pystr) (args : MtlsArgs) (cases : list Checked) : Hm (W := W) report :=
  let! utc := io h_utc in
  let! version := run_openssl [mt_openssl args; py "version"] in
  let! digest := file_sha256 binary in
  let! sources := probe_sources ROOT in
  ret (fields [("complete", tbool (forallb ck_passed cases)); ("checks", Arr (checked_data <$> cases)); ("run_at_utc", tstr utc);
    ("platform", tstr h_platform); ("openssl", tstr (strip (stdout version))); ("python_openssl", tstr u_openssl_version);
    ("binary_sha256", tstr digest); ("source_sha256", manifest_report sources);
    ("scope", tstr (py "optional native TLS primitive over inherited socket pairs; no SQL service, enrollment, dynamic membership, certificate rotation or production qualification"))]%string).

Definition in_scratch (ROOT : pystr) (args : MtlsArgs) (directory : pystr) : Hm (W := W) unit :=
  let binary := join_path directory (py "probe") in
  let! build := build_command ROOT binary args in
  let! _ := run_openssl build in
  do! certificates (mt_openssl args) directory;;
  do! io_do (h_sleep (11 # 10));;
  let! cases := run_cases binary directory in
  let! report := mtls_report ROOT binary args cases in
  do! io_res (h_mkdir (path_parent (mt_output args)));;
  do! io_res (h_write_json (mt_output args) (Obj report));;
  do! for_do cases (fun case => print_line (py (if ck_passed case then "PASS " else "FAIL ") ++ ck_name case));;
  if forallb ck_passed cases then ret tt else throw (SystemExit (py "mTLS checks failed; inspect preserved report")).

Definition mtls_main (ROOT : pystr) (args : MtlsArgs) : Hm (W := W) unit :=
  let! there := io (h_exists (mt_output args)) in
  do! (if (there : bool) then parser_error "Output exists; retain earlier evidence" else ret tt);;
  with_tempdir (py "sqlodin-mtls-") [] (in_scratch ROOT args).
End Main.

(** * What the TLS probe's cases show *)

(** [decode(errors='replace')] as the interpreter does it. *)
Example replaces :
  decode_replace 20 [112; 195; 169; 226; 130; 172; 240; 159; 152; 128; 255; 226; 130; 65; 237; 160; 128; 240; 144] =
  [112; 233; 8364; 128512; 65533; 65533; 65; 65533; 65533; 65533; 65533].
Proof. vm_compute. reflexivity. Qed.

(** Bytes that are UTF-8 are decoded the same either way. *)
Example agrees : decode_strict [112; 195; 169] = Ok (decode_replace 3 [112; 195; 169]).
Proof. vm_compute. reflexivity. Qed.

(** Processes: a probe runs from [Popen] until it is seen to have ended, is
    killed, or is waited for; nothing else starts one. *)
Class PairingLaws (W : Type) `{Pairing W} := {
  probes : W -> list Z;
  inert {A} (f : W -> A * W) : Prop := forall w, probes (f w).2 ⊆ probes w;
  spawn_one argv fd w : forall r w', u_spawn argv fd w = (r, w') ->
    match r with Ok pid => probes w' ⊆ pid :: probes w | _ => probes w' ⊆ probes w end;
  polled pid w : probes (u_poll pid w).2 ⊆ probes w /\ (forall code, (u_poll pid w).1 = Some code -> pid ∉ probes (u_poll pid w).2);
  killed pid w : probes (u_kill pid w) ⊆ probes w /\ pid ∉ probes (u_kill pid w);
  waited pid t w : probes (u_wait pid t w).2 ⊆ probes w /\ (pid ∉ probes w -> exists code, (u_wait pid t w).1 = Ok code);
  sockets_inert : inert u_socketpair /\ (forall s b w, probes (u_setblocking s b w) ⊆ probes w) /\ (forall s q w, probes (u_settimeout s q w) ⊆ probes w) /\
    (forall s w, probes (u_close s w) ⊆ probes w) /\ (forall s d, inert (u_sendall s d)) /\ (forall s, inert (u_shutdown s)) /\ (forall s k, inert (u_recv s k));
  tls_inert : (forall p, inert (u_load_verify p)) /\ (forall c k, inert (u_load_chain c k)) /\ (forall s c name, inert (u_wrap s c name));
  rest_inert : (forall pid t, inert (u_communicate pid t)) /\ inert h_monotonic
}.

Section Reaped.
Context {W : Type} `{PairingLaws W}.

(** A step that starts nothing. *)
Definition starts_none {A} (m : Hm (W := W) A) : Prop := forall w, wp m (fun _ w' => probes w' ⊆ probes w) w.

Lemma none_bind {A B} (m : Hm (W := W) A) (f : A -> Hm B) : starts_none m -> (forall a, starts_none (f a)) -> starts_none (bind m f).
Proof.
  intros Hm Hf w. apply wp_bind. eapply wp_mono; [apply Hm|]. intros [a|e|] w1 H1; [|done..].
  eapply wp_mono; [apply Hf|]. intros r w2 H2. by transitivity (probes w1).
Qed.
Lemma none_io {A} (f : W -> A * W) : inert f -> starts_none (io f).
Proof. intros Hf w. apply wp_io. intros a w' E. pose proof (Hf w) as Hw. by rewrite E in Hw. Qed.
Lemma none_io_res {A} (f : W -> pyres A * W) : inert f -> starts_none (io_res f).
Proof. intros Hf w. apply wp_io_res. intros a w' E. pose proof (Hf w) as Hw. by rewrite E in Hw. Qed.
Lemma none_do (f : W -> W) : (forall w, probes (f w) ⊆ probes w) -> starts_none (io_do f).
Proof. intros Hf w. apply wp_modify, Hf. Qed.
Lemma none_ret {A} (a : A) : starts_none (ret a).
Proof. intros w. by apply wp_ret. Qed.
Lemma none_lift {A} (r : pyres A) : starts_none (lift r).
Proof. intros w. by apply wp_lift. Qed.

(** A block whose state is [R]: what runs is what ran before it, [mine s] and
    nothing else. *)
Definition owned (base mine : list Z) (w : W) : Prop := forall pid, pid ∈ probes w -> pid ∈ base \/ pid ∈ mine.

Lemma wp_none {R A} base mine (m : Hm (W := W) A) (Q : res exn A -> R * W -> Prop) (s : R * W) :
  starts_none m -> owned base mine s.2 -> (forall r w, owned base mine w -> Q r (s.1, w)) -> wp (on_host m) Q s.
Proof. intros Hm Ho HQ. apply wp_on_host. eapply wp_mono; [apply Hm|]. intros r w Hw. apply HQ. intros pid Hp. by apply Ho, Hw. Qed.

Lemma reap_child_spec base mine process (w : W) :
  owned base (process :: mine) w -> wp (reap_child process) (fun r w' => r = Ok tt /\ owned base mine w') w.
Proof.
  intros Ho. unfold reap_child. apply wp_bind, wp_io. intros code w1 E1. destruct (polled process w) as [P1 P2]. rewrite E1 in P1, P2. cbn in P1, P2.
  assert (Hend : forall w2, probes w2 ⊆ probes w -> process ∉ probes w2 ->
    wp (let! _ := io_res (u_wait process 5) in ret tt) (fun r w' => r = Ok tt /\ owned base mine w') w2).
  { intros w2 H2 Hn. apply wp_bind, wp_io_res. intros r w3 E3. destruct (waited process 5 w2) as [W1 W2]. destruct (W2 Hn) as [c Hc].
    rewrite E3 in W1, Hc. cbn in W1, Hc. subst r. apply wp_ret. split; [done|]. intros pid Hp. specialize (W1 _ Hp).
    destruct (Ho pid (H2 _ W1)) as [?|[->|?]%elem_of_cons]; [by left| |by right]. done. }
  apply wp_bind. destruct code as [c|].
  - rewrite bool_decide_eq_false_2 by done. apply wp_ret, Hend; [exact P1|by apply (P2 c)].
  - rewrite bool_decide_eq_true_2 by done. destruct (killed process w1) as [K1 K2]. apply wp_modify, Hend; [by transitivity (probes w1)|exact K2].
Qed.

Lemma reap_all base (l : list Z) {R} (s : R * W) :
  owned base l s.2 -> wp (for_do l (fun process => on_host (reap_child process))) (fun r s' => r = Ok tt /\ s'.1 = s.1 /\ owned base [] s'.2) s.
Proof.
  revert s. induction l as [|p l IH]; intros s Ho; cbn [for_do]; [by apply wp_ret|].
  apply wp_bind, wp_on_host. eapply wp_mono; [by apply reap_child_spec|]. intros r w' [-> Hw]. eapply wp_mono; [by apply IH|].
  intros r s' (-> & Hs & Hw'). by split_and!.
Qed.

Lemma owned_subset base (w w' : W) : probes w ⊆ base -> owned base [] w' -> probes w' ⊆ base.
Proof. intros _ Ho pid Hp. destruct (Ho pid Hp) as [?|?%elem_of_nil]; done. Qed.

Lemma finish_none process : starts_none (finish_probe (W := W) process).
Proof.
  unfold finish_probe. apply none_bind; [apply none_io_res, rest_inert|]. intros out. repeat (apply none_bind; [apply none_lift|intros ?]). apply none_ret.
Qed.

Lemma close_none s : starts_none (io_do (u_close s)).
Proof. apply none_do. intros w. apply sockets_inert. Qed.

(** A probe starts and is noted at once. *)
Lemma wp_started base (l : list Z) argv fd (s : list Z * W) (Q : res exn unit -> list Z * W -> Prop) :
  s.1 = l -> owned base l s.2 ->
  (forall r w l', (r = Ok tt -> length l' = S (length l)) -> owned base l' w -> Q r (l', w)) ->
  wp (let! process := on_host (io_res (u_spawn argv fd)) in amend (fun processes => processes ++ [process])) Q s.
Proof.
  intros Hl Ho HQ. apply wp_bind, wp_on_host, wp_io_res. intros r w1 E. pose proof (spawn_one argv fd s.2 r w1 E) as Hs.
  destruct r as [pid|e|]; [|by rewrite Hl; apply HQ; [done|intros q Hq; apply Ho, Hs]..].
  apply wp_amend. cbn [fst snd]. rewrite Hl. apply HQ; [intros _; rewrite length_app; cbn; lia|].
  intros q Hq. apply Hs, elem_of_cons in Hq as [->|Hq]; [right; rewrite elem_of_app; right; by apply list_elem_of_singleton|].
  destruct (Ho q Hq) as [?|?]; [by left|right; rewrite elem_of_app; by left].
Qed.

Lemma native_pair_spec binary directory options (w : W) :
  wp (native_pair binary directory options)
     (fun r w' => (r = OutOfFuel \/ probes w' ⊆ probes w) /\ (forall exits, r = Ok exits -> length exits = 2%nat)) w.
Proof.
  unfold native_pair.
  assert (Ho : owned (probes w) [] w) by (intros pid Hp; by left).
  apply wp_bind, wp_io_res. intros r w1 E1. assert (H1 : owned (probes w) [] w1).
  { destruct sockets_inert as (Hp & _). pose proof (Hp w) as Hw. rewrite E1 in Hw. intros pid Hq. by apply Ho, Hw. }
  assert (Hout : forall w' : W, owned (probes w) [] w' -> probes w' ⊆ probes w) by (intros w' Hw' pid Hp; by destruct (Hw' pid Hp) as [?|?%elem_of_nil]).
  destruct r as [ends|e|]; [|by (split; [right; apply Hout|])..]. cbv zeta.
  assert (Hset : forall s b, starts_none (io_do (u_setblocking s b))) by (intros s b; apply none_do; intros w'; apply sockets_inert).
  apply wp_bind. eapply wp_mono; [apply Hset|]. intros r w2 H2. assert (O2 : owned (probes w) [] w2) by (intros pid Hp; by apply H1, H2).
  destruct r as [[]|e|]; [|by (split; [right; apply Hout|])..].
  apply wp_bind. eapply wp_mono; [apply Hset|]. intros r w3 H3. assert (O3 : owned (probes w) [] w3) by (intros pid Hp; by apply O2, H3).
  destruct r as [[]|e|]; [|by (split; [right; apply Hout|])..].
  (* the block *)
  unfold with_report, wp.
  match goal with |- context [try_finally ?b ?f] => set (body := b); set (final := f) end.
  assert (Hbody : wp body (fun r s' => owned (probes w) s'.1 s'.2 /\ (forall exits, r = Ok exits -> length exits = 2%nat)) (([] : list Z), w3)).
  { subst body. cbn [for_do]. apply wp_bind, wp_bind. eapply (wp_started (probes w) []); [done|exact O3|]. intros r w4 l4 L4 O4.
    destruct r as [[]|e|]; [|done..]. specialize (L4 eq_refl). apply wp_bind. eapply (wp_started (probes w) l4); [done|exact O4|]. intros r w5 l5 L5 O5.
    destruct r as [[]|e|]; [|done..]. specialize (L5 eq_refl). apply wp_ret.
    apply wp_bind. eapply (wp_none (probes w) l5); [apply close_none|exact O5|]. intros r w6 O6. destruct r as [[]|e|]; [|done..].
    apply wp_bind. eapply (wp_none (probes w) l5); [apply close_none|exact O6|]. intros r w7 O7. destruct r as [[]|e|]; [|done..].
    apply wp_bind, wp_gets. cbn [fst].
    destruct l5 as [|p1 [|p2 [|]]]; cbn [length] in *; try lia. cbn [for_each].
    apply wp_bind, wp_bind. eapply (wp_none (probes w) [p1; p2]); [apply finish_none|exact O7|]. intros r w8 O8. destruct r as [x1|e|]; [|done..]. apply wp_ret.
    apply wp_bind, wp_bind. eapply (wp_none (probes w) [p1; p2]); [apply finish_none|exact O8|]. intros r w9 O9. destruct r as [x2|e|]; [|done..]. apply wp_ret, wp_ret.
    split; [exact O9|]. by intros exits [= <-]. }
  assert (Hfinal : forall s' : list Z * W, owned (probes w) s'.1 s'.2 -> wp final (fun r s'' => owned (probes w) [] s''.2) s').
  { intros [l w'] O4. subst final. cbn [fst snd] in O4.
    assert (Hc : forall k (s' : list Z * W) (Q : res exn unit -> list Z * W -> Prop),
       owned (probes w) s'.1 s'.2 -> (forall w'', owned (probes w) s'.1 w'' -> Q (Ok tt) (s'.1, w'')) -> wp (on_host (io_do (u_close k))) Q s').
    { intros k s' Q Hs HQ. apply wp_on_host, wp_modify, HQ. intros pid Hp. apply Hs. destruct sockets_inert as (_ & _ & _ & Hcl & _). by apply (Hcl k). }
    apply wp_bind, Hc; [exact O4|]. intros w5 O5. apply wp_bind, Hc; [exact O5|]. intros w6 O6.
    apply wp_bind, wp_gets. cbn [fst]. eapply wp_mono; [by apply reap_all|]. intros r s' (_ & _ & O7). exact O7. }
  assert (Hall : wp (try_finally body final)
    (fun r s' => (r = OutOfFuel \/ probes s'.2 ⊆ probes w) /\ (forall exits, r = Ok exits -> length exits = 2%nat)) (([] : list Z), w3)).
  { apply wp_try_finally. eapply wp_mono; [exact Hbody|]. intros r s' [Ob Hl].
    destruct r as [exits|e|]; [| |by split; [left|]]; (eapply wp_mono; [by apply Hfinal|]); intros [?|?|] s'' Of; (split; [right; by apply Hout|]); auto; done. }
  unfold wp in Hall. destruct (try_finally body final ([], w3)) as [r s']. exact Hall.
Qed.

(** Blocks that start nothing. *)
Definition silent_block {R A} (m : Sc (W := W) R A) : Prop := forall (s : R * W), wp m (fun _ s' => probes s'.2 ⊆ probes s.2) s.
Lemma silent_bind {R A B} (m : Sc (W := W) R A) (f : A -> Sc R B) : silent_block m -> (forall a, silent_block (f a)) -> silent_block (bind m f).
Proof.
  intros Hm Hf s. apply wp_bind. eapply wp_mono; [apply Hm|]. intros [a|e|] s1 H1; [|done..].
  eapply wp_mono; [apply Hf|]. intros r s2 H2. by transitivity (probes s1.2).
Qed.
Lemma silent_host {R A} (m : Hm (W := W) A) : starts_none m -> silent_block (R := R) (on_host m).
Proof. intros Hm s. apply wp_on_host. eapply wp_mono; [apply Hm|]. done. Qed.
Lemma silent_res {R A} (f : W -> pyres A * W) : inert f -> silent_block (R := R) (on_host (io_res f)).
Proof. intros Hf. by apply silent_host, none_io_res. Qed.
Lemma silent_ret {R A} (a : A) : silent_block (R := R) (ret a).
Proof. intros s. by apply wp_ret. Qed.
Lemma silent_reported {R} : silent_block (R := R) reported.
Proof. intros s. by apply wp_gets. Qed.
Lemma silent_amend {R} f : silent_block (R := R) (amend f).
Proof. intros s. by apply wp_amend. Qed.
Lemma silent_lift {R A} (r : pyres A) : silent_block (R := R) (lift r).
Proof. intros s. by apply wp_lift. Qed.
Lemma silent_for {R A} (l : list A) (body : A -> Sc R unit) : (forall x, silent_block (body x)) -> silent_block (for_do l body).
Proof. intros Hb. induction l as [|x l IH]; cbn [for_do]; [apply silent_ret|apply silent_bind; [apply Hb|intros _; exact IH]]. Qed.
Lemma silent_while {R A} fuel (body : A -> Sc R (A + A)) acc : (forall x, silent_block (body x)) -> silent_block (while_loop fuel body acc).
Proof.
  intros Hb. revert acc. induction fuel as [|fuel IH]; intros acc; cbn [while_loop]; [apply silent_lift|].
  apply silent_bind; [apply Hb|]. intros [x|x]; [apply IH|apply silent_ret].
Qed.
Lemma silent_except {R A} (m : Sc R A) h : silent_block m -> (forall e k, h e = Some k -> silent_block k) -> silent_block (try_except m h).
Proof.
  intros Hm Hh s. apply wp_try_except. eapply wp_mono; [apply Hm|]. intros [x|e|] s1 H1; [done| |done].
  destruct (h e) as [k|] eqn:E; [|done]. eapply wp_mono; [by apply (Hh e)|]. intros r s2 H2. by transitivity (probes s1.2).
Qed.

Lemma silent_traffic directory mode : silent_block (peer_traffic directory mode).
Proof.
  destruct sockets_inert as (_ & _ & _ & _ & Hsend & Hshut & Hrecv). destruct tls_inert as (Hver & Hchain & Hwrap).
  unfold peer_traffic. apply silent_bind; [apply silent_reported|intros st]. cbv zeta. destruct (pyeqb mode _).
  { apply silent_bind; [apply silent_res, Hsend|intros _]. apply silent_bind; [apply silent_res, Hshut|intros _; apply silent_ret]. }
  destruct (pyeqb mode _); [apply silent_ret|]. apply silent_bind.
  { apply silent_host. unfold peer_context. cbv zeta. apply none_bind; [apply none_io_res, Hver|intros _]. apply none_bind; [|intros chain; apply none_ret].
    destruct (pyeqb mode _); [apply none_ret|]. apply none_bind; [apply none_io_res, Hchain|intros _; apply none_ret]. }
  intros context. apply silent_except; [|intros e k; destruct (isinstance e _); [intros [= <-]; apply silent_ret|done]].
  apply silent_bind; [apply silent_res, Hwrap|intros wrapped]. apply silent_bind; [apply silent_amend|intros _].
  apply silent_bind; [|intros _; apply silent_ret]. unfold exchange_bytes. apply silent_bind; [apply silent_for; intros byte; apply silent_res, Hsend|intros _].
  apply silent_while. intros []. apply silent_bind; [apply silent_reported|intros st2]. destruct (4 <=? _); [apply silent_ret|].
  apply silent_bind; [apply silent_res, Hrecv|intros chunk]. destruct (bool_decide _); [apply silent_ret|].
  apply silent_bind; [apply silent_amend|intros _; apply silent_ret].
Qed.

Lemma python_peer_spec binary directory mode (w : W) :
  wp (python_peer binary directory mode) (fun r w' => r = OutOfFuel \/ probes w' ⊆ probes w) w.
Proof.
  unfold python_peer. destruct sockets_inert as (Hpair & Hset & Htime & Hclose & _). destruct rest_inert as (Hcomm & Hclock).
  apply wp_bind, wp_io_res. intros r w1 E1. pose proof (Hpair w) as S1. rewrite E1 in S1. destruct r as [ends|e|]; [|by right..]. cbv zeta.
  apply wp_bind, wp_modify, wp_bind, wp_modify. set (w3 := u_settimeout _ _ _). assert (S3 : probes w3 ⊆ probes w).
  { transitivity (probes (u_setblocking ends.1 false w1)); [apply Htime|]. transitivity (probes w1); [apply Hset|exact S1]. }
  apply wp_bind, wp_io_res. intros r w4 E4. pose proof (spawn_one _ _ _ r w4 E4) as S4. destruct r as [process|e|]; [|right; by transitivity (probes w3)..].
  apply wp_bind, wp_modify, wp_bind, wp_io. intros started w6 E6. pose proof (Hclock (u_close ends.1 w4)) as S6. rewrite E6 in S6. cbn [snd] in S6.
  assert (O6 : owned (probes w) [process] w6).
  { intros pid Hp. apply S6 in Hp. apply Hclose in Hp. apply S4, elem_of_cons in Hp as [->|Hp]; [right; by left|left; by apply S3]. }
  match goal with |- context [try_finally ?b ?f] => set (body := b); set (final := f) end.
  assert (Hbody : silent_block body).
  { subst body. apply silent_bind; [apply silent_traffic|intros error]. apply silent_bind; [apply silent_res, Hcomm|intros out].
    apply silent_bind; [apply silent_reported|intros st]. do 2 (apply silent_bind; [apply silent_lift|intros ?]).
    apply silent_bind; [apply silent_host, none_io, Hclock|intros t]. apply silent_ret. }
  assert (Hfinal : forall s : (Z * list Z) * W, owned (probes w) [process] s.2 -> wp final (fun r s' => probes s'.2 ⊆ probes w) s).
  { intros s Hs. subst final. apply wp_bind, wp_gets, wp_bind, wp_on_host, wp_modify. cbn [fst snd]. apply wp_on_host.
    eapply wp_mono; [apply (reap_child_spec (probes w) []); intros pid Hp; cbn [snd] in Hp; by apply Hs, (Hclose s.1.1)|].
    cbn [snd]. intros r w' [_ Hw]. intros pid Hp. by destruct (Hw pid Hp) as [?|?%elem_of_nil]. }
  assert (Hall : wp (try_finally body final) (fun r s' => r = OutOfFuel \/ probes s'.2 ⊆ probes w) ((ends.2, []), w6)).
  { apply wp_try_finally. eapply wp_mono; [apply Hbody|]. cbn [snd]. intros r s' Hs.
    assert (Os : owned (probes w) [process] s'.2) by (intros pid Hp; by apply O6, Hs).
    destruct r as [p|e|]; [| |by left]; (eapply wp_mono; [by apply Hfinal|]); intros [?|?|] s'' Hf; by right. }
  unfold wp in *. destruct (try_finally body final _) as [r s']. exact Hall.
Qed.
End Reaped.

(** The names of the cases, in order. *)
Definition case_names : list pystr := ((fun '(name, _, _) => py name) <$> native_cases) ++ (py <$> peer_modes).

(** What a case that passed showed: both ends of an accepted pairing exit with 0
    and both of a refused one with 1; the probe answers pong to Python's end, or
    exits with 1 before its time without doing so. *)
Definition shows (c : Checked) : Prop :=
  match ck_result c with
  | Processes exits => exists code, (e_code <$> exits) = [code; code] /\ code = (if pyeqb (ck_name c) (py "native_mutual_tls13") then 0 else 1)
  | PeerResult p => if pyeqb (ck_name c) (py "fragmented") then e_code (pr_exit p) = 0 /\ pr_reply p = py "pong"
                    else e_code (pr_exit p) = 1 /\ pr_reply p <> py "pong" /\ (pr_seconds p < 7)%Q
  end.

Definition labelled (x : string * Options * bool) : Prop := x.2 = pyeqb (py x.1.1) (py "native_mutual_tls13").

Lemma native_shows name options accepted exits :
  labelled (name, options, accepted) -> length exits = 2%nat ->
  native_passed accepted exits = true -> shows (mkChecked (py name) (native_passed accepted exits) (Processes exits)).
Proof.
  intros Hl Hlen Hp. unfold shows. cbn [ck_result ck_name]. unfold labelled in Hl. cbn [fst snd] in Hl. rewrite <-Hl. exists (if accepted then 0 else 1). split; [|done].
  destruct exits as [|x [|y [|]]]; try done. unfold native_passed in Hp. cbn [forallb] in Hp. unbool. cbn. congruence.
Qed.

Lemma peer_shows mode p : peer_passed mode p = true -> shows (mkChecked mode (peer_passed mode p) (PeerResult p)).
Proof.
  unfold shows, peer_passed. cbn [ck_result ck_name]. destruct (pyeqb mode _); intros Hp; unbool.
  - split; [lia|by apply pyeqb_eq].
  - split_and!; [lia| |].
    + intros E. rewrite E, pyeqb_refl in *. done.
    + apply Qnot_le_lt. intros Hle. apply Qle_bool_iff in Hle. congruence.
Qed.

Lemma run_cases_returns {W} `{PairingLaws W} binary directory :
  returns (run_cases (W := W) binary directory)
    (fun cases => ck_name <$> cases = case_names /\ Forall (fun c => ck_passed c = true -> shows c) cases).
Proof.
  unfold run_cases.
  pose (goods := fun (names : list pystr) (cases : list Checked) => ck_name <$> cases = names /\ Forall (fun c => ck_passed c = true -> shows c) cases).
  assert (Hadd : forall names cases c, goods names cases -> (ck_passed c = true -> shows c) -> goods (names ++ [ck_name c]) (cases ++ [c])).
  { intros names cases c [Hn Hs] Hc. split; [by rewrite fmap_app, Hn|]. apply Forall_app. split; [done|]. by constructor. }
  eapply (returns_bind (goods ((fun '(name, _, _) => py name) <$> native_cases))).
  - apply (returns_for_each (fun pre cases => Forall labelled pre -> goods ((fun '(name, _, _) => py name) <$> pre) cases)).
    + intros _. by split.
    + intros pre [[name options] accepted] cases Hg. eapply (returns_bind (fun exits => length exits = 2%nat)).
      { intros w. eapply wp_mono; [apply native_pair_spec|]. by intros r w' [_ Hr]. }
      intros exits Hlen. apply returns_ret. intros [Hpre Hx]%Forall_app. rewrite fmap_app. cbn [fmap list_fmap].
      apply (Hadd _ _ (mkChecked (py name) (native_passed accepted exits) (Processes exits))); [by apply Hg|].
      inversion Hx. by apply (native_shows name options).
    + intros cases Hg. apply Hg. unfold native_cases, labelled. repeat constructor.
  - intros cases Hc. apply (returns_for_each (fun pre cases => goods (((fun '(name, _, _) => py name) <$> native_cases) ++ (py <$> pre)) cases)).
    + by rewrite app_nil_r.
    + intros pre mode acc Hg. apply returns_then. intros p. apply returns_ret. rewrite fmap_app, app_assoc.
      apply (Hadd _ _ (mkChecked (py mode) (peer_passed (py mode) p) (PeerResult p))); [exact Hg|]. apply peer_shows.
    + done.
Qed.

(** C37: check_mtls.py leaves no probe running, however its cases end; and when
    they all return, they are the fifteen cases in order, each of which passes
    only if it shows what it must: acceptance of the right peer by both ends, or
    refusal by both. *)
Theorem mtls_cases {W} `{PairingLaws W} binary directory (w : W) :
  wp (run_cases binary directory)
     (fun r w' => (r = OutOfFuel \/ probes w' ⊆ probes w) /\
        (forall cases, r = Ok cases -> ck_name <$> cases = case_names /\ Forall (fun c => ck_passed c = true -> shows c) cases)) w.
Proof.
  apply wp_and; [|apply run_cases_returns]. unfold run_cases.
  assert (Hk : forall A (m : Hm (W := W) A) (w1 : W), wp m (fun r w' => r = OutOfFuel \/ probes w' ⊆ probes w1) w1 -> probes w1 ⊆ probes w ->
    forall (f : A -> list Checked), wp (let! x := m in ret (f x)) (fun r w' => match r with OutOfFuel => True | _ => probes w' ⊆ probes w end) w1).
  { intros A m w1 Hm H1 f. apply wp_bind. eapply wp_mono; [exact Hm|]. intros [x|e|] w' [Hr|Hr]; try done; [apply wp_ret|]; by transitivity (probes w1). }
  assert (Hout : forall (r : res exn (list Checked)) (w' : W), match r with OutOfFuel => True | _ => probes w' ⊆ probes w end -> r = OutOfFuel \/ probes w' ⊆ probes w).
  { intros [?|?|] w' Hr; [by right|by right|by left]. }
  apply wp_bind. eapply (wp_for_each (fun _ w' => probes w' ⊆ probes w)); [done| |].
  - intros [[name options] accepted] cases w1 _ H1. eapply wp_mono; [apply Hk; [|exact H1]|].
    + eapply wp_mono; [apply native_pair_spec|]. by intros r w' [Hr _].
    + intros [x|e|] w' Hr; [done|by right|by left].
  - intros cases w1 H1. eapply (wp_for_each (fun _ w' => probes w' ⊆ probes w)); [done| |by right].
    intros mode acc w2 _ H2. eapply wp_mono; [apply Hk; [apply python_peer_spec|exact H2]|].
    intros [x|e|] w' Hr; [done|by right|by left].
Qed.

Module MtlsDemo.
(** Probes that exit with 1 when they are asked for their output; the world is
    the next process number and the probes running. *)
Definition World : Type := Z * list Z.
#[local] Instance demo_host : Host World := quiet_host (fun w => (0%Q, w)) (fun _ w => w) (fun _ => None) true.
#[local] Instance demo_env : Env World := {
  monotonic w := (0%Q, w); sleep _ w := w; token_hex16 w := ([], w); exchange _ _ _ w := (Raise (ConnectionError []), w); tclose w := w
}.
#[local] Instance demo_service : Service World := {
  v_host := demo_host; v_env := demo_env; v_spawn _ _ w := (Ok 1, w); v_poll _ w := (None, w); v_kill _ w := w;
  v_terminate _ w := w; v_wait _ _ w := (Ok 0, w); v_port w := (Ok 1, w); v_chmod _ _ w := w; v_seed _ w := w;
  v_random w := (0%Q, w); v_randrange _ w := (0, w)
}.
Definition ended (pid : Z) (w : World) : World := (w.1, filter (fun p => p <> pid) w.2).
#[local] Instance demo_pairing : Pairing World := {
  u_service := demo_service; u_socketpair w := (Ok (3, 4), w); u_setblocking _ _ w := w; u_settimeout _ _ w := w; u_close _ w := w;
  u_sendall _ _ w := (Ok tt, w); u_shutdown _ w := (Ok tt, w); u_recv _ _ w := (Ok [], w); u_fileno s := s;
  u_spawn _ _ w := (Ok w.1, (w.1 + 1, w.1 :: w.2)); u_communicate pid _ w := (Ok (1, [], []), ended pid w);
  u_poll pid w := (if bool_decide (pid ∈ w.2) then None else Some 1, w); u_kill := ended; u_wait pid _ w := (Ok 1, w);
  u_load_verify _ w := (Ok tt, w); u_load_chain _ _ w := (Ok tt, w); u_wrap s _ _ w := (Ok s, w); u_openssl_version := py "OpenSSL"
}.
Lemma ended_subset pid w : (ended pid w).2 ⊆ w.2.
Proof. intros p Hp. cbn in Hp. by apply list_elem_of_filter in Hp as [_ ?]. Qed.
#[local] Instance demo_laws : PairingLaws World.
Proof.
  refine {| probes := snd |}.
  - intros argv fd w r w' [= <- <-]. done.
  - intros pid w. split; [done|]. intros code. cbn. case_bool_decide; done.
  - intros pid w. split; [apply ended_subset|]. cbn. rewrite list_elem_of_filter. by intros [? _].
  - intros pid t w. split; [done|]. intros _. by exists 1.
  - split_and!; done.
  - split_and!; done.
  - split; [intros pid t w; apply ended_subset|done].
Defined.

(** Four of the five modes refuse as they must; nothing is left running. *)
Lemma mtls_cases_witness :
  (let '(r, w) := run_cases (W := World) (py "probe") (py "/tmp") (1, []) in
   match r with Ok cases => ck_passed <$> cases | _ => [] end = (false :: replicate 9 true) ++ [false; true; true; true; true] /\ w.2 = []) /\
  wp (run_cases (W := World) (py "probe") (py "/tmp"))
     (fun r w' => (r = OutOfFuel \/ probes w' ⊆ []) /\
        (forall cases, r = Ok cases -> ck_name <$> cases = case_names /\ Forall (fun c => ck_passed c = true -> shows c) cases)) (1, []).
Proof. split; [vm_compute; split; reflexivity|]. exact (mtls_cases (py "probe") (py "/tmp") (1, [])). Defined.
End MtlsDemo.
