(* ===== verification/Qualify.v ===== *)
(** * tools/qualify_native_workloads.py: the coverage matrix

    Thirty-two workload cases in a shuffled order, each calibrated
    (calibrate_native_mixed.py) by a process of its own under a watchdog; every
    sample is kept, and the report is complete only if every case passed. *)

From Stdlib Require Import QArith.
From S2P Require Import Prelude PyStr PyFloat Objects Json Vector Text Net Dict Host Random Script Mixed Returns.
#[local] Open Scope Z_scope.

(** ** matrix *)

Definition planned_case (clients reads payload statements rows : Z) (skew : bool) (rate seed : Z) : Case :=
  mkCase clients reads payload statements rows skew seed rate.
Definition SEED : Z := 20260925.

(** [add(...)] of every row, in the order of the loops. *)
Definition planned : list Case :=
  ([1; 8; 32; 64] ≫= fun clients => (fun reads => planned_case clients reads 256 1 1 false 0 SEED) <$> [70; 50; 95; 0])
  ++ ([8; 64] ≫= fun clients => (fun '(statements, rows) => planned_case clients 70 4096 statements rows false 0 SEED) <$> [(1, 1); (4, 2); (8, 4)])
  ++ ((fun reads => planned_case 32 reads 4096 8 4 true 0 SEED) <$> [70; 50; 95; 0])
  ++ ([20260926; 20260927] ≫= fun seed => (fun reads => planned_case 64 reads 256 1 1 false 0 seed) <$> [70; 0])
  ++ [planned_case 64 70 256 1 1 false 3000 SEED; planned_case 64 0 256 1 1 false 1000 SEED].

(** [random.Random(20260925).shuffle(cases)] *)
Definition matrix : pyres (list Case) := (shuffle draw_fuel planned (Random_new SEED)).1.

(** The parameters of a case, as its dictionary lists them. *)
Definition case_items (case : Case) : list (string * pyval) :=
  [("clients", PInt (k_clients case)); ("reads", PInt (k_read_percent case)); ("payload", PInt (k_payload case));
   ("statements", PInt (k_statements case)); ("rows", PInt (k_rows case)); ("skew", PBool (k_skew case));
   ("rate", PInt (k_rate case)); ("seed", PInt (k_seed case))]%string.
Definition case_data (case : Case) : tv := J (PDict (mkdict (case_items case))).
Definition item_text (v : pyval) : pystr := match v with PInt n => dec n | PBool true => py "True" | PBool false => py "False" | _ => [] end.
Definition case_repr (case : Case) : pystr :=
  py "{" ++ join (py ", ") ((fun '(k, v) => py "'" ++ py k ++ py "': " ++ item_text v) <$> case_items case) ++ py "}".

(** The arguments of a case: [--skew] alone, or a name with its value. *)
Definition case_arguments (case : Case) : list pystr :=
  case_items case ≫= (fun '(k, v) =>
    if String.eqb k "skew" then match v with PBool true => [py "--skew"] | _ => [] end
    else [py "--" ++ py k; item_text v]).

(** ** run_bounded *)

(** A child in a session of its own: [Popen(..., start_new_session=True)],
    [communicate(timeout)] with the return code, [os.killpg]. *)
Class Sessions (W : Type) := {
  z_host :: Host W;
  z_spawn : list pystr -> W -> pyres Z * W;
  z_communicate : Z -> Q -> W -> pyres (Z * pystr) * W;
  z_killpg : Z -> bool -> W -> pyres unit * W;  (** [true] for SIGKILL *)
  z_executable : pystr;
  (** [path.mkdir(exist_ok=False)], failing when it exists, and [path.read_bytes()] is the host's *)
  z_mkdir : pystr -> W -> pyres unit * W
}.

Record Execution := mkExecution { ex_code : Z; ex_seconds : Q; ex_output : pystr; ex_expired : bool }.

Section Qualify.
Context {W : Type} `{Sessions W}.
Abbreviation K := (Sc (W := W) report).

Definition timed_out {A} (handler : Hm (W := W) A) (e : exn) : option (Hm A) :=
  match e with TimeoutExpired _ => Some handler | _ => None end.

Definition run_bounded (command : list pystr) (timeout : Q) : Hm (W := W) Execution :=
  let! started := io h_monotonic in
  let! child := io_res (z_spawn command) in
  let finish (expired : bool) (out : Z * pystr) := (
    let! t := io h_monotonic in ret (mkExecution out.1 (t - started)%Q out.2 expired)) in
  try_except (let! out := io_res (z_communicate child timeout) in finish false out)
    (timed_out (
      do! io_res (z_killpg child false);;
      let! out :=
        try_except (io_res (z_communicate child 5))
          (timed_out (do! io_res (z_killpg child true);; io_res (z_communicate child 5))) in
      finish true out)).

Definition execution_data (e : Execution) : tv :=
  Obj (fields [("exit_code", tint (ex_code e)); ("seconds", Num (ex_seconds e)); ("output", tstr (ex_output e))]%string
       ++ if ex_expired e then fields [("error"%string, tstr (py "bounded case watchdog expired"))] else []).

(** ** main *)

Record QualifyArgs := mkQualifyArgs { qa_binary : pystr; qa_output : pystr; qa_library : pystr; qa_operations : Z; qa_fixture : bool }.

Definition fixture : list Case := [planned_case 8 70 4096 8 4 true 100 SEED].
Definition chosen_cases (args : QualifyArgs) : pyres (list Case) := if qa_fixture args then let? _ := matrix in Ok fixture else matrix.

Definition two_digits (n : Z) : pystr := (if (0 <=? n) && (n <? 10) then py "0" else []) ++ dec n.
Definition sample_path (args : QualifyArgs) (number : Z) : pystr :=
  join_path (with_suffix (qa_output args) []) (fstr [L "case-"; T (two_digits number); L ".json"]).

Definition case_command (ROOT : pystr) (args : QualifyArgs) (case : Case) (output : pystr) : Hm (W := W) (list pystr) :=
  let! binary := gets (h_resolve (qa_binary args)) in
  let! output := gets (h_resolve output) in
  let! library := gets (h_resolve (qa_library args)) in
  ret ([z_executable; join_path ROOT (py "tools/calibrate_native_mixed.py"); py "--binary"; binary; py "--output"; output;
        py "--sqlite-group"; py "16"; py "--io-profile-library"; library; py "--operations"; dec (qa_operations args)] ++ case_arguments case).

(** The last entry of [report['cases']]. *)
Definition entry_note (kvs : list (string * tv)) : K unit := amend (rupdate_last "cases" kvs).

(** [native['per_second']/reference['per_second']] *)
Definition quotient (a b : pyval) : pyres Q :=
  let? x := vnum a in let? y := vnum b in
  if Qeq_bool y 0 then Raise (ZeroDivisionError "float division by zero") else Ok (x / y)%Q.

Definition summary_of (raw : pyval) : pyres tv :=
  let? cases := vget "cases" raw in
  let? result := vindex 0 cases in
  let? native := vget "sqlodin" result in
  let? reference := vget "sqlite" result in
  let? native_tps := vget "per_second" native in
  let? sqlite_tps := vget "per_second" reference in
  let? fraction := quotient native_tps sqlite_tps in
  let? latency := vget "latency_ms" native in
  let? basis := vget "latency_basis" native in
  let? completed := vget "completed" native in
  let? offered := vget "offered" native in
  let? errors := vget "errors" native in
  let? resolved := vget "resolved_unknown" native in
  Ok (Obj (fields [("native_tps", J native_tps); ("sqlite_tps", J sqlite_tps); ("sqlite_fraction", Num fraction);
    ("latency", J latency); ("latency_basis", J basis); ("completed", J completed); ("offered", J offered); ("errors", J errors);
    ("resolved_unknown", J resolved)]%string)).

(** [raw.get('complete', False) and exit_code == 0], as the value kept. *)
Definition passed_value (complete : pyval) (code : Z) : pyval := if truthy complete then PBool (code =? 0) else complete.

Definition save (args : QualifyArgs) : K unit :=
  let! rep := reported in on_host (save_json false (qa_output args) (Obj rep)).

Definition qualify_case (ROOT : pystr) (args : QualifyArgs) (count number : Z) (case : Case) : K unit :=
  let output := sample_path args number in
  let! command := on_host (case_command ROOT args case output) in
  do! amend (rappend "cases" (Obj (fields [("parameters", case_data case); ("command", Arr (tstr <$> command)); ("sample", tstr output)]%string)));;
  let! execution := on_host (run_bounded command 900) in
  do! entry_note [("execution", execution_data execution); ("passed", tbool false)]%string;;
  let! there := on_host (io (h_exists output)) in
  let! passed := (if (there : bool) then
      let! raw := on_host (read_json output) in
      let! digest := on_host (file_sha256 output) in
      do! entry_note [("sample_sha256"%string, tstr digest)];;
      let! complete := lift (vget_or "complete" (PBool false) raw) in
      let passed := passed_value complete (ex_code execution) in
      do! entry_note [("passed"%string, J passed)];;
      do! (if truthy passed then let! summary := lift (summary_of raw) in entry_note [("summary"%string, summary)] else ret tt);;
      ret passed
    else ret (PBool false)) in
  do! on_host (print_line (fstr [L (if truthy passed then "PASS" else "FAIL"); L " matrix case "; D (number + 1); L "/"; D count; L " "; T (case_repr case)]));;
  save args.

(** [all(c['passed'] for c in report['cases'])] *)
Definition entry_passed (entry : tv) : bool :=
  match entry with Obj d => match rget "passed" d with Some (J x) => truthy x | _ => false end | _ => false end.
Definition entries_of (r : report) : list tv := match rget "cases" r with Some (Arr l) => l | _ => [] end.

Definition harness_files : list string :=
  ["qualify_native_workloads.py"; "calibrate_native_mixed.py"; "sqlite_group_reference.py"; "sqlite_reference_worker.py"]%string.
Definition originals : tv :=
  Obj (fields [("mixed_tps", tint 3000); ("write_tps", tint 1000); ("read_p99_ms", tint 20); ("write_p99_ms", tint 50); ("sqlite_fraction", Num (1 # 4))]%string).

Definition first_report (ROOT : pystr) (args : QualifyArgs) (count : Z) : Hm (W := W) report :=
  let! binary := file_sha256 (qa_binary args) in
  let! harness := for_each harness_files (fun name acc =>
    let! digest := file_sha256 (join_path (join_path ROOT (py "tools")) (py name)) in ret (acc ++ [(name, tstr digest)])) [] in
  let! library := file_sha256 (qa_library args) in
  ret (fields [("complete", tbool false); ("fixture_only", tbool (qa_fixture args)); ("cases", Arr []); ("planned", tint count);
    ("scope", tstr (py "coverage matrix, not a full factorial; on-disk FULL, all-voter entry, bounded grouping"));
    ("originals", originals); ("binary_sha256", tstr binary); ("harness_sha256", Obj (fields harness)); ("io_library_sha256", tstr library)]%string).

Definition numbered {A} (l : list A) : list (Z * A) := zip (Z.of_nat <$> seq 0 (length l)) l.

Definition qualify_report (ROOT : pystr) (args : QualifyArgs) : K unit :=
  let! there := on_host (io (h_exists (qa_output args))) in
  do! lift (guard (there || negb ((10 <=? qa_operations args) && (qa_operations args <=? 1000))) (AssertionError ""));;
  let! cases := lift (chosen_cases args) in
  do! on_host (io_res (z_mkdir (with_suffix (qa_output args) [])));;
  let! initial := on_host (first_report ROOT args (zlen cases)) in
  do! amend (fun _ => initial);;
  do! try_finally (
    do! for_do (numbered cases) (fun '(number, case) => qualify_case ROOT args (zlen cases) number case);;
    amend (fun rep => rupdate [("complete", tbool (forallb entry_passed (entries_of rep))); ("targets_evaluated_separately", tbool true)]%string rep))
    (save args);;
  let! rep := reported in
  if match rget "complete" rep with Some (J x) => truthy x | _ => false end then ret tt
  else throw (SystemExit (py "Workload matrix contains failed samples; inspect retained evidence")).

Definition qualify_main (ROOT : pystr) (args : QualifyArgs) : Hm (W := W) unit := with_report [] (qualify_report ROOT args).
End Qualify.

(** * What the coverage matrix plans and what its report may claim *)

(** The arguments calibrate_native_mixed.py accepts. *)
Definition calibratable (c : Case) : bool :=
  (1 <=? k_clients c) && (k_clients c <=? 64) && (0 <=? k_read_percent c) && (k_read_percent c <=? 100)
  && ((k_payload c =? 256) || (k_payload c =? 4096)) && (1 <=? k_statements c) && (k_statements c <=? 8)
  && (1 <=? k_rows c) && (k_rows c <=? 4) && (1024 mod k_rows c =? 0) && (0 <=? k_rate c) && (k_rate c <=? 10000).

#[local] Instance case_eq_dec : EqDecision Case.
Proof. solve_decision. Defined.

Lemma planned_nodup : NoDup planned.
Proof. apply (bool_decide_unpack _). vm_compute. exact I. Qed.

Lemma planned_calibratable : Forall (fun c => calibratable c = true) planned.
Proof. apply (bool_decide_unpack _). vm_compute. exact I. Qed.

Lemma matrix_runs : match matrix with Ok l => bool_decide (length l = 32%nat) | _ => false end = true.
Proof. vm_compute. reflexivity. Qed.

(** The coverage matrix is the plan in another order: whatever the shuffle
    draws it loses and repeats nothing, so that the thirty-two cases are distinct,
    hold every client count with every read percentage, and are cases
    calibrate_native_mixed.py accepts and whose rows divide the table. *)
Theorem matrix_plan :
  exists cases, matrix = Ok cases /\ cases ≡ₚ planned /\ NoDup cases /\ length cases = 32%nat /\
    Forall (fun c => calibratable c = true) cases /\
    (forall clients reads, clients ∈ [1; 8; 32; 64] -> reads ∈ [70; 50; 95; 0] ->
       planned_case clients reads 256 1 1 false 0 SEED ∈ cases).
Proof.
  pose proof matrix_runs as Hr. unfold matrix in *.
  assert (Hw : wp (shuffle draw_fuel planned) (fun r _ => forall l, r = Ok l -> l ≡ₚ planned) (Random_new SEED)).
  { apply wp_shuffle; [apply Random_new_wf|by intros l' g' Hp _ l [= <-]|done]. }
  unfold wp in Hw. destruct (shuffle draw_fuel planned (Random_new SEED)) as [[l|e|] g]; cbn [fst] in *; [|done..]. specialize (Hw l eq_refl).
  exists l. split; [done|]. split; [done|]. split; [rewrite Hw; apply planned_nodup|]. split; [by unbool|].
  split; [rewrite Hw; apply planned_calibratable|]. intros clients reads Hc Hp. rewrite Hw. unfold planned. rewrite !elem_of_app. left.
  apply list_elem_of_bind. exists clients. split; [|done]. apply list_elem_of_fmap. by exists reads.
Qed.

(** ** The report *)

Section Sound.
Context {W : Type} `{Sessions W}.
Abbreviation St := (report * W)%type.

(** An entry of the report for a case: if it passed, its process exited with 0. *)
Definition entry_for (case : Case) (entry : tv) : Prop :=
  exists d, entry = Obj d /\ rget "parameters" d = Some (case_data case) /\
    (entry_passed entry = true -> exists e, rget "execution" d = Some (execution_data e) /\ ex_code e = 0).
Definition complete_of (r : report) : option tv := rget "complete" r.

(** The report holds the entries of these cases and makes no claim yet. *)
Definition holds (cases : list Case) (r : report) : Prop :=
  (exists l, rget "cases" r = Some (Arr l) /\ Forall2 entry_for cases l) /\ complete_of r <> Some (tbool true).

(** The entry in hand, after the entries of the cases done. *)
Definition in_hand (done : list Case) (case : Case) (P : report -> Prop) (r : report) : Prop :=
  (exists l d, rget "cases" r = Some (Arr (l ++ [Obj d])) /\ Forall2 entry_for done l /\ rget "parameters" d = Some (case_data case) /\ P d) /\
  complete_of r <> Some (tbool true).

Lemma rupdate_last_note kvs r l d :
  rget "cases" r = Some (Arr (l ++ [Obj d])) -> rget "cases" (rupdate_last "cases" kvs r) = Some (Arr (l ++ [Obj (rupdate kvs d)])).
Proof.
  intros Hr. unfold rupdate_last. rewrite Hr, last_snoc, length_app, take_app_le by (cbn; lia). cbn [length].
  rewrite Nat.add_sub, firstn_all. unfold rget. by rewrite dget_dset, decide_True.
Qed.
Lemma rupdate_last_complete kvs r : complete_of (rupdate_last "cases" kvs r) = complete_of r.
Proof.
  unfold rupdate_last. destruct (rget "cases" r) as [[| |l|]|]; try done. destruct (last l) as [[| | |d]|]; try done.
  unfold complete_of, rget. by rewrite dget_dset, decide_False.
Qed.

Lemma in_hand_note done case (P Q : report -> Prop) kvs (s : St) (R : res exn unit -> St -> Prop) :
  forallb (fun '(k, _) => negb (pyeqb (py k) (py "parameters"))) kvs = true ->
  (forall d, P d -> Q (rupdate kvs d)) -> in_hand done case P s.1 ->
  (forall s' : St, in_hand done case Q s'.1 -> R (Ok tt) s') -> wp (entry_note kvs) R s.
Proof.
  intros Hk HPQ [(l & d & Hr & Hl & Hp & HP) Hc] HR. apply wp_amend, HR. cbn [fst]. split; [|by rewrite rupdate_last_complete].
  exists l, (rupdate kvs d). split; [by apply rupdate_last_note|]. split; [done|]. split; [by rewrite rget_rupdate_other|by apply HPQ].
Qed.

(** The entry as it is before its case has passed, and after. *)
Definition failing (e : Execution) (d : report) : Prop :=
  rget "execution" d = Some (execution_data e) /\ (forall x, rget "passed" d = Some (J x) -> truthy x = true -> ex_code e = 0).

Lemma in_hand_holds done case e (r : report) : in_hand done case (failing e) r -> holds (done ++ [case]) r.
Proof.
  intros [(l & d & Hr & Hl & Hp & He & Hx) Hc]. split; [|done]. exists (l ++ [Obj d]). split; [done|]. apply Forall2_app; [done|].
  constructor; [|done]. exists d. split; [done|]. split; [done|]. intros Hpass. exists e. split; [done|].
  unfold entry_passed in Hpass. destruct (rget "passed" d) as [[x| | |]|] eqn:E; try done. by apply (Hx x).
Qed.

Lemma qualify_case_spec ROOT args count number case done (s : St) :
  holds done s.1 ->
  wp (qualify_case ROOT args count number case)
     (fun r s' => complete_of s'.1 <> Some (tbool true) /\ (r = Ok tt -> holds (done ++ [case]) s'.1)) s.
Proof.
  intros [(l & Hl & Hf) Hc]. unfold qualify_case. apply wp_bind, wp_host_step. intros [command|e|] w; [|done..].
  apply wp_bind, wp_amend. cbn [fst snd]. set (entry := fields _).
  assert (H1 : in_hand done case (fun _ => True) (rappend "cases" (Obj entry) s.1)).
  { split; [|unfold complete_of; by rewrite rget_rappend_other]. exists l, entry. by rewrite (rget_rappend _ _ l). }
  apply wp_bind, wp_host_step. intros [ex|e|] w1; [|destruct H1; by split..].
  apply wp_bind. eapply (in_hand_note done case _ (failing ex)); [done| |exact H1|].
  { intros d _. split; [by apply (rget_rupdate_at "execution" _ [])|]. intros x Hx.
    pose proof (rget_rupdate_at "passed" (tbool false) [("execution"%string, execution_data ex)] [] d eq_refl) as Hp. cbn [app] in Hp.
    rewrite Hp in Hx. by injection Hx as <-. }
  intros s2 H2. apply wp_bind, wp_host_step. intros [there|e|] w3; [|destruct H2; by split..].
  assert (Hend : forall (passed : pyval) (s3 : St), in_hand done case (failing ex) s3.1 ->
    wp (do! on_host (print_line (fstr [L (if truthy passed then "PASS" else "FAIL"); L " matrix case "; D (number + 1); L "/"; D count; L " "; T (case_repr case)]));;
        save args) (fun r s' => complete_of s'.1 <> Some (tbool true) /\ (r = Ok tt -> holds (done ++ [case]) s'.1)) s3).
  { intros passed s3 H3. assert (Hd : forall r : res exn unit, complete_of s3.1 <> Some (tbool true) /\ (r = Ok tt -> holds (done ++ [case]) s3.1)).
    { intros r. split; [apply H3|]. intros _. by eapply in_hand_holds. }
    apply wp_bind, wp_host_step. intros [[]|e|] w4; [|exact (Hd (Raise e))|exact (Hd OutOfFuel)].
    apply wp_bind, wp_gets, wp_host_step. cbn [fst]. intros r w5. exact (Hd r). }
  apply wp_bind. destruct there; [|apply wp_ret, Hend, H2].
  apply wp_bind, wp_host_step. intros [raw|e|] w4; [|destruct H2; by split..].
  apply wp_bind, wp_host_step. intros [digest|e|] w5; [|destruct H2; by split..].
  apply wp_bind. eapply (in_hand_note done case (failing ex) (failing ex)); [done| |exact H2|].
  { intros d [He Hx]. unfold failing. by rewrite !rget_rupdate_other. }
  intros s5 H5. apply wp_bind, wp_lift. destruct (vget_or _ _ raw) as [complete|e|]; [|destruct H5; by split..].
  cbv zeta. apply wp_bind. eapply (in_hand_note done case (failing ex) (failing ex)); [done| |exact H5|].
  { intros d [He Hx]. split; [by rewrite rget_rupdate_other|]. intros x Hp Ht. rewrite rget_rset in Hp. injection Hp as <-.
    unfold passed_value in Ht. destruct (truthy complete) eqn:E; [cbn in Ht; lia|congruence]. }
  intros s6 H6. apply wp_bind. destruct (truthy (passed_value complete (ex_code ex))).
  - apply wp_bind, wp_lift. destruct (summary_of raw) as [summary|e|]; [|destruct H6; by split..].
    eapply (in_hand_note done case (failing ex) (failing ex)); [done| |exact H6|].
    { intros d [He Hx]. unfold failing. by rewrite !rget_rupdate_other. }
    intros s7 H7. apply wp_ret, Hend, H7.
  - apply wp_ret, wp_ret, Hend, H6.
Qed.

Lemma first_report_open ROOT args count :
  returns (first_report (W := W) ROOT args count) (fun r => rget "cases" r = Some (Arr []) /\ complete_of r <> Some (tbool true)).
Proof. unfold first_report. do 3 (apply returns_then; intros ?). by apply returns_ret. Qed.

Lemma cases_spec ROOT args count (l : list (Z * Case)) done (s : St) :
  holds done s.1 ->
  wp (for_do l (fun '(number, case) => qualify_case ROOT args count number case))
     (fun r s' => complete_of s'.1 <> Some (tbool true) /\ (r = Ok tt -> holds (done ++ l.*2) s'.1)) s.
Proof.
  revert done s. induction l as [|[number case] l IH]; intros done s Hs; cbn [for_do].
  - apply wp_ret. rewrite app_nil_r. split; [apply Hs|done].
  - apply wp_bind. eapply wp_mono; [by apply qualify_case_spec|]. intros [[]|e|] s1 [Hc Hh]; [|done..].
    eapply wp_mono; [apply (IH (done ++ [case])), Hh, eq_refl|]. intros r s2 [Hc2 Hh2]. split; [done|]. intros ->.
    specialize (Hh2 eq_refl). by rewrite <-app_assoc in Hh2.
Qed.
End Sound.

Lemma numbered_snd {A} (l : list A) : (numbered l).*2 = l.
Proof. unfold numbered. apply snd_zip. by rewrite length_fmap, length_seq. Qed.

(** Every planned case has its entry, in order, and each process exited with 0. *)
Definition all_passed (cases : list Case) (r : report) : Prop :=
  exists l, rget "cases" r = Some (Arr l) /\
    Forall2 (fun case entry => exists d e, entry = Obj d /\ rget "parameters" d = Some (case_data case) /\
       rget "execution" d = Some (execution_data e) /\ ex_code e = 0 /\ entry_passed entry = true) cases l.

Lemma all_passed_holds cases r : holds cases r -> forallb entry_passed (entries_of r) = true -> all_passed cases r.
Proof.
  intros [(l & Hl & Hf) _] Hp. exists l. split; [done|]. unfold entries_of in Hp. rewrite Hl in Hp. clear Hl.
  induction Hf as [|case entry cases l (d & -> & Hpar & He) Hf IH]; [constructor|]. cbn [forallb] in Hp. apply andb_true_iff in Hp as [H1 H2].
  constructor; [|by apply IH]. destruct (He H1) as (e & Hex & Hcode). by exists d, e.
Qed.

(** The matrix report calls the workload complete only when every planned
    case, in the matrix's order, has an entry that passed, with its parameters
    and the result of a process that exited with 0; main succeeds only with such
    a report. *)
Theorem qualify_sound {W} `{Sessions W} (ROOT : pystr) (args : QualifyArgs) (w : W) :
  wp (qualify_report ROOT args)
     (fun r s' => (complete_of s'.1 = Some (tbool true) -> exists cases, chosen_cases args = Ok cases /\ all_passed cases s'.1) /\
                  (r = Ok tt -> exists cases, chosen_cases args = Ok cases /\ all_passed cases s'.1)) ([], w).
Proof.
  unfold qualify_report.
  assert (Hbad : forall (r : res exn unit) (s : report * W), complete_of s.1 <> Some (tbool true) -> r <> Ok tt ->
    (complete_of s.1 = Some (tbool true) -> exists cases, chosen_cases args = Ok cases /\ all_passed cases s.1) /\
    (r = Ok tt -> exists cases, chosen_cases args = Ok cases /\ all_passed cases s.1)) by done.
  apply wp_bind, wp_host_step. intros [there|e|] w1; [|by apply Hbad..]. cbn [fst].
  apply wp_bind, wp_lift. destruct (guard _ _) as [u|e|]; [|by apply Hbad..].
  apply wp_bind, wp_lift. destruct (chosen_cases args) as [cases|e|] eqn:Hcases; [|by apply Hbad..].
  apply wp_bind, wp_host_step. intros [u2|e|] w2; [|by apply Hbad..]. cbn [fst].
  apply wp_bind, wp_on_host. eapply wp_mono; [apply first_report_open|]. intros [initial|e|] w3 Hi; [|by apply Hbad..].
  destruct (Hi initial eq_refl) as [Hc0 Hn0]. apply wp_bind, wp_amend. cbn [fst snd].
  apply wp_bind, wp_try_finally, wp_bind. eapply wp_mono; [apply (cases_spec ROOT args (zlen cases) (numbered cases) []); split; [exists []; by split|exact Hn0]|].
  assert (Hsave : forall (s : report * W) (Q : res exn unit -> report * W -> Prop), (forall r w, Q r (s.1, w)) -> wp (save args) Q s).
  { intros s Q HQ. apply wp_bind, wp_gets, wp_host_step. exact HQ. }
  intros [[]|e|] s4 [Hc4 Hh4]; [|apply Hsave; intros [[]|?|] w5; by apply Hbad|by apply Hbad].
  specialize (Hh4 eq_refl). rewrite numbered_snd in Hh4. cbn [app] in Hh4. apply wp_amend. cbn [fst snd].
  set (rep := rupdate _ s4.1). assert (Hrep : complete_of rep = Some (tbool (forallb entry_passed (entries_of s4.1)))).
  { by apply (rget_rupdate_at "complete" _ []). }
  assert (Hall : forallb entry_passed (entries_of s4.1) = true -> all_passed cases rep).
  { intros Hp. destruct (all_passed_holds cases s4.1 Hh4 Hp) as (l & Hl & Hf). exists l. split; [|exact Hf]. unfold rep. by rewrite rget_rupdate_other. }
  assert (Hfin : forall r : res exn unit, (r = Ok tt -> forallb entry_passed (entries_of s4.1) = true) ->
    (complete_of rep = Some (tbool true) -> exists cases', (Ok cases : pyres (list Case)) = Ok cases' /\ all_passed cases' rep) /\
    (r = Ok tt -> exists cases', (Ok cases : pyres (list Case)) = Ok cases' /\ all_passed cases' rep)).
  { intros r Hr. split.
    - rewrite Hrep. intros [= Hp]. exists cases. split; [done|by apply Hall].
    - intros ->. exists cases. split; [done|by apply Hall, Hr]. }
  apply Hsave. cbn [fst]. intros [[]|e|] w5; [|by apply Hfin..].
  apply wp_bind, wp_gets. cbn [fst]. unfold complete_of in Hrep. rewrite Hrep. cbn [truthy].
  destruct (forallb entry_passed (entries_of s4.1)) eqn:Hp; [by apply wp_ret, Hfin|by apply wp_throw, Hfin].
Qed.
