(* ===== verification/Calibrate.v ===== *)
(** * tools/calibrate_native_mixed.py: native voters against SQLite
    (and tools/sqlite_reference_worker.py)

    Every case runs the same transactions (Mixed) against the pinned SQLite, in a
    process of its own, and against three voters; both sides are asked for all
    of them, and the balances they report are compared with the writes.  The
    sampling thread runs when it is stopped. *)

From Stdlib Require Import QArith.
From S2P Require Import Prelude PyStr PyFloat Objects Json Bytes Vector Text Parameters Results Net Client Transport Dict Host Stats Random Script Service ServiceChecks Snapshots Recovery GroupReference Mixed Returns Resource Capacity Lab ResourceLoad.
#[local] Open Scope Z_scope.

(** [library(shared)] with [sqlite3_sourceid()], and commands run with an
    environment of their own. *)
Class Calibrating (W : Type) := {
  b_load :: Saturation W;
  b_sourceid : pystr -> W -> pyres pystr * W;
  b_executable : pystr;
  b_run : list pystr -> list (pystr * pystr) -> Q -> W -> pyres Finished * W;
  (** [path.rglob(pattern)] *)
  b_rglob : pystr -> pystr -> W -> list pystr * W
}.

(** The parameters of a case, in the order of its dictionary. *)
Definition case_parameters (case : Case) : list (string * tv) :=
  [("clients", tint (k_clients case)); ("read_percent", tint (k_read_percent case)); ("payload", tint (k_payload case));
   ("statements", tint (k_statements case)); ("rows", tint (k_rows case)); ("skew", tbool (k_skew case));
   ("seed", tint (k_seed case)); ("rate", tint (k_rate case))]%string.

(** The dictionary [report] and its list of cases, the current one apart. *)
Record Calibration := mkCalibration { cb_report : report; cb_past : list report; cb_case : option report }.
Definition begin_case (case : Case) (g : Calibration) : Calibration :=
  mkCalibration (cb_report g) (cb_past g ++ option_list (cb_case g)) (Some (fields (case_parameters case))).
Definition on_case (f : report -> report) (g : Calibration) : Calibration :=
  mkCalibration (cb_report g) (cb_past g) (f <$> cb_case g).
Definition on_calibration (f : report -> report) (g : Calibration) : Calibration :=
  mkCalibration (f (cb_report g)) (cb_past g) (cb_case g).
Definition calibration_data (g : Calibration) : tv :=
  Obj (rupdate [("cases"%string, Arr (Obj <$> cb_past g ++ option_list (cb_case g)))] (cb_report g)).

Record CalibrateArgs := mkCalibrateArgs {
  ca_binary : pystr; ca_output : pystr; ca_operations : Z; ca_clients : list Z; ca_reads : list Z; ca_payload : Z;
  ca_statements : Z; ca_rows : Z; ca_skew : bool; ca_seed : Z; ca_group : Z; ca_rate : Z; ca_library : option pystr
}.

(** The [choices] of the parser, and the assertions of [main]. *)
Definition chosen_arguments (args : CalibrateArgs) : bool :=
  ((ca_payload args =? 256) || (ca_payload args =? 4096)) && (1 <=? ca_statements args) && (ca_statements args <=? 8)
  && (1 <=? ca_rows args) && (ca_rows args <=? 4) && ((ca_group args =? 0) || (ca_group args =? 16)).
Definition bounded_arguments (args : CalibrateArgs) : bool :=
  (10 <=? ca_operations args) && (ca_operations args <=? 1000) && (0 <=? ca_rate args) && (ca_rate args <=? 10000)
  && forallb (fun n => (1 <=? n) && (n <=? 64)) (ca_clients args) && forallb (fun n => (0 <=? n) && (n <=? 100)) (ca_reads args).

Definition case_of (args : CalibrateArgs) (clients reads : Z) : Case :=
  mkCase clients reads (ca_payload args) (ca_statements args) (ca_rows args) (ca_skew args) (ca_seed args) (ca_rate args).
Definition planned_cases (args : CalibrateArgs) : list Case :=
  ca_clients args ≫= (fun clients => (fun reads => case_of args clients reads) <$> ca_reads args).

Definition setup_texts (payload : Z) : list pystr :=
  [py "CREATE TABLE seed(id INTEGER PRIMARY KEY)";
   py "INSERT INTO seed VALUES " ++ join (py ",") ((fun i => fstr [L "("; D (Z.of_nat i); L ")"]) <$> seq 0 32);
   py "CREATE TABLE account(id INTEGER PRIMARY KEY,balance INTEGER,payload BLOB)";
   fstr [L "INSERT INTO account SELECT a.id*32+b.id,0,zeroblob("; D payload; L ") FROM seed a,seed b"]].
Definition BALANCE_SUM : pystr := py "SELECT sum(balance) FROM account".
(** [max(rows, statements) * sum(x['write'] for x in raw)] *)
Definition increments (case : Case) (raw : list Sample) : Z := Z.max (k_rows case) (k_statements case) * writes_of raw.

Section Calibrate.
Context {W : Type} `{Calibrating W} (fuel : nat) (ROOT : pystr).
Abbreviation K := (Sc (W := Voters * W) Calibration).
Abbreviation VM := (V (W := W)).
Definition c {A} (m : VM A) : K A := on_host m.
Definition note_case (kvs : list (string * tv)) : K unit := amend (on_case (rupdate kvs)).
Definition calibration_note (kvs : list (string * tv)) : K unit := amend (on_calibration (rupdate kvs)).

(** ** reference_measure *)

Definition preload (args : CalibrateArgs) : VM (list (pystr * pystr)) :=
  match ca_library args with
  | None => ret []
  | Some path => let! library := base (gets (h_resolve path)) in ret [(py "LD_PRELOAD", library)]
  end.
(** The one profile of a text, without errors. *)
Definition clean_profile (text : pystr) : pyres pyval :=
  let? profiles := profiles_of (py "SQLODIN_IO_PROFILE ") text in
  let? profile := only_profile profiles in
  let? errors := vget "errors" profile in
  do? guard (negb (eq_int errors 0)) (AssertionError "profiles");;
  Ok profile.
(** [result.get(key, default)] of the worker's result, as report data *)
Definition result_get (k : string) (default : pyval) (result : pyval) : pyres tv := let? v := vget_or k default result in Ok (J v).

Definition keep_result (result : pyval) : K unit :=
  let! measurement := lift (result_get "measurement" (PDict []) result) in
  let! groups := lift (result_get "groups" (PList []) result) in
  let! before := lift (result_get "before" PNone result) in
  let! after := lift (result_get "after" PNone result) in
  let! complete := lift (result_get "complete" (PBool false) result) in
  note_case [("sqlite", measurement); ("sqlite_groups", groups); ("sqlite_resources", Obj (fields [("before", before); ("after", after)]));
             ("sqlite_verified", complete)]%string.
(** [case.get('sqlite_verified')], as a truth value *)
Definition sqlite_verified (case : report) : bool :=
  match rget "sqlite_verified" case with Some (J v) => truthy v | _ => false end.
Definition this_case : K report :=
  let! g := reported in match cb_case g with Some case => ret case | None => throw (RuntimeError "no case") end.

Definition reference_job (shared database output : pystr) (setup : list pystr) (case : report) (args : CalibrateArgs) : tv :=
  Obj (fields [("library", tstr shared); ("database", tstr database); ("setup", Arr (tstr <$> setup)); ("case", Obj case);
               ("count", tint (ca_operations args)); ("group", tint (ca_group args)); ("output", tstr output)]%string).
Definition reference_measure (shared folder : pystr) (setup : list pystr) (args : CalibrateArgs) : K unit :=
  let! shared := c (base (gets (h_resolve shared))) in
  let! database := c (base (gets (h_resolve (join_path folder (py "reference.db"))))) in
  let! output := c (base (gets (h_resolve (join_path folder (py "reference-result.json"))))) in
  let! case := this_case in
  let job := join_path folder (py "reference-job.json") in
  do! c (base (io_res (h_write_json job (reference_job shared database output setup case args))));;
  let! environment := c (preload args) in
  let! child := c (base (io_res (b_run [b_executable; join_path ROOT (py "tools/sqlite_reference_worker.py"); job] environment 300))) in
  let! there := c (base (io (h_exists output))) in
  do! (if (there : bool) then let! result := c (base (read_json output)) in keep_result result else ret tt);;
  do! note_case [("sqlite_group_limit", tint (ca_group args)); ("sqlite_worker_exit", tint (returncode child)); ("sqlite_worker_stderr", tstr (stderr child))]%string;;
  let! case := this_case in
  do! lift (guard (negb ((returncode child =? 0) && sqlite_verified case)) (AssertionError "the worker's standard error"));;
  match ca_library args with
  | None => ret tt
  | Some _ => let! profile := lift (clean_profile (stderr child)) in note_case [("sqlite_io_profile"%string, J profile)]
  end.

(** ** observe, native_measure *)

(** The sizes of a voter's consensus database files. *)
Definition history_bytes (node : Z) : VM Z :=
  let! c := cluster in
  let! paths := base (io (b_rglob (join_path (n_root c) (fstr [L "data"; D node])) (py "consensus.db*"))) in
  for_each paths (fun p total =>
    let! is_file := base (io (h_is_file p)) in
    if (is_file : bool) then let! st := base (io_res (d_stat p)) in ret (total + st.1) else ret total) 0.
Definition observed_node (node : Z) : VM dict :=
  let! s := with_conn [node] 30 None (fun h => call h status) in
  let! bytes := history_bytes node in
  ret (dict_set (py "history_bytes") (PInt bytes) s).
Definition observe : VM tv :=
  let! resources := sample in
  let! nodes := for_each all_voters (fun node acc => let! s := observed_node node in ret (dset node s acc)) [] in
  let! frontiers := lift (try_map (fun '(_, s) => number "applied" s) nodes) in
  let! most := lift (max_state frontiers) in
  let! least := lift (min_state frontiers) in
  ret (Obj (fields [("resources", sample_report resources); ("nodes", Obj ((fun '(n, s) => (dec n, J (PDict s))) <$> nodes));
                    ("observed_prefix_spread", tint (most - least))]%string)).

(** A connection as a target of [measure]. *)
Definition native_target (h : nat) : Target (Voters * W) :=
  mkTarget (Service_ (mkNative (call h session_epoch)
                        (fun text => db_query h text []) (fun text => db_execute h text [])
                        (let! c := cluster in match n_conns c !! h with Some conn => ret (c_pending conn) | None => throw (IndexError "no such connection") end)
                        (call h resolve_pending)))
           (call h Client.close).

(** The samples of [watch]: one per turn, up to the first that fails. *)
Fixpoint watch_samples (rounds : nat) (samples : list Usage) : VM (list Usage * option pystr) :=
  match rounds with
  | O => ret (samples, None)
  | S rounds =>
      let! s := try_except (let! s := sample in ret (inl s)) (fun e => Some (ret (inr (repr_exn e)))) in
      match s with
      | inl s => watch_samples rounds (samples ++ [s])
      | inr text => ret (samples, Some text)
      end
  end.
Definition stop_watch : K unit :=
  let! wakes := c (base (io d_wakes)) in
  let! watched := c (watch_samples wakes []) in
  note_case ([("samples"%string, Arr (sample_report <$> watched.1))] ++
             match watched.2 with Some text => [("monitor_error"%string, tstr text)] | None => [] end).
Definition native_factory (i : Z) : VM (Target (Voters * W)) :=
  let! h := open_conn [i mod 3 + 1] 30 None in ret (native_target h).
Definition native_measure (case : Case) (count : nat) : K Measurement :=
  do! note_case [("samples"%string, Arr [])];;
  try_finally (c (measure native_factory case count)) stop_watch.

(** ** main *)

Definition expect_balance (total node : Z) : VM unit :=
  with_conn [node] 10 None (fun h => expect_scalar h BALANCE_SUM [] total).
Definition per_second (case : report) : pyres pyval :=
  match rget "sqlite" case with Some (J v) => vget "per_second" v | _ => Raise (KeyError "sqlite") end.
(** [print(clients, reads, ...)], as values *)
Definition print_rates (case : Case) (m : Measurement) : K unit :=
  let! entry := this_case in
  let! reference := lift (per_second entry) in
  c (base (io_do (h_print_json (Arr [tint (k_clients case); tint (k_read_percent case); J reference; Num (m_per_second m)])))).

(** The case on three voters. *)
Definition native_case (args : CalibrateArgs) (environment : option (list (pystr * pystr))) (setup : list pystr) (case : Case) : K unit :=
  do! c (for_do all_voters (start_in environment));;
  do! c (for_do all_voters (ready_one fuel));;
  do! c (run_all setup);;
  let! observed := c observe in
  do! note_case [("frontiers_before"%string, observed)];;
  let! s := c sample in
  do! note_case [("before"%string, sample_report s)];;
  let! m := native_measure case (Z.to_nat (ca_operations args)) in
  do! note_case [("sqlodin"%string, measurement_data m)];;
  let! s := c sample in
  do! note_case [("after"%string, sample_report s)];;
  let! observed := c observe in
  do! note_case [("frontiers_after"%string, observed)];;
  do! lift (guard (negb ((m_completed m =? ca_operations args * k_clients case) && (m_errors m =? 0))) (AssertionError ""));;
  do! c (for_do all_voters (expect_balance (increments case (m_raw m))));;
  do! note_case [("verified"%string, tbool true)];;
  do! print_rates case m;;
  c terminate_all.

(** The profiles of the voters' logs, which a verified case must have. *)
Definition verified_case (case : report) : bool := match rget "verified" case with Some (J v) => truthy v | _ => false end.
Definition log_profile (verified : bool) (log : pystr) : pyres tv :=
  let? profiles := profiles_of (py "SQLODIN_IO_PROFILE ") log in
  do? (if verified then
         let? profile := only_profile profiles in
         let? errors := vget "errors" profile in
         guard (negb (eq_int errors 0)) (AssertionError "profiles")
       else Ok tt);;
  Ok (match profiles with [p] => J p | _ => tnone end).
Definition keep_logs (args : CalibrateArgs) (directory : pystr) : K unit :=
  let! logs := c (last_logs 4000 directory (py "*.log")) in
  do! note_case [("logs"%string, manifest_report logs)];;
  match ca_library args with
  | None => ret tt
  | Some _ =>
      let! case := this_case in
      do! note_case [("io_profiles"%string, Obj [])];;
      let! _ := for_each logs (fun '(name, log) acc =>
        let! profile := lift (log_profile (verified_case case) log) in
        let acc := dset name profile acc in
        do! note_case [("io_profiles"%string, Obj acc)];; ret acc) [] in
      ret tt
  end.

Definition case_in_folder (shared folder : pystr) (args : CalibrateArgs) (case : Case) : K unit :=
  let! filesystem := c (base (mount_of folder)) in
  do! note_case [("filesystem"%string, J filesystem)];;
  do! c (base (refuse_memory filesystem));;
  let setup := setup_texts (ca_payload args) in
  do! reference_measure shared folder setup args;;
  let directory := join_path folder (py "cluster") in
  do! c (base (io_res (h_mkdir directory)));;
  let! binary := c (base (gets (h_resolve (ca_binary args)))) in
  let! voters := c (base (Voters_new directory binary (join_path ROOT (py "build/native/openssl")) 5 "auto")) in
  do! c (with_cluster (fun _ => voters));;
  let! additions := c (preload args) in
  let! environment :=
    (match ca_library args with
     | None => ret None
     | Some _ =>
         do! note_case [("io_scope"%string, tstr (py "whole native process including setup, validation and shutdown"))];;
         ret (Some additions)
     end) in
  try_finally (native_case args environment setup case) (do! c close_voters;; keep_logs args directory).

Definition write_calibration (args : CalibrateArgs) : K unit :=
  let! g := reported in c (base (io_res (h_write_json (ca_output args) (calibration_data g)))).
Definition calibrate_case (shared root : pystr) (args : CalibrateArgs) (case : Case) : K unit :=
  do! amend (begin_case case);;
  let! work := c (base (io_res (h_mkdtemp [] root))) in
  do! try_finally (case_in_folder shared work args case) (c (base (io_res (h_remove work))));;
  write_calibration args.

Definition build_shared (shared archive : pystr) : list pystr :=
  [py "cc"; py "-shared"; py "-o"; shared; py "-Wl,--whole-archive"; archive; py "-Wl,--no-whole-archive"; py "-lm"; py "-lpthread"; py "-ldl"].
Definition first_calibration (args : CalibrateArgs) (shared archive : pystr) : K unit :=
  let! sourceid := c (base (io_res (b_sourceid shared))) in
  let! archived := c (file_sha256 archive) in
  let! binary := c (file_sha256 (ca_binary args)) in
  let! harness := c (file_sha256 (join_path ROOT (py "tools/calibrate_native_mixed.py"))) in
  let! grouped := c (file_sha256 (join_path ROOT (py "tools/sqlite_group_reference.py"))) in
  do! calibration_note [("complete", tbool false);
    ("scope", tstr (py "selected bounded transaction shape; scheduled-arrival latency when rate is nonzero"));
    ("sqlite_sourceid", tstr sourceid); ("sqlite_archive_sha256", tstr archived); ("binary_sha256", tstr binary);
    ("harness_sha256", tstr harness); ("group_reference_sha256", tstr grouped); ("cases", Arr [])]%string;;
  do! (match ca_library args with
       | None => ret tt
       | Some path => let! digest := c (file_sha256 path) in calibration_note [("io_library_sha256"%string, tstr digest)]
       end);;
  let! digest := c (file_sha256 (join_path ROOT (py "tools/sqlite_reference_worker.py"))) in
  calibration_note [("reference_worker_sha256"%string, tstr digest)].

Definition calibrate_report (args : CalibrateArgs) : K unit :=
  do! (if negb (chosen_arguments args) then parser_error "invalid choice" else ret tt);;
  let! there := c (base (io (h_exists (ca_output args)))) in
  do! lift (guard (there || negb (bounded_arguments args)) (AssertionError ""));;
  let root := join_path ROOT (py "build/mixed-calibration") in
  do! c (base (io_res (h_mkdir root)));;
  let shared := join_path root (py "pinned-sqlite.so") in
  let archive := join_path ROOT (py "build/native/libsqlite3.a") in
  let! _ := c (base (run_checked (build_shared shared archive) [] None)) in
  do! first_calibration args shared archive;;
  try_finally
    (try_except
       (do! for_do (planned_cases args) (calibrate_case shared root args);; calibration_note [("complete"%string, tbool true)])
       (fun e => Some (do! calibration_note [("error"%string, tstr (repr_exn e))];; throw e)))
    (do! c (base (io_res (h_mkdir (path_parent (ca_output args)))));; write_calibration args).
Definition calibrate_main (args : CalibrateArgs) : Hm (W := W) unit :=
  fun w => let '(r, s) := calibrate_report args (mkCalibration [] [] None, (no_voters, w)) in (r, s.2.2).
End Calibrate.

(** ** What a calibration establishes *)

Section Sound.
Context {W : Type} `{Calibrating W} (fuel : nat) (ROOT : pystr).

(** All the operations offered completed, and carrying out the drawn updates
    once adds what was compared with the balances. *)
Definition accounted (case : Case) (count : nat) (m : Measurement) : Prop :=
  m_offered m = Z.of_nat count * k_clients case /\
  (m_errors m = 0 -> (k_rows case | 1024) -> (exists ranges, all_drawn case count ranges) /\
     forall ranges balance, all_drawn case count ranges -> total (credits (concat ranges) balance) = total balance + increments case (m_raw m)).
(** A voter answered that the balances amount to the writes sampled. *)
Definition balances_hold (n : Z) : Prop :=
  exists rows v, query_reply (W := W) BALANCE_SUM [] rows /\ scalar rows = Ok v /\ eq_int v n = true.

Definition measured_entry (case : Case) (m : Measurement) (e : report) : Prop :=
  sqlite_verified e = true /\ rget "sqlodin" e = Some (measurement_data m).
(** An entry that shows its case. *)
Definition shows_case (args : CalibrateArgs) (case : Case) (e : report) : Prop :=
  exists m, measured_entry case m e /\ verified_case e = true /\
    accounted case (Z.to_nat (ca_operations args)) m /\ m_completed m = m_offered m /\ m_errors m = 0 /\
    balances_hold (increments case (m_raw m)).

Lemma returns_measure factory (case : Case) (count : nat) :
  1 <= k_statements case -> 1 <= k_rows case -> 0 <= k_clients case -> returns (measure (W := Voters * W) factory case count) (accounted case count).
Proof.
  intros Hs Hr Hc s. eapply wp_mono; [apply (measure_exact factory case count s); lia|]. cbv beta.
  intros r s' Hm m Hrm. destruct (Hm m Hrm) as (Ho & _ & _ & _ & Ha). by split.
Qed.

(** *** The current entry *)

Definition open_report (g : Calibration) : Prop := rget "complete" (cb_report g) <> Some (tbool true).
Definition entry_is (past : list report) (P : report -> Prop) (g : Calibration) : Prop :=
  open_report g /\ cb_past g = past /\ exists e, cb_case g = Some e /\ P e.
(** Notes under other keys leave what is known of an entry alone. *)
Definition other_keys (kvs : list (string * tv)) : bool :=
  forallb (fun '(k, _) => negb (str_in (py k) (py <$> ["sqlite_verified"; "sqlodin"; "verified"]%string))) kvs.
Definition kept (P : report -> Prop) : Prop := forall kvs e, other_keys kvs = true -> P e -> P (rupdate kvs e).

Lemma other_keys_for k kvs : other_keys kvs = true -> k ∈ ["sqlite_verified"; "sqlodin"; "verified"]%string ->
  forallb (fun '(k', _) => negb (pyeqb (py k') (py k))) kvs = true.
Proof.
  intros Ho Hk. unfold other_keys in Ho. apply forallb_forall. intros [k' v'] Hin. apply (proj1 (forallb_forall _ _) Ho) in Hin. cbn in Hin.
  apply negb_true_iff in Hin. apply negb_true_iff. destruct (pyeqb (py k') (py k)) eqn:E; [|done]. exfalso.
  apply pyeqb_eq in E. rewrite E in Hin. repeat (apply elem_of_cons in Hk as [->|Hk]; [discriminate Hin|]). by apply elem_of_nil in Hk.
Qed.
Lemma kept_any : kept (fun _ => True).
Proof. done. Qed.
Lemma kept_sqlite : kept (fun e => sqlite_verified e = true).
Proof. intros kvs e Hk He. unfold sqlite_verified in *. rewrite rget_rupdate_other; [done|]. apply other_keys_for; [done|set_solver]. Qed.
Lemma kept_measured case m : kept (measured_entry case m).
Proof.
  intros kvs e Hk [H1 H2]. split; [by apply kept_sqlite|]. rewrite rget_rupdate_other; [done|]. apply other_keys_for; [done|set_solver].
Qed.
Lemma kept_shows args case : kept (shows_case args case).
Proof.
  intros kvs e Hk (m & H1 & H2 & Hrest). exists m. split; [by apply kept_measured|]. split; [|exact Hrest].
  unfold verified_case in *. rewrite rget_rupdate_other; [done|]. apply other_keys_for; [done|set_solver].
Qed.

Lemma preserves_entry past P kvs : kept P -> other_keys kvs = true -> preserves (entry_is past P) (note_case (W := W) kvs).
Proof.
  intros HP Hk. apply preserves_amend. intros g (Ho & Hp & e & He & HPe). split; [exact Ho|]. split; [exact Hp|]. exists (rupdate kvs e).
  split; [cbn; by rewrite He|by apply HP].
Qed.
Lemma preserves_this I : preserves I (this_case (W := W)).
Proof. unfold this_case. apply preserves_bind; [apply preserves_reported|]. intros g. destruct (cb_case g); [apply preserves_ret|apply preserves_throw]. Qed.

Abbreviation lead := (leads (W := Voters * W) open_report).
Lemma entry_open past P g : entry_is past P g -> open_report g.
Proof. by intros []. Qed.

(** A note that establishes more. *)
Lemma leads_entry past (P Q : report -> Prop) kvs : (forall e, P e -> Q (rupdate kvs e)) -> lead (entry_is past P) (note_case kvs) (entry_is past Q).
Proof.
  intros HPQ s (Ho & Hp & e & He & HPe). apply wp_amend. cbn [fst snd]. split; [exact Ho|]. intros _ _. split; [exact Ho|]. split; [exact Hp|].
  exists (rupdate kvs e). split; [cbn; by rewrite He|by apply HPQ].
Qed.
(** The rest of a case only adds to an entry. *)
Lemma leads_entry_step {A B} past P T (m : Sc (W := Voters * W) Calibration A) (f : A -> Sc Calibration B) :
  preserves (entry_is past P) m -> (forall a, lead (entry_is past P) (f a) T) -> lead (entry_is past P) (bind m f) T.
Proof. apply leads_step. intros q. apply entry_open. Qed.
Lemma leads_done {A} past P (m : Sc (W := Voters * W) Calibration A) : preserves (entry_is past P) m -> lead (entry_is past P) m (entry_is past P).
Proof. apply leads_preserves. intros q. apply entry_open. Qed.

(** *** One case *)

Lemma preserves_any past kvs : preserves (entry_is past (fun _ => True)) (note_case (W := W) kvs).
Proof. apply preserves_amend. intros g (Ho & Hp & e & He & _). split; [exact Ho|]. split; [exact Hp|]. exists (rupdate kvs e). split; [cbn; by rewrite He|done]. Qed.

Lemma leads_reference past shared folder setup args :
  lead (entry_is past (fun _ => True)) (reference_measure ROOT shared folder setup args) (entry_is past (fun e => sqlite_verified e = true)).
Proof.
  unfold reference_measure, c. do 3 (apply leads_entry_step; [apply preserves_host|intros ?]).
  apply leads_entry_step; [apply preserves_this|intros case0]. cbv zeta.
  do 4 (apply leads_entry_step; [apply preserves_host|intros ?]).
  apply leads_entry_step.
  { match goal with |- preserves _ (if ?b then _ else _) => destruct b end; [|apply preserves_ret].
    apply preserves_bind; [apply preserves_host|intros result]. unfold keep_result. preserves_auto. apply preserves_any. }
  intros _. apply leads_entry_step; [apply preserves_any|intros _].
  intros s (Ho & Hp & e & He & _). apply wp_bind. unfold this_case. apply wp_bind, wp_gets. rewrite He. apply wp_ret.
  apply wp_bind, wp_lift. destruct (guard _ _) as [u|ex|] eqn:Hg; [|by split..]. apply guard_Ok, negb_false_iff, andb_true_iff in Hg as [_ Hv].
  assert (Hs : entry_is past (fun e => sqlite_verified e = true) s.1) by (split; [exact Ho|]; split; [exact Hp|]; by exists e).
  enough (Hl : lead (entry_is past (fun e => sqlite_verified e = true))
    (match ca_library args with None => ret tt | Some _ => let! profile := lift (clean_profile (stderr _)) in note_case (W := W) [("sqlite_io_profile"%string, J profile)] end)
    (entry_is past (fun e => sqlite_verified e = true))) by (by apply Hl).
  apply leads_done. preserves_auto. apply preserves_entry; [apply kept_sqlite|done].
Qed.

Lemma preserves_stop_watch past P : kept P -> preserves (entry_is past P) (stop_watch (W := W)).
Proof.
  intros HP. unfold stop_watch, c. apply preserves_bind; [apply preserves_host|intros wakes]. apply preserves_bind; [apply preserves_host|intros [samples [text|]]];
    (apply preserves_entry; [exact HP|done]).
Qed.
Lemma preserves_native_measure past P case count : kept P -> preserves (entry_is past P) (native_measure (W := W) case count).
Proof.
  intros HP. unfold native_measure, c. apply preserves_bind; [by apply preserves_entry|intros _].
  apply preserves_finally; [apply preserves_host|by apply preserves_stop_watch].
Qed.

Lemma returns_expect_balance total node : returns (expect_balance (W := W) total node) (fun _ => balances_hold total).
Proof.
  apply returns_with_conn. intros h. eapply returns_expect_scalar.
  - apply (returns_scalar h BALANCE_SUM [] (fun v => exists rows, query_reply (W := W) BALANCE_SUM [] rows /\ scalar rows = Ok v)).
    intros rows v Hr Hv. by exists rows.
  - intros v (rows & Hr & Hv) He. by exists rows, v.
Qed.

Lemma leads_native past args environment setup case :
  1 <= k_statements case -> 1 <= k_rows case -> 0 <= k_clients case -> 0 <= ca_operations args ->
  lead (entry_is past (fun e => sqlite_verified e = true)) (native_case fuel args environment setup case) (entry_is past (shows_case args case)).
Proof.
  intros Hst Hr Hc Ho. unfold native_case. unfold c at 1 2 3 4 5.
  do 4 (apply leads_entry_step; [apply preserves_host|intros ?]).
  apply leads_entry_step; [apply preserves_entry; [apply kept_sqlite|done]|intros _].
  apply leads_entry_step; [apply preserves_host|intros before].
  apply leads_entry_step; [apply preserves_entry; [apply kept_sqlite|done]|intros _].
  eapply leads_value; [apply leads_done, preserves_native_measure, kept_sqlite| |].
  { unfold native_measure, c. apply returns_then. intros _. apply returns_finally, returns_host. by apply returns_measure. }
  intros m Hm. eapply leads_bind; [apply (leads_entry past _ (measured_entry case m))|intros _].
  { intros e He. split; [|apply rget_rset]. unfold sqlite_verified in *. by rewrite rget_rupdate_other. }
  unfold c.
  apply leads_entry_step; [apply preserves_host|intros after].
  apply leads_entry_step; [apply preserves_entry; [apply kept_measured|done]|intros _].
  apply leads_entry_step; [apply preserves_host|intros observed].
  apply leads_entry_step; [apply preserves_entry; [apply kept_measured|done]|intros _].
  eapply leads_value; [apply leads_done, preserves_lift| |].
  { apply (returns_check _). }
  cbv beta. intros _ [Hcm He]%negb_false_iff%andb_true_iff. unbool.
  eapply (leads_value _ (fun _ => balances_hold (increments case (m_raw m)))); [apply leads_done, preserves_host| |].
  { apply returns_host. eapply returns_mono; [apply (returns_for_do (fun _ => balances_hold (increments case (m_raw m)))); intros; apply returns_expect_balance|].
    cbv beta. intros u Hall. inversion Hall; assumption. }
  intros _ Hb. eapply leads_bind; [apply (leads_entry past _ (shows_case args case))|intros _].
  { intros e [H1 H2]. exists m. destruct Hm as [Hof Ha]. split; [split|].
    - unfold sqlite_verified in *. by rewrite rget_rupdate_other.
    - by rewrite rget_rupdate_other.
    - split; [by unfold verified_case; rewrite rget_rset|]. split; [by split|]. split; [|done]. rewrite Hof. lia. }
  apply leads_entry_step; [unfold print_rates, c; apply preserves_bind; [apply preserves_this|intros ?]; preserves_auto|intros _].
  apply leads_done, preserves_host.
Qed.

Lemma preserves_note_open kvs : preserves open_report (note_case (W := W) kvs).
Proof. by apply preserves_amend. Qed.

Lemma preserves_keep_logs I args directory :
  (forall kvs, other_keys kvs = true -> preserves I (note_case (W := W) kvs)) -> preserves I (keep_logs (W := W) args directory).
Proof.
  intros HI. unfold keep_logs, c. apply preserves_bind; [apply preserves_host|intros logs]. apply preserves_bind; [by apply HI|intros _].
  destruct (ca_library args); [|apply preserves_ret]. apply preserves_bind; [apply preserves_this|intros case].
  apply preserves_bind; [by apply HI|intros _]. apply preserves_bind; [|intros _; apply preserves_ret].
  apply preserves_for_each. intros [name log] acc. apply preserves_bind; [apply preserves_lift|intros profile]. cbv zeta.
  apply preserves_bind; [by apply HI|intros _; apply preserves_ret].
Qed.

Lemma leads_folder past shared folder args case :
  1 <= k_statements case -> 1 <= k_rows case -> 0 <= k_clients case -> 0 <= ca_operations args ->
  lead (entry_is past (fun _ => True)) (case_in_folder fuel ROOT shared folder args case) (entry_is past (shows_case args case)).
Proof.
  intros Hst Hr Hc Ho. unfold case_in_folder. unfold c at 1 2 3 4 5 6 7.
  apply leads_entry_step; [apply preserves_host|intros fs].
  apply leads_entry_step; [apply preserves_any|intros _].
  apply leads_entry_step; [apply preserves_host|intros _]. cbv zeta.
  eapply leads_bind; [apply leads_reference|intros _].
  do 5 (apply leads_entry_step; [apply preserves_host|intros ?]).
  apply leads_entry_step.
  { destruct (ca_library args); [|apply preserves_ret]. apply preserves_bind; [apply preserves_entry; [apply kept_sqlite|done]|intros _; apply preserves_ret]. }
  intros environment. apply leads_finally; [by apply leads_native| |]; unfold c;
    (apply preserves_bind; [apply preserves_host|intros _]); apply preserves_keep_logs; intros kvs Hk; [apply preserves_note_open|].
  apply preserves_entry; [apply kept_shows|exact Hk].
Qed.

(** *** The report *)

Definition entries (g : Calibration) : list report := cb_past g ++ option_list (cb_case g).
Definition shown (args : CalibrateArgs) (done : list Case) (g : Calibration) : Prop :=
  open_report g /\ Forall2 (shows_case args) done (entries g).

Lemma preserves_write I args : preserves I (write_calibration (W := W) args).
Proof. unfold write_calibration, c. preserves_auto. Qed.

Lemma leads_case args shared root pre case :
  1 <= k_statements case -> 1 <= k_rows case -> 0 <= k_clients case -> 0 <= ca_operations args ->
  lead (shown args pre) (calibrate_case fuel ROOT shared root args case) (shown args (pre ++ [case])).
Proof.
  intros Hst Hr Hc Ho s [Hopen Hall]. unfold calibrate_case. apply wp_bind, wp_amend. cbn [fst snd].
  assert (He : entry_is (entries s.1) (fun _ => True) (begin_case case s.1)) by (split; [exact Hopen|]; split; [done|]; by eexists).
  set (s1 := (begin_case case s.1, s.2)). change (begin_case case s.1) with s1.1 in He. clearbody s1. unfold c.
  enough (Hl : lead (entry_is (entries s.1) (fun _ => True))
    (let! work := on_host (base (io_res (h_mkdtemp [] root))) in
     do! try_finally (case_in_folder fuel ROOT shared work args case) (on_host (base (io_res (h_remove work))));; write_calibration args)
    (entry_is (entries s.1) (shows_case args case))).
  { eapply wp_mono; [by apply Hl|]. cbv beta. intros r s2 [Hu H2]. split; [exact Hu|]. intros a Ha. destruct (H2 a Ha) as (_ & Hp & e & Hc2 & Hs).
    split; [exact Hu|]. unfold entries. rewrite Hp, Hc2. apply Forall2_app; [exact Hall|]. by constructor. }
  apply leads_entry_step; [apply preserves_host|intros work].
  eapply leads_bind; [apply leads_finally; [by apply leads_folder|apply preserves_host..]|intros _].
  apply leads_done, preserves_write.
Qed.

Lemma planned_bounds args case :
  chosen_arguments args = true -> bounded_arguments args = true -> case ∈ planned_cases args ->
  1 <= k_statements case /\ 1 <= k_rows case /\ 0 <= k_clients case.
Proof.
  intros Hc Hb Hin. unfold planned_cases in Hin. apply list_elem_of_bind in Hin as (clients & Hin & Hcl).
  apply list_elem_of_fmap in Hin as (reads & -> & _). cbn. unfold chosen_arguments, bounded_arguments in *. unbool.
  assert (Hk : forallb (fun n => (1 <=? n) && (n <=? 64)) (ca_clients args) = true) by done.
  apply (proj1 (forallb_forall _ _) Hk) in Hcl || (apply list_elem_of_In in Hcl; apply (proj1 (forallb_forall _ _) Hk) in Hcl). unbool. lia.
Qed.

Definition calibrated (args : CalibrateArgs) (r : res exn unit) (g : Calibration) : Prop :=
  (rget "complete" (cb_report g) = Some (tbool true) -> Forall2 (shows_case args) (planned_cases args) (entries g)) /\
  (r = Ok tt -> rget "complete" (cb_report g) = Some (tbool true)).

Lemma calibrated_open args r g : open_report g -> r <> Ok tt -> calibrated args r g.
Proof. intros Ho Hr. by split. Qed.

Lemma preserves_first args shared archive : preserves (fun g => open_report g /\ entries g = []) (first_calibration (W := W) ROOT args shared archive).
Proof.
  unfold first_calibration, c. preserves_auto; apply preserves_amend; intros g [Ho He]; (split; [|exact He]); unfold open_report in *; cbn [on_calibration cb_report].
  2,3: by rewrite rget_rupdate_other.
  match goal with |- rget _ ?r <> _ => assert (E : rget "complete" r = Some (tbool false)) by by apply (rget_rupdate_at "complete" _ []) end.
  by rewrite E.
Qed.

(** A calibration that reports itself complete shows every planned case, in
    order: SQLite's worker ended with success and said that its result was
    complete ([reference_sound] says what the worker means by it), every
    operation offered on the voters was completed without an error and is in the
    entry's measurement, a voter answered that the balances amount to
    max(rows, statements) per write of it, and, for row counts that divide the
    1024 rows, that is what the case's own drawn updates add to any table.  A
    calibration that returns does report itself complete. *)
Theorem calibrate_sound (args : CalibrateArgs) (w : W) :
  wp (calibrate_report fuel ROOT args) (fun r s => calibrated args r s.1) (mkCalibration [] [] None, (no_voters, w)).
Proof.
  set (g0 := mkCalibration [] [] None). assert (Hbad : forall r : res exn unit, r <> Ok tt -> calibrated args r g0) by (intros r Hr; by apply calibrated_open).
  unfold calibrate_report. destruct (chosen_arguments args) eqn:Hch; cbn [negb]; [|apply wp_bind, wp_throw; by apply Hbad].
  apply wp_bind, wp_ret. unfold c. apply wp_bind, wp_host_step. intros [there|e|] w1; [|by apply Hbad..]. cbn [fst].
  apply wp_bind, wp_lift. destruct (guard _ _) as [u|e|] eqn:Hg; [|by apply Hbad..].
  apply guard_Ok, orb_false_iff in Hg as [_ Hb%negb_false_iff]. assert (Ho : 0 <= ca_operations args) by (unfold bounded_arguments in Hb; unbool; lia).
  cbv zeta. apply wp_bind, wp_host_step. intros [u2|e|] w2; [|by apply Hbad..]. cbn [fst].
  apply wp_bind, wp_host_step. intros [f|e|] w3; [|by apply Hbad..]. cbn [fst].
  apply wp_bind. eapply wp_mono; [apply preserves_first; by split|]. cbv beta.
  intros [u3|e|] s4 [Ho4 He4]; [|by apply calibrated_open..].
  assert (Hend : forall r s, calibrated args r s.1 ->
    wp (do! on_host (base (io_res (h_mkdir (path_parent (ca_output args)))));; write_calibration (W := W) args) (fun _ s' => calibrated args r s'.1) s).
  { intros r s Hs. apply (preserves_bind (calibrated args r)); [apply preserves_host|intros; apply preserves_write|exact Hs]. }
  assert (Hfin : forall r r' g, calibrated args r g -> r' <> Ok tt -> calibrated args r' g) by (intros r r' g [H1 _] Hr; by split).
  set (shared := join_path _ (py "pinned-sqlite.so")).
  apply wp_try_finally. unfold calibration_note. eapply wp_mono with (P := fun r s => calibrated args r s.1).
  - apply wp_try_except, wp_bind. eapply wp_mono; [apply (leads_for_list open_report (shown args)); [by intros ? ? []| |split; [exact Ho4|by rewrite He4]]|].
    { intros pre case Hin. destruct (planned_bounds args case Hch Hb Hin) as (H1 & H2 & H3). by apply leads_case. }
    cbv beta. intros [u5|e|] s5 [Hu5 H5].
    + apply wp_amend. cbn [fst snd]. destruct (H5 u5 eq_refl) as [_ Hall]. split; [intros _; exact Hall|]. intros _. apply (rget_rset "complete").
    + apply wp_bind, wp_amend, wp_throw. cbn [fst snd]. apply calibrated_open; [|done]. unfold open_report. cbn [on_calibration cb_report]. by rewrite rget_rupdate_other.
    + by apply calibrated_open.
  - intros [[]|e|] s6 H6; [| |exact H6]; (eapply wp_mono; [by apply Hend|]); intros [u7|e7|] s7 H7; try exact H7; by eapply Hfin.
Qed.
End Sound.

(** ** tools/sqlite_reference_worker.py *)

Class ReferenceHost (W : Type) := {
  rw_sqlite :: SqliteLib W;
  (** [resource.getrusage]: user and system seconds, peak kilobytes *)
  rw_rusage : W -> (Q * Z) * W
}.

(** A host under the grouped reference. *)
Definition through {W A} (f : W -> A * W) (st : Ref W) : A * Ref W :=
  let '(a, w) := f (r_db st) in (a, mkRef (r_queue st) (r_groups st) (r_answers st) (r_phase st) w).
Definition through_do {W} (f : W -> W) (st : Ref W) : Ref W :=
  mkRef (r_queue st) (r_groups st) (r_answers st) (r_phase st) (f (r_db st)).
#[local] Instance host_through {W} `{Host W} : Host (Ref W) := {
  h_monotonic := through h_monotonic; h_monotonic_ns := through h_monotonic_ns; h_time := through h_time;
  h_utc := through h_utc; h_sleep q := through_do (h_sleep q);
  h_exists p := through (h_exists p); h_is_file p := through (h_is_file p);
  h_read_text p := through (h_read_text p); h_read_bytes p := through (h_read_bytes p);
  h_write_text p t := through (h_write_text p t); h_append p t := through (h_append p t);
  h_write_json p v := through (h_write_json p v); h_append_json p v := through (h_append_json p v);
  h_fsync p := through (h_fsync p); h_replace p q := through (h_replace p q); h_mkdir p := through (h_mkdir p);
  h_glob p q := through (h_glob p q); h_mkdtemp p q := through (h_mkdtemp p q); h_remove p := through (h_remove p);
  h_sha256 := h_sha256; h_run a d t := through (h_run a d t); h_print p := through_do (h_print p);
  h_print_json v := through_do (h_print_json v); h_getenv k st := h_getenv k (r_db st); h_linux := h_linux;
  h_resolve p st := h_resolve p (r_db st); h_system := h_system; h_platform := h_platform;
  h_run_input a i t := through (h_run_input a i t); h_timeout_output st := h_timeout_output (r_db st)
}.

Section ReferenceWorker.
Context {W : Type} `{ReferenceHost W}.
Abbreviation KR := (Sc (W := W) report).

Definition process_usage : Hm (W := W) tv :=
  let! used := io rw_rusage in
  let! text := io_res (h_read_text (py "/proc/self/io")) in
  let! pairs := lift (colon_dict text) in
  let! io_values := lift (try_map (fun '(k, v) => let? n := int_of_text v in Ok (k, tint n)) pairs) in
  ret (Obj (fields [("cpu_seconds", Num used.1); ("peak_rss_bytes", tint (used.2 * 1024)); ("io", Obj io_values)]%string)).

(** [grouping.connect().run(text, write)]: with the clients in turn, a request
    is a group of its own. *)
Definition database_of (db : Z) : Database W := {| db_run text := SQLite_run db text false |}.
Definition group_events (db : Z) (maximum : nat) : list event -> Ref W -> option (Ref W) := @GroupReference.run W (database_of db) maximum.
Definition group_run (db : Z) (maximum : nat) (text : pystr) (write : bool) : Hm (W := Ref W) unit := fun st =>
  let id := length (r_answers st) in
  match group_events db maximum [EPut (mkRequest text write id); ETake; EServe] st with
  | Some st' =>
      match r_answers st' !! id with
      | Some (_, None) => (Ok tt, st')
      | Some (_, Some e) => (Raise e, st')
      | None => (Raise (AssertionError "Reference worker did not respond"), st')
      end
  | None => (Raise (AssertionError "Reference worker did not respond"), st)
  end.
Definition group_factory (db : Z) (maximum : nat) (i : Z) : Hm (W := Ref W) (Target (Ref W)) :=
  ret (mkTarget (Reference (group_run db maximum)) (ret tt)).
(** [grouping.close()]: the sentinel is put and taken. *)
Definition group_close (db : Z) (maximum : nat) (st : Ref W) : Ref W :=
  match group_events db maximum [EClose; ETake] st with Some st' => st' | None => st end.
Definition grouped_measure (db : Z) (maximum : nat) (case : Case) (count : nat) (w : W) : (pyres Measurement * list (Z * Z)) * W :=
  let '(r, st) := measure (group_factory db maximum) case count (Ref_new w) in
  let st := group_close db maximum st in ((r, r_groups st), r_db st).
Definition groups_data (groups : list (Z * Z)) : tv :=
  Arr ((fun '(requests, writes) => Obj (fields [("requests", tint requests); ("writes", tint writes)]%string)) <$> groups).

Definition single_factory (path : pystr) (i : Z) : Hm (W := W) (Target W) :=
  let! db := SQLite_new path in ret (mkTarget (Reference (SQLite_run db)) (SQLite_close db)).

(** The job: the fields of its case, and the rest. *)
Definition job_int (k : string) (v : pyval) : pyres Z := let? x := vget k v in vint x.
Definition job_case (v : pyval) : pyres Case :=
  let? clients := job_int "clients" v in let? reads := job_int "read_percent" v in let? payload := job_int "payload" v in
  let? statements := job_int "statements" v in let? rows := job_int "rows" v in let? skew := vget "skew" v in
  let? seed := job_int "seed" v in let? rate := job_int "rate" v in
  Ok (mkCase clients reads payload statements rows (truthy skew) seed rate).
Record Job := mkJob { j_database : pystr; j_setup : list pystr; j_case : Case; j_count : Z; j_group : Z; j_output : pystr }.
Definition job_of (v : pyval) : pyres Job :=
  let? database := vget "database" v in let? database := vstr database in
  let? setup := vget "setup" v in
  let? setup := match setup with PList l => try_map vstr l | _ => Raise (TypeError "not iterable") end in
  let? case := vget "case" v in let? case := job_case case in
  let? count := job_int "count" v in let? group := job_int "group" v in
  let? output := vget "output" v in let? output := vstr output in
  Ok (mkJob database setup case count group output).

Definition reference_note (kvs : list (string * tv)) : KR unit := amend (rupdate kvs).
Definition reference_measurement (job : Job) (db : Z) : KR Measurement :=
  let count := Z.to_nat (j_count job) in
  if j_group job =? 0 then
    let! m := on_host (measure (single_factory (j_database job)) (j_case job) count) in
    do! reference_note [("measurement"%string, measurement_data m)];; ret m
  else
    let! measured := on_host (io (grouped_measure db (Z.to_nat (j_group job)) (j_case job) count)) in
    do! (match measured.1 with Ok m => reference_note [("measurement"%string, measurement_data m)] | _ => ret tt end);;
    do! reference_note [("groups"%string, groups_data measured.2)];;
    lift measured.1.
Definition reference_body (job : Job) (db : Z) : KR unit :=
  do! for_do (j_setup job) (fun text => on_host (SQLite_run db text true));;
  let! used := on_host process_usage in
  do! reference_note [("before"%string, used)];;
  let! m := reference_measurement job db in
  let! used := on_host process_usage in
  do! reference_note [("after"%string, used)];;
  do! check_that ((m_errors m =? 0) && (m_completed m =? j_count job * k_clients (j_case job)));;
  let! total := on_host (SQLite_scalar db BALANCE_SUM) in
  do! check_that (total =? increments (j_case job) (m_raw m));;
  reference_note [("complete"%string, tbool true)].
Definition reference_script (job : Job) (db : Z) : KR unit :=
  try_finally
    (recording (fun e => rupdate [("error"%string, tstr (repr_exn e))]) (reference_body job db))
    (do! on_host (SQLite_close db);;
     let! rep := reported in on_host (io_res (h_write_json (j_output job) (Obj rep)))).
Definition reference_main (path : pystr) : Hm (W := W) unit :=
  let! value := read_json path in
  let! job := lift (job_of value) in
  let! db := SQLite_new (j_database job) in
  with_report (fields [("complete"%string, tbool false)]) (reference_script job db).

(** A result that is complete has its whole measurement, without errors, and the
    balances of the database were those of its writes. *)
Definition reference_shown (job : Job) (rep : report) : Prop :=
  exists m, rget "measurement" rep = Some (measurement_data m) /\ m_errors m = 0 /\ m_completed m = j_count job * k_clients (j_case job) /\
    exists db w w', SQLite_scalar db BALANCE_SUM w = (Ok (increments (j_case job) (m_raw m)), w').

Definition open_result (rep : report) : Prop := rget "complete" rep = Some (tbool false).
Definition has_measurement (m : Measurement) (rep : report) : Prop := open_result rep /\ rget "measurement" rep = Some (measurement_data m).

Lemma open_note kvs rep :
  forallb (fun '(k, _) => negb (pyeqb (py k) (py "complete"))) kvs = true -> open_result rep -> open_result (rupdate kvs rep).
Proof. intros Hk Ho. unfold open_result. by rewrite rget_rupdate_other. Qed.
Lemma measurement_note m kvs rep :
  forallb (fun '(k, _) => negb (pyeqb (py k) (py "complete"))) kvs = true ->
  forallb (fun '(k, _) => negb (pyeqb (py k) (py "measurement"))) kvs = true -> has_measurement m rep -> has_measurement m (rupdate kvs rep).
Proof. intros Hk1 Hk2 [Ho Hm]. split; [by apply open_note|by rewrite rget_rupdate_other]. Qed.

Lemma measurement_kept job db (s : report * W) :
  open_result s.1 -> wp (reference_measurement job db) (fun r s' => open_result s'.1 /\ forall m, r = Ok m -> has_measurement m s'.1) s.
Proof.
  intros Ho. unfold reference_measurement. cbv zeta.
  assert (Hn : forall m, has_measurement m (rupdate [("measurement"%string, measurement_data m)] s.1)).
  { intros m. split; [by apply open_note|apply (rget_rset "measurement")]. }
  destruct (j_group job =? 0).
  - apply wp_bind, wp_host_step. intros [m|e|] w1; [|by split..]. apply wp_bind, wp_amend, wp_ret. cbn [fst snd].
    split; [by apply open_note|]. by intros m' [= <-].
  - apply wp_bind, wp_host_step. intros [[r groups]|e|] w1; [|by split..]. cbn [fst snd]. apply wp_bind.
    destruct r as [m|e|]; [apply wp_amend|apply wp_ret..]; apply wp_bind, wp_amend, wp_lift; cbn [fst snd].
    + split; [do 2 (apply open_note; [done|]); done|]. intros m' [= <-]. by apply measurement_note.
    + split; [by apply open_note|done].
    + split; [by apply open_note|done].
Qed.

Lemma returns_balance db : returns (SQLite_scalar (W := W) db BALANCE_SUM) (fun v => exists w w', SQLite_scalar db BALANCE_SUM w = (Ok v, w')).
Proof. intros w. apply wp_intro. intros r w' Hr v ->. by exists w, w'. Qed.

Definition reference_verdict (job : Job) (r : res exn unit) (rep : report) : Prop :=
  (rget "complete" rep = Some (tbool true) -> reference_shown job rep) /\ (r = Ok tt -> rget "complete" rep = Some (tbool true)).

Lemma verdict_open job r rep : open_result rep -> r <> Ok tt -> reference_verdict job r rep.
Proof. intros Ho Hr. split; [|done]. by rewrite Ho. Qed.

Lemma reference_body_spec job db (s : report * W) : open_result s.1 -> wp (reference_body job db) (fun r s' => reference_verdict job r s'.1) s.
Proof.
  intros Ho. unfold reference_body, reference_note. apply wp_bind.
  eapply wp_mono; [apply (preserves_for_do open_result); [intros text; apply preserves_host|exact Ho]|]. intros [u1|e|] s1 H1; [|by apply verdict_open..].
  apply wp_bind, wp_host_step. intros [used|e|] w2; [|by apply verdict_open..]. apply wp_bind, wp_amend. cbn [fst snd].
  apply (open_note [("before"%string, used)]) in H1; [|done]. apply wp_bind.
  eapply wp_mono; [apply measurement_kept; exact H1|]. intros [m|e|] s3 [H3 Hm]; [|by apply verdict_open..]. specialize (Hm m eq_refl).
  apply wp_bind, wp_host_step. intros [used2|e|] w4; [|by apply verdict_open..]. apply wp_bind, wp_amend. cbn [fst snd].
  apply (measurement_note m [("after"%string, used2)]) in Hm; [|done..]. destruct Hm as [H4 Hm]. apply wp_bind.
  unfold check_that at 1. apply wp_lift. destruct (guard _ _) as [u5|e|] eqn:Hg; [|by apply verdict_open..]. apply guard_Ok, negb_false_iff, andb_true_iff in Hg as [He Hc].
  apply wp_bind, wp_on_host. eapply wp_mono; [apply returns_balance|]. cbv beta. intros [total|e|] w6 Ht; [|by apply verdict_open..].
  destruct (Ht total eq_refl) as (w7 & w8 & Hw). cbn [fst snd]. apply wp_bind. unfold check_that. apply wp_lift.
  destruct (guard _ _) as [u9|e|] eqn:Hg; [|by apply verdict_open..]. apply guard_Ok, negb_false_iff in Hg. unbool. subst total.
  apply wp_amend. cbn [fst snd]. split; [|intros _; apply (rget_rset "complete")]. intros _. exists m.
  split; [by rewrite rget_rupdate_other|]. split; [done|]. split; [done|]. by exists db, w7, w8.
Qed.

Lemma verdict_kept job r r' rep : reference_verdict job r rep -> r' <> Ok tt -> reference_verdict job r' rep.
Proof. intros [H1 _] Hr. by split. Qed.

Theorem reference_sound (job : Job) (db : Z) (w : W) :
  wp (reference_script job db) (fun r s => reference_verdict job r s.1) (fields [("complete"%string, tbool false)], w).
Proof.
  unfold reference_script. apply wp_try_finally, wp_recording.
  assert (Hend : forall r s, reference_verdict job r s.1 ->
    wp (do! on_host (SQLite_close db);; let! rep := reported in on_host (io_res (h_write_json (j_output job) (Obj rep)))) (fun _ s' => reference_verdict job r s'.1) s).
  { intros r s Hs. apply (preserves_bind (reference_verdict job r)); [apply preserves_host| |exact Hs]. intros _. preserves_auto. }
  eapply wp_mono; [apply reference_body_spec; by vm_compute|]. cbv beta.
  intros [u|e|] s1 H1; [| |exact H1].
  - destruct u. eapply wp_mono; [by apply Hend|]. intros [[]|e|] s2 H2; try exact H2; by eapply verdict_kept.
  - assert (H2 : reference_verdict job (Raise e) (rupdate [("error"%string, tstr (repr_exn e))] s1.1)).
    { destruct H1 as [H1 _]. split; [|done]. rewrite rget_rupdate_other by done. intros Hc. destruct (H1 Hc) as (m & Hm & Hrest).
      exists m. split; [by rewrite rget_rupdate_other|exact Hrest]. }
    eapply wp_mono; [by apply (Hend (Raise e))|]. intros [[]|e2|] s2 H3; try exact H3; by eapply verdict_kept.
Qed.
End ReferenceWorker.

(** The grouped reference by evaluation, on a database that takes everything:
    two clients in turn, each request a group of its own. *)
Module CalibrateDemo.
#[local] Instance demo_lib : SqliteLib Q := {|
  q_host := quiet_host (fun t => (t, (t + 1)%Q)) (fun q t => (t + q)%Q) (fun _ => None) true;
  sqlite3_open _ w := ((0, 1), w); sqlite3_busy_timeout _ _ w := (0, w); sqlite3_exec _ _ w := (0, w);
  sqlite3_errmsg _ _ := []; sqlite3_prepare _ _ w := ((0, 2), w); sqlite3_step _ w := (100, w);
  sqlite3_column_int64 _ _ w := (0, w); sqlite3_finalize _ w := w; sqlite3_close _ w := (0, w) |}.
#[local] Instance demo_reference : ReferenceHost Q := {| rw_sqlite := demo_lib; rw_rusage w := ((w, 1), w) |}.
Definition demo_case : Case := mkCase 2 50 256 4 2 false 20260925 0.

Example grouped_demo :
  let '((r, groups), _) := grouped_measure 1 16 demo_case 3 0%Q in
  (match r with Ok m => (m_completed m, m_errors m, writes_of (m_raw m)) | _ => (0, 0, 0) end, groups) =
  ((6, 0, 4), [(1, 0); (1, 1); (1, 1); (1, 0); (1, 1); (1, 1)]).
Proof. vm_compute. reflexivity. Qed.
End CalibrateDemo.
