(* ===== verification/Observations.v ===== *)
(** * Reading recorded measurements
    (tools/summarize_workload_evidence.py, inspect_native_benchmark.py,
    inspect_benchmark_storage.py, measure_bench.py)

    Observations derived from the matrix's samples, with each target met or
    missed as the numbers say; the databases a finished benchmark left, looked
    at read-only; the resources of one run.  Samples' counters are whole
    numbers; rates and times are exact rationals. *)

From Stdlib Require Import QArith.
From S2P Require Import Prelude PyStr PyFloat Objects Json Vector Text Parameters Results Net Client Transport Dict Host Script Service ServiceChecks Snapshots Recovery Returns Resource Capacity Lab Qualify.
#[local] Open Scope Z_scope.

(** Objects of JSON data: [x.items()], [x.values()]; [for x in l]. *)
Definition vitems (x : pyval) : pyres (list (pystr * pyval)) := match x with PDict d => Ok d | _ => Raise (AttributeError "items") end.
Definition velements (x : pyval) : pyres (list pyval) := match x with PList l => Ok l | _ => Raise (TypeError "list expected") end.
Definition vat (k : pystr) (x : pyval) : pyres pyval :=
  match x with PDict d => match dict_get k d with Some y => Ok y | None => Raise (KeyError "") end | _ => Raise (TypeError "indices") end.
(** [k in x] *)
Definition vhas (k : string) (x : pyval) : pyres bool :=
  match x with PDict d => Ok (bool_decide (is_Some (dict_get (py k) d))) | _ => Raise (TypeError "argument is not iterable") end.
Definition path_get (ks : list string) (x : pyval) : pyres pyval := foldl (fun r k => let? y := r in vget k y) (Ok x) ks.
Definition path_num (ks : list string) (x : pyval) : pyres Q := let? y := path_get ks x in vnum y.
Definition path_int (ks : list string) (x : pyval) : pyres Z := let? y := path_get ks x in vint y.

(** ** summarize_workload_evidence.py *)

Record Observation := mkObservation { ob_data : report; ob_completed : Z; ob_targets : list (string * bool) }.

(** [sum(op['write'] and op['status'] == 'ok' for op in raw)]: what is not
    true counts as the number it is. *)
Definition successful (op : pyval) : pyres Z :=
  let? write := vget "write" op in
  if truthy write then let? status := vget "status" op in Ok (if eq_str status (py "ok") then 1 else 0)
  else match write with PBool _ | PInt _ | PFloat _ => Ok 0 | _ => Raise (TypeError "unsupported operand type(s) for +") end.
Fixpoint sum_z (l : list Z) : Z := match l with [] => 0 | x :: l => x + sum_z l end.
Definition divided (a b : Q) : pyres Q := if Qeq_bool b 0 then Raise (ZeroDivisionError "division by zero") else Ok (a / b)%Q.

(** The differences of a counter of every voter, after and before. *)
Definition node_differences {A} (read : pyval -> pyres A) (sub : A -> A -> A) (case : pyval) : pyres (list A) :=
  let? before := path_get ["before"; "nodes"]%string case in
  let? nodes := vitems before in
  try_map (fun '(n, before) =>
    let? after := path_get ["after"; "nodes"]%string case in
    let? node := vat n after in
    let? y := read node in
    let? x := read before in
    Ok (sub y x)) nodes.
Definition node_peaks (case : pyval) : pyres (list Z) :=
  let? first := vget "before" case in
  let? samples := (let? l := vget "samples" case in velements l) in
  let? last := vget "after" case in
  let? peaks := try_map (fun sample => let? nodes := (let? n := vget "nodes" sample in vitems n) in try_map (fun x => path_int ["rss_bytes"]%string x.2) nodes) (first :: samples ++ [last]) in
  Ok (mjoin peaks).

(** The numbers the targets are compared with. *)
Record Rates := mkRates { ra_fraction : Q; ra_tps : Q; ra_writes : Q }.
Definition kind_target (goals latency : pyval) (kind : string) : pyres (list (string * bool)) :=
  let? there := vhas kind latency in
  if (there : bool) then
    let? p99 := path_num [kind; "p99"%string] latency in
    let? goal := path_num [(kind ++ "_p99_ms")%string] goals in
    Ok [((kind ++ "_p99")%string, Qle_bool p99 goal)]
  else Ok [].
Definition percent_is (n : Z) (case : pyval) : pyres bool := let? p := vget "read_percent" case in Ok (eq_int p n).
Definition targets_met (goals case native : pyval) (r : Rates) : pyres (list (string * bool)) :=
  let? fraction := path_num ["sqlite_fraction"]%string goals in
  let? latency := vget "latency_ms" native in
  let? read := kind_target goals latency "read" in
  let? write := kind_target goals latency "write" in
  let? mixed := percent_is 70 case in
  let? both := (if (mixed : bool) then let? goal := path_num ["mixed_tps"]%string goals in
                  Ok [("mixed_tps"%string, Qle_bool goal (ra_tps r)); ("mixed_writes_per_second"%string, Qle_bool 900 (ra_writes r))] else Ok []) in
  let? pure := percent_is 0 case in
  let? pure_goal := (if (pure : bool) then let? goal := path_num ["write_tps"]%string goals in Ok [("pure_write_tps"%string, Qle_bool goal (ra_tps r))] else Ok []) in
  Ok ([("sqlite_fraction"%string, Qle_bool fraction (ra_fraction r))] ++ read ++ write ++ both ++ pure_goal).

(** One case of a complete and verified sample. *)
Definition observe (goals : pyval) (index : nat) (entry source : pyval) : pyres Observation :=
  let? cases := vget "cases" source in
  let? case := vindex 0 cases in
  let? complete := vget "complete" source in
  let? verified := (if truthy complete then vget "verified" case else Ok PNone) in
  let? sqlite := (if truthy verified then vget "sqlite_verified" case else Ok PNone) in
  do? guard (negb (truthy complete && truthy verified && truthy sqlite)) (AssertionError "");;
  let? native := vget "sqlodin" case in
  let? reference := vget "sqlite" case in
  let? parameters := vget "parameters" entry in
  let? digest := vget "sample_sha256" entry in
  let? native_tps := vget "per_second" native in
  let? sqlite_tps := vget "per_second" reference in
  let? completed := vget "completed" native in
  let? offered := vget "offered" native in
  let? errors := vget "errors" native in
  let? latency := vget "latency_ms" native in
  let? basis := vget "latency_basis" native in
  let? raw := (let? l := vget "raw" native in velements l) in
  let? writes := try_map successful raw in
  let writes := sum_z writes in
  let? elapsed := path_num ["elapsed"]%string native in
  let? per_second := divided (inject_Z writes) elapsed in
  let? cpu := node_differences (path_num ["cpu_seconds"]%string) Qminus case in
  let? cores := divided (foldr Qplus 0%Q cpu) elapsed in
  let? peaks := node_peaks case in
  let? peak := max_of peaks in
  let? written := node_differences (path_int ["io"; "write_bytes"]%string) Z.sub case in
  let? profiles := (let? d := vget "io_profiles" case in vitems d) in
  let? calls := try_map (fun x => path_int ["sync_calls"]%string x.2) profiles in
  let calls := sum_z calls in
  let? sync := try_map (fun x => path_int ["sync_ns"]%string x.2) profiles in
  let? mean := divided (inject_Z (sum_z sync)) (inject_Z calls) in
  let? bytes := try_map (fun x => path_int ["write_bytes"]%string x.2) profiles in
  let? reference_bytes := path_num ["sqlite_io_profile"; "write_bytes"]%string case in
  let? ratio := divided (inject_Z (sum_z bytes)) reference_bytes in
  let? frontiers := (let? d := path_get ["frontiers_after"; "nodes"]%string case in vitems d) in
  let? histories := try_map (fun x => path_int ["history_bytes"]%string x.2) frontiers in
  let? history := max_of histories in
  let? fraction := quotient native_tps sqlite_tps in
  let? tps := vnum native_tps in
  let? targets := targets_met goals case native (mkRates fraction tps per_second) in
  let? count := vint completed in
  Ok (mkObservation
    (fields [("index", tint (Z.of_nat index)); ("parameters", J parameters); ("sample_sha256", J digest); ("native_tps", J native_tps); ("sqlite_tps", J sqlite_tps);
       ("completed", J completed); ("offered", J offered); ("errors", J errors); ("latency_ms", J latency); ("latency_basis", J basis); ("successful_writes", tint writes);
       ("writes_per_second", Num per_second); ("cpu_cores", Num cores); ("peak_voter_rss_bytes", tint peak); ("proc_write_bytes", tint (sum_z written));
       ("whole_process_sync_calls", tint calls); ("whole_process_mean_sync_ms", Num (mean / 1000000)%Q); ("whole_process_write_byte_ratio", Num ratio);
       ("max_final_history_bytes", tint history); ("sqlite_fraction", Num fraction); ("targets_met", Obj (fields ((fun x => (x.1, tbool x.2)) <$> targets)))]%string)
    count targets).

(** [all(all(c['targets_met'].values()) for c in cases)] *)
Definition all_met (observations : list Observation) : bool := forallb (fun o => forallb snd (ob_targets o)) observations.

Section Summarize.
Context {W : Type} `{Host W}.
Definition qualifications : list string :=
  ["CPU and /proc I/O differences cover the measured workload interval."; "Forwarded sync and pwrite counters include setup, validation and shutdown.";
   "Write-byte ratio compares three replicas combined with a single SQLite reference."; "Reference uses the same pinned FULL SQLite and bounded grouping, without TLS or replication.";
   "Scheduled latency includes backlog; bounded clients are not an unlimited arrival generator."; "Throughput and latency targets are evaluated, not weakened or claimed as guarantees."]%string.
Definition case_path (matrix_path : pystr) (index : nat) : pystr :=
  join_path (with_suffix matrix_path []) (fstr [L "case-"; T (two_digits (Z.of_nat index)); L ".json"]).
Definition observed (matrix_path : pystr) (goals : pyval) (index : nat) (entry : pyval) : Hm (W := W) Observation :=
  let path := case_path matrix_path index in
  let! digest := file_sha256 path in
  let! expected := lift (vget "sample_sha256" entry) in
  do! check_that (eq_str expected digest);;
  let! source := read_json path in
  lift (observe goals index entry source).
Definition evidence_data (complete : pyval) (digest : pystr) (goals : pyval) (observations : list Observation) : tv :=
  Obj (fields [("complete", J complete); ("matrix_sha256", tstr digest); ("original_targets", J goals); ("cases", Arr ((fun o => Obj (ob_data o)) <$> observations));
    ("qualifications", Arr ((fun s => tstr (py s)) <$> qualifications)); ("operations_verified", tint (sum_z (ob_completed <$> observations)));
    ("all_applicable_targets_met", tbool (all_met observations))]%string).
Definition summarize_evidence (matrix_path output : pystr) : Hm (W := W) unit :=
  let! there := io (h_exists output) in
  do! check_that (negb there);;
  let! matrix := read_json matrix_path in
  let! digest := file_sha256 matrix_path in
  let! goals := lift (vget "originals" matrix) in
  let! entries := lift (let? l := vget "cases" matrix in velements l) in
  let! observations := for_each (imap (fun i e => (i, e)) entries) (fun x acc => let! o := observed matrix_path goals x.1 x.2 in ret (acc ++ [o])) [] in
  let! complete := lift (vget "complete" matrix) in
  io_res (h_write_json output (evidence_data complete digest goals observations)).
End Summarize.

(** ** The databases a benchmark left *)

(** [str(x)] of the parts of a folder's name: whole numbers and strings. *)
Definition name_text (x : pyval) : pyres pystr :=
  match x with PStr s => Ok s | PInt n => Ok (dec n) | _ => Raise (TypeError "a repeat or a system is a number or a string") end.
(** [(report, 'complete')] is truthy, as [report.get] reads it. *)
Definition complete_of (report : pyval) : pyres bool := let? x := vget_or "complete" PNone report in Ok (truthy x).
(** [row[k] = v] *)
Definition row_set (kvs : list (string * pyval)) (row : pyval) : pyres pyval :=
  match row with PDict d => Ok (PDict (foldl (fun d '(k, x) => dict_set (py k) x d) d kvs)) | _ => Raise (TypeError "item assignment") end.
(** [row.get('sample_run_directory', default)]: the default is there first. *)
Definition run_directory (default : pyval) (row : pyval) : pyres pystr := let? x := vget_or "sample_run_directory" default row in vstr x.
Definition SQLITE_MAGIC : list Z := py "SQLite format 3" ++ [0].
Definition has_images (n : nat) (images : list pystr) : bool := (n <=? length images)%nat.
Definition is_named (x : pyval) (l : list string) : bool := val_in x l.

(** [text in s] *)
Definition contains (text s : pystr) : bool := match find_sub text s with Some _ => true | None => false end.

Section Inspect.
Context {W : Type} `{Lab W}.

Definition with_database {A} (path : pystr) (body : Z -> Hm (W := W) A) : Hm A :=
  let! db := io_res (l_connect (py "file://" ++ path ++ py "?mode=ro")) in
  let! x := try_except (body db) (fun e => Some (do! io_res (l_exit db false);; throw e)) in
  do! io_res (l_exit db true);;
  ret x.
Definition fetch (db : Z) (sql : string) : Hm (W := W) (list pyval) :=
  let! rows := io_res (l_execute db (py sql)) in
  match rows with row :: _ => ret row | [] => throw (TypeError "'NoneType' object is not subscriptable") end.
(** [fetchone()[0]]; [x, = fetchone()] *)
Definition fetch_first (db : Z) (sql : string) : Hm (W := W) pyval := let! row := fetch db sql in lift (list_index row 0).
Definition fetch_only (db : Z) (sql : string) : Hm (W := W) pyval :=
  let! row := fetch db sql in match row with [x] => ret x | _ => throw (ValueError "too many values to unpack (expected 1)") end.

(** The files under a folder that start like a SQLite database. *)
Definition image_at (path : pystr) : Hm (W := W) bool :=
  let! file := io (h_is_file path) in
  if negb file then ret false
  else
    let! st := io_res (d_stat path) in
    if st.1 <? 16 then ret false
    else let! data := io_res (h_read_bytes path) in ret (bool_decide (take 16 data = SQLITE_MAGIC)).
Definition images_among (paths : list pystr) : Hm (W := W) (list pystr) :=
  for_each paths (fun path acc => let! image := image_at path in ret (if (image : bool) then acc ++ [path] else acc)) [].

(** A report's rows, changed group by group; the first failure stops it. *)
Definition each_row (report : pyval) (group : string) (inspect : pyval -> Hm (W := W) pyval) : Hm pyval :=
  let! rows := lift (let? l := vget group report in velements l) in
  let! rows := for_each rows (fun row acc => let! row := inspect row in ret (acc ++ [row])) [] in
  lift (row_set [(group, PList rows)] report).
Definition stamped_report (self : pystr) (report : pyval) : Hm (W := W) pyval :=
  let! utc := io h_utc in
  let! digest := file_sha256 self in
  lift (row_set [("storage_inspected_utc", PStr utc); ("storage_inspector_sha256", PStr digest)]%string report).

(** *** inspect_native_benchmark.py *)

Definition is_voter_identity (identity : pystr) : bool := is_prefix (py "sqlodin-journal-v4;") identity && contains (py ";policy=6;") identity.
Definition rows_are (expected : list (list pyval)) (rows : list (list pyval)) : bool := json_eq (PList (PList <$> rows)) (PList (PList <$> expected)).
Definition native_database (folder path : pystr) : Hm (W := W) pyval :=
  with_database path (fun db =>
    let! identity := fetch_first db "SELECT identity FROM _sqlodin_journal_meta" in
    let! identity := lift (match identity with PStr s => Ok s | _ => Raise (AttributeError "startswith") end) in
    do! check_that (is_voter_identity identity);;
    let! integrity := io_res (l_execute db (py "PRAGMA integrity_check")) in
    do! check_that (rows_are [[PStr (py "ok")]] integrity);;
    let! foreign := io_res (l_execute db (py "PRAGMA foreign_key_check")) in
    do! check_that (rows_are [] foreign);;
    let! records := fetch_first db "SELECT count(*) FROM _sqlodin_journal" in
    let! applied := fetch_first db "SELECT applied FROM _sqlodin_state WHERE id=1" in
    let! outcomes := fetch_first db "SELECT count(*) FROM _sqlodin_outcomes" in
    ret (PDict (mkdict [("file", PStr (relative_to folder path)); ("identity", PStr identity); ("journal_records", records);
                        ("applied_through", applied); ("recorded_outcomes", outcomes)])%string)).
Definition native_row (report : pyval) (suffix : string) (row : pyval) : Hm (W := W) pyval :=
  let! default := lift (vget "run_directory" report) in
  let! directory := lift (run_directory default row) in
  let! repeat := lift (let? x := vget "repeat" row in name_text x) in
  let! system := lift (vget "system" row) in
  let! name := lift (name_text system) in
  let folder := join_path directory (repeat ++ 45 :: name ++ 45 :: py suffix) in
  let! found := io (h_glob folder (py "**/*")) in
  let! images := images_among found in
  let! row := lift (row_set [("on_disk_sqlite_images"%string, PList ((fun p => PStr (relative_to folder p)) <$> images))] row) in
  do! check_that (negb (is_named system ["sqlodin"; "rqlite"; "zaxonlite"]%string) || has_images 3 images);;
  if eq_str system (py "sqlodin") then
    let! paths := io (h_glob folder (py "data-*/node.db")) in
    let! rows := for_each (sort_paths paths) (fun path acc => let! row := native_database folder path in ret (acc ++ [row])) [] in
    do! check_that (bool_decide (length rows = 3%nat));;
    lift (row_set [("journal_inspection"%string, PList rows)] row)
  else ret row.
Definition inspect_native (self path : pystr) : Hm (W := W) unit :=
  let! report := read_json path in
  let! complete := lift (vget "complete" report) in
  do! (if negb (truthy complete) then parser_error "Wait for a complete run and stopped voters" else ret tt);;
  let! mixed := each_row report "realworld" (native_row report "mixed") in
  let! both := each_row mixed "sequential_writes" (native_row mixed "kv") in
  let! final := stamped_report self both in
  let temporary := with_suffix path (py ".tmp") in
  do! io_res (h_write_json temporary (J final));;
  do! io_res (h_replace temporary path);;
  print_line (py "Verified on-disk SQLite images and current SQLodin journal identities in every sample.").

(** *** inspect_benchmark_storage.py *)

Definition inspect_voter (path : pystr) : Hm (W := W) pyval :=
  with_database path (fun db =>
    let! identity := fetch_only db "SELECT identity FROM _sqlodin_journal_meta" in
    let! identity := lift (match identity with PStr s => Ok s | _ => Raise (AttributeError "startswith") end) in
    do! (if negb (is_prefix (py "sqlodin-journal-v1;") identity) then throw (RuntimeError "Unknown journal format") else ret tt);;
    let! records := fetch_only db "SELECT count(*) FROM _sqlodin_journal" in
    let! row := fetch db "SELECT count(DISTINCT slot),
                count(DISTINCT CASE WHEN substr(data,58,1)=x'00' THEN slot END)
                FROM _sqlodin_journal WHERE kind=4" in
    let! counts := lift (match row with [a; b] => let? chosen := vint a in let? skips := vint b in Ok (chosen, skips) | _ => Raise (ValueError "too many values to unpack (expected 2)") end) in
    let! applied := fetch_only db "SELECT applied FROM _sqlodin_state WHERE id=1" in
    ret (PDict (mkdict [("file", PStr (path_name path)); ("journal_records", records); ("chosen_slots", PInt counts.1); ("skip_slots", PInt counts.2);
                        ("sql_slots", PInt (counts.1 - counts.2)); ("applied_through", applied)])%string)).
Definition inspect_sqlodin (folder : pystr) : Hm (W := W) (list pyval) :=
  let! paths := io (h_glob folder (py "node-*.db")) in
  let! rows := for_each (sort_paths paths) (fun path acc => let! row := inspect_voter path in ret (acc ++ [row])) [] in
  if negb (bool_decide (length rows = 3%nat)) then throw (RuntimeError "Expected three stopped SQLodin databases") else ret rows.
Definition sqlite_images (folder : pystr) : Hm (W := W) (list pystr) :=
  let! found := io (h_glob folder (py "**/*")) in
  let! images := images_among (sort_paths found) in
  ret (relative_to folder <$> images).
Definition storage_row (work : pystr) (prefix : string) (row : pyval) : Hm (W := W) pyval :=
  let! directory := lift (run_directory (PStr work) row) in
  let! repeat := lift (let? x := vget "repeat" row in vint x) in
  let! system := lift (vget "system" row) in
  let! name := lift (name_text system) in
  let folder := join_path directory (py prefix ++ 45 :: dec (repeat - 1) ++ 45 :: name) in
  let! row := (if eq_str system (py "sqlodin") then let! rows := inspect_sqlodin folder in lift (row_set [("journal_inspection"%string, PList rows)] row) else ret row) in
  if is_named system ["sqlodin"; "zaxonlite"; "rqlite"]%string then
    let! images := sqlite_images folder in
    let! row := lift (row_set [("on_disk_sqlite_images"%string, PList (PStr <$> images))] row) in
    if negb (has_images 3 images) then throw (RuntimeError "Missing on-disk SQLite images") else ret row
  else ret row.
Definition inspect_storage (self path : pystr) : Hm (W := W) unit :=
  let! report := read_json path in
  let! complete := lift (complete_of report) in
  do! (if negb complete then throw (SystemExit (py "Wait until all database processes have stopped and the run is complete")) else ret tt);;
  let! work := lift (let? x := vget "run_directory" report in vstr x) in
  let! mixed := each_row report "realworld" (storage_row work "realworld") in
  let! both := each_row mixed "sequential_writes" (storage_row work "sequential") in
  let! final := stamped_report self both in
  do! io_res (h_write_json path (J final));;
  print_line (py "Verified on-disk SQLite images and recorded SQLodin journal/skip counts").
End Inspect.

(** ** measure_bench.py *)

Record ChildUsage := mkChildUsage { cu_user : Q; cu_system : Q; cu_maxrss : Z }.
Record WholeProcess := mkWholeProcess { wp_wall : Q; wp_user : Q; wp_system : Q; wp_share : Q; wp_rss_mib : Q }.
(** What the last line reports of a run between two readings. *)
Definition whole_process (darwin : bool) (wall : Q) (before after : ChildUsage) : pyres WholeProcess :=
  let user := (cu_user after - cu_user before)%Q in
  let system := (cu_system after - cu_system before)%Q in
  let? share := divided (user + system) wall in
  Ok (mkWholeProcess wall user system share (inject_Z (cu_maxrss after) / (if darwin then 1048576 else 1024))%Q).

(** [f'{q:.nf}']: the nearest decimal, a tie to the even one. *)
Definition rounded (n : Z) (d : positive) : Z :=
  let q := n / Z.pos d in
  let twice := 2 * (n mod Z.pos d) in
  if (Z.pos d <? twice) || ((Z.pos d =? twice) && Z.odd q) then q + 1 else q.
Definition pad_left (width : nat) (digits : pystr) : pystr := replicate (width - length digits) 48 ++ digits.
Definition fixed (places : nat) (q : Q) : pystr :=
  let scale := 10 ^ Z.of_nat places in
  let n := rounded (Z.abs (Qnum q) * scale) (Qden q) in
  (if Qnum q <? 0 then [45] else []) ++ dec (n / scale) ++ 46 :: pad_left places (dec (n mod scale)).
Definition whole_line (p : WholeProcess) : pystr :=
  py "Whole benchmark process: wall=" ++ fixed 3 (wp_wall p) ++ py "s, user=" ++ fixed 3 (wp_user p) ++ py "s, system=" ++ fixed 3 (wp_system p)
  ++ py "s, CPU/wall=" ++ fixed 1 (wp_share p * 100)%Q ++ py "%, peak RSS=" ++ fixed 2 (wp_rss_mib p) ++ py " MiB".
Section Measure.
Context {W : Type} `{Host W} (perf : W -> Q * W) (rusage : W -> ChildUsage) (darwin : bool).
Definition measure_bench (binary : pystr) (iterations : Z) : Hm (W := W) unit :=
  do! (if iterations <? 1 then parser_error "iterations must be positive" else ret tt);;
  let! before := gets rusage in
  let! start := io perf in
  let! _ := run_checked [binary; py "--iterations=" ++ dec iterations] [] None in
  let! finish := io perf in
  let! after := gets rusage in
  let! p := lift (whole_process darwin (finish - start) before after) in
  print_line (whole_line p).
End Measure.

(** * Targets are met as the numbers say *)

Definition holds_of {A} (r : pyres A) (P : A -> Prop) : Prop := forall a, r = Ok a -> P a.
(** A percentile that was recorded is within its goal. *)
Definition kind_met (goals latency : pyval) (kind : string) : Prop :=
  vhas kind latency = Ok true -> holds_of (path_num [kind; "p99"%string] latency) (fun p99 => holds_of (path_num [(kind ++ "_p99_ms")%string] goals) (fun goal => p99 <= goal)%Q).
Lemma kind_target_exact goals latency kind l : kind_target goals latency kind = Ok l -> forallb snd l = true <-> kind_met goals latency kind.
Proof.
  unfold kind_target, kind_met, holds_of. intros (there & Ht & Hl)%res_bind_Ok. rewrite Ht. destruct there; [|by injection Hl as <-].
  revert Hl. intros (p99 & Hp & (goal & Hg & [= <-])%res_bind_Ok)%res_bind_Ok. cbn [forallb snd]. rewrite andb_true_r, Qle_bool_iff, Hp, Hg.
  split; [by intros Hle _ ? [= <-] ? [= <-]|]. intros Hh. by apply Hh.
Qed.

(** The targets of a case: the share of SQLite always, each percentile recorded,
    and the rates of the mixed and the pure-write cases. *)
Record TargetsMet (goals case native : pyval) (r : Rates) : Prop := {
  met_fraction : holds_of (path_num ["sqlite_fraction"%string] goals) (fun goal => goal <= ra_fraction r)%Q;
  met_latency : holds_of (vget "latency_ms" native) (fun latency => kind_met goals latency "read" /\ kind_met goals latency "write");
  met_mixed : percent_is 70 case = Ok true -> holds_of (path_num ["mixed_tps"%string] goals) (fun goal => goal <= ra_tps r)%Q /\ (900 <= ra_writes r)%Q;
  met_writes : percent_is 0 case = Ok true -> holds_of (path_num ["write_tps"%string] goals) (fun goal => goal <= ra_tps r)%Q
}.
(** summarize_workload_evidence.py never relabels a miss: the targets it calls
    met are all met exactly when the numbers meet the matrix's own goals. *)
Theorem targets_exact goals case native r l : targets_met goals case native r = Ok l -> forallb snd l = true <-> TargetsMet goals case native r.
Proof.
  unfold targets_met. intros (f & Hf & (lat & Hlat & (rd & Hrd & (wr & Hwr & (mx & Hmx & (both & Hb & (pu & Hpu & (pg & Hpg & [= <-])%res_bind_Ok)%res_bind_Ok)%res_bind_Ok)%res_bind_Ok)%res_bind_Ok)%res_bind_Ok)%res_bind_Ok)%res_bind_Ok.
  cbn [app forallb snd]. rewrite !forallb_app, !andb_true_iff, (kind_target_exact _ _ _ _ Hrd), (kind_target_exact _ _ _ _ Hwr), Qle_bool_iff.
  assert (Hboth : forallb snd both = true <-> (percent_is 70 case = Ok true -> holds_of (path_num ["mixed_tps"%string] goals) (fun goal => goal <= ra_tps r)%Q /\ (900 <= ra_writes r)%Q)).
  { rewrite Hmx. destruct mx; [|by injection Hb as <-]. revert Hb. intros (goal & Hgoal & [= <-])%res_bind_Ok. cbn [forallb snd].
    unfold holds_of. rewrite Hgoal, !andb_true_iff, !Qle_bool_iff. split; [intros (H1 & H2 & _) _; split; [by intros ? [= <-]|done]|intros Hh; destruct (Hh eq_refl); auto]. }
  assert (Hpure : forallb snd pg = true <-> (percent_is 0 case = Ok true -> holds_of (path_num ["write_tps"%string] goals) (fun goal => goal <= ra_tps r)%Q)).
  { rewrite Hpu. destruct pu; [|by injection Hpg as <-]. revert Hpg. intros (goal & Hgoal & [= <-])%res_bind_Ok. cbn [forallb snd].
    unfold holds_of. rewrite Hgoal, andb_true_r, Qle_bool_iff. split; [by intros ? _ ? [= <-]|]. intros Hh. by apply Hh. }
  rewrite Hboth, Hpure. split.
  - intros (H1 & H2 & H3 & H4 & H5). split; [by rewrite Hf; intros ? [= <-]|by rewrite Hlat; intros ? [= <-]|done|done].
  - intros [H1 H2 H3 H4]. split; [by apply H1|]. destruct (H2 _ Hlat) as [? ?]. auto.
Qed.

(** * What a summary and an inspection rest on *)

(** [P] of the values of a list, where [f] says what each is read from. *)
Lemma returns_collect {S A B} (f : A -> M exn S B) (P : A -> B -> Prop) l :
  (forall x, returns (f x) (P x)) -> returns (for_each l (fun x acc => let! y := f x in ret (acc ++ [y])) []) (fun ys => Forall2 P l ys).
Proof.
  intros Hf. apply (returns_for_each (fun pre acc => Forall2 P pre acc)); [constructor| |done].
  intros pre x acc Hp. eapply returns_bind; [apply Hf|]. intros y Hy. apply returns_ret, Forall2_app; [done|by repeat constructor].
Qed.

Section Summarized.
Context {W : Type} `{Host W}.
(** An observation is of the sample the matrix recorded: its file has the digest
    of the entry. *)
Definition observed_of (matrix_path : pystr) (goals : pyval) (x : nat * pyval) (o : Observation) : Prop :=
  exists (w w' : W) digest expected source, file_sha256 (case_path matrix_path x.1) w = (Ok digest, w') /\
    vget "sample_sha256" x.2 = Ok expected /\ eq_str expected digest = true /\ observe goals x.1 x.2 source = Ok o.
(** summarize_workload_evidence.py writes one observation for every case of the
    matrix, in order, each from a sample of the recorded digest that was complete
    and verified; the matrix's own goals and completeness are carried over. *)
Theorem evidence_summarized matrix_path output : returns (summarize_evidence (W := W) matrix_path output) (fun _ =>
  exists matrix goals entries observations complete digest, vget "originals" matrix = Ok goals /\ vget "cases" matrix = Ok (PList entries) /\
    vget "complete" matrix = Ok complete /\ Forall2 (observed_of matrix_path goals) (imap (fun i e => (i, e)) entries) observations /\
    exists w w' : W, h_write_json output (evidence_data complete digest goals observations) w = (Ok tt, w')).
Proof.
  unfold summarize_evidence. apply returns_then. intros there. apply returns_then. intros _. apply returns_then. intros matrix. apply returns_then. intros digest.
  eapply returns_bind; [by apply (returns_lift _ (fun g => vget "originals" matrix = Ok g))|]. intros goals Hg.
  eapply (returns_bind (fun l => vget "cases" matrix = Ok (PList l))).
  { apply returns_lift. intros l (x & Hx & Hl)%res_bind_Ok. rewrite Hx. destruct x; try done. by injection Hl as ->. }
  intros entries He. eapply (returns_bind (fun ys => Forall2 (observed_of matrix_path goals) (imap (fun i e => (i, e)) entries) ys)).
  { apply (returns_collect (fun x => observed matrix_path goals x.1 x.2)). intros [i e]. unfold observed, observed_of. cbn [fst snd]. cbv zeta.
    eapply returns_bind; [apply returns_run|]. intros digest' (w & w' & Hw). eapply returns_bind; [by apply (returns_lift _ (fun x => vget "sample_sha256" e = Ok x))|]. intros expected Hx.
    eapply returns_bind; [apply returns_check_that|]. intros ? Hq. apply returns_then. intros source. apply returns_lift. intros o Ho. by exists w, w', digest', expected, source. }
  intros observations Ho. eapply returns_bind; [by apply (returns_lift _ (fun c => vget "complete" matrix = Ok c))|]. intros complete Hc.
  eapply returns_mono; [apply returns_run|]. intros [] Hw. by exists matrix, goals, entries, observations, complete, digest.
Qed.
End Summarized.

(** What an inspected row holds: three voters' databases, three images. *)
Definition list_at (k : string) (n : nat) (row : pyval) : Prop := exists d l, row = PDict d /\ dict_get (py k) d = Some (PList l) /\ (n <= length l)%nat.
Lemma row_set_at k x row row' : row_set [(k, x)] row = Ok row' -> exists d, row' = PDict d /\ dict_get (py k) d = Some x.
Proof. destruct row; try done. intros [= <-]. rename kvs into d. exists (dict_set (py k) x d). split; [done|]. cbn [foldl]. by rewrite dict_get_set, pyeqb_refl. Qed.
Lemma row_set_other k k' x row row' n : pyeqb (py k) (py k') = false -> row_set [(k', x)] row = Ok row' -> list_at k n row -> list_at k n row'.
Proof.
  intros Hk. destruct row; try done. intros [= <-] (d & l & [= ->] & Hd & Hn). exists (dict_set (py k') x d), l. split; [done|]. split; [|done]. cbn [foldl]. by rewrite dict_get_set, Hk.
Qed.

Section Inspected.
Context {W : Type} `{Lab W}.

(** A group whose rows were all inspected. *)
Definition inspected_group (P : pyval -> pyval -> Prop) (group : string) (report report' : pyval) : Prop :=
  exists rows rows', vget group report = Ok (PList rows) /\ Forall2 P rows rows' /\ vget group report' = Ok (PList rows').
Lemma each_row_inspects (P : pyval -> pyval -> Prop) report group inspect :
  (forall row, returns (inspect row) (P row)) -> returns (each_row (W := W) report group inspect) (inspected_group P group report).
Proof.
  intros Hi. unfold each_row. eapply (returns_bind (fun l => vget group report = Ok (PList l))).
  { apply returns_lift. intros l (x & Hx & Hl)%res_bind_Ok. rewrite Hx. destruct x; try done. by injection Hl as ->. }
  intros rows Hr. eapply returns_bind; [apply (returns_collect inspect P), Hi|]. intros rows' Hf. apply returns_lift. intros report' Hs.
  exists rows, rows'. split; [done|]. split; [done|]. apply row_set_at in Hs as (d & -> & Hd). unfold vget, getitem. by rewrite Hd.
Qed.

(** A sample that should have databases has three images; SQLodin's has three
    inspected voters of the expected journal. *)
Definition voter_entry (identity_ok : pystr -> bool) (x : pyval) : Prop := exists d identity, x = PDict d /\ dict_get (py "identity") d = Some (PStr identity) /\ identity_ok identity = true.
Definition native_inspected (row row' : pyval) : Prop := exists system, vget "system" row = Ok system /\
  (is_named system ["sqlodin"; "rqlite"; "zaxonlite"]%string = true -> list_at "on_disk_sqlite_images" 3 row') /\
  (eq_str system (py "sqlodin") = true -> exists d voters, row' = PDict d /\ dict_get (py "journal_inspection") d = Some (PList voters) /\ length voters = 3%nat /\ Forall (voter_entry is_voter_identity) voters).
Lemma native_database_voter folder path : returns (native_database (W := W) folder path) (voter_entry is_voter_identity).
Proof.
  unfold native_database, with_database. apply returns_then. intros db. eapply returns_bind.
  { apply returns_except; [|intros e k [= <-]; apply returns_then; intros _; apply returns_throw]. apply returns_then. intros x. apply returns_then. intros identity.
    eapply returns_bind; [apply returns_check_that|]. intros u Hid. do 6 (apply returns_then; intros ?). apply returns_then. intros outcomes.
    apply (returns_ret _ (voter_entry is_voter_identity)). eexists _, identity. split; [done|]. by split. }
  intros x Hx. apply returns_then. intros _. by apply returns_ret.
Qed.
Lemma native_row_inspects report suffix row : returns (native_row (W := W) report suffix row) (native_inspected row).
Proof.
  unfold native_row. apply returns_then. intros default. apply returns_then. intros directory. apply returns_then. intros repeat.
  eapply returns_bind; [by apply (returns_lift _ (fun x => vget "system" row = Ok x))|]. intros system Hs. apply returns_then. intros name. cbv zeta. set (folder := join_path directory _).
  apply returns_then. intros found. apply returns_then. intros images. eapply returns_bind; [by apply (returns_lift _ (fun r => row_set [("on_disk_sqlite_images"%string, PList ((fun p => PStr (relative_to folder p)) <$> images))] row = Ok r))|].
  intros row1 Hrow. eapply returns_bind; [apply returns_check_that|]. intros u Himg.
  assert (Hi : is_named system ["sqlodin"; "rqlite"; "zaxonlite"]%string = true -> list_at "on_disk_sqlite_images" 3 row1).
  { intros Hn. rewrite Hn in Himg. cbn [negb orb] in Himg. apply Nat.leb_le in Himg. apply row_set_at in Hrow as (d & -> & Hd). eexists d, _. split; [done|]. split; [exact Hd|]. by rewrite length_fmap. }
  destruct (eq_str system (py "sqlodin")) eqn:Esys; [|apply returns_ret; exists system; rewrite Esys; split; [done|by split]].
  apply returns_then. intros paths. eapply returns_bind; [apply (returns_collect _ (fun _ => voter_entry is_voter_identity)); apply native_database_voter|]. intros voters Hv.
  eapply returns_bind; [apply returns_check_that|]. intros u' Hl. apply bool_decide_eq_true in Hl. apply returns_lift. intros row2 Hr2.
  exists system. split; [done|]. split; [intros Hn; eapply row_set_other; [|exact Hr2|by apply Hi]; reflexivity|]. intros _.
  apply row_set_at in Hr2 as (d & -> & Hd). exists d, voters. do 3 (split; [done|]). clear -Hv. induction Hv; by constructor.
Qed.

(** inspect_native_benchmark.py replaces a report only when its run was complete
    and every sample passed: three images where databases belong, and for SQLodin
    three intact voters of the current journal. *)
Theorem native_inspection_sound self path : returns (inspect_native (W := W) self path) (fun _ => exists report mixed both final,
  (exists complete, vget "complete" report = Ok complete /\ truthy complete = true) /\
  inspected_group native_inspected "realworld" report mixed /\ inspected_group native_inspected "sequential_writes" mixed both /\
  exists digest utc, row_set [("storage_inspected_utc", PStr utc); ("storage_inspector_sha256", PStr digest)]%string both = Ok final).
Proof.
  unfold inspect_native. apply returns_then. intros report. eapply returns_bind; [by apply (returns_lift _ (fun c => vget "complete" report = Ok c))|]. intros complete Hc.
  eapply (returns_bind (fun _ => truthy complete = true)); [destruct (truthy complete); [by apply returns_ret|apply returns_throw]|]. intros u Ht.
  eapply returns_bind; [apply each_row_inspects; intros row; apply native_row_inspects|]. intros mixed Hm.
  eapply returns_bind; [apply each_row_inspects; intros row; apply native_row_inspects|]. intros both Hb.
  eapply (returns_bind (fun final => exists digest utc, row_set [("storage_inspected_utc", PStr utc); ("storage_inspector_sha256", PStr digest)]%string both = Ok final)).
  { unfold stamped_report. apply returns_then. intros utc. apply returns_then. intros digest. apply returns_lift. intros final Hf. by exists digest, utc. }
  intros final Hf. cbv zeta. do 2 (apply returns_then; intros ?). eapply returns_mono; [apply returns_any|]. intros _ _. exists report, mixed, both, final. split; [by exists complete|]. split; [exact Hm|]. by split; [exact Hb|].
Qed.
End Inspected.

Module ObservationsDemo.
Definition num (n : Z) : pyval := PInt n.
Definition obj (kvs : list (string * pyval)) : pyval := PDict (mkdict kvs).
Definition goals : pyval := obj [("sqlite_fraction", PInt 1); ("read_p99_ms", num 5); ("write_p99_ms", num 9); ("mixed_tps", num 100); ("write_tps", num 50)]%string.
Definition native (p99 : Z) : pyval := obj [("latency_ms", obj [("read", obj [("p99", num p99)])])]%string.
Definition case (percent : Z) : pyval := obj [("read_percent"%string, num percent)].
(** A read percentile over its goal is a miss, whatever else was met; a percentile
    that was not measured is no target. *)
Example a_miss : targets_met goals (case 70) (native 6) (mkRates 2 200 1000) =
  Ok [("sqlite_fraction", true); ("read_p99", false); ("mixed_tps", true); ("mixed_writes_per_second", true)]%string.
Proof. vm_compute. reflexivity. Qed.
Example all_targets : targets_met goals (case 0) (native 5) (mkRates 1 50 0) = Ok [("sqlite_fraction", true); ("read_p99", true); ("pure_write_tps", true)]%string.
Proof. vm_compute. reflexivity. Qed.
(** A tie goes to the even digit. *)
Example three_places : (fixed 3 (1 # 8), fixed 1 (1 # 4), fixed 2 (7 # 1000), fixed 3 (2 # 3)) = (py "0.125", py "0.2", py "0.01", py "0.667").
Proof. vm_compute. reflexivity. Qed.
End ObservationsDemo.
