(* ===== verification/NativeBuild.v ===== *)
(** * tools/build_native.py and build_shell.py: the pinned native dependencies

    Archives are downloaded once, checked against the pins and compiled; what is
    built is recorded with its inputs, and reused only while both still match.
    Whatever the network delivers, the compiler finds the pinned sources when it
    runs, and only the pinned archive of OpenSSL, without unsafe members, is
    extracted ([build_pinned]).  Compilers, archive formats and the file system
    are the host's; [BuildFiles] states what the scripts rely on of them. *)

From Stdlib Require Import QArith.
From stdpp Require Import sorting.
From S2P Require Import Prelude PyStr PyFloat Objects Json Vector Text Parameters Results Net Client Dict Host Random Script Service ServiceChecks Returns Capacity.
#[local] Open Scope Z_scope.

(** A member of a tar archive: its name, and whether it is a file or a directory. *)
Record TarMember := mkTarMember { tm_name : pystr; tm_file : bool; tm_dir : bool }.

Class BuildHost (W : Type) := {
  n_host :: Host W;
  n_machine : pystr;  (** [platform.machine()] *)
  n_which : pystr -> W -> option pystr;
  (** [urllib.request.urlopen], [tempfile.NamedTemporaryFile(delete=False)],
      [shutil.copyfileobj] and [flush], [path.unlink(missing_ok=True)] *)
  n_urlopen : pystr -> W -> pyres Z * W;
  n_tempfile : pystr -> W -> pyres pystr * W;
  n_fetch : Z -> pystr -> W -> pyres unit * W;
  n_unlink : pystr -> W -> pyres unit * W;
  n_write_bytes : pystr -> list Z -> W -> pyres unit * W;
  (** [zipfile.ZipFile], [tarfile.open] *)
  n_zip_names : pystr -> W -> pyres (list pystr) * W;
  n_zip_read : pystr -> pystr -> W -> pyres (list Z) * W;
  n_tar_members : pystr -> W -> pyres (list TarMember) * W;
  n_extract : pystr -> pystr -> W -> pyres unit * W;
  (** [run(command, cwd=..., env=..., stdout=log, stderr=log)], with the
      variables set and removed; the log is truncated by [h_write_text] *)
  n_run_in : list pystr -> pystr -> list (pystr * pystr) -> list pystr -> pystr -> W -> pyres unit * W;
  n_copy : pystr -> pystr -> W -> pyres unit * W;
  n_lock : pystr -> W -> pyres unit * W
}.

(** ** Flags and names *)

Definition SQLITE_FLAGS : list pystr := py <$>
  ["-O3"; "-DNDEBUG"; "-fPIC"; "-DSQLITE_THREADSAFE=1"; "-DSQLITE_OMIT_LOAD_EXTENSION"; "-DSQLITE_OMIT_DEPRECATED";
   "-DSQLITE_DQS=0"; "-DSQLITE_ENABLE_FTS5"; "-DHAVE_USLEEP=1"]%string.
Definition VEC_FLAGS : list pystr := py <$>
  ["-O3"; "-DNDEBUG"; "-fPIC"; "-DSQLITE_CORE"; "-DSQLITE_VEC_STATIC"; "-DSQLITE_VEC_OMIT_FS"]%string.
Definition TLS_FLAGS : list pystr := py <$>
  ["no-shared"; "no-dso"; "no-module"; "no-engine"; "no-zlib"; "--libdir=lib"; "--openssldir=/sqlodin/no-system-openssl"]%string.
Definition strings (l : list pystr) : pyval := PList (PStr <$> l).

(** [json.dumps(value, sort_keys=True)] sorts every dictionary by its keys. *)
Definition key_rel (a b : pystr * pyval) : Prop := text_rel a.1 b.1.
#[local] Instance key_rel_dec : RelDecision key_rel.
Proof. intros a b. unfold key_rel. apply _. Defined.
Fixpoint sort_keys (v : pyval) : pyval :=
  match v with
  | PList l => PList (map sort_keys l)
  | PDict d => PDict (merge_sort key_rel (map (fun x => (x.1, sort_keys x.2)) d))
  | v => v
  end.

(** The archive's name: what follows the last slash of its address. *)
Definition archive_name (url : pystr) : pyres pystr := after_last 47 url.

(** The build configuration of OpenSSL for a platform. *)
Definition target_of (system machine : pystr) : option pystr :=
  let named (x : pystr) (s : string) := pyeqb x (py s) in
  if named system "Darwin"%string && named machine "arm64"%string then Some (py "darwin64-arm64-cc")
  else if named system "Darwin"%string && named machine "x86_64"%string then Some (py "darwin64-x86_64-cc")
  else if named system "Linux"%string && named machine "x86_64"%string then Some (py "linux-x86_64")
  else if named system "Linux"%string && named machine "aarch64"%string then Some (py "linux-aarch64")
  else None.

(** [Path(name).parts] without the root, [Path(name).name], [Path(name).is_absolute()] *)
Definition parts (name : pystr) : list pystr := filter (fun p => p <> [] /\ p <> [46]) (split_char 47 name).
Definition entry_name (name : pystr) : pystr := default [] (last (parts name)).
Definition is_absolute (name : pystr) : bool := is_prefix [47] name.
Definition safe_member (m : TarMember) : bool :=
  negb (is_absolute (tm_name m)) && negb (str_in (py "..") (parts (tm_name m))) && (tm_file m || tm_dir m).

Record BuildArgs := mkBuildArgs { ba_sqlite : option pystr; ba_vec : option pystr; ba_sqlite_only : bool; ba_offline : bool; ba_force : bool; ba_jobs : Z }.

(** [{'system': ..., ...}] *)
Record Toolchain := mkToolchain { tc_system : pystr; tc_machine : pystr; tc_cc : pystr; tc_ar : pystr; tc_version : pystr; tc_builder : pystr }.
Definition common_items (c : Toolchain) : list (string * pyval) :=
  [("system", PStr (tc_system c)); ("machine", PStr (tc_machine c)); ("compiler", PStr (tc_cc c)); ("archiver", PStr (tc_ar c));
   ("compiler_version", PStr (tc_version c)); ("builder_sha256", PStr (tc_builder c))]%string.

Section NativeBuild.
Context {W : Type} `{BuildHost W} (ROOT : pystr) (PINS : pyval).
Definition OUT : pystr := join_path ROOT (py "build/native").
Definition CACHE : pystr := join_path ROOT (py "build/downloads").
Definition out (name : pystr) : pystr := join_path OUT name.
Definition exit_with {A} (message : string) : Hm (W := W) A := throw (SystemExit (py message)).
Definition pin_of (kind : string) : pyres pyval := vget kind PINS.
Definition pin_text (k : string) (pin : pyval) : pyres pystr := let? v := vget k pin in vstr v.
(** [pin['files'].items()] *)
Definition pin_files (pin : pyval) : pyres (list (pystr * pystr)) :=
  let? files := vget "files" pin in
  match files with
  | PDict d => try_map (fun '(name, v) => let? digest := vstr v in Ok (name, digest)) d
  | _ => Raise (AttributeError "items")
  end.

Definition vec_identity : pyres pystr :=
  let? pin := pin_of "vec" in
  let? text := dumps compact (sort_keys (PDict (mkdict [("domain", PStr (py "SQLodin/sqlite-vec-build/v1")); ("pin", pin); ("flags", strings VEC_FLAGS)]%string))) in
  Ok (h_sha256 text).

(** ** download, sources *)

Definition fetch (url path : pystr) : Hm (W := W) unit :=
  let! response := io_res (n_urlopen url) in
  let! temporary := io_res (n_tempfile CACHE) in
  do! try_except (io_res (n_fetch response temporary)) (fun e => Some (do! io_res (n_unlink temporary);; throw e));;
  io_res (h_replace temporary path).
Definition pinned_sha (pin : pyval) : pyres (option pystr) :=
  match pin with
  | PDict d => match dict_get (py "sha256") d with Some v => let? s := vstr v in Ok (Some s) | None => Ok None end
  | _ => Raise (TypeError "not iterable")
  end.
Definition download (pin : pyval) (offline : bool) : Hm (W := W) pystr :=
  do! io_res (h_mkdir CACHE);;
  let! url := lift (pin_text "url" pin) in
  let! name := lift (archive_name url) in
  let path := join_path CACHE name in
  let! there := io (h_is_file path) in
  do! (if (there : bool) then ret tt
       else if offline then exit_with "Offline source missing"
       else do! print_line (py "Downloading " ++ name);; fetch url path);;
  let! expected := lift (pinned_sha pin) in
  match expected with
  | None => ret path
  | Some expected =>
      let! digest := file_sha256 path in
      if pyeqb digest expected then ret path else exit_with "Pinned archive hash mismatch"
  end.

(** One member of the only archive entry with its name. *)
Definition archived (archive name : pystr) : Hm (W := W) (list Z) :=
  let! names := io_res (n_zip_names archive) in
  match filter (fun p => entry_name p = name) names with
  | [entry] => io_res (n_zip_read archive entry)
  | _ => exit_with "Ambiguous/missing source"
  end.
Definition write_source (directory : option pystr) (archive name expected : pystr) : Hm (W := W) unit :=
  let! data := match directory with
               | Some directory => io_res (h_read_bytes (join_path directory name))
               | None => archived archive name
               end in
  if pyeqb (h_sha256 data) expected then io_res (n_write_bytes (out name) data) else exit_with "Pinned source hash mismatch".
Definition sources (kind : string) (directory : option pystr) (offline : bool) : Hm (W := W) unit :=
  let! pin := lift (pin_of kind) in
  let! archive := match directory with None => download pin offline | Some _ => ret [] end in
  let! files := lift (pin_files pin) in
  for_do files (fun '(name, expected) => write_source directory archive name expected).

(** ** cached, record *)

(** [{name: sha(OUT / name) for name in files}] *)
Definition artifacts (files : list pystr) : Hm (W := W) (list (pystr * pyval)) :=
  for_each files (fun name acc => let! digest := file_sha256 (out name) in ret (dict_set name (PStr digest) acc)) [].
Definition recorded (path : pystr) (inputs : pyval) (files : list pystr) : Hm (W := W) bool :=
  let! old := read_json path in
  let! found := lift (vget "inputs" old) in
  if json_eq found inputs then
    let! kept := lift (vget "artifacts" old) in
    let! digests := artifacts files in
    ret (json_eq kept (PDict digests))
  else ret false.
Definition cached (path : pystr) (inputs : pyval) (files : list pystr) : Hm (W := W) bool :=
  try_except (recorded path inputs files)
    (fun e => if isinstance e COSError || isinstance e CKeyError || isinstance e CValueError then Some (ret false) else None).
Definition record (path : pystr) (inputs : pyval) (files : list pystr) : Hm (W := W) unit :=
  let! digests := artifacts files in
  io_res (h_write_json path (Obj (fields [("inputs", J inputs); ("artifacts", J (PDict digests))]%string))).

Definition run (command : list pystr) : Hm (W := W) unit := let! _ := run_checked command [] None in ret tt.

(** ** build *)

Definition getenv_or (k default : string) : Hm (W := W) pystr := gets (fun w => match h_getenv (py k) w with Some v => v | None => py default end).
Definition toolchain (system : pystr) : Hm (W := W) Toolchain :=
  let! cc := getenv_or "CC" "cc" in let! cc := gets (n_which cc) in
  let! ar := getenv_or "AR" "ar" in let! ar := gets (n_which ar) in
  match cc, ar with
  | Some cc, Some ar =>
      let! text := check_output [cc; py "--version"] [] None in
      let! version := lift (list_index (splitlines text) 0) in
      let! builder := file_sha256 (join_path ROOT (py "tools/build_native.py")) in
      ret (mkToolchain system n_machine cc ar version builder)
  | _, _ => exit_with "C compiler and ar are required"
  end.

(** The source of sqlite-vec is compiled with its identity in one unit. *)
Definition stamped (identity : pystr) : pystr :=
  py "#include " ++ [34] ++ py "sqlite-vec.c" ++ [34; 10] ++ py "const char *sqlodin_vec_identity(void) { return " ++ [34] ++ identity ++ [34] ++ py "; }" ++ [10].
Definition compile_library (c : Toolchain) (name library : string) (flags : list pystr) : Hm (W := W) unit :=
  do! print_line (py "Compiling " ++ py library);;
  let! source := (if String.eqb library "sqlite_vec" then
                    let path := out (py "sqlite-vec-build.c") in
                    let! identity := lift vec_identity in
                    do! io_res (h_write_text path (stamped identity));; ret path
                  else ret (out (py name ++ py ".c"))) in
  let object := out (py name ++ py ".o") in
  do! run ([tc_cc c] ++ flags ++ [py "-I"; OUT; py "-c"; source; py "-o"; object]);;
  let temporary := out (py "lib" ++ py library ++ py ".new.a") in
  do! io_res (n_unlink temporary);;
  do! run [tc_ar c; py "rcs"; temporary; object];;
  io_res (h_replace temporary (out (py "lib" ++ py library ++ py ".a"))).

Definition SQL_FILES : list pystr := py <$> ["libsqlite3.a"; "libsqlite_vec.a"]%string.
Definition TLS_FILES : list pystr := py <$> ["libssl.a"; "libcrypto.a"; "openssl"; "OPENSSL-LICENSE.txt"]%string.
Definition sql_inputs (c : Toolchain) : pyres pyval :=
  let? sqlite := pin_of "sqlite" in
  let? vec := pin_of "vec" in
  Ok (PDict (mkdict (common_items c ++ [("pins", PDict (mkdict [("sqlite", sqlite); ("vec", vec)]%string)); ("sqlite_flags", strings SQLITE_FLAGS); ("vec_flags", strings VEC_FLAGS)]%string))).
Definition tls_inputs (c : Toolchain) (target : pystr) : pyres pyval :=
  let? pin := pin_of "openssl" in
  Ok (PDict (mkdict (common_items c ++ [("pin", pin); ("target", PStr target); ("flags", strings TLS_FLAGS)]%string))).

(** [args.force or not cached(...)] *)
Definition stale (force : bool) (path : pystr) (inputs : pyval) (files : list pystr) : Hm (W := W) bool :=
  if force then ret true else let! ok := cached path inputs files in ret (negb ok).

Definition build_sqlite (args : BuildArgs) (c : Toolchain) : Hm (W := W) unit :=
  let! inputs := lift (sql_inputs c) in
  let path := out (py "sqlite-build.json") in
  let! build := stale (ba_force args) path inputs SQL_FILES in
  if (build : bool) then
    do! sources "sqlite" (ba_sqlite args) (ba_offline args);;
    do! sources "vec" (ba_vec args) (ba_offline args);;
    do! compile_library c "sqlite3" "sqlite3" SQLITE_FLAGS;;
    do! compile_library c "sqlite-vec" "sqlite_vec" VEC_FLAGS;;
    record path inputs SQL_FILES
  else print_line (py "Verified cached SQLite/FTS5 and sqlite-vec archives").

(** Every member is looked at before any is extracted. *)
Definition extract_checked (archive scratch : pystr) : Hm (W := W) unit :=
  let! members := io_res (n_tar_members archive) in
  if forallb safe_member members then io_res (n_extract archive scratch) else exit_with "Unsafe source archive member".
Definition REMOVED : list pystr := py <$> ["CFLAGS"; "CPPFLAGS"; "LDFLAGS"; "LDLIBS"; "CROSS_COMPILE"]%string.
Definition tail_of (text : pystr) (n : nat) : pystr := drop (length text - n) text.
Definition configure_and_make (args : BuildArgs) (c : Toolchain) (target source log : pystr) : Hm (W := W) unit :=
  let environment := [(py "CC", tc_cc c); (py "AR", tc_ar c)] in
  try_except
    (do! io_res (h_write_text log []);;
     do! io_res (n_run_in ([py "perl"; py "Configure"; target] ++ TLS_FLAGS ++ [py "-fPIC"]) source environment REMOVED log);;
     io_res (n_run_in [py "make"; fstr [L "-j"; D (ba_jobs args)]; py "build_sw"] source environment REMOVED log))
    (fun e => if isinstance e CCalledProcessError
              then Some (let! text := io_res (h_read_text log) in do! print_line (tail_of text 6000);; throw e) else None).
Definition openssl_built : list (string * string) :=
  [("libssl.a", "libssl.a"); ("libcrypto.a", "libcrypto.a"); ("openssl", "apps/openssl"); ("OPENSSL-LICENSE.txt", "LICENSE.txt")]%string.
Definition build_openssl (args : BuildArgs) (c : Toolchain) (target : pystr) : Hm (W := W) unit :=
  let! inputs := lift (tls_inputs c target) in
  let path := out (py "openssl-build.json") in
  let! build := stale (ba_force args) path inputs TLS_FILES in
  if (build : bool) then
    let! pin := lift (pin_of "openssl") in
    let! archive := download pin (ba_offline args) in
    do! with_tempdir (py "openssl-build-") OUT (fun scratch =>
      do! extract_checked archive scratch;;
      let! version := lift (pin_text "version" pin) in
      let source := join_path scratch (py "openssl-" ++ version) in
      let log := out (py "openssl-build.log") in
      do! print_line (py "Building OpenSSL " ++ version ++ py "; log: " ++ log);;
      do! configure_and_make args c target source log;;
      for_do openssl_built (fun '(name, origin) => io_res (n_copy (join_path source (py origin)) (out (py name)))));;
    record path inputs TLS_FILES
  else print_line (py "Verified cached OpenSSL static archives").

Definition metadata (args : BuildArgs) (c : Toolchain) : Hm (W := W) pyval :=
  let! sqlite := lift (let? pin := pin_of "sqlite" in vget "version" pin) in
  let! vec := lift (let? pin := pin_of "vec" in vget "version" pin) in
  let! openssl := lift (if ba_sqlite_only args then Ok PNone else let? pin := pin_of "openssl" in vget "version" pin) in
  let! digests := artifacts (SQL_FILES ++ if ba_sqlite_only args then [] else py <$> ["libssl.a"; "libcrypto.a"]%string) in
  ret (PDict (mkdict [("sqlite", sqlite); ("sqlite_vec", vec); ("openssl", openssl); ("platform", PDict (mkdict (common_items c))); ("sources", PINS);
    ("sqlite_flags", strings SQLITE_FLAGS); ("vec_flags", strings VEC_FLAGS); ("openssl_flags", strings TLS_FLAGS); ("archives_sha256", PDict digests)]%string)).

Definition build (args : BuildArgs) : Hm (W := W) unit :=
  match target_of h_system n_machine with
  | None => exit_with "Unsupported native target"
  | Some target =>
      let! c := toolchain h_system in
      do! build_sqlite args c;;
      do! (if ba_sqlite_only args then ret tt else build_openssl args c target);;
      let! data := metadata args c in
      do! io_res (h_write_json (out (py "build.json")) (J data));;
      print_line (py "Pinned native dependencies ready in " ++ OUT)
  end.
Definition build_main (args : BuildArgs) : Hm (W := W) unit :=
  if negb ((1 <=? ba_jobs args) && (ba_jobs args <=? 64)) then exit_with "jobs must be in 1..64"
  else
    do! io_res (h_mkdir OUT);;
    do! io_res (n_lock (out (py ".build.lock")));;
    build args.

(** ** build_shell.py *)

Definition same_pin (k : string) (a b : pyval) : pyres bool := let? x := vget k a in let? y := vget k b in Ok (json_eq x y).
Definition pinned_shell_source : Hm (W := W) (list Z) :=
  let! shell := lift (pin_of "sqlite_shell") in
  let! sqlite := lift (pin_of "sqlite") in
  let! versions := lift (same_pin "version" shell sqlite) in
  let! same := (if (versions : bool) then lift (same_pin "url" shell sqlite) else ret false) in
  if negb same then exit_with "SQLite engine and shell pins must match"
  else
    let! expected := lift (let? files := vget "files" shell in pin_text "shell.c" files) in
    let! url := lift (pin_text "url" sqlite) in
    let! name := lift (archive_name url) in
    let archive := join_path CACHE name in
    let! there := io (h_is_file archive) in
    let! source :=
      (if (there : bool) then
         let! names := io_res (n_zip_names archive) in
         match filter (fun p => ends_with (py "/shell.c") p = true) names with
         | [entry] => io_res (n_zip_read archive entry)
         | _ => exit_with "Missing/ambiguous SQLite shell source"
         end
       else io_res (h_read_bytes (out (py "shell.c")))) in
    if pyeqb (h_sha256 source) expected then ret source else exit_with "SQLite shell source checksum mismatch".
Definition SHELL_FLAGS : list pystr := py <$>
  ["-O2"; "-fPIC"; "-DSQLITE_THREADSAFE=1"; "-DSQLITE_OMIT_LOAD_EXTENSION"; "-DSQLITE_OMIT_DEPRECATED"; "-DSQLITE_ENABLE_FTS5"; "-DHAVE_USLEEP=1";
   "-Dmain=sqlodin_sqlite_shell"; "-DSQLITE_SHELL_INIT_PROC=sqlodin_shell_init"]%string.
Definition HELPER_FLAGS : list pystr := py <$> ["-O2"; "-fPIC"; "-D_XOPEN_SOURCE=700"; "-D_DARWIN_C_SOURCE"; "-D_DEFAULT_SOURCE"]%string.
(** A missing program is [None] in the argument list. *)
Definition program (found : option pystr) : Hm (W := W) pystr :=
  match found with Some path => ret path | None => throw (TypeError "expected str, bytes or os.PathLike object, not NoneType") end.
Definition shell_compile (cc : pystr) (flags : list pystr) (source object : pystr) : Hm (W := W) unit :=
  run ([cc] ++ flags ++ [py "-I"; OUT; py "-c"; source; py "-o"; object]).
Definition build_shell : Hm (W := W) unit :=
  let! expected := lift (let? shell := pin_of "sqlite_shell" in let? files := vget "files" shell in pin_text "shell.c" files) in
  let! source := pinned_shell_source in
  do! io_res (n_write_bytes (out (py "shell.c")) source);;
  let! cc := getenv_or "CC" "cc" in let! cc := gets (n_which cc) in
  let! ar := getenv_or "AR" "ar" in let! ar := gets (n_which ar) in
  let! cc := program cc in
  do! shell_compile cc SHELL_FLAGS (out (py "shell.c")) (out (py "shell.o"));;
  let helper := join_path ROOT (py "internal/shell/local.c") in
  do! shell_compile cc HELPER_FLAGS helper (out (py "shell_init.o"));;
  let target := out (py "libsqlodin_shell.new.a") in
  do! io_res (n_unlink target);;
  let! ar := program ar in
  do! run [ar; py "rcs"; target; out (py "shell.o"); out (py "shell_init.o")];;
  do! io_res (h_replace target (out (py "libsqlodin_shell.a")));;
  let! version := lift (let? pin := pin_of "sqlite" in vget "version" pin) in
  let! helped := file_sha256 helper in
  let! builder := file_sha256 (join_path ROOT (py "tools/build_shell.py")) in
  let! text := check_output [cc; py "--version"] [] None in
  let! compiler := lift (list_index (splitlines text) 0) in
  let! archive := file_sha256 (out (py "libsqlodin_shell.a")) in
  io_res (h_write_json (out (py "shell-build.json")) (Obj (fields [("sqlite_version", J version); ("source_sha256", tstr expected); ("helper_sha256", tstr helped);
    ("flags", Arr (tstr <$> SHELL_FLAGS)); ("builder_sha256", tstr builder); ("compiler", tstr compiler); ("archive_sha256", tstr archive)]%string))).
Definition shell_main : Hm (W := W) unit :=
  do! io_res (h_mkdir OUT);;
  do! io_res (n_lock (out (py ".build.lock")));;
  build_shell.
End NativeBuild.

(** ** Members stay where they are extracted *)

(** A path from a directory, ['..'] leading to its parent. *)
Definition resolved (dir ps : list pystr) : list pystr := foldl (fun at_ p => if pyeqb p (py "..") then removelast at_ else at_ ++ [p]) dir ps.
Definition inside (m : TarMember) : Prop :=
  is_absolute (tm_name m) = false /\ (tm_file m || tm_dir m) = true /\ forall dir, exists rest, resolved dir (parts (tm_name m)) = dir ++ rest.

Lemma safe_inside m : safe_member m = true -> inside m.
Proof.
  unfold safe_member. intros [[Ha%negb_true_iff Hd%negb_true_iff]%andb_true_iff Hk]%andb_true_iff. split; [exact Ha|]. split; [exact Hk|].
  unfold resolved. revert Hd. generalize (parts (tm_name m)) as ps. induction ps as [|p ps IH]; intros Hd dir; [exists []; by rewrite app_nil_r|].
  cbn [str_in existsb] in Hd. apply orb_false_iff in Hd as [Hp Hps]. cbn [foldl].
  destruct (pyeqb p (py "..")) eqn:E; [apply pyeqb_eq in E; subst p; discriminate Hp|].
  destruct (IH Hps (dir ++ [p])) as [rest Hr]. exists (p :: rest). rewrite Hr. by rewrite <-app_assoc.
Qed.

(** ** Nothing but what is named

    A predicate on the world that the ordinary steps of a build keep: Release
    uses it for what is kept by all steps but the one it is about. *)
Class Confined {W : Type} `{BuildHost W} (I : W -> Prop) := {
  c_mkdir p : stays I (io_res (h_mkdir p)); c_is_file p : stays I (io (h_is_file p));
  c_read_bytes p : stays I (io_res (h_read_bytes p)); c_read_text p : stays I (io_res (h_read_text p));
  c_write_text p t : stays I (io_res (h_write_text p t)); c_write_json p x : stays I (io_res (h_write_json p x));
  c_run a d t : stays I (io_res (h_run a d t)); c_print t : stays I (io_do (h_print t));
  c_replace p q : stays I (io_res (h_replace p q)); c_mkdtemp p d : stays I (io_res (h_mkdtemp p d)); c_remove p : stays I (io_res (h_remove p));
  c_urlopen u : stays I (io_res (n_urlopen u)); c_tempfile d : stays I (io_res (n_tempfile d)); c_fetch r p : stays I (io_res (n_fetch r p));
  c_unlink p : stays I (io_res (n_unlink p)); c_zip_names p : stays I (io_res (n_zip_names p)); c_zip_read p n : stays I (io_res (n_zip_read p n));
  c_tar p : stays I (io_res (n_tar_members p)); c_run_in a d e x l : stays I (io_res (n_run_in a d e x l));
  c_copy p q : stays I (io_res (n_copy p q)); c_lock p : stays I (io_res (n_lock p))
}.

Create HintDb confined.
#[export] Hint Resolve c_mkdir c_is_file c_read_bytes c_read_text c_write_text c_write_json c_run c_print c_replace c_mkdtemp c_remove
  c_urlopen c_tempfile c_fetch c_unlink c_zip_names c_zip_read c_tar c_run_in c_copy c_lock stays_ret stays_throw stays_lift stays_gets : confined.

Ltac confine :=
  repeat lazymatch goal with
  | |- stays _ (bind _ _) => apply stays_bind; [|intros ?]
  | |- stays _ (try_finally _ _) => apply stays_finally
  | |- stays _ (for_each _ _ _) => apply stays_for_each; intros ? ?
  | |- stays _ (match ?x with _ => _ end) => destruct x
  | |- stays _ _ => solve [auto with confined]
  end.

Section Confined.
Context {W : Type} `{BuildHost W} (I : W -> Prop) `{!Confined I}.

Lemma stays_sha256 path : stays I (file_sha256 path).
Proof. unfold file_sha256. confine. Qed.
Lemma stays_print t : stays I (print_line t).
Proof. apply c_print. Qed.
Lemma stays_exit {A} m : stays I (exit_with m : Hm A).
Proof. apply stays_throw. Qed.
Lemma stays_checked a d t : stays I (run_checked a d t).
Proof. unfold run_checked. confine. Qed.
Lemma stays_json path : stays I (read_json path).
Proof. unfold read_json. confine. Qed.
#[local] Hint Resolve stays_sha256 stays_print stays_exit stays_checked stays_json : confined.
Lemma stays_run a : stays I (run a).
Proof. unfold run. confine. Qed.
Lemma stays_output a d t : stays I (check_output a d t).
Proof. unfold check_output. confine. Qed.
End Confined.

Section Digest.
Context {W : Type} `{BuildHost W}.
Lemma returns_sha256 path : returns (file_sha256 (W := W) path) (fun d => exists data (w w' : W), h_read_bytes path w = (Ok data, w') /\ h_sha256 data = d).
Proof.
  intros w. unfold file_sha256. apply wp_bind, wp_io_res. intros [data|e|] w' E; [|done..]. apply wp_ret. intros d [= <-]. by exists data, w, w'.
Qed.
End Digest.

(** ** Reuse of what was built *)

Section Reuse.
Context {W : Type} `{BuildHost W} (ROOT : pystr).

(** A digest read of a file of the output directory. *)
Definition digest_of (name : pystr) (digest : pyval) : Prop :=
  exists data (w w' : W), h_read_bytes (out ROOT name) w = (Ok data, w') /\ digest = PStr (h_sha256 data).

Lemma returns_artifacts files :
  returns (artifacts (W := W) ROOT files) (fun d => forall name digest, dict_get name d = Some digest -> name ∈ files /\ digest_of name digest).
Proof.
  unfold artifacts. eapply (returns_for_each (fun pre d => forall name digest, dict_get name d = Some digest -> name ∈ pre /\ digest_of name digest)).
  - by intros name digest.
  - intros pre name d Hd. eapply returns_bind; [apply returns_sha256|]. intros digest (data & w & w' & Hr & <-). apply returns_ret.
    intros name' digest'. rewrite dict_get_set. destruct (pyeqb name' name) eqn:E.
    + apply pyeqb_eq in E. subst name'. intros [= <-]. split; [apply elem_of_app; right; left|]. by exists data, w, w'.
    + intros Hg. destruct (Hd _ _ Hg) as [H1 H2]. split; [apply elem_of_app; by left|done].
  - auto.
Qed.

(** What was built is reused only with a record of the same inputs and of the
    digests the files have now. *)
Lemma cached_current path inputs files :
  returns (cached (W := W) ROOT path inputs files)
    (fun b => b = true -> exists found kept digests, json_eq found inputs = true /\ json_eq kept (PDict digests) = true /\
       forall name digest, dict_get name digests = Some digest -> name ∈ files /\ digest_of name digest).
Proof.
  unfold cached. apply returns_except.
  - unfold recorded. apply returns_then. intros old. apply returns_then. intros found. destruct (json_eq found inputs) eqn:E; [|by apply returns_ret].
    apply returns_then. intros kept. eapply returns_bind; [apply returns_artifacts|]. intros digests Hd. apply returns_ret. intros Hk. by exists found, kept, digests.
  - intros e k. destruct (_ || _); [|done]. intros [= <-]. by apply returns_ret.
Qed.
End Reuse.

(** ** What is on disk when the compiler runs *)

(** [argv] compiles [source]; running [argv] writes [p]. *)
Definition compiles (argv : list pystr) (source : pystr) : Prop :=
  exists program before after, argv = program :: before ++ py "-c" :: source :: after.
Definition writes_to (argv : list pystr) (p : pystr) : Prop :=
  (exists program before after, argv = program :: before ++ py "-o" :: p :: after) \/
  (exists program rest, argv = program :: py "rcs" :: p :: rest).
Definition Files : Type := pystr -> option (list Z).

(** What the scripts rely on of the disk and the tools they run. [file] is the
    content of a path; [runs] are the commands run so far, each with the files
    it found; [extractions] the archives extracted, with the directory and the
    files. A compiler writes what follows [-o], [ar rcs] its archive; what is
    run inside the extracted sources stays inside them, its log apart; a name
    made by [tempfile] is one in its directory. *)
Class BuildFiles (W : Type) `{BuildHost W} := {
  file : W -> Files;
  runs : W -> list (list pystr * Files);
  extractions : W -> list (pystr * pystr * Files);
  tar_listing : list Z -> pyres (list TarMember);
  (** only paths in [S] change, and no command or extraction is added *)
  changes {A} (f : W -> A * W) (S : pystr -> Prop) : Prop :=
    forall w, runs (f w).2 = runs w /\ extractions (f w).2 = extractions w /\ forall p, ~ S p -> file (f w).2 p = file w p;
  f_mkdir p : changes (h_mkdir p) (fun _ => False);
  f_lock p : changes (n_lock p) (eq p);
  f_is_file p : changes (h_is_file p) (fun _ => False);
  f_read_bytes p : changes (h_read_bytes p) (fun _ => False);
  f_read_text p : changes (h_read_text p) (fun _ => False);
  f_write_text p t : changes (h_write_text p t) (eq p);
  f_write_bytes p d : changes (n_write_bytes p d) (eq p);
  f_write_json p x : changes (h_write_json p x) (eq p);
  f_print t : changes (fun w => (tt, h_print t w)) (fun _ => False);
  f_replace p q : changes (h_replace p q) (fun x => x = p \/ x = q);
  f_mkdtemp p d : changes (h_mkdtemp p d) (fun _ => False);
  f_remove p : changes (h_remove p) (fun x => exists rest, x = join_path p rest);
  f_urlopen u : changes (n_urlopen u) (fun _ => False);
  f_tempfile d : changes (n_tempfile d) (fun x => exists name, x = join_path d name);
  f_fetch r p : changes (n_fetch r p) (eq p);
  f_unlink p : changes (n_unlink p) (eq p);
  f_zip_names p : changes (n_zip_names p) (fun _ => False);
  f_zip_read p n : changes (n_zip_read p n) (fun _ => False);
  f_tar p : changes (n_tar_members p) (fun _ => False);
  f_copy p q : changes (n_copy p q) (eq q);
  f_run_in argv cwd e x log : changes (n_run_in argv cwd e x log) (fun p => p = log \/ exists rest, p = join_path cwd rest);
  read_content p w data : (h_read_bytes p w).1 = Ok data -> file w p = Some data;
  written_bytes p data w : (n_write_bytes p data w).1 = Ok tt -> file (n_write_bytes p data w).2 p = Some data;
  written_text p t w : (h_write_text p t w).1 = Ok tt -> file (h_write_text p t w).2 p = utf8_encode t;
  tempfile_name d w p : (n_tempfile d w).1 = Ok p -> exists name, p = join_path d name;
  tar_content p w members : (n_tar_members p w).1 = Ok members -> exists data, file w p = Some data /\ tar_listing data = Ok members;
  run_recorded argv d t w :
    runs (h_run argv d t w).2 = runs w ++ [(argv, file w)] /\ extractions (h_run argv d t w).2 = extractions w /\
    forall p, ~ writes_to argv p -> file (h_run argv d t w).2 p = file w p;
  extract_recorded a s w :
    extractions (n_extract a s w).2 = extractions w ++ [(a, s, file w)] /\ runs (n_extract a s w).2 = runs w /\
    forall p, (forall rest, p <> join_path s rest) -> file (n_extract a s w).2 p = file w p
}.

(** The files a compilation makes itself. *)
Definition MADE : list pystr := py <$>
  ["sqlite3.o"; "libsqlite3.new.a"; "libsqlite3.a"; "sqlite-vec-build.c"; "sqlite-vec.o"; "libsqlite_vec.new.a"; "libsqlite_vec.a"]%string.
(** The sources pinned for SQLite and for sqlite-vec, by name: every name once,
    and none of a file made here. *)
Record pinned_names (PINS : pyval) (sqlite vec : list (pystr * pystr)) : Prop := {
  pinned_sqlite : (let? pin := pin_of PINS "sqlite" in pin_files pin) = Ok sqlite;
  pinned_vec : (let? pin := pin_of PINS "vec" in pin_files pin) = Ok vec;
  pinned_once : NoDup (sqlite ++ vec).*1;
  pinned_apart : Forall (fun name => name ∉ MADE) (sqlite ++ vec).*1
}.

Section OnDisk.
Context {W : Type} `{BuildFiles W} (ROOT : pystr) (PINS : pyval) (sqlite vec : list (pystr * pystr)).

(** [path] holds data with a digest. *)
Definition has_digest (files : Files) (path digest : pystr) : Prop := exists data, files path = Some data /\ h_sha256 data = digest.

Definition sources_pinned (files : Files) : Prop :=
  forall name digest, (name, digest) ∈ sqlite ++ vec -> has_digest files (out ROOT name) digest.
Definition shell_pinned (files : Files) : Prop :=
  forall shell fs digest, pin_of PINS "sqlite_shell" = Ok shell -> vget "files" shell = Ok fs -> pin_text "shell.c" fs = Ok digest ->
    has_digest files (out ROOT (py "shell.c")) digest.

(** What a compilation may find: SQLite's own file, or the one file that includes
    sqlite-vec's and adds the identity of the pins, with every source of both as
    pinned; the pinned shell; or the repository's own helper. *)
Definition source_allowed (source : pystr) (files : Files) : Prop :=
  (source = out ROOT (py "sqlite3.c") /\ sources_pinned files) \/
  (source = out ROOT (py "sqlite-vec-build.c") /\ sources_pinned files /\
     exists identity, vec_identity PINS = Ok identity /\ files source = utf8_encode (stamped identity)) \/
  (source = out ROOT (py "shell.c") /\ shell_pinned files) \/
  source = join_path ROOT (py "internal/shell/local.c").
Definition run_allowed (x : list pystr * Files) : Prop := forall source, compiles x.1 source -> source_allowed source x.2.
(** An extraction: of an archive with the pinned digest, all of whose members stay inside. *)
Definition extraction_allowed (x : pystr * pystr * Files) : Prop :=
  exists pin data members, pin_of PINS "openssl" = Ok pin /\ x.2 x.1.1 = Some data /\ tar_listing data = Ok members /\ Forall inside members /\
    forall digest, pinned_sha pin = Ok (Some digest) -> h_sha256 data = digest.

(** *** Files that are there *)

(** The history so far, and what some paths hold. *)
Definition Kept : Type := list (pystr * (option (list Z) -> Prop)).
Definition good (K : Kept) (w : W) : Prop :=
  Forall run_allowed (runs w) /\ Forall extraction_allowed (extractions w) /\ Forall (fun x => x.2 (file w x.1)) K.
Definition clear (K : Kept) (S : pystr -> Prop) : Prop := Forall (fun x => ~ S x.1) K.

Lemma good_weaken K K' w : good (K ++ K') w -> good K w /\ good K' w.
Proof. intros (H1 & H2 & [H3 H4]%Forall_app). by split. Qed.
Lemma changes_good {A} (f : W -> A * W) S K : changes f S -> clear K S -> forall w, good K w -> good K (f w).2.
Proof.
  intros Hf Hc w (H1 & H2 & H3). destruct (Hf w) as (E1 & E2 & E3). split; [by rewrite E1|]. split; [by rewrite E2|].
  apply Forall_forall. intros x Hx. rewrite E3; [exact (proj1 (Forall_forall _ _) H3 x Hx)|exact (proj1 (Forall_forall _ _) Hc x Hx)].
Qed.
Lemma quiet_res {A} (f : W -> pyres A * W) S K : changes f S -> clear K S -> stays (good K) (io_res f).
Proof. intros Hf Hc w Hw. apply wp_io_res. intros r w' E. pose proof (changes_good f S K Hf Hc w Hw) as Hg. by rewrite E in Hg. Qed.
Lemma quiet_io {A} (f : W -> A * W) S K : changes f S -> clear K S -> stays (good K) (io f).
Proof. intros Hf Hc w Hw. apply wp_io. intros r w' E. pose proof (changes_good f S K Hf Hc w Hw) as Hg. by rewrite E in Hg. Qed.
Lemma clear_none K : clear K (fun _ => False).
Proof. apply Forall_forall. by intros x _ []. Qed.
Lemma quiet_print t K : stays (good K) (print_line t).
Proof. intros w Hw. apply wp_modify. exact (changes_good _ _ K (f_print t) (clear_none K) w Hw). Qed.
(** *** Paths *)

Lemma out_inj a b : out ROOT a = out ROOT b -> a = b.
Proof. unfold out, join_path. intros E%app_inv_head. by injection E. Qed.
Lemma cache_out a b : join_path (CACHE ROOT) a <> out ROOT b.
Proof. unfold out, CACHE, OUT, join_path. rewrite <-!app_assoc. intros E%app_inv_head. discriminate E. Qed.

(** What the sources written so far hold. *)
Definition holding (l : list (pystr * pystr)) : Kept :=
  (fun x => (out ROOT x.1, fun o => exists data, o = Some data /\ h_sha256 data = x.2)) <$> l.
Lemma holding_app l l' : holding (l ++ l') = holding l ++ holding l'.
Proof. apply fmap_app. Qed.
Lemma clear_holding l S : (forall name, name ∈ l.*1 -> ~ S (out ROOT name)) -> clear (holding l) S.
Proof.
  intros HS. apply Forall_forall. intros x (y & -> & Hy)%list_elem_of_fmap. apply HS, list_elem_of_fmap. by exists y.
Qed.
Lemma good_holding l w : good (holding l) w -> forall name digest, (name, digest) ∈ l -> has_digest (file w) (out ROOT name) digest.
Proof.
  intros (_ & _ & HK) name digest Hin.
  apply (proj1 (Forall_forall _ _) HK (out ROOT name, fun o => exists data, o = Some data /\ h_sha256 data = digest)).
  apply list_elem_of_fmap. by exists (name, digest).
Qed.

(** *** Steps *)

Definition in_cache (p : pystr) : Prop := exists name, p = join_path (CACHE ROOT) name.
Lemma clear_cache l : clear (holding l) in_cache.
Proof. apply clear_holding. intros name _ [n E]. by apply (cache_out n name). Qed.
Lemma clear_sub K (S T : pystr -> Prop) : clear K S -> (forall x, T x -> S x) -> clear K T.
Proof. intros Hc Hs. eapply Forall_impl; [exact Hc|]. cbv beta. auto. Qed.

Section Steps.
Context (K : Kept).

Lemma quiet_sha256 path : stays (good K) (file_sha256 path).
Proof. unfold file_sha256. apply stays_bind; [eapply quiet_res; [apply f_read_bytes|apply clear_none]|intros; apply stays_ret]. Qed.
Lemma quiet_json path : stays (good K) (read_json path).
Proof. unfold read_json. apply stays_bind; [eapply quiet_res; [apply f_read_text|apply clear_none]|intros; apply stays_lift]. Qed.
Lemma quiet_artifacts files : stays (good K) (artifacts ROOT files).
Proof. unfold artifacts. apply stays_for_each. intros name acc. apply stays_bind; [apply quiet_sha256|intros; apply stays_ret]. Qed.
Lemma quiet_exit {A} m : stays (good K) (exit_with m : Hm (W := W) A).
Proof. apply stays_throw. Qed.

Lemma run_good argv d t :
  (forall w, good K w -> run_allowed (argv, file w)) -> clear K (writes_to argv) -> stays (good K) (io_res (h_run argv d t)).
Proof.
  intros Hr Hc w Hw. apply wp_io_res. intros r w' E. destruct (run_recorded argv d t w) as (E1 & E2 & E3). rewrite E in E1, E2, E3. cbn [snd] in *.
  pose proof (Hr w Hw) as Hrun. destruct Hw as (H1 & H2 & H3). split; [rewrite E1; apply Forall_app; split; [exact H1|by constructor]|]. split; [by rewrite E2|].
  apply Forall_forall. intros x Hx. rewrite E3; [exact (proj1 (Forall_forall _ _) H3 x Hx)|exact (proj1 (Forall_forall _ _) Hc x Hx)].
Qed.
Lemma checked_good argv d t :
  (forall w, good K w -> run_allowed (argv, file w)) -> clear K (writes_to argv) -> stays (good K) (run_checked argv d t).
Proof. intros Hr Hc. unfold run_checked. apply stays_bind; [by apply run_good|]. intros f. case_match; [apply stays_throw|apply stays_ret]. Qed.

(** Asking the compiler for its version compiles and writes nothing. *)
Lemma version_good cc d t : stays (good K) (check_output [cc; py "--version"] d t).
Proof.
  unfold check_output. apply stays_bind; [apply checked_good|intros; apply stays_ret].
  - intros w _ source (program & before & after & E). injection E as _ E. by destruct before as [|x [|y before]].
  - apply Forall_forall. intros x _ [(program & before & after & E)|(program & rest & E)]; [injection E as _ E; by destruct before as [|b [|b2 before]]|].
    injection E as _ E. done.
Qed.

Hypothesis (Hcache : clear K in_cache).
Lemma fetch_good url name : stays (good K) (fetch ROOT url (join_path (CACHE ROOT) name)).
Proof.
  unfold fetch. apply stays_bind; [eapply quiet_res; [apply f_urlopen|apply clear_none]|intros response].
  apply (stays_value _ in_cache); [eapply quiet_res; [apply f_tempfile|exact Hcache]| |].
  { intros w. apply wp_io_res. intros r w' E p ->. apply (tempfile_name (CACHE ROOT) w). by rewrite E. }
  intros temporary Ht. assert (Hc : clear K (eq temporary)) by (eapply clear_sub; [exact Hcache|by intros x <-]).
  apply stays_bind; [apply stays_except; [eapply quiet_res; [apply f_fetch|exact Hc]|]|intros _].
  - intros e k [= <-]. apply stays_bind; [eapply quiet_res; [apply f_unlink|exact Hc]|intros; apply stays_throw].
  - eapply quiet_res; [apply f_replace|]. eapply clear_sub; [exact Hcache|]. intros x [-> | ->]; [exact Ht|by exists name].
Qed.
Lemma download_good pin offline : stays (good K) (download ROOT pin offline).
Proof.
  unfold download. apply stays_bind; [eapply quiet_res; [apply f_mkdir|apply clear_none]|intros _].
  apply stays_bind; [apply stays_lift|intros url]. apply stays_bind; [apply stays_lift|intros name]. cbv zeta.
  apply stays_bind; [eapply quiet_io; [apply f_is_file|apply clear_none]|intros there].
  apply stays_bind; [|intros _].
  { destruct there; [apply stays_ret|]. destruct offline; [apply stays_throw|]. apply stays_bind; [apply quiet_print|intros _; apply fetch_good]. }
  apply stays_bind; [apply stays_lift|intros [expected|]]; [|apply stays_ret].
  apply stays_bind; [apply quiet_sha256|intros digest]. destruct (pyeqb digest expected); [apply stays_ret|apply stays_throw].
Qed.
End Steps.
(** *** Commands *)

Lemma unique_split {A} (x : A) l r l' r' : x ∉ l' -> x ∉ r' -> l ++ x :: r = l' ++ x :: r' -> r = r'.
Proof.
  revert l'. induction l as [|y l IH]; intros [|z l'] Hl Hr; cbn [app].
  - by intros [= ->].
  - intros [= <- _]. by destruct Hl; left.
  - intros [= -> <-]. destruct Hr. apply elem_of_app. right. left.
  - intros [= _ E]. eapply IH; [|exact Hr|exact E]. intros Hx. apply Hl. by right.
Qed.

(** The words that say what a command does. *)
Definition plain_words (l : list pystr) : Prop := forall x, x ∈ l -> x ∉ py <$> ["-c"; "-o"; "rcs"]%string.
Lemma plain_long l : Forall (fun x => (3 < length x)%nat) l -> plain_words l.
Proof.
  intros Hl x Hx Hin. pose proof (proj1 (Forall_forall _ _) Hl x Hx) as Hlen.
  repeat (apply elem_of_cons in Hin as [->|Hin]; [cbn in Hlen; lia|]). by apply elem_of_nil in Hin.
Qed.
Lemma plain_flags l : forallb (fun x => negb (str_in x (py <$> ["-c"; "-o"; "rcs"]%string))) l = true -> plain_words l.
Proof.
  intros Hl x Hx Hin. apply (proj1 (forallb_forall _ _) Hl), negb_true_iff in Hx || (apply list_elem_of_In in Hx; apply (proj1 (forallb_forall _ _) Hl), negb_true_iff in Hx).
  apply str_in_spec in Hin. congruence.
Qed.

Definition cc_argv (cc : pystr) (flags : list pystr) (dir source object : pystr) : list pystr :=
  [cc] ++ flags ++ [py "-I"; dir; py "-c"; source; py "-o"; object].
Lemma cc_compiles cc flags dir source object s :
  plain_words flags -> plain_words [dir; source; object] -> compiles (cc_argv cc flags dir source object) s -> s = source.
Proof.
  intros Hf Hd (program & before & after & E).
  assert (E' : before ++ py "-c" :: s :: after = (flags ++ [py "-I"; dir]) ++ py "-c" :: [source; py "-o"; object]).
  { rewrite <-app_assoc. by injection E. }
  apply unique_split in E'; [by injection E'| |].
  - intros [Hx|Hx]%elem_of_app; [by apply (Hf _ Hx); left|]. apply elem_of_cons in Hx as [Hx|Hx%list_elem_of_singleton]; [done|].
    by apply (Hd dir); [left|rewrite <-Hx; left].
  - intros Hx. apply elem_of_cons in Hx as [Hx|Hx]; [by apply (Hd source); [right; left|rewrite <-Hx; left]|].
    apply elem_of_cons in Hx as [Hx|Hx%list_elem_of_singleton]; [done|]. by apply (Hd object); [right; right; left|rewrite <-Hx; left].
Qed.
Lemma cc_writes cc flags dir source object p :
  plain_words flags -> plain_words [dir; source; object] -> writes_to (cc_argv cc flags dir source object) p -> p = object.
Proof.
  intros Hf Hd [(program & before & after & E)|(program & rest & E)].
  - assert (E' : before ++ py "-o" :: p :: after = (flags ++ [py "-I"; dir; py "-c"; source]) ++ py "-o" :: [object]).
    { rewrite <-app_assoc. by injection E. }
    apply unique_split in E'; [by injection E'| |].
    + intros [Hx|Hx]%elem_of_app; [by apply (Hf _ Hx); right; left|]. apply elem_of_cons in Hx as [Hx|Hx]; [done|].
      apply elem_of_cons in Hx as [Hx|Hx]; [by apply (Hd dir); [left|rewrite <-Hx; right; left]|]. apply elem_of_cons in Hx as [Hx|Hx%list_elem_of_singleton]; [done|].
      by apply (Hd source); [right; left|rewrite <-Hx; right; left].
    + intros Hx%list_elem_of_singleton. by apply (Hd object); [right; right; left|rewrite <-Hx; right; left].
  - destruct flags as [|f flags]; [done|]. exfalso. assert (Hx : f = py "rcs") by by injection E.
    apply (Hf f); [left|]. rewrite Hx. right. right. left.
Qed.
Definition ar_argv (ar target : pystr) (objects : list pystr) : list pystr := [ar; py "rcs"; target] ++ objects.
Lemma ar_compiles ar target objects s : plain_words (target :: objects) -> ~ compiles (ar_argv ar target objects) s.
Proof.
  intros Hp (program & before & after & E). destruct before as [|x before]; [done|].
  assert (E' : target :: objects = before ++ py "-c" :: s :: after) by by injection E.
  apply (Hp (py "-c")); [|left]. rewrite E'. apply elem_of_app. right. left.
Qed.
Lemma ar_writes ar target objects p : plain_words (target :: objects) -> writes_to (ar_argv ar target objects) p -> p = target.
Proof.
  intros Hp [(program & before & after & E)|(program & rest & E)]; [|by injection E].
  destruct before as [|x before]; [done|]. assert (E' : target :: objects = before ++ py "-o" :: p :: after) by by injection E.
  exfalso. apply (Hp (py "-o")); [|right; left]. rewrite E'. apply elem_of_app. right. left.
Qed.
(** *** The sources *)

Lemma stays_wp {A} K (m : Hm (W := W) A) (Q : pyres A -> W -> Prop) w :
  good K w -> stays (good K) m -> wp m Q w -> wp m (fun r w' => good K w' /\ Q r w') w.
Proof. intros Hw Hm HQ. apply wp_and; [by apply Hm|exact HQ]. Qed.

Lemma archived_good K archive name : stays (good K) (archived archive name).
Proof.
  unfold archived. apply stays_bind; [eapply quiet_res; [apply f_zip_names|apply clear_none]|intros names].
  destruct (filter _ names) as [|entry [|]]; [apply stays_throw| |apply stays_throw]. eapply quiet_res; [apply f_zip_read|apply clear_none].
Qed.
Lemma write_source_good l directory archive name expected w :
  good (holding l) w -> name ∉ l.*1 ->
  wp (write_source ROOT directory archive name expected)
     (fun r w' => good (holding l) w' /\ (r = Ok tt -> good (holding (l ++ [(name, expected)])) w')) w.
Proof.
  intros Hw Hn. unfold write_source. apply wp_bind. eapply wp_mono with (P := fun _ w' => good (holding l) w').
  { destruct directory as [d|]; [|by apply archived_good]. eapply quiet_res; [apply f_read_bytes|apply clear_none|exact Hw]. }
  intros [data|e|] w1 H1; [|by split..]. destruct (pyeqb (h_sha256 data) expected) eqn:E; [|by apply wp_throw]. apply pyeqb_eq in E.
  apply wp_io_res. intros r w2 E2.
  assert (Hc : clear (holding l) (eq (out ROOT name))). { apply clear_holding. intros n Hin Ho. apply out_inj in Ho. by subst n. }
  pose proof (changes_good _ _ _ (f_write_bytes (out ROOT name) data) Hc w1 H1) as H2. pose proof (written_bytes (out ROOT name) data w1) as Hd.
  rewrite E2 in H2, Hd. cbn [fst snd] in *. split; [exact H2|]. intros ->. rewrite holding_app. destruct H2 as (G1 & G2 & G3).
  split; [exact G1|]. split; [exact G2|]. apply Forall_app. split; [exact G3|]. constructor; [|constructor]. cbn [fst snd].
  exists data. by split; [apply Hd|].
Qed.

Lemma write_sources_good directory archive files l w :
  good (holding l) w -> NoDup (l ++ files).*1 ->
  wp (for_do files (fun '(name, expected) => write_source ROOT directory archive name expected))
     (fun r w' => good [] w' /\ (r = Ok tt -> good (holding (l ++ files)) w')) w.
Proof.
  revert l w. induction files as [|[name expected] files IH]; intros l w Hw Hd; cbn [for_do].
  { apply wp_ret. rewrite app_nil_r. split; [by apply (good_weaken [] (holding l))|done]. }
  assert (Hn : name ∉ l.*1).
  { rewrite fmap_app in Hd. apply NoDup_app in Hd as (_ & Hd & _). intros Hin. apply (Hd _ Hin). left. }
  apply wp_bind. eapply wp_mono; [by apply write_source_good|]. intros [[]|e|] w1 [H1 H2]; [|by split; [apply (good_weaken [] (holding l))|]..].
  specialize (H2 eq_refl). eapply wp_mono; [apply IH; [exact H2|by rewrite <-app_assoc]|]. by rewrite <-app_assoc.
Qed.
Lemma sources_good kind directory offline files l w :
  good (holding l) w -> (let? pin := pin_of PINS kind in pin_files pin) = Ok files -> NoDup (l ++ files).*1 ->
  wp (sources ROOT PINS kind directory offline) (fun r w' => good [] w' /\ (r = Ok tt -> good (holding (l ++ files)) w')) w.
Proof.
  intros Hw Hf Hd. apply res_bind_Ok in Hf as (pin & Hp & Hf). assert (Hw0 : forall w, good (holding l) w -> good [] w) by (intros w0; apply (good_weaken [] (holding l))).
  unfold sources. apply wp_bind, wp_lift. rewrite Hp. apply wp_bind. eapply wp_mono with (P := fun _ w' => good (holding l) w').
  { destruct directory; [by apply wp_ret|]. apply download_good; [apply clear_cache|exact Hw]. }
  intros [archive|e|] w1 H1; [|by split; [apply Hw0|]..]. apply wp_bind, wp_lift. rewrite Hf. by apply write_sources_good.
Qed.

(** *** The compilations *)

Lemma long_out name : (3 < length (out ROOT name))%nat.
Proof. unfold out, OUT, join_path. rewrite !length_app. cbn. lia. Qed.
Lemma long_OUT : (3 < length (OUT ROOT))%nat.
Proof. unfold OUT, join_path. rewrite !length_app. cbn. lia. Qed.
Lemma cc_good K cc flags source object :
  plain_words flags -> (3 < length source)%nat -> (forall w, good K w -> source_allowed source (file w)) -> clear K (eq (out ROOT object)) ->
  stays (good K) (run (cc_argv cc flags (OUT ROOT) source (out ROOT object))).
Proof.
  intros Hf Hs Ha Hc. assert (Hp : plain_words [OUT ROOT; source; out ROOT object]).
  { apply plain_long. repeat constructor; [apply long_OUT|exact Hs|apply long_out]. }
  unfold run. apply stays_bind; [apply checked_good|intros; apply stays_ret].
  - intros w Hw s Hcomp. apply cc_compiles in Hcomp; [|done..]. subst s. by apply Ha.
  - eapply clear_sub; [exact Hc|]. intros x Hx. by apply cc_writes in Hx.
Qed.
Lemma ar_good K ar target objects :
  Forall (fun x => (3 < length x)%nat) objects -> clear K (eq (out ROOT target)) -> stays (good K) (run (ar_argv ar (out ROOT target) objects)).
Proof.
  intros Ho Hc. assert (Hp : plain_words (out ROOT target :: objects)) by (apply plain_long; constructor; [apply long_out|exact Ho]).
  unfold run. apply stays_bind; [apply checked_good|intros; apply stays_ret].
  - intros w _ s Hcomp. exfalso. by eapply ar_compiles.
  - eapply clear_sub; [exact Hc|]. intros x Hx. symmetry. by eapply ar_writes.
Qed.

Hypothesis (Hpins : pinned_names PINS sqlite vec).
Definition all_sources : Kept := holding (sqlite ++ vec).
Lemma clear_made name : name ∈ MADE -> clear all_sources (eq (out ROOT name)).
Proof.
  intros Hn. apply clear_holding. intros x Hx Ho. apply out_inj in Ho. subst x.
  exact (proj1 (Forall_forall _ _) (pinned_apart _ _ _ Hpins) _ Hx Hn).
Qed.

(** What follows the writing of a source: compile, archive, publish. *)
Lemma archive_good K c flags source name library :
  plain_words flags -> (3 < length source)%nat -> (forall w, good K w -> source_allowed source (file w)) ->
  clear K (eq (out ROOT (py name ++ py ".o"))) -> clear K (eq (out ROOT (py "lib" ++ py library ++ py ".new.a"))) ->
  clear K (eq (out ROOT (py "lib" ++ py library ++ py ".a"))) ->
  stays (good K) (do! run ([tc_cc c] ++ flags ++ [py "-I"; OUT ROOT; py "-c"; source; py "-o"; out ROOT (py name ++ py ".o")]);;
    do! io_res (n_unlink (out ROOT (py "lib" ++ py library ++ py ".new.a")));;
    do! run [tc_ar c; py "rcs"; out ROOT (py "lib" ++ py library ++ py ".new.a"); out ROOT (py name ++ py ".o")];;
    io_res (h_replace (out ROOT (py "lib" ++ py library ++ py ".new.a")) (out ROOT (py "lib" ++ py library ++ py ".a")))).
Proof.
  intros Hf Hs Ha H1 H2 H3. apply stays_bind; [by apply cc_good|intros _]. apply stays_bind; [eapply quiet_res; [apply f_unlink|exact H2]|intros _].
  apply stays_bind; [apply (ar_good _ _ _ [_]); [by constructor; [apply long_out|constructor]|exact H2]|intros _].
  eapply quiet_res; [apply f_replace|]. apply Forall_forall. intros x Hx [E|E].
  - exact (proj1 (Forall_forall _ _) H2 x Hx (eq_sym E)).
  - exact (proj1 (Forall_forall _ _) H3 x Hx (eq_sym E)).
Qed.
Lemma compile_sqlite_good c : stays (good all_sources) (compile_library ROOT PINS c "sqlite3" "sqlite3" SQLITE_FLAGS).
Proof.
  unfold compile_library. apply stays_bind; [apply quiet_print|intros _]. apply (stays_value _ (fun s => s = out ROOT (py "sqlite3.c"))); [apply stays_ret|by apply returns_ret|].
  intros source ->. cbv zeta. apply archive_good; try (apply clear_made; cbn; set_solver).
  - apply plain_flags. reflexivity.
  - apply long_out.
  - intros w Hw. left. split; [done|exact (good_holding _ _ Hw)].
Qed.
Lemma compile_vec_good c w : good all_sources w -> wp (compile_library ROOT PINS c "sqlite-vec" "sqlite_vec" VEC_FLAGS) (fun _ w' => good [] w') w.
Proof.
  intros Hw. assert (Hw0 : forall w, good all_sources w -> good [] w) by (intros w0; apply (good_weaken [] all_sources)).
  unfold compile_library. apply wp_bind. eapply wp_mono; [by apply quiet_print|]. intros [[]|e|] w1 H1; [|by apply Hw0..].
  apply wp_bind. cbn [String.eqb Ascii.eqb Bool.eqb]. cbv zeta. apply wp_bind, wp_lift.
  destruct (vec_identity PINS) as [identity|e|] eqn:Hid; [|by apply Hw0..]. apply wp_bind, wp_io_res. intros r w2 E2.
  set (stamp := out ROOT (py "sqlite-vec-build.c")) in *.
  assert (Hc : clear all_sources (eq stamp)) by (apply clear_made; cbn; set_solver).
  pose proof (changes_good _ _ _ (f_write_text stamp (stamped identity)) Hc w1 H1) as H2. pose proof (written_text stamp (stamped identity) w1) as Ht.
  rewrite E2 in H2, Ht. cbn [fst snd] in *. destruct r as [[]|e|]; [|by apply Hw0..]. apply wp_ret.
  set (K := all_sources ++ [(stamp, fun o => o = utf8_encode (stamped identity))]).
  assert (HK : good K w2).
  { destruct H2 as (G1 & G2 & G3). split; [exact G1|]. split; [exact G2|]. apply Forall_app. split; [exact G3|]. constructor; [by apply Ht|constructor]. }
  assert (Hclear : forall name, name ∈ MADE -> name <> py "sqlite-vec-build.c" -> clear K (eq (out ROOT name))).
  { intros name Hn Hne. apply Forall_app. split; [by apply clear_made|]. constructor; [|constructor]. cbn [fst]. intros E%out_inj. congruence. }
  eapply wp_mono; [eapply (archive_good K); [..|exact HK]|intros r w3; by apply (good_weaken [] K)].
  - apply plain_flags. reflexivity.
  - apply long_out.
  - intros w4 H4. right. left. split; [done|]. apply good_weaken in H4 as [H4 H5]. split; [exact (good_holding _ _ H4)|]. exists identity. split; [done|].
    destruct H5 as (_ & _ & H5). by inversion H5.
  - apply Hclear; [cbn; set_solver|discriminate].
  - apply Hclear; [cbn; set_solver|discriminate].
  - apply Hclear; [cbn; set_solver|discriminate].
Qed.
(** *** The scripts *)

Lemma cached_good path inputs files : stays (good []) (cached ROOT path inputs files).
Proof.
  unfold cached. apply stays_except.
  - unfold recorded. apply stays_bind; [apply quiet_json|intros old]. apply stays_bind; [apply stays_lift|intros found].
    destruct (json_eq found inputs); [|apply stays_ret]. apply stays_bind; [apply stays_lift|intros kept]. apply stays_bind; [apply quiet_artifacts|intros; apply stays_ret].
  - intros e k. destruct (_ || _); [|done]. intros [= <-]. apply stays_ret.
Qed.
Lemma stale_good force path inputs files : stays (good []) (stale ROOT force path inputs files).
Proof. unfold stale. destruct force; [apply stays_ret|]. apply stays_bind; [apply cached_good|intros; apply stays_ret]. Qed.
Lemma json_good path x : stays (good []) (io_res (h_write_json path x)).
Proof. eapply quiet_res; [apply f_write_json|constructor]. Qed.
Lemma record_good path inputs files : stays (good []) (record ROOT path inputs files).
Proof. unfold record. apply stays_bind; [apply quiet_artifacts|intros; apply json_good]. Qed.

Lemma build_sqlite_good args c : stays (good []) (build_sqlite ROOT PINS args c).
Proof.
  unfold build_sqlite. apply stays_bind; [apply stays_lift|intros inputs]. cbv zeta. apply stays_bind; [apply stale_good|intros [|]]; [|apply quiet_print].
  intros w Hw. apply wp_bind. eapply wp_mono; [apply (sources_good _ _ _ sqlite []); [exact Hw|apply Hpins|]|].
  { cbn [app]. pose proof (pinned_once _ _ _ Hpins) as Hd. rewrite fmap_app in Hd. by apply NoDup_app in Hd as (Hd & _). }
  cbn [app]. intros [[]|e|] w1 [H1 H2]; [|exact H1..]. specialize (H2 eq_refl).
  apply wp_bind. eapply wp_mono; [apply (sources_good _ _ _ vec sqlite); [exact H2|apply Hpins|apply Hpins]|].
  intros [[]|e|] w2 [H3 H4]; [|exact H3..]. specialize (H4 eq_refl).
  assert (Hw0 : forall w, good all_sources w -> good [] w) by (intros w0; apply (good_weaken [] all_sources)).
  apply wp_bind. eapply wp_mono; [by apply compile_sqlite_good|]. intros [[]|e|] w3 H5; [|by apply Hw0..].
  apply wp_bind. eapply wp_mono; [by apply compile_vec_good|]. intros [[]|e|] w4 H6; [|exact H6..]. by apply record_good.
Qed.

(** An archive that came out of [download] has the pinned digest, if there is one. *)
Definition of_pin (pin : pyval) (o : option (list Z)) : Prop :=
  forall digest, pinned_sha pin = Ok (Some digest) -> exists data, o = Some data /\ h_sha256 data = digest.
Lemma download_checked pin offline w :
  good [] w -> wp (download ROOT pin offline) (fun r w' => good [] w' /\ forall path, r = Ok path -> good [(path, of_pin pin)] w') w.
Proof.
  intros Hw. assert (Hc : clear [] in_cache) by constructor. unfold download.
  apply wp_bind. eapply wp_mono; [eapply quiet_res; [apply f_mkdir|constructor|exact Hw]|]. intros [[]|e|] w1 H1; [|by split..].
  apply wp_bind, wp_lift. destruct (pin_text "url" pin) as [url|e|]; [|by split..]. apply wp_bind, wp_lift. destruct (archive_name url) as [name|e|]; [|by split..]. cbv zeta.
  set (path := join_path (CACHE ROOT) name).
  apply wp_bind. eapply wp_mono; [eapply quiet_io; [apply f_is_file|constructor|exact H1]|]. intros [there|e|] w2 H2; [|by split..].
  apply wp_bind. eapply wp_mono with (P := fun _ w' => good [] w').
  { destruct there; [by apply wp_ret|]. destruct offline; [by apply wp_throw|].
    apply (stays_bind (good [])); [apply quiet_print|intros _; by apply fetch_good|exact H2]. }
  intros [[]|e|] w3 H3; [|by split..]. apply wp_bind, wp_lift. destruct (pinned_sha pin) as [[expected|]|e|] eqn:Hs; [| |by split..].
  - apply wp_bind. unfold file_sha256. apply wp_bind, wp_io_res. intros r w4 E4.
    pose proof (changes_good _ _ [] (f_read_bytes path) (clear_none []) w3 H3) as H4. pose proof (read_content path w3) as Hr.
    destruct (f_read_bytes path w3) as (_ & _ & Hsame). rewrite E4 in H4, Hr, Hsame. cbn [fst snd] in *.
    destruct r as [data|e|]; [|by split..]. apply wp_ret. destruct (pyeqb (h_sha256 data) expected) eqn:E; [|by split]. apply pyeqb_eq in E.
    apply wp_ret. split; [exact H4|]. intros p [= <-]. destruct H4 as (G1 & G2 & _). split; [exact G1|]. split; [exact G2|]. constructor; [|constructor].
    cbn [fst snd]. intros digest Hd. rewrite Hs in Hd. injection Hd as <-. exists data. split; [|exact E]. rewrite Hsame by auto. by apply Hr.
  - apply wp_ret. split; [exact H3|]. intros p [= <-]. destruct H3 as (G1 & G2 & _). split; [exact G1|]. split; [exact G2|]. constructor; [|constructor].
    cbn [snd]. intros digest Hd. rewrite Hs in Hd. discriminate Hd.
Qed.
Lemma extract_good pin archive scratch w :
  pin_of PINS "openssl" = Ok pin -> good [(archive, of_pin pin)] w -> wp (extract_checked archive scratch) (fun _ w' => good [] w') w.
Proof.
  intros Hp Hw. set (K := [(archive, of_pin pin)]) in *. unfold extract_checked. apply wp_bind, wp_io_res. intros r w1 E1.
  pose proof (changes_good _ _ K (f_tar archive) (clear_none K) w Hw) as H1. pose proof (tar_content archive w) as Ht.
  destruct (f_tar archive w) as (_ & _ & Hsame). rewrite E1 in H1, Ht, Hsame. cbn [fst snd] in *.
  assert (Hw0 : forall w, good K w -> good [] w) by (intros w0; apply (good_weaken [] K)).
  destruct r as [members|e|]; [|by apply Hw0..]. destruct (forallb safe_member members) eqn:Hs; [|by apply wp_throw, Hw0].
  destruct (Ht members eq_refl) as (data & Hf & Hl). apply wp_io_res. intros r w2 E2. destruct (extract_recorded archive scratch w1) as (X1 & X2 & _).
  rewrite E2 in X1, X2. cbn [snd] in *. destruct H1 as (G1 & G2 & G3). split; [by rewrite X2|]. split; [|constructor]. rewrite X1. apply Forall_app. split; [exact G2|].
  constructor; [|constructor]. exists pin, data, members. cbn [fst snd]. rewrite Hsame by auto. split; [exact Hp|]. split; [exact Hf|]. split; [exact Hl|]. split.
  - apply Forall_forall. intros m Hm. apply safe_inside, (proj1 (forallb_forall _ _) Hs). by apply list_elem_of_In.
  - intros digest Hd. inversion G3 as [|? ? G4 _]. subst. destruct (G4 digest Hd) as (data' & Hf' & Hsha). cbn [fst] in Hf'. rewrite Hsame, Hf in Hf' by auto. congruence.
Qed.

Lemma run_in_good argv cwd e x log : stays (good []) (io_res (n_run_in argv cwd e x log)).
Proof. eapply quiet_res; [apply f_run_in|constructor]. Qed.
Lemma make_good args c target source log : stays (good []) (configure_and_make args c target source log).
Proof.
  unfold configure_and_make. cbv zeta. apply stays_except.
  - apply stays_bind; [eapply quiet_res; [apply f_write_text|constructor]|intros _]. apply stays_bind; [apply run_in_good|intros _; apply run_in_good].
  - intros e k. destruct (isinstance e CCalledProcessError); [|done]. intros [= <-].
    apply stays_bind; [eapply quiet_res; [apply f_read_text|constructor]|intros text]. apply stays_bind; [apply quiet_print|intros _; apply stays_throw].
Qed.
Lemma build_openssl_good args c target : stays (good []) (build_openssl ROOT PINS args c target).
Proof.
  unfold build_openssl. apply stays_bind; [apply stays_lift|intros inputs]. cbv zeta. apply stays_bind; [apply stale_good|intros [|]]; [|apply quiet_print].
  apply (stays_value _ (fun pin => pin_of PINS "openssl" = Ok pin)); [apply stays_lift|apply returns_lift; auto|]. intros pin Hp.
  intros w Hw. apply wp_bind. eapply wp_mono; [by apply download_checked|]. intros [archive|e|] w1 [H1 H2]; [|exact H1..]. specialize (H2 archive eq_refl).
  assert (Hw0 : forall w, good [(archive, of_pin pin)] w -> good [] w) by (intros w0; apply (good_weaken [] [(archive, of_pin pin)])).
  apply wp_bind. eapply wp_mono with (P := fun _ w' => good [] w'); [|intros [[]|e|] w2 H3; [by apply record_good|exact H3..]].
  unfold with_tempdir. apply wp_bind. eapply wp_mono; [eapply quiet_res; [apply f_mkdtemp|apply clear_none|exact H2]|].
  intros [scratch|e|] w2 H3; [|by apply Hw0..]. apply wp_try_finally. eapply wp_mono with (P := fun _ w' => good [] w').
  - apply wp_bind. eapply wp_mono; [by eapply extract_good|]. intros [[]|e|] w3 H4; [|exact H4..].
    enough (Hs : stays (good []) (let! version := lift (pin_text "version" pin) in
      do! print_line (py "Building OpenSSL " ++ version ++ py "; log: " ++ out ROOT (py "openssl-build.log"));;
      do! configure_and_make args c target (join_path scratch (py "openssl-" ++ version)) (out ROOT (py "openssl-build.log"));;
      for_do openssl_built (fun '(name, origin) => io_res (n_copy (join_path (join_path scratch (py "openssl-" ++ version)) (py origin)) (out ROOT (py name)))))) by by apply Hs.
    apply stays_bind; [apply stays_lift|intros version]. apply stays_bind; [apply quiet_print|intros _]. apply stays_bind; [apply make_good|intros _].
    apply stays_for_do. intros [name origin] _. eapply quiet_res; [apply f_copy|constructor].
  - intros r w3 H4. destruct r as [[]|e|]; [| |exact H4]; (eapply wp_mono; [eapply quiet_res; [apply f_remove|constructor|exact H4]|]); by intros [?|?|] w4 H5.
Qed.
Lemma toolchain_good system : stays (good []) (toolchain ROOT system).
Proof.
  unfold toolchain, getenv_or. do 4 (apply stays_bind; [apply stays_gets|intros ?]). repeat case_match; try apply stays_throw.
  apply stays_bind; [apply version_good|intros text]. apply stays_bind; [apply stays_lift|intros version]. apply stays_bind; [apply quiet_sha256|intros; apply stays_ret].
Qed.
Lemma metadata_good args c : stays (good []) (metadata ROOT PINS args c).
Proof.
  unfold metadata. do 3 (apply stays_bind; [apply stays_lift|intros ?]). apply stays_bind; [apply quiet_artifacts|intros; apply stays_ret].
Qed.
Lemma build_main_good args : stays (good []) (build_main ROOT PINS args).
Proof.
  unfold build_main, build. case_match; [apply stays_throw|]. apply stays_bind; [eapply quiet_res; [apply f_mkdir|constructor]|intros _].
  apply stays_bind; [eapply quiet_res; [apply f_lock|constructor]|intros _]. case_match; [|apply stays_throw].
  apply stays_bind; [apply toolchain_good|intros c]. apply stays_bind; [apply build_sqlite_good|intros _].
  apply stays_bind; [destruct (ba_sqlite_only args); [apply stays_ret|apply build_openssl_good]|intros _].
  apply stays_bind; [apply metadata_good|intros data]. apply stays_bind; [apply json_good|intros _; apply quiet_print].
Qed.
(** The shell: its own source is pinned; the helper is the repository's. *)
Definition is_shell (o : option (list Z)) : Prop :=
  forall shell fs digest, pin_of PINS "sqlite_shell" = Ok shell -> vget "files" shell = Ok fs -> pin_text "shell.c" fs = Ok digest ->
    exists data, o = Some data /\ h_sha256 data = digest.
Lemma shell_source_is : returns (pinned_shell_source (W := W) ROOT PINS) (fun source => is_shell (Some source)).
Proof.
  unfold pinned_shell_source.
  eapply returns_bind; [apply (returns_lift _ (fun shell => pin_of PINS "sqlite_shell" = Ok shell)); auto|]. intros shell Hs.
  apply returns_then. intros pin. apply returns_then. intros versions. apply returns_then. intros same. destruct (negb same); [apply returns_throw|].
  eapply returns_bind; [apply (returns_lift _ (fun e => exists files, vget "files" shell = Ok files /\ pin_text "shell.c" files = Ok e))|].
  { intros e (files & Hf & He)%res_bind_Ok. by exists files. }
  intros expected (files & Hf & He). do 2 (apply returns_then; intros ?). cbv zeta. do 2 (apply returns_then; intros ?).
  match goal with |- returns (if pyeqb ?d _ then _ else _) _ => destruct (pyeqb d expected) eqn:E end; [|apply returns_throw].
  apply pyeqb_eq in E. apply returns_ret. intros shell' fs digest Hs' Hf' Hd. eexists. split; [done|]. congruence.
Qed.
Lemma shell_source_good : stays (good []) (pinned_shell_source ROOT PINS).
Proof.
  unfold pinned_shell_source. do 3 (apply stays_bind; [apply stays_lift|intros ?]). apply stays_bind; [case_match; [apply stays_lift|apply stays_ret]|intros same].
  destruct (negb same); [apply stays_throw|]. do 3 (apply stays_bind; [apply stays_lift|intros ?]). cbv zeta.
  apply stays_bind; [eapply quiet_io; [apply f_is_file|constructor]|intros there]. apply stays_bind; [|intros source; case_match; [apply stays_ret|apply stays_throw]].
  destruct there; [|eapply quiet_res; [apply f_read_bytes|constructor]]. apply stays_bind; [eapply quiet_res; [apply f_zip_names|constructor]|intros names].
  repeat case_match; try apply stays_throw. eapply quiet_res; [apply f_zip_read|constructor].
Qed.
Lemma shell_main_good : stays (good []) (shell_main ROOT PINS).
Proof.
  unfold shell_main, build_shell. apply stays_bind; [eapply quiet_res; [apply f_mkdir|constructor]|intros _].
  apply stays_bind; [eapply quiet_res; [apply f_lock|constructor]|intros _]. apply stays_bind; [apply stays_lift|intros expected].
  apply (stays_value _ (fun source => is_shell (Some source))); [apply shell_source_good|apply shell_source_is|]. intros source Hs w Hw.
  set (path := out ROOT (py "shell.c")). set (K := [(path, is_shell)]).
  apply wp_bind, wp_io_res. intros r w1 E1. pose proof (changes_good _ _ [] (f_write_bytes path source) (List.Forall_nil _) w Hw) as H1.
  pose proof (written_bytes path source w) as Hb. rewrite E1 in H1, Hb. cbn [fst snd] in *. destruct r as [[]|e|]; [|exact H1..].
  assert (HK : good K w1).
  { destruct H1 as (G1 & G2 & _). split; [exact G1|]. split; [exact G2|]. constructor; [|constructor]. cbn [fst snd]. by rewrite Hb. }
  enough (Hst : forall m : Hm (W := W) unit, stays (good K) m -> wp m (fun _ w' => good [] w') w1).
  { apply Hst. unfold getenv_or, program, shell_compile. do 4 (apply stays_bind; [apply stays_gets|intros ?]).
    assert (Hc : forall name, name <> py "shell.c" -> clear K (eq (out ROOT name))).
    { intros name Hn. constructor; [|constructor]. cbn [fst]. intros E%out_inj. congruence. }
    apply stays_bind; [case_match; [apply stays_ret|apply stays_throw]|intros cc].
    apply stays_bind; [apply cc_good; [by apply plain_flags|apply long_out| |by apply Hc]|intros _].
    { intros w2 (_ & _ & G3). right. right. left. split; [done|]. inversion G3 as [|? ? G4 _]. subst. cbn [fst snd] in G4. exact G4. }
    cbv zeta. apply stays_bind; [apply cc_good; [by apply plain_flags| | |by apply Hc]|intros _].
    { unfold join_path. rewrite length_app. cbn. lia. }
    { intros w2 _. by do 3 right. }
    apply stays_bind; [eapply quiet_res; [apply f_unlink|by apply Hc]|intros _]. apply stays_bind; [case_match; [apply stays_ret|apply stays_throw]|intros ar].
    apply stays_bind; [apply (ar_good _ _ _ [_; _]); [repeat constructor; apply long_out|by apply Hc]|intros _].
    apply stays_bind; [eapply quiet_res; [apply f_replace|]|intros _].
    { constructor; [|constructor]. cbn [fst]. by intros [E%out_inj|E%out_inj]. }
    apply stays_bind; [apply stays_lift|intros version]. do 2 (apply stays_bind; [apply quiet_sha256|intros ?]).
    apply stays_bind; [apply version_good|intros text]. apply stays_bind; [apply stays_lift|intros compiler]. apply stays_bind; [apply quiet_sha256|intros archive].
    eapply quiet_res; [apply f_write_json|]. by apply Hc. }
  intros m Hm. eapply wp_mono; [by apply Hm|]. intros r w2. apply (good_weaken [] K).
Qed.
End OnDisk.

(** C38: whatever the network delivers and however they end, build_native.py and
    build_shell.py compile what is pinned. Each time they run a compiler on
    OUT/sqlite3.c, or on the one file they make themselves
    (OUT/sqlite-vec-build.c, which includes sqlite-vec.c and defines the
    identity of the pins), every source of SQLite and sqlite-vec is on disk with
    the digest pinned for its name; OUT/shell.c has its pinned digest when it is
    compiled; and nothing else is compiled but internal/shell/local.c of the
    repository. They extract only an archive with the pinned digest, all of
    whose members stay inside the directory. (The headers build_shell.py finds
    in OUT are those an earlier build left; OpenSSL is compiled by its own
    makefile from what was extracted.) *)
Theorem build_pinned {W} `{BuildFiles W} (ROOT : pystr) (PINS : pyval) (sqlite vec : list (pystr * pystr)) (args : BuildArgs) (w : W) :
  pinned_names PINS sqlite vec -> runs w = [] -> extractions w = [] ->
  let compiled (w' : W) := Forall (run_allowed ROOT PINS sqlite vec) (runs w') /\ Forall (extraction_allowed PINS) (extractions w') in
  wp (build_main ROOT PINS args) (fun _ w' => compiled w') w /\ wp (shell_main ROOT PINS) (fun _ w' => compiled w') w.
Proof.
  intros Hp Hr He. assert (Hw : good ROOT PINS sqlite vec [] w).
  { split; [rewrite Hr; constructor|]. split; [rewrite He|]; constructor. }
  split; (eapply wp_mono; [by (apply build_main_good || apply shell_main_good)|]); intros r w' (H1 & H2 & _); by split.
Qed.

(** tools/native_sources.json: its names are as the theorem asks. *)
Definition native_sources : pyval :=
  let archive := py "https://sqlite.org/2026/sqlite-amalgamation-3510300.zip" in
  let files (l : list (string * string)) := PDict (mkdict ((fun x => (x.1, PStr (py x.2))) <$> l)) in
  PDict (mkdict
    [("sqlite", PDict (mkdict [("version", PStr (py "3.51.3")); ("url", PStr archive); ("files", files
        [("sqlite3.c", "9512509b1bccb7461f79bea8aad6280ae4699e925fa4804381b71f59e7efb0c5");
         ("sqlite3.h", "19585c8b5230e9d4f223bf31b709ece7b6a0bb3faf00d8310625d8e58cda1b1d");
         ("sqlite3ext.h", "ea81fb7bd05882e0e0b92c4d60f677b205f7f1fbf085f218b12f0b5b3f0b9e48")])]));
     ("vec", PDict (mkdict [("version", PStr (py "0.1.9"));
        ("url", PStr (py "https://github.com/asg017/sqlite-vec/releases/download/v0.1.9/sqlite-vec-0.1.9-amalgamation.zip")); ("files", files
        [("sqlite-vec.c", "ba081a47fa02eadc3cf6b16c314b695b84081269349aac722b4efa338fe8fd85");
         ("sqlite-vec.h", "8e4d7bfcd779c89bd19a6b2959fce24ee391b2eaf79a85a979377a36627cb060")])]));
     ("openssl", PDict (mkdict [("version", PStr (py "3.5.8"));
        ("url", PStr (py "https://github.com/openssl/openssl/releases/download/openssl-3.5.8/openssl-3.5.8.tar.gz"));
        ("sha256", PStr (py "a8f84a39918ec6415ce765d9b429d313ba97b8143169c172e734b9514464f5b2"))]));
     ("sqlite_shell", PDict (mkdict [("version", PStr (py "3.51.3")); ("url", PStr archive);
        ("files", files [("shell.c", "4a5bde1b3e00f873caa7e0e7a4def2ea656b7dfae6cad5fb1e9c0d8f44f4397a")])]))]%string).
Definition files_of (kind : string) (PINS : pyval) : list (pystr * pystr) :=
  match (let? pin := pin_of PINS kind in pin_files pin) with Ok files => files | _ => [] end.

Lemma pinned_names_check PINS sqlite vec :
  (let? pin := pin_of PINS "sqlite" in pin_files pin) = Ok sqlite -> (let? pin := pin_of PINS "vec" in pin_files pin) = Ok vec ->
  bool_decide (NoDup (sqlite ++ vec).*1) && forallb (fun name => negb (str_in name MADE)) (sqlite ++ vec).*1 = true -> pinned_names PINS sqlite vec.
Proof.
  intros Hs Hv [Hd Ha]%andb_true_iff. split; [done|done|by apply bool_decide_eq_true in Hd|].
  apply Forall_forall. intros x Hx Hm. rewrite forallb_forall in Ha.
  assert (Hn : negb (str_in x MADE) = true) by (apply Ha; by apply list_elem_of_In). apply negb_true_iff in Hn.
  apply str_in_spec in Hm. congruence.
Qed.
Example native_pinned :
  pinned_names native_sources (files_of "sqlite" native_sources) (files_of "vec" native_sources) /\
  (files_of "sqlite" native_sources ++ files_of "vec" native_sources).*1 = py <$> ["sqlite3.c"; "sqlite3.h"; "sqlite3ext.h"; "sqlite-vec.c"; "sqlite-vec.h"]%string.
Proof. split; [apply pinned_names_check|]; vm_compute; reflexivity. Qed.

(** A build by evaluation: a disk, the commands run and the archives extracted.
    A digest is the data itself; a compiler writes its object, [ar] its archive;
    the zip archives hold every source under its own name. *)
Module BuildDemo.
Record World := mkWorld { w_files : Files; w_runs : list (list pystr * Files); w_extractions : list (pystr * pystr * Files) }.
Definition put (p : pystr) (data : option (list Z)) (w : World) : World :=
  mkWorld (fun q => if pyeqb q p then data else w_files w q) (w_runs w) (w_extractions w).
Definition same {A} (a : A) (w : World) : A * World := (a, w).
Definition missing {A} : pyres A := Raise (OSError "FileNotFoundError").
(** What a command writes. *)
Definition product (argv : list pystr) : option pystr :=
  match argv with
  | _ :: rest =>
      match rest, reverse rest with
      | verb :: p :: _, q :: flag :: _ => if pyeqb verb (py "rcs") then Some p else if pyeqb flag (py "-o") then Some q else None
      | _, _ => None
      end
  | [] => None
  end.
Definition run_command (argv : list pystr) (w : World) : World :=
  let w' := match product argv with Some p => put p (Some []) w | None => w end in
  mkWorld (w_files w') (w_runs w ++ [(argv, w_files w)]) (w_extractions w).

#[local] Instance demo_host : Host World := {|
  h_monotonic := same 0%Q; h_monotonic_ns := same 0; h_time := same 0%Q; h_utc := same (py "2026"); h_sleep _ w := w;
  h_exists p w := (bool_decide (is_Some (w_files w p)), w); h_is_file p w := (bool_decide (is_Some (w_files w p)), w);
  h_read_text _ := same missing; h_read_bytes p w := (match w_files w p with Some data => Ok data | None => missing end, w);
  h_write_text p t w := match utf8_encode t with Some data => (Ok tt, put p (Some data) w) | None => (missing, w) end;
  h_append _ _ := same (Ok tt); h_write_json p _ w := (Ok tt, put p (Some []) w); h_append_json _ _ := same (Ok tt);
  h_fsync _ := same (Ok tt);
  h_replace p q w := match w_files w p with Some data => (Ok tt, put p None (put q (Some data) w)) | None => (missing, w) end;
  h_mkdir _ := same (Ok tt); h_glob _ _ := same [];
  h_mkdtemp prefix d := same (Ok (join_path d (prefix ++ py "x"))); h_remove _ := same (Ok tt); h_sha256 data := data;
  h_run argv _ _ w := (Ok (mkFinished 0 (py "cc 15") []), run_command argv w); h_print _ w := w; h_print_json _ w := w; h_getenv _ _ := None; h_linux := true;
  h_resolve p _ := p; h_system := py "Linux"; h_platform := py "Linux"; h_run_input _ _ _ := same (Ok (mkFinished 0 [] [])); h_timeout_output _ := [] |}.
#[local] Instance demo_build : BuildHost World := {|
  n_host := demo_host; n_machine := py "x86_64"; n_which p _ := Some p;
  n_urlopen _ := same (Ok 1); n_tempfile d := same (Ok (join_path d (py "tmp"))); n_fetch _ p w := (Ok tt, put p (Some (py "archive")) w);
  n_unlink p w := (Ok tt, put p None w); n_write_bytes p data w := (Ok tt, put p (Some data) w);
  n_zip_names _ := same (Ok [py "a/sqlite3.c"; py "a/sqlite3.h"; py "sqlite-vec.c"; py "a/shell.c"]); n_zip_read _ name := same (Ok (path_name name));
  n_tar_members p w := (match w_files w p with Some _ => Ok [mkTarMember (py "openssl/./Configure") true false; mkTarMember (py "openssl") false true] | None => missing end, w);
  n_extract a s w := (Ok tt, mkWorld (w_files w) (w_runs w) (w_extractions w ++ [(a, s, w_files w)]));
  n_run_in _ _ _ _ _ := same (Ok tt); n_copy _ q w := (Ok tt, put q (Some []) w); n_lock _ := same (Ok tt) |}.

Lemma put_other p data w q : q <> p -> w_files (put p data w) q = w_files w q.
Proof. intros Hq. cbn. unfold pyeqb. by rewrite bool_decide_eq_false_2. Qed.
Lemma put_here p data w : w_files (put p data w) p = data.
Proof. cbn. unfold pyeqb. by rewrite bool_decide_eq_true_2. Qed.
Lemma product_written argv p : product argv = Some p -> writes_to argv p.
Proof.
  destruct argv as [|program [|verb [|q rest]]]; [done..|]. unfold product.
  destruct (reverse (verb :: q :: rest)) as [|o [|flag r]] eqn:E; [done..|].
  destruct (pyeqb verb (py "rcs")) eqn:Ev; [apply pyeqb_eq in Ev as ->; intros [= <-]; right; by exists program, rest|].
  destruct (pyeqb flag (py "-o")) eqn:Ef; [|done]. apply pyeqb_eq in Ef as ->. intros [= <-]. left. exists program, (reverse r), [].
  apply (f_equal reverse) in E. rewrite reverse_involutive, !reverse_cons in E. by rewrite E, <-!app_assoc.
Qed.

#[local] Instance demo_disk : BuildFiles World.
Proof.
  refine {| file := w_files; runs := w_runs; extractions := w_extractions;
    tar_listing _ := Ok [mkTarMember (py "openssl/./Configure") true false; mkTarMember (py "openssl") false true] |}; try (by intros; split_and!).
  - intros p t w. cbn. destruct (utf8_encode t); (split; [done|split; [done|]]); intros q Hq; [|done]. apply put_other. congruence.
  - intros p d w. split; [done|]. split; [done|]. intros q Hq. apply put_other. congruence.
  - intros p x w. split; [done|]. split; [done|]. intros q Hq. apply put_other. congruence.
  - intros p q w. cbn. destruct (w_files w p); (split; [done|split; [done|]]); intros x Hx; [|done].
    cbn [snd]. rewrite !put_other; [done|intros ->; apply Hx; by right|intros ->; apply Hx; by left].
  - intros r p w. split; [done|]. split; [done|]. intros q Hq. apply put_other. congruence.
  - intros p w. split; [done|]. split; [done|]. intros q Hq. apply put_other. congruence.
  - intros p q w. split; [done|]. split; [done|]. intros x Hx. apply put_other. congruence.
  - intros p w data. cbn. destruct (w_files w p); [by intros [= ->]|done].
  - intros p data w _. apply put_here.
  - intros p t w. cbn. destruct (utf8_encode t) as [data|]; [|done]. intros _. apply put_here.
  - intros d w p [= <-]. by eexists.
  - intros p w members. cbn. destruct (w_files w p); [|done]. intros [= <-]. by eexists.
  - intros argv d t w. split; [done|]. split; [done|]. intros p Hp. cbn. destruct (product argv) as [q|] eqn:E; [|done].
    apply put_other. intros ->. apply Hp. by apply product_written.
Defined.

Definition named_pin (files : list string) (extra : list (string * pyval)) : pyval :=
  PDict (mkdict ([("version", PStr (py "1")); ("url", PStr (py "https://host/a.zip")); ("files", PDict ((fun f => (py f, PStr (py f))) <$> files))]%string ++ extra)).
Definition demo_pins : pyval :=
  PDict (mkdict [("sqlite", named_pin ["sqlite3.c"; "sqlite3.h"] []); ("vec", named_pin ["sqlite-vec.c"] []);
                 ("openssl", named_pin [] [("sha256", PStr (py "archive"))]); ("sqlite_shell", named_pin ["shell.c"] [])]%string).
Definition demo_args : BuildArgs := mkBuildArgs None None false false false 4.
(** The scripts themselves and the helper are on the disk; nothing was run. *)
Definition empty_disk : World :=
  mkWorld (fun p => if str_in p (py <$> ["/r/tools/build_native.py"; "/r/tools/build_shell.py"; "/r/internal/shell/local.c"]%string) then Some [] else None) [] [].
Definition demo_built : pyres unit * World := build_main (py "/r") demo_pins demo_args empty_disk.
(** The shell, on the disk the build left. *)
Definition demo_shell : pyres unit * World := shell_main (py "/r") demo_pins (mkWorld (w_files demo_built.2) [] []).
(** The sources compiled, in order. *)
Definition compiled_sources (w : World) : list pystr :=
  omap (fun x => match reverse x.1 with _ :: _ :: source :: c :: _ => if pyeqb c (py "-c") then Some (path_name source) else None | _ => None end) (w_runs w).

Example demo_compiled :
  demo_built.1 = Ok tt /\ compiled_sources demo_built.2 = py <$> ["sqlite3.c"; "sqlite-vec-build.c"]%string /\ length (w_extractions demo_built.2) = 1%nat /\
  demo_shell.1 = Ok tt /\ compiled_sources demo_shell.2 = py <$> ["shell.c"; "local.c"]%string.
Proof. split_and!; vm_compute; reflexivity. Qed.
(** A member that climbs out of its directory stops the build. *)
Example climbing : safe_member (mkTarMember (py "openssl/../../etc/passwd") true false) = false /\ safe_member (mkTarMember (py "/etc/passwd") true false) = false.
Proof. split; vm_compute; reflexivity. Qed.

Lemma build_pinned_witness :
  demo_built.1 = Ok tt /\ length (w_runs demo_built.2) = 5%nat /\
  Forall (run_allowed (py "/r") demo_pins (files_of "sqlite" demo_pins) (files_of "vec" demo_pins)) (w_runs demo_built.2) /\
  Forall (extraction_allowed demo_pins) (w_extractions demo_built.2).
Proof.
  split; [vm_compute; reflexivity|]. split; [vm_compute; reflexivity|].
  assert (Hp : pinned_names demo_pins (files_of "sqlite" demo_pins) (files_of "vec" demo_pins)) by (apply pinned_names_check; vm_compute; reflexivity).
  destruct (build_pinned (py "/r") demo_pins _ _ demo_args empty_disk Hp) as [Hb _]; [reflexivity|reflexivity|].
  unfold wp in Hb. revert Hb. unfold demo_built. by destruct (build_main (py "/r") demo_pins demo_args empty_disk).
Defined.
End BuildDemo.
