(* ===== verification/Release.v ===== *)
(** * Release and build scripts

    tools/install_release_odin.py, fetch_zaxon_release.py, setup_comparison.py,
    check_release_version.py,
    check_native_linkage.py, build_cli.py, build_docs.py and
    check_extension_identity.py: what is downloaded is used only with its pinned
    digest, documents are replaced only by what just compiled, a release has one
    version, and a binary with a shared database or TLS library is refused. *)

From Stdlib Require Import QArith.
From S2P Require Import Prelude PyStr PyFloat Objects Json Bytes Vector Text Parameters Results Net Client Dict Host Script Service ServiceChecks Returns Capacity NativeBuild Mtls.
#[local] Open Scope Z_scope.

Class ReleaseHost (W : Type) := {
  r_build :: BuildHost W;
  r_executable : pystr;  (** [sys.executable] *)
  (** [urllib.request.urlretrieve(url, path)], [urlopen(url, timeout=...).read()] *)
  r_retrieve : pystr -> pystr -> W -> pyres unit * W;
  r_download : pystr -> Q -> W -> pyres (list Z) * W;
  (** [tarfile.open(path)], [extractall(directory, filter='data')];
      [tarfile.open(fileobj=BytesIO(data), mode='r:gz')]: its members and the
      contents of one *)
  r_extract_data : pystr -> pystr -> W -> pyres unit * W;
  r_members : list Z -> W -> pyres (list TarMember) * W;
  r_member : list Z -> pystr -> W -> pyres (list Z) * W;
  r_chmod : pystr -> Z -> W -> W;
  (** [path.rglob(name)], [path.glob(pattern)], [path.unlink()] *)
  r_rglob : pystr -> pystr -> W -> list pystr * W;
  r_unlink : pystr -> W -> pyres unit * W;
  r_copytree : pystr -> pystr -> W -> pyres unit * W;
  r_symlink : pystr -> pystr -> W -> pyres unit * W;
  r_toml : pystr -> pyres pyval  (** [tomllib.loads] *)
}.

(** ** check_release_version.py *)

(** [re.search(marker + quote + '([^quote]+)' + quote, text)[1]], with [^] under
    [re.M] when anchored; [marker] includes the opening quote. *)
Fixpoint quoted_from (start anchored : bool) (marker : pystr) (quote : Z) (s : pystr) : option pystr :=
  match s with
  | [] => None
  | c :: l =>
      let next := quoted_from (c =? 10) anchored marker quote l in
      if (negb anchored || start) && is_prefix marker s then
        match span_class (fun x => negb (x =? quote)) (drop (length marker) s) with
        | (d :: run, _ :: _) => Some (d :: run)
        | _ => next
        end
      else next
  end.
Definition quoted (anchored : bool) (marker : string) (quote : Z) (text : pystr) : pyres pystr :=
  match quoted_from true anchored (py marker ++ [quote]) quote text with
  | Some v => Ok v
  | None => Raise (TypeError "'NoneType' object is not subscriptable")
  end.

(** [next(p['version'] for p in lock['package'] if p['name'] == 'sqlodin')] *)
Fixpoint locked_version (packages : list pyval) : pyres pyval :=
  match packages with
  | [] => Raise StopIteration
  | p :: packages => let? name := vget "name" p in if eq_str name (py "sqlodin") then vget "version" p else locked_version packages
  end.
Definition lock_version (lock : pyval) : pyres pyval :=
  let? packages := vget "package" lock in
  match packages with PList l => locked_version l | _ => Raise (TypeError "not iterable") end.

(** [len(set(VERSIONS.values())) != 1]; members of a set are hashable. *)
Definition versions_differ (versions : list pystr) (locked : pyval) : pyres bool :=
  match locked with
  | PList _ | PDict _ => Raise (TypeError "unhashable type")
  | _ => Ok (negb (forallb (fun v => eq_str locked v) versions))
  end.

(** What the script decides of the five versions and of the ref it runs on. *)
Definition release_verdict (versions : list pystr) (locked : pyval) (ref_type ref_name : option pystr) : pyres pystr :=
  let? differ := versions_differ versions locked in
  if (differ : bool) then Raise (SystemExit (py "Release versions differ"))
  else
    let? version := list_index versions 0 in
    if bool_decide (ref_type <> Some (py "tag")) || bool_decide (ref_name <> Some (py "v" ++ version)) then Raise (SystemExit (py "Run this workflow on the v" ++ version ++ py " tag"))
    else Ok version.

Section Release.
Context {W : Type} `{ReleaseHost W} (ROOT : pystr) (PINS : pyval).
Definition rooted (path : string) : pystr := join_path ROOT (py path).

Definition quoted_in (path : string) (anchored : bool) (marker : string) (quote : Z) : Hm (W := W) pystr :=
  let! text := io_res (h_read_text (rooted path)) in lift (quoted anchored marker quote text).
Definition check_release_version : Hm (W := W) unit :=
  let! cli := quoted_in "cli/main.odin" false "VERSION :: " 34 in
  let! library := quoted_in "src/sqlodin.odin" false "VERSION :: " 34 in
  let! package := quoted_in "languages/python/pyproject.toml" true "version = " 34 in
  let! python := quoted_in "languages/python/src/sqlodin/__init__.py" false "__version__ = " 39 in
  let! text := io_res (h_read_text (rooted "languages/python/uv.lock")) in
  let! locked := lift (let? lock := r_toml text in lock_version lock) in
  let! ref_type := gets (h_getenv (py "GITHUB_REF_TYPE")) in
  let! ref_name := gets (h_getenv (py "GITHUB_REF_NAME")) in
  let! version := lift (release_verdict [cli; library; package; python] locked ref_type ref_name) in
  print_line (py "Release version verified: " ++ version).

(** ** install_release_odin.py *)

Definition VERSION : pystr := py "dev-2026-09".
Definition DIGESTS : list (string * string * (string * string)) :=
  [("Linux", "x86_64", ("linux-amd64", "167c3e1d7056419dad2e04bb3bd98715b7ff286d4c125f3c5a5ee337c6254283"));
   ("Darwin", "x86_64", ("macos-amd64", "c1f6d6320218ec7e511093a87bdd599b72a8417a9d2a00de2c9691103562165b"));
   ("Darwin", "arm64", ("macos-arm64", "3e6cbc1f247d8d14fe02c3151272d0a5b8d6d77acb7219f5b62914e4d95d97f7"))]%string.
Definition pinned_target (system machine : pystr) : pyres (pystr * pystr) :=
  match find (fun '(s, m, _) => pyeqb system (py s) && pyeqb machine (py m)) DIGESTS with
  | Some (_, _, (target, digest)) => Ok (py target, py digest)
  | None => Raise (KeyError "(system, machine)")
  end.
(** [[p for p in destination.rglob('odin') if p.is_file()]] *)
Definition found_files (directory : pystr) (name : pystr) : Hm (W := W) (list pystr) :=
  let! paths := io (r_rglob directory name) in
  for_each paths (fun p acc => let! file := io (h_is_file p) in ret (if (file : bool) then acc ++ [p] else acc)) [].
Definition toolchains : pystr := rooted "build/toolchains".
Definition odin_archive (target : pystr) : pystr := join_path toolchains (py "odin-" ++ target ++ py "-" ++ VERSION ++ py ".tar.gz").
Definition odin_url (archive : pystr) : pystr := py "https://github.com/odin-lang/Odin/releases/download/" ++ VERSION ++ py "/" ++ path_name archive.
Definition install_odin : Hm (W := W) unit :=
  let! pinned := lift (pinned_target h_system n_machine) in
  do! io_res (h_mkdir toolchains);;
  let archive := odin_archive pinned.1 in
  do! io_res (r_retrieve (odin_url archive) archive);;
  let! digest := file_sha256 archive in
  if negb (pyeqb digest pinned.2) then throw (SystemExit (py "Compiler archive checksum mismatch"))
  else
    let destination := join_path toolchains (py "odin") in
    do! io_res (h_mkdir destination);;
    do! io_res (r_extract_data archive destination);;
    let! binaries := found_files destination (py "odin") in
    match binaries with
    | [binary] => do! run [binary; py "version"];; print_line (path_parent binary)
    | _ => throw (SystemExit (py "Expected one compiler in the release archive"))
    end.

(** ** fetch_zaxon_release.py *)

Definition TAG : pystr := py "v0.7.0".
Definition ASSET : pystr := py "zaxon-0.7.0-x86_64-linux-musl.tar.gz".
Definition SHA256 : pystr := py "6e13ea5fe25f41675fea3f4148447555570d8510f0887c454b7e9090676752e4".
Definition BASE : pystr := py "https://github.com/insanai/zaxonlite/releases/download/" ++ TAG.
Definition ELF : list Z := [127; 69; 76; 70].
(** [any(line.split() == [SHA256, ASSET] for line in sums.splitlines())] *)
Definition published (sums : pystr) : bool := existsb (fun line => bool_decide (words line = [SHA256; ASSET])) (splitlines sums).
Definition is_zaxon (m : TarMember) : bool := tm_file m && pyeqb (entry_name (tm_name m)) (py "zaxon").
Definition zaxon_data (data : list Z) : Hm (W := W) (list Z) :=
  let! members := io_res (r_members data) in
  match filter (fun m => is_zaxon m = true) members with
  | [m] => io_res (r_member data (tm_name m))
  | _ => throw (SystemExit (py "Expected exactly one regular zaxon executable"))
  end.
Definition fetch_zaxon : Hm (W := W) unit :=
  if negb (pyeqb h_system (py "Linux") && pyeqb n_machine (py "x86_64")) then throw (SystemExit (py "This pin targets Linux x86_64"))
  else
    let! data := io_res (r_download (BASE ++ py "/" ++ ASSET) 120) in
    if negb (pyeqb (h_sha256 data) SHA256) then throw (SystemExit (py "Release archive checksum mismatch"))
    else
      let! listing := io_res (r_download (BASE ++ py "/SHA256SUMS") 60) in
      let! sums := lift (decode_strict listing) in
      if negb (published sums) then throw (SystemExit (py "Pinned digest differs from the published SHA256SUMS"))
      else
        let! binary_data := zaxon_data data in
        if negb (bool_decide (take 4 binary_data = ELF)) then throw (SystemExit (py "Expected Linux ELF executable"))
        else
          let out := rooted "build/comparison-tools/zaxon-release" in
          do! io_res (h_mkdir out);;
          let binary := join_path out (py "zaxon") in
          do! io_res (n_write_bytes binary binary_data);;
          do! io_do (r_chmod binary 493);;
          let! text := check_output [binary; py "version"] [] None in
          let version := strip text in
          do! io_res (h_write_json (join_path out (py "release.json"))
            (Obj (fields [("repository", tstr (py "https://github.com/insanai/zaxonlite")); ("tag", tstr TAG); ("asset_url", tstr (BASE ++ py "/" ++ ASSET)); ("archive_sha256", tstr SHA256);
                          ("binary_sha256", tstr (h_sha256 binary_data)); ("version", tstr version); ("published_checksums", tstr sums)]%string)));;
          print_line (binary ++ py " " ++ version).

(** ** check_native_linkage.py *)

Definition linkage_command (binary : pystr) : list pystr :=
  (if pyeqb h_system (py "Darwin") then [py "otool"; py "-L"] else [py "readelf"; py "-d"]) ++ [binary].
End Release.

(** [re.search(r'lib(?:sqlite[^\s/]*|ssl|crypto)[.\-](?:so|dylib|[0-9])', text,
    re.IGNORECASE)]: a letter also matches its capital, [i] the dotted capital
    and the dotless small one, [s] the long one. *)
Definition ci_char (c x : Z) : bool :=
  (x =? c) || (x =? c - 32) || ((c =? 105) && ((x =? 304) || (x =? 305))) || ((c =? 115) && (x =? 383)).
Fixpoint ci_prefix (w s : pystr) : bool :=
  match w, s with
  | [], _ => true
  | c :: w, x :: s => ci_char c x && ci_prefix w s
  | _, [] => false
  end.
Definition library_end (s : pystr) : bool :=
  match s with
  | x :: l => ((x =? 46) || (x =? 45)) && (ci_prefix (py "so") l || ci_prefix (py "dylib") l || match l with d :: _ => (48 <=? d) && (d <=? 57) | [] => false end)
  | [] => false
  end.
Definition name_char (c : Z) : bool := negb (is_space c) && negb (c =? 47).
Fixpoint sqlite_end (s : pystr) : bool :=
  library_end s || match s with c :: l => name_char c && sqlite_end l | [] => false end.
Definition library_rest (r : pystr) : bool :=
  (ci_prefix (py "sqlite") r && sqlite_end (drop 6 r)) || (ci_prefix (py "ssl") r && library_end (drop 3 r)) || (ci_prefix (py "crypto") r && library_end (drop 6 r)).
Definition library_at (s : pystr) : bool := ci_prefix (py "lib") s && library_rest (drop 3 s).
Fixpoint shared_library (s : pystr) : bool :=
  library_at s || match s with _ :: l => shared_library l | [] => false end.

Record LinkageArgs := mkLinkageArgs { lk_binary : pystr; lk_output : pystr }.

Section Builds.
Context {W : Type} `{ReleaseHost W} (ROOT : pystr) (PINS : pyval).

Definition check_linkage (args : LinkageArgs) : Hm (W := W) unit :=
  let! linkage := check_output (linkage_command (lk_binary args)) [] None in
  if shared_library linkage then throw (SystemExit (py "Unexpected shared database/TLS dependency:" ++ [10] ++ linkage))
  else
    let! digest := file_sha256 (lk_binary args) in
    let! native := read_json (rooted ROOT "build/native/build.json") in
    let! shell := read_json (rooted ROOT "build/native/shell-build.json") in
    let! odin := check_output [py "odin"; py "version"] [] None in
    do! io_res (h_mkdir (path_parent (lk_output args)));;
    do! io_res (h_write_json (lk_output args)
      (Obj (fields [("complete", tbool true); ("binary_sha256", tstr digest); ("platform", tstr h_platform); ("linkage", tstr linkage); ("native", J native); ("shell", J shell);
                    ("odin", tstr (strip odin)); ("scope", tstr (py "Native SQLite/FTS5, sqlite-vec and OpenSSL are static; OS runtime may remain dynamic"))]%string)));;
    print_line (py "PASS no shared SQLite/sqlite-vec/OpenSSL dependencies: " ++ lk_binary args).

(** ** build_cli.py *)

Record CliArgs := mkCliArgs { cl_output : pystr; cl_offline : bool; cl_jobs : Z }.
Definition licence_sources : list pystr :=
  rooted ROOT <$> ["LICENSE"; "deps/licenses/sqlite-vec-MIT.txt"; "deps/paxos-odin/LICENSE"; "build/native/OPENSSL-LICENSE.txt"]%string.
Definition licence_name (source : pystr) : pystr :=
  if pyeqb (path_name (path_parent source)) (py "paxos-odin") then py "paxos-odin-LICENSE" else path_name source.
Definition run_at (argv : list pystr) (cwd : pystr) : Hm (W := W) unit := let! _ := run_checked argv cwd None in ret tt.
Definition build_cli (args : CliArgs) : Hm (W := W) unit :=
  do! run ([r_executable; rooted ROOT "tools/build_native.py"; py "--jobs"; dec (cl_jobs args)] ++ if cl_offline args then [py "--offline"] else []);;
  do! run [r_executable; rooted ROOT "tools/build_shell.py"];;
  let! output := gets (h_resolve (cl_output args)) in
  do! io_res (h_mkdir (path_parent output));;
  let! odin := getenv_or "ODIN" "odin" in
  do! run_at ([odin; py "build"; py "cli"; py "-o:speed"; py "-vet"; py "-strict-style"; py "-out:" ++ output]) ROOT;;
  let licenses := join_path (path_parent output) (py "licenses") in
  do! io_res (h_mkdir licenses);;
  do! for_do licence_sources (fun source => io_res (n_copy source (join_path licenses (licence_name source))));;
  run [r_executable; rooted ROOT "tools/check_native_linkage.py"; output; py "--output"; output ++ py ".build.json"].

(** ** build_docs.py *)

Inductive DocsTarget := AllDocs | Book | Index | Sod.
Definition chosen (target : DocsTarget) (one : DocsTarget) : bool :=
  match target, one with AllDocs, _ | Book, Book | Index, Index | Sod, Sod => true | _, _ => false end.
Definition doc_sources (target : DocsTarget) (records : list pystr) : list (pystr * pystr) :=
  (if chosen target Book then [(rooted ROOT "docs/book.typ", py "sqlodin-book")] else [])
  ++ (if chosen target Index then [(rooted ROOT "docs/sod/index.typ", py "sod-index")] else [])
  ++ (if chosen target Sod then (rooted ROOT "docs/sod/bundle.typ", py "sod-bundle") :: ((fun p => (p, py "sod-" ++ path_stem p)) <$> sort_paths records) else []).
Definition docs_output : pystr := rooted ROOT "docs/build".
Definition doc_temporary (name : pystr) : pystr := join_path docs_output (py "." ++ name ++ py ".tmp.pdf").
Definition doc_published (name : pystr) : pystr := join_path docs_output (name ++ py ".pdf").
Definition doc_command (source name : pystr) : list pystr := [py "typst"; py "compile"; py "--root"; ROOT; source; doc_temporary name].
Definition build_doc (doc : pystr * pystr) : Hm (W := W) unit :=
  let '(source, name) := doc in
  do! try_finally
    (do! run (doc_command source name);;
     io_res (h_replace (doc_temporary name) (doc_published name)))
    (io_res (n_unlink (doc_temporary name)));;
  print_line (py "Generated docs/build/" ++ name ++ py ".pdf").
Definition build_docs (target : DocsTarget) : Hm (W := W) unit :=
  do! io_res (h_mkdir docs_output);;
  let! records := (if chosen target Sod then io (h_glob (rooted ROOT "docs/sod/records") (py "*.typ")) else ret []) in
  for_do (doc_sources target records) build_doc.

(** ** check_extension_identity.py *)

Definition q1 : pystr := [34].
Definition probe_source : pystr :=
  join [10] ([py "package main"; py "import sql " ++ q1 ++ py "../src" ++ q1; py "main :: proc() {"; py "    engine, err := sql.engine_open(" ++ q1 ++ py ":memory:" ++ q1 ++ py ", 1, memory = true)";
    py "    defer sql.engine_close(&engine)"; py "    when #config(EXPECT_REJECT, false) {"; py "        assert(err == .Sqlite_Open_Failed && engine.db == nil)"; py "    } else {";
    py "        assert(err == .None && engine.vec_enabled)"; py "    }"; py "}"; []]).
Definition mismatched_source : pystr :=
  py "#include " ++ q1 ++ py "sqlite-vec.c" ++ q1 ++ [10] ++ py "const char *sqlodin_vec_identity(void) { return " ++ q1 ++ py "mismatch" ++ q1 ++ py "; }" ++ [10].
Abbreviation I := (Sc (W := W) report).
Definition i {A} (m : Hm (W := W) A) : I A := on_host m.
Definition accepted_or (rejected : bool) (yes no : string) : pystr := py (if rejected then yes else no).
Definition mismatched_archive (root archive : pystr) : Hm (W := W) unit :=
  do! io_res (r_unlink archive);;
  let source := join_path root (py "mismatched-vec.c") in
  let object := join_path root (py "vec.o") in
  do! io_res (h_write_text source mismatched_source);;
  do! run ([py "cc"] ++ VEC_FLAGS ++ [py "-I"; OUT ROOT; py "-c"; source; py "-o"; object]);;
  run [py "ar"; py "rcs"; archive; object].
Definition identity_entry (rejected : bool) (archive binary : pystr) : tv :=
  Obj (fields [("rejected", tbool rejected); ("passed", tbool true); ("archive_sha256", tstr archive); ("binary_sha256", tstr binary)]%string).
Definition identity_case (root libraries probe : pystr) (rejected : bool) : I unit :=
  let archive := join_path libraries (py "libsqlite_vec.a") in
  do! i (if rejected then mismatched_archive root archive else io_res (n_copy (out ROOT (py "libsqlite_vec.a")) archive));;
  let binary := join_path root (accepted_or rejected "rejected" "accepted") in
  do! i (run [py "odin"; py "build"; probe; py "-debug"; py "-strict-style"; py "-out:" ++ binary; py "-define:EXPECT_REJECT=" ++ accepted_or rejected "true" "false"]);;
  do! i (run [binary]);;
  let! archived := i (file_sha256 archive) in
  let! built := i (file_sha256 binary) in
  do! amend (rappend "checks" (identity_entry rejected archived built));;
  i (print_line (py "PASS " ++ accepted_or rejected "mismatched_extension_fails_closed" "pinned_extension_opens")).
Definition identity_tree (root libraries probe : pystr) : Hm (W := W) unit :=
  do! io_res (r_copytree (rooted ROOT "src") (join_path root (py "src")));;
  do! io_res (r_symlink (rooted ROOT "deps") (join_path root (py "deps")));;
  do! io_res (h_mkdir libraries);;
  do! io_res (r_symlink (out ROOT (py "libsqlite3.a")) (join_path libraries (py "libsqlite3.a")));;
  do! io_res (h_mkdir probe);;
  io_res (h_write_text (join_path probe (py "main.odin")) probe_source).
Definition identity_work (root : pystr) : I unit :=
  let libraries := join_path root (py "build/native") in
  let probe := join_path root (py "probe") in
  do! i (identity_tree root libraries probe);;
  do! for_do [false; true] (identity_case root libraries probe);;
  amend (rupdate [("complete"%string, tbool true)]).
Definition identity_body : I unit :=
  let! work := i (io_res (h_mkdtemp (py "sqlodin-extension-") [])) in
  try_finally (identity_work work) (i (io_res (h_remove work))).
Definition identity_script (output : pystr) : I unit := writing output Obj identity_body.
Definition check_identity (output : pystr) : Hm (W := W) unit :=
  let! identity := lift (vec_identity PINS) in
  do! io_res (h_mkdir (path_parent output));;
  with_report (fields [("complete", tbool false); ("checks", Arr []); ("identity", tstr identity)]%string) (identity_script output).
End Builds.


(** * Versions *)

Lemma versions_same versions locked : versions_differ versions locked = Ok false -> forall x, x ∈ versions -> eq_str locked x = true.
Proof.
  intros Hd x Hx. assert (Hf : forallb (fun v => eq_str locked v) versions = true).
  { revert Hd. unfold versions_differ. destruct (forallb _ versions); [done|by destruct locked]. }
  rewrite forallb_forall in Hf. by apply Hf, list_elem_of_In.
Qed.
(** A release has one version, and runs on the tag named after it. *)
Theorem release_verdict_exact versions locked ref_type ref_name v :
  release_verdict versions locked ref_type ref_name = Ok v <->
  locked = PStr v /\ head versions = Some v /\ (forall x, x ∈ versions -> x = v) /\ ref_type = Some (py "tag") /\ ref_name = Some (py "v" ++ v).
Proof.
  unfold release_verdict. split.
  - intros (differ & Hd & Hr)%res_bind_Ok. destruct differ; [done|]. apply res_bind_Ok in Hr as (version & Hv & Hr).
    destruct (bool_decide (ref_type <> _)) eqn:Et; [done|]. destruct (bool_decide (ref_name <> _)) eqn:En; [done|]. cbn [orb] in Hr. injection Hr as ->.
    apply bool_decide_eq_false in Et, En. destruct versions as [|x versions]; [done|]. injection Hv as ->.
    pose proof (versions_same _ _ Hd) as Hall.
    assert (locked = PStr v) as ->.
    { pose proof (Hall v ltac:(by left)) as Hv. destruct locked; try done. cbn in Hv. apply pyeqb_eq in Hv. by subst. }
    split; [done|]. split; [done|]. split; [|split; by apply dec_stable].
    intros x Hx. specialize (Hall x Hx). cbn in Hall. by apply pyeqb_eq in Hall.
  - intros (-> & Hh & Hall & -> & ->). destruct versions as [|x versions]; [done|]. injection Hh as ->.
    assert (forallb (fun y => eq_str (PStr v) y) (v :: versions) = true) as Hf.
    { apply forallb_forall. intros y Hy%list_elem_of_In. cbn. apply pyeqb_eq. symmetry. by apply Hall. }
    cbn [versions_differ]. rewrite Hf. cbn [negb res_bind]. change (list_index (v :: versions) 0) with (Ok (E := exn) v). cbn [res_bind].
    rewrite !bool_decide_eq_false_2 by (intros Hn; by apply Hn). done.
Qed.

Lemma span_class_split cls s run c rest : span_class cls s = (run, c :: rest) -> s = run ++ c :: rest /\ forallb cls run = true /\ cls c = false.
Proof.
  revert run. induction s as [|x s IH]; intros run; cbn [span_class]; [done|]. destruct (cls x) eqn:Ex.
  - destruct (span_class cls s) as [run' rest'] eqn:E. intros [= <- ->]. destruct (IH run' eq_refl) as (-> & Hr & Hc). cbn [forallb]. by rewrite Ex.
  - intros [= <- -> ->]. done.
Qed.

(** What a search for a quoted text finds. *)
Lemma quoted_from_found start anchored marker quote s v :
  quoted_from start anchored marker quote s = Some v ->
  exists pre post, s = pre ++ marker ++ v ++ quote :: post /\ v <> [] /\ quote ∉ v /\ (anchored = true -> (start = true /\ pre = []) \/ last pre = Some 10).
Proof.
  revert start. induction s as [|c s IH]; intros start; cbn [quoted_from]; [done|]. cbv zeta.
  assert (Hnext : quoted_from (c =? 10) anchored marker quote s = Some v ->
    exists pre post, c :: s = pre ++ marker ++ v ++ quote :: post /\ v <> [] /\ quote ∉ v /\ (anchored = true -> (start = true /\ pre = []) \/ last pre = Some 10)).
  { intros (pre & post & -> & Hv & Hq & Ha)%IH. exists (c :: pre), post. split; [done|]. split; [done|]. split; [done|]. intros Hanc. right.
    destruct (Ha Hanc) as [[Hc ->]|Hl]; [apply Z.eqb_eq in Hc; by subst c|]. by destruct pre. }
  destruct (_ && _) eqn:Hat; [|exact Hnext]. apply andb_true_iff in Hat as [Hst (t & Ht)%is_prefix_spec].
  destruct (span_class _ _) as [[|d run] [|q rest]] eqn:Hspan; try exact Hnext. intros [= <-]. rewrite Ht, drop_app_length in Hspan.
  apply span_class_split in Hspan as (-> & Hrun & Hq). exists [], rest. rewrite Ht. cbn [app].
  assert (q = quote) as -> by (apply negb_false_iff in Hq; by apply Z.eqb_eq). split; [done|]. split; [done|]. split.
  - intros Hin. rewrite forallb_forall in Hrun. apply list_elem_of_In, Hrun in Hin. by rewrite Z.eqb_refl in Hin.
  - intros ->. left. by split; [|].
Qed.

(** * Linkage *)

Definition ci_word (w m : pystr) : Prop := Forall2 (fun c x => ci_char c x = true) w m.
(** The names the pattern describes. *)
Definition library_tail (m : pystr) : Prop :=
  exists sep e, m = sep :: e /\ (sep = 46 \/ sep = 45) /\ (ci_word (py "so") e \/ ci_word (py "dylib") e \/ exists d, e = [d] /\ 48 <= d <= 57).
Definition library_name (m : pystr) : Prop :=
  exists lib base run tail, m = lib ++ base ++ run ++ tail /\ ci_word (py "lib") lib /\ library_tail tail /\
    ((ci_word (py "sqlite") base /\ Forall (fun c => name_char c = true) run) \/ (run = [] /\ (ci_word (py "ssl") base \/ ci_word (py "crypto") base))).

Lemma ci_prefix_spec w s : ci_prefix w s = true <-> exists m r, s = m ++ r /\ ci_word w m.
Proof.
  revert s. induction w as [|c w IH]; intros s; cbn [ci_prefix].
  - split; [intros _; exists [], s; by split; [|constructor]|done].
  - destruct s as [|x s]; [split; [done|]; intros (m & r & Hs & Hm); inversion Hm; by subst|]. rewrite andb_true_iff, IH. split.
    + intros (Hc & m & r & -> & Hm). exists (x :: m), r. by split; [|constructor].
    + intros (m & r & Hs & Hm). inversion Hm as [|? y ? m' Hy Hm']; subst. injection Hs as -> ->. split; [done|]. by exists m', r.
Qed.
Lemma ci_word_length w m : ci_word w m -> length m = length w.
Proof. intros Hm. symmetry. by eapply Forall2_length. Qed.

Lemma library_end_spec s : library_end s = true <-> exists m r, s = m ++ r /\ library_tail m.
Proof.
  unfold library_end, library_tail. destruct s as [|x l].
  { split; [done|]. intros (m & r & Hs & sep & e & -> & _). done. }
  rewrite andb_true_iff, !orb_true_iff, !Z.eqb_eq, !ci_prefix_spec. split.
  - intros [Hx [[(m & r & -> & Hm)|(m & r & -> & Hm)]|Hd]].
    + exists (x :: m), r. split; [done|]. exists x, m. auto.
    + exists (x :: m), r. split; [done|]. exists x, m. auto.
    + destruct l as [|d l]; [done|]. exists [x; d], l. split; [done|]. exists x, [d]. split; [done|]. split; [done|]. right. right. exists d. split; [done|]. unbool. lia.
  - intros (m & r & Hs & sep & e & -> & Hsep & He). injection Hs as -> ->. split; [done|].
    destruct He as [He|[He|(d & -> & Hd)]]; [left; left; by exists e, r|left; right; by exists e, r|]. right. cbn. apply andb_true_iff. lia.
Qed.

Lemma sqlite_end_spec s : sqlite_end s = true <-> exists run m r, s = run ++ m ++ r /\ Forall (fun c => name_char c = true) run /\ library_tail m.
Proof.
  induction s as [|c s IH]; cbn [sqlite_end].
  - rewrite orb_false_r, library_end_spec. split.
    + intros (m & r & Hs & Hm). by exists [], m, r.
    + intros (run & m & r & Hs & Hr & Hm). symmetry in Hs. apply app_eq_nil in Hs as [-> Hs]. exists m, r. by rewrite Hs.
  - rewrite orb_true_iff, andb_true_iff, library_end_spec, IH. split.
    + intros [(m & r & -> & Hm)|(Hc & run & m & r & -> & Hr & Hm)]; [by exists [], m, r|]. exists (c :: run), m, r. by split; [|split; [constructor|]].
    + intros (run & m & r & Hs & Hr & Hm). destruct run as [|x run]; [left; by exists m, r|right]. injection Hs as -> ->.
      inversion Hr; subst. split; [done|]. by exists run, m, r.
Qed.

(** A word, then what the rest of the pattern asks for. *)
Lemma ci_then w k (f : pystr -> bool) s : length w = k -> ci_prefix w s && f (drop k s) = true <-> exists m r, s = m ++ r /\ ci_word w m /\ f r = true.
Proof.
  intros Hk. rewrite andb_true_iff, ci_prefix_spec. split.
  - intros [(m & r & -> & Hm) Hf]. exists m, r. split; [done|]. split; [done|]. revert Hf.
    replace k with (length m) by (rewrite (ci_word_length w m Hm); done). by rewrite drop_app_length.
  - intros (m & r & -> & Hm & Hf). split; [by exists m, r|].
    replace k with (length m) by (rewrite (ci_word_length w m Hm); done). by rewrite drop_app_length.
Qed.
Lemma library_at_spec s : library_at s = true <-> exists m r, s = m ++ r /\ library_name m.
Proof.
  unfold library_at. rewrite (ci_then (py "lib") 3 library_rest) by done. unfold library_rest. setoid_rewrite orb_true_iff. setoid_rewrite orb_true_iff.
  setoid_rewrite (ci_then (py "sqlite") 6 sqlite_end); [|done]. setoid_rewrite (ci_then (py "ssl") 3 library_end); [|done]. setoid_rewrite (ci_then (py "crypto") 6 library_end); [|done].
  setoid_rewrite sqlite_end_spec. setoid_rewrite library_end_spec. split.
  - intros (lib & t & -> & Hl & [[(b & t2 & -> & Hb & run & m & r & -> & Hr & Hm)|(b & t2 & -> & Hb & m & r & -> & Hm)]|(b & t2 & -> & Hb & m & r & -> & Hm)]).
    + exists (lib ++ b ++ run ++ m), r. rewrite <-!app_assoc. split; [done|]. exists lib, b, run, m. auto 10.
    + exists (lib ++ b ++ [] ++ m), r. rewrite <-!app_assoc. split; [done|]. exists lib, b, [], m. auto 10.
    + exists (lib ++ b ++ [] ++ m), r. rewrite <-!app_assoc. split; [done|]. exists lib, b, [], m. auto 10.
  - intros (m & r & -> & lib & base & run & tail & -> & Hl & Ht & Hb). exists lib, (base ++ run ++ tail ++ r). rewrite <-!app_assoc. split; [done|]. split; [done|].
    destruct Hb as [[Hb Hr]|[-> [Hb|Hb]]]; [left; left|left; right|right]; exists base; eexists; (split; [done|]; split; [done|]).
    + by exists run, tail, r.
    + by exists tail, r.
    + by exists tail, r.
Qed.

(** check_native_linkage.py refuses a binary exactly when the linkage listing
    holds the name of a shared SQLite, sqlite-vec, SSL or crypto library. *)
Theorem shared_library_exact s : shared_library s = true <-> exists pre m post, s = pre ++ m ++ post /\ library_name m.
Proof.
  induction s as [|c s IH].
  - cbn [shared_library]. rewrite orb_false_r, library_at_spec. split; [intros (m & r & Hs & Hm); by exists [], m, r|].
    intros (pre & m & post & Hs & Hm). symmetry in Hs. apply app_eq_nil in Hs as [-> Hs]. exists m, post. by rewrite Hs.
  - cbn [shared_library]. rewrite orb_true_iff, library_at_spec, IH. split.
    + intros [(m & r & -> & Hm)|(pre & m & post & -> & Hm)]; [by exists [], m, r|by exists (c :: pre), m, post].
    + intros (pre & m & post & Hs & Hm). destruct pre as [|x pre]; [left; by exists m, post|]. injection Hs as -> ->. right. by exists pre, m, post.
Qed.

(** * Downloads *)

(** A predicate on the world that using what was downloaded may break, and
    nothing else the two scripts do. *)
Class Fetching {W : Type} `{ReleaseHost W} (I : W -> Prop) := {
  f_retrieve u p : stays I (io_res (r_retrieve u p)); f_download u t : stays I (io_res (r_download u t)); f_members d : stays I (io_res (r_members d));
  f_member d n : stays I (io_res (r_member d n)); f_rglob p n : stays I (io (r_rglob p n)); f_chmod p n : stays I (io_do (r_chmod p n))
}.
#[local] Hint Resolve f_retrieve f_download f_members f_member f_rglob f_chmod stays_sha256 stays_print stays_run stays_output : confined.

Section Fetched.
Context {W : Type} `{ReleaseHost W} (ROOT : pystr) (I : W -> Prop) `{!Confined I} `{!Fetching I}.

(** The compiler archive of this platform was read with its pinned digest. *)
Definition compiler_archive (archive : pystr) : Prop :=
  exists target digest data (w w' : W), pinned_target h_system n_machine = Ok (target, digest) /\ archive = odin_archive ROOT target /\
    h_read_bytes archive w = (Ok data, w') /\ h_sha256 data = digest.
Definition unpacks_pinned : Prop := forall archive directory, compiler_archive archive -> stays I (io_res (r_extract_data archive directory)).
(** An executable, the only one with its name, of the archive with the pinned
    and published digest. *)
Definition release_binary (binary : list Z) : Prop :=
  exists archive sums members m (w w1 w2 w3 : W),
    h_sha256 archive = SHA256 /\ published sums = true /\
    r_members archive w = (Ok members, w1) /\ filter (fun m => is_zaxon m = true) members = [m] /\
    r_member archive (tm_name m) w2 = (Ok binary, w3) /\ take 4 binary = ELF.
Definition writes_release : Prop := forall path data, release_binary data -> stays I (io_res (n_write_bytes path data)).

Lemma returns_io_res {A} (f : W -> pyres A * W) (P : A -> Prop) : (forall w a w', f w = (Ok a, w') -> P a) -> returns (io_res f) P.
Proof. intros Hf w. apply wp_io_res. intros r w' E a ->. by eapply Hf. Qed.

Lemma stays_found directory name : stays I (found_files (W := W) directory name).
Proof. unfold found_files. confine. Qed.
#[local] Hint Resolve stays_found : confined.

Lemma install_keeps : unpacks_pinned -> stays I (install_odin (W := W) ROOT).
Proof.
  intros Hu. unfold install_odin. apply (stays_value _ (fun pinned => pinned_target h_system n_machine = Ok pinned)); [auto with confined|by apply returns_lift|].
  intros [target digest] Hp. cbv zeta. cbn [fst snd]. apply stays_bind; [auto with confined|intros _]. apply stays_bind; [auto with confined|intros _].
  apply (stays_value _ (fun d => exists data (w w' : W), h_read_bytes (odin_archive ROOT target) w = (Ok data, w') /\ h_sha256 data = d)); [auto with confined|apply returns_sha256|].
  intros d (data & w & w' & Hr & Hd). destruct (pyeqb d digest) eqn:E; cbn [negb]; [|auto with confined]. apply pyeqb_eq in E. subst d.
  apply stays_bind; [auto with confined|intros _]. apply stays_bind; [|intros _; confine].
  apply Hu. exists target, digest, data, w, w'. auto.
Qed.

Lemma returns_zaxon archive : returns (zaxon_data (W := W) archive) (fun binary =>
  exists members m (w w1 w2 w3 : W), r_members archive w = (Ok members, w1) /\ filter (fun m => is_zaxon m = true) members = [m] /\ r_member archive (tm_name m) w2 = (Ok binary, w3)).
Proof.
  unfold zaxon_data. eapply (returns_bind (fun members => exists w w1 : W, r_members archive w = (Ok members, w1))).
  { apply returns_io_res. intros w a w' E. by exists w, w'. }
  intros members (w & w1 & Hm). destruct (filter _ members) as [|m [|? ?]] eqn:E; try apply returns_throw.
  apply returns_io_res. intros w2 binary w3 Hb. exists members, m, w, w1, w2, w3. auto.
Qed.
Lemma stays_zaxon archive : stays I (zaxon_data (W := W) archive).
Proof. unfold zaxon_data. confine. Qed.
#[local] Hint Resolve stays_zaxon : confined.

Lemma fetch_keeps : writes_release -> stays I (fetch_zaxon (W := W) ROOT).
Proof.
  intros Hw. unfold fetch_zaxon. destruct (negb _); [auto with confined|]. apply stays_bind; [auto with confined|intros archive].
  destruct (pyeqb (h_sha256 archive) SHA256) eqn:Ed; cbn [negb]; [|auto with confined]. apply pyeqb_eq in Ed.
  apply stays_bind; [auto with confined|intros listing]. apply stays_bind; [auto with confined|intros sums]. destruct (published sums) eqn:Es; cbn [negb]; [|auto with confined].
  eapply stays_value; [auto with confined|apply returns_zaxon|]. intros binary (members & m & w & w1 & w2 & w3 & Hm & Hf & Hb).
  case_bool_decide as He; cbn [negb]; [|auto with confined]. cbv zeta. apply stays_bind; [auto with confined|intros _].
  apply stays_bind; [|intros _; confine]. apply Hw. exists archive, sums, members, m, w, w1, w2, w3. auto 10.
Qed.
End Fetched.

(** install_release_odin.py and fetch_zaxon_release.py, however they end, unpack
    no compiler but the archive read with the digest pinned for this platform,
    and write no executable but the only one of the archive whose digest is both
    pinned and published. *)
Theorem release_pinned {W} `{ReleaseHost W} (ROOT : pystr) (I : W -> Prop) `{!Confined I} `{!Fetching I} :
  unpacks_pinned ROOT I -> writes_release I -> stays I (install_odin ROOT) /\ stays I (fetch_zaxon ROOT).
Proof. intros Hu Hw. split; [by apply install_keeps|by apply fetch_keeps]. Qed.

(** * Documents *)

Section Published.
Context {W : Type} `{ReleaseHost W} (ROOT : pystr) (I : W -> Prop).
Hypothesis (Hmkdir : forall p, stays I (io_res (h_mkdir p))) (Hglob : forall p g, stays I (io (h_glob p g))) (Hrun : forall a c t, stays I (io_res (h_run a c t)))
  (Hunlink : forall p, stays I (io_res (n_unlink p))) (Hprint : forall t, stays I (io_do (h_print t))).
(** The published file may be replaced by the one its own command just wrote. *)
Hypothesis (Hpublish : forall source name finished w w',
  h_run (doc_command ROOT source name) [] None w = (Ok finished, w') -> returncode finished = 0 -> I w' ->
  I (h_replace (doc_temporary ROOT name) (doc_published ROOT name) w').2).

Lemma doc_keeps doc : stays I (build_doc (W := W) ROOT doc).
Proof.
  destruct doc as [source name]. unfold build_doc. apply stays_bind; [|intros _; apply Hprint]. apply stays_finally; [|apply Hunlink].
  intros w Hw. unfold run, run_checked. apply wp_bind, wp_bind, wp_bind, wp_io_res. intros r w' E.
  assert (Hw' : I w').
  { pose proof (Hrun (doc_command ROOT source name) [] None w Hw) as Hk. unfold wp, io_res in Hk. by rewrite E in Hk. }
  destruct r as [finished|e|]; [|done..]. destruct (returncode finished =? 0) eqn:Ec; [|done]. apply Z.eqb_eq in Ec. cbn [negb]. do 2 apply wp_ret.
  apply wp_io_res. intros r w2 E2. pose proof (Hpublish source name finished w w' E Ec Hw') as Hk. by rewrite E2 in Hk.
Qed.

(** build_docs.py replaces a document only by what the command for it has just
    written with success, and leaves the others as they were. *)
Theorem docs_published target : stays I (build_docs (W := W) ROOT target).
Proof.
  unfold build_docs. apply stays_bind; [apply Hmkdir|intros _]. apply stays_bind; [destruct (chosen target Sod); [apply Hglob|apply stays_ret]|intros records].
  apply stays_for_do. intros doc _. apply doc_keeps.
Qed.
End Published.

(** * The two identities *)

Section Identity.
Context {W : Type} `{ReleaseHost W} (ROOT : pystr).
Abbreviation St := (report * W)%type.

Definition identified (rejected : bool) (x : tv) : Prop := exists archive binary, x = identity_entry rejected archive binary.
(** Checks recorded so far, in a report not yet complete. *)
Definition identity_so_far (cases : list bool) (s : St) : Prop :=
  rget "complete" s.1 <> Some (tbool true) /\ exists l, rget "checks" s.1 = Some (Arr l) /\ Forall2 identified cases l.
Definition identity_honest (r : res exn unit) (rep : report) : Prop :=
  (rget "complete" rep = Some (tbool true) -> exists l, rget "checks" rep = Some (Arr l) /\ Forall2 identified [false; true] l) /\
  (r = Ok tt -> rget "complete" rep = Some (tbool true)).

Lemma identity_unfinished cases r s : identity_so_far cases s -> r <> Ok tt -> identity_honest r s.1.
Proof. intros [Hc _] Hr. by split. Qed.

Lemma identity_case_records root libraries probe rejected cases (s : St) :
  identity_so_far cases s ->
  wp (identity_case ROOT root libraries probe rejected) (fun r s' => match r with Ok _ => identity_so_far (cases ++ [rejected]) s' | _ => exists cases', identity_so_far cases' s' end) s.
Proof.
  intros Hs. assert (Hkeep : forall w : W, exists cases', identity_so_far cases' (s.1, w)) by (intros w; by exists cases).
  unfold identity_case. cbv zeta. do 3 (apply wp_bind, wp_host_step; intros [[]|e|] ?; [|apply Hkeep..]; cbn [fst]).
  apply wp_bind, wp_host_step. intros [archive|e|] ?; [|apply Hkeep..]. apply wp_bind, wp_host_step. intros [binary|e|] ?; [|apply Hkeep..]. cbn [fst].
  apply wp_bind, wp_amend. destruct Hs as [Hc (l & Hl & Hf)].
  assert (Hnew : forall w : W, identity_so_far (cases ++ [rejected]) (rappend "checks" (identity_entry rejected archive binary) s.1, w)).
  { intros world. split; cbn [fst]; [by rewrite rget_rappend_other|]. exists (l ++ [identity_entry rejected archive binary]).
    split; [by apply rget_rappend|]. apply Forall2_app; [done|]. constructor; [by exists archive, binary|constructor]. }
  apply wp_host_step. cbn [fst]. intros [[]|e|] world; [apply Hnew|by exists (cases ++ [rejected])..].
Qed.

Lemma identity_work_honest root (s : St) : identity_so_far [] s -> wp (identity_work ROOT root) (fun r s' => identity_honest r s'.1) s.
Proof.
  intros Hs. unfold identity_work. cbv zeta. apply wp_bind, wp_host_step. intros [[]|e|] w; [|by apply (identity_unfinished [] _ (s.1, w))..]. cbn [fst].
  apply wp_bind. cbn [for_do]. apply wp_bind. eapply wp_mono; [by apply (identity_case_records _ _ _ _ [])|].
  intros [u|e|] s1 H1; [|destruct H1 as [cases H1]; by eapply identity_unfinished..].
  apply wp_bind. eapply wp_mono; [by eapply identity_case_records|]. intros [u2|e|] s2 H2; [|destruct H2 as [cases H2]; by eapply identity_unfinished..].
  apply wp_ret, wp_amend. destruct H2 as [_ Hl]. split; cbn [fst]; [|intros _; apply rget_rset]. intros _. by rewrite rget_rupdate_other.
Qed.

(** check_extension_identity.py reports itself complete only when the engine
    opened with the pinned extension and then refused the mismatched one, and
    succeeds only with that report, written. *)
Theorem identity_sound output (s : St) :
  identity_so_far [] s ->
  wp (identity_script ROOT output) (fun r s' => identity_honest r s'.1 /\ (r = OutOfFuel \/ written output (Obj s'.1) s'.2)) s.
Proof.
  intros Hs. unfold identity_script. eapply wp_mono; [apply (wp_writing _ _ _ identity_honest)|].
  - unfold identity_body. apply wp_bind, wp_host_step. intros [work|e|] w; [|by apply (identity_unfinished [] _ (s.1, w))..]. cbn [fst].
    apply wp_try_finally. eapply wp_mono; [by apply identity_work_honest|]. intros r s1 Hh.
    destruct r as [[]|e|]; [| |done]; apply wp_host_step; intros [?|?|] w2; cbn [fst]; first [done|by destruct Hh].
  - intros r s' (r0 & [H1 H2] & Hw & Hr). split; [|exact Hw]. split; [exact H1|]. intros ->. apply H2. by apply Hr.
Qed.
End Identity.

(** * setup_comparison.py *)

Class SetupHost (W : Type) := {
  su_release :: ReleaseHost W;
  su_environ : W -> list (pystr * pystr);  (** [os.environ] *)
  (** [subprocess.run(args, cwd=cwd, env=env, timeout=600)] with all variables given *)
  su_run_env : list pystr -> pystr -> list (pystr * pystr) -> W -> pyres Finished * W;
  su_is_symlink : pystr -> W -> bool * W
}.

(** [text.replace(old, new)], from the left. *)
Fixpoint replaced_from (fuel : nat) (old new s : pystr) : pystr :=
  match fuel with
  | O => s
  | S fuel => match find_sub old s with Some (pre, post) => pre ++ new ++ replaced_from fuel old new (drop (length old) post) | None => s end
  end.
Definition replaced (old new s : pystr) : pystr := replaced_from (length s) old new s.
Definition Pin : Type := string * (string * string * string).
Definition PINS_OF : list Pin :=
  [("raft", ("https://github.com/cowsql/raft.git", "v0.22.1", "9edb176a7924ce2b943cb56552366dc4b5a1a6b7"));
   ("cowsql", ("https://github.com/cowsql/cowsql.git", "v1.15.9", "783815b901470e27b7dfbcce3a67c888dad19e78"));
   ("go-cowsql", ("https://github.com/cowsql/go-cowsql.git", "v1.22.0", "b0e46059265dcc795d35a15e86f44ee848e25252"))]%string.
Definition ARCHIVES : list (string * (string * string)) :=
  [("go1.24.4.linux-amd64.tar.gz", ("https://go.dev/dl/", "77e5da33bb72aeaef1ba4418b6fe511bc4d041873cbf82e5aa6318740df98717"));
   ("rqlite-v10.2.7-linux-amd64.tar.gz", ("https://github.com/rqlite/rqlite/releases/download/v10.2.7/", "0b4e8ffbbacc84e421c49915bbd82cc67ac6488e22d4ce58b678fc1219c6a38a"))]%string.
Definition PACKAGES : list string :=
  ["libuv1-dev"; "libuv1t64"; "libsqlite3-0"; "libsqlite3-dev"; "pkgconf"; "pkgconf-bin"; "libpkgconf3"; "m4"; "autoconf"; "automake"; "autotools-dev"; "libtool"; "libltdl-dev"; "autoconf-archive"]%string.

Section Setup.
Context {W : Type} `{SetupHost W} (ROOT : pystr).
Definition WORK : pystr := join_path ROOT (py "build/comparison-tools").
Definition PREFIX : pystr := join_path WORK (py "prefix").
Definition DOWNLOADS : pystr := join_path WORK (py "downloads").
Definition in_prefix (path : string) : pystr := join_path PREFIX (py path).
Definition run_in (args : list pystr) (cwd : pystr) : Hm (W := W) unit := let! _ := run_checked args cwd (Some 600%Q) in ret tt.
Definition run_env (args : list pystr) (cwd : pystr) (env : list (pystr * pystr)) : Hm (W := W) unit :=
  let! finished := io_res (su_run_env args cwd env) in
  if negb (returncode finished =? 0) then throw (CalledProcessError "returned non-zero exit status") else ret tt.

(** A pinned archive: downloaded unless it is there, then unpacked with its digest. *)
Definition archive_path (name : string) : pystr := join_path DOWNLOADS (py name).
Definition prepare_archive (x : string * (string * string)) : Hm (W := W) unit :=
  let '(name, (base, expected)) := x in
  let path := archive_path name in
  let! there := io (h_exists path) in
  do! (if (there : bool) then ret tt
       else
         do! print_line (py "Downloading " ++ py name);;
         let! data := io_res (r_download (py base ++ py name) 120) in
         io_res (n_write_bytes path data));;
  let! digest := file_sha256 path in
  if negb (pyeqb digest (py expected)) then throw (SystemExit (py "Archive checksum mismatch: " ++ path)) else io_res (r_extract_data path WORK).
Definition source_path (name : string) : pystr := join_path WORK (py "src/" ++ py name).
Definition revision_of (source : pystr) : Hm (W := W) pystr :=
  let! text := check_output [py "git"; py "-C"; source; py "rev-parse"; py "HEAD"] [] None in ret (strip text).
Definition prepare_source (x : Pin) : Hm (W := W) unit :=
  let '(name, (url, tag, pin)) := x in
  let source := source_path name in
  let! there := io (h_exists source) in
  do! (if (there : bool) then ret tt else run_in [py "git"; py "clone"; py "--depth"; py "1"; py "--branch"; py tag; py url; source] WORK);;
  let! actual := revision_of source in
  if negb (pyeqb actual (py pin)) then throw (SystemExit (py "Unexpected " ++ py name ++ py " revision: " ++ actual)) else ret tt.

(** The extracted scripts name the system's directories; only these copies change. *)
Definition relocated_names : list string := ["/usr/share/autoconf"; "/usr/share/automake-1.17"; "/usr/share/aclocal"; "/usr/share/libtool"; "/usr/bin/m4"]%string.
Definition relocated (text : pystr) : pystr := foldl (fun text old => replaced (py old) (PREFIX ++ py old) text) text relocated_names.
Definition relocate (path : pystr) : Hm (W := W) unit :=
  let! file := io (h_is_file path) in
  let! link := (if (file : bool) then io (su_is_symlink path) else ret true) in
  if (link : bool) then ret tt
  else
    let! text := try_except (let! text := io_res (h_read_text path) in ret (Some text)) (fun e => match e with ValueError m => if String.eqb m "UnicodeDecodeError" then Some (ret None) else None | _ => None end) in
    match text with Some text => io_res (h_write_text path (relocated text)) | None => ret tt end.
Definition link_tool (x : string * string) : Hm (W := W) unit :=
  let link := in_prefix ("usr/bin/" ++ x.1) in
  let! there := io (h_exists link) in
  if (there : bool) then ret tt else io_res (r_symlink (py x.2) link).
Definition prepare : Hm (W := W) unit :=
  if negb (pyeqb h_system (py "Linux") && pyeqb n_machine (py "x86_64")) then throw (SystemExit (py "This pinned setup is for Linux x86_64 only."))
  else
    do! for_do [WORK; PREFIX; DOWNLOADS; join_path WORK (py "src")] (fun p => io_res (h_mkdir p));;
    do! for_do ARCHIVES prepare_archive;;
    do! for_do PINS_OF prepare_source;;
    do! run_in ([py "apt-get"; py "download"] ++ (py <$> PACKAGES)) DOWNLOADS;;
    let! packages := io (h_glob DOWNLOADS (py "*.deb")) in
    do! for_do packages (fun package => run_in [py "dpkg-deb"; py "-x"; package; PREFIX] WORK);;
    do! for_do ["usr/bin"; "usr/share/autoconf"; "usr/share/automake-1.17"]%string (fun directory =>
      let! paths := io (r_rglob (in_prefix directory) (py "*")) in for_do paths relocate);;
    for_do [("automake", "automake-1.17"); ("aclocal", "aclocal-1.17"); ("pkg-config", "pkgconf")]%string link_tool.

(** ** build *)

Definition libs : pystr := in_prefix "usr/lib/x86_64-linux-gnu".
Definition flag (k : string) (parts : list pystr) : pystr * pystr := (py k, concat parts).
Definition build_variables (path : pystr) : list (pystr * pystr) :=
  let p name := PREFIX ++ py name in
  [flag "PATH" [WORK; py "/go/bin:"; PREFIX; py "/usr/bin:"; path]; flag "LD_LIBRARY_PATH" [p "/lib:"%string; libs];
   flag "PERL5LIB" [p "/usr/share/autoconf:"%string; p "/usr/share/automake-1.17"%string]; flag "ACLOCAL_PATH" [p "/usr/share/aclocal"%string]; flag "ACLOCAL_AUTOMAKE_DIR" [p "/usr/share/aclocal-1.17"%string];
   flag "AUTOMAKE_LIBDIR" [p "/usr/share/automake-1.17"%string]; flag "AC_MACRODIR" [p "/usr/share/autoconf"%string]; flag "autom4te_perllibdir" [p "/usr/share/autoconf"%string];
   flag "M4" [p "/usr/bin/m4"%string]; flag "AUTOM4TE" [p "/usr/bin/autom4te"%string]; flag "AUTOCONF" [p "/usr/bin/autoconf"%string]; flag "AUTOHEADER" [p "/usr/bin/autoheader"%string];
   flag "AUTORECONF" [p "/usr/bin/autoreconf"%string]; flag "SQLITE_CFLAGS" [py "-I"; p "/usr/include"%string]; flag "SQLITE_LIBS" [py "-L"; libs; py " -lsqlite3"];
   flag "UV_CFLAGS" [py "-I"; p "/usr/include"%string]; flag "UV_LIBS" [py "-L"; libs; py " -luv"]; flag "LDFLAGS" [py "-Wl,-rpath,"; libs]; flag "GOMODCACHE" [WORK; py "/gomodcache"];
   flag "GOCACHE" [WORK; py "/gocache"]; flag "CGO_CFLAGS" [py "-I"; p "/include -I"%string; p "/usr/include"%string];
   flag "CGO_LDFLAGS" [py "-L"; p "/lib -L"%string; libs; py " -Wl,-rpath,"; p "/lib -Wl,-rpath,"%string; libs]; flag "PKG_CONFIG_PATH" [p "/lib/pkgconfig:"%string; libs; py "/pkgconfig"];
   flag "PKG_CONFIG_SYSROOT_DIR" [PREFIX]].
Definition updated (kvs env : list (pystr * pystr)) : list (pystr * pystr) := foldl (fun env x => dset x.1 x.2 env) env kvs.
(** autoreconf, configure, make and install of one source *)
Definition autotools (source : pystr) (option : string) (env : list (pystr * pystr)) : Hm (W := W) unit :=
  do! run_env [py "autoreconf"; py "-fi"] source env;;
  do! run_env [py "./configure"; py "--prefix=" ++ PREFIX; py option] source env;;
  do! run_env [py "make"; py "-j4"] source env;;
  run_env [py "make"; py "install"] source env.
Definition go_builds (env : list (pystr * pystr)) : Hm (W := W) unit :=
  let source := source_path "go-cowsql" in
  do! run_env [py "go"; py "mod"; py "download"] source env;;
  run_env [py "go"; py "build"; py "-mod=readonly"; py "-tags"; py "libsqlite3"; py "-o"; join_path WORK (py "cowsql-demo"); py "./cmd/cowsql-demo"] source env.
Definition pins_data : tv :=
  Obj (fields ((fun x : Pin => let '(name, (url, tag, pin)) := x in (name, Arr (tstr <$> [py url; py tag; py pin]))) <$> PINS_OF)).
Definition archives_data : tv := Obj (fields ((fun x : string * (string * string) => (x.1, Arr [tstr (py x.2.1); tstr (py x.2.2)])) <$> ARCHIVES)).
Definition setup_metadata : Hm (W := W) tv :=
  let! packages := io (h_glob DOWNLOADS (py "*.deb")) in
  let! digests := for_each packages (fun p acc => let! d := file_sha256 p in ret (dset (path_name p) d acc)) [] in
  let! go := check_output [join_path WORK (py "go/bin/go"); py "version"] [] None in
  let! compiler := check_output [py "cc"; py "--version"] [] None in
  let! first := lift (list_index (splitlines compiler) 0) in
  let! demo := file_sha256 (join_path WORK (py "cowsql-demo")) in
  ret (Obj (fields [("pins", pins_data); ("archives", archives_data); ("packages", manifest_report digests); ("go", tstr (strip go)); ("compiler", tstr first);
    ("raft_configure", Arr [tstr (py "--without-lz4")]); ("cowsql_configure", Arr [tstr (py "--disable-backtrace")]); ("cowsql_demo_sha256", tstr demo)]%string)).
Definition build : Hm (W := W) unit :=
  let! env := gets su_environ in
  let! path := lift (match dget (py "PATH") env with Some p => Ok p | None => Raise (KeyError "PATH") end) in
  let env := updated (build_variables path) env in
  do! autotools (source_path "raft") "--without-lz4" env;;
  let env := updated [flag "RAFT_CFLAGS" [py "-I"; in_prefix "include"]; flag "RAFT_LIBS" [py "-L"; in_prefix "lib"; py " -lraft"]] env in
  do! autotools (source_path "cowsql") "--disable-backtrace" env;;
  do! go_builds (ddel (py "PKG_CONFIG_SYSROOT_DIR") env);;
  let! metadata := setup_metadata in
  io_res (h_write_json (join_path WORK (py "build.json")) metadata).
Definition setup_comparison : Hm (W := W) unit := do! prepare;; build.

(** What a prepared tree holds: archives with their pinned digests, sources at
    their pinned revisions. *)
Definition archive_pinned (x : string * (string * string)) : Prop :=
  exists data (w w' : W), h_read_bytes (archive_path x.1) w = (Ok data, w') /\ h_sha256 data = py x.2.2.
Definition source_pinned (x : Pin) : Prop := exists w w' : W, revision_of (source_path x.1) w = (Ok (py x.2.2), w').
Lemma prepare_archive_pinned x : returns (prepare_archive x) (fun _ => archive_pinned x).
Proof.
  destruct x as [name [base expected]]. unfold prepare_archive. cbv zeta. apply returns_then. intros there. apply returns_then. intros _.
  eapply returns_bind; [apply returns_sha256|]. intros d (data & w & w' & Hr & Hd). destruct (pyeqb d (py expected)) eqn:E; cbn [negb]; [|apply returns_throw].
  apply pyeqb_eq in E. eapply returns_mono; [apply returns_any|]. intros _ _. exists data, w, w'. cbn [fst snd]. by rewrite Hd, E.
Qed.
Lemma prepare_source_pinned x : returns (prepare_source x) (fun _ => source_pinned x).
Proof.
  destruct x as [name [[url tag] pin]]. unfold prepare_source. cbv zeta. apply returns_then. intros there. apply returns_then. intros _.
  eapply returns_bind; [apply returns_run|]. intros actual (w & w' & Hr). destruct (pyeqb actual (py pin)) eqn:E; cbn [negb]; [|apply returns_throw].
  apply pyeqb_eq in E. apply returns_ret. exists w, w'. cbn [fst snd]. by rewrite <-E.
Qed.
(** setup_comparison.py succeeds only from the pinned archives and revisions. *)
Theorem setup_pinned : returns setup_comparison (fun _ => Forall archive_pinned ARCHIVES /\ Forall source_pinned PINS_OF).
Proof.
  unfold setup_comparison. eapply (returns_bind (fun _ => Forall archive_pinned ARCHIVES /\ Forall source_pinned PINS_OF)).
  - unfold prepare. destruct (negb _); [apply returns_throw|]. apply returns_then. intros _.
    eapply returns_bind; [apply (returns_for_do archive_pinned); intros x _; apply prepare_archive_pinned|]. intros u Ha.
    eapply returns_bind; [apply (returns_for_do source_pinned); intros x _; apply prepare_source_pinned|]. intros u' Hs. eapply returns_mono; [apply returns_any|]. by intros.
  - intros u Hp. eapply returns_mono; [apply returns_any|]. by intros.
Qed.
End Setup.

(** Concrete listings and versions. *)
Module ReleaseDemo.
Example listing_demo :
  shared_library <$> (py <$> ["0x1 (NEEDED) Shared library: [libssl.so.3]"; "/usr/lib/libSQLite3.0.dylib (compatibility version 9.0.0)"; "libsqlite3-vec.so"; "libcrypto-1";
    "libsqlite 3.so"; "libc.so.6 libm.so.6"; "libssl3"; "libsqlite/3.so"]%string) = [true; true; true; true; false; false; false; false].
Proof. vm_compute. reflexivity. Qed.

Definition cli_text : pystr := py "package main" ++ [10] ++ py "VERSION :: " ++ [34] ++ py "1.2.0" ++ [34] ++ [10].
Definition project_text : pystr := py "min_version = " ++ [34] ++ py "3.11" ++ [34] ++ [10] ++ py "version = " ++ [34] ++ py "1.2.0" ++ [34] ++ [10].
Example quoted_demo : quoted false "VERSION :: " 34 cli_text = Ok (py "1.2.0") /\ quoted true "version = " 34 project_text = Ok (py "1.2.0").
Proof. vm_compute. by split. Qed.
Example verdict_demo :
  let v := py "1.2.0" in
  release_verdict [v; v; v; v] (PStr v) (Some (py "tag")) (Some (py "v1.2.0")) = Ok v /\
  release_verdict [v; v; py "1.1.0"; v] (PStr v) (Some (py "tag")) (Some (py "v1.2.0")) = Raise (SystemExit (py "Release versions differ")).
Proof. vm_compute. by split. Qed.
(** Every mention of a system directory is moved under the prefix, once. *)
Example relocated_demo : relocated (py "/r") (py "M4=/usr/bin/m4 /usr/share/aclocal /usr/share/aclocal-1.17 /usr/lib") =
  py "M4=/r/build/comparison-tools/prefix/usr/bin/m4 /r/build/comparison-tools/prefix/usr/share/aclocal /r/build/comparison-tools/prefix/usr/share/aclocal-1.17 /usr/lib".
Proof. vm_compute. reflexivity. Qed.
End ReleaseDemo.
