(* ===== verification/Benchmark.v ===== *)
(** * tools/benchmark.py: raw samples, verified work, medians

    Three variants of the benchmark are built and tested, then run in a freshly
    shuffled order each round; every sample must be verified by the program it
    measures.  The report is complete only with all of them, and summarises each
    case by medians. *)

From Stdlib Require Import QArith Qabs Lqa.
From stdpp Require Import sorting.
From S2P Require Import Prelude PyStr PyFloat Objects Json Vector Text Parameters Results Net Client Dict Host Random Stats Script Service ServiceChecks Returns Capacity NativeBuild Mtls.
#[local] Open Scope Z_scope.

(** What [os.wait4] reports of a child. *)
Record Rusage := mkRusage { ru_utime : Q; ru_stime : Q; ru_maxrss : Z; ru_nvcsw : Z; ru_nivcsw : Z; ru_minflt : Z; ru_majflt : Z }.
Record Waited := mkWaited { wt_code : Z; wt_out : list Z; wt_err : list Z; wt_usage : Rusage }.

Class BenchHost (W : Type) := {
  bh_host :: Host W;
  bh_perf : W -> Q * W;  (** [time.perf_counter()] *)
  (** [subprocess.Popen(argv, cwd=...)] with its output in temporary files, and [os.wait4] *)
  bh_wait4 : list pystr -> pystr -> W -> pyres Waited * W;
  bh_affinity : W -> list Z;  (** [os.sched_getaffinity(0)], sorted *)
  bh_unlink : pystr -> W -> pyres unit * W;  (** [path.unlink(missing_ok=True)] *)
  bh_node : pystr;  (** [platform.node()], [platform.machine()] *)
  bh_machine : pystr
}.

Definition PIN : pystr := py "c3d197016c1f938db23fdf7f1fe87fbdbb86ac1c".
Definition VARIANTS : list (string * list string) :=
  [("reference", ["-define:SQLODIN_SHAPE_CACHE=false"; "-define:SQLODIN_QUEUE_INITIAL_CAPACITY=256"]); ("shape_cache", ["-define:SQLODIN_QUEUE_INITIAL_CAPACITY=256"]); ("optimized", [])]%string.

Record Options := mkOptions { op_output : pystr; op_samples : Z; op_iterations : Z; op_warmup : Z; op_cpu : Z; op_seed : Z; op_odin : pystr; op_base : pystr }.
Record BenchCase := mkBenchCase { bc_variant : string; bc_mode : string; bc_batch : Z; bc_payload : Z }.
#[export] Instance BenchCase_eq_dec : EqDecision BenchCase.
Proof. solve_decision. Defined.
(** [(variant, (mode, batch, payload)) for variant in VARIANTS for mode in ... ] *)
Definition bench_cases : list BenchCase :=
  v ← VARIANTS.*1; m ← ["multi"; "single"; "sqlite"]%string; b ← [1; 12]; p ← [0; 256]; [mkBenchCase v m b p].

(** ** summarize *)

Definition sample_get (k : string) (s : report) : pyres tv := match rget k s with Some x => Ok x | None => Raise (KeyError k) end.
Definition tv_text (x : tv) : pyres pystr := match x with J v => vstr v | _ => Raise (TypeError "str expected") end.
Definition tv_int (x : tv) : pyres Z := match x with J v => vint v | _ => Raise (TypeError "int expected") end.
Definition tv_number (x : tv) : pyres Q := match x with J v => vnum v | Num q => Ok q | _ => Raise (TypeError "number expected") end.
Definition tv_truthy (x : tv) : bool := match x with J v => truthy v | Num q => negb (Qeq_bool q 0) | Arr l => negb (bool_decide (length l = 0%nat)) | Obj d => negb (bool_decide (length d = 0%nat)) end.

(** [(variant, mode, batch, payload)]; tuples compare in that order. *)
Definition GroupKey : Type := pystr * pystr * Z * Z.
Definition group_key (s : report) : pyres GroupKey :=
  let? variant := (let? x := sample_get "variant" s in tv_text x) in
  let? mode := (let? x := sample_get "mode" s in tv_text x) in
  let? batch := (let? x := sample_get "batch" s in tv_int x) in
  let? payload := (let? x := sample_get "payload_bytes" s in tv_int x) in
  Ok (variant, mode, batch, payload).
Definition key_le (a b : GroupKey) : bool :=
  let '(v, m, n, p) := a in let '(v', m', n', p') := b in
  if negb (pyeqb v v') then text_le v v' else if negb (pyeqb m m') then text_le m m' else if negb (n =? n') then n <=? n' else p <=? p'.
Definition group_rel (a b : GroupKey * list report) : Prop := key_le a.1 b.1 = true.
#[local] Instance group_rel_dec : RelDecision group_rel.
Proof. intros a b. unfold group_rel. apply _. Defined.
(** [groups.setdefault(key, []).append(sample)] *)
Definition add_to_group (key : GroupKey) (s : report) (groups : list (GroupKey * list report)) : list (GroupKey * list report) :=
  dset key (default [] (dget key groups) ++ [s]) groups.
Fixpoint grouped (samples : list report) (groups : list (GroupKey * list report)) : pyres (list (GroupKey * list report)) :=
  match samples with
  | [] => Ok groups
  | s :: samples => let? key := group_key s in grouped samples (add_to_group key s groups)
  end.

(** [statistics.median], [min], [max] of values that are not none at all *)
Definition nth_q (l : list Q) (n : nat) : Q := nth n l 0%Q.
Definition median (values : list Q) : pyres Q :=
  let sorted := sort_q values in
  let n := length values in
  if Nat.eqb n 0 then Raise (ValueError "no median for empty data")
  else if Nat.odd n then Ok (nth_q sorted (n / 2)) else Ok ((nth_q sorted (n / 2 - 1) + nth_q sorted (n / 2)) / 2)%Q.
Definition least (values : list Q) : pyres Q := match values with [] => Raise (ValueError "min() iterable argument is empty") | x :: l => Ok (foldl (fun a b => if Qle_bool a b then a else b) x l) end.
Definition greatest (values : list Q) : pyres Q := match values with [] => Raise (ValueError "max() iterable argument is empty") | x :: l => Ok (foldl (fun a b => if Qle_bool b a then a else b) x l) end.

Definition METRICS : list string :=
  ["ops_per_second"; "batch_p50_us"; "batch_p95_us"; "batch_p99_us"; "peak_rss_bytes"; "process_cpu_percent_of_one_core"; "user_cpu_seconds"; "system_cpu_seconds"; "process_wall_seconds"].
Record Spread := mkSpread { sp_median : Q; sp_min : Q; sp_max : Q; sp_mad : Q }.
Definition spread_of (values : list Q) : pyres Spread :=
  let? med := median values in
  let? lo := least values in
  let? hi := greatest values in
  let? mad := median ((fun v => Qabs (v - med)) <$> values) in
  Ok (mkSpread med lo hi mad).
Record SummaryRow := mkSummaryRow { sr_key : GroupKey; sr_samples : Z; sr_verified : bool; sr_metrics : list (string * Spread) }.
Definition metric_of (group : list report) (metric : string) : pyres (string * Spread) :=
  let? values := try_map (fun s => let? x := sample_get metric s in tv_number x) group in
  let? spread := spread_of values in
  Ok (metric, spread).
(** [all(s['verified'] for s in group)]: stops at the first that is not. *)
Fixpoint all_verified (group : list report) : pyres bool :=
  match group with
  | [] => Ok true
  | s :: group => let? x := sample_get "verified" s in if tv_truthy x then all_verified group else Ok false
  end.
Definition summary_row (g : GroupKey * list report) : pyres SummaryRow :=
  let? verified := all_verified g.2 in
  let? metrics := try_map (metric_of g.2) METRICS in
  Ok (mkSummaryRow g.1 (zlen g.2) verified metrics).
Definition summarize (samples : list report) : pyres (list SummaryRow) :=
  let? groups := grouped samples [] in try_map summary_row (merge_sort group_rel groups).
Definition spread_data (s : Spread) : tv := Obj (fields [("median", Num (sp_median s)); ("min", Num (sp_min s)); ("max", Num (sp_max s)); ("mad", Num (sp_mad s))]%string).
Definition summary_data (r : SummaryRow) : tv :=
  let '(v, m, n, p) := sr_key r in
  Obj (fields ([("variant", tstr v); ("mode", tstr m); ("batch", tint n); ("payload_bytes", tint p); ("samples", tint (sr_samples r)); ("verified", tbool (sr_verified r))]%string
               ++ ((fun x : string * Spread => (x.1, spread_data x.2)) <$> sr_metrics r))).

(** ** Running *)

(** A report, its samples apart. *)
Record Bench (A : Type) := mkBench { be_report : report; be_samples : list A }.
Arguments mkBench {A} _ _.
Arguments be_report {A} _.
Arguments be_samples {A} _.
Definition bench_data (b : Bench report) : tv := Obj (rupdate [("samples"%string, Arr (Obj <$> be_samples b))] (be_report b)).
Definition add_bench {A} (s : A) (b : Bench A) : Bench A := mkBench (be_report b) (be_samples b ++ [s]).
Definition on_bench {A} (kvs : list (string * tv)) (b : Bench A) : Bench A := mkBench (rupdate kvs (be_report b)) (be_samples b).

Section Benchmark.
Context {W : Type} `{BenchHost W} (fuel : nat) (ROOT : pystr).
Definition at_root (path : string) : pystr := join_path ROOT (py path).
Definition command (args : list pystr) : Hm (W := W) pystr := let! text := check_output args ROOT None in ret (strip text).
(** [read(path)]: [None] where the file cannot be read *)
Definition read (path : pystr) : Hm (W := W) (option pystr) :=
  try_except (let! text := io_res (h_read_text path) in ret (Some (strip text))) (fun e => if isinstance e COSError then Some (ret None) else None).
Definition read_data (path : pystr) : Hm (W := W) tv := let! text := read path in ret (topt tstr text).

Definition source_folders : list string := ["src"; "internal"; "bench"; "deps/paxos-odin/src"].
Definition source_manifest : Hm (W := W) tv :=
  let! paths := for_each source_folders (fun d acc => let! found := io (h_glob (at_root d) (py "**/*.odin")) in ret (acc ++ found)) [] in
  let! files := manifest ROOT (remove_dups (paths ++ (at_root <$> ["tools/benchmark.py"; "tools/build_native.py"]%string))) in
  let! text := lift (dumps spaced (sort_keys (PDict ((fun x : pystr * pystr => (x.1, PStr x.2)) <$> files)))) in
  ret (Obj (fields [("sha256", tstr (h_sha256 text)); ("files", manifest_report files)]%string)).

Definition sample_argv (options : Options) (binary : pystr) (case : BenchCase) : list pystr :=
  [py "taskset"; py "-c"; dec (op_cpu options); binary; py "--json"; py "--mode=" ++ py (bc_mode case); fstr [L "--batch="; D (bc_batch case)];
   fstr [L "--payload-bytes="; D (bc_payload case)]; fstr [L "--iterations="; D (op_iterations options)]; fstr [L "--warmup="; D (op_warmup options)]].
(** The sample a child printed, refused unless it verified its own work. *)
Definition checked_sample (options : Options) (text : pystr) : pyres report :=
  let? result := loads text in
  let? verified := vget "verified" result in
  let? iterations := (if truthy verified then vget "iterations" result else Ok PNone) in
  if negb (truthy verified && eq_int iterations (op_iterations options)) then Raise (RuntimeError "Unverified or incomplete benchmark")
  else match result with PDict d => Ok ((fun x : pystr * pyval => (x.1, J x.2)) <$> d) | _ => Raise (AttributeError "update") end.
Definition resources (wall : Q) (u : Rusage) : list (string * tv) :=
  [("process_wall_seconds", Num wall); ("user_cpu_seconds", Num (ru_utime u)); ("system_cpu_seconds", Num (ru_stime u)); ("peak_rss_bytes", tint (ru_maxrss u * 1024));
   ("process_cpu_percent_of_one_core", Num ((ru_utime u + ru_stime u) / wall * 100)%Q); ("voluntary_context_switches", tint (ru_nvcsw u));
   ("involuntary_context_switches", tint (ru_nivcsw u)); ("minor_page_faults", tint (ru_minflt u)); ("major_page_faults", tint (ru_majflt u))]%string.
Definition run_sample (options : Options) (binary : pystr) (case : BenchCase) : Hm (W := W) report :=
  let! start := io bh_perf in
  let! waited := io_res (bh_wait4 (sample_argv options binary case) ROOT) in
  let! end_ := io bh_perf in
  let wall := (end_ - start)%Q in
  let! out := lift (decode_strict (wt_out waited)) in
  let! _ := lift (decode_strict (wt_err waited)) in
  if negb (wt_code waited =? 0) then throw (RuntimeError "Benchmark failed")
  else
    let! result := lift (checked_sample options out) in
    do! (if Qeq_bool wall 0 then throw (ZeroDivisionError "float division by zero") else ret tt);;
    ret (rupdate (resources wall (wt_usage waited)) result).

Definition metadata (cpu : Z) : Hm (W := W) report :=
  let! affinity := gets bh_affinity in
  let! text := command [py "lscpu"; py "-J"] in
  let! lscpu := lift (loads text) in
  let! meminfo := read_data (py "/proc/meminfo") in
  let! load := read_data (py "/proc/loadavg") in
  let! quota := read_data (py "/sys/fs/cgroup/cpu.max") in
  let! memory := read_data (py "/sys/fs/cgroup/memory.max") in
  let! governor := read_data (fstr [L "/sys/devices/system/cpu/cpu"; D cpu; L "/cpufreq/scaling_governor"]) in
  let! boost := read_data (py "/sys/devices/system/cpu/cpufreq/boost") in
  let! perf := read_data (py "/proc/sys/kernel/perf_event_paranoid") in
  ret (fields [("hostname", tstr bh_node); ("platform", tstr h_platform); ("architecture", tstr bh_machine); ("cpu_affinity", Arr [tint cpu]); ("allowed_cpus", Arr (tint <$> affinity));
    ("lscpu", J lscpu); ("meminfo", meminfo); ("loadavg_before", load); ("cpu_quota", quota); ("memory_limit", memory); ("scaling_governor", governor); ("boost", boost); ("perf_event_paranoid", perf)]%string).

(** ** main *)

(** [native['archives_sha256'].items()], each archive as it was built *)
Definition archives_of (native : pyval) : pyres (list (pystr * pyval)) :=
  let? a := vget "archives_sha256" native in match a with PDict d => Ok d | _ => Raise (AttributeError "items") end.
Definition archive_unchanged (name : pystr) (expected : pyval) : Hm (W := W) unit :=
  let! digest := file_sha256 (join_path (at_root "build/native") name) in
  if eq_str expected digest then ret tt else throw (SystemExit (py "Native archive changed since its build")).
Definition paxos (args : list string) : Hm (W := W) pystr := command (py <$> (["git"; "-C"; "deps/paxos-odin"]%string ++ args)).
Definition refused (message : string) (b : bool) : Hm (W := W) unit := if b then throw (SystemExit (py message)) else ret tt.
Definition prerequisites (o : Options) : Hm (W := W) pyval :=
  do! refused "Run this suite on Linux (wait4 RSS units and CPU affinity are Linux-specific)." (negb (pyeqb h_system (py "Linux")));;
  do! refused "Use >=3 samples, >=12 warmup and measured operations." ((op_samples o <? 3) || (op_iterations o <? 12) || (op_warmup o <? 12));;
  do! refused "Warmup and iterations must be multiples of 12." (negb (op_iterations o mod 12 =? 0) || negb (op_warmup o mod 12 =? 0));;
  let! affinity := gets bh_affinity in
  do! refused "Requested CPU is outside the allowed affinity." (negb (bool_decide (op_cpu o ∈ affinity)));;
  let! revision := paxos ["rev-parse"; "HEAD"]%string in
  do! refused "Unexpected Paxos revision" (negb (pyeqb revision PIN));;
  let! status := paxos ["status"; "--porcelain"]%string in
  do! refused "Paxos dependency must be clean" (negb (bool_decide (status = [])));;
  let! native := read_json (at_root "build/native/build.json") in
  let! archives := lift (archives_of native) in
  do! for_do archives (fun '(name, expected) => archive_unchanged name expected);;
  ret native.

Definition work_folder : pystr := at_root "build/benchmark".
Definition binary_of (variant : string) : pystr := join_path work_folder (py variant).
Definition build_variant (o : Options) (variant : string) (flags : list string) : Hm (W := W) unit :=
  let! _ := run_checked ([op_odin o; py "build"; py "bench"; py "-o:speed"; py "-out:" ++ binary_of variant] ++ (py <$> flags)) ROOT None in
  let! _ := run_checked ([op_odin o; py "test"; py "tests"; py "-o:speed"; py "-out:" ++ join_path work_folder (py "tests")] ++ (py <$> flags)) ROOT None in
  ret tt.

Definition described (l : list (string * string)) : list (string * tv) := (fun x => (x.1, tstr (py x.2))) <$> l.
Definition methodology (o : Options) : tv :=
  Obj (fields (described
    [("scope", "single-thread in-process consensus and SQLite :memory: application")]%string
   ++ [("excludes", Arr ((fun x => tstr (py x)) <$> ["network"; "wire encoding"; "consensus journal"; "fsync"; "WAN latency"; "client forwarding"; "multi-core scaling"]%string))]%string
   ++ described
    [("completion", "all three replicas applied; sqlite mode applies one local database");
     ("workload", "unique integer primary key, integer value, optional fixed ASCII text");
     ("batch", "proposals admitted before draining; sqlite baseline uses one transaction per batch");
     ("latency", "nearest-rank batch completion microseconds, never divided by batch size");
     ("verification", "exact row count, every key/value/text, and applied prefix on every replica");
     ("resources", "per-child wait4 CPU and peak RSS include startup, warmup and verification");
     ("throughput", "timed operations only; setup, warmup and verification excluded");
     ("summary", "median, min, max and median absolute deviation; no outlier removal");
     ("order", "seeded shuffle of all cases and variants in each repetition")]%string
   ++ [("random_seed", tint (op_seed o)); ("samples", tint (op_samples o)); ("iterations", tint (op_iterations o)); ("warmup", tint (op_warmup o));
       ("paxos", Obj (fields [("voters", tint 3); ("window", tint 64); ("max_committed", tint 16); ("gate", tstr (py "Host_Managed"))]%string));
       ("variant_flags", Obj (fields ((fun x : string * list string => (x.1, Arr ((fun f => tstr (py f)) <$> x.2))) <$> VARIANTS)));
       ("common_flags", Arr [tstr (py "-o:speed")])]%string)).

Abbreviation K := (Sc (W := W) (Bench report)).
Definition h_ {A} (m : Hm (W := W) A) : K A := on_host m.

Definition bench_step (o : Options) (repetition : nat) (case : BenchCase) : K unit :=
  let! result := h_ (run_sample o (binary_of (bc_variant case)) case) in
  amend (add_bench (rupdate [("variant", tstr (py (bc_variant case))); ("repetition", tint (Z.of_nat repetition + 1))]%string result)).
Definition checkpoint (o : Options) : pystr := with_suffix (op_output o) (py ".partial.json").
(** A round in an order drawn from the last one. *)
Definition bench_round (o : Options) (repetition : nat) (drawn : list BenchCase * Mt) : K (list BenchCase * Mt) :=
  let '(r, g) := shuffle fuel drawn.1 drawn.2 in
  let! cases := lift r in
  do! for_do cases (bench_step o repetition);;
  let! b := reported in
  do! h_ (io_res (h_write_json (checkpoint o) (bench_data b)));;
  do! h_ (print_line (fstr [L "Completed round "; D (Z.of_nat repetition + 1); L "/"; D (op_samples o)]));;
  ret (cases, g).
(** [report['host']['loadavg_after'] = ...] *)
Definition load_after (load : tv) (b : Bench report) : Bench report :=
  match rget "host" (be_report b) with Some (Obj host) => on_bench [("host"%string, Obj (rupdate [("loadavg_after"%string, load)] host))] b | _ => b end.
Definition bench_end (o : Options) : K unit :=
  do! amend (on_bench [("complete"%string, tbool true)]);;
  let! utc := h_ (io h_utc) in
  do! amend (on_bench [("finished_at_utc"%string, tstr utc)]);;
  let! load := h_ (read_data (py "/proc/loadavg")) in
  do! amend (load_after load);;
  let! b := reported in
  let! rows := lift (summarize (be_samples b)) in
  do! amend (on_bench [("summary"%string, Arr (summary_data <$> rows))]);;
  let temporary := with_suffix (op_output o) (py ".tmp") in
  let! b := reported in
  do! h_ (io_res (h_write_json temporary (bench_data b)));;
  do! h_ (io_res (h_replace temporary (op_output o)));;
  do! h_ (io_res (bh_unlink (checkpoint o)));;
  h_ (print_line (fstr [L "Wrote "; D (zlen (be_samples b)); L " verified samples to "] ++ op_output o)).
Definition bench_rounds (o : Options) : K unit :=
  let! _ := for_each (seq 0 (Z.to_nat (op_samples o))) (bench_round o) (bench_cases, Random_new (op_seed o)) in
  bench_end o.
Definition bench_main (o : Options) : Hm (W := W) unit :=
  let! native := prerequisites o in
  do! io_res (h_mkdir work_folder);;
  do! for_do VARIANTS (fun '(variant, flags) => build_variant o variant flags);;
  let! utc := io h_utc in
  let! source := source_manifest in
  let! odin := command [op_odin o; py "version"] in
  let! host := metadata (op_cpu o) in
  let! binaries := for_each VARIANTS.*1 (fun variant acc => let! digest := file_sha256 (binary_of variant) in ret (acc ++ [(variant, tstr digest)])) [] in
  let report := fields [("format", tint 1); ("run_at_utc", tstr utc); ("source", source); ("base_revision", tstr (op_base o)); ("paxos_pin", tstr PIN); ("odin", tstr odin); ("native_build", J native);
    ("host", Obj host); ("methodology", methodology o); ("binaries_sha256", Obj (fields binaries)); ("samples", Arr [])]%string in
  do! io_res (h_mkdir (path_parent (op_output o)));;
  with_report (mkBench report []) (bench_rounds o).
End Benchmark.

(** * Every planned sample, each verified *)

(** What a script's steps leave of its report: [grown plan] says that exactly the
    samples of [plan] were added, in order. *)
Definition unfinished {A} (b : Bench A) : Prop := rget "complete" (be_report b) <> Some (tbool true).
Definition plan_of {C} (cases : list C) (a n : nat) : list (nat * C) := repetition ← seq a n; (fun c => (repetition, c)) <$> cases.

Section Grown.
Context {W A X : Type} (sampled : X -> A -> Prop).
Abbreviation St := (Bench A * W)%type.
Definition grown (plan : list X) (b b' : Bench A) : Prop := exists new, be_samples b' = be_samples b ++ new /\ Forall2 sampled plan new.
(** A script that does not finish its report, and adds [plan]'s samples if it succeeds. *)
Definition adds {B} (m : Sc (W := W) (Bench A) B) (plan : B -> list X -> Prop) : Prop :=
  forall s : St, unfinished s.1 -> wp m (fun r s' => unfinished s'.1 /\ match r with Ok x => exists p, plan x p /\ grown p s.1 s'.1 | _ => True end) s.

Lemma grown_trans plan plan' b b1 b2 : grown plan b b1 -> grown plan' b1 b2 -> grown (plan ++ plan') b b2.
Proof. intros (n & Hn & Hp) (n' & Hn' & Hp'). exists (n ++ n'). rewrite Hn', Hn, <-app_assoc. split; [done|]. by apply Forall2_app. Qed.
Lemma grown_nil b : grown [] b b.
Proof. exists []. by rewrite app_nil_r. Qed.

Lemma adds_ret {B} (x : B) (plan : B -> list X -> Prop) : plan x [] -> adds (ret x) plan.
Proof. intros Hp s Hs. apply wp_ret. split; [done|]. exists []. split; [done|apply grown_nil]. Qed.
Lemma adds_bind {B D} (m : Sc (Bench A) B) (f : B -> Sc (Bench A) D) (P : B -> list X -> Prop) (Q : D -> list X -> Prop) :
  adds m P -> (forall x p, P x p -> adds (f x) (fun y q => Q y (p ++ q))) -> adds (bind m f) Q.
Proof.
  intros Hm Hf s Hs. apply wp_bind. eapply wp_mono; [by apply Hm|]. intros [x|e|] s1 [H1 H2]; [|done..]. destruct H2 as (p & Hp & Hg).
  eapply wp_mono; [by apply (Hf x p Hp)|]. intros [y|e|] s2 [H3 H4]; [|done..]. split; [done|]. destruct H4 as (q & Hq & Hg2).
  exists (p ++ q). split; [done|by eapply grown_trans].
Qed.
(** A step of the host, or a look at the report, adds nothing. *)
Lemma adds_host {B} (m : Hm (W := W) B) (P : B -> Prop) : returns m P -> adds (on_host m) (fun x p => P x /\ p = []).
Proof.
  intros Hm s Hs. apply wp_on_host. eapply wp_mono; [apply Hm|]. intros r w Hr. split; [done|]. destruct r as [x|e|]; [|done..].
  exists []. split; [by split; [apply Hr|]|apply grown_nil].
Qed.
Lemma adds_lift {B} (r : pyres B) (P : B -> Prop) : (forall x, r = Ok x -> P x) -> adds (lift r) (fun x p => P x /\ p = []).
Proof. intros Hr s Hs. apply wp_lift. split; [done|]. destruct r as [x|e|]; [|done..]. exists []. split; [by split; [apply Hr|]|apply grown_nil]. Qed.
Lemma adds_throw {B} e (plan : B -> list X -> Prop) : adds (throw e) plan.
Proof. intros s Hs. by apply wp_throw. Qed.
Lemma adds_then {B D} (m : Hm (W := W) B) (f : B -> Sc (Bench A) D) (Q : D -> list X -> Prop) : (forall x, adds (f x) Q) -> adds (bind (on_host m) f) Q.
Proof. intros Hf. eapply adds_bind; [apply (adds_host m (fun _ => True)), returns_any|]. intros x p [_ ->]. apply Hf. Qed.
Lemma adds_reported {D} (f : Bench A -> Sc (Bench A) D) (Q : D -> list X -> Prop) : (forall b, adds (f b) Q) -> adds (bind reported f) Q.
Proof. intros Hf s Hs. apply wp_bind, wp_gets. by apply Hf. Qed.
Lemma adds_sample x (a : A) : sampled x a -> adds (amend (add_bench a)) (fun _ p => p = [x]).
Proof. intros Hx s Hs. apply wp_amend. split; [exact Hs|]. exists [x]. split; [done|]. exists [a]. by repeat constructor. Qed.
Lemma adds_mono {B} (m : Sc (Bench A) B) (P Q : B -> list X -> Prop) : adds m P -> (forall x p, P x p -> Q x p) -> adds m Q.
Proof.
  intros Hm HQ s Hs. eapply wp_mono; [by apply Hm|]. intros [x|e|] s' [H1 H2]; [|done..]. split; [done|]. destruct H2 as (p & Hp & Hg). exists p. auto.
Qed.
Lemma adds_each {C} (step : C -> Sc (Bench A) unit) (f : C -> X) cases :
  (forall c, adds (step c) (fun _ p => p = [f c])) -> adds (for_do cases step) (fun _ p => p = f <$> cases).
Proof.
  intros Hc. induction cases as [|c cases IH]; cbn [for_do]; [by apply adds_ret|].
  eapply adds_bind; [apply Hc|]. intros u p ->. eapply adds_mono; [apply IH|]. by intros v q ->.
Qed.
End Grown.

(** Rounds, each over all cases in some order; [keep] holds of what a round hands on. *)
Lemma adds_rounds {W A C B} (sampled : nat * C -> A -> Prop) (cases : list C) (keep : B -> Prop) (body : nat -> B -> Sc (W := W) (Bench A) B) a n x :
  keep x -> (forall k y, keep y -> adds sampled (body k y) (fun y' p => keep y' /\ p ≡ₚ (fun c => (k, c)) <$> cases)) ->
  adds sampled (for_each (seq a n) body x) (fun _ p => p ≡ₚ plan_of cases a n).
Proof.
  intros Hx Hb. revert a x Hx. induction n as [|n IH]; intros a x Hx; cbn [seq for_each]; [by apply adds_ret|].
  eapply adds_bind; [by apply Hb|]. intros y p [Hy Hp]. eapply adds_mono; [by apply (IH (S a))|]. intros z q Hq. cbn beta in Hq |- *. rewrite Hp, Hq. done.
Qed.

Section Complete.
Context {W : Type} `{BenchHost W} (fuel : nat) (ROOT : pystr) (o : Options).
Abbreviation St := (Bench report * W)%type.

(** A sample of the plan: the program verified the work it was asked for. *)
Definition sampled (x : nat * BenchCase) (s : report) : Prop :=
  exists text result wall usage, checked_sample o text = Ok result /\
    s = rupdate [("variant", tstr (py (bc_variant x.2))); ("repetition", tint (Z.of_nat x.1 + 1))]%string (rupdate (resources wall usage) result).
Definition planned (a n : nat) : list (nat * BenchCase) := plan_of bench_cases a n.

Lemma sample_returns binary case repetition :
  returns (run_sample (W := W) ROOT o binary case) (fun r => sampled (repetition, case) (rupdate [("variant", tstr (py (bc_variant case))); ("repetition", tint (Z.of_nat repetition + 1))]%string r)).
Proof.
  unfold run_sample. apply returns_then. intros start. apply returns_then. intros waited. apply returns_then. intros end_. cbv zeta.
  apply returns_then. intros out. apply returns_then. intros err. destruct (negb _); [apply returns_throw|].
  eapply (returns_bind (fun result => checked_sample o out = Ok result)); [by apply returns_lift|]. intros result Hr. apply returns_then. intros _.
  apply returns_ret. by exists out, result, (end_ - start)%Q, (wt_usage waited).
Qed.

Lemma step_samples repetition case : adds sampled (bench_step ROOT o repetition case) (fun _ p => p = [(repetition, case)]).
Proof.
  unfold bench_step. eapply adds_bind; [apply adds_host, (sample_returns _ _ repetition)|]. intros r p [Hr ->]. by apply adds_sample.
Qed.
Definition drawn_ok (drawn : list BenchCase * Mt) : Prop := drawn.1 ≡ₚ bench_cases /\ mt_wf drawn.2.
Lemma round_samples repetition drawn : drawn_ok drawn ->
  adds sampled (bench_round fuel ROOT o repetition drawn) (fun d p => drawn_ok d /\ p ≡ₚ (fun c => (repetition, c)) <$> bench_cases).
Proof.
  intros [Hp Hg]. unfold bench_round. pose proof (shuffle_permutes fuel drawn.1 drawn.2 Hg) as Hs. destruct (shuffle fuel drawn.1 drawn.2) as [r g].
  eapply adds_bind; [apply (adds_lift _ r (fun cases => cases ≡ₚ drawn.1 /\ mt_wf g)), Hs|]. intros cases p [[Hc Hg'] ->].
  eapply adds_bind; [apply adds_each, step_samples|]. intros u p ->. apply adds_reported. intros b. do 2 (apply adds_then; intros ?).
  apply adds_ret. rewrite app_nil_r. split; [split; [by rewrite Hc|done]|]. apply fmap_Permutation. by rewrite Hc.
Qed.

(** What a complete report holds. *)
Definition all_sampled (b : Bench report) : Prop := exists plan, plan ≡ₚ planned 0 (Z.to_nat (op_samples o)) /\ Forall2 sampled plan (be_samples b).
Definition bench_honest (r : res exn unit) (b : Bench report) : Prop := (rget "complete" (be_report b) = Some (tbool true) -> all_sampled b) /\ (r = Ok tt -> rget "complete" (be_report b) = Some (tbool true)).

Lemma load_after_kept load b : be_samples (load_after load b) = be_samples b /\ rget "complete" (be_report (load_after load b)) = rget "complete" (be_report b).
Proof. unfold load_after. destruct (rget "host" (be_report b)) as [[| | |host]|]; try done. split; [done|]. cbn [on_bench be_report]. by rewrite rget_rupdate_other. Qed.

(** benchmark.py reports itself complete only with every variant and case sampled
    in every round, each sample verified by the program for the number of
    operations asked for; and it succeeds only with such a report. *)
Theorem benchmark_complete (s : St) :
  unfinished s.1 -> be_samples s.1 = [] -> wp (bench_rounds fuel ROOT o) (fun r s' => bench_honest r s'.1) s.
Proof.
  intros Hu H0. unfold bench_rounds. apply wp_bind. eapply wp_mono.
  { apply (adds_rounds sampled bench_cases drawn_ok); [split; [done|apply Random_new_wf]|apply round_samples|exact Hu]. }
  intros [d|e|] s1 [H1 H2]; [|by split..]. destruct H2 as (plan & Hp & new & Hn & Hf). rewrite H0 in Hn. cbn [app] in Hn.
  assert (Hall : forall b, be_samples b = be_samples s1.1 -> all_sampled b) by (intros b Hb; exists plan; by rewrite Hb, Hn).
  set (done_ := fun b : Bench report => be_samples b = be_samples s1.1 /\ rget "complete" (be_report b) = Some (tbool true)).
  assert (Hdone : forall r b, done_ b -> bench_honest r b) by (intros r b [Hb1 Hb2]; split; [intros _; by apply Hall|done]).
  assert (Hk : forall b kvs, forallb (fun '(k', _) => negb (pyeqb (py k') (py "complete"))) kvs = true -> done_ b -> done_ (on_bench kvs b)).
  { intros b kvs Hkv [Hb1 Hb2]. split; [done|]. cbn [on_bench be_report]. by rewrite rget_rupdate_other. }
  unfold bench_end. apply wp_bind, wp_amend. cbn [fst snd].
  assert (Hd1 : done_ (on_bench [("complete"%string, tbool true)] s1.1)) by (split; [done|apply rget_rset]).
  apply wp_bind, wp_host_step. intros [utc|e|] w1; [|by apply Hdone..]. apply wp_bind, wp_amend. cbn [fst snd].
  pose proof (Hk _ [("finished_at_utc"%string, tstr utc)] eq_refl Hd1) as Hd2.
  apply wp_bind, wp_host_step. intros [load|e|] w2; [|by apply Hdone..]. apply wp_bind, wp_amend. cbn [fst snd].
  set (b3 := load_after load _). assert (Hd3 : done_ b3) by (destruct Hd2 as [Ha Hb]; split; [rewrite <-Ha|rewrite <-Hb]; apply load_after_kept).
  apply wp_bind, wp_gets. apply wp_bind, wp_lift. destruct (summarize _) as [rows|e|]; [|by apply Hdone..].
  apply wp_bind, wp_amend. cbn [fst snd]. pose proof (Hk _ [("summary"%string, Arr (summary_data <$> rows))] eq_refl Hd3) as Hd4.
  apply wp_bind, wp_gets. apply wp_bind, wp_host_step. intros [u|e|] w4; [|by apply Hdone..]. apply wp_bind, wp_host_step. intros [u2|e|] w5; [|by apply Hdone..].
  apply wp_bind, wp_host_step. intros [u3|e|] w6; [|by apply Hdone..]. apply wp_host_step. intros r w7. by apply Hdone.
Qed.
End Complete.

(** * The summary *)

Section Spread.
Local Open Scope Q_scope.
Lemma fold_least l x : let m := foldl (fun a b => if Qle_bool a b then a else b) x l in m <= x /\ forall y, y ∈ l -> m <= y.
Proof.
  revert x. induction l as [|z l IH]; intros x; cbn [foldl]; [split; [apply Qle_refl|by intros y Hy%elem_of_nil]|].
  destruct (Qle_bool x z) eqn:E; destruct (IH (if Qle_bool x z then x else z)) as [H1 H2]; rewrite E in H1, H2.
  - apply Qle_bool_iff in E. split; [done|]. intros y [->|Hy]%elem_of_cons; [by eapply Qle_trans|by apply H2].
  - assert (z <= x) by (apply Qnot_lt_le; intros Hlt; apply Qlt_le_weak, Qle_bool_iff in Hlt; congruence).
    split; [by eapply Qle_trans|]. intros y [->|Hy]%elem_of_cons; [done|by apply H2].
Qed.
Lemma fold_greatest l x : let m := foldl (fun a b => if Qle_bool b a then a else b) x l in x <= m /\ forall y, y ∈ l -> y <= m.
Proof.
  revert x. induction l as [|z l IH]; intros x; cbn [foldl]; [split; [apply Qle_refl|by intros y Hy%elem_of_nil]|].
  destruct (Qle_bool z x) eqn:E; destruct (IH (if Qle_bool z x then x else z)) as [H1 H2]; rewrite E in H1, H2.
  - apply Qle_bool_iff in E. split; [done|]. intros y [->|Hy]%elem_of_cons; [by eapply Qle_trans|by apply H2].
  - assert (x <= z) by (apply Qnot_lt_le; intros Hlt; apply Qlt_le_weak, Qle_bool_iff in Hlt; congruence).
    split; [by eapply Qle_trans|]. intros y [->|Hy]%elem_of_cons; [done|by apply H2].
Qed.
Lemma least_le values m x : least values = Ok m -> x ∈ values -> m <= x.
Proof. destruct values as [|y l]; [done|]. intros [= <-]. destruct (fold_least l y) as [H1 H2]. intros [->|Hx]%elem_of_cons; [exact H1|by apply H2]. Qed.
Lemma greatest_ge values m x : greatest values = Ok m -> x ∈ values -> x <= m.
Proof. destruct values as [|y l]; [done|]. intros [= <-]. destruct (fold_greatest l y) as [H1 H2]. intros [->|Hx]%elem_of_cons; [exact H1|by apply H2]. Qed.

Lemma nth_sorted values n : (n < length values)%nat -> nth_q (sort_q values) n ∈ values.
Proof.
  intros Hn. unfold nth_q, sort_q. assert (Hp : merge_sort Qle values ≡ₚ values) by apply merge_sort_Permutation.
  rewrite <-Hp at 2. apply list_elem_of_In, nth_In. by rewrite Hp.
Qed.
(** A median lies between the least and the greatest value. *)
Lemma median_between values m lo hi : median values = Ok m -> (forall x, x ∈ values -> lo <= x <= hi) -> lo <= m <= hi.
Proof.
  unfold median. cbv zeta. destruct (length values) as [|k] eqn:El; [done|]. cbn [Nat.eqb]. rewrite <-El. intros Hm Hb.
  assert (Hin : forall n, (n < length values)%nat -> lo <= nth_q (sort_q values) n <= hi) by (intros n Hn; by apply Hb, nth_sorted).
  pose proof (Nat.div_lt (length values) 2 ltac:(lia) ltac:(lia)) as Hd. destruct (Nat.odd (length values)) eqn:Eo.
  - injection Hm as <-. by apply Hin.
  - assert (m = ((nth_q (sort_q values) (length values / 2 - 1) + nth_q (sort_q values) (length values / 2)) / 2)) as -> by congruence.
    destruct (Hin (length values / 2 - 1)%nat ltac:(lia)) as [A1 A2]. destruct (Hin (length values / 2)%nat Hd) as [B1 B2].
    split; [apply Qle_shift_div_l|apply Qle_shift_div_r]; first [done|Lqa.lra].
Qed.
Lemma spread_between values s : spread_of values = Ok s -> sp_min s <= sp_median s <= sp_max s.
Proof.
  unfold spread_of. intros (med & Hm & (lo & Hl & (hi & Hh & (mad & _ & [= <-])%res_bind_Ok)%res_bind_Ok)%res_bind_Ok)%res_bind_Ok. cbn.
  eapply median_between; [exact Hm|]. intros x Hx. split; [by eapply least_le|by eapply greatest_ge].
Qed.
End Spread.

Lemma try_map_each {A B} (f : A -> pyres B) l ys : try_map f l = Ok ys -> Forall2 (fun x y => f x = Ok y) l ys.
Proof.
  revert ys. induction l as [|x l IH]; intros ys; cbn [try_map]; [by intros [= <-]|].
  intros (y & Hy & (ys' & Hys & [= <-])%res_bind_Ok)%res_bind_Ok. constructor; [done|by apply IH].
Qed.

(** The samples of a key, and the groups of the samples seen so far. *)
Definition members (k : GroupKey) (tagged : list (report * GroupKey)) : list report := (filter (fun x => x.2 = k) tagged).*1.
Definition groups_of (tagged : list (report * GroupKey)) (groups : list (GroupKey * list report)) : Prop :=
  NoDup groups.*1 /\ (forall k l, (k, l) ∈ groups -> l = members k tagged) /\ (forall k, k ∈ groups.*1 <-> k ∈ tagged.*2).

Lemma dset_keys {K A} `{EqDecision K} (k : K) (v : A) d : NoDup d.*1 -> NoDup (dset k v d).*1 /\ (forall k', k' ∈ (dset k v d).*1 <-> k' = k \/ k' ∈ d.*1).
Proof.
  induction d as [|[k0 v0] d IH]; cbn [dset fmap list_fmap fst].
  - intros _. split; [apply NoDup_singleton|]. intros k'. rewrite elem_of_cons. tauto.
  - intros [Hn Hd]%NoDup_cons. case_decide as E; cbn [fmap list_fmap fst].
    + subst k0. split; [by constructor|]. intros k'. rewrite elem_of_cons. tauto.
    + destruct (IH Hd) as [H1 H2]. split.
      * constructor; [|done]. rewrite H2. intros [->|Hin]; done.
      * intros k'. rewrite !elem_of_cons, H2. tauto.
Qed.
Lemma dset_elem {K A} `{EqDecision K} (k : K) (v : A) d k' v' : NoDup d.*1 -> (k', v') ∈ dset k v d -> (k' = k /\ v' = v) \/ (k' <> k /\ (k', v') ∈ d).
Proof.
  induction d as [|[k0 v0] d IH]; cbn [dset fmap list_fmap fst].
  - intros _ [[= -> ->]|Hin]%elem_of_cons; [by left|by apply elem_of_nil in Hin].
  - intros [Hn Hd]%NoDup_cons. case_decide as E.
    + subst k0. intros [[= -> ->]|Hin]%elem_of_cons; [by left|right]. split; [|by right]. intros ->. apply Hn. apply list_elem_of_fmap. by exists (k, v').
    + intros [[= -> ->]|Hin]%elem_of_cons; [right; split; [done|left]|]. destruct (IH Hd Hin) as [?|[??]]; [by left|right; split; [done|by right]].
Qed.

Lemma dget_none_keys {K A} `{EqDecision K} (k : K) (d : list (K * A)) : dget k d = None -> k ∉ d.*1.
Proof.
  induction d as [|[k0 v0] d IH]; cbn [dget fmap list_fmap fst]; [intros _ Hin; by apply elem_of_nil in Hin|].
  case_decide as E; [done|]. intros Hd [->|Hin]%elem_of_cons; [done|by apply IH].
Qed.
Lemma members_snoc k tagged s k' : members k (tagged ++ [(s, k')]) = if decide (k' = k) then members k tagged ++ [s] else members k tagged.
Proof. unfold members. rewrite filter_app, filter_cons, filter_nil. cbn [snd]. case_decide; rewrite fmap_app; [done|by rewrite app_nil_r]. Qed.
Lemma groups_add tagged groups s k : groups_of tagged groups -> groups_of (tagged ++ [(s, k)]) (add_to_group k s groups).
Proof.
  intros (Hn & Hg & Hk). unfold add_to_group. destruct (dset_keys k (default [] (dget k groups) ++ [s]) groups Hn) as [H1 H2]. split; [done|]. split.
  - intros k' l [[-> ->]|[Hne Hin]]%dset_elem; [| |done].
    + rewrite members_snoc, decide_True by done. f_equal. destruct (dget k groups) as [l|] eqn:E; cbn [default]; [by apply Hg, dget_Some_In|].
      symmetry. unfold members. destruct (filter _ tagged) as [|[s' k'] rest] eqn:Ef; [done|]. exfalso.
      assert (Hin : (s', k') ∈ filter (fun x : report * GroupKey => x.2 = k) tagged) by (rewrite Ef; left).
      apply list_elem_of_filter in Hin as [Heq Hin]. cbn in Heq. subst k'. apply (dget_none_keys _ _ E), Hk, list_elem_of_fmap. by exists (s', k).
    + rewrite members_snoc, decide_False by done. by apply Hg.
  - intros k'. rewrite H2, fmap_app, elem_of_app, Hk. cbn [fmap list_fmap snd]. rewrite list_elem_of_singleton. tauto.
Qed.
Lemma grouped_groups samples tagged groups gs :
  grouped samples groups = Ok gs -> groups_of tagged groups ->
  exists keys, Forall2 (fun s k => group_key s = Ok k) samples keys /\ groups_of (tagged ++ zip samples keys) gs.
Proof.
  revert tagged groups. induction samples as [|s samples IH]; intros tagged groups; cbn [grouped].
  { intros [= <-] Hg. exists []. cbn. by rewrite app_nil_r. }
  intros (k & Hk & Hrest)%res_bind_Ok Hg. destruct (IH (tagged ++ [(s, k)]) _ Hrest ltac:(by apply groups_add)) as (keys & Hf & Hgs).
  exists (k :: keys). split; [by constructor|]. rewrite <-app_assoc in Hgs. exact Hgs.
Qed.
Lemma groups_of_permuted tagged groups gs : gs ≡ₚ groups -> groups_of tagged groups -> groups_of tagged gs.
Proof.
  intros Hp (H1 & H2 & H3). assert (Hp' : gs.*1 ≡ₚ groups.*1) by by apply fmap_Permutation. split; [by rewrite Hp'|]. split.
  - intros k l. rewrite Hp. apply H2.
  - intros k. rewrite Hp'. apply H3.
Qed.

(** A metric of a group lies where its samples put it. *)
Definition spread_within (group : list report) (x : string * Spread) : Prop :=
  (sp_min x.2 <= sp_median x.2 <= sp_max x.2)%Q /\
  forall s, s ∈ group -> exists y v, sample_get x.1 s = Ok y /\ tv_number y = Ok v /\ (sp_min x.2 <= v <= sp_max x.2)%Q.
Lemma metric_within group metric x : metric_of group metric = Ok x -> spread_within group x.
Proof.
  unfold metric_of. intros (values & Hv & (sp & Hs & [= <-])%res_bind_Ok)%res_bind_Ok. split; [by eapply spread_between|]. intros s Hin. cbn [fst snd].
  apply try_map_each in Hv. apply list_elem_of_lookup in Hin as (i & Hi). destruct (Forall2_lookup_l _ _ _ _ _ Hv Hi) as (v & Hvi & (y & Hy & Hn)%res_bind_Ok).
  exists y, v. split; [done|]. split; [done|]. apply list_elem_of_lookup_2 in Hvi. revert Hs. unfold spread_of.
  intros (med & Hm & (lo & Hl & (hi & Hh & (mad & _ & [= <-])%res_bind_Ok)%res_bind_Ok)%res_bind_Ok)%res_bind_Ok. cbn. split; [by eapply least_le|by eapply greatest_ge].
Qed.
Lemma row_within g row : summary_row g = Ok row -> sr_key row = g.1 /\ sr_samples row = zlen g.2 /\ (sr_metrics row).*1 = METRICS /\ Forall (spread_within g.2) (sr_metrics row).
Proof.
  unfold summary_row. intros (verified & _ & (metrics & Hm & [= <-])%res_bind_Ok)%res_bind_Ok. cbn [sr_key sr_samples sr_metrics]. do 2 (split; [done|]).
  apply try_map_each in Hm. revert Hm. generalize METRICS. intros names Hm. induction Hm as [|name x names metrics Hx Hm [IH1 IH2]]; [done|]. split.
  - rewrite fmap_cons, IH1. f_equal. revert Hx. unfold metric_of. by intros (values & _ & (sp & _ & [= <-])%res_bind_Ok)%res_bind_Ok.
  - constructor; [by eapply metric_within|done].
Qed.

(** benchmark.py's summary: one row per combination of variant, mode, batch and
    payload that has a sample, and no other; each row counts exactly the samples
    of its combination, and each of the nine metrics has its median and every
    sample's value between the least and the greatest reported. *)
Theorem summarize_exact samples rows :
  summarize samples = Ok rows ->
  exists keys, Forall2 (fun s k => group_key s = Ok k) samples keys /\ NoDup (sr_key <$> rows) /\ (forall k, k ∈ sr_key <$> rows <-> k ∈ keys) /\
    Forall (fun row => let group := members (sr_key row) (zip samples keys) in
      sr_samples row = zlen group /\ (sr_metrics row).*1 = METRICS /\ Forall (spread_within group) (sr_metrics row)) rows.
Proof.
  unfold summarize. intros (groups & Hg & Hr)%res_bind_Ok. apply (grouped_groups _ []) in Hg as (keys & Hf & Hg); [|by split; [constructor|split; [intros ?? ?%elem_of_nil|]]].
  apply (groups_of_permuted _ _ (merge_sort group_rel groups)) in Hg; [|apply merge_sort_Permutation]. destruct Hg as (H1 & H2 & H3). cbn [app] in *.
  apply try_map_each in Hr. exists keys. split; [done|].
  assert (Hk : sr_key <$> rows = (merge_sort group_rel groups).*1).
  { clear -Hr. induction Hr as [|g row gs rows Hx Hr IH]; [done|]. rewrite !fmap_cons, IH. f_equal. by apply row_within. }
  rewrite Hk. split; [done|]. split.
  - intros k. rewrite H3, snd_zip; [done|]. by rewrite (Forall2_length _ _ _ Hf).
  - apply Forall_forall. intros row (i & Hi)%list_elem_of_lookup. destruct (Forall2_lookup_r _ _ _ _ _ Hr Hi) as ([k l] & Hgi & Hx).
    destruct (row_within _ _ Hx) as (Hk' & Hs & Hm & Hw). cbn [fst snd] in *. cbv zeta. rewrite Hk'.
    rewrite <-(H2 k l); [done|]. by eapply list_elem_of_lookup_2.
Qed.

Module BenchmarkDemo.
Definition sample (variant : string) (ops : Z) : report :=
  fields ([("variant", tstr (py variant)); ("mode", tstr (py "single")); ("batch", tint 12); ("payload_bytes", tint 256); ("verified", tbool true)]%string ++ ((fun k => (k, tint ops)) <$> METRICS)).
Definition samples : list report := [sample "reference" 30; sample "optimized" 7; sample "reference" 10; sample "reference" 20]%string.
Example every_case : length bench_cases = 36%nat. Proof. reflexivity. Qed.
(** The rows come sorted, each with its medians. *)
Example summary_rows :
  match summarize samples with
  | Ok rows => (fun r => (sr_key r, sr_samples r, (fun x => (Qred (sp_median x.2), Qred (sp_mad x.2))) <$> head (sr_metrics r))) <$> rows
  | _ => []
  end = [((py "optimized", py "single", 12, 256), 1, Some (7%Q, 0%Q)); ((py "reference", py "single", 12, 256), 3, Some (20%Q, 10%Q))].
Proof. vm_compute. reflexivity. Qed.
Example sample_without_verification o : checked_sample o (py "{}") = Raise (KeyError "verified"). Proof. vm_compute. reflexivity. Qed.
End BenchmarkDemo.
