(* ===== verification/Durability.v ===== *)
(** * The cost of durable writes
    (tools/compare_process_journal.py, profile_durability_cost.py, check_io_profile.py)

    Journal grouping on and off under the process cluster's exercise, and the
    forwarding counters of sync calls.  Both measurements start from evidence
    that the crash checks passed for exactly the current sources, shuffle their
    modes anew in every repeat, and call a report complete only with every
    sample in it. *)

From Stdlib Require Import QArith.
From S2P Require Import Prelude PyStr PyFloat Objects Json Vector Text Parameters Results Net Client Dict Host Random Script ProcessCluster Workload Soak Service ServiceChecks Returns Capacity Benchmark.
#[local] Open Scope Z_scope.

Class DurabilityHost (W : Type) := {
  du_bench :: BenchHost W;
  du_stamp : W -> pystr * W;  (** [datetime.now().strftime('%Y%m%d-%H%M%S')] *)
  (** [subprocess.run(argv, env={**os.environ, k: v}, timeout=...)] *)
  du_run_env : list pystr -> list (pystr * pystr) -> Q -> W -> pyres Finished * W
}.

(** ** Evidence of the crash checks *)

(** [len(x)] *)
Definition len_of (x : pyval) : pyres Z :=
  match x with PList l => Ok (zlen l) | PDict d => Ok (zlen d) | PStr s => Ok (zlen s) | _ => Raise (TypeError "object has no len()") end.
(** [len(evidence.get('checks', [])) < 22] *)
Definition too_few (evidence : pyval) : pyres bool :=
  let? checks := vget_or "checks" (PList []) evidence in let? n := len_of checks in Ok (n <? 22).
(** [all(c['passed'] for c in checks)]: up to the first that did not. *)
Fixpoint all_passed (checks : list pyval) : pyres bool :=
  match checks with
  | [] => Ok true
  | c :: checks => let? x := vget "passed" c in if truthy x then all_passed checks else Ok false
  end.
Definition checks_passed (evidence : pyval) : pyres bool :=
  let? checks := vget "checks" evidence in match checks with PList l => all_passed l | _ => Raise (TypeError "string indices must be integers") end.
(** [evidence.get('journal_group_commit') != grouped]; a bool is 0 or 1. *)
Definition grouping_is (grouped : bool) (evidence : pyval) : pyres bool :=
  let? x := vget_or "journal_group_commit" PNone evidence in Ok (eq_int x (if grouped then 1 else 0)).
(** [evidence.get('source_sha256', {}).get(name) == digest] *)
Definition source_is (evidence : pyval) (x : pystr * pystr) : pyres bool :=
  let? sources := vget_or "source_sha256" (PDict []) evidence in
  match sources with PDict d => Ok (eq_str (get_or x.1 PNone d) x.2) | _ => Raise (AttributeError "get") end.
Fixpoint sources_are (evidence : pyval) (current : list (pystr * pystr)) : pyres bool :=
  match current with
  | [] => Ok true
  | x :: current => let? same := source_is evidence x in if (same : bool) then sources_are evidence current else Ok false
  end.
Definition core_source (x : pystr * pystr) : bool := is_prefix (py "src/") x.1.

(** Two dicts of digests are equal. *)
Definition same_digests (a b : list (pystr * pystr)) : bool :=
  bool_decide (length a = length b) && forallb (fun '(k, x) => match dget k b with Some y => pyeqb x y | None => false end) a.

(** What stands behind a measurement: the crash checks of a build of these
    sources, in this journal configuration, all passed. *)
Definition proven (grouped : bool) (current : list (pystr * pystr)) (evidence : pyval) : Prop :=
  grouping_is grouped evidence = Ok true /\ too_few evidence = Ok false /\ checks_passed evidence = Ok true /\
  Forall (fun x => source_is evidence x = Ok true) current.

Lemma sources_are_all evidence current : sources_are evidence current = Ok true -> Forall (fun x => source_is evidence x = Ok true) current.
Proof. induction current as [|x current IH]; cbn [sources_are]; [by constructor|]. intros ([] & Hx & Hr)%res_bind_Ok; [|done]. constructor; auto. Qed.

(** [filesystems[0]['fstype']] *)
Definition memory_mount (filesystem : pyval) : pyres bool :=
  let? l := vget "filesystems" filesystem in let? first := vindex 0 l in let? fstype := vget "fstype" first in Ok (val_in fstype ["tmpfs"; "ramfs"]%string).

(** ** compare_process_journal.py *)

Record JournalArgs := mkJournalArgs { j_group : pystr; j_reference : pystr; j_output : pystr; j_operations : Z; j_repeats : Z }.
(** [report['samples'][-1]] *)
Record JournalSample := mkJournalSample { js_repeat : Z; js_mode : pystr; js_seed : Z; js_sample : Sample; js_pids : list Z; js_directory : pystr }.
Definition label_of (grouped : bool) : string := if grouped then "grouped" else "reference".
Definition journal_sample_data (s : JournalSample) : tv :=
  Obj (fields [("repeat", tint (js_repeat s)); ("mode", tstr (js_mode s)); ("seed", tint (js_seed s)); ("sample", sample_report (js_sample s));
               ("worker_pids", Arr (tint <$> js_pids s)); ("run_directory", tstr (js_directory s))]%string).
Definition journal_data (b : Bench JournalSample) : tv := Obj (rupdate [("samples"%string, Arr (journal_sample_data <$> be_samples b))] (be_report b)).
(** [report[k][k'] = v] *)
Definition on_inner {A} (k : string) (kvs : list (pystr * tv)) (b : Bench A) : Bench A :=
  match rget k (be_report b) with Some (Obj d) => on_bench [(k, Obj (foldl (fun d '(k, v) => dset k v d) d kvs))] b | _ => b end.

Section Journal.
Context {W : Type} `{Probe W} `{DurabilityHost W} (fuel : nat) (ROOT : pystr).
Abbreviation K := (Sc (W := W) (Bench JournalSample)).
Definition under (path : string) : pystr := join_path ROOT (py path).

Definition hashes : Hm (W := W) (list (pystr * pystr)) :=
  let! core := io (h_glob ROOT (py "src/**/*.odin")) in
  let! probe := io (h_glob ROOT (py "internal/process_probe/*.odin")) in
  manifest ROOT (core ++ probe ++ [under "tools/check_process_cluster.py"; under "tools/compare_process_journal.py"]).

Definition journal_args (args : JournalArgs) : Hm (W := W) unit :=
  do! (if negb (pyeqb h_system (py "Linux")) then parser_error "Linux is required for this disk/resource comparison" else ret tt);;
  let! there := io (h_exists (j_output args)) in
  do! (if (there : bool) then parser_error "output exists; preserve prior evidence" else ret tt);;
  if negb ((12 <=? j_operations args) && (j_operations args <=? 10000)) || negb ((1 <=? j_repeats args) && (j_repeats args <=? 10))
  then parser_error "operations must be 12..10000 and repeats 1..10" else ret tt.

(** The evidence for one configuration, and its entry of the report. *)
Definition journal_proof (sources : list (pystr * pystr)) (grouped : bool) (path : pystr) : Hm (W := W) (pystr * tv) :=
  let! evidence := read_json path in
  let! matches_ := lift (grouping_is grouped evidence) in
  let! few := (if negb matches_ then ret true else lift (too_few evidence)) in
  do! (if (few : bool) then parser_error "Wrong or incomplete durability configuration" else ret tt);;
  let! passed := lift (checks_passed evidence) in
  do! (if negb passed then parser_error "Failed durability prerequisite" else ret tt);;
  let! same := lift (sources_are evidence (filter (fun x => core_source x = true) sources)) in
  do! (if negb same then parser_error "Durability source mismatch" else ret tt);;
  let! digest := file_sha256 path in
  ret (py (if grouped then "True" else "False"), Obj (fields [("path", tstr path); ("sha256", tstr digest)]%string)).

(** [next((line.split(':', 1)[1].strip() for line in lines if ...), default)] *)
Fixpoint model_name (lines : list pystr) : pyres pystr :=
  match lines with
  | [] => Ok bh_machine
  | line :: lines =>
      if is_prefix (py "model name") line
      then match find_sub (py ":") line with Some (_, rest) => Ok (strip (drop 1 rest)) | None => Raise (IndexError "list index out of range") end
      else model_name lines
  end.
Definition cgroup_limits : Hm (W := W) tv :=
  let! limits := for_each ["cpu.max"; "memory.max"]%string (fun name acc =>
    let path := join_path (py "/sys/fs/cgroup") (py name) in
    let! there := io (h_exists path) in
    if (there : bool) then let! text := io_res (h_read_text path) in ret (acc ++ [(name, tstr (strip text))]) else ret acc) [] in
  ret (Obj (fields limits)).
Definition odin_command : Hm (W := W) pystr := let! odin := gets (h_getenv (py "ODIN")) in ret (default (py "odin") odin).
Definition loadavg : Hm (W := W) pystr := let! text := io_res (h_read_text (py "/proc/loadavg")) in ret (strip text).

Definition journal_build (work : pystr) (grouped : bool) : K pystr :=
  let binary := join_path work (py (label_of grouped)) in
  let! odin := on_host odin_command in
  let! _ := on_host (run_checked [odin; py "build"; under "internal/process_probe"; py "-o:speed"; py "-vet"; py "-strict-style";
    py (if grouped then "-define:SQLODIN_JOURNAL_GROUP_COMMIT=true" else "-define:SQLODIN_JOURNAL_GROUP_COMMIT=false"); py "-out:" ++ binary] ROOT (Some 300%Q)) in
  let! digest := on_host (file_sha256 binary) in
  do! amend (on_inner "binary_sha256" [(path_name binary, tstr digest)]);;
  ret binary.

(** [Cluster(binary, directory)], its exercise and its end: the sample and the
    processes it used.  The sample is added after the end instead of before it;
    where the end fails neither is ever written. *)
Definition with_voters {A} (binary directory : pystr) (body : P (W := W) A) : Hm (W := W) A :=
  fun w => let '(r, s) := (do! Cluster_init;; try_finally body close) (Cluster_new binary directory, w) in (r, s.2).
Definition exercised (operations seed : Z) : P (W := W) (Sample * list Z) :=
  let! sample := exercise operations seed true in let! c := self in ret (sample, pids c).

Definition journal_seed (repeat : nat) : Z := 20260922 + Z.of_nat repeat.
Definition journal_step (args : JournalArgs) (work : pystr) (repeat : nat) (grouped : bool) : K unit :=
  let label := py (label_of grouped) in
  let seed := journal_seed repeat in
  do! on_host (print_line (fstr [L "repeat="; D (Z.of_nat repeat + 1); L " mode="] ++ label ++ fstr [L " seed="; D seed]));;
  let directory := join_path work (dec (Z.of_nat repeat + 1) ++ 45 :: label) in
  do! on_host (io_res (h_mkdir directory));;
  let! result := on_host (with_voters (join_path work label) directory (exercised (j_operations args) seed)) in
  do! amend (add_bench (mkJournalSample (Z.of_nat repeat + 1) label seed result.1 result.2 directory));;
  let! b := reported in
  on_host (io_res (h_write_json (j_output args) (journal_data b))).
Definition journal_round (args : JournalArgs) (work : pystr) (repeat : nat) : K unit :=
  let! modes := lift (shuffle fuel [false; true] (Random_new (20260923 + Z.of_nat repeat))).1 in
  for_do modes (journal_step args work repeat).

Definition unchanged (sources : list (pystr * pystr)) (message : string) : K unit :=
  let! now := on_host hashes in if negb (same_digests now sources) then throw (RuntimeError message) else ret tt.
Definition journal_end (args : JournalArgs) : K unit :=
  let! utc := on_host (io h_utc) in
  do! amend (on_bench [("complete", tbool true); ("finished_utc", tstr utc)]%string);;
  let! load := on_host loadavg in
  do! amend (on_bench [("load_after", tstr load)]%string);;
  let! b := reported in
  do! on_host (io_res (h_write_json (j_output args) (journal_data b)));;
  on_host (print_line (j_output args)).
Definition journal_measured (args : JournalArgs) (work : pystr) (sources : list (pystr * pystr)) : K unit :=
  do! for_do [false; true] (fun grouped => let! _ := journal_build work grouped in ret tt);;
  do! unchanged sources "Sources changed during build; refusing inconsistent evidence";;
  let! b := reported in
  do! on_host (io_res (h_write_json (j_output args) (journal_data b)));;
  do! for_do (seq 0 (Z.to_nat (j_repeats args))) (journal_round args work);;
  unchanged sources "Sources changed during measurement; report remains incomplete".

Definition journal_initial (args : JournalArgs) (sources : list (pystr * pystr)) (proofs : list (pystr * tv)) (filesystem : pyval) (work : pystr) : Hm (W := W) report :=
  let! utc := io h_utc in
  let! native := read_json (under "build/native/build.json") in
  let! odin := odin_command in
  let! version := check_output [odin; py "version"] [] None in
  let! affinity := gets bh_affinity in
  let! cpuinfo := io_res (h_read_text (py "/proc/cpuinfo")) in
  let! model := lift (model_name (splitlines cpuinfo)) in
  let! load := loadavg in
  let! limits := cgroup_limits in
  ret (fields [("complete", tbool false); ("started_utc", tstr utc);
    ("scope", tstr (py "one Linux machine; three processes and disk directories per sample; same mixed SQL, fresh fenced reads and controller scheduling; FULL durability; journal-group flag is the sole build difference; not production service capacity"));
    ("source_sha256", manifest_report sources); ("filesystem", J filesystem); ("run_directory", tstr work); ("operations", tint (j_operations args)); ("repeats", tint (j_repeats args));
    ("durability_evidence", Obj proofs); ("platform", tstr h_platform); ("native_dependencies", J native); ("binary_sha256", Obj []); ("samples", Arr []);
    ("odin_version", tstr (strip version)); ("cpu_affinity", Arr (tint <$> affinity)); ("cpu_model", tstr model); ("load_before", tstr load); ("cgroup_limits", limits)]%string).
Definition compare_journal (args : JournalArgs) : Hm (W := W) unit :=
  do! journal_args args;;
  let! sources := hashes in
  let! proofs := for_each [(true, j_group args); (false, j_reference args)] (fun '(grouped, path) acc =>
    let! entry := journal_proof sources grouped path in ret (acc ++ [entry])) [] in
  do! io_res (h_mkdir (under "build/process-comparisons"));;
  let! work := io_res (h_mkdtemp (py "journal-") (under "build/process-comparisons")) in
  let! text := check_output [py "findmnt"; py "--json"; py "-T"; work; py "-o"; py "TARGET,FSTYPE,SOURCE,OPTIONS"] [] None in
  let! filesystem := lift (loads text) in
  let! memory := lift (memory_mount filesystem) in
  do! (if (memory : bool) then parser_error "Persistent disk storage required" else ret tt);;
  let! report := journal_initial args sources proofs filesystem work in
  do! io_res (h_mkdir (path_parent (j_output args)));;
  with_report (mkBench report []) (do! journal_measured args work sources;; journal_end args).
End Journal.

(** ** profile_durability_cost.py *)

Record CostArgs := mkCostArgs { d_output : option pystr; d_report : pystr; d_transactions : bool; d_individual : bool }.
Definition ROWS : Z := 480.
Definition WARMUP_ROWS : Z := 96.
Definition cost_modes (transactions : bool) : list string :=
  ["sqlite_full_1"; "sqlite_full_32"; "durable_1"; "durable_3"]
  ++ (if transactions then ["transaction_1"; "transaction_1_batch16"; "transaction_3"; "transaction_3_batch16"] else []).
(** [evidence.get('filesystem', {}).get('filesystems', [{}])[0].get('fstype')], refused when missing or in memory *)
Definition persistent (evidence : pyval) : pyres bool :=
  let? filesystem := vget_or "filesystem" (PDict []) evidence in
  let? l := vget_or "filesystems" (PList [PDict []]) filesystem in
  let? first := vindex 0 l in
  let? fstype := vget_or "fstype" PNone first in
  Ok (match fstype with PNone => false | _ => negb (val_in fstype ["tmpfs"; "ramfs"]%string) end).
(** A sample that verified itself and went through the counters. *)
Definition cost_sample (repeat : nat) (text : pystr) : pyres report :=
  let? sample := loads text in
  let? verified := vget "verified" sample in
  let? calls := (if truthy verified then let? sync := vget "sync" sample in vget "calls" sync else Ok (PInt 0)) in
  if negb (truthy verified) || eq_int calls 0 then Raise (RuntimeError "Verification or sync interposition failed")
  else match sample with
       | PDict d => Ok (rupdate [("repeat"%string, tint (Z.of_nat repeat + 1))] ((fun '(k, x) => (k, J x)) <$> d))
       | _ => Raise (TypeError "item assignment")
       end.

Section Cost.
Context {W : Type} `{DurabilityHost W} (fuel : nat) (ROOT : pystr).
Abbreviation K := (Sc (W := W) (Bench report)).
Definition WORK : pystr := join_path ROOT (py "build/durability-cost").
Definition SOURCE : pystr := join_path ROOT (py "bench/durability_cost").
Definition run (argv : list pystr) : Hm (W := W) Finished := run_checked argv [] (Some 300%Q).
Definition refuse (message : string) (b : bool) : Hm (W := W) unit := if b then throw (SystemExit (py message)) else ret tt.

Definition cost_prerequisites (args : CostArgs) : Hm (W := W) unit :=
  do! refuse "Linux required; diagnostic counters are intentionally single-threaded." (negb (pyeqb h_system (py "Linux")));;
  let! evidence := read_json (d_report args) in
  let! core := io (h_glob ROOT (py "src/**/*.odin")) in
  let! current := manifest ROOT core in
  let! same := lift (sources_are evidence current) in
  do! refuse "Durability report source snapshot differs; run current disk checks first" (negb same);;
  let! few := lift (too_few evidence) in
  let! passed := (if (few : bool) then ret false else lift (checks_passed evidence)) in
  do! refuse "Current application/journal-group crash checks are incomplete" (negb passed);;
  let! configured := lift (grouping_is (negb (d_individual args)) evidence) in
  do! refuse "Durability evidence uses a different journal-group configuration" (negb configured);;
  let! disk := lift (persistent evidence) in
  refuse "Durability evidence must identify persistent disk storage" (negb disk).

Definition cost_output (args : CostArgs) (stamp : pystr) : pystr :=
  match d_output args with
  | Some output => output
  | None => join_path ROOT (py "benchmarks/results/linux-durability-cost-" ++ stamp ++ py ".json")
  end.
Definition library : pystr := join_path WORK (py "libsync_profile.so").
Definition probe : pystr := join_path WORK (py "probe").
Definition cost_builds (args : CostArgs) : Hm (W := W) unit :=
  let! _ := run [py "cc"; py "-shared"; py "-fPIC"; py "-O2"; py "-Wall"; py "-Wextra"; join_path SOURCE (py "sync_profile.c"); py "-ldl"; py "-o"; library] in
  let! _ := run [py "odin"; py "build"; SOURCE; py "-o:speed"; py "-vet"; py "-strict-style";
    py (if d_individual args then "-define:SQLODIN_JOURNAL_GROUP_COMMIT=false" else "-define:SQLODIN_JOURNAL_GROUP_COMMIT=true"); py "-out:" ++ probe] in
  ret tt.
(** [{... for p in sorted(sources) if p.is_file()}] *)
Definition files_manifest (paths : list pystr) : Hm (W := W) (list (pystr * pystr)) :=
  for_each (sort_paths paths) (fun path entries =>
    let! file := io (h_is_file path) in
    if (file : bool) then let! digest := file_sha256 path in ret (dset (relative_to ROOT path) digest entries) else ret entries) [].
Definition cost_report (args : CostArgs) (directory : pystr) : Hm (W := W) report :=
  let! utc := io h_utc in
  let! native := read_json (join_path ROOT (py "build/native/build.json")) in
  let! evidence := file_sha256 (d_report args) in
  let! filesystem := run [py "findmnt"; py "-T"; directory; py "-o"; py "SOURCE,FSTYPE,OPTIONS"] in
  let! pin := run [py "git"; py "-C"; join_path ROOT (py "deps/paxos-odin"); py "rev-parse"; py "HEAD"] in
  let! core := io (h_glob ROOT (py "src/**/*.odin")) in
  let! own := io (h_glob SOURCE (py "*")) in
  let! sources := files_manifest (core ++ own ++ [join_path ROOT (py "tools/profile_durability_cost.py")]) in
  let! binaries := for_each [probe; library] (fun p acc => let! digest := file_sha256 p in ret (dset (path_name p) digest acc)) [] in
  ret (fields [("schema_version", tint 1); ("complete", tbool false); ("started_utc", tstr utc);
    ("scope", tstr (py "instrumented diagnostic, 256-byte insert rows; all fsync/fdatasync calls forwarded unchanged; timed region excludes setup, warmup, verification and close; SQLite batch-32 changes transaction granularity and is only an amortization reference; all replicas execute serially in one process; no maximum-throughput or mixed-SQL claim"));
    ("host", tstr h_platform); ("rows", tint ROWS); ("warmup_rows", tint WARMUP_ROWS); ("repeats", tint 3); ("journal_group_commit", tbool (negb (d_individual args))); ("native", J native);
    ("durability_report", tstr (d_report args)); ("durability_report_sha256", tstr evidence); ("filesystem", tstr (stdout filesystem)); ("paxos_pin", tstr (strip (stdout pin)));
    ("run_directory", tstr directory); ("samples", Arr []); ("source_sha256", manifest_report sources); ("binary_sha256", manifest_report binaries)]%string).

Definition cost_step (output directory : pystr) (repeat : nat) (mode : string) : K unit :=
  do! on_host (print_line (fstr [L "repeat="; D (Z.of_nat repeat + 1); L " mode="] ++ py mode));;
  let case := join_path directory (dec (Z.of_nat repeat + 1) ++ 45 :: py mode) in
  do! on_host (io_res (h_mkdir case));;
  let! result := on_host (io_res (du_run_env [probe; py mode; case; dec ROWS; dec WARMUP_ROWS] [(py "LD_PRELOAD", library)] 300)) in
  do! (if negb (returncode result =? 0) then throw (CalledProcessError "returned non-zero exit status") else ret tt);;
  let! sample := lift (cost_sample repeat (stdout result)) in
  do! amend (add_bench sample);;
  let! b := reported in
  on_host (io_res (h_write_json output (bench_data b))).
Definition cost_round (args : CostArgs) (output directory : pystr) (repeat : nat) : K unit :=
  let! modes := lift (shuffle fuel (cost_modes (d_transactions args)) (Random_new (20260922 + Z.of_nat repeat))).1 in
  for_do modes (cost_step output directory repeat).
Definition cost_end (output : pystr) : K unit :=
  let! utc := on_host (io h_utc) in
  do! amend (on_bench [("complete", tbool true); ("finished_utc", tstr utc)]%string);;
  let! b := reported in
  do! on_host (io_res (h_write_json output (bench_data b)));;
  on_host (print_line output).
Definition cost_measured (args : CostArgs) (output directory : pystr) : K unit := for_do (seq 0 3) (cost_round args output directory).
Definition profile_cost (args : CostArgs) : Hm (W := W) unit :=
  do! cost_prerequisites args;;
  let! stamp := io du_stamp in
  let output := cost_output args stamp in
  let! there := io (h_exists output) in
  do! refuse "Refusing to overwrite existing evidence" there;;
  do! io_res (h_mkdir (path_parent output));;
  do! io_res (h_mkdir WORK);;
  do! cost_builds args;;
  let! stamp := io du_stamp in
  let directory := join_path WORK stamp in
  do! io_res (h_mkdir directory);;
  let! report := cost_report args directory in
  with_report (mkBench report []) (do! cost_measured args output directory;; cost_end output).
End Cost.

(** ** check_io_profile.py *)

Section IoProfile.
Context {W : Type} `{DurabilityHost W} (ROOT : pystr).
Definition io_work : pystr := join_path ROOT (py "build/io-profile").
Definition io_source (name : string) : pystr := join_path (join_path ROOT (py "internal/io_profile")) (py name).
Definition io_binary (name : string) : pystr := join_path io_work (py name).
Definition io_flags : list pystr := py <$> ["cc"; "-std=c11"; "-Wall"; "-Wextra"; "-Werror"; "-O2"]%string.
Definition profile_line (line : pystr) : bool := is_prefix (py "SQLODIN_IO_PROFILE ") line.
(** The assertions, each as far as its first part that fails. *)
Fixpoint count_is (counters : pyval) (expected : list (string * Z)) : pyres bool :=
  match expected with
  | [] => Ok true
  | (k, n) :: expected => let? x := vget k counters in if eq_int x n then count_is counters expected else Ok false
  end.
Fixpoint count_positive (counters : pyval) (keys : list string) : pyres bool :=
  match keys with
  | [] => Ok true
  | k :: keys => let? x := vget k counters in let? q := vnum x in if negb (Qle_bool q 0) then count_positive counters keys else Ok false
  end.
Definition assert_ok (r : pyres bool) : Hm (W := W) unit := let! b := lift r in check_that b.
Definition io_counters (result : Finished) : Hm (W := W) pyval :=
  match filter (fun line => profile_line line = true) (splitlines (stderr result)) with
  | [line] =>
      let! counters := lift (loads (drop (String.length "SQLODIN_IO_PROFILE ") line)) in
      do! assert_ok (count_is counters [("sync_calls", 3); ("write_calls", 3)]%string);;
      do! assert_ok (count_is counters [("write_bytes", 56); ("errors", 2)]%string);;
      do! assert_ok (count_positive counters ["sync_ns"; "write_ns"]%string);;
      ret counters
  | _ => throw (AssertionError "")
  end.
Definition check_io_profile (output : pystr) : Hm (W := W) unit :=
  let! there := io (h_exists output) in
  do! check_that (negb there);;
  do! io_res (h_mkdir io_work);;
  let! _ := run_checked (io_flags ++ [py "-fPIC"; py "-shared"; io_source "profile.c"; py "-ldl"; py "-o"; io_binary "profile.so"]) [] None in
  let! _ := run_checked (io_flags ++ [io_source "probe.c"; py "-o"; io_binary "probe"]) [] None in
  let! counters := with_tempdir [] io_work (fun directory =>
    let! result := io_res (du_run_env [io_binary "probe"; join_path directory (py "data")] [(py "LD_PRELOAD", io_binary "profile.so")] 10) in
    do! (if negb (returncode result =? 0) then throw (CalledProcessError "returned non-zero exit status") else ret tt);;
    io_counters result) in
  let! digests := for_each [io_source "profile.c"; io_source "probe.c"; io_binary "profile.so"; io_binary "probe"; join_path ROOT (py "tools/check_io_profile.py")]
    (fun p acc => let! digest := file_sha256 p in ret (dset (relative_to ROOT p) digest acc)) [] in
  do! io_res (h_mkdir (path_parent output));;
  do! io_res (h_write_json output (Obj (fields [("passed", tbool true); ("counters", J counters);
    ("verified", tstr (py "exact counters, unchanged bytes and forwarded EBADF from write and sync")); ("sha256", manifest_report digests)]%string)));;
  print_line (py "PASS I/O forwarding, errno preservation and exact counters").
End IoProfile.

(** * What a complete report rests on *)

(** A script in two parts: one that never finishes the report, and an end that
    adds no sample; what the end leaves has every sample of the plan. *)
Section Finished.
Context {W A X : Type} (sampled : X -> A -> Prop).
Definition complete_with (plans : list X -> Prop) (b : Bench A) : Prop := exists plan, plans plan /\ Forall2 sampled plan (be_samples b).
(** [end_] keeps the samples, and if it succeeds leaves [done]. *)
Definition ends (end_ : Sc (W := W) (Bench A) unit) (done_ : Bench A -> Prop) : Prop :=
  forall s, wp end_ (fun r s' => r = Ok tt -> be_samples s'.1 = be_samples s.1 /\ done_ s'.1) s.
Lemma measured_complete (body end_ : Sc (Bench A) unit) (plans : list X -> Prop) (done_ : Bench A -> Prop) initial :
  adds sampled body (fun _ => plans) -> ends end_ done_ -> rget "complete" initial <> Some (tbool true) ->
  returns (with_report (mkBench initial []) (do! body;; end_)) (fun _ => exists b, done_ b /\ complete_with plans b).
Proof.
  intros Hb He Hu w. unfold with_report.
  assert (Hw : wp (do! body;; end_) (fun r s' => r = Ok tt -> done_ s'.1 /\ complete_with plans s'.1) (mkBench initial [], w)).
  { apply wp_bind. eapply wp_mono; [by apply Hb|]. intros [[]|e|] s1 [H1 H2]; [|done..]. destruct H2 as (plan & Hp & new & Hn & Hf). cbn [app fst be_samples] in Hn.
    eapply wp_mono; [apply He|]. intros r s2 Hr E. destruct (Hr E) as [Hs Hd]. split; [exact Hd|]. exists plan. split; [done|]. by rewrite Hs, Hn. }
  unfold wp in *. destruct ((do! body;; end_) _) as [r s']. intros [] E. exists s'.1. by apply Hw.
Qed.

Lemma adds_amend f : (forall b, unfinished b -> unfinished (f b) /\ be_samples (f b) = be_samples b) -> adds sampled (amend (W := W) f) (fun _ p => p = []).
Proof.
  intros Hf s Hs. apply wp_amend. cbn [fst]. destruct (Hf _ Hs) as [H1 H2]. split; [done|]. exists []. split; [done|]. exists []. by rewrite H2, app_nil_r.
Qed.
Lemma adds_last {B} (m : Hm (W := W) B) : adds sampled (on_host m) (fun _ p => p = []).
Proof. eapply adds_mono; [apply (adds_host _ _ (fun _ => True)), returns_any|]. by intros ? ? [_ ->]. Qed.
Lemma adds_none {C B} (step : C -> Sc (W := W) (Bench A) B) cases :
  (forall c, adds sampled (step c) (fun _ p => p = [])) -> adds sampled (for_do cases (fun c => let! _ := step c in ret tt)) (fun _ p => p = []).
Proof.
  intros Hs. induction cases as [|c cases IH]; cbn [for_do]; [by apply adds_ret|].
  apply (adds_bind _ _ _ (fun _ p => p = [])); [apply (adds_bind _ _ _ _ _ (Hs c)); intros x p ->; by apply adds_ret|]. by intros u p ->.
Qed.
End Finished.

(** A round in a fresh shuffle of its cases, and the rounds of a loop. *)
Lemma adds_shuffled {W A C} (sampled : nat * C -> A -> Prop) fuel (cases : list C) seed k (step : C -> Sc (W := W) (Bench A) unit) :
  (forall c, adds sampled (step c) (fun _ p => p = [(k, c)])) ->
  adds sampled (let! modes := lift (shuffle fuel cases (Random_new seed)).1 in for_do modes step) (fun _ p => p ≡ₚ (fun c => (k, c)) <$> cases).
Proof.
  intros Hs. pose proof (shuffle_permutes fuel cases _ (Random_new_wf seed)) as Hp.
  eapply adds_bind; [apply (adds_lift _ _ (fun modes => modes ≡ₚ cases)); intros modes Hm; by apply Hp in Hm as [? _]|].
  intros modes p [Hm ->]. eapply adds_mono; [by apply adds_each|]. intros u q ->. by apply fmap_Permutation.
Qed.
Lemma adds_loop {W A C} (sampled : nat * C -> A -> Prop) (cases : list C) (body : nat -> Sc (W := W) (Bench A) unit) a n :
  (forall k, adds sampled (body k) (fun _ p => p ≡ₚ (fun c => (k, c)) <$> cases)) -> adds sampled (for_do (seq a n) body) (fun _ p => p ≡ₚ plan_of cases a n).
Proof.
  intros Hb. revert a. induction n as [|n IH]; intros a; cbn [seq for_do]; [by apply adds_ret|].
  eapply adds_bind; [apply Hb|]. intros u p Hp. eapply adds_mono; [apply (IH (S a))|]. intros v q Hq. cbn beta in Hq |- *. by rewrite Hp, Hq.
Qed.

(** A test that stops the script: what follows has seen it succeed. *)
Lemma returns_stop {W B} (r : pyres bool) (e : exn) (k : M exn W B) (P : B -> Prop) :
  (r = Ok true -> returns k P) -> returns (let! b := lift r in do! (if negb b then throw e else ret tt);; k) P.
Proof.
  intros Hk. eapply returns_bind; [by apply (returns_lift _ (fun b => r = Ok b))|]. intros b Hb. destruct b; cbn [negb].
  - apply returns_then. intros _. by apply Hk.
  - eapply returns_bind; [by apply (returns_throw _ (fun _ => False))|done].
Qed.

Section JournalComplete.
Context {W : Type} `{Probe W} `{DurabilityHost W} (fuel : nat) (ROOT : pystr) (args : JournalArgs).

(** The evidence a proof was written from. *)
Lemma journal_proof_proven sources grouped path :
  returns (journal_proof (W := W) sources grouped path) (fun _ => exists evidence, proven grouped (filter (fun x => core_source x = true) sources) evidence).
Proof.
  unfold journal_proof. apply returns_then. intros evidence. eapply returns_bind; [by apply (returns_lift _ (fun b => grouping_is grouped evidence = Ok b))|]. intros g Hg.
  eapply (returns_bind (fun few => few = false -> g = true /\ too_few evidence = Ok false)).
  { destruct g; cbn [negb]; [|by apply returns_ret]. apply returns_lift. by intros few Hf ->. }
  intros few Hf. destruct few; [eapply returns_bind; [apply (returns_throw _ (fun _ => False))|done]|]. destruct (Hf eq_refl) as [-> Hf'].
  apply returns_then. intros _. apply returns_stop. intros Hp. apply returns_stop. intros Hs.
  apply returns_then. intros digest. apply returns_ret. exists evidence. repeat (split; [done|]). by apply sources_are_all.
Qed.

(** A sample comes from an exercise of fresh voters, with the repeat's seed and
    the binary of its mode, that succeeded. *)
Definition journal_sampled (work : pystr) (x : nat * bool) (s : JournalSample) : Prop :=
  js_repeat s = Z.of_nat x.1 + 1 /\ js_mode s = py (label_of x.2) /\ js_seed s = journal_seed x.1 /\
  exists w w' : W, with_voters (join_path work (js_mode s)) (js_directory s) (exercised (j_operations args) (js_seed s)) w = (Ok (js_sample s, js_pids s), w').
Lemma journal_step_adds work repeat grouped : adds (journal_sampled work) (journal_step args work repeat grouped) (fun _ p => p = [(repeat, grouped)]).
Proof.
  unfold journal_step. do 2 (apply adds_then; intros ?). cbv zeta.
  set (go := with_voters _ _ _). eapply adds_bind; [apply adds_host, (returns_run go)|].
  intros result p [(w & w' & Hw) ->]. eapply adds_bind.
  { apply (adds_sample (journal_sampled work) (repeat, grouped)). do 3 (split; [done|]). exists w, w'. cbn [js_sample js_pids]. by destruct result. }
  intros u p ->. apply adds_reported. intros b. eapply adds_mono; [apply (adds_host _ _ (fun _ => True)), returns_any|]. by intros ? ? [_ ->].
Qed.

(** The sources were found unchanged. *)
Definition held (sources : list (pystr * pystr)) : Prop := exists (w w' : W) now, hashes ROOT w = (Ok now, w') /\ same_digests now sources = true.
Lemma unchanged_adds work sources message : adds (journal_sampled work) (unchanged ROOT sources message) (fun _ p => p = [] /\ held sources).
Proof.
  unfold unchanged. eapply adds_bind; [apply adds_host, returns_run|].
  intros now p [(w & w' & Hw) ->]. destruct (same_digests now sources) eqn:E; cbn [negb]; [|apply adds_throw]. apply adds_ret. split; [done|]. by exists w, w', now.
Qed.
Lemma build_adds work grouped : adds (journal_sampled work) (journal_build ROOT work grouped) (fun _ p => p = []).
Proof.
  unfold journal_build. do 3 (apply adds_then; intros ?). eapply adds_bind; [apply adds_amend|intros u p ->; by apply adds_ret].
  intros b Hb. unfold on_inner. destruct (rget "binary_sha256" (be_report b)) as [[| | |d]|]; try done. split; [|done].
  unfold unfinished. cbn [on_bench be_report]. by rewrite rget_rupdate_other.
Qed.
Definition every_mode (sources : list (pystr * pystr)) (plan : list (nat * bool)) : Prop := plan ≡ₚ plan_of [false; true] 0 (Z.to_nat (j_repeats args)) /\ held sources.
Lemma measured_adds work sources : adds (journal_sampled work) (journal_measured fuel ROOT args work sources) (fun _ => every_mode sources).
Proof.
  unfold journal_measured. eapply (adds_bind _ _ _ (fun _ p => p = [])).
  { apply (adds_none _ (journal_build ROOT work)), build_adds. }
  intros u p ->. eapply adds_bind; [apply unchanged_adds|]. intros u1 p [-> _]. apply adds_reported. intros b. apply adds_then. intros _.
  eapply adds_bind; [apply (adds_loop _ [false; true]); intros k; apply adds_shuffled; intros c; apply journal_step_adds|]. intros u2 p Hp.
  eapply adds_mono; [apply unchanged_adds|]. intros u3 q [-> Hh]. split; [|done]. by rewrite app_nil_r.
Qed.

(** The report of an end is complete, and was written. *)
Definition published (b : Bench JournalSample) : Prop :=
  rget "complete" (be_report b) = Some (tbool true) /\ exists w w' : W, h_write_json (j_output args) (journal_data b) w = (Ok tt, w').
Lemma journal_ends : ends (journal_end args) published.
Proof.
  intros s. unfold journal_end. apply wp_bind, wp_host_step. intros [utc|e|] w1; [|done..]. apply wp_bind, wp_amend. apply wp_bind, wp_host_step. intros [load|e|] w2; [|done..].
  apply wp_bind, wp_amend. apply wp_bind, wp_gets. cbn [fst snd]. apply wp_bind, wp_on_host, wp_io_res. intros r w3 Hw. destruct r as [[]|e|]; [|done..].
  apply wp_host_step. intros r w4 _. cbn [fst]. split; [done|]. split; [|by exists w2, w3]. cbn [on_bench be_report]. rewrite rget_rupdate_other by done. unfold rget, rupdate. cbn [foldl].
  rewrite dget_dset, decide_False by done. by rewrite dget_dset, decide_True.
Qed.

(** compare_process_journal.py reports itself complete only when, for both
    configurations, the crash checks of a build of exactly these core sources
    passed; every repeat exercised fresh voters once in either mode, with the
    repeat's seed; and the sources were unchanged at the end. *)
Theorem compare_journal_complete : returns (compare_journal fuel ROOT args) (fun _ => exists sources work b,
  (forall grouped, exists evidence, proven grouped (filter (fun x => core_source x = true) sources) evidence) /\
  published b /\ complete_with (journal_sampled work) (every_mode sources) b).
Proof.
  unfold compare_journal. apply returns_then. intros _. apply returns_then. intros sources.
  eapply (returns_bind (fun _ => forall grouped, exists evidence, proven grouped (filter (fun x => core_source x = true) sources) evidence)).
  { apply (returns_for_each (fun pre _ => Forall (fun x : bool * pystr => exists evidence, proven x.1 (filter (fun x => core_source x = true) sources) evidence) pre)); [constructor| |].
    - intros pre [grouped path] acc Hpre. eapply returns_bind; [apply journal_proof_proven|]. intros entry He. apply returns_ret. apply Forall_app. by repeat constructor.
    - intros acc HF grouped. rewrite Forall_cons, Forall_singleton in HF. by destruct HF, grouped. }
  intros proofs Hp. apply returns_then. intros _. apply returns_then. intros work. do 3 (apply returns_then; intros ?). apply returns_then. intros _.
  eapply (returns_bind (fun report => rget "complete" report = Some (tbool false))).
  { unfold journal_initial. do 9 (apply returns_then; intros ?). by apply returns_ret. }
  intros report Hr. apply returns_then. intros _. eapply returns_mono.
  { apply (measured_complete (journal_sampled work)); [apply (measured_adds work sources)|apply journal_ends|by rewrite Hr]. }
  intros u (b & Hb & Hc). by exists sources, work, b.
Qed.
End JournalComplete.

Section CostComplete.
Context {W : Type} `{DurabilityHost W} (fuel : nat) (ROOT : pystr) (args : CostArgs).

(** A run of the probe in a mode that verified itself and was counted. *)
Definition cost_sampled (x : nat * string) (s : report) : Prop :=
  exists case (w w' : W) result, du_run_env [probe ROOT; py x.2; case; dec ROWS; dec WARMUP_ROWS] [(py "LD_PRELOAD", library ROOT)] 300 w = (Ok result, w') /\
    returncode result = 0 /\ cost_sample x.1 (stdout result) = Ok s.
Lemma cost_step_adds output directory repeat mode : adds cost_sampled (cost_step ROOT output directory repeat mode) (fun _ p => p = [(repeat, mode)]).
Proof.
  unfold cost_step. apply adds_then. intros _. cbv zeta. set (case := join_path directory _). apply adds_then. intros _.
  set (go := io_res (du_run_env _ _ _)). eapply adds_bind; [apply adds_host, (returns_run go)|].
  intros result p [(w & w' & Hw) ->]. destruct (returncode result =? 0) eqn:E; cbn [negb]; [|eapply (adds_bind _ _ _ (fun _ _ => False)); [apply adds_throw|done]].
  eapply adds_bind; [by apply (adds_ret _ tt (fun _ p => p = []))|]. intros u p ->.
  eapply adds_bind; [by apply (adds_lift _ _ (fun s => cost_sample repeat (stdout result) = Ok s))|]. intros s p [Hs ->].
  eapply adds_bind; [apply (adds_sample cost_sampled (repeat, mode))|intros u1 p ->; apply adds_reported; intros b; eapply adds_mono; [apply adds_last|by intros ? ? ->]].
  exists case, w, w', result. split; [exact Hw|]. split; [by apply Z.eqb_eq|done].
Qed.

(** The evidence a measurement starts from. *)
Definition cost_evidence : Prop := exists current evidence, proven (negb (d_individual args)) current evidence /\ persistent evidence = Ok true.
Lemma prerequisites_found : returns (cost_prerequisites (W := W) ROOT args) (fun _ => cost_evidence).
Proof.
  unfold cost_prerequisites, refuse. apply returns_then. intros _. apply returns_then. intros evidence. apply returns_then. intros core. apply returns_then. intros current.
  apply returns_stop. intros Hs. eapply returns_bind; [by apply (returns_lift _ (fun b => too_few evidence = Ok b))|]. intros few Hf.
  eapply (returns_bind (fun passed => passed = true -> few = false /\ checks_passed evidence = Ok true)).
  { destruct few; [by apply returns_ret|]. apply returns_lift. by intros passed Hp ->. }
  intros passed Hp. destruct passed; cbn [negb]; [|eapply returns_bind; [apply (returns_throw _ (fun _ => False))|done]]. destruct (Hp eq_refl) as [-> Hp'].
  apply returns_then. intros _. apply returns_stop. intros Hg. eapply returns_bind; [by apply (returns_lift _ (fun b => persistent evidence = Ok b))|]. intros disk Hd.
  destruct disk; cbn [negb]; [|apply returns_throw]. apply returns_ret. exists current, evidence. split; [|done]. repeat (split; [done|]). by apply sources_are_all.
Qed.
Definition cost_published (output : pystr) (b : Bench report) : Prop :=
  rget "complete" (be_report b) = Some (tbool true) /\ exists w w' : W, h_write_json output (bench_data b) w = (Ok tt, w').
Lemma cost_ends output : ends (cost_end output) (cost_published output).
Proof.
  intros s. unfold cost_end. apply wp_bind, wp_host_step. intros [utc|e|] w1; [|done..]. apply wp_bind, wp_amend. apply wp_bind, wp_gets. cbn [fst snd].
  apply wp_bind, wp_on_host, wp_io_res. intros r w3 Hw. destruct r as [[]|e|]; [|done..].
  apply wp_host_step. intros r w4 _. cbn [fst]. split; [done|]. split; [|by exists w1, w3]. cbn [on_bench be_report]. unfold rget, rupdate. cbn [foldl].
  rewrite dget_dset, decide_False by done. by rewrite dget_dset, decide_True.
Qed.

(** profile_durability_cost.py reports itself complete only over evidence that
    the crash checks of the current sources passed on a disk, with every mode run
    in each of the three repeats, verified, and its sync calls counted. *)
Theorem profile_cost_complete : returns (profile_cost fuel ROOT args) (fun _ => cost_evidence /\ exists output b,
  cost_published output b /\ complete_with cost_sampled (fun plan => plan ≡ₚ plan_of (cost_modes (d_transactions args)) 0 3) b).
Proof.
  unfold profile_cost. eapply returns_bind; [apply prerequisites_found|]. intros u He. cbv zeta. apply returns_then. intros stamp. do 5 (apply returns_then; intros ?).
  apply returns_then. intros stamp'. apply returns_then. intros _. eapply (returns_bind (fun report => rget "complete" report = Some (tbool false))).
  { unfold cost_report. do 9 (apply returns_then; intros ?). by apply returns_ret. }
  intros report Hr. eapply returns_mono.
  { apply (measured_complete cost_sampled); [|apply (cost_ends (cost_output ROOT args stamp))|by rewrite Hr].
    apply (adds_loop _ (cost_modes (d_transactions args))). intros k. apply adds_shuffled. intros c. apply cost_step_adds. }
  intros u' Hb. split; [done|]. by exists (cost_output ROOT args stamp).
Qed.
End CostComplete.

Module DurabilityDemo.
Definition quoted (s : string) : pystr := (fun c => if c =? 39 then 34 else c) <$> py s.
Definition passing (n : nat) (grouped : string) : pyval :=
  PDict (mkdict [("journal_group_commit", PBool (String.eqb grouped "true")); ("checks", PList (repeat (PDict (mkdict [("passed", PBool true)])) n));
                 ("source_sha256", PDict (mkdict [("src/a.odin", PStr (py "aa"))]))])%string.
(** 22 checks are needed, each passed, for the very digests found. *)
Example evidence_proven : proven true [(py "src/a.odin", py "aa")] (passing 22 "true").
Proof. repeat split; try reflexivity. by repeat constructor. Qed.
Example one_too_few : too_few (passing 21 "true") = Ok true. Proof. reflexivity. Qed.
Example other_source : sources_are (passing 22 "true") [(py "src/a.odin", py "ab")] = Ok false. Proof. reflexivity. Qed.
Example no_mount : persistent (passing 22 "true") = Ok false. Proof. vm_compute. reflexivity. Qed.
Example uncounted : cost_sample 0 (quoted "{'verified': true, 'sync': {'calls': 0}}") = Raise (RuntimeError "Verification or sync interposition failed").
Proof. vm_compute. reflexivity. Qed.
End DurabilityDemo.
