(* ===== verification/Realworld.v ===== *)
(** * Workloads across products
    (tools/compare_realworld.py, check_mixed_workload.py)

    The same orders and inserts on SQLodin's embedded probe and on the clusters
    of the vendored comparison (benchmarks/vendor/zaxonlite), which is an
    interface here: its workload generator, its clusters and its clients.  Ports
    are taken in blocks, a monitor samples the children's counters, and a report
    is complete only with every system in every repeat. *)

From Stdlib Require Import QArith.
From S2P Require Import Prelude PyStr PyFloat Objects Json Bytes Vector Text Parameters Results Net Client Transport Dict Host Stats Random Script Service ServiceChecks Snapshots Recovery Returns Resource Capacity Lab Qualify Calibrate Observations Benchmark Durability.
#[local] Open Scope Z_scope.

Class Vendored (W : Type) := {
  rw_host :: DurabilityHost W;
  (** realworld_workload: its texts, and the operations of a seed, as
      dictionaries, with the state they lead to *)
  SCHEMA : list pystr;
  INVARIANT_SQL : pystr;
  Expected : Type;
  expected_new : Expected;
  as_dict : Expected -> list (pystr * pyval);
  generate_operations : Z -> Z -> Z -> Expected -> pyres (list pyval * Z * Expected);
  (** driver: [percentile(ordered, fraction)], [summary(...)], and the clients'
      runs at an address *)
  rw_percentile : list Q -> Q -> pyres Q;
  rw_summary : pystr -> list Q -> Q -> Z -> Z -> pyres report;
  rw_benchmark_zaxon : pystr -> Z -> Z -> Z -> pystr * pystr * pystr -> W -> pyres report * W;
  rw_benchmark_rqlite : pystr -> Z -> Z -> Z -> W -> pyres report * W;
  (** the reference's clusters and process sets, by handle; [rw_sync_full]
      replaces [children.spawn] by one that adds [--sync full] *)
  rw_zaxon : pystr -> pystr -> Z -> W -> pyres Z * W;
  rw_rqlite : pystr -> pystr -> pystr -> Z -> W -> pyres Z * W;
  rw_sync_full : Z -> W -> W;
  rw_run_system : Z -> Z -> Z -> Z -> Z -> W -> pyres report * W;
  rw_start_initial : Z -> W -> pyres unit * W;
  rw_endpoints : Z -> W -> list (pystr * Z);
  rw_credentials : Z -> W -> pystr * pystr * pystr;
  rw_wait_leader : Z -> W -> pyres Z * W;
  rw_process_set : pystr -> pystr -> W -> Z * W;
  rw_spawn : Z -> Z -> list pystr -> W -> pyres unit * W;
  rw_wait_port : pystr -> Z -> W -> pyres unit * W;
  rw_crash_all : Z -> W -> pyres unit * W;
  (** [command_version(argv)] *)
  rw_version : list pystr -> W -> pyres pystr * W;
  (** sockets, [HTTPConnection('127.0.0.1', port, timeout=30)] and a request on
      it; an [HTTPException] counts as a [RuntimeError], which is caught with it *)
  rw_socket : W -> pyres Z * W;
  rw_bind : Z -> Z -> W -> pyres unit * W;
  rw_close : Z -> W -> W;
  rw_http : Z -> W -> Z * W;
  rw_request : Z -> pystr -> pystr -> option (list Z) -> W -> pyres (Z * list Z) * W;
  rw_http_close : Z -> W -> W;
  (** [stat]: the size and the blocks of 512 bytes; [is_dir]; [path.mkdir()] *)
  rw_stat : pystr -> W -> pyres (Z * Z) * W;
  rw_is_dir : pystr -> W -> bool * W;
  (** [Popen(argv, stdout=open(out), stderr=open(err))] and [wait(timeout)] *)
  rw_popen : list pystr -> pystr -> pystr -> W -> pyres Z * W;
  rw_wait : Z -> Q -> W -> pyres Z * W;
  (** what the sampling thread's passes saw, from its start until it is stopped:
      the children then running, each with the text of [/proc/<pid>/stat] unless
      it was gone *)
  rw_observed : W -> list (list (Z * option pystr)) * W
}.

(** ** Ports *)

Definition candidate_bases : list Z := (fun k => 12000 + 200 * Z.of_nat k) <$> seq 0 90.
Definition block (base : Z) : list Z := [base; base + 1; base + 2; base + 100; base + 101; base + 102].

(** ** The monitor *)

Record Monitor := mkMonitor { mn_cpu : list (Z * Q); mn_peak : Z }.
Definition field_of (text : pystr) (i : Z) : pyres Z :=
  let? rest := after_last 41 text in
  let? x := list_index (words rest) i in
  int_of_text x.
(** [(int(fields[11]) + int(fields[12])) / ticks] *)
Definition cpu_of (ticks : Z) (text : pystr) : pyres Q :=
  let? user := field_of text 11 in
  let? system := field_of text 12 in
  do? guard (ticks =? 0) (ZeroDivisionError "division by zero");;
  Ok (inject_Z (user + system) / inject_Z ticks)%Q.
(** One pass: the counters read replace those known of a process; memory adds
    up over the children.  [None] where an exception ends the thread. *)
Fixpoint pass (ticks pages : Z) (seen : list (Z * option pystr)) (cpu : list (Z * Q)) (rss : Z) : list (Z * Q) * option Z :=
  match seen with
  | [] => (cpu, Some rss)
  | (_, None) :: seen => pass ticks pages seen cpu rss
  | (pid, Some text) :: seen =>
      match cpu_of ticks text with
      | Ok seconds =>
          let cpu := dset pid seconds cpu in
          match field_of text 21 with
          | Ok resident => pass ticks pages seen cpu (rss + resident * pages)
          | _ => (cpu, None)
          end
      | _ => (cpu, None)
      end
  end.
Fixpoint passes (ticks pages : Z) (all : list (list (Z * option pystr))) (m : Monitor) : Monitor :=
  match all with
  | [] => m
  | seen :: all =>
      match pass ticks pages seen (mn_cpu m) 0 with
      | (cpu, Some rss) => passes ticks pages all (mkMonitor cpu (Z.max (mn_peak m) rss))
      | (cpu, None) => mkMonitor cpu (mn_peak m)
      end
  end.
Definition monitor_result (m : Monitor) (elapsed : Q) : report :=
  fields [("sampled_database_cpu_seconds", Num (foldr Qplus 0%Q (mn_cpu m).*2)); ("sampled_peak_aggregate_rss_bytes", tint (mn_peak m)); ("whole_lifecycle_seconds", Num elapsed);
    ("interval_ms", tint 10); ("scope", tstr (py "database children; setup, verification and recovery included; client excluded"))]%string.

(** ** Seed data and the manifest *)

(** realworld_workload's sizes *)
Definition CUSTOMERS : Z := 1000.
Definition PRODUCTS : Z := 500.
Definition INITIAL_STOCK : Z := 10000.

Definition cat (parts : list fpart) : pystr := fstr parts.
Definition REGIONS : list pystr := py <$> ["apac"; "amer"; "emea"; "latam"]%string.
Definition customer_row (i : Z) : pystr :=
  cat [L "("; D i; L ",'customer-"; T (pad_left 4 (dec i)); L "@example.test','"; T (default [] (REGIONS !! Z.to_nat (i mod 4))); L "',"; D (1 + i mod 3); L ","; D (1700000000 + i); L ")"].
Definition product_row (stock i : Z) : pystr :=
  cat [L "("; D i; L ",'SKU-"; T (pad_left 5 (dec i)); L "','Catalog product "; T (pad_left 5 (dec i)); L "',"; D (500 + i * 17); L ","; D stock; L ")"].
Definition upto (n : Z) : list Z := (fun k => Z.of_nat k + 1) <$> seq 0 (Z.to_nat n).
(** [rows[start:start + 32] for start in range(0, len(rows), 32)] *)
Definition batches {A} (rows : list A) : list (list A) := (fun k => take 32 (drop (32 * k) rows)) <$> seq 0 ((length rows + 31) / 32).
Definition insert_rows (table : string) (rows : list pystr) : pystr := py "INSERT OR IGNORE INTO " ++ py table ++ py " VALUES " ++ join (py ",") rows.
Definition payload : pystr := replicate 256 120.
Definition kv_row (i : Z) : pyval := PDict (mkdict [("kind", PStr (py "write")); ("sql", PStr (cat [L "INSERT INTO bench VALUES("; D i; L ",'"; T payload; L "')"]))]%string).

Definition sqlodin_seed_data : list pystr :=
  (insert_rows "customers" <$> batches (customer_row <$> upto CUSTOMERS)) ++ (insert_rows "products" <$> batches (product_row INITIAL_STOCK <$> upto PRODUCTS)).

Record RunArgs := mkRunArgs { ra_operations : Z; ra_warmup : Z; ra_concurrency : Z; ra_zaxon : pystr; ra_rqlited : pystr; ra_rqlite_cli : pystr }.

Section Realworld.
Context {W : Type} `{Vendored W} `{Platform} (fuel : nat) (ROOT : pystr).
Abbreviation Y := (Hm (W := W)).

Definition command (args : list pystr) : Y pystr := check_output args [] (Some 180%Q).
Definition close_all (sockets : list Z) : Y unit := for_do sockets (fun s => io_do (rw_close s)).
(** [except OSError: pass / finally: close all] *)
Definition given_up {A} (sockets : list Z) (e : exn) : option (Y (option A)) :=
  Some (do! close_all sockets;; if isinstance e COSError then ret None else throw e).
Fixpoint bind_ports (ports sockets : list Z) : Y bool :=
  match ports with
  | [] => do! close_all sockets;; ret true
  | port :: ports =>
      let! sock := try_except (let! s := io_res rw_socket in ret (Some s)) (given_up sockets) in
      match sock with
      | None => ret false
      | Some sock =>
          let sockets := sockets ++ [sock] in
          let! bound := try_except (do! io_res (rw_bind sock port);; ret (Some tt)) (given_up sockets) in
          match bound with None => ret false | Some _ => bind_ports ports sockets end
      end
  end.
(** The base and [_used_ports] with it. *)
Fixpoint first_free (bases used : list Z) : Y (Z * list Z) :=
  match bases with
  | [] => throw (RuntimeError "No free benchmark port block")
  | base :: bases =>
      if bool_decide (base ∈ used) then first_free bases used
      else let! free := bind_ports (block base) [] in if (free : bool) then ret (base, base :: used) else first_free bases used
  end.
Definition unused_base_port (used : list Z) : Y (Z * list Z) := first_free candidate_bases used.

(** ** disk_usage *)

Definition node_root (name : pystr) : bool := existsb (fun p => is_prefix (py p) name) ["zaxon-"; "rqlite-"; "data-"]%string.
Definition keep_if (test : pystr -> W -> bool * W) (paths : list pystr) : Y (list pystr) :=
  for_each paths (fun p acc => let! yes := io (test p) in ret (if (yes : bool) then acc ++ [p] else acc)) [].
Definition disk_files (path : pystr) : Y (list pystr) :=
  let! entries := io (h_glob path (py "*")) in
  let! folders := keep_if rw_is_dir entries in
  let roots := filter (fun p => node_root (path_name p) = true) folders in
  let! files := for_each roots (fun root acc => let! found := io (h_glob root (py "**/*")) in let! files := keep_if h_is_file found in ret (acc ++ files)) [] in
  let! databases := io (h_glob path (py "node-*.db*")) in
  let! own := keep_if h_is_file databases in
  ret (files ++ own).
Definition disk_usage (path : pystr) : Y report :=
  let! files := disk_files path in
  let! sizes := for_each files (fun p acc => let! st := io_res (rw_stat p) in ret (acc + st.1)) 0 in
  let! blocks := for_each files (fun p acc => let! st := io_res (rw_stat p) in ret (acc + st.2 * 512)) 0 in
  ret (fields [("logical_bytes", tint sizes); ("allocated_bytes", tint blocks); ("scope", tstr (py "persistent node databases, logs, snapshots and metadata after shutdown"))]%string).

(** [with Monitor(...) as monitor: body]: the thread ends with the block. *)
Definition monitor_end (started : Q) : Y report :=
  let! seen := io rw_observed in
  let! now := io h_monotonic in
  ret (monitor_result (passes clk_tck page_size seen (mkMonitor [] 0)) (now - started)%Q).
Definition monitored {A} (body : Y A) : Y (A * report) :=
  let! started := io h_monotonic in
  let! x := try_except body (fun e => Some (let! _ := monitor_end started in throw e)) in
  let! result := monitor_end started in
  ret (x, result).

(** ** sqlodin_manifest *)

Definition manifest_value (setup : list pystr) (warm ops : list pyval) (invariant : pystr) (expected : list pyval) : pyval :=
  PDict (mkdict [("setup", PList (PStr <$> setup)); ("warmup", PList warm); ("operations", PList ops); ("invariant_sql", PStr invariant); ("expected", PList expected)]%string).
Definition sqlodin_manifest (path : pystr) (operations warmup seed : Z) : Y (list (pystr * pyval)) :=
  let! first := lift (generate_operations warmup seed 1 expected_new) in
  let '(warm, next_id, expected) := first in
  let! second := lift (generate_operations operations (seed + 1) next_id expected) in
  let '(ops, _, expected) := second in
  let setup := ((fun s => join (py " ") (words s)) <$> SCHEMA) ++ sqlodin_seed_data in
  let! longest := lift (max_of (zlen <$> setup)) in
  do! check_that (longest <=? 4096);;
  let! text := lift (dumps spaced (manifest_value setup warm ops INVARIANT_SQL (as_dict expected).*2)) in
  do! io_res (h_write_text path text);;
  ret (as_dict expected).

(** ** sqlodin_run *)

Definition kv_manifest (path : pystr) (args : RunArgs) : Y (list (pystr * pyval)) :=
  let ops := kv_row <$> upto (ra_operations args + ra_warmup args) in
  let rows := PInt (ra_operations args + ra_warmup args) in
  let warm := Z.to_nat (ra_warmup args) in
  let! text := lift (dumps spaced (manifest_value [py "CREATE TABLE bench(id INTEGER PRIMARY KEY,v TEXT)"] (take warm ops) (drop warm ops) (py "SELECT count(*) FROM bench WHERE v='" ++ payload ++ py "'") [rows])) in
  do! io_res (h_write_text path text);;
  ret [(py "rows", rows)].
Definition run_probe (binary manifest folder : pystr) : Y unit :=
  let! process := io_res (rw_popen [binary; manifest; folder] (join_path folder (py "result.json")) (join_path folder (py "stderr.log"))) in
  let! code := io_res (rw_wait process 180) in
  if code =? 0 then ret tt else let! _ := io_res (h_read_text (join_path folder (py "stderr.log"))) in throw (RuntimeError "stderr.log").
(** [values = sorted(result.pop('latencies_ms'))] and the percentiles of them *)
Definition with_latencies (result : pyval) : pyres report :=
  match result with
  | PDict d =>
      let? raw := vget "latencies_ms" result in
      let? values := (let? l := velements raw in try_map vnum l) in
      let values := sort_q values in
      let? p50 := median values in
      let? p95 := rw_percentile values (95 # 100) in
      let? p99 := rw_percentile values (99 # 100) in
      Ok (rupdate [("latency_ms"%string, Obj (fields [("p50", Num p50); ("p95", Num p95); ("p99", Num p99)]%string))]
            ((fun x : pystr * pyval => (x.1, J x.2)) <$> filter (fun x => pyeqb x.1 (py "latencies_ms") = false) d))
  | _ => Raise (AttributeError "pop")
  end.
Definition sqlodin_run (folder binary : pystr) (args : RunArgs) (seed : Z) (kv : bool) : Y report :=
  do! io_res (h_mkdir folder);;
  let manifest := join_path folder (py "workload.json") in
  let! expected := (if kv then kv_manifest manifest args else sqlodin_manifest manifest (ra_operations args) (ra_warmup args) seed) in
  let! out := monitored (run_probe binary manifest folder) in
  let resources := rupdate [("scope"%string, tstr (py "one embedded process including all three database hosts and workload driver; entire lifecycle"))] out.2 in
  let! value := read_json (join_path folder (py "result.json")) in
  let! result := lift (with_latencies value) in
  let! disk := disk_usage folder in
  ret (rupdate [("system", tstr (py "sqlodin")); ("nodes", tint 3); ("resources", Obj resources); ("disk", Obj disk); ("expected", J (PDict expected)); ("client_concurrency", tint 1);
    ("storage", tstr (py "on-disk SQLite application and Paxos journal; WAL synchronous=FULL"));
    ("boundary", tstr (py "embedded host, three disk databases, in-process transport, local snapshot reads"))]%string result).

(** ** network_run *)

(** A failure of the body still ends the children. *)
Definition ending {A} (children : Z) (body : Y A) : Y A := try_finally body (io_res (rw_crash_all children)).
Definition cluster_of (zaxon : bool) (folder : pystr) (args : RunArgs) (port : Z) : Y Z :=
  if zaxon then let! cluster := io_res (rw_zaxon folder (ra_zaxon args) port) in do! io_do (rw_sync_full cluster);; ret cluster
  else io_res (rw_rqlite folder (ra_rqlited args) (ra_rqlite_cli args) port).
Definition address (x : pystr * Z) : pystr := x.1 ++ 58 :: dec x.2.
Definition network_writes (zaxon : bool) (cluster : Z) (args : RunArgs) : Y report :=
  ending cluster
    (do! io_res (rw_start_initial cluster);;
     let! endpoints := gets (rw_endpoints cluster) in
     if zaxon then
       let! tls := gets (rw_credentials cluster) in
       io_res (rw_benchmark_zaxon (join (py ",") (address <$> endpoints)) (ra_operations args) (ra_warmup args) 256 tls)
     else
       let! leader := io_res (rw_wait_leader cluster) in
       let! endpoint := lift (list_index endpoints leader) in
       io_res (rw_benchmark_rqlite (address endpoint) (ra_operations args) (ra_warmup args) 256)).
Definition network_run (zaxon : bool) (folder : pystr) (args : RunArgs) (seed port : Z) (kv : bool) : Y report :=
  do! io_res (h_mkdir folder);;
  let! cluster := cluster_of zaxon folder args port in
  let! out := monitored (if kv then network_writes zaxon cluster args else io_res (rw_run_system cluster (ra_operations args) (ra_warmup args) (ra_concurrency args) seed)) in
  let! disk := disk_usage folder in
  ret (rupdate [("resources", Obj out.2); ("disk", Obj disk);
    ("storage", tstr (py (if zaxon then "on-disk SQLite WAL NORMAL with separate full-sync Paxos log" else "on-disk SQLite materialization with persistent Raft log and snapshots")))]%string out.1).

(** ** cowsql *)

Definition done_line : list Z := py "done" ++ [10].
(** An accepted answer to a request. *)
Definition answered (method : string) (answer : Z * list Z) : bool := (answer.1 =? 200) && (negb (pyeqb (py method) (py "PUT")) || pyeqb answer.2 done_line).
Definition cowsql_request (connection : Z) (method : string) (key : pystr) (value : option (list Z)) : Y (list Z) :=
  let! answer := io_res (rw_request connection (py method) (47 :: key) value) in
  if negb (answered method answer) then throw (RuntimeError "cowsql request failed") else ret answer.2.
Definition numbered (n : Z) : list Z := Z.of_nat <$> seq 0 (Z.to_nat n).
Definition measured_key (i : Z) : pystr := py "measured-" ++ dec i.
(** Every measured key holds the payload and one newline. *)
Definition read_back (connection : Z) (message : string) (operations : Z) : Y unit :=
  for_do (numbered operations) (fun i =>
    let! body := cowsql_request connection "GET" (measured_key i) None in
    if negb (pyeqb body (payload ++ [10])) then throw (RuntimeError message) else ret tt).
Definition timed_put (connection i : Z) (latencies : list Q) : Y (list Q) :=
  let! before := io bh_perf in
  let! _ := cowsql_request connection "PUT" (measured_key i) (Some payload) in
  let! after := io bh_perf in
  ret (latencies ++ [(after - before)%Q]).
Definition cowsql_workload (port : Z) (args : RunArgs) : Y report :=
  let! connection := io (rw_http port) in
  try_finally
    (do! for_do (numbered (ra_warmup args)) (fun i => let! _ := cowsql_request connection "PUT" (py "warmup-" ++ dec i) (Some payload) in ret tt);;
     let! started := io bh_perf in
     let! latencies := for_each (numbered (ra_operations args)) (timed_put connection) [] in
     let! now := io bh_perf in
     do! read_back connection "cowsql payload mismatch" (ra_operations args);;
     lift (rw_summary (py "cowsql") latencies (now - started)%Q (ra_operations args) 256))
    (io_do (rw_http_close connection)).

Definition local (port : Z) : pystr := py "127.0.0.1:" ++ dec port.
Definition cowsql_argv (folder : pystr) (port i : Z) : list pystr :=
  [join_path ROOT (py "build/comparison-tools/cowsql-demo"); py "--api"; local (port + i); py "--db"; local (port + 100 + i); py "--dir"; join_path folder (py "data-" ++ dec i)]
  ++ (if i =? 0 then [] else [py "--join"; local (port + 100)]).
Definition cowsql_start (processes : Z) (folder : pystr) (port i : Z) : Y unit :=
  do! io_res (rw_spawn processes i (cowsql_argv folder port i));;
  io_res (rw_wait_port (py "127.0.0.1") (port + i)).
(** [text.count(sub)] for a [sub] that is not empty *)
Fixpoint count_from (n : nat) (sub text : pystr) : Z :=
  match n with
  | O => 0
  | S n => match find_sub sub text with None => 0 | Some (_, rest) => 1 + count_from n sub (drop (length sub) rest) end
  end.
Definition count_text (sub text : pystr) : Z := count_from (S (length text)) sub text.
(** [all(p.read_text().count('Role: 0') == 3 for p in stores)] *)
Fixpoint all_voters (stores : list pystr) : Y bool :=
  match stores with
  | [] => ret true
  | p :: stores =>
      let! text := io_res (h_read_text p) in
      if count_text (py "Role: 0") text =? 3 then all_voters stores else ret false
  end.
Definition voters_assigned (folder : pystr) : Y (list pystr) :=
  let! now := io h_monotonic in
  let deadline := (now + 95)%Q in
  let! stores := while_loop fuel (fun _ : option (list pystr) =>
    let! now := io h_monotonic in
    if Qle_bool deadline now then ret (inr None)
    else
      let! stores := io (h_glob folder (py "data-*/**/cluster.yaml")) in
      let! voters := (if Nat.eqb (length stores) 3 then all_voters stores else ret false) in
      if (voters : bool) then ret (inr (Some stores)) else do! io_do (h_sleep (1 # 10));; ret (inl None)) None in
  match stores with Some stores => ret stores | None => throw (RuntimeError "Stock cowsql did not expose three persisted voter assignments") end.
(** [{name(p): text of p}] *)
Definition texts_of (name : pystr -> pystr) (cut : pystr -> pystr) (paths : list pystr) : Y tv :=
  let! entries := for_each paths (fun p acc => let! text := io_res (h_read_text p) in ret (dset (name p) (tstr (cut text)) acc)) [] in
  ret (Obj entries).
Definition last_part (text : pystr) : pystr := drop (length text - 3000) text.

(** Every key from every one of the three restarted processes. *)
Definition verify_restart (port operations : Z) : Y unit :=
  for_do [0; 1; 2] (fun i =>
    let! connection := io (rw_http (port + i)) in
    try_finally (read_back connection "Restarted cowsql payload mismatch" operations) (io_do (rw_http_close connection))).
Definition restart_failed (folder : pystr) (result : report) (e : exn) : Y report :=
  let! logs := io (h_glob folder (py "*-g2.log")) in
  let! texts := texts_of path_name last_part logs in
  ret (rupdate [("restart_error", tstr (str_exn e)); ("restart_logs", texts)]%string result).
Definition cowsql_restart (processes : Z) (folder : pystr) (port : Z) (args : RunArgs) (result : report) : Y report :=
  try_except
    (do! io_res (rw_crash_all processes);;
     do! for_do [0; 1; 2] (fun i => io_res (rw_spawn processes i (cowsql_argv folder port i)));;
     do! for_do [0; 1; 2] (fun i => io_res (rw_wait_port (py "127.0.0.1") (port + i)));;
     do! verify_restart port (ra_operations args);;
     ret (rupdate [("restart_verified"%string, tbool true)] result))
    (fun e => if isinstance e COSError || isinstance e CRuntimeError then Some (restart_failed folder result e) else None).
Definition cowsql_lifecycle (processes : Z) (folder : pystr) (port : Z) (args : RunArgs) : Y report :=
  ending processes
    (do! for_do [0; 1; 2] (cowsql_start processes folder port);;
     let! stores := voters_assigned folder in
     let! result := cowsql_workload port args in
     let! membership := texts_of (relative_to folder) id stores in
     let result := rupdate [("system", tstr (py "cowsql")); ("restart_verified", tbool false); ("verified_before_restart", tbool true); ("membership", membership);
       ("storage", tstr (py "in-memory SQLite materialization; durable Raft logs and snapshots")); ("boundary", tstr (py "stock go-cowsql demo PUT/GET; no arbitrary SQL workload"))]%string result in
     do! io_res (h_write_json (join_path folder (py "timed-result.json")) (Obj result));;
     cowsql_restart processes folder port args result).
Definition cowsql_run (folder : pystr) (args : RunArgs) (port : Z) : Y report :=
  do! io_res (h_mkdir folder);;
  let! processes := io (rw_process_set folder (py "cowsql")) in
  let! out := monitored (cowsql_lifecycle processes folder port args) in
  let! disk := disk_usage folder in
  ret (rupdate [("resources", Obj out.2); ("disk", Obj disk)]%string out.1).
End Realworld.

(** ** compare_realworld.py's main *)

Record RealArgs := mkRealArgs { re_run : RunArgs; re_repeats : Z; re_reuse : option pystr; re_output : pystr; re_durability : pystr }.
(** A sample, and the group it belongs to: [sequential_writes] or [realworld]. *)
Definition Measured : Type := bool * report.
Definition group_name (kv : bool) : string := if kv then "sequential_writes" else "realworld".
Definition in_group (kv : bool) (samples : list Measured) : list report := (filter (fun x : Measured => x.1 = kv) samples).*2.
Definition real_data (b : Bench Measured) : tv :=
  Obj (rupdate ((fun kv => (group_name kv, Arr (Obj <$> in_group kv (be_samples b)))) <$> [false; true]) (be_report b)).
Definition SQL_SYSTEMS : list string := ["sqlodin"; "zaxonlite"; "rqlite"].
Definition THIS_FILE : pystr := py "tools/compare_realworld.py".
(** [recorded['source_sha256'].get(path) == digest] *)
Definition recorded_source (recorded : pyval) (x : pystr * pystr) : pyres bool :=
  let? sources := vget "source_sha256" recorded in
  match sources with PDict d => Ok (eq_str (get_or x.1 PNone d) x.2) | _ => Raise (AttributeError "get") end.
(** ... for every path but this file *)
Fixpoint sources_reused (recorded : pyval) (sources : list (pystr * pystr)) : pyres bool :=
  match sources with
  | [] => Ok true
  | x :: sources =>
      if pyeqb x.1 THIS_FILE then sources_reused recorded sources
      else let? same := recorded_source recorded x in if (same : bool) then sources_reused recorded sources else Ok false
  end.
Definition workload_of (args : RealArgs) : list (string * Z) :=
  [("operations", ra_operations (re_run args)); ("warmup", ra_warmup (re_run args)); ("repeats", re_repeats args);
   ("network_concurrency", ra_concurrency (re_run args)); ("embedded_concurrency", 1)]%string.
(** [recorded == {...}] for an object of integers *)
Definition same_counts (x : pyval) (kvs : list (string * Z)) : bool :=
  match x with
  | PDict d => Nat.eqb (length d) (length kvs) && forallb (fun '(k, n) => match dict_get (py k) d with Some v => eq_int v n | None => false end) kvs
  | _ => false
  end.
Definition REUSED_KEYS : list string :=
  ["started_utc"; "finished_utc"; "run_directory"; "source_sha256"; "binaries_sha256"; "native_dependencies"; "comparison_dependencies"; "zaxon_release"].
(** [[{**row, 'sample_run_directory': d} for row in reused[group] if row['system'] in SQL_SYSTEMS]] *)
Fixpoint reused_rows (directory : pyval) (rows : list pyval) : pyres (list report) :=
  match rows with
  | [] => Ok []
  | row :: rows =>
      let? system := vget "system" row in
      let? rest := reused_rows directory rows in
      if val_in system SQL_SYSTEMS
      then match row with PDict d => Ok (rupdate [("sample_run_directory"%string, J directory)] ((fun x : pystr * pyval => (x.1, J x.2)) <$> d) :: rest) | _ => Ok rest end
      else Ok rest
  end.
Definition reused_group (reused : pyval) (kv : bool) : pyres (list Measured) :=
  let? directory := vget "run_directory" reused in
  let? rows := (let? x := vget (group_name kv) reused in velements x) in
  let? rows := reused_rows directory rows in
  Ok (pair kv <$> rows).
(** [{'repeat': repeat + 1, **result}] *)
Definition with_repeat (repeat : nat) (result : report) : report := foldl (fun d '(k, v) => dset k v d) (fields [("repeat", tint (Z.of_nat repeat + 1))]%string) result.
Definition add_samples (l : list Measured) (b : Bench Measured) : Bench Measured := mkBench (be_report b) (be_samples b ++ l).

Section Main.
Context {W : Type} `{Vendored W} `{Platform} (fuel : nat) (ROOT : pystr).
Abbreviation Y := (Hm (W := W)).
Abbreviation K := (Sc (W := W) (Bench Measured)).
Definition from_root (path : string) : pystr := join_path ROOT (py path).
Definition VENDOR : pystr := from_root "benchmarks/vendor/zaxonlite".
Definition stop_if (message : string) (b : bool) : Y unit := if b then throw (SystemExit (py message)) else ret tt.
Definition least_count (args : RealArgs) : Z := Z.min (Z.min (ra_operations (re_run args)) (re_repeats args)) (ra_concurrency (re_run args)).

(** Evidence that the crash checks of exactly these sources passed. *)
Definition durable (args : RealArgs) : Y pyval :=
  do! stop_if "Linux required" (negb (pyeqb h_system (py "Linux")));;
  do! stop_if "Invalid counts" ((least_count args <? 1) || (ra_warmup (re_run args) <? 0));;
  let! there := io (h_exists (re_output args)) in
  do! stop_if "Refusing to overwrite recorded evidence" there;;
  let! durability := read_json (re_durability args) in
  let! checks := lift (vget "checks" durability) in
  let! passed := (if truthy checks then lift (checks_passed durability) else ret false) in
  do! stop_if "Durability checks did not all pass" (negb passed);;
  let! core := io (h_glob ROOT (py "src/**/*.odin")) in
  do! for_do core (fun source =>
    let! digest := file_sha256 source in
    let! same := lift (recorded_source durability (relative_to ROOT source, digest)) in
    stop_if "Durability evidence differs from current source" (negb same));;
  ret durability.

Definition real_initial (args : RealArgs) (durability : pyval) : Y report :=
  let! utc := io h_utc in
  let! cpu := command [py "lscpu"] in
  let! odin := command [py "odin"; py "version"] in
  let! pin := command [py "git"; py "-C"; from_root "deps/paxos-odin"; py "rev-parse"; py "HEAD"] in
  let! rqlite := io_res (rw_version [ra_rqlited (re_run args); py "-version"]) in
  let! native := read_json (from_root "build/native/build.json") in
  let! comparison := read_json (from_root "build/comparison-tools/build.json") in
  let! release := read_json (from_root "build/comparison-tools/zaxon-release/release.json") in
  ret (fields [("schema_version", tint 1); ("complete", tbool false); ("started_utc", tstr utc); ("host", tstr h_platform); ("cpu", tstr cpu); ("odin", tstr (strip odin));
    ("paxos_pin", tstr (strip pin)); ("rqlite_version", tstr rqlite); ("workload", Obj (fields ((fun x : string * Z => (x.1, tint x.2)) <$> workload_of args)));
    ("comparability", tstr (py "No aggregate ranking: embedded and network/read consistency boundaries differ."));
    ("native_dependencies", J native); ("comparison_dependencies", J comparison); ("durability", J durability); ("zaxon_release", J release); ("realworld", Arr []); ("sequential_writes", Arr [])]%string).
Definition real_sources : Y (list (pystr * pystr)) :=
  let! core := io (h_glob ROOT (py "src/**/*.odin")) in
  let! bench := io (h_glob ROOT (py "bench/realworld/*.odin")) in
  let! vendor := io (h_glob VENDOR (py "*.py")) in
  manifest ROOT (core ++ bench ++ [join_path ROOT THIS_FILE] ++ vendor).
Definition real_work (stamp : pystr) : pystr := join_path (from_root "build/comparison-runs") stamp.

(** A complete run of the same sources and settings, whose SQL samples stand in
    for new ones. *)
Definition same_run (reused : pyval) (workload : list (string * Z)) : pyres bool :=
  let? complete := vget_or "complete" PNone reused in
  let? settings := (if truthy complete then vget "workload" reused else Ok PNone) in
  Ok (truthy complete && same_counts settings workload).
Definition reusable (args : RealArgs) (sources : list (pystr * pystr)) (pin : pystr) (reused : pyval) : pyres unit :=
  let? run := same_run reused (workload_of args) in
  do? guard (negb run) (RuntimeError "Only a complete run with identical workload settings can be reused");;
  let? same := sources_reused reused sources in
  do? guard (negb same) (RuntimeError "Reused measurement source differs");;
  let? recorded := vget "paxos_pin" reused in
  guard (negb (eq_str recorded pin)) (RuntimeError "Reused Paxos pin differs").
Definition reuse (args : RealArgs) (sources : list (pystr * pystr)) (pin path : pystr) : K (pyval * pystr) :=
  let! reused := on_host (read_json path) in
  do! lift (reusable args sources pin reused);;
  let! directory := lift (let? x := vget "run_directory" reused in vstr x) in
  let! values := lift (try_map (fun k => let? x := vget k reused in Ok (k, J x)) REUSED_KEYS) in
  let! digest := on_host (file_sha256 path) in
  do! amend (on_bench [("reused_sql_run"%string, Obj (fields (values ++ [("source_report_sha256"%string, tstr digest)])))]);;
  do! for_do [false; true] (fun kv =>
    let! rows := lift (reused_group reused kv) in
    do! amend (add_samples rows);;
    if negb (zlen rows =? 3 * re_repeats args) then throw (RuntimeError "Reused run has incomplete SQL samples") else ret tt);;
  ret (reused, join_path directory (py "sqlodin-realworld")).
Definition measured_binary (args : RealArgs) (sources : list (pystr * pystr)) (pin work : pystr) : K (option pyval * pystr) :=
  match re_reuse args with
  | Some path => let! x := reuse args sources pin path in ret (Some x.1, x.2)
  | None =>
      let binary := join_path work (py "sqlodin-realworld") in
      let! _ := on_host (command [py "odin"; py "build"; from_root "bench/realworld"; py "-o:speed"; py "-vet"; py "-strict-style"; py "-out:" ++ binary]) in
      ret (None, binary)
  end.
(** The binaries' digests, the reused ones unchanged. *)
Definition real_binaries (args : RealArgs) (reused : option pyval) (binary : pystr) : K unit :=
  let! digests := on_host (for_each [("sqlodin", binary); ("zaxonlite", ra_zaxon (re_run args)); ("rqlite", ra_rqlited (re_run args)); ("cowsql", from_root "build/comparison-tools/cowsql-demo")]%string
    (fun '(name, path) acc => let! digest := file_sha256 path in ret (acc ++ [(name, digest)])) []) in
  do! amend (on_bench [("binaries_sha256"%string, Obj (fields ((fun x : string * pystr => (x.1, tstr x.2)) <$> digests)))]);;
  match reused with
  | None => ret tt
  | Some reused =>
      for_do (take 3 digests) (fun '(name, digest) =>
        let! recorded := lift (let? binaries := vget "binaries_sha256" reused in vget name binaries) in
        if negb (eq_str recorded digest) then throw (RuntimeError "Reused binary differs") else ret tt)
  end.

(** One system of one repeat; a cluster takes a block of ports of its own. *)
Definition run_system (args : RealArgs) (binary folder : pystr) (seed : Z) (kv : bool) (system : string) (used : list Z) : Y (report * list Z) :=
  if String.eqb system "sqlodin" then let! result := sqlodin_run folder binary (re_run args) seed kv in ret (result, used)
  else
    let! port := unused_base_port used in
    let! result := (if String.eqb system "cowsql" then cowsql_run fuel ROOT folder (re_run args) port.1
                    else network_run (String.eqb system "zaxonlite") folder (re_run args) seed port.1 kv) in
    ret (result, port.2).
Definition step_name (kv : bool) : string := if kv then "sequential" else "realworld".
Definition save_report (folder : bool) (args : RealArgs) : K unit :=
  do! on_host (if folder then io_res (h_mkdir (path_parent (re_output args))) else ret tt);;
  let! b := reported in
  on_host (io_res (h_write_json (re_output args) (real_data b))).
Definition real_step (args : RealArgs) (binary work : pystr) (repeat : nat) (kv : bool) (system : string) (used : list Z) : K (list Z) :=
  do! on_host (print_line (py (step_name kv) ++ fstr [L " repeat="; D (Z.of_nat repeat + 1); L " system="] ++ py system));;
  let folder := join_path work (py (step_name kv) ++ 45 :: dec (Z.of_nat repeat) ++ 45 :: py system) in
  let! out := on_host (run_system args binary folder (20260922 + Z.of_nat repeat * 100) kv system used) in
  do! amend (add_bench (kv, with_repeat repeat out.1));;
  do! save_report (negb kv) args;;
  ret out.2.
Definition first_systems (reused : bool) : list string := if reused then [] else SQL_SYSTEMS.
Definition real_round (args : RealArgs) (reused : bool) (binary work : pystr) (repeat : nat) (used : list Z) : K (list Z) :=
  let! systems := lift (shuffle fuel (first_systems reused) (Random_new (20260922 + Z.of_nat repeat))).1 in
  let! used := for_each systems (real_step args binary work repeat false) used in
  let! systems := lift (shuffle fuel (systems ++ ["cowsql"%string]) (Random_new (20260923 + Z.of_nat repeat))).1 in
  let! used := for_each systems (real_step args binary work repeat true) used in
  do! save_report true args;;
  ret used.
Definition real_end (args : RealArgs) (work : pystr) : K unit :=
  do! amend (on_bench [("complete", tbool true)]%string);;
  let! utc := on_host (io h_utc) in
  do! amend (on_bench [("finished_utc", tstr utc); ("run_directory", tstr work)]%string);;
  let! b := reported in
  do! on_host (io_res (h_write_json (re_output args) (real_data b)));;
  on_host (print_line (re_output args)).
Definition real_measured (args : RealArgs) (sources : list (pystr * pystr)) (pin work : pystr) : K unit :=
  let! built := measured_binary args sources pin work in
  do! real_binaries args built.1 built.2;;
  let! _ := for_each (seq 0 (Z.to_nat (re_repeats args))) (real_round args (bool_decide (is_Some built.1)) built.2 work) [] in
  ret tt.
Definition compare_realworld (args : RealArgs) : Y unit :=
  let! durability := durable args in
  let! report := real_initial args durability in
  let! stamp := io du_stamp in
  let work := real_work stamp in
  do! io_res (h_mkdir work);;
  let! sources := real_sources in
  let! filesystem := command [py "findmnt"; py "-T"; work; py "-o"; py "SOURCE,FSTYPE,OPTIONS"] in
  let pin := match rget "paxos_pin" report with Some (J (PStr pin)) => pin | _ => [] end in
  with_report (mkBench (rupdate [("run_directory", tstr work); ("source_sha256", manifest_report sources); ("filesystem", tstr filesystem)]%string report) [])
    (do! real_measured args sources pin work;; real_end args work).

(** ** check_mixed_workload.py *)

Definition mixed_verified (sample : pyval) : pyres bool :=
  let? verified := vget "verified" sample in
  let? operations := (if truthy verified then vget "operations" sample else Ok PNone) in
  if negb (truthy verified && eq_int operations 60) then Ok false
  else
    let? reads := vget "reads" sample in
    let? writes := (if truthy reads then vget "writes" sample else Ok PNone) in
    Ok (truthy reads && truthy writes).
Definition mixed_sample (work : pystr) : Y (list (pystr * pyval) * pyval) :=
  let workload := join_path work (py "workload.json") in
  let! expected := sqlodin_manifest workload 60 12 20260922 in
  let binary := join_path work (py "probe") in
  let! odin := odin_command in
  let! _ := run_checked [odin; py "build"; from_root "bench/realworld"; py "-o:speed"; py "-vet"; py "-strict-style"; py "-out:" ++ binary] ROOT (Some 600%Q) in
  let! result := io_res (h_run [binary; workload; work] ROOT (Some 120%Q)) in
  do! (if negb (returncode result =? 0) then throw (RuntimeError "Mixed workload failed") else ret tt);;
  let! sample := lift (loads (stdout result)) in
  let! verified := lift (mixed_verified sample) in
  do! (if negb verified then throw (RuntimeError "Mixed workload did not verify") else ret tt);;
  ret (expected, sample).
Definition check_mixed_workload (output : option pystr) : Y unit :=
  let disk := from_root "build/test-tmp" in
  do! io_res (h_mkdir disk);;
  let! out := with_tempdir (py "sqlodin-mixed-") disk mixed_sample in
  let! core := io (h_glob ROOT (py "src/**/*.odin")) in
  let! bench := io (h_glob ROOT (py "bench/realworld/*.odin")) in
  let! utc := io h_utc in
  let! sources := manifest ROOT (core ++ bench ++ [join_path VENDOR (py "realworld_workload.py"); join_path ROOT THIS_FILE; from_root "tools/check_mixed_workload.py"]) in
  do! match output with
      | None => ret tt
      | Some path =>
          do! io_res (h_mkdir (path_parent path));;
          io_res (h_write_json path (Obj (fields [("complete", tbool true); ("run_at_utc", tstr utc);
            ("scope", tstr (py "correctness smoke: 3 on-disk embedded voters; aggregates, triggers, FK and restart; 60 operations after 12 warmup; no capacity or long-running service claim"));
            ("source_sha256", manifest_report sources); ("expected", J (PDict out.1)); ("sample", J out.2)]%string)))
      end;;
  print_line (py "PASS mixed SQL: all three replicas verify order/ledger/stock invariants before and after restart").
End Main.

(** * Ports *)

Lemma block_ports base p : p ∈ block base <-> p = base \/ p = base + 1 \/ p = base + 2 \/ p = base + 100 \/ p = base + 101 \/ p = base + 102.
Proof. unfold block. rewrite !elem_of_cons, elem_of_nil. tauto. Qed.
Lemma candidate_spec base : base ∈ candidate_bases <-> exists k, 0 <= k < 90 /\ base = 12000 + 200 * k.
Proof.
  unfold candidate_bases. rewrite list_elem_of_fmap. setoid_rewrite elem_of_seq. split.
  - intros (k & -> & Hk). exists (Z.of_nat k). lia.
  - intros (k & Hk & ->). exists (Z.to_nat k). lia.
Qed.
(** Two blocks share no port, and all stay below the ephemeral range. *)
Theorem blocks_apart a b p : a ∈ candidate_bases -> b ∈ candidate_bases -> p ∈ block a -> p ∈ block b -> a = b /\ 12000 <= p < 32768.
Proof. rewrite !candidate_spec, !block_ports. intros (i & Hi & ->) (j & Hj & ->) Ha Hb. split; lia. Qed.

Section Ports.
Context {W : Type} `{Vendored W}.
(** The port was bound, so that nothing listened there. *)
Definition was_free (port : Z) : Prop := exists sock (w w' : W), rw_bind sock port w = (Ok tt, w').
Lemma bind_ports_free ports sockets : returns (bind_ports (W := W) ports sockets) (fun free => free = true -> Forall was_free ports).
Proof.
  revert sockets. induction ports as [|port ports IH]; intros sockets; cbn [bind_ports]; [apply returns_then; intros _; by apply returns_ret|].
  apply returns_then. intros [sock|]; [|by apply returns_ret]. cbv zeta.
  eapply (returns_bind (fun bound => bound = Some tt -> was_free port)).
  - apply returns_except.
    + eapply returns_bind; [apply returns_run|]. intros u (w & w' & Hw). apply returns_ret. intros _. exists sock, w, w'. destruct u. exact Hw.
    + intros e k [= <-]. apply returns_then. intros _. destruct (isinstance e COSError); [by apply returns_ret|apply returns_throw].
  - intros [[]|] Hb; [|by apply returns_ret]. eapply returns_mono; [apply IH|]. intros free Hf E. constructor; auto.
Qed.
(** A block is taken once, and every port of it was free. *)
Theorem unused_base_port_fresh used :
  returns (unused_base_port (W := W) used) (fun r => r.1 ∈ candidate_bases /\ r.1 ∉ used /\ r.2 = r.1 :: used /\ Forall was_free (block r.1)).
Proof.
  unfold unused_base_port. generalize candidate_bases. intros bases. induction bases as [|base bases IH]; cbn [first_free]; [apply returns_throw|].
  assert (Hrest : returns (first_free (W := W) bases used) (fun r => r.1 ∈ base :: bases /\ r.1 ∉ used /\ r.2 = r.1 :: used /\ Forall was_free (block r.1))).
  { eapply returns_mono; [apply IH|]. intros r (H1 & H2). split; [by right|done]. }
  case_bool_decide as Hu; [exact Hrest|]. eapply returns_bind; [apply bind_ports_free|]. intros [] Hf; [|exact Hrest].
  apply returns_ret. split; [by left|]. do 2 (split; [done|]). by apply Hf.
Qed.
End Ports.

(** * Seed data *)

Lemma batches_step {A} n (rows : list A) : concat ((fun k => take 32 (drop (32 * k) rows)) <$> seq 0 n) = take (32 * n) rows.
Proof.
  induction n as [|n IH]; [done|]. rewrite seq_S, fmap_app, concat_app, IH. cbn [fmap list_fmap concat]. rewrite app_nil_r, Nat.add_0_l.
  replace (32 * S n)%nat with (32 * n + 32)%nat by lia. symmetry. rewrite <-(take_drop (32 * n) (take (32 * n + 32) rows)) at 1.
  rewrite take_take, Nat.min_l by lia. f_equal. by rewrite <-firstn_skipn_comm.
Qed.
(** The statements hold the rows, each once and in order, at most 32 in one. *)
Theorem batches_whole {A} (rows : list A) : concat (batches rows) = rows /\ Forall (fun b => (length b <= 32)%nat) (batches rows).
Proof.
  unfold batches. split.
  - rewrite batches_step. apply take_ge. pose proof (Nat.div_mod (length rows + 31) 32 ltac:(lia)) as Hd. pose proof (Nat.mod_upper_bound (length rows + 31) 32 ltac:(lia)). lia.
  - apply Forall_fmap, Forall_forall. intros k _. cbn. rewrite length_take. lia.
Qed.
(** The seed's own statements are 48, and none is too long for the probe. *)
Theorem seed_data_fits : length sqlodin_seed_data = 48%nat /\ Forall (fun s => zlen s <= 4096) sqlodin_seed_data.
Proof.
  split; [by vm_compute|]. assert (Hb : forallb (fun s => zlen s <=? 4096) sqlodin_seed_data = true) by (vm_compute; reflexivity).
  apply Forall_forall. intros s Hs. rewrite forallb_forall in Hb. apply Z.leb_le, Hb. by apply list_elem_of_In.
Qed.

(** * The monitor *)

Section Sampled.
Context (ticks pages : Z).
(** What a text of [/proc/<pid>/stat] gives. *)
Definition reads (x : Z * option pystr) (seconds : Q) (resident : Z) : Prop :=
  exists text, x.2 = Some text /\ cpu_of ticks text = Ok seconds /\ field_of text 21 = Ok resident.
(** A process is gone, or its counters can be read. *)
Inductive sensed : Z * option pystr -> option (Q * Z) -> Prop :=
| sensed_gone pid : sensed (pid, None) None
| sensed_read pid text seconds resident : cpu_of ticks text = Ok seconds -> field_of text 21 = Ok resident -> sensed (pid, Some text) (Some (seconds, resident)).
Definition memory (l : list (option (Q * Z))) : Z := foldr (fun x acc => match x with Some (_, r) => r * pages + acc | None => acc end) 0 l.
(** The last counter read of a process, or what was known of it. *)
Fixpoint latest (pid : Z) (seen : list (Z * option (Q * Z))) (known : option Q) : option Q :=
  match seen with
  | [] => known
  | (p, Some (q, _)) :: seen => latest pid seen (if decide (pid = p) then Some q else known)
  | (_, None) :: seen => latest pid seen known
  end.
Lemma latest_app pid a b known : latest pid (a ++ b) known = latest pid b (latest pid a known).
Proof. revert known. induction a as [|[p [[q r]|]] a IH]; intros known; cbn [app latest]; [done|apply IH..]. Qed.

Lemma pass_exact seen found cpu rss : Forall2 sensed seen found ->
  exists cpu', pass ticks pages seen cpu rss = (cpu', Some (rss + memory found)) /\ forall pid, dget pid cpu' = latest pid (zip seen.*1 found) (dget pid cpu).
Proof.
  intros Hf. revert cpu rss. induction Hf as [|x y seen found Hx Hf IH]; intros cpu rss; cbn [pass memory foldr].
  { exists cpu. split; [by rewrite Z.add_0_r|done]. }
  destruct Hx as [pid|pid text seconds resident Hc Hr].
  - destruct (IH cpu rss) as (cpu' & -> & Hl). exists cpu'. by split.
  - rewrite Hc, Hr. destruct (IH (dset pid seconds cpu) (rss + resident * pages)) as (cpu' & -> & Hl). exists cpu'.
    split; [by rewrite Z.add_assoc|]. intros p. rewrite Hl, dget_dset. cbn [fmap list_fmap fst zip zip_with latest]. by f_equal.
Qed.
(** The peak is the greatest memory any pass added up, and each process's
    counter the last one read of it, over restarts and processes long gone. *)
Theorem monitor_exact all found m : Forall2 (Forall2 sensed) all found ->
  mn_peak (passes ticks pages all m) = foldl Z.max (mn_peak m) (memory <$> found) /\
  forall pid, dget pid (mn_cpu (passes ticks pages all m)) = latest pid (concat (zip_with (fun seen l => zip seen.*1 l) all found)) (dget pid (mn_cpu m)).
Proof.
  intros Hf. revert m. induction Hf as [|seen l all found Hs Hf IH]; intros m; cbn [passes fmap list_fmap foldl zip_with concat]; [done|].
  destruct (pass_exact seen l (mn_cpu m) 0 Hs) as (cpu & -> & Hl). destruct (IH (mkMonitor cpu (Z.max (mn_peak m) (0 + memory l)))) as [-> Hc]. cbn [mn_peak mn_cpu] in *.
  split; [done|]. intros pid. by rewrite Hc, latest_app, Hl.
Qed.
End Sampled.

(** * cowsql *)

Section Cowsql.
Context {W : Type} `{Vendored W} `{Platform} (fuel : nat) (ROOT : pystr).
(** A request that was answered so. *)
Definition said (connection : Z) (method : string) (key : pystr) (value : option (list Z)) (body : list Z) : Prop :=
  exists w w' : W, rw_request connection (py method) (47 :: key) value w = (Ok (200, body), w').
Definition stored (connection i : Z) : Prop := said connection "GET" (measured_key i) None (payload ++ [10]).
Definition accepted (connection i : Z) : Prop := said connection "PUT" (measured_key i) (Some payload) done_line.

Lemma request_said connection method key value :
  returns (cowsql_request (W := W) connection method key value) (fun body => said connection method key value body /\ (method = "PUT"%string -> body = done_line)).
Proof.
  unfold cowsql_request. eapply returns_bind; [apply returns_run|]. intros [status body] (w & w' & Hw). unfold answered. cbn [fst snd].
  destruct (status =? 200) eqn:E; cbn [andb negb]; [|apply returns_throw]. apply Z.eqb_eq in E as ->.
  destruct (negb (pyeqb (py method) (py "PUT")) || pyeqb body done_line) eqn:Eb; cbn [negb]; [|apply returns_throw].
  apply returns_ret. split; [by exists w, w'|]. intros ->. cbn in Eb. by apply pyeqb_eq.
Qed.
Lemma numbered_elem n i : i ∈ numbered n <-> 0 <= i < n.
Proof.
  unfold numbered. rewrite list_elem_of_fmap. setoid_rewrite elem_of_seq. split; [intros (k & -> & Hk); lia|]. intros Hi. exists (Z.to_nat i). lia.
Qed.
Lemma read_back_stored connection message n : returns (read_back (W := W) connection message n) (fun _ => forall i, 0 <= i < n -> stored connection i).
Proof.
  unfold read_back. eapply returns_mono; [apply (returns_for_do (stored connection))|].
  - intros i _. eapply returns_bind; [apply request_said|]. intros body [Hs _]. destruct (pyeqb body (payload ++ [10])) eqn:E; cbn [negb]; [|apply returns_throw].
    apply returns_ret. apply pyeqb_eq in E as ->. exact Hs.
  - cbv beta. intros u HF i Hi. rewrite Forall_forall in HF. by apply HF, numbered_elem.
Qed.
(** Timing ends with as many latencies as operations, every write accepted, and
    every one read back before the figures are given out. *)
Theorem cowsql_workload_checked port args :
  returns (cowsql_workload (W := W) port args) (fun r => exists connection latencies elapsed,
    zlen latencies = Z.max 0 (ra_operations args) /\ rw_summary (py "cowsql") latencies elapsed (ra_operations args) 256 = Ok r /\
    forall i, 0 <= i < ra_operations args -> accepted connection i /\ stored connection i).
Proof.
  unfold cowsql_workload. apply returns_then. intros connection. apply returns_finally. apply returns_then. intros _. apply returns_then. intros started.
  eapply (returns_bind (fun latencies => length latencies = length (numbered (ra_operations args)) /\ Forall (accepted connection) (numbered (ra_operations args)))).
  { apply (returns_for_each (fun pre (acc : list Q) => length acc = length pre /\ Forall (accepted connection) pre)); [by split|..].
    - intros pre i acc [Hl Hp]. unfold timed_put. apply returns_then. intros before. eapply returns_bind; [apply request_said|]. intros body [Hs Hd]. rewrite (Hd eq_refl) in Hs.
      apply returns_then. intros after. apply returns_ret. rewrite !length_app, Hl. split; [done|]. apply Forall_app. by repeat constructor.
    - done. }
  intros latencies [Hl Ha]. apply returns_then. intros now. eapply returns_bind; [apply read_back_stored|]. intros u Hs. apply returns_lift. intros r Hr.
  exists connection, latencies, (now - started)%Q. split; [unfold zlen, numbered in *; rewrite Hl, length_fmap, length_seq; lia|]. split; [done|].
  intros i Hi. split; [|by apply Hs]. rewrite Forall_forall in Ha. by apply Ha, numbered_elem.
Qed.

(** Every key was read back from each of the three processes. *)
Definition restart_held (operations : Z) : Prop := forall i, i ∈ [0; 1; 2] -> exists connection, forall k, 0 <= k < operations -> stored connection k.
Lemma verify_restart_held port n : returns (verify_restart (W := W) port n) (fun _ => restart_held n).
Proof.
  unfold verify_restart. eapply returns_mono; [apply (returns_for_do (fun _ => exists connection, forall k, 0 <= k < n -> stored connection k))|].
  - intros i _. apply returns_then. intros connection. apply returns_finally. eapply returns_mono; [apply read_back_stored|]. intros u Hs. by exists connection.
  - cbv beta. intros u HF i Hi. rewrite Forall_forall in HF. by apply (HF i).
Qed.
(** A report calls its restart verified only if every key was read back from all
    three restarted processes, and otherwise says what went wrong. *)
Definition honest_restart (n : Z) (r : report) : Prop :=
  (rget "restart_verified" r = Some (tbool true) /\ restart_held n) \/ (rget "restart_verified" r = Some (tbool false) /\ exists e, rget "restart_error" r = Some (tstr e)).
Lemma honest_update n kvs r : forallb (fun '(k, _) => negb (pyeqb (py k) (py "restart_verified")) && negb (pyeqb (py k) (py "restart_error"))) kvs = true ->
  honest_restart n r -> honest_restart n (rupdate kvs r).
Proof.
  intros Hk. unfold honest_restart. rewrite !rget_rupdate_other; [done|..]; apply forallb_forall; intros [k v] Hin; apply (proj1 (forallb_forall _ _) Hk), andb_prop in Hin as [H1 H2]; done.
Qed.
Theorem cowsql_run_honest folder args port : returns (cowsql_run (W := W) fuel ROOT folder args port) (honest_restart (ra_operations args)).
Proof.
  unfold cowsql_run. apply returns_then. intros _. apply returns_then. intros processes.
  eapply (returns_bind (fun out => honest_restart (ra_operations args) out.1)); [|intros out Ho; apply returns_then; intros disk; apply returns_ret; by apply honest_update].
  unfold monitored. apply returns_then. intros started. eapply (returns_bind (honest_restart (ra_operations args))); [|intros x Hx; apply returns_then; intros resources; by apply returns_ret].
  apply returns_except; [|intros e k [= <-]; apply returns_then; intros _; apply returns_throw].
  apply returns_finally. apply returns_then. intros _. apply returns_then. intros stores. apply returns_then. intros result. apply returns_then. intros membership. cbv zeta.
  apply returns_then. intros _. unfold cowsql_restart. apply returns_except.
  - do 3 (apply returns_then; intros _). eapply returns_bind; [apply verify_restart_held|]. intros u Hr. apply returns_ret. left. split; [apply rget_rset|done].
  - intros e k. destruct (_ || _); [|done]. intros [= <-]. unfold restart_failed. apply returns_then. intros logs. apply returns_then. intros texts. apply returns_ret. right. split.
    + rewrite rget_rupdate_other by done. unfold rget, rupdate. cbn [foldl]. do 4 (rewrite dget_dset, decide_False by done). by rewrite dget_dset, decide_True.
    + exists (str_exn e). unfold rget, rupdate at 1. cbn [foldl]. rewrite dget_dset, decide_False by done. by rewrite dget_dset, decide_True.
Qed.
End Cowsql.

(** * A complete report *)

Lemma returns_both {E S A} (m : M E S A) (P Q : A -> Prop) : returns m P -> returns m Q -> returns m (fun a => P a /\ Q a).
Proof. intros HP HQ s. specialize (HP s). specialize (HQ s). unfold wp in *. destruct (m s) as [r s0]. intros a Ha. split; [by apply HP|by apply HQ]. Qed.
Lemma adds_map {W A X Y B} (f : X -> Y) (sampled : Y -> A -> Prop) (m : Sc (W := W) (Bench A) B) P :
  adds (fun x => sampled (f x)) m P -> adds sampled m (fun y p => exists q, P y q /\ p = f <$> q).
Proof.
  intros Hm s Hs. eapply wp_mono; [by apply Hm|]. intros [y|e|] s' [H1 H2]; [|done..]. split; [done|]. destruct H2 as (q & Hq & new & Hn & Hf).
  exists (f <$> q). split; [by exists q|]. exists new. split; [done|]. by apply Forall2_fmap_l.
Qed.
(** A loop that threads a local: every round adds its own sample. *)
Lemma adds_threaded {W A X C B} (sampled : X -> A -> Prop) (f : C -> X) (step : C -> B -> Sc (W := W) (Bench A) B) (keep : B -> Prop) cases acc :
  keep acc -> (forall c acc, keep acc -> adds sampled (step c acc) (fun acc' p => keep acc' /\ p = [f c])) ->
  adds sampled (for_each cases step acc) (fun acc' p => keep acc' /\ p = f <$> cases).
Proof.
  intros Hk Hs. revert acc Hk. induction cases as [|c cases IH]; intros acc Hk; cbn [for_each]; [by apply adds_ret|].
  eapply adds_bind; [by apply Hs|]. intros acc' p [Hk' ->]. eapply adds_mono; [by apply IH|]. intros acc2 q [Hk2 ->]. done.
Qed.

(** Where a sample comes from: a run of a system in a repeat, or a reused report. *)
Inductive origin := Fresh (x : nat * (bool * string)) | Reused (row : Measured).

Section RealComplete.
Context {W : Type} `{Vendored W} `{Platform} (fuel : nat) (ROOT : pystr) (args : RealArgs) (sources : list (pystr * pystr)) (pin work : pystr).
Definition real_seed (repeat : nat) : Z := 20260922 + Z.of_nat repeat * 100.
(** A fresh sample is what its system's run returned, with the repeat's seed, and
    with ports no other system of the comparison was given. *)
Definition fresh_sample (x : nat * (bool * string)) (a : Measured) : Prop :=
  a.1 = x.2.1 /\ exists binary folder used used' result, NoDup used' /\ a.2 = with_repeat x.1 result /\
    exists w w' : W, run_system fuel ROOT args binary folder (real_seed x.1) x.2.1 x.2.2 used w = (Ok (result, used'), w').
Definition real_sampled (o : origin) (a : Measured) : Prop :=
  match o with Fresh x => fresh_sample x a | Reused row => a = row end.

Lemma run_system_ports binary folder seed kv system used : NoDup used ->
  returns (run_system (W := W) fuel ROOT args binary folder seed kv system used) (fun r => NoDup r.2).
Proof.
  intros Hn. unfold run_system. destruct (String.eqb system "sqlodin"); [apply returns_then; intros result; by apply returns_ret|].
  eapply returns_bind; [apply unused_base_port_fresh|]. intros [base used'] (_ & Hu & Hused & _). cbn [fst snd] in *. subst used'.
  apply returns_then. intros result. apply returns_ret. by constructor.
Qed.
Lemma save_adds {X} (sampled : X -> Measured -> Prop) folder : adds sampled (save_report (W := W) folder args) (fun _ p => p = []).
Proof. unfold save_report. apply adds_then. intros _. apply adds_reported. intros b. apply adds_last. Qed.
Lemma step_adds binary repeat kv system used : NoDup used ->
  adds fresh_sample (real_step fuel ROOT args binary work repeat kv system used) (fun used' p => NoDup used' /\ p = [(repeat, (kv, system))]).
Proof.
  intros Hn. unfold real_step. apply adds_then. intros _. cbv zeta. fold (real_seed repeat). set (go := run_system _ _ _ _ _ _ _ _ _).
  eapply (adds_bind _ _ _ (fun out p => (NoDup out.2 /\ exists w w', go w = (Ok out, w')) /\ p = [])).
  { apply adds_host, returns_both; [by apply run_system_ports|apply returns_run]. }
  intros [result used'] p [[Hu (w & w' & Hw)] ->]. cbn [fst snd] in *.
  eapply adds_bind; [apply (adds_sample fresh_sample (repeat, (kv, system)))|].
  { split; [done|]. do 2 eexists. exists used, used', result. split; [done|]. split; [done|]. exists w, w'. exact Hw. }
  intros u p ->. eapply adds_bind; [apply save_adds|]. intros u2 p ->. by apply adds_ret.
Qed.
Definition round_cases (reused : bool) : list (bool * string) := (pair false <$> first_systems reused) ++ (pair true <$> (first_systems reused ++ ["cowsql"%string])).
Lemma real_round_adds reused binary repeat used : NoDup used ->
  adds fresh_sample (real_round fuel ROOT args reused binary work repeat used) (fun used' p => NoDup used' /\ p ≡ₚ (fun c => (repeat, c)) <$> round_cases reused).
Proof.
  intros Hn. unfold real_round. eapply adds_bind.
  { apply (adds_lift _ _ (fun systems => systems ≡ₚ first_systems reused)). intros systems Hs. by apply shuffle_permutes in Hs as [? _]; [|apply Random_new_wf]. }
  intros systems p [Hp ->]. eapply adds_bind; [apply (adds_threaded _ (fun c => (repeat, (false, c))) _ (fun u => NoDup u)); [done|intros; by apply step_adds]|].
  intros used1 p [Hn1 ->]. eapply adds_bind.
  { apply (adds_lift _ _ (fun l => l ≡ₚ systems ++ ["cowsql"%string])). intros l Hs. by apply shuffle_permutes in Hs as [? _]; [|apply Random_new_wf]. }
  intros systems2 p [Hp2 ->]. eapply adds_bind; [apply (adds_threaded _ (fun c => (repeat, (true, c))) _ (fun u => NoDup u)); [done|intros; by apply step_adds]|].
  intros used2 p [Hn2 ->]. eapply adds_bind; [apply save_adds|]. intros u p ->. apply adds_ret. split; [done|].
  unfold round_cases. rewrite !app_nil_r, fmap_app, <-!list_fmap_compose. cbn [app]. rewrite app_nil_l || idtac. by rewrite Hp, Hp2, Hp.
Qed.

(** The rows a complete report of the same sources, settings and submodule had. *)
Definition rows_of (path : pystr) (rows : list Measured) : Prop :=
  exists reused sql writes, reusable args sources pin reused = Ok tt /\ reused_group reused false = Ok sql /\ reused_group reused true = Ok writes /\
    zlen sql = 3 * re_repeats args /\ zlen writes = 3 * re_repeats args /\ rows = sql ++ writes.
Definition real_plan (plan : list origin) : Prop :=
  match re_reuse args with
  | None => plan ≡ₚ Fresh <$> plan_of (round_cases false) 0 (Z.to_nat (re_repeats args))
  | Some path => exists rows, rows_of path rows /\ plan ≡ₚ (Reused <$> rows) ++ (Fresh <$> plan_of (round_cases true) 0 (Z.to_nat (re_repeats args)))
  end.

Lemma rows_adds rows : adds real_sampled (amend (W := W) (add_samples rows)) (fun _ p => p = Reused <$> rows).
Proof.
  intros s Hs. apply wp_amend. split; [exact Hs|]. exists (Reused <$> rows). split; [done|]. exists rows. split; [done|].
  apply Forall2_fmap_l. by induction rows; constructor.
Qed.
Lemma group_adds reused kv : adds real_sampled
  (let! rows := lift (reused_group reused kv) in do! amend (W := W) (add_samples rows);; if negb (zlen rows =? 3 * re_repeats args) then throw (RuntimeError "Reused run has incomplete SQL samples") else ret tt)
  (fun _ p => exists rows, reused_group reused kv = Ok rows /\ zlen rows = 3 * re_repeats args /\ p = Reused <$> rows).
Proof.
  eapply adds_bind; [by apply (adds_lift _ _ (fun rows => reused_group reused kv = Ok rows))|]. intros rows p [Hr ->].
  eapply adds_bind; [apply rows_adds|]. intros u p ->. destruct (zlen rows =? _) eqn:E; cbn [negb]; [|apply adds_throw].
  apply adds_ret. exists rows. rewrite app_nil_r. split; [done|]. split; [by apply Z.eqb_eq|done].
Qed.
Lemma on_bench_adds {X} (sampled : X -> Measured -> Prop) kvs : forallb (fun '(k, _) => negb (pyeqb (py k) (py "complete"))) kvs = true ->
  adds sampled (amend (W := W) (on_bench kvs)) (fun _ p => p = []).
Proof. intros Hk. apply adds_amend. intros b Hb. split; [|done]. unfold unfinished. cbn [on_bench be_report]. by rewrite rget_rupdate_other. Qed.
Lemma reuse_adds path : adds real_sampled (reuse (W := W) args sources pin path) (fun _ p => exists rows, rows_of path rows /\ p = Reused <$> rows).
Proof.
  unfold reuse. apply adds_then. intros reused. eapply adds_bind; [by apply (adds_lift _ _ (fun _ => reusable args sources pin reused = Ok tt)); intros []|].
  intros u p [Hr ->]. do 2 (eapply adds_bind; [apply (adds_lift _ _ (fun _ => True)); done|]; intros ? ? [_ ->]). apply adds_then. intros digest.
  eapply adds_bind; [by apply on_bench_adds|]. intros u2 p ->. cbn [for_do].
  eapply (adds_bind _ _ _ (fun _ p => exists sql writes, reused_group reused false = Ok sql /\ zlen sql = 3 * re_repeats args /\
    reused_group reused true = Ok writes /\ zlen writes = 3 * re_repeats args /\ p = (Reused <$> sql) ++ (Reused <$> writes))).
  - eapply adds_bind; [apply group_adds|]. intros u3 p (sql & Hs & Hls & ->). eapply adds_bind; [apply group_adds|]. intros u4 p (writes & Hw & Hlw & ->).
    apply adds_ret. exists sql, writes. by rewrite app_nil_r.
  - intros u5 p (sql & writes & Hs & Hls & Hw & Hlw & ->). apply adds_ret. exists (sql ++ writes). split; [by exists reused, sql, writes|]. cbn [app]. by rewrite !app_nil_r, fmap_app.
Qed.
Lemma binary_adds : adds real_sampled (measured_binary (W := W) ROOT args sources pin work) (fun built p =>
  match re_reuse args with
  | None => p = [] /\ built.1 = None
  | Some path => (exists rows, rows_of path rows /\ p = Reused <$> rows) /\ is_Some built.1
  end).
Proof.
  unfold measured_binary. destruct (re_reuse args) as [path|].
  - eapply adds_bind; [apply reuse_adds|]. intros x p Hp. apply adds_ret. rewrite app_nil_r. by split; [|eexists].
  - cbv zeta. apply adds_then. intros _. by apply adds_ret.
Qed.
Lemma binaries_adds reused binary : adds real_sampled (real_binaries (W := W) ROOT args reused binary) (fun _ p => p = []).
Proof.
  unfold real_binaries. apply adds_then. intros digests. eapply adds_bind; [by apply on_bench_adds|]. intros u p ->. destruct reused as [reused|]; [|by apply adds_ret].
  cbn [app]. induction (take 3 digests) as [|[name digest] l IH]; cbn [for_do]; [by apply adds_ret|].
  eapply (adds_bind _ _ _ (fun _ p => p = [])); [|by intros u2 p ->].
  eapply adds_bind; [apply (adds_lift _ _ (fun _ => True)); done|]. intros recorded p [_ ->]. destruct (negb _); [apply adds_throw|by apply adds_ret].
Qed.
Lemma real_measured_adds : adds real_sampled (real_measured fuel ROOT args sources pin work) (fun _ => real_plan).
Proof.
  unfold real_measured, real_plan. eapply adds_bind; [apply binary_adds|]. intros built p Hb. eapply adds_bind; [apply binaries_adds|]. intros u q ->. cbn beta in Hb. cbn [app].
  eapply adds_bind; [apply (adds_map Fresh); apply (adds_rounds _ (round_cases (bool_decide (is_Some built.1))) (fun used => NoDup used)); [apply NoDup_nil_2|intros; by apply real_round_adds]|].
  intros used q (plan & Hp & ->). apply adds_ret. rewrite app_nil_r. destruct (re_reuse args) as [path|].
  - destruct Hb as [(rows & Hr & ->) Hs]. rewrite bool_decide_true in Hp by done. exists rows. split; [done|]. by rewrite Hp.
  - destruct Hb as [-> Hb]. rewrite Hb in Hp. cbn [app]. by rewrite Hp.
Qed.

(** The report of an end is complete, and was written. *)
Definition real_published (b : Bench Measured) : Prop :=
  rget "complete" (be_report b) = Some (tbool true) /\ exists w w' : W, h_write_json (re_output args) (real_data b) w = (Ok tt, w').
Lemma real_ends : ends (real_end args work) real_published.
Proof.
  intros s. unfold real_end. apply wp_bind, wp_amend. apply wp_bind, wp_host_step. intros [utc|e|] w1; [|done..]. apply wp_bind, wp_amend.
  apply wp_bind, wp_gets. cbn [fst snd]. apply wp_bind, wp_on_host, wp_io_res. intros r w3 Hw. destruct r as [[]|e|]; [|done..].
  apply wp_host_step. intros r w4 _. cbn [fst]. split; [done|]. split; [|by eexists _, _]. cbn [on_bench be_report]. rewrite rget_rupdate_other by done. apply rget_rset.
Qed.
End RealComplete.

(** compare_realworld.py ends only with a complete report, written, that holds
    for every repeat one sample of each system in either workload, in some order:
    the SQL systems' and cowsql's fresh, or, reusing a report, its 3 rows per
    repeat, complete and of the same sources, settings and submodule, and fresh
    ones of cowsql alone. *)
Theorem realworld_complete {W : Type} `{Vendored W} `{Platform} fuel ROOT args :
  returns (compare_realworld (W := W) fuel ROOT args) (fun _ => exists sources pin b,
    real_published (W := W) args b /\ complete_with (real_sampled (W := W) fuel ROOT args) (real_plan args sources pin) b).
Proof.
  unfold compare_realworld. apply returns_then. intros durability. eapply (returns_bind (fun report => rget "complete" report = Some (tbool false))).
  { unfold real_initial. do 8 (apply returns_then; intros ?). by apply returns_ret. }
  intros report Hr. apply returns_then. intros stamp. cbv zeta. apply returns_then. intros _. apply returns_then. intros sources. apply returns_then. intros filesystem.
  set (pin := match rget "paxos_pin" report with Some _ => _ | None => _ end). eapply returns_mono.
  { apply (measured_complete (real_sampled fuel ROOT args)); [apply (real_measured_adds fuel ROOT args sources pin (real_work ROOT stamp))|apply real_ends|]. by rewrite rget_rupdate_other, Hr. }
  intros u (b & Hb & Hc). by exists sources, pin, b.
Qed.

(** check_mixed_workload.py passes only with a sample that verified its own 60
    operations, reads and writes among them. *)
Theorem mixed_sample_verified {W : Type} `{Vendored W} ROOT work : returns (mixed_sample (W := W) ROOT work) (fun out => mixed_verified out.2 = Ok true).
Proof.
  unfold mixed_sample. cbv zeta. do 4 (apply returns_then; intros ?). apply returns_then. intros _. apply returns_then. intros sample. apply returns_stop. intros Hv. by apply returns_ret.
Qed.
