(* ===== verification/NativeWorkloads.v ===== *)
(** * The same workloads on the native service
    (tools/compare_native_workloads.py)

    Three native processes take the place of a cluster of the vendored
    comparison, whose fault schedule drives them through [NativeOps]; its clients
    count the exchanges a write or a read took.  The comparison keeps what
    failed: every planned sample is measured, or recorded as a failure, or was
    one of the two in the run that is resumed. *)

From Stdlib Require Import QArith.
From S2P Require Import Prelude PyStr PyFloat Objects Json Vector Text Parameters Results Net Client ClientProofs Dict Host Stats Random Script Service ServiceChecks Returns Resource Capacity Lab Observations Benchmark Durability Realworld.
#[local] Open Scope Z_scope.

(** ** class Client *)

(** [self.db._transport.exchange = counted]: an environment next to a counter. *)
Definition counted {W} `{Env W} (e : Endpoint) (request : dict) (timeout : Q) (s : Z * W) : pyres dict * (Z * W) :=
  let '(r, w) := exchange e request timeout s.2 in (r, (s.1 + 1, w)).
#[local] Instance counted_env {W} `{Env W} : Env (Z * W) | 10 := {
  monotonic := beside monotonic; sleep d := beside_do (sleep d); token_hex16 := beside token_hex16; exchange := counted; tclose := beside_do tclose
}.
Record Client := mkClient { cl_db : Conn; cl_attempts : Z }.

Section Client.
Context {W : Type} `{Env W}.
Definition attempts : C (Z * W) Z := gets (fun s => s.2.1).
(** The exchanges an operation took. *)
Definition counting {A} (op : C (Z * W) A) : C (Z * W) Z :=
  let! before := attempts in
  do! op;;
  let! now := attempts in
  ret (now - before).
Definition Client_execute (statement : pystr) : C (Z * W) Z := counting (execute (PStr statement) (PList [])).
Definition Client_query (statement : pystr) : C (Z * W) Z := counting (query (PStr statement) (PList []) (py "linearizable")).
Definition Client_close : C (Z * W) unit := Client.close.
(** A method of a client, on the world of the others. *)
Definition on_client {A} (op : C (Z * W) A) (c : Client) (w : W) : pyres A * (Client * W) :=
  let '(r, (db, (n, w))) := op (cl_db c, (cl_attempts c, w)) in (r, (mkClient db n, w)).
End Client.

(** ** What the vendored schedule calls *)

Record NativeOps (W E : Type) := mkNativeOps {
  no_system : pystr;
  no_children : Z;
  no_endpoints : list (pystr * Z);
  no_start : Z -> bool -> W -> pyres unit * W;
  no_start_initial : W -> pyres unit * W;
  no_restart : Z -> W -> pyres unit * W;
  no_wait_leader : W -> pyres Z * W;
  no_setup : W -> pyres unit * W;
  no_client_factory : Z -> W -> pyres Client * W;
  no_execute : pystr -> Client -> W -> pyres Z * (Client * W);
  no_query : pystr -> Client -> W -> pyres Z * (Client * W);
  no_close : Client -> W -> pyres unit * (Client * W);
  no_linearizable_values : W -> pyres (list pyval) * W;
  no_wait_local_state : E -> option (list Z) -> W -> pyres (list (pystr * list pyval)) * W;
  no_integrity : W -> pyres (list (pystr * pystr)) * W
}.
Arguments mkNativeOps {W E} _ _ _ _ _ _ _ _ _ _ _ _ _ _ _.

Class NativeHost (W : Type) := {
  nv_lab :: Lab W;
  nv_vendored :: Vendored W;
  (** the reference's [run_system] on a cluster given by its methods, and the
      processes still running of a set *)
  nv_run_system : NativeOps W Expected -> Z -> Z -> Z -> Z -> W -> pyres report * W;
  nv_running : Z -> W -> list Z;
  expected_values : Expected -> list Z;
  latency_summary : list Q -> pyres tv;
  (** the reference's clients: [client_factory], [execute], [call] in either
      system, what it reads from the response, and [close]; [cluster.restart] *)
  nv_client : Z -> Z -> W -> pyres Z * W;
  nv_execute : Z -> pystr -> W -> pyres Z * W;
  nv_call_zaxon : Z -> pyval -> W -> pyres pyval * W;
  nv_call_rqlite : Z -> pystr -> pystr -> W -> pyres pyval * W;
  values_from_zaxon : pyval -> pyres (list pyval);
  values_from_rqlite : pyval -> pyres (list pyval);
  nv_client_close : Z -> W -> pyres unit * W;
  nv_restart : Z -> Z -> W -> pyres unit * W;
  (** [{n.name: ast.dump(n)}] of a text's functions and classes *)
  nv_definitions : pystr -> pyres (list (pystr * pystr));
  nv_traceback : exn -> W -> pystr
}.

(** ** class NativeCluster *)

Record NativeCluster := mkNativeCluster { nc_run_dir : pystr; nc_binary : pystr; nc_children : Z; nc_members : list Member; nc_endpoints : list (pystr * Z) }.
Definition NAMESPACE : pystr := py "network-qualification".
Definition native_member (port i : Z) : Member := mkMember (i + 1) (local (port + i)) (fstr [L "node"; D (i + 1); L ".sqlodin.test"]).
Definition nodes : list Z := [0; 1; 2].
Definition native_config (folder : pystr) (members : list Member) (i : Z) (m : Member) : pyval :=
  PDict (mkdict [("cluster", PStr NAMESPACE); ("node", PInt (i + 1)); ("listen", PStr (m_address m)); ("members", PList (member_value <$> members)); ("clients", PList [PStr (py "node-2.test.sqlodin")]);
    ("data", PStr (join_path folder (fstr [L "data-"; D i]))); ("certificate", PStr (join_path folder (fstr [L "node"; D (i + 1); L ".pem"])));
    ("key", PStr (join_path folder (fstr [L "node"; D (i + 1); L ".key"]))); ("ca", PStr (join_path folder (py "ca.pem")))]%string).
(** [self.members[index:] + self.members[:index]] *)
Definition rotated {A} (index : Z) (l : list A) : list A := drop (Z.to_nat index) l ++ take (Z.to_nat index) l.

Section Cluster.
Context {W : Type} `{NativeHost W} (fuel : nat) (c : NativeCluster).
Abbreviation Y := (Hm (W := W)).

Definition NativeCluster_new (folder binary : pystr) (port : Z) : Y NativeCluster :=
  let! children := io (rw_process_set folder (py "sqlodin")) in
  do! generate (py "openssl") folder;;
  let members := native_member port <$> nodes in
  do! for_do (zip nodes members) (fun '(i, m) =>
    do! io_res (h_mkdir (join_path folder (fstr [L "data-"; D i])));;
    let! text := lift (dumps spaced (native_config folder members i m)) in
    io_res (h_write_text (join_path folder (fstr [L "node"; D (i + 1); L ".json"])) text));;
  ret (mkNativeCluster folder binary children members ((fun i => (py "127.0.0.1", port + i)) <$> nodes)).

Definition native_connect (index : Z) (single : bool) : Y Conn :=
  let! members := (if single then let! m := lift (list_index (nc_members c) index) in ret [m] else ret (rotated index (nc_members c))) in
  io_res (Connection_new ((fun m => mkEndpoint (m_address m) (m_identity m)) <$> members) NAMESPACE 30 None).
(** [with self.connect(index, single=...) as db: body] *)
Definition connected {A} (index : Z) (single : bool) (body : C W A) : Y A :=
  let! conn := native_connect index single in
  fun w => let '(r, (_, w')) := try_finally body Client.close (conn, w) in (r, w').

Definition native_argv (index : Z) (initial : bool) : list pystr :=
  [nc_binary c; py "serve"; join_path (nc_run_dir c) (fstr [L "node"; D (index + 1); L ".json"])] ++ (if initial then [py "--create"] else []).
Definition native_start (index : Z) (initial : bool) : Y unit := io_res (rw_spawn (nc_children c) index (native_argv index initial)).
Definition wait_endpoint (endpoint : pystr * Z) : Y unit := io_res (rw_wait_port endpoint.1 endpoint.2).
Definition native_start_initial : Y unit :=
  do! for_do nodes (fun i => native_start i true);;
  for_do (nc_endpoints c) wait_endpoint.
Definition native_restart (index : Z) : Y unit :=
  do! native_start index false;;
  let! endpoint := lift (list_index (nc_endpoints c) index) in
  wait_endpoint endpoint.
Definition native_wait_leader : Y Z := let! running := gets (nv_running (nc_children c)) in lift (list_index running 0).
Definition client_factory (worker_id : Z) : Y Client := let! db := native_connect (worker_id mod 3) false in ret (mkClient db 0).
Definition native_setup : Y unit :=
  connected 0 false (for_do (SCHEMA ++ sqlodin_seed_data) (fun statement =>
    let! _ := execute (PStr (join (py " ") (words statement))) (PList []) in ret tt)).
Definition invariant_values (consistency : string) : C W (list pyval) :=
  let! rows := query (PStr INVARIANT_SQL) (PList []) (py consistency) in
  let! row := lift (one rows) in
  ret (as_tuple row).
Definition local_values (index : Z) : Y (list pyval) := connected index true (invariant_values "local").
Definition linearizable_values : Y (list pyval) := connected 0 false (invariant_values "linearizable").
Definition all_values (indices : list Z) : Y (list (pystr * list pyval)) :=
  for_each indices (fun i acc => let! values := local_values i in ret (dset (dec (i + 1)) values acc)) [].
Definition caught_up (expected : Expected) (values : list (pystr * list pyval)) : bool :=
  forallb (fun x : pystr * list pyval => same_cells x.2 (PInt <$> expected_values expected)) values.
Definition wait_local_state (expected : Expected) (indices : option (list Z)) (timeout : Q) : Y (list (pystr * list pyval)) :=
  let! indices := match indices with None => gets (nv_running (nc_children c)) | Some l => ret l end in
  let! now := io h_monotonic in
  let deadline := (now + timeout)%Q in
  while_loop fuel (fun _ =>
    let! values := all_values indices in
    if caught_up expected values then ret (inr values)
    else
      let! now := io h_monotonic in
      if Qle_bool deadline now then throw (TimeoutError "Catch-up mismatch") else do! io_do (h_sleep (5 # 100));; ret (inl values)) [].
(** [with sqlite3.connect(...) as db]: both checks of a copy. *)
Definition sound_copy (index : Z) : Y unit :=
  let! db := io_res (l_connect (py "file:" ++ nc_run_dir c ++ fstr [L "/data-"; D index; L "/node.db?mode=ro"])) in
  do! try_except
    (let! check := io_res (l_execute db (py "PRAGMA integrity_check")) in
     let! foreign := io_res (l_execute db (py "PRAGMA foreign_key_check")) in
     check_that (match check, foreign with [[x]], [] => eq_str x (py "ok") | _, _ => false end))
    (fun e => Some (do! io_res (l_exit db false);; throw e));;
  io_res (l_exit db true).
Definition integrity : Y (list (pystr * pystr)) :=
  for_each nodes (fun i acc => do! sound_copy i;; ret (dset (dec (i + 1)) (py "ok") acc)) [].
Definition native_ops : NativeOps W Expected :=
  mkNativeOps (py "sqlodin") (nc_children c) (nc_endpoints c) native_start native_start_initial native_restart native_wait_leader native_setup client_factory
    (fun statement => on_client (Client_execute statement)) (fun statement => on_client (Client_query statement)) (on_client Client_close)
    linearizable_values (fun expected indices => wait_local_state expected indices 30) integrity.
End Cluster.

(** ** native_run, native_kv, network_kv *)

Record NativeArgs := mkNativeArgs {
  na_run : RunArgs; na_repeats : Z; na_systems : list string; na_sqlodin : pystr; na_build : option pystr; na_output : pystr;
  na_resume : option pystr; na_resume_source : option pystr; na_failures : option pystr }.
(** [result['phases'][i]['name'] = name] *)
Definition rename_phase (i : nat) (name : string) (result : report) : pyres report :=
  let? phases := sample_get "phases" result in
  match phases with
  | Arr l =>
      match l !! i with
      | Some (Obj phase) => Ok (rupdate [("phases"%string, Arr (<[i := Obj (rupdate [("name"%string, tstr (py name))] phase)]> l))] result)
      | Some _ => Raise (TypeError "item assignment")
      | None => Raise (IndexError "list index out of range")
      end
  | _ => Raise (TypeError "indices")
  end.
Definition insert_key (k : Z) : pystr := fstr [L "INSERT OR IGNORE INTO bench VALUES("; D k; L ",'"; T payload; L "')"].
Definition COUNT_KEYS : pystr := py "SELECT count(*),count(*) FILTER (WHERE v='" ++ payload ++ py "') FROM bench WHERE k>0".
(** A float quotient of counts *)
Definition per_second (n : Z) (elapsed : Q) : pyres Q :=
  do? guard (Qeq_bool elapsed 0) (ZeroDivisionError "float division by zero");; Ok (inject_Z n / elapsed)%Q.

Section Runs.
Context {W : Type} `{NativeHost W} `{Platform} (fuel : nat) (args : NativeArgs).
Abbreviation Y := (Hm (W := W)).
Definition operations : Z := ra_operations (na_run args).
Definition warmups : Z := ra_warmup (na_run args).

Definition native_run (folder : pystr) (seed port : Z) : Y report :=
  let! c := NativeCluster_new folder (na_sqlodin args) port in
  let! out := monitored (io_res (nv_run_system (native_ops fuel c) operations warmups (ra_concurrency (na_run args)) seed)) in
  let! result := lift (rename_phase 1 "one_voter_crashed" out.1) in
  let! result := lift (rename_phase 2 "entry_voter_crashed" result) in
  let! disk := disk_usage folder in
  ret (rupdate [("resources", Obj out.2); ("disk", Obj disk);
    ("boundary", tstr (py "three native mTLS processes; fresh quorum-barrier reads; writes admitted at all voters"));
    ("storage", tstr (py "on-disk SQLite application and Paxos journal; WAL synchronous=FULL"))]%string result).

Definition native_insert (key : Z) : C W unit := let! _ := execute (PStr (py "INSERT INTO bench VALUES(?,?)")) (PList [PInt key; PStr payload]) in ret tt.
Definition timed_insert (key : Z) (latencies : list Q) : C W (list Q) :=
  let! start := ask bh_perf in
  do! native_insert key;;
  let! now := ask bh_perf in
  ret (latencies ++ [(now - start)%Q]).
Definition native_writes : C W (list Q * Q) :=
  let! _ := execute (PStr (py "CREATE TABLE bench(id INTEGER PRIMARY KEY,v TEXT)")) (PList []) in
  do! for_do (numbered warmups) (fun i => native_insert (- i - 1));;
  let! begin := ask bh_perf in
  let! latencies := for_each (numbered operations) timed_insert [] in
  let! now := ask bh_perf in
  ret (latencies, (now - begin)%Q).
(** Every voter, alone, counts every row after all were restarted. *)
Definition counted_rows : C W unit :=
  let! rows := query (PStr (py "SELECT count(*) FROM bench WHERE v=?")) (PList [PStr payload]) (py "linearizable") in
  let! n := lift (scalar rows) in
  check_that (eq_int n (operations + warmups)).
Definition native_measured (c : NativeCluster) : Y report :=
  do! native_start_initial c;;
  let! measured := connected c 0 false native_writes in
  do! io_res (rw_crash_all (nc_children c));;
  do! for_do nodes (native_restart c);;
  do! for_do nodes (fun i => connected c i true counted_rows);;
  let! rate := lift (per_second operations measured.2) in
  let! latency := lift (latency_summary measured.1) in
  ret (fields [("system", tstr (py "sqlodin")); ("operations", tint operations); ("operations_per_second", Num rate); ("latency_ms", latency); ("restart_verified", tbool true);
    ("boundary", tstr (py "native mTLS, sequential durable 256-byte inserts")); ("nodes", tint 3)]%string).
Definition native_kv (folder : pystr) (port : Z) : Y report :=
  let! c := NativeCluster_new folder (na_sqlodin args) port in
  let! out := monitored (ending (nc_children c) (native_measured c)) in
  let! disk := disk_usage folder in
  ret (rupdate [("resources", Obj out.2); ("disk", Obj disk)]%string out.1).

(** [try: body / finally: client.close()] *)
Definition with_client {A} (cluster : Z) (body : Z -> Y A) : Y A :=
  let! client := io_res (nv_client cluster 0) in try_finally (body client) (io_res (nv_client_close client)).
Definition verify_keys (zaxon : bool) (cluster : Z) : Y unit :=
  with_client cluster (fun client =>
    let! values := (if zaxon
                    then let! response := io_res (nv_call_zaxon client (PDict (mkdict [("op", PStr (py "query")); ("level", PStr (py "linearizable")); ("sql", PStr COUNT_KEYS)]%string))) in lift (values_from_zaxon response)
                    else let! response := io_res (nv_call_rqlite client (py "/db/query?level=linearizable&linearizable_timeout=2s") COUNT_KEYS) in lift (values_from_rqlite response)) in
    check_that (same_cells values [PInt operations; PInt operations])).
(** The retries a write took, and its time with them. *)
Definition timed_key (client i : Z) (acc : Z * list Q) : Y (Z * list Q) :=
  let! before := io bh_perf in
  let! attempts := io_res (nv_execute client (insert_key (i + 1))) in
  let! now := io bh_perf in
  ret (acc.1 + (attempts - 1), acc.2 ++ [(now - before)%Q]).
Definition network_inserts (client : Z) : Y (Z * list Q * Q) :=
  let! _ := io_res (nv_execute client (py "CREATE TABLE IF NOT EXISTS bench(k INTEGER PRIMARY KEY,v TEXT)")) in
  do! for_do (numbered warmups) (fun i => let! _ := io_res (nv_execute client (insert_key (- i - 1))) in ret tt);;
  let! start := io bh_perf in
  let! out := for_each (numbered operations) (timed_key client) (0, []) in
  let! now := io bh_perf in
  ret (out, (now - start)%Q).
Definition network_measured (zaxon : bool) (cluster : Z) : Y (Z * list Q * Q) :=
  do! io_res (rw_start_initial cluster);;
  let! out := with_client cluster network_inserts in
  do! verify_keys zaxon cluster;;
  do! io_res (rw_crash_all cluster);;
  do! for_do nodes (fun i => io_res (nv_restart cluster i));;
  let! _ := io_res (rw_wait_leader cluster) in
  do! verify_keys zaxon cluster;;
  ret out.
Definition network_kv (system : string) (folder : pystr) (port : Z) : Y report :=
  let zaxon := String.eqb system "zaxonlite" in
  let! cluster := cluster_of zaxon folder (na_run args) port in
  let! out := monitored (ending cluster (network_measured zaxon cluster)) in
  let '(retries, latencies, elapsed) := out.1 in
  let! result := lift (rw_summary (py system) latencies elapsed operations 256) in
  let! disk := disk_usage folder in
  ret (rupdate [("restart_verified", tbool true); ("retry_attempts", tint retries); ("resources", Obj out.2); ("disk", Obj disk);
    ("boundary", tstr (py "reference retry-capable client; idempotent INSERT OR IGNORE; retry-inclusive latency"))]%string result).
End Runs.

(** ** main *)

(** The report apart from its lists, which are rows by group and failures; and
    the ports the process has used. *)
Record Native := mkNative { nr_report : report; nr_rows : list Measured; nr_failures : list report; nr_used : list Z }.
Definition on_report (kvs : list (string * tv)) (s : Native) : Native := mkNative (rupdate kvs (nr_report s)) (nr_rows s) (nr_failures s) (nr_used s).
Definition add_rows (l : list Measured) (s : Native) : Native := mkNative (nr_report s) (nr_rows s ++ l) (nr_failures s) (nr_used s).
Definition add_failures (l : list report) (s : Native) : Native := mkNative (nr_report s) (nr_rows s) (nr_failures s ++ l) (nr_used s).
Definition set_used (used : list Z) (s : Native) : Native := mkNative (nr_report s) (nr_rows s) (nr_failures s) used.
Definition native_data (s : Native) : tv :=
  Obj (rupdate [("realworld", Arr (Obj <$> in_group false (nr_rows s))); ("sequential_writes", Arr (Obj <$> in_group true (nr_rows s))); ("failures", Arr (Obj <$> nr_failures s))]%string (nr_report s)).
(** A dictionary of the earlier report, as one of this *)
Definition as_row (x : pyval) : pyres report := match x with PDict d => Ok ((fun y : pystr * pyval => (y.1, J y.2)) <$> d) | _ => Raise (TypeError "not iterable") end.
(** [r['system'] == system and r['repeat'] == repeat] *)
Definition field_is (k : string) (want : pyval) (r : report) : pyres bool :=
  let? x := sample_get k r in Ok (match x with J y => same_cell y want | _ => false end).
Fixpoint all_fields (wanted : list (string * pyval)) (r : report) : pyres bool :=
  match wanted with
  | [] => Ok true
  | (k, want) :: wanted => let? same := field_is k want r in if (same : bool) then all_fields wanted r else Ok false
  end.
(** [any(... for r in rows)] *)
Fixpoint any_row (wanted : list (string * pyval)) (rows : list report) : pyres bool :=
  match rows with
  | [] => Ok false
  | r :: rows => let? same := all_fields wanted r in if (same : bool) then Ok true else any_row wanted rows
  end.
Definition sample_key (system : string) (repeat : nat) : list (string * pyval) := [("system", PStr (py system)); ("repeat", PInt (Z.of_nat repeat))]%string.
Definition done (kv : bool) (system : string) (repeat : nat) (s : Native) : pyres bool :=
  let? measured := any_row (sample_key system repeat) (in_group kv (nr_rows s)) in
  if (measured : bool) then Ok true else any_row (("group"%string, PStr (py (group_name kv))) :: sample_key system repeat) (nr_failures s).
(** [not failures and all(r.get('restart_verified', True) for r in sequential_writes)] *)
Definition all_passed (s : Native) : bool :=
  bool_decide (nr_failures s = []) && forallb (fun r => match rget "restart_verified" r with Some x => tv_truthy x | None => true end) (in_group true (nr_rows s)).
Definition SELF : pystr := py "tools/compare_native_workloads.py".
(** [earlier[key] == report[key]] of the report as it is written *)
Definition native_workload (args : NativeArgs) : pyval :=
  PDict (mkdict [("operations", PInt (ra_operations (na_run args))); ("warmup", PInt (ra_warmup (na_run args))); ("concurrency", PInt (ra_concurrency (na_run args))); ("repeats", PInt (na_repeats args));
    ("read_percent", PInt 70); ("write_percent", PInt 30)]%string).
Definition HOST_ADDRESS : pystr := py "10.175.52.18".
Definition digests_value (digests : list (pystr * pystr)) : pyval := PDict ((fun x : pystr * pystr => (x.1, PStr x.2)) <$> digests).
Definition metadata_of (args : NativeArgs) (binaries : list (pystr * pystr)) (node : pystr) : list (string * pyval) :=
  [("host", PStr node); ("host_address", PStr HOST_ADDRESS); ("workload", native_workload args); ("binaries_sha256", digests_value binaries)]%string.
Fixpoint same_metadata (earlier : pyval) (l : list (string * pyval)) : pyres bool :=
  match l with
  | [] => Ok true
  | (k, x) :: l => let? y := vget k earlier in if json_eq y x then same_metadata earlier l else Ok false
  end.
(** The definitions by these names are the same in both texts. *)
Fixpoint same_definitions (before after : list (pystr * pystr)) (names : list string) : pyres bool :=
  match names with
  | [] => Ok true
  | name :: names =>
      match dget (py name) before, dget (py name) after with
      | Some x, Some y => if pyeqb x y then same_definitions before after names else Ok false
      | _, _ => Raise (KeyError name)
      end
  end.
(** Every recorded source but this file has its digest now. *)
Fixpoint same_recorded (recorded : list (pystr * pyval)) (now : list (pystr * pystr)) : pyres bool :=
  match recorded with
  | [] => Ok true
  | (k, x) :: recorded =>
      if pyeqb k SELF then same_recorded recorded now
      else match dget k now with
           | Some digest => if eq_str x digest then same_recorded recorded now else Ok false
           | None => Raise (KeyError "source_sha256")
           end
  end.
(** A mixed sample with its three phases, integrity and restart *)
Definition whole_mixed (row : pyval) : pyres bool :=
  let? phases := vget "phases" row in
  let? n := len_of phases in
  if negb (n =? 3) then Ok false
  else
    let? integrity := (let? x := vget "correctness" row in vget "integrity" x) in
    if negb (truthy integrity) then Ok false else let? restart := vget "total_cluster_restart" row in Ok (truthy restart).
Definition verified_writes (row : pyval) : pyres bool :=
  let? restarted := vget_or "restart_verified" PNone row in
  if truthy restarted then Ok true else let? before := vget_or "verified_before_restart" PNone row in Ok (truthy before).
(** [assert whole(row); dict(row, sample_run_directory=...)], for each row *)
Fixpoint retained (whole : pyval -> pyres bool) (earlier : pyval) (rows : list pyval) : pyres (list report) :=
  match rows with
  | [] => Ok []
  | row :: rows =>
      let? fine := whole row in
      do? guard (negb fine) (AssertionError "");;
      let? own := vget "run_directory" earlier in
      let? directory := vget_or "sample_run_directory" own row in
      let? r := as_row row in
      let? rest := retained whole earlier rows in
      Ok (rupdate [("sample_run_directory"%string, J directory)] r :: rest)
  end.

Section Main.
Context {W : Type} `{NativeHost W} `{Platform} (fuel : nat) (ROOT : pystr) (args : NativeArgs).
Abbreviation Y := (Hm (W := W)).
Abbreviation K := (Sc (W := W) Native).
Definition uses (system : string) : bool := existsb (String.eqb system) (na_systems args).
(** [json.loads(path.read_text()) if wanted else None] *)
Definition read_if (wanted : bool) (path : pystr) : Y pyval := if wanted then read_json path else ret PNone.

Definition native_refused : Y unit :=
  do! (if negb (pyeqb h_system (py "Linux")) then parser_error "Benchmark runs require Linux" else ret tt);;
  let! there := io (h_exists (na_output args)) in
  do! (if (there : bool) then parser_error "Choose a fresh report path" else ret tt);;
  if (Z.min (Z.min (ra_operations (na_run args)) (ra_concurrency (na_run args))) (na_repeats args) <? 1) || (ra_warmup (na_run args) <? 0) then parser_error "Invalid counts" else ret tt.
Definition native_sources : Y (list (pystr * pystr)) :=
  let! vendor := io (h_glob (VENDOR ROOT) (py "*.py")) in
  for_each ([join_path ROOT SELF; join_path ROOT THIS_FILE] ++ vendor) (fun path acc => let! digest := file_sha256 path in ret (dset (relative_to ROOT path) digest acc)) [].
Definition native_initial (work : pystr) (filesystem : pyval) : Y (report * pyval * list (pystr * pystr)) :=
  let! utc := io h_utc in
  let! cpu := command [py "lscpu"] in
  let! build := read_if (uses "sqlodin") (default (na_sqlodin args ++ py ".build.json") (na_build args)) in
  let! comparison := read_if (uses "rqlite" || uses "cowsql") (from_root ROOT "build/comparison-tools/build.json") in
  let! release := read_if (uses "zaxonlite") (from_root ROOT "build/comparison-tools/zaxon-release/release.json") in
  let! sources := native_sources in
  ret (fields [("schema_version", tint 1); ("complete", tbool false); ("started_utc", tstr utc); ("host", tstr bh_node); ("host_address", tstr HOST_ADDRESS); ("platform", tstr h_platform); ("cpu", tstr cpu);
    ("filesystem", J filesystem); ("run_directory", tstr work); ("workload", J (native_workload args)); ("realworld", Arr []); ("sequential_writes", Arr []); ("failures", Arr []);
    ("sqlodin_build", J build); ("comparison_build", J comparison); ("zaxon_release", J release); ("source_sha256", manifest_report sources)]%string, build, sources).
Definition native_binaries (build : pyval) : Y (list (pystr * pystr)) :=
  let! digests := for_each (filter (fun x : string * pystr => uses x.1 = true) [("sqlodin", na_sqlodin args); ("zaxonlite", ra_zaxon (na_run args)); ("rqlite", ra_rqlited (na_run args)); ("cowsql", from_root ROOT "build/comparison-tools/cowsql-demo")]%string)
    (fun '(name, path) acc => let! digest := file_sha256 path in ret (acc ++ [(py name, digest)])) [] in
  do! match dget (py "sqlodin") digests with
      | Some digest => let! recorded := lift (vget "binary_sha256" build) in check_that (eq_str recorded digest)
      | None => ret tt
      end;;
  ret digests.

(** The run to resume: of this host, workload, binaries and adapters. *)
Definition resumed (path : pystr) (binaries sources : list (pystr * pystr)) : K unit :=
  let! earlier := on_host (read_json path) in
  let source := default (join_path (path_parent path) (py "linux18-native-initial-runner.py")) (na_resume_source args) in
  let! digest := on_host (file_sha256 source) in
  let! recorded := lift (let? x := vget "source_sha256" earlier in vget "tools/compare_native_workloads.py" x) in
  do! check_that (eq_str recorded digest);;
  let! text := on_host (io_res (h_read_text source)) in
  let! before := lift (nv_definitions text) in
  let! text := on_host (io_res (h_read_text (join_path ROOT SELF))) in
  let! after := lift (nv_definitions text) in
  let! adapters := lift (same_definitions before after ["Client"; "NativeCluster"; "native_run"]%string) in
  do! check_that adapters;;
  let! writes := lift (let? x := vget "sequential_writes" earlier in velements x) in
  let! adapters := lift (if bool_decide (writes = []) then Ok true else same_definitions before after ["native_kv"; "network_kv"]%string) in
  do! check_that adapters;;
  let! same := lift (same_metadata earlier (metadata_of args binaries bh_node)) in
  do! check_that same;;
  let! all_recorded := lift (let? x := vget "source_sha256" earlier in vitems x) in
  let! same := lift (same_recorded all_recorded sources) in
  do! check_that same;;
  let! digest := on_host (file_sha256 path) in
  let! directory := lift (vget "run_directory" earlier) in
  let! prior := lift (vget_or "resumed_from" PNone earlier) in
  do! amend (on_report [("resumed_from"%string, Obj (fields [("path", tstr path); ("sha256", tstr digest); ("source_sha256", J (PDict all_recorded)); ("run_directory", J directory);
    ("reason", tstr (py "Retain fully verified samples and separately record failed attempts")); ("prior_provenance", J prior)]%string))]);;
  let! mixed := lift (let? x := vget "realworld" earlier in let? rows := velements x in retained whole_mixed earlier rows) in
  do! amend (add_rows (pair false <$> mixed));;
  let! rows := lift (retained verified_writes earlier writes) in
  do! amend (add_rows (pair true <$> rows));;
  let! failures := lift (let? x := vget_or "failures" (PList []) earlier in let? l := velements x in try_map as_row l) in
  amend (add_failures failures).
(** Failures recorded of the run that is resumed *)
Definition with_recorded (path : pystr) : K unit :=
  let! failures := on_host (read_json path) in
  let! recorded := lift (vget "source_report_sha256" failures) in
  let! resume := match na_resume args with Some resume => ret resume | None => throw (AttributeError "read_bytes") end in
  let! digest := on_host (file_sha256 resume) in
  do! check_that (eq_str recorded digest);;
  let! l := lift (let? x := vget "failures" failures in let? l := velements x in try_map as_row l) in
  amend (add_failures l).

(** ** Samples *)

Definition take_port : K Z :=
  let! s := reported in
  let! base := on_host (unused_base_port (nr_used s)) in
  do! amend (set_used base.2);;
  ret base.1.
Definition native_seed (repeat : nat) : Z := 20260923 + Z.of_nat repeat * 100.
(** What measures a system: the folder first, then a block of ports. *)
Definition in_folder (folder : pystr) (run : Z -> Y report) : K report :=
  do! on_host (io_res (h_mkdir folder));;
  let! port := take_port in
  on_host (run port).
Definition run_of (kv : bool) (system : string) (repeat : nat) (folder : pystr) : K report :=
  if kv then
    if String.eqb system "sqlodin" then in_folder folder (native_kv args folder)
    else if String.eqb system "cowsql" then let! port := take_port in on_host (cowsql_run fuel ROOT folder (na_run args) port)
    else in_folder folder (network_kv args system folder)
  else if String.eqb system "sqlodin" then in_folder folder (native_run fuel args folder (native_seed repeat))
  else let! port := take_port in on_host (Realworld.network_run (String.eqb system "zaxonlite") folder (na_run args) (native_seed repeat) port false).
Definition failure_row (kv : bool) (system : string) (repeat : nat) (folder : pystr) (e : exn) (trace : pystr) : report :=
  fields [("group", tstr (py (group_name kv))); ("system", tstr (py system)); ("repeat", tint (Z.of_nat repeat)); ("error", tstr (repr_exn e)); ("traceback", tstr trace); ("directory", tstr folder)]%string.
Definition failed (kv : bool) (system : string) (repeat : nat) (folder : pystr) (e : exn) : K unit :=
  let! trace := on_host (gets (nv_traceback e)) in
  do! amend (add_failures [failure_row kv system repeat folder e trace]);;
  on_host (print_line (py "FAILED " ++ py (group_name kv) ++ fstr [L " "; D (Z.of_nat repeat); L " "] ++ py system ++ 32 :: repr_exn e)).
Definition save : K unit := let! s := reported in on_host (save_json false (na_output args) (native_data s)).
Definition sample (kv : bool) (system : string) (repeat : nat) (folder : pystr) : K unit :=
  do! try_except
    (let! result := run_of kv system repeat folder in amend (add_rows [(kv, rupdate [("repeat"%string, tint (Z.of_nat repeat))] result)]))
    (fun e => if isinstance e CException then Some (failed kv system repeat folder e) else None);;
  save.
Definition suffix (kv : bool) : string := if kv then "kv" else "mixed".
Definition native_step (work : pystr) (repeat : nat) (kv : bool) (system : string) : K unit :=
  let! s := reported in
  let! known := lift (done kv system repeat s) in
  if (known : bool) then ret tt
  else
    do! on_host (print_line (py (if kv then "RUN sequential " else "RUN mixed ") ++ dec (Z.of_nat repeat) ++ 32 :: py system));;
    sample kv system repeat (join_path work (dec (Z.of_nat repeat) ++ 45 :: py system ++ 45 :: py (suffix kv))).
Definition mixed_systems : list string := filter (fun s => String.eqb s "cowsql" = false) (na_systems args).
Definition native_round (work : pystr) (repeat : nat) : K unit :=
  let! systems := lift (shuffle fuel mixed_systems (Random_new (native_seed repeat))).1 in
  do! for_do systems (native_step work repeat false);;
  let! systems := lift (shuffle fuel (na_systems args) (Random_new (native_seed repeat + 1))).1 in
  for_do systems (native_step work repeat true).
Definition native_rounds (work : pystr) : K unit :=
  do! for_do (seq 0 (Z.to_nat (na_repeats args))) (native_round work);;
  do! amend (on_report [("complete"%string, tbool true)]);;
  let! s := reported in
  amend (on_report [("all_samples_passed"%string, tbool (all_passed s))]).
Definition finish : K unit :=
  let! utc := on_host (io h_utc) in
  do! amend (on_report [("finished_utc"%string, tstr utc)]);;
  save.
(** [try: rounds / except BaseException: note it; raise / finally: finish] *)
Definition native_body (work : pystr) : K unit :=
  try_finally (recording (fun e => on_report [("error"%string, tstr (repr_exn e))]) (native_rounds work)) finish.
Definition native_script (work : pystr) (build : pyval) (sources : list (pystr * pystr)) : K unit :=
  let! binaries := on_host (native_binaries build) in
  do! amend (on_report [("binaries_sha256"%string, manifest_report binaries)]);;
  do! match na_resume args with Some path => resumed path binaries sources | None => ret tt end;;
  do! match na_failures args with Some path => with_recorded path | None => ret tt end;;
  native_body work.
Definition compare_native : Y unit :=
  do! native_refused;;
  do! io_res (h_mkdir (path_parent (na_output args)));;
  let! stamp := io du_stamp in
  let work := join_path (from_root ROOT "build/native-comparison-runs") stamp in
  do! io_res (h_mkdir work);;
  let! text := command [py "findmnt"; py "-J"; py "-T"; work] in
  let! filesystem := lift (loads text) in
  let! memory := lift (memory_mount filesystem) in
  do! check_that (negb memory);;
  let! initial := native_initial work filesystem in
  with_report (mkNative initial.1.1 [] [] []) (native_script work initial.1.2 initial.2).
End Main.

(** * Counting changes nothing *)

Section Twin.
Context {W : Type} `{EnvLaws W}.
(** The operation beside a counter does what it does without, and the counter
    rises by the requests handed to the transport. *)
Definition twin {A} (m : C (Z * W) A) (m' : C W A) : Prop :=
  forall c n w, m (c, (n, w)) = let '(r, (c', w')) := m' (c, w) in (r, (c', (n + (zlen (sent w') - zlen (sent w)), w'))).
(** No request was handed over. *)
Lemma twin_still {A} (r : pyres A) c (n : Z) (w w' : W) : sent w' = sent w -> (r, (c, (n, w'))) = (r, (c : Conn, (n + (zlen (sent w') - zlen (sent w)), w'))).
Proof. intros ->. by rewrite Z.sub_diag, Z.add_0_r. Qed.
Lemma twin_ret {A} (a : A) : twin (ret a) (ret a).
Proof. intros c n w. exact (twin_still (Ok a) c n w w eq_refl). Qed.
Lemma twin_lift {A} (r : pyres A) : twin (lift r) (lift r).
Proof. intros c n w. exact (twin_still r c n w w eq_refl). Qed.
Lemma twin_throw {A} e : twin (throw e : C (Z * W) A) (throw e).
Proof. intros c n w. exact (twin_still (Raise e) c n w w eq_refl). Qed.
Lemma twin_self : twin self self.
Proof. intros c n w. exact (twin_still (Ok c) c n w w eq_refl). Qed.
Lemma twin_update f : twin (update f) (update f).
Proof. intros c n w. exact (twin_still (Ok tt) (f c) n w w eq_refl). Qed.
Lemma twin_monotonic : twin (ask monotonic) (ask monotonic).
Proof. intros c n w. unfold ask. cbn. unfold beside. cbn. pose proof (monotonic_sent w) as Hs. destruct (monotonic w) as [a w']. by apply twin_still. Qed.
Lemma twin_tclose : twin (act tclose) (act tclose).
Proof. intros c n w. exact (twin_still (Ok tt) c n w (tclose w) (close_sent w)). Qed.
Lemma twin_sleep d : twin (act (sleep d)) (act (sleep d)).
Proof. intros c n w. exact (twin_still (Ok tt) c n w (sleep d w) (sleep_sent d w)). Qed.
Lemma twin_exchange e q t : twin (world (exchange e q t)) (world (exchange e q t)).
Proof.
  intros c n w. unfold world. cbn. unfold counted. cbn. pose proof (exchange_sent e q t w) as Hs. destruct (exchange e q t w) as [r w']. cbn in Hs |- *.
  rewrite Hs. unfold zlen. rewrite length_app. cbn. do 3 f_equal. lia.
Qed.
Lemma twin_bind {A B} (m : C (Z * W) A) m' (f : A -> C (Z * W) B) f' : twin m m' -> (forall a, twin (f a) (f' a)) -> twin (bind m f) (bind m' f').
Proof.
  intros Hm Hf c n w. unfold bind. rewrite (Hm c n w). destruct (m' (c, w)) as [[a|e|] [c' w']]; [|done..]. rewrite (Hf a). destruct (f' a (c', w')) as [r [c2 w2]]. do 3 f_equal. lia.
Qed.
Lemma twin_except {A} (m : C (Z * W) A) m' h h' :
  twin m m' -> (forall e, match h e, h' e with Some k, Some k' => twin k k' | None, None => True | _, _ => False end) -> twin (try_except m h) (try_except m' h').
Proof.
  intros Hm Hh c n w. unfold try_except. rewrite (Hm c n w). destruct (m' (c, w)) as [[a|e|] [c' w']]; [done| |done].
  specialize (Hh e). destruct (h e) as [k|], (h' e) as [k'|]; [|done..]. rewrite (Hh c'). destruct (k' (c', w')) as [r [c2 w2]]. do 3 f_equal. lia.
Qed.
Lemma twin_finally {A} (m : C (Z * W) A) m' f f' : twin m m' -> twin f f' -> twin (try_finally m f) (try_finally m' f').
Proof.
  intros Hm Hf c n w. unfold try_finally. rewrite (Hm c n w). destruct (m' (c, w)) as [[a|e|] [c' w']]; [| |done]; rewrite (Hf c'); destruct (f' (c', w')) as [[u|e'|] [c2 w2]];
    do 3 f_equal; lia.
Qed.
End Twin.

(** Syntactic, so that a loop's fuel is never unfolded. *)
Ltac twin_one :=
  lazymatch goal with
  | |- twin (ret _) _ => apply twin_ret
  | |- twin (lift _) _ => apply twin_lift
  | |- twin (throw _) _ => apply twin_throw
  | |- twin self _ => apply twin_self
  | |- twin (update _) _ => apply twin_update
  | |- twin (ask monotonic) _ => apply twin_monotonic
  | |- twin (act tclose) _ => apply twin_tclose
  | |- twin (act (sleep _)) _ => apply twin_sleep
  | |- twin (world (exchange _ _ _)) _ => apply twin_exchange
  | |- twin (bind _ _) _ => apply twin_bind; [|intros ?]
  | |- twin (try_except _ _) _ => apply twin_except; [|intros ?]
  | |- twin (try_finally _ _) _ => apply twin_finally
  | |- twin (if ?b then _ else _) _ => destruct b
  | |- twin (match ?x with _ => _ end) _ => destruct x
  | |- match (if ?b then _ else _) with _ => _ end => destruct b
  | |- True => exact I
  end.
Ltac twin_auto := cbv beta zeta; repeat (twin_one; cbv beta zeta).

Section Transparent.
Context {W : Type} `{EnvLaws W}.
Lemma twin_loop f deadline request last : twin (call_loop f deadline request last) (call_loop f deadline request last).
Proof. revert request last. induction f as [|f IH]; intros request last; cbn [call_loop]; [apply twin_lift|]. twin_auto; apply IH. Qed.
Lemma twin_call request : twin (_call request) (_call request).
Proof. unfold _call. twin_auto. apply twin_loop. Qed.
Lemma twin_ready : twin _ready _ready.
Proof. unfold _ready. twin_auto. Qed.
Lemma twin_session : twin session_epoch session_epoch.
Proof. unfold session_epoch, with_lock. twin_auto; [apply twin_ready|apply twin_call]. Qed.
Lemma twin_resolve : twin _resolve _resolve.
Proof. unfold _resolve, when. twin_auto. apply twin_call. Qed.
Lemma twin_execute sql ps : twin (execute sql ps) (execute sql ps).
Proof. unfold execute, with_lock, _execute_prepared. twin_auto; [apply twin_ready|apply twin_session|apply twin_resolve]. Qed.
Lemma twin_query sql ps consistency : twin (query sql ps consistency) (query sql ps consistency).
Proof. unfold query, with_lock, call_checked. twin_auto; [apply twin_ready|apply twin_call]. Qed.

(** A write of a client leaves the connection and the world as one without a
    counter would, fails when it does, and otherwise gives the requests it
    handed to the transport; so does a read. *)
Definition counts_requests {A} (op : C W A) (m : C (Z * W) Z) : Prop :=
  forall c n w, let '(r, (c', w')) := op (c, w) in
    m (c, (n, w)) = (match r with Ok _ => Ok (zlen (sent w') - zlen (sent w)) | Raise e => Raise e | OutOfFuel => OutOfFuel end, (c', (n + (zlen (sent w') - zlen (sent w)), w'))).
Lemma counting_counts {A} (op : C (Z * W) A) op' : twin op op' -> counts_requests op' (counting op).
Proof.
  intros Ht c n w. unfold counting, bind, attempts, gets. cbn [fst snd]. rewrite (Ht c n w). destruct (op' (c, w)) as [[a|e|] [c' w']]; [|done..].
  cbn. assert (E : forall d, n + d - n = d) by (intros; lia). by rewrite E.
Qed.
Theorem client_counts statement :
  counts_requests (execute (PStr statement) (PList [])) (Client_execute (W := W) statement) /\
  counts_requests (query (PStr statement) (PList []) (py "linearizable")) (Client_query (W := W) statement).
Proof. split; apply counting_counts; [apply twin_execute|apply twin_query]. Qed.
End Transparent.

(** * Every planned sample has an outcome *)

Abbreviation Key := (nat * (bool * string))%type.
Definition key_done (x : Key) (s : Native) : pyres bool := done x.2.1 x.2.2 x.1 s.
(** What one planned sample leaves: nothing if it had an outcome already, else
    a row or a recorded failure, of its own repeat. *)
Inductive accounted (x : Key) : list Key -> Native -> Native -> Prop :=
| was_done s s' : key_done x s = Ok true -> nr_rows s' = nr_rows s -> nr_failures s' = nr_failures s -> accounted x [] s s'
| was_measured s s' result : key_done x s = Ok false ->
    nr_rows s' = nr_rows s ++ [(x.2.1, rupdate [("repeat"%string, tint (Z.of_nat x.1))] result)] -> nr_failures s' = nr_failures s -> accounted x [x] s s'
| was_recorded s s' folder e trace : key_done x s = Ok false ->
    nr_rows s' = nr_rows s -> nr_failures s' = nr_failures s ++ [failure_row x.2.1 x.2.2 x.1 folder e trace] -> accounted x [x] s s'.
(** A plan carried out in order, and the samples that were attempted. *)
Inductive carried : list Key -> list Key -> Native -> Native -> Prop :=
| carried_nil s : carried [] [] s s
| carried_cons x plan ran ran' s s1 s' : accounted x ran s s1 -> carried plan ran' s1 s' -> carried (x :: plan) (ran ++ ran') s s'.

Lemma accounted_same x ran s s' s2 : accounted x ran s s' -> nr_rows s2 = nr_rows s' -> nr_failures s2 = nr_failures s' -> accounted x ran s s2.
Proof.
  intros [sa sb Hk Ha Hb|sa sb result Hk Ha Hb|sa sb folder e trace Hk Ha Hb] Hr Hf; [apply was_done|eapply was_measured|eapply was_recorded];
    first [exact Hk|rewrite Hr; exact Ha|rewrite Hf; exact Hb].
Qed.
Lemma carried_app plan plan' ran ran' s s1 s' : carried plan ran s s1 -> carried plan' ran' s1 s' -> carried (plan ++ plan') (ran ++ ran') s s'.
Proof. induction 1 as [|x plan ran1 ran2 s s1 s2 Hx _ IH]; intros H2; [done|]. cbn [app]. rewrite <-app_assoc. eapply carried_cons; [exact Hx|auto]. Qed.

(** [any] over more rows: what was found is found still. *)
Lemma any_row_app wanted a b : any_row wanted (a ++ b) = (let? found := any_row wanted a in if (found : bool) then Ok true else any_row wanted b).
Proof. induction a as [|r a IH]; cbn [app any_row]; [done|]. destruct (all_fields wanted r) as [[]|e|]; cbn [res_bind]; [done|apply IH|done..]. Qed.
Lemma in_group_app kv a b : in_group kv (a ++ b) = in_group kv a ++ in_group kv b.
Proof. unfold in_group. by rewrite filter_app, fmap_app. Qed.
Lemma done_grows kv system repeat s s' rows failures :
  nr_rows s' = nr_rows s ++ rows -> nr_failures s' = nr_failures s ++ failures -> done kv system repeat s = Ok true -> done kv system repeat s' <> Ok false.
Proof.
  intros Hr Hf. unfold done. rewrite Hr, Hf, in_group_app, any_row_app. destruct (any_row _ (in_group kv (nr_rows s))) as [[]|e|]; cbn [res_bind]; [done| |done..].
  intros Hd. destruct (any_row _ (in_group kv rows)) as [[]|e|]; cbn [res_bind]; [done| |done..]. by rewrite any_row_app, Hd.
Qed.
Lemma accounted_grows x ran s s' : accounted x ran s s' -> exists rows failures, nr_rows s' = nr_rows s ++ rows /\ nr_failures s' = nr_failures s ++ failures /\ (length rows + length failures = length ran)%nat.
Proof.
  intros []; [exists [], []|eexists [_], []|eexists [], [_]]; (split; [|split]); try reflexivity; by rewrite ?app_nil_r.
Qed.
Lemma carried_grows plan ran s s' : carried plan ran s s' -> exists rows failures, nr_rows s' = nr_rows s ++ rows /\ nr_failures s' = nr_failures s ++ failures /\ (length rows + length failures = length ran)%nat.
Proof.
  induction 1 as [s|x plan ran ran' s s1 s' Hx _ IH]; [exists [], []; by rewrite !app_nil_r|].
  apply accounted_grows in Hx as (r1 & f1 & H1 & H2 & H3). destruct IH as (r2 & f2 & H4 & H5 & H6).
  exists (r1 ++ r2), (f1 ++ f2). rewrite H4, H5, H1, H2, !app_assoc, !length_app. split; [done|]. split; [done|]. lia.
Qed.
Lemma carried_fresh base plan ran s s' x : carried plan ran s s' -> key_done x base = Ok true ->
  (exists rows failures, nr_rows s = nr_rows base ++ rows /\ nr_failures s = nr_failures base ++ failures) -> x ∉ ran.
Proof.
  intros Hc Hd. induction Hc as [s|y plan ran ran' s s1 s' Hy Hc IH]; intros (r0 & f0 & Hr0 & Hf0); [by intros ?%elem_of_nil|].
  pose proof (accounted_grows _ _ _ _ Hy) as (r1 & f1 & Hr1 & Hf1 & _). rewrite elem_of_app. intros [Hin|Hin].
  - pose proof (done_grows _ _ _ _ _ _ _ Hr0 Hf0 Hd) as Hn. destruct Hy as [| sa sb result Hk|sa sb folder e trace Hk]; [by apply elem_of_nil in Hin|apply list_elem_of_singleton in Hin; by subst..].
  - revert Hin. apply IH. exists (r0 ++ r1), (f0 ++ f1). by rewrite Hr1, Hf1, Hr0, Hf0, !app_assoc.
Qed.
(** What had an outcome, of the resumed run or of this, is not attempted again. *)
Theorem outcomes_kept plan ran s s' x : carried plan ran s s' -> key_done x s = Ok true -> x ∉ ran.
Proof. intros Hc Hd. eapply carried_fresh; [exact Hc|exact Hd|]. exists [], []. by rewrite !app_nil_r. Qed.

Section NativeComplete.
Context {W : Type} `{NativeHost W} `{Platform} (fuel : nat) (ROOT : pystr) (args : NativeArgs) (work : pystr).
Abbreviation K := (Sc (W := W) Native).
Definition open_ (s : Native) : Prop := rget "complete" (nr_report s) <> Some (tbool true).

(** A part that leaves the report's rows and failures alone, whatever happens. *)
Definition still {A} (m : K A) : Prop := forall s, wp m (fun _ s' => nr_report s'.1 = nr_report s.1 /\ nr_rows s'.1 = nr_rows s.1 /\ nr_failures s'.1 = nr_failures s.1) s.
Lemma still_bind {A B} (m : K A) (f : A -> K B) : still m -> (forall a, still (f a)) -> still (bind m f).
Proof.
  intros Hm Hf s. apply wp_bind. eapply wp_mono; [apply Hm|]. intros [a|e|] s1 (H1 & H2 & H3); [|done..].
  eapply wp_mono; [apply Hf|]. intros r s2 (H4 & H5 & H6). split_and!; congruence.
Qed.
Lemma still_host {A} (m : Hm (W := W) A) : still (on_host m).
Proof. intros s. apply wp_host_step. done. Qed.
Lemma still_ret {A} (a : A) : still (ret a).
Proof. intros s. by apply wp_ret. Qed.
Lemma still_take_port : still take_port.
Proof.
  unfold take_port. apply still_bind; [intros s; by apply wp_gets|]. intros s0. apply still_bind; [apply still_host|]. intros base.
  apply still_bind; [intros s; by apply wp_amend|]. intros u. apply still_ret.
Qed.
Lemma still_in_folder folder run : still (in_folder folder run).
Proof. unfold in_folder. apply still_bind; [apply still_host|]. intros u. apply still_bind; [apply still_take_port|]. intros port. apply still_host. Qed.
Lemma still_run kv system repeat folder : still (run_of fuel ROOT args kv system repeat folder).
Proof.
  unfold run_of. assert (Hp : forall A (f : Z -> Hm (W := W) A), still (let! port := take_port in on_host (f port))) by (intros A f; apply still_bind; [apply still_take_port|intros; apply still_host]).
  destruct kv, (String.eqb system "sqlodin"); [apply still_in_folder| |apply still_in_folder|apply Hp]. destruct (String.eqb system "cowsql"); [apply Hp|apply still_in_folder].
Qed.
Lemma still_save : still (save args).
Proof. unfold save. apply still_bind; [intros s; by apply wp_gets|]. intros s0. apply still_host. Qed.

(** A part of the rounds: the report stays open, and what it ends with carries
    out a plan. *)
Definition carries (m : K unit) (plans : list Key -> Prop) : Prop :=
  forall s, open_ s.1 -> wp m (fun r s' => open_ s'.1 /\ (r = Ok tt -> exists plan ran, plans plan /\ carried plan ran s.1 s'.1)) s.
Lemma carries_bind (m : K unit) (f : unit -> K unit) (P Q : list Key -> Prop) :
  carries m P -> (forall p, P p -> carries (f tt) (fun q => Q (p ++ q))) -> carries (bind m f) Q.
Proof.
  intros Hm Hf s Hs. apply wp_bind. eapply wp_mono; [by apply Hm|]. intros [[]|e|] s1 [H1 H2]; [|done..]. destruct (H2 eq_refl) as (p & ran & Hp & Hc).
  eapply wp_mono; [by apply (Hf p Hp)|]. intros r s2 [H3 H4]. split; [done|]. intros E. destruct (H4 E) as (q & ran' & Hq & Hc'). exists (p ++ q), (ran ++ ran'). split; [done|]. by eapply carried_app.
Qed.
Lemma carries_ret (P : list Key -> Prop) : P [] -> carries (ret tt) P.
Proof. intros Hp s Hs. apply wp_ret. split; [done|]. intros _. exists [], []. split; [done|constructor]. Qed.
Lemma carries_lift {A} (r : pyres A) (f : A -> K unit) P : (forall a, r = Ok a -> carries (f a) P) -> carries (bind (lift r) f) P.
Proof. intros Hf s Hs. apply wp_bind, wp_lift. destruct r as [a|e|]; [by apply Hf|done..]. Qed.
Lemma carries_each {A} (body : A -> K unit) (f : A -> Key) l : (forall a, carries (body a) (fun p => p = [f a])) -> carries (for_do l body) (fun p => p = f <$> l).
Proof.
  intros Hb. induction l as [|a l IH]; cbn [for_do]; [by apply carries_ret|].
  eapply carries_bind; [apply Hb|]. intros p ->. intros s Hs. eapply wp_mono; [by apply IH|]. intros r s' [H1 H2]. split; [done|]. intros E.
  destruct (H2 E) as (q & ran & -> & Hc). by exists (f <$> l), ran.
Qed.

Lemma carries_step repeat kv system : carries (native_step fuel ROOT args work repeat kv system) (fun p => p = [(repeat, (kv, system))]).
Proof.
  set (x := (repeat, (kv, system)) : Key).
  assert (Hone : forall (s s' : Native * W) ran, open_ s.1 -> nr_report s'.1 = nr_report s.1 -> accounted x ran s.1 s'.1 -> open_ s'.1 /\ exists plan ran, plan = [x] /\ carried plan ran s.1 s'.1).
  { intros s s' ran Ho Hr Ha. unfold open_ in *. split; [by rewrite Hr|]. exists [x], (ran ++ []). split; [done|]. by eapply carried_cons; [exact Ha|constructor]. }
  intros s Hs. unfold native_step. apply wp_bind, wp_gets. apply wp_bind, wp_lift. destruct (done kv system repeat s.1) as [[]|e|] eqn:Hd; [| |done..].
  { apply wp_ret. destruct (Hone s s [] Hs eq_refl) as [Ho Hc]; [by apply was_done|]. split; [done|]. intros _. exact Hc. }
  apply wp_bind, wp_host_step. intros [u|e|] w1; [|done..]. unfold sample. apply wp_bind. cbv zeta. set (folder := join_path _ _).
  eapply (wp_mono _ (fun r s' => nr_report s'.1 = nr_report s.1 /\ (r = Ok tt -> accounted x [x] s.1 s'.1))).
  - apply wp_try_except, wp_bind. eapply wp_mono; [apply still_run|]. intros [result|e|] s2 (H1 & H2 & H3); cbn [fst] in *; [| |done].
    + apply wp_amend. split; [exact H1|]. intros _. eapply was_measured; [exact Hd|cbn; by rewrite H2|exact H3].
    + destruct (isinstance e CException); [|done]. unfold failed. apply wp_bind, wp_host_step. intros [trace|e2|] w3; [|done..]. apply wp_bind, wp_amend. cbn [fst snd].
      apply wp_host_step. intros r w4. split; [exact H1|]. intros _. eapply was_recorded; [exact Hd|exact H2|cbn; by rewrite H3].
  - intros [[]|e|] s2 [H1 H2]; [|unfold open_ in *; by rewrite H1..]. specialize (H2 eq_refl). eapply wp_mono; [apply still_save|]. intros r s3 (H4 & H5 & H6).
    destruct (Hone s s3 [x] Hs) as [Ho Hc]; [congruence|by apply (accounted_same _ _ _ s2.1)|by split].
Qed.

Definition native_cases : list (bool * string) := (pair false <$> mixed_systems args) ++ (pair true <$> na_systems args).
Lemma carries_round repeat : carries (native_round fuel ROOT args work repeat) (fun p => p ≡ₚ (fun c => (repeat, c)) <$> native_cases).
Proof.
  unfold native_round. apply carries_lift. intros first E1. apply shuffle_permutes in E1 as [Hp1 _]; [|apply Random_new_wf].
  eapply carries_bind; [apply (carries_each _ (fun system => (repeat, (false, system)))); intros; apply carries_step|]. intros p ->.
  apply carries_lift. intros second E2. apply shuffle_permutes in E2 as [Hp2 _]; [|apply Random_new_wf].
  intros s Hs. eapply wp_mono; [apply (carries_each _ (fun system => (repeat, (true, system)))); [intros; apply carries_step|exact Hs]|].
  intros r s' [H1 H2]. split; [done|]. intros E. destruct (H2 E) as (q & ran & -> & Hc). eexists _, ran. split; [|exact Hc].
  unfold native_cases. rewrite fmap_app, <-!list_fmap_compose. by rewrite Hp1, Hp2.
Qed.
Lemma carries_rounds a n : carries (for_do (seq a n) (native_round fuel ROOT args work)) (fun p => p ≡ₚ plan_of native_cases a n).
Proof.
  revert a. induction n as [|n IH]; intros a; cbn [seq for_do]; [by apply carries_ret|].
  eapply carries_bind; [apply carries_round|]. intros p Hp s Hs. eapply wp_mono; [by apply (IH (S a))|]. intros r s' [H1 H2]. split; [done|]. intros E.
  destruct (H2 E) as (q & ran & Hq & Hc). exists q, ran. split; [|done]. cbn beta. by rewrite Hp, Hq.
Qed.

(** Every system of every repeat in both groups (cowsql in the writes alone) was
    measured, or its failure recorded, or had either before. *)
Definition all_accounted (s s' : Native) : Prop :=
  exists plan ran s1, plan ≡ₚ plan_of native_cases 0 (Z.to_nat (na_repeats args)) /\ carried plan ran s s1 /\ nr_rows s' = nr_rows s1 /\ nr_failures s' = nr_failures s1.
Definition complete (s : Native) : Prop := rget "complete" (nr_report s) = Some (tbool true).
(** The report as it was written last *)
Definition native_saved (s : Native) : Prop := exists w w' : W, save_json false (na_output args) (native_data s) w = (Ok tt, w').
Lemma rounds_accounted s : open_ s.1 ->
  wp (native_rounds fuel ROOT args work) (fun r s' => (complete s'.1 -> all_accounted s.1 s'.1) /\ (r = Ok tt -> complete s'.1 /\ (rget "all_samples_passed" (nr_report s'.1) = Some (tbool (all_passed s'.1))))) s.
Proof.
  intros Hs. unfold native_rounds. apply wp_bind. eapply wp_mono; [by apply carries_rounds|]. intros [[]|e|] s1 [H1 H2]; [|by split..].
  destruct (H2 eq_refl) as (plan & ran & Hp & Hc). apply wp_bind, wp_amend, wp_bind, wp_gets, wp_amend. cbn [fst snd].
  split; [intros _; by exists plan, ran, s1.1|]. intros _. split; [unfold complete; cbn [on_report nr_report]; by rewrite rget_rupdate_other, rget_rset|]. apply rget_rset.
Qed.
(** compare_native_workloads.py: a report that says it is complete accounts for
    every planned sample; a run that ends normally leaves such a report, written,
    which says all samples passed exactly when there is no failure, earlier ones
    included, and no row of writes whose restart was not verified. *)
Theorem native_complete s : open_ s.1 ->
  wp (native_body fuel ROOT args work) (fun r s' =>
    (complete s'.1 -> all_accounted s.1 s'.1) /\
    (r = Ok tt -> complete s'.1 /\ native_saved s'.1 /\ rget "all_samples_passed" (nr_report s'.1) = Some (tbool (all_passed s'.1)))) s.
Proof.
  intros Hs. unfold native_body. set (Q := fun (r : res exn unit) (s' : Native * W) => (complete s'.1 -> all_accounted s.1 s'.1) /\
    (r = Ok tt -> complete s'.1 /\ (rget "all_samples_passed" (nr_report s'.1) = Some (tbool (all_passed s'.1))))).
  assert (Hkeep : forall r s1 kvs, forallb (fun '(k, _) => negb (pyeqb (py k) (py "complete")) && negb (pyeqb (py k) (py "all_samples_passed"))) kvs = true ->
            Q r s1 -> Q r (on_report kvs s1.1, s1.2)).
  { intros r s1 kvs Hk. assert (Hk' : forall k, k = "complete"%string \/ k = "all_samples_passed"%string -> rget k (rupdate kvs (nr_report s1.1)) = rget k (nr_report s1.1)).
    { intros k Hin. apply rget_rupdate_other, forallb_forall. intros [k' v] Hkv. apply (proj1 (forallb_forall _ _) Hk), andb_prop in Hkv as [H1 H2]. by destruct Hin; subst. }
    unfold Q, complete. cbn [fst on_report nr_report]. rewrite !Hk' by auto. done. }
  apply wp_try_finally. eapply (wp_mono _ Q).
  - apply wp_recording. eapply wp_mono; [by apply rounds_accounted|]. intros [[]|e|] s1 Hq; [exact Hq| |by split; [apply Hq|]].
    apply (Hkeep (Raise e)); [done|]. split; [apply Hq|done].
  - intros r s1 Hq. assert (Hfin : wp (finish args) (fun r' s2 => Q r s2 /\ (r' = Ok tt -> native_saved s2.1)) s1).
    { unfold finish. apply wp_bind, wp_host_step. intros [utc|e|] w1; [|by split..]. apply wp_bind, wp_amend. cbn [fst snd].
      apply (Hkeep _ (s1.1, w1) [("finished_utc"%string, tstr utc)]) in Hq as Hq2; [|done]. unfold save. apply wp_bind, wp_gets. apply wp_on_host. cbn [fst snd].
      unfold wp. destruct (save_json _ _ _ _) as [r' w2] eqn:E. cbn. split; [exact Hq2|]. intros ->. by eexists _, _. }
    destruct r as [[]|e|]; [| |by split; [apply Hq|]]; (eapply wp_mono; [exact Hfin|]); intros [[]|e'|] s2 [H1 H2]; (split; [apply H1|]); intros E; try done;
      destruct H1 as [_ H1]; destruct (H1 eq_refl); by split; [|split; [apply H2|]].
Qed.
End NativeComplete.

(** * The cluster's methods *)

(** A client of any worker can reach every voter, its own first. *)
Theorem rotated_whole {A} index (l : list A) x : 0 <= index -> l !! Z.to_nat index = Some x -> rotated index l ≡ₚ l /\ head (rotated index l) = Some x.
Proof.
  intros Hi Hx. unfold rotated. split; [rewrite Permutation_app_comm; by rewrite take_drop|]. by rewrite (drop_S _ _ _ Hx).
Qed.

Section Methods.
Context {W : Type} `{NativeHost W} `{Platform} (fuel : nat) (args : NativeArgs).
(** Waiting ends with values that were read, and are those expected everywhere. *)
Theorem wait_local_state_caught_up c expected indices timeout :
  returns (wait_local_state (W := W) fuel c expected indices timeout) (fun values => caught_up expected values = true /\ exists asked (w w' : W), all_values c asked w = (Ok values, w')).
Proof.
  unfold wait_local_state. apply returns_then. intros asked. apply returns_then. intros now. cbv zeta.
  apply (returns_while (fun _ => True)); [done|]. intros acc _. eapply returns_bind; [apply returns_run|]. intros values (w & w' & Hw).
  destruct (caught_up expected values) eqn:E; [apply returns_ret; split; [done|by exists asked, w, w']|]. apply returns_then. intros t.
  destruct (Qle_bool _ t); [apply returns_throw|]. apply returns_then. intros u. by apply returns_ret.
Qed.
(** The native measurement of writes returns only if, after every voter crashed
    and restarted, each alone counted every row that was written. *)
Definition counts_all (c : NativeCluster) (i : Z) : Prop := exists w w' : W, connected c i true (counted_rows args) w = (Ok tt, w').
Theorem native_measured_counts c : returns (native_measured (W := W) args c) (fun r => rget "restart_verified" r = Some (tbool true) /\ Forall (counts_all c) nodes).
Proof.
  unfold native_measured. apply returns_then. intros _. apply returns_then. intros measured. do 2 (apply returns_then; intros _).
  eapply returns_bind; [apply (returns_for_do (counts_all c)); intros i _; eapply returns_mono; [apply returns_run|]; intros [] (w & w' & Hw); by exists w, w'|].
  intros u Hc. apply returns_then. intros rate. apply returns_then. intros latency. apply returns_ret. split; [reflexivity|exact Hc].
Qed.
End Methods.
