(* ===== verification/Site.v ===== *)
(** * The documentation site
    (tools/build_site.py)

    Pages come from the Typst sources, the registry of discussions and the Python
    client's README; links between sources become links between pages or to the
    repository; and the finished site is read back: a link whose target or anchor
    is not there stops the build.  Typst, Markdown and Python's HTML and URL
    parsers are the interface [SiteHost]; the regular expressions are functions
    on texts. *)

From Stdlib Require Import QArith.
From S2P Require Import Prelude PyStr PyFloat Objects Json Vector Text Parameters Results Net Client Dict Host Script Service ServiceChecks Returns.
#[local] Open Scope Z_scope.

(** ** Texts *)

(** Markup is written with single quotes for double ones. *)
Definition html (s : string) : pystr := (fun c => if c =? 39 then 34 else c) <$> py s.
(** [html.escape(s)] *)
Definition escape_char (c : Z) : pystr :=
  if c =? 38 then py "&amp;" else if c =? 60 then py "&lt;" else if c =? 62 then py "&gt;" else if c =? 34 then py "&quot;" else if c =? 39 then py "&#x27;" else [c].
Definition escape (s : pystr) : pystr := s ≫= escape_char.
(** [s.title()] of an ASCII text *)
Definition ascii_letter (c : Z) : bool := ((65 <=? c) && (c <=? 90)) || ((97 <=? c) && (c <=? 122)).
Fixpoint title_from (inside : bool) (s : pystr) : pystr :=
  match s with
  | [] => []
  | c :: s => (if ascii_letter c then if inside then ascii_lower_char c else if 97 <=? c then c - 32 else c else c) :: title_from (ascii_letter c) s
  end.
Definition title_case (s : pystr) : pystr := title_from false s.
Definition replace_char (a b : Z) (s : pystr) : pystr := (fun c => if c =? a then b else c) <$> s.
(** [re.sub(r'\s+', ' ', s)] *)
Fixpoint squeeze (inside : bool) (s : pystr) : pystr :=
  match s with
  | [] => []
  | c :: s => if is_space c then (if inside then squeeze true s else 32 :: squeeze true s) else c :: squeeze false s
  end.

(** [r'^= (.+)$'], the first line of that shape *)
Fixpoint heading_in (lines : list pystr) : option pystr :=
  match lines with
  | [] => None
  | line :: lines => if is_prefix (py "= ") line && Nat.ltb 2 (length line) then Some (drop 2 line) else heading_in lines
  end.
Definition heading_of (text : pystr) : option pystr := heading_in (split_char 10 text).
(** [r'^<([\w-]+)>'], every label that starts a line *)
Definition label_char (c : Z) : bool := is_word c || (c =? 45).
Definition label_of (line : pystr) : option pystr :=
  match line with
  | 60 :: rest => match span_class label_char rest with (c :: run, 62 :: _) => Some (c :: run) | _ => None end
  | _ => None
  end.
Definition labels_in (text : pystr) : list pystr := omap label_of (split_char 10 text).

(** The records: an open bracket on a line of its own, up to the next closing line *)
Definition record_open : pystr := py "  (" ++ [10].
Definition record_close : pystr := [10] ++ py "  ),".
Fixpoint records_from (n : nat) (text : pystr) : list pystr :=
  match n with
  | O => []
  | S n =>
      match find_sub record_open text with
      | Some (_, post) =>
          match find_sub record_close (drop (length record_open) post) with
          | Some (record, rest) => record :: records_from n (drop (length record_close) rest)
          | None => []
          end
      | None => []
      end
  end.
Definition records_in (text : pystr) : list pystr := records_from (S (length text)) text.
(** A line [    name: 'value',] with double quotes *)
Definition field_at (s : pystr) : option (pystr * pystr * pystr) :=
  if is_prefix (py "    ") s then
    match span_class is_word (drop 4 s) with
    | (c :: key, rest) =>
        if is_prefix (html ": '") rest then
          match span_class (fun c => negb (c =? 34)) (drop 3 rest) with
          | (value, 34 :: 44 :: after) => Some (c :: key, value, after)
          | _ => None
          end
        else None
    | _ => None
    end
  else None.
Fixpoint fields_from (n : nat) (line_start : bool) (s : pystr) : list (pystr * pystr) :=
  match n, s with
  | S n, c :: rest =>
      match (if line_start then field_at s else None) with
      | Some (key, value, after) => (key, value) :: fields_from n false after
      | None => fields_from n (c =? 10) rest
      end
  | _, _ => []
  end.
Definition fields_in (record : pystr) : list (pystr * pystr) := foldl (fun d '(k, v) => dset k v d) [] (fields_from (S (length record)) true record).

(** ** Markup *)

(** [open], its attributes up to ['>'], and what follows *)
Definition tag_at (open s : pystr) : option (pystr * pystr) :=
  if is_prefix open s then match span_class (fun c => negb (c =? 62)) (drop (length open) s) with (inside, 62 :: rest) => Some (inside, rest) | _ => None end
  else None.
(** [re.findall] and [re.sub(..., '')] of a pattern given by its matches: what is
    matched at a place, and the text after it. *)
Fixpoint find_matches (n : nat) (m : pystr -> option (pystr * pystr)) (s : pystr) : list pystr :=
  match n, s with
  | S n, _ :: l => match m s with Some (found, rest) => found :: find_matches n m rest | None => find_matches n m l end
  | _, _ => []
  end.
Fixpoint remove_matches (n : nat) (m : pystr -> option (pystr * pystr)) (s : pystr) : pystr :=
  match n, s with
  | S n, c :: l => match m s with Some (_, rest) => remove_matches n m rest | None => c :: remove_matches n m l end
  | _, _ => s
  end.
(** What is between the first [<body ...>] and the last [</body>] *)
Definition body_of (text : pystr) : pyres pystr :=
  match find_sub (py "<body") text with
  | Some (_, post) =>
      match tag_at (py "<body") post with
      | Some (_, rest) =>
          match find_sub (reverse (py "</body>")) (reverse rest) with
          | Some (_, before) => Ok (reverse (drop 7 before))
          | None => Raise (TypeError "'NoneType' object is not subscriptable")
          end
      | None => Raise (TypeError "'NoneType' object is not subscriptable")
      end
  | None => Raise (TypeError "'NoneType' object is not subscriptable")
  end.
(** [open ... close]: the match, attributes and content included *)
Definition element_at (open close s : pystr) : option (pystr * pystr * pystr) :=
  match tag_at open s with
  | Some (inside, rest) =>
      match find_sub close rest with
      | Some (content, post) => Some (inside, open ++ inside ++ 62 :: content ++ close, drop (length close) post)
      | None => None
      end
  | None => None
  end.
Definition style_at (s : pystr) : option (pystr * pystr) := match element_at (py "<style") (py "</style>") s with Some (_, found, rest) => Some (found, rest) | None => None end.
Definition styles_of (text : pystr) : pystr := concat (find_matches (S (length text)) style_at text).
(** The heading [Contents] and the generated table of contents *)
Definition contents_at (s : pystr) : option (pystr * pystr) :=
  match tag_at (py "<h2") s with
  | Some (inside, rest) => if is_prefix (py "Contents</h2>") rest then Some (py "<h2" ++ inside ++ py ">Contents</h2>", drop 13 rest) else None
  | None => None
  end.
Definition toc_at (s : pystr) : option (pystr * pystr) :=
  match element_at (py "<nav") (py "</nav>") s with
  | Some (inside, found, rest) => if text_in (html "role='doc-toc'") inside then Some (found, rest) else None
  | None => None
  end.
Definition without (m : pystr -> option (pystr * pystr)) (s : pystr) : pystr := remove_matches (S (length s)) m s.
(** Headings of level 2 to 6, opening or closing, one level up *)
Definition heading_end (c : Z) : bool := (c =? 32) || (c =? 62).
Definition level (c : Z) : bool := (50 <=? c) && (c <=? 54).
Fixpoint promote (n : nat) (s : pystr) : pystr :=
  match n with
  | O => s
  | S n =>
      match s with
      | 60 :: 104 :: d :: ((e :: _) as rest) => if level d && heading_end e then 60 :: 104 :: d - 1 :: promote n rest else 60 :: promote n (104 :: d :: rest)
      | 60 :: 47 :: 104 :: d :: ((e :: _) as rest) => if level d && heading_end e then 60 :: 47 :: 104 :: d - 1 :: promote n rest else 60 :: promote n (47 :: 104 :: d :: rest)
      | c :: rest => c :: promote n rest
      | [] => []
      end
  end.
Definition promote_headings (body : pystr) : pystr := if text_in (py "<h1") body then body else promote (S (length body)) body.

(** ** Paths *)

(** A path as [Path] keeps it: no empty parts and no ['.'] *)
Definition path_parts (p : pystr) : list pystr := filter (fun x => x <> [] /\ x <> [46]) (split_char 47 p).
Definition is_absolute (p : pystr) : bool := match p with 47 :: _ => true | _ => false end.
Definition norm_path (p : pystr) : pystr := if is_absolute p then 47 :: join [47] (path_parts p) else join [47] (path_parts p).
(** [a / b] *)
Definition under (a b : pystr) : pystr := if is_absolute b then norm_path b else norm_path (a ++ 47 :: b).
Definition last_part (p : pystr) : pystr := default [] (last (path_parts p)).
Definition within (root p : pystr) : bool := pyeqb p root || is_prefix (root ++ [47]) p.

(** ** Pages *)

Definition BASE : pystr := py "/sqlodin/".
Definition REPO : pystr := py "https://github.com/insanai/sqlodin".
Record Page := mkPage { pg_source : pystr; pg_title : pystr; pg_group : pystr; pg_route : pystr; pg_status : option pystr; pg_summary : option pystr }.
#[export] Instance Page_eq_dec : EqDecision Page.
Proof. solve_decision. Defined.
Definition in_pages (group : pystr) (pages : list Page) : list Page := filter (fun p => pg_group p = group) pages.
(** [urlsplit(link)] *)
Record Url := mkUrl { u_scheme : pystr; u_netloc : pystr; u_path : pystr; u_fragment : pystr }.
Definition external (u : Url) : bool := negb (bool_decide (u_scheme u = [] /\ u_netloc u = [])).

(** ** class Content *)

Inductive html_event := StartTag (tag : pystr) (attrs : list (pystr * option pystr)) | HtmlData (data : pystr).
Record Content := mkContent { ct_links : list pystr; ct_words : list pystr; ct_ids : list pystr }.
Definition Content_new : Content := mkContent [] [] [].
Definition handle_attribute (c : Content) (x : pystr * option pystr) : Content :=
  let ids := match x.2 with Some v => if pyeqb x.1 (py "id") then ct_ids c ++ [v] else ct_ids c | None => ct_ids c end in
  let links := match x.2 with
               | Some (v :: value) => if pyeqb x.1 (py "href") || pyeqb x.1 (py "src") then ct_links c ++ [v :: value] else ct_links c
               | _ => ct_links c
               end in
  mkContent links (ct_words c) ids.
Definition handle_event (c : Content) (e : html_event) : Content :=
  match e with
  | StartTag _ attrs => foldl handle_attribute c attrs
  | HtmlData data => mkContent (ct_links c) (ct_words c ++ [data]) (ct_ids c)
  end.

Class SiteHost (W : Type) := {
  st_host :: Host W;
  (** [shutil.rmtree(path)], [shutil.copy2(a, b)], [path.touch()], [path.is_dir()] *)
  st_rmtree : pystr -> W -> pyres unit * W;
  st_copy : pystr -> pystr -> W -> pyres unit * W;
  st_touch : pystr -> W -> pyres unit * W;
  st_is_dir : pystr -> W -> bool * W;
  (** [subprocess.run(argv, stdout=open(log), stderr=the same)]: its return code *)
  st_run : list pystr -> pystr -> W -> pyres Z * W;
  (** the libraries: Markdown, [html.unescape], [urllib.parse], and the events of
      [HTMLParser.feed] *)
  st_markdown : pystr -> pyres pystr;
  unescape : pystr -> pystr;
  urlsplit : pystr -> pyres Url;
  unquote : pystr -> pystr;
  parse_html : pystr -> list html_event
}.

Section Site.
Context {W : Type} `{SiteHost W} (ROOT : pystr).
Abbreviation Y := (Hm (W := W)).
Definition root_file (path : string) : pystr := join_path ROOT (py path).
Definition BUILD : pystr := root_file "build/site-documents".
Definition content_of (text : pystr) : Content := foldl handle_event Content_new (parse_html text).

Definition title (path : pystr) : Y pystr :=
  let! text := io_res (h_read_text path) in
  ret (default (title_case (replace_char 45 32 (path_stem path))) (heading_of text)).
Definition sources : list (string * string * string) := [("book", "docs/book", "[0-9][0-9]_*.typ"); ("guides", "docs/guides", "*.typ"); ("specs", "specs", "*.typ")]%string.
Definition source_pages (group folder pattern : string) (pages : list Page) : Y (list Page) :=
  let! paths := io (h_glob (root_file folder) (py pattern)) in
  for_each (sort_paths paths) (fun path pages =>
    if is_prefix (py "00_") (path_stem path) then ret pages
    else let! t := title path in ret (pages ++ [mkPage path t (py group) (py group ++ 47 :: path_stem path ++ [47]) None None])) pages.
(** [fields[k]] *)
Definition field (k : string) (d : list (pystr * pystr)) : pyres pystr := match dget (py k) d with Some v => Ok v | None => Raise (KeyError k) end.
Definition discussion (record : pystr) : pyres Page :=
  let d := fields_in record in
  let? source := field "source" d in
  let? number := field "number" d in
  let? t := field "title" d in
  let? status := field "status" d in
  let? summary := field "summary" d in
  Ok (mkPage (under ROOT source) (py "SOD " ++ number ++ py ": " ++ t) (py "sods") (py "sods/" ++ number ++ [47]) (Some status) (Some summary)).
Definition inventory : Y (list Page) :=
  let! pages := for_each sources (fun '(group, folder, pattern) pages => source_pages group folder pattern pages) [] in
  let! registry := io_res (h_read_text (root_file "docs/sod/registry.typ")) in
  let! sods := lift (try_map discussion (records_in registry)) in
  ret (pages ++ sods ++ [mkPage (root_file "languages/python/README.md") (py "Python client") (py "python") (py "python/") None None]).

(** ** navigation, shell *)

Definition groups : list (string * string) :=
  [("book", "The book"); ("guides", "Practical guides"); ("python", "Python"); ("sods", "Design discussions"); ("specs", "Specifications")]%string.
(** On the complete book, its chapters are places on the page. *)
Definition page_href (active : pystr) (group : string) (page : Page) : Y pystr :=
  if pyeqb active (py "book/") && String.eqb group "book" then
    let! text := io_res (h_read_text (pg_source page)) in
    match labels_in text with
    | label :: _ => ret (BASE ++ py "book/#" ++ label)
    | [] => throw (TypeError "'NoneType' object is not subscriptable")
    end
  else ret (BASE ++ pg_route page).
Definition nav_link (active : pystr) (group : string) (page : Page) (result : pystr) : Y pystr :=
  let! href := page_href active group page in
  ret (result ++ html "<a href='" ++ href ++ html "'" ++ (if pyeqb (pg_route page) active then html " aria-current='page'" else []) ++ py ">" ++ escape (pg_title page) ++ py "</a>").
Definition navigation (pages : list Page) (active : pystr) : Y pystr :=
  let! result := for_each groups (fun '(group, label) result =>
    for_each (in_pages (py group) pages) (nav_link active group) (result ++ html "<span class='group'>" ++ py label ++ py "</span>"))
    (html "<aside class='sidebar'><details open><summary>Documentation</summary>") in
  ret (result ++ py "</details></aside>").

Definition NEW_LINE : pystr := [10].
Definition shell_head (heading styles : pystr) : pystr :=
  html "<!doctype html><html lang='en'><head><meta charset='utf-8'>" ++ NEW_LINE
  ++ html "<meta name='viewport' content='width=device-width,initial-scale=1'>" ++ NEW_LINE
  ++ html "<meta name='description' content='SQLodin: a distributed SQL database built with SQLite and Paxos. Multi-master writes, an interactive CLI, and a Python client.'>" ++ NEW_LINE
  ++ py "<title>" ++ escape heading ++ [32; 183; 32] ++ py "SQLodin</title>" ++ styles ++ html "<link rel='stylesheet' href='" ++ BASE ++ html "assets/site.css'>" ++ NEW_LINE
  ++ html "<script defer src='" ++ BASE ++ html "assets/site.js'></script></head><body>" ++ NEW_LINE
  ++ html "<a class='skip' href='#main'>Skip to content</a><header class='nav'><a class='brand' href='" ++ BASE ++ html "'><i aria-hidden='true'>s.</i>sqlodin</a>" ++ NEW_LINE
  ++ html "<nav aria-label='Main'><a href='" ++ BASE ++ html "book/'>Book</a><a href='" ++ BASE ++ html "guides/'>Guides</a><a href='" ++ BASE ++ html "python/'>Python</a><a href='" ++ REPO
  ++ html "'>GitHub " ++ [8599] ++ html "</a><button class='search-open' type='button'>Search</button></nav></header>" ++ NEW_LINE.
Definition shell_foot : pystr :=
  html "<footer class='footer'><span>Written by Vikrant Rathore, with assistance from Ronak Rathore.</span><a href='" ++ REPO ++ html "/blob/main/LICENSE'>MIT license</a></footer>" ++ NEW_LINE
  ++ html "<dialog id='search-dialog' aria-labelledby='search-title'><header><strong id='search-title'>Search the documentation</strong><button id='search-close' type='button' aria-label='Close search'>"
  ++ [10005] ++ py "</button></header>" ++ NEW_LINE
  ++ html "<label for='search-query'>Words or a topic</label><input id='search-query' type='search' placeholder='Try transactions, quorum, or recovery' autocomplete='off'><div id='results' aria-live='polite'></div></dialog>" ++ NEW_LINE
  ++ py "</body></html>".
Definition shell (heading body : pystr) (pages : list Page) (route tools styles : pystr) : Y pystr :=
  let! content :=
    (if bool_decide (route = []) then ret (html "<main id='main' class='home'>" ++ body ++ py "</main>")
     else
       let! nav := navigation pages route in
       ret (html "<div class='docs-layout'>" ++ nav ++ html "<main id='main' class='reading'>" ++ tools ++ py "<article>" ++ body ++ py "</article></main></div>")) in
  ret (shell_head heading styles ++ content ++ shell_foot).

Definition compile_typst (source output : pystr) (as_html : bool) : Y unit :=
  let argv := [py "typst"; py "compile"; py "--root"; ROOT] ++ (if as_html then [py "--features"; py "html"; py "--format"; py "html"] else []) in
  let log := with_suffix output (path_suffix output ++ py ".log") in
  let! code := io_res (st_run (argv ++ [source; output]) log) in
  if negb (code =? 0) then let! _ := io_res (h_read_text log) in throw (SystemExit (py "the log")) else ret tt.

(** ** rewrite_links *)

Definition Routes : Type := list (pystr * pystr).
(** The first file of the repository among the candidates *)
Fixpoint first_file (candidates : list pystr) : Y (option pystr) :=
  match candidates with
  | [] => ret None
  | c :: candidates =>
      let! file := io (h_is_file c) in
      if (file : bool) && within ROOT c then ret (Some c) else first_file candidates
  end.
Definition candidates_of (source path : pystr) (routes : Routes) : Y (list pystr) :=
  let! beside := gets (h_resolve (under (path_parent source) (unquote path))) in
  let! at_root := gets (h_resolve (under ROOT (unquote path))) in
  ret ([beside; at_root] ++ filter (fun p => last_part p = last_part (unquote path)) routes.*1).
Fixpoint first_route (candidates : list pystr) (routes : Routes) : option pystr :=
  match candidates with [] => None | c :: candidates => match dget c routes with Some route => Some route | None => first_route candidates routes end end.
Definition href (target : pystr) : pystr := html "href='" ++ target ++ [34].
Definition kept (u : Url) (link : pystr) : bool := external u || bool_decide (u_path u = []) || is_prefix BASE link.
Definition replace_link (source : pystr) (routes : Routes) (link : pystr) : Y pystr :=
  let plain := unescape link in
  let! u := lift (urlsplit plain) in
  if kept u plain then ret (href link)
  else
    let! candidates := candidates_of source (u_path u) routes in
    match first_route candidates routes with
    | Some route => ret (href (BASE ++ route ++ (if bool_decide (u_fragment u = []) then [] else 35 :: u_fragment u)))
    | None =>
        let! file := first_file candidates in
        match file with
        | Some c => ret (href (REPO ++ py "/blob/main/" ++ relative_to ROOT c))
        | None => ret (href (REPO ++ py "/blob/main/" ++ escape (u_path u)))
        end
    end.
(** [href='...'] with double quotes, and the text after it *)
Definition href_at (s : pystr) : option (pystr * pystr) :=
  if is_prefix (html "href='") s then match span_class (fun c => negb (c =? 34)) (drop 6 s) with (c :: link, 34 :: rest) => Some (c :: link, rest) | _ => None end
  else None.
Fixpoint sub_links (n : nat) (replace : pystr -> Y pystr) (s : pystr) : Y pystr :=
  match n, s with
  | S n, c :: l =>
      match href_at s with
      | Some (link, rest) => let! found := replace link in let! rest := sub_links n replace rest in ret (found ++ rest)
      | None => let! rest := sub_links n replace l in ret (c :: rest)
      end
  | _, _ => ret s
  end.
Definition rewrite_links (body source : pystr) (routes : Routes) : Y pystr := sub_links (S (length body)) (replace_link source routes) body.

(** ** validate *)

Definition target_of (site path : pystr) (u : Url) : pystr :=
  if bool_decide (u_path u = []) then path
  else if is_prefix BASE (u_path u) then under site (unquote (drop (length BASE) (u_path u)))
  else under (path_parent path) (unquote (u_path u)).
(** An anchor of a page that was read *)
Definition missing_anchor (parsed : list (pystr * Content)) (target : pystr) (u : Url) : bool :=
  negb (bool_decide (u_fragment u = [])) && match dget target parsed with Some c => negb (str_in (unquote (u_fragment u)) (ct_ids c)) | None => false end.
Definition broken_link (site path : pystr) (parsed : list (pystr * Content)) (link : pystr) : Y bool :=
  let! u := lift (urlsplit link) in
  if external u then ret false
  else
    let target := target_of site path u in
    let! there := io (h_exists target) in
    if negb there then ret true
    else
      let! folder := io (st_is_dir target) in
      ret (missing_anchor parsed (if (folder : bool) then under target (py "index.html") else target) u).
Definition read_pages (site : pystr) : Y (list (pystr * Content)) :=
  let! paths := io (h_glob site (py "**/*.html")) in
  for_each paths (fun path parsed => let! text := io_res (h_read_text path) in ret (dset path (content_of text) parsed)) [].
Definition broken_links (site : pystr) (parsed : list (pystr * Content)) : Y (list (pystr * pystr)) :=
  for_each parsed (fun '(path, c) broken =>
    for_each (ct_links c) (fun link broken =>
      let! bad := broken_link site path parsed link in
      ret (if (bad : bool) then broken ++ [(relative_to site path, link)] else broken)) broken) [].
Definition validate (site : pystr) : Y unit :=
  let! parsed := read_pages site in
  let! broken := broken_links site parsed in
  do! (if negb (bool_decide (broken = [])) then throw (SystemExit (py "Broken site links")) else ret tt);;
  let! text := io_res (h_read_text (under site (py "book/05_consensus/index.html"))) in
  do! (if negb (text_in (py "<svg") text) then throw (SystemExit (py "Consensus chapter lost its vector diagrams")) else ret tt);;
  print_line (fstr [L "PASS site links, anchors and diagrams: "; D (zlen parsed); L " pages"]).

(** ** main *)

Definition WEB : pystr := html "#import '/docs/site/html.typ': web" ++ NEW_LINE ++ py "#show: web" ++ NEW_LINE.
Definition reference_rules : pystr :=
  html "#let references = json('book-references.json')" ++ NEW_LINE ++ py "#show ref: it => { let key = str(it.target); if key in references { let item = references.at(key); link(item.url, item.title) } else { it } }" ++ NEW_LINE.
(** Every chapter's labels, with the place and title to refer to *)
Definition chapter_labels (pages : list Page) : Y (list (pystr * pyval)) :=
  for_each (in_pages (py "book") pages) (fun chapter labels =>
    let! text := io_res (h_read_text (pg_source chapter)) in
    ret (foldl (fun d label => dset label (PDict (mkdict [("url", PStr (BASE ++ pg_route chapter ++ 35 :: label)); ("title", PStr (pg_title chapter))]%string)) d) labels (labels_in text))) [].
Definition references_for (pages : list Page) (page : Page) : Y pystr :=
  if pyeqb (pg_group page) (py "book") then
    let! labels := chapter_labels pages in
    let! text := lift (dumps spaced (PDict labels)) in
    do! io_res (h_write_text (join_path BUILD (py "book-references.json")) text);;
    ret reference_rules
  else ret [].
(** [route.strip('/').replace('/', '-')] *)
Definition stem_of (page : Page) : pystr := replace_char 47 45 (rstrip_char 47 (lstrip_char 47 (pg_route page))).
Definition typst_body (wrapper output : pystr) (text : pystr) : Y (pystr * pystr) :=
  do! io_res (h_write_text wrapper text);;
  do! compile_typst wrapper output true;;
  let! text := io_res (h_read_text output) in
  let! body := lift (body_of text) in
  ret (body, styles_of text).
(** The body of a page, its styles, and the name of its PDF *)
Definition page_body (site : pystr) (pages : list Page) (page : Page) : Y (pystr * pystr * option pystr) :=
  let source := pg_source page in
  if pyeqb (path_suffix source) (py ".md") then
    let! text := io_res (h_read_text source) in
    let! body := lift (st_markdown text) in
    ret (body, [], None)
  else
    let stem := stem_of page in
    let! references := references_for pages page in
    let! out := typst_body (join_path BUILD (stem ++ py ".typ")) (join_path BUILD (stem ++ py ".html"))
      (WEB ++ py "#set figure(kind: image, supplement: [Figure])" ++ NEW_LINE ++ references ++ html "#include '/" ++ relative_to ROOT source ++ html "'" ++ NEW_LINE) in
    if pyeqb (pg_group page) (py "book") then ret (out.1, out.2, Some (py "sqlodin-book.pdf"))
    else
      let pdf := stem ++ py ".pdf" in
      do! compile_typst source (join_path (join_path site (py "downloads")) pdf) false;;
      ret (out.1, out.2, Some pdf).
(** Labels that the rendering dropped become anchors. *)
Definition with_anchor (body label : pystr) : pystr :=
  if text_in (html "id='" ++ label ++ [34]) body then body else html "<span id='" ++ label ++ html "'></span>" ++ body.
Definition with_anchors (page : Page) (body : pystr) : Y pystr :=
  if pyeqb (pg_group page) (py "book") then let! text := io_res (h_read_text (pg_source page)) in ret (foldl with_anchor body (labels_in text)) else ret body.
Definition search_entry (page : Page) (body : pystr) : pyval :=
  PDict (mkdict [("title", PStr (pg_title page)); ("url", PStr (BASE ++ pg_route page)); ("text", PStr (squeeze false (join (py " ") (ct_words (content_of body)))))]%string).
Definition reader_tools (page : Page) (pdf : option pystr) : pystr :=
  html "<div class='reader-tools'><a href='" ++ BASE ++ pg_group page ++ html "/'>" ++ title_case (pg_group page) ++ py "</a>"
  ++ html "<a href='" ++ REPO ++ py "/blob/main/" ++ relative_to ROOT (pg_source page) ++ html "'>View source " ++ [8599] ++ py "</a>"
  ++ match pdf with Some pdf => html "<a href='" ++ BASE ++ py "downloads/" ++ pdf ++ html "'>Download PDF " ++ [8595] ++ py "</a>" | None => [] end
  ++ py "</div>".
(** The chapters beside this one *)
Definition pager_link (direction : pystr) (chapter : option Page) : pystr :=
  match chapter with Some p => html "<a href='" ++ BASE ++ pg_route p ++ html "'>" ++ direction ++ py ": " ++ escape (pg_title p) ++ py "</a>" | None => [] end.
Definition chapter_index (page : Page) (chapters : list Page) : option nat := fst <$> list_find (fun p => p = page) chapters.
Definition beside_chapter (chapters : list Page) (i : nat) : option Page * option Page := (match i with O => None | S j => chapters !! j end, chapters !! S i).
Definition pager (pages : list Page) (page : Page) : pystr :=
  if pyeqb (pg_group page) (py "book") then
    let chapters := in_pages (py "book") pages in
    let '(before, after) := match chapter_index page chapters with Some i => beside_chapter chapters i | None => (None, None) end in
    html "<nav class='pager' aria-label='Chapters'>" ++ pager_link ([8592] ++ py " Previous") before ++ pager_link (py "Next " ++ [8594]) after ++ py "</nav>"
  else [].
Definition build_page (site : pystr) (pages : list Page) (routes : Routes) (page : Page) (search : list pyval) : Y (list pyval) :=
  let! out := page_body site pages page in
  let '(body, styles, pdf) := out in
  let! body := rewrite_links body (pg_source page) routes in
  let! body := with_anchors page body in
  let body := promote_headings body in
  let tools := reader_tools page pdf in
  let destination := join_path (norm_path (join_path site (pg_route page))) (py "index.html") in
  do! io_res (h_mkdir (path_parent destination));;
  let! text := shell (pg_title page) (body ++ pager pages page) pages (pg_route page) tools styles in
  do! io_res (h_write_text destination text);;
  do! print_line (py "Built " ++ pg_route page);;
  ret (search ++ [search_entry page body]).

Definition listings : list (string * string * string) :=
  [("guides", "Practical guides", "Instructions for building, connecting to, and operating SQLodin.");
   ("sods", "SQLodin Discussions", "Design decisions, alternatives and implementation boundaries. Each SOD states its current status.");
   ("specs", "Protocol and specifications", "Contracts, invariants and assumptions. These documents distinguish model guarantees from implementation evidence.")]%string.
(** [if page.get('summary')]: the status is there with it. *)
Definition listed (page : Page) : pystr :=
  html "<li><a href='" ++ BASE ++ pg_route page ++ html "'>" ++ escape (pg_title page) ++ py "</a>"
  ++ match pg_summary page with
     | Some (c :: summary) => py "<p>" ++ escape (c :: summary) ++ html "</p><span class='label'>" ++ escape (default [] (pg_status page)) ++ py "</span>"
     | _ => []
     end ++ py "</li>".
Definition listing_body (group heading intro : string) (pages : list Page) : pystr :=
  html "<p class='eyebrow'>Documentation</p><h1>" ++ py heading ++ py "</h1><p>" ++ py intro ++ html "</p><ul class='page-list'>" ++ (in_pages (py group) pages ≫= listed) ++ py "</ul>".
Definition build_listing (site : pystr) (pages : list Page) (x : string * string * string) : Y unit :=
  let '(group, heading, intro) := x in
  let! text := shell (py heading) (listing_body group heading intro pages) pages (py group ++ [47]) [] [] in
  io_res (h_write_text (join_path (join_path site (py group)) (py "index.html")) text).
(** [body[body.index('<h2'):]] *)
Definition from_first_heading (body : pystr) : pyres pystr := match find_sub (py "<h2") body with Some (_, rest) => Ok rest | None => Raise (ValueError "substring not found") end.
Definition book_tools : pystr :=
  html "<div class='reader-tools'><span>Complete reading edition</span><a href='" ++ BASE ++ html "downloads/sqlodin-book.pdf'>Download PDF " ++ [8595] ++ py "</a></div>".
Definition build_book (site : pystr) (pages : list Page) (routes : Routes) : Y unit :=
  let! out := typst_body (join_path BUILD (py "complete-book.typ")) (join_path BUILD (py "complete-book.html")) (WEB ++ html "#include '/docs/book.typ'" ++ NEW_LINE) in
  let! rest := lift (from_first_heading out.1) in
  let body := html "<h1>The SQLodin book</h1><p class='lead'>Use, design and evidence.</p>" ++ rest in
  let! body := rewrite_links (without toc_at (without contents_at body)) (root_file "docs/book.typ") routes in
  let! text := shell (py "The SQLodin book") body pages (py "book/") book_tools out.2 in
  io_res (h_write_text (join_path site (py "book/index.html")) text).
Definition site_routes (pages : list Page) : Y Routes :=
  let! routes := for_each pages (fun p routes => let! path := gets (h_resolve (pg_source p)) in ret (dset path (pg_route p) routes)) [] in
  ret (dset (root_file "docs/index.typ") (py "guides/") (dset (root_file "docs/book.typ") (py "book/") routes)).
Definition prepare_site (site : pystr) : Y unit :=
  do! (if pyeqb site (root_file "build") || negb (within (root_file "build") site) then throw (SystemExit (py "Use a dedicated subdirectory of build/")) else ret tt);;
  let! there := io (h_exists site) in
  do! (if (there : bool) then io_res (st_rmtree site) else ret tt);;
  do! io_res (h_mkdir (join_path site (py "assets")));;
  do! io_res (h_mkdir (join_path site (py "downloads")));;
  io_res (h_mkdir BUILD).
Definition build_site (output : pystr) : Y unit :=
  let! site := gets (h_resolve output) in
  do! prepare_site site;;
  let! pages := inventory in
  let! routes := site_routes pages in
  do! for_do [py "site.css"; py "site.js"] (fun asset => io_res (st_copy (join_path (root_file "docs/site") asset) (join_path (join_path site (py "assets")) asset)));;
  do! compile_typst (root_file "docs/book.typ") (join_path site (py "downloads/sqlodin-book.pdf")) false;;
  let! search := for_each pages (build_page site pages routes) [] in
  do! for_do listings (build_listing site pages);;
  do! build_book site pages routes;;
  let! home := io_res (h_read_text (root_file "docs/site/index.html")) in
  let! text := shell (py "A distributed SQL database") home pages [] [] [] in
  do! io_res (h_write_text (join_path site (py "index.html")) text);;
  let! entries := lift (dumps spaced (PList search)) in
  do! io_res (h_write_text (join_path site (py "search.json")) entries);;
  do! io_res (st_touch (join_path site (py ".nojekyll")));;
  validate site.
End Site.

(** ** On small texts *)

Definition lines_text (l : list string) : pystr := join [10] (html <$> l).
Example heading_found : heading_of (lines_text ["#set page()"; "= "; "= Use it"; "= Other"]%string) = Some (py "Use it").
Proof. vm_compute. reflexivity. Qed.
Example registry_read : fields_in <$> records_in (lines_text ["#let d = ("; "  ("; "    number: '0001',"; "    title: 'The Process',"; "  ),"; "  ("; "    number: '0002',"; "  ),"; ")"]%string)
  = [[(py "number", py "0001"); (py "title", py "The Process")]; [(py "number", py "0002")]].
Proof. vm_compute. reflexivity. Qed.
Example body_found : body_of (html "<html><style>a</style><body class='x'>in</body>side</body></html>") = Ok (py "in</body>side").
Proof. vm_compute. reflexivity. Qed.
Example styles_found : styles_of (html "<style>a</style><p><style media='x'>b</style>") = html "<style>a</style><style media='x'>b</style>".
Proof. vm_compute. reflexivity. Qed.
Example headings_promoted : promote_headings (html "<h2 id='a'>A</h2><h7><header><h3>b</h3>") = html "<h1 id='a'>A</h1><h7><header><h2>b</h2>".
Proof. vm_compute. reflexivity. Qed.
Example toc_removed : without toc_at (html "<nav role='doc-toc'>x</nav><nav class='pager'>y</nav>") = html "<nav class='pager'>y</nav>".
Proof. vm_compute. reflexivity. Qed.

(** * What the site promises *)

(** Escaped text ends no tag and no attribute. *)
Definition harmless (c : Z) : Prop := c <> 60 /\ c <> 62 /\ c <> 34 /\ c <> 39.
Theorem escape_harmless s : Forall harmless (escape s).
Proof.
  unfold escape. induction s as [|c s IH]; cbn [mbind list_bind]; [constructor|]. apply Forall_app. split; [|exact IH]. unfold escape_char, harmless.
  repeat (match goal with |- context [?a =? ?b] => destruct (a =? b) eqn:? end; [by apply (bool_decide_unpack _); vm_compute|]). constructor; [lia|constructor].
Qed.

Section Promises.
Context {W : Type} `{SiteHost W} (ROOT : pystr).

(** ** Links between sources *)

(** What becomes of a link: it stays if it leads elsewhere or to an anchor, and
    otherwise leads to a page of the site or to the repository. *)
Definition allowed (routes : Routes) (link found : pystr) : Prop :=
  (found = href link /\ exists u, urlsplit (unescape link) = Ok u /\ kept u (unescape link) = true) \/
  (exists page route anchor, (page, route) ∈ routes /\ found = href (BASE ++ route ++ anchor) /\ (anchor = [] \/ exists a, anchor = 35 :: a)) \/
  (exists rest, found = href (REPO ++ py "/blob/main/" ++ rest)).
Lemma first_route_known candidates routes route : first_route candidates routes = Some route -> exists page, (page, route) ∈ routes.
Proof. induction candidates as [|c candidates IH]; cbn [first_route]; [done|]. destruct (dget c routes) as [r|] eqn:E; [intros [= ->]; exists c; by apply dget_Some_In|exact IH]. Qed.
Lemma replace_link_allowed source routes link : returns (replace_link (W := W) ROOT source routes link) (allowed routes link).
Proof.
  unfold replace_link. cbv zeta. eapply returns_bind; [by apply (returns_lift _ (fun u => urlsplit (unescape link) = Ok u))|]. intros u Hu.
  destruct (kept u (unescape link)) eqn:Ek; [apply returns_ret; left; split; [done|by exists u]|].
  apply returns_then. intros candidates. destruct (first_route candidates routes) as [route|] eqn:Er.
  - apply first_route_known in Er as (page & Hp). apply returns_ret. right. left. exists page, route. eexists. split; [done|]. split; [reflexivity|].
    case_bool_decide; [by left|right; by eexists].
  - apply returns_then. intros [c|]; apply returns_ret; right; right; eexists; reflexivity.
Qed.

(** The text with every [href] replaced, and nothing else *)
Inductive rewritten (R : pystr -> pystr -> Prop) : pystr -> pystr -> Prop :=
| rewritten_nil : rewritten R [] []
| rewritten_char c l t : href_at (c :: l) = None -> rewritten R l t -> rewritten R (c :: l) (c :: t)
| rewritten_link s link rest found t : href_at s = Some (link, rest) -> R link found -> rewritten R rest t -> rewritten R s (found ++ t).
Lemma span_class_length cls s : (length (span_class cls s).2 <= length s)%nat.
Proof. induction s as [|c s IH]; cbn [span_class]; [done|]. destruct (cls c); [|done]. destruct (span_class cls s) as [run rest]. cbn in *. lia. Qed.
Lemma href_at_shorter s link rest : href_at s = Some (link, rest) -> (length rest < length s)%nat.
Proof.
  unfold href_at. destruct (is_prefix _ s); [|done]. pose proof (span_class_length (fun c => negb (c =? 34)) (drop 6 s)) as Hl. rewrite length_drop in Hl.
  destruct (span_class _ _) as [[|c run] [|d rest']]; try done. cbn [snd length] in Hl. intros E. destruct (decide (d = 34)) as [->|Hd]; [injection E as <- <-; lia|].
  exfalso. destruct d as [|p|p]; try done. repeat (destruct p as [p|p|]; try done).
Qed.
Lemma sub_links_rewritten (R : pystr -> pystr -> Prop) replace s n : (length s < n)%nat ->
  (forall link, returns (replace link) (R link)) -> returns (sub_links (W := W) n replace s) (rewritten R s).
Proof.
  intros Hn Hr. revert s Hn. induction n as [|n IH]; intros s Hn; [lia|]. destruct s as [|c l]; cbn [sub_links]; [apply returns_ret; constructor|].
  destruct (href_at (c :: l)) as [[link rest]|] eqn:E.
  - eapply returns_bind; [apply Hr|]. intros found Hf. pose proof (href_at_shorter _ _ _ E). eapply returns_bind; [apply IH; lia|]. intros t Ht. apply returns_ret. by eapply rewritten_link.
  - cbn in Hn. eapply returns_bind; [apply IH; lia|]. intros t Ht. apply returns_ret. by constructor.
Qed.
(** Rewriting touches the links alone, and leaves none to a source of the site's
    own that leads nowhere: each stays, or leads to a page or the repository. *)
Theorem links_rewritten body source routes : returns (rewrite_links (W := W) ROOT body source routes) (rewritten (allowed routes) body).
Proof. apply sub_links_rewritten; [lia|]. intros link. apply replace_link_allowed. Qed.

(** ** The finished site *)

(** A link that leads elsewhere, or to a file that was there, and then to an
    anchor of it if it is a page. *)
Definition sound_link (site path : pystr) (parsed : list (pystr * Content)) (link : pystr) : Prop :=
  exists u, urlsplit link = Ok u /\
    (external u = true \/
     ((exists w w' : W, h_exists (target_of site path u) w = (true, w')) /\
      exists folder (w w' : W), st_is_dir (target_of site path u) w = (folder, w') /\
        missing_anchor parsed (if (folder : bool) then under (target_of site path u) (py "index.html") else target_of site path u) u = false)).
Lemma broken_link_sound site path parsed link : returns (broken_link (W := W) site path parsed link) (fun bad => bad = false -> sound_link site path parsed link).
Proof.
  unfold broken_link. eapply returns_bind; [by apply (returns_lift _ (fun u => urlsplit link = Ok u))|]. intros u Hu. destruct (external u) eqn:Ee.
  { apply returns_ret. intros _. exists u. split; [done|by left]. }
  cbv zeta. eapply returns_bind; [apply returns_run|]. intros there (w & w' & Hw). destruct there; cbn [negb]; [|by apply returns_ret].
  eapply returns_bind; [apply returns_run|]. intros folder (w2 & w2' & Hw2). apply returns_ret. intros Hm. exists u. split; [done|]. right. unfold io in Hw, Hw2. split.
  - exists w. destruct (h_exists _ w) as [b w3] eqn:E. injection Hw as -> ->. by exists w'.
  - exists folder, w2. destruct (st_is_dir _ w2) as [b w3] eqn:E. injection Hw2 as -> ->. by exists w2'.
Qed.
Definition page_sound (site : pystr) (parsed : list (pystr * Content)) (x : pystr * Content) : Prop := Forall (sound_link site x.1 parsed) (ct_links x.2).
Lemma links_checked site parsed x broken :
  returns (for_each (ct_links x.2) (fun link broken => let! bad := broken_link (W := W) site x.1 parsed link in ret (if (bad : bool) then broken ++ [(relative_to site x.1, link)] else broken)) broken)
    (fun broken' => exists more, broken' = broken ++ more /\ (more = [] -> page_sound site parsed x)).
Proof.
  unfold page_sound. generalize (ct_links x.2). intros links. revert broken. induction links as [|link links IH]; intros broken; cbn [for_each].
  { apply returns_ret. exists []. rewrite app_nil_r. split; [done|constructor]. }
  eapply returns_bind; [eapply returns_bind; [apply broken_link_sound|]; intros bad Hb; apply (returns_ret _ (fun acc => exists more, acc = broken ++ more /\ (more = [] -> sound_link site x.1 parsed link)))|].
  { destruct bad; [by exists [(relative_to site x.1, link)]|exists []; rewrite app_nil_r; auto]. }
  intros acc (m1 & -> & H1). eapply returns_mono; [apply IH|]. intros b' (m2 & -> & H2). exists (m1 ++ m2). rewrite app_assoc. split; [done|]. intros [-> ->]%app_nil. constructor; auto.
Qed.
Lemma pages_checked site parsed l broken :
  returns (for_each l (fun '(path, c) broken => for_each (ct_links c) (fun link broken =>
      let! bad := broken_link (W := W) site path parsed link in ret (if (bad : bool) then broken ++ [(relative_to site path, link)] else broken)) broken) broken)
    (fun broken' => exists more, broken' = broken ++ more /\ (more = [] -> Forall (page_sound site parsed) l)).
Proof.
  revert broken. induction l as [|[path c] l IH]; intros broken; cbn [for_each].
  { apply returns_ret. exists []. rewrite app_nil_r. split; [done|constructor]. }
  eapply returns_bind; [apply (links_checked site parsed (path, c))|]. intros acc (m1 & -> & H1). eapply returns_mono; [apply IH|]. intros b' (m2 & -> & H2).
  exists (m1 ++ m2). rewrite app_assoc. split; [done|]. intros [-> ->]%app_nil. constructor; auto.
Qed.
(** The build ends normally only if every link of every page it wrote is sound,
    and the consensus chapter has its diagrams. *)
Theorem site_sound output : returns (build_site (W := W) ROOT output) (fun _ => exists site parsed text, Forall (page_sound site parsed) parsed /\
  (exists w w' : W, read_pages site w = (Ok parsed, w')) /\ text_in (py "<svg") text = true /\ exists w w' : W, h_read_text (under site (py "book/05_consensus/index.html")) w = (Ok text, w')).
Proof.
  unfold build_site. apply returns_then. intros site. apply returns_then. intros _. apply returns_then. intros pages. apply returns_then. intros routes.
  do 2 (apply returns_then; intros _). apply returns_then. intros search. do 2 (apply returns_then; intros _). apply returns_then. intros home. apply returns_then. intros text.
  apply returns_then. intros _. apply returns_then. intros entries. do 2 (apply returns_then; intros _). unfold validate.
  eapply returns_bind; [apply returns_run|]. intros parsed Hp. eapply returns_bind; [apply (pages_checked site parsed parsed [])|]. intros broken (more & -> & Hm). cbn [app].
  case_bool_decide as Hb; cbn [negb]; [|eapply returns_bind; [apply (returns_throw _ (fun _ => False))|done]]. apply returns_then. intros _.
  eapply returns_bind; [apply returns_run|]. intros chapter Hc. destruct (text_in (py "<svg") chapter) eqn:Ec; cbn [negb]; [|eapply returns_bind; [apply (returns_throw _ (fun _ => False))|done]].
  apply returns_then. intros _. eapply returns_mono; [apply returns_any|]. intros u _. exists site, parsed, chapter. by split_and!; auto.
Qed.
End Promises.

(** Going to the next chapter and back leads to the same one, where no chapter
    is listed twice. *)
Lemma chapter_at page chapters i : NoDup chapters -> chapter_index page chapters = Some i <-> chapters !! i = Some page.
Proof.
  intros Hn. unfold chapter_index. split.
  - destruct (list_find _ chapters) as [[j p]|] eqn:E; [|done]. intros [= <-]. apply list_find_Some in E as (Hj & -> & _). exact Hj.
  - intros Hi. destruct (list_find (fun p => p = page) chapters) as [[j p]|] eqn:E.
    + apply list_find_Some in E as (Hj & -> & _). cbn. f_equal. by eapply NoDup_lookup.
    + apply list_find_None in E. rewrite Forall_forall in E. by destruct (E page (list_elem_of_lookup_2 _ _ _ Hi)).
Qed.
Theorem pager_symmetric chapters p q i : NoDup chapters -> chapter_index p chapters = Some i -> (beside_chapter chapters i).2 = Some q ->
  exists j, chapter_index q chapters = Some j /\ (beside_chapter chapters j).1 = Some p.
Proof. intros Hn Hp Hq. exists (S i). split; [by apply chapter_at|]. by apply chapter_at in Hp. Qed.
