(* ===== verification/Features.v ===== *)
(** * Search and SQLAlchemy on the running service
    (tools/check_python_features.py, tools/check_orm_transactions.py)

    Three native voters: full text, vectors and their fusion through the search
    index, an update repeated at another voter, rollbacks, the policy boundary, a
    large vector there and back, SQLAlchemy's Core, and all of it again after
    every voter crashed.  SQLAlchemy is the interface [Alchemy]. *)

From Corelib Require Import Floats.SpecFloat.
From Stdlib Require Import QArith.
From S2P Require Import Prelude PyStr PyFloat Objects Json Bytes Vector Text Parameters Results Net Client Transaction Search Dict Host Script Service ServiceChecks Evidence Snapshots Recovery Returns Resource Capacity Lab LabTheorems.
#[local] Open Scope Z_scope.

(** ** A cluster around its checks *)

Section Checked.
Context {W : Type} `{Lab W}.
Definition policy_of : V (W := W) pyval := with_conn all_voters 10 None (fun h => let! s := call h status in ret (get_or (py "policy") PNone s)).
(** The service's own checks, then those of the script *)
Definition checked_cluster (binary openssl : pystr) (body : Sc (W := Voters * W) report unit) (work : pystr) : Sc (W := Voters * W) report unit :=
  do! note_filesystem rupdate h_linux work;;
  let! binary := v (base (gets (h_resolve binary))) in
  let! c := v (base (Voters_new work binary openssl 4 "manual")) in
  do! v (with_cluster (fun _ => c));;
  try_finally
    (do! checks local_control false;;
     do! body;;
     let! policy := v policy_of in
     amend (rupdate [("policy", J policy); ("complete", tbool true)]%string))
    (close_and_log 6000 work (ret tt)).
End Checked.

(** An exception of SQLAlchemy's [DBAPIError] family *)
Inductive sa_error := IntegrityError | OtherDBAPIError.
Class Alchemy (W : Type) := {
  al_lab :: Lab W;
  (** [create_engine(endpoints, autocommit=True, ...)], [table.create(engine)],
      [engine.connect()], its end, [engine.dispose()] *)
  al_engine : list Endpoint -> W -> pyres Z * W;
  al_create_table : Z -> W -> pyres unit * W;
  al_connect : Z -> W -> pyres Z * W;
  al_close : Z -> W -> pyres unit * W;
  al_dispose : Z -> W -> pyres unit * W;
  (** [conn.execute(table.insert(), rows)], with [returning] or without; the
      error it raised, if it is of that family *)
  al_insert : Z -> bool -> list (Z * pystr * list Z) -> W -> pyres (option sa_error) * W;
  (** the embedding of a row by its id; ids in the order of their distance; the
      tables the inspector sees; the number of rows; a text with parameters *)
  al_embedding : Z -> Z -> W -> pyres Vector * W;
  al_ids_by_distance : Z -> list Z -> W -> pyres (list Z) * W;
  al_has_table : Z -> pystr -> W -> pyres bool * W;
  al_table_names : Z -> W -> pyres (list pystr) * W;
  al_count : Z -> W -> pyres Z * W;
  al_scalar_text : Z -> pystr -> list (pystr * pystr) -> W -> pyres Z * W;
  al_rollback : Z -> W -> pyres unit * W
}.

(** [a == b] of two vectors *)
Definition same_vector (a b : Vector) : bool := Nat.eqb (length (values a)) (length (values b)) && forallb (fun x : pyfloat * pyfloat => float_eqb x.1 x.2) (zip (values a) (values b)).
Definition ints (l : list Z) : pyval := PList (PInt <$> l).
(** [i / 384], rounded once *)
Definition quotient (i n : Z) : pyfloat := match float_of_int i, float_of_int n with Some x, Some y => SFdiv prec64 emax64 x y | _, _ => S754_nan end.
Definition big_vector : pyres Vector := Vector_new (PList ((fun k => PFloat (quotient (Z.of_nat k) 384)) <$> seq 0 384)).
Definition leaning : pyval := PList [PFloat (float_of_dec false 8 (-1)); PFloat (float_of_dec false 2 (-1)); PInt 0].

Section Features.
Context {W : Type} `{Alchemy W}.
Abbreviation K := (Sc (W := Voters * W) report).
Abbreviation VM := (V (W := W)).

(** ** The search index, with its keyword arguments *)

Definition put_text (h : nat) (si : SearchIndex) (id : Z) (title body : string) (vector : pyval) : VM unit :=
  let! _ := call h (put si (PInt id) (PStr (py title)) (PStr (py body)) vector) in ret tt.
Definition matching (h : nat) (si : SearchIndex) (text : string) : VM Rows := call h (full_text si (PStr (py text)) (PInt 20)).
Definition nearest_to (h : nat) (si : SearchIndex) (vector : list Z) (metric : string) : VM Rows := call h (nearest si (ints vector) (PInt 20) (PStr (py metric))).
Definition fused (h : nat) (si : SearchIndex) (text : string) (vector : list Z) (n : Z) : VM Rows :=
  call h (hybrid si (PStr (py text)) (ints vector) (PInt n) (PInt n) (PInt 60) (PStr (py "l2"))).
(** [assert [r['id'] for r in rows] == ids], [len(rows) == 0], [rows[0]['id'] == id], [rows.one()['id'] == id] *)
Definition expect_ids (ids : list Z) (m : VM Rows) : VM unit := let! rows := m in let! found := lift (column "id" rows) in check_that (same_cells found (PInt <$> ids)).
Definition expect_none (m : VM Rows) : VM unit := let! rows := m in check_that (rows_len rows =? 0).
Definition expect_row_id (id : Z) (r : Row) : VM unit := let! x := lift (row_getitem r (PStr (py "id"))) in check_that (eq_int x id).
Definition expect_first (id : Z) (m : VM Rows) : VM unit :=
  let! rows := m in let! r := lift (list_index (_rows rows) 0) in expect_row_id id r.
Definition expect_one (id : Z) (m : VM Rows) : VM unit := let! rows := m in let! r := lift (one rows) in expect_row_id id r.

(** ** features *)

Definition version_checks (h : nat) : K unit :=
  let! rows := v (db_query h (py "SELECT sqlite_version() AS sqlite, vec_version() AS vector") []) in
  let! versions := v (lift (one rows)) in
  let! sqlite := v (lift (row_getitem versions (PStr (py "sqlite")))) in
  let! vector := v (if eq_str sqlite (py "3.51.3") then lift (row_getitem versions (PStr (py "vector"))) else ret PNone) in
  do! v (check_that (eq_str sqlite (py "3.51.3") && eq_str vector (py "v0.1.9")));;
  record "pinned_sqlite_fts_and_vector_versions".
Definition index_checks (h : nat) : K SearchIndex :=
  let! index := v (call h (create_search_index (PStr (py "documents")) (PInt 3))) in
  do! v (put_text h index 1 "Paxos" "durable consensus protocol" (ints [1; 0; 0]));;
  do! v (put_text h index 2 "SQLite" "durable database transactions" leaning);;
  do! v (put_text h index 3 "Gardens" "green leaves and flowers" (ints [0; 1; 0]));;
  do! v (expect_ids [1] (matching h index "consensus"));;
  do! v (expect_ids [1; 2; 3] (nearest_to h index [1; 0; 0] "l2"));;
  do! v (expect_first 1 (nearest_to h index [1; 0; 0] "cosine"));;
  do! v (expect_ids [1; 2; 3] (fused h index "durable" [1; 0; 0] 3));;
  do! record "atomic_search_index_fts_vector_and_single_snapshot_hybrid";;
  ret index.
(** The write [db.pending] is when the update is sent: [db._call] is wrapped to
    keep it.  The connection has written before, so that its epoch is known. *)
Definition captured (si : SearchIndex) (c : Conn) : pyres PendingWrite :=
  let? vector := as_vector si (ints [0; 0; 1]) in
  let? b := tx_build (put_block si (PInt 1) (PStr (py "Changed")) (PStr (py "revised protocol")) vector) [] [] in
  PendingWrite_new (PStr (c_session c)) (PInt (c_sequence c)) (PStr (join statement_sep b.1)) b.2 (PInt 0) (PInt (default 0 (c_epoch c))).
Definition update_checks (h : nat) (index : SearchIndex) : K unit :=
  let! conn := v (call h self) in
  let! pending := v (lift (captured index conn)) in
  do! v (put_text h index 1 "Changed" "revised protocol" (ints [0; 0; 1]));;
  let! text := v (lift (to_json pending)) in
  let! saved := v (lift (from_json text)) in
  do! v (with_conn [2] 10 (Some saved) (fun other => let! _ := call other resolve_pending in ret tt));;
  do! v (expect_none (matching h index "consensus"));;
  do! v (expect_one 1 (matching h index "revised"));;
  do! v (expect_first 1 (nearest_to h index [0; 0; 1] "l2"));;
  do! v (let! _ := call h (delete_document index (PInt 3)) in ret tt);;
  do! v (expect_none (matching h index "flowers"));;
  record "search_update_delete_and_cross_master_vector_retry".
Definition FORBIDDEN : list string :=
  ["DELETE FROM documents_fts_data;"; "UPDATE documents_fts_content SET c0='tampered';"; "CREATE VIRTUAL TABLE forbidden USING vec0(embedding float[3]);";
   "INSERT INTO documents_fts(rowid,title,body) VALUES(90,'bad',random())"]%string.
Definition boundary_checks (h : nat) (index : SearchIndex) : K unit :=
  let! short := v (lift (Vector_new (ints [1]))) in
  do! v (expect_raise CConstraintError "Expected vector-dimension CHECK rollback" (call h (transaction_result (tx_executes
    [(PStr (py "INSERT INTO documents_fts(rowid,title,body) VALUES(?,?,?)"), PList [PInt 99; PStr (py "bad"); PStr (py "rollback")]);
     (PStr (py "INSERT INTO documents(id,title,body,embedding) VALUES(?,?,?,?)"), PList [PInt 99; PStr (py "bad"); PStr (py "rollback"); PVec short])]))));;
  do! v (expect_none (matching h index "rollback"));;
  do! v (for_do FORBIDDEN (fun sql => expect_raise CQueryError "Policy boundary unexpectedly widened" (db_execute h (py sql) [])));;
  do! v (expect_raise CConstraintError "Duplicate FTS rowid must be a durable constraint rejection" (db_execute h (py "INSERT INTO documents_fts(rowid,title,body) VALUES(1,'duplicate','bad')") []));;
  do! v (expect_one 1 (matching h index "revised"));;
  record "fts_and_content_rollback_and_policy_boundary".
Definition vector_checks (h : nat) : K unit :=
  let! big := v (lift big_vector) in
  do! v (let! _ := db_execute h (py "CREATE TABLE embeddings(id INTEGER PRIMARY KEY, v BLOB)") [] in ret tt);;
  do! v (let! _ := db_execute h (py "INSERT INTO embeddings VALUES(?,?)") [PInt 1; PVec big] in ret tt);;
  let! actual := v (db_scalar h (py "SELECT v FROM embeddings WHERE id=?") [PInt 1]) in
  let! back := v (match actual with PBytes bytes => lift (from_bytes bytes) | _ => throw (TypeError "bytes expected") end) in
  do! v (check_that (same_vector back big));;
  do! v (expect_scalar h (py "SELECT vec_distance_l2(v,?) FROM embeddings") [PVec big] 0);;
  record "384_dimension_typed_binding_blob_roundtrip".

(** ** sqlalchemy_checks *)

Definition ITEMS : pystr := py "sqlalchemy_items".
Definition item (id : Z) (name : string) (embedding : list Z) : Z * pystr * list Z := (id, py name, embedding).
Definition al {A} (f : W -> pyres A * W) : VM A := base (io_res f).
(** A [DBAPIError] that is not caught *)
Definition sent (m : VM (option sa_error)) : VM unit := let! e := m in match e with None => ret tt | Some _ => throw (RuntimeError "sqlalchemy.exc.DBAPIError") end.
(** [try: conn.execute(...) / except cls: conn.rollback() / else: raise AssertionError] *)
Definition expect_refused (caught : sa_error -> bool) (message : string) (conn : Z) (m : VM (option sa_error)) : VM unit :=
  let! e := m in
  match e with
  | None => throw (AssertionError message)
  | Some x => if caught x then al (al_rollback conn) else throw (RuntimeError "sqlalchemy.exc.DBAPIError")
  end.
Definition expect_int (n : Z) (m : VM Z) : VM unit := let! x := m in check_that (x =? n).
Definition core_checks (conn : Z) : VM unit :=
  do! sent (al (al_insert conn false [item 1 "first" [1; 0; 0]]));;
  do! sent (al (al_insert conn false [item 2 "second" [0; 1; 0]; item 3 "third" [0; 0; 1]]));;
  let! embedding := al (al_embedding conn 1) in
  let! unit_ := lift (Vector_new (ints [1; 0; 0])) in
  do! check_that (same_vector embedding unit_);;
  let! ids := al (al_ids_by_distance conn [1; 0; 0]) in
  do! check_that (bool_decide (ids = [1; 2; 3]));;
  let! has := al (al_has_table conn ITEMS) in
  do! check_that has;;
  let! names := al (al_table_names conn) in
  do! check_that (str_in ITEMS names);;
  do! expect_refused (fun e => match e with IntegrityError => true | _ => false end) "Expected atomic executemany rollback" conn
        (al (al_insert conn false [item 4 "rollback" [1; 0; 0]; item 1 "duplicate" [1; 0; 0]]));;
  do! expect_int 3 (al (al_count conn));;
  do! expect_refused (fun _ => true) "RETURNING must not silently discard rows" conn (al (al_insert conn true [item 5 "bad" [1; 0; 0]]));;
  expect_int 1 (al (al_scalar_text conn (py "SELECT rowid FROM documents_fts WHERE documents_fts MATCH :q") [(py "q", py "revised")])).
Definition sqlalchemy_checks : K unit :=
  let! c := v cluster in
  let! engine := v (al (al_engine (endpoints_of c all_voters))) in
  try_finally
    (do! v (al (al_create_table engine));;
     let! conn := v (al (al_connect engine)) in
     do! try_finally (v (core_checks conn)) (v (al (al_close conn)));;
     record "sqlalchemy_core_typed_vectors_fts_and_atomic_executemany")
    (v (al (al_dispose engine))).

Definition recovered (node : Z) : VM unit :=
  with_conn [node] 20 None (fun h =>
    let! index := call h (search_index (PStr (py "documents")) (PInt 3)) in
    do! expect_one 1 (matching h index "revised");;
    do! expect_ids [1; 2] (nearest_to h index [0; 0; 1] "l2");;
    do! expect_ids [1; 2] (fused h index "revised" [0; 0; 1] 2);;
    expect_scalar h (py "SELECT COUNT(*) FROM sqlalchemy_items") [] 3).
Definition features : K unit :=
  let! h := v (open_conn all_voters 20 None) in
  do! try_finally
        (do! version_checks h;;
         let! index := index_checks h in
         do! update_checks h index;;
         do! boundary_checks h index;;
         vector_checks h)
        (v (call h Client.close));;
  do! sqlalchemy_checks;;
  do! v (for_do all_voters stop);;
  do! v (for_do all_voters (fun node => start node false));;
  do! v (for_do all_voters recovered);;
  record "search_and_sqlalchemy_all_voter_crash_recovery".

(** ** main *)

Record FeatureArgs := mkFeatureArgs { fa_binary : pystr; fa_openssl : pystr; fa_output : pystr }.
Definition feature_run (args : FeatureArgs) (work : pystr) : K unit := checked_cluster (fa_binary args) (fa_openssl args) features work.
Definition feature_script (ROOT : pystr) (args : FeatureArgs) : K unit :=
  do! amend (rupdate [("complete", tbool false); ("platform", tstr h_platform); ("policy", tnone); ("format", tint 4);
    ("scope", tstr (py "three native processes, durable disk; vector/FTS/hybrid search and SQLAlchemy Core AUTOCOMMIT")); ("checks", Arr [])]%string);;
  let! binary := v (file_sha256 (fa_binary args)) in
  do! amend (rupdate [("binary_sha256"%string, tstr binary)]);;
  let! sources := v (base (service_sources ROOT ["src"; "service"; "transport"; "languages/python/src"]%string)) in
  do! amend (rupdate [("source_sha256"%string, manifest_report sources)]);;
  let scratch := join_path ROOT (py "build/search-work") in
  do! v (io_res (h_mkdir scratch));;
  do! v (io_res (h_mkdir (path_parent (fa_output args))));;
  written_last (fa_output args) (noting_error (in_directory scratch (feature_run args))).
Definition feature_main (ROOT : pystr) (args : FeatureArgs) : Hm (W := W) unit :=
  fun w => let '(r, s) := feature_script ROOT args ([], (no_voters, w)) in (r, s.2.2).
End Features.

(** ** The ORM (tools/check_orm_transactions.py)

    SQLAlchemy's sessions, objects and connections are handles of the interface
    [Orm].  What they raise is an exception of the program or one of SQLAlchemy's
    that keeps the original; the blocks between two records run in [O]. *)

Inductive sa_class := SaIntegrity | SaOperational | SaOther.
Inductive orm_exn := Plain (e : exn) | Sa (c : sa_class) (orig : exn).
Abbreviation sares := (res orm_exn).
(** [dbapi_connection.native._call], wrapped: what it kept goes along *)
Definition wrapper (W : Type) : Type := (dict -> C W dict) -> dict -> M exn ((Conn * W) * list (option PendingWrite)) dict.
Class Orm (W : Type) := {
  or_lab :: Lab W;
  (** engines, the tables of [Base], [Session(engine)] and its end *)
  or_engine : list Endpoint -> W -> sares Z * W;
  or_dispose : Z -> W -> sares unit * W;
  or_create_all : Z -> W -> sares unit * W;
  or_session : Z -> W -> sares Z * W;
  or_close : Z -> W -> sares unit * W;
  (** [session.begin()], [session.begin_nested()] and leaving them, after an
      exception or not *)
  or_begin : Z -> W -> sares unit * W;
  or_leave : Z -> bool -> W -> sares unit * W;
  or_nested : Z -> W -> sares Z * W;
  or_leave_nested : Z -> bool -> W -> sares unit * W;
  or_commit : Z -> W -> sares unit * W;
  or_rollback : Z -> W -> sares unit * W;
  or_flush : Z -> W -> sares unit * W;
  (** [Parent(name, children)], [Child(parent_id, label)], [session.add(x)],
      [session.get(Parent, id)]; attributes are read and written through the
      session *)
  or_parent : pystr -> list Z -> W -> sares Z * W;
  or_child : option Z -> pystr -> W -> sares Z * W;
  or_add : Z -> Z -> W -> sares unit * W;
  or_get : Z -> Z -> W -> sares (option Z) * W;
  or_id : Z -> W -> sares pyval * W;
  or_children : Z -> W -> sares (list Z) * W;
  or_name : Z -> W -> sares pyval * W;
  or_set_name : Z -> pystr -> W -> sares unit * W;
  (** the number of parents or of children; the name of a parent by its id *)
  or_parents : Z -> W -> sares Z * W;
  or_childs : Z -> W -> sares Z * W;
  or_name_of : Z -> Z -> W -> sares pyval * W;
  (** [engine.connect()], its end, its transaction, texts, [invalidate()] *)
  or_connect : Z -> W -> sares Z * W;
  or_disconnect : Z -> W -> sares unit * W;
  or_conn_begin : Z -> W -> sares unit * W;
  or_conn_leave : Z -> bool -> W -> sares unit * W;
  or_conn_commit : Z -> W -> sares unit * W;
  or_execute : Z -> pystr -> W -> sares unit * W;
  or_scalar_one : Z -> pystr -> W -> sares pyval * W;
  or_invalidate : Z -> W -> sares unit * W;
  (** [session.connection()]; of a connection, the library's own connection
      beneath, its timeout, [dbapi_connection.rollback()], and [_call] replaced *)
  or_session_connection : Z -> W -> sares Z * W;
  or_native : Z -> W -> sares Conn * W;
  or_set_timeout : Z -> Q -> W -> sares unit * W;
  or_raw_rollback : Z -> W -> sares unit * W;
  or_wrap_call : Z -> wrapper W -> W -> sares unit * W;
  or_kept : Z -> W -> sares (list (option PendingWrite)) * W
}.

(** [lose_commit]: a write that was applied is reported lost *)
Definition lose_commit {W} : wrapper W := fun original request s =>
  match original request s.1 with
  | (Ok response, (c, w)) =>
      match getitem "op" request with
      | Ok op => if eq_str op (py "execute") then (Raise (ConnectionError (py "test: reply lost after application")), ((c, w), s.2 ++ [c_pending c])) else (Ok response, ((c, w), s.2))
      | Raise e => (Raise e, ((c, w), s.2))
      | OutOfFuel => (OutOfFuel, ((c, w), s.2))
      end
  | (Raise e, t) => (Raise e, (t, s.2))
  | (OutOfFuel, t) => (OutOfFuel, (t, s.2))
  end.
Definition is_serialization (e : exn) : bool := isinstance e (CDb DBSerializationError).
(** [exc.orig.sqlstate], [exc.orig.pending] *)
Definition sqlstate (e : exn) : pyres pystr := if is_serialization e then Ok (py "40001") else Raise (AttributeError "sqlstate").
Definition orig_pending (e : exn) : pyres (option PendingWrite) :=
  match e with
  | Dbapi _ _ p => if isinstance e (CDb OperationalError) then Ok p else Raise (AttributeError "pending")
  | UnknownOutcome p => Ok (Some p)
  | _ => Raise (AttributeError "pending")
  end.

Section OrmChecks.
Context {W : Type} `{Orm W} (ROOT : pystr).
Abbreviation K := (Sc (W := Voters * W) report).
Abbreviation VM := (V (W := W)).
Definition O (A : Type) : Type := M orm_exn (Voters * W) A.
Definition plain {A} (m : VM A) : O A := fun s => match m s with (Ok a, t) => (Ok a, t) | (Raise e, t) => (Raise (Plain e), t) | (OutOfFuel, t) => (OutOfFuel, t) end.
(** An exception of SQLAlchemy's that nothing caught *)
Definition settle {A} (m : O A) : VM A := fun s =>
  match m s with
  | (Ok a, t) => (Ok a, t)
  | (Raise (Plain e), t) => (Raise e, t)
  | (Raise (Sa _ _), t) => (Raise (RuntimeError "sqlalchemy.exc"), t)
  | (OutOfFuel, t) => (OutOfFuel, t)
  end.
Definition sa {A} (f : W -> sares A * W) : O A := fun s => let '(r, w) := f s.2 in (r, (s.1, w)).
Definition expect (b : bool) : O unit := plain (check_that b).
(** [with]: entered, left after an exception or not *)
Definition leaving {S A} (leave : bool -> M orm_exn S unit) (body : M orm_exn S A) : M orm_exn S A :=
  let! a := try_except body (fun e => Some (do! leave true;; throw e)) in
  do! leave false;; ret a.
Definition with_session {A} (engine : Z) (body : Z -> O A) : O A :=
  let! session := sa (or_session engine) in try_finally (body session) (sa (or_close session)).
Definition with_begin {A} (session : Z) (body : O A) : O A := do! sa (or_begin session);; leaving (fun failed => sa (or_leave session failed)) body.
Definition with_nested {A} (session : Z) (body : O A) : O A := let! n := sa (or_nested session) in leaving (fun failed => sa (or_leave_nested n failed)) body.
Definition with_connection {A} (engine : Z) (body : Z -> O A) : O A :=
  let! conn := sa (or_connect engine) in try_finally (body conn) (sa (or_disconnect conn)).
Definition with_native {A} (nodes : list Z) (timeout : Q) (pending : option PendingWrite) (body : nat -> O A) : O A :=
  let! h := plain (open_conn nodes timeout pending) in try_finally (body h) (plain (call h Client.close)).
(** [try: m / except ValueError: pass], the same for IntegrityError *)
Definition pass_value_error (m : O unit) : O unit :=
  try_except m (fun e => match e with Plain e => if isinstance e CValueError then Some (ret tt) else None | Sa _ _ => None end).
Definition pass_integrity (m : O unit) : O unit := try_except m (fun e => match e with Sa SaIntegrity _ => Some (ret tt) | _ => None end).
(** [try: m / except cls as exc: handler / else: raise AssertionError] *)
Definition refused {A} (caught : sa_class) (message : string) (m : O unit) (handler : exn -> O A) : O A := fun s =>
  match m s with
  | (Ok _, t) => (Raise (Plain (AssertionError message)), t)
  | (Raise (Sa c orig), t) => match c, caught with SaIntegrity, SaIntegrity | SaOperational, SaOperational => handler orig t | _, _ => (Raise (Sa c orig), t) end
  | (Raise e, t) => (Raise e, t)
  | (OutOfFuel, t) => (OutOfFuel, t)
  end.
Definition add_parent (session : Z) (name : string) : O unit := let! parent := sa (or_parent (py name) []) in sa (or_add session parent).
Definition got (session id : Z) : O Z :=
  let! x := sa (or_get session id) in match x with Some x => ret x | None => throw (Plain (AttributeError "name")) end.
Definition expect_name (session id : Z) (name : string) : O unit := let! x := got session id in let! n := sa (or_name x) in expect (eq_str n (py name)).
Definition rename (session id : Z) (name : string) : O unit := let! x := got session id in sa (or_set_name x (py name)).
Definition expect_count (n : Z) (m : O Z) : O unit := let! k := m in expect (k =? n).
Definition scalar_is (h : nat) (sql : string) (n : Z) : O unit := plain (expect_scalar h (py sql) [] n).
Definition text_is (h : nat) (sql name : string) : O unit := let! x := plain (db_scalar h (py sql) []) in expect (eq_str x (py name)).

Definition visibility (engine : Z) : O unit :=
  with_session engine (fun session => with_native all_voters 20 None (fun outside =>
    let! parent := with_begin session
      (let! child := sa (or_child None (py "first")) in
       let! parent := sa (or_parent (py "committed") [child]) in
       do! sa (or_add session parent);;
       do! sa (or_flush session);;
       let! id := sa (or_id parent) in
       do! expect (eq_int id 1);;
       let! children := sa (or_children parent) in
       let! first := plain (lift (list_index children 0)) in
       let! id := sa (or_id first) in
       do! expect (eq_int id 1);;
       do! expect_count 1 (sa (or_parents session));;
       do! scalar_is outside "SELECT COUNT(*) FROM orm_parent" 0;;
       do! sa (or_set_name parent (py "updated after flush"));;
       ret parent) in
    let! name := sa (or_name parent) in
    do! expect (eq_str name (py "updated after flush"));;
    let! seen := plain (db_scalar outside (py "SELECT name FROM orm_parent") []) in
    let! name := sa (or_name parent) in
    expect (same_cell seen name))).
Definition rollbacks (engine : Z) : O unit :=
  do! with_session engine (fun session =>
        do! add_parent session "rolled back";; do! sa (or_flush session);; do! sa (or_rollback session);; expect_count 1 (sa (or_parents session)));;
  do! pass_value_error (with_session engine (fun session => with_begin session
        (do! add_parent session "exception rollback";; do! sa (or_flush session);; throw (Plain (ValueError "application error")))));;
  do! with_session engine (fun session => do! add_parent session "close rollback";; sa (or_flush session));;
  with_native all_voters 10 None (fun db => scalar_is db "SELECT COUNT(*) FROM orm_parent" 1).
Definition savepoints (engine : Z) : O unit :=
  with_session engine (fun session => with_begin session
    (do! add_parent session "outer";;
     do! sa (or_flush session);;
     do! pass_value_error (with_nested session (do! add_parent session "nested rollback";; do! sa (or_flush session);; throw (Plain (ValueError "rollback savepoint"))));;
     do! pass_integrity (with_nested session (do! add_parent session "outer";; sa (or_flush session)));;
     do! with_nested session (add_parent session "nested committed");;
     expect_count 3 (sa (or_parents session)))).
Definition foreign_key (engine : Z) : O unit :=
  with_session engine (fun session =>
    do! (let! child := sa (or_child (Some 99999) (py "bad foreign key")) in sa (or_add session child));;
    do! refused SaIntegrity "Immediate foreign key constraint must reject flush" (sa (or_flush session)) (fun _ => sa (or_rollback session));;
    expect_count 1 (sa (or_childs session))).
Definition write_skew (engine other : Z) : O unit :=
  with_session engine (fun first => with_session other (fun second =>
    do! expect_count 3 (sa (or_parents first));;
    do! expect_count 3 (sa (or_parents second));;
    do! rename first 1 "disjoint winner";;
    do! rename second 2 "disjoint loser";;
    do! sa (or_flush first);; do! sa (or_flush second);; do! sa (or_commit first);;
    do! refused SaOperational "Predicate read/disjoint write must conflict" (sa (or_commit second))
          (fun orig => do! expect (is_serialization orig);; sa (or_rollback second));;
    expect_name second 2 "outer")).
Definition conflict (engine other : Z) : O unit :=
  with_session engine (fun first => with_session other (fun second =>
    let! a := sa (or_get first 1) in
    let! b := sa (or_get second 1) in
    do! match a with Some a => sa (or_set_name a (py "first winner")) | None => throw (Plain (AttributeError "name")) end;;
    do! match b with Some b => sa (or_set_name b (py "stale loser")) | None => throw (Plain (AttributeError "name")) end;;
    do! sa (or_flush first);; do! sa (or_flush second);; do! sa (or_commit first);;
    do! refused SaOperational "Stale transaction must not overwrite a committed update" (sa (or_commit second))
          (fun orig =>
             do! expect (is_serialization orig);;
             let! state := plain (lift (sqlstate orig)) in
             do! expect (pyeqb state (py "40001"));;
             sa (or_rollback second));;
    do! expect_name second 1 "first winner";;
    do! sa (or_rollback second);;
    with_begin second (rename second 1 "retry winner"))).
Definition repeatable_read (engine : Z) : O unit :=
  with_session engine (fun session => with_native all_voters 10 None (fun db =>
    do! expect_name session 1 "retry winner";;
    do! plain (let! _ := db_execute db (py "UPDATE orm_parent SET name='concurrent' WHERE id=1") [] in ret tt);;
    refused SaOperational "Changed snapshot must abort subsequent reads" (let! _ := sa (or_parents session) in ret tt)
      (fun orig => do! expect (is_serialization orig);; sa (or_rollback session)))).
Definition core_atomic (engine : Z) : O unit :=
  do! with_connection engine (fun conn =>
        do! sa (or_conn_begin conn);;
        leaving (fun failed => sa (or_conn_leave conn failed))
          (do! sa (or_execute conn (py "UPDATE orm_parent SET name='core atomic' WHERE id=1"));;
           let! name := sa (or_scalar_one conn (py "SELECT name FROM orm_parent WHERE id=1")) in
           expect (eq_str name (py "core atomic"))));;
  do! with_connection engine (fun conn => sa (or_execute conn (py "UPDATE orm_parent SET name='pool rollback' WHERE id=1")));;
  with_native all_voters 10 None (fun db => text_is db "SELECT name FROM orm_parent WHERE id=1" "core atomic").

(** A local variable that outlives an exception *)
Definition kept_in {L A} (m : O A) : M orm_exn (L * (Voters * W)) A := fun s => let '(r, t) := m s.2 in (r, (s.1, t)).
Definition assign {L} (x : L) : M orm_exn (L * (Voters * W)) unit := modify (fun s => (x, s.2)).
Definition with_local {L A} (init : L) (m : M orm_exn (L * (Voters * W)) A) (ending : L -> O unit) : O A := fun s =>
  let '(r, (l, t)) := m (init, s) in try_finally (fun _ => (r, t)) (ending l) s.
(** [next(m['id'] for m in c.members if m['address'] == address)] *)
Definition victim_of (members : list Member) (address : pystr) : pyres Z :=
  match filter (fun m => m_address m = address) members with m :: _ => Ok (m_id m) | [] => Raise StopIteration end.
Definition contacted (session : Z) : O Z :=
  let! conn := sa (or_session_connection session) in
  let! raw := sa (or_native conn) in
  let! endpoint := plain (lift (list_index (c_endpoints raw) (c_index raw))) in
  let! c := plain cluster in
  plain (lift (victim_of (n_members c) (address endpoint))).
(** The voter the session talks to stops before the commit and starts after it. *)
Definition failover (engine : Z) : O unit :=
  with_local None
    (let! session := kept_in (sa (or_session engine)) in
     try_finally
       (do! kept_in (sa (or_begin session));;
        leaving (fun failed => kept_in (sa (or_leave session failed)))
          (do! kept_in (rename session 1 "staged failover");;
           do! kept_in (sa (or_flush session));;
           let! node := kept_in (contacted session) in
           do! assign (Some node);;
           kept_in (do! plain (stop node);; let! name := sa (or_name_of session 1) in expect (eq_str name (py "staged failover")))))
       (kept_in (sa (or_close session))))
    (fun victim => match victim with Some node => plain (start node false) | None => ret tt end).

(** [pending.read_version] *)
Definition known (pending : option PendingWrite) : pyres PendingWrite := match pending with Some p => Ok p | None => Raise (AttributeError "read_version") end.
Definition resolved_at (nodes : list Z) (pending : option PendingWrite) : O unit :=
  with_native nodes 20 pending (fun db => plain (let! _ := call db resolve_pending in ret tt)).
(** An unresolved identity must not become a reported rollback. *)
Definition rollback_blocked (conn : Z) : O unit :=
  let! blocked := try_except (do! sa (or_raw_rollback conn);; ret false)
    (fun e => match e with Plain e => if isinstance e (CDb OperationalError) then Some (ret true) else None | Sa _ _ => None end) in
  if (blocked : bool) then ret tt else throw (Plain (AssertionError "Unknown commit must block rollback")).
Definition uncertain_commit (engine : Z) : O unit :=
  with_connection engine (fun conn =>
    do! sa (or_wrap_call conn lose_commit);;
    do! sa (or_execute conn (py "UPDATE orm_parent SET name='ack recovered' WHERE id=1"));;
    refused SaOperational "Expected explicit uncertain commit" (sa (or_conn_commit conn)) (fun orig =>
      let! pending := plain (lift (orig_pending orig)) in
      let! kept := sa (or_kept conn) in
      let! last := plain (lift (list_index kept (-1))) in
      do! expect (match pending, last with Some p, Some q => same_pending p q | None, None => true | _, _ => false end);;
      let! p := plain (lift (known pending)) in
      do! expect (0 <? read_version p);;
      let! text := plain (lift (to_json p)) in
      let! saved := plain (lift (from_json text)) in
      do! resolved_at [2] (Some saved);;
      do! rollback_blocked conn;;
      sa (or_invalidate conn))).
Definition minority_commit (engine : Z) : O unit :=
  with_connection engine (fun conn =>
    do! sa (or_execute conn (py "UPDATE orm_parent SET name='quorum recovered' WHERE id=3"));;
    do! plain (do! stop 2;; stop 3);;
    let! pending := try_finally
      (do! sa (or_set_timeout conn 1);;
       refused SaOperational "A minority must not acknowledge a commit" (sa (or_conn_commit conn)) (fun orig =>
         let! pending := plain (lift (orig_pending orig)) in
         do! expect (match pending with Some p => 0 <? read_version p | None => false end);;
         ret pending))
      (plain (do! start 2 false;; start 3 false)) in
    do! resolved_at [3] pending;;
    sa (or_invalidate conn)).
Definition survived (node : Z) : VM unit :=
  with_conn [node] 20 None (fun h =>
    do! (let! name := db_scalar h (py "SELECT name FROM orm_parent WHERE id=1") [] in check_that (eq_str name (py "ack recovered")));;
    do! expect_scalar h (py "SELECT COUNT(*) FROM orm_parent") [] 3;;
    expect_scalar h (py "SELECT COUNT(*) FROM orm_child") [] 1).
Definition with_engines (engine other : Z) : K unit :=
  do! v (settle (sa (or_create_all engine)));;
  do! v (settle (visibility engine));;
  do! record "orm_begin_flush_generated_keys_relationships_and_visibility";;
  do! v (settle (rollbacks engine));;
  do! record "orm_rollback_exception_and_close_discard_all_staged_writes";;
  do! v (settle (savepoints engine));;
  do! record "orm_nested_savepoint_rollback_constraint_and_release";;
  do! v (settle (foreign_key engine));;
  do! record "orm_foreign_key_flush_error_and_session_reuse";;
  do! v (settle (write_skew engine other));;
  do! record "orm_predicate_reads_and_disjoint_writes_prevent_write_skew";;
  do! v (settle (conflict engine other));;
  do! record "orm_cross_master_conflict_and_complete_transaction_retry";;
  do! v (settle (repeatable_read engine));;
  do! record "orm_repeatable_read_detects_intervening_commit";;
  do! v (settle (core_atomic engine));;
  do! record "core_transaction_and_pool_reset_rollback";;
  do! v (settle (failover engine));;
  do! record "orm_staged_transaction_survives_contacted_voter_loss";;
  do! v (settle (uncertain_commit engine));;
  do! record "orm_uncertain_commit_identity_recovery_on_another_master";;
  do! v (settle (minority_commit engine));;
  do! record "orm_minority_commit_unknown_then_quorum_recovery";;
  do! v (for_do all_voters stop);;
  do! v (for_do all_voters (fun node => start node false));;
  do! v (for_do all_voters survived);;
  record "orm_commits_survive_all_voter_crash_recovery".
Definition orm_checks : K unit :=
  let! c := v cluster in
  let! engine := v (settle (sa (or_engine (endpoints_of c all_voters)))) in
  let! other := v (settle (sa (or_engine (drop 1 (endpoints_of c all_voters))))) in
  try_finally (with_engines engine other) (v (settle (do! sa (or_dispose engine);; sa (or_dispose other)))).

Record OrmArgs := mkOrmArgs { oa_binary : pystr; oa_output : pystr }.
Definition orm_report (output : pystr) : K unit :=
  do! v (io_res (h_mkdir (path_parent output)));;
  let! rep := reported in v (io_res (h_write_json output (Obj rep))).
Definition orm_script (args : OrmArgs) : K unit :=
  let! binary := v (file_sha256 (oa_binary args)) in
  let! sources := v (base (service_sources ROOT ["src"; "service"; "languages/python/src"]%string)) in
  do! amend (rupdate [("complete", tbool false); ("format", tint 4); ("policy", tnone); ("platform", tstr h_platform); ("checks", Arr []);
    ("binary_sha256", tstr binary); ("source_sha256", manifest_report sources)]%string);;
  let scratch := join_path ROOT (py "build/orm-work") in
  do! v (io_res (h_mkdir scratch));;
  try_finally (noting_error (in_directory scratch (checked_cluster (oa_binary args) (join_path ROOT (py "build/native/openssl")) orm_checks))) (orm_report (oa_output args)).
Definition orm_main (args : OrmArgs) : Hm (W := W) unit :=
  fun w => let '(r, s) := orm_script args ([], (no_voters, w)) in (r, s.2.2).
End OrmChecks.

(** ** The repeated write *)

Section Repeated.
Context {W : Type} `{Env W}.

(** Every statement of a block is kept *)
Lemma tx_build_length stmts ss vs ss' vs' : tx_build stmts ss vs = Ok (ss', vs') -> length ss' = (length ss + length stmts)%nat.
Proof.
  revert ss vs. induction stmts as [|[sql ps] l IH]; intros ss vs Hb; cbn [tx_build] in Hb; [simplify_eq; cbn; lia|].
  res_inv. destruct (utf8_len _) as [m|]; [|done]. res_inv. apply IH in Hb. rewrite Hb, length_app. cbn. lia.
Qed.

(** A connection as [features] uses it: it has written, and has nothing pending *)
Definition rested (c : Conn) : Prop := c_closed c = false /\ c_transaction c = false /\ c_pending c = None /\ c_epoch c <> None.

(** The write that check_python_features.py repeats at another voter is the
    write its update sent: on a connection that has written and has nothing
    pending, whenever [captured] yields a request, the index's [put] amounts,
    under the lock, to recording exactly that request as pending and resolving
    it, with the connection's session, sequence and epoch. *)
Theorem captured_sent (si : SearchIndex) (c : Conn) (p : PendingWrite) (w : W) :
  rested c -> captured si c = Ok p ->
  Search.put si (PInt 1) (PStr (py "Changed")) (PStr (py "revised protocol")) (ints [0; 0; 1]) (c, w) =
    with_lock (do! Client.update (set_pending (Some p));; let! r := _resolve in ret (Some r)) (c, w).
Proof.
  intros (Hcl & Htr & Hp & He). unfold captured. intros Hc.
  destruct (as_vector si (ints [0; 0; 1])) as [v|e|] eqn:Ev; [|done..]. cbn [res_bind] in Hc.
  destruct (tx_build (put_block si (PInt 1) _ _ v) [] []) as [[sts ps]|e|] eqn:Eb; [|done..]. cbn [res_bind fst snd] in Hc.
  apply tx_build_length in Eb as Hne.
  destruct c as [eps cl ti se sq pe ep ix lo cd tr]. cbn [c_closed c_transaction c_pending c_epoch c_session c_sequence] in *. subst cd tr pe.
  unfold Search.put, bind at 1. change (check_id (PInt 1) _) with (Ok (E := exn) 1). cbn [lift]. unfold bind at 1. rewrite Ev. cbn [lift].
  rewrite transaction_unfold. unfold transaction_op, with_lock, _ready, _execute_prepared, self, Client.update, gets, modify, lift, try_finally, bind.
  cbn [fst snd set_lock c_closed c_transaction c_pending c_epoch c_session c_sequence c_lock]. destruct ep as [ep|]; [|done]. cbn [default] in Hc.
  unfold ret. cbn [fst snd set_lock c_closed c_transaction c_pending]. rewrite bool_decide_eq_false_2 by auto. rewrite Eb. cbn [fst snd].
  destruct sts as [|s0 sts]; [done|]. rewrite bool_decide_eq_false_2 by done. cbn [fst snd c_pending c_session c_sequence c_epoch set_lock default].
  rewrite Hc. cbn [fst snd].
  reflexivity.
Qed.
End Repeated.

(** ** What its report says *)

Definition feature_names : list pystr := py <$>
  ["pinned_sqlite_fts_and_vector_versions"; "atomic_search_index_fts_vector_and_single_snapshot_hybrid"; "search_update_delete_and_cross_master_vector_retry";
   "fts_and_content_rollback_and_policy_boundary"; "384_dimension_typed_binding_blob_roundtrip"; "sqlalchemy_core_typed_vectors_fts_and_atomic_executemany";
   "search_and_sqlalchemy_all_voter_crash_recovery"]%string.
Definition claims_complete (rep : report) : Prop := rget "complete" rep = Some (tbool true).
(** A report that claims to be complete holds every check, and a success claims it. *)
Definition complete_honest (names : list pystr) (r : res exn unit) (rep : report) : Prop :=
  (claims_complete rep -> rget "checks" rep = Some (Arr (check_entry <$> local_checks ++ names))) /\ (r = Ok tt -> claims_complete rep).

Section Complete.
Context {W : Type} `{Lab W}.
Abbreviation St := (report * (Voters * W))%type.

(** The service's checks do not touch the claim *)
Abbreviation calm := (leaves ["complete"]%string).
Lemma calm_record name : calm (record (W := W) name).
Proof. unfold record, record_text. leaves_auto. apply leaves_amend. intros r k Hk. apply rget_rappend_other. set_unfold. destruct Hk; [by subst|done]. Qed.
Lemma calm_checks ct : calm (checks (W := W) ct false).
Proof.
  unfold checks, ServiceChecks.cli_checks, schema_checks, row_checks, transaction_checks, readonly_checks, pragma_checks, security_checks, concurrent_checks, dedup_checks,
    isolation_checks, restart_checks, lifecycle_checks, when. cbv zeta. cbn [negb].
  repeat first [progress leaves_auto | apply leaves_finally | apply calm_record].
Qed.
Definition unclaimed (rep : report) : Prop := ~ claims_complete rep /\ rget "checks" rep = Some (Arr []).
Lemma honest_unclaimed names r rep : ~ claims_complete rep -> r <> Ok tt -> complete_honest names r rep.
Proof. by split. Qed.
Lemma unclaimed_note rep kvs :
  forallb (fun k => forallb (fun '(k', _) => negb (pyeqb (py k') (py k))) kvs) ["checks"; "complete"]%string = true ->
  unclaimed rep -> unclaimed (rupdate kvs rep).
Proof. cbn [forallb]. intros Hk. unbool. intros [Hn Hc]. unfold unclaimed, claims_complete. by rewrite !rget_rupdate_other. Qed.
(** A note under another key *)
Lemma complete_note names r r' rep kvs :
  forallb (fun k => forallb (fun '(k', _) => negb (pyeqb (py k') (py k))) kvs) ["checks"; "complete"]%string = true ->
  complete_honest names r rep -> (r' = Ok tt -> r = Ok tt) -> complete_honest names r' (rupdate kvs rep).
Proof. cbn [forallb]. intros Hk. unbool. intros [Hn Hc] Hr. unfold complete_honest, claims_complete in *. rewrite !rget_rupdate_other by done. auto. Qed.
Lemma before {A} names (m : V A) (k : A -> Sc (W := Voters * W) report unit) (Q : res exn unit -> St -> Prop) (s : St) :
  unclaimed s.1 -> (forall r s', complete_honest names r s'.1 -> r <> Ok tt -> Q r s') -> (forall a w, wp (k a) Q (s.1, w)) -> wp (bind (v m) k) Q s.
Proof. intros [Hv Hc] HQ Hk. apply wp_bind, wp_host_step. intros [a|e|] w; [apply Hk|by apply HQ; [apply honest_unclaimed|]..]. Qed.

(** What the checks of the cluster leave: every name on success, no claim *)
Lemma checked names (body : Sc report unit) (s : St) :
  emits names body -> calm body -> unclaimed s.1 ->
  wp (do! checks local_control false;; body)
     (fun r s' => ~ claims_complete s'.1 /\ (r = Ok tt -> rget "checks" s'.1 = Some (Arr (check_entry <$> local_checks ++ names)))) s.
Proof.
  intros Hem Hcalm [Hn Hc]. eapply wp_mono; [apply wp_and|].
  - apply (emits_bind _ _ _ names (emits_checks local_control)); [intros ?; exact Hem|exact Hc].
  - apply (leaves_bind ["complete"%string]); [apply calm_checks|intros ?; exact Hcalm].
  - intros r s' [(_ & l & Hl & Heq) Hk]. split; [unfold claims_complete; rewrite Hk by set_solver; exact Hn|]. intros ->. by rewrite Heq in Hl.
Qed.
Lemma bind_twice {E T A B C} (m : M E T A) (f : A -> M E T B) (g : B -> M E T C) Q (s : T) :
  wp (bind (bind m f) g) Q s -> wp (bind m (fun a => bind (f a) g)) Q s.
Proof. unfold wp, bind. by destruct (m s) as [[?|?|] ?]. Qed.
Lemma checked_cluster_honest names binary openssl body work (s : St) :
  emits names body -> calm body -> unclaimed s.1 -> wp (checked_cluster binary openssl body work) (fun r s' => complete_honest names r s'.1) s.
Proof.
  intros Hem Hcalm Ho. unfold checked_cluster.
  assert (Hrest : forall s1 : St, unclaimed s1.1 ->
    wp (let! path := v (base (gets (h_resolve binary))) in
        let! c := v (base (Voters_new work path openssl 4 "manual")) in
        do! v (with_cluster (fun _ => c));;
        try_finally (do! checks local_control false;; do! body;; let! policy := v policy_of in
                     amend (rupdate [("policy", J policy); ("complete", tbool true)]%string))
          (close_and_log 6000 work (ret tt))) (fun r s' => complete_honest names r s'.1) s1).
  { intros s1 H1. do 3 (apply (before names); [done|done|]; intros ? ?). apply wp_try_finally.
    apply (wp_mono _ (fun r s' => complete_honest names r s'.1)).
    - apply bind_twice, wp_bind. eapply wp_mono; [by apply checked|]. intros [[]|e|] s2 [Hn Hc]; [|by apply honest_unclaimed..].
      apply wp_bind, wp_host_step. intros [policy|e|] w2; [|by apply honest_unclaimed..]. apply wp_amend. cbn [fst].
      split; [|intros _; exact (rget_rset "complete" (tbool true) (rupdate [("policy"%string, J policy)] s2.1))].
      intros _. rewrite rget_rupdate_other by done. by apply Hc.
    - intros r s2 Hh. assert (Hq : forall s3 : St, wp (close_and_log (W := W) 6000 work (ret tt)) (fun _ s4 => complete_honest names r s3.1 -> complete_honest names r s4.1) s3).
      { intros s3. unfold close_and_log. do 2 (apply wp_bind, wp_host_step; intros [?|?|] ?; [|cbn [fst]; auto..]).
        apply wp_bind, wp_host_step. intros [logs|?|] ?; [|cbn [fst]; auto..]. apply wp_amend. intros Hf. by apply (complete_note names r). }
      destruct r as [[]|e|]; [| |done]; (eapply wp_mono; [apply Hq|]); intros [[]|?|] s4 H4; specialize (H4 Hh); try done; by destruct H4. }
  unfold note_filesystem. apply wp_bind. destruct h_linux; [|by apply wp_ret, Hrest].
  apply wp_bind, wp_host_step. intros [fs|e|] w; [|by destruct Ho; apply honest_unclaimed..].
  apply wp_bind, wp_amend, wp_host_step. cbn [fst snd].
  assert (Hfs : unclaimed (rupdate [("filesystem"%string, J fs)] s.1)) by (by apply unclaimed_note).
  intros [[]|e|] w1; [by apply Hrest|by destruct Hfs; apply honest_unclaimed..].
Qed.

Lemma directory_honest names scratch run (s : St) :
  (forall work s1, unclaimed s1.1 -> wp (run work) (fun r s' => complete_honest names r s'.1) s1) ->
  unclaimed s.1 -> wp (noting_error (in_directory scratch run)) (fun r s' => complete_honest names r s'.1) s.
Proof.
  intros Hrun Ho. apply wp_recording. eapply (wp_mono _ (fun r s' => complete_honest names r s'.1)).
  - unfold in_directory. apply (before names); [done|done|]. intros work w3. apply wp_try_finally. eapply wp_mono; [by apply Hrun|].
    intros r s3 Hh. destruct r as [[]|e|]; [| |done]; apply wp_host_step; intros [?|?|] w4; cbn [fst]; first [done|by destruct Hh].
  - intros [[]|e|] s3 Hh; [done| |done]. by apply (complete_note names (Raise e)).
Qed.
End Complete.

Section Reported.
Context {W : Type} `{Alchemy W}.
Abbreviation St := (report * (Voters * W))%type.

Lemma emits_alchemy : emits [py "sqlalchemy_core_typed_vectors_fts_and_atomic_executemany"] (sqlalchemy_checks (W := W)).
Proof.
  unfold sqlalchemy_checks. do 2 (apply emits_then; [apply emits_host|intros ?]). apply emits_finally. emits_auto.
  apply emits_then; [apply emits_finally, emits_host|intros ?]. apply emits_record.
Qed.
Lemma emits_index h : emits [py "atomic_search_index_fts_vector_and_single_snapshot_hybrid"] (index_checks (W := W) h).
Proof. unfold index_checks. emits_auto. Qed.
Lemma emits_opened h :
  emits (take 5 feature_names)
    (do! version_checks (W := W) h;; let! index := index_checks h in do! update_checks h index;; do! boundary_checks h index;; vector_checks h).
Proof.
  apply (emits_bind _ _ [_]); [unfold version_checks; emits_auto|intros ?].
  apply (emits_bind _ _ [_] _ (emits_index h)). intros index.
  apply (emits_bind _ _ [_]); [unfold update_checks; emits_auto|intros ?].
  apply (emits_bind _ _ [_]); [unfold boundary_checks; emits_auto|intros ?].
  unfold vector_checks. emits_auto.
Qed.
Lemma emits_features : emits feature_names (features (W := W)).
Proof.
  unfold features. apply emits_then; [apply emits_host|intros h].
  apply (emits_bind _ _ (take 5 feature_names)); [apply emits_finally, emits_opened|intros ?].
  apply (emits_bind _ _ [_] _ emits_alchemy). intros ?. emits_auto.
Qed.

Lemma calm_features : leaves ["complete"%string] (features (W := W)).
Proof.
  unfold features, version_checks, index_checks, update_checks, boundary_checks, vector_checks, sqlalchemy_checks.
  repeat first [progress leaves_auto | apply leaves_finally | apply calm_record].
Qed.

(** Check_python_features.py claims nothing it did not check: whatever the
    voters, SQLAlchemy and the host do, a report that says complete holds the
    sixteen checks of the service and the seven of the features, in their order;
    the script succeeds only with such a report, written to its output. *)
Theorem features_complete (ROOT : pystr) (args : FeatureArgs) (s : Voters * W) :
  wp (feature_script ROOT args) (fun r s' => complete_honest feature_names r s'.1 /\ (r = Ok tt -> written (fa_output args) (Obj s'.1) s'.2)) ([], s).
Proof.
  unfold feature_script. apply wp_bind, wp_amend. cbn [fst snd].
  match goal with |- wp _ _ (?rep, _) => assert (Ho : unclaimed rep) by (by split); generalize dependent rep end. intros rep Ho.
  apply (before feature_names); [done|done|]. intros digest w1. apply wp_bind, wp_amend. cbn [fst snd].
  apply (unclaimed_note _ [("binary_sha256"%string, tstr digest)]) in Ho; [|done]. apply (before feature_names); [done|done|]. intros sources w2. apply wp_bind, wp_amend. cbn [fst snd].
  apply (unclaimed_note _ [("source_sha256"%string, manifest_report sources)]) in Ho; [|done]. do 2 (apply (before feature_names); [done|done|]; intros ? ?).
  eapply wp_mono; [apply (wp_writing _ _ _ (complete_honest feature_names))|].
  - apply directory_honest; [|done]. intros work s1 H1. apply checked_cluster_honest; [apply emits_features|apply calm_features|done].
  - intros r s3 (r0 & [H1 H2] & Hw & Hr). split; [split; [done|]|].
    + intros ->. apply H2. by apply Hr.
    + intros ->. destruct Hw as [?|Hw]; [done|exact Hw].
Qed.
End Reported.

Definition orm_names : list pystr := py <$>
  ["orm_begin_flush_generated_keys_relationships_and_visibility"; "orm_rollback_exception_and_close_discard_all_staged_writes"; "orm_nested_savepoint_rollback_constraint_and_release";
   "orm_foreign_key_flush_error_and_session_reuse"; "orm_predicate_reads_and_disjoint_writes_prevent_write_skew"; "orm_cross_master_conflict_and_complete_transaction_retry";
   "orm_repeatable_read_detects_intervening_commit"; "core_transaction_and_pool_reset_rollback"; "orm_staged_transaction_survives_contacted_voter_loss";
   "orm_uncertain_commit_identity_recovery_on_another_master"; "orm_minority_commit_unknown_then_quorum_recovery"; "orm_commits_survive_all_voter_crash_recovery"]%string.

Section OrmReported.
Context {W : Type} `{Orm W}.
Abbreviation St := (report * (Voters * W))%type.

Lemma emits_orm : emits orm_names (orm_checks (W := W)).
Proof. unfold orm_checks, with_engines. do 3 (apply emits_then; [apply emits_host|intros ?]). apply emits_finally. emits_auto. Qed.
Lemma calm_orm : leaves ["complete"%string] (orm_checks (W := W)).
Proof. unfold orm_checks, with_engines. repeat first [progress leaves_auto | apply leaves_finally | apply calm_record]. Qed.

(** The same of check_orm_transactions.py, whose report exists only once the
    binary and the sources are known: before that nothing is claimed. *)
Theorem orm_complete (ROOT : pystr) (args : OrmArgs) (s : Voters * W) :
  wp (orm_script ROOT args)
    (fun r s' => (s'.1 = [] /\ r <> Ok tt) \/ complete_honest orm_names r s'.1 /\ (r = Ok tt -> written (oa_output args) (Obj s'.1) s'.2)) ([], s).
Proof.
  unfold orm_script. do 2 (apply wp_bind, wp_host_step; intros [?|?|] ?; [|by left..]). cbn [fst snd].
  apply wp_bind, wp_amend. cbn [fst snd].
  match goal with |- wp _ _ (?rep, _) => assert (Ho : unclaimed rep) by (by split); generalize dependent rep end. intros rep Ho.
  apply (before orm_names); [done|by right|]. intros ? w1. cbn [fst].
  apply wp_try_finally. eapply wp_mono; [apply (directory_honest orm_names)|]; [|exact Ho|].
  { intros work s1 H1. apply checked_cluster_honest; [apply emits_orm|apply calm_orm|done]. }
  intros r s1 Hh.
  assert (Hend : wp (orm_report (oa_output args)) (fun r' s2 => s2.1 = s1.1 /\ (r' = Ok tt -> written (oa_output args) (Obj s2.1) s2.2)) s1).
  { unfold orm_report. apply wp_bind, wp_host_step. intros [[]|e|] w2; [|by split..]. apply wp_bind, wp_gets, wp_on_host, wp_intro. cbn [fst snd].
    intros r' w3 Hw. split; [done|]. intros _. exists w2. unfold io_res in Hw. by rewrite Hw. }
  destruct Hh as [H1 H2].
  destruct r as [[]|e|]; [| |by right; split]; (eapply wp_mono; [exact Hend|]); intros [[]|e'|] s2 [Hr Hw]; right; rewrite Hr; (split; [split; [done|]|]); try done.
  all: intros _; rewrite <-Hr; by apply Hw.
Qed.
End OrmReported.
