(* ===== verification/Gate.v ===== *)
(** * tools/check.py and tools/check_consensus_matrix.py: the release gate

    check.py runs every check of the repository in one scratch directory: the
    pinned dependency, style, unit tests in each configuration, simulations of
    seeded faults, an example, a benchmark smoke run and the failure of a
    command.  check_consensus_matrix.py repeats the dependency's tests and the
    simulations.  A report says complete only when the whole plan of commands
    ran, in order, and each result is what it must be. *)

From Stdlib Require Import QArith.
From Corelib Require Import Floats.SpecFloat.
From S2P Require Import Prelude PyStr PyFloat Objects Json Vector Text Dict Host Script Service ServiceChecks Capacity Returns.
#[local] Open Scope Z_scope.

Class Gating (W : Type) := {
  g_host :: Host W;
  g_executable : pystr;
  (** [path.unlink(missing_ok=True)], [path.chmod(mode)] *)
  g_unlink : pystr -> W -> pyres unit * W;
  g_chmod : pystr -> Z -> W -> pyres unit * W;
  (** [os.environ['TMPDIR'] = path; tempfile.tempdir = path] *)
  g_tempdir : pystr -> W -> W;
  (** [subprocess.run(argv, cwd=..., env=dict(os.environ, k=v), timeout=...)] *)
  g_run_env : list pystr -> pystr -> list (pystr * pystr) -> Q -> W -> pyres Finished * W
}.

Definition PIN : pystr := py "c3d197016c1f938db23fdf7f1fe87fbdbb86ac1c".
Definition PACKAGES : list pystr := py <$>
  ["tests"; "sim"; "bench"; "cli"; "internal/durability_probe"; "internal/process_probe"; "bench/realworld"; "service"; "transport/mtls"]%string.

(** ** The report *)

(** An entry of [report['commands']]: the command, then its exit code or error,
    and how long it took. *)
Record Entry := mkEntry { en_command : list pystr; en_exit : option Z; en_error : option pystr; en_seconds : option Q }.
Definition set_exit (code : Z) (e : Entry) : Entry := mkEntry (en_command e) (Some code) (en_error e) (en_seconds e).
Definition set_error (error : pystr) (e : Entry) : Entry := mkEntry (en_command e) (en_exit e) (Some error) (en_seconds e).
Definition set_seconds (q : Q) (e : Entry) : Entry := mkEntry (en_command e) (en_exit e) (en_error e) (Some q).

Record TestRun := mkTestRun { tr_package : pystr; tr_flags : list pystr; tr_result : pyval }.
Record Simulation := mkSimulation { sm_command : list pystr; sm_exit : Z; sm_output : pystr }.

Record GateReport := mkGateReport {
  gr_harness : pystr; gr_complete : bool;
  gr_commands : list Entry; gr_tests : list TestRun; gr_simulations : list Simulation; gr_benchmarks : list pyval;
  gr_manifest : option pystr; gr_cli : option Finished; gr_error : option pystr; gr_sources : option (list (pystr * pystr))
}.
Definition fresh_report (harness : pystr) : GateReport := mkGateReport harness false [] [] [] [] None None None None.
Definition with_commands (f : list Entry -> list Entry) (r : GateReport) : GateReport :=
  mkGateReport (gr_harness r) (gr_complete r) (f (gr_commands r)) (gr_tests r) (gr_simulations r) (gr_benchmarks r) (gr_manifest r) (gr_cli r) (gr_error r) (gr_sources r).
Definition add_command (command : list pystr) : GateReport -> GateReport := with_commands (fun l => l ++ [mkEntry command None None None]).
(** The entry that was added last. *)
Definition on_entry (f : Entry -> Entry) : GateReport -> GateReport := with_commands (fun l => alter f (pred (length l)) l).
Definition add_test (t : TestRun) (r : GateReport) : GateReport :=
  mkGateReport (gr_harness r) (gr_complete r) (gr_commands r) (gr_tests r ++ [t]) (gr_simulations r) (gr_benchmarks r) (gr_manifest r) (gr_cli r) (gr_error r) (gr_sources r).
Definition add_simulation (s : Simulation) (r : GateReport) : GateReport :=
  mkGateReport (gr_harness r) (gr_complete r) (gr_commands r) (gr_tests r) (gr_simulations r ++ [s]) (gr_benchmarks r) (gr_manifest r) (gr_cli r) (gr_error r) (gr_sources r).
Definition add_benchmark (b : pyval) (r : GateReport) : GateReport :=
  mkGateReport (gr_harness r) (gr_complete r) (gr_commands r) (gr_tests r) (gr_simulations r) (gr_benchmarks r ++ [b]) (gr_manifest r) (gr_cli r) (gr_error r) (gr_sources r).
Definition set_manifest (digest : pystr) (r : GateReport) : GateReport :=
  mkGateReport (gr_harness r) (gr_complete r) (gr_commands r) (gr_tests r) (gr_simulations r) (gr_benchmarks r) (Some digest) (gr_cli r) (gr_error r) (gr_sources r).
Definition set_cli (f : Finished) (r : GateReport) : GateReport :=
  mkGateReport (gr_harness r) (gr_complete r) (gr_commands r) (gr_tests r) (gr_simulations r) (gr_benchmarks r) (gr_manifest r) (Some f) (gr_error r) (gr_sources r).
Definition set_complete (r : GateReport) : GateReport :=
  mkGateReport (gr_harness r) true (gr_commands r) (gr_tests r) (gr_simulations r) (gr_benchmarks r) (gr_manifest r) (gr_cli r) (gr_error r) (gr_sources r).
Definition note_error (e : exn) (r : GateReport) : GateReport :=
  mkGateReport (gr_harness r) (gr_complete r) (gr_commands r) (gr_tests r) (gr_simulations r) (gr_benchmarks r) (gr_manifest r) (gr_cli r) (Some (repr_exn e)) (gr_sources r).
Definition set_sources (l : list (pystr * pystr)) (r : GateReport) : GateReport :=
  mkGateReport (gr_harness r) (gr_complete r) (gr_commands r) (gr_tests r) (gr_simulations r) (gr_benchmarks r) (gr_manifest r) (gr_cli r) (gr_error r) (Some l).

(** The report as the JSON written. *)
Definition texts (l : list pystr) : tv := Arr (tstr <$> l).
Definition given {A} (k : string) (f : A -> tv) (o : option A) : list (string * tv) := match o with Some a => [(k, f a)] | None => [] end.
Definition entry_data (e : Entry) : tv :=
  Obj (fields ([("command"%string, texts (en_command e))] ++ given "exit_code" tint (en_exit e) ++ given "error" tstr (en_error e) ++ given "seconds" Num (en_seconds e))).
Definition test_data (t : TestRun) : tv :=
  Obj (fields [("package", tstr (tr_package t)); ("flags", texts (tr_flags t)); ("result", J (tr_result t))]%string).
Definition simulation_data (s : Simulation) : tv :=
  Obj (fields [("command", texts (sm_command s)); ("exit_code", tint (sm_exit s)); ("output", tstr (sm_output s))]%string).
Definition cli_data (f : Finished) : tv :=
  Obj (fields [("exit_code", tint (returncode f)); ("stdout", tstr (stdout f)); ("stderr", tstr (stderr f))]%string).
Definition gate_data (r : GateReport) : tv :=
  Obj (fields ([("complete", tbool (gr_complete r)); ("pin", tstr PIN); ("commands", Arr (entry_data <$> gr_commands r)); ("tests", Arr (test_data <$> gr_tests r));
                ("simulations", Arr (simulation_data <$> gr_simulations r)); ("benchmarks", Arr (J <$> gr_benchmarks r)); ("harness_sha256", tstr (gr_harness r))]%string
               ++ given "dependency_manifest_sha256" tstr (gr_manifest r) ++ given "cli_failure" cli_data (gr_cli r)
               ++ given "error" tstr (gr_error r) ++ given "source_sha256" manifest_report (gr_sources r))).

(** ** Conditions *)

(** [v <= 0] of JSON data *)
Definition not_positive (v : pyval) : pyres bool :=
  match v with
  | PInt n => Ok (n <=? 0)
  | PBool b => Ok (negb b)
  | PFloat f => Ok (SFleb f (S754_zero false))
  | _ => Raise (TypeError "'<=' not supported")
  end.
(** [result.get('total', 0) <= 0 or result.get('success') != result['total']] *)
Definition tests_failed (result : pyval) : pyres bool :=
  let? total := vget_or "total" (PInt 0) result in
  let? none := not_positive total in
  if none then Ok true
  else
    let? success := vget_or "success" PNone result in
    let? total := vget "total" result in
    Ok (negb (json_eq success total)).
(** [part in text] *)
Definition text_contains (part text : pystr) : bool := match find_sub part text with Some _ => true | None => false end.
(** [str(list)] of texts without quotes *)
Definition repr_texts (l : list pystr) : pystr := py "[" ++ join (py ", ") ((fun t => py "'" ++ t ++ py "'") <$> l) ++ py "]".

Record GateArgs := mkGateArgs {
  ga_seeds : Z; ga_steps : Z; ga_durability : option pystr; ga_mixed : option pystr; ga_process : option pystr;
  ga_manifest : option pystr; ga_output : option pystr
}.
(** [range(1, args.seeds + 1)], for each number of nodes *)
Definition seeds_of (seeds : Z) : list Z := Z.of_nat <$> seq 1 (Z.to_nat seeds).
Definition grid (seeds : Z) : list (Z * Z) := [1; 3; 5] ≫= (fun nodes => (fun seed => (nodes, seed)) <$> seeds_of seeds).
Definition sim_command (simulator : pystr) (steps : Z) (case : Z * Z) : list pystr :=
  [simulator; fstr [L "--nodes="; D case.1]; fstr [L "--seed="; D case.2]; fstr [L "--steps="; D steps]].
Definition profiles : list (pystr * Z) := ["multi"; "single"; "sqlite"]%string ≫= (fun mode => (fun batch => (py mode, batch)) <$> [1; 12]).
Definition bench_command (benchmark : pystr) (case : pystr * Z) : list pystr :=
  [benchmark; py "--json"; py "--mode=" ++ case.1; fstr [L "--batch="; D case.2]; py "--iterations=120"; py "--warmup=12"].
(** [['--output', str(path)] if path else []] *)
Definition output_option (path : option pystr) : list pystr := match path with Some p => [py "--output"; p] | None => [] end.

Section Digests.
Context {W : Type} `{Host W}.
(** [{str(p.relative_to(root)): sha256 for directory in dirs for p in directory.rglob('*.odin')}] *)
Definition odin_digests (root : pystr) (dirs : list pystr) : Hm (W := W) (list (pystr * pystr)) :=
  for_each dirs (fun dir acc =>
    let! paths := io (h_glob dir (py "**/*.odin")) in
    for_each paths (fun path acc => let! digest := file_sha256 path in ret (dset (relative_to root path) digest acc)) acc) [].
End Digests.

Section Gate.
Context {W : Type} `{Gating W} (ROOT ODIN : pystr).
Abbreviation K := (Sc (W := W) GateReport).
Definition at_root (path : string) : pystr := join_path ROOT (py path).
Definition dependency : pystr := at_root "deps/paxos-odin".

(** ** run, checked_odin_test, check_style *)

Definition gate_run (command : list pystr) : K Finished :=
  do! amend (add_command command);;
  let! started := on_host (io h_monotonic) in
  try_finally
    (try_except
       (let! result := on_host (run_checked command ROOT (Some 600%Q)) in
        do! amend (on_entry (set_exit (returncode result)));;
        ret result)
       (fun e => Some (do! amend (on_entry (set_error (repr_exn e)));; throw e)))
    (let! now := on_host (io h_monotonic) in amend (on_entry (set_seconds (now - started)%Q))).
Definition run_ (command : list pystr) : K unit := let! _ := gate_run command in ret tt.

Definition test_command (package binary : pystr) (flags : list pystr) : list pystr :=
  [ODIN; py "test"; package] ++ flags ++ [py "-out:" ++ binary; py "-define:ODIN_TEST_JSON_REPORT=" ++ with_suffix binary (py ".json")].
Definition checked_odin_test (package binary : pystr) (flags : list pystr) : K unit :=
  let test_report := with_suffix binary (py ".json") in
  do! on_host (io_res (g_unlink test_report));;
  do! run_ (test_command package binary flags);;
  let! result := on_host (read_json test_report) in
  do! amend (add_test (mkTestRun package flags result));;
  let! failed := lift (tests_failed result) in
  if (failed : bool) then throw (RuntimeError "Odin tests failed or ran no tests") else ret tt.

Definition say (line : pystr) : K unit := on_host (print_line line).
Definition style_command (package : pystr) : list pystr :=
  [ODIN; py "check"; package; py "-vet"; py "-strict-style"] ++
  if str_in package (py <$> ["tests"; "service"; "transport/mtls"]%string) then [py "-no-entry-point"] else [].
Definition check_style : K unit :=
  do! run_ [g_executable; py "tools/check_style.py"];;
  do! run_ [g_executable; py "tools/test_compare_three_hosts.py"];;
  do! for_do PACKAGES (fun package => run_ (style_command package));;
  do! run_ [ODIN; py "check"; py "examples/multimaster_search.odin"; py "-file"; py "-vet"; py "-strict-style"];;
  say (py "PASS style: Zen constraints, vet, strict style").

(** ** The guarded block *)

Definition digests_value (l : list (pystr * pystr)) : pyval := PDict ((fun '(k, v) => (k, PStr v)) <$> l).

(** A manifest names the pin and exactly the digests found. *)
Definition manifest_matches (manifest : pyval) (actual : list (pystr * pystr)) : pyres bool :=
  let? pin := vget "pin" manifest in
  if eq_str pin PIN then let? sources := vget "odin_sources" manifest in Ok (json_eq (digests_value actual) sources) else Ok false.

Definition git_revision : list pystr := [py "git"; py "-C"; dependency; py "rev-parse"; py "HEAD"].
Definition git_status : list pystr := [py "git"; py "-C"; dependency; py "status"; py "--porcelain"].
Definition check_dependency (manifest_path : option pystr) : K unit :=
  let! there := on_host (io (h_is_file (join_path dependency (py "src/paxos.odin")))) in
  do! (if negb there then throw (SystemExit (py "Missing paxos-odin. Run: git submodule update --init --recursive")) else ret tt);;
  match manifest_path with
  | Some path =>
      let! manifest := on_host (read_json path) in
      let! actual := on_host (odin_digests dependency [dependency]) in
      let! same := lift (manifest_matches manifest actual) in
      if negb same then throw (SystemExit (py "Dependency source copy differs from the published pin"))
      else let! digest := on_host (file_sha256 path) in amend (set_manifest digest)
  | None =>
      let! revision := gate_run git_revision in
      let revision := strip (stdout revision) in
      do! (if negb (pyeqb revision PIN) then throw (SystemExit (fstr [L "paxos-odin revision "; T revision; L " differs from tested pin "; T PIN])) else ret tt);;
      let! status := gate_run git_status in
      if negb (bool_decide (strip (stdout status) = [])) then throw (SystemExit (py "paxos-odin has local modifications; verify against the clean pin")) else ret tt
  end.

Definition test_profiles : list pystr := py <$> ["-debug"; "-o:speed"]%string.
Definition check_profile (work profile : pystr) : K unit :=
  do! checked_odin_test (py "tests") (join_path work (py "tests")) [profile];;
  do! say (fstr [L "PASS unit tests ("; T profile; L ")"]);;
  do! checked_odin_test (py "deps/paxos-odin/tests") (join_path work (py "paxos-tests")) [profile];;
  say (fstr [L "PASS pinned upstream tests ("; T profile; L ")"]).

Definition reference_flags : list pystr := py <$>
  ["-o:speed"; "-define:SQLODIN_APPLICATION_GROUP_COMMIT=false"; "-define:SQLODIN_JOURNAL_GROUP_COMMIT=false"]%string.
Definition tool (name : string) (options : list pystr) : list pystr := [g_executable; py name] ++ options.
Definition process_output (args : GateArgs) (work : pystr) : pystr := default (join_path work (py "process-cluster.json")) (ga_process args).
Definition check_linux (args : GateArgs) (work : pystr) : K unit :=
  do! checked_odin_test (py "tests") (join_path work (py "reference-tests")) reference_flags;;
  do! say (py "PASS individual-journal/application reference configuration");;
  do! run_ (tool "tools/check_durability.py" (output_option (ga_durability args)));;
  do! run_ (tool "tools/check_mixed_workload.py" (output_option (ga_mixed args)));;
  run_ (tool "tools/check_process_cluster.py" [py "--output"; process_output args work]).

Definition simulate (simulator : pystr) (steps : Z) (case : Z * Z) : K unit :=
  let command := sim_command simulator steps case in
  let! result := on_host (io_res (h_run command ROOT (Some 120%Q))) in
  do! amend (add_simulation (mkSimulation command (returncode result) (stdout result ++ stderr result)));;
  if negb (returncode result =? 0) then throw (SystemExit (py "Simulation failed: " ++ repr_texts command ++ [10] ++ stdout result ++ stderr result)) else ret tt.
Definition simulations (args : GateArgs) (work : pystr) : K unit :=
  let simulator := join_path work (py "sim") in
  do! run_ [ODIN; py "build"; py "sim"; py "-debug"; py "-out:" ++ simulator];;
  do! for_do (grid (ga_seeds args)) (simulate simulator (ga_steps args));;
  let runs := zlen (grid (ga_seeds args)) in
  say (fstr [L "PASS "; D runs; L " simulations across 1, 3, and 5 nodes ("; D (runs * ga_steps args); L " fault steps)"]).

Definition check_sample (case : pystr * Z) (sample : pyval) : pyres bool :=
  let? verified := vget "verified" sample in
  let? complete := (if truthy verified then let? n := vget "iterations" sample in Ok (eq_int n 120) else Ok false) in
  if negb complete then Ok false
  else
    let? mode := vget "mode" sample in
    if eq_str mode case.1 then let? batch := vget "batch" sample in Ok (eq_int batch case.2) else Ok false.
Definition smoke (benchmark : pystr) (case : pystr * Z) : K unit :=
  let! output := gate_run (bench_command benchmark case) in
  let! sample := lift (loads (stdout output)) in
  do! amend (add_benchmark sample);;
  let! good := lift (check_sample case sample) in
  lift (guard (negb good) (AssertionError "")).
Definition benchmarks (work : pystr) : K unit :=
  let benchmark := join_path work (py "bench") in
  do! run_ [ODIN; py "build"; py "bench"; py "-o:speed"; py "-out:" ++ benchmark];;
  let! result := gate_run [benchmark; py "--iterations=2000"] in
  do! (if negb (text_contains (py "Multi-Master Writes") (stdout result))
       then throw (SystemExit (py "Benchmark output unexpected:" ++ [10] ++ stdout result)) else ret tt);;
  do! for_do profiles (smoke benchmark);;
  say (py "PASS benchmark smoke and six JSON profiles").

Definition cli_failure (work : pystr) : K unit :=
  let cli := join_path work (py "cli") in
  do! run_ (tool "tools/build_cli.py" [py "--output"; cli]);;
  let fake_odin := join_path work (py "odin") in
  do! on_host (io_res (h_write_text fake_odin (py "#!/bin/sh" ++ [10] ++ py "exit 17" ++ [10])));;
  do! on_host (io_res (g_chmod fake_odin 493));;
  let! path := on_host (gets (h_getenv (py "PATH"))) in
  let! failure := on_host (io_res (g_run_env [cli; py "test"] ROOT [(py "PATH", work ++ [58] ++ default [] path)] 10)) in
  do! amend (set_cli failure);;
  do! lift (guard (negb (negb (returncode failure =? 0) && text_contains (py "Hint:") (stderr failure))) (AssertionError ""));;
  say (py "PASS CLI propagates subprocess failure with recovery hint").

Definition example_command (work : pystr) : list pystr :=
  [ODIN; py "run"; py "examples/multimaster_search.odin"; py "-file"; py "-out:" ++ join_path work (py "example")].
Definition gate_work (args : GateArgs) (work : pystr) : K unit :=
  do! check_dependency (ga_manifest args);;
  do! run_ (tool "tools/build_native.py" []);;
  do! run_ (tool "tools/build_shell.py" []);;
  do! run_ [ODIN; py "version"];;
  do! check_style;;
  do! for_do test_profiles (check_profile work);;
  do! (if (h_linux : bool) then check_linux args work else ret tt);;
  do! run_ (tool "tools/check_contracts.py" []);;
  do! simulations args work;;
  do! run_ (example_command work);;
  do! say (py "PASS multi-master vector/FTS search example");;
  do! benchmarks work;;
  cli_failure work.

Definition gate_body (args : GateArgs) : K unit :=
  let! work := on_host (io_res (h_mkdtemp (py "sqlodin-check-") [])) in
  do! try_finally (gate_work args work) (on_host (io_res (h_remove work)));;
  do! say (py "All SQLodin checks passed.");;
  amend set_complete.
Definition source_folders : list pystr := at_root <$> ["src"; "service"; "transport"; "cli"; "tests"; "sim"]%string.
Definition gate_finally (args : GateArgs) : K unit :=
  match ga_output args with
  | None => ret tt
  | Some output =>
      let! sources := on_host (odin_digests ROOT source_folders) in
      do! amend (set_sources sources);;
      do! on_host (io_res (h_mkdir (path_parent output)));;
      let! rep := reported in
      on_host (io_res (h_write_json output (gate_data rep)))
  end.
Definition gate_report (args : GateArgs) : K unit :=
  try_finally (recording note_error (gate_body args)) (gate_finally args).
End Gate.

(** The script, from its arguments on. *)
Definition gate_main {W} `{Gating W} (ROOT : pystr) (args : GateArgs) : Hm (W := W) unit :=
  let! odin := gets (h_getenv (py "ODIN")) in
  let! present := match ga_output args with Some output => io (h_exists output) | None => ret false end in
  do! (if (present : bool) then parser_error "Preserve earlier evidence; choose a new output path" else ret tt);;
  let! harness := file_sha256 (join_path ROOT (py "tools/check.py")) in
  let disk_tmp := join_path ROOT (py "build/test-tmp") in
  do! (if (h_linux : bool) then do! io_res (h_mkdir disk_tmp);; io_do (g_tempdir disk_tmp) else ret tt);;
  if (ga_seeds args <? 1) || (ga_steps args <? 1) then parser_error "seeds and steps must be positive"
  else with_report (fresh_report harness) (gate_report ROOT (default (py "odin") odin) args).

(** ** check_consensus_matrix.py *)

Record MatrixCase := mkMatrixCase { mc_nodes : Z; mc_seed : Z; mc_steps : Z; mc_seconds : Q; mc_exit : Z; mc_output : pystr }.
Definition matrix_case_data (c : MatrixCase) : tv :=
  Obj (fields [("nodes", tint (mc_nodes c)); ("seed", tint (mc_seed c)); ("steps", tint (mc_steps c)); ("seconds", Num (mc_seconds c));
               ("exit_code", tint (mc_exit c)); ("output", tstr (mc_output c))]%string).
(** The dictionary [report] and its list of cases. *)
Record Matrix := mkMatrix { mx_report : report; mx_cases : list MatrixCase }.
Definition on_matrix (f : report -> report) (x : Matrix) : Matrix := mkMatrix (f (mx_report x)) (mx_cases x).
Definition add_case (c : MatrixCase) (x : Matrix) : Matrix := mkMatrix (mx_report x) (mx_cases x ++ [c]).
Definition matrix_data (x : Matrix) : tv := Obj (rupdate [("cases"%string, Arr (matrix_case_data <$> mx_cases x))] (mx_report x)).

Record MatrixArgs := mkMatrixArgs { xa_output : pystr; xa_seeds : Z; xa_steps : Z; xa_manifest : option pystr }.
Definition matrix_bounds (args : MatrixArgs) : bool :=
  (1 <=? xa_seeds args) && (xa_seeds args <=? 30) && (100 <=? xa_steps args) && (xa_steps args <=? 100000).

Section ConsensusMatrix.
Context {W : Type} `{Host W} (ROOT : pystr).
Abbreviation K := (Sc (W := W) Matrix).
Definition note (kvs : list (string * tv)) : K unit := amend (on_matrix (rupdate kvs)).
Definition assert_ (b : bool) : K unit := lift (guard (negb b) (AssertionError "")).

Definition matrix_dependency (manifest_path : option pystr) : K unit :=
  match manifest_path with
  | Some path =>
      let! manifest := on_host (read_json path) in
      let! actual := on_host (odin_digests (dependency ROOT) [dependency ROOT]) in
      let! same := lift (manifest_matches manifest actual) in
      do! assert_ same;;
      let! digest := on_host (file_sha256 path) in
      note [("dependency_manifest_sha256"%string, tstr digest)]
  | None =>
      let! revision := on_host (check_output (git_revision ROOT) [] None) in
      do! assert_ (pyeqb (strip revision) PIN);;
      let! status := on_host (check_output (git_status ROOT) [] None) in
      assert_ (bool_decide (strip status = []))
  end.

Definition upstream_command (work : pystr) : list pystr :=
  [py "odin"; py "test"; join_path (dependency ROOT) (py "tests"); py "-debug"; py "-out:" ++ join_path work (py "upstream");
   py "-define:ODIN_TEST_JSON_REPORT=" ++ join_path work (py "upstream.json")].
(** [report['upstream']['success'] == report['upstream']['total']] *)
Definition all_succeeded (result : pyval) : pyres bool :=
  let? success := vget "success" result in let? total := vget "total" result in Ok (json_eq success total).
Definition matrix_run (simulator : pystr) (steps : Z) (case : Z * Z) : K unit :=
  let! started := on_host (io h_monotonic) in
  let! result := on_host (io_res (h_run (sim_command simulator steps case) ROOT (Some 120%Q))) in
  let! now := on_host (io h_monotonic) in
  do! amend (add_case (mkMatrixCase case.1 case.2 steps (now - started)%Q (returncode result) (stdout result ++ stderr result)));;
  lift (guard (negb (returncode result =? 0)) (AssertionError "the failed case")).
Definition matrix_nodes (simulator : pystr) (args : MatrixArgs) (nodes : Z) : K unit :=
  do! for_do (seeds_of (xa_seeds args)) (fun seed => matrix_run simulator (xa_steps args) (nodes, seed));;
  on_host (print_line (fstr [L "PASS "; D nodes; L " nodes, "; D (xa_seeds args); L " seeds, "; D (xa_steps args); L " steps/seed"])).
Definition matrix_work (args : MatrixArgs) (work : pystr) : K unit :=
  let! _ := on_host (run_checked (upstream_command work) ROOT (Some 180%Q)) in
  let! upstream := on_host (read_json (join_path work (py "upstream.json"))) in
  do! note [("upstream"%string, J upstream)];;
  let! passed := lift (all_succeeded upstream) in
  do! assert_ passed;;
  let simulator := join_path work (py "sim") in
  let! _ := on_host (run_checked [py "odin"; py "build"; py "sim"; py "-debug"; py "-out:" ++ simulator] ROOT (Some 180%Q)) in
  let! digest := on_host (file_sha256 simulator) in
  do! note [("simulator_sha256"%string, tstr digest)];;
  for_do [1; 3; 5] (matrix_nodes simulator args).
Definition matrix_body (args : MatrixArgs) : K unit :=
  do! matrix_dependency (xa_manifest args);;
  let work_root := join_path ROOT (py "build/consensus-matrix") in
  do! on_host (io_res (h_mkdir work_root));;
  let! work := on_host (io_res (h_mkdtemp [] work_root)) in
  do! try_finally (matrix_work args work) (on_host (io_res (h_remove work)));;
  note [("complete"%string, tbool true)].
Definition matrix_report (args : MatrixArgs) : K unit :=
  writing (xa_output args) matrix_data
    (recording (fun e => on_matrix (rupdate [("error"%string, tstr (repr_exn e))])) (matrix_body args)).
Definition matrix_main (args : MatrixArgs) : Hm (W := W) unit :=
  let! present := io (h_exists (xa_output args)) in
  if (present : bool) || negb (matrix_bounds args) then parser_error "Use a new output, 1..30 seeds and 100..100000 steps"
  else
    let! sources := odin_digests ROOT (join_path ROOT ∘ py <$> ["src"; "sim"; "internal/inmemory"]%string) in
    let! harness := file_sha256 (join_path ROOT (py "tools/check_consensus_matrix.py")) in
    do! io_res (h_mkdir (path_parent (xa_output args)));;
    with_report (mkMatrix (fields [("complete", tbool false); ("pin", tstr PIN); ("cases", Arr []); ("seeds", tint (xa_seeds args)); ("steps", tint (xa_steps args));
                                   ("source_sha256", manifest_report sources); ("harness_sha256", tstr harness)]%string) [])
      (matrix_report args).
End ConsensusMatrix.

(** * What the gate's report may claim *)

Section GateSound.
Context {W : Type} `{Gating W} (ROOT ODIN : pystr).

(** A command of the plan that ran and exited with 0. *)
Definition ran (command : list pystr) (e : Entry) : Prop := en_command e = command /\ en_exit e = Some 0 /\ en_error e = None.
(** A package's tests, more than none and all of them successful. *)
Definition tested (p : pystr * list pystr) (t : TestRun) : Prop :=
  tr_package t = p.1 /\ tr_flags t = p.2 /\
  exists total success, vget "total" (tr_result t) = Ok total /\ not_positive total = Ok false /\
    vget_or "success" PNone (tr_result t) = Ok success /\ json_eq success total = true.
Definition simulated (command : list pystr) (s : Simulation) : Prop := sm_command s = command /\ sm_exit s = 0.
(** A sample of a mode and a batch size: verified, of 120 iterations. *)
Definition benched (case : pystr * Z) (sample : pyval) : Prop :=
  exists verified iterations mode batch,
    vget "verified" sample = Ok verified /\ truthy verified = true /\
    vget "iterations" sample = Ok iterations /\ eq_int iterations 120 = true /\
    vget "mode" sample = Ok mode /\ mode = PStr case.1 /\
    vget "batch" sample = Ok batch /\ eq_int batch case.2 = true.
(** What a command of the host answered. *)
Definition answered (command : list pystr) (f : Finished) : Prop :=
  returncode f = 0 /\ exists w w' : W, h_run command ROOT (Some 600%Q) w = (Ok f, w').

(** The dependency is at the pinned revision without changes, or is the copy a
    manifest of that revision describes. *)
Definition pinned (manifest_path : option pystr) : Prop :=
  match manifest_path with
  | None => exists f g, answered (git_revision ROOT) f /\ strip (stdout f) = PIN /\ answered (git_status ROOT) g /\ strip (stdout g) = []
  | Some path => exists manifest actual, manifest_matches manifest actual = Ok true /\
      (exists w w' : W, read_json path w = (Ok manifest, w')) /\
      (exists w w' : W, odin_digests (dependency ROOT) [dependency ROOT] w = (Ok actual, w'))
  end.

(** The plan: the commands recorded, in order, and the tests among them. *)
Definition dependency_commands (manifest_path : option pystr) : list (list pystr) :=
  match manifest_path with None => [git_revision ROOT; git_status ROOT] | Some _ => [] end.
Definition style_commands : list (list pystr) :=
  [[g_executable; py "tools/check_style.py"]; [g_executable; py "tools/test_compare_three_hosts.py"]]
  ++ (style_command ODIN <$> PACKAGES) ++ [[ODIN; py "check"; py "examples/multimaster_search.odin"; py "-file"; py "-vet"; py "-strict-style"]].
Definition profile_tests (profile : pystr) : list (pystr * list pystr) := [(py "tests", [profile]); (py "deps/paxos-odin/tests", [profile])].
Definition profile_commands (work profile : pystr) : list (list pystr) :=
  [test_command ODIN (py "tests") (join_path work (py "tests")) [profile];
   test_command ODIN (py "deps/paxos-odin/tests") (join_path work (py "paxos-tests")) [profile]].
Definition linux_commands (args : GateArgs) (work : pystr) : list (list pystr) :=
  [test_command ODIN (py "tests") (join_path work (py "reference-tests")) reference_flags;
   tool "tools/check_durability.py" (output_option (ga_durability args)); tool "tools/check_mixed_workload.py" (output_option (ga_mixed args));
   tool "tools/check_process_cluster.py" [py "--output"; process_output args work]].
Definition benchmark_commands (work : pystr) : list (list pystr) :=
  [[ODIN; py "build"; py "bench"; py "-o:speed"; py "-out:" ++ join_path work (py "bench")]; [join_path work (py "bench"); py "--iterations=2000"]]
  ++ (bench_command (join_path work (py "bench")) <$> profiles).
Definition planned_commands (args : GateArgs) (work : pystr) : list (list pystr) :=
  dependency_commands (ga_manifest args)
  ++ [tool "tools/build_native.py" []; tool "tools/build_shell.py" []; [ODIN; py "version"]] ++ style_commands
  ++ (test_profiles ≫= profile_commands work) ++ (if h_linux then linux_commands args work else [])
  ++ [tool "tools/check_contracts.py" []; [ODIN; py "build"; py "sim"; py "-debug"; py "-out:" ++ join_path work (py "sim")]; example_command ODIN work]
  ++ benchmark_commands work ++ [tool "tools/build_cli.py" [py "--output"; join_path work (py "cli")]].
Definition planned_tests : list (pystr * list pystr) :=
  (test_profiles ≫= profile_tests) ++ if h_linux then [(py "tests", reference_flags)] else [].
Definition planned_simulations (args : GateArgs) (work : pystr) : list (list pystr) :=
  sim_command (join_path work (py "sim")) (ga_steps args) <$> grid (ga_seeds args).
Definition cli_failed (r : GateReport) : Prop :=
  exists f, gr_cli r = Some f /\ returncode f <> 0 /\ text_contains (py "Hint:") (stderr f) = true.

(** The benchmark, run by itself, said what it measures. *)
Definition bannered (work : pystr) : Prop :=
  exists f before after, answered [join_path work (py "bench"); py "--iterations=2000"] f /\ stdout f = before ++ py "Multi-Master Writes" ++ after.

(** The verdict. *)
Definition sound_gate (args : GateArgs) (r : GateReport) : Prop :=
  exists work, pinned (ga_manifest args) /\
    Forall2 ran (planned_commands args work) (gr_commands r) /\ Forall2 tested planned_tests (gr_tests r) /\
    Forall2 simulated (planned_simulations args work) (gr_simulations r) /\ Forall2 benched profiles (gr_benchmarks r) /\ bannered work /\ cli_failed r.

(** ** The stages *)

Definition open (r : GateReport) : Prop := gr_complete r = false.
(** So far the report holds these commands, tests, simulations and samples. *)
Definition done_ (c : list (list pystr)) (t : list (pystr * list pystr)) (s : list (list pystr)) (b : list (pystr * Z)) (r : GateReport) : Prop :=
  open r /\ Forall2 ran c (gr_commands r) /\ Forall2 tested t (gr_tests r) /\ Forall2 simulated s (gr_simulations r) /\ Forall2 benched b (gr_benchmarks r).
Lemma done_open c t s b r : done_ c t s b r -> open r.
Proof. by intros []. Qed.
#[local] Hint Resolve done_open : core.

Lemma returns_run_checked command : returns (run_checked (W := W) command ROOT (Some 600%Q)) (answered command).
Proof.
  intros w. unfold run_checked. apply wp_bind, wp_io_res. intros [f|e|] w' E; [|done..].
  destruct (returncode f =? 0) eqn:Hc; [|by apply wp_throw]. apply wp_ret. intros a [= <-]. unbool. split; [done|]. by exists w, w'.
Qed.

Lemma alter_end {A} (f : A -> A) (l : list A) (x : A) : alter f (pred (length (l ++ [x]))) (l ++ [x]) = l ++ [f x].
Proof. rewrite length_app. cbn [length]. replace (pred (length l + 1)) with (length l + 0)%nat by lia. by rewrite alter_app_r. Qed.

Lemma wp_clock q (Q : res exn unit -> GateReport * W -> Prop) st :
  (forall w q', Q (Ok tt) (on_entry (set_seconds q') st.1, w)) -> (forall w r, (forall u, r <> Ok u) -> Q r (st.1, w)) ->
  wp (let! now := on_host (io h_monotonic) in amend (on_entry (set_seconds (now - q)%Q))) Q st.
Proof. intros H1 H2. apply wp_bind, wp_host_step. intros [now|e|] w; [|by apply H2..]. apply wp_amend. apply H1. Qed.

Lemma gate_run_wp command c t s b st :
  done_ c t s b st.1 ->
  wp (gate_run ROOT command)
     (fun r st' => open st'.1 /\ forall f : Finished, r = Ok f -> answered command f /\ done_ (c ++ [command]) t s b st'.1) st.
Proof.
  intros (Ho & Hc & Ht & Hs & Hb). unfold gate_run. apply wp_bind, wp_amend, wp_bind, wp_host_step.
  intros [q|e|] w1; [|by split..]. cbn [fst snd].
  apply wp_try_finally, wp_try_except, wp_bind, wp_on_host. cbn [fst snd].
  eapply wp_mono; [apply returns_run_checked|]. intros [f|e|] w2 Hf; [| |by split].
  - destruct (Hf f eq_refl) as [Hz Hw]. apply wp_bind, wp_amend, wp_ret. cbn [fst snd].
    apply wp_clock.
    + intros w q'. split; [exact Ho|]. intros g [= <-]. split; [by split|]. split; [exact Ho|]. split; [|done].
      cbn [on_entry with_commands add_command gr_commands fst]. rewrite !alter_end. apply Forall2_app; [done|]. repeat constructor. by cbn; rewrite Hz.
    + intros w [u|e|] Hr; [by destruct (Hr u)|by split..].
  - apply wp_bind, wp_amend, wp_throw. cbn [fst snd]. apply wp_clock; [by split|intros w [u|e2|] Hr; [by destruct (Hr u)|by split..]].
Qed.

Lemma run_answers command c t s b : leads open (done_ c t s b) (gate_run ROOT command) (done_ (c ++ [command]) t s b).
Proof.
  intros st Hst. eapply wp_mono; [by apply gate_run_wp|]. intros r st' [Ho Hr]. split; [exact Ho|]. intros f ->. by destruct (Hr f eq_refl).
Qed.
Lemma returns_gate_run command : returns (gate_run (W := W) ROOT command) (answered command).
Proof.
  unfold gate_run. apply returns_then. intros _. apply returns_then. intros q. apply returns_finally, returns_except.
  - eapply returns_bind; [apply returns_host, returns_run_checked|]. intros f Hf. apply returns_then. intros _. by apply returns_ret.
  - intros e k [= <-]. apply returns_then. intros _. apply returns_throw.
Qed.
Lemma run_leads command c t s b : leads open (done_ c t s b) (run_ ROOT command) (done_ (c ++ [command]) t s b).
Proof.
  eapply leads_bind; [apply run_answers|]. intros f. apply leads_preserves; [apply done_open|apply preserves_ret].
Qed.
(** Runs with a list of commands, one after the other. *)
Lemma runs_leads {A} (l : list A) (command : A -> list pystr) c t s b :
  leads open (done_ c t s b) (for_do l (fun x => run_ ROOT (command x))) (done_ (c ++ (command <$> l)) t s b).
Proof.
  pose proof (leads_for_list (W := W) open (fun pre => done_ (c ++ (command <$> pre)) t s b) l (fun x => run_ ROOT (command x))) as Hl.
  cbn [fmap list_fmap] in Hl. rewrite app_nil_r in Hl. apply Hl; [intros ? ?; apply done_open|].
  intros pre x _. rewrite fmap_app, app_assoc. apply run_leads.
Qed.
Lemma quiet {A B} (m : Sc (W := W) GateReport A) (f : A -> Sc GateReport B) c t s b T :
  preserves (done_ c t s b) m -> (forall a, leads open (done_ c t s b) (f a) T) -> leads open (done_ c t s b) (bind m f) T.
Proof. apply leads_step. apply done_open. Qed.
Lemma quiet_end {A} (m : Sc (W := W) GateReport A) c t s b : preserves (done_ c t s b) m -> leads open (done_ c t s b) m (done_ c t s b).
Proof. apply leads_preserves. apply done_open. Qed.
Lemma preserves_say I line : preserves I (say (W := W) line).
Proof. apply preserves_host. Qed.

Lemma vget_or_present k d v x y : vget k v = Ok x -> vget_or k d v = Ok y -> x = y.
Proof. unfold vget, vget_or, getitem, get_or. destruct v as [| | | | | | | |entries]; try done. destruct (dict_get (py k) entries); [congruence|done]. Qed.
Lemma tests_failed_false result : tests_failed result = Ok false ->
  exists total success, vget "total" result = Ok total /\ not_positive total = Ok false /\ vget_or "success" PNone result = Ok success /\ json_eq success total = true.
Proof.
  unfold tests_failed. intros (total & Ht & (none & Hn & Hx)%res_bind_Ok)%res_bind_Ok. destruct none; [done|].
  apply res_bind_Ok in Hx as (success & Hs & (total2 & Ht2 & [= He])%res_bind_Ok). apply negb_false_iff in He.
  assert (total2 = total) as -> by exact (vget_or_present _ _ _ _ _ Ht2 Ht). by exists total, success.
Qed.

Lemma test_leads package binary flags c t s b :
  leads open (done_ c t s b) (checked_odin_test ROOT ODIN package binary flags) (done_ (c ++ [test_command ODIN package binary flags]) (t ++ [(package, flags)]) s b).
Proof.
  unfold checked_odin_test. cbv zeta. apply quiet; [apply preserves_host|intros _]. eapply leads_bind; [apply run_leads|intros _].
  apply quiet; [apply preserves_host|intros result]. intros st (Ho & Hc & Ht & Hs & Hb). apply wp_bind, wp_amend, wp_bind, wp_lift. cbn [fst].
  destruct (tests_failed result) as [[|]|e|] eqn:E; [by apply wp_throw| |by split..].
  apply wp_ret. split; [exact Ho|]. intros _ _. split; [exact Ho|]. split; [exact Hc|]. split; [|done]. apply Forall2_app; [done|].
  constructor; [|constructor]. split; [done|]. split; [done|]. by apply tests_failed_false.
Qed.
Lemma style_leads c t s b : leads open (done_ c t s b) (check_style ROOT ODIN) (done_ (c ++ style_commands) t s b).
Proof.
  unfold check_style, style_commands. eapply leads_bind; [apply run_leads|intros _]. eapply leads_bind; [apply run_leads|intros _].
  eapply leads_bind; [apply runs_leads|intros _]. eapply leads_bind; [apply run_leads|intros _]. rewrite <-!app_assoc. apply quiet_end, preserves_say.
Qed.
Lemma dependency_leads manifest_path c t s b :
  leads open (done_ c t s b) (check_dependency ROOT manifest_path) (done_ (c ++ dependency_commands manifest_path) t s b).
Proof.
  unfold check_dependency. apply quiet; [apply preserves_host|intros there]. apply quiet; [preserves_auto|intros _].
  destruct manifest_path as [path|]; cbn [dependency_commands].
  - rewrite app_nil_r. apply quiet_end. preserves_auto. apply preserves_amend. auto.
  - eapply leads_bind; [apply run_answers|intros f]. cbv zeta. apply quiet; [preserves_auto|intros _].
    eapply leads_bind; [apply run_answers|intros g]. rewrite <-app_assoc. apply quiet_end. preserves_auto.
Qed.
Lemma dependency_pinned manifest_path : returns (check_dependency (W := W) ROOT manifest_path) (fun _ => pinned manifest_path).
Proof.
  unfold check_dependency. apply returns_then. intros there. apply returns_then. intros _. destruct manifest_path as [path|].
  - eapply (returns_bind (fun manifest => exists w w' : W, read_json path w = (Ok manifest, w'))); [apply returns_host; intros w; apply wp_intro; intros r w' E a ->; by exists w, w'|].
    intros manifest Hm.
    eapply (returns_bind (fun actual => exists w w' : W, odin_digests (dependency ROOT) [dependency ROOT] w = (Ok actual, w')));
      [apply returns_host; intros w; apply wp_intro; intros r w' E a ->; by exists w, w'|].
    intros actual Ha. eapply (returns_bind (fun same => manifest_matches manifest actual = Ok same)); [apply returns_lift; auto|].
    intros [|] Hsame; [|apply returns_throw]. eapply returns_mono; [apply returns_any|]. intros _ _. by exists manifest, actual.
  - eapply returns_bind; [apply returns_gate_run|]. intros f Hf. cbv zeta.
    eapply (returns_bind (fun _ => strip (stdout f) = PIN)).
    { destruct (pyeqb (strip (stdout f)) PIN) eqn:E; [|apply returns_throw]. apply pyeqb_eq in E. by apply returns_ret. }
    intros _ Hp. eapply returns_bind; [apply returns_gate_run|]. intros g Hg.
    destruct (bool_decide (strip (stdout g) = [])) eqn:E; [|apply returns_throw]. unbool. apply returns_ret. by exists f, g.
Qed.

Lemma profile_leads work profile c t s b :
  leads open (done_ c t s b) (check_profile ROOT ODIN work profile) (done_ (c ++ profile_commands work profile) (t ++ profile_tests profile) s b).
Proof.
  unfold check_profile. eapply leads_bind; [apply test_leads|intros _]. apply quiet; [apply preserves_say|intros _].
  eapply leads_bind; [apply test_leads|intros _]. rewrite <-!app_assoc. apply quiet_end, preserves_say.
Qed.
Lemma profiles_leads work c t s b :
  leads open (done_ c t s b) (for_do test_profiles (check_profile ROOT ODIN work))
    (done_ (c ++ (test_profiles ≫= profile_commands work)) (t ++ (test_profiles ≫= profile_tests)) s b).
Proof.
  unfold test_profiles. cbn [fmap list_fmap for_do mbind list_bind]. do 2 (eapply leads_bind; [apply profile_leads|intros _]).
  rewrite <-!app_assoc, !app_nil_r. apply quiet_end, preserves_ret.
Qed.
Lemma linux_leads args work c t s b :
  leads open (done_ c t s b) (check_linux ROOT ODIN args work) (done_ (c ++ linux_commands args work) (t ++ [(py "tests", reference_flags)]) s b).
Proof.
  unfold check_linux. eapply leads_bind; [apply test_leads|intros _]. apply quiet; [apply preserves_say|intros _].
  do 2 (eapply leads_bind; [apply run_leads|intros _]). intros st Hst. eapply wp_mono; [by apply run_leads|]. cbv beta. by rewrite <-!app_assoc.
Qed.

Lemma simulate_leads simulator steps case c t s b :
  leads open (done_ c t s b) (simulate ROOT simulator steps case) (done_ c t (s ++ [sim_command simulator steps case]) b).
Proof.
  unfold simulate. cbv zeta. apply quiet; [apply preserves_host|intros f]. intros st (Ho & Hc & Ht & Hs & Hb). apply wp_bind, wp_amend. cbn [fst].
  destruct (returncode f =? 0) eqn:E; [|by apply wp_throw]. unbool. apply wp_ret. split; [exact Ho|]. intros _ _.
  split; [exact Ho|]. do 2 (split; [done|]). split; [|done]. apply Forall2_app; [done|]. by repeat constructor.
Qed.
Lemma grid_leads simulator steps l c t b :
  leads open (done_ c t [] b) (for_do l (simulate ROOT simulator steps)) (done_ c t (sim_command simulator steps <$> l) b).
Proof.
  pose proof (leads_for_list (W := W) open (fun pre => done_ c t (sim_command simulator steps <$> pre) b) l (simulate ROOT simulator steps)) as Hl.
  apply Hl; [intros ? ?; apply done_open|].
  intros pre case _. rewrite fmap_app. apply simulate_leads.
Qed.
Lemma simulations_leads args work c t b :
  leads open (done_ c t [] b) (simulations ROOT ODIN args work)
    (done_ (c ++ [[ODIN; py "build"; py "sim"; py "-debug"; py "-out:" ++ join_path work (py "sim")]]) t (planned_simulations args work) b).
Proof.
  unfold simulations. cbv zeta. eapply leads_bind; [apply run_leads|intros _].
  eapply leads_bind; [apply grid_leads|intros _; apply quiet_end, preserves_say].
Qed.

Lemma check_sample_benched case sample : check_sample case sample = Ok true -> benched case sample.
Proof.
  unfold check_sample, benched. intros H1. apply res_bind_Ok in H1 as (verified & Hv & H1).
  destruct (truthy verified) eqn:Ht; [|done]. apply res_bind_Ok in H1 as (done_all & Hn & H1).
  apply res_bind_Ok in Hn as (iterations & Hn & [= <-]). destruct (eq_int iterations 120) eqn:E1; [|done]. cbn [negb] in H1.
  apply res_bind_Ok in H1 as (mode & Hm & H1). destruct (eq_str mode case.1) eqn:E2; [|done].
  apply res_bind_Ok in H1 as (batch & Hb & [= E3]). exists verified, iterations, mode, batch. split_and!; auto.
  unfold eq_str in E2. destruct mode; try done. apply pyeqb_eq in E2. by subst.
Qed.
Lemma smoke_leads benchmark case c t s b :
  leads open (done_ c t s b) (smoke ROOT benchmark case) (done_ (c ++ [bench_command benchmark case]) t s (b ++ [case])).
Proof.
  unfold smoke. eapply leads_bind; [apply run_answers|intros f]. apply quiet; [apply preserves_lift|intros sample].
  intros st (Ho & Hc & Ht & Hs & Hb). apply wp_bind, wp_amend, wp_bind, wp_lift. cbn [fst].
  destruct (check_sample case sample) as [good|e|] eqn:E; [|by split..]. apply wp_lift. split; [destruct good; exact Ho|].
  intros u Hu. apply guard_Ok in Hu. apply negb_false_iff in Hu. subst good.
  split; [exact Ho|]. do 3 (split; [done|]). apply Forall2_app; [done|]. constructor; [by apply check_sample_benched|constructor].
Qed.
Lemma samples_leads benchmark l c t s :
  leads open (done_ c t s []) (for_do l (smoke ROOT benchmark)) (done_ (c ++ (bench_command benchmark <$> l)) t s l).
Proof.
  pose proof (leads_for_list (W := W) open (fun pre => done_ (c ++ (bench_command benchmark <$> pre)) t s pre) l (smoke ROOT benchmark)) as Hl.
  cbn [fmap list_fmap] in Hl. rewrite app_nil_r in Hl. apply Hl; [intros ? ?; apply done_open|].
  intros pre case _. rewrite fmap_app, app_assoc. apply smoke_leads.
Qed.
Lemma benchmarks_leads work c t s :
  leads open (done_ c t s []) (benchmarks ROOT ODIN work) (done_ (c ++ benchmark_commands work) t s profiles).
Proof.
  unfold benchmarks, benchmark_commands. cbv zeta. eapply leads_bind; [apply run_leads|intros _]. eapply leads_bind; [apply run_answers|intros f].
  apply quiet; [preserves_auto|intros _]. eapply leads_bind; [apply samples_leads|intros _]. rewrite <-!app_assoc. apply quiet_end, preserves_say.
Qed.
Lemma benchmarks_bannered work : returns (benchmarks (W := W) ROOT ODIN work) (fun _ => bannered work).
Proof.
  unfold benchmarks. cbv zeta. apply returns_then. intros _. eapply returns_bind; [apply returns_gate_run|]. intros f Hf.
  eapply (returns_bind (fun _ => bannered work)); [|intros _ Hb; eapply returns_mono; [apply returns_any|]; auto].
  unfold text_contains. destruct (find_sub _ _) as [[pre post]|] eqn:E; cbn [negb]; [|apply returns_throw].
  apply returns_ret. apply find_sub_split in E as (Es & t & ->). by exists f, pre, t.
Qed.
Lemma cli_leads work c t s b :
  leads open (done_ c t s b) (cli_failure ROOT work)
    (fun r => done_ (c ++ [tool "tools/build_cli.py" [py "--output"; join_path work (py "cli")]]) t s b r /\ cli_failed r).
Proof.
  unfold cli_failure. cbv zeta. eapply leads_bind; [apply run_leads|intros _].
  do 4 (apply quiet; [apply preserves_host|intros ?]). intros st Hst.
  apply wp_bind, wp_amend, wp_bind, wp_lift. cbn [fst snd].
  match goal with |- context [guard ?b _] => destruct b eqn:E end; cbn [guard]; [by destruct Hst|].
  apply wp_host_step. intros r w. split; [by destruct Hst|]. intros _ _. split; [exact Hst|].
  apply negb_false_iff, andb_true_iff in E as [E1 E2]. unbool. by eexists.
Qed.

(** ** The whole script *)

Lemma work_leads args work :
  leads open (done_ [] [] [] []) (gate_work ROOT ODIN args work)
    (fun r => done_ (planned_commands args work) planned_tests (planned_simulations args work) profiles r /\ bannered work /\ cli_failed r /\ pinned (ga_manifest args)).
Proof.
  unfold gate_work, planned_commands, planned_tests.
  eapply leads_value; [apply dependency_leads|apply dependency_pinned|intros [] Hp]. cbn [app].
  do 3 (eapply leads_bind; [apply run_leads|intros _]). eapply leads_bind; [apply style_leads|intros _].
  eapply leads_bind; [apply profiles_leads|intros _].
  eapply (leads_bind _ _ (done_ (_ ++ (if h_linux then linux_commands args work else [])) (_ ++ (if h_linux then [(py "tests", reference_flags)] else [])) [] [])).
  { destruct h_linux; [apply linux_leads|]. rewrite !app_nil_r. apply quiet_end, preserves_ret. }
  intros _. eapply leads_bind; [apply run_leads|intros _]. eapply leads_bind; [apply simulations_leads|intros _].
  eapply leads_bind; [apply run_leads|intros _]. apply quiet; [apply preserves_say|intros _]. eapply leads_value; [apply benchmarks_leads|apply benchmarks_bannered|intros u0 Hb].
  intros st Hst. eapply wp_mono; [by apply cli_leads|]. cbv beta. intros r st' [Ho Hr]. split; [exact Ho|]. intros u ->. destruct (Hr u eq_refl) as [Hd Hc].
  split; [|by repeat split]. rewrite <-!app_assoc in Hd. exact Hd.
Qed.
End GateSound.

(** C39: check.py's report says complete only when the pinned dependency was
    found, every command of the plan, in its order, exited with 0, every test
    package of the plan ran some tests and all succeeded, the whole grid of
    simulations exited with 0, the benchmark printed its heading, the six samples
    of its modes and batch sizes were verified, and the broken command line
    reported its failure; and the script succeeds only with
    such a report. *)
Theorem gate_sound {W} `{Gating W} (ROOT ODIN harness : pystr) (args : GateArgs) (w : W) :
  wp (gate_report ROOT ODIN args)
     (fun r s' => (gr_complete s'.1 = true -> sound_gate (W := W) ROOT ODIN args s'.1) /\
                  (r = Ok tt -> gr_complete s'.1 = true)) (fresh_report harness, w).
Proof.
  set (U := fun r => gr_complete r = true -> sound_gate (W := W) ROOT ODIN args r).
  set (T := fun r => gr_complete r = true /\ sound_gate (W := W) ROOT ODIN args r).
  assert (Hopen : forall r, open r -> U r) by (intros r Hr Hc; unfold open in Hr; congruence).
  assert (Hleads : leads U (done_ [] [] [] []) (gate_report ROOT ODIN args) T).
  { unfold gate_report. apply leads_finally.
    2,3: unfold gate_finally; destruct (ga_output args); preserves_auto; apply preserves_amend; intros r Hr; exact Hr.
    apply leads_recording; [|done]. unfold gate_body. apply leads_step; [intros r Hr; by apply Hopen, Hr|apply preserves_host|intros work].
    eapply (leads_bind U _ (fun r => open r /\ sound_gate (W := W) ROOT ODIN args r)).
    - apply (leads_kept open); [exact Hopen|]. apply leads_finally; [|apply preserves_host|apply preserves_host].
      intros s Hs. eapply wp_mono; [by apply work_leads|]. intros r s' [Ho Hr]. split; [done|]. intros u Hu.
      destruct (Hr u Hu) as ((_ & Hd) & Hb & Hc & Hp). split; [done|]. exists work. split; [exact Hp|]. do 4 (split; [apply Hd|]). by split.
    - intros _. apply leads_step; [intros r [Hr _]; by apply Hopen|apply preserves_say|intros _]. apply leads_amend. intros r [Ho Hs]. split; [intros _; exact Hs|split; [done|exact Hs]]. }
  eapply wp_mono; [apply Hleads|]; [by repeat split; constructor|]. intros r s' [Hu Ht]. split; [exact Hu|]. intros ->. by apply (Ht tt).
Qed.

(** ** The matrix *)

Section MatrixSound.
Context {W : Type} `{Host W} (ROOT : pystr) (args : MatrixArgs).

Definition unfinished_matrix (x : Matrix) : Prop := rget "complete" (mx_report x) = Some (tbool false).
(** A case of the grid that exited with 0. *)
Definition passed_case (case : Z * Z) (c : MatrixCase) : Prop :=
  mc_nodes c = case.1 /\ mc_seed c = case.2 /\ mc_steps c = xa_steps args /\ mc_exit c = 0.
Definition cases_are (l : list (Z * Z)) (x : Matrix) : Prop := Forall2 passed_case l (mx_cases x).
(** The dependency's tests, as many successful as there are. *)
Definition upstream_passed (x : Matrix) : Prop := exists v, rget "upstream" (mx_report x) = Some (J v) /\ all_succeeded v = Ok true.
Definition sound_matrix (x : Matrix) : Prop := upstream_passed x /\ cases_are (grid (xa_seeds args)) x.

Definition before (l : list (Z * Z)) (x : Matrix) : Prop := unfinished_matrix x /\ cases_are l x.
Definition during (l : list (Z * Z)) (x : Matrix) : Prop := before l x /\ upstream_passed x.

Lemma note_before l k v : pyeqb (py k) (py "complete") = false -> preserves (before l) (note (W := W) [(k, v)]).
Proof.
  intros Hk. apply preserves_amend. intros x [Hu Hc]. split; [|exact Hc]. unfold unfinished_matrix. cbn [on_matrix mx_report].
  rewrite rget_rupdate_other; [done|]. cbn [forallb]. by rewrite Hk.
Qed.
Lemma preserves_assert I b : preserves I (assert_ (W := W) b).
Proof. apply preserves_lift. Qed.
Lemma dependency_before l manifest_path : preserves (before l) (matrix_dependency (W := W) ROOT manifest_path).
Proof. unfold matrix_dependency, assert_. preserves_auto. by apply note_before. Qed.
Lemma during_open l x : during l x -> unfinished_matrix x.
Proof. by intros [[] _]. Qed.

Lemma run_during simulator l case :
  leads unfinished_matrix (during l) (matrix_run (W := W) ROOT simulator (xa_steps args) case) (during (l ++ [case])).
Proof.
  unfold matrix_run. do 3 (apply leads_step; [apply during_open|apply preserves_host|intros ?]).
  intros st [[Hu Hc] Hp]. apply wp_bind, wp_amend, wp_lift. cbn [fst]. split; [exact Hu|]. intros u Hg. apply guard_Ok in Hg. unbool.
  split; [|exact Hp]. split; [exact Hu|]. apply Forall2_app; [exact Hc|]. by repeat constructor.
Qed.
Lemma nodes_during simulator nodes l :
  leads unfinished_matrix (during l) (matrix_nodes (W := W) ROOT simulator args nodes) (during (l ++ ((fun seed => (nodes, seed)) <$> seeds_of (xa_seeds args)))).
Proof.
  unfold matrix_nodes. eapply leads_bind; [|intros _; apply leads_preserves; [apply during_open|apply preserves_host]].
  pose proof (leads_for_list (W := W) unfinished_matrix (fun pre => during (l ++ ((fun seed => (nodes, seed)) <$> pre))) (seeds_of (xa_seeds args))
    (fun seed => matrix_run ROOT simulator (xa_steps args) (nodes, seed))) as Hl.
  cbn [fmap list_fmap] in Hl. rewrite app_nil_r in Hl. apply Hl; [intros ? ?; apply during_open|].
  intros pre seed _. rewrite fmap_app, app_assoc. apply run_during.
Qed.
Lemma matrix_work_leads work : leads unfinished_matrix (before []) (matrix_work (W := W) ROOT args work) (during (grid (xa_seeds args))).
Proof.
  unfold matrix_work. assert (Hb : forall x, before [] x -> unfinished_matrix x) by by intros x [].
  do 2 (apply leads_step; [exact Hb|apply preserves_host|intros ?]).
  eapply (leads_bind _ _ (fun x => before [] x /\ rget "upstream" (mx_report x) = Some (J a0))).
  { apply leads_amend. intros x [Hu Hc]. assert (Hn : unfinished_matrix (on_matrix (rupdate [("upstream"%string, J a0)]) x)).
    { unfold unfinished_matrix. cbn [on_matrix mx_report]. by rewrite rget_rupdate_other. }
    split; [exact Hn|]. split; [by split|]. apply rget_rset. }
  intros _. eapply (leads_value _ (fun passed => all_succeeded a0 = Ok passed)); [apply leads_preserves; [by intros x [[]]|apply preserves_lift]|apply returns_lift; auto|].
  intros passed Hpassed. eapply (leads_value _ (fun _ => passed = true)).
  { apply leads_preserves; [|apply preserves_assert]. by intros x [[]]. }
  { eapply returns_mono; [apply returns_check|]. intros [] Hp. by apply negb_false_iff. }
  intros [] ->. apply (leads_weaken _ _ (during [])). { intros x [Hx Hr]. split; [done|]. by exists a0. }
  do 2 (apply leads_step; [apply during_open|apply preserves_host|intros ?]).
  apply leads_step; [apply during_open| |intros ?].
  { apply preserves_amend. intros x [[Hu Hc] (v & Hv & Hs)]. split; [split; [|exact Hc]|exists v; split; [|done]];
      unfold unfinished_matrix; cbn [on_matrix mx_report]; by rewrite rget_rupdate_other. }
  unfold grid. cbn [for_do mbind list_bind]. do 3 (eapply leads_bind; [apply nodes_during|intros _]).
  rewrite app_nil_r, app_assoc. apply leads_preserves; [apply during_open|apply preserves_ret].
Qed.

(** check_consensus_matrix.py: the report says complete only with the
    dependency's tests all successful and the whole grid of simulations, each
    exited with 0; the script succeeds only with such a report. *)
Theorem matrix_sound (r0 : report) (w : W) :
  rget "complete" r0 = Some (tbool false) ->
  wp (matrix_report ROOT args)
     (fun r s' => (rget "complete" (mx_report s'.1) = Some (tbool true) -> sound_matrix s'.1) /\
                  (r = Ok tt -> rget "complete" (mx_report s'.1) = Some (tbool true))) (mkMatrix r0 [], w).
Proof.
  intros Hr0. set (U := fun x => rget "complete" (mx_report x) = Some (tbool true) -> sound_matrix x).
  set (T := fun x => rget "complete" (mx_report x) = Some (tbool true) /\ sound_matrix x).
  assert (Hun : forall x, unfinished_matrix x -> U x) by (intros x Hx Hc; unfold unfinished_matrix in Hx; rewrite Hx in Hc; discriminate).
  assert (Hleads : leads U (before []) (matrix_report (W := W) ROOT args) T).
  { unfold matrix_report, writing. apply leads_finally; [|preserves_auto..]. apply leads_recording.
    - unfold matrix_body. cbv zeta. apply leads_step; [by intros x []; apply Hun|apply dependency_before|intros _].
      do 2 (apply leads_step; [by intros x []; apply Hun|apply preserves_host|intros ?]).
      eapply leads_bind.
      + apply (leads_kept unfinished_matrix); [exact Hun|]. apply leads_finally; [apply matrix_work_leads|apply preserves_host..].
      + intros _. apply leads_amend. intros x [[Hu Hc] (v & Hv & Hs)].
        assert (Hx : sound_matrix (on_matrix (rupdate [("complete"%string, tbool true)]) x)).
        { split; [|exact Hc]. exists v. split; [|done]. cbn [on_matrix mx_report]. by rewrite rget_rupdate_other. }
        split; [by intros _|]. split; [|exact Hx]. apply rget_rset.
    - intros e x Hx Hc. unfold sound_matrix, upstream_passed, cases_are. cbn [on_matrix mx_report mx_cases] in Hc |- *.
      rewrite rget_rupdate_other in Hc |- * by done. by apply Hx. }
  eapply wp_mono; [apply Hleads|]; [split; [exact Hr0|constructor]|]. intros r s' [Hu Ht]. split; [exact Hu|]. intros ->. by apply (Ht tt).
Qed.
End MatrixSound.

(** * An example *)

Module GateDemo.
Definition same {A} (a : A) (w : unit) : A * unit := (a, w).
Definition quoted (s : string) : pystr := [34] ++ py s ++ [34].
Definition test_text (total : string) : pystr := py "{" ++ quoted "total" ++ py ": " ++ py total ++ py ", " ++ quoted "success" ++ py ": 3}".
Definition sample_text (mode batch : pystr) : pystr :=
  py "{" ++ quoted "verified" ++ py ": true, " ++ quoted "iterations" ++ py ": 120, " ++ quoted "mode" ++ py ": " ++ [34] ++ mode ++ [34] ++ py ", "
  ++ quoted "batch" ++ py ": " ++ batch ++ py "}".
(** What the commands print: the revision, the benchmark's banner, its samples. *)
Definition printed (argv : list pystr) : pystr :=
  match argv with
  | [_; _; _; a; _] => if pyeqb a (py "rev-parse") then PIN ++ [10] else []
  | [_; a] => if pyeqb a (py "--iterations=2000") then py "Multi-Master Writes" else []
  | [_; _; mode; batch; _; _] => sample_text (drop 7 mode) (drop 8 batch)
  | _ => []
  end.
(** Every command succeeds and every test report reads [total]. *)
Section World.
Context (total : string).
#[local] Instance demo_host : Host unit := {|
  h_monotonic := same 0%Q; h_monotonic_ns := same 0; h_time := same 0%Q; h_utc := same (py "2026"); h_sleep _ w := w;
  h_exists _ := same false; h_is_file _ := same true;
  h_read_text _ := same (Ok (test_text total)); h_read_bytes p := same (Ok p);
  h_write_text _ _ := same (Ok tt); h_append _ _ := same (Ok tt); h_write_json _ _ := same (Ok tt); h_append_json _ _ := same (Ok tt);
  h_fsync _ := same (Ok tt); h_replace _ _ := same (Ok tt); h_mkdir _ := same (Ok tt); h_glob _ _ := same [];
  h_mkdtemp _ _ := same (Ok (py "/tmp/w")); h_remove _ := same (Ok tt); h_sha256 data := data;
  h_run argv _ _ := same (Ok (mkFinished 0 (printed argv) [])); h_print _ w := w; h_print_json _ w := w; h_getenv _ _ := None; h_linux := true;
  h_resolve p _ := p; h_system := py "Linux"; h_platform := py "Linux"; h_run_input _ _ _ := same (Ok (mkFinished 0 [] [])); h_timeout_output _ := [] |}.
#[local] Instance demo_gating : Gating unit := {|
  g_host := demo_host; g_executable := py "python3"; g_unlink _ := same (Ok tt); g_chmod _ _ := same (Ok tt); g_tempdir _ w := w;
  g_run_env _ _ _ _ := same (Ok (mkFinished 17 [] (py "Hint: ..."))) |}.
Definition demo_args : GateArgs := mkGateArgs 2 10 None None None None (Some (py "/r/out.json")).
Definition demo : pyres unit * (GateReport * unit) := gate_report (py "/r") (py "odin") demo_args (fresh_report [], tt).
End World.

(** A run where all is well is complete: five test runs, three pairs of
    simulations, and thirty-seven commands. *)
Example well : let '(r, (rep, _)) := demo "3" in
  (r, gr_complete rep, length (gr_tests rep), length (gr_simulations rep), length (gr_benchmarks rep), length (gr_commands rep), gr_error rep)
  = (Ok tt, true, 5, 6, 6, 37, None)%nat.
Proof. vm_compute. reflexivity. Qed.
(** A test report with a failure, although the command exited with 0, stops it. *)
Example failing : let '(r, (rep, _)) := demo "4" in
  (r, gr_complete rep, length (gr_tests rep), length (gr_simulations rep)) = (Raise (RuntimeError "Odin tests failed or ran no tests"), false, 1, 0)%nat.
Proof. vm_compute. reflexivity. Qed.
End GateDemo.
