(* ===== verification/NativeWorker.v ===== *)
(** * tools/native_soak_worker.py: the supervisor of one native voter

    One directory holds a voter's binary, configuration and data.  [watch] runs
    the voter under resource guards until it ends or the run expires; [action]
    carries out one verb of the controller: start, stop, status, audit, retire.
    The limits the child sets for itself and the log handles are the host's. *)

From Stdlib Require Import QArith Qround Lqa.
From S2P Require Import Prelude PyStr PyFloat Objects Json Vector Text Net Dict Host Script Supervisor Returns.
#[local] Open Scope Z_scope.

Class NativeHost (W : Type) := {
  y_host :: Host W;
  (** [subprocess.Popen(argv, stdout=log, ...)], [poll], [kill], [wait] of a child *)
  y_spawn : list pystr -> pystr -> W -> pyres Z * W;
  y_poll : Z -> W -> option Z * W;
  y_kill : Z -> W -> W;
  y_wait : Z -> W -> pyres Z * W;
  (** [os.kill(pid, SIGKILL)] *)
  y_signal : Z -> W -> pyres unit * W;
  (** [shutil.disk_usage(root).free], the sizes of the files matching a pattern *)
  y_free : pystr -> W -> Z;
  y_sizes : pystr -> pystr -> W -> list Z;
  y_clock_ticks : Z;
  (** the rows of a query on a database opened read-only *)
  y_query : pystr -> pystr -> W -> pyres (list (list pyval)) * W;
  (** [sys.executable], [Path(__file__).resolve()], [Path.home()] *)
  y_executable : pystr;
  y_this : pystr;
  y_home : pystr;
  y_chmod : pystr -> Z -> W -> pyres unit * W;
  y_shlex : pystr -> pyres (list pystr)
}.

(** One line of [/proc/<pid>/status]: [key[:-1]] and bytes. *)
Definition rss_field (line : pystr) : pyres (option (pystr * pyval)) :=
  if starts_any [py "VmRSS:"; py "VmHWM:"] line
  then match words line with
       | [key; value; _] => let? n := int_of_text value in Ok (Some (take (length key - 1) key, PInt (n * 1024)))
       | _ => Raise (ValueError "not enough values to unpack")
       end
  else Ok None.
Fixpoint rss_fields (lines : list pystr) (result : dict) : pyres dict :=
  match lines with
  | [] => Ok result
  | line :: rest =>
      let? found := rss_field line in
      rss_fields rest (match found with Some (k, v) => dict_set k v result | None => result end)
  end.

(** The guards of [watch]. *)
Definition over_guard (row : dict) : pyres bool :=
  let? data := getitem "data_bytes" row in let? data := vint data in
  if 8 * 1024 ^ 3 <? data then Ok true else
  let? free := getitem "free_bytes" row in let? free := vint free in
  if free <? 10 * 1024 ^ 3 then Ok true else
  let? rss := getitem "VmRSS" row in let? rss := vint rss in
  Ok (512 * 1024 ^ 2 <? rss).

(** The lines of authorized_keys that [retire] keeps. *)
Definition kept_keys (public : pystr) (lines : list pystr) : list pystr := filter (fun line => ends_with public line = false) lines.

Section NativeWorker.
Context {W : Type} `{NativeHost W} (fuel : nat) (ROOT : pystr).
Abbreviation Y := (Hm (W := W)).
Abbreviation K := (Sc (W := W) report).

Definition here (name : string) : pystr := join_path ROOT (py name).
Definition save (name : pystr) (value : tv) : Y unit := save_json false (join_path ROOT name) value.

Definition alive : Y (option Z) :=
  let path := here "server.pid" in
  let! there := io (h_exists path) in
  if negb there then ret None
  else
    let! text := io_res (h_read_text path) in
    let! pid := lift (int_of_text text) in
    let command := fstr [L "/proc/"; D pid; L "/cmdline"] in
    let! there := io (h_exists command) in
    if negb there then ret None
    else
      let! data := io_res (h_read_bytes command) in
      match utf8_encode (here "sqlodin") with
      | Some name => ret (if pyeqb (default [] (head (split_char 0 data))) name then Some pid else None)
      | None => throw (ValueError "surrogates not allowed")
      end.
(** [bool(alive())] *)
Definition is_alive (pid : option Z) : bool := match pid with Some pid => negb (pid =? 0) | None => false end.

Definition usage (pid : option Z) : Y dict :=
  let! free := gets (y_free ROOT) in
  let! sizes := gets (y_sizes (here "data") (py "node.db*")) in
  let result := mkdict [("free_bytes", PInt free); ("data_bytes", PInt (zsum sizes))]%string in
  match pid with
  | None => ret result
  | Some pid =>
      if pid =? 0 then ret result
      else
        let! stat := io_res (h_read_text (fstr [L "/proc/"; D pid; L "/stat"])) in
        let! rest := lift (after_last 41 stat) in
        let fields := words rest in
        let! user := lift (list_index fields 11) in
        let! u := lift (int_of_text user) in
        let! system := lift (list_index fields 12) in
        let! s := lift (int_of_text system) in
        let! seconds := lift (true_division (u + s) y_clock_ticks) in
        let result := dict_set (py "cpu_seconds") seconds result in
        let! status := io_res (h_read_text (fstr [L "/proc/"; D pid; L "/status"])) in
        lift (rss_fields (splitlines status) result)
  end.

Definition config : Y pyval := read_json (here "supervisor.json").
Definition deadline_of (cfg : pyval) : pyres Q := let? x := vget "deadline" cfg in vnum x.

(** ** watch *)

Definition row_data (row : dict) (epoch : Q) : tv := Obj (((fun '(k, v) => (k, J v)) <$> row) ++ [(py "epoch", Num epoch)]).

(** One turn of the loop: [true] when it is over. *)
Definition sample_voter (child : Z) (deadline : Q) : K bool :=
  let! code := on_host (io (y_poll child)) in
  match code with
  | Some _ => ret true
  | None =>
      let! t := on_host (io h_time) in
      if Qle_bool deadline t then ret true
      else
        let! row := on_host (usage (Some child)) in
        let! epoch := on_host (io h_time) in
        do! amend (rupdate [("latest"%string, row_data row epoch)]);;
        let! over := lift (over_guard row) in
        do! lift (guard over (RuntimeError "Resource guard exceeded"));;
        let! rep := reported in
        do! on_host (save (py "resource.json") (Obj rep));;
        do! on_host (io_do (h_sleep 2));;
        ret false
  end.
Definition sampling (child : Z) (deadline : Q) : K unit :=
  while_loop fuel (fun _ => let! over := sample_voter child deadline in ret (if (over : bool) then inr tt else inl tt)) tt.

(** The [finally] clause: the voter is dead and its report saved twice. *)
Definition settle_voter (child : Z) : K unit :=
  let! code := on_host (io (y_poll child)) in
  do! (if bool_decide (code = None) then on_host (io_do (y_kill child)) else ret tt);;
  let! code := on_host (io_res (y_wait child)) in
  let! finished := on_host (io h_time) in
  do! amend (rupdate [("returncode", tint code); ("finished", Num finished)]%string);;
  let! rep := reported in
  do! on_host (save (fstr [L "resource-"; D child; L ".json"]) (Obj rep));;
  on_host (save (py "resource.json") (Obj rep)).

(** [try: sampling except BaseException: note the error finally: settle] *)
Definition guarded (child : Z) (deadline : Q) : K unit :=
  try_finally
    (try_except (sampling child deadline) (fun e => Some (amend (rupdate [("error"%string, tstr (repr_exn e))]))))
    (settle_voter child).

Definition watch_child (create : bool) (deadline : Q) : K unit :=
  let! child := on_host (io_res (y_spawn ([here "sqlodin"; py "serve"; here "node.json"] ++ (if create then [py "--create"] else [])) (here "server.log"))) in
  do! on_host (io_res (h_write_text (here "server.pid") (dec child)));;
  let! started := on_host (io h_time) in
  do! amend (fun _ => fields [("pid", tint child); ("started", Num started); ("samples", Arr []); ("error", tnone)]%string);;
  guarded child deadline.

Definition watch (create : bool) : Y unit :=
  let! cfg := config in
  let! t := io h_time in
  let! deadline := lift (deadline_of cfg) in
  do! lift (guard (Qle_bool deadline t) (RuntimeError "Expired run"));;
  with_report [] (watch_child create deadline).

(** ** audit *)

Definition native_tables : list (string * string) := [("accounts", "id"); ("transfers", "id"); ("ledger", "tx,account")]%string.
Definition table_query (table order : string) : pystr := fstr [L "SELECT * FROM "; L table; L " ORDER BY "; L order].
Definition audit_table (path : pystr) (table order : string) : Y pyval :=
  let! rows := io_res (y_query path (table_query table order)) in
  let! data := lift (json_lines rows) in
  ret (PDict (mkdict [("rows", PInt (zlen rows)); ("sha256", PStr (h_sha256 data))]%string)).
Definition is_ok_row (rows : list (list pyval)) : bool := match rows with [[x]] => eq_str x (py "ok") | _ => false end.

Definition native_audit : Y pyval :=
  let! pid := alive in
  do! lift (guard (is_alive pid) (RuntimeError "Stop voter before offline audit"));;
  let path := here "data/node.db" in
  let! integrity := io_res (y_query path (py "PRAGMA integrity_check")) in
  let! foreign := io_res (y_query path (py "PRAGMA foreign_key_check")) in
  do! lift (guard (negb (is_ok_row integrity && bool_decide (foreign = []))) (AssertionError "(integrity, foreign)"));;
  let! tables := for_each native_tables (fun '(table, order) acc =>
    let! t := audit_table path table order in ret (acc ++ [(table, t)])) [] in
  let! balances := io_res (y_query path (py "SELECT id,balance FROM accounts ORDER BY id")) in
  let result := PDict (mkdict [("integrity", PStr (py "ok")); ("foreign_keys", PStr (py "ok"));
                               ("tables", PDict (mkdict tables)); ("balances", PList (PList <$> balances))]%string) in
  do! save (py "audit.json") (J result);;
  ret result.

(** ** action *)

Definition verbs (ws : list string) : list pystr := py <$> ws.

(** [for _ in range(100): ...; time.sleep(.05)], an answer ending it. *)
Fixpoint polling (rounds : nat) (round : Y (option pyval)) (failure : exn) : Y pyval :=
  match rounds with
  | O => throw failure
  | S rounds =>
      let! answer := round in
      match answer with
      | Some v => ret v
      | None => do! io_do (h_sleep (5 # 100));; polling rounds round failure
      end
  end.

Definition pid_data (pid : option Z) : pyval := match pid with Some pid => PInt pid | None => PNone end.

(** One look at a voter that is starting; [raise RuntimeError] stands for the
    [break] to the same exception. *)
Definition started_round (watcher : Z) : Y (option pyval) :=
  let! pid := alive in
  if is_alive pid then let! pid := alive in ret (Some (PDict (mkdict [("pid"%string, pid_data pid)])))
  else
    let! code := io (y_poll watcher) in
    match code with Some _ => throw (RuntimeError "Start failed") | None => ret None end.
Definition start_voter (create : bool) : Y pyval :=
  let! pid := alive in
  do! lift (guard (is_alive pid) (RuntimeError "Voter already running"));;
  let! watcher := io_res (y_spawn ([y_executable; y_this; py "watch"] ++ (if create then [py "create"] else [])) (here "supervisor.log")) in
  polling 100 (started_round watcher) (RuntimeError "Start failed").

Definition stopped_round : Y (option pyval) :=
  let! pid := alive in
  ret (if is_alive pid then None else Some (PDict (mkdict [("stopped"%string, PBool true)]))).
Definition stop_voter : Y pyval :=
  let! pid := alive in
  do! (match pid with Some n => if negb (n =? 0) then io_res (y_signal n) else ret tt | None => ret tt end);;
  polling 100 stopped_round (RuntimeError "Stop failed").

Definition voter_status : Y pyval :=
  let! there := io (h_exists (here "resource.json")) in
  let! resources := (if (there : bool) then read_json (here "resource.json") else ret (PDict [])) in
  let! pid := alive in
  let! u := usage None in
  let! binary := file_sha256 (here "sqlodin") in
  ret (PDict (mkdict [("pid", pid_data pid); ("resources", resources); ("usage", PDict u); ("binary_sha256", PStr binary)]%string)).

(** The controller's key leaves authorized_keys. *)
Definition retire_access (cfg : pyval) : Y pyval :=
  let! pid := alive in
  do! lift (guard (is_alive pid) (RuntimeError "Stop voter before retiring controller access"));;
  let! public := lift (vget_or "authorized_key" PNone cfg) in
  do! (if truthy public then
         let! public := lift (vstr public) in
         let path := join_path y_home (py ".ssh/authorized_keys") in
         let! text := io_res (h_read_text path) in
         do! io_res (h_write_text path (join [10] (kept_keys public (splitlines text)) ++ [10]));;
         io_res (y_chmod path 384)
       else ret tt);;
  ret (PDict (mkdict [("retired"%string, PBool true)])).

Definition action (ws : list pystr) : Y pyval :=
  let! cfg := config in
  let! t := io h_time in
  let! deadline := lift (deadline_of cfg) in
  do! lift (guard (negb (Qle_bool t deadline)) (RuntimeError "Expired run"));;
  if bool_decide (ws = verbs ["start"]%string) then start_voter false
  else if bool_decide (ws = verbs ["start"; "create"]%string) then start_voter true
  else if bool_decide (ws = verbs ["stop"]%string) then stop_voter
  else if bool_decide (ws = verbs ["status"]%string) then voter_status
  else if bool_decide (ws = verbs ["audit"]%string) then native_audit
  else if bool_decide (ws = verbs ["retire"]%string) then retire_access cfg
  else throw (ValueError "Unsupported supervisor action").

(** [if __name__ == '__main__'] *)
Definition worker_main (argv : list pystr) : Y unit :=
  match argv with
  | _ :: verb :: rest =>
      if pyeqb verb (py "watch") then watch (str_in (py "create") rest)
      else let! answer := action (verb :: rest) in io_do (h_print_json (J answer))
  | _ =>
      let! original := gets (h_getenv (py "SSH_ORIGINAL_COMMAND")) in
      let! ws := lift (y_shlex (default [] original)) in
      let! answer := action ws in
      io_do (h_print_json (J answer))
  end.
End NativeWorker.

(** * What the supervisor of a native voter guarantees *)

(** What [watch] relies on: real time, which passes while the host works and
    which sleeping takes, calls that return, and processes that polling observes
    and killing stops. What [time.time()] reads is not constrained. *)
Class NativeLaws (W : Type) `{NativeHost W} := {
  elapsed : W -> Q;
  active : Z -> W -> bool;
  time_read w : (elapsed w <= elapsed (h_time w).2)%Q;
  time_slept q w : (elapsed w + q <= elapsed (h_sleep q w))%Q;
  time_polled pid w : (elapsed w <= elapsed (y_poll pid w).2)%Q;
  time_text path w : (elapsed w <= elapsed (h_read_text path w).2)%Q /\ (h_read_text path w).1 <> OutOfFuel;
  time_json path v w : (elapsed w <= elapsed (h_write_json path v w).2)%Q /\ (h_write_json path v w).1 <> OutOfFuel;
  time_replace path q w : (elapsed w <= elapsed (h_replace path q w).2)%Q /\ (h_replace path q w).1 <> OutOfFuel;
  poll_ended pid w code : (y_poll pid w).1 = Some code -> active pid (y_poll pid w).2 = false;
  kill_ends pid w : active pid (y_kill pid w) = false;
  wait_ends pid w : active pid w = false -> exists code w', y_wait pid w = (Ok code, w') /\ active pid w' = false;
  stays_ended pid w : active pid w = false ->
    active pid (h_time w).2 = false /\ (forall path v, active pid (h_write_json path v w).2 = false) /\
    (forall path q, active pid (h_replace path q w).2 = false)
}.

(** A row within the guards of [watch]. *)
Definition within_guards (row : dict) : Prop :=
  exists data free rss, getitem "data_bytes" row = Ok (PInt data) /\ getitem "free_bytes" row = Ok (PInt free) /\
    getitem "VmRSS" row = Ok (PInt rss) /\ data <= 8 * 1024 ^ 3 /\ 10 * 1024 ^ 3 <= free /\ rss <= 512 * 1024 ^ 2.

(** Without an error, the last sample of a report is within the guards. *)
Definition guarded_samples (rep : report) : Prop :=
  rget "error" rep = Some tnone ->
  rget "latest" rep = None \/ exists row t, rget "latest" rep = Some (row_data row t) /\ within_guards row.

Lemma vint_Ok v n : vint v = Ok n -> v = PInt n.
Proof. by destruct v; try done; intros [= ->]. Qed.

Lemma over_guard_false row : over_guard row = Ok false -> within_guards row.
Proof.
  unfold over_guard. intros (x & Hx & Hr)%res_bind_Ok. apply res_bind_Ok in Hr as (data & ->%vint_Ok & Hr).
  destruct (8 * 1024 ^ 3 <? data) eqn:E1; [done|].
  apply res_bind_Ok in Hr as (y & Hy & Hr). apply res_bind_Ok in Hr as (free & ->%vint_Ok & Hr).
  destruct (free <? 10 * 1024 ^ 3) eqn:E2; [done|].
  apply res_bind_Ok in Hr as (z & Hz & Hr). apply res_bind_Ok in Hr as (rss & ->%vint_Ok & Hr). injection Hr as E3.
  exists data, free, rss. apply Z.ltb_ge in E1, E2, E3. by split_and!.
Qed.

Section Watch.
Context {W : Type} `{NativeLaws W} (fuel : nat) (ROOT : pystr).
Abbreviation St := (report * W)%type.

(** ** Steps that take time and return *)

Definition timed {A} (m : Hm (W := W) A) : Prop := forall w, wp m (fun r w' => r <> OutOfFuel /\ (elapsed w <= elapsed w')%Q) w.

Lemma timed_bind {A B} (m : Hm (W := W) A) (f : A -> Hm B) : timed m -> (forall a, timed (f a)) -> timed (bind m f).
Proof.
  intros Hm Hf w. apply wp_bind. eapply wp_mono; [apply Hm|]. intros [a|e|] w1 [Hr Hw]; [|by split..].
  eapply wp_mono; [apply Hf|]. intros r w2 [Hr2 Hw2]. split; [done|lra].
Qed.
Lemma timed_ret {A} (a : A) : timed (ret a).
Proof. intros w. apply wp_ret. split; [done|lra]. Qed.
Lemma timed_lift {A} (r : pyres A) : r <> OutOfFuel -> timed (lift r).
Proof. intros Hr w. apply wp_lift. split; [done|lra]. Qed.
Lemma timed_gets {A} (f : W -> A) : timed (gets f).
Proof. intros w. apply wp_gets. split; [done|lra]. Qed.
Lemma timed_text path : timed (io_res (h_read_text path)).
Proof. intros w. apply wp_io_res. intros r w' E. pose proof (time_text path w) as [Ht Hr]. rewrite E in Ht, Hr. by split. Qed.
Lemma timed_save name value : timed (save ROOT name value).
Proof.
  unfold save, save_json. apply timed_bind.
  { intros w. apply wp_io_res. intros r w' E. pose proof (time_json (with_suffix (join_path ROOT name) (py ".tmp")) value w) as [Ht Hr]. rewrite E in Ht, Hr. by split. }
  intros _. apply timed_bind; [apply timed_ret|]. intros _ w. apply wp_io_res. intros r w' E.
  pose proof (time_replace (with_suffix (join_path ROOT name) (py ".tmp")) (join_path ROOT name) w) as [Ht Hr]. rewrite E in Ht, Hr. by split.
Qed.

(** The parsing of /proc never runs out of fuel. *)
Definition parses {A} (r : pyres A) : Prop := r <> OutOfFuel.
Lemma parses_bind {A B} (r : pyres A) (f : A -> pyres B) : parses r -> (forall a, parses (f a)) -> parses (res_bind r f).
Proof. unfold parses. destruct r; cbn; auto; done. Qed.
Lemma parses_index {A} (l : list A) k : parses (list_index l k).
Proof. unfold parses, list_index. by destruct (py_index l k). Qed.
Lemma parses_int s : parses (int_of_text s).
Proof. unfold parses, int_of_text. by destruct (int_of_str s). Qed.
Lemma parses_after c s : parses (after_last c s).
Proof. unfold parses, after_last. destruct (split_char c s) as [|x [|y l]]; [done..|]. cbv zeta. by case_match. Qed.
Lemma parses_division a b : parses (true_division a b).
Proof. unfold parses, true_division. destruct (b =? 0); [done|]. by destruct (float_of_int a), (float_of_int b). Qed.
Lemma parses_rss lines result : parses (rss_fields lines result).
Proof.
  revert result. induction lines as [|line rest IH]; intros result; cbn [rss_fields]; [done|]. apply parses_bind; [|intros f; apply IH].
  unfold rss_field. destruct (starts_any _ line); [|done]. destruct (words line) as [|k [|v [|x [|]]]]; try done. apply parses_bind; [apply parses_int|done].
Qed.
Lemma parses_guard row : parses (over_guard row).
Proof.
  assert (Hv : forall v, parses (vint v)) by (by intros []). assert (Hg : forall k, parses (getitem k row)) by (intros k; unfold parses, getitem; by destruct (dict_get _ row)).
  unfold over_guard. repeat (apply parses_bind; [apply Hg|intros ?]; apply parses_bind; [apply Hv|intros ?]; try (destruct (_ <? _); [done|])). done.
Qed.

Lemma timed_usage pid : timed (usage ROOT pid).
Proof.
  unfold usage. do 2 (apply timed_bind; [apply timed_gets|intros ?]). destruct pid as [pid|]; [|apply timed_ret]. destruct (pid =? 0); [apply timed_ret|].
  apply timed_bind; [apply timed_text|intros stat]. apply timed_bind; [apply timed_lift, parses_after|intros rest]. cbv zeta.
  do 2 (apply timed_bind; [apply timed_lift, parses_index|intros ?]; apply timed_bind; [apply timed_lift, parses_int|intros ?]).
  apply timed_bind; [apply timed_lift, parses_division|intros seconds]. apply timed_bind; [apply timed_text|intros status]. apply timed_lift, parses_rss.
Qed.

(** ** The loop *)

Lemma wp_timed {A} (m : Hm (W := W) A) (Q : res exn A -> St -> Prop) (s : St) :
  timed m -> (forall r w, r <> OutOfFuel -> (elapsed s.2 <= elapsed w)%Q -> Q r (s.1, w)) -> wp (on_host m) Q s.
Proof. intros Hm HQ. apply wp_on_host. eapply wp_mono; [apply Hm|]. intros r w [Hr Hw]. by apply HQ. Qed.

Lemma timed_poll child : timed (io (y_poll child)).
Proof. intros w. apply wp_io. intros a w' E. pose proof (time_polled child w) as Ht. rewrite E in Ht. by split. Qed.
Lemma timed_clock : timed (io h_time).
Proof. intros w. apply wp_io. intros a w' E. pose proof (time_read w) as Ht. rewrite E in Ht. by split. Qed.

(** The report while the voter is sampled: no error, and every sample so far
    within the guards. *)
Definition sampled (rep : report) : Prop := rget "error" rep = Some tnone /\ guarded_samples rep.

Lemma sample_voter_spec child deadline (s : St) :
  sampled s.1 ->
  wp (sample_voter ROOT child deadline)
     (fun r s' => match r with
                  | Ok true => sampled s'.1
                  | Ok false => sampled s'.1 /\ (elapsed s.2 + 2 <= elapsed s'.2)%Q /\
                                exists w, (elapsed s.2 <= elapsed w)%Q /\ ((h_time w).1 < deadline)%Q
                  | Raise _ => True
                  | OutOfFuel => False
                  end) s.
Proof.
  intros Hs. unfold sample_voter. apply wp_bind, wp_timed; [apply timed_poll|]. intros [code|e|] w1 Hr T1; [|done..].
  destruct code as [c|]; [by apply wp_ret|].
  apply wp_bind, wp_on_host, wp_io. intros t w2 E2. cbn [fst snd] in E2. pose proof (time_read w1) as T2. rewrite E2 in T2. cbn [fst snd] in T2 |- *.
  destruct (Qle_bool deadline t) eqn:Hd; [by apply wp_ret|].
  assert (Hlt : exists w, (elapsed s.2 <= elapsed w)%Q /\ ((h_time w).1 < deadline)%Q).
  { exists w1. split; [exact T1|]. rewrite E2. apply Qnot_le_lt. intros Hle. apply Qle_bool_iff in Hle. cbn in Hle. congruence. }
  apply wp_bind, wp_timed; [apply timed_usage|]. intros [row|e|] w3 Hr3 T3; [|done..]. cbn [fst snd] in T3 |- *.
  apply wp_bind, wp_timed; [apply timed_clock|]. intros [ep|e|] w4 Hr4 T4; [|done..]. cbn [fst snd] in T4 |- *.
  apply wp_bind, wp_amend, wp_bind, wp_lift. cbn [fst snd].
  pose proof (parses_guard row) as Hp. destruct (over_guard row) as [over|e|] eqn:Hg; [|done..].
  destruct over; [apply wp_bind, wp_lift; done|]. apply wp_bind, wp_lift. cbn [guard].
  apply wp_bind, wp_gets, wp_bind, wp_timed; [apply timed_save|]. intros [[]|e|] w5 Hr5 T5; [|done..]. cbn [fst snd] in T5 |- *.
  apply wp_bind, wp_on_host, wp_modify, wp_ret. cbn [fst snd]. split; [|split; [pose proof (time_slept 2 w5); lra|exact Hlt]].
  destruct Hs as [He _]. split; [by rewrite rget_rupdate_other|]. intros _. right. exists row, ep. split; [apply rget_rset|by apply over_guard_false].
Qed.

Lemma sampling_ends child deadline k (s : St) :
  sampled s.1 -> wp (sampling k ROOT child deadline) (fun r s' => r = Ok tt -> sampled s'.1) s.
Proof.
  unfold sampling. revert s. induction k as [|k IH]; intros s Hs; cbn [while_loop]; [done|]. apply wp_bind, wp_bind.
  eapply wp_mono; [by apply sample_voter_spec|]. intros [[|]|e|] s1 H1; try done; [by apply wp_ret, wp_ret|]. apply wp_ret, IH, H1.
Qed.

(** A clock that reads the deadline from an instant on stops the loop. *)
Lemma sampling_stops child deadline instant k (s : St) :
  (forall w, (instant <= elapsed w)%Q -> (deadline <= (h_time w).1)%Q) ->
  sampled s.1 -> (instant <= elapsed s.2 + inject_Z (Z.of_nat k) * 2)%Q ->
  wp (sampling (S k) ROOT child deadline) (fun r _ => r <> OutOfFuel) s.
Proof.
  intros Hclock. unfold sampling. revert s. induction k as [|k IH]; intros s Hs Hd; cbn [while_loop]; apply wp_bind, wp_bind;
    (eapply wp_mono; [by apply sample_voter_spec|]); intros [[|]|e|] s1 H1; try done; try (by apply wp_ret, wp_ret); apply wp_ret.
  - exfalso. destruct H1 as (_ & _ & w & Hw & Hlt). change (inject_Z (Z.of_nat 0)) with 0%Q in Hd.
    assert (Hi : (instant <= elapsed w)%Q) by lra. apply Hclock in Hi. lra.
  - destruct H1 as (H1 & T1 & _). apply IH; [exact H1|].
    rewrite Nat2Z.inj_succ, <-Z.add_1_r, inject_Z_plus in Hd. change (inject_Z 1) with 1%Q in Hd. lra.
Qed.

(** ** The end of the voter *)

Lemma saved_ended child name value w :
  active child w = false -> wp (save ROOT name value) (fun r w' => r <> OutOfFuel /\ active child w' = false) w.
Proof.
  intros Hw. unfold save, save_json. destruct (stays_ended child w Hw) as (_ & Hj & _). apply wp_bind, wp_io_res. intros r w1 E1.
  pose proof (time_json (with_suffix (join_path ROOT name) (py ".tmp")) value w) as [_ N1]. specialize (Hj (with_suffix (join_path ROOT name) (py ".tmp")) value).
  rewrite E1 in Hj, N1. destruct r as [[]|e|]; [|by split..]. apply wp_bind, wp_ret, wp_io_res. intros r w2 E2.
  pose proof (time_replace (with_suffix (join_path ROOT name) (py ".tmp")) (join_path ROOT name) w1) as [_ N2].
  destruct (stays_ended child w1 Hj) as (_ & _ & Hp). specialize (Hp (with_suffix (join_path ROOT name) (py ".tmp")) (join_path ROOT name)).
  rewrite E2 in Hp, N2. by split.
Qed.

(** What [watch] leaves: the voter is not running; a normal end is on record
    with its return code. *)
Definition ended (child : Z) (r : res exn unit) (s : St) : Prop :=
  r <> OutOfFuel /\ active child s.2 = false /\
  (r = Ok tt -> exists code w0, rget "returncode" s.1 = Some (tint code) /\ s.2 = (save ROOT (py "resource.json") (Obj s.1) w0).2).

Lemma settle_voter_ends child (s : St) :
  wp (settle_voter ROOT child)
     (fun r s' => ended child r s' /\ rget "error" s'.1 = rget "error" s.1 /\ rget "latest" s'.1 = rget "latest" s.1) s.
Proof.
  unfold settle_voter. apply wp_bind, wp_on_host, wp_io. intros code w1 E1. cbn [fst snd].
  pose proof (poll_ended child s.2) as Hp. rewrite E1 in Hp. cbn in Hp.
  assert (Hrest : forall w, active child w = false ->
    wp (let! code := on_host (io_res (y_wait child)) in
        let! finished := on_host (io h_time) in
        do! amend (rupdate [("returncode", tint code); ("finished", Num finished)]%string);;
        let! rep := reported in
        do! on_host (save ROOT (fstr [L "resource-"; D child; L ".json"]) (Obj rep));;
        on_host (save ROOT (py "resource.json") (Obj rep)))
      (fun r s' => ended child r s' /\ rget "error" s'.1 = rget "error" s.1 /\ rget "latest" s'.1 = rget "latest" s.1) (s.1, w)).
  { intros w Hw. destruct (wait_ends child w Hw) as (c & w2 & Ew & H2). apply wp_bind, wp_on_host, wp_io_res. cbn [fst snd]. rewrite Ew.
    intros r w' [= <- <-]. apply wp_bind, wp_on_host, wp_io. intros t w3 E3. cbn [fst snd] in *. destruct (stays_ended child w2 H2) as (H3 & _ & _). rewrite E3 in H3. cbn in H3.
    apply wp_bind, wp_amend, wp_bind, wp_gets. cbn [fst snd]. set (rep := rupdate _ s.1).
    assert (Hrep : rget "error" rep = rget "error" s.1 /\ rget "latest" rep = rget "latest" s.1) by (unfold rep; by rewrite !rget_rupdate_other).
    apply wp_bind, wp_on_host. eapply wp_mono; [by apply saved_ended|]. cbn [fst snd]. intros [[]|e|] w4 [N4 H4]; [|by split; [split_and!|]..].
    apply wp_on_host. eapply wp_mono; [apply wp_and; [by apply saved_ended|]|].
    - instantiate (1 := fun r w5 => w5 = (save ROOT (py "resource.json") (Obj rep) w4).2). apply wp_intro. cbn [snd]. by intros r w5 ->.
    - cbn [fst snd]. intros r w5 [[N5 H5] Hw5]. split; [|exact Hrep]. split_and!; [done|exact H5|]. intros _. exists c, w4. split; [|exact Hw5].
      by apply (rget_rupdate_at "returncode" _ []). }
  apply wp_bind. destruct code as [c|].
  - rewrite bool_decide_eq_false_2 by done. apply wp_ret, Hrest. by apply (Hp c).
  - rewrite bool_decide_eq_true_2 by done. apply wp_on_host, wp_modify. cbn [fst snd]. apply Hrest, kill_ends.
Qed.
End Watch.

(** C36: watching a voter. Nothing is assumed of [time.time()], which may jump
    forwards and back; what passes is real time, and [time.sleep] takes at least
    as much of it as it is asked for. However the watch ends, after whatever
    number of turns, the voter is not running; a normal end has its return code
    on record and the report on disk; and without an error on record the last
    sample was within the guards: at most 8 GiB of data and 512 MiB of resident
    memory, at least 10 GiB free. And if from some instant on the clock reads
    the deadline or later, the watch does end: each turn takes two seconds, so
    half the seconds until that instant are turns enough. A clock that is set
    back before the deadline again and again would keep it going. *)
Theorem watch_ends {W} `{NativeLaws W} (ROOT : pystr) (child : Z) (deadline : Q) (rep : report) (w : W) :
  rget "error" rep = Some tnone -> rget "latest" rep = None ->
  (forall fuel, wp (guarded fuel ROOT child deadline)
     (fun r s' => r <> OutOfFuel -> ended ROOT child r s' /\ guarded_samples s'.1) (rep, w)) /\
  (forall instant k, (forall w', (instant <= elapsed w')%Q -> (deadline <= (h_time w').1)%Q) ->
     (instant <= elapsed w + inject_Z (Z.of_nat k) * 2)%Q ->
     wp (guarded (S k) ROOT child deadline) (fun r _ => r <> OutOfFuel) (rep, w)).
Proof.
  intros He Hl. assert (Hs0 : sampled rep) by (split; [done|by left]).
  assert (Hfin : forall (r : res exn unit) (s2 : report * W), r <> OutOfFuel -> guarded_samples s2.1 ->
    wp (settle_voter ROOT child) (fun r' s' => ended ROOT child r' s' /\ guarded_samples s'.1) s2).
  { intros r s2 _ H2. eapply wp_mono; [apply settle_voter_ends|]. intros r3 s3 (H3 & Ee & El).
    split; [exact H3|]. unfold guarded_samples. rewrite Ee, El. exact H2. }
  split.
  - intros fuel. unfold guarded. apply wp_try_finally, wp_try_except.
    eapply wp_mono; [by apply sampling_ends|]. cbv beta. intros r s1 Hs. destruct r as [[]|e|]; [| |done].
    + eapply wp_mono; [apply (Hfin (Ok tt)); [done|by apply Hs]|]. intros [[]|?|] s3 H3 _; exact H3.
    + apply wp_amend. eapply wp_mono; [apply (Hfin (Ok tt)); [done|]|].
      * cbn [fst]. unfold guarded_samples. rewrite rget_rset. done.
      * intros [[]|?|] s3 H3 _; exact H3.
  - intros instant k Hclock Hk. unfold guarded. apply wp_try_finally, wp_try_except.
    eapply wp_mono; [by eapply sampling_stops|]. cbv beta. intros r s1 Hr. destruct r as [[]|e|]; [| |done].
    + eapply wp_mono; [apply settle_voter_ends|]. intros [[]|?|] s3 (H3 & _); by try apply H3.
    + apply wp_amend. eapply wp_mono; [apply settle_voter_ends|]. intros [[]|?|] s3 (H3 & _); by try apply H3.
Qed.

Module WatchDemo.
(** Whole seconds, a clock that is set back during the fifth and put right
    after it, and one voter, with its /proc files. *)
Definition World : Type := Z * bool.
Definition reading (second : Z) : Z := if second =? 4 then 1 else second.
Definition proc_text (path : pystr) : option pystr :=
  if pyeqb path (py "/proc/7/stat") then Some (py "7 (sqlodin) S 1 1 1 0 -1 0 0 0 0 0 150 50 0 0")
  else if pyeqb path (py "/proc/7/status") then Some (py "Name: sqlodin" ++ 10 :: py "VmHWM: 2000 kB" ++ 10 :: py "VmRSS: 1000 kB")
  else None.
#[local] Instance demo_host : Host World :=
  quiet_host (fun w => (inject_Z (reading w.1), w)) (fun q w => (w.1 + Qceiling q, w.2)) proc_text true.
#[local] Instance demo_native : NativeHost World := {
  y_host := demo_host; y_spawn _ _ w := (Ok 7, (w.1, true)); y_poll _ w := (if w.2 then None else Some (-9), w);
  y_kill _ w := (w.1, false); y_wait _ w := (Ok (-9), (w.1, false)); y_signal _ w := (Ok tt, (w.1, false));
  y_free _ _ := 2 ^ 40; y_sizes _ _ _ := [4096; 8192]; y_clock_ticks := 100; y_query _ _ w := (Ok [], w);
  y_executable := py "python3"; y_this := py "worker.py"; y_home := py "/home"; y_chmod _ _ w := (Ok tt, w);
  y_shlex s := Ok (words s)
}.
#[local] Instance demo_laws : NativeLaws World.
Proof.
  refine {| elapsed := fun w => inject_Z w.1; active := fun _ w => w.2 |}.
  - intros w. apply Qle_refl.
  - intros q w. cbn. rewrite inject_Z_plus. apply Qplus_le_r, Qle_ceiling.
  - intros pid w. apply Qle_refl.
  - intros path w. cbn. split; [apply Qle_refl|]. by destruct (proc_text path).
  - intros path v w. split; [apply Qle_refl|done].
  - intros path q w. split; [apply Qle_refl|done].
  - intros pid [t []] code; done.
  - done.
  - intros pid w _. by exists (-9), (w.1, false).
  - intros pid w Hw. by split_and!.
Defined.

Definition first_watch : report := fields [("pid", tint 7); ("started", Num 0); ("samples", Arr []); ("error", tnone)]%string.

(** Three seconds of a healthy voter take six: at the fourth second the clock
    reads one. *)
Definition demo_end := guarded 4 (py "/run") 7 3 (first_watch, (0, true)).
Lemma watch_ends_witness :
  demo_end.1 = Ok tt /\ demo_end.2.2 = (6, false) /\ rget "returncode" demo_end.2.1 = Some (tint (-9)) /\
  ended (py "/run") 7 demo_end.1 demo_end.2 /\ guarded_samples demo_end.2.1.
Proof.
  assert (Hend : demo_end.1 = Ok tt) by (vm_compute; reflexivity).
  split; [exact Hend|]. split; [vm_compute; reflexivity|]. split; [vm_compute; reflexivity|].
  destruct (watch_ends (py "/run") 7 3 first_watch (0, true) eq_refl eq_refl) as [Hany Hstops].
  assert (Hclock : forall w' : World, (5 <= elapsed w')%Q -> (3 <= (h_time w').1)%Q).
  { intros [t b]. cbn. unfold reading, Qle. cbn. destruct (Z.eqb_spec t 4); lia. }
  apply (Hany 4%nat). apply (Hstops 5%Q 3%nat Hclock). vm_compute. discriminate.
Defined.

(** Access is retired by dropping exactly the lines that end with the key. *)
Example kept_demo : kept_keys (py "KEY c") [py "from=a KEY c"; py "ssh-ed25519 other"; py "KEY c"] = [py "ssh-ed25519 other"].
Proof. vm_compute. reflexivity. Qed.
End WatchDemo.
