(* ===== verification/Crash.v ===== *)
(** * Process-crash checks (tools/check_durability.py,
    check_session_crashes.py, check_generation_crashes.py)

    A probe is run to a boundary where it stops itself, killed there, and a
    second run verifies what it left on disk. *)

From Stdlib Require Import QArith Lqa.
From S2P Require Import Prelude PyStr PyFloat Objects Json Vector Text Dict Host Script.
#[local] Open Scope Z_scope.

Class Crashing (W : Type) := {
  k_host :: Host W;
  (** [subprocess.Popen(command, stdout=PIPE, stderr=PIPE, text=True)]: its pid *)
  k_spawn : list pystr -> W -> pyres Z * W;
  k_poll : Z -> W -> option Z * W;
  k_kill : Z -> W -> W;
  k_wait : Z -> W -> pyres Z * W;
  (** [child.communicate(timeout)]: the return code with both outputs *)
  k_communicate : Z -> option Q -> W -> pyres (Z * pystr * pystr) * W;
  (** [exc.stdout] and [exc.stderr] of the last failed command *)
  k_failed_output : W -> pystr * pystr
}.

(** ** check_durability.py: run, kill_stopped *)

Section Kill.
Context {W : Type} `{Crashing W}.
Abbreviation K := (Hm (W := W)).

Definition run_stripped (argv : list pystr) : K pystr :=
  let! finished := run_checked argv [] (Some 120%Q) in ret (strip (stdout finished)).

(** One turn of the polling loop; [inr] is [return]. *)
Definition poll_stopped (child : Z) : K (unit + unit) :=
  let! code := io (k_poll child) in
  match code with
  | Some _ =>
      let! _ := io_res (k_communicate child None) in
      throw (RuntimeError "Probe exited before crash boundary: {out}\n{err}")
  | None =>
      let! status := io_res (h_read_text (fstr [L "/proc/"; D child; L "/status"])) in
      if text_in (10 :: py "State:" ++ 9 :: py "T ") status then
        do! io_do (k_kill child);;
        let! out := io_res (k_communicate child (Some 10%Q)) in
        do! lift (guard (negb (out.1.1 =? -9)) (AssertionError "(out, err)"));;
        ret (inr tt)
      else do! io_do (h_sleep (1 # 100));; ret (inl tt)
  end.

(** [while time.monotonic() < deadline: ...] and what follows it. *)
Definition await_stopped (fuel : nat) (child : Z) : K unit :=
  let! now := io h_monotonic in
  let deadline := (now + 60)%Q in
  while_loop fuel (fun _ =>
    let! now := io h_monotonic in
    if Qle_bool deadline now then throw (TimeoutError "Probe did not reach its crash boundary")
    else poll_stopped child) tt.

(** The [finally] clause. *)
Definition reap_probe (child : Z) : K unit :=
  let! code := io (k_poll child) in
  match code with
  | Some _ => ret tt
  | None => do! io_do (k_kill child);; let! _ := io_res (k_wait child) in ret tt
  end.

Definition kill_stopped (fuel : nat) (command : list pystr) : K unit :=
  let! child := io_res (k_spawn command) in
  try_finally (await_stopped fuel child) (reap_probe child).
End Kill.

(** ** The probes *)

(** One probe: what prepares its file ([None]: its directory is made), what is
    killed and what verifies. *)
Record Probe := mkProbe { p_case : pystr; p_file : pystr; p_init : option string; p_write : list pystr; p_verify : list pystr }.

Definition store_probes : list Probe :=
  (fun '(boundary, expected) =>
     mkProbe (py boundary) (py boundary ++ py ".db") (Some "init"%string) [py "write"; py boundary] [py "verify"; dec expected])
  <$> [("before"%string, 0); ("journal"%string, 1); ("application"%string, 1); ("ack"%string, 1)].
Definition cluster_probe : Probe :=
  mkProbe (py "three_voters_killed_at_ack") (py "cluster") None [py "cluster"; py "-"] [py "cluster-verify"; py "-"].
Definition transaction_probes : list Probe :=
  ["" ; "-reject"]%string ≫= (fun suffix =>
    (fun boundary =>
       mkProbe (fstr [L "transaction"; L suffix; L "-"; L boundary]) (fstr [L "transaction"; L suffix; L "-"; L boundary; L ".db"])
         (Some "tx-init"%string) [fstr [L "tx-write"; L suffix]; py boundary] [fstr [L "tx-verify"; L suffix]; py boundary])
    <$> ["before"; "journal"; "application"; "ack"]%string).
Definition group_probes : list Probe :=
  (fun boundary =>
     mkProbe (fstr [L "application-group-"; L boundary]) (fstr [L "group-"; L boundary; L ".db"])
       (Some "group-init"%string) [py "group-write"; py boundary] [py "group-verify"; py boundary])
  <$> ["before"; "journal"; "sql"; "application"; "ack"]%string.
Definition journal_probes : list Probe :=
  (fun boundary =>
     mkProbe (fstr [L "journal-group-"; L boundary]) (fstr [L "journal-group-"; L boundary; L ".db"])
       (Some "journal-init"%string) [py "journal-write"; py boundary] [py "journal-verify"; py boundary])
  <$> ["before"; "journal"; "application"; "ack"]%string.
Definition durability_probes : list Probe :=
  store_probes ++ [cluster_probe] ++ transaction_probes ++ group_probes ++ journal_probes.

(** check_session_crashes.py *)
Definition session_probes : list Probe :=
  (fun boundary =>
     mkProbe (py boundary) (fstr [L boundary; L ".db"]) (Some "session-init"%string)
       [py "session-write"; py boundary] [py "session-verify"; py boundary])
  <$> ["before"; "journal"; "sql"; "application"; "ack"]%string.

(** check_generation_crashes.py *)
Definition PHASES : list string :=
  ["Image_Checked"; "Before_Application_Step"; "After_Application_Step"; "Application_Copied"; "Before_Suffix_Commit";
   "Suffix_Copied"; "Base_Written"; "Recovered"; "Before_Outcome_Trim_Commit"; "After_Outcome_Trim_Commit";
   "Before_Identity_Commit"; "Before_Directory_Sync"; "Ready"; "After_Directory_Sync"; "Before_Publication";
   "Before_Catalog_Commit"; "After_Publication"]%string.
Definition RETIREMENT_PHASES : list string := ["After_Retirement_Files"; "After_Retirement_Sync"; "Before_Retirement_Commit"]%string.
Definition IMAGE_PHASES : list string :=
  ["After_Image_Retirement_Files"; "After_Image_Retirement_Sync"; "Before_Image_Retirement_Commit"]%string.
Definition ROOT_PHASES : list string :=
  ["After_Root_Retirement_Files"; "After_Root_Retirement_Sync"; "Before_Root_Retirement_Commit"]%string.
Definition BACKUP_PHASES : list string :=
  ["Before_Image_Step"; "After_Image_Step"; "Image_Copied"; "Image_Synced"; "Image_Verified"; "Before_Manifest";
   "Before_Manifest_Sync"; "After_Manifest_Sync"; "Manifest_Durable"]%string.
Definition RESTORE_PHASES : list string :=
  String.append "Restore_" <$>
  ["Initialized"; "Before_Image_Step"; "After_Image_Step"; "Image_Verified"; "Application_Rebased"; "Files_Synced";
   "Before_Ready_Commit"; "Ready"]%string.
Definition ALL_PHASES : list string :=
  PHASES ++ RETIREMENT_PHASES ++ IMAGE_PHASES ++ ROOT_PHASES ++ BACKUP_PHASES ++ RESTORE_PHASES.

Definition one_of (phase : pystr) (phases : list string) : bool := str_in phase (py <$> phases).

(** [phase.removeprefix('Restore_')] *)
Definition removeprefix (prefix s : pystr) : pystr := if pyeqb (take (length prefix) s) prefix then drop (length prefix) s else s.

Definition generation_probe (phase : pystr) : Probe :=
  let operation :=
    if one_of phase RESTORE_PHASES then "restore"
    else if one_of phase BACKUP_PHASES then "backup"
    else if one_of phase ROOT_PHASES then "retire-root"
    else if one_of phase IMAGE_PHASES then "retire-image"
    else if one_of phase RETIREMENT_PHASES then "retire" else "gen" in
  let boundary := if one_of phase RESTORE_PHASES then removeprefix (py "Restore_") phase else phase in
  mkProbe phase phase None [fstr [L operation; L "-write"]; boundary] [fstr [L operation; L "-verify"]; boundary].

(** [args.case or (all of them)] *)
Definition generation_probes (cases : list pystr) : list Probe :=
  generation_probe <$> (if bool_decide (cases = []) then py <$> ALL_PHASES else cases).

(** ** The scripts *)

Section Scripts.
Context {W : Type} `{Crashing W} (ROOT : pystr) (fuel : nat).
Abbreviation K := (Hm (W := W)).
Abbreviation S := (Sc (W := W) report).

(** The verification a probe's second run printed. *)
Definition run_probe (binary work : pystr) (p : Probe) : K pystr :=
  let path := join_path work (p_file p) in
  do! match p_init p with
      | Some word => let! _ := run_stripped [binary; path; py word; py "-"] in ret tt
      | None => io_res (h_mkdir path)
      end;;
  do! kill_stopped fuel ([binary; path] ++ p_write p);;
  run_stripped ([binary; path] ++ p_verify p).

Definition build_probe (binary : pystr) (flags : list pystr) : K unit :=
  let! odin := gets (h_getenv (py "ODIN")) in
  let! _ := run_stripped ([default (py "odin") odin; py "build"; join_path ROOT (py "internal/durability_probe")] ++ flags
                          ++ [py "-out:" ++ binary]) in
  ret tt.

(** [filesystem['filesystems'][0]['fstype'] in ('tmpfs', 'ramfs')] *)
Definition memory_backed (filesystem : pyval) : pyres bool :=
  let? l := vget "filesystems" filesystem in
  let? first := vindex 0 l in
  let? fstype := vget "fstype" first in
  Ok (eq_str fstype (py "tmpfs") || eq_str fstype (py "ramfs")).
Definition mounted (argv : list string) (work : pystr) (options : list string) : K pyval :=
  let! text := run_stripped ((py <$> argv) ++ [work] ++ (py <$> options)) in lift (loads text).
Definition assert_on_disk (filesystem : pyval) : K unit :=
  let! memory := lift (memory_backed filesystem) in
  lift (guard (memory : bool) (AssertionError "")).

Definition lower_bool (b : bool) : string := if b then "true" else "false".

(** check_durability.py *)
Record DurabilityArgs := mkDurabilityArgs { du_output : option pystr; individual_journal : bool; du_storage_format : Z }.

Definition durability_flags (args : DurabilityArgs) : list pystr :=
  [py "-o:speed"; py "-vet"; py "-strict-style";
   fstr [L "-define:SQLODIN_JOURNAL_GROUP_COMMIT="; L (lower_bool (negb (individual_journal args)))];
   fstr [L "-define:SQLODIN_TEST_SEPARATED="; L (lower_bool (du_storage_format args =? 5))]].

Definition result_entry (p : Probe) (verification : pystr) : tv :=
  Obj (fields [("case", tstr (p_case p)); ("passed", tbool true); ("verification", tstr verification)]%string).

(** The [with] block: the filesystem and the results. *)
Definition durability_results (args : DurabilityArgs) (work : pystr) : K (pyval * list tv) :=
  let! filesystem := mounted ["findmnt"; "--json"; "-T"]%string work ["-o"; "TARGET,FSTYPE,SOURCE,OPTIONS"]%string in
  let! memory := lift (memory_backed filesystem) in
  do! lift (guard (memory : bool) (SystemExit (py "Disk durability checks require the project build directory on persistent storage")));;
  let binary := join_path work (py "probe") in
  do! build_probe binary (durability_flags args);;
  let! results := for_each durability_probes (fun p acc =>
    let! verification := run_probe binary work p in ret (acc ++ [result_entry p verification])) [] in
  ret (filesystem, results).

(** [sorted([*ROOT.glob('src/**/*.odin'), *ROOT.glob('internal/durability_probe/*.odin')])] and its digests *)
Definition probe_sources : K (list (pystr * pystr)) :=
  let! src := io (h_glob ROOT (py "src/**/*.odin")) in
  let! probe := io (h_glob ROOT (py "internal/durability_probe/*.odin")) in
  manifest ROOT (src ++ probe).

Definition durability_report (args : DurabilityArgs) (filesystem : pyval) (results : list tv) : K report :=
  let! utc := io h_utc in
  let! sources := probe_sources in
  let! native := read_json (join_path ROOT (py "build/native/build.json")) in
  ret (fields [("schema_version", tint 1); ("run_at_utc", tstr utc);
    ("journal_group_commit", tbool (negb (individual_journal args))); ("storage_format", tint (du_storage_format args));
    ("source_sha256", manifest_report sources); ("native_dependencies", J native);
    ("scope", tstr (py "process crash; not physical power-loss certification"));
    ("platform", tstr h_platform); ("filesystem", J filesystem); ("checks", Arr results)]%string).

Definition durability_main (args : DurabilityArgs) : K unit :=
  let! present := match du_output args with Some path => io (h_exists path) | None => ret false end in
  if (present : bool) then parser_error "output exists; retain prior evidence and select a new report path"
  else if negb (pyeqb h_system (py "Linux")) then throw (SystemExit (py "Run these SIGKILL/proc checks on Linux"))
  else
    let disk_tmp := join_path ROOT (py "build/test-tmp") in
    do! io_res (h_mkdir disk_tmp);;
    let! out := with_tempdir (py "sqlodin-crash-") disk_tmp (durability_results args) in
    let! rep := durability_report args out.1 out.2 in
    do! match du_output args with
        | Some path => do! io_res (h_mkdir (path_parent path));; io_res (h_write_json path (Obj rep))
        | None => ret tt
        end;;
    io_do (h_print_json (Obj rep)).

(** [{str(f.relative_to(ROOT)): sha256 of f for f in paths}] *)
Definition digests_of (paths : list pystr) : K (list (pystr * pystr)) :=
  for_each paths (fun path entries =>
    let! digest := file_sha256 path in ret (dset (relative_to ROOT path) digest entries)) [].

(** The probes of a script that reports as it goes. *)
Definition report_probe (entry : Probe -> pystr -> tv) (line : Probe -> pystr -> pystr) (binary work : pystr) (p : Probe) : S unit :=
  let! result := on_host (run_probe binary work p) in
  do! amend (rappend "checks" (entry p result));;
  on_host (print_line (line p result)).

(** The guarded block of both scripts: mount, build, probes. *)
Definition crash_body (entry : Probe -> pystr -> tv) (line : Probe -> pystr -> pystr) (mount : list string)
    (flags : list pystr) (prefix scratch : pystr) (probes : list Probe) : S unit :=
  let! work := on_host (io_res (h_mkdtemp prefix scratch)) in
  try_finally
    (let! filesystem := on_host (mounted mount work []) in
     do! amend (rupdate [("filesystem", J filesystem)]%string);;
     do! on_host (assert_on_disk filesystem);;
     let binary := join_path work (py "probe") in
     do! on_host (build_probe binary flags);;
     let! digest := on_host (file_sha256 binary) in
     do! amend (rupdate [("binary_sha256", tstr digest)]%string);;
     do! for_do probes (report_probe entry line binary work);;
     amend (rupdate [("complete", tbool true); ("passed", tbool true)]%string))
    (on_host (io_res (h_remove work))).

(** check_session_crashes.py *)
Definition session_entry (p : Probe) (result : pystr) : tv :=
  Obj (fields [("boundary", tstr (p_case p)); ("passed", tbool true); ("output", tstr result)]%string).
Definition session_sources : K (list (pystr * pystr)) :=
  let! src := io (h_glob (join_path ROOT (py "src")) (py "**/*.odin")) in
  let! probe := io (h_glob (join_path ROOT (py "internal/durability_probe")) (py "**/*.odin")) in
  digests_of (src ++ probe).

Definition session_report (output : pystr) : S unit :=
  let! utc := on_host (io h_utc) in
  do! amend (rupdate [("complete", tbool false); ("passed", tbool false); ("checks", Arr []); ("run_at_utc", tstr utc);
    ("scope", tstr (py "separated durable stores, process SIGKILL, not physical power loss"))]%string);;
  let scratch := join_path ROOT (py "build/test-tmp") in
  do! on_host (io_res (h_mkdir scratch));;
  do! on_host (io_res (h_mkdir (path_parent output)));;
  try_finally
    (recording (fun e => rupdate [("error"%string, tstr (repr_exn e))])
      (crash_body session_entry (fun p _ => fstr [L "PASS "; T (p_case p)]) ["findmnt"; "-J"; "-T"]%string
         [py "-debug"; py "-vet"; py "-strict-style"; py "-define:SQLODIN_TEST_SEPARATED=true"] [] scratch session_probes))
    (let! sources := on_host session_sources in
     do! amend (rupdate [("sources"%string, manifest_report sources)]);;
     let! rep := reported in on_host (io_res (h_write_json output (Obj rep)))).

Definition session_main (output : pystr) : K unit :=
  let! present := io (h_exists output) in
  if negb h_linux || present then parser_error "Linux and a new evidence path required"
  else with_report [] (session_report output).

(** check_generation_crashes.py *)
Definition generation_entry (p : Probe) (result : pystr) : tv :=
  Obj (fields [("phase", tstr (p_case p)); ("passed", tbool true); ("verification", tstr result)]%string).

(** [except BaseException]: a failed command's outputs are kept too. *)
Definition generation_recording (body : S unit) : S unit :=
  try_except body (fun e => Some
    (do! amend (rupdate [("error"%string, tstr (repr_exn e))]);;
     do! (if isinstance e CCalledProcessError then
            let! outputs := on_host (gets k_failed_output) in
            amend (rupdate [("failure_stdout", tstr outputs.1); ("failure_stderr", tstr outputs.2)]%string)
          else ret tt);;
     throw e)).

Definition generation_report (output : pystr) (debug : bool) (cases : list pystr) : S unit :=
  let! utc := on_host (io h_utc) in
  do! amend (rupdate [("complete", tbool false); ("passed", tbool false); ("checks", Arr []); ("platform", tstr h_platform);
    ("debug", tbool debug); ("run_at_utc", tstr utc);
    ("scope", tstr (py "local generation publication with retained predecessor; SIGKILL, not power loss"))]%string);;
  do! on_host (io_res (h_mkdir (path_parent output)));;
  try_finally
    (generation_recording
      (let scratch := join_path ROOT (py "build/test-tmp") in
       do! on_host (io_res (h_mkdir scratch));;
       crash_body generation_entry (fun p result => fstr [L "PASS "; T (p_case p); L " "; T result]) ["findmnt"; "--json"; "-T"]%string
         [py (if debug then "-debug" else "-o:speed"); py "-vet"; py "-strict-style"] (py "generation-crash-") scratch
         (generation_probes cases)))
    (let! sources := on_host probe_sources in
     do! amend (rupdate [("source_sha256"%string, manifest_report sources)]);;
     let! rep := reported in on_host (io_res (h_write_json output (Obj rep)))).

(** [choices] of [--case] are checked by argparse. *)
Definition generation_main (output : pystr) (debug : bool) (cases : list pystr) : K unit :=
  if negb (forallb (fun c => one_of c ALL_PHASES) cases) then parser_error "argument --case: invalid choice"
  else
    let! present := io (h_exists output) in
    if (present : bool) then parser_error "Select a new evidence path; previous failures are retained"
    else if negb (pyeqb h_system (py "Linux")) then parser_error "These process-crash checks require Linux"
    else with_report [] (generation_report output debug cases).
End Scripts.

(** * Theorems on the process-crash checks

    Waiting for a probe ends within its minute, never leaves the probe running,
    and succeeds only by killing it where it had stopped; the reports claim a
    pass only with one verified entry per planned boundary, in order. *)

(** What the waiting relies on: a clock that never goes back and that sleeping
    advances, processes that polling observes and killing stops, and calls that
    return. *)
Class CrashingLaws (W : Type) `{Crashing W} := {
  clock : W -> Q;
  running : Z -> W -> bool;
  clock_read w : (h_monotonic w).1 = clock w /\ (clock w <= clock (h_monotonic w).2)%Q;
  clock_slept q w : (clock w + q <= clock (h_sleep q w))%Q;
  clock_polled pid w : (clock w <= clock (k_poll pid w).2)%Q;
  clock_status path w : (clock w <= clock (h_read_text path w).2)%Q;
  status_returns path w : (h_read_text path w).1 <> OutOfFuel;
  communicate_returns pid t w : (k_communicate pid t w).1 <> OutOfFuel;
  poll_stopped_only pid w code : (k_poll pid w).1 = Some code -> running pid (k_poll pid w).2 = false;
  kill_stops pid w : running pid (k_kill pid w) = false;
  wait_stopped pid w : running pid w = false -> exists code w', k_wait pid w = (Ok code, w') /\ running pid w' = false
}.

Section Killing.
Context {W : Type} `{CrashingLaws W}.

Definition stopped_text : pystr := 10 :: py "State:" ++ 9 :: py "T ".

(** The probe was seen stopped and the signal that ended it was SIGKILL. *)
Definition killed_stopped (child : Z) : Prop :=
  exists w status w' outputs w'',
    h_read_text (fstr [L "/proc/"; D child; L "/status"]) w = (Ok status, w') /\ text_in stopped_text status = true /\
    k_communicate child (Some 10%Q) (k_kill child w') = (Ok (-9, outputs.1, outputs.2), w'').

Lemma poll_stopped_spec child w :
  wp (poll_stopped child)
     (fun r w' => match r with
                  | Ok (inr _) => killed_stopped child
                  | Ok (inl _) => (clock w + (1 # 100) <= clock w')%Q
                  | Raise _ => True
                  | OutOfFuel => False
                  end) w.
Proof.
  unfold poll_stopped. apply wp_bind, wp_io. intros code w1 Hp. pose proof (clock_polled child w) as C1. rewrite Hp in C1. cbn in C1.
  destruct code as [c|].
  { apply wp_bind, wp_io_res. intros r w2 Hc. pose proof (communicate_returns child None w1) as Hr. rewrite Hc in Hr.
    destruct r; [by apply wp_throw|done|done]. }
  apply wp_bind, wp_io_res. intros r w2 Hs.
  pose proof (clock_status (fstr [L "/proc/"; D child; L "/status"]) w1) as C2.
  pose proof (status_returns (fstr [L "/proc/"; D child; L "/status"]) w1) as Hr. rewrite Hs in C2, Hr. cbn in C2, Hr.
  destruct r as [status|e|]; [|done|done].
  destruct (text_in (10 :: py "State:" ++ 9 :: py "T ") status) eqn:Hst.
  - apply wp_bind, wp_modify, wp_bind, wp_io_res. intros r w3 Hc.
    pose proof (communicate_returns child (Some 10%Q) (k_kill child w2)) as Hn. rewrite Hc in Hn. cbn in Hn.
    destruct r as [[[code out] err]|e|]; [|done|done]. cbn [fst].
    destruct (Z.eqb_spec code (-9)) as [->|]; apply wp_bind, wp_lift; cbn; [|done].
    exists w1, status, w2, (out, err), w3. by split_and!.
  - apply wp_bind, wp_modify, wp_ret. pose proof (clock_slept (1 # 100) w2). lra.
Qed.

Lemma await_loop child deadline n w :
  (deadline <= clock w + inject_Z (Z.of_nat n) * (1 # 100))%Q ->
  wp (while_loop (S n) (fun _ =>
        let! now := io h_monotonic in
        if Qle_bool deadline now then throw (TimeoutError "Probe did not reach its crash boundary")
        else poll_stopped child) tt)
     (fun r _ => r <> OutOfFuel /\ (r = Ok tt -> killed_stopped child)) w.
Proof.
  revert w. induction n as [|n IH]; intros w Hd; cbn [while_loop]; apply wp_bind, wp_bind, wp_io; intros t w1 Ht;
    pose proof (clock_read w) as [C0 C1]; rewrite Ht in C0, C1; cbn [fst snd] in C0, C1;
    destruct (Qle_bool deadline t) eqn:E; try (by apply wp_throw).
  - exfalso. assert (Hl : (deadline <= t)%Q) by (rewrite C0; change (inject_Z (Z.of_nat 0)) with 0%Q in Hd; lra).
    apply Qle_bool_iff in Hl. congruence.
  - eapply wp_mono; [apply poll_stopped_spec|]. intros [[[]|[]]|e|] w2 Hr; [|by apply wp_ret|done|done].
    apply IH. rewrite Nat2Z.inj_succ, <-Z.add_1_r, inject_Z_plus in Hd. change (inject_Z 1) with 1%Q in Hd. lra.
Qed.

Lemma reap_probe_spec child w : wp (reap_probe child) (fun r w' => r = Ok tt /\ running child w' = false) w.
Proof.
  unfold reap_probe. apply wp_bind, wp_io. intros code w1 Hp. pose proof (poll_stopped_only child w) as Hs. rewrite Hp in Hs. cbn in Hs.
  destruct code as [c|]; [apply wp_ret; split; [done|by apply (Hs c)]|].
  apply wp_bind, wp_modify, wp_bind, wp_io_res. intros r w2 Hw.
  destruct (wait_stopped child (k_kill child w1) (kill_stops _ _)) as (code & w' & Hk & Hr). rewrite Hk in Hw.
  injection Hw as <- <-. by apply wp_ret.
Qed.
End Killing.

(** The waits of one minute at a hundredth of a second. *)
Definition kill_fuel : nat := 6001.

(** C28: waiting for a probe to stop at its boundary always ends, within
    [kill_fuel] turns of its loop; whatever happens the probe is not running
    afterwards; and it ends normally only when the probe was seen stopped and
    SIGKILL is what ended it. *)
Theorem probe_killed {W} `{CrashingLaws W} command child (w w1 : W) :
  k_spawn command w = (Ok child, w1) ->
  wp (kill_stopped kill_fuel command)
     (fun r w' => r <> OutOfFuel /\ running child w' = false /\ (r = Ok tt -> killed_stopped child)) w.
Proof.
  intros Hs. unfold kill_stopped. apply wp_bind, wp_io_res. intros r w2 Hs'. rewrite Hs in Hs'. injection Hs' as <- <-.
  apply wp_try_finally. unfold await_stopped. apply wp_bind, wp_io. intros t w2 Ht.
  pose proof (clock_read w1) as [C0 C1]. rewrite Ht in C0, C1. cbn [fst snd] in C0, C1.
  assert (E : (inject_Z (Z.of_nat 6000) * (1 # 100) == 60)%Q) by (vm_compute; reflexivity).
  unfold kill_fuel. eapply wp_mono; [apply await_loop; rewrite E, C0; lra|].
  intros r w3 [Hf Hk]. destruct r as [[]|e|]; [| |done];
    (eapply wp_mono; [apply reap_probe_spec|]); intros r' w4 [-> Hr]; by split_and!.
Qed.

(** ** What the reports claim *)

Section Reports.
Context {W : Type} `{Crashing W} (ROOT : pystr) (fuel : nat).
Abbreviation K := (Hm (W := W)).

(** A probe that was prepared, killed where it stopped and verified, with what
    the verification printed. *)
Definition verified (p : Probe) (result : pystr) : Prop :=
  exists binary work w w', run_probe fuel binary work p w = (Ok result, w').

Definition passed (r : report) : Prop := rget "passed" r = Some (tbool true).
Definition unpassed (r : report) : Prop := rget "passed" r = Some (tbool false).
Definition checked (l : list tv) (r : report) : Prop := rget "checks" r = Some (Arr l).

(** One entry per planned probe, in order, each of a verified run. *)
Definition evidence (entry : Probe -> pystr -> tv) (probes : list Probe) (r : report) : Prop :=
  rget "complete" r = Some (tbool true) /\
  exists results, Forall2 verified probes results /\ checked (zip_with entry probes results) r.

Lemma unpassed_not r : unpassed r -> ~ passed r.
Proof. unfold unpassed, passed. intros -> [=]. Qed.

Lemma run_probe_verified binary work p w :
  wp (run_probe fuel binary work p) (fun r _ => forall v, r = Ok v -> verified p v) w.
Proof. apply wp_intro. intros r w' Hr v ->. by exists binary, work, w, w'. Qed.

Lemma probes_verified {A} (make : Probe -> pystr -> A) binary work l acc w :
  wp (for_each l (fun p acc => let! v := run_probe fuel binary work p in ret (acc ++ [make p v])) acc)
     (fun r _ => forall out, r = Ok out -> exists vs, Forall2 verified l vs /\ out = acc ++ zip_with make l vs) w.
Proof.
  revert acc w. induction l as [|p l IH]; intros acc w; cbn [for_each].
  { apply wp_ret. intros out [= <-]. exists []. by rewrite app_nil_r. }
  apply wp_bind, wp_bind. eapply wp_mono; [apply run_probe_verified|]. intros [v|e|] w1 Hv; [|done..]. apply wp_ret.
  eapply wp_mono; [apply IH|]. intros r w2 Hr out Ho. destruct (Hr out Ho) as (vs & Hvs & ->).
  exists (v :: vs). split; [constructor; [by apply Hv|done]|]. cbn. by rewrite <-app_assoc.
Qed.

Lemma report_probes_spec entry line binary work l (s : report * W) done_ :
  unpassed s.1 -> checked done_ s.1 ->
  wp (for_do l (report_probe fuel entry line binary work))
     (fun r s' => unpassed s'.1 /\
        (r = Ok tt -> exists vs, Forall2 verified l vs /\ checked (done_ ++ zip_with entry l vs) s'.1)) s.
Proof.
  revert s done_. induction l as [|p l IH]; intros s done_ Hu Hc; cbn [for_do].
  { apply wp_ret. split; [done|]. intros _. exists []. by rewrite app_nil_r. }
  apply wp_bind. unfold report_probe. apply wp_bind, wp_on_host. eapply wp_mono; [apply run_probe_verified|].
  intros [v|e|] w1 Hv; [|done..]. apply wp_bind, wp_amend, wp_host_step. cbn [fst snd].
  assert (Hu' : unpassed (rappend "checks" (entry p v) s.1)) by (unfold unpassed; by rewrite rget_rappend_other).
  intros [[]|e|] w2; [|done..].
  eapply wp_mono; [apply (IH _ (done_ ++ [entry p v])); [done|by apply rget_rappend]|].
  intros r s' [Hu2 Hok]. split; [done|]. intros Hr. destruct (Hok Hr) as (vs & Hvs & Hc').
  exists (v :: vs). split; [constructor; [by apply Hv|done]|]. cbn. by rewrite <-app_assoc in Hc'.
Qed.

Lemma crash_body_spec entry line mount flags prefix scratch l (s : report * W) :
  unpassed s.1 -> checked [] s.1 ->
  wp (crash_body ROOT fuel entry line mount flags prefix scratch l)
     (fun r s' => (passed s'.1 -> evidence entry l s'.1) /\ (r = Ok tt -> passed s'.1)) s.
Proof.
  intros Hu Hc. unfold crash_body.
  assert (Hno : forall (r : report) (r' : res exn unit), unpassed r -> r' <> Ok tt -> (passed r -> evidence entry l r) /\ (r' = Ok tt -> passed r)).
  { intros r r' Hr Hn. split; [intros Hp; by apply unpassed_not in Hr|done]. }
  apply wp_bind, wp_host_step. intros [work|e|] w; [|by apply Hno..]. cbn [fst snd].
  apply wp_try_finally.
  enough (Hbody : wp (let! filesystem := on_host (mounted mount work []) in
     do! amend (rupdate [("filesystem", J filesystem)]%string);;
     do! on_host (assert_on_disk filesystem);;
     let binary := join_path work (py "probe") in
     do! on_host (build_probe ROOT binary flags);;
     let! digest := on_host (file_sha256 binary) in
     do! amend (rupdate [("binary_sha256", tstr digest)]%string);;
     do! for_do l (report_probe fuel entry line binary work);;
     amend (rupdate [("complete", tbool true); ("passed", tbool true)]%string))
    (fun r s' => (passed s'.1 -> evidence entry l s'.1) /\ (r = Ok tt -> passed s'.1)) (s.1, w)).
  { eapply wp_mono; [exact Hbody|]. intros [[]|e|] s1 [H1 H2]; cbn beta iota; [| |done];
      apply wp_host_step; intros [[]|e'|] w2; split; cbn [fst]; auto; done. }
  apply wp_bind, wp_host_step. intros [filesystem|e|] w1; [|by apply Hno..]. apply wp_bind, wp_amend. cbn [fst snd].
  assert (Hu1 : unpassed (rupdate [("filesystem", J filesystem)]%string s.1)) by (unfold unpassed; by rewrite rget_rupdate_other).
  assert (Hc1 : checked [] (rupdate [("filesystem", J filesystem)]%string s.1)) by (unfold checked; by rewrite rget_rupdate_other).
  remember (rupdate [("filesystem", J filesystem)]%string s.1) as r1 eqn:E1. clear E1.
  apply wp_bind, wp_host_step. intros [[]|e|] w2; [|by apply Hno..]. cbn [fst snd].
  apply wp_bind, wp_host_step. intros [[]|e|] w3; [|by apply Hno..]. cbn [fst snd].
  apply wp_bind, wp_host_step. intros [digest|e|] w4; [|by apply Hno..]. apply wp_bind, wp_amend. cbn [fst snd].
  apply wp_bind. eapply wp_mono.
  { apply (report_probes_spec _ _ _ _ _ _ []); cbn [fst]; [unfold unpassed|unfold checked]; by rewrite rget_rupdate_other. }
  intros [[]|e|] [r2 w5] [Hu2 Hok]; [|by apply Hno..]. destruct (Hok eq_refl) as (vs & Hvs & Hc2). cbn [fst snd] in *.
  apply wp_amend. cbn [fst snd]. split; [|intros _; exact (rget_rset "passed" (tbool true) (rupdate [("complete"%string, tbool true)] r2))].
  intros _. split.
  { change (rget "complete" (rupdate [("passed"%string, tbool true)] (rupdate [("complete"%string, tbool true)] r2)) = Some (tbool true)).
    rewrite rget_rupdate_other by done. apply rget_rset. }
  exists vs. split; [done|]. unfold checked. by rewrite rget_rupdate_other.
Qed.

(** Recording a failure keeps the claim as it is. *)
Lemma note_keeps entry l kvs r :
  forallb (fun k => forallb (fun '(k', _) => negb (pyeqb (py k') (py k))) kvs) ["complete"; "passed"; "checks"]%string = true ->
  ((passed (rupdate kvs r) -> evidence entry l (rupdate kvs r)) <-> (passed r -> evidence entry l r)) /\
  (passed (rupdate kvs r) <-> passed r).
Proof.
  cbn [forallb]. intros Hk. unbool. unfold passed, evidence, checked. by rewrite !rget_rupdate_other.
Qed.

(** What a run leaves: a claimed pass is backed by evidence, and a success is a
    claimed pass on disk. *)
Definition claims (entry : Probe -> pystr -> tv) (l : list Probe) (output : pystr) (r : res exn unit) (s : report * W) : Prop :=
  (passed s.1 -> evidence entry l s.1) /\ (r = Ok tt -> passed s.1 /\ written output (Obj s.1) s.2).

(** The last clause of both scripts: the sources are noted, the report written. *)
Lemma closing_spec entry l output k (sources : K (list (pystr * pystr))) (body : Sc (W := W) report unit) s :
  (forall v : tv, forallb (fun k' => forallb (fun '(k'', _) => negb (pyeqb (py k'') (py k'))) [(k, v)]) ["complete"; "passed"; "checks"]%string = true) ->
  wp body (fun r s' => (passed s'.1 -> evidence entry l s'.1) /\ (r = Ok tt -> passed s'.1)) s ->
  wp (try_finally body
        (let! m := on_host sources in
         do! amend (rupdate [(k, manifest_report m)]);;
         let! rep := reported in on_host (io_res (h_write_json output (Obj rep))))) (claims entry l output) s.
Proof.
  intros Hk Hb. apply wp_try_finally. eapply wp_mono; [exact Hb|]. intros r s1 [H1 H2].
  assert (Hfin : wp (let! m := on_host sources in
         do! amend (rupdate [(k, manifest_report m)]);;
         let! rep := reported in on_host (io_res (h_write_json output (Obj rep))))
      (fun r' s2 => (passed s2.1 -> evidence entry l s2.1) /\
                    (r' = Ok tt -> (passed s1.1 -> passed s2.1) /\ written output (Obj s2.1) s2.2)) s1).
  { apply wp_bind, wp_host_step. intros [m|e|] w1; [|by split..]. apply wp_bind, wp_amend. cbn [fst snd].
    destruct (note_keeps entry l [(k, manifest_report m)] s1.1 (Hk _)) as [N1 N2].
    apply wp_bind, wp_gets, wp_on_host, wp_intro. cbn [fst snd]. intros r' w2 Hw. split; [by apply N1|]. intros _.
    split; [by apply N2|]. exists w1. unfold io_res in Hw. by rewrite Hw. }
  destruct r as [[]|e|]; [| |by split]; (eapply wp_mono; [exact Hfin|]); intros [[]|e'|] s2 [F1 F2]; split; try done.
  intros _. destruct (F2 eq_refl) as [F3 F4]. split; [by apply F3, H2|done].
Qed.
End Reports.

Lemma durability_results_spec {W} `{Crashing W} ROOT fuel args work (w : W) :
  wp (durability_results ROOT fuel args work)
     (fun r _ => forall out, r = Ok out -> exists vs, Forall2 (verified fuel) durability_probes vs /\
                                              out.2 = zip_with result_entry durability_probes vs) w.
Proof.
  unfold durability_results. apply wp_bind, wp_intro. intros [filesystem|e|] w1 _; [|done..].
  apply wp_bind, wp_intro. intros [memory|e|] w2 _; [|done..]. apply wp_bind, wp_intro. intros [[]|e|] w3 _; [|done..].
  cbv zeta. apply wp_bind, wp_intro. intros [[]|e|] w4 _; [|done..]. apply wp_bind.
  eapply wp_mono; [apply probes_verified|]. intros [l|e|] w5 Hl; [|done..].
  apply wp_ret. intros out [= <-]. by apply Hl.
Qed.

Lemma durability_report_checks {W} `{Crashing W} ROOT args filesystem results (w : W) :
  wp (durability_report ROOT args filesystem results)
     (fun r _ => forall rep, r = Ok rep -> rget "checks" rep = Some (Arr results)) w.
Proof.
  unfold durability_report. apply wp_bind, wp_intro. intros [utc|e|] w1 _; [|done..].
  apply wp_bind, wp_intro. intros [m|e|] w2 _; [|done..]. apply wp_bind, wp_intro. intros [native|e|] w3 _; [|done..].
  apply wp_ret. by intros rep [= <-].
Qed.

(** The crash checks never report a pass they did not see.  A report of the
    session or generation checks that says passed also says complete and holds
    exactly one entry per planned boundary, in order, each the output of a
    verifying run of a probe that had been killed where it stopped; a successful
    run leaves such a report on disk.  A successful run of the durability checks
    prints a report with one such entry for each of its probes, in order, after
    writing it to its output path. *)
Theorem crash_sound {W} `{Crashing W} ROOT fuel output debug cases args (w : W) :
  wp (session_report ROOT fuel output) (claims fuel session_entry session_probes output) ([], w) /\
  wp (generation_report ROOT fuel output debug cases) (claims fuel generation_entry (generation_probes cases) output) ([], w) /\
  wp (durability_main ROOT fuel args)
     (fun r w' => r = Ok tt -> exists rep results w1,
        Forall2 (verified fuel) durability_probes results /\
        rget "checks" rep = Some (Arr (zip_with result_entry durability_probes results)) /\
        match du_output args with Some path => written path (Obj rep) w1 | None => True end /\
        w' = h_print_json (Obj rep) w1) w.
Proof.
  assert (Hno : forall entry l path (r : report) w' (r' : res exn unit),
    ~ passed r -> r' <> Ok tt -> claims (W := W) fuel entry l path r' (r, w')).
  { intros entry l path r w' r' Hr Hn. split; [intros Hp; destruct (Hr Hp)|done]. }
  split_and!.
  - unfold session_report. apply wp_bind, wp_host_step. intros [utc|e|] w1; [|by apply Hno..]. apply wp_bind, wp_amend. cbn [fst snd].
    apply wp_bind, wp_host_step. intros [[]|e|] w2; [|by apply Hno..]. cbn [fst snd].
    apply wp_bind, wp_host_step. intros [[]|e|] w3; [|by apply Hno..]. cbn [fst snd].
    apply closing_spec; [done|]. apply wp_recording. eapply wp_mono; [by apply crash_body_spec|].
    intros [[]|e|] s1 [H1 H2]; [done| |done]. split; [|done]. by apply note_keeps.
  - unfold generation_report. apply wp_bind, wp_host_step. intros [utc|e|] w1; [|by apply Hno..]. apply wp_bind, wp_amend. cbn [fst snd].
    apply wp_bind, wp_host_step. intros [[]|e|] w2; [|by apply Hno..]. cbn [fst snd].
    apply closing_spec; [done|]. unfold generation_recording. apply wp_try_except. cbv zeta. apply wp_bind, wp_host_step.
    assert (Hrec : forall e (s1 : report * W), (passed s1.1 -> evidence fuel generation_entry (generation_probes cases) s1.1) ->
      wp (do! amend (rupdate [("error"%string, tstr (repr_exn e))]);;
          do! (if isinstance e CCalledProcessError then
                 let! outputs := on_host (gets k_failed_output) in
                 amend (rupdate [("failure_stdout", tstr outputs.1); ("failure_stderr", tstr outputs.2)]%string)
               else ret tt);;
          throw e)
        (fun (r : res exn unit) s' => (passed s'.1 -> evidence fuel generation_entry (generation_probes cases) s'.1) /\ (r = Ok tt -> passed s'.1)) s1).
    { intros e s1 H1. apply wp_bind, wp_amend, wp_bind. cbn [fst snd].
      destruct (isinstance e CCalledProcessError); [apply wp_bind, wp_host_step|apply wp_ret, wp_throw; split; [|done]; by apply note_keeps].
      intros [o|e'|] w3; [|split; [|done]; by apply note_keeps..]. apply wp_amend, wp_throw. cbn [fst snd].
      split; [|done]. apply note_keeps; [done|]. by apply note_keeps. }
    intros [[]|e|] w3; [|by apply Hrec|by split].
    eapply wp_mono; [by apply crash_body_spec|]. intros [[]|e|] s1 [H1 H2]; [done|by apply Hrec|done].
  - unfold durability_main. apply wp_bind, wp_intro. intros [present|e|] w1 _; [|done..].
    destruct present; [by apply wp_throw|]. destruct (negb _); [by apply wp_throw|]. cbv zeta.
    apply wp_bind, wp_intro. intros [[]|e|] w2 _; [|done..]. apply wp_bind. unfold with_tempdir.
    apply wp_bind, wp_intro. intros [work|e|] w3 _; [|done..]. apply wp_try_finally.
    eapply wp_mono; [apply durability_results_spec|].
    intros [out|e|] w4 Hout; [|by apply wp_intro; intros [?|?|] ? _|done].
    destruct (Hout out eq_refl) as (vs & Hvs & Ho). apply wp_intro. intros [[]|e|] w5 _; [|done..].
    apply wp_bind. eapply wp_mono; [apply durability_report_checks|]. intros [rep|e|] w6 Hrep; [|done..].
    specialize (Hrep rep eq_refl). rewrite Ho in Hrep.
    assert (Hend : forall w7, match du_output args with Some path => written path (Obj rep) w7 | None => True end ->
      wp (io_do (h_print_json (Obj rep)))
         (fun r w' => r = Ok tt -> exists rep results w1, Forall2 (verified fuel) durability_probes results /\
            rget "checks" rep = Some (Arr (zip_with result_entry durability_probes results)) /\
            match du_output args with Some path => written path (Obj rep) w1 | None => True end /\
            w' = h_print_json (Obj rep) w1) w7).
    { intros w7 Hw7. apply wp_modify. intros _. by exists rep, vs, w7. }
    destruct (du_output args) as [path|]; apply wp_bind; [|by apply wp_ret, Hend].
    apply wp_bind, wp_intro. intros [[]|e|] w7 _; [|done..].
    apply wp_intro. intros [[]|e|] w8 Hw; [|done..]. apply Hend. exists w7. unfold io_res in Hw. by rewrite Hw.
Qed.

(** A probe that stops as soon as it runs, and is there until it is killed. *)
Module CrashDemo.
#[local] Instance demo_crashing : Crashing (Q * bool) := {
  k_host := quiet_host (fun w => (w.1, w)) (fun q w => (w.1 + q, w.2)%Q) (fun _ => Some (py "Name:" ++ stopped_text)) true;
  k_spawn _ w := (Ok 7, (w.1, true));
  k_poll _ w := (if w.2 then None else Some (-9), w);
  k_kill _ w := (w.1, false);
  k_wait _ w := (Ok (-9), w);
  k_communicate _ _ w := (Ok (-9, [], []), w);
  k_failed_output _ := ([], [])
}.

#[local] Instance demo_crashing_laws : CrashingLaws (Q * bool).
Proof.
  refine {| clock := fst; running := fun _ w => w.2 |}; try (intros; cbn; split; [done|apply Qle_refl]);
    try (intros; apply Qle_refl); try done.
  - intros pid [t b] code. by destruct b.
  - intros pid w Hw. by exists (-9), w.
Defined.

Lemma probe_killed_witness :
  wp (kill_stopped kill_fuel [py "probe"])
     (fun r w' => r <> OutOfFuel /\ running 7 w' = false /\ (r = Ok tt -> killed_stopped 7)) (0%Q, false).
Proof. apply (probe_killed [py "probe"] 7 (0%Q, false) (0%Q, true)). reflexivity. Defined.

Example demo_killed : kill_stopped kill_fuel [py "probe"] (0%Q, false) = (Ok tt, (0%Q, false)).
Proof. vm_compute. reflexivity. Qed.
End CrashDemo.
