(* ===== verification/SoakTheorems.v ===== *)
(** * What the soak coordinator guarantees

    The remote cluster satisfies the interface the base class relies on, so the
    controller's theorems hold of it; percentiles stay in range and order; the
    sessions' identities are used once each, in sequence; the balances tracked
    along the way are those of the prescribed transfers; and the report claims
    success only with agreeing audits. *)

From Stdlib Require Import QArith.
From stdpp Require Import sorting.
From S2P Require Import Prelude PyStr PyFloat Objects Json JsonProofs Text Net Dict Host Stats ProcessCluster RemoteCluster Script Returns Workload ClusterProofs ClusterTheorems Soak.
#[local] Open Scope Z_scope.

(** A remote call ends too. *)
Class CallLaws (W : Type) `{ProbeLaws W} := { call_ends pid v (w : W) : (p_call pid v w).1 <> OutOfFuel }.

Section RemoteLaws.
Context {W : Type} `{CallLaws W} (config : Config) (phase : pystr).

Lemma keeps_call F pid v : keeps (W := W) F (os_res (p_call pid v)).
Proof. apply keeps_os_res. intros. apply call_ends. Qed.
#[local] Hint Resolve keeps_call : keeps.

Lemma keeps_catching F (m : P (W := W) unit) : keeps F m -> keeps F (catching m).
Proof.
  intros Hm. unfold catching. apply keeps_try_except; [apply keeps_bind; [done|intros; apply keeps_ret]|].
  intros e k. destruct (isinstance e CException); [|done]. intros [= <-]. apply keeps_ret.
Qed.

Lemma keeps_try_finally F {A} (m : P (W := W) A) f : keeps F m -> keeps F f -> keeps F (try_finally m f).
Proof.
  intros Hm Hf s Hs. apply wp_try_finally. eapply wp_mono; [by apply Hm|].
  intros r s' (Hr & Hi & He). destruct r as [a|e|]; [| |by framed].
  all: eapply wp_mono; [by apply Hf|]; intros [u|e'|] s'' (Hr' & Hi' & He'); (split; [by eauto|split; [done|by etrans]]).
Qed.

Lemma keeps_remote_stop pid : keeps (W := W) Still (remote_stop pid).
Proof.
  unfold remote_stop. keeps_step; [keeps_auto|]. apply keeps_bind.
  - destruct a; [keeps_auto|]. apply keeps_try_finally; [apply keeps_catching; keeps_auto|].
    keeps_step; [keeps_auto|]. apply keeps_try_except; [keeps_auto|].
    intros e k. destruct (isinstance e _); [|done]. intros [= <-]. keeps_auto.
  - intros error. keeps_step; [keeps_auto|]. keeps_auto.
Qed.

Lemma keeps_remote_close : keeps (W := W) Calm remote_close.
Proof.
  unfold remote_close. keeps_step; [keeps_auto|]. apply keeps_bind; [|intros errors; keeps_auto].
  apply keeps_for_each. intros [node [pid|]] errors; [|keeps_auto].
  apply keeps_bind; [apply keeps_catching, keeps_still, keeps_remote_stop|]. intros error.
  apply keeps_bind; [|intros; keeps_auto].
  apply keeps_same. intros c Hc. split; [done|]. cbn. rewrite length_insert. split_and!; apply Hc.
Qed.

Lemma keeps_note_resources node resource : keeps (W := W) Still (note_resources node resource).
Proof.
  apply keeps_update. intros c Hc. split; [|done]. destruct Hc. split; try done. cbn. by rewrite length_insert.
Qed.

Lemma keeps_remote_round_end results : keeps (W := W) Still (remote_round_end results).
Proof.
  unfold remote_round_end. apply keeps_bind; [apply keeps_for_do; intros [node response]; keeps_auto; apply keeps_note_resources|].
  intros []. apply keeps_update. intros c Hc. split; [|done]. destruct Hc. split; try done. cbn. by rewrite length_fmap.
Qed.

Lemma remote_method_laws : MethodLaws W (Methods0 := remote_methods config phase).
Proof.
  split; [apply keeps_remote_close|intros; apply keeps_remote_stop|intros; apply keeps_ret|apply keeps_remote_round_end].
Qed.
End RemoteLaws.

(** ** Percentiles *)

Definition rank (n p : Z) : nat := Z.to_nat (Z.min (n - 1) (n * p / 100)).

Lemma rank_lt n p : 0 < n -> 0 <= p -> (rank n p < Z.to_nat n)%nat.
Proof. intros Hn Hp. unfold rank. assert (0 <= n * p / 100) by (apply Z.div_pos; nia). lia. Qed.
Lemma rank_le n p q : 0 < n -> 0 <= p <= q -> (rank n p <= rank n q)%nat.
Proof.
  intros Hn Hp. unfold rank. assert (n * p / 100 <= n * q / 100) by (apply Z.div_le_mono; nia).
  assert (0 <= n * p / 100) by (apply Z.div_pos; nia). lia.
Qed.

Lemma percentiles_ranks samples :
  samples <> [] ->
  exists a b c, soak_percentiles samples = fields [("p50", Num a); ("p95", Num b); ("p99", Num c)] /\
    Workload.percentiles samples = [(py "p50", a); (py "p95", b); (py "p99", c)] /\
    a ∈ samples /\ b ∈ samples /\ c ∈ samples /\ (a <= b)%Q /\ (b <= c)%Q.
Proof.
  intros Hne. pose proof (merge_sort_Permutation Qle samples) as Hperm.
  pose proof (StronglySorted_merge_sort Qle samples) as Hs. remember (merge_sort Qle samples) as l eqn:El.
  assert (Hl : 0 < zlen l).
  { unfold zlen. rewrite (Permutation_length Hperm). destruct samples; [done|]. simpl. lia. }
  assert (Hget : forall p, 0 <= p -> exists v, l !! rank (zlen l) p = Some v).
  { intros p Hp. apply lookup_lt_is_Some. pose proof (rank_lt (zlen l) p Hl Hp) as Hr. unfold zlen at 2 in Hr. by rewrite Nat2Z.id in Hr. }
  destruct (Hget 50 ltac:(lia)) as [a Ha]. destruct (Hget 95 ltac:(lia)) as [b Hb]. destruct (Hget 99 ltac:(lia)) as [c Hc].
  exists a, b, c. unfold soak_percentiles, Workload.percentiles, percentile. cbn zeta. rewrite <- El. unfold rank in *. split; [|split].
  - destruct l as [|x l']; [by cbn in Hl|]. cbn [omap list_omap]. rewrite Ha, Hb, Hc. reflexivity.
  - cbn [omap list_omap]. rewrite Ha, Hb, Hc. reflexivity.
  - assert (Hin : forall i v, l !! i = Some v -> v ∈ samples) by (intros i v Hv; rewrite <- Hperm; by eapply list_elem_of_lookup_2).
    split_and!; eauto; [apply (Sorted_lookup_le l _ _ _ _ Hs Ha Hb)|apply (Sorted_lookup_le l _ _ _ _ Hs Hb Hc)];
      apply (rank_le (zlen l)); lia.
Qed.

(** ** Sessions and balances *)

(** The first [n] transfers. *)
Definition first_transfers (n : nat) : transfers := (fun k => let i := Z.of_nat k + 1 in (i, i mod 17 + 1)) <$> seq 0 n.

Lemma first_transfers_S n : first_transfers (S n) = first_transfers n ++ [(Z.of_nat n + 1, (Z.of_nat n + 1) mod 17 + 1)].
Proof. unfold first_transfers. by rewrite seq_S, fmap_app. Qed.

(** How many of the first [n] identifiers belong to client [c]. *)
Definition sequence_at (n : Z) (c : nat) : Z := (n + 11 - Z.of_nat c) / 12.

Definition accounts (n : Z) (sequences balances : list Z) : Prop :=
  0 <= n /\ sequences = sequence_at n <$> seq 0 12 /\ balances = balances_after (first_transfers (Z.to_nat n)).

Definition identity (identifier : Z) : request_key := (100 + (identifier - 1) mod 12, (identifier - 1) / 12 + 1).

Lemma sequence_next n (c : nat) :
  0 <= n -> (c < 12)%nat ->
  sequence_at (n + 1) c = sequence_at n c + (if Nat.eqb c (Z.to_nat (n mod 12)) then 1 else 0).
Proof.
  intros Hn Hc. unfold sequence_at. destruct (Nat.eqb_spec c (Z.to_nat (n mod 12))) as [->|Hne].
  - pose proof (Z.mod_pos_bound n 12 ltac:(lia)). rewrite Z2Nat.id by lia. dlia.
  - assert (Z.of_nat c <> n mod 12) by lia. dlia.
Qed.

Lemma sequence_own n : 0 <= n -> sequence_at n (Z.to_nat (n mod 12)) + 1 = n / 12 + 1.
Proof. intros Hn. unfold sequence_at. pose proof (Z.mod_pos_bound n 12 ltac:(lia)). rewrite Z2Nat.id by lia. dlia. Qed.

(** A wave being drawn: the transfers drawn so far are the next ones. *)
Definition wave_ok (writes : Z) (wave : Wave) : Prop :=
  accounts (writes + zlen (v_requests wave)) (v_sequences wave) (v_balances wave) /\
  key_of <$> v_requests wave = identity <$> seqZ (writes + 1) (zlen (v_requests wave)) /\ 0 <= v_reads wave.

Lemma insert_fmap_seq (f : nat -> Z) i n v :
  (i < n)%nat -> <[i := v]> (f <$> seq 0 n) = (fun k => if Nat.eqb k i then v else f k) <$> seq 0 n.
Proof.
  intros Hi. apply list_eq. intros k. destruct (decide (k = i)) as [->|Hk].
  - rewrite list_lookup_insert_eq by (rewrite length_fmap, length_seq; lia).
    rewrite list_lookup_fmap, lookup_seq_lt by lia. cbn. by rewrite Nat.eqb_refl.
  - rewrite list_lookup_insert_ne by done. rewrite !list_lookup_fmap.
    destruct (decide (k < n)%nat); [|by rewrite !lookup_seq_ge by lia]. rewrite !lookup_seq_lt by lia. cbn.
    by rewrite (proj2 (Nat.eqb_neq k i)).
Qed.

Lemma draw_transfer_ok writes wave : 0 <= writes -> wave_ok writes wave -> wave_ok writes (draw_transfer writes wave).
Proof.
  intros Hw ((Hn & Hs & Hb) & Hk & Hr). unfold draw_transfer. cbn [transaction snd].
  set (n := writes + zlen (v_requests wave)) in *. pose proof (zlen_nonneg (v_requests wave)) as Hz.
  replace (n + 1 - 1) with n by lia. pose proof (Z.mod_pos_bound n 12 ltac:(lia)) as Hm.
  assert (Hseq : default 0 (v_sequences wave !! Z.to_nat (n mod 12)) = sequence_at n (Z.to_nat (n mod 12))).
  { rewrite Hs, list_lookup_fmap, lookup_seq_lt by lia. done. }
  rewrite Hseq. split; [|split].
  - cbn [v_requests v_sequences v_balances]. rewrite zlen_app, zlen_cons, zlen_nil.
    replace (writes + (zlen (v_requests wave) + (1 + 0))) with (n + 1) by lia. split_and!; [lia| |].
    + rewrite Hs, insert_fmap_seq by lia. apply list_fmap_ext. intros i c Hc. apply lookup_seq in Hc as [-> Hi].
      cbn [Nat.add]. rewrite sequence_next by lia. destruct (Nat.eqb_spec i (Z.to_nat (n mod 12))) as [->|]; [done|lia].
    + rewrite Hb. replace (Z.to_nat (n + 1)) with (S (Z.to_nat n)) by lia. rewrite first_transfers_S.
      unfold balances_after. rewrite foldl_app. cbn [foldl]. by rewrite Z2Nat.id by lia.
  - cbn [v_requests]. rewrite fmap_app, Hk, zlen_app, zlen_cons, zlen_nil. cbn [fmap list_fmap].
    replace (zlen (v_requests wave) + (1 + 0)) with (zlen (v_requests wave) + 1) by lia.
    rewrite seqZ_app, fmap_app by lia. f_equal. unfold seqZ. cbn. f_equal. unfold key_of, identity. cbn [session_request transaction r_client r_sequence].
    rewrite sequence_own by lia.
    change (Z.to_nat 1) with 1%nat. cbn [seq fmap list_fmap].
    replace (Z.of_nat 0 + (writes + 1 + zlen (v_requests wave)) - 1) with n by lia. by replace (n + 1 - 1) with n by lia.
  - done.
Qed.

Lemma draw_read_ok writes wave : wave_ok writes wave -> wave_ok writes (draw_read wave).
Proof. intros (Ha & Hk & Hr). split_and!; [done|done|]. cbn. lia. Qed.

Lemma identity_inj i j : identity i = identity j -> i = j.
Proof. unfold identity. intros [= H1 H2]. dlia. Qed.

Definition soak_ok (k : Soak) : Prop := accounts (writes k) (sequences k) (balances k).

Section Steps.
Context {W : Type} `{Probe W} `{Host W} `{!Methods W}.

Lemma draws_spec (k : Soak) (l : list nat) wave (s : Cluster * W) :
  0 <= writes k -> wave_ok (writes k) wave ->
  wp (for_each l (fun _ wave => let! r := os p_random in
        ret (if Qltb r point7 then draw_read wave else draw_transfer (writes k) wave)) wave)
     (fun r _ => forall wave', r = Ok wave' -> wave_ok (writes k) wave' /\
        zlen (v_requests wave') + v_reads wave' = zlen (v_requests wave) + v_reads wave + zlen l) s.
Proof.
  intros Hw. revert wave s. induction l as [|x l IH]; intros wave s Hok; cbn [for_each].
  { apply wp_ret. intros wave' [= <-]. split; [done|]. rewrite zlen_nil. lia. }
  apply wp_bind, wp_bind. unfold wp at 1, os. destruct (p_random s.2) as [r w]. apply wp_ret.
  set (wave1 := if Qltb r point7 then _ else _).
  assert (Hone : wave_ok (writes k) wave1 /\ zlen (v_requests wave1) + v_reads wave1 = zlen (v_requests wave) + v_reads wave + 1).
  { subst wave1. destruct (Qltb r point7).
    - split; [by apply draw_read_ok|]. cbn. lia.
    - split; [by apply draw_transfer_ok|]. cbn. rewrite zlen_app, zlen_cons, zlen_nil. lia. }
  destruct Hone as [Hok1 Hlen]. eapply wp_mono; [by apply IH|]. intros r' s' Hr wave' ->.
  destruct (Hr wave' eq_refl) as [Hok' Hlen']. split; [done|]. rewrite zlen_cons. lia.
Qed.

Lemma draw_spec k (s : Cluster * W) :
  soak_ok k ->
  wp (draw k) (fun r _ => forall wave, r = Ok wave ->
    wave_ok (writes k) wave /\ zlen (v_requests wave) + v_reads wave = 12) s.
Proof.
  intros Hk. pose proof Hk as (Hn & _). eapply wp_mono; [apply draws_spec; [done|]|done].
  split_and!; [|done|done]. cbn [v_requests v_sequences v_balances]. rewrite zlen_nil, Z.add_0_r. exact Hk.
Qed.

Lemma interval_spec events output started k (s : Cluster * W) :
  wp (interval events output started k) (fun r _ => forall k', r = Ok k' ->
    writes k' = writes k /\ reads k' = reads k /\ sequences k' = sequences k /\ balances k' = balances k) s.
Proof.
  unfold interval. do 9 (apply wp_bind, wp_intro; intros [?|e|] ? _; [|done..]). apply wp_ret. by intros k' [= <-].
Qed.

Lemma hourly_spec events started k (s : Cluster * W) :
  wp (hourly_fault events started k) (fun r _ => forall k', r = Ok k' -> k' = after_fault k) s.
Proof.
  unfold hourly_fault. do 5 (apply wp_bind, wp_intro; intros [?|e|] ? _; [|done..]). apply wp_ret. by intros k' [= <-].
Qed.

Lemma soak_step_spec events output started deadline k (s : Cluster * W) :
  soak_ok k ->
  wp (soak_step events output started deadline k) (fun r _ => forall k', r = Ok k' ->
    soak_ok k' /\ writes k <= writes k' /\ reads k' + writes k' = reads k + writes k + 12) s.
Proof.
  intros Hk. unfold soak_step. apply wp_bind, wp_intro. intros [[]|e|] s1 _; [|done..].
  apply wp_bind. eapply wp_mono; [by apply draw_spec|]. intros [wave|e|] s2 Hw; [|done..].
  destruct (Hw wave eq_refl) as [(Ha & Hkeys & Hr) Hlen]. clear Hw.
  apply wp_bind, wp_intro. intros [lat|e|] s3 _; [|done..]. apply wp_bind, wp_intro. intros [[]|e|] s4 _; [|done..].
  apply wp_bind, wp_gets. set (k1 := after_wave _ _ _ _).
  assert (Hk1 : soak_ok k1 /\ writes k <= writes k1 /\ reads k1 + writes k1 = reads k + writes k + 12).
  { split; [exact Ha|]. cbn. pose proof (zlen_nonneg (v_requests wave)). lia. }
  clearbody k1. destruct (100000 <? _); [by apply wp_throw|].
  apply wp_bind, wp_intro. intros [status|e|] s5 _; [|done..]. apply wp_bind, wp_intro. intros [over|e|] s6 _; [|done..].
  apply wp_bind. apply (wp_mono _ (fun r _ => forall k2, r = Ok k2 ->
    soak_ok k2 /\ writes k <= writes k2 /\ reads k2 + writes k2 = reads k + writes k + 12)).
  { destruct over; [|by apply wp_ret; intros k2 [= <-]]. eapply wp_mono; [apply interval_spec|].
    intros r s7 Hr2 k2 ->. destruct (Hr2 k2 eq_refl) as (E1 & E2 & E3 & E4). unfold soak_ok. by rewrite E1, E2, E3, E4. }
  intros [k2|e|] s7 Hk2; [|done..]. specialize (Hk2 k2 eq_refl).
  apply wp_bind, wp_intro. intros [fault|e|] s8 _; [|done..]. apply wp_bind, wp_intro. intros [room|e|] s9 _; [|done..].
  destruct room; [|by apply wp_ret; intros k3 [= <-]]. eapply wp_mono; [apply hourly_spec|].
  intros r s10 Hr3 k3 ->. by rewrite (Hr3 k3 eq_refl).
Qed.
End Steps.

(** Successive windows of identifiers. *)
Lemma ranges_cover n first last :
  0 < n -> first <= last + 1 ->
  concat ((fun '(a, b) => seqZ a (b - a + 1)) <$> ranges n first last) = seqZ first (last - first + 1).
Proof.
  intros Hn Hl. unfold ranges. set (m := Z.to_nat ((last - first + n) / n)).
  assert (Hgo : forall j, (j <= m)%nat ->
    concat ((fun '(a, b) => seqZ a (b - a + 1)) <$>
      ((fun k => (first + n * Z.of_nat k, Z.min (first + n * Z.of_nat k + n - 1) last)) <$> seq 0 j))
    = seqZ first (Z.min (n * Z.of_nat j) (last - first + 1))).
  { induction j as [|j IH]; intros Hj.
    - cbn [seq fmap list_fmap concat]. rewrite Z.mul_0_r, Z.min_l by lia. done.
    - rewrite seq_S, !fmap_app, concat_app, IH by lia. cbn [Nat.add fmap list_fmap concat]. rewrite app_nil_r.
      assert (n * Z.of_nat j <= last - first).
      { assert (Z.of_nat j + 1 <= (last - first + n) / n) by lia.
        assert (n * (Z.of_nat j + 1) <= n * ((last - first + n) / n)) by nia.
        pose proof (Z.mul_div_le (last - first + n) n Hn). lia. }
      rewrite Z.min_l by lia. rewrite Nat2Z.inj_succ. unfold Z.succ.
      replace (Z.min (n * (Z.of_nat j + 1)) (last - first + 1))
        with (n * Z.of_nat j + (Z.min (first + n * Z.of_nat j + n - 1) last - (first + n * Z.of_nat j) + 1)) by nia.
      symmetry. rewrite seqZ_app by nia. f_equal. }
  rewrite Hgo by lia. f_equal. subst m.
  assert (0 <= (last - first + n) / n) by (apply Z.div_pos; lia). rewrite Z2Nat.id by done.
  pose proof (Z.mul_succ_div_gt (last - first + n) n Hn). nia.
Qed.

Lemma ranges_size n first last : 0 < n -> Forall (fun '(a, b) => b - a + 1 <= n) (ranges n first last).
Proof. intros Hn. unfold ranges. apply Forall_fmap, Forall_true. intros k. cbn. lia. Qed.

(** ** What the report claims *)

Definition claims (d : report) : bool :=
  match rget "complete" d with Some (J (PBool true)) => true | _ => false end.

(** What the voter [node] printed when it was audited *)
Definition printed {W} `{Host W} (config : Config) (phase : pystr) (node : nat) (audit : pyval) : Prop :=
  exists w w' text, check_output (command config node [py "audit"; phase]) [] (Some 300%Q) w = (Ok text, w') /\ loads text = Ok audit.
(** The digests of an audit's tables, and the number of transfers it counted *)
Definition digests_of (audit : pyval) : option dict := match vget "logical_sha256" audit with Ok (PDict d) => Some d | _ => None end.
Definition counted (audit : pyval) (n : Z) : Prop := exists counts, vget "counts" audit = Ok counts /\ vget "transfers" counts = Ok (PInt n).
(** Two audits agree on the digest of every table. *)
Definition same_state (a b : pyval) : Prop :=
  exists d d', digests_of a = Some d /\ digests_of b = Some d' /\ length d = length d' /\
    forall table x, (table, x) ∈ d -> exists digest, x = PStr digest /\ dict_get table d' = Some (PStr digest).
(** The acknowledged transfers of the run, as the report has them: those of the
    exercise, or those of the soak with the balances that many transfers leave *)
Definition acknowledged (phase : pystr) (n : Z) (rep : report) : Prop :=
  if pyeqb phase (py "smoke") then exists sample, rget "sample" rep = Some (sample_report sample) /\ s_verified_transfers sample = n
  else exists sequences balances, accounts n sequences balances /\
         rget "writes" rep = Some (tint n) /\ rget "expected_balances" rep = Some (Arr (tint <$> balances)).
(** The configuration file the run was started with *)
Definition configured {W} `{Host W} (args : SoakArgs) (config : Config) : Prop :=
  exists w w' value, read_json (a_config args) w = (Ok value, w') /\ config_of value = Ok config.
(** A claim of success is backed by the audits of all three voters: each is what
    the voter printed, they agree on every table, and each counted exactly the
    acknowledged transfers. *)
Definition backed {W} `{Host W} (args : SoakArgs) (c : Cluster) : Prop :=
  let phase := a_phase args in
  claims (evidence (remote c)) = true ->
  exists config a b d n, configured (W := W) args config /\
    rget "offline_audits" (evidence (remote c)) = Some (Arr (J <$> [a; b; d])) /\
    printed (W := W) config phase 0 a /\ printed (W := W) config phase 1 b /\ printed (W := W) config phase 2 d /\
    same_state a a /\ same_state b a /\ same_state d a /\
    counted a n /\ counted b n /\ counted d n /\ acknowledged phase n (evidence (remote c)).

Definition unclaimed (kvs : list (string * tv)) : bool :=
  forallb (fun '(k, _) => negb (pyeqb (py k) (py "complete")) && negb (pyeqb (py k) (py "offline_audits"))) kvs.

Lemma claim_rupdate kvs c r :
  unclaimed kvs = true -> claim_of c = (rget "complete" r, rget "offline_audits" r) ->
  claim_of c = (rget "complete" (rupdate kvs r), rget "offline_audits" (rupdate kvs r)).
Proof.
  intros Hu ->. unfold unclaimed in Hu. rewrite !rget_rupdate_other; [done|..];
    (eapply forallb_forall; intros [k v] Hin; rewrite forallb_forall in Hu; specialize (Hu _ Hin); cbv beta iota in Hu; by apply andb_true_iff in Hu as [? ?]).
Qed.

Section Evidence.
Context {W : Type} `{CallLaws W} `{Host W}.

Lemma keeps_any {A} (f : W -> pyres A * W) : keeps (W := W) Soaking (os_res f).
Proof. intros s Hs. unfold wp, os_res. destruct (f s.2). by split_and!. Qed.

Lemma keeps_note kvs : unclaimed kvs = true -> keeps (W := W) Soaking (note kvs).
Proof.
  intros Hu. apply keeps_update. intros c Hc. split; [destruct Hc; by split|]. unfold within, soaking.
  symmetry. by apply claim_rupdate.
Qed.

Lemma keeps_lift_any {A} (r : pyres A) : keeps (W := W) Soaking (lift r).
Proof. intros s Hs. apply wp_lift. by split_and!. Qed.
#[local] Hint Resolve keeps_any keeps_lift_any : keeps.
#[local] Hint Extern 1 (keeps _ (note _)) => apply keeps_note; reflexivity : keeps.

Lemma keeps_while {A} fuel (body : A -> P (W := W) (A + A)) acc :
  (forall a, keeps Soaking (body a)) -> keeps Soaking (while_loop fuel body acc).
Proof.
  intros Hb. revert acc. induction fuel as [|f IH]; intros acc; cbn [while_loop]; [apply keeps_lift_any|].
  apply keeps_bind; [apply Hb|]. intros [a|a]; [apply IH|apply keeps_ret].
Qed.

Lemma keeps_forget : keeps (W := W) Soaking forget_completed.
Proof.
  apply keeps_update. intros c Hc. split; [|done]. destruct Hc. split; try done.
  - unfold count_of. cbn. split; [lia|]. by intros [v Hv].
  - intros k [v Hv]. done.
Qed.
#[local] Hint Resolve keeps_forget : keeps.

Section Soak.
Context `{!Methods W} `{!MethodLaws W}.

Lemma keeps_save output : keeps (W := W) Soaking (save_report output).
Proof. unfold save_report, the_report. keeps_auto. Qed.
Lemma keeps_event events value : keeps (W := W) Soaking (event events value).
Proof. unfold event. keeps_auto. Qed.
#[local] Hint Resolve keeps_save keeps_event : keeps.

Lemma keeps_verify_range first last b : keeps (W := W) Calm (verify_range first last b).
Proof. unfold verify_range. keeps_auto. Qed.
Lemma keeps_require requests : keeps (W := W) Still (require_applied requests).
Proof. unfold require_applied. keeps_auto. Qed.
#[local] Hint Resolve keeps_verify_range keeps_require : keeps.

Lemma keeps_soak_step events output started deadline k : keeps (W := W) Soaking (soak_step events output started deadline k).
Proof. unfold soak_step, draw, soak_writes, soak_reads, interval, hourly_fault, due. keeps_auto. Qed.
#[local] Hint Resolve keeps_soak_step : keeps.

Lemma keeps_run_soak fuel seconds seed output : keeps (W := W) Soaking (run_soak fuel seconds seed output).
Proof.
  unfold run_soak, due, final_recovery. repeat first [keeps_step | apply keeps_while; intros ?].
Qed.
End Soak.

Lemma keeps_new_cluster config phase : keeps (W := W) Soaking (new_cluster config phase).
Proof.
  unfold new_cluster. apply keeps_bind.
  - apply keeps_update. intros c Hc. split; [|done]. destruct (CInv_new [] (local_results config)). by split.
  - intros _. pose proof (remote_method_laws (W := W) config phase). apply keeps_soaking, keeps_weak, keeps_Cluster_init.
Qed.
#[local] Hint Resolve keeps_new_cluster : keeps.

Lemma keeps_qualify fuel config args output : keeps (W := W) Soaking (qualify fuel config args output).
Proof.
  pose proof (remote_method_laws (W := W) config (a_phase args)) as Hl.
  unfold qualify, check_json. do 4 (keeps_step; [keeps_auto|]).
  apply keeps_try_except.
  - apply keeps_bind; [|intros; apply keeps_bind; [apply keeps_soaking, keeps_weak, keeps_remote_close|intros; keeps_auto]].
    keeps_step; (apply keeps_bind; [|intros; keeps_auto]).
    + apply keeps_soaking. by apply keeps_exercise.
    + by apply keeps_run_soak.
  - intros e k [= <-]. apply keeps_bind; [apply keeps_catching, keeps_soaking, keeps_weak, keeps_remote_close|].
    intros error. keeps_auto.
Qed.

Definition unproven (c : Cluster) : Prop := CInv c /\ claims (evidence (remote c)) = false.

Lemma unproven_claim c c' : CInv c' -> claim_of c' = claim_of c -> unproven c -> unproven c'.
Proof. unfold claim_of, unproven, claims. intros Hi [= -> _] [_ Hf]. by split. Qed.

Lemma unproven_keeps {A} (m : P (W := W) A) s : keeps Soaking m -> unproven s.1 -> wp m (fun _ s' => unproven s'.1) s.
Proof.
  intros Hm Hs. eapply wp_mono; [apply Hm, Hs|]. intros r s' (_ & Hi & Hc). by eapply unproven_claim.
Qed.

Lemma unproven_backed args c : unproven c -> backed (W := W) args c.
Proof. intros [_ Hf]. unfold backed. by rewrite Hf. Qed.

(** Guards over lists *)
Lemma existsb_none {A} (f : A -> bool) l : existsb f l = false -> forall x, x ∈ l -> f x = false.
Proof.
  induction l as [|y l IH]; cbn [existsb]; [by intros _ x Hx%elem_of_nil|]. intros [Ha Hb]%orb_false_iff x.
  rewrite elem_of_cons. intros [->|Hx]; auto.
Qed.
Lemma same_hashes_spec a b x y :
  hashes_of a = Ok x -> hashes_of b = Ok y -> same_hashes x y = true -> same_state a b.
Proof.
  unfold hashes_of, same_state, digests_of. intros Ha Hb Hs. destruct x as [| | | | | | | |d]; try done. destruct y as [| | | | | | | |d']; try done.
  exists d, d'. rewrite Ha, Hb. cbn [same_hashes] in Hs. apply andb_true_iff in Hs as [Hl Hs]. apply bool_decide_eq_true in Hl.
  split_and!; [done..|]. intros table v Hin. rewrite forallb_forall in Hs. apply list_elem_of_In in Hin. specialize (Hs _ Hin). cbn in Hs.
  destruct v as [| | | |t| | | |]; try done. destruct (dict_get table d') as [[| | | |u| | | |]|]; try done. apply pyeqb_eq in Hs as ->. eauto.
Qed.
Lemma transfers_counted a n : transfers_of a = Ok n -> counted a n.
Proof.
  unfold transfers_of, counted. intros Ht. apply res_bind_Ok in Ht as (x & Hx & Ht). apply res_bind_Ok in Ht as (y & Hy & Ht).
  exists x. split; [done|]. destruct y; try done. by injection Ht as ->.
Qed.
Lemma check_audits_spec a b d n :
  check_audits [a; b; d] n = Ok tt -> same_state a a /\ same_state b a /\ same_state d a /\ counted a n /\ counted b n /\ counted d n.
Proof.
  unfold check_audits. intros Hc. cbn [try_map] in Hc.
  destruct (hashes_of a) as [ha| |] eqn:Ha; [|done..]. destruct (hashes_of b) as [hb| |] eqn:Hb; [|done..].
  destruct (hashes_of d) as [hd| |] eqn:Hd; [|done..]. cbn [res_bind] in Hc. change (list_index [ha; hb; hd] 0) with (Ok (E := exn) ha) in Hc.
  cbn [res_bind] in Hc. apply res_bind_Ok in Hc as ([] & Hg & Hc). apply guard_Ok in Hg. cbn [existsb] in Hg.
  destruct (transfers_of a) as [na| |] eqn:Ta; [|done..]. destruct (transfers_of b) as [nb| |] eqn:Tb; [|done..].
  destruct (transfers_of d) as [nd| |] eqn:Td; [|done..]. cbn [res_bind] in Hc. apply guard_Ok in Hc. cbn [existsb] in Hc.
  rewrite !orb_false_iff, !negb_false_iff in *. destruct Hg as (G1 & G2 & G3 & _), Hc as (C1 & C2 & C3 & _). apply Z.eqb_eq in C1, C2, C3. subst na nb nd.
  split_and!; [by eapply same_hashes_spec..| | |]; by apply transfers_counted.
Qed.
(** What the run printed, read back *)
Lemma check_json_spec argv timeout (s : Cluster * W) :
  wp (check_json argv timeout) (fun r s' => s'.1 = s.1 /\ forall v, r = Ok v ->
    exists w w' text, check_output argv [] (Some timeout) w = (Ok text, w') /\ loads text = Ok v) s.
Proof.
  unfold check_json. apply wp_bind. unfold wp at 1, os_res. destruct (check_output argv [] (Some timeout) s.2) as [[text|e|] w'] eqn:E; [|by split..].
  apply wp_lift. cbn [fst]. split; [done|]. intros v Hv. by exists s.2, w', text.
Qed.

Definition judged args (r : pyres unit) (c : Cluster) : Prop :=
  match r with Ok _ => CInv c /\ backed (W := W) args c /\ claims (evidence (remote c)) = true | _ => unproven c end.

Lemma audit_all_spec config args n (s : Cluster * W) :
  unproven s.1 -> configured (W := W) args config -> acknowledged (a_phase args) n (evidence (remote s.1)) ->
  wp (audit_all config args n) (fun r s' => judged args r s'.1) s.
Proof.
  intros Hs Hcfg Hack. unfold audit_all. apply wp_bind. unfold all_nodes. cbn [for_each].
  assert (Hone : forall node (s1 : Cluster * W) (k : list pyval -> P (W := W) (list pyval)) acc (Q : pyres (list pyval) -> Cluster * W -> Prop), s1.1 = s.1 ->
    (forall r s2, s2.1 = s.1 -> (forall l, r <> Ok l) -> Q r s2) ->
    (forall v s2, s2.1 = s.1 -> printed (W := W) config (a_phase args) node v -> wp (k (acc ++ [v])) Q s2) ->
    wp (bind (let! v := check_json (command config node [py "audit"; a_phase args]) 300 in ret (acc ++ [v])) k) Q s1).
  { intros node s1 k acc Q Hs1 Hbad Hk. apply wp_bind, wp_bind. eapply wp_mono; [apply check_json_spec|]. intros [v|e|] s2 [E Hv].
    - apply wp_ret, Hk; [congruence|]. exact (Hv v eq_refl).
    - apply Hbad; [congruence|done].
    - apply Hbad; [congruence|done]. }
  assert (Hbad : forall (r : pyres (list pyval)) (s2 : Cluster * W), s2.1 = s.1 -> (forall l, r <> Ok l) ->
    match r with Ok a => wp (do! lift (check_audits a n);; note [("complete", tbool true); ("status", tstr (py "passed")); ("offline_audits", Arr (J <$> a))])
                           (fun r s' => judged args r s'.1) s2
    | Raise e => judged args (Raise e) s2.1 | OutOfFuel => judged args OutOfFuel s2.1 end).
  { intros r s2 E Hr. destruct r as [l|e|]; [by destruct (Hr l)|by rewrite E..]. }
  apply Hone; [done|exact Hbad|]. intros a s1 E1 Pa. apply Hone; [done|exact Hbad|]. intros b s2 E2 Pb.
  apply Hone; [done|exact Hbad|]. intros d s3 E3 Pd. apply wp_ret. cbn [app]. apply wp_bind, wp_lift.
  destruct (check_audits [a; b; d] n) as [[]|e|] eqn:Hc; [|by rewrite E3..].
  apply check_audits_spec in Hc as (S1 & S2 & S3 & C1 & C2 & C3). apply wp_modify. cbn [judged fst]. rewrite E3.
  destruct Hs as [Hi Hu]. split; [destruct Hi; by split|].
  assert (Hget : forall k, forallb (fun '(k', _) => negb (pyeqb (py k') (py k))) [("complete", tnone); ("status", tnone); ("offline_audits", tnone)]%string = true ->
    rget k (rupdate [("complete", tbool true); ("status", tstr (py "passed")); ("offline_audits", Arr (J <$> [a; b; d]))]%string (evidence (remote s.1))) = rget k (evidence (remote s.1))).
  { intros k Hk. apply rget_rupdate_other. exact Hk. }
  split.
  - intros _. exists config, a, b, d, n. cbn [fst set_remote remote evidence]. split_and!; try done.
    + unfold rget, rupdate. cbn [foldl]. by rewrite dget_dset.
    + unfold acknowledged in *. destruct (pyeqb _ _); [destruct Hack as (x & H3 & H4); exists x; by rewrite Hget|].
      destruct Hack as (sq & bl & H3 & H4 & H5). exists sq, bl. by rewrite !Hget.
  - unfold claims, rget, rupdate. cbn [fst set_remote remote evidence foldl]. rewrite !dget_dset. reflexivity.
Qed.


(** ** The workload behind the claim *)

Lemma soak_recovery_spec `{!Methods W} events k (s : Cluster * W) :
  wp (final_recovery events k) (fun r s' => r = Ok tt ->
    rget "writes" (evidence (remote s'.1)) = Some (tint (writes k)) /\
    rget "expected_balances" (evidence (remote s'.1)) = Some (Arr (tint <$> balances k))) s.
Proof.
  unfold final_recovery. do 4 (apply wp_bind, wp_intro; intros [?|e|] ? _; [|done..]). apply wp_bind, wp_intro. intros [responses|e|] s5 _; [|done..].
  destruct (negb _); [by apply wp_throw|]. apply wp_bind, wp_intro. intros [?|e|] s6 _; [|done..]. apply wp_modify. intros _.
  cbn [fst set_remote remote evidence]. unfold rget, rupdate. cbn [foldl]. rewrite !dget_dset. split; reflexivity.
Qed.

Lemma first_accounts : accounts 0 (replicate 12 0) opening.
Proof. split; [done|]. split; vm_compute; reflexivity. Qed.

Lemma run_soak_spec `{!Methods W} fuel seconds seed output (s : Cluster * W) :
  wp (run_soak fuel seconds seed output) (fun r s' => r = Ok tt -> exists k, soak_ok k /\
    rget "writes" (evidence (remote s'.1)) = Some (tint (writes k)) /\
    rget "expected_balances" (evidence (remote s'.1)) = Some (Arr (tint <$> balances k))) s.
Proof.
  unfold run_soak. cbv zeta. do 9 (apply wp_bind, wp_intro; intros [?|e|] ? _; [|done..]).
  apply wp_bind, wp_intro. intros [present|e|] s0 _; [|done..]. destruct present; [by apply wp_throw|].
  apply wp_bind. apply (wp_while (fun k _ => soak_ok k)).
  - split_and!; apply first_accounts.
  - intros k s1 Hk. apply wp_bind, wp_intro. intros [over|e|] s2 _; [|done..]. destruct over.
    + apply wp_ret. do 4 (apply wp_bind, wp_intro; intros [?|e|] ? _; [|done..]).
      eapply wp_mono; [apply soak_recovery_spec|]. intros r s3 Hr E. exists k. split; [done|]. by apply Hr.
    + apply wp_bind. eapply wp_mono; [by apply soak_step_spec|]. intros [k'|e|] s3 Hk'; [|done..]. apply wp_ret. by apply Hk'.
  - done.
Qed.

Lemma qualify_spec fuel config args output (s : Cluster * W) :
  CInv s.1 ->
  wp (qualify fuel config args output) (fun r s' => forall n, r = Ok n -> acknowledged (a_phase args) n (evidence (remote s'.1))) s.
Proof.
  intros Hi. pose proof (remote_method_laws (W := W) config (a_phase args)) as Hl.
  assert (Hstep : forall A (m : P (W := W) A) (k : A -> P (W := W) Z) (s1 : Cluster * W), keeps Soaking m -> CInv s1.1 ->
    (forall a s2, CInv s2.1 -> wp (k a) (fun r s' => forall n, r = Ok n -> acknowledged (a_phase args) n (evidence (remote s'.1))) s2) ->
    wp (bind m k) (fun r s' => forall n, r = Ok n -> acknowledged (a_phase args) n (evidence (remote s'.1))) s1).
  { intros A m k s1 Hm H3 Hk. apply wp_bind. eapply wp_mono; [by apply Hm|]. intros [x|e|] s2 (_ & H4 & _); [by apply Hk|done..]. }
  unfold qualify, check_json. do 4 (apply Hstep; [keeps_auto|assumption|clear s Hi; intros ? s Hi]).
  apply wp_try_except. apply (wp_mono _ (fun r s' => forall n, r = Ok n -> acknowledged (a_phase args) n (evidence (remote s'.1)))).
  2: { intros [n|e|] s1 Hn; [done| |done]. apply wp_bind, wp_intro. intros [error|e'|] s2 _; [|done..].
       apply wp_bind, wp_intro. intros [[]|e'|] s3 _; [|done..]. by apply wp_throw. }
  apply wp_bind. apply (wp_mono _ (fun r s' => forall n, r = Ok n -> CInv s'.1 /\ acknowledged (a_phase args) n (evidence (remote s'.1)))).
  - unfold acknowledged. destruct (pyeqb (a_phase args) (py "smoke")).
    + apply wp_bind. eapply wp_mono; [refine ((_ : keeps Soaking _) _ Hi); apply keeps_soaking; by apply keeps_exercise|].
      intros [sample|e|] s1 (_ & H3 & _); [|done..]. apply wp_bind, wp_modify, wp_ret. intros n [= <-]. cbn [fst]. split; [destruct H3; by split|].
      exists sample. split; [|done]. cbn [set_remote remote evidence]. apply rget_rset.
    + apply wp_bind. eapply wp_mono; [apply wp_and; [by apply keeps_run_soak|apply run_soak_spec]|].
      intros [[]|e|] s1 [(_ & H3 & _) H4]; [|done..]. destruct (H4 eq_refl) as (k & Hk & Hw & Hb). apply wp_bind, wp_gets. rewrite Hw.
      cbn. apply wp_ret. intros n [= <-]. split; [done|]. by exists (sequences k), (balances k).
  - intros [n|e|] s1 Hn; [|done..]. destruct (Hn n eq_refl) as [H3 H4]. apply wp_bind.
    eapply wp_mono; [by apply keeps_remote_close|]. intros [[]|e|] s2 (_ & _ & [[He _ _ _] _]); [|done..].
    apply wp_ret. intros n' [= <-]. by rewrite He.
Qed.

(** The end of the run keeps what the report says of the audits. *)
Lemma finish_spec output (s : Cluster * W) :
  CInv s.1 ->
  wp (let! utc := os h_utc in do! note [("finished_utc", tstr utc)];; save_report output)
     (fun _ s' => CInv s'.1 /\ (evidence (remote s'.1) = evidence (remote s.1) \/
        exists utc, evidence (remote s'.1) = rupdate [("finished_utc", tstr utc)]%string (evidence (remote s.1)))) s.
Proof.
  intros Hi. apply wp_bind. unfold wp at 1, os. destruct (h_utc s.2) as [utc w]. apply wp_bind, wp_modify. cbn [fst snd].
  assert (Hi' : CInv (set_remote (mkRemote (remote_resources (remote s.1)) (actual_peak (remote s.1)) (rupdate [("finished_utc", tstr utc)]%string (evidence (remote s.1)))) s.1)) by (destruct Hi; by split).
  unfold save_report, the_report. apply wp_bind, wp_bind, wp_gets, wp_ret. unfold wp, os_res. destruct (save_json _ _ _ _).
  cbn [fst]. split; [done|]. right. by exists utc.
Qed.
Lemma backed_finished args c c' utc :
  evidence (remote c') = evidence (remote c) \/ evidence (remote c') = rupdate [("finished_utc", tstr utc)]%string (evidence (remote c)) ->
  (backed (W := W) args c -> backed (W := W) args c') /\ claims (evidence (remote c')) = claims (evidence (remote c)).
Proof.
  intros [He|He]; [unfold backed; by rewrite He|].
  assert (Hk : forall k, forallb (fun '(k', _) => negb (pyeqb (py k') (py k))) [("finished_utc"%string, tnone)] = true ->
    rget k (evidence (remote c')) = rget k (evidence (remote c))) by (intros k Hk; rewrite He; by apply rget_rupdate_other).
  assert (Hc : claims (evidence (remote c')) = claims (evidence (remote c))) by (unfold claims; by rewrite Hk).
  split; [|done]. unfold backed. rewrite Hc. intros Hb Hcl. destruct (Hb Hcl) as (config & a & b & d & n & H3 & H4 & H5 & H6 & H7 & H8 & H9 & H10 & H11 & H12 & H13 & H14).
  exists config, a, b, d, n. split_and!; try done; [by rewrite Hk|]. unfold acknowledged in *. destruct (pyeqb _ _).
  - destruct H14 as (x & ? & ?). exists x. by rewrite Hk.
  - destruct H14 as (x & y & ? & ? & ?). exists x, y. by rewrite !Hk.
Qed.

Lemma judged_spec fuel config args output (s : Cluster * W) :
  configured (W := W) args config -> unproven s.1 ->
  wp (try_finally
        (try_except
          (let! writes := qualify fuel config args output in audit_all config args writes)
          (fun e => Some (do! note [("status", tstr (py "failed")); ("error", tstr (str_exn e))];; throw e)))
        (let! utc := os h_utc in do! note [("finished_utc", tstr utc)];; save_report output))
     (fun r s' => backed (W := W) args s'.1 /\ (r = Ok tt -> claims (evidence (remote s'.1)) = true)) s.
Proof.
  intros Hcfg Hs. set (Q := fun (r : pyres unit) (s' : Cluster * W) => backed (W := W) args s'.1 /\ (r = Ok tt -> claims (evidence (remote s'.1)) = true)).
  apply wp_try_finally, wp_try_except, wp_bind.
  assert (Hfin : forall r s1, judged args r s1.1 -> r <> OutOfFuel ->
    wp (let! utc := os h_utc in do! note [("finished_utc", tstr utc)];; save_report output)
      (fun r' s' => match r' with Ok _ => Q r s' | Raise e => Q (Raise e) s' | OutOfFuel => Q OutOfFuel s' end) s1).
  { intros r s1 Hj Hr. assert (Hb : CInv s1.1 /\ backed (W := W) args s1.1 /\ (r = Ok tt -> claims (evidence (remote s1.1)) = true)).
    { destruct r; [by destruct Hj as (? & ? & ?)|split_and!; [apply Hj|by apply unproven_backed|done]|done]. }
    destruct Hb as (Hi & Hb & Hc). eapply wp_mono; [by apply finish_spec|].
    intros r' s2 (_ & He). assert (Hfinal : backed (W := W) args s2.1 /\ claims (evidence (remote s2.1)) = claims (evidence (remote s1.1))).
    { destruct He as [He|[utc He]]; [destruct (backed_finished args s1.1 s2.1 []) as [H3 H4]; [by left|]|destruct (backed_finished args s1.1 s2.1 utc) as [H3 H4]; [by right|]]; auto. }
    destruct Hfinal as [H3 H4]. destruct r'; split; try done. intros ->. rewrite H4. by apply Hc. }
  assert (Hfail : forall e (s1 : Cluster * W), unproven s1.1 ->
    wp (do! note [("status", tstr (py "failed")); ("error", tstr (str_exn e))];; throw e)
       (fun r s' => unproven s'.1 /\ exists e', r = (Raise e' : pyres unit)) s1).
  { intros e s1 Hu.
    pose proof (unproven_keeps (note [("status", tstr (py "failed")); ("error", tstr (str_exn e))]) s1
                  ltac:(apply keeps_note; reflexivity) Hu) as Hn.
    apply wp_bind, wp_modify, wp_throw. split; [exact Hn|by eexists]. }
  eapply wp_mono; [apply wp_and; [apply unproven_keeps; [apply keeps_qualify|exact Hs]|apply qualify_spec; apply Hs]|].
  intros [n|e|] s1 [Hs1 Hack].
  - eapply wp_mono; [by apply audit_all_spec; [| |apply Hack]|]. intros [[]|e|] s2 Hj.
    + eapply wp_mono; [by apply Hfin|]. intros [u|e|] s3 Hr; exact Hr.
    + eapply wp_mono; [by apply Hfail|]. intros r s3 [Hu [e' ->]].
      eapply wp_mono; [by apply (Hfin (Raise e'))|]. by intros [u|e2|] s4 Hr.
    + split; [by apply unproven_backed|done].
  - eapply wp_mono; [by apply Hfail|]. intros r s3 [Hu [e' ->]].
    eapply wp_mono; [by apply (Hfin (Raise e'))|]. by intros [u|e2|] s4 Hr.
  - split; [by apply unproven_backed|done].
Qed.

(** Starting a report claims nothing. *)
Lemma start_report kvs (s : Cluster * W) :
  rget "complete" (rupdate kvs (evidence (remote s.1))) = Some (tbool false) ->
  unproven s.1 -> wp (note kvs) (fun _ s' => unproven s'.1) s.
Proof.
  intros Hf [Hi _]. apply wp_modify. split; [destruct Hi; by split|]. unfold claims.
  cbn [fst set_remote remote evidence]. by rewrite Hf.
Qed.

Lemma soak_main_spec fuel args (s : Cluster * W) :
  CInv s.1 -> evidence (remote s.1) = [] ->
  wp (soak_main fuel args) (fun r s' => backed (W := W) args s'.1 /\ (r = Ok tt -> claims (evidence (remote s'.1)) = true)) s.
Proof.
  intros Hi He. assert (Hs : unproven s.1) by (split; [done|by rewrite He]). clear Hi He.
  assert (Hstop : forall (r : pyres unit) (c : Cluster), unproven c -> r <> Ok tt ->
    backed (W := W) args c /\ (r = Ok tt -> claims (evidence (remote c)) = true)).
  { intros r c Hc Hr. by split; [apply unproven_backed|]. }
  assert (Hstep : forall A (m : P (W := W) A) (k : A -> P (W := W) unit) (s1 : Cluster * W),
    keeps Soaking m -> unproven s1.1 ->
    (forall a s2, unproven s2.1 -> wp (k a) (fun r s' => backed (W := W) args s'.1 /\ (r = Ok tt -> claims (evidence (remote s'.1)) = true)) s2) ->
    wp (bind m k) (fun r s' => backed (W := W) args s'.1 /\ (r = Ok tt -> claims (evidence (remote s'.1)) = true)) s1).
  { intros A m k s1 Hm Hu Hk. apply wp_bind. eapply wp_mono; [by apply unproven_keeps|].
    intros [a|e|] s2 Hs2; [by apply Hk|by apply Hstop..]. }
  unfold soak_main. destruct (negb _); [by apply wp_throw, Hstop|].
  apply wp_bind. apply (wp_mono _ (fun r s' => unproven s'.1 /\ forall v, r = Ok v -> exists w w', read_json (a_config args) w = (Ok v, w'))).
  { unfold wp, os_res. destruct (read_json (a_config args) s.2) as [r w'] eqn:E. cbn [fst snd]. split; [exact Hs|]. intros v Hv. subst r. by exists s.2, w'. }
  clear s Hs. intros [value|e|] s [Hs Hread]; [|by apply Hstop..]. destruct (Hread value eq_refl) as (w0 & w1 & Hvalue).
  apply wp_bind, wp_lift. destruct (config_of value) as [config|e|] eqn:Hconf; [|by apply Hstop..].
  assert (Hcfg : configured (W := W) args config) by (by exists w0, w1, value).
  do 3 (apply Hstep; [solve [auto with keeps]|assumption|clear s Hs; intros ? s Hs]).
  destruct a1; [by apply wp_throw, Hstop|].
  do 2 (apply Hstep; [solve [auto with keeps]|assumption|clear s Hs; intros ? s Hs]).
  apply wp_bind. eapply wp_mono; [apply start_report; [|exact Hs]|].
  { unfold rget, rupdate. cbn [foldl]. rewrite !dget_dset. reflexivity. }
  intros [[]|e|] s1 Hs1; [|by apply Hstop..].
  apply Hstep; [apply keeps_save|done|]. intros [] s2 Hs2. by apply judged_spec.
Qed.
End Evidence.

#[export] Instance toy_calls : CallLaws Z.
Proof. by split. Defined.

(** A host where nothing is there and every write succeeds. *)
#[export] Instance toy_host : Host Z :=
  quiet_host (fun w => (inject_Z w, w + 1)) (fun _ w => w + 1) (fun _ => None) true.

(** C22: the soak's accounts are exact through every wave: with [n] transfers
    acknowledged, client [c] of the twelve sessions has used sequences 1 to the
    number of its identifiers among the first [n], the tracked balances are those
    of the first [n] prescribed transfers, a wave's requests carry the identities
    of the next identifiers (never used twice), every wave has twelve operations,
    and whatever faults, checks and retries an iteration runs, it ends in such a
    state or raises. *)
Theorem soak_accounts {W} `{Probe W} `{Host W} `{!Methods W} events output started deadline k (s : Cluster * W) :
  soak_ok k ->
  wp (draw k) (fun r _ => forall wave, r = Ok wave ->
    zlen (v_requests wave) + v_reads wave = 12 /\
    key_of <$> v_requests wave = identity <$> seqZ (writes k + 1) (zlen (v_requests wave)) /\
    accounts (writes k + zlen (v_requests wave)) (v_sequences wave) (v_balances wave)) s /\
  wp (soak_step events output started deadline k) (fun r _ => forall k', r = Ok k' ->
    soak_ok k' /\ writes k <= writes k' /\ reads k' + writes k' = reads k + writes k + 12) s /\
  (forall i j, identity i = identity j -> i = j).
Proof.
  intros Hk. split_and!; [|by apply soak_step_spec|apply identity_inj].
  eapply wp_mono; [by apply draw_spec|]. intros r _ Hr wave ->. destruct (Hr wave eq_refl) as [(Ha & Hi & _) Hl]. done.
Qed.

(** Percentiles stay in range: of any nonempty list of samples the report
    has p50, p95 and p99, each a sample, in nondecreasing order, and both reports
    (the exercise's and the soak's) compute the same three; of an empty list it
    has none. *)
Theorem percentiles_bounds samples :
  (samples = [] -> soak_percentiles samples = [] /\ Workload.percentiles samples = []) /\
  (samples <> [] ->
   exists a b c, soak_percentiles samples = fields [("p50", Num a); ("p95", Num b); ("p99", Num c)] /\
    Workload.percentiles samples = [(py "p50", a); (py "p95", b); (py "p99", c)] /\
    a ∈ samples /\ b ∈ samples /\ c ∈ samples /\ (a <= b)%Q /\ (b <= c)%Q).
Proof. split; [by intros ->|apply percentiles_ranks]. Qed.

(** C23: the soak never claims more than it checked: when [main] ends, however it
    ends, its report says [complete] only if it holds the audits of exactly the
    three voters of its configuration, each as the voter printed it; all three
    give every table the same digest; and each counted exactly the transfers the
    run acknowledged: for the exercise the transfers it verified, for the soak
    the number it reports as written, together with the balances that this many
    prescribed transfers leave.  If [main] returns, the report says [complete]. *)
Theorem soak_evidence {W} `{CallLaws W} `{Host W} fuel args (s : Cluster * W) :
  CInv s.1 -> evidence (remote s.1) = [] ->
  wp (soak_main fuel args) (fun r s' => backed (W := W) args s'.1 /\ (r = Ok tt -> claims (evidence (remote s'.1)) = true)) s.
Proof. apply soak_main_spec. Qed.

(** Interval verification skips nothing: the windows of [verify_range] list
    every identifier from [first] to [last] once, in order, in windows of at most
    [n]. *)
Theorem ranges_partition n first last :
  0 < n -> first <= last + 1 ->
  concat ((fun '(a, b) => seqZ a (b - a + 1)) <$> ranges n first last) = seqZ first (last - first + 1) /\
  Forall (fun '(a, b) => b - a + 1 <= n) (ranges n first last).
Proof. intros Hn Hl. split; [by apply ranges_cover|by apply ranges_size]. Qed.

Lemma ranges_partition_witness :
  ranges 32 5 70 = [(5, 36); (37, 68); (69, 70)] /\
  concat ((fun '(a, b) => seqZ a (b - a + 1)) <$> ranges 32 5 70) = seqZ 5 66 /\
  Forall (fun '(a, b) => b - a + 1 <= 32) (ranges 32 5 70).
Proof. split; [reflexivity|]. apply (ranges_partition 32 5 70); lia. Defined.

Definition first_soak : Soak := mkSoak (replicate 12 0) opening 0 0 0 0 0 [] [] 60 3600 0 0 [].

Lemma first_soak_ok : soak_ok first_soak.
Proof. split; [cbn; lia|split; vm_compute; reflexivity]. Qed.

Lemma soak_accounts_witness :
  soak_ok first_soak /\
  wp (draw first_soak) (fun r _ => forall wave, r = Ok wave ->
    zlen (v_requests wave) + v_reads wave = 12 /\
    key_of <$> v_requests wave = identity <$> seqZ (writes first_soak + 1) (zlen (v_requests wave)) /\
    accounts (writes first_soak + zlen (v_requests wave)) (v_sequences wave) (v_balances wave)) (toy_cluster, 0).
Proof.
  split; [apply first_soak_ok|]. apply (soak_accounts (W := Z) [] [] 0 0 first_soak (toy_cluster, 0)), first_soak_ok.
Defined.

Lemma percentiles_bounds_witness :
  exists a b c, soak_percentiles [3%Q; 1%Q; 2%Q] = fields [("p50", Num a); ("p95", Num b); ("p99", Num c)] /\
    Workload.percentiles [3%Q; 1%Q; 2%Q] = [(py "p50", a); (py "p95", b); (py "p99", c)] /\
    a ∈ [3%Q; 1%Q; 2%Q] /\ b ∈ [3%Q; 1%Q; 2%Q] /\ c ∈ [3%Q; 1%Q; 2%Q] /\ (a <= b)%Q /\ (b <= c)%Q.
Proof. apply (percentiles_bounds [3%Q; 1%Q; 2%Q]). discriminate. Defined.

(** ** A soak that succeeds

    Three voters that apply every transfer and answer every read, a clock of ten
    seconds a reading, draws that alternate, and a host with a configuration, a
    manifest, inspections and audits. *)
Module SoakDemo.
Definition rows_of (sql : pystr) : Z :=
  match list_find (fun n => sql = range_query 1 n) (Z.of_nat <$> seq 1 24) with
  | Some (_, n) => n
  | None => if is_prefix (py "SELECT id FROM accounts WHERE id=1 AND") sql then 1 else 3
  end.
Definition voter_response (command : Command) : Response :=
  let query := match action command with Poll_read _ sql => sql | _ => read_sql command end in
  mkResponse 9 [] ((fun r => mkCompletion (r_client r) (r_sequence r) (py "Applied") 1) <$> write_requests command)
    (zlen (write_requests command)) false (rows_of query) (py "None") (PInt 7) (mkReadResult (py "Ready") (py "None") (rows_of query))
    (Some (mkResources 7 0 (Some 1) PNone)).
#[local] Instance voters : Probe Z := {
  p_monotonic w := (inject_Z (10 * w), w + 1);
  p_spawn _ w := (Ok w, w + 1);
  p_rpc _ command w := (Ok (voter_response command), w);
  p_call _ _ w := (Ok (PDict (mkdict [("stopped", PBool true); ("returncode", PInt (-9))]%string)), w);
  p_poll _ w := (None, w);
  p_kill _ w := w;
  p_close_stdin _ w := w;
  p_wait _ _ w := (Ok (-9), w);
  p_close_pipes _ w := w;
  p_returncode _ _ := Some (-9);
  p_stat _ w := (None, w);
  p_status _ w := (None, w);
  p_clock_ticks := 100;
  p_seed _ w := w;
  p_random w := (if Z.even w then 0%Q else 1%Q, w + 1);
  p_randrange _ w := (0, w)
}.
Definition quoted (s : string) : pystr := (fun c => if c =? 39 then 34 else c) <$> py s.
Definition texts (path : pystr) : option pystr :=
  if pyeqb path (py "soak.json") then Some (quoted "{'remote_root': '/r', 'known_hosts': '/k', 'ssh_key': '/s', 'hosts': ['a', 'b', 'c'], 'local_results': '/out', 'limits': {}}")
  else Some (quoted "{}").
Definition audit_text (digest : string) : pystr := quoted ("{'logical_sha256': {'accounts': '" ++ digest ++ "', 'transfers': 'ff'}, 'counts': {'transfers': 6}}").
(** What each voter prints; [digest] is what the third one has for its accounts. *)
Definition answer (digest : string) (argv : list pystr) : pystr :=
  if bool_decide (py "audit" ∈ argv) then audit_text (if bool_decide (py "c" ∈ argv) then digest else "aa")
  else quoted "{'binary_sha256': 'bb', 'identity': {'/etc/machine-id': '" ++ (if bool_decide (py "b" ∈ argv) then py "2" else if bool_decide (py "c" ∈ argv) then py "3" else py "1")
       ++ quoted "'}, 'filesystem': {'filesystems': [{'fstype': 'ext4'}]}}".
Definition host (digest : string) : Host Z :=
  let quiet := quiet_host (fun w : Z => (inject_Z w, w + 1)) (fun _ w => w) texts true in
  {| h_monotonic := @h_monotonic Z quiet; h_monotonic_ns := @h_monotonic_ns Z quiet; h_time := @h_time Z quiet; h_utc := @h_utc Z quiet; h_sleep := @h_sleep Z quiet;
     h_exists := @h_exists Z quiet; h_is_file := @h_is_file Z quiet; h_read_text := @h_read_text Z quiet; h_read_bytes := @h_read_bytes Z quiet; h_write_text := @h_write_text Z quiet;
     h_append := @h_append Z quiet; h_write_json := @h_write_json Z quiet; h_append_json := @h_append_json Z quiet; h_fsync := @h_fsync Z quiet; h_replace := @h_replace Z quiet;
     h_mkdir := @h_mkdir Z quiet; h_glob := @h_glob Z quiet; h_mkdtemp := @h_mkdtemp Z quiet; h_remove := @h_remove Z quiet; h_sha256 := @h_sha256 Z quiet;
     h_run argv _ _ w := (Ok (mkFinished 0 (answer digest argv) []), w);
     h_print := @h_print Z quiet; h_print_json := @h_print_json Z quiet; h_getenv := @h_getenv Z quiet; h_linux := true; h_resolve := @h_resolve Z quiet;
     h_system := @h_system Z quiet; h_platform := @h_platform Z quiet; h_run_input := @h_run_input Z quiet; h_timeout_output := @h_timeout_output Z quiet |}.
Definition args : SoakArgs := mkSoakArgs (py "soak.json") (py "soak") 30 1.
Definition fresh : Cluster * Z := (Cluster_new (py "worker") (py "run"), 0).
#[local] Instance voters_laws : ProbeLaws Z.
Proof. by split. Defined.
#[local] Instance voters_calls : CallLaws Z.
Proof. by split. Defined.

(** Six transfers acknowledged, three equal audits: the soak passes, and its
    claim is backed. *)
Lemma soak_evidence_witness :
  let out := soak_main (H0 := host "aa") 40 args fresh in
  out.1 = Ok tt /\ rget "writes" (evidence (remote out.2.1)) = Some (tint 6) /\
  exists config a b d n,
    rget "offline_audits" (evidence (remote out.2.1)) = Some (Arr (J <$> [a; b; d])) /\
    printed (H := host "aa") config (py "soak") 0 a /\ printed (H := host "aa") config (py "soak") 1 b /\ printed (H := host "aa") config (py "soak") 2 d /\
    same_state b a /\ same_state d a /\ counted a n /\ counted b n /\ counted d n /\ acknowledged (py "soak") n (evidence (remote out.2.1)).
Proof.
  assert (Hrun : let out := soak_main (H0 := host "aa") 40 args fresh in out.1 = Ok tt /\ rget "writes" (evidence (remote out.2.1)) = Some (tint 6)).
  { vm_compute. split; reflexivity. }
  intros out. destruct Hrun as [Hok Hw]. split; [exact Hok|]. split; [exact Hw|].
  pose proof (soak_evidence (H2 := host "aa") 40 args fresh (CInv_new _ _) eq_refl) as Hs. unfold wp in Hs. fold out in Hs, Hok.
  destruct Hs as [Hb Hc]. destruct (Hb (Hc Hok)) as (config & a & b & d & n & _ & H1 & H2 & H3 & H4 & _ & H5 & H6 & H7 & H8 & H9 & H10).
  exists config, a, b, d, n. repeat (split; [assumption|]). assumption.
Defined.

(** One voter's table differs: nothing is claimed. *)
Example soak_refuses :
  let out := soak_main (H0 := host "ab") 40 args fresh in
  out.1 = Raise (RuntimeError "Offline logical state hashes differ across voters") /\ claims (evidence (remote out.2.1)) = false.
Proof. vm_compute. split; reflexivity. Qed.
End SoakDemo.
