(* ===== verification/NativeSoak.v ===== *)
(** * tools/run_native_soak.py: the soak of a deployed native cluster

    The coordinator starts a voter on each of three hosts through their
    supervisors (NativeWorker), drives twelve client connections with reads and
    transfers, kills a voter at intervals, verifies every transfer on every
    voter, and compares three offline audits.  The local variables of [main] are
    a record next to the voters' connections; the loop runs until a deadline, so
    it takes fuel. *)

From Stdlib Require Import QArith.
From stdpp Require Import sorting.
From S2P Require Import ProcessCluster ClusterTheorems SoakTheorems Prelude PyStr PyFloat Objects Json Vector Text Parameters Results Net Client Dict Host Stats Random Script Workload Soak Service ServiceChecks Returns Resource Capacity.
#[local] Open Scope Z_scope.

(** [sys.executable], the script's directory, and
    [datetime.fromtimestamp(t, utc).isoformat()] *)
Class Coordinator (W : Type) := {
  o_probes :: Probes W;
  o_executable : pystr;
  o_here : pystr;
  o_isoformat : Q -> pystr
}.

(** ** The deployment's configuration *)

Definition cfg_text (key : string) (cfg : pyval) : pyres pystr := let? x := vget key cfg in vstr x.
Definition endpoint_of (member : pyval) : pyres Endpoint :=
  let? address := cfg_text "address" member in
  let? identity := cfg_text "identity" member in Ok (mkEndpoint address identity).
Definition members_of (cfg : pyval) : pyres (list pyval) :=
  let? members := vget "members" cfg in match members with PList l => Ok l | _ => Raise (TypeError "not a list") end.

(** [[members[index]] if single else members[index:]+members[:index]] *)
Definition chosen_members (members : list pyval) (index : Z) (single : bool) : pyres (list pyval) :=
  if single then let? m := list_index members index in Ok [m]
  else Ok (drop (Z.to_nat index) members ++ take (Z.to_nat index) members).

Definition control_command (executable here : pystr) (cfg : pyval) (index : Z) (words : list pystr) : pyres (list pystr) :=
  if index =? 0 then Ok ([executable; join_path here (py "native_soak_worker.py")] ++ words)
  else
    let? known := cfg_text "known_hosts" cfg in
    let? key := cfg_text "ssh_key" cfg in
    let? hosts := vget "hosts" cfg in
    let? host := vindex index hosts in
    let? host := vstr host in
    Ok ([py "ssh"; py "-o"; py "BatchMode=yes"; py "-o"; py "IdentitiesOnly=yes"; py "-o"; py "StrictHostKeyChecking=yes";
         py "-o"; py "ConnectTimeout=10"; py "-o"; py "UserKnownHostsFile=" ++ known; py "-i"; key; host] ++ words).

(** ** The workload *)

(** One transfer: source, destination and amount are prescribed by its number. *)
Definition transfer_of (number : Z) : Z * Z * Z :=
  let src := number mod 3 + 1 in (src, src mod 3 + 1, number mod 17 + 1).
Definition transfer_text (number : Z) : pystr :=
  let '(src, dst, amount) := transfer_of number in
  fstr [L "INSERT INTO transfers VALUES("; D number; L ","; D src; L ","; D dst; L ","; D amount; L ",'"; T payload256; L "');";
        L "UPDATE accounts SET balance=balance-"; D amount; L " WHERE id="; D src; L ";";
        L "UPDATE accounts SET balance=balance+"; D amount; L " WHERE id="; D dst].
Definition settle_transfer (number : Z) (balances : list Z) : list Z :=
  let '(src, dst, amount) := transfer_of number in credit (dst - 1) amount (credit (src - 1) (- amount) balances).

(** [{f'p{p}': sorted(v)[min(len(v)-1, int(len(v)*p/100))]*1000 ...}]; the index
    is exact far beyond any number of samples of a minute. *)
Definition latency_row (samples : list Q) : tv :=
  let values := merge_sort Qle samples in
  Obj (omap (fun p => (fun x => (fstr [L "p"; D p], Num (1000 * x)%Q))
                      <$> values !! Z.to_nat (Z.min (zlen values - 1) (zlen values * p / 100))) [50; 95; 99]).
Definition latency_rows (reads writes : list Q) : tv :=
  Obj ((if bool_decide (reads = []) then [] else [(py "read", latency_row reads)])
       ++ (if bool_decide (writes = []) then [] else [(py "write", latency_row writes)])).

(** The float [.3] in units of 2^-54. *)
Definition FLOAT_30 : Z := 5404319552844595.

Definition SETUP : pystr := py
  "CREATE TABLE accounts(id INTEGER PRIMARY KEY,balance INTEGER CHECK(balance>=0));INSERT INTO accounts VALUES(1,1000000),(2,1000000),(3,1000000);CREATE TABLE transfers(id INTEGER PRIMARY KEY,src REFERENCES accounts(id),dst REFERENCES accounts(id),amount INTEGER CHECK(amount>0),payload TEXT);CREATE TABLE ledger(tx REFERENCES transfers(id),account REFERENCES accounts(id),delta INTEGER);CREATE INDEX ledger_tx ON ledger(tx);CREATE TRIGGER audit AFTER INSERT ON transfers BEGIN INSERT INTO ledger VALUES(new.id,new.src,-new.amount);INSERT INTO ledger VALUES(new.id,new.dst,new.amount); END;".
Definition ALL_BALANCES : pystr := py "SELECT balance FROM accounts ORDER BY id".
Definition ONE_BALANCE : pystr := py "SELECT balance FROM accounts WHERE id=?".
Definition SUM_BALANCES : pystr := py "SELECT sum(balance) FROM accounts".
Definition TOUCH : pystr := py "UPDATE accounts SET balance=balance WHERE id=1".

(** ** The local variables of [main] *)

Record Soaking := mkSoaking {
  g_report : report; g_clients : list nat;
  g_writes : Z; g_reads : Z; g_verified : Z; g_duplicates : Z;
  g_balances : list Z; g_read_times : list Q; g_write_times : list Q;
  g_rng : Mt; g_next_check : Q; g_next_fault : Q
}.
Definition set_report (f : report -> report) (g : Soaking) : Soaking :=
  mkSoaking (f (g_report g)) (g_clients g) (g_writes g) (g_reads g) (g_verified g) (g_duplicates g) (g_balances g)
    (g_read_times g) (g_write_times g) (g_rng g) (g_next_check g) (g_next_fault g).
Definition set_clients (l : list nat) (g : Soaking) : Soaking :=
  mkSoaking (g_report g) l (g_writes g) (g_reads g) (g_verified g) (g_duplicates g) (g_balances g)
    (g_read_times g) (g_write_times g) (g_rng g) (g_next_check g) (g_next_fault g).
Definition set_rng (rng : Mt) (g : Soaking) : Soaking :=
  mkSoaking (g_report g) (g_clients g) (g_writes g) (g_reads g) (g_verified g) (g_duplicates g) (g_balances g)
    (g_read_times g) (g_write_times g) rng (g_next_check g) (g_next_fault g).
Definition set_schedule (check fault : Q) (g : Soaking) : Soaking :=
  mkSoaking (g_report g) (g_clients g) (g_writes g) (g_reads g) (g_verified g) (g_duplicates g) (g_balances g)
    (g_read_times g) (g_write_times g) (g_rng g) check fault.
Definition more_duplicates (g : Soaking) : Soaking :=
  mkSoaking (g_report g) (g_clients g) (g_writes g) (g_reads g) (g_verified g) (g_duplicates g + 1) (g_balances g)
    (g_read_times g) (g_write_times g) (g_rng g) (g_next_check g) (g_next_fault g).
Definition all_verified (g : Soaking) : Soaking :=
  mkSoaking (g_report g) (g_clients g) (g_writes g) (g_reads g) (g_writes g) (g_duplicates g) (g_balances g)
    (g_read_times g) (g_write_times g) (g_rng g) (g_next_check g) (g_next_fault g).
Definition clear_samples (g : Soaking) : Soaking :=
  mkSoaking (g_report g) (g_clients g) (g_writes g) (g_reads g) (g_verified g) (g_duplicates g) (g_balances g)
    [] [] (g_rng g) (g_next_check g) (g_next_fault g).
Definition wrote (seconds : Q) (g : Soaking) : Soaking :=
  mkSoaking (g_report g) (g_clients g) (g_writes g + 1) (g_reads g) (g_verified g) (g_duplicates g)
    (settle_transfer (g_writes g + 1) (g_balances g)) (g_read_times g) (g_write_times g ++ [seconds]) (g_rng g)
    (g_next_check g) (g_next_fault g).
Definition read_one (seconds : Q) (g : Soaking) : Soaking :=
  mkSoaking (g_report g) (g_clients g) (g_writes g) (g_reads g + 1) (g_verified g) (g_duplicates g) (g_balances g)
    (g_read_times g ++ [seconds]) (g_write_times g) (g_rng g) (g_next_check g) (g_next_fault g).

Section NativeSoak.
Context {W : Type} `{Coordinator W} (fuel : nat).
Abbreviation K := (Sc (W := Voters * W) Soaking).
Abbreviation VM := (V (W := W)).
Definition n {A} (m : VM A) : K A := on_host m.
Definition note (kvs : list (string * tv)) : K unit := amend (set_report (rupdate kvs)).
Definition now : VM Q := base (io monotonic).

(** [control]: a verb of a host's supervisor, locally or through ssh. *)
Definition control (cfg : pyval) (index : Z) (verbs : list string) : VM pyval :=
  let! command := lift (control_command o_executable o_here cfg index (py <$> verbs)) in
  let! result := base (run_checked command [] (Some 90%Q)) in
  lift (loads (stdout result)).

Definition connect (cfg : pyval) (index : Z) (pending : option PendingWrite) (single : bool) (timeout : Q) : VM nat :=
  let! members := lift (members_of cfg) in
  let! members := lift (chosen_members members index single) in
  let! _ := lift (cfg_text "root" cfg) in
  let! endpoints := lift (try_map endpoint_of members) in
  let! conn := base (Connection_new endpoints (py "native-soak") timeout pending) in
  let! c := cluster in
  do! with_cluster (fun c => set_conns (n_conns c ++ [conn]) c);;
  ret (length (n_conns c)).
Definition with_connect {A} (cfg : pyval) (index : Z) (pending : option PendingWrite) (single : bool) (timeout : Q) (body : nat -> VM A) : VM A :=
  let! h := connect cfg index pending single timeout in
  try_finally (body h) (call h Client.close).

Definition wait_ready (cfg : pyval) (node : Z) (seconds : Q) : VM report :=
  let! started := now in
  while_loop fuel (fun r =>
    let! t := now in
    if Qle_bool seconds (t - started) then throw (TimeoutError "Voter {node+1} did not become quorum-ready: {last_error}")
    else
      let! t := now in
      let remaining := (seconds - (t - started))%Q in
      let! answered :=
        try_except
          (with_connect cfg node None true (Qmin 5 remaining) (fun h =>
             do! expect_scalar h (py "SELECT 1") [] 1;;
             let! t := now in
             ret (Some (fields [("node", tint (node + 1)); ("seconds", Num (t - started)%Q); ("quorum_read", tbool true)]%string))))
          (fun e => if isinstance e CConnectionError then Some (ret None) else None) in
      match answered with
      | Some row => ret (inr row)
      | None =>
          let! t := now in
          do! base (io_do (sleep (Qmin (5 # 100) (Qmax 0 (seconds - (t - started))))));;
          ret (inl r)
      end) [].

(** ** verify *)

(** One window on one voter: as many rows as identifiers. *)
Definition verify_window (h : nat) (window : Z * Z) : VM unit :=
  let '(start, end_) := window in
  let! rows := db_query h (range_query start end_) [] in
  check_that (zlen (_rows rows) =? end_ - start + 1).
Definition verify_voter (cfg : pyval) (first last : Z) (balances : list Z) (node : Z) : VM unit :=
  with_connect cfg node None true 45 (fun h =>
    let! rows := db_query h ALL_BALANCES [] in
    let! found := lift (column "balance" rows) in
    do! check_that (same_cells found (PInt <$> balances));;
    for_do (ranges 128 first last) (verify_window h)).
Definition native_verify (cfg : pyval) (first last : Z) (balances : list Z) : VM unit :=
  for_do [0; 1; 2] (verify_voter cfg first last balances).

(** ** main *)

(** [report.update(progress=...)], saved and appended to the log. *)
Definition healthy (r : pyval) : pyres bool :=
  let? pid := vget "pid" r in
  if negb (truthy pid) then Ok false
  else let? resources := vget "resources" r in let? error := vget_or "error" PNone resources in Ok (negb (truthy error)).
Definition save_report (output : pystr) : K unit :=
  let! g := reported in n (base (save_json false output (Obj (g_report g)))).
Definition progress (cfg : pyval) (root output : pystr) (start : Q) : K unit :=
  let! resources := n (for_each [0; 1; 2] (fun node acc => let! r := control cfg node ["status"%string] in ret (acc ++ [r])) []) in
  let! oks := lift (try_map healthy resources) in
  do! lift (guard (negb (forallb id oks)) (AssertionError "resources"));;
  let! t := n now in
  let! utc := n (base (io h_utc)) in
  let! g := reported in
  let row := fields [("elapsed_seconds", Num (t - start)%Q); ("reads", tint (g_reads g)); ("writes", tint (g_writes g));
                     ("verified_transfers", tint (g_verified g)); ("acknowledged_retries", tint (g_duplicates g));
                     ("resources", Arr (J <$> resources)); ("latency_ms", latency_rows (g_read_times g) (g_write_times g))]%string in
  do! note [("progress", Obj row); ("updated_utc", tstr utc)]%string;;
  do! save_report output;;
  do! n (base (io_res (h_append_json (join_path root (py "soak.jsonl")) (Obj row))));;
  amend clear_samples.

(** A draw from the coordinator's generator. *)
Definition drawn {A} (m : Rm A) : K A :=
  let! g := reported in
  let '(r, rng) := m (g_rng g) in
  do! amend (set_rng rng);;
  lift r.

(** [sqlodin.PendingWrite(db._session, db._sequence, body)] *)
Definition conn_state (h : nat) : VM Conn :=
  let! c := cluster in
  match n_conns c !! h with Some conn => ret conn | None => throw (IndexError "no such connection") end.
Definition saved_of (h : nat) (body : pystr) : VM PendingWrite :=
  let! conn := conn_state h in
  lift (PendingWrite_new (PStr (c_session conn)) (PInt (c_sequence conn)) (PStr body) [] (PInt 0) (PInt 0)).

(** [try: db.execute(body) except UnknownOutcome: save it; raise] *)
Definition execute_or_save (root : pystr) (h : nat) (body : pystr) : VM unit :=
  try_except (let! _ := db_execute h body [] in ret tt)
    (fun e => match e with
              | UnknownOutcome pending =>
                  Some (let! text := lift (to_json pending) in
                        do! base (io_res (h_write_text (join_path root (py "pending.json")) text));;
                        throw e)
              | _ => None
              end).

Definition transfer (cfg : pyval) (root : pystr) (db : nat) (before : Q) : K unit :=
  let! g := reported in
  let body := transfer_text (g_writes g + 1) in
  let! saved := n (saved_of db body) in
  do! n (execute_or_save root db body);;
  let! t := n now in
  do! amend (wrote (t - before)%Q);;
  let! g := reported in
  if g_writes g mod 257 =? 0 then
    do! n (with_connect cfg (g_writes g / 257 mod 3) (Some saved) false 45 (fun h =>
             let! _ := call h resolve_pending in ret tt));;
    amend more_duplicates
  else ret tt.

Definition read_balance (db : nat) (before : Q) : K unit :=
  let! node := drawn (randrange draw_fuel 0 3) in
  let! g := reported in
  let! found := n (db_scalar db ONE_BALANCE [PInt (node + 1)]) in
  let! expected := lift (list_index (g_balances g) node) in
  do! n (check_that (eq_int found expected));;
  let! t := n now in
  amend (read_one (t - before)%Q).

Definition operate (cfg : pyval) (root : pystr) : K unit :=
  let! g := reported in
  do! lift (guard (bool_decide (g_clients g = [])) (ZeroDivisionError "integer modulo by zero"));;
  let! db := lift (list_index (g_clients g) ((g_reads g + g_writes g) mod zlen (g_clients g))) in
  let! before := n now in
  let! draw := drawn random53 in
  if 2 * draw <? FLOAT_30 then transfer cfg root db before else read_balance db before.

(** A voter is killed, the others serve, and it must answer again. *)
Definition surviving_reads (cfg : pyval) (victim : Z) : VM unit :=
  with_connect cfg ((victim + 1) mod 3) None true 45 (fun h =>
    do! expect_scalar h SUM_BALANCES [] 3000000;;
    let! _ := db_execute h TOUCH [] in ret tt).
Definition faults_of (r : report) : list tv := match rget "faults" r with Some (Arr l) => l | _ => [] end.
Definition fault (cfg : pyval) (interval : Z) : K unit :=
  let! g := reported in
  let victim := zlen (faults_of (g_report g)) mod 3 in
  let! _ := n (control cfg victim ["stop"%string]) in
  do! n (try_finally (surviving_reads cfg victim) (let! _ := control cfg victim ["start"%string] in ret tt));;
  let! readiness := n (wait_ready cfg victim 60) in
  let! epoch := n (base (io h_time)) in
  do! amend (set_report (rappend "faults" (Obj (fields [("node", tint (victim + 1)); ("epoch", Num epoch);
        ("kind", tstr (py "SIGKILL, surviving-quorum read/write, reopen")); ("readiness", Obj readiness)]%string))));;
  amend (fun g => set_schedule (g_next_check g) (g_next_fault g + inject_Z interval)%Q g).

(** [verify(cfg, verified+1, writes, balances); verified = writes; progress(start)] *)
Definition verify_all (cfg : pyval) (root output : pystr) (start : Q) : K unit :=
  let! g := reported in
  do! n (native_verify cfg (g_verified g + 1) (g_writes g) (g_balances g));;
  do! amend all_verified;;
  progress cfg root output start.

(** One turn of the loop: [true] once the deadline has passed. *)
Definition soak_turn (cfg : pyval) (root output : pystr) (interval : Z) (start deadline : Q) : K bool :=
  let! t := n now in
  if Qle_bool deadline t then ret true
  else
    do! operate cfg root;;
    let! g := reported in
    let! t := n now in
    let! t' := (if Qle_bool (g_next_fault g) t then n now else ret deadline) in
    do! (if Qle_bool (g_next_fault g) t && negb (Qle_bool deadline t') then fault cfg interval else ret tt);;
    let! t := n now in
    let! g := reported in
    do! (if Qle_bool (g_next_check g) t then
           do! verify_all cfg root output start;;
           let! t := n now in
           amend (fun g => set_schedule (t + 60)%Q (g_next_fault g) g)
         else ret tt);;
    ret false.

Record SoakArgs := mkSoakArgs { nk_config : pystr; nk_seconds : Z; nk_interval : Z }.

Definition start_voters (cfg : pyval) : K unit :=
  for_do [0; 1; 2] (fun node =>
    let! _ := n (control cfg node ["start"; "create"]%string) in
    let! s := n (control cfg node ["status"%string]) in
    let! found := lift (vget "binary_sha256" s) in
    let! wanted := lift (vget "binary_sha256" cfg) in
    n (check_that (json_eq found wanted))).

(** The workload, from the schema to the last verification. *)
Definition workload (cfg : pyval) (args : SoakArgs) (root output : pystr) : K unit :=
  let! g := reported in
  let! first := lift (list_index (g_clients g) 0) in
  let! _ := n (db_execute first SETUP []) in
  let! start := n now in
  let deadline := (start + inject_Z (nk_seconds args))%Q in
  do! amend (set_schedule (start + 60)%Q (start + inject_Z (nk_interval args))%Q);;
  let! utc := n (base (io h_utc)) in
  let! epoch := n (base (io h_time)) in
  do! note [("status", tstr (py "running")); ("workload_started_utc", tstr utc);
            ("planned_end_utc", tstr (o_isoformat (epoch + inject_Z (nk_seconds args))%Q))]%string;;
  do! progress cfg root output start;;
  do! while_loop fuel (fun _ =>
        let! over := soak_turn cfg root output (nk_interval args) start deadline in
        ret (if (over : bool) then inr tt else inl tt)) tt;;
  verify_all cfg root output start.

(** Every voter is stopped, started, verified once more, stopped and audited. *)
Definition control_all (cfg : pyval) (verbs : list string) : VM unit :=
  for_do [0; 1; 2] (fun node => let! _ := control cfg node verbs in ret tt).
Definition audited_rows (table : string) (audit : pyval) : pyres pyval :=
  let? tables := vget "tables" audit in let? t := vget table tables in vget "rows" t.
Definition check_native_audits (audits : list pyval) (writes : Z) : pyres unit :=
  match audits with
  | [a; b; c] =>
      do? guard (negb (json_eq a b && json_eq b c)) (AssertionError "audits");;
      let? transfers := audited_rows "transfers" a in
      do? guard (negb (eq_int transfers writes)) (AssertionError "");;
      let? ledger := audited_rows "ledger" a in
      guard (negb (eq_int ledger (2 * writes))) (AssertionError "")
  | _ => Raise (IndexError "list index out of range")
  end.
Definition final_recovery (cfg : pyval) (output : pystr) : K unit :=
  do! note [("status"%string, tstr (py "final-recovery"))];;
  do! save_report output;;
  let! g := reported in
  do! for_do (g_clients g) (fun h => n (call h Client.close));;
  do! amend (set_clients []);;
  do! n (control_all cfg ["stop"%string]);;
  do! n (control_all cfg ["start"%string]);;
  do! n (native_verify cfg (Z.max 1 (g_writes g - 127)) (g_writes g) (g_balances g));;
  do! n (control_all cfg ["stop"%string]);;
  let! audits := n (for_each [0; 1; 2] (fun node acc => let! a := control cfg node ["audit"%string] in ret (acc ++ [a])) []) in
  do! lift (check_native_audits audits (g_writes g));;
  let! utc := n (base (io h_utc)) in
  note [("complete", tbool true); ("status", tstr (py "passed")); ("audits", Arr (J <$> audits)); ("finished_utc", tstr utc)]%string.

Definition soak_body (cfg : pyval) (args : SoakArgs) (root output : pystr) : K unit :=
  do! start_voters cfg;;
  let! ready := n (for_each [0; 1; 2] (fun node acc => let! r := wait_ready cfg node 60 in ret (acc ++ [Obj r])) []) in
  do! note [("initial_readiness"%string, Arr ready)];;
  let! clients := n (for_each (Z.of_nat <$> seq 0 12) (fun k acc => let! h := connect cfg (k mod 3) None false 45 in ret (acc ++ [h])) []) in
  do! amend (set_clients clients);;
  do! workload cfg args root output;;
  final_recovery cfg output.

(** [except BaseException: note the failure; raise] *)
Definition noting_failure (body : K unit) : K unit :=
  try_except body (fun e => Some (
    let! utc := n (base (io h_utc)) in
    do! note [("status", tstr (py "failed")); ("error", tstr (repr_exn e)); ("traceback", tstr (str_exn e)); ("finished_utc", tstr utc)]%string;;
    throw e)).

(** [try: control(...) except Exception as exc: cleanup.append(repr(exc))] *)
Definition is_exit (e : exn) : bool := match e with SystemExit _ => true | _ => false end.
Definition try_control (cfg : pyval) (verb : string) (node : Z) (cleanup : list tv) : K (list tv) :=
  try_except (let! _ := n (control cfg node [verb]) in ret cleanup)
    (fun e => if is_exit e then None else Some (ret (cleanup ++ [tstr (repr_exn e)]))).
Definition soak_cleanup (cfg : pyval) (output : pystr) : K unit :=
  let! g := reported in
  do! for_do (g_clients g) (fun h => n (call h Client.close));;
  let! cleanup := for_each [0; 1; 2] (try_control cfg "stop") [] in
  let! cleanup := for_each [1; 2] (try_control cfg "retire") cleanup in
  do! (if bool_decide (cleanup = []) then ret tt else note [("cleanup_errors"%string, Arr cleanup)]);;
  save_report output.

Definition first_report (cfg : pyval) (args : SoakArgs) : VM report :=
  let! utc := base (io h_utc) in
  let! hosts := lift (vget "hosts" cfg) in
  let! binary := lift (vget "binary_sha256" cfg) in
  let! sources := lift (vget "source_sha256" cfg) in
  ret (fields [("complete", tbool false); ("status", tstr (py "starting")); ("started_utc", tstr utc); ("hosts", J hosts);
    ("requested_workload_seconds", tint (nk_seconds args));
    ("scope", tstr (py "three Linux instances; native mTLS replication and SQL; closed-loop 70/30 reads/transfers"));
    ("binary_sha256", J binary);
    ("limits", Obj (fields [("rss_bytes", tint (512 * 1024 ^ 2)); ("data_bytes", tint (8 * 1024 ^ 3)); ("min_free_bytes", tint (10 * 1024 ^ 3))]%string));
    ("faults", Arr []); ("source_sha256", J sources)]%string).

Definition fresh_soaking (r : report) : Soaking :=
  mkSoaking r [] 0 0 0 0 opening [] [] (Random_new 20260923) 0 0.

Definition native_soak (args : SoakArgs) : K unit :=
  do! lift (guard (negb ((30 <=? nk_seconds args) && (nk_seconds args <=? 28800)) || (nk_interval args <? 15)) (SystemExit (py "Invalid bounds")));;
  let! cfg := n (base (read_json (nk_config args))) in
  let! root := lift (cfg_text "root" cfg) in
  let output := join_path root (py "soak.json") in
  let! exists_ := n (base (io (h_exists output))) in
  do! lift (guard exists_ (RuntimeError "Refusing to overwrite a prior run"));;
  let! initial := n (first_report cfg args) in
  do! amend (set_report (fun _ => initial));;
  try_finally (noting_failure (soak_body cfg args root output)) (soak_cleanup cfg output).

Definition native_soak_main (args : SoakArgs) : Hm (W := W) unit :=
  fun w => let '(r, s) := native_soak args (fresh_soaking [], (no_voters, w)) in (r, s.2.2).
End NativeSoak.

(** * What the native soak's report may claim *)

(** Some voter answered a query of a window that holds this transfer with as
    many rows as the window has identifiers. *)
Definition confirmed (W : Type) `{Probes W} (id : Z) : Prop :=
  exists start end_ rows, query_reply (W := W) (range_query start end_) [] rows /\
    zlen (_rows rows) = end_ - start + 1 /\ start <= id <= end_.

(** The balances after the first [writes] transfers. *)
Definition prescribed (writes : Z) : list Z := foldl (fun b number => settle_transfer number b) opening (seqZ 1 writes).

Lemma settle_transfer_move number b : settle_transfer number b = move number (number mod 17 + 1) b.
Proof.
  unfold settle_transfer, transfer_of, move. f_equal; [|f_equal; lia].
  rewrite Z.add_simpl_r. pose proof (Z.mod_pos_bound number 3 ltac:(lia)). lia.
Qed.

Lemma settled_sum l b : length b = 3%nat ->
  length (foldl (fun b number => settle_transfer number b) b l) = 3%nat /\ zsum (foldl (fun b number => settle_transfer number b) b l) = zsum b.
Proof.
  revert b. induction l as [|k l IH]; intros b Hb; cbn [foldl]; [done|]. rewrite settle_transfer_move.
  destruct (move_sum k (k mod 17 + 1) b Hb) as [Hl Hs]. destruct (IH _ Hl) as [H1 H2]. by rewrite H1, H2.
Qed.

Lemma prescribed_next writes : 0 <= writes -> prescribed (writes + 1) = settle_transfer (writes + 1) (prescribed writes).
Proof. intros Hw. unfold prescribed. rewrite seqZ_app, foldl_app by lia. cbn. by replace (1 + writes) with (writes + 1) by lia. Qed.

Section Sound.
Context {W : Type} `{Coordinator W} (fuel : nat).

(** ** A verification confirms its windows *)

Lemma window_confirmed h start end_ :
  returns (verify_window (W := W) h (start, end_)) (fun _ => forall id, start <= id <= end_ -> confirmed W id).
Proof.
  unfold verify_window. eapply returns_bind; [apply returns_call, returns_query|]. intros rows Hr.
  eapply returns_mono; [apply returns_check_that|]. cbv beta. intros ? He id Hid. exists start, end_, rows. split; [done|]. lia.
Qed.

Lemma verify_confirmed cfg first last balances :
  first <= last + 1 -> returns (native_verify (W := W) cfg first last balances) (fun _ => forall id, first <= id <= last -> confirmed W id).
Proof.
  intros Hfl. unfold native_verify. eapply returns_mono; [apply (returns_for_do (fun _ => forall id, first <= id <= last -> confirmed W id))|].
  - intros node _. unfold verify_voter. apply returns_then. intros h. apply returns_finally.
    do 2 (apply returns_then; intros ?). apply returns_then. intros _.
    eapply returns_mono; [apply (returns_for_do (fun w => forall id, w.1 <= id <= w.2 -> confirmed W id))|].
    + intros [x y] _. apply window_confirmed.
    + cbv beta. intros _ Hall id Hid. rewrite Forall_forall in Hall.
      assert (Hin : id ∈ seqZ first (last - first + 1)) by (apply elem_of_seqZ; lia).
      rewrite <-(ranges_cover 128 first last) in Hin by lia. apply list_elem_of_In, in_concat in Hin as (l & Hin & Hl). apply list_elem_of_In in Hin, Hl.
      apply list_elem_of_fmap in Hin as ([x y] & -> & Hin). apply elem_of_seqZ in Hl. apply (Hall _ Hin). cbn. lia.
  - cbv beta. intros _ Hall. inversion Hall. assumption.
Qed.

(** ** The variables of [main] *)

(** Every transfer up to [verified] has been confirmed, and the balances are
    those of the prescribed transfers. *)
Definition tracked (g : Soaking) : Prop :=
  0 <= g_verified g <= g_writes g /\ (forall id, 1 <= id <= g_verified g -> confirmed W id) /\ g_balances g = prescribed (g_writes g).
Definition open_soak (g : Soaking) : Prop := tracked g /\ rget "complete" (g_report g) <> Some (tbool true).

(** What notes of other keys and a new interval leave true. *)
Definition steady (I : Soaking -> Prop) : Prop :=
  (forall kvs g, forallb (fun '(k, _) => negb (pyeqb (py k) (py "complete"))) kvs = true -> I g -> I (set_report (rupdate kvs) g)) /\
  (forall g, I g -> I (clear_samples g)).

Lemma steady_open : steady open_soak.
Proof. split; [|done]. intros kvs g Hk [Ht Hc]. split; [exact Ht|]. cbn [g_report set_report]. by rewrite rget_rupdate_other. Qed.
Lemma steady_verified : steady (fun g => open_soak g /\ g_verified g = g_writes g).
Proof. split; [|done]. intros kvs g Hk [Ho Hv]. split; [by apply steady_open|exact Hv]. Qed.

Lemma preserves_note I kvs :
  steady I -> forallb (fun '(k, _) => negb (pyeqb (py k) (py "complete"))) kvs = true -> preserves I (note (W := W) kvs).
Proof. intros HI Hk. apply preserves_amend. intros g. by apply HI. Qed.

Lemma preserves_save I output : preserves I (save_report (W := W) output).
Proof. apply preserves_bind; [apply preserves_reported|intros g; apply preserves_host]. Qed.

Lemma preserves_drawn {A} (m : Rm A) : preserves open_soak (drawn (W := W) m).
Proof.
  unfold drawn. apply preserves_bind; [apply preserves_reported|]. intros g. destruct (m (g_rng g)) as [r rng].
  apply preserves_bind; [by apply preserves_amend|intros _; apply preserves_lift].
Qed.

Lemma preserves_progress I cfg root output start : steady I -> preserves I (progress (W := W) cfg root output start).
Proof.
  intros HI. unfold progress, n. cbv zeta. preserves_auto; first [by apply preserves_note|apply preserves_save|apply preserves_amend, HI].
Qed.

Lemma preserves_wrote q : preserves open_soak (amend (wrote q) : Sc (W := Voters * W) Soaking unit).
Proof.
  apply preserves_amend. intros g [(Hv & Hc & Hb) Ho]. split; [|exact Ho]. split; [cbn; lia|]. split; [exact Hc|]. cbn.
  rewrite prescribed_next by lia. by rewrite <-Hb.
Qed.

Lemma preserves_operate cfg root : preserves open_soak (operate (W := W) cfg root).
Proof.
  unfold operate, transfer, read_balance, n. preserves_auto; first [apply preserves_drawn|apply preserves_wrote|by apply preserves_amend].
Qed.

Lemma preserves_fault cfg interval : preserves open_soak (fault fuel cfg interval).
Proof.
  unfold fault, n. preserves_auto; [|by apply preserves_amend]. apply preserves_amend. intros g [Ht Hc]. split; [exact Ht|]. cbn [g_report set_report]. by rewrite rget_rappend_other.
Qed.

Lemma wp_verify_all cfg root output start (s : Soaking * (Voters * W)) :
  open_soak s.1 ->
  wp (verify_all cfg root output start)
     (fun r s' => open_soak s'.1 /\ (r = Ok tt -> g_verified s'.1 = g_writes s'.1)) s.
Proof.
  intros [(Hv & Hc & Hb) Ho]. unfold verify_all, n. apply wp_bind, wp_gets, wp_bind, wp_on_host.
  eapply wp_mono; [apply verify_confirmed; lia|]. cbv beta. intros [[]|e|] w Hr; [|by (split; [split|])..].
  specialize (Hr tt eq_refl). apply wp_bind, wp_amend. cbn [fst snd].
  assert (Hs : open_soak (all_verified s.1)).
  { split; [|exact Ho]. split; [cbn; lia|]. split; [|exact Hb]. cbn. intros id Hid.
    destruct (decide (id <= g_verified s.1)); [apply Hc; lia|apply Hr; lia]. }
  eapply wp_mono; [apply (preserves_progress (fun g => open_soak g /\ g_verified g = g_writes g)); [apply steady_verified|by split]|].
  cbv beta. intros r s' [H1 H2]. by split.
Qed.

Lemma preserves_verify_all cfg root output start : preserves open_soak (verify_all (W := W) cfg root output start).
Proof. intros s Hs. eapply wp_mono; [by apply wp_verify_all|]. by intros r s' [Ho _]. Qed.

Lemma preserves_turns cfg root output interval start deadline :
  preserves open_soak (while_loop fuel (fun _ => let! over := soak_turn fuel cfg root output interval start deadline in
                                             ret (if (over : bool) then inr tt else inl tt)) tt).
Proof.
  unfold soak_turn, n. preserves_auto; first [apply preserves_operate|apply preserves_fault|apply preserves_verify_all|by apply preserves_amend].
Qed.

(** ** The verdict *)

(** Three equal audits that count the transfers acknowledged, every one of them
    confirmed, and balances that keep the opening total. *)
Definition sound_soak (g : Soaking) : Prop :=
  (exists a b c x y,
     rget "audits" (g_report g) = Some (Arr [J a; J b; J c]) /\ json_eq a b = true /\ json_eq b c = true /\
     audited_rows "transfers" a = Ok x /\ eq_int x (g_writes g) = true /\
     audited_rows "ledger" a = Ok y /\ eq_int y (2 * g_writes g) = true) /\
  (forall id, 1 <= id <= g_writes g -> confirmed W id) /\
  g_balances g = prescribed (g_writes g) /\ zsum (g_balances g) = 3000000.
Definition settled_soak (r : res exn unit) (g : Soaking) : Prop :=
  (rget "complete" (g_report g) = Some (tbool true) -> sound_soak g) /\
  (r = Ok tt -> rget "complete" (g_report g) = Some (tbool true)).

Lemma settled_open r g : open_soak g -> r <> Ok tt -> settled_soak r g.
Proof. intros [_ Ho] Hr. by split. Qed.

Lemma check_audits_Ok audits writes :
  check_native_audits audits writes = Ok tt ->
  exists a b c x y, audits = [a; b; c] /\ json_eq a b = true /\ json_eq b c = true /\
    audited_rows "transfers" a = Ok x /\ eq_int x writes = true /\ audited_rows "ledger" a = Ok y /\ eq_int y (2 * writes) = true.
Proof.
  unfold check_native_audits. destruct audits as [|a [|b [|c [|]]]]; try done.
  intros (u & He%guard_Ok & Hr)%res_bind_Ok. apply res_bind_Ok in Hr as (x & Hx & Hr). apply res_bind_Ok in Hr as (u2 & Hxe%guard_Ok & Hr).
  apply res_bind_Ok in Hr as (y & Hy & Hye%guard_Ok). unbool. by exists a, b, c, x, y.
Qed.

Lemma wp_n {A} (m : V A) (Q : res exn A -> Soaking * (Voters * W) -> Prop) s : (forall r w, Q r (s.1, w)) -> wp (n m) Q s.
Proof. apply wp_host_step. Qed.

Definition ready_soak (g : Soaking) : Prop := open_soak g /\ g_verified g = g_writes g.

Lemma final_recovery_spec cfg output (s : Soaking * (Voters * W)) :
  ready_soak s.1 -> wp (final_recovery cfg output) (fun r s' => settled_soak r s'.1) s.
Proof.
  intros Hs. unfold final_recovery.
  assert (Hbad : forall r g, ready_soak g -> r <> Ok tt -> settled_soak r g) by (intros r g [Ho _]; by apply settled_open).
  apply wp_bind. eapply wp_mono; [apply (preserves_note ready_soak); [apply steady_verified|done|exact Hs]|]. intros [[]|e|] s1 H1; [|by apply Hbad..].
  apply wp_bind. eapply wp_mono; [apply (preserves_save ready_soak); exact H1|]. intros [[]|e|] s2 H2; [|by apply Hbad..].
  apply wp_bind, wp_gets. apply wp_bind.
  eapply wp_mono; [apply (preserves_for_do (fun g => g = s2.1)); [intros h; apply preserves_host|done]|].
  intros [[]|e|] [g3 w3] H3; cbn [fst] in H3; subst g3; [|by apply Hbad..].
  apply wp_bind, wp_amend. cbn [fst snd]. set (g := set_clients [] s2.1). assert (Hg : ready_soak g) by exact H2.
  do 4 (apply wp_bind, wp_n; intros [[]|?|] ?; [|by apply (Hbad _ g)..]; cbn [fst]).
  apply wp_bind, wp_n. intros [audits|?|] ?; [|by apply (Hbad _ g)..]; cbn [fst].
  apply wp_bind, wp_lift. change (g_writes s2.1) with (g_writes g).
  destruct (check_native_audits audits (g_writes g)) as [[]|?|] eqn:Hc; [|by apply (Hbad _ g)..].
  apply wp_bind, wp_n. intros [utc|?|] ?; [|by apply (Hbad _ g)..]. cbn [fst].
  apply wp_amend. cbn [fst snd]. destruct Hg as [[(Hv & Hconf & Hb) _] Hall].
  split; [|intros _; by apply (rget_rupdate_at "complete" _ [])]. intros _. apply check_audits_Ok in Hc as (a & b & c & x & y & -> & Hc).
  split; [|split; [|split]].
  - exists a, b, c, x, y. split; [|exact Hc].
    by apply (rget_rupdate_at "audits" _ [("complete", tbool true); ("status", tstr (py "passed"))]%string).
  - intros id Hid. apply Hconf. rewrite Hall. exact Hid.
  - exact Hb.
  - change (zsum (g_balances g) = 3000000). rewrite Hb. unfold prescribed. by destruct (settled_sum (seqZ 1 (g_writes g)) opening eq_refl) as [_ ->].
Qed.

(** The cleanup notes at most its own errors. *)
Lemma preserves_cleanup I cfg output :
  (forall l g, I g -> I (set_report (rupdate [("cleanup_errors"%string, l)]) g)) -> preserves I (soak_cleanup (W := W) cfg output).
Proof.
  intros HI. unfold soak_cleanup, try_control, n. preserves_auto; try apply preserves_save; try (apply preserves_amend, HI).
  all: apply preserves_except; [preserves_auto|intros e k]; destruct (is_exit e); [done|]; intros [= <-]; apply preserves_ret.
Qed.

Lemma settled_note r g kvs :
  forallb (fun '(k, _) => negb (pyeqb (py k) (py "complete"))) kvs = true ->
  forallb (fun '(k, _) => negb (pyeqb (py k) (py "audits"))) kvs = true ->
  settled_soak r g -> settled_soak r (set_report (rupdate kvs) g).
Proof.
  intros Hk1 Hk2 [H1 H2]. unfold settled_soak, sound_soak in *. cbn [g_report set_report g_writes g_balances]. by rewrite !rget_rupdate_other.
Qed.

Lemma soak_body_spec cfg args root output (s : Soaking * (Voters * W)) :
  open_soak s.1 -> wp (soak_body fuel cfg args root output) (fun r s' => settled_soak r s'.1) s.
Proof.
  intros Hs. unfold soak_body.
  assert (Hk : forall A (m : Sc (W := Voters * W) Soaking A) (f : A -> Sc Soaking unit) (s : Soaking * (Voters * W)),
    preserves open_soak m -> open_soak s.1 -> (forall a (s' : Soaking * (Voters * W)), open_soak s'.1 -> wp (f a) (fun r s2 => settled_soak r s2.1) s') ->
    wp (bind m f) (fun r s2 => settled_soak r s2.1) s).
  { intros A m f s0 Hm H0 Hf. apply wp_bind. eapply wp_mono; [by apply Hm|]. intros [a|e|] s' H'; [by apply Hf|by apply settled_open..]. }
  apply Hk; [unfold start_voters, n; preserves_auto|exact Hs|intros _ s1 H1].
  apply Hk; [apply preserves_host|exact H1|intros r s2 H2].
  apply Hk; [apply preserves_note; [apply steady_open|done]|exact H2|intros _ s3 H3].
  apply Hk; [apply preserves_host|exact H3|intros clients s4 H4].
  apply Hk; [by apply preserves_amend|exact H4|intros _ s5 H5].
  apply wp_bind. unfold workload.
  assert (Hk' : forall A (m : Sc (W := Voters * W) Soaking A) (f : A -> Sc Soaking unit) (s : Soaking * (Voters * W)),
    preserves open_soak m -> open_soak s.1 ->
    (forall a (s' : Soaking * (Voters * W)), open_soak s'.1 -> wp (f a) (fun r s2 => open_soak s2.1 /\ (r = Ok tt -> ready_soak s2.1)) s') ->
    wp (bind m f) (fun r s2 => open_soak s2.1 /\ (r = Ok tt -> ready_soak s2.1)) s).
  { intros A m f s0 Hm H0 Hf. apply wp_bind. eapply wp_mono; [by apply Hm|]. intros [a|e|] s' H'; [by apply Hf|by split..]. }
  eapply (wp_mono _ (fun r s2 => open_soak s2.1 /\ (r = Ok tt -> ready_soak s2.1))).
  - apply Hk'; [apply preserves_reported|exact H5|intros g s6 H6].
    apply Hk'; [apply preserves_lift|exact H6|intros first s7 H7].
    do 2 (apply Hk'; [apply preserves_host|eassumption|intros ? ? ?]). cbv zeta.
    apply Hk'; [by apply preserves_amend|eassumption|intros _ s10 Q10].
    do 2 (apply Hk'; [apply preserves_host|eassumption|intros ? ? ?]).
    apply Hk'; [apply preserves_note; [apply steady_open|done]|eassumption|intros _ s11 Q11].
    apply Hk'; [apply preserves_progress, steady_open|exact Q11|intros _ s12 Q12].
    apply Hk'; [apply preserves_turns|exact Q12|intros _ s13 Q13].
    eapply wp_mono; [by apply wp_verify_all|]. intros r14 s14 [Ho Hv]. split; [exact Ho|]. intros ->. split; [exact Ho|by apply Hv].
  - intros [[]|e|] s6 [Ho Hr]; [apply final_recovery_spec; by apply Hr|by apply settled_open..].
Qed.
End Sound.

(** The report starts out incomplete. *)
Lemma returns_first_report {W} `{Coordinator W} cfg args :
  returns (first_report (W := W) cfg args) (fun r => rget "complete" r <> Some (tbool true)).
Proof. unfold first_report. do 4 (apply returns_then; intros ?). by apply returns_ret. Qed.

(** C35: the native soak never claims more than it checked.  However it ends, its
    report says complete only if it holds three equal offline audits that count
    exactly the transfers acknowledged and two ledger rows for each; every one
    of those transfers lies in a window that a voter answered with one row per
    identifier; and the balances compared with the voters' are those of the
    prescribed transfers, their sum the 3000000 paid in.  And a soak that
    returns does say complete. *)
Theorem native_soak_sound {W} `{Coordinator W} fuel args (s : Voters * W) :
  wp (native_soak fuel args)
     (fun r s' => (rget "complete" (g_report s'.1) = Some (tbool true) -> sound_soak s'.1) /\
                  (r = Ok tt -> rget "complete" (g_report s'.1) = Some (tbool true)))
     (fresh_soaking [], s).
Proof.
  assert (Hfresh : open_soak (fresh_soaking [])) by (split; [split_and!; [done|done|intros id Hid; cbn in Hid; lia|done]|done]).
  unfold native_soak.
  assert (Hk : forall A (m : Sc (W := Voters * W) Soaking A) (f : A -> Sc Soaking unit) (s : Soaking * (Voters * W)),
    preserves (fun g => g = fresh_soaking []) m -> s.1 = fresh_soaking [] ->
    (forall a (s' : Soaking * (Voters * W)), s'.1 = fresh_soaking [] -> wp (f a) (fun r s2 => settled_soak r s2.1) s') ->
    wp (bind m f) (fun r s2 => settled_soak r s2.1) s).
  { intros A m f s0 Hm H0 Hf. apply wp_bind. eapply wp_mono; [by apply Hm|]. intros [a|e|] s' H'; [by apply Hf|rewrite H'; by apply settled_open..]. }
  apply Hk; [apply preserves_lift|done|intros _ s1 H1].
  apply Hk; [apply preserves_host|done|intros cfg s2 H2].
  apply Hk; [apply preserves_lift|done|intros root s3 H3]. cbv zeta.
  apply Hk; [apply preserves_host|done|intros there s4 H4].
  apply Hk; [apply preserves_lift|done|intros _ s5 H5].
  apply wp_bind, wp_on_host. eapply wp_mono; [apply returns_first_report|]. intros [initial|e|] w6 Hi; [|rewrite H5; by apply settled_open..].
  apply wp_bind, wp_amend. cbn [fst snd]. rewrite H5. apply wp_try_finally. unfold noting_failure. apply wp_try_except.
  eapply wp_mono; [apply soak_body_spec; split; [apply Hfresh|by apply Hi]|]. cbv beta.
  assert (Hclean : forall r output s, settled_soak r s.1 -> wp (soak_cleanup cfg output) (fun _ s' => settled_soak r s'.1) s).
  { intros r output s0 Hr. apply (preserves_cleanup (settled_soak r)); [|exact Hr]. intros l g. by apply settled_note. }
  intros [[]|e|] s7 H7; [| |exact H7].
  - eapply wp_mono; [by apply (Hclean (Ok tt))|]. intros [?|?|] s8 H8; [exact H8|by destruct H8..].
  - assert (Hbad : forall (r : res exn unit) g, settled_soak (Raise e) g -> r <> Ok tt -> settled_soak r g) by (intros r g [Hx _] Hr; by split).
    apply wp_bind, wp_n. intros [utc|e2|] w8; [|eapply wp_mono; [by apply (Hclean (Raise e))|]; intros [?|?|] s8 H8; by apply Hbad|by apply Hbad].
    apply wp_bind, wp_amend. cbn [fst snd]. apply wp_throw.
    eapply wp_mono; [apply (Hclean (Raise e)); by apply settled_note|]. intros [?|?|] s9 H9; by apply Hbad.
Qed.
