(* ===== verification/Deploy.v ===== *)
(** * Deployments over ssh
    (tools/launch_native_soak.py, compare_three_hosts.py)

    The native soak is deployed to three hosts: certificates, a controller's key
    of its own that may run nothing but the supervisor (NativeWorker), and the
    coordinator (NativeSoak) started on the first host.  Binaries are compared
    on three hosts provisioned as in Hosts, with the workload on a fourth. *)

From Stdlib Require Import QArith.
From S2P Require Import Prelude PyStr PyFloat Objects Json JsonProofs Bytes Vector Text Parameters Results Quote Net Client Transport Dict Host Random Script Service ServiceChecks Evidence Snapshots Recovery Returns Resource Capacity Lab LabTheorems Hosts Benchmark Durability NativeWorker NativeSoak.
#[local] Open Scope Z_scope.

(** Text with double quotes, written with single ones. *)
Definition dq (s : string) : pystr := (fun c => if c =? 39 then 34 else c) <$> py s.

(** ** launch_native_soak.py *)

Definition hosts : list pystr := py <$> ["insan@10.175.52.19"; "insan@10.175.52.20"; "insan@10.175.52.21"]%string.
(** [host.split('@')[1]] *)
Definition host_address (host : pystr) : pyres pystr := list_index (split_char 64 host) 1.
Definition soak_member (i : nat) (host : pystr) : pyres pyval :=
  let? address := host_address host in
  Ok (PDict (mkdict [("id", PInt (Z.of_nat i + 1)); ("address", PStr (address ++ py ":27701")); ("identity", PStr (fstr [L "node"; D (Z.of_nat i + 1); L ".sqlodin.test"]))]%string)).
Definition soak_members : pyres (list pyval) := try_map (fun x => soak_member x.1 x.2) (imap (fun i h => (i, h)) hosts).

(** The line that lets the controller's key run the supervisor, and nothing
    else, from the first host until the deadline. *)
Definition forced_command (remote : pystr) : pystr := py "python3 " ++ remote ++ py "/native_soak_worker.py".
Definition key_line (expiry remote public : pystr) : pystr :=
  dq "from='10.175.52.19',expiry-time='" ++ expiry ++ dq "',restrict,command='" ++ forced_command remote ++ dq "' " ++ public.
Definition append_before : pystr :=
  line (py "from pathlib import Path") ++ line (dq "p=Path.home()/'.ssh/authorized_keys'") ++ line (py "p.parent.mkdir(mode=0o700,exist_ok=True)") ++ dq "with p.open('a') as f: f.write('\n'+".
Definition append_after : pystr := line (dq "+'\n')") ++ line (py "p.chmod(0o600)").
Definition provision_command (remote : pystr) : pystr :=
  py "mkdir -p " ++ shell_quote (path_parent remote) ++ py " && mkdir -m 700 " ++ shell_quote remote ++ py " && mkdir -m 700 " ++ shell_quote (join_path remote (py "data")).
Definition controller_command (remote : pystr) (seconds : Z) : list pystr :=
  [py "python3"; remote ++ py "/run_native_soak.py"; remote ++ py "/run.json"; py "--seconds"; dec seconds; py "--fault-interval"; dec (if seconds <? 100 then 20 else 3600)].

Class Deploying (W : Type) := {
  dp_hosts :: Hosts W;
  dp_expiry : Q -> pystr  (** [strftime('%Y%m%d%H%M%SZ')] of a time in UTC *)
}.

Section Launch.
Context {W : Type} `{Deploying W} (ROOT : pystr).
Definition tool (name : string) : pystr := join_path ROOT (py "tools/" ++ py name).
Definition run (argv : list pystr) : Hm (W := W) unit := let! _ := run_checked argv [] None in ret tt.
Definition append_script (key : pystr) : pystr := append_before ++ str_ key ++ append_after.
Definition start_before : pystr := line (py "import subprocess,pathlib") ++ py "r=pathlib.Path(".
Definition start_between : pystr := line (py ")") ++ line (dq "f=(r/'controller.log').open('ab')") ++ py "p=subprocess.Popen(".
Definition start_after : pystr := line (py ",stdin=subprocess.DEVNULL,stdout=f,stderr=f,start_new_session=True)") ++ line (dq "(r/'controller.pid').write_text(str(p.pid))") ++ py "print(p.pid)".
Definition controller_script (remote : pystr) (seconds : Z) : pystr :=
  start_before ++ str_ remote ++ start_between ++ repr_list hs_printable (controller_command remote seconds) ++ start_after.

Definition soak_config (remote binary : pystr) (members : list pyval) (sources : list (pystr * pystr)) : pyval :=
  PDict (mkdict [("hosts", PList (PStr <$> hosts)); ("root", PStr remote); ("members", PList members); ("binary_sha256", PStr binary); ("ssh_key", PStr (remote ++ py "/controller-key"));
    ("known_hosts", PStr (remote ++ py "/known_hosts")); ("source_sha256", PDict ((fun x : pystr * pystr => (x.1, PStr x.2)) <$> sources))]%string).
Definition node_config (remote : pystr) (members : list pyval) (i : nat) : pyres pyval :=
  let? member := list_index members (Z.of_nat i) in
  let? address := vget "address" member in
  let node := Z.of_nat i + 1 in
  Ok (PDict (mkdict [("cluster", PStr (py "native-soak")); ("node", PInt node); ("listen", address); ("members", PList members); ("clients", PList [PStr (py "node-2.test.sqlodin")]);
    ("data", PStr (remote ++ py "/data")); ("certificate", PStr (fstr [T remote; L "/node"; D node; L ".pem"])); ("key", PStr (fstr [T remote; L "/node"; D node; L ".key"])); ("ca", PStr (remote ++ py "/ca.pem"))]%string)).

(** One host: its files, its host key, and on the other two the controller's access. *)
Definition host_key (host : pystr) : Hm (W := W) pystr :=
  let! text := check_output (SSH ++ [host; py "cat /etc/ssh/ssh_host_ed25519_key.pub"]) [] None in
  let parts := words text in
  let! address := lift (host_address host) in
  let! kind := lift (list_index parts 0) in
  let! key := lift (list_index parts 1) in
  ret (address ++ 32 :: kind ++ 32 :: key).
Definition grant_access (deadline : Q) (remote public host : pystr) : Hm (W := W) unit :=
  run (SSH ++ [host; python_command (append_script (key_line (dp_expiry deadline) remote public))]).
Definition deploy_host (local remote binary public : pystr) (deadline : Q) (members : list pyval) (i : nat) (host : pystr) : Hm (W := W) pystr :=
  let here name := join_path local name in
  let node ext := here (fstr [L "node"; D (Z.of_nat i + 1); L ext]) in
  let! config := lift (node_config remote members i) in
  let! text := lift (dumps spaced config) in
  do! io_res (h_write_text (here (py "node.json")) text);;
  do! run (SSH ++ [host; provision_command remote]);;
  do! run [py "rsync"; py "-az"; here (py "node.json"); here (py "supervisor.json"); here (py "ca.pem"); node ".pem"%string; node ".key"%string; tool "native_soak_worker.py"; host ++ 58 :: remote ++ py "/"];;
  do! run [py "rsync"; py "-az"; binary; host ++ 58 :: remote ++ py "/sqlodin"];;
  let! known := host_key host in
  do! (if Nat.eqb i 0 then ret tt else grant_access deadline remote public host);;
  ret known.
Definition first_host (k : pystr -> Hm (W := W) unit) : Hm (W := W) unit := let! host := lift (list_index hosts 0) in k host.
Definition launch_soak (seconds : Z) (label : pystr) : Hm (W := W) unit :=
  let! time := io hs_stamp in
  let stamp := time ++ 45 :: label in
  let local := join_path (join_path ROOT (py "build/native-soak-deploy")) stamp in
  do! io_res (h_mkdir local);;
  let remote := py "/home/insan/projects/sqlodin/native-soak/" ++ stamp in
  do! generate (join_path ROOT (py "build/native/openssl")) local;;
  let key := join_path local (py "controller-key") in
  do! run [py "ssh-keygen"; py "-q"; py "-t"; py "ed25519"; py "-N"; []; py "-C"; py "sqlodin-" ++ stamp; py "-f"; key];;
  let! public := io_res (h_read_text (with_suffix key (py ".pub"))) in
  let public := strip public in
  let! now := io h_time in
  let deadline := (now + inject_Z seconds + 1800)%Q in
  let! members := lift soak_members in
  let binary := join_path ROOT (py "build/linux-orm-sqlodin") in
  let! digest := file_sha256 binary in
  let! sources := for_each [tool "run_native_soak.py"; tool "native_soak_worker.py"] (fun p acc => let! d := file_sha256 p in ret (dset (relative_to ROOT p) d acc)) [] in
  do! io_res (h_write_json (join_path local (py "run.json")) (J (soak_config remote digest members sources)));;
  do! io_res (h_write_json (join_path local (py "supervisor.json")) (Obj (fields [("deadline", Num deadline); ("authorized_key", tstr public)]%string)));;
  let! known := for_each (imap (fun i h => (i, h)) hosts) (fun x acc => let! k := deploy_host local remote binary public deadline members x.1 x.2 in ret (acc ++ [k])) [] in
  do! io_res (h_write_text (join_path local (py "known_hosts")) (line (join [10] known)));;
  do! first_host (fun host => run ([py "rsync"; py "-az"] ++ (join_path local <$> (py <$> ["run.json"; "known_hosts"]%string)) ++ [key] ++ (join_path local <$> (py <$> ["client.pem"; "client.key"]%string))
                                   ++ [tool "run_native_soak.py"; host ++ 58 :: remote ++ py "/"]));;
  do! first_host (fun host => run [py "rsync"; py "-az"; join_path ROOT (py "languages/python/src/sqlodin"); host ++ 58 :: remote ++ py "/python/"]);;
  do! first_host (fun host => run (SSH ++ [host; python_command (controller_script remote seconds)]));;
  do! io_res (h_write_json (join_path local (py "deployment.json"))
        (Obj (fields [("remote_root", tstr remote); ("seconds", tint seconds); ("deadline", Num deadline); ("hosts", Arr (tstr <$> hosts))]%string)));;
  print_line remote.
End Launch.

(** ** compare_three_hosts.py *)

(** The program the client host runs. *)
Definition WORKER_LINES : list string :=
  [
   "import concurrent.futures, json, statistics, sys, threading, time";
   "from pathlib import Path";
   "root = Path(sys.argv[1]); sys.path.insert(0, sys.argv[2]); clients = int(sys.argv[3])";
   "import sqlodin";
   "cfg = json.loads((root / 'members.json').read_text())";
   "tls = sqlodin.TLS(root / 'ca.pem', root / 'client.pem', root / 'client.key')";
   "def connect(node):";
   "    m = cfg[node - 1]";
   "    return sqlodin.connect([sqlodin.Endpoint(m['address'], m['identity'])],";
   "                           cluster='network-qualification', tls=tls, timeout=60)";
   "out = {}";
   "with connect(1) as db:";
   "    db.execute('CREATE TABLE account(id INTEGER PRIMARY KEY, balance INTEGER, payload BLOB)')";
   "    for first in range(0, 1024, 128):";
   "        rows = ','.join(f'({i},0,zeroblob(256))' for i in range(first, first + 128))";
   "        db.execute('INSERT INTO account VALUES ' + rows)";
   "    for kind in ('write', 'read'):";
   "        ms = []";
   "        for k in range(40):";
   "            started = time.monotonic()";
   "            if kind == 'write':";
   "                db.execute(f'UPDATE account SET balance=balance+1 WHERE id={k}')";
   "            else:";
   "                db.query(f'SELECT balance FROM account WHERE id={k}')";
   "            ms.append(1000 * (time.monotonic() - started))";
   "        out[kind + '_ms_median'] = statistics.median(ms)";
   "expected = 40";
   "expected_rows = [int(i < 40) for i in range(1024)]";
   "def burst(clients, per, read_percent):";
   "    global expected";
   "    conns = [connect(i % 3 + 1) for i in range(clients)]";
   "    for db in conns:";
   "        db.session_epoch(); db.query('SELECT 1')";
   "    gate = threading.Barrier(clients)";
   "    writes = [0] * clients";
   "    completed = [0] * clients";
   "    planned_writes = sum((i * 7 + k * 13) % 100 >= read_percent";
   "                         for i in range(clients) for k in range(per))";
   "    def work(i):";
   "        db = conns[i]; gate.wait()";
   "        for k in range(per):";
   "            if (i * 7 + k * 13) % 100 < read_percent:";
   "                db.query(f'SELECT balance FROM account WHERE id={(i * per + k) % 1024}')";
   "            else:";
   "                db.execute(f'UPDATE account SET balance=balance+1 WHERE id={(i * per + k) % 1024}')";
   "                writes[i] += 1";
   "            completed[i] += 1";
   "    started = time.monotonic()";
   "    try:";
   "        with concurrent.futures.ThreadPoolExecutor(max_workers=clients) as pool:";
   "            futures = [pool.submit(work, i) for i in range(clients)]";
   "            for future in futures:";
   "                future.result()  # Propagate every worker failure; never emit a partial pass.";
   "        elapsed = time.monotonic() - started";
   "        assert sum(completed) == clients * per";
   "        assert sum(writes) == planned_writes";
   "    finally:";
   "        for db in conns: db.close()";
   "    expected += planned_writes";
   "    for i in range(clients):";
   "        for k in range(per):";
   "            if (i * 7 + k * 13) % 100 >= read_percent:";
   "                expected_rows[(i * per + k) % 1024] += 1";
   "    return dict(per_second=sum(completed) / elapsed, completed=sum(completed),";
   "                writes=sum(writes), expected_writes=planned_writes, seconds=elapsed)";
   "out['clients'] = clients";
   "out['write_workload'] = burst(clients, 25, 0)";
   "out['mixed_workload'] = burst(clients, 30, 70)";
   "out[f'writes_{clients}_per_s'] = out['write_workload']['per_second']";
   "out[f'mixed70_{clients}_per_s'] = out['mixed_workload']['per_second']";
   "out['expected_balance'] = expected";
   "for node in (1, 2, 3):";
   "    with connect(node) as db:";
   "        assert db.query('SELECT sum(balance) FROM account').scalar() == expected";
   "        rows = db.query('SELECT id,balance,length(payload) FROM account ORDER BY id')";
   "        assert [tuple(row[i] for i in range(3)) for row in rows] == [";
   "            (i, balance, 256) for i, balance in enumerate(expected_rows)]";
   "out['verified'] = True";
   "print('RESULT ' + json.dumps(out))"
  ]%string.
Definition WORKER : pystr := WORKER_LINES ≫= (fun l => line (dq l)).

(** What the worker counts: in a burst of [clients] connections doing [per]
    operations each, which are reads and which row each one touches. *)
Definition ROWS : nat := 1024.
Definition is_read (read_percent : Z) (op : nat * nat) : bool := (Z.of_nat op.1 * 7 + Z.of_nat op.2 * 13) mod 100 <? read_percent.
Definition row_of (per : nat) (op : nat * nat) : nat := (op.1 * per + op.2) mod ROWS.
Definition burst_operations (clients per : nat) : list (nat * nat) := i ← seq 0 clients; (fun k => (i, k)) <$> seq 0 per.
Definition credited (rows : list Z) (row : nat) : list Z := alter (fun b => b + 1) row rows.
(** [UPDATE account SET balance=balance+1 WHERE id=...], or a read *)
Definition performed (read_percent : Z) (per : nat) (rows : list Z) (op : nat * nat) : list Z := if is_read read_percent op then rows else credited rows (row_of per op).
Definition planned_writes (clients per : nat) (read_percent : Z) : Z := zlen (filter (fun op => is_read read_percent op = false) (burst_operations clients per)).
(** [expected_rows] after a burst *)
Definition expected_rows (clients per : nat) (read_percent : Z) (rows : list Z) : list Z := foldl (performed read_percent per) rows (burst_operations clients per).
(** The rows after the forty writes that are timed one by one. *)
Definition timed_rows : list Z := (fun i => if (i <? 40)%nat then 1 else 0) <$> seq 0 ROWS.
Definition worker_rows (clients : nat) : list Z := expected_rows clients 30 70 (expected_rows clients 25 0 timed_rows).
Definition worker_expected (clients : nat) : Z := 40 + planned_writes clients 25 0 + planned_writes clients 30 70.

Record CompareArgs := mkCompareArgs {
  cm_hosts : list pystr; cm_client : pystr; cm_root : pystr; cm_python : pystr; cm_binaries : list (pystr * pystr); cm_repeats : Z; cm_clients : Z; cm_openssl : pystr; cm_output : pystr
}.

Class Comparing (W : Type) := {
  cp_hosts :: Hosts W;
  cp_stamp : W -> pystr * W  (** [strftime('%Y%m%dT%H%M%S%fZ')] of the time *)
}.

Section Compare.
Context {W : Type} `{Comparing W} (fuel : nat) (ROOT : pystr).
Abbreviation VM := (V (W := W)).
Abbreviation K := (Sc (W := Voters * W) (Bench report)).

(** The one line of results, and what it says. *)
Definition result_of (result : Finished) : pyres pyval :=
  match filter (fun l => is_prefix (py "RESULT ") l = true) (splitlines (stdout result)) with
  | [l] => if returncode result =? 0 then loads (drop 7 l) else Raise (AssertionError "the worker's log")
  | _ => Raise (AssertionError "the worker's log")
  end.
Definition worker_command (args : CompareArgs) (remote : pystr) : pystr := fstr [L "python3 "; T remote; L "/worker.py "; T remote; L " "; T (cm_python args); L " "; D (cm_clients args)].
Definition run_workload (args : CompareArgs) (work stamp : pystr) : VM pyval :=
  let remote := cm_root args ++ 47 :: stamp in
  let! c := cluster in
  let! members := lift (dumps spaced (PList (member_value <$> n_members c))) in
  do! base (io_res (h_write_text (join_path work (py "members.json")) members));;
  do! base (io_res (h_write_text (join_path work (py "worker.py")) WORKER));;
  let! _ := base (run_checked (SSH ++ [cm_client args; py "mkdir -m 700 -p " ++ shell_quote remote]) [] (Some 20%Q)) in
  let files := join_path work <$> (py <$> ["members.json"; "worker.py"; "ca.pem"; "client.pem"; "client.key"]%string) in
  let! _ := base (run_checked ([py "rsync"; py "-az"] ++ files ++ [cm_client args ++ 58 :: remote ++ py "/"]) [] (Some 30%Q)) in
  let! result := base (io_res (h_run (SSH ++ [cm_client args; worker_command args remote]) [] (Some 240%Q))) in
  lift (result_of result).
Definition voters_root (stamp : pystr) : pystr := join_path (py "/home/insan/projects/sqlodin/network-service") stamp.
Definition sample_in (args : CompareArgs) (binary stamp work : pystr) : VM pyval :=
  let! binary := base (gets (h_resolve binary)) in
  let! c := base (RemoteCluster_new (cm_hosts args) (voters_root stamp) work binary (cm_openssl args)) in
  do! with_cluster (fun _ => c);;
  try_finally
    (do! for_do all_voters (fun node => remote_start fuel (cm_hosts args) (voters_root stamp) node true);;
     do! for_do all_voters (ready_one fuel);;
     run_workload args work stamp)
    (close_with (remote_control fuel (cm_hosts args) (voters_root stamp))).
Definition sample (args : CompareArgs) (binary stamp : pystr) : VM pyval :=
  let! work := base (io_res (h_mkdtemp (py "sqlodin-three-host-") [])) in
  try_finally (sample_in args binary stamp work) (base (io_res (h_remove work))).

(** [dict(label=label, repeat=repeat, stamp=stamp, **result)] *)
Definition labelled (label : pystr) (repeat : nat) (stamp : pystr) (result : pyval) : pyres report :=
  match result with
  | PDict d =>
      if existsb (fun k => bool_decide (is_Some (dict_get (py k) d))) ["label"; "repeat"; "stamp"]%string then Raise (TypeError "got multiple values for keyword argument")
      else Ok (fields [("label", tstr label); ("repeat", tint (Z.of_nat repeat)); ("stamp", tstr stamp)]%string ++ ((fun x : pystr * pyval => (x.1, J x.2)) <$> d))
  | _ => Raise (TypeError "argument after ** must be a mapping")
  end.
Definition compare_step (args : CompareArgs) (repeat : nat) (x : pystr * pystr) : K unit :=
  let! stamp := on_host (base (io cp_stamp)) in
  let! result := on_host (sample args x.2 stamp) in
  let! entry := lift (labelled x.1 repeat stamp result) in
  do! amend (add_bench entry);;
  let! text := lift (dumps spaced result) in
  on_host (base (print_line (fstr [T x.1; L " "; D (Z.of_nat repeat); L " "; T text]))).
Definition compare_all (args : CompareArgs) : K unit := for_do (seq 0 (Z.to_nat (cm_repeats args))) (fun repeat => for_do (cm_binaries args) (compare_step args repeat)).
Definition compare_body (args : CompareArgs) : K unit := do! compare_all args;; amend (on_bench [("complete"%string, tbool true)]).
Definition compare_noted (args : CompareArgs) : K unit := recording (fun e => on_bench [("error"%string, tstr (repr_exn e))]) (compare_body args).
Definition compare_run (args : CompareArgs) : K unit :=
  try_finally (compare_noted args)
    (do! on_host (base (io_res (h_mkdir (path_parent (cm_output args)))));;
     let! b := reported in
     on_host (base (io_res (h_write_json (cm_output args) (bench_data b))))).
Definition compare_hosts (args : CompareArgs) : Hm (W := W) unit :=
  let! there := io (h_exists (cm_output args)) in
  do! (if (there : bool) then parser_error "Retain earlier evidence; choose a new output file" else ret tt);;
  do! (if cm_repeats args <? 1 then parser_error "Use a positive repetition count" else ret tt);;
  do! (if negb ((3 <=? cm_clients args) && (cm_clients args <=? 72)) then parser_error "Use 3..72 clients; each voter admits at most 24" else ret tt);;
  let! binaries := for_each (cm_binaries args) (fun x acc => let! digest := file_sha256 x.2 in ret (dset x.1 digest acc)) [] in
  let! harness := file_sha256 (join_path ROOT (py "tools/compare_three_hosts.py")) in
  let initial := fields [("complete", tbool false); ("hosts", Arr (tstr <$> cm_hosts args)); ("client", tstr (cm_client args)); ("samples", Arr []);
    ("scope", tstr (py "three voters on separate hosts; one client host; closed-loop; not a capacity test")); ("clients", tint (cm_clients args));
    ("binaries", manifest_report binaries); ("harness_sha256", tstr harness)]%string in
  fun w => let '(r, s) := compare_run args (mkBench initial [], (no_voters, w)) in (r, s.2.2).
End Compare.

(** * What the hosts are told *)

Lemma py_code_points s : forallb (fun c => (0 <=? c) && (c <? 1114112)) (py s) = true -> Forall code_point (py s).
Proof.
  intros Hs. apply Forall_forall. intros c Hc. rewrite forallb_forall in Hs. specialize (Hs c ltac:(by apply list_elem_of_In)). unfold code_point. lia.
Qed.
Lemma dec_code_points n : Forall code_point (dec n).
Proof.
  assert (Hd : forall m, 0 <= m -> Forall code_point (dec_nonneg m)).
  { intros m Hm. destruct (dec_nonneg_spec m Hm) as [Hd _]. eapply Forall_impl; [exact Hd|]. unfold is_dec, code_point. lia. }
  unfold dec. destruct (Z.ltb_spec n 0); [constructor; [unfold code_point; lia|]|]; apply Hd; lia.
Qed.

Section Told.
Context {W : Type} `{Deploying W}.

Definition provision_words (remote : pystr) : list token :=
  let mkdir := Word <$> (py <$> ["mkdir"; "-m"; "700"]%string) in
  (Word <$> (py <$> ["mkdir"; "-p"]%string)) ++ [Word (path_parent remote); AndIf] ++ mkdir ++ [Word remote; AndIf] ++ mkdir ++ [Word (join_path remote (py "data"))].
Lemma provision_command_words remote : sh_tokens (provision_command remote) = Some (provision_words remote).
Proof.
  assert (Hand : forall ws s t tokens, forallb safe_word ws = true -> sh_read Plain None t = Some tokens ->
    sh_read Plain None ((ws ≫= (fun w => w ++ [32])) ++ shell_quote s ++ 32 :: 38 :: 38 :: 32 :: t) = Some ((Word <$> ws) ++ [Word s; AndIf] ++ tokens)).
  { intros ws s t tokens Hw Ht. by rewrite sh_command, sh_quoted_word, sh_and, Ht by done. }
  set (mk := py <$> ["mkdir"; "-m"; "700"]%string).
  assert (Hlast : sh_read Plain None ((mk ≫= (fun w => w ++ [32])) ++ shell_quote (join_path remote (py "data")) ++ []) = Some ((Word <$> mk) ++ [Word (join_path remote (py "data"))])).
  { rewrite sh_command by done. by rewrite app_nil_r, sh_quoted_end. }
  pose proof (Hand mk remote _ _ eq_refl Hlast) as H2.
  pose proof (Hand (py <$> ["mkdir"; "-p"]%string) (path_parent remote) _ _ eq_refl H2) as H3. rewrite app_nil_r in H3. exact H3.
Qed.

(** launch_native_soak.py: whatever the label of the run, each host makes exactly
    the two directories of the run; the program that grants access appends exactly
    the controller's line; and the coordinator is started with exactly its
    directory and its argument vector. *)
Theorem launch_commands (remote key : pystr) (seconds : Z) :
  code_points remote -> code_points key ->
  sh_tokens (provision_command remote) = Some (provision_words remote) /\
  (forall r, read_str (str_ key ++ r) = Some (key, r)) /\
  sh_tokens (python_command (append_script key)) = Some [Word (py "python3"); Word (py "-c"); Word (append_before ++ str_ key ++ append_after)] /\
  sh_tokens (python_command (controller_script remote seconds)) =
    Some [Word (py "python3"); Word (py "-c"); Word (start_before ++ str_ remote ++ start_between ++ repr_list hs_printable (controller_command remote seconds) ++ start_after)] /\
  (forall r, read_str (str_ remote ++ r) = Some (remote, r) /\ read_list (repr_list hs_printable (controller_command remote seconds) ++ r) = Some (controller_command remote seconds, r)).
Proof.
  intros Hr Hk. split; [apply provision_command_words|]. split; [intros r; by apply read_repr|]. split; [apply python_command_words|]. split; [apply python_command_words|].
  intros r. split; [by apply read_repr|]. apply read_list_repr.
  unfold controller_command. rewrite !Forall_cons. split_and!; first [apply dec_code_points|apply py_code_points; reflexivity|apply Forall_app; split; [exact Hr|apply py_code_points; reflexivity]|apply Forall_nil; exact I].
Qed.
End Told.

(** ** The controller's access, granted and retired *)

Lemma lines_break cur old rest : lines_from cur (old ++ 10 :: rest) = lines_from cur (old ++ [10]) ++ lines_from [] rest.
Proof.
  remember (length old) as n eqn:Hn. revert cur old Hn. induction (lt_wf n) as [n _ IH]. intros cur old ->.
  destruct old as [|c old]; [done|]. cbn [app lines_from]. destruct (is_line_break c) eqn:Eb; [|apply (IH (length old)); [cbn; lia|done]].
  destruct (decide (c = 13)) as [->|Hc].
  - destruct old as [|d old]; [done|]. cbn [app]. destruct (decide (d = 10)) as [->|Hd].
    + cbn [app]. f_equal. apply (IH (length old)); [cbn; lia|done].
    + assert (Hm : forall (l : pystr), (match d :: l with 10 :: l' => cur :: lines_from [] l' | _ => cur :: lines_from [] (d :: l) end) = cur :: lines_from [] (d :: l)).
      { intros l. destruct d as [|p|p]; try done. do 4 (destruct p as [p|p|]; try done). }
      rewrite !Hm. cbn [app]. f_equal. apply (IH (length (d :: old)) ltac:(cbn; lia) [] (d :: old) eq_refl).
  - assert (Hm : forall l : pystr, (match c, l with 13, 10 :: l' => cur :: lines_from [] l' | _, _ => cur :: lines_from [] l end) = cur :: lines_from [] l).
    { intros l. destruct c as [|p|p]; try done. do 4 (destruct p as [p|p|]; try done). }
    rewrite !Hm. cbn [app]. f_equal. apply (IH (length old)); [cbn; lia|done].
Qed.
Lemma lines_whole cur l rest : Forall (fun c => is_line_break c = false) l -> lines_from cur (l ++ 10 :: rest) = (cur ++ l) :: lines_from [] rest.
Proof.
  intros Hl. revert cur. induction Hl as [|c l Hc Hl IH]; intros cur; [by rewrite app_nil_r|]. cbn [app lines_from]. rewrite Hc, IH. by rewrite <-app_assoc.
Qed.

(** What the appending program leaves of authorized_keys. *)
Definition granted (old key : pystr) : pystr := old ++ 10 :: key ++ [10].
Lemma ends_with_app a p : ends_with p (a ++ p) = true.
Proof. unfold ends_with. rewrite reverse_app. induction (reverse p) as [|c r IH]; [by destruct (reverse a)|]. cbn. by rewrite Z.eqb_refl. Qed.
(** Once the supervisor retires access, authorized_keys holds exactly the lines
    it would hold had access never been granted: the line the deployment appended
    is gone, and every other line is kept or dropped as it was. *)
Theorem grant_retired old expiry remote public :
  Forall (fun c => is_line_break c = false) (key_line expiry remote public) ->
  kept_keys public (splitlines (granted old (key_line expiry remote public))) = kept_keys public (splitlines (old ++ [10])).
Proof.
  intros Hl. unfold splitlines, granted. rewrite lines_break, (lines_whole [] (key_line expiry remote public)) by done. cbn [app lines_from]. unfold kept_keys. rewrite filter_app.
  rewrite filter_cons, filter_nil. case_decide as E; [|by rewrite app_nil_r]. exfalso. revert E. unfold key_line. rewrite !app_assoc. by rewrite (ends_with_app _ public).
Qed.
Example grant_retired_witness :
  kept_keys (py "KEY c") (splitlines (granted (py "ssh-ed25519 other") (key_line (py "20260101") (py "/run") (py "KEY c")))) = [py "ssh-ed25519 other"].
Proof.
  rewrite (grant_retired (py "ssh-ed25519 other") (py "20260101") (py "/run") (py "KEY c")); [vm_compute; reflexivity|].
  apply (bool_decide_unpack _). vm_compute. exact I.
Defined.

(** ** The coordinator reads what was deployed *)

(** The coordinator reaches each other voter's supervisor with the deployed key
    and the hosts' own keys. *)
Theorem deployed_control executable here remote binary members sources index words :
  1 <= index <= 2 ->
  exists host, list_index hosts index = Ok host /\
    control_command executable here (soak_config remote binary members sources) index words =
      Ok ((py <$> ["ssh"; "-o"; "BatchMode=yes"; "-o"; "IdentitiesOnly=yes"; "-o"; "StrictHostKeyChecking=yes"; "-o"; "ConnectTimeout=10"; "-o"]%string)
          ++ [py "UserKnownHostsFile=" ++ remote ++ py "/known_hosts"; py "-i"; remote ++ py "/controller-key"; host] ++ words).
Proof. intros Hi. assert (index = 1 \/ index = 2) as [-> | ->] by lia; eexists; split; reflexivity. Qed.
(** Its endpoints are the deployed voters, in order. *)
Theorem deployed_endpoints : exists members, soak_members = Ok members /\
  try_map endpoint_of members = Ok [mkEndpoint (py "10.175.52.19:27701") (py "node1.sqlodin.test"); mkEndpoint (py "10.175.52.20:27701") (py "node2.sqlodin.test");
                                    mkEndpoint (py "10.175.52.21:27701") (py "node3.sqlodin.test")].
Proof. eexists. split; vm_compute; reflexivity. Qed.

(** ** Every binary on every repetition *)

Section Compared.
Context {W : Type} `{Comparing W} (fuel : nat) (args : CompareArgs).
Abbreviation St := (Bench report * (Voters * W))%type.

(** An entry comes from the one result line of a worker that succeeded. *)
Definition compare_sampled (x : nat * (pystr * pystr)) (s : report) : Prop :=
  exists stamp finished result, returncode finished = 0 /\ result_of finished = Ok result /\ labelled x.2.1 x.1 stamp result = Ok s.
Lemma workload_result work stamp : returns (run_workload (W := W) args work stamp) (fun result => exists finished, returncode finished = 0 /\ result_of finished = Ok result).
Proof.
  unfold run_workload. cbv zeta. do 6 (apply returns_then; intros ?). apply returns_then. intros finished. apply returns_lift. intros result Hr. exists finished. split; [|done].
  revert Hr. unfold result_of. destruct (filter _ _) as [|l [|]]; try done. destruct (Z.eqb_spec (returncode finished) 0); done.
Qed.
Lemma sample_result binary stamp : returns (sample (W := W) fuel args binary stamp) (fun result => exists finished, returncode finished = 0 /\ result_of finished = Ok result).
Proof.
  unfold sample. apply returns_then. intros work. apply returns_finally. unfold sample_in. do 3 (apply returns_then; intros ?). apply returns_finally. do 2 (apply returns_then; intros ?). apply workload_result.
Qed.
Lemma compare_step_adds repeat x : adds compare_sampled (compare_step (W := W) fuel args repeat x) (fun _ p => p = [(repeat, x)]).
Proof.
  unfold compare_step. apply adds_then. intros stamp. eapply adds_bind; [apply adds_host, sample_result|]. intros result p [(finished & Hc & Hf) ->].
  eapply adds_bind; [by apply (adds_lift _ _ (fun e => labelled x.1 repeat stamp result = Ok e))|]. intros entry p [He ->].
  eapply adds_bind; [apply (adds_sample compare_sampled (repeat, x)); by exists stamp, finished, result|]. intros u p ->.
  eapply adds_bind; [apply (adds_lift _ _ (fun _ => True)); done|]. intros text p [_ ->]. eapply adds_mono; [apply adds_last|]. by intros ? ? ->.
Qed.
Definition compared_all (b : Bench report) : Prop := complete_with compare_sampled (fun plan => plan ≡ₚ plan_of (cm_binaries args) 0 (Z.to_nat (cm_repeats args))) b.
Definition comparison_honest (r : res exn unit) (b : Bench report) : Prop :=
  (rget "complete" (be_report b) = Some (tbool true) -> compared_all b) /\ (r = Ok tt -> rget "complete" (be_report b) = Some (tbool true)).
Lemma noted_honest (s : St) : unfinished s.1 -> be_samples s.1 = [] -> wp (compare_noted fuel args) (fun r s' => comparison_honest r s'.1) s.
Proof.
  intros Hu H0. unfold compare_noted. apply wp_recording. unfold compare_body. apply wp_bind.
  assert (Hopen : forall e (s' : St), unfinished s'.1 -> comparison_honest (Raise e) (on_bench [("error"%string, tstr (repr_exn e))] s'.1)).
  { intros e s' Hs. split; [|done]. cbn [on_bench be_report]. rewrite rget_rupdate_other by done. done. }
  eapply wp_mono; [apply (adds_loop compare_sampled (cm_binaries args)); [intros k; eapply adds_mono; [apply adds_each; intros x; apply compare_step_adds|by intros ? ? ->]|exact Hu]|].
  intros [[]|e|] s1 [H1 H2]; [|by apply Hopen|by split]. destruct H2 as (plan & Hp & new & Hn & Hf). rewrite H0 in Hn. cbn [app] in Hn.
  apply wp_amend. cbn [fst]. split; [|intros _; apply rget_rset]. intros _. exists plan. split; [done|]. cbn [on_bench be_samples]. by rewrite Hn.
Qed.
(** compare_three_hosts.py reports itself complete only with a sample of every
    binary in every repetition, each from a worker that verified its balances and
    printed exactly one result, and succeeds only with such a report written. *)
Theorem comparison_complete (s : St) :
  unfinished s.1 -> be_samples s.1 = [] ->
  wp (compare_run fuel args) (fun r s' => (rget "complete" (be_report s'.1) = Some (tbool true) -> compared_all s'.1) /\
    (r = Ok tt -> rget "complete" (be_report s'.1) = Some (tbool true) /\ exists w w' : W, h_write_json (cm_output args) (bench_data s'.1) w = (Ok tt, w'))) s.
Proof.
  intros Hu H0. unfold compare_run. apply wp_try_finally. eapply wp_mono; [by apply noted_honest|]. intros r [b [c w]] [H1 H2]. cbn [fst] in H1, H2.
  set (wr := do! _;; _). assert (Hw : wp wr (fun x s' => s'.1 = b /\ (x = Ok tt -> exists w1 w2 : W, h_write_json (cm_output args) (bench_data b) w1 = (Ok tt, w2))) (b, (c, w))).
  { apply wp_bind, wp_host_step. intros [u|e|] [c2 w2]; [|done..]. apply wp_bind, wp_gets. cbn [fst]. apply wp_on_host. cbn [fst snd].
    apply wp_intro. intros x [c3 w3] E. split; [done|]. intros ->. exists w2, w3. revert E. unfold base, io_res. cbn [fst snd]. destruct (h_write_json _ _ w2) as [y w4]. by intros [= -> _ ->]. }
  destruct r as [[]|e|]; [| |by split].
  - eapply wp_mono; [apply Hw|]. intros [[]|e|] [b' s'] [Hb Hx]; cbn [fst] in *; subst b'; (split; [exact H1|]); [|done..]. intros _. split; [by apply H2|by apply Hx].
  - eapply wp_mono; [apply Hw|]. intros [[]|e'|] [b' s'] [Hb Hx]; cbn [fst] in *; subst b'; by split.
Qed.
End Compared.

(** ** The worker's accounts *)

Lemma credited_swap rows a b : credited (credited rows a) b = credited (credited rows b) a.
Proof.
  unfold credited. revert a b. induction rows as [|x rows IH]; intros [|a] [|b]; cbn; try done. f_equal. apply IH.
Qed.
Lemma performed_swap pct per rows a b : performed pct per (performed pct per rows a) b = performed pct per (performed pct per rows b) a.
Proof. unfold performed. destruct (is_read pct a), (is_read pct b); try done. apply credited_swap. Qed.
Lemma performed_permuted pct per ops ops' rows : ops ≡ₚ ops' -> foldl (performed pct per) rows ops = foldl (performed pct per) rows ops'.
Proof.
  intros Hp. revert rows. induction Hp as [|x l l' _ IH|x y l|l l' l'' _ IH1 _ IH2]; intros rows; cbn [foldl]; [done|apply IH|by rewrite performed_swap|by rewrite IH1, IH2].
Qed.
Definition total (rows : list Z) : Z := foldr Z.add 0 rows.
Lemma total_credited rows row : (row < length rows)%nat -> total (credited rows row) = total rows + 1.
Proof.
  revert row. unfold credited, total. induction rows as [|x rows IH]; intros [|row] Hr; cbn in *; [lia..|rewrite IH by lia; lia].
Qed.
Lemma performed_length pct per rows ops : length (foldl (performed pct per) rows ops) = length rows.
Proof. revert rows. induction ops as [|op ops IH]; intros rows; cbn [foldl]; [done|]. rewrite IH. unfold performed, credited. destruct (is_read pct op); [done|apply length_alter]. Qed.
Lemma total_performed pct per ops rows : length rows = ROWS ->
  total (foldl (performed pct per) rows ops) = total rows + zlen (filter (fun op => is_read pct op = false) ops).
Proof.
  revert rows. induction ops as [|op ops IH]; intros rows Hl; cbn [foldl]; [unfold zlen; cbn; lia|].
  rewrite filter_cons. unfold performed at 2. destruct (is_read pct op) eqn:E; case_decide; try done; [by apply IH|].
  rewrite IH by (unfold credited; by rewrite length_alter). rewrite total_credited; [unfold zlen; cbn [length]; lia|]. rewrite Hl. unfold row_of. apply Nat.mod_upper_bound. done.
Qed.

(** However the operations of the clients are interleaved in the two bursts, the
    balances are those the worker expects row by row, and they sum to the number
    of writes it planned: its two final assertions agree. *)
Theorem worker_accounts clients ops ops' :
  ops ≡ₚ burst_operations clients 25 -> ops' ≡ₚ burst_operations clients 30 ->
  let balances := foldl (performed 70 30) (foldl (performed 0 25) timed_rows ops) ops' in
  balances = worker_rows clients /\ total balances = worker_expected clients.
Proof.
  intros Ho Ho'. cbv zeta. rewrite (performed_permuted 0 25 _ _ _ Ho), (performed_permuted 70 30 _ _ _ Ho'). split; [done|].
  assert (Ht : length timed_rows = ROWS) by (unfold timed_rows; by rewrite length_fmap, length_seq).
  rewrite !total_performed by (by rewrite ?performed_length). unfold worker_expected, planned_writes. assert (Hs : total timed_rows = 40) by (vm_compute; reflexivity). lia.
Qed.
