(* ===== verification/SupervisorTheorems.v ===== *)
(** * What the host supervisor guarantees

    The offline audit accepts exactly the databases the workload prescribes, and
    the voter never outlives its supervisor. *)

From Stdlib Require Import QArith.
From S2P Require Import Prelude PyStr PyFloat Objects Json Bytes Text Net Transport Dict Worker Host ProcessCluster.
From S2P Require Import Workload Supervisor ClusterTheorems Soak SoakTheorems.
From S2P Require Import Workload Supervisor ClusterTheorems Soak SoakTheorems.
From S2P Require Import Workload Supervisor ClusterTheorems Soak SoakTheorems.
From S2P Require Import Workload Supervisor ClusterTheorems Soak SoakTheorems.
#[local] Open Scope Z_scope.

(** ** audit *)

(** What SQLite returns for INTEGER and TEXT columns. *)
Definition sql_cell (v : pyval) : bool := match v with PNone | PInt _ | PStr _ => true | _ => false end.
Definition sql_rows (rows : list (list pyval)) : Prop := Forall (fun row => forallb sql_cell row = true) rows.

(** The row of transfer [i]. *)
Definition transfer_row (i : Z) : list pyval :=
  [PInt i; PInt (i mod 3 + 1); PInt ((i mod 3 + 1) mod 3 + 1); PInt (i mod 17 + 1); PStr payload256].
Definition account_rows (i : Z) (balances : list Z) : list (list pyval) :=
  imap (fun k b => [PInt (i + Z.of_nat k); PInt b]) balances.

Lemma eq_int_cell v n : sql_cell v = true -> eq_int v n = true <-> v = PInt n.
Proof.
  destruct v; cbn; try done; intros _; split; intros Hv; try done; [by apply Z.eqb_eq in Hv as ->|].
  injection Hv as ->. apply Z.eqb_refl.
Qed.
Lemma eq_str_cell v s : sql_cell v = true -> eq_str v s = true <-> v = PStr s.
Proof.
  destruct v; cbn; try done; intros _; split; intros Hv; try done; [by apply pyeqb_eq in Hv as ->|].
  injection Hv as ->. apply pyeqb_refl.
Qed.

Lemma audit_row_exact i row balances b :
  forallb sql_cell row = true ->
  audit_row i row balances = Ok b <-> row = transfer_row i /\ b = move i (i mod 17 + 1) balances.
Proof.
  intros Hc. assert (Hgo : audit_row i (transfer_row i) balances = Ok (move i (i mod 17 + 1) balances)).
  { unfold audit_row, transfer_row, move. cbn [eq_int eq_str]. rewrite !Z.eqb_refl, pyeqb_refl. cbn [negb orb vint res_bind].
    by replace (i mod 3 + 1 - 1) with (i mod 3) by lia; replace ((i mod 3 + 1) mod 3 + 1 - 1) with ((i mod 3 + 1) mod 3) by lia. }
  split.
  - intros Hr.
    assert (Heq : row = transfer_row i).
    { unfold audit_row in Hr. destruct row as [|v1 [|v2 [|v3 [|v4 [|v5 [|]]]]]]; try discriminate Hr. cbn in Hc.
      repeat (apply andb_true_iff in Hc as [? Hc]).
      destruct (_ || _) eqn:Hbad; [discriminate Hr|]. unbool.
      repeat match goal with
      | Hx : eq_int ?v ?n = true, Hv : sql_cell ?v = true |- _ => apply (eq_int_cell v n Hv) in Hx as ->; clear Hv
      | Hx : eq_str ?v ?n = true, Hv : sql_cell ?v = true |- _ => apply (eq_str_cell v n Hv) in Hx as ->; clear Hv
      end. done. }
    split; [done|]. subst row. rewrite Hgo in Hr. by injection Hr.
  - intros [-> ->]. exact Hgo.
Qed.

Lemma audit_rows_exact k rows balances b :
  sql_rows rows ->
  audit_rows (Z.of_nat k + 1) rows balances = Ok b <->
  rows = (fun j => transfer_row (Z.of_nat j + 1)) <$> seq k (length rows) /\
  b = foldl (fun b '(i, v) => move i v b) balances ((fun j => let i := Z.of_nat j + 1 in (i, i mod 17 + 1)) <$> seq k (length rows)).
Proof.
  intros Hr. revert k balances. induction Hr as [|row rows Hrow Hr IH]; intros k balances; cbn [audit_rows].
  { cbn. split; [by intros [= ->]|by intros [_ ->]]. }
  rewrite res_bind_Ok. cbn [length seq fmap list_fmap foldl]. split.
  - intros (b1 & H1 & H2). apply audit_row_exact in H1 as [-> ->]; [|done].
    replace (Z.of_nat k + 1 + 1) with (Z.of_nat (S k) + 1) in H2 by lia. apply IH in H2 as [H2 ->]. split; [f_equal; exact H2|done].
  - intros [[= Hx Hy] Hb]. exists (move (Z.of_nat k + 1) ((Z.of_nat k + 1) mod 17 + 1) balances).
    split; [by apply audit_row_exact|]. replace (Z.of_nat k + 1 + 1) with (Z.of_nat (S k) + 1) by lia. apply IH. done.
Qed.

Lemma same_accounts_exact i actual balances :
  sql_rows actual -> same_accounts i actual balances = true <-> actual = account_rows i balances.
Proof.
  intros Ha. unfold account_rows. revert i balances. induction Ha as [|row actual Hrow Ha IH]; intros i balances; cbn [same_accounts].
  { destruct balances; cbn; split; done. }
  destruct row as [|id [|b [|]]], balances as [|v balances]; cbn [imap]; try (split; [done|intros Hx; discriminate Hx || (injection Hx; discriminate)]).
  cbn in Hrow. unbool. rewrite !andb_true_iff, !eq_int_cell by done. rewrite IH. cbn. rewrite Z.add_0_r.
  replace (imap (λ (k : nat) (b : Z), [PInt (i + 1 + Z.of_nat k); PInt b]) balances)
    with (imap ((λ (k : nat) (b : Z), [PInt (i + Z.of_nat k); PInt b]) ∘ S) balances)
    by (apply imap_ext; intros j v' _; unfold compose; cbv beta; do 2 f_equal; lia).
  split; [by intros [[-> ->] ->]|by intros [= -> -> ->]].
Qed.

(** C24: the offline audit is exact: on rows as SQLite returns them it accepts the
    transfers exactly if they are the first [n] prescribed ones, in order, and
    the accounts exactly if they hold the balances those transfers lead to; these
    are the balances the workload tracks, of total 3,000,000. *)
Theorem audit_exact rows actual :
  sql_rows rows -> sql_rows actual ->
  (exists b, audit_rows 1 rows opening = Ok b /\ same_accounts 1 actual b = true) <->
  rows = (fun j => transfer_row (Z.of_nat j + 1)) <$> seq 0 (length rows) /\
  actual = account_rows 1 (balances_after (first_transfers (length rows))).
Proof.
  intros Hr Ha. split.
  - intros (b & Hb & Hs). apply (audit_rows_exact 0) in Hb as [Hb ->]; [|done]. split; [done|]. by apply same_accounts_exact.
  - intros [Hb Hs]. exists (balances_after (first_transfers (length rows))). split; [|by apply same_accounts_exact].
    apply (audit_rows_exact 0); done.
Qed.

Lemma audit_exact_witness :
  (exists b, audit_rows 1 [transfer_row 1] opening = Ok b /\ same_accounts 1 (account_rows 1 [1000000; 999998; 1000002]) b = true).
Proof. apply audit_exact; [by repeat constructor|by repeat constructor|]. split; [reflexivity|]. vm_compute. reflexivity. Defined.

(** ** supervise *)

(** Processes: polling observes, a killed or exited process can be waited for. *)
Class SupervisedLaws (W : Type) `{Supervised W} := {
  running : Z -> W -> bool;
  poll_observes pid w : running pid (s_poll pid w).2 = running pid w /\ ((s_poll pid w).1 = None -> running pid w = true) /\
                        (forall code, (s_poll pid w).1 = Some code -> running pid w = false);
  kill_stops pid w : running pid (s_kill pid w) = false;
  wait_stopped pid t w : running pid w = false -> exists code w', s_wait pid t w = (Ok code, w') /\ running pid w' = false
}.

(** The voter never outlives its supervisor: however the relay loop ends (a
    confirmed kill, a closed or malformed stream, a budget, a deadline), once
    [supervise]'s guarded block is left the voter is not running. *)
Theorem voter_reaped {W} `{SupervisedLaws W} fuel root config child (w : W) :
  wp (serve fuel root config child) (fun r w' => r = OutOfFuel \/ running child w' = false) w.
Proof.
  unfold serve. apply wp_try_finally, wp_intro. intros r w1 _.
  assert (Hreap : wp (reap child) (fun r' w' => r' = Ok tt /\ running child w' = false) w1).
  { unfold reap. apply wp_bind. unfold wp at 1, io. destruct (poll_observes child w1) as (Hp & Hn & Hs).
    destruct (s_poll child w1) as [code w2]. cbn [fst snd] in *.
    assert (Hend : forall w3, running child w3 = false ->
      wp (let! _ := io_res (s_wait child 15) in ret tt) (fun r' w' => r' = Ok tt /\ running child w' = false) w3).
    { intros w3 Hw3. apply wp_bind. destruct (wait_stopped child 15 w3 Hw3) as (c & w4 & Hw & Hr4).
      unfold wp at 1, io_res. rewrite Hw. by apply wp_ret. }
    destruct code as [c|]; apply wp_bind; [apply wp_ret, Hend|apply wp_modify, Hend, kill_stops]. rewrite Hp. by apply (Hs c). }
  destruct r as [u|e|]; [| |by left]; eapply wp_mono; try exact Hreap; intros r' w' [-> Hr]; by right.
Qed.

(** A silent supervisor over one voter, running while the state is not 0. *)
#[export] Instance silent : Pipes Z := {
  pipe_now w := (0%Q, w);
  writable _ w := (true, w);
  readable _ w := (false, w);
  os_write data w := (Ok (zlen data), w);
  os_read _ w := (Ok [], w)
}.

#[export] Instance toy_supervised : Supervised Z := {
  s_host := toy_host;
  s_up := silent;
  s_down := silent;
  s_send_up _ w := (Ok tt, w);
  s_send_down _ w := (Ok tt, w);
  s_spawn _ w := (Ok 7, 1);
  s_poll _ w := (if w =? 0 then Some (-9) else None, w);
  s_kill _ _ := 0;
  s_wait _ _ w := (Ok (-9), 0);
  s_free _ _ := 1000;
  s_sizes _ _ _ := [];
  s_clock_ticks := 100;
  s_shlex s := Ok (words s);
  s_query _ _ w := (Ok [], w);
  s_sqlite_version := [];
  s_uname _ := ([], []);
  s_affinity _ := [0]
}.

#[export] Instance toy_supervised_laws : SupervisedLaws Z.
Proof.
  refine {| running := fun _ w => negb (w =? 0) |}.
  - intros pid w. cbn. split; [done|]. destruct (w =? 0); cbn; split; done.
  - done.
  - intros pid t w _. by exists (-9), 0.
Defined.

Lemma voter_reaped_witness :
  (serve 5 (py "/run") (mkHostConfig 1 0 10 10) 7 1).1 = Raise (TimeoutError "Supervisor frame timeout") /\
  wp (serve 5 (py "/run") (mkHostConfig 1 0 10 10) 7) (fun r w' => r = OutOfFuel \/ running 7 w' = false) 1.
Proof. split; [vm_compute; reflexivity|]. apply voter_reaped. Defined.
